(* ===== verification/_CoqProject ===== *)
-Q . S2P
Prelude.v
Config.v
Store.v
FaxResult.v
FaxJob.v
Policy.v
Learning.v
PairState.v
Tracker.v
Regexp.v
Dialplan.v
Directory.v
Router.v
Notify.v
PortalModels.v
PortalNotify.v
PortalJobs.v
RateLimit.v
PortalAuth.v
PortalSessions.v
Secrets.v
TenantUsers.v
JobResult.v
GoTime.v
FaxSearch.v
FaxSearchFacts.v
Queue.v
Backend.v
Media.v
Outbound.v
NotifyDispatch.v
Sentry.v
Inbound.v
GatewayTemplates.v
Gateways.v
GatewayInvariant.v
WebAdmin.v
WebAdminFacts.v
PolicyAdmin.v
DialplanAdmin.v
SentryAdmin.v
GatewayAdmin.v
PortalUpstream.v
PortalAdmin.v
PortalLogic.v
PortalMirror.v
PortalAdminFacts.v
PortalDirect.v
PortalAdminSpec.v
PortalClient.v
PortalGuarantees.v
PortalDemo.v
PortalAgreement.v
PortalRevocation.v
PortalCredentials.v
PortalReconcile.v
PortalInbox.v
PortalSender.v
PortalConvert.v
PortalInboxFacts.v
PortalSend.v
PortalSendLogic.v
PortalSendFacts.v
Retention.v
GatewayMonitor.v
TempJanitor.v
