(* ===== verification/Prelude.v ===== *)
(** * gofaxserver: a verification library

    ** The program

    gofaxserver (src/gofaxserver, with its library src/gofaxlib) is a fax server
    on top of FreeSWITCH. A job enters from an inbound call
    ([freeswitch_inbound.go]) or from a document posted to the web API ([web.go]).
    The router ([router.go]) normalises the numbers with the dialplan
    ([dialplan.go]), finds tenants and endpoints in the directory ([tenants.go],
    [endpoints.go]), reports the job to the result store and
    queues it. The queue ([queue.go]) groups the endpoints by type and priority
    and runs one worker per type, which calls gateways or posts to webhooks with
    retries and back-off, tells the tracker ([faxtracker.go]) about every
    attempt and reports every result to the store ([faxjobresult.go]); a call to
    a gateway is placed and followed by [freeswitch_outbound.go]. When a job is
    over, the notifications ([notify.go]) go to the destinations of its number
    and tenant. Around a call, the policy engine ([faxpolicy.go]) decides T.38, ECM and V.17 from
    rules, from rules it learned from failures, and, when no rule decides, from
    the flip-flop state of the number pair; the result of a call accumulates
    from its events ([gofaxlib/faxresult.go]). The IP sentry ([ipsentry.go],
    [ipsentry_backend.go]) bans addresses that fail the gateway ACL, and is
    reconciled whenever the endpoints are loaded. Gateways are provisioned from
    templates ([gateway_provision.go]) and watched ([gateway_monitor.go]). A
    janitor ([tempclean.go]) sweeps temp files. src/portal is a separate web
    application in front of it: its users log in ([internal/auth]), its
    administrators manage organisations, numbers and users
    ([internal/api/handlers_admin.go]), and what concerns gofaxserver goes through
    a client ([internal/fsclient]) to the web API of the server; it composes the
    notify strings of its numbers, polls gofaxserver for the status of faxes and
    takes its status pushes. Its users read the faxes gofaxserver delivers to
    it ([handlers_inbound.go]) until retention ([internal/retention]) removes
    them, and send documents ([handlers_user.go]), after converting them
    ([internal/convert], [handlers_convert.go]) if they wish.

    ** Files

    - [Prelude]: results, machine integers, instants, strings, stable sorting,
      the hint database [gofax] and the tactics [go_cases] and [reflect_bools].
    - [Config] ([gofaxlib/config.go], [utils.go]): the configuration read by the
      rest, accessors with defaults, [time.ParseDuration] and [ParseDuration].
    - [Store]: what the program relies on of gorm and PostgreSQL, as the classes
      [Table] (operations, any of which may fail) and [TableLaws]; [ListTable]
      is an instance with scripted faults on which everything evaluates. The
      stateful components are written and proved against the classes.
    - [FaxResult], [FaxJob]: the result of a call and its events; jobs,
      endpoints and the classification of legs ([faxjob.go], [faxjobresult.go]).
    - [Policy], [Learning], [PairState] ([faxpolicy.go]): resolution; the
      escalation ladder, healing and pruning over table and cache; the
      flip-flop cache over its table.
    - [Tracker] ([faxtracker.go]): the tracker as a state machine over
      operations; [run_ops] is the state after a trace.
    - [Regexp], [Dialplan] ([dialplan.go], [server.go]): a backtracking matcher
      for the regular expressions the program itself writes, with
      [ReplaceAllString]; rules, seeding, loading, hot reload. Compiling a
      configured pattern is a parameter.
    - [Directory] ([tenants.go], [endpoints.go], [server.go]): the in-memory
      maps over three tables, their loaders, lookups, the ACL, dialstrings. DNS
      and [net.ParseIP] are parameters; a Go map is walked in an order the
      operation takes as an argument, or the theorem holds for all orders.
    - [Router] ([router.go]): [routeFax] and bridge detection.
    - [JobResult] ([faxjobresult.go]): the row of a leg, its insertion, and the
      life cycle of the submission row; [json.Marshal] is a parameter.
    - [GoTime], [FaxSearch], [FaxSearchFacts] ([web_faxresults.go]): parsing of
      instants and dates as [time.Parse] does; the search of fax results from
      its query string to the listing, as SQL over the rows, and a
      specification of each parameter that does not use the search's own
      predicates ([job_asked], [describes]).
    - [Queue] ([queue.go]): [processFax]. A worker is a program in the monad
      [M], which reads the outcome of each attempt from an [Oracle], writes a
      trace of events and may panic; [spec] is its Hoare logic, with panics
      allowed or not. The trace of a job is a merge of its workers' traces.
    - [Backend], [Sentry] ([ipsentry_backend.go], [ipsentry.go]): the firewall
      backends as a record of operations over commands; the sentry against it.
      [load_and_reconcile] is [loadEndpoints] with the reconciliation it ends in.
    - [Notify] ([notify.go], the notify strings): their grammar and tolerant
      parser, and the destinations a job resolves to.
    - [NotifyDispatch] ([notify.go], the rest): collapsed outcome, mail text,
      report rows, MIME message and SMTP dialogue, and [processNotifyDestinationsAsync]
      over the outcomes of the mail server and the HTTP client.
    - [PortalNotify], [PortalJobs] (src/portal: handlers_admin.go,
      handlers_notify.go, poller.go): the composition of notify strings; the
      poller's tick and the push handler on the job table.
    - [PortalModels], [RateLimit], [PortalAuth], [PortalSessions]
      (models.go, internal/auth, handlers_auth.go, handlers_totp.go): the
      portal's rows; the limiter of logins against one that forgets nothing;
      logins, one-time codes, sessions and their middleware in a state and
      answer monad; the theorems, over any sequence of requests ([step]).
    - [Secrets], [TenantUsers] ([gofaxlib/aes256.go], [tenants.go]): base64, CFB
      and Basic headers; service accounts over their table, and a list of
      accounts in the clear that they refine. The block cipher is a class.
    - [WebAdmin], [WebAdminFacts] ([web.go], [web_list.go], [tiff.go]): the
      handlers of tenants, numbers, endpoints, accounts and the intake of a
      document, calling [Directory], [Gateways] and [TenantUsers]. The body of a
      tenant may carry numbers, which gorm stores along with it.
    - [PolicyAdmin], [DialplanAdmin], [SentryAdmin], [GatewayAdmin]
      ([web_faxpolicy.go], [web_dialplan.go], [web_security.go],
      [web_gateways.go]): the handlers of rules, dialplan, bans, templates and
      gateways over the state of their components, and, for the names of
      gateways, [gateway_step]: any request of the gateway API with any fault,
      and the endpoint requests while the gateway table answers.
    - [PortalUpstream]: what the portal relies on of gofaxserver, as the classes
      [Upstream] and [UpstreamLaws]: a call may fail with or without having been
      carried out. [PortalClient] (client.go) instantiates them with the client's
      methods over the handlers of [WebAdmin], through the middleware and a
      network that may lose the request, the reply or its content
      ([client_keeps_contract]).
    - [PortalAdmin] (handlers_admin.go): each handler as a program of the monad
      [AM] over the portal's tables, transactions included, and [Upstream].
      [PortalLogic] is its program logic on the rows the tables hold ([View],
      [awp]); [PortalMirror] the predicate [mirror], that gofaxserver holds for
      each number the row the portal's tables call for; [PortalAdminFacts],
      [PortalAdminSpec] and [PortalGuarantees] what each request keeps of it, of
      the tables when it fails and of the sessions ([request], [serve],
      [served]).
    - [PortalDirect] (handlers_admin_direct.go): the administration's own
      routes to tenants, numbers and accounts that the portal does not manage.
      [hands_off] says that a direct request keeps off the portal's numbers.
    - [PortalDemo]: a concrete portal on the concrete server, on which witnesses
      and counterexamples evaluate.
    - [PortalAgreement], [PortalRevocation], [PortalCredentials],
      [PortalReconcile]: the theorems on the administration.
    - [PortalInbox], [PortalInboxFacts], [Retention] (handlers_inbound.go,
      internal/retention): delivery and storage of received faxes, the users'
      inbox behind the session middleware, and one retention sweep.
    - [PortalSender]: what the portal relies on when it sends ([Sender],
      [SenderLaws]), and the client's method over the server's middleware and
      intake ([client_sends_as_promised]). [PortalConvert] (internal/convert):
      what a conversion decides, over the engines it runs. [PortalSend]
      (handlers_convert.go, handlers_user.go): prepare, preview, discard, send
      and the users' jobs, in a monad over [AM]; [PortalSendLogic] is its logic
      ([swp]), [PortalSendFacts] the theorems.
    - [Media], [Outbound] ([freeswitch_outbound.go]): channel variables;
      [SendFax] and the event client as one interleaving with a stream of items.
    - [Inbound] ([freeswitch_inbound.go]): [handler], whose commands are a list
      and whose readings are the record [InWorld]; it calls Sentry, Directory,
      Router, Policy, Learning, PairState and Tracker as the code does.
    - [GatewayTemplates], [Gateways] ([gateway_provision.go]): parameters,
      escaping, masking, rendering; every gateway operation as a program of the
      monad [GM] (state and error) over tables, directory, files and FreeSWITCH.
      [GatewayInvariant] holds the weakest preconditions and the theorems.
    - [GatewayMonitor] ([gateway_monitor.go]): the tick; the refresh of the
      admission list is a snapshot step and a store step.
    - [TempJanitor] ([tempclean.go]): one sweep.

    An operation is a function from the state it touches, the clock reading and
    its arguments to the new state, named as in the source. A mutex makes an
    operation one step. The several clock readings of a handler are one instant,
    except in the queue, where each attempt has a start and an end, and in the
    retention sweep, which reads the clock again for each organisation.

    ** What is shown

    - Policy: a restrictive rule that nothing outranks always disables T.38;
      every attribute is decided by a most specific matching rule or by none;
      the ladder, healing and the flip-flop do what the comments say, except
      where [LearnFaxPolicyFailure_never_starts] and [healing_not_consecutive]
      show they do not.
    - Queue: a worker returns, with bounded pauses and attempts; it visits the
      priorities in order; HTTP workers stop at the first success, gateway
      workers do not ([gateway_worker_escalates]); a single worker obeys the
      tracker's discipline; the failure flag of the notify report is exact.
    - Sentry: thresholds and the ban ladder; no automatic ban of a protected
      address; the janitor, a restart and loading the endpoints leave exactly
      the bans they should; nftables bans heal.
    - Directory, Router, Dialplan: loading is exact, lookups follow their
      priority rules, the ACL admits exactly the named addresses, routing sends
      a job where it should, the built-in patterns compute NANP normalisation.
    - Tracker and JobResult: the active count, the reverse index, the stored
      rows, with the leaks and races the code has.
    - Outbound, Inbound: when a call uses T.38, and that FreeSWITCH and the job
      are told the same; what a call may end with, provided that every page
      report was counted; who is admitted, and what a refusal costs the caller
      at the sentry; that a far leg cannot end a call; that a finished call settles its pair and its job
      reaches the queue. [lost_page_report_panics], [sent_fax_recorded_as_retry],
      [caller_name_injects_variables], [local_intake_rearms_pair] show where the
      code goes wrong.
    - Notify, PortalNotify, NotifyDispatch: printing and parsing notify strings,
      also what the portal composes, for well-formedness stated on characters;
      each destination leaves its row, recorded as sent exactly when its server
      took it; the pushed outcome agrees with the failure flag.
    - PortalJobs: the verdict, the progress of the poller, and that a push never
      reopens a job (the poller can: [poll_regresses_pushed_job]).
    - Sessions: the limiter grants what an unforgetting one would; each single
      session was opened by a request of its owner that had the right password,
      and the code where one is demanded;
      administration opens none, and closes those of an account whose rights it
      withdraws, while the portal's tables answer ([undeleted_sessions_live_on]
      shows what a failed deletion leaves).
    - Accounts and web API: stored passwords refine passwords in the clear, with
      what is reported tied to what happened; the loaded directory stays in step
      with its tables, as long as no row is renumbered and no tenant's body
      brings numbers; no endpoint request separates a gateway from its endpoint,
      while the gateway table answers; which documents are taken in.
    - Rules, dialplan, bans and gateways over the web API: rules stay well
      formed through requests and learning alike, so none ever overrides the
      variable that ties a call to its job; what an answered request stored is
      what calls and numbers go through, and a dialplan rule is
      stored as its body asked; a ban
      holds as long as asked for. [last_rule_deleted_seeds_return],
      [used_template_deleted_on_error] show where the handlers go wrong.
    - Administration of the portal: from healthy portal tables that gofaxserver
      mirrors, through any sequence of requests whose direct ones keep off the
      portal's numbers, whichever calls to gofaxserver get lost, the two programs
      agree on every number, or a request was answered 502 and a
      resynchronisation repairs it ([portal_and_server_agree],
      [resync_repairs_failed_pushes]); a failed request leaves the portal's
      tables alone; issued credentials are valid on
      both sides; the reconciliation report is exact. The examples on
      [PortalDemo] show where this ends: [lost_deletion_sticks],
      [plus_number_stays], [rotated_but_not_stored], [pending_login_survives],
      [direct_requests_break_agreement], [unread_resync_repairs_nothing].
    - Received faxes: a document a user gets was delivered for a number
      assigned to them and is byte for byte what was delivered; repeated
      deliveries are stored once; a sweep removes exactly what has expired when
      its organisation's turn comes.
    - Sending: a send that is answered with a job comes from a live session and
      an active number of that user, and is one job in gofaxserver's queue under
      the organisation's account and one row among the user's; one that is
      declined leaves no row, and no job unless the answer is an internal error
      ([declined_sends_leave_nothing]); what is sent from a prepared document is
      what that user's own upload was converted to.
    - Search of results: a search lists exactly the jobs its parameters ask for,
      with all their legs; the filter on success and the summary of a job agree when a leg
      decides; [receipt_overrides_delivery] shows where they do not.
    - Gateways: the names of gateways and endpoints agree through every gateway
      request and every failure; a request for a new gateway stores all of it or,
      where files can be removed and the endpoint table is in order, nothing, but
      for the endpoint of an unloaded number ([rolled_back_endpoint_stays]), and
      may store it without loading it; an update reaches every endpoint of the
      gateway; the admission list survives a DNS outage, except through a reload.
    - FaxResult, FaxJob, TempJanitor: a result is successful exactly when an
      event said so; every job is one kind of leg; a sweep removes exactly the
      server's own old files.

    ** Bounds and fuel

    Integers are [Z] with [wrap64] where the code can overflow. The retry loop
    recurses on the attempts left, so it needs no fuel; [type_worker_returns]
    assumes a retry delay below 2{^62} ns, and [retry_delay_overflow_panics]
    shows what happens beyond. Durations come from [ParseDuration] and are
    multiples of 512 ns, so the jitter never divides a delay to zero. Fuel
    occurs in [time_ParseDuration], decimal printing and the regular-expression
    expansion only, each started with the length of its input (or its bit
    length), of which every round consumes at least one; decimal printing and
    the built-in dialplan are proved equal to fuel-free specifications.

    ** Not modelled

    In [web.go] the reload of all data and the listing of
    running faxes; the status page of [web_security.go]. In the portal the
    handlers that forward a request to gofaxserver and keep no state of their
    own (endpoints, gateways, dialplan and policies in
    [handlers_admin_direct.go], bans in [handlers_admin_security.go]), with the
    client's methods for them; the branding. In [internal/convert] the drawing of
    the cover and the placing of an image, which compute in floating point.
    Logging, audit rows, migrations and start-up: HTTP, database and process
    plumbing around the operations above. *)

From Stdlib Require Export ZArith Lia Bool Ascii.
From stdpp Require Export prelude gmap strings sorting.
From coqutil Require Export Datatypes.RecordSettersUsingExistingGetters.

#[global] Open Scope Z_scope.
#[global] Arguments RecordSettersUsingExistingGetters.const {E} newValue _ /.

(** ** Results: the [(value, error)] pairs of Go as a sum *)

Inductive res (A : Type) : Type :=
| Ok (a : A)
| Err (msg : string).
Arguments Ok {A} a.
Arguments Err {A} msg.

#[export] Instance res_ret : MRet res := fun A a => Ok a.
#[export] Instance res_bind : MBind res := fun A B f m =>
  match m with Ok a => f a | Err e => Err e end.

Definition is_ok {A} (r : res A) : bool :=
  match r with Ok _ => true | Err _ => false end.

Definition res_option {A} (r : res A) : option A :=
  match r with Ok a => Some a | Err _ => None end.

(** ** Machine integers: Go's [int]/[int64] and [uint]/[uint64] *)

Definition int64_min : Z := - 2 ^ 63.
Definition int64_max : Z := 2 ^ 63 - 1.

(** Two's complement wrap-around of an [int64] computation. *)
Definition wrap64 (z : Z) : Z := (z + 2 ^ 63) mod 2 ^ 64 - 2 ^ 63.

(** The conversion [uint(x)] of a signed integer. *)
Definition uint_of_int (z : Z) : Z := z mod 2 ^ 64.

(** The conversion [int(x)] of an unsigned integer. *)
Definition int_of_uint (z : Z) : Z := wrap64 z.

(** ** Time: nanoseconds since Go's zero [time.Time], so [IsZero] is [= 0] *)

Definition time_zero : Z := 0.
Definition is_zero_time (t : Z) : bool := t =? time_zero.

(** [t.Sub(u)] saturates at the extreme durations. *)
Definition time_sub (t u : Z) : Z :=
  Z.max int64_min (Z.min int64_max (t - u)).

Definition microsecond : Z := 1000.
Definition millisecond : Z := 1000 * microsecond.
Definition second : Z := 1000 * millisecond.
Definition minute : Z := 60 * second.
Definition hour : Z := 60 * minute.

(** ** Bytes and strings (the standard library functions the code calls) *)

Definition ascii_nat (c : ascii) : nat := nat_of_ascii c.

Definition is_digit (c : ascii) : bool :=
  Nat.leb 48 (ascii_nat c) && Nat.leb (ascii_nat c) 57.

Definition digit_val (c : ascii) : Z := Z.of_nat (ascii_nat c) - 48.

Definition lower_ascii (c : ascii) : ascii :=
  if Nat.leb 65 (ascii_nat c) && Nat.leb (ascii_nat c) 90
  then ascii_of_nat (ascii_nat c + 32) else c.

Definition upper_ascii (c : ascii) : ascii :=
  if Nat.leb 97 (ascii_nat c) && Nat.leb (ascii_nat c) 122
  then ascii_of_nat (ascii_nat c - 32) else c.

Fixpoint string_map (f : ascii -> ascii) (s : string) : string :=
  match s with
  | EmptyString => EmptyString
  | String c s' => String (f c) (string_map f s')
  end.

(** [strings.ToLower], [strings.ToUpper] on ASCII bytes. *)
Definition to_lower (s : string) : string := string_map lower_ascii s.
Definition to_upper (s : string) : string := string_map upper_ascii s.

(** [strings.EqualFold] against an ASCII constant without [k] and [s]: those
    are the only ASCII letters a non-ASCII rune folds to. *)
Definition equal_fold (a b : string) : bool := String.eqb (to_lower a) (to_lower b).

(** [strings.TrimSpace] on ASCII bytes. *)
Definition is_space (c : ascii) : bool :=
  (Nat.leb 9 (ascii_nat c) && Nat.leb (ascii_nat c) 13) || Nat.eqb (ascii_nat c) 32.

Fixpoint trim_left (s : string) : string :=
  match s with
  | EmptyString => EmptyString
  | String c s' => if is_space c then trim_left s' else s
  end.

Fixpoint trim_right (s : string) : string :=
  match s with
  | EmptyString => EmptyString
  | String c s' =>
      match trim_right s' with
      | EmptyString => if is_space c then EmptyString else String c EmptyString
      | t => String c t
      end
  end.

Definition trim_space (s : string) : string := trim_right (trim_left s).

(** [strings.HasPrefix(s, p)] and [strings.Contains(s, sub)]. *)
Definition has_prefix (s p : string) : bool := String.prefix p s.

Fixpoint str_contains (s sub : string) : bool :=
  has_prefix s sub ||
  match s with
  | EmptyString => false
  | String _ s' => str_contains s' sub
  end.

(** [strings.Cut(s, sep)] for a one-byte separator: what precedes the first
    separator, and what follows it when there is one. *)
Fixpoint str_cut (sep : ascii) (s : string) : string * option string :=
  match s with
  | EmptyString => (EmptyString, None)
  | String c s' =>
      if Ascii.eqb c sep then (EmptyString, Some s')
      else let '(a, b) := str_cut sep s' in (String c a, b)
  end.

(** [strings.Split(s, sep)] for a one-byte separator. *)
Fixpoint str_split (sep : ascii) (s : string) : list string :=
  match s with
  | EmptyString => [EmptyString]
  | String c s' =>
      if Ascii.eqb c sep then EmptyString :: str_split sep s'
      else match str_split sep s' with
           | w :: ws => String c w :: ws
           | [] => [String c EmptyString]
           end
  end.

(** [strings.FieldsFunc]: the non-empty runs of characters that are not [P]. *)
Fixpoint split_on (P : ascii -> bool) (s : string) : list string :=
  match s with
  | EmptyString => [EmptyString]
  | String c s' =>
      if P c then EmptyString :: split_on P s'
      else match split_on P s' with
           | w :: ws => String c w :: ws
           | [] => [String c EmptyString]
           end
  end.

Definition nonempty (s : string) : bool := negb (s =? "")%string.

Definition fields_func (P : ascii -> bool) (s : string) : list string :=
  List.filter nonempty (split_on P s).

(** [strings.Join]. *)
Fixpoint str_join (sep : string) (l : list string) : string :=
  match l with
  | [] => ""
  | [x] => x
  | x :: l' => x +:+ sep +:+ str_join sep l'
  end.

(** [s[:n]] and [s[n:]] for [n] within bounds. *)
Fixpoint str_take (n : nat) (s : string) : string :=
  match n, s with
  | S n', String c s' => String c (str_take n' s')
  | _, _ => EmptyString
  end.

Fixpoint str_drop (n : nat) (s : string) : string :=
  match n, s with
  | S n', String c s' => str_drop n' s'
  | _, _ => s
  end.

Definition has_suffix (s p : string) : bool :=
  (String.length p <=? String.length s)%nat && (str_drop (String.length s - String.length p) s =? p)%string.

(** [strconv.Atoi]: an optional sign, decimal digits, and the [int64] range. *)
Fixpoint digits_val (acc : Z) (s : string) : option Z :=
  match s with
  | EmptyString => Some acc
  | String c s' => if is_digit c then digits_val (10 * acc + digit_val c) s' else None
  end.

Definition parse_digits (s : string) : option Z :=
  match s with EmptyString => None | _ => digits_val 0 s end.

Definition in_int64 (z : Z) : bool := (int64_min <=? z) && (z <=? int64_max).

Definition atoi (s : string) : option Z :=
  let v := match s with
           | String c s' =>
               if Ascii.eqb c "-" then Z.opp <$> parse_digits s'
               else if Ascii.eqb c "+" then parse_digits s'
               else parse_digits s
           | EmptyString => None
           end in
  match v with
  | Some z => if in_int64 z then Some z else None
  | None => None
  end.

(** [fmt.Sprintf("%d", z)] for an unsigned [z]; one step per decimal digit, so
    [log2 z + 1] steps are enough. *)
Definition digit_char (d : Z) : ascii := ascii_of_nat (Z.to_nat (48 + d)).

Fixpoint dec_go (fuel : nat) (z : Z) (acc : string) : string :=
  match fuel with
  | O => acc
  | S fuel' =>
      let acc' := String (digit_char (z mod 10)) acc in
      if z / 10 =? 0 then acc' else dec_go fuel' (z / 10) acc'
  end.

Definition dec_string (z : Z) : string := dec_go (S (Z.to_nat (Z.log2 z))) z "".

(** UUIDs are 16-byte values compared as a whole; [0] is [uuid.Nil]. *)
Definition uuid_nil : Z := 0.

(** Every character of a string satisfies [P]. *)
Fixpoint str_forall (P : ascii -> bool) (s : string) : bool :=
  match s with
  | EmptyString => true
  | String c s' => P c && str_forall P s'
  end.

(** [contains] of a string slice. *)
Definition str_mem (x : string) (l : list string) : bool := existsb (String.eqb x) l.

#[global] Arguments str_mem : simpl never.

(** ** SQL: patterns and pages *)

(** [LIKE]: per cent for any run, underscore for one character, a backslash
    before the next; in ASCII. *)
Fixpoint sql_like (p s : string) : bool :=
  match p with
  | EmptyString => (s =? "")%string
  | String c p' =>
      if Ascii.eqb c "%" then
        (fix any s := sql_like p' s || match s with EmptyString => false | String _ s' => any s' end) s
      else
        match s with
        | EmptyString => false
        | String d s' =>
            if Ascii.eqb c "_" then sql_like p' s'
            else if Ascii.eqb c "\" then
              match p' with String c' p'' => Ascii.eqb c' d && sql_like p'' s' | EmptyString => false end
            else Ascii.eqb c d && sql_like p' s'
        end
  end.

Example sql_like_ex : sql_like "%55%" "16045550100" = true /\ sql_like "%a\%b%" "xa%b" = true /\ sql_like "%_9" "9" = false.
Proof. by vm_compute. Qed.

(** [LIMIT limit OFFSET offset]; no offset below 1. *)
Definition page {A} (limit offset : Z) (l : list A) : list A := take (Z.to_nat limit) (drop (Z.to_nat offset) l).

(** ** Stable sorting: [sort.SliceStable(l, less)] *)

Section sorting.
Context {A : Type} (less : A -> A -> bool).

Fixpoint sort_insert (x : A) (l : list A) : list A :=
  match l with
  | [] => [x]
  | y :: l' => if less y x then y :: sort_insert x l' else x :: l
  end.

Fixpoint stable_sort (l : list A) : list A :=
  match l with
  | [] => []
  | x :: l' => sort_insert x (stable_sort l')
  end.

End sorting.

(** What a comparison must satisfy for [sort.SliceStable] to be meaningful: a
    strict weak order, stated through the boolean the code computes. *)
Class WeakOrder {A} (less : A -> A -> bool) : Prop := {
  less_asym : forall a b, less a b = true -> less b a = false;
  not_less_trans : forall a b c, less b a = false -> less c b = false -> less c a = false;
}.

(** ** Automation *)

Create HintDb gofax.
Create Rewrite HintDb gofax.

(** Case analysis on every [match]/[if] scrutinee in sight, then the routine
    equalities. *)
Ltac go_cases :=
  repeat (case_match || case_decide || (progress simplify_eq/=));
  try congruence.

(** Boolean tests of the code as propositions. *)
Ltac reflect_bools :=
  repeat match goal with
  | H : (_ && _)%bool = true |- _ => apply andb_prop in H as [? ?]
  | H : (_ || _)%bool = false |- _ => apply orb_false_elim in H as [? ?]
  | H : negb _ = true |- _ => apply negb_true_iff in H
  | H : negb _ = false |- _ => apply negb_false_iff in H
  | H : (_ =? _)%string = true |- _ => apply String.eqb_eq in H
  | H : (_ =? _)%string = false |- _ => apply String.eqb_neq in H
  | H : (_ =? _) = true |- _ => apply Z.eqb_eq in H
  | H : (_ =? _) = false |- _ => apply Z.eqb_neq in H
  | H : (_ <? _) = true |- _ => apply Z.ltb_lt in H
  | H : (_ <? _) = false |- _ => apply Z.ltb_ge in H
  | H : (_ <=? _) = true |- _ => apply Z.leb_le in H
  | H : (_ <=? _) = false |- _ => apply Z.leb_gt in H
  end.

(** ** Lemmas on results, integers and time *)

Lemma is_ok_spec {A} (r : res A) : is_ok r = true <-> exists a, r = Ok a.
Proof. split; [destruct r; [eauto|done]|by intros [a ->]]. Qed.

Lemma wrap64_small z : int64_min <= z <= int64_max -> wrap64 z = z.
Proof.
  unfold wrap64, int64_min, int64_max. intros.
  rewrite Z.mod_small; lia.
Qed.

Lemma wrap64_range z : int64_min <= wrap64 z <= int64_max.
Proof.
  unfold wrap64, int64_min, int64_max.
  pose proof (Z.mod_pos_bound (z + 2 ^ 63) (2 ^ 64)). lia.
Qed.

Lemma uint_of_int_range z : 0 <= uint_of_int z < 2 ^ 64.
Proof. apply Z.mod_pos_bound. lia. Qed.

Lemma uint_of_int_small z : 0 <= z <= int64_max -> uint_of_int z = z.
Proof. unfold uint_of_int, int64_max. intros. apply Z.mod_small. lia. Qed.

Lemma time_sub_lt t u d :
  int64_min < d <= int64_max -> (time_sub t u <? d) = (t - u <? d).
Proof. unfold time_sub, int64_min, int64_max. intros. apply eq_true_iff_eq. rewrite !Z.ltb_lt. lia. Qed.

#[export] Hint Resolve wrap64_range uint_of_int_range : gofax.

(** ** Lemmas on strings *)

Lemma str_eqb_refl s : (s =? s)%string = true.
Proof. apply String.eqb_refl. Qed.

Lemma str_app_cons c (s t : string) : String c s +:+ t = String c (s +:+ t).
Proof. reflexivity. Qed.

Lemma str_app_nil (s : string) : "" +:+ s = s.
Proof. reflexivity. Qed.

Lemma str_app_assoc (a b c : string) : (a +:+ b) +:+ c = a +:+ (b +:+ c).
Proof. induction a as [|x a IH]; [done|]. rewrite !str_app_cons. by rewrite IH. Qed.

Lemma str_forall_app P a b : str_forall P (a +:+ b) = str_forall P a && str_forall P b.
Proof. induction a as [|c a IH]; [done|]. rewrite str_app_cons. cbn [str_forall]. by rewrite IH, andb_assoc. Qed.

Lemma str_length_app a b : String.length (a +:+ b) = (String.length a + String.length b)%nat.
Proof. induction a as [|c a IH]; [done|]. rewrite str_app_cons. cbn [String.length]. by rewrite IH. Qed.

Lemma str_take_drop n s : str_take n s +:+ str_drop n s = s.
Proof. revert s. induction n as [|n IH]; intros [|c s]; simpl; [done..|]. by rewrite str_app_cons, IH. Qed.

Lemma str_take_length n s : String.length (str_take n s) = Nat.min n (String.length s).
Proof. revert s. induction n as [|n IH]; intros [|c s]; simpl; [done..|]. by rewrite IH. Qed.

Lemma str_drop_length n s : String.length (str_drop n s) = (String.length s - n)%nat.
Proof. revert s. induction n as [|n IH]; intros [|c s]; simpl; [done..|]. by rewrite IH. Qed.

Lemma str_drop_app a b : str_drop (String.length a) (a +:+ b) = b.
Proof. induction a as [|c a IH]; [by destruct b|]. exact IH. Qed.

Lemma str_take_app a b : str_take (String.length a) (a +:+ b) = a.
Proof. induction a as [|c a IH]; [by destruct b|]. rewrite str_app_cons. cbn. by rewrite IH. Qed.

Lemma has_prefix_cons x s y p : has_prefix (String x s) (String y p) = Ascii.eqb y x && has_prefix s p.
Proof.
  unfold has_prefix. simpl. destruct (Ascii.ascii_dec y x) as [->|H]; [by rewrite Ascii.eqb_refl|].
  apply Ascii.eqb_neq in H. by rewrite H.
Qed.

Lemma has_prefix_nil s : has_prefix s "" = true.
Proof. by destruct s. Qed.

Lemma has_prefix_app p s : has_prefix (p +:+ s) p = true.
Proof.
  unfold has_prefix. induction p as [|c p IH]; simpl; [by destruct s|].
  destruct (Ascii.ascii_dec c c); [done|congruence].
Qed.

Lemma has_prefix_spec s p : has_prefix s p = true <-> exists t, s = p +:+ t.
Proof.
  split; [|intros [t ->]; apply has_prefix_app].
  unfold has_prefix. revert s. induction p as [|c p IH]; intros s H; simpl in H.
  - by exists s.
  - destruct s as [|d s]; [done|].
    simpl in H. destruct (Ascii.ascii_dec c d) as [->|]; [|discriminate H].
    destruct (IH _ H) as [t ->]. exists t. reflexivity.
Qed.

Lemma str_cut_no_sep sep s :
  snd (str_cut sep s) = None -> fst (str_cut sep s) = s.
Proof.
  induction s as [|c s IH]; simpl; [done|].
  destruct (Ascii.eqb c sep); [done|].
  destruct (str_cut sep s) as [a b]; simpl in *. intros ->. by rewrite IH.
Qed.

Lemma str_cut_spec sep s a b :
  str_cut sep s = (a, Some b) -> s = a +:+ String sep b.
Proof.
  revert a b. induction s as [|c s IH]; intros a b; simpl; [done|].
  destruct (Ascii.eqb_spec c sep) as [->|].
  - by intros [= <- <-].
  - destruct (str_cut sep s) as [a' b'] eqn:E. intros [= <- ->].
    rewrite (IH a' b eq_refl). reflexivity.
Qed.

Lemma str_cut_before sep s a b : str_cut sep s = (a, Some b) -> str_cut sep a = (a, None).
Proof.
  revert a b. induction s as [|c s IH]; intros a b; simpl; [done|].
  destruct (Ascii.eqb_spec c sep) as [->|Hne]; [by intros [= <- _]|].
  destruct (str_cut sep s) as [a' b'] eqn:E. intros [= <- ->]. simpl.
  rewrite (proj2 (Ascii.eqb_neq c sep) Hne). by rewrite (IH a' b eq_refl).
Qed.

Lemma str_cut_no_sep_app sep a b :
  str_cut sep a = (a, None) -> str_cut sep (a +:+ String sep b) = (a, Some b).
Proof.
  induction a as [|c a IH]; simpl.
  - intros _. by rewrite Ascii.eqb_refl.
  - destruct (Ascii.eqb c sep); [done|].
    destruct (str_cut sep a) as [x y]. intros [= -> ->]. by rewrite IH.
Qed.

Lemma str_split_cut sep s :
  head (str_split sep s) = Some (fst (str_cut sep s)).
Proof.
  induction s as [|c s IH]; simpl; [done|].
  destruct (Ascii.eqb c sep); [done|].
  destruct (str_cut sep s) as [a b]. destruct (str_split sep s); by simplify_eq/=.
Qed.

Lemma str_mem_spec x l : str_mem x l = true <-> x ∈ l.
Proof.
  unfold str_mem. rewrite existsb_exists. setoid_rewrite String.eqb_eq.
  setoid_rewrite <- list_elem_of_In. split; [by intros (y & ? & <-)|by exists x].
Qed.

Lemma str_mem_disjoint x l1 l2 :
  str_mem x l1 = true -> forallb (fun y => negb (str_mem y l2)) l1 = true -> str_mem x l2 = false.
Proof.
  rewrite str_mem_spec, forallb_forall. intros Hx Hl.
  apply negb_true_iff, Hl. by apply list_elem_of_In.
Qed.

Lemma digits_val_nonneg s acc z : 0 <= acc -> digits_val acc s = Some z -> 0 <= z.
Proof.
  revert acc. induction s as [|c s IH]; simpl; intros acc Ha H; [by simplify_eq|].
  destruct (is_digit c) eqn:E; [|done].
  apply (IH (10 * acc + digit_val c)); [|done].
  unfold is_digit in E. apply andb_prop in E as [E _]. apply Nat.leb_le in E.
  unfold digit_val. lia.
Qed.

Lemma atoi_range s z : atoi s = Some z -> int64_min <= z <= int64_max.
Proof.
  unfold atoi. destruct (match s with EmptyString => _ | _ => _ end) as [v|]; [|done].
  destruct (in_int64 v) eqn:E; [|done]. intros [= <-].
  unfold in_int64 in E. reflect_bools. lia.
Qed.

(** Printing a number and reading it back. *)
Lemma digit_char_spec d : 0 <= d < 10 -> is_digit (digit_char d) = true /\ digit_val (digit_char d) = d.
Proof.
  intros H. unfold is_digit, digit_val, digit_char, ascii_nat.
  rewrite nat_ascii_embedding by lia.
  split; [apply andb_true_intro; rewrite !Nat.leb_le; lia|lia].
Qed.

Lemma digits_val_dec_go fuel z acc a :
  0 <= z -> z < 2 ^ Z.of_nat fuel -> (0 < fuel)%nat ->
  exists k, 0 < k /\ digits_val a (dec_go fuel z acc) = digits_val (a * k + z) acc /\ dec_go fuel z acc <> "".
Proof.
  revert z acc a. induction fuel as [|fuel IH]; intros z acc a Hz Hf ?; [lia|].
  pose proof (Z.mod_pos_bound z 10 ltac:(lia)) as Hm.
  destruct (digit_char_spec (z mod 10) Hm) as [Hd Hv]. simpl.
  pose proof (Z.div_mod z 10 ltac:(lia)) as Hdm.
  destruct (z / 10 =? 0) eqn:E; reflect_bools.
  - exists 10. split; [lia|]. split; [|done]. simpl. rewrite Hd, Hv. f_equal. lia.
  - assert (0 <= z / 10) by (apply Z.div_pos; lia).
    rewrite Nat2Z.inj_succ, Z.pow_succ_r in Hf by lia.
    destruct fuel as [|fuel']; [simpl in Hf; lia|].
    destruct (IH (z / 10) (String (digit_char (z mod 10)) acc) a) as (k & ? & Hk & ?); [lia|lia|lia|].
    exists (k * 10). split; [lia|]. split; [|done].
    rewrite Hk. simpl. rewrite Hd, Hv. f_equal. lia.
Qed.

Lemma parse_dec_string z : 0 <= z -> parse_digits (dec_string z) = Some z.
Proof.
  intros Hz. unfold dec_string.
  destruct (digits_val_dec_go (S (Z.to_nat (Z.log2 z))) z "" 0) as (k & ? & Hk & ?); [done| |lia|].
  - rewrite Nat2Z.inj_succ, Z2Nat.id by apply Z.log2_nonneg.
    destruct (Z.eq_dec z 0) as [->|]; [done|]. apply Z.log2_spec. lia.
  - unfold parse_digits. destruct (dec_go _ _ _); [done|]. rewrite Hk. simpl. f_equal; lia.
Qed.

Lemma parse_digits_head c s z : parse_digits (String c s) = Some z -> is_digit c = true.
Proof. simpl. by destruct (is_digit c). Qed.

Lemma atoi_digits s z : parse_digits s = Some z -> 0 <= z <= int64_max -> atoi s = Some z.
Proof.
  intros Hp Hz. unfold atoi. destruct s as [|c s]; [done|].
  pose proof (parse_digits_head _ _ _ Hp) as Hc.
  destruct (Ascii.eqb_spec c "-") as [->|]; [done|].
  destruct (Ascii.eqb_spec c "+") as [->|]; [done|].
  rewrite Hp. unfold in_int64, int64_min.
  by rewrite !(proj2 (Z.leb_le _ _)) by lia.
Qed.

(** A string of digits contains no separator. *)
Lemma digits_no_sep sep s acc :
  is_digit sep = false -> digits_val acc s <> None ->
  forall t, str_cut sep (s +:+ String sep t) = (s, Some t).
Proof.
  intros Hsep. revert acc. induction s as [|c s IH]; intros acc Hd t.
  - rewrite str_app_nil. simpl. by rewrite Ascii.eqb_refl.
  - simpl in Hd. destruct (is_digit c) eqn:Hc; [|done].
    rewrite str_app_cons. simpl.
    destruct (Ascii.eqb_spec c sep) as [->|]; [congruence|].
    by rewrite (IH _ Hd).
Qed.

(** ** Lemmas on lists *)

Lemma filter_true {A} (l : list A) : List.filter (fun _ => true) l = l.
Proof. induction l as [|x l IH]; simpl; [done|]. by rewrite IH. Qed.

Lemma filter_all {A} (P : A -> bool) (l : list A) :
  (forall x, x ∈ l -> P x = true) -> List.filter P l = l.
Proof.
  intros HP. rewrite <- (filter_true l) at 2. apply filter_ext_in. intros x Hx.
  apply HP. by apply list_elem_of_In.
Qed.

Lemma filter_filter {A} (P Q : A -> bool) (l : list A) :
  List.filter Q (List.filter P l) = List.filter (fun x => P x && Q x) l.
Proof.
  induction l as [|x l IH]; simpl; [done|].
  destruct (P x); simpl; [destruct (Q x)|]; by rewrite IH.
Qed.

(** ** Lemmas on stable sorting *)

Section sort_facts.
Context {A : Type} (less : A -> A -> bool).

Lemma sort_insert_perm x l : sort_insert less x l ≡ₚ x :: l.
Proof.
  induction l as [|y l IH]; simpl; [done|].
  destruct (less y x); [|done]. rewrite IH. apply Permutation_swap.
Qed.

Lemma stable_sort_perm l : stable_sort less l ≡ₚ l.
Proof.
  induction l as [|x l IH]; simpl; [done|].
  by rewrite sort_insert_perm, IH.
Qed.

Lemma elem_of_stable_sort x l : x ∈ stable_sort less l <-> x ∈ l.
Proof. by rewrite stable_sort_perm. Qed.

Context `{!WeakOrder less}.

Definition sorted_by (l : list A) : Prop :=
  StronglySorted (fun a b => less b a = false) l.

Lemma sort_insert_sorted x l : sorted_by l -> sorted_by (sort_insert less x l).
Proof.
  unfold sorted_by. induction 1 as [|y l Hl IH Hy]; simpl.
  - repeat constructor.
  - destruct (less y x) eqn:E.
    + constructor; [done|]. rewrite sort_insert_perm. constructor; [|done].
      by apply less_asym.
    + constructor; [by constructor|]. constructor; [done|].
      eapply Forall_impl; [exact Hy|]. intros z Hz. by apply not_less_trans with y.
Qed.

Lemma stable_sort_sorted l : sorted_by (stable_sort less l).
Proof. induction l; simpl; [constructor|by apply sort_insert_sorted]. Qed.

(** Stability: elements none of which is less than another keep their order. *)
Lemma sort_insert_filter_out (P : A -> bool) x l :
  P x = false -> List.filter P (sort_insert less x l) = List.filter P l.
Proof.
  intros Hx. induction l as [|y l IH]; simpl; [by rewrite Hx|].
  destruct (less y x); simpl; [by rewrite IH|by rewrite Hx].
Qed.

Lemma sort_insert_filter_in (P : A -> bool) x l :
  P x = true -> (forall y, y ∈ l -> P y = true -> less y x = false) ->
  List.filter P (sort_insert less x l) = x :: List.filter P l.
Proof.
  intros Hx. induction l as [|y l IH]; simpl; intros H; [by rewrite Hx|].
  destruct (less y x) eqn:E; simpl; [|by rewrite Hx].
  destruct (P y) eqn:Hy.
  - rewrite H in E; [done|set_solver|done].
  - apply IH. intros z ??. apply H; set_solver.
Qed.

Lemma stable_sort_stable (P : A -> bool) l :
  (forall x y, x ∈ l -> y ∈ l -> P x = true -> P y = true -> less x y = false) ->
  List.filter P (stable_sort less l) = List.filter P l.
Proof.
  induction l as [|x l IH]; simpl; intros H; [done|].
  destruct (P x) eqn:Hx.
  - rewrite sort_insert_filter_in; [|done|].
    + f_equal. apply IH. intros y z ??. apply H; set_solver.
    + intros y Hy ?. apply H; [|set_solver|done..]. rewrite elem_of_stable_sort in Hy. set_solver.
  - rewrite sort_insert_filter_out; [|done]. apply IH. intros y z ??. apply H; set_solver.
Qed.

(** The first element of a sorted list that satisfies [P] is a minimum of
    those that do. *)
Lemma find_sorted_min (P : A -> bool) (l : list A) (x : A) :
  sorted_by l -> List.find P l = Some x ->
  forall y, y ∈ l -> P y = true -> less y x = false.
Proof.
  induction 1 as [|z l Hl IH Hz]; simpl; [done|].
  destruct (P z) eqn:Pz.
  - intros [= ->] y Hy Py. apply elem_of_cons in Hy as [->|Hy].
    + destruct (less x x) eqn:E; [|done]. pose proof (less_asym _ _ E). congruence.
    + by rewrite Forall_forall in Hz; apply Hz.
  - intros Hf y Hy Py. apply elem_of_cons in Hy as [->|Hy]; [by rewrite Py in Pz|]. by apply IH.
Qed.

End sort_facts.

#[export] Hint Resolve stable_sort_perm stable_sort_sorted : gofax.
