(* ===== verification/Config.v ===== *)
(** * Configuration: the accessors of [gofaxlib/config.go] and the duration
    parsers they rest on.

    The configuration structs are records of the fields the modelled code
    reads; every accessor is translated with its default. [time_ParseDuration]
    is Go's [time.ParseDuration] (fractions are truncated exactly where Go goes
    through a float64); [ParseDuration] is the program's own parser of
    [gofaxserver/utils.go], whose multiplication wraps. *)

From S2P Require Import Prelude.

(** ** [time.ParseDuration] *)

Definition unit_ns (u : string) : option Z :=
  if (u =? "ns")%string then Some 1
  else if (u =? "us")%string || (u =? "µs")%string || (u =? "μs")%string then Some microsecond
  else if (u =? "ms")%string then Some millisecond
  else if (u =? "s")%string then Some second
  else if (u =? "m")%string then Some minute
  else if (u =? "h")%string then Some hour
  else None.

(** Longest prefix of digits: its value, its length, the rest. *)
Fixpoint leading_int (acc n : Z) (s : string) : Z * Z * string :=
  match s with
  | String c s' =>
      if is_digit c then leading_int (10 * acc + digit_val c) (n + 1) s' else (acc, n, s)
  | EmptyString => (acc, n, s)
  end.

(** The unit: everything up to the next digit or dot. *)
Fixpoint leading_unit (s : string) : string * string :=
  match s with
  | String c s' =>
      if is_digit c || Ascii.eqb c "." then (EmptyString, s)
      else let '(u, r) := leading_unit s' in (String c u, r)
  | EmptyString => (EmptyString, EmptyString)
  end.

Fixpoint parse_duration_terms (fuel : nat) (d : Z) (s : string) : option Z :=
  match s, fuel with
  | EmptyString, _ => Some d
  | _, O => None
  | _, S fuel' =>
      let '(v, npre, s1) := leading_int 0 0 s in
      let '(f, nfrac, s2) :=
        match s1 with
        | String c s1' => if Ascii.eqb c "." then leading_int 0 0 s1' else (0, 0, s1)
        | EmptyString => (0, 0, s1)
        end in
      if (npre =? 0) && (nfrac =? 0) then None
      else
        let '(u, s3) := leading_unit s2 in
        match unit_ns u with
        | None => None
        | Some k =>
            let w := v * k + f * k / 10 ^ nfrac in
            if (2 ^ 63 <? w) || (2 ^ 63 <? d + w) then None
            else parse_duration_terms fuel' (d + w) s3
        end
  end.

Definition time_ParseDuration (s : string) : option Z :=
  let '(neg, body) :=
    match s with
    | String c s' =>
        if Ascii.eqb c "-" then (true, s') else if Ascii.eqb c "+" then (false, s') else (false, s)
    | EmptyString => (false, s)
    end in
  if (body =? "0")%string then Some 0
  else match body with
       | EmptyString => None
       | _ =>
           match parse_duration_terms (String.length body) 0 body with
           | None => None
           | Some d =>
               if neg then Some (- d) else if int64_max <? d then None else Some d
           end
       end.

(** ** [gofaxserver/utils.go] *)

Definition unit_of_char (c : ascii) : option Z :=
  if Ascii.eqb c "s" then Some second
  else if Ascii.eqb c "m" then Some minute
  else if Ascii.eqb c "h" then Some hour
  else if Ascii.eqb c "d" then Some (24 * hour)
  else None.

(** The two submatches of [^(\d+)([smhd])$]. *)
Fixpoint duration_submatch (s : string) : option (string * ascii) :=
  match s with
  | String c EmptyString => match unit_of_char c with Some _ => Some (EmptyString, c) | None => None end
  | String c s' =>
      if is_digit c
      then match duration_submatch s' with Some (ds, u) => Some (String c ds, u) | None => None end
      else None
  | EmptyString => None
  end.

Definition ParseDuration (input : string) : res Z :=
  match duration_submatch input with
  | None | Some (EmptyString, _) => Err "invalid duration format"
  | Some (ds, u) =>
      match atoi ds with
      | None => Err "strconv.Atoi: value out of range"
      | Some value =>
          match unit_of_char u with
          | Some k => Ok (wrap64 (value * k))
          | None => Err "unsupported time unit"
          end
      end
  end.

Definition contains (slice : list string) (item : string) : bool := str_mem item slice.

(** ** [FaxPolicyConfig] *)

Record FaxPolicyConfig := {
  pc_Enabled : option bool;
  pc_LearnEnabled : option bool;
  pc_T38FailureThreshold : Z;
  pc_ECMFailureThreshold : Z;
  pc_V17FailureThreshold : Z;
  pc_RecoverySuccesses : Z;
  pc_AutoRuleTTL : string;
  pc_PairStateTTL : string;
  pc_RetryChainEscalation : option bool;
  pc_BridgeLearn : option bool;
}.

Definition boolOrDefault (p : option bool) (def : bool) : bool :=
  match p with None => def | Some b => b end.

Definition PolicyEnabled (c : FaxPolicyConfig) : bool := boolOrDefault (pc_Enabled c) true.
Definition LearningEnabled (c : FaxPolicyConfig) : bool := boolOrDefault (pc_LearnEnabled c) true.
Definition RetryChainEnabled (c : FaxPolicyConfig) : bool := boolOrDefault (pc_RetryChainEscalation c) true.
Definition BridgeLearnEnabled (c : FaxPolicyConfig) : bool := boolOrDefault (pc_BridgeLearn c) true.

Definition positive_or (v def : Z) : Z := if 0 <? v then v else def.

Definition T38Threshold (c : FaxPolicyConfig) : Z := positive_or (pc_T38FailureThreshold c) 1.
Definition ECMThreshold (c : FaxPolicyConfig) : Z := positive_or (pc_ECMFailureThreshold c) 2.
Definition V17Threshold (c : FaxPolicyConfig) : Z := positive_or (pc_V17FailureThreshold c) 3.
Definition RecoveryThreshold (c : FaxPolicyConfig) : Z := positive_or (pc_RecoverySuccesses c) 3.

(** A configured Go duration when it parses to a positive value. *)
Definition positive_duration (s : string) : option Z :=
  match time_ParseDuration s with
  | Some d => if 0 <? d then Some d else None
  | None => None
  end.

Definition autoRuleTTL (c : FaxPolicyConfig) : Z :=
  default (720 * hour) (positive_duration (pc_AutoRuleTTL c)).

Definition PairStateTTL (c : FaxPolicyConfig) : Z :=
  default (15 * minute) (positive_duration (pc_PairStateTTL c)).

(** ** [SecurityConfig] *)

Record SecurityConfig := {
  sc_Enabled : bool;
  sc_Backend : string;
  sc_FailThreshold : Z;
  sc_FailWindow : string;
  sc_BanDurations : list string;
  sc_WhitelistCIDRs : list string;
  sc_JanitorSeconds : Z;
}.

Definition BackendName (c : SecurityConfig) : string :=
  if str_mem (sc_Backend c) ["nft"; "ipset"; "log-only"] then sc_Backend c else "nft".

Definition Threshold (c : SecurityConfig) : Z := positive_or (sc_FailThreshold c) 5.

Definition Window (c : SecurityConfig) : Z :=
  default minute (positive_duration (sc_FailWindow c)).

Definition default_durations : list Z := [10 * minute; hour; 24 * hour].

Definition Durations (c : SecurityConfig) : list Z :=
  match sc_BanDurations c with
  | [] => default_durations
  | ss =>
      match omap positive_duration ss with
      | [] => default_durations
      | out => out
      end
  end.

Definition JanitorInterval (c : SecurityConfig) : Z :=
  if 0 <? sc_JanitorSeconds c then wrap64 (sc_JanitorSeconds c * second) else minute.

(** ** The [Faxing], [Portal] and [Dialplan] sections *)

Record FaxingConfig := {
  fc_EnableT38 : bool;
  fc_RequestT38 : bool;
  fc_TempDir : string;
  fc_TempMaxAge : string;
  fc_RetryDelay : string;
  fc_DisableV17AfterRetry : string;
  fc_DisableECMAfterRetry : string;
  fc_RetryAttempts : string;
  fc_FailedResponse : list string;
  fc_EnableImageResizing : option bool;
  fc_RTPJitterBuffer : option bool;
  fc_RTPJitterBufferMsec : string;
  fc_RTPJitterBufferDuringBridge : option bool;
  fc_RecipientFromDiversionHeader : bool;
  fc_AnswerAfter : Z;        (* uint64, milliseconds; 0 for off *)
  fc_WaitTime : Z;
  fc_Policy : FaxPolicyConfig;
}.

Record ConfigRule := { cr_Pattern : string; cr_Replacement : string }.

Record DialplanConfig := { dc_Source : string; dc_Rules : list ConfigRule }.

Record Config := {
  c_Faxing : FaxingConfig;
  c_PortalURL : string;
  c_PortalAPIKey : string;
  c_Security : SecurityConfig;
  c_Dialplan : option DialplanConfig;
  c_Verbose : bool;          (* freeswitch.verbose *)
  c_Ident : string;          (* freeswitch.ident *)
}.

Definition ImageResizingEnabled (c : FaxingConfig) : bool := boolOrDefault (fc_EnableImageResizing c) true.
Definition RTPJitterBufferEnabled (c : FaxingConfig) : bool := boolOrDefault (fc_RTPJitterBuffer c) true.
Definition RTPJitterBufferSpec (c : FaxingConfig) : string :=
  let s := trim_space (fc_RTPJitterBufferMsec c) in
  if (s =? "")%string then "60:120" else s.
Definition RTPJitterBufferDuringBridgeEnabled (c : FaxingConfig) : bool :=
  boolOrDefault (fc_RTPJitterBufferDuringBridge c) true.

(** [LoadConfig] rebuilds [FailedResponseMap] from the list. *)
Definition FailedResponseMap (c : FaxingConfig) : gmap string bool :=
  foldl (fun m v => <[v := true]> m) ∅ (fc_FailedResponse c).

Definition FailedHangUpCause (c : FaxingConfig) (cause : string) : bool :=
  default false (FailedResponseMap c !! cause).

(** A configuration with every field at Go's zero value. *)
Definition zero_policy : FaxPolicyConfig :=
  {| pc_Enabled := None; pc_LearnEnabled := None; pc_T38FailureThreshold := 0;
     pc_ECMFailureThreshold := 0; pc_V17FailureThreshold := 0; pc_RecoverySuccesses := 0;
     pc_AutoRuleTTL := ""; pc_PairStateTTL := ""; pc_RetryChainEscalation := None;
     pc_BridgeLearn := None |}.

Definition zero_faxing : FaxingConfig :=
  {| fc_EnableT38 := false; fc_RequestT38 := false; fc_TempDir := ""; fc_TempMaxAge := "";
     fc_RetryDelay := ""; fc_DisableV17AfterRetry := "";
     fc_DisableECMAfterRetry := ""; fc_RetryAttempts := ""; fc_FailedResponse := [];
     fc_EnableImageResizing := None; fc_RTPJitterBuffer := None; fc_RTPJitterBufferMsec := "";
     fc_RTPJitterBufferDuringBridge := None; fc_RecipientFromDiversionHeader := false;
     fc_AnswerAfter := 0; fc_WaitTime := 0; fc_Policy := zero_policy |}.

Definition zero_security : SecurityConfig :=
  {| sc_Enabled := false; sc_Backend := ""; sc_FailThreshold := 0; sc_FailWindow := "";
     sc_BanDurations := []; sc_WhitelistCIDRs := []; sc_JanitorSeconds := 0 |}.

Definition zero_config : Config :=
  {| c_Faxing := zero_faxing; c_PortalURL := ""; c_PortalAPIKey := "";
     c_Security := zero_security; c_Dialplan := None;
     c_Verbose := false; c_Ident := "" |}.

(** ** Facts *)

Lemma leading_int_nonneg s acc n v m r :
  0 <= acc -> leading_int acc n s = (v, m, r) -> 0 <= v.
Proof.
  revert acc n. induction s as [|c s IH]; simpl; intros acc n Ha H; [by simplify_eq|].
  destruct (is_digit c) eqn:E; [|by simplify_eq].
  eapply IH; [|exact H]. unfold is_digit in E. apply andb_prop in E as [E _].
  apply Nat.leb_le in E. unfold digit_val. lia.
Qed.

Lemma unit_ns_pos u k : unit_ns u = Some k -> 0 < k.
Proof. unfold unit_ns. intros. go_cases; done. Qed.

Lemma parse_duration_terms_nonneg fuel d s z :
  0 <= d -> parse_duration_terms fuel d s = Some z -> 0 <= z.
Proof.
  revert d s. induction fuel as [|fuel IH]; intros d [|c s] Hd H; simpl in H; [by simplify_eq..| |].
  { by simplify_eq. }
  destruct (if is_digit c then _ else _) as [[v n] s1] eqn:Ev.
  assert (0 <= v) as Hv.
  { eapply (leading_int_nonneg (String c s) 0 0); [done|exact Ev]. }
  destruct (match s1 with EmptyString => _ | _ => _ end) as [[f m] s2] eqn:Ef.
  assert (0 <= f) as Hf.
  { destruct s1 as [|c1 s1']; [by simplify_eq|]. destruct (Ascii.eqb c1 "."); [|by simplify_eq].
    eapply leading_int_nonneg; [|exact Ef]. done. }
  destruct ((n =? 0) && (m =? 0)); [done|].
  destruct (leading_unit s2) as [u s3]. destruct (unit_ns u) as [k|] eqn:Ek; [|done].
  apply unit_ns_pos in Ek. destruct (_ || _); [done|].
  eapply IH; [|exact H].
  assert (0 <= f * k / 10 ^ m); [|nia].
  destruct (Z.leb_spec 0 m); [apply Z.div_pos; [nia|lia]|].
  rewrite Z.pow_neg_r by lia. by rewrite Z.div_0_r.
Qed.

Lemma time_ParseDuration_pos s d :
  time_ParseDuration s = Some d -> 0 < d -> d <= int64_max.
Proof.
  unfold time_ParseDuration. intros H Hpos.
  destruct (match s with EmptyString => _ | _ => _ end) as [neg body].
  destruct (body =? "0")%string; [simplify_eq; lia|].
  destruct body as [|c body]; [done|].
  destruct (parse_duration_terms _ _ _) as [d'|] eqn:E; [|done].
  apply parse_duration_terms_nonneg in E; [|done].
  destruct neg; [simplify_eq; unfold int64_max; lia|].
  destruct (int64_max <? d') eqn:E'; [done|]. simplify_eq. reflect_bools. done.
Qed.

Lemma positive_duration_bounds s d : positive_duration s = Some d -> 0 < d <= int64_max.
Proof.
  unfold positive_duration. intros H.
  destruct (time_ParseDuration s) as [d'|] eqn:E; [|done].
  destruct (0 <? d') eqn:E'; [|done]. simplify_eq. reflect_bools.
  split; [done|]. by eapply time_ParseDuration_pos.
Qed.

Lemma positive_or_pos v def : 0 < def -> 0 < positive_or v def.
Proof. unfold positive_or. destruct (0 <? v) eqn:E; reflect_bools; lia. Qed.

Lemma default_duration_bounds s def :
  0 < def <= int64_max -> 0 < default def (positive_duration s) <= int64_max.
Proof.
  intros. destruct (positive_duration s) eqn:E; simpl; [|done].
  by eapply positive_duration_bounds.
Qed.

Lemma Window_bounds c : 0 < Window c <= int64_max.
Proof. apply default_duration_bounds. by vm_compute. Qed.

Lemma PairStateTTL_bounds c : 0 < PairStateTTL c <= int64_max.
Proof. apply default_duration_bounds. by vm_compute. Qed.

Lemma autoRuleTTL_bounds c : 0 < autoRuleTTL c <= int64_max.
Proof. apply default_duration_bounds. by vm_compute. Qed.

Lemma Threshold_pos c : 0 < Threshold c.
Proof. by apply positive_or_pos. Qed.

Lemma Durations_spec c : Durations c <> [] /\ Forall (fun d => 0 < d <= int64_max) (Durations c).
Proof.
  assert (default_durations <> [] /\ Forall (fun d => 0 < d <= int64_max) default_durations) as Hdef.
  { split; [done|]. unfold default_durations. repeat (apply Forall_cons_2; [split; by vm_compute|]). apply Forall_nil_2. }
  unfold Durations. destruct (sc_BanDurations c) as [|s ss]; [done|].
  destruct (omap positive_duration (s :: ss)) as [|d ds] eqn:E; [done|].
  split; [done|]. rewrite <- E. apply Forall_forall. intros x Hx.
  apply list_elem_of_omap in Hx as (y & _ & Hy). by eapply positive_duration_bounds.
Qed.

#[export] Hint Resolve Threshold_pos Window_bounds PairStateTTL_bounds autoRuleTTL_bounds : gofax.

(** The submatch of a well-formed duration. *)
Lemma duration_submatch_cons c d s :
  duration_submatch (String c (String d s)) =
  if is_digit c
  then match duration_submatch (String d s) with
       | Some (ds, u) => Some (String c ds, u)
       | None => None
       end
  else None.
Proof. reflexivity. Qed.

Lemma duration_submatch_app ds u :
  parse_digits ds <> None -> unit_of_char u <> None ->
  duration_submatch (ds +:+ String u "") = Some (ds, u).
Proof.
  unfold parse_digits. destruct ds as [|c ds]; [done|].
  intros Hd Hu. revert c Hd. generalize 0 as acc.
  induction ds as [|c' ds IH]; intros acc c Hd; rewrite !str_app_cons; simpl in Hd.
  - change ("" +:+ String u "")%string with (String u ""). rewrite duration_submatch_cons.
    simpl. destruct (is_digit c); [|done]. by destruct (unit_of_char u).
  - destruct (is_digit c) eqn:Ec; [|done].
    rewrite duration_submatch_cons, Ec, <- str_app_cons.
    by rewrite (IH _ c' Hd).
Qed.

(** The program's own duration parser: a digit string followed by one of [s], [m],
    [h], [d] parses to the product whenever that fits an int64; a larger product
    is not refused but wraps around, so the parser then returns some other
    duration without an error. *)
Theorem ParseDuration_functional (ds : string) (u : ascii) (v k : Z) :
  parse_digits ds = Some v -> unit_of_char u = Some k -> v <= int64_max ->
  ParseDuration (ds +:+ String u "") = Ok (wrap64 (v * k)) /\
  (v * k <= int64_max -> ParseDuration (ds +:+ String u "") = Ok (v * k)) /\
  (int64_max < v * k -> forall w, ParseDuration (ds +:+ String u "") = Ok w -> w <> v * k).
Proof.
  intros Hd Hu Hv.
  assert (0 <= v) as Hv0.
  { unfold parse_digits in Hd. destruct ds; [done|]. by eapply digits_val_nonneg. }
  assert (0 < k) as Hk by (unfold unit_of_char in Hu; go_cases; by vm_compute).
  assert (atoi ds = Some v) as Ha by (apply atoi_digits; [done|lia]).
  assert (ParseDuration (ds +:+ String u "") = Ok (wrap64 (v * k))) as Hp.
  { unfold ParseDuration. rewrite duration_submatch_app by congruence.
    destruct ds as [|c ds]; [done|]. by rewrite Ha, Hu. }
  split; [done|]. rewrite Hp. split.
  - intros. rewrite wrap64_small; [done|]. unfold int64_min. nia.
  - intros Hov w [= <-] Heq. pose proof (wrap64_range (v * k)). lia.
Qed.

Lemma ParseDuration_functional_witness :
  parse_digits "213504" = Some 213504 /\
  ParseDuration "213504d" = Ok (wrap64 (213504 * (24 * hour))) /\
  ParseDuration "213504d" = Ok 1526290448384.
Proof.
  pose proof (ParseDuration_functional "213504" "d" 213504 (24 * hour) eq_refl eq_refl
                ltac:(vm_compute; discriminate)) as [H _].
  split; [reflexivity|]. split; [exact H|vm_compute; reflexivity].
Defined.

(** Whatever the configuration file says, the sentry gets a known backend, a
    positive threshold and window, and a non-empty list of positive ban
    durations, each one configured or a default. *)
Theorem security_accessors_bounds (c : SecurityConfig) :
  str_mem (BackendName c) ["nft"; "ipset"; "log-only"] = true /\
  0 < Threshold c /\ 0 < Window c <= int64_max /\
  Durations c <> [] /\ Forall (fun d => 0 < d <= int64_max) (Durations c) /\
  (forall d, d ∈ Durations c -> d ∈ default_durations \/
     exists s, s ∈ sc_BanDurations c /\ positive_duration s = Some d).
Proof.
  repeat split; try apply Durations_spec; try apply Window_bounds; try apply Threshold_pos.
  - unfold BackendName. destruct (str_mem (sc_Backend c) _) eqn:E; [exact E|done].
  - unfold Durations. intros d Hd. destruct (sc_BanDurations c) as [|s ss] eqn:E; [by left|].
    destruct (omap positive_duration (s :: ss)) as [|d' ds] eqn:E'; [by left|].
    right. rewrite <- E' in Hd. apply list_elem_of_omap in Hd as (y & ? & ?). eauto.
Qed.
