(* ===== verification/Store.v ===== *)
(** * Store: the relational tables behind gorm

    The components keep their rows in PostgreSQL through gorm. What they rely
    on is stated here as the class [Table] with its laws [TableLaws]: a failed
    operation returns an error and leaves the rows alone, [Create] appends a
    row under a fresh primary key, [Save] replaces the row with the same key
    (or inserts it), and so on. The components and their theorems use the
    class only. [ListTable] is an instance, with a scripted sequence of faults,
    on which everything evaluates. *)

From S2P Require Import Prelude.

(** Rows with an unsigned primary key; key [0] means "not saved yet". *)
Class HasID (R : Type) := {
  get_id : R -> Z;
  set_id : Z -> R -> R;
  get_set_id : forall i r, get_id (set_id i r) = i;
}.

Definition replace_row {R} `{HasID R} (r : R) (rows : list R) : list R :=
  if existsb (fun x => get_id x =? get_id r) rows
  then map (fun x => if get_id x =? get_id r then r else x) rows
  else rows ++ [r].

(** Operations: [None]/[false] stand for [.Error != nil]. *)
Class Table (T R : Type) `{HasID R} := {
  tbl_rows : T -> list R;
  tbl_find : (R -> bool) -> T -> option (list R) * T;
  tbl_create : R -> T -> option R * T;
  tbl_create_all : list R -> T -> option (list R) * T;   (* one INSERT *)
  tbl_save : R -> T -> bool * T;
  tbl_delete : (R -> bool) -> T -> bool * T;
  tbl_update : (R -> bool) -> (R -> R) -> T -> bool * T;
  tbl_healthy : T -> Prop;  (* the database is reachable and stays so *)
}.

Class TableLaws (T R : Type) `{Table T R} : Prop := {
  find_rows : forall P t, tbl_rows (tbl_find P t).2 = tbl_rows t;
  find_result : forall P t l, (tbl_find P t).1 = Some l -> l = List.filter P (tbl_rows t);
  create_ok : forall r t r', (tbl_create r t).1 = Some r' ->
    tbl_rows (tbl_create r t).2 = tbl_rows t ++ [r'] /\
    r' = set_id (get_id r') r /\ 0 < get_id r' /\
    Forall (fun x => get_id x <> get_id r') (tbl_rows t);
  create_err : forall r t, (tbl_create r t).1 = None ->
    tbl_rows (tbl_create r t).2 = tbl_rows t;
  create_all_ok : forall l t l', (tbl_create_all l t).1 = Some l' ->
    tbl_rows (tbl_create_all l t).2 = tbl_rows t ++ l' /\
    Forall2 (fun r r' => r' = set_id (get_id r') r /\ 0 < get_id r') l l' /\
    NoDup (map get_id l') /\
    Forall (fun x => Forall (fun r' => get_id x <> get_id r') l') (tbl_rows t);
  create_all_err : forall l t, (tbl_create_all l t).1 = None ->
    tbl_rows (tbl_create_all l t).2 = tbl_rows t;
  save_ok : forall r t, (tbl_save r t).1 = true ->
    tbl_rows (tbl_save r t).2 = replace_row r (tbl_rows t);
  save_err : forall r t, (tbl_save r t).1 = false ->
    tbl_rows (tbl_save r t).2 = tbl_rows t;
  delete_ok : forall P t, (tbl_delete P t).1 = true ->
    tbl_rows (tbl_delete P t).2 = List.filter (fun r => negb (P r)) (tbl_rows t);
  delete_err : forall P t, (tbl_delete P t).1 = false ->
    tbl_rows (tbl_delete P t).2 = tbl_rows t;
  update_ok : forall P f t, (tbl_update P f t).1 = true ->
    tbl_rows (tbl_update P f t).2 = map (fun r => if P r then f r else r) (tbl_rows t);
  update_err : forall P f t, (tbl_update P f t).1 = false ->
    tbl_rows (tbl_update P f t).2 = tbl_rows t;
  healthy_find : forall P t, tbl_healthy t ->
    is_Some (tbl_find P t).1 /\ tbl_healthy (tbl_find P t).2;
  healthy_create : forall r t, tbl_healthy t ->
    is_Some (tbl_create r t).1 /\ tbl_healthy (tbl_create r t).2;
  healthy_create_all : forall l t, tbl_healthy t ->
    is_Some (tbl_create_all l t).1 /\ tbl_healthy (tbl_create_all l t).2;
  healthy_save : forall r t, tbl_healthy t ->
    (tbl_save r t).1 = true /\ tbl_healthy (tbl_save r t).2;
  healthy_delete : forall P t, tbl_healthy t ->
    (tbl_delete P t).1 = true /\ tbl_healthy (tbl_delete P t).2;
  healthy_update : forall P f t, tbl_healthy t ->
    (tbl_update P f t).1 = true /\ tbl_healthy (tbl_update P f t).2;
}.

(** [db.Where(...).First(&row)]: an error also when no row matches. *)
Definition tbl_first {T R} `{Table T R} (P : R -> bool) (t : T) : option R * T :=
  let '(l, t') := tbl_find P t in
  (match l with Some (r :: _) => Some r | _ => None end, t').

(** ** The reference instance *)

Record ListTable (R : Type) := {
  lt_rows : list R;
  lt_next : Z;               (* the next primary key handed out *)
  lt_faults : list bool;     (* outcome script: [true] makes that operation fail *)
}.
Arguments lt_rows {R} _.
Arguments lt_next {R} _.
Arguments lt_faults {R} _.

Definition fresh_table {R} (rows : list R) (next : Z) (faults : list bool) : ListTable R :=
  {| lt_rows := rows; lt_next := next; lt_faults := faults |}.

Section list_table.
Context {R : Type} `{HasID R}.

Definition lt_fault (t : ListTable R) : bool :=
  match lt_faults t with b :: _ => b | [] => false end.

Definition lt_step (t : ListTable R) (rows : list R) : ListTable R :=
  {| lt_rows := rows; lt_next := lt_next t; lt_faults := tail (lt_faults t) |}.

(** A key above every stored one. *)
Definition fresh_id (t : ListTable R) : Z :=
  foldr (fun r m => Z.max (get_id r + 1) m) (Z.max 1 (lt_next t)) (lt_rows t).

Fixpoint number_rows (i : Z) (l : list R) : list R :=
  match l with
  | [] => []
  | r :: l' => set_id i r :: number_rows (i + 1) l'
  end.

#[export] Instance list_table : Table (ListTable R) R := {
  tbl_rows := lt_rows;
  tbl_find P t :=
    (if lt_fault t then None else Some (List.filter P (lt_rows t)), lt_step t (lt_rows t));
  tbl_create r t :=
    if lt_fault t then (None, lt_step t (lt_rows t))
    else let r' := set_id (fresh_id t) r in
         (Some r', {| lt_rows := lt_rows t ++ [r']; lt_next := fresh_id t + 1;
                      lt_faults := tail (lt_faults t) |});
  tbl_create_all l t :=
    if lt_fault t then (None, lt_step t (lt_rows t))
    else let l' := number_rows (fresh_id t) l in
         (Some l', {| lt_rows := lt_rows t ++ l'; lt_next := fresh_id t + Z.of_nat (List.length l);
                      lt_faults := tail (lt_faults t) |});
  tbl_save r t :=
    if lt_fault t then (false, lt_step t (lt_rows t))
    else (true, lt_step t (replace_row r (lt_rows t)));
  tbl_delete P t :=
    if lt_fault t then (false, lt_step t (lt_rows t))
    else (true, lt_step t (List.filter (fun r => negb (P r)) (lt_rows t)));
  tbl_update P f t :=
    if lt_fault t then (false, lt_step t (lt_rows t))
    else (true, lt_step t (map (fun r => if P r then f r else r) (lt_rows t)));
  tbl_healthy t := lt_faults t = [];
}.

End list_table.

(** Primary keys stay distinct. *)
Definition ids_ok {R} `{HasID R} (rows : list R) : Prop := NoDup (map get_id rows).

(** ** Facts *)

Section list_table_laws.
Context {R : Type} `{HasID R}.

Lemma fresh_id_gt (t : ListTable R) :
  0 < fresh_id t /\ Forall (fun x => get_id x < fresh_id t) (lt_rows t).
Proof.
  unfold fresh_id.
  assert (forall l, Z.max 1 (lt_next t) <= foldr (fun r m => Z.max (get_id r + 1) m) (Z.max 1 (lt_next t)) l /\
    Forall (fun x => get_id x < foldr (fun r m => Z.max (get_id r + 1) m) (Z.max 1 (lt_next t)) l) l) as Hl.
  { induction l as [|r l [IH1 IH2]]; simpl; [split; [lia|constructor]|].
    split; [lia|]. constructor; [lia|]. eapply Forall_impl; [exact IH2|]. simpl. intros. lia. }
  destruct (Hl (lt_rows t)) as [H1 H2]. split; [lia|done].
Qed.

Lemma number_rows_spec i (l : list R) :
  0 < i ->
  Forall2 (fun r r' => r' = set_id (get_id r') r /\ 0 < get_id r') l (number_rows i l) /\
  Forall (fun r' => i <= get_id r') (number_rows i l) /\ NoDup (map get_id (number_rows i l)).
Proof.
  revert i. induction l as [|r l IH]; intros i Hi; simpl; [repeat constructor|].
  destruct (IH (i + 1) ltac:(lia)) as (H1 & H2 & H3). rewrite get_set_id. split; [|split].
  - constructor; [by rewrite get_set_id|done].
  - constructor; [by rewrite get_set_id|]. eapply Forall_impl; [exact H2|]. simpl. intros. lia.
  - apply NoDup_cons. split; [|done]. intros Hin. apply list_elem_of_fmap in Hin as (x & Hx & Hxl).
    rewrite Forall_forall in H2. specialize (H2 x Hxl). lia.
Qed.

#[export] Instance list_table_laws : TableLaws (ListTable R) R.
Proof.
  split; simpl; intros *;
    try (unfold lt_fault; intros Hh; rewrite Hh; simpl; rewrite ?Hh; by eauto);
    try match goal with |- context [lt_fault ?t] => pose proof (fresh_id_gt t) as [? Hgt]; destruct (lt_fault t) end;
    simpl; try congruence; try done.
  - intros [= <-]. rewrite get_set_id. repeat split; try done.
    eapply Forall_impl; [exact Hgt|]. simpl. intros. lia.
  - intros [= <-]. destruct (number_rows_spec (fresh_id t) l) as (? & Hge & ?); [done|].
    repeat split; try done. eapply Forall_impl; [exact Hgt|]. simpl. intros x Hx.
    eapply Forall_impl; [exact Hge|]. simpl. intros. lia.
Qed.

End list_table_laws.

Section table_facts.
Context {T R : Type} `{TableLaws T R}.

Lemma first_rows P t : tbl_rows (tbl_first P t).2 = tbl_rows t.
Proof.
  unfold tbl_first. pose proof (find_rows P t). by destruct (tbl_find P t).
Qed.

Lemma first_some P t r :
  (tbl_first P t).1 = Some r -> r ∈ tbl_rows t /\ P r = true.
Proof.
  unfold tbl_first. intros Hf. pose proof (find_result P t) as Hr.
  destruct (tbl_find P t) as [[[|r' l]|] t']; simpl in *; simplify_eq.
  specialize (Hr _ eq_refl).
  assert (In r (List.filter P (tbl_rows t))) as Hin by (rewrite <- Hr; by left).
  apply filter_In in Hin as [Hin ?]. by rewrite list_elem_of_In.
Qed.

(** The same laws, with the outcome on a healthy database made explicit. *)
Lemma find_healthy P t :
  tbl_healthy t ->
  (tbl_find P t).1 = Some (List.filter P (tbl_rows t)) /\
  tbl_rows (tbl_find P t).2 = tbl_rows t /\ tbl_healthy (tbl_find P t).2.
Proof.
  intros Ht. destruct (healthy_find P t Ht) as [[l Hl] ?].
  split; [|split; [apply find_rows|done]]. rewrite Hl. f_equal. by apply find_result.
Qed.

Lemma first_healthy P t :
  tbl_healthy t ->
  (tbl_first P t).1 = head (List.filter P (tbl_rows t)) /\
  tbl_rows (tbl_first P t).2 = tbl_rows t /\ tbl_healthy (tbl_first P t).2.
Proof.
  intros Ht. destruct (find_healthy P t Ht) as (Hf & Hr & Hh).
  unfold tbl_first. destruct (tbl_find P t) as [o t']; simpl in *. subst o.
  split; [by destruct (List.filter P (tbl_rows t))|done].
Qed.

(** The one row that matches is found. *)
Lemma first_only P t x :
  tbl_healthy t -> x ∈ tbl_rows t -> P x = true -> (forall y, y ∈ tbl_rows t -> P y = true -> y = x) ->
  (tbl_first P t).1 = Some x.
Proof.
  intros Ht Hx Hp Hu. destruct (first_healthy P t Ht) as [-> _].
  assert (x ∈ List.filter P (tbl_rows t)) as Hin by (rewrite !list_elem_of_In in *; by apply filter_In).
  destruct (List.filter P (tbl_rows t)) as [|y l] eqn:E; [by apply elem_of_nil in Hin|]. simpl. f_equal.
  assert (In y (List.filter P (tbl_rows t))) as Hy by (rewrite E; by left).
  apply filter_In in Hy as [??]. apply Hu; [by apply list_elem_of_In|done].
Qed.

Lemma save_healthy r t :
  tbl_healthy t ->
  (tbl_save r t).1 = true /\ tbl_rows (tbl_save r t).2 = replace_row r (tbl_rows t) /\
  tbl_healthy (tbl_save r t).2.
Proof. intros Ht. destruct (healthy_save r t Ht) as [??]. auto using save_ok. Qed.

Lemma delete_healthy P t :
  tbl_healthy t ->
  (tbl_delete P t).1 = true /\
  tbl_rows (tbl_delete P t).2 = List.filter (fun r => negb (P r)) (tbl_rows t) /\
  tbl_healthy (tbl_delete P t).2.
Proof. intros Ht. destruct (healthy_delete P t Ht) as [??]. auto using delete_ok. Qed.

Lemma update_healthy P f t :
  tbl_healthy t ->
  (tbl_update P f t).1 = true /\
  tbl_rows (tbl_update P f t).2 = map (fun r => if P r then f r else r) (tbl_rows t) /\
  tbl_healthy (tbl_update P f t).2.
Proof. intros Ht. destruct (healthy_update P f t Ht) as [??]. auto using update_ok. Qed.

Lemma create_healthy r t :
  tbl_healthy t -> exists r',
  (tbl_create r t).1 = Some r' /\ tbl_rows (tbl_create r t).2 = tbl_rows t ++ [r'] /\
  r' = set_id (get_id r') r /\ 0 < get_id r' /\
  Forall (fun x => get_id x <> get_id r') (tbl_rows t) /\ tbl_healthy (tbl_create r t).2.
Proof.
  intros Ht. destruct (healthy_create r t Ht) as [[r' Hr'] ?].
  destruct (create_ok r t r' Hr') as (?&?&?&?). eauto 10.
Qed.

Lemma replace_row_elem (r x : R) rows :
  x ∈ replace_row r rows -> x = r \/ x ∈ rows.
Proof.
  unfold replace_row. destruct (existsb _ rows).
  - rewrite list_elem_of_fmap. intros (y & -> & ?). destruct (_ =? _); auto.
  - rewrite elem_of_app, list_elem_of_singleton. tauto.
Qed.

End table_facts.

#[export] Hint Rewrite @find_rows @first_rows using (typeclasses eauto) : gofax.

(** Distinct primary keys. *)
Section ids.
Context {R : Type} `{HasID R}.
Implicit Types rows : list R.

Lemma ids_ok_inj rows x y :
  ids_ok rows -> x ∈ rows -> y ∈ rows -> get_id x = get_id y -> x = y.
Proof.
  unfold ids_ok. induction rows as [|z rows IH]; simpl; intros Hn Hx Hy He; [set_solver|].
  apply NoDup_cons in Hn as [Hz Hn].
  apply elem_of_cons in Hx as [->|Hx]; apply elem_of_cons in Hy as [->|Hy]; auto.
  - destruct Hz. rewrite He. by apply (list_elem_of_fmap_2 get_id).
  - destruct Hz. rewrite <- He. by apply (list_elem_of_fmap_2 get_id).
Qed.

Lemma ids_ok_app rows r :
  ids_ok rows -> Forall (fun x => get_id x <> get_id r) rows -> ids_ok (rows ++ [r]).
Proof.
  unfold ids_ok. rewrite map_app. intros Hn Hf. apply NoDup_app. split; [done|].
  split; [|apply NoDup_singleton]. intros i Hi Hr. simpl in Hr.
  apply list_elem_of_singleton in Hr as ->. apply list_elem_of_fmap in Hi as (x & ? & Hx).
  rewrite Forall_forall in Hf. by apply (Hf x Hx).
Qed.

Lemma ids_ok_filter P rows : ids_ok rows -> ids_ok (List.filter P rows).
Proof.
  unfold ids_ok. induction rows as [|x rows IH]; simpl; [done|].
  rewrite NoDup_cons. intros [Hx Hn]. destruct (P x); simpl; [|auto].
  apply NoDup_cons. split; [|auto]. intros Hin. apply Hx.
  apply list_elem_of_fmap in Hin as (y & -> & Hy). apply (list_elem_of_fmap_2 get_id).
  rewrite list_elem_of_In in Hy |- *. by apply filter_In in Hy as [??].
Qed.

Lemma map_id_replace (r : R) rows :
  map get_id (map (fun x => if get_id x =? get_id r then r else x) rows) = map get_id rows.
Proof.
  rewrite map_map. apply map_ext. intros x.
  destruct (get_id x =? get_id r) eqn:E; [|done]. by apply Z.eqb_eq in E.
Qed.

Lemma replace_row_ids r rows : ids_ok rows -> ids_ok (replace_row r rows).
Proof.
  intros Hn. unfold replace_row. destruct (existsb _ rows) eqn:E.
  - unfold ids_ok. by rewrite map_id_replace.
  - apply ids_ok_app; [done|]. apply Forall_forall. intros x Hx Hi.
    apply not_true_iff_false in E. apply E. apply existsb_exists. exists x.
    split; [by apply list_elem_of_In|]. by apply Z.eqb_eq.
Qed.

Lemma replace_row_new r rows : r ∈ replace_row r rows.
Proof.
  unfold replace_row. destruct (existsb _ rows) eqn:E; [|set_solver].
  apply existsb_exists in E as (x & Hx & Hi). apply list_elem_of_fmap.
  exists x. rewrite Hi. by rewrite list_elem_of_In.
Qed.

Lemma replace_row_old r x rows :
  x ∈ rows -> get_id x <> get_id r -> x ∈ replace_row r rows.
Proof.
  intros Hx Hi. unfold replace_row. destruct (existsb _ rows); [|set_solver].
  apply list_elem_of_fmap. exists x. by rewrite (proj2 (Z.eqb_neq _ _)).
Qed.

End ids.

#[export] Hint Resolve replace_row_ids replace_row_new ids_ok_filter : gofax.

(** ** Transactions *)

(** What a rollback makes of a table: the rows it had when the transaction
    began. *)
Class TableTx (T R : Type) `{Table T R} := { tbl_restore : T -> T -> T }.
Class TableTxLaws (T R : Type) `{TableTx T R} : Prop := {
  restore_rows : forall t0 t, tbl_rows (tbl_restore t0 t) = tbl_rows t0;
  restore_healthy : forall t0 t, tbl_healthy t -> tbl_healthy (tbl_restore t0 t);
}.

#[export] Instance list_table_tx {R} `{HasID R} : TableTx (ListTable R) R := {
  tbl_restore t0 t := {| lt_rows := lt_rows t0; lt_next := lt_next t; lt_faults := lt_faults t |} }.
#[export] Instance list_table_tx_laws {R} `{HasID R} : TableTxLaws (ListTable R) R.
Proof. by split. Qed.

(** ** Join tables *)

(** Rows without a key of their own, each stored at most once. *)
Class Relation (T R : Type) := {
  rel_rows : T -> list R;
  rel_find : (R -> bool) -> T -> option (list R) * T;
  rel_insert : R -> T -> bool * T;
  rel_delete : (R -> bool) -> T -> bool * T;
  rel_restore : T -> T -> T;
  rel_healthy : T -> Prop;
}.

Class RelationLaws (T R : Type) `{Relation T R} : Prop := {
  rel_find_rows : forall P t, rel_rows (rel_find P t).2 = rel_rows t;
  rel_find_result : forall P t l, (rel_find P t).1 = Some l -> l = List.filter P (rel_rows t);
  rel_insert_ok : forall r t, (rel_insert r t).1 = true ->
    rel_rows (rel_insert r t).2 = rel_rows t ++ [r] /\ r ∉ rel_rows t;
  rel_insert_err : forall r t, (rel_insert r t).1 = false -> rel_rows (rel_insert r t).2 = rel_rows t;
  rel_delete_ok : forall P t, (rel_delete P t).1 = true ->
    rel_rows (rel_delete P t).2 = List.filter (fun r => negb (P r)) (rel_rows t);
  rel_delete_err : forall P t, (rel_delete P t).1 = false -> rel_rows (rel_delete P t).2 = rel_rows t;
  rel_restore_rows : forall t0 t, rel_rows (rel_restore t0 t) = rel_rows t0;
  rel_healthy_find : forall P t, rel_healthy t -> is_Some (rel_find P t).1 /\ rel_healthy (rel_find P t).2;
  rel_healthy_insert : forall r t, rel_healthy t ->
    (r ∉ rel_rows t -> (rel_insert r t).1 = true) /\ rel_healthy (rel_insert r t).2;
  rel_healthy_delete : forall P t, rel_healthy t -> (rel_delete P t).1 = true /\ rel_healthy (rel_delete P t).2;
  rel_healthy_restore : forall t0 t, rel_healthy t -> rel_healthy (rel_restore t0 t);
}.

Record ListRel (R : Type) := { lr_rows : list R; lr_faults : list bool }.
Arguments lr_rows {R} _.
Arguments lr_faults {R} _.

Section list_rel.
Context {R : Type} `{!EqDecision R}.

Definition lr_fault (t : ListRel R) : bool := match lr_faults t with b :: _ => b | [] => false end.
Definition lr_step (t : ListRel R) (rows : list R) : ListRel R :=
  {| lr_rows := rows; lr_faults := tail (lr_faults t) |}.

#[export] Instance list_rel : Relation (ListRel R) R := {
  rel_rows := lr_rows;
  rel_find P t := (if lr_fault t then None else Some (List.filter P (lr_rows t)), lr_step t (lr_rows t));
  rel_insert r t :=
    if lr_fault t || bool_decide (r ∈ lr_rows t) then (false, lr_step t (lr_rows t))
    else (true, lr_step t (lr_rows t ++ [r]));
  rel_delete P t :=
    if lr_fault t then (false, lr_step t (lr_rows t))
    else (true, lr_step t (List.filter (fun r => negb (P r)) (lr_rows t)));
  rel_restore t0 t := {| lr_rows := lr_rows t0; lr_faults := lr_faults t |};
  rel_healthy t := lr_faults t = [];
}.

#[export] Instance list_rel_laws : RelationLaws (ListRel R) R.
Proof.
  split; simpl; intros *; try (unfold lr_fault; intros Hh; rewrite Hh; simpl; rewrite ?Hh; by eauto);
    try (match goal with t : ListRel R |- _ => destruct (lr_fault t) end; simpl; congruence); try done.
  - destruct (lr_fault t); simpl; [done|]. case_bool_decide; simpl; [done|auto].
  - destruct (lr_fault t); simpl; [done|]. by case_bool_decide.
  - unfold lr_fault. intros Hh. rewrite Hh. simpl. case_bool_decide; simpl; rewrite Hh; [|done]. by split; [intros []|].
Qed.

End list_rel.

(** ** Rows that may bring their own key

    gorm's [Create] keeps a key the row brings, and is refused when it is taken;
    its [Save] creates a row without a key and otherwise replaces the row of that
    key, or inserts it. Both give the row as stored, or an error. *)
Section keys.
Context {T R : Type} `{Table T R}.

Definition gorm_create (r : R) (t : T) : option R * T :=
  if get_id r =? 0 then tbl_create r t
  else if existsb (fun x => get_id x =? get_id r) (tbl_rows t) then (None, t)
  else let '(ok, t1) := tbl_save r t in (if ok then Some r else None, t1).

Definition gorm_save (r : R) (t : T) : option R * T :=
  if get_id r =? 0 then tbl_create r t
  else let '(ok, t1) := tbl_save r t in (if ok then Some r else None, t1).

Context `{!TableLaws T R}.

Lemma append_replace (r : R) rows : Forall (fun x => get_id x <> get_id r) rows -> rows ++ [r] = replace_row r rows.
Proof.
  intros Hf. unfold replace_row. destruct (existsb _ rows) eqn:E; [|done]. apply existsb_exists in E as (x & Hx & Hi).
  rewrite Forall_forall in Hf. apply Z.eqb_eq in Hi. by destruct (Hf x); [apply list_elem_of_In|].
Qed.

(** A new row: its key is the one it brought, or a fresh one. *)
Lemma gorm_create_rows (r : R) (t : T) :
  match (gorm_create r t).1 with
  | Some r' => (get_id r <> 0 -> r' = r) /\ (get_id r = 0 -> r' = set_id (get_id r') r /\ 0 < get_id r') /\
      Forall (fun x => get_id x <> get_id r') (tbl_rows t) /\ tbl_rows (gorm_create r t).2 = tbl_rows t ++ [r']
  | None => tbl_rows (gorm_create r t).2 = tbl_rows t
  end.
Proof.
  unfold gorm_create. destruct (Z.eqb_spec (get_id r) 0) as [Hz|Hz].
  - pose proof (create_ok r t) as Hc. pose proof (create_err r t) as He.
    destruct (tbl_create r t) as [[r'|] t1]; simpl in *; [|auto].
    destruct (Hc r' eq_refl) as (Hrows & Hr' & Hpos & Hfresh). by split_and!.
  - destruct (existsb _ (tbl_rows t)) eqn:E; [done|].
    assert (Forall (fun x => get_id x <> get_id r) (tbl_rows t)) as Hf.
    { apply Forall_forall. intros x Hx Hi. apply not_true_iff_false in E. apply E, existsb_exists. exists x.
      split; [by apply list_elem_of_In|by apply Z.eqb_eq]. }
    pose proof (save_ok r t) as Ho. pose proof (save_err r t) as He. destruct (tbl_save r t) as [[|] t1]; simpl in *; [|auto].
    split_and!; [done|done|done|]. rewrite (append_replace r _ Hf). auto.
Qed.

(** A row created or replaced. *)
Lemma gorm_save_rows (r : R) (t : T) :
  match (gorm_save r t).1 with
  | Some r' => (get_id r <> 0 -> r' = r) /\
      (get_id r = 0 -> r' = set_id (get_id r') r /\ 0 < get_id r' /\ Forall (fun x => get_id x <> get_id r') (tbl_rows t)) /\
      tbl_rows (gorm_save r t).2 = replace_row r' (tbl_rows t)
  | None => tbl_rows (gorm_save r t).2 = tbl_rows t
  end.
Proof.
  unfold gorm_save. destruct (Z.eqb_spec (get_id r) 0) as [Hz|Hz].
  - pose proof (create_ok r t) as Hc. pose proof (create_err r t) as He.
    destruct (tbl_create r t) as [[r'|] t1]; simpl in *; [|auto].
    destruct (Hc r' eq_refl) as (Hrows & Hr' & Hpos & Hfresh). split_and!; [done|done|]. by rewrite Hrows, append_replace.
  - pose proof (save_ok r t) as Ho. pose proof (save_err r t) as He. destruct (tbl_save r t) as [[|] t1]; simpl in *; [|auto].
    split_and!; [done|done|auto].
Qed.

(** While the database is reachable only a key that is taken is refused. *)
Lemma gorm_create_healthy (r : R) (t : T) : tbl_healthy t ->
  ((gorm_create r t).1 = None <-> get_id r <> 0 /\ exists x, x ∈ tbl_rows t /\ get_id x = get_id r) /\
  tbl_healthy (gorm_create r t).2.
Proof.
  intros Ht. unfold gorm_create. destruct (Z.eqb_spec (get_id r) 0) as [Hz|Hz].
  - destruct (healthy_create r t Ht) as [[x Hx] ?]. rewrite Hx. split; [|done]. by split; [|intros [? _]].
  - destruct (existsb _ (tbl_rows t)) eqn:E.
    + apply existsb_exists in E as (x & Hx & Hi). split; [|done]. split; [|done]. intros _. split; [done|]. exists x.
      split; [by apply list_elem_of_In|by apply Z.eqb_eq].
    + destruct (healthy_save r t Ht) as [Ho ?]. destruct (tbl_save r t) as [ok t1]; simpl in *. subst ok. split; [|done].
      split; [done|]. intros (_ & x & Hx & Hi). apply not_true_iff_false in E. destruct E. apply existsb_exists. exists x.
      split; [by apply list_elem_of_In|by apply Z.eqb_eq].
Qed.

Lemma gorm_save_healthy (r : R) (t : T) : tbl_healthy t ->
  is_Some (gorm_save r t).1 /\ tbl_healthy (gorm_save r t).2.
Proof.
  intros Ht. unfold gorm_save. destruct (_ =? 0); [by apply healthy_create|].
  destruct (healthy_save r t Ht) as [Ho ?]. destruct (tbl_save r t) as [ok t1]; simpl in *. by subst ok.
Qed.
End keys.
