(* ===== verification/FaxResult.v ===== *)
(** * FaxResult: merging FreeSWITCH events into a fax result
    ([gofaxlib/faxresult.go]).

    An event is its header map; [ev_get] is [Event.Get] ("" for a missing
    header). [AddEvent] is the whole event switch, [harvestResultVars] the
    merge of the hangup variable dump. Log lines have no effect on the result
    and are dropped. Times are the reading of [time.Now()] at the event. *)

From S2P Require Import Prelude.

(** ** Resolutions *)

Record Resolution := { res_X : Z; res_Y : Z }.

Definition Resolution_String (r : Resolution) : string :=
  dec_string (res_X r) +:+ String "x" (dec_string (res_Y r)).

Definition parseResolution (resstr : string) : option Resolution :=
  match str_cut "x" resstr with
  | (_, None) => None
  | (p0, Some p1) =>
      match atoi p0 with
      | None => None
      | Some x =>
          match atoi p1 with
          | None => None
          | Some y => Some {| res_X := uint_of_int x; res_Y := uint_of_int y |}
          end
      end
  end.

Definition zero_resolution : Resolution := {| res_X := 0; res_Y := 0 |}.

(** ** The result record *)

Record PageResult := {
  pg_Ts : Z; pg_Page : Z; pg_BadRows : Z; pg_LongestBadRowRun : Z;
  pg_Encoding : Z; pg_EncodingName : string;
  pg_ImagePixelSize : Resolution; pg_FilePixelSize : Resolution;
  pg_ImageResolution : Resolution; pg_FileResolution : Resolution;
  pg_ImageSize : Z;
}.

Record FaxResult := {
  fr_UUID : Z;
  fr_StartTs : Z; fr_EndTs : Z;
  fr_HangupCause : string;
  fr_TotalPages : Z; fr_TransferredPages : Z;
  fr_Ecm : bool; fr_EcmRequested : bool;
  fr_RemoteID : string; fr_LocalID : string;
  fr_ResultCode : Z; fr_ResultText : string;
  fr_Success : bool;
  fr_TransferRate : Z; fr_NegotiateCount : Z;
  fr_T38Status : string; fr_V17Disabled : bool;
  fr_bridge : bool;
  fr_PageResults : list PageResult;
  fr_BadRows : Z; fr_LongestBadRowRun : Z;
  fr_Encoding : Z; fr_EncodingName : string; fr_ImageSize : Z;
  fr_ImageResolution : option Resolution; fr_FileImageResolution : option Resolution;
  fr_ImagePixelSize : option Resolution; fr_FileImagePixelSize : option Resolution;
  fr_RemoteCountry : string; fr_RemoteVendor : string; fr_RemoteModel : string;
  fr_TraceFile : string;
  fr_ResultVars : gmap string string;
  fr_BridgeALegT38 : string; fr_BridgeBLegT38 : string;
}.

Definition NewFaxResult (uuid : Z) (bridge : bool) : FaxResult := {|
  fr_UUID := uuid; fr_StartTs := time_zero; fr_EndTs := time_zero; fr_HangupCause := "";
  fr_TotalPages := 0; fr_TransferredPages := 0; fr_Ecm := false; fr_EcmRequested := false;
  fr_RemoteID := ""; fr_LocalID := ""; fr_ResultCode := 0; fr_ResultText := "";
  fr_Success := false; fr_TransferRate := 0; fr_NegotiateCount := 0; fr_T38Status := "";
  fr_V17Disabled := false; fr_bridge := bridge; fr_PageResults := [];
  fr_BadRows := 0; fr_LongestBadRowRun := 0; fr_Encoding := 0; fr_EncodingName := "";
  fr_ImageSize := 0; fr_ImageResolution := None; fr_FileImageResolution := None;
  fr_ImagePixelSize := None; fr_FileImagePixelSize := None; fr_RemoteCountry := "";
  fr_RemoteVendor := ""; fr_RemoteModel := ""; fr_TraceFile := ""; fr_ResultVars := ∅;
  fr_BridgeALegT38 := ""; fr_BridgeBLegT38 := "" |}.

(** [&FaxResult{}]. *)
Definition empty_result : FaxResult := NewFaxResult uuid_nil false.

(** ** Events *)

Definition Event : Type := gmap string string.
Definition ev_get (ev : Event) (key : string) : string := default "" ((ev : gmap string string) !! key).

#[global] Arguments ev_get : simpl never.

(** [if n, err := strconv.Atoi(v); err == nil { dst = uint(n) }] and friends:
    the old value stays when parsing fails. *)
Definition uint_or (v : string) (old : Z) : Z :=
  match atoi v with Some n => uint_of_int n | None => old end.
Definition int_or (v : string) (old : Z) : Z :=
  match atoi v with Some n => n | None => old end.
Definition res_or (v : string) (old : option Resolution) : option Resolution :=
  match parseResolution v with Some r => Some r | None => old end.
Definition page_res_or (v : string) : Resolution := default zero_resolution (parseResolution v).
Definition nonempty_or (v old : string) : string := if (v =? "")%string then old else v.
Definition first_nonempty (old v : string) : string := if (old =? "")%string then v else old.

(** ** [harvestResultVars] *)

Definition faxResultVarNames : list string :=
  ["fax_success"; "fax_result_code"; "fax_result_text"; "fax_filename";
   "fax_document_transferred_pages"; "fax_document_total_pages";
   "fax_image_resolution"; "fax_file_image_resolution"; "fax_image_pixel_size";
   "fax_file_image_pixel_size"; "fax_image_size"; "fax_bad_rows";
   "fax_longest_bad_row_run"; "fax_encoding"; "fax_encoding_name";
   "fax_transfer_rate"; "fax_ecm_used"; "fax_ecm_requested"; "fax_t38_status";
   "fax_v17_disabled"; "fax_local_station_id"; "fax_remote_station_id";
   "fax_remote_country"; "fax_remote_vendor"; "fax_remote_model"; "fax_trace_file"].

(** The [switch name] of the loop body. *)
Definition harvest_var (name v : string) (f : FaxResult) : FaxResult :=
  if (name =? "fax_success")%string then
    if (v =? "1")%string then f <| fr_Success := true |> else f
  else if (name =? "fax_result_code")%string then f <| fr_ResultCode := int_or v (fr_ResultCode f) |>
  else if (name =? "fax_result_text")%string then f <| fr_ResultText := v |>
  else if (name =? "fax_document_transferred_pages")%string then
    f <| fr_TransferredPages := uint_or v (fr_TransferredPages f) |>
  else if (name =? "fax_document_total_pages")%string then
    f <| fr_TotalPages := uint_or v (fr_TotalPages f) |>
  else if (name =? "fax_image_resolution")%string then
    f <| fr_ImageResolution := res_or v (fr_ImageResolution f) |>
  else if (name =? "fax_file_image_resolution")%string then
    f <| fr_FileImageResolution := res_or v (fr_FileImageResolution f) |>
  else if (name =? "fax_image_pixel_size")%string then
    f <| fr_ImagePixelSize := res_or v (fr_ImagePixelSize f) |>
  else if (name =? "fax_file_image_pixel_size")%string then
    f <| fr_FileImagePixelSize := res_or v (fr_FileImagePixelSize f) |>
  else if (name =? "fax_image_size")%string then f <| fr_ImageSize := uint_or v (fr_ImageSize f) |>
  else if (name =? "fax_bad_rows")%string then f <| fr_BadRows := uint_or v (fr_BadRows f) |>
  else if (name =? "fax_longest_bad_row_run")%string then
    f <| fr_LongestBadRowRun := uint_or v (fr_LongestBadRowRun f) |>
  else if (name =? "fax_encoding")%string then f <| fr_Encoding := int_or v (fr_Encoding f) |>
  else if (name =? "fax_encoding_name")%string then f <| fr_EncodingName := v |>
  else if (name =? "fax_transfer_rate")%string then
    f <| fr_TransferRate := uint_or v (fr_TransferRate f) |>
  else if (name =? "fax_ecm_used")%string then
    if (v =? "on")%string then f <| fr_Ecm := true |> else f
  else if (name =? "fax_ecm_requested")%string then
    if (v =? "1")%string || (v =? "true")%string then f <| fr_EcmRequested := true |> else f
  else if (name =? "fax_t38_status")%string then
    f <| fr_T38Status := first_nonempty (fr_T38Status f) v |>
  else if (name =? "fax_v17_disabled")%string then
    if (v =? "1")%string then f <| fr_V17Disabled := true |> else f
  else if (name =? "fax_local_station_id")%string then
    f <| fr_LocalID := first_nonempty (fr_LocalID f) v |>
  else if (name =? "fax_remote_station_id")%string then
    f <| fr_RemoteID := first_nonempty (fr_RemoteID f) v |>
  else if (name =? "fax_remote_country")%string then f <| fr_RemoteCountry := v |>
  else if (name =? "fax_remote_vendor")%string then f <| fr_RemoteVendor := v |>
  else if (name =? "fax_remote_model")%string then f <| fr_RemoteModel := v |>
  else if (name =? "fax_trace_file")%string then f <| fr_TraceFile := v |>
  else f.

Definition harvest_step (ev : Event) (f : FaxResult) (name : string) : FaxResult :=
  let v := ev_get ev ("Variable_" +:+ name) in
  if (v =? "")%string then f
  else harvest_var name v (f <| fr_ResultVars ::= insert name v |>).

Definition harvestResultVars (ev : Event) (f : FaxResult) : FaxResult :=
  foldl (harvest_step ev) f faxResultVarNames.

(** ** Bridged legs *)

Definition t38_sdp_line (l : string) : bool :=
  let line := to_lower (trim_space l) in
  has_prefix line "m=image" && (str_contains line "udptl" || str_contains line "t38").

Definition newline : ascii := "010".

Definition detectT38InSDP (sdp : string) : bool := existsb t38_sdp_line (str_split newline sdp).

(** The new value of [*dst]. *)
Definition harvestBridgeLegT38 (ev : Event) (dst : string) : string :=
  if negb (dst =? "")%string then dst
  else
    let remote := ev_get ev "Variable_switch_r_sdp" in
    let local := ev_get ev "Variable_switch_l_sdp" in
    if (remote =? "")%string && (local =? "")%string then dst
    else if negb (detectT38InSDP remote) && negb (detectT38InSDP local) then dst
    else "negotiated".

(** ** [AddEvent] *)

Definition add_callstate (now : Z) (ev : Event) (f : FaxResult) : FaxResult :=
  let callstate := ev_get ev "Channel-Call-State" in
  let f1 := if (callstate =? "ACTIVE")%string then f <| fr_StartTs := now |> else f in
  if (callstate =? "HANGUP")%string
  then f1 <| fr_EndTs := now |> <| fr_HangupCause := ev_get ev "Hangup-Cause" |> else f1.

Definition add_hangup (ev : Event) (f : FaxResult) : FaxResult :=
  let f1 := harvestResultVars ev f in
  if fr_bridge f1
  then f1 <| fr_BridgeALegT38 := harvestBridgeLegT38 ev (fr_BridgeALegT38 f1) |> else f1.

Definition add_negotiation (ev : Event) (f : FaxResult) : FaxResult :=
  f <| fr_NegotiateCount ::= fun n => (n + 1) mod 2 ^ 64 |>
    <| fr_Ecm ::= orb (ev_get ev "Fax-Ecm-Used" =? "on")%string |>
    <| fr_EcmRequested ::= orb (ev_get ev "Variable_fax_ecm_requested" =? "1")%string |>
    <| fr_RemoteID := ev_get ev "Fax-Remote-Station-Id" |>
    <| fr_LocalID := ev_get ev "Fax-Local-Station-Id" |>
    <| fr_T38Status := ev_get ev "Fax-T38-Status" |>
    <| fr_V17Disabled ::= orb (ev_get ev "Variable_fax_v17_disabled" =? "1")%string |>
    <| fr_RemoteCountry ::= nonempty_or (ev_get ev "Variable_fax_remote_country") |>
    <| fr_RemoteVendor ::= nonempty_or (ev_get ev "Variable_fax_remote_vendor") |>
    <| fr_RemoteModel ::= nonempty_or (ev_get ev "Variable_fax_remote_model") |>
    <| fr_TransferRate ::= uint_or (ev_get ev "Fax-Transfer-Rate") |>.

Definition add_page (now : Z) (ev : Event) (f : FaxResult) : FaxResult :=
  let f1 := f <| fr_TransferredPages ::= uint_or (ev_get ev "Fax-Document-Transferred-Pages") |> in
  let pr := {|
    pg_Ts := now; pg_Page := fr_TransferredPages f1;
    pg_BadRows := uint_or (ev_get ev "Fax-Bad-Rows") 0;
    pg_LongestBadRowRun := uint_or (ev_get ev "Fax-Longest-Bad-Row-Run") 0;
    pg_Encoding := int_or (ev_get ev "Fax-Encoding") 0;
    pg_EncodingName := ev_get ev "Fax-Encoding-Name";
    pg_ImagePixelSize := page_res_or (ev_get ev "Fax-Image-Pixel-Size");
    pg_FilePixelSize := page_res_or (ev_get ev "Fax-File-Image-Pixel-Size");
    pg_ImageResolution := page_res_or (ev_get ev "Fax-Image-Resolution");
    pg_FileResolution := page_res_or (ev_get ev "Fax-File-Image-Resolution");
    pg_ImageSize := uint_or (ev_get ev "Fax-Image-Size") 0 |} in
  f1 <| fr_PageResults ::= fun l => l ++ [pr] |>.

Definition add_final (ev : Event) (f : FaxResult) : FaxResult :=
  f <| fr_TotalPages ::= uint_or (ev_get ev "Fax-Document-Total-Pages") |>
    <| fr_TransferredPages ::= uint_or (ev_get ev "Fax-Document-Transferred-Pages") |>
    <| fr_Ecm ::= orb (ev_get ev "Fax-Ecm-Used" =? "on")%string |>
    <| fr_RemoteID := ev_get ev "Fax-Remote-Station-Id" |>
    <| fr_ResultCode ::= int_or (ev_get ev "Fax-Result-Code") |>
    <| fr_ResultText := ev_get ev "Fax-Result-Text" |>
    <| fr_Success ::= orb (ev_get ev "Fax-Success" =? "1")%string |>
    <| fr_TransferRate ::= uint_or (ev_get ev "Fax-Transfer-Rate") |>
    <| fr_BadRows ::= uint_or (ev_get ev "Fax-Bad-Rows") |>
    <| fr_LongestBadRowRun ::= uint_or (ev_get ev "Fax-Longest-Bad-Row-Run") |>
    <| fr_Encoding ::= int_or (ev_get ev "Fax-Encoding") |>
    <| fr_EncodingName ::= nonempty_or (ev_get ev "Fax-Encoding-Name") |>
    <| fr_ImageSize ::= uint_or (ev_get ev "Fax-Image-Size") |>
    <| fr_ImageResolution ::= res_or (ev_get ev "Fax-Image-Resolution") |>
    <| fr_FileImageResolution ::= res_or (ev_get ev "Fax-File-Image-Resolution") |>
    <| fr_ImagePixelSize ::= res_or (ev_get ev "Fax-Image-Pixel-Size") |>
    <| fr_FileImagePixelSize ::= res_or (ev_get ev "Fax-File-Image-Pixel-Size") |>.

Definition negotiation_events : list string :=
  ["spandsp::rxfaxnegociateresult"; "spandsp::txfaxnegociateresult"].
Definition page_events : list string := ["spandsp::rxfaxpageresult"; "spandsp::txfaxpageresult"].
Definition result_events : list string := ["spandsp::rxfaxresult"; "spandsp::txfaxresult"].

Definition add_custom (now : Z) (ev : Event) (f : FaxResult) : FaxResult :=
  let subclass := ev_get ev "Event-Subclass" in
  if str_mem subclass negotiation_events
  then add_negotiation ev f
  else if str_mem subclass page_events
  then add_page now ev f
  else if str_mem subclass result_events
  then add_final ev f
  else f.

Definition AddEvent (now : Z) (ev : Event) (f : FaxResult) : FaxResult :=
  let name := ev_get ev "Event-Name" in
  if (name =? "CHANNEL_CALLSTATE")%string then add_callstate now ev f
  else if (name =? "CHANNEL_HANGUP")%string then add_hangup ev f
  else if (name =? "CUSTOM")%string then add_custom now ev f
  else f.

Definition AddBridgeBLegEvent (ev : Event) (f : FaxResult) : FaxResult :=
  if negb (fr_bridge f) || negb (ev_get ev "Event-Name" =? "CHANNEL_HANGUP")%string then f
  else f <| fr_BridgeBLegT38 := harvestBridgeLegT38 ev (fr_BridgeBLegT38 f) |>.

(** The event loops feed a-leg events to [AddEvent] and b-leg events to
    [AddBridgeBLegEvent], each at its arrival time. *)
Inductive leg_event := ALeg (now : Z) (ev : Event) | BLeg (ev : Event).

Definition feed (f : FaxResult) (e : leg_event) : FaxResult :=
  match e with ALeg now ev => AddEvent now ev f | BLeg ev => AddBridgeBLegEvent ev f end.

Definition feed_all (es : list leg_event) (f : FaxResult) : FaxResult := foldl feed f es.

(** ** Specification vocabulary *)

(** What later events never undo. *)
Record merged (f f' : FaxResult) : Prop := {
  m_success : fr_Success f = true -> fr_Success f' = true;
  m_ecm : fr_Ecm f = true -> fr_Ecm f' = true;
  m_ecmreq : fr_EcmRequested f = true -> fr_EcmRequested f' = true;
  m_v17 : fr_V17Disabled f = true -> fr_V17Disabled f' = true;
  m_pages : fr_PageResults f `prefix_of` fr_PageResults f';
  m_aleg : fr_BridgeALegT38 f <> "" -> fr_BridgeALegT38 f' = fr_BridgeALegT38 f;
  m_bleg : fr_BridgeBLegT38 f <> "" -> fr_BridgeBLegT38 f' = fr_BridgeBLegT38 f;
  m_vars : dom (fr_ResultVars f) ⊆ dom (fr_ResultVars f');
  m_ident : fr_UUID f' = fr_UUID f /\ fr_bridge f' = fr_bridge f;
}.

(** The events on which a leg reports success. *)
Definition reports_success (e : leg_event) : bool :=
  match e with
  | ALeg _ ev =>
      ((ev_get ev "Event-Name" =? "CUSTOM")%string &&
       str_mem (ev_get ev "Event-Subclass") result_events &&
       (ev_get ev "Fax-Success" =? "1")%string) ||
      ((ev_get ev "Event-Name" =? "CHANNEL_HANGUP")%string &&
       (ev_get ev "Variable_fax_success" =? "1")%string)
  | BLeg _ => false
  end.

(** The hangup events of the a-leg: the only ones that end the call. *)
Definition ends_call (e : leg_event) : bool :=
  match e with
  | ALeg _ ev => (ev_get ev "Event-Name" =? "CHANNEL_CALLSTATE")%string &&
                 (ev_get ev "Channel-Call-State" =? "HANGUP")%string
  | BLeg _ => false
  end.

(** ** Facts *)

#[export] Instance merged_refl : Reflexive merged.
Proof. by split. Qed.

#[export] Instance merged_trans : Transitive merged.
Proof.
  intros f g h [????? Ha Hb ? [??]] [????? Ha' Hb' ? [??]]. split; eauto; try congruence.
  - by etrans.
  - intros Hne. rewrite Ha'; [by apply Ha|]. by rewrite Ha.
  - intros Hne. rewrite Hb'; [by apply Hb|]. by rewrite Hb.
  - set_solver.
  - split; congruence.
Qed.

(** Open the 26-way switch of the harvester. *)
Ltac open_harvest :=
  unfold harvest_var;
  repeat match goal with |- context [if ?b then _ else _] => destruct b end.

Lemma harvest_var_merged name v f : merged f (harvest_var name v f).
Proof. open_harvest; split; done. Qed.

Lemma harvest_step_merged ev f name : merged f (harvest_step ev f name).
Proof.
  unfold harvest_step. destruct (_ =? "")%string; [done|].
  etrans; [|apply harvest_var_merged]. split; simpl; try done. set_solver.
Qed.

Lemma foldl_merged {E} (step : FaxResult -> E -> FaxResult) es f :
  (forall f e, merged f (step f e)) -> merged f (foldl step f es).
Proof.
  intros Hs. revert f. induction es as [|e es IH]; intros f; simpl; [done|].
  etrans; [apply Hs|apply IH].
Qed.

Lemma harvestResultVars_merged ev f : merged f (harvestResultVars ev f).
Proof. apply foldl_merged. intros. apply harvest_step_merged. Qed.

Lemma harvestBridgeLegT38_kept ev dst : dst <> "" -> harvestBridgeLegT38 ev dst = dst.
Proof. intros H. unfold harvestBridgeLegT38. apply String.eqb_neq in H. by rewrite H. Qed.

Lemma AddEvent_merged now ev f : merged f (AddEvent now ev f).
Proof.
  unfold AddEvent. destruct (_ =? _)%string.
  { unfold add_callstate. do 2 destruct (_ =? _)%string; by split. }
  destruct (_ =? _)%string.
  { unfold add_hangup. etrans; [apply (harvestResultVars_merged ev)|].
    generalize (harvestResultVars ev f) as g. intros g.
    destruct (fr_bridge _); [|done]. split; try done. simpl. apply harvestBridgeLegT38_kept. }
  destruct (_ =? _)%string; [|done].
  unfold add_custom. repeat (destruct (str_mem _ _)); [..|done].
  - unfold add_negotiation. split; simpl; intros; rewrite ?orb_true_iff; auto.
  - unfold add_page. split; simpl; try done. by eexists.
  - unfold add_final. split; simpl; intros; rewrite ?orb_true_iff; auto.
Qed.

Lemma feed_merged f e : merged f (feed f e).
Proof.
  destruct e; simpl; [apply AddEvent_merged|].
  unfold AddBridgeBLegEvent. destruct (_ || _); [done|]. split; try done. simpl.
  apply harvestBridgeLegT38_kept.
Qed.

(** Success of the harvester. *)
Lemma harvest_var_success name v f :
  fr_Success (harvest_var name v f) =
  fr_Success f || ((name =? "fax_success")%string && (v =? "1")%string).
Proof.
  unfold harvest_var. destruct (name =? "fax_success")%string; simpl.
  { destruct (v =? "1")%string; simpl; by rewrite ?orb_true_r, ?orb_false_r. }
  rewrite orb_false_r.
  repeat match goal with |- context [if ?b then _ else _] => destruct b end; done.
Qed.

Lemma harvest_step_success ev f name :
  fr_Success (harvest_step ev f name) =
  fr_Success f || ((name =? "fax_success")%string && (ev_get ev "Variable_fax_success" =? "1")%string).
Proof.
  unfold harvest_step. destruct (String.eqb_spec name "fax_success") as [->|Hn].
  - change ("Variable_" +:+ "fax_success")%string with "Variable_fax_success".
    destruct (String.eqb_spec (ev_get ev "Variable_fax_success") "") as [->|]; simpl.
    + by rewrite orb_false_r.
    + by rewrite harvest_var_success.
  - simpl. destruct (_ =? "")%string; [by rewrite orb_false_r|].
    rewrite harvest_var_success. apply String.eqb_neq in Hn. by rewrite Hn.
Qed.

Lemma harvestResultVars_success ev f :
  fr_Success (harvestResultVars ev f) =
  fr_Success f || (ev_get ev "Variable_fax_success" =? "1")%string.
Proof.
  unfold harvestResultVars.
  assert (forall names g, fr_Success (foldl (harvest_step ev) g names) =
    fr_Success g || (existsb (fun n => (n =? "fax_success")%string) names &&
                     (ev_get ev "Variable_fax_success" =? "1")%string)) as H.
  { induction names as [|n names IH]; intros g; simpl; [by rewrite orb_false_r|].
    rewrite IH, harvest_step_success.
    destruct (fr_Success g), (n =? _)%string, (existsb _ _), (_ =? "1")%string; done. }
  by rewrite H.
Qed.

Lemma feed_success f e : fr_Success (feed f e) = fr_Success f || reports_success e.
Proof.
  destruct e as [now ev|ev]; simpl.
  2: { unfold AddBridgeBLegEvent. rewrite orb_false_r. by destruct (_ || _). }
  unfold AddEvent.
  destruct (String.eqb_spec (ev_get ev "Event-Name") "CHANNEL_CALLSTATE") as [->|_].
  { simpl. rewrite orb_false_r. unfold add_callstate. by do 2 destruct (_ =? _)%string. }
  destruct (String.eqb_spec (ev_get ev "Event-Name") "CHANNEL_HANGUP") as [->|_].
  { simpl. unfold add_hangup. rewrite <- harvestResultVars_success.
    generalize (harvestResultVars ev f) as g. intros g. by destruct (fr_bridge g). }
  destruct (_ =? "CUSTOM")%string; simpl; [|by rewrite orb_false_r].
  rewrite orb_false_r. unfold add_custom.
  destruct (str_mem _ negotiation_events) eqn:E1.
  { by rewrite (str_mem_disjoint _ _ result_events E1 eq_refl), orb_false_r. }
  destruct (str_mem _ page_events) eqn:E2.
  { by rewrite (str_mem_disjoint _ _ result_events E2 eq_refl), orb_false_r. }
  destruct (str_mem _ result_events); simpl; [apply orb_comm|by rewrite orb_false_r].
Qed.

Lemma harvest_foldl_control names ev g :
  fr_EndTs (foldl (harvest_step ev) g names) = fr_EndTs g /\
  fr_HangupCause (foldl (harvest_step ev) g names) = fr_HangupCause g.
Proof.
  revert g. induction names as [|n names IH]; intros g; simpl; [done|].
  destruct (IH (harvest_step ev g n)) as [-> ->].
  unfold harvest_step. destruct (_ =? "")%string; [done|]. open_harvest; split; reflexivity.
Qed.

Lemma add_hangup_control ev f :
  fr_EndTs (add_hangup ev f) = fr_EndTs f /\ fr_HangupCause (add_hangup ev f) = fr_HangupCause f.
Proof.
  pose proof (harvest_foldl_control faxResultVarNames ev f) as H.
  unfold add_hangup, harvestResultVars. revert H.
  generalize (foldl (harvest_step ev) f faxResultVarNames) as g. intros g. by destruct (fr_bridge g).
Qed.

Lemma feed_ends f e :
  ends_call e = false ->
  fr_EndTs (feed f e) = fr_EndTs f /\ fr_HangupCause (feed f e) = fr_HangupCause f.
Proof.
  destruct e as [now ev|ev]; simpl.
  2: { unfold AddBridgeBLegEvent. by destruct (_ || _). }
  unfold AddEvent. destruct (_ =? "CHANNEL_CALLSTATE")%string; simpl.
  { intros He. unfold add_callstate. rewrite He. by destruct (_ =? "ACTIVE")%string. }
  intros _. destruct (_ =? "CHANNEL_HANGUP")%string; [apply add_hangup_control|].
  destruct (_ =? "CUSTOM")%string; [|done].
  unfold add_custom. repeat destruct (str_mem _ _); done.
Qed.

Lemma harvest_var_vars name v f : fr_ResultVars (harvest_var name v f) = fr_ResultVars f.
Proof. open_harvest; done. Qed.

Lemma harvest_foldl_vars ev names f x :
  fr_ResultVars (foldl (harvest_step ev) f names) !! x =
  if str_mem x names && negb (ev_get ev ("Variable_" +:+ x) =? "")%string
  then Some (ev_get ev ("Variable_" +:+ x)) else fr_ResultVars f !! x.
Proof.
  revert f. induction names as [|n names IH]; intros f; simpl; [done|].
  rewrite IH. unfold harvest_step.
  unfold str_mem. simpl. destruct (String.eqb_spec x n) as [->|Hn]; simpl.
  - destruct (String.eqb_spec (ev_get ev ("Variable_" +:+ n)) "") as [->|]; simpl.
    + by rewrite andb_false_r.
    + rewrite andb_true_r, harvest_var_vars. simpl. rewrite lookup_insert_eq.
      by destruct (existsb _ _).
  - destruct (existsb _ names && _) eqn:E; [done|].
    destruct (ev_get ev ("Variable_" +:+ n) =? "")%string; [done|].
    rewrite harvest_var_vars. simpl. by rewrite lookup_insert_ne.
Qed.

Lemma harvest_foldl_ext ev ev' names f :
  (forall n, n ∈ names -> ev_get ev ("Variable_" +:+ n) = ev_get ev' ("Variable_" +:+ n)) ->
  foldl (harvest_step ev) f names = foldl (harvest_step ev') f names.
Proof.
  revert f. induction names as [|n names IH]; intros f Hn; simpl; [done|].
  unfold harvest_step at 2 4. rewrite (Hn n) by apply list_elem_of_here.
  apply IH. intros m Hm. apply Hn. by apply list_elem_of_further.
Qed.

Lemma harvest_foldl_legs names ev g :
  fr_BridgeALegT38 (foldl (harvest_step ev) g names) = fr_BridgeALegT38 g /\
  fr_BridgeBLegT38 (foldl (harvest_step ev) g names) = fr_BridgeBLegT38 g /\
  fr_bridge (foldl (harvest_step ev) g names) = fr_bridge g.
Proof.
  revert g. induction names as [|n names IH]; intros g; simpl; [done|].
  destruct (IH (harvest_step ev g n)) as (-> & -> & ->).
  unfold harvest_step. destruct (_ =? "")%string; [done|].
  open_harvest; repeat split; reflexivity.
Qed.

Lemma feed_no_bridge f e :
  fr_bridge f = false ->
  fr_BridgeALegT38 (feed f e) = fr_BridgeALegT38 f /\
  fr_BridgeBLegT38 (feed f e) = fr_BridgeBLegT38 f.
Proof.
  intros Hf. destruct e as [now ev|ev]; simpl.
  2: { unfold AddBridgeBLegEvent. by rewrite Hf. }
  unfold AddEvent. destruct (_ =? "CHANNEL_CALLSTATE")%string.
  { unfold add_callstate. by do 2 destruct (_ =? _)%string. }
  destruct (_ =? "CHANNEL_HANGUP")%string.
  { pose proof (harvest_foldl_legs faxResultVarNames ev f) as (Ha & Hb & Hc).
    unfold add_hangup, harvestResultVars. rewrite Hc, Hf. by rewrite Ha, Hb. }
  destruct (_ =? "CUSTOM")%string; [|done].
  unfold add_custom. repeat destruct (str_mem _ _); done.
Qed.

(** ** Properties *)

(** Whatever events arrive on the two legs, in whatever order and number, the
    fax result only accumulates: success, ECM, ECM-requested and V.17-disabled
    are never unset, recorded pages are never dropped or reordered, harvested
    variables never disappear, and a confirmed T.38 leg stays confirmed. *)
Theorem feed_all_merged (es : list leg_event) (f : FaxResult) : merged f (feed_all es f).
Proof. apply foldl_merged. apply feed_merged. Qed.

(** A result is successful exactly when it already was, or when some a-leg
    event reported success: a final rx/txfax event with [Fax-Success: 1], or a
    hangup dump with [fax_success=1]. No other event can make it so. *)
Theorem feed_all_success (es : list leg_event) (f : FaxResult) :
  fr_Success (feed_all es f) = fr_Success f || existsb reports_success es.
Proof.
  unfold feed_all. revert f. induction es as [|e es IH]; intros f; simpl; [by rewrite orb_false_r|].
  rewrite IH, feed_success. symmetry. apply orb_assoc.
Qed.

(** The control state of the event loops ([EndTs], [HangupCause]) belongs to the
    a-leg's CHANNEL_CALLSTATE HANGUP alone: event sequences without one leave
    both fields as they are. *)
Theorem feed_all_control (es : list leg_event) (f : FaxResult) :
  existsb ends_call es = false ->
  fr_EndTs (feed_all es f) = fr_EndTs f /\ fr_HangupCause (feed_all es f) = fr_HangupCause f.
Proof.
  unfold feed_all. revert f. induction es as [|e es IH]; intros f H; simpl in *; [done|].
  apply orb_false_elim in H as [He Hes].
  destruct (IH (feed f e) Hes) as [-> ->]. by apply feed_ends.
Qed.

Lemma feed_all_control_witness :
  let ev := {["Event-Name" := "CHANNEL_HANGUP"; "Hangup-Cause" := "NORMAL_CLEARING"]} : Event in
  existsb ends_call [ALeg 5 ev; BLeg ev] = false /\
  fr_HangupCause (feed_all [ALeg 5 ev; BLeg ev] empty_result) = "".
Proof.
  intros ev.
  assert (existsb ends_call [ALeg 5 ev; BLeg ev] = false) as H by (vm_compute; reflexivity).
  split; [exact H|]. exact (proj2 (feed_all_control _ empty_result H)).
Defined.

(** The harvester reads the whitelisted variables and nothing else: its result
    is the same on any two events that agree on them, and the recorded
    variables are exactly the whitelisted, non-empty ones over the old ones. *)
Theorem harvestResultVars_whitelist (ev ev' : Event) (f : FaxResult) :
  (forall n, n ∈ faxResultVarNames ->
     ev_get ev ("Variable_" +:+ n) = ev_get ev' ("Variable_" +:+ n)) ->
  harvestResultVars ev f = harvestResultVars ev' f /\
  forall x, fr_ResultVars (harvestResultVars ev f) !! x =
    if str_mem x faxResultVarNames && negb (ev_get ev ("Variable_" +:+ x) =? "")%string
    then Some (ev_get ev ("Variable_" +:+ x)) else fr_ResultVars f !! x.
Proof.
  intros Hn. split; [by apply harvest_foldl_ext|]. intros x. apply harvest_foldl_vars.
Qed.

Lemma harvestResultVars_whitelist_witness :
  let ev := {["Variable_fax_enable_t38" := "true"; "Variable_fax_success" := "1"]} : Event in
  let ev' := {["Variable_fax_success" := "1"]} : Event in
  harvestResultVars ev empty_result = harvestResultVars ev' empty_result.
Proof.
  intros ev ev'. refine (proj1 (harvestResultVars_whitelist ev ev' empty_result _)).
  intros n Hn. apply list_elem_of_In in Hn. simpl in Hn.
  repeat destruct Hn as [<-|Hn]; try (vm_compute; reflexivity). destruct Hn.
Defined.

(** Reading back a printed resolution gives the resolution. *)
Theorem parseResolution_roundtrip (r : Resolution) :
  0 <= res_X r <= int64_max -> 0 <= res_Y r <= int64_max ->
  parseResolution (Resolution_String r) = Some r.
Proof.
  destruct r as [x y]. simpl. intros Hx Hy. unfold parseResolution, Resolution_String. simpl.
  pose proof (parse_dec_string x ltac:(lia)) as Px.
  pose proof (parse_dec_string y ltac:(lia)) as Py.
  rewrite (digits_no_sep "x" (dec_string x) 0); [|done|].
  2: { unfold parse_digits in Px. destruct (dec_string x); [done|]. congruence. }
  rewrite (atoi_digits _ x), (atoi_digits _ y) by (done || lia).
  by rewrite !uint_of_int_small by lia.
Qed.

Lemma parseResolution_roundtrip_witness :
  parseResolution (Resolution_String {| res_X := 1728; res_Y := 2292 |}) =
    Some {| res_X := 1728; res_Y := 2292 |} /\
  Resolution_String {| res_X := 1728; res_Y := 2292 |} = "1728x2292".
Proof.
  split; [|vm_compute; reflexivity].
  apply parseResolution_roundtrip; split; vm_compute; discriminate.
Defined.

(** Results of calls that are not bridged never get a per-leg T.38 mark, and on a
    bridged call a b-leg event changes nothing but the b-leg mark. *)
Theorem bridge_legs_isolated (ev : Event) (es : list leg_event) (f : FaxResult) :
  (fr_bridge f = false ->
     fr_BridgeALegT38 (feed_all es f) = fr_BridgeALegT38 f /\
     fr_BridgeBLegT38 (feed_all es f) = fr_BridgeBLegT38 f) /\
  AddBridgeBLegEvent ev f = f <| fr_BridgeBLegT38 := fr_BridgeBLegT38 (AddBridgeBLegEvent ev f) |>.
Proof.
  split.
  - unfold feed_all. revert f. induction es as [|e es IH]; intros f Hf; simpl; [done|].
    assert (fr_bridge (feed f e) = false) as Hb by (by rewrite (proj2 (m_ident _ _ (feed_merged f e)))).
    destruct (IH _ Hb) as [-> ->]. by apply feed_no_bridge.
  - unfold AddBridgeBLegEvent. destruct f. by destruct (negb _ || _).
Qed.
