(* ===== verification/FaxJob.v ===== *)
(** * FaxJob: fax jobs, endpoints, and the classification of their outcomes
    ([gofaxserver/faxjob.go], the [Endpoint] of [endpoints.go], and the pure
    part of [faxjobresult.go]). *)

From S2P Require Import Prelude FaxResult.

(** ** Data *)

Record Endpoint := {
  ep_ID : Z;
  ep_Type : string;          (* "tenant", "number" or "global" *)
  ep_TypeID : Z;
  ep_EndpointType : string;  (* "gateway", "webhook", "portal", ... *)
  ep_Endpoint : string;      (* gateway name (":ip" suffix optional), URL, ... *)
  ep_Priority : Z;
  ep_Bridge : bool;
}.

#[export] Instance endpoint_eq_dec : EqDecision Endpoint.
Proof. solve_decision. Defined.

Record FaxSourceInfo := {
  si_Timestamp : Z;
  si_SourceType : string;
  si_Source : string;
  si_SourceID : string;
}.

Record FaxJob := {
  fj_UUID : Z; fj_CallUUID : Z;
  fj_SrcTenantID : Z; fj_DstTenantID : Z;
  fj_CalleeNumber : string; fj_CallerIdNumber : string; fj_CallerIdName : string;
  fj_FileName : string; fj_UseECM : bool; fj_DisableV17 : bool;
  fj_Identifier : string; fj_Header : string;
  fj_Endpoints : list Endpoint;
  fj_Result : option FaxResult;
  fj_SourceInfo : FaxSourceInfo;
  fj_Gateway : string;
  fj_NPages : Z; fj_DataFormat : string; fj_SignalRate : Z; fj_CSI : string;
  fj_Status : string; fj_Returned : string;
  fj_TotDials : Z; fj_NDials : Z; fj_TotTries : Z;
  fj_JobTime : Z; fj_ConnTime : Z; fj_Ts : Z;
  fj_IsBridge : bool; fj_BridgeDirection : string; fj_BridgeGateway : string;
  fj_BridgeStartTs : Z; fj_BridgeEndTs : Z; fj_BridgeT38 : bool;
  fj_SoftmodemSrc : bool; fj_SoftmodemDst : bool;
  fj_UsedT38 : bool; fj_SoftmodemFallback : bool;
  fj_ForceT38Off : bool; fj_AppliedPolicyIDs : list Z;
  fj_NotifyOnly : bool;
}.

Definition zero_source : FaxSourceInfo :=
  {| si_Timestamp := time_zero; si_SourceType := ""; si_Source := ""; si_SourceID := "" |}.

(** [FaxJob{}], the zero value callers fill in. *)
Definition zero_job : FaxJob := {|
  fj_UUID := uuid_nil; fj_CallUUID := uuid_nil; fj_SrcTenantID := 0; fj_DstTenantID := 0;
  fj_CalleeNumber := ""; fj_CallerIdNumber := ""; fj_CallerIdName := ""; fj_FileName := "";
  fj_UseECM := false; fj_DisableV17 := false; fj_Identifier := ""; fj_Header := "";
  fj_Endpoints := []; fj_Result := None; fj_SourceInfo := zero_source; fj_Gateway := "";
  fj_NPages := 0; fj_DataFormat := ""; fj_SignalRate := 0; fj_CSI := ""; fj_Status := "";
  fj_Returned := ""; fj_TotDials := 0; fj_NDials := 0; fj_TotTries := 0; fj_JobTime := 0;
  fj_ConnTime := 0; fj_Ts := time_zero; fj_IsBridge := false; fj_BridgeDirection := "";
  fj_BridgeGateway := ""; fj_BridgeStartTs := time_zero; fj_BridgeEndTs := time_zero;
  fj_BridgeT38 := false; fj_SoftmodemSrc := false; fj_SoftmodemDst := false;
  fj_UsedT38 := false; fj_SoftmodemFallback := false; fj_ForceT38Off := false;
  fj_AppliedPolicyIDs := []; fj_NotifyOnly := false |}.

(** ** Labels *)

(** [strings.SplitN(ep.Endpoint, ":", 2)[0]]: the gateway name. *)
Definition gatewayLabel (ep : Endpoint) : string := fst (str_cut ":" (ep_Endpoint ep)).

Definition endpointBrief (ep : Endpoint) : string * string * string :=
  (ep_EndpointType ep, ep_Type ep, ep_Endpoint ep).

(** ** Classification of a stored outcome *)

Definition placeholderHangupCause : string := "WEBHOOK".

Definition isPlaceholderResult (job : FaxJob) : bool :=
  match fj_Result job with
  | Some r => (fr_HangupCause r =? placeholderHangupCause)%string
  | None => false
  end.

Record Classification := {
  cl_resultType : string;
  cl_endpointID : Z;
  cl_endpointType : string;
  cl_attemptNumber : Z;
  cl_gateway : string;
}.

Definition classifyFaxResult (job : FaxJob) : Classification :=
  if isPlaceholderResult job then
    {| cl_resultType := "submission"; cl_endpointID := 0; cl_endpointType := "";
       cl_attemptNumber := 0; cl_gateway := "" |}
  else
    let '(resultType, endpointID, endpointType, attemptNumber) :=
      if fj_IsBridge job then ("bridge", 0, "", 1)
      else match fj_Endpoints job with
           | [] => ("reception", 0, "", 1)
           | ep :: _ =>
               ((if (ep_EndpointType ep =? "gateway")%string then "transmission" else "delivery"),
                ep_ID ep, ep_EndpointType ep,
                if 0 <? fj_TotDials job then fj_TotDials job
                else if 0 <? fj_TotTries job then fj_TotTries job else 1)
           end in
    let gateway :=
      if (fj_Gateway job =? "")%string then
        if (resultType =? "reception")%string || (resultType =? "bridge")%string
        then si_Source (fj_SourceInfo job)
        else if (resultType =? "transmission")%string then
          match fj_Endpoints job with ep :: _ => gatewayLabel ep | [] => "" end
        else ""
      else fj_Gateway job in
    {| cl_resultType := resultType; cl_endpointID := endpointID;
       cl_endpointType := endpointType; cl_attemptNumber := attemptNumber;
       cl_gateway := gateway |}.

(** Close the equivalences of a classification branch. *)
Ltac solve_class :=
  repeat split; intros;
  repeat match goal with
  | H : _ /\ _ |- _ => destruct H
  | H : exists _, _ |- _ => destruct H
  | H : _ \/ _ |- _ => destruct H
  | H : ?P -> _, K : ?P |- _ => specialize (H K)
  | H : (_ =? _)%string = _ |- _ => rewrite H
  end;
  simplify_eq; try done; try lia; eauto 10.

(** ** Properties *)

(** Every job is classified as exactly one kind of leg, by the documented
    criteria; only intake rows carry attempt number 0, every other leg counts
    from 1; endpoint metadata appears only on transmissions and deliveries and
    is then that of the first endpoint; and an explicit gateway is always kept. *)
Theorem classifyFaxResult_spec (job : FaxJob) :
  let c := classifyFaxResult job in
  (cl_resultType c = "submission" <-> isPlaceholderResult job = true) /\
  (cl_resultType c = "bridge" <-> isPlaceholderResult job = false /\ fj_IsBridge job = true) /\
  (cl_resultType c = "reception" <->
     isPlaceholderResult job = false /\ fj_IsBridge job = false /\ fj_Endpoints job = []) /\
  (cl_resultType c = "transmission" <->
     isPlaceholderResult job = false /\ fj_IsBridge job = false /\
     exists ep eps, fj_Endpoints job = ep :: eps /\ ep_EndpointType ep = "gateway") /\
  (cl_resultType c = "delivery" <->
     isPlaceholderResult job = false /\ fj_IsBridge job = false /\
     exists ep eps, fj_Endpoints job = ep :: eps /\ ep_EndpointType ep <> "gateway") /\
  (cl_attemptNumber c = 0 <-> cl_resultType c = "submission") /\ 0 <= cl_attemptNumber c /\
  (cl_endpointType c <> "" \/ cl_endpointID c <> 0 ->
     exists ep eps, fj_Endpoints job = ep :: eps /\
       cl_endpointType c = ep_EndpointType ep /\ cl_endpointID c = ep_ID ep) /\
  (isPlaceholderResult job = false -> fj_Gateway job <> "" -> cl_gateway c = fj_Gateway job).
Proof.
  unfold classifyFaxResult. destruct (isPlaceholderResult job); simpl; [solve_class|].
  assert (forall a b : Z, 0 < (if 0 <? a then a else if 0 <? b then b else 1)) as Hpos.
  { intros a b. destruct (0 <? a) eqn:?; reflect_bools; [done|].
    destruct (0 <? b) eqn:?; reflect_bools; lia. }
  assert (fj_Gateway job <> "" -> (fj_Gateway job =? "")%string = false) as Hg
    by apply String.eqb_neq.
  destruct (fj_IsBridge job); simpl; [solve_class|].
  destruct (fj_Endpoints job) as [|ep eps]; simpl; [solve_class|].
  specialize (Hpos (fj_TotDials job) (fj_TotTries job)).
  destruct (String.eqb_spec (ep_EndpointType ep) "gateway"); simpl; solve_class.
Qed.
