(* ===== verification/Policy.v ===== *)
(** * Policy: the fax policy engine ([gofaxserver/faxpolicy.go])

    Rules live in a table (the class [Table] of [Store]) and in the cache that
    [reloadFaxPolicies] swaps in. [ResolveFaxPolicy] reads the cache only;
    the [Learn*] handlers write the table and reload. Each handler takes one
    reading of the clock, [now]. *)

From S2P Require Import Prelude Config Store FaxResult FaxJob.

(** ** Constants *)

Definition CallTypeSoftmodem : string := "softmodem".
Definition CallTypeBridge : string := "bridge".
Definition PolicyScopeDst : string := "dst".
Definition PolicyScopeSrc : string := "src".
Definition PolicyScopePair : string := "pair".
Definition PolicyEffectT38Off : string := "t38_off".
Definition PolicyEffectT38On : string := "t38_on".
Definition PolicyEffectECMOff : string := "ecm_off".
Definition PolicyEffectECMOn : string := "ecm_on".
Definition PolicyEffectV17Off : string := "v17_off".
Definition PolicyEffectSoftmodemOnly : string := "softmodem_only".
Definition PolicyEffectVarOverride : string := "var_override".
Definition PolicyOriginManual : string := "manual".
Definition PolicyOriginAuto : string := "auto".

(** ** Rules and policies *)

Record FaxPolicyRule := {
  pr_ID : Z;
  pr_Scope : string; pr_SrcNumber : string; pr_DstNumber : string;
  pr_Effect : string; pr_AppliesTo : string; pr_Origin : string;
  pr_Enabled : bool; pr_ExpiresAt : option Z;
  pr_VarName : string; pr_VarValue : string;
  pr_FailureCount : Z; pr_SuccessCount : Z;
  pr_LastSeenAt : option Z; pr_LastT38Status : string; pr_Notes : string;
}.

#[export] Instance rule_id : HasID FaxPolicyRule := {
  get_id := pr_ID; set_id i r := r <| pr_ID := i |>; get_set_id i r := eq_refl }.

Record FaxPolicy := {
  fp_EnableT38 : bool; fp_RequestT38 : bool;
  fp_UseECM : option bool; fp_DisableV17 : option bool;
  fp_T38Decided : bool; fp_T38ForcedOff : bool; fp_SoftmodemOnly : bool;
  fp_VarOverrides : gmap string string;
  fp_AppliedRuleIDs : list Z;
}.

Definition DefaultFaxPolicy (cfg : FaxingConfig) : FaxPolicy := {|
  fp_EnableT38 := fc_EnableT38 cfg; fp_RequestT38 := fc_RequestT38 cfg;
  fp_UseECM := None; fp_DisableV17 := None; fp_T38Decided := false;
  fp_T38ForcedOff := false; fp_SoftmodemOnly := false; fp_VarOverrides := ∅;
  fp_AppliedRuleIDs := [] |}.

(** ** Specificity *)

Definition scopeRank (scope : string) : Z :=
  if (scope =? PolicyScopePair)%string then 0
  else if (scope =? PolicyScopeDst)%string then 1 else 2.

Definition originRank (origin : string) : Z :=
  if (origin =? PolicyOriginManual)%string then 0 else 1.

Definition effectRank (effect : string) : Z :=
  if (effect =? PolicyEffectT38On)%string || (effect =? PolicyEffectECMOn)%string then 1 else 0.

(** The [less] of [sort.SliceStable]. *)
Definition rule_less (a b : FaxPolicyRule) : bool :=
  if negb (scopeRank (pr_Scope a) =? scopeRank (pr_Scope b))
  then scopeRank (pr_Scope a) <? scopeRank (pr_Scope b)
  else if negb (originRank (pr_Origin a) =? originRank (pr_Origin b))
  then originRank (pr_Origin a) <? originRank (pr_Origin b)
  else effectRank (pr_Effect a) <? effectRank (pr_Effect b).

Definition rule_expired (r : FaxPolicyRule) (now : Z) : bool :=
  match pr_ExpiresAt r with Some e => e <? now | None => false end.

Definition ruleMatches (r : FaxPolicyRule) (srcNum dstNum callType : string) (now : Z) : bool :=
  if negb (pr_Enabled r) then false
  else if rule_expired r now then false
  else if negb (str_mem (pr_AppliesTo r) [""; "both"; callType]) then false
  else if (pr_Scope r =? PolicyScopePair)%string then
    (pr_SrcNumber r =? srcNum)%string && (pr_DstNumber r =? dstNum)%string
  else if (pr_Scope r =? PolicyScopeDst)%string then
    if (pr_DstNumber r =? dstNum)%string then true
    else (pr_Origin r =? PolicyOriginAuto)%string && (pr_DstNumber r =? srcNum)%string
  else if (pr_Scope r =? PolicyScopeSrc)%string then (pr_SrcNumber r =? srcNum)%string
  else false.

(** ** Resolution *)

(** One iteration of the loop over the sorted matches: the policy and
    [t38Decided]. *)
Definition resolve_step (cfg : FaxingConfig) (acc : FaxPolicy * bool) (r : FaxPolicyRule)
  : FaxPolicy * bool :=
  let '(p, t38Decided) := acc in
  let e := pr_Effect r in
  if (e =? PolicyEffectVarOverride)%string then
    match fp_VarOverrides p !! pr_VarName r with
    | Some _ => (p, t38Decided)
    | None => (p <| fp_VarOverrides ::= insert (pr_VarName r) (pr_VarValue r) |>, t38Decided)
    end
  else if (e =? PolicyEffectSoftmodemOnly)%string then
    if t38Decided then (p, t38Decided)
    else (p <| fp_SoftmodemOnly := true |> <| fp_EnableT38 := false |> <| fp_RequestT38 := false |>, true)
  else if (e =? PolicyEffectT38Off)%string then
    if t38Decided then (p, t38Decided)
    else (p <| fp_EnableT38 := false |> <| fp_RequestT38 := false |>, true)
  else if (e =? PolicyEffectT38On)%string then
    if t38Decided then (p, t38Decided)
    else (p <| fp_EnableT38 := true |> <| fp_RequestT38 := fc_RequestT38 cfg |>, true)
  else if (e =? PolicyEffectECMOff)%string then
    match fp_UseECM p with
    | None => (p <| fp_UseECM := Some false |>, t38Decided)
    | Some _ => (p, t38Decided)
    end
  else if (e =? PolicyEffectECMOn)%string then
    match fp_UseECM p with
    | None => (p <| fp_UseECM := Some true |>, t38Decided)
    | Some _ => (p, t38Decided)
    end
  else if (e =? PolicyEffectV17Off)%string then
    match fp_DisableV17 p with
    | None => (p <| fp_DisableV17 := Some true |>, t38Decided)
    | Some _ => (p, t38Decided)
    end
  else (p, t38Decided).

#[global] Arguments resolve_step : simpl never.

Definition matching_rules (rules : list FaxPolicyRule) (srcNum dstNum callType : string) (now : Z)
  : list FaxPolicyRule :=
  List.filter (fun r => ruleMatches r srcNum dstNum callType now) rules.

(** [cache] is [s.faxPolicies.Load()]: [None] before the first reload. *)
Definition ResolveFaxPolicy (cfg : FaxingConfig) (cache : option (list FaxPolicyRule))
  (srcNum dstNum callType : string) (now : Z) : FaxPolicy :=
  let policy := DefaultFaxPolicy cfg in
  if negb (PolicyEnabled (fc_Policy cfg)) then policy
  else match cache with
       | None => policy
       | Some rules =>
           match matching_rules rules srcNum dstNum callType now with
           | [] => policy
           | (_ :: _) as ms =>
               let ms := stable_sort rule_less ms in
               let '(p, t38Decided) :=
                 foldl (resolve_step cfg)
                   (policy <| fp_AppliedRuleIDs := map pr_ID ms |>, false) ms in
               p <| fp_T38Decided := t38Decided |>
                 <| fp_T38ForcedOff := t38Decided && negb (fp_EnableT38 p) |>
           end
       end.

(** ** Failure signatures *)

Definition learnResultBadRows (result : FaxResult) : Z :=
  foldl (fun b p => (b + pg_BadRows p) mod 2 ^ 64) 0 (fr_PageResults result).

Definition T38Refused (result : option FaxResult) : bool :=
  match result with
  | None => false
  | Some r =>
      let st := trim_space (fr_T38Status r) in
      negb (st =? "")%string && negb (equal_fold st "negotiated")
  end.

Definition qualifiesForLearning (result : option FaxResult) : bool :=
  match result with
  | None => false
  | Some r =>
      if fr_Success r then false
      else (1 <? fr_NegotiateCount r) || (0 <? learnResultBadRows r) || T38Refused result
  end.

Definition isT38NegotiationHangup (hangupCause : string) : bool :=
  str_mem (to_upper (trim_space hangupCause))
    ["INCOMPATIBLE_DESTINATION"; "NOT_ACCEPTABLE_HERE"; "MEDIA_NEGOTIATION_FAILED";
     "BEARERCAPABILITY_NOTAVAIL"; "BEARERCAPABILITY_NOTIMPL"; "FACILITY_REJECTED"].

Definition escalateRetryChain (cfg : FaxPolicyConfig) (ff : FaxJob) (attempt : Z) : FaxJob :=
  if (attempt <=? 1) || negb (RetryChainEnabled cfg) || fj_ForceT38Off ff then ff
  else match fj_Result ff with
       | None => ff
       | Some prev =>
           if fr_Success prev then ff
           else if (1 <? fr_NegotiateCount prev) || T38Refused (Some prev)
           then ff <| fj_ForceT38Off := true |> else ff
       end.

(** ** Specification vocabulary *)

Definition decides_t38 (r : FaxPolicyRule) : bool :=
  str_mem (pr_Effect r) [PolicyEffectSoftmodemOnly; PolicyEffectT38Off; PolicyEffectT38On].

Definition decides_ecm (r : FaxPolicyRule) : bool :=
  str_mem (pr_Effect r) [PolicyEffectECMOff; PolicyEffectECMOn].

Definition decides_v17 (r : FaxPolicyRule) : bool := (pr_Effect r =? PolicyEffectV17Off)%string.

Definition overrides_var (name : string) (r : FaxPolicyRule) : bool :=
  (pr_Effect r =? PolicyEffectVarOverride)%string && (pr_VarName r =? name)%string.

(** [r] is a most specific rule among those of [rules] that match the call and
    satisfy [P]. *)
Definition most_specific (P : FaxPolicyRule -> bool) (rules : list FaxPolicyRule)
  (srcNum dstNum callType : string) (now : Z) (r : FaxPolicyRule) : Prop :=
  r ∈ rules /\ ruleMatches r srcNum dstNum callType now = true /\ P r = true /\
  forall r', r' ∈ rules -> ruleMatches r' srcNum dstNum callType now = true -> P r' = true ->
    rule_less r' r = false.

(** ** Facts *)

Lemma ranks_bounds r :
  0 <= scopeRank (pr_Scope r) <= 2 /\ 0 <= originRank (pr_Origin r) <= 1 /\
  0 <= effectRank (pr_Effect r) <= 1.
Proof.
  unfold scopeRank, originRank, effectRank.
  repeat match goal with |- context [if ?b then _ else _] => destruct b end; lia.
Qed.

Definition rule_key (r : FaxPolicyRule) : Z :=
  4 * scopeRank (pr_Scope r) + 2 * originRank (pr_Origin r) + effectRank (pr_Effect r).

Lemma rule_less_key a b : rule_less a b = (rule_key a <? rule_key b).
Proof.
  unfold rule_less, rule_key.
  pose proof (ranks_bounds a). pose proof (ranks_bounds b).
  apply eq_true_iff_eq. rewrite Z.ltb_lt.
  repeat match goal with |- context [?x =? ?y] => destruct (Z.eqb_spec x y) end; simpl;
    rewrite Z.ltb_lt; lia.
Qed.

#[export] Instance rule_less_weak : WeakOrder rule_less.
Proof. split; intros *; rewrite !rule_less_key, ?Z.ltb_lt, ?Z.ltb_ge; lia. Qed.

(** Branch on the effect of the rule at hand; the tests against the other
    constants then compute. *)
Ltac case_effect r :=
  repeat match goal with
  | |- context [(pr_Effect r =? ?c)%string] =>
      let E := fresh "E" in
      destruct (String.eqb_spec (pr_Effect r) c) as [E|]; [rewrite ?E|]; simpl
  end.

Definition t38_of (p : FaxPolicy) : bool * bool * bool :=
  (fp_EnableT38 p, fp_RequestT38 p, fp_SoftmodemOnly p).

(** What a deciding rule sets. *)
Definition t38_by (cfg : FaxingConfig) (r : FaxPolicyRule) : bool * bool * bool :=
  let on := (pr_Effect r =? PolicyEffectT38On)%string in
  (on, on && fc_RequestT38 cfg, (pr_Effect r =? PolicyEffectSoftmodemOnly)%string).

Lemma resolve_step_t38 cfg p d r :
  fp_SoftmodemOnly p = false \/ d = true ->
  (resolve_step cfg (p, d) r).2 = d || decides_t38 r /\
  t38_of (resolve_step cfg (p, d) r).1 = if negb d && decides_t38 r then t38_by cfg r else t38_of p.
Proof.
  intros Hs. unfold resolve_step, decides_t38, str_mem, t38_by, t38_of. simpl.
  case_effect r; destruct d; simpl; try done;
    repeat match goal with |- context [match ?x with Some _ => _ | None => _ end] => destruct x end;
    simpl; try done; destruct Hs as [Hs|Hs]; try done; by rewrite ?Hs.
Qed.

Lemma resolve_step_other cfg p d r :
  let p' := (resolve_step cfg (p, d) r).1 in
  fp_UseECM p' = match fp_UseECM p with
                 | Some b => Some b
                 | None => if decides_ecm r then Some (pr_Effect r =? PolicyEffectECMOn)%string else None
                 end /\
  fp_DisableV17 p' = match fp_DisableV17 p with
                     | Some b => Some b
                     | None => if decides_v17 r then Some true else None
                     end /\
  (forall x, fp_VarOverrides p' !! x = match fp_VarOverrides p !! x with
                     | Some v => Some v
                     | None => if overrides_var x r then Some (pr_VarValue r) else None
                     end) /\
  fp_AppliedRuleIDs p' = fp_AppliedRuleIDs p.
Proof.
  unfold resolve_step, decides_ecm, decides_v17, overrides_var, str_mem. simpl.
  case_effect r; repeat split; intros; try destruct d; simpl;
    repeat match goal with |- context [match ?x with Some _ => _ | None => _ end] => destruct x eqn:? end;
    simpl in *; try done; simplify_eq/=; try done.
  all: destruct (String.eqb_spec (pr_VarName r) x) as [<-|];
    rewrite ?lookup_insert_eq, ?lookup_insert_ne by done; congruence.
Qed.

Lemma resolve_fold_t38 cfg ms p d :
  fp_SoftmodemOnly p = false \/ d = true ->
  (foldl (resolve_step cfg) (p, d) ms).2 = d || existsb decides_t38 ms /\
  t38_of (foldl (resolve_step cfg) (p, d) ms).1 =
    if d then t38_of p
    else match List.find decides_t38 ms with Some r => t38_by cfg r | None => t38_of p end.
Proof.
  revert p d. induction ms as [|r ms IH]; intros p d Hs; simpl.
  { rewrite orb_false_r. by destruct d. }
  destruct (resolve_step_t38 cfg p d r Hs) as [H2 H1].
  destruct (resolve_step cfg (p, d) r) as [p' d']; simpl in *. subst d'.
  destruct (IH p' (d || decides_t38 r)) as [-> ->].
  { destruct d; [by right|]. destruct (decides_t38 r); [by right|]. left.
    destruct Hs as [Hs|]; [|done]. simpl in H1. unfold t38_of in H1. congruence. }
  rewrite orb_assoc. split; [done|].
  destruct d; simpl in *; [done|]. destruct (decides_t38 r); by rewrite H1.
Qed.

Lemma resolve_fold_other cfg ms p d :
  let p' := (foldl (resolve_step cfg) (p, d) ms).1 in
  fp_UseECM p' = match fp_UseECM p with
                 | Some b => Some b
                 | None => (fun r => (pr_Effect r =? PolicyEffectECMOn)%string) <$> List.find decides_ecm ms
                 end /\
  fp_DisableV17 p' = match fp_DisableV17 p with
                     | Some b => Some b
                     | None => (fun _ => true) <$> List.find decides_v17 ms
                     end /\
  (forall x, fp_VarOverrides p' !! x = match fp_VarOverrides p !! x with
                     | Some v => Some v
                     | None => pr_VarValue <$> List.find (overrides_var x) ms
                     end) /\
  fp_AppliedRuleIDs p' = fp_AppliedRuleIDs p.
Proof.
  revert p d. induction ms as [|r ms IH]; intros p d; simpl.
  { repeat split; intros; by repeat case_match. }
  destruct (resolve_step_other cfg p d r) as (He & Hv & Ho & Ha).
  destruct (resolve_step cfg (p, d) r) as [p1 d1]; simpl in *.
  destruct (IH p1 d1) as (-> & -> & IHo & ->).
  rewrite He, Hv, Ha. split; [|split; [|split; [|done]]].
  - destruct (fp_UseECM p); [done|]. by destruct (decides_ecm r).
  - destruct (fp_DisableV17 p); [done|]. by destruct (decides_v17 r).
  - intros x. rewrite IHo, Ho. destruct (fp_VarOverrides p !! x); [done|].
    by destruct (overrides_var x r).
Qed.

(** The whole resolution on an enabled engine, before the attributes are
    looked at one by one. *)
Lemma resolve_unfold cfg rules src dst ct now :
  PolicyEnabled (fc_Policy cfg) = true ->
  let ms := stable_sort rule_less (matching_rules rules src dst ct now) in
  let p0 := (DefaultFaxPolicy cfg) <| fp_AppliedRuleIDs := map pr_ID ms |> in
  let '(p, d) := foldl (resolve_step cfg) (p0, false) ms in
  ResolveFaxPolicy cfg (Some rules) src dst ct now =
    p <| fp_T38Decided := d |> <| fp_T38ForcedOff := d && negb (fp_EnableT38 p) |>.
Proof.
  intros He. unfold ResolveFaxPolicy. rewrite He. cbn [negb].
  destruct (matching_rules rules src dst ct now) as [|r ms]; [by destruct cfg|].
  cbv zeta. by destruct (foldl (resolve_step cfg) _ _).
Qed.

Lemma elem_of_matching rules src dst ct now r :
  r ∈ matching_rules rules src dst ct now <->
  r ∈ rules /\ ruleMatches r src dst ct now = true.
Proof. unfold matching_rules. by rewrite !list_elem_of_In, filter_In. Qed.

Lemma find_most_specific P rules src dst ct now r :
  List.find P (stable_sort rule_less (matching_rules rules src dst ct now)) = Some r ->
  most_specific P rules src dst ct now r.
Proof.
  intros Hf. pose proof (find_some _ _ Hf) as [Hin HP].
  apply list_elem_of_In in Hin.
  pose proof (find_sorted_min rule_less P _ r (stable_sort_sorted rule_less _) Hf) as Hmin.
  rewrite elem_of_stable_sort, elem_of_matching in Hin. destruct Hin as [??].
  split; [done|]. split; [done|]. split; [done|]. intros r' ???.
  apply Hmin; [|done]. by rewrite elem_of_stable_sort, elem_of_matching.
Qed.

Lemma find_none_matching P rules src dst ct now :
  List.find P (stable_sort rule_less (matching_rules rules src dst ct now)) = None ->
  forall r, r ∈ rules -> ruleMatches r src dst ct now = true -> P r = false.
Proof.
  intros Hf r ??. apply (find_none _ _ Hf). apply list_elem_of_In.
  by rewrite elem_of_stable_sort, elem_of_matching.
Qed.

(** T.38 is decided by a most specific rule, or by none. *)
Lemma ResolveFaxPolicy_t38_core (cfg : FaxingConfig) (rules : list FaxPolicyRule)
  (src dst ct : string) (now : Z) :
  PolicyEnabled (fc_Policy cfg) = true ->
  let p := ResolveFaxPolicy cfg (Some rules) src dst ct now in
  (exists r, most_specific decides_t38 rules src dst ct now r /\
     fp_T38Decided p = true /\ t38_of p = t38_by cfg r /\
     fp_T38ForcedOff p = negb (pr_Effect r =? PolicyEffectT38On)%string) \/
  ((forall r, r ∈ rules -> ruleMatches r src dst ct now = true -> decides_t38 r = false) /\
     fp_T38Decided p = false /\ fp_T38ForcedOff p = false /\
     t38_of p = (fc_EnableT38 cfg, fc_RequestT38 cfg, false)).
Proof.
  intros He p. pose proof (resolve_unfold cfg rules src dst ct now He) as Hu.
  pose proof (find_most_specific decides_t38 rules src dst ct now) as Hm.
  pose proof (find_none_matching decides_t38 rules src dst ct now) as Hn.
  simpl in Hu. subst p.
  set (ms := stable_sort rule_less _) in *. clearbody ms.
  destruct (resolve_fold_t38 cfg ms
    ((DefaultFaxPolicy cfg) <| fp_AppliedRuleIDs := map pr_ID ms |>) false ltac:(by left)) as [Hd Ht].
  destruct (foldl _ _ _) as [p d]; simpl in *. subst d. rewrite Hu. clear Hu.
  destruct (List.find decides_t38 ms) as [r|] eqn:Ef.
  - left. exists r. specialize (Hm r eq_refl). split; [done|].
    assert (existsb decides_t38 ms = true) as ->.
    { apply existsb_exists. exists r. by apply find_some. }
    unfold t38_of, t38_by in *. simpl. by inversion Ht.
  - right. split; [by apply Hn|].
    assert (existsb decides_t38 ms = false) as ->.
    { apply not_true_iff_false. rewrite existsb_exists. intros (r & Hin & Hr).
      by rewrite (find_none _ _ Ef r Hin) in Hr. }
    done.
Qed.

(** ** Properties *)

(** With the engine enabled, T.38 is decided exactly by a most specific matching
    T.38 rule (pair before dst before src, manual before auto, restrictive
    before permissive): the policy's T.38 fields are the ones that rule sets;
    with no matching T.38 rule the configured defaults stand and flip-flop
    probing is left in charge. *)
Theorem ResolveFaxPolicy_t38 (cfg : FaxingConfig) (rules : list FaxPolicyRule)
  (src dst ct : string) (now : Z) :
  PolicyEnabled (fc_Policy cfg) = true ->
  let p := ResolveFaxPolicy cfg (Some rules) src dst ct now in
  (exists r, most_specific decides_t38 rules src dst ct now r /\
     fp_T38Decided p = true /\ t38_of p = t38_by cfg r /\
     fp_T38ForcedOff p = negb (pr_Effect r =? PolicyEffectT38On)%string) \/
  ((forall r, r ∈ rules -> ruleMatches r src dst ct now = true -> decides_t38 r = false) /\
     fp_T38Decided p = false /\ fp_T38ForcedOff p = false /\
     t38_of p = (fc_EnableT38 cfg, fc_RequestT38 cfg, false)).
Proof. apply ResolveFaxPolicy_t38_core. Qed.

(** Example data shared by the witnesses. *)
Definition example_rule (id : Z) (scope src dst effect origin : string) : FaxPolicyRule :=
  {| pr_ID := id; pr_Scope := scope; pr_SrcNumber := src; pr_DstNumber := dst;
     pr_Effect := effect; pr_AppliesTo := "both"; pr_Origin := origin; pr_Enabled := true;
     pr_ExpiresAt := None; pr_VarName := ""; pr_VarValue := ""; pr_FailureCount := 0;
     pr_SuccessCount := 0; pr_LastSeenAt := None; pr_LastT38Status := ""; pr_Notes := "" |}.

Definition example_rules : list FaxPolicyRule :=
  [example_rule 1 "dst" "" "200" PolicyEffectT38Off PolicyOriginAuto;
   example_rule 2 "pair" "100" "200" PolicyEffectT38On PolicyOriginManual;
   example_rule 3 "dst" "" "200" PolicyEffectECMOff PolicyOriginAuto].

Lemma ResolveFaxPolicy_t38_witness :
  PolicyEnabled (fc_Policy zero_faxing) = true /\
  fp_EnableT38 (ResolveFaxPolicy zero_faxing (Some example_rules) "100" "200" "bridge" 0) = true /\
  exists r, most_specific decides_t38 example_rules "100" "200" "bridge" 0 r.
Proof.
  split; [reflexivity|]. split; [vm_compute; reflexivity|].
  destruct (ResolveFaxPolicy_t38 zero_faxing example_rules "100" "200" "bridge" 0 eq_refl)
    as [(r & Hr & _)|(_ & H & _)]; [exists r; exact Hr|].
  vm_compute in H. discriminate H.
Defined.

(** C1: fail-safe precedence: when a restrictive T.38 rule matches a call and no
    matching permissive rule beats it on scope or origin, T.38 is neither
    enabled nor requested, whatever else matches and in whatever order the
    rules were loaded. *)
Theorem ResolveFaxPolicy_failsafe (cfg : FaxingConfig) (rules : list FaxPolicyRule)
  (src dst ct : string) (now : Z) (off : FaxPolicyRule) :
  PolicyEnabled (fc_Policy cfg) = true ->
  off ∈ rules -> ruleMatches off src dst ct now = true ->
  decides_t38 off = true -> pr_Effect off <> PolicyEffectT38On ->
  (forall r, r ∈ rules -> ruleMatches r src dst ct now = true ->
     pr_Effect r = PolicyEffectT38On ->
     2 * scopeRank (pr_Scope off) + originRank (pr_Origin off) <=
     2 * scopeRank (pr_Scope r) + originRank (pr_Origin r)) ->
  let p := ResolveFaxPolicy cfg (Some rules) src dst ct now in
  fp_EnableT38 p = false /\ fp_RequestT38 p = false /\
  fp_T38Decided p = true /\ fp_T38ForcedOff p = true.
Proof.
  intros He Hin Hmatch Hdec Hoff Hbeat p.
  destruct (ResolveFaxPolicy_t38_core cfg rules src dst ct now He)
    as [(r & (Hr & Hrm & Hrd & Hmin) & Hd & Ht & Hf)|(Hnone & _)].
  2: { by rewrite (Hnone off Hin Hmatch) in Hdec. }
  assert (pr_Effect r <> PolicyEffectT38On) as Hr_off.
  { intros Hon. specialize (Hmin off Hin Hmatch Hdec). specialize (Hbeat r Hr Hrm Hon).
    rewrite rule_less_key in Hmin. apply Z.ltb_ge in Hmin. unfold rule_key in Hmin.
    assert (effectRank (pr_Effect r) = 1) by (by rewrite Hon).
    assert (effectRank (pr_Effect off) = 0).
    { revert Hdec. unfold decides_t38, str_mem, effectRank. simpl. case_effect off; done. }
    lia. }
  apply String.eqb_neq in Hr_off. unfold t38_of, t38_by in Ht. rewrite Hr_off in Ht, Hf.
  simpl in *. by inversion Ht.
Qed.

Lemma ResolveFaxPolicy_failsafe_witness :
  fp_EnableT38 (ResolveFaxPolicy zero_faxing
    (Some (example_rule 9 "src" "300" "" PolicyEffectT38On PolicyOriginManual :: example_rules))
    "300" "200" "softmodem" 0) = false.
Proof.
  refine (proj1 (ResolveFaxPolicy_failsafe zero_faxing _ "300" "200" "softmodem" 0
    (example_rule 1 "dst" "" "200" PolicyEffectT38Off PolicyOriginAuto) _ _ _ _ _ _)).
  - reflexivity.
  - right. left.
  - vm_compute. reflexivity.
  - vm_compute. reflexivity.
  - vm_compute. discriminate.
  - intros r Hr Hm He. apply list_elem_of_In in Hr. simpl in Hr.
    repeat destruct Hr as [<-|Hr]; try destruct Hr; vm_compute in Hm, He; try discriminate;
      vm_compute; discriminate.
Defined.

(** Every other attribute is resolved on its own the same way: ECM and V.17 by a
    most specific matching rule for that attribute, each channel variable by a
    most specific override of that variable; an attribute no rule names stays
    unset. The applied rule ids are those of all matching rules. *)
Theorem ResolveFaxPolicy_attributes (cfg : FaxingConfig) (rules : list FaxPolicyRule)
  (src dst ct : string) (now : Z) :
  PolicyEnabled (fc_Policy cfg) = true ->
  let p := ResolveFaxPolicy cfg (Some rules) src dst ct now in
  (forall b, fp_UseECM p = Some b -> exists r,
     most_specific decides_ecm rules src dst ct now r /\ b = (pr_Effect r =? PolicyEffectECMOn)%string) /\
  (fp_UseECM p = None -> forall r, r ∈ rules -> ruleMatches r src dst ct now = true -> decides_ecm r = false) /\
  (fp_DisableV17 p = Some true \/ fp_DisableV17 p = None) /\
  (fp_DisableV17 p = Some true <-> exists r, r ∈ rules /\ ruleMatches r src dst ct now = true /\ decides_v17 r = true) /\
  (forall x v, fp_VarOverrides p !! x = Some v -> exists r,
     most_specific (overrides_var x) rules src dst ct now r /\ v = pr_VarValue r) /\
  (forall x, fp_VarOverrides p !! x = None -> forall r, r ∈ rules ->
     ruleMatches r src dst ct now = true -> overrides_var x r = false) /\
  fp_AppliedRuleIDs p ≡ₚ map pr_ID (matching_rules rules src dst ct now).
Proof.
  intros He p. pose proof (resolve_unfold cfg rules src dst ct now He) as Hu.
  pose proof (fun P => find_most_specific P rules src dst ct now) as Hm.
  pose proof (fun P => find_none_matching P rules src dst ct now) as Hn.
  assert (map pr_ID (stable_sort rule_less (matching_rules rules src dst ct now)) ≡ₚ
          map pr_ID (matching_rules rules src dst ct now)) as Hp.
  { apply Permutation_map, stable_sort_perm. }
  simpl in Hu. subst p. set (ms := stable_sort rule_less _) in *. clearbody ms.
  destruct (resolve_fold_other cfg ms
    ((DefaultFaxPolicy cfg) <| fp_AppliedRuleIDs := map pr_ID ms |>) false) as (Hecm & Hv17 & Hvar & Hids).
  destruct (foldl _ _ _) as [p d]; simpl in *. rewrite Hu. simpl. clear Hu.
  rewrite Hecm, Hv17, Hids. split; [|split; [|split; [|split; [|split; [|split; [|done]]]]]].
  - intros b Hb. destruct (List.find decides_ecm ms) as [r|] eqn:E; simplify_eq/=. eauto.
  - destruct (List.find decides_ecm ms) eqn:E; [done|]. intros _. by apply Hn.
  - destruct (List.find decides_v17 ms); simpl; auto.
  - destruct (List.find decides_v17 ms) as [r|] eqn:E; simpl; split; try done.
    + intros _. destruct (Hm _ _ E) as (?&?&?&_). eauto.
    + intros (r & ? & ? & Hr). by rewrite (Hn _ E r) in Hr.
  - intros x v Hx. rewrite Hvar, lookup_empty in Hx.
    destruct (List.find (overrides_var x) ms) as [r|] eqn:E; simplify_eq/=. eauto.
  - intros x Hx. rewrite Hvar, lookup_empty in Hx.
    destruct (List.find (overrides_var x) ms) eqn:E; [done|]. by apply Hn.
Qed.

Lemma ResolveFaxPolicy_attributes_witness :
  fp_AppliedRuleIDs (ResolveFaxPolicy zero_faxing (Some example_rules) "100" "200" "bridge" 0)
    ≡ₚ [1; 2; 3].
Proof.
  destruct (ResolveFaxPolicy_attributes zero_faxing example_rules "100" "200" "bridge" 0 eq_refl)
    as (_ & _ & _ & _ & _ & _ & H).
  exact H.
Defined.

(** Rules bind calls by direction: an enabled, unexpired auto "dst" rule protects
    calls to and from its number; a manual "dst" rule only calls to it; a rule
    scoped to one call type never touches the other; disabled and expired rules
    never match. *)
Theorem ruleMatches_direction (r : FaxPolicyRule) (src dst ct : string) (now : Z) :
  pr_Scope r = PolicyScopeDst ->
  (ruleMatches r src dst ct now = true <->
     pr_Enabled r = true /\ (forall e, pr_ExpiresAt r = Some e -> now <= e) /\
     pr_AppliesTo r ∈ [""; "both"; ct] /\
     (pr_DstNumber r = dst \/ (pr_Origin r = PolicyOriginAuto /\ pr_DstNumber r = src))).
Proof.
  intros Hs. unfold ruleMatches, rule_expired. rewrite Hs. simpl.
  rewrite <- (str_mem_spec (pr_AppliesTo r)).
  assert (forall e, (e <? now) = false <-> now <= e) as Hlt by (intros; rewrite Z.ltb_ge; lia).
  destruct (pr_Enabled r); simpl; [|naive_solver].
  destruct (pr_ExpiresAt r) as [e|]; [destruct (e <? now) eqn:E|];
    destruct (str_mem (pr_AppliesTo r) _); simpl;
    destruct (String.eqb_spec (pr_DstNumber r) dst); try rewrite andb_true_iff, !String.eqb_eq;
    try apply Hlt in E; try apply Z.ltb_lt in E;
    split; intros; repeat match goal with H : _ /\ _ |- _ => destruct H end; try done;
    repeat split; intros; simplify_eq; try done; auto; try tauto.
  all: match goal with H : forall e, Some _ = Some e -> _ |- _ => specialize (H _ eq_refl); lia end.
Qed.

Lemma ruleMatches_direction_witness :
  let r := example_rule 1 "dst" "" "200" PolicyEffectT38Off PolicyOriginAuto in
  ruleMatches r "200" "555" "bridge" 7 = true.
Proof.
  intros r. apply (ruleMatches_direction r "200" "555" "bridge" 7 eq_refl).
  split; [reflexivity|]. split; [discriminate|].
  split; [right; left|right; split; reflexivity].
Defined.
