(* ===== verification/Learning.v ===== *)
(** * Learning: auto rules of the fax policy engine, written and healed from
    call outcomes ([gofaxserver/faxpolicy.go]).

    [PolicyState] is the part of the server the handlers touch: the rules
    table and the cache. *)

From S2P Require Import Prelude Config Store FaxResult FaxJob Policy.

Record PolicyState (T : Type) := {
  ps_db : T;
  ps_cache : option (list FaxPolicyRule);
}.
Arguments ps_db {T} _.
Arguments ps_cache {T} _.

(** Rows the healing code selects, and the one rule an upsert looks for. *)
Definition is_auto_for (remoteNumber : string) (r : FaxPolicyRule) : bool :=
  (pr_Origin r =? PolicyOriginAuto)%string && (pr_Scope r =? PolicyScopeDst)%string &&
  (pr_DstNumber r =? remoteNumber)%string.

Definition is_auto_rule (remoteNumber effect appliesTo : string) (r : FaxPolicyRule) : bool :=
  is_auto_for remoteNumber r && (pr_Effect r =? effect)%string &&
  (pr_AppliesTo r =? appliesTo)%string.

(** An expired auto rule: the rows [reloadFaxPolicies] prunes. *)
Definition prunable (now : Z) (r : FaxPolicyRule) : bool :=
  rule_expired r now && (pr_Origin r =? PolicyOriginAuto)%string.

(** The refreshed row of an upsert, and the fresh one. *)
Definition refreshed_rule (now expires : Z) (t38Status : string) (failureCount : Z)
  (e : FaxPolicyRule) : FaxPolicyRule :=
  e <| pr_FailureCount := failureCount |> <| pr_SuccessCount := 0 |> <| pr_Enabled := true |>
    <| pr_ExpiresAt := Some expires |> <| pr_LastSeenAt := Some now |>
    <| pr_LastT38Status := t38Status |>.

Definition new_auto_rule (now expires : Z) (remoteNumber effect appliesTo t38Status : string)
  (failureCount : Z) : FaxPolicyRule :=
  {| pr_ID := 0; pr_Scope := PolicyScopeDst; pr_SrcNumber := ""; pr_DstNumber := remoteNumber;
     pr_Effect := effect; pr_AppliesTo := appliesTo; pr_Origin := PolicyOriginAuto;
     pr_Enabled := true; pr_ExpiresAt := Some expires; pr_VarName := ""; pr_VarValue := "";
     pr_FailureCount := failureCount; pr_SuccessCount := 0; pr_LastSeenAt := Some now;
     pr_LastT38Status := t38Status; pr_Notes := "auto-learned from fax failures" |}.

Section learning.
Context {T : Type} `{!Table T FaxPolicyRule}.
Variable cfg : FaxPolicyConfig.

(** The pruning loop: a failed delete is ignored, the row stays in the table
    and leaves the cache. *)
Fixpoint prune_loop (now : Z) (rules : list FaxPolicyRule) (t : T) : list FaxPolicyRule * T :=
  match rules with
  | [] => ([], t)
  | r :: rules' =>
      if prunable now r then
        prune_loop now rules' (tbl_delete (fun x => pr_ID x =? pr_ID r) t).2
      else let '(kept, t') := prune_loop now rules' t in (r :: kept, t')
  end.

Definition reloadFaxPolicies (now : Z) (st : PolicyState T) : bool * PolicyState T :=
  let '(rules, t1) := tbl_find (fun _ => true) (ps_db st) in
  match rules with
  | None => (false, st <| ps_db := t1 |>)
  | Some rules =>
      let '(kept, t2) := prune_loop now rules t1 in
      (true, {| ps_db := t2; ps_cache := Some kept |})
  end.

Definition findAutoRule (remoteNumber effect appliesTo : string) (t : T)
  : option FaxPolicyRule * T :=
  tbl_first (is_auto_rule remoteNumber effect appliesTo) t.

Definition upsertAutoRule (now : Z) (remoteNumber effect appliesTo t38Status : string)
  (failureCount : Z) (t : T) : option FaxPolicyRule * T :=
  let expires := now + autoRuleTTL cfg in
  let '(existing, t1) := findAutoRule remoteNumber effect appliesTo t in
  match existing with
  | Some e =>
      let e' := refreshed_rule now expires t38Status failureCount e in
      let '(ok, t2) := tbl_save e' t1 in
      (if ok then Some e' else None, t2)
  | None =>
      tbl_create (new_auto_rule now expires remoteNumber effect appliesTo t38Status failureCount) t1
  end.

Definition LearnFaxPolicyFailure (now : Z) (remoteNumber : string) (result : option FaxResult)
  (st : PolicyState T) : PolicyState T :=
  if negb (PolicyEnabled cfg) || negb (LearningEnabled cfg) || (remoteNumber =? "")%string then st
  else
    let t38Status := match result with Some r => fr_T38Status r | None => "" end in
    let '(t38Rule, t1) := findAutoRule remoteNumber PolicyEffectT38Off "both" (ps_db st) in
    let failures := match t38Rule with Some r => wrap64 (pr_FailureCount r + 1) | None => 1 end in
    if failures <? T38Threshold cfg then st <| ps_db := t1 |>
    else
      let '(up, t2) := upsertAutoRule now remoteNumber PolicyEffectT38Off "both" t38Status failures t1 in
      match up with
      | None => st <| ps_db := t2 |>
      | Some _ =>
          let t3 :=
            if ECMThreshold cfg <=? failures
            then (upsertAutoRule now remoteNumber PolicyEffectECMOff "both" t38Status failures t2).2
            else t2 in
          let t4 :=
            if V17Threshold cfg <=? failures
            then (upsertAutoRule now remoteNumber PolicyEffectV17Off "both" t38Status failures t3).2
            else t3 in
          (reloadFaxPolicies now (st <| ps_db := t4 |>)).2
      end.

Definition LearnFaxPolicyBridgeFailure (now : Z) (remoteNumber hangupCause : string)
  (st : PolicyState T) : PolicyState T :=
  if negb (PolicyEnabled cfg) || negb (LearningEnabled cfg) || negb (BridgeLearnEnabled cfg) ||
     (remoteNumber =? "")%string then st
  else
    let '(rule, t1) := findAutoRule remoteNumber PolicyEffectT38Off CallTypeBridge (ps_db st) in
    let failures := match rule with Some r => wrap64 (pr_FailureCount r + 1) | None => 1 end in
    let '(up, t2) := upsertAutoRule now remoteNumber PolicyEffectT38Off CallTypeBridge hangupCause failures t1 in
    match up with
    | None => st <| ps_db := t2 |>
    | Some _ => (reloadFaxPolicies now (st <| ps_db := t2 |>)).2
    end.

(** The healing loop over the remote number's auto rules: the new table and
    [changed]. *)
Definition bumped_rule (now : Z) (r : FaxPolicyRule) : FaxPolicyRule :=
  r <| pr_SuccessCount := wrap64 (pr_SuccessCount r + 1) |> <| pr_FailureCount := 0 |>
    <| pr_LastSeenAt := Some now |>.

Fixpoint heal_loop (now : Z) (remoteNumber : string) (rules : list FaxPolicyRule) (t : T)
  (changed : bool) : T * bool :=
  match rules with
  | [] => (t, changed)
  | r :: rules' =>
      let r' := bumped_rule now r in
      if RecoveryThreshold cfg <=? pr_SuccessCount r'
      then ((tbl_delete (is_auto_for remoteNumber) t).2, true)
      else heal_loop now remoteNumber rules' (tbl_save r' t).2 true
  end.

Definition LearnFaxPolicySuccess (now : Z) (remoteNumber : string) (st : PolicyState T)
  : PolicyState T :=
  if negb (PolicyEnabled cfg) || negb (LearningEnabled cfg) || (remoteNumber =? "")%string then st
  else
    let '(rules, t1) := tbl_find (is_auto_for remoteNumber) (ps_db st) in
    match rules with
    | None | Some [] => st <| ps_db := t1 |>
    | Some rules =>
        let '(t2, changed) := heal_loop now remoteNumber rules t1 false in
        if changed then (reloadFaxPolicies now (st <| ps_db := t2 |>)).2
        else st <| ps_db := t2 |>
    end.

End learning.

(** ** Specification vocabulary *)

(** An enabled "both" rule of this effect for the number, fresh until
    [expires] and carrying the failure count. *)
Definition learned (expires : Z) (remoteNumber effect : string) (failures : Z)
  (rules : list FaxPolicyRule) : Prop :=
  exists r, r ∈ rules /\ is_auto_rule remoteNumber effect "both" r = true /\
    pr_Enabled r = true /\ pr_ExpiresAt r = Some expires /\ pr_FailureCount r = failures.

(** The failure count the ladder reads: that of the stored t38_off rule. *)
Definition stored_failures (remoteNumber appliesTo : string) (rules : list FaxPolicyRule) : Z :=
  match List.filter (is_auto_rule remoteNumber PolicyEffectT38Off appliesTo) rules with
  | r :: _ => pr_FailureCount r
  | [] => 0
  end.

(** ** Facts *)

Lemma is_auto_rule_spec n e a r :
  is_auto_rule n e a r = true <->
  pr_Origin r = PolicyOriginAuto /\ pr_Scope r = PolicyScopeDst /\ pr_DstNumber r = n /\
  pr_Effect r = e /\ pr_AppliesTo r = a.
Proof. unfold is_auto_rule, is_auto_for. rewrite !andb_true_iff, !String.eqb_eq. tauto. Qed.

Section learning_facts.
Context {T : Type} `{!Table T FaxPolicyRule, !TableLaws T FaxPolicyRule}.
Variable cfg : FaxPolicyConfig.

(** Reloading: the cache receives exactly the rules that are not expired auto
    rules, whatever becomes of the deletes. *)
Lemma prune_loop_kept now rules (t : T) :
  (prune_loop now rules t).1 = List.filter (fun r => negb (prunable now r)) rules.
Proof.
  revert t. induction rules as [|r rules IH]; intros t; simpl; [done|].
  destruct (prunable now r); simpl; [apply IH|].
  specialize (IH t). destruct (prune_loop now rules t). simpl in *. by rewrite IH.
Qed.

Lemma prune_loop_rows now rules (t : T) :
  tbl_healthy t ->
  tbl_healthy (prune_loop now rules t).2 /\
  tbl_rows (prune_loop now rules t).2 =
    List.filter (fun x => forallb (fun r => negb (prunable now r && (pr_ID x =? pr_ID r))) rules) (tbl_rows t).
Proof.
  revert t. induction rules as [|r rules IH]; intros t Ht; simpl.
  { by rewrite filter_true. }
  destruct (prunable now r); simpl.
  - destruct (delete_healthy (fun x => pr_ID x =? pr_ID r) t Ht) as (_ & Hr & Hh).
    destruct (IH _ Hh) as [? ->]. split; [done|]. rewrite Hr. clear.
    induction (tbl_rows t) as [|x l IHl]; simpl; [done|].
    destruct (pr_ID x =? pr_ID r); simpl; [done|]. by destruct (forallb _ _); rewrite IHl.
  - destruct (IH t Ht) as [??]. by destruct (prune_loop now rules t).
Qed.

(** With distinct keys the table loses exactly the expired auto rules too. *)
Lemma prune_rows_exact now (rows : list FaxPolicyRule) :
  ids_ok rows ->
  List.filter (fun x => forallb (fun r => negb (prunable now r && (pr_ID x =? pr_ID r))) rows) rows =
  List.filter (fun r => negb (prunable now r)) rows.
Proof.
  intros Hid. apply filter_ext_in. intros x Hx. apply eq_true_iff_eq.
  rewrite forallb_forall, negb_true_iff. split.
  - intros Hall. specialize (Hall x Hx). rewrite Z.eqb_refl, andb_true_r in Hall.
    by apply negb_true_iff in Hall.
  - intros Hp r Hr. apply negb_true_iff, andb_false_iff.
    destruct (pr_ID x =? pr_ID r) eqn:E; [left|by right]. apply Z.eqb_eq in E.
    apply list_elem_of_In in Hx, Hr. by rewrite <- (ids_ok_inj rows x r Hid Hx Hr E).
Qed.

Lemma reload_healthy now (st : PolicyState T) :
  tbl_healthy (ps_db st) ->
  let st' := (reloadFaxPolicies now st).2 in
  tbl_healthy (ps_db st') /\ (reloadFaxPolicies now st).1 = true /\
  ps_cache st' = Some (List.filter (fun r => negb (prunable now r)) (tbl_rows (ps_db st))) /\
  (ids_ok (tbl_rows (ps_db st)) ->
   tbl_rows (ps_db st') = List.filter (fun r => negb (prunable now r)) (tbl_rows (ps_db st))).
Proof.
  intros Ht. unfold reloadFaxPolicies.
  destruct (find_healthy (fun _ : FaxPolicyRule => true) (ps_db st) Ht) as (Hf & Hr & Hh).
  destruct (tbl_find _ (ps_db st)) as [o t1]; simpl in *. subst o.
  rewrite filter_true.
  pose proof (prune_loop_kept now (tbl_rows (ps_db st)) t1) as Hk.
  destruct (prune_loop_rows now (tbl_rows (ps_db st)) t1 Hh) as [Hh2 Hr2].
  destruct (prune_loop _ _ _) as [kept t2]; simpl in *. subst kept.
  split; [done|]. split; [done|]. split; [done|]. intros Hid.
  rewrite Hr2, Hr. by apply prune_rows_exact.
Qed.

(** What an upsert on a healthy database leaves behind. *)
Lemma upsert_healthy now n e a st k (t : T) :
  tbl_healthy t -> ids_ok (tbl_rows t) ->
  let u := upsertAutoRule cfg now n e a st k t in
  is_Some u.1 /\ tbl_healthy u.2 /\ ids_ok (tbl_rows u.2) /\
  (exists r, r ∈ tbl_rows u.2 /\ is_auto_rule n e a r = true /\ pr_Enabled r = true /\
     pr_ExpiresAt r = Some (now + autoRuleTTL cfg) /\ pr_FailureCount r = k) /\
  (forall x, x ∈ tbl_rows t -> is_auto_rule n e a x = false -> x ∈ tbl_rows u.2).
Proof.
  intros Ht Hid. unfold upsertAutoRule, findAutoRule.
  destruct (first_healthy (is_auto_rule n e a) t Ht) as (Hf & Hr & Hh).
  pose proof (first_some (is_auto_rule n e a) t) as Hsome.
  destruct (tbl_first _ t) as [o t1]; simpl in *.
  destruct o as [r|].
  - destruct (Hsome r eq_refl) as [Hin Hauto].
    destruct (save_healthy (refreshed_rule now (now + autoRuleTTL cfg) st k r) t1 Hh) as (Hok & Hrow & Hh2).
    destruct (tbl_save _ t1) as [ok t2]; simpl in *. subst ok. rewrite Hrow, Hr.
    split; [eauto|]. split; [done|]. split; [auto with gofax|]. split.
    + exists (refreshed_rule now (now + autoRuleTTL cfg) st k r). auto with gofax.
    + intros x Hx Hne. apply replace_row_old; [done|]. simpl. intros Hi.
      rewrite (ids_ok_inj _ x r Hid Hx Hin Hi) in Hne. congruence.
  - destruct (create_healthy (new_auto_rule now (now + autoRuleTTL cfg) n e a st k) t1 Hh)
      as (r' & Hc & Hrow & Hset & Hpos & Hfresh & Hh2).
    rewrite Hr in Hrow, Hfresh. rewrite Hc, Hrow.
    split; [eauto|]. split; [done|]. split; [by apply ids_ok_app|]. split.
    + exists r'. split; [set_solver|]. rewrite Hset. split; [|done].
      apply is_auto_rule_spec. done.
    + set_solver.
Qed.

(** An upsert of another effect keeps what was learned. *)
Lemma upsert_keeps_learned now n e e' st k expires k' (t : T) :
  tbl_healthy t -> ids_ok (tbl_rows t) -> e <> e' ->
  learned expires n e k' (tbl_rows t) ->
  learned expires n e k' (tbl_rows (upsertAutoRule cfg now n e' "both" st k t).2).
Proof.
  intros Ht Hid Hne (r & Hr & Ha & Hrest). exists r. split; [|done].
  apply (upsert_healthy now n e' "both" st k t Ht Hid); [done|].
  apply not_true_iff_false. rewrite is_auto_rule_spec in Ha |- *. naive_solver.
Qed.

(** Reloading keeps what was just learned. *)
Lemma reload_keeps_learned now n e k (st : PolicyState T) :
  tbl_healthy (ps_db st) ->
  learned (now + autoRuleTTL cfg) n e k (tbl_rows (ps_db st)) ->
  forall rules, ps_cache (reloadFaxPolicies now st).2 = Some rules ->
  learned (now + autoRuleTTL cfg) n e k rules.
Proof.
  intros Ht (r & Hr & Ha & He & Hx & Hk) rules Hc.
  destruct (reload_healthy now st Ht) as (_ & _ & Hc' & _). rewrite Hc' in Hc. simplify_eq.
  exists r. split; [|done]. apply list_elem_of_In, filter_In. split; [by apply list_elem_of_In|].
  unfold prunable, rule_expired. rewrite Hx. pose proof (autoRuleTTL_bounds cfg).
  by rewrite (proj2 (Z.ltb_ge _ _)) by lia.
Qed.

End learning_facts.

(** One rung of the ladder, taken or not. *)
Lemma rung_healthy {T} `{!Table T FaxPolicyRule, !TableLaws T FaxPolicyRule}
  cfg now n e st k (b : bool) (t : T) :
  tbl_healthy t -> ids_ok (tbl_rows t) ->
  let t' := if b then (upsertAutoRule cfg now n e "both" st k t).2 else t in
  tbl_healthy t' /\ ids_ok (tbl_rows t') /\
  (b = true -> learned (now + autoRuleTTL cfg) n e k (tbl_rows t')) /\
  (forall expires e' k', e' <> e ->
     learned expires n e' k' (tbl_rows t) -> learned expires n e' k' (tbl_rows t')).
Proof.
  intros Hh Hid. destruct b; simpl; [|repeat split; done].
  pose proof (upsert_healthy cfg now n e "both" st k t Hh Hid) as (_&?&?&?&_).
  repeat split; try done. intros. by apply upsert_keeps_learned.
Qed.

(** The stored t38_off rule's failure count, as the handlers read it. *)
Lemma findAutoRule_healthy {T} `{!Table T FaxPolicyRule, !TableLaws T FaxPolicyRule} n a (t : T) :
  tbl_healthy t ->
  match (findAutoRule n PolicyEffectT38Off a t).1 with
  | Some r => wrap64 (pr_FailureCount r + 1) | None => 1 end = wrap64 (stored_failures n a (tbl_rows t) + 1) /\
  tbl_rows (findAutoRule n PolicyEffectT38Off a t).2 = tbl_rows t /\
  tbl_healthy (findAutoRule n PolicyEffectT38Off a t).2.
Proof.
  intros Ht. unfold findAutoRule, stored_failures.
  destruct (first_healthy (is_auto_rule n PolicyEffectT38Off a) t Ht) as (-> & Hr & Hh).
  split; [|done]. by destruct (List.filter _ (tbl_rows t)).
Qed.

(** A rule learned for a number matches the calls to and from it. *)
Lemma learned_matches expires n k rules src dst ct now' :
  learned expires n PolicyEffectT38Off k rules -> now' <= expires ->
  src = n \/ dst = n ->
  exists off, off ∈ rules /\ ruleMatches off src dst ct now' = true /\
    decides_t38 off = true /\ pr_Effect off = PolicyEffectT38Off /\
    scopeRank (pr_Scope off) = 1 /\ originRank (pr_Origin off) = 1.
Proof.
  intros (r & Hr & Ha & He & Hx & _) Hnow Hn. apply is_auto_rule_spec in Ha as (Ho & Hs & Hd & Hf & Hap).
  exists r. unfold decides_t38, ruleMatches, rule_expired. rewrite He, Hx, Hs, Ho, Hf, Hap, Hd.
  rewrite (proj2 (Z.ltb_ge _ _)) by lia. simpl. repeat split; try done.
  destruct Hn as [->| ->]; rewrite str_eqb_refl; [|done]. by destruct (_ =? _)%string.
Qed.

(** No matching t38_on rule outranks an automatic "dst" rule. *)
Definition unopposed (rules : list FaxPolicyRule) (src dst ct : string) (now : Z) : Prop :=
  forall r, r ∈ rules -> ruleMatches r src dst ct now = true -> pr_Effect r = PolicyEffectT38On ->
    3 <= 2 * scopeRank (pr_Scope r) + originRank (pr_Origin r).

Lemma learned_shields fcfg expires n k rules src dst ct now' :
  learned expires n PolicyEffectT38Off k rules -> now' <= expires ->
  src = n \/ dst = n -> PolicyEnabled (fc_Policy fcfg) = true ->
  unopposed rules src dst ct now' ->
  fp_EnableT38 (ResolveFaxPolicy fcfg (Some rules) src dst ct now') = false.
Proof.
  intros Hl Hnow Hends Hpe Hon.
  destruct (learned_matches expires n k rules src dst ct now' Hl Hnow Hends)
    as (off & Hoff & Hm & Hdec & Heff & Hsc & Hor).
  destruct (ResolveFaxPolicy_t38_core fcfg rules src dst ct now' Hpe)
    as [(r & (Hr & Hrm & Hrd & Hmin) & _ & Ht & _)|(Hnone & _)].
  2: { specialize (Hnone off Hoff Hm). congruence. }
  destruct (String.eqb_spec (pr_Effect r) PolicyEffectT38On) as [Heq|Hne].
  - specialize (Hmin off Hoff Hm Hdec). specialize (Hon r Hr Hrm Heq).
    rewrite rule_less_key in Hmin. apply Z.ltb_ge in Hmin. revert Hmin. unfold rule_key.
    rewrite Hsc, Hor, Heff, Heq. change (effectRank PolicyEffectT38Off) with 0.
    change (effectRank PolicyEffectT38On) with 1. lia.
  - apply String.eqb_neq in Hne. unfold t38_of, t38_by in Ht. rewrite Hne in Ht. by inversion Ht.
Qed.

(** A failure below the T.38 threshold writes nothing. *)
Lemma failure_below_threshold {T} `{!Table T FaxPolicyRule, !TableLaws T FaxPolicyRule}
  cfg now n result (st : PolicyState T) :
  wrap64 (stored_failures n "both" (tbl_rows (ps_db st)) + 1) < T38Threshold cfg ->
  tbl_healthy (ps_db st) ->
  let st' := LearnFaxPolicyFailure cfg now n result st in
  tbl_rows (ps_db st') = tbl_rows (ps_db st) /\ ps_cache st' = ps_cache st /\
  tbl_healthy (ps_db st').
Proof.
  intros Hlow Hh. unfold LearnFaxPolicyFailure.
  destruct (_ || _); [done|].
  destruct (findAutoRule_healthy n "both" (ps_db st) Hh) as (Hf & Hr & Hh1).
  destruct (findAutoRule _ _ _ _) as [o t1]; simpl in *. rewrite Hf.
  by rewrite (proj2 (Z.ltb_lt _ _)).
Qed.

(** Saving a bumped rule row by row, until one heals. *)
Definition heals (cfg : FaxPolicyConfig) (r : FaxPolicyRule) : bool :=
  RecoveryThreshold cfg <=? wrap64 (pr_SuccessCount r + 1).

Lemma auto_for_bumped now n r : is_auto_for n (bumped_rule now r) = is_auto_for n r.
Proof. done. Qed.

Lemma replace_row_filter n (r' : FaxPolicyRule) rows :
  ids_ok rows -> (forall r, r ∈ rows -> pr_ID r = pr_ID r' -> is_auto_for n r = true) ->
  (exists r, r ∈ rows /\ pr_ID r = pr_ID r') -> is_auto_for n r' = true ->
  List.filter (fun x => negb (is_auto_for n x)) (replace_row r' rows) =
  List.filter (fun x => negb (is_auto_for n x)) rows.
Proof.
  intros Hid Hauto (r0 & Hr0 & Hi0) Ha. unfold replace_row.
  rewrite (proj2 (existsb_exists _ _)).
  2: { exists r0. split; [by apply list_elem_of_In|]. by apply Z.eqb_eq. }
  clear r0 Hr0 Hi0 Hid. induction rows as [|x rows IH]; simpl in *; [done|].
  assert (forall r, r ∈ rows -> pr_ID r = pr_ID r' -> is_auto_for n r = true) as Hrest
    by (intros; apply Hauto; [by right|done]).
  destruct (Z.eqb_spec (pr_ID x) (pr_ID r')) as [Hi|].
  - rewrite Ha, (Hauto x (list_elem_of_here _ _) Hi). simpl. by apply IH.
  - destruct (negb (is_auto_for n x)); simpl; by rewrite IH.
Qed.

Lemma heal_loop_changed {T} `{!Table T FaxPolicyRule} cfg now n rules (t : T) changed :
  rules <> [] \/ changed = true -> (heal_loop cfg now n rules t changed).2 = true.
Proof.
  revert t changed. induction rules as [|r rules IH]; intros t changed Hc; simpl.
  - by destruct Hc.
  - destruct (_ <=? _); [done|]. apply IH. by right.
Qed.

(** The healing loop touches the number's auto rules only, and clears them all
    when one of them heals. *)
Lemma heal_loop_spec {T} `{!Table T FaxPolicyRule, !TableLaws T FaxPolicyRule}
  cfg now n rules (t : T) changed :
  tbl_healthy t -> ids_ok (tbl_rows t) ->
  Forall (fun r => is_auto_for n r = true) rules ->
  Forall (fun r => exists x, x ∈ tbl_rows t /\ pr_ID x = pr_ID r /\ is_auto_for n x = true) rules ->
  let t' := (heal_loop cfg now n rules t changed).1 in
  tbl_healthy t' /\ ids_ok (tbl_rows t') /\
  List.filter (fun x => negb (is_auto_for n x)) (tbl_rows t') =
    List.filter (fun x => negb (is_auto_for n x)) (tbl_rows t) /\
  (existsb (heals cfg) rules = true -> forall x, x ∈ tbl_rows t' -> is_auto_for n x = false).
Proof.
  revert t changed. induction rules as [|r rules IH]; intros t changed Hh Hid Ha Hin; simpl; [done|].
  apply Forall_cons in Ha as [Har Ha]. apply Forall_cons in Hin as [(x0 & Hx0 & Hi0 & Ha0) Hin].
  unfold heals at 1. simpl. destruct (RecoveryThreshold cfg <=? wrap64 (pr_SuccessCount r + 1)); simpl.
  - destruct (delete_healthy (is_auto_for n) t Hh) as (_ & Hr & Hh'). rewrite Hr.
    split; [done|]. split; [auto with gofax|]. split.
    + clear. induction (tbl_rows t) as [|x l IHl]; simpl; [done|].
      destruct (is_auto_for n x) eqn:E; simpl; [done|]. rewrite E. simpl. by rewrite IHl.
    + intros _ x Hx. apply list_elem_of_In, filter_In in Hx as [_ Hx]. by apply negb_true_iff in Hx.
  - destruct (save_healthy (bumped_rule now r) t Hh) as (_ & Hr & Hh').
    assert (forall y, y ∈ tbl_rows t -> pr_ID y = pr_ID r -> is_auto_for n y = true) as Hsame.
    { intros y Hy Hi. rewrite (ids_ok_inj _ y x0 Hid Hy Hx0); [done|]. simpl. congruence. }
    destruct (IH (tbl_save (bumped_rule now r) t).2 true) as (?&?&Hf&Hclear); try done.
    + rewrite Hr. auto with gofax.
    + eapply Forall_impl; [exact Hin|]. simpl. intros r' (x & Hx & Hi & Hax). rewrite Hr.
      destruct (Z.eq_dec (pr_ID x) (pr_ID r)) as [Heq|Hne].
      * exists (bumped_rule now r). split; [auto with gofax|]. simpl. split; [congruence|done].
      * exists x. split; [|done]. by apply replace_row_old.
    + split; [done|]. split; [done|]. rewrite Hf, Hr. split; [|done].
      apply replace_row_filter; eauto.
Qed.

(** ** Properties *)

Section learning_properties.
Context {T : Type} `{!Table T FaxPolicyRule, !TableLaws T FaxPolicyRule}.
Variable cfg : FaxPolicyConfig.

(** C4: the escalation ladder: on a healthy database, a failure that brings the
    number's count (a 64-bit integer) to [k] at or above the T.38 threshold leaves in the cache an
    enabled t38_off rule carrying [k], an ecm_off rule when [k] reaches the ECM
    threshold and a v17_off rule when it reaches the V.17 one, each valid for
    the configured lifetime; and until then no call to or from the number, of
    either type, finds T.38 enabled, unless a t38_on rule matches that is
    manual or scoped to the pair. *)
Theorem LearnFaxPolicyFailure_ladder (fcfg : FaxingConfig) (now : Z) (n : string)
  (result : option FaxResult) (st : PolicyState T) (k : Z) :
  tbl_healthy (ps_db st) -> ids_ok (tbl_rows (ps_db st)) ->
  PolicyEnabled cfg = true -> LearningEnabled cfg = true -> n <> "" ->
  k = wrap64 (stored_failures n "both" (tbl_rows (ps_db st)) + 1) -> T38Threshold cfg <= k ->
  let expires := now + autoRuleTTL cfg in
  exists rules, ps_cache (LearnFaxPolicyFailure cfg now n result st) = Some rules /\
    learned expires n PolicyEffectT38Off k rules /\
    (ECMThreshold cfg <= k -> learned expires n PolicyEffectECMOff k rules) /\
    (V17Threshold cfg <= k -> learned expires n PolicyEffectV17Off k rules) /\
    (forall src dst ct now', src = n \/ dst = n -> now' <= expires ->
       PolicyEnabled (fc_Policy fcfg) = true -> unopposed rules src dst ct now' ->
       fp_EnableT38 (ResolveFaxPolicy fcfg (Some rules) src dst ct now') = false).
Proof.
  intros Hh Hid Hp Hl Hn Hk Hthr expires. unfold LearnFaxPolicyFailure.
  rewrite Hp, Hl, (proj2 (String.eqb_neq n "")) by done. simpl.
  destruct (findAutoRule_healthy n "both" (ps_db st) Hh) as (Hf & Hr0 & Hh0).
  destruct (findAutoRule _ _ _ _) as [o t1]; simpl in *. rewrite Hf, <- Hk.
  rewrite <- Hr0 in Hid. rewrite (proj2 (Z.ltb_ge _ _)) by done.
  set (t38s := match result with Some _ => _ | None => _ end). clearbody t38s.
  destruct (upsert_healthy cfg now n PolicyEffectT38Off "both" t38s k t1 Hh0 Hid)
    as ([e Hup] & Hh2 & Hid2 & Hl2 & _).
  destruct (upsertAutoRule _ _ _ _ _ _ _ t1) as [up t2]; simpl in *. subst up.
  destruct (rung_healthy cfg now n PolicyEffectECMOff t38s k (ECMThreshold cfg <=? k) t2 Hh2 Hid2)
    as (Hh3 & Hid3 & He3 & Hk3).
  destruct (rung_healthy cfg now n PolicyEffectV17Off t38s k (V17Threshold cfg <=? k) _ Hh3 Hid3)
    as (Hh4 & _ & Hv4 & Hk4).
  edestruct (reload_healthy now {| ps_db := _; ps_cache := ps_cache st |} Hh4) as (_ & _ & Hc & _).
  set (rules := List.filter _ _) in Hc.
  epose proof (fun e He => reload_keeps_learned cfg now n e k
    {| ps_db := _; ps_cache := ps_cache st |} Hh4 He rules Hc) as Hrl.
  assert (learned expires n PolicyEffectT38Off k rules) as Ht38.
  { apply Hrl, Hk4; [done|]. by apply Hk3. }
  exists rules. split; [exact Hc|]. split; [done|]. split; [|split].
  - intros Hke. apply Hrl, Hk4, He3; [done|]. by apply Z.leb_le.
  - intros Hkv. apply Hrl, Hv4. by apply Z.leb_le.
  - intros. by eapply learned_shields.
Qed.

(** Healing: on a healthy database, a success after which one of the number's
    auto rules has reached the recovery threshold leaves no auto rule for the
    number in the table or in the cache, and every other live rule stays. *)
Theorem LearnFaxPolicySuccess_heals (now : Z) (n : string) (st : PolicyState T) (r : FaxPolicyRule) :
  tbl_healthy (ps_db st) -> ids_ok (tbl_rows (ps_db st)) ->
  PolicyEnabled cfg = true -> LearningEnabled cfg = true -> n <> "" ->
  r ∈ tbl_rows (ps_db st) -> is_auto_for n r = true ->
  RecoveryThreshold cfg <= wrap64 (pr_SuccessCount r + 1) ->
  let st' := LearnFaxPolicySuccess cfg now n st in
  exists rules, ps_cache st' = Some rules /\ tbl_rows (ps_db st') = rules /\
    rules = List.filter (fun x => negb (is_auto_for n x) && negb (prunable now x)) (tbl_rows (ps_db st)).
Proof.
  intros Hh Hid Hp Hl Hn Hr Ha Hrec. unfold LearnFaxPolicySuccess.
  rewrite Hp, Hl, (proj2 (String.eqb_neq n "")) by done. simpl.
  destruct (find_healthy (is_auto_for n) (ps_db st) Hh) as (Hf & Hr1 & Hh1).
  destruct (tbl_find _ _) as [o t1]; simpl in *. subst o.
  assert (In r (List.filter (is_auto_for n) (tbl_rows (ps_db st)))) as Hrin
    by (apply filter_In; split; [by apply list_elem_of_In|done]).
  pose proof (heal_loop_spec cfg now n (List.filter (is_auto_for n) (tbl_rows (ps_db st))) t1 false Hh1)
    as Hloop. rewrite Hr1 in Hloop.
  destruct Hloop as (Hh2 & Hid2 & Hkeep & Hclear); [done| | |].
  { apply Forall_forall. intros x Hx. apply list_elem_of_In, filter_In in Hx. tauto. }
  { apply Forall_forall. intros x Hx. apply list_elem_of_In, filter_In in Hx as [Hx ?].
    exists x. by rewrite list_elem_of_In. }
  assert (existsb (heals cfg) (List.filter (is_auto_for n) (tbl_rows (ps_db st))) = true) as Hheal.
  { apply existsb_exists. exists r. split; [done|]. by apply Z.leb_le. }
  specialize (Hclear Hheal).
  destruct (List.filter (is_auto_for n) _) as [|r0 rs]; [done|].
  pose proof (heal_loop_changed cfg now n (r0 :: rs) t1 false ltac:(by left)) as Hch.
  destruct (heal_loop _ _ _ _ _ _) as [t2 ch]; simpl in *. subst ch.
  destruct (reload_healthy now {| ps_db := t2; ps_cache := ps_cache st |} Hh2) as (_ & _ & Hc & Hrows).
  eexists. split; [exact Hc|]. split; [by apply Hrows|]. simpl.
  rewrite <- filter_filter, <- Hkeep, (filter_all (fun x => negb (is_auto_for n x)) (tbl_rows t2)); [done|].
  intros x Hx. by rewrite Hclear.
Qed.

(** With a T.38 threshold above one, learning never starts: the failure counter
    lives in the t38_off rule, which is written only once the threshold is
    reached, so for a number without one no sequence of failures, however long,
    changes the table or the cache. *)
Theorem LearnFaxPolicyFailure_never_starts (n : string) (history : list (Z * option FaxResult))
  (st : PolicyState T) :
  tbl_healthy (ps_db st) -> 1 < T38Threshold cfg ->
  stored_failures n "both" (tbl_rows (ps_db st)) = 0 ->
  let st' := foldl (fun s h => LearnFaxPolicyFailure cfg h.1 n h.2 s) st history in
  tbl_rows (ps_db st') = tbl_rows (ps_db st) /\ ps_cache st' = ps_cache st.
Proof.
  revert st. induction history as [|h history IH]; intros st Hh Ht H0; simpl; [done|].
  destruct (failure_below_threshold cfg h.1 n h.2 st) as (Hr & Hc & Hh'); [by rewrite H0|done|].
  rewrite <- Hr, <- Hc. apply IH; [done|done|]. by rewrite Hr.
Qed.

End learning_properties.

(** ** Witnesses, and healing without consecutive successes *)

Definition empty_policy_state : PolicyState (ListTable FaxPolicyRule) :=
  {| ps_db := fresh_table [] 1 []; ps_cache := Some [] |}.

(** The outcomes of a number's faxes, one a second. *)
Fixpoint run_outcomes (cfg : FaxPolicyConfig) (now : Z) (n : string) (outcomes : list bool)
  (st : PolicyState (ListTable FaxPolicyRule)) : PolicyState (ListTable FaxPolicyRule) :=
  match outcomes with
  | [] => st
  | ok :: rest =>
      run_outcomes cfg (now + second) n rest
        (if ok then LearnFaxPolicySuccess cfg now n st else LearnFaxPolicyFailure cfg now n None st)
  end.

Definition rung2_state : PolicyState (ListTable FaxPolicyRule) :=
  run_outcomes zero_policy 1 "200" [false; false] empty_policy_state.

Definition healing_state : PolicyState (ListTable FaxPolicyRule) :=
  run_outcomes zero_policy 1 "200" [false; true; true] empty_policy_state.

Lemma LearnFaxPolicyFailure_ladder_witness :
  exists rules, ps_cache (LearnFaxPolicyFailure zero_policy (3 * second) "200" None rung2_state) = Some rules /\
    learned (3 * second + 720 * hour) "200" PolicyEffectV17Off 3 rules.
Proof.
  destruct (LearnFaxPolicyFailure_ladder zero_policy zero_faxing (3 * second) "200" None rung2_state 3)
    as (rules & Hc & _ & _ & Hv & _).
  - vm_compute. reflexivity.
  - vm_compute. repeat constructor; rewrite list_elem_of_In; simpl; intuition discriminate.
  - reflexivity.
  - reflexivity.
  - discriminate.
  - vm_compute. reflexivity.
  - vm_compute. discriminate.
  - exists rules. split; [exact Hc|]. apply Hv. vm_compute. discriminate.
Defined.

Lemma LearnFaxPolicySuccess_heals_witness :
  exists rules, ps_cache (LearnFaxPolicySuccess zero_policy (4 * second) "200" healing_state) = Some rules /\
    rules = [].
Proof.
  destruct (LearnFaxPolicySuccess_heals zero_policy (4 * second) "200" healing_state
    (nth 0 (lt_rows (ps_db healing_state)) (new_auto_rule 0 0 "" "" "" "" 0)))
    as (rules & Hc & _ & Hr).
  - vm_compute. reflexivity.
  - vm_compute. repeat constructor; rewrite list_elem_of_In; simpl; intuition discriminate.
  - reflexivity.
  - reflexivity.
  - discriminate.
  - vm_compute. left.
  - vm_compute. reflexivity.
  - vm_compute. discriminate.
  - exists rules. split; [exact Hc|]. rewrite Hr. vm_compute. reflexivity.
Defined.

Lemma LearnFaxPolicyFailure_never_starts_witness :
  ps_cache (foldl (fun s h => LearnFaxPolicyFailure (zero_policy <| pc_T38FailureThreshold := 2 |>) h.1 "200" h.2 s)
    empty_policy_state [(1, None); (2, None); (3, None); (4, None)]) = Some [].
Proof.
  refine (proj2 (LearnFaxPolicyFailure_never_starts _ "200" [(1, None); (2, None); (3, None); (4, None)]
    empty_policy_state _ _ _)); vm_compute; reflexivity.
Defined.

(** The successes that heal need not be consecutive: with the default
    thresholds, after two failures, two successes and one more failure a single
    success clears every rule, because a failure below the ECM threshold resets
    the success count of the t38_off rule only, and the ecm_off rule keeps its. *)
Theorem healing_not_consecutive :
  RecoveryThreshold zero_policy = 3 /\
  ps_cache (run_outcomes zero_policy 1 "200" [false; false; true; true; false; true] empty_policy_state)
    = Some [] /\
  (exists rules, ps_cache (run_outcomes zero_policy 1 "200" [false; false; true; true; false] empty_policy_state)
    = Some rules /\ List.length rules = 2%nat).
Proof.
  split; [reflexivity|]. split; [vm_compute; reflexivity|].
  eexists. split; vm_compute; reflexivity.
Qed.
