(* ===== verification/PairState.v ===== *)
(** * PairState: flip-flop probing per number pair ([gofaxserver/faxpolicy.go])

    While no policy rule decides T.38, consecutive calls of the same pair and
    call type alternate it. The state is a write-through cache: a map under a
    string key in front of a table with a unique index on (source, destination,
    call type). Each handler is one step; the clock is an argument. *)

From S2P Require Import Prelude Config Store.

Record FaxPairState := {
  ps_ID : Z;
  ps_SrcNumber : string; ps_DstNumber : string; ps_CallType : string;
  ps_LastUsedT38 : bool; ps_LastSeen : Z;
}.

#[export] Instance pair_state_id : HasID FaxPairState := {
  get_id := ps_ID; set_id i r := r <| ps_ID := i |>; get_set_id i r := eq_refl }.

Definition pairStateKey (srcNum dstNum callType : string) : string :=
  callType +:+ "|" +:+ srcNum +:+ "|" +:+ dstNum.

(** Numbers and call types without the separator of the key. *)
Definition clean (s : string) : Prop := (str_cut "|" s).2 = None.

Definition clean_row (r : FaxPairState) : Prop :=
  clean (ps_CallType r) /\ clean (ps_SrcNumber r).

Record PairServer (T : Type) := {
  pp_db : T;
  pp_pairStates : gmap string FaxPairState;
}.
Arguments pp_db {T} _.
Arguments pp_pairStates {T} _.

Definition row_key (r : FaxPairState) : string :=
  pairStateKey (ps_SrcNumber r) (ps_DstNumber r) (ps_CallType r).

Definition same_pair (srcNum dstNum callType : string) (r : FaxPairState) : bool :=
  (ps_SrcNumber r =? srcNum)%string && (ps_DstNumber r =? dstNum)%string &&
  (ps_CallType r =? callType)%string.

Definition set_used (usedT38 : bool) (now : Z) (r : FaxPairState) : FaxPairState :=
  r <| ps_LastUsedT38 := usedT38 |> <| ps_LastSeen := now |>.

Section pair_state.
Context {T : Type} `{!Table T FaxPairState}.
Variable cfg : FaxPolicyConfig.

(** The insert runs against the unique index [idx_pair_state]. *)
Definition create_unique (row : FaxPairState) (t : T) : option FaxPairState * T :=
  if existsb (same_pair (ps_SrcNumber row) (ps_DstNumber row) (ps_CallType row)) (tbl_rows t)
  then (None, t) else tbl_create row t.

Definition load_rows (rows : list FaxPairState) (m : gmap string FaxPairState)
  : gmap string FaxPairState :=
  foldl (fun m r => <[row_key r := r]> m) m rows.

Definition loadPairStates (st : PairServer T) : PairServer T :=
  let '(rows, t) := tbl_find (fun _ => true) (pp_db st) in
  match rows with
  | None => {| pp_db := t; pp_pairStates := pp_pairStates st |}
  | Some rows => {| pp_db := t; pp_pairStates := load_rows rows (pp_pairStates st) |}
  end.

Definition ShouldAllowT38ForPair (srcNum dstNum callType : string) (now : Z)
  (st : PairServer T) : bool :=
  match pp_pairStates st !! pairStateKey srcNum dstNum callType with
  | None => true
  | Some r => if PairStateTTL cfg <? time_sub now (ps_LastSeen r) then true
              else negb (ps_LastUsedT38 r)
  end.

Definition UpdateT38PairState (srcNum dstNum callType : string) (usedT38 : bool) (now : Z)
  (st : PairServer T) : PairServer T :=
  let key := pairStateKey srcNum dstNum callType in
  let r0 := default {| ps_ID := 0; ps_SrcNumber := srcNum; ps_DstNumber := dstNum;
                       ps_CallType := callType; ps_LastUsedT38 := false; ps_LastSeen := time_zero |}
                    (pp_pairStates st !! key) in
  let row := set_used usedT38 now r0 in
  let m := <[key := row]> (pp_pairStates st) in
  if ps_ID row =? 0 then
    let '(created, t1) := create_unique row (pp_db st) in
    match created with
    | Some r' => {| pp_db := t1; pp_pairStates := <[key := row <| ps_ID := ps_ID r' |>]> m |}
    | None =>
        {| pp_db := (tbl_update (same_pair srcNum dstNum callType) (set_used usedT38 now) t1).2;
           pp_pairStates := m |}
    end
  else
    {| pp_db := (tbl_update (fun r => ps_ID r =? ps_ID row) (set_used usedT38 now) (pp_db st)).2;
       pp_pairStates := m |}.

(** The state after a restart: an empty cache warmed from the same table. *)
Definition restart (st : PairServer T) : PairServer T :=
  loadPairStates {| pp_db := pp_db st; pp_pairStates := ∅ |}.

(** What the handlers keep true of cache and table together. *)
Record coherent (st : PairServer T) : Prop := {
  co_ids : ids_ok (tbl_rows (pp_db st));
  co_unique : forall r r', r ∈ tbl_rows (pp_db st) -> r' ∈ tbl_rows (pp_db st) ->
    row_key r = row_key r' -> r = r';
  co_pos : forall r, r ∈ tbl_rows (pp_db st) -> ps_ID r <> 0;
  co_key : forall k r, pp_pairStates st !! k = Some r -> k = row_key r;
  co_cached : forall k r, pp_pairStates st !! k = Some r -> ps_ID r <> 0 ->
    r ∈ tbl_rows (pp_db st);
  co_clean : forall r, r ∈ tbl_rows (pp_db st) -> clean_row r;
  co_clean_cached : forall k r, pp_pairStates st !! k = Some r -> clean_row r;
}.

End pair_state.

(** ** Facts *)

Lemma str_cut_clean s t : clean s -> str_cut "|" (s +:+ String "|" t) = (s, Some t).
Proof.
  unfold clean. induction s as [|c s IH]; simpl; [done|].
  destruct (Ascii.eqb c "|"); [done|].
  destruct (str_cut "|" s) as [a b]; simpl in *. intros ->. by rewrite IH.
Qed.

Lemma pairStateKey_inj s d c s' d' c' :
  clean c -> clean s -> clean c' -> clean s' ->
  pairStateKey s d c = pairStateKey s' d' c' -> s = s' /\ d = d' /\ c = c'.
Proof.
  unfold pairStateKey. intros Hc Hs Hc' Hs' Heq.
  pose proof (f_equal (str_cut "|") Heq) as H1.
  change ("|" +:+ ?x)%string with (String "|" x) in H1.
  rewrite !str_cut_clean in H1 by done. injection H1 as -> H1.
  pose proof (f_equal (str_cut "|") H1) as H2.
  change ("|" +:+ ?x)%string with (String "|" x) in H2.
  rewrite !str_cut_clean in H2 by done. by injection H2 as -> ->.
Qed.

Lemma same_pair_spec s d c r :
  same_pair s d c r = true <-> ps_SrcNumber r = s /\ ps_DstNumber r = d /\ ps_CallType r = c.
Proof. unfold same_pair. rewrite !andb_true_iff, !String.eqb_eq. tauto. Qed.

Lemma same_pair_key s d c r : same_pair s d c r = true -> row_key r = pairStateKey s d c.
Proof. rewrite same_pair_spec. unfold row_key. by intros (-> & -> & ->). Qed.

Lemma row_key_set_used u now r : row_key (set_used u now r) = row_key r.
Proof. done. Qed.

(** Loading rows that are unique by key leaves exactly them in the cache. *)
Lemma load_rows_lookup rows m k :
  (forall r r', r ∈ rows -> r' ∈ rows -> row_key r = row_key r' -> r = r') ->
  load_rows rows m !! k =
  match List.find (fun r => (row_key r =? k)%string) rows with
  | Some r => Some r
  | None => m !! k
  end.
Proof.
  revert m. induction rows as [|r rows IH]; intros m Hu; simpl; [done|].
  unfold load_rows in IH |- *. simpl. rewrite IH.
  2: { intros ????. apply Hu; by right. }
  destruct (List.find _ rows) as [r'|] eqn:Hf.
  - apply find_some in Hf as [Hin Hk]. apply String.eqb_eq in Hk.
    destruct (String.eqb_spec (row_key r) k) as [Hk'|]; [|done].
    f_equal. apply Hu; [right; by apply list_elem_of_In|left|congruence].
  - destruct (String.eqb_spec (row_key r) k) as [->|]; [by rewrite lookup_insert_eq|].
    by rewrite lookup_insert_ne.
Qed.

Section pair_facts.
Context {T : Type} `{!Table T FaxPairState, !TableLaws T FaxPairState}.
Variable cfg : FaxPolicyConfig.

(** What an update leaves in the cache, whatever the database does. *)
Lemma update_cache s d c u now (st : PairServer T) k :
  (exists r, pp_pairStates (UpdateT38PairState s d c u now st) !! pairStateKey s d c = Some r /\
     ps_LastUsedT38 r = u /\ ps_LastSeen r = now) /\
  (k <> pairStateKey s d c ->
   pp_pairStates (UpdateT38PairState s d c u now st) !! k = pp_pairStates st !! k).
Proof.
  unfold UpdateT38PairState. destruct (ps_ID _ =? 0).
  - destruct (create_unique _ (pp_db st)) as [[r'|] t1]; simpl; split; intros;
      rewrite ?lookup_insert_ne by done; rewrite ?lookup_insert_eq; eauto.
  - simpl. split; intros; rewrite ?lookup_insert_ne by done; rewrite ?lookup_insert_eq; eauto.
Qed.

(** Marking the rows of one key. *)
Lemma touch_spec (P : FaxPairState -> bool) key u now (rows : list FaxPairState) r0 :
  (forall r r', r ∈ rows -> r' ∈ rows -> row_key r = row_key r' -> r = r') ->
  (forall r, r ∈ rows -> P r = true <-> row_key r = key) ->
  r0 ∈ rows -> row_key r0 = key ->
  forall r', r' ∈ map (fun r => if P r then set_used u now r else r) rows <->
    r' = set_used u now r0 \/ (r' ∈ rows /\ row_key r' <> key).
Proof.
  intros Hu HP H0 Hk r'. rewrite list_elem_of_fmap. split.
  - intros (x & -> & Hx). destruct (P x) eqn:E.
    + left. apply HP in E; [|done]. by rewrite (Hu x r0) by congruence.
    + right. split; [done|]. rewrite <- HP by done. congruence.
  - intros [->|[Hx Hne]].
    + exists r0. by rewrite (proj2 (HP r0 H0)).
    + exists r'. split; [|done]. destruct (P r') eqn:E; [|done]. by apply HP in E.
Qed.

(** The row and the cache entry an update leaves for its pair, and the frame. *)
Definition updated (st st' : PairServer T) (key : string) (u : bool) (now : Z) : Prop :=
  exists w, row_key w = key /\ ps_LastUsedT38 w = u /\ ps_LastSeen w = now /\ ps_ID w <> 0 /\
    clean_row w /\
    (forall r', r' ∈ tbl_rows (pp_db st') <-> r' = w \/ (r' ∈ tbl_rows (pp_db st) /\ row_key r' <> key)) /\
    ids_ok (tbl_rows (pp_db st')) /\ tbl_healthy (pp_db st') /\
    (exists r, pp_pairStates st' = <[key := r]> (pp_pairStates st) /\ row_key r = key /\ clean_row r /\
       (r = w \/ ps_ID r = 0)).

Lemma map_ids_set_used (P : FaxPairState -> bool) u now (rows : list FaxPairState) :
  ids_ok rows -> ids_ok (map (fun r => if P r then set_used u now r else r) rows).
Proof.
  unfold ids_ok. rewrite map_map. intros Hid.
  erewrite map_ext; [exact Hid|]. intros r. by destruct (P r).
Qed.

(** The record an update starts from: the cached one, or a fresh one. *)
Lemma cached_or_new s d c (st : PairServer T) :
  coherent st -> clean s -> clean c ->
  let r0 := default {| ps_ID := 0; ps_SrcNumber := s; ps_DstNumber := d; ps_CallType := c;
                       ps_LastUsedT38 := false; ps_LastSeen := time_zero |}
                    (pp_pairStates st !! pairStateKey s d c) in
  row_key r0 = pairStateKey s d c /\ clean_row r0 /\ (ps_ID r0 <> 0 -> r0 ∈ tbl_rows (pp_db st)).
Proof.
  intros Hco Hs Hc r0. subst r0. destruct (pp_pairStates st !! pairStateKey s d c) as [r|] eqn:E; simpl; [|done].
  split; [by rewrite (co_key st Hco _ r E)|]. split; [by eapply co_clean_cached|].
  by eapply co_cached.
Qed.

Lemma append_spec key w (rows : list FaxPairState) :
  (forall x, x ∈ rows -> row_key x <> key) -> forall x,
  x ∈ rows ++ [w] <-> x = w \/ (x ∈ rows /\ row_key x <> key).
Proof. intros Hno x. rewrite elem_of_app, list_elem_of_singleton. specialize (Hno x). tauto. Qed.

Lemma update_updated s d c u now (st : PairServer T) :
  tbl_healthy (pp_db st) -> coherent st -> clean s -> clean c ->
  updated st (UpdateT38PairState s d c u now st) (pairStateKey s d c) u now.
Proof.
  intros Hh Hco Hs Hc. unfold UpdateT38PairState.
  set (key := pairStateKey s d c). set (r0 := default _ _).
  destruct (cached_or_new s d c st Hco Hs Hc) as (Hk0 & Hcl0 & Hin0). fold key r0 in Hk0, Hcl0, Hin0.
  clearbody r0.
  assert (forall r, clean_row r -> row_key r = key ->
            ps_SrcNumber r = s /\ ps_DstNumber r = d /\ ps_CallType r = c) as Hinj.
  { intros r [??] Hr. by apply pairStateKey_inj in Hr. }
  destruct (Hinj r0 Hcl0 Hk0) as (Hs0 & Hd0 & Hc0).
  assert (forall r, r ∈ tbl_rows (pp_db st) -> same_pair s d c r = true <-> row_key r = key) as Hsame.
  { intros r Hr. rewrite same_pair_spec. split; [intros (<- & <- & <-); done|].
    apply Hinj. by eapply co_clean. }
  simpl. destruct (Z.eqb_spec (ps_ID r0) 0) as [Hz|Hnz].
  - unfold create_unique. simpl. rewrite Hs0, Hd0, Hc0.
    destruct (existsb _ (tbl_rows (pp_db st))) eqn:Hex.
    + apply existsb_exists in Hex as (w & Hw & Hwp). apply list_elem_of_In in Hw.
      apply Hsame in Hwp as Hwk; [|done].
      destruct (update_healthy (same_pair s d c) (set_used u now) (pp_db st) Hh) as (_ & Hr & Hh').
      exists (set_used u now w). split; [done|]. split; [done|]. split; [done|].
      split; [by apply (co_pos st Hco w)|]. split; [by apply (co_clean st Hco w)|]. simpl. rewrite Hr.
      split; [apply touch_spec; auto; apply Hco|]. split; [apply map_ids_set_used, Hco|].
      split; [done|]. exists (set_used u now r0). auto.
    + destruct (create_healthy (set_used u now r0) (pp_db st) Hh) as (r' & Hcr & Hr & Hset & Hpos & Hfr & Hh').
      destruct (tbl_create _ _) as [o t1]; simpl in *. subst o.
      assert (exists i, 0 < i /\ r' = (set_used u now r0) <| ps_ID := i |>) as (i & Hi & ->)
        by (exists (ps_ID r'); done). clear Hset.
      exists ((set_used u now r0) <| ps_ID := i |>). split; [done|]. split; [done|]. split; [done|].
      split; [simpl; lia|]. split; [done|]. simpl. rewrite Hr.
      split; [|split; [apply ids_ok_app; [apply Hco|done]|split; [done|]]].
      * apply append_spec. intros x Hx Hxk. apply Hsame in Hxk; [|done].
        apply not_true_iff_false in Hex. apply Hex, existsb_exists. exists x.
        by rewrite <- list_elem_of_In.
      * exists ((set_used u now r0) <| ps_ID := i |>). rewrite insert_insert_eq. auto.
  - destruct (update_healthy (fun r => ps_ID r =? ps_ID r0) (set_used u now) (pp_db st) Hh) as (_ & Hr & Hh').
    exists (set_used u now r0). specialize (Hin0 Hnz). split; [done|]. split; [done|]. split; [done|].
    split; [done|]. split; [done|]. simpl. rewrite Hr.
    split; [apply touch_spec; [apply Hco| |done|done]|].
    2: { split; [apply map_ids_set_used, Hco|]. split; [done|]. exists (set_used u now r0). auto. }
    intros r Hrin. rewrite Z.eqb_eq. split.
    + intros Hid. by rewrite (ids_ok_inj _ r r0 (co_ids st Hco) Hrin Hin0 Hid).
    + intros Hk. f_equal. apply (co_unique st Hco); [done|done|congruence].
Qed.

Lemma update_coherent s d c u now (st : PairServer T) :
  tbl_healthy (pp_db st) -> coherent st -> clean s -> clean c ->
  coherent (UpdateT38PairState s d c u now st) /\ tbl_healthy (pp_db (UpdateT38PairState s d c u now st)).
Proof.
  intros Hh Hco Hs Hc.
  destruct (update_updated s d c u now st Hh Hco Hs Hc)
    as (w & Hwk & _ & _ & Hwid & Hwc & Hrows & Hids & Hh' & r & Hm & Hrk & Hrc & Hrw).
  split; [|done]. split; try done.
  - intros x y Hx Hy Hxy. apply Hrows in Hx as [->|[Hx Hxk]]; apply Hrows in Hy as [->|[Hy Hyk]];
      try done; try congruence. by apply (co_unique st Hco).
  - intros x [->|[Hx _]]%Hrows; [done|]. by apply (co_pos st Hco).
  - intros k x. rewrite Hm. intros [[<- <-]|[_ Hx]]%lookup_insert_Some; [done|]. by apply (co_key st Hco).
  - intros k x. rewrite Hm. intros [[<- <-]|[Hk Hx]]%lookup_insert_Some Hid; apply Hrows.
    + left. by destruct Hrw.
    + right. split; [by eapply (co_cached st Hco)|]. by rewrite <- (co_key st Hco k x Hx).
  - intros x [->|[Hx _]]%Hrows; [done|]. by apply (co_clean st Hco).
  - intros k x. rewrite Hm. intros [[<- <-]|[_ Hx]]%lookup_insert_Some; [done|].
    by eapply (co_clean_cached st Hco).
Qed.

(** The decision after an update. *)
Lemma pair_flip s d c u now now' (st : PairServer T) : now' - now <= PairStateTTL cfg ->
  ShouldAllowT38ForPair cfg s d c now' (UpdateT38PairState s d c u now st) = negb u.
Proof.
  pose proof (PairStateTTL_bounds cfg) as Httl. intros Hn. unfold ShouldAllowT38ForPair.
  destruct (update_cache s d c u now st "") as [(r & -> & <- & <-) _].
  rewrite (proj2 (Z.ltb_ge _ _)); [done|]. unfold time_sub, int64_min, int64_max in *. lia.
Qed.

End pair_facts.

(** ** Properties *)

Section pair_properties.
Context {T : Type} `{!Table T FaxPairState, !TableLaws T FaxPairState}.
Variable cfg : FaxPolicyConfig.

(** Flip-flop: after a call recorded what it used, the next decision for the same
    pair and type is the opposite for as long as the configured lifetime, then
    T.38 is allowed again; whatever the database did, and every other pair is
    decided as before. *)
Theorem flip_flop (s d c : string) (u : bool) (now : Z) (st : PairServer T) :
  let st' := UpdateT38PairState s d c u now st in
  (forall now', now' - now <= PairStateTTL cfg ->
     ShouldAllowT38ForPair cfg s d c now' st' = negb u) /\
  (forall now', PairStateTTL cfg < now' - now ->
     now' - now <= int64_max -> ShouldAllowT38ForPair cfg s d c now' st' = true) /\
  (clean c -> clean s -> forall s' d' c' now', clean c' -> clean s' ->
     (s', d', c') <> (s, d, c) ->
     ShouldAllowT38ForPair cfg s' d' c' now' st' = ShouldAllowT38ForPair cfg s' d' c' now' st).
Proof.
  simpl. pose proof (PairStateTTL_bounds cfg) as Httl. unfold ShouldAllowT38ForPair.
  split; [|split].
  - intros now'. apply pair_flip.
  - intros now' Hn Hm. destruct (update_cache s d c u now st "") as [(r & -> & <- & <-) _].
    rewrite (proj2 (Z.ltb_lt _ _)); [done|]. unfold time_sub, int64_min, int64_max in *. lia.
  - intros Hc Hs s' d' c' now' Hc' Hs' Hne.
    destruct (update_cache s d c u now st (pairStateKey s' d' c')) as [_ ->]; [done|].
    intros Heq. apply Hne. apply pairStateKey_inj in Heq as (-> & -> & ->); done.
Qed.

(** Probing survives a restart: from any state the updates of clean pairs reach on a
    healthy database, warming an empty cache from the table gives the pair just
    updated the same decision as before the restart, at any time. *)
Theorem flip_flop_survives_restart (calls : list (string * string * string * bool * Z))
  (s d c : string) (u : bool) (now now' : Z) (t : T) :
  tbl_healthy t -> tbl_rows t = [] ->
  Forall (fun '(s', _, c', _, _) => clean s' /\ clean c') calls -> clean s -> clean c ->
  let st := foldl (fun st '(s', d', c', u', now') => UpdateT38PairState s' d' c' u' now' st)
                  {| pp_db := t; pp_pairStates := ∅ |} calls in
  let st' := UpdateT38PairState s d c u now st in
  ShouldAllowT38ForPair cfg s d c now' (restart st') = ShouldAllowT38ForPair cfg s d c now' st'.
Proof.
  intros Hh Hempty Hcalls Hs Hc.
  assert (forall st, tbl_healthy (pp_db st) -> coherent st ->
    let st' := foldl (fun st '(s', d', c', u', now') => UpdateT38PairState s' d' c' u' now' st) st calls in
    tbl_healthy (pp_db st') /\ coherent st') as Hreach.
  { induction Hcalls as [|[[[[s1 d1] c1] u1] n1] calls [Hs1 Hc1] _ IH]; intros st Hst Hco; simpl; [done|].
    destruct (update_coherent s1 d1 c1 u1 n1 st Hst Hco Hs1 Hc1). by apply IH. }
  destruct (Hreach {| pp_db := t; pp_pairStates := ∅ |} Hh) as [Hhs Hco].
  { split; simpl; rewrite ?Hempty; try (by intros; set_solver); [by apply NoDup_nil|intros ??; by rewrite lookup_empty..]. }
  simpl. set (st := foldl _ _ calls) in *. clearbody st.
  destruct (update_coherent s d c u now st Hhs Hco Hs Hc) as [Hco' Hh'].
  destruct (update_updated s d c u now st Hhs Hco Hs Hc)
    as (w & Hwk & Hwu & Hwn & _ & _ & Hrows & _).
  destruct (update_cache s d c u now st "") as [(r & Hr & Hru & Hrn) _].
  set (st' := UpdateT38PairState s d c u now st) in *. clearbody st'.
  unfold ShouldAllowT38ForPair, restart, loadPairStates. rewrite Hr, Hru, Hrn. simpl.
  destruct (find_healthy (fun _ => true) (pp_db st') Hh') as (Hf & _ & _).
  destruct (tbl_find _ (pp_db st')) as [o t']; simpl in *. subst o. rewrite filter_true. simpl.
  rewrite load_rows_lookup by apply Hco'. rewrite lookup_empty.
  destruct (List.find _ _) as [x|] eqn:E.
  - apply find_some in E as [Hx Hxk]. apply list_elem_of_In, Hrows in Hx. apply String.eqb_eq in Hxk.
    destruct Hx as [->|[_ Hx]]; [by rewrite Hwu, Hwn|done].
  - assert (w ∈ tbl_rows (pp_db st')) as Hw by (apply Hrows; by left).
    apply list_elem_of_In in Hw. pose proof (find_none _ _ E w Hw) as Hno. simpl in Hno.
    by rewrite Hwk, str_eqb_refl in Hno.
Qed.

End pair_properties.

Definition example_pairs : PairServer (ListTable FaxPairState) :=
  {| pp_db := fresh_table [] 1 []; pp_pairStates := ∅ |}.

Lemma flip_flop_witness :
  ShouldAllowT38ForPair zero_policy "100" "200" "bridge" 1000
    (UpdateT38PairState "100" "200" "bridge" true 5 example_pairs) = false.
Proof.
  refine (proj1 (flip_flop zero_policy "100" "200" "bridge" true 5 example_pairs) 1000 _).
  vm_compute. discriminate.
Defined.

Lemma flip_flop_survives_restart_witness :
  ShouldAllowT38ForPair zero_policy "100" "200" "bridge" 1000
    (restart (UpdateT38PairState "100" "200" "bridge" true 5
      (UpdateT38PairState "100" "300" "softmodem" false 2
        {| pp_db := fresh_table [] 1 []; pp_pairStates := ∅ |}))) = false.
Proof.
  refine (eq_trans (flip_flop_survives_restart zero_policy [("100", "300", "softmodem", false, 2)]
    "100" "200" "bridge" true 5 1000 (fresh_table [] 1 []) eq_refl eq_refl _ eq_refl eq_refl) _).
  - repeat constructor.
  - vm_compute. reflexivity.
Defined.
