(* ===== verification/Tracker.v ===== *)
(** * Tracker: in-flight fax jobs ([gofaxserver/faxtracker.go])

    Every method holds the tracker's mutex, so what concurrent goroutines do to
    it is some sequence of whole methods: [tracker_op] is that alphabet,
    [run_op] one method, and a trace is a list of operations. *)

From S2P Require Import Prelude FaxResult FaxJob.

(** ** State *)

Inductive FaxPhase :=
  PhaseRouted | PhaseAttempt | PhaseReceiving | PhaseBridging | PhaseSending | PhaseWaiting | PhaseDone.

#[export] Instance phase_eq_dec : EqDecision FaxPhase.
Proof. solve_decision. Defined.

Record FaxRunState := {
  rs_JobUUID : Z; rs_CallUUID : Z;
  rs_SrcTenantID : Z; rs_DstTenantID : Z;
  rs_Caller : string; rs_Callee : string; rs_Gateway : string;
  rs_Phase : FaxPhase; rs_Attempt : Z; rs_MaxAttempts : Z; rs_CurrentPrio : Z;
  rs_EndpointType : string; rs_EndpointLabel : string; rs_EndpointValue : string;
  rs_LastError : string; rs_LastResult : string;
  rs_ResultSuccess : option bool; rs_ResultSnapshot : option FaxResult;
  rs_EnqueuedAt : Z; rs_StartedAt : Z; rs_UpdatedAt : Z; rs_CompletedAt : option Z;
}.

Record FaxTracker := {
  tr_byJob : gmap Z FaxRunState;
  tr_byCall : gmap Z Z;
  tr_running : Z;
}.

Definition NewFaxTracker : FaxTracker :=
  {| tr_byJob := ∅; tr_byCall := ∅; tr_running := 0 |}.

(** ** Methods *)

Definition begun (now : Z) (job : FaxJob) : FaxRunState := {|
  rs_JobUUID := fj_UUID job; rs_CallUUID := fj_CallUUID job;
  rs_SrcTenantID := fj_SrcTenantID job; rs_DstTenantID := fj_DstTenantID job;
  rs_Caller := fj_CallerIdNumber job; rs_Callee := fj_CalleeNumber job;
  rs_Gateway := si_Source (fj_SourceInfo job);
  rs_Phase := PhaseRouted; rs_Attempt := 0; rs_MaxAttempts := 0; rs_CurrentPrio := 0;
  rs_EndpointType := ""; rs_EndpointLabel := ""; rs_EndpointValue := "";
  rs_LastError := ""; rs_LastResult := ""; rs_ResultSuccess := None; rs_ResultSnapshot := None;
  rs_EnqueuedAt := now; rs_StartedAt := time_zero; rs_UpdatedAt := now; rs_CompletedAt := None |}.

Definition Begin (now : Z) (job : FaxJob) (t : FaxTracker) : FaxTracker :=
  let t1 :=
    match tr_byJob t !! fj_UUID job with
    | None =>
        t <| tr_byJob ::= insert (fj_UUID job) (begun now job) |>
          <| tr_running := tr_running t + 1 |>
    | Some st =>
        let st' := st <| rs_CallUUID := fj_CallUUID job |>
                      <| rs_Caller := fj_CallerIdNumber job |>
                      <| rs_Callee := fj_CalleeNumber job |>
                      <| rs_Gateway := if (si_Source (fj_SourceInfo job) =? "")%string
                                       then rs_Gateway st else si_Source (fj_SourceInfo job) |>
                      <| rs_Phase := PhaseRouted |> <| rs_UpdatedAt := now |> in
        t <| tr_byJob ::= insert (fj_UUID job) st' |>
    end in
  if fj_CallUUID job =? uuid_nil then t1
  else t1 <| tr_byCall ::= insert (fj_CallUUID job) (fj_UUID job) |>.

Definition SetCall (now jobID callID : Z) (t : FaxTracker) : FaxTracker :=
  match tr_byJob t !! jobID with
  | None => t
  | Some st =>
      let c1 := if rs_CallUUID st =? uuid_nil then tr_byCall t
                else delete (rs_CallUUID st) (tr_byCall t) in
      let c2 := if callID =? uuid_nil then c1 else <[callID := jobID]> c1 in
      t <| tr_byJob ::= insert jobID (st <| rs_CallUUID := callID |> <| rs_UpdatedAt := now |>) |>
        <| tr_byCall := c2 |>
  end.

Definition MarkAttempt (now jobID callID attempt maxAttempts prio : Z)
  (epType epLabel epValue : string) (t : FaxTracker) : FaxTracker :=
  match tr_byJob t !! jobID with
  | None => t
  | Some st =>
      let st' := st <| rs_CallUUID := callID |> <| rs_Attempt := attempt |>
                    <| rs_MaxAttempts := maxAttempts |> <| rs_CurrentPrio := prio |>
                    <| rs_EndpointType := epType |> <| rs_EndpointLabel := epLabel |>
                    <| rs_EndpointValue := epValue |> <| rs_Phase := PhaseAttempt |>
                    <| rs_StartedAt := now |> <| rs_UpdatedAt := now |> in
      t <| tr_byJob ::= insert jobID st' |> <| tr_byCall ::= insert callID jobID |>
  end.

Definition MarkResult (now jobID callID : Z) (success : bool) (returned lastErr : string)
  (res : option FaxResult) (t : FaxTracker) : FaxTracker :=
  match tr_byJob t !! jobID with
  | None => t
  | Some st =>
      let st' := st <| rs_CallUUID := callID |> <| rs_LastResult := returned |>
                    <| rs_LastError := lastErr |> <| rs_ResultSuccess := Some success |>
                    <| rs_ResultSnapshot := match res with
                                            | Some _ => res | None => rs_ResultSnapshot st end |>
                    <| rs_UpdatedAt := now |> in
      t <| tr_byJob ::= insert jobID st' |>
  end.

(** The phase marks: [st.StartedAt] is set on the first of the active ones. *)
Definition update_job (jobID : Z) (f : FaxRunState -> FaxRunState) (t : FaxTracker) : FaxTracker :=
  match tr_byJob t !! jobID with
  | None => t
  | Some st => t <| tr_byJob ::= insert jobID (f st) |>
  end.

Definition started (now : Z) (st : FaxRunState) : FaxRunState :=
  if is_zero_time (rs_StartedAt st) then st <| rs_StartedAt := now |> else st.

Definition MarkWaiting (now jobID : Z) : FaxTracker -> FaxTracker :=
  update_job jobID (fun st => st <| rs_Phase := PhaseWaiting |> <| rs_UpdatedAt := now |>).

Definition MarkReceiving (now jobID : Z) : FaxTracker -> FaxTracker :=
  update_job jobID (fun st =>
    (started now (st <| rs_Phase := PhaseReceiving |>)) <| rs_UpdatedAt := now |>).

Definition MarkBridging (now jobID : Z) (bridgeDirection bridgeGateway : string)
  : FaxTracker -> FaxTracker :=
  update_job jobID (fun st =>
    (started now (st <| rs_Phase := PhaseBridging |> <| rs_EndpointLabel := bridgeDirection |>
                     <| rs_EndpointValue := bridgeGateway |>)) <| rs_UpdatedAt := now |>).

Definition MarkSending (now jobID : Z) : FaxTracker -> FaxTracker :=
  update_job jobID (fun st =>
    (started now (st <| rs_Phase := PhaseSending |>)) <| rs_UpdatedAt := now |>).

(** The final writes to the removed state are not observable. *)
Definition Complete (jobID : Z) (t : FaxTracker) : FaxTracker :=
  match tr_byJob t !! jobID with
  | None => t
  | Some st =>
      if decide (rs_Phase st = PhaseDone) then t
      else {| tr_byJob := delete jobID (tr_byJob t);
              tr_byCall := if rs_CallUUID st =? uuid_nil then tr_byCall t
                           else delete (rs_CallUUID st) (tr_byCall t);
              tr_running := if 0 <? tr_running t then tr_running t - 1 else tr_running t |}
  end.

Definition ActiveCount (t : FaxTracker) : Z := tr_running t.
Definition Get (jobID : Z) (t : FaxTracker) : option FaxRunState := tr_byJob t !! jobID.
Definition FindJobByCall (callID : Z) (t : FaxTracker) : option Z := tr_byCall t !! callID.

(** A snapshot lists the states in the order a map iteration yields them. *)
Definition Snapshot (t : FaxTracker) (out : list FaxRunState) : Prop :=
  out ≡ₚ (map_to_list (tr_byJob t)).*2.

(** ** Traces *)

Inductive tracker_op :=
| OpBegin (now : Z) (job : FaxJob)
| OpSetCall (now jobID callID : Z)
| OpMarkAttempt (now jobID callID attempt maxAttempts prio : Z) (epType epLabel epValue : string)
| OpMarkResult (now jobID callID : Z) (success : bool) (returned lastErr : string) (res : option FaxResult)
| OpMarkWaiting (now jobID : Z)
| OpMarkReceiving (now jobID : Z)
| OpMarkBridging (now jobID : Z) (bridgeDirection bridgeGateway : string)
| OpMarkSending (now jobID : Z)
| OpComplete (jobID : Z).

Definition run_op (t : FaxTracker) (o : tracker_op) : FaxTracker :=
  match o with
  | OpBegin now job => Begin now job t
  | OpSetCall now j c => SetCall now j c t
  | OpMarkAttempt now j c a m p ty l v => MarkAttempt now j c a m p ty l v t
  | OpMarkResult now j c s r e res => MarkResult now j c s r e res t
  | OpMarkWaiting now j => MarkWaiting now j t
  | OpMarkReceiving now j => MarkReceiving now j t
  | OpMarkBridging now j d g => MarkBridging now j d g t
  | OpMarkSending now j => MarkSending now j t
  | OpComplete j => Complete j t
  end.

Definition run_ops (ops : list tracker_op) : FaxTracker := foldl run_op NewFaxTracker ops.

(** A job is in flight when it began and was not completed since. *)
Definition in_flight_step (j : Z) (live : bool) (o : tracker_op) : bool :=
  match o with
  | OpBegin _ job => live || (fj_UUID job =? j)
  | OpComplete j' => live && negb (j' =? j)
  | _ => live
  end.

Definition in_flight (j : Z) (ops : list tracker_op) : bool := foldl (in_flight_step j) false ops.

(** The job an operation concerns, and the call it names. *)
Definition op_job (o : tracker_op) : Z :=
  match o with
  | OpBegin _ job => fj_UUID job
  | OpSetCall _ j _ | OpMarkAttempt _ j _ _ _ _ _ _ _ | OpMarkResult _ j _ _ _ _ _
  | OpMarkWaiting _ j | OpMarkReceiving _ j | OpMarkBridging _ j _ _ | OpMarkSending _ j
  | OpComplete j => j
  end.

(** One worker at a time: marks name the job's current call, which [SetCall]
    announced, and a call id is not shared between jobs. *)
Definition disciplined (t : FaxTracker) (o : tracker_op) : Prop :=
  match o with
  | OpBegin _ job =>
      match tr_byJob t !! fj_UUID job with
      | Some st => rs_CallUUID st = fj_CallUUID job
      | None => fj_CallUUID job <> uuid_nil -> tr_byCall t !! fj_CallUUID job = None
      end
  | OpSetCall _ j c => c <> uuid_nil -> forall j', tr_byCall t !! c = Some j' -> j' = j
  | OpMarkAttempt _ j c _ _ _ _ _ _ | OpMarkResult _ j c _ _ _ _ =>
      c <> uuid_nil /\ forall st, tr_byJob t !! j = Some st -> rs_CallUUID st = c
  | _ => True
  end.

Fixpoint disciplined_trace (t : FaxTracker) (ops : list tracker_op) : Prop :=
  match ops with
  | [] => True
  | o :: ops' => disciplined t o /\ disciplined_trace (run_op t o) ops'
  end.

(** ** Invariants *)

Record tracker_inv (t : FaxTracker) : Prop := {
  ti_running : tr_running t = Z.of_nat (size (tr_byJob t));
  ti_states : forall j st, tr_byJob t !! j = Some st ->
    rs_JobUUID st = j /\ rs_Phase st <> PhaseDone;
}.

(** The reverse index and the states agree in both directions. *)
Definition index_exact (t : FaxTracker) : Prop :=
  forall c j, tr_byCall t !! c = Some j <->
    c <> uuid_nil /\ exists st, tr_byJob t !! j = Some st /\ rs_CallUUID st = c.

(** ** Facts *)

(** An update of one present job that keeps its identity. *)
Lemma inv_update (t : FaxTracker) j st st' byCall :
  tracker_inv t -> tr_byJob t !! j = Some st ->
  rs_JobUUID st' = rs_JobUUID st -> rs_Phase st' <> PhaseDone ->
  tracker_inv {| tr_byJob := <[j := st']> (tr_byJob t); tr_byCall := byCall; tr_running := tr_running t |}.
Proof.
  intros [Hr Hs] Hj Hid Hp. split; simpl.
  - rewrite Hr. by rewrite map_size_insert_Some.
  - intros j' x. destruct (decide (j' = j)) as [->|].
    + rewrite lookup_insert_eq. intros [= <-]. split; [|done]. rewrite Hid. by apply Hs.
    + rewrite lookup_insert_ne by done. apply Hs.
Qed.

Lemma run_op_inv t o : tracker_inv t -> tracker_inv (run_op t o).
Proof.
  intros Hi. pose proof Hi as [Hr Hs]. destruct o; simpl;
    unfold SetCall, MarkAttempt, MarkResult, MarkWaiting, MarkReceiving, MarkBridging, MarkSending,
      update_job, Complete.
  1: { assert (forall t', tracker_inv t' -> tracker_inv
         (if fj_CallUUID job =? uuid_nil then t' else t' <| tr_byCall ::= insert (fj_CallUUID job) (fj_UUID job) |>))
         as Hidx by (intros t' [??]; by destruct (fj_CallUUID job =? uuid_nil)).
       unfold Begin. apply Hidx. destruct (tr_byJob t !! fj_UUID job) as [st|] eqn:E.
       { by refine (inv_update t _ st _ _ Hi E _ _). }
       split; simpl.
       - rewrite Hr, map_size_insert_None by done. lia.
       - intros j st [[<- <-]|[_ ?]]%lookup_insert_Some; [done|by apply Hs]. }
  all: destruct (tr_byJob t !! jobID) as [st|] eqn:E; [|done];
    try (refine (inv_update t jobID st _ _ Hi E _ _); simpl; unfold started;
         try destruct (is_zero_time _); first [done|by apply (Hs _ _ E)]).
  destruct (decide _); [done|]. pose proof (map_size_ne_0_lookup_2 (tr_byJob t) jobID) as Hne.
  split; simpl.
  - rewrite Hr, map_size_delete_Some by eauto. rewrite E in Hne. specialize (Hne ltac:(eauto)).
    rewrite (proj2 (Z.ltb_lt _ _)) by lia. lia.
  - intros j x [_ ?]%lookup_delete_Some. by apply Hs.
Qed.

Lemma run_ops_inv ops : tracker_inv (run_ops ops).
Proof.
  unfold run_ops. assert (tracker_inv NewFaxTracker) as H0 by (split; simpl; [by rewrite map_size_empty|intros ??; by rewrite lookup_empty]).
  revert H0. generalize NewFaxTracker. induction ops as [|o ops IH]; intros t Ht; simpl; [done|].
  by apply IH, run_op_inv.
Qed.

(** One operation adds or removes its job only. *)
Lemma run_op_presence t o j :
  tracker_inv t ->
  (is_Some (tr_byJob (run_op t o) !! j) <-> in_flight_step j (bool_decide (is_Some (tr_byJob t !! j))) o = true).
Proof.
  intros [_ Hs]. destruct o; simpl;
    unfold SetCall, MarkAttempt, MarkResult, MarkWaiting, MarkReceiving, MarkBridging, MarkSending,
      update_job, Complete, Begin;
    try (destruct (tr_byJob t !! jobID) as [st|] eqn:E; simpl; rewrite ?bool_decide_eq_true;
         [destruct (decide (jobID = j)) as [<-|]; [rewrite lookup_insert_eq, E|rewrite lookup_insert_ne by done]|];
         naive_solver).
  - set (t1 := match tr_byJob t !! fj_UUID job with Some _ => _ | None => _ end).
    assert (tr_byJob (if fj_CallUUID job =? uuid_nil then t1
              else t1 <| tr_byCall ::= insert (fj_CallUUID job) (fj_UUID job) |>) = tr_byJob t1) as ->
      by (by destruct (fj_CallUUID job =? uuid_nil)).
    rewrite orb_true_iff, bool_decide_eq_true, Z.eqb_eq. subst t1.
    destruct (tr_byJob t !! fj_UUID job) as [st|] eqn:E; simpl;
      (destruct (decide (fj_UUID job = j)) as [<-|]; [rewrite lookup_insert_eq|rewrite lookup_insert_ne by done]);
      naive_solver.
  - rewrite andb_true_iff, bool_decide_eq_true, negb_true_iff, Z.eqb_neq.
    destruct (tr_byJob t !! jobID) as [st|] eqn:E.
    + destruct (decide (rs_Phase st = PhaseDone)) as [Hd|]; [by apply Hs in E as [_ ?]|]. simpl.
      destruct (decide (jobID = j)) as [<-|]; [rewrite lookup_delete_eq|rewrite lookup_delete_ne by done];
        naive_solver.
    + split; [|tauto]. intros [st Hst]. split; [eauto|]. congruence.
Qed.

Lemma run_ops_presence ops j :
  is_Some (tr_byJob (run_ops ops) !! j) <-> in_flight j ops = true.
Proof.
  unfold run_ops, in_flight.
  assert (tracker_inv NewFaxTracker) as H0 by exact (run_ops_inv []).
  assert (bool_decide (is_Some (tr_byJob NewFaxTracker !! j)) = false) as Hb
    by (apply bool_decide_eq_false; simpl; rewrite lookup_empty; by intros [? ?]).
  revert H0. rewrite <- Hb. clear Hb. generalize NewFaxTracker.
  induction ops as [|o ops IH]; intros t Ht; simpl; [by rewrite bool_decide_eq_true|].
  rewrite IH by by apply run_op_inv.
  enough (bool_decide (is_Some (tr_byJob (run_op t o) !! j)) =
          in_flight_step j (bool_decide (is_Some (tr_byJob t !! j))) o) as -> by done.
  apply eq_true_iff_eq. rewrite bool_decide_eq_true. by apply run_op_presence.
Qed.

(** A disciplined operation keeps the reverse index exact. *)
Lemma index_insert_same (t : FaxTracker) j st st' :
  index_exact t -> tr_byJob t !! j = Some st -> rs_CallUUID st' = rs_CallUUID st ->
  index_exact (t <| tr_byJob ::= insert j st' |>).
Proof.
  intros Hx Hj Hc c j'. simpl. rewrite (Hx c j').
  destruct (decide (j = j')) as [<-|]; [rewrite lookup_insert_eq, Hj|by rewrite lookup_insert_ne].
  naive_solver.
Qed.

Lemma index_same_call (t : FaxTracker) j st c :
  index_exact t -> tr_byJob t !! j = Some st -> rs_CallUUID st = c -> c <> uuid_nil ->
  <[c := j]> (tr_byCall t) = tr_byCall t.
Proof. intros Hx Hj Hc Hn. apply insert_id, Hx. eauto. Qed.

Lemma index_setcall now j c t :
  index_exact t -> disciplined t (OpSetCall now j c) -> index_exact (SetCall now j c t).
Proof.
  intros Hx Hd. unfold SetCall. destruct (tr_byJob t !! j) as [st|] eqn:E; [|done].
  intros c' j'. simpl.
  assert ((if rs_CallUUID st =? uuid_nil then tr_byCall t else delete (rs_CallUUID st) (tr_byCall t)) !! c' = Some j'
          <-> j' <> j /\ tr_byCall t !! c' = Some j') as Hdel.
  { destruct (Z.eqb_spec (rs_CallUUID st) uuid_nil) as [Hz|Hz].
    - split; [|tauto]. intros Hc'. split; [|done]. intros ->. apply Hx in Hc' as (? & st' & ? & ?). congruence.
    - rewrite lookup_delete_Some. split.
      + intros [Hne Hc']. split; [|done]. intros ->. apply Hx in Hc' as (? & st' & ? & ?). congruence.
      + intros [Hne Hc']. split; [|done]. intros <-. apply Hne.
        assert (tr_byCall t !! rs_CallUUID st = Some j) as H2 by (apply Hx; eauto). congruence. }
  destruct (decide (j' = j)) as [->|Hj].
  - rewrite lookup_insert_eq. destruct (Z.eqb_spec c uuid_nil) as [->|Hcn].
    + rewrite Hdel. split; [tauto|]. intros (? & x & [= <-] & Hxc). simpl in Hxc. congruence.
    + destruct (decide (c' = c)) as [->|]; [rewrite lookup_insert_eq|rewrite lookup_insert_ne by done; rewrite Hdel].
      * split; [|done]. intros _. split; [done|]. eexists. split; [done|done].
      * split; [tauto|]. intros (? & x & [= <-] & Hxc). simpl in Hxc. congruence.
  - rewrite lookup_insert_ne by done. rewrite <- (Hx c' j').
    destruct (Z.eqb_spec c uuid_nil) as [->|Hcn]; [rewrite Hdel; tauto|].
    destruct (decide (c' = c)) as [->|]; [rewrite lookup_insert_eq|rewrite lookup_insert_ne by done; rewrite Hdel; tauto].
    split; [congruence|]. intros Hc'. by rewrite (Hd Hcn j' Hc').
Qed.

Lemma index_begin now job t :
  index_exact t -> disciplined t (OpBegin now job) -> index_exact (Begin now job t).
Proof.
  intros Hx Hd. unfold Begin. simpl in Hd.
  destruct (tr_byJob t !! fj_UUID job) as [st|] eqn:E.
  - match goal with |- context [insert (fj_UUID job) ?s] => set (st' := s) end.
    assert (index_exact (t <| tr_byJob ::= insert (fj_UUID job) st' |>)) as Hx'
      by (apply (index_insert_same t _ st); done).
    destruct (Z.eqb_spec (fj_CallUUID job) uuid_nil); [done|].
    intros c j. simpl. rewrite (index_same_call t _ st _ Hx E Hd) by done. apply Hx'.
  - intros c j. destruct (Z.eqb_spec (fj_CallUUID job) uuid_nil) as [Hz|Hz]; simpl.
    + rewrite (Hx c j). destruct (decide (j = fj_UUID job)) as [->|];
        [rewrite lookup_insert_eq, E|by rewrite lookup_insert_ne].
      split; [by intros (?&?&?&?)|]. intros (Hn & x & [= <-] & Hc). simpl in Hc. congruence.
    + specialize (Hd Hz).
      destruct (decide (c = fj_CallUUID job)) as [->|];
        [rewrite lookup_insert_eq|rewrite lookup_insert_ne by done; rewrite (Hx c j)];
        (destruct (decide (j = fj_UUID job)) as [->|]; [rewrite lookup_insert_eq|rewrite lookup_insert_ne by done]).
      * split; [|done]. intros _. split; [done|]. by eexists.
      * split; [congruence|]. intros Hj. apply Hx in Hj. congruence.
      * rewrite E. split; [by intros (?&?&?&?)|]. intros (Hn & x & [= <-] & Hc). simpl in Hc. congruence.
      * done.
Qed.

Lemma index_complete j t : tracker_inv t -> index_exact t -> index_exact (Complete j t).
Proof.
  intros [_ Hs] Hx. unfold Complete. destruct (tr_byJob t !! j) as [st|] eqn:E; [|done].
  destruct (decide _) as [Hd|]; [by apply Hs in E as [_ ?]|]. intros c j'. simpl.
  destruct (decide (j' = j)) as [->|Hne].
  - rewrite lookup_delete_eq. split; [|by intros (?&?&?&?)]. intros Hc. exfalso.
    destruct (Z.eqb_spec (rs_CallUUID st) uuid_nil) as [Hz|].
    + apply Hx in Hc as (?&?&?&?). congruence.
    + apply lookup_delete_Some in Hc as [Hn Hc]. apply Hx in Hc as (?&?&?&?). congruence.
  - rewrite lookup_delete_ne by done. rewrite <- (Hx c j').
    destruct (Z.eqb_spec (rs_CallUUID st) uuid_nil) as [Hz|Hz]; [done|].
    rewrite lookup_delete_Some. split; [tauto|]. intros Hc. split; [|done]. intros <-.
    assert (tr_byCall t !! rs_CallUUID st = Some j) by (apply Hx; eauto). congruence.
Qed.

Lemma run_op_index t o : tracker_inv t -> index_exact t -> disciplined t o -> index_exact (run_op t o).
Proof.
  intros Hi Hx Hd.
  destruct o; simpl; [by apply index_begin|by apply index_setcall|..|by apply index_complete];
    unfold MarkAttempt, MarkResult, MarkWaiting, MarkReceiving, MarkBridging, MarkSending, update_job;
    (destruct (tr_byJob t !! jobID) as [st|] eqn:E; [|done]);
    try (apply (index_insert_same t jobID st _ Hx E); unfold started; by try destruct (is_zero_time _)).
  - destruct Hd as [Hn Hc]. specialize (Hc st E).
    match goal with |- context [insert jobID ?s] => set (st' := s) end.
    intros c j. simpl. rewrite (index_same_call t jobID st callID Hx E Hc Hn).
    apply (index_insert_same t jobID st st' Hx E). simpl. congruence.
  - destruct Hd as [Hn Hc]. specialize (Hc st E).
    apply (index_insert_same t jobID st _ Hx E). simpl. congruence.
Qed.

(** ** Properties *)

(** C7: whatever methods run, in whatever order, the active count is the number of
    tracked jobs, no tracked job is done, and a job is tracked exactly when it
    began and was not completed since. *)
Theorem tracker_counts_in_flight (ops : list tracker_op) (out : list FaxRunState) :
  Snapshot (run_ops ops) out ->
  ActiveCount (run_ops ops) = Z.of_nat (List.length out) /\
  (forall st, st ∈ out -> rs_Phase st <> PhaseDone) /\
  (forall j, (exists st, st ∈ out /\ rs_JobUUID st = j) <-> in_flight j ops = true).
Proof.
  unfold Snapshot, ActiveCount. intros Hout. destruct (run_ops_inv ops) as [Hr Hs]. split; [|split].
  - by rewrite Hr, Hout, length_fmap, length_map_to_list.
  - intros st Hst. rewrite Hout in Hst. apply list_elem_of_fmap in Hst as ([j x] & -> & Hx).
    apply elem_of_map_to_list in Hx. by apply (Hs j).
  - intros j. rewrite <- run_ops_presence. split.
    + intros (st & Hst & Hj). rewrite Hout in Hst. apply list_elem_of_fmap in Hst as ([j' x] & -> & Hx).
      apply elem_of_map_to_list in Hx. simpl in Hj. destruct (Hs j' x Hx) as [Hid _].
      rewrite <- Hj, Hid. eauto.
    + intros [st Hst]. exists st. split; [|by apply (Hs j)]. rewrite Hout. apply list_elem_of_fmap.
      exists (j, st). split; [done|]. by apply elem_of_map_to_list.
Qed.

(** Along a trace with one worker at a time, a call is found exactly when it is the
    current call of a tracked job, so a completed job leaves nothing in the
    reverse index. *)
Theorem tracker_index_exact (ops : list tracker_op) (j : Z) :
  disciplined_trace NewFaxTracker ops ->
  index_exact (run_ops ops) /\
  (in_flight j ops = false -> forall c, FindJobByCall c (run_ops ops) <> Some j).
Proof.
  intros Hd. assert (index_exact (run_ops ops)) as Hx.
  { unfold run_ops. assert (tracker_inv NewFaxTracker) as H0 by exact (run_ops_inv []).
    assert (index_exact NewFaxTracker) as Hx0.
    { intros c j'. simpl. rewrite !lookup_empty. split; [done|]. intros (?&?&H&?). congruence. }
    revert H0 Hx0 Hd. generalize NewFaxTracker.
    induction ops as [|o ops IH]; intros t Ht Hxt Hdt; simpl; [done|]. destruct Hdt as [Ho Hdt].
    apply IH; [by apply run_op_inv|by apply run_op_index|done]. }
  split; [done|]. intros Hl c Hc. apply Hx in Hc as (_ & st & Hst & _).
  assert (in_flight j ops = true); [|congruence]. apply run_ops_presence. eauto.
Qed.

(** ** Witnesses, and the leak between concurrent workers *)

Definition tracked_job (id : Z) : FaxJob := zero_job <| fj_UUID := id |>.

Definition one_worker : list tracker_op :=
  [OpBegin 1 (tracked_job 7); OpSetCall 2 7 71; OpMarkAttempt 3 7 71 1 3 0 "gateway" "tenant" "gw";
   OpMarkResult 4 7 71 false "BUSY" "" None; OpMarkWaiting 5 7; OpSetCall 6 7 72;
   OpMarkAttempt 7 7 72 2 3 0 "gateway" "tenant" "gw"; OpMarkResult 8 7 72 true "OK" "" None;
   OpComplete 7].

Lemma tracker_counts_in_flight_witness :
  ActiveCount (run_ops [OpBegin 1 (tracked_job 7); OpBegin 1 (tracked_job 8); OpComplete 7]) = 1 /\
  in_flight 8 [OpBegin 1 (tracked_job 7); OpBegin 1 (tracked_job 8); OpComplete 7] = true.
Proof.
  destruct (tracker_counts_in_flight [OpBegin 1 (tracked_job 7); OpBegin 1 (tracked_job 8); OpComplete 7]
    [begun 1 (tracked_job 8)]) as (Hc & _ & Hl).
  - unfold Snapshot. vm_compute. reflexivity.
  - split; [exact Hc|]. apply Hl. exists (begun 1 (tracked_job 8)). split; [left|reflexivity].
Defined.

Lemma tracker_index_exact_witness :
  disciplined_trace NewFaxTracker one_worker /\ FindJobByCall 72 (run_ops one_worker) <> Some 7.
Proof.
  assert (disciplined_trace NewFaxTracker one_worker) as Hd.
  { vm_compute. repeat split; intros; first [discriminate | congruence | simplify_eq; reflexivity]. }
  split; [exact Hd|]. apply (proj2 (tracker_index_exact one_worker 7 Hd)). vm_compute. reflexivity.
Defined.

(** Two delivery workers of one job, each announcing its call and then marking its
    attempt, leave a stale entry when their steps interleave: [MarkAttempt]
    overwrites the current call without dropping its index, so after the job
    completed the first worker's call is still found, and is never removed. *)
Theorem tracker_index_leak :
  let a c := OpMarkAttempt 3 7 c 1 3 0 "gateway" "tenant" "gw" in
  let ops := [OpBegin 1 (tracked_job 7); OpSetCall 2 7 71; OpSetCall 2 7 72; a 71; a 72; OpComplete 7] in
  FindJobByCall 71 (run_ops ops) = Some 7 /\ in_flight 7 ops = false /\
  Get 7 (run_ops ops) = None /\ ActiveCount (run_ops ops) = 0.
Proof. vm_compute. repeat split. Qed.
