(* ===== verification/Regexp.v ===== *)
(** * Regexp: what the dialplan uses of Go's [regexp] package

    Compiled programs are syntax trees ([node]); [mt] is the leftmost-first
    (Perl-like) matcher in continuation-passing style, [replace_all] is
    [ReplaceAllString] with its template expansion. Inputs are ASCII bytes.
    Parsing a pattern text is left to a parameter of the users. *)

From S2P Require Import Prelude.

(** ** Programs *)

Inductive node :=
| NEmpty
| NClass (c : ascii -> bool)        (* one byte of a class *)
| NBegin | NEnd                     (* [^] and [$], without the (?m) flag *)
| NSeq (a b : node)
| NAlt (a b : node)
| NStar (a : node)                  (* greedy *)
| NGroup (k : Z) (a : node).      (* capturing group number [k] *)

Fixpoint nrep (n : nat) (a : node) : node :=
  match n with O => NEmpty | S n' => NSeq a (nrep n' a) end.

(** A compiled pattern remembers its text ([Regexp.String]). *)
Record Regexp := { re_text : string; re_prog : node }.

Definition any_char (c : ascii) : bool := negb (Ascii.eqb c "010").   (* [.] *)
Definition non_digit (c : ascii) : bool := negb (is_digit c).         (* [\D] *)

(** ** Matching

    A position is its index and the input from there on. Captures are
    (start, end) index pairs. *)

Notation caps := (gmap Z (nat * nat)).
Definition cont : Type := nat -> list ascii -> caps -> option (nat * caps).

Fixpoint mt (n : node) (i : nat) (s : list ascii) (c : caps) (k : cont) : option (nat * caps) :=
  match n with
  | NEmpty => k i s c
  | NClass p => match s with
                | x :: s' => if p x then k (S i) s' c else None
                | [] => None
                end
  | NBegin => match i with O => k i s c | S _ => None end
  | NEnd => match s with [] => k i s c | _ :: _ => None end
  | NSeq a b => mt a i s c (fun i' s' c' => mt b i' s' c' k)
  | NAlt a b => match mt a i s c k with Some r => Some r | None => mt b i s c k end
  | NStar a =>
      (fix star (fuel : nat) (i : nat) (s : list ascii) (c : caps) : option (nat * caps) :=
         match fuel with
         | O => k i s c
         | S fuel' =>
             match mt a i s c (fun i' s' c' =>
                     if Nat.ltb i i' then star fuel' i' s' c' else None) with
             | Some r => Some r
             | None => k i s c
             end
         end) (List.length s) i s c
  | NGroup g a => mt a i s c (fun i' s' c' => k i' s' (<[g := (i, i')]> c'))
  end.

(** Every round of a star consumes a byte, so the length of the rest is enough
    fuel. *)

Definition match_here (n : node) (i : nat) (s : list ascii) : option (nat * caps) :=
  mt n i s ∅ (fun i' _ c => Some (i', c)).

(** The leftmost match at or after a position. *)
Fixpoint search (n : node) (i : nat) (s : list ascii) : option (nat * (nat * caps)) :=
  match match_here n i s with
  | Some r => Some (i, r)
  | None => match s with [] => None | _ :: s' => search n (S i) s' end
  end.

Definition MatchString (re : Regexp) (s : string) : bool :=
  match search (re_prog re) 0 (String.list_ascii_of_string s) with Some _ => true | None => false end.

(** ** Templates: [$1], [${1}], [$$]; other names are unknown groups *)

Definition is_word (c : ascii) : bool :=
  let n := ascii_nat c in
  is_digit c || (Nat.leb 65 n && Nat.leb n 90) || (Nat.leb 97 n && Nat.leb n 122) || Nat.eqb n 95.

Fixpoint span (p : ascii -> bool) (s : list ascii) : list ascii * list ascii :=
  match s with
  | x :: s' => if p x then let '(a, b) := span p s' in (x :: a, b) else ([], s)
  | [] => ([], [])
  end.

(** The group a name stands for: a decimal number of at most nine digits
    without leading zeros. *)
Definition group_num (name : list ascii) : option Z :=
  match name with
  | [] => None
  | c :: rest =>
      if Ascii.eqb c "0" && negb (Nat.eqb (List.length rest) 0) then None
      else match digits_val 0 (String.string_of_list_ascii name) with
           | Some z => if z <? 10 ^ 9 then Some z else None
           | None => None
           end
  end.

(** [extract]: the name after a [$] and what follows it. *)
Definition extract (s : list ascii) : option (list ascii * list ascii) :=
  match s with
  | [] => None
  | c :: s' =>
      if Ascii.eqb c "{" then
        match span is_word s' with
        | ([], _) => None
        | (name, d :: rest) => if Ascii.eqb d "}" then Some (name, rest) else None
        | (_, []) => None
        end
      else match span is_word s with
           | ([], _) => None
           | (name, rest) => Some (name, rest)
           end
  end.

Definition slice (s : list ascii) (a b : nat) : list ascii := take (b - a) (drop a s).

(** Each step consumes template text, so its length is enough fuel. *)
Fixpoint expand (fuel : nat) (template src : list ascii) (c : caps) : list ascii :=
  match fuel with
  | O => []
  | S fuel' =>
      match template with
      | [] => []
      | x :: t =>
          if Ascii.eqb x "$" then
            match t with
            | y :: t' =>
                if Ascii.eqb y "$" then "$"%char :: expand fuel' t' src c
                else match extract t with
                     | None => "$"%char :: expand fuel' t src c
                     | Some (name, rest) =>
                         match group_num name with
                         | Some g => match c !! g with
                                     | Some (a, b) => slice src a b
                                     | None => []
                                     end
                         | None => []
                         end ++ expand fuel' rest src c
                     end
            | [] => ["$"%char]
            end
          else x :: expand fuel' t src c
      end
  end.

(** ** [ReplaceAllString] *)

(** [pos] is the search position, [last] the end of the previous match. Every
    round advances [pos], so [length src + 2] rounds are enough. *)
Fixpoint replace_loop (fuel : nat) (n : node) (repl src : list ascii) (pos last : nat)
  : list ascii :=
  match fuel with
  | O => drop last src
  | S fuel' =>
      if Nat.ltb (List.length src) pos then drop last src
      else match search n pos (drop pos src) with
           | None => drop last src
           | Some (a, (b, c)) =>
               let c := <[0%Z := (a, b)]> c in
               slice src last a ++
               (if Nat.ltb last b || Nat.eqb a 0
                then expand (S (List.length repl)) repl src c else []) ++
               replace_loop fuel' n repl src (if Nat.ltb b (pos + 1) then pos + 1 else b) b
           end
  end%nat.

Definition ReplaceAllString (re : Regexp) (src repl : string) : string :=
  let s := String.list_ascii_of_string src in
  String.string_of_list_ascii
    (replace_loop (List.length s + 2) (re_prog re) (String.list_ascii_of_string repl) s 0 0).

(** ** Facts *)

(** [n] bytes of a class. *)
Lemma mt_nrep p n i s c k :
  mt (nrep n (NClass p)) i s c k =
  if Nat.leb n (List.length s) && forallb p (take n s) then k (i + n)%nat (drop n s) c else None.
Proof.
  revert i s. induction n as [|n IH]; intros i s; simpl.
  - by rewrite Nat.add_0_r, drop_0.
  - destruct s as [|x s]; [done|]. simpl. destruct (p x); simpl.
    + rewrite IH. by rewrite Nat.add_succ_r.
    + by rewrite andb_false_r.
Qed.

(** [.*$]: succeeds at the end of the input when no byte left is a newline. *)
Lemma mt_rest p i s c k :
  mt (NSeq (NStar (NClass p)) NEnd) i s c k =
  if forallb p s then k (i + List.length s)%nat [] c else None.
Proof.
  simpl. generalize (Nat.le_refl (List.length s)). generalize (List.length s) at 2 3 as fuel.
  revert i s. intros i s fuel. revert i s. induction fuel as [|fuel IH]; intros i s Hf.
  - destruct s; [|simpl in Hf; lia]. simpl. by rewrite Nat.add_0_r.
  - destruct s as [|x s]; simpl; [by rewrite Nat.add_0_r|].
    destruct (p x); simpl; [|done].
    rewrite (proj2 (Nat.ltb_lt i (S i))) by lia. rewrite IH by (simpl in Hf; lia).
    rewrite Nat.add_succ_r. simpl.
    destruct (forallb p s); [|done]. by destruct (k _ _ c).
Qed.

(** An anchored program matches at the beginning only. *)
Lemma search_anchored a i s : (0 < i)%nat -> search (NSeq NBegin a) i s = None.
Proof.
  revert i. induction s as [|x s IH]; intros [|i] Hi; try lia; simpl; [done|].
  unfold match_here. simpl. apply IH. lia.
Qed.

Lemma search_anchored_0 a s :
  search (NSeq NBegin a) 0 s =
  match match_here a 0 s with Some r => Some (0%nat, r) | None => None end.
Proof.
  destruct s as [|x s]; simpl; unfold match_here; simpl.
  - by destruct (mt _ _ _ _ _).
  - destruct (mt a _ _ _ _); [done|]. apply search_anchored. lia.
Qed.

(** A single-byte class finds the first byte of the class. *)
Lemma search_class p i s :
  search (NClass p) i s =
  match s with
  | [] => None
  | x :: s' => if p x then Some (i, (S i, ∅)) else search (NClass p) (S i) s'
  end.
Proof. destruct s as [|x s]; simpl; [done|]. unfold match_here. simpl. by destruct (p x). Qed.

Lemma search_class_split p i s :
  search (NClass p) i s =
  let '(a, b) := span (fun x => negb (p x)) s in
  match b with [] => None | _ :: _ => Some (i + List.length a, (S (i + List.length a), ∅))%nat end.
Proof.
  revert i. induction s as [|x s IH]; intros i; rewrite search_class; simpl; [done|].
  destruct (p x) eqn:E; simpl; [by rewrite Nat.add_0_r|].
  rewrite IH. destruct (span _ s) as [a b]. destruct b; [done|]. simpl. by rewrite !Nat.add_succ_r.
Qed.

Lemma span_app p s : (span p s).1 ++ (span p s).2 = s.
Proof. induction s as [|x s IH]; simpl; [done|]. destruct (p x); [|done]. destruct (span p s). simpl in *. by rewrite IH. Qed.

Lemma span_all p s : forallb p (span p s).1 = true.
Proof. induction s as [|x s IH]; simpl; [done|]. destruct (p x) eqn:E; [|done]. destruct (span p s). simpl in *. by rewrite E. Qed.

Lemma span_head p s x b : (span p s).2 = x :: b -> p x = false.
Proof.
  induction s as [|y s IH]; simpl; [done|]. destruct (p y) eqn:E; [|by intros [= -> _]].
  destruct (span p s). simpl in *. auto.
Qed.

(** Deleting the bytes of a class, one match after the other. *)
Lemma replace_class p fuel (pre s : list ascii) :
  (List.length s < fuel)%nat ->
  replace_loop fuel (NClass p) [] (pre ++ s) (List.length pre) (List.length pre) =
  List.filter (fun x => negb (p x)) s.
Proof.
  revert pre s. induction fuel as [|fuel IH]; intros pre s Hf; [lia|]. simpl.
  rewrite (proj2 (Nat.ltb_ge _ _)) by (rewrite length_app; lia).
  rewrite drop_app_length, search_class_split.
  pose proof (span_app (fun x => negb (p x)) s) as Happ.
  pose proof (span_all (fun x => negb (p x)) s) as Hall.
  pose proof (span_head (fun x => negb (p x)) s) as Hhead.
  destruct (span _ s) as [a b]; simpl in *.
  assert (List.filter (fun x => negb (p x)) a = a) as Ha.
  { apply filter_all. intros x Hx. apply list_elem_of_In in Hx. by apply (proj1 (forallb_forall _ _) Hall). }
  destruct b as [|x b].
  - rewrite app_nil_r in Happ. by subst.
  - specialize (Hhead x b eq_refl). subst s. rewrite List.filter_app. simpl. rewrite Hhead, Ha.
    unfold slice. rewrite drop_app_length.
    replace (List.length pre + List.length a - List.length pre)%nat with (List.length a) by lia.
    rewrite take_app_length. f_equal.
    replace (if _ || _ then [] else []) with (@nil ascii) by (by destruct (_ || _)). simpl.
    rewrite (proj2 (Nat.ltb_ge _ _)) by lia.
    replace (pre ++ a ++ x :: b) with ((pre ++ a ++ [x]) ++ b) by (by rewrite <- !app_assoc).
    replace (S (List.length pre + List.length a)) with (List.length (pre ++ a ++ [x]))
      by (rewrite !length_app; simpl; lia).
    apply IH. rewrite length_app in Hf. simpl in Hf. lia.
Qed.
