(* ===== verification/Dialplan.v ===== *)
(** * Dialplan: number transformation ([gofaxserver/dialplan.go] and the
    loading code of [server.go])

    The rules come from the configuration file, from the [dialplan_rules]
    table, or are the built-in ones. [regexp_Compile] is a parameter: parsing a
    pattern text is the regexp package's business; the built-in patterns are
    given as programs, and what is assumed of the parser is that it compiles
    their texts to them. *)

From S2P Require Import Prelude Config Store Regexp.

Record TransformationRule := { tr_Pattern : Regexp; tr_Replacement : string }.

Record DialplanRule := {
  dr_ID : Z; dr_Position : Z; dr_Pattern : string; dr_Replacement : string;
  dr_Enabled : bool; dr_Description : string;
}.

#[export] Instance dialplan_rule_id : HasID DialplanRule := {
  get_id := dr_ID; set_id i r := r <| dr_ID := i |>; get_set_id i r := eq_refl }.

(** A manager is its rule list. *)
Record DialplanManager := { dm_TransformationRules : list TransformationRule }.

Definition NewDialplanManager (rules : list TransformationRule) : DialplanManager :=
  {| dm_TransformationRules := rules |}.

(** ** Transformation *)

(** [^1(\d{10}).*$] and [^(\d{10}).*$]. *)
Definition ten_digits : node := NGroup 1 (nrep 10 (NClass is_digit)).
Definition rest_of_line : node := NSeq (NStar (NClass any_char)) NEnd.

Definition strip_one : node :=
  NSeq NBegin (NSeq (NClass (Ascii.eqb "1")) (NSeq ten_digits rest_of_line)).
Definition first_ten : node := NSeq NBegin (NSeq ten_digits rest_of_line).

Definition strip_one_text : string := "^1(\d{10}).*$".
Definition first_ten_text : string := "^(\d{10}).*$".

Definition DefaultTransformationRules : list TransformationRule :=
  [{| tr_Pattern := {| re_text := strip_one_text; re_prog := strip_one |}; tr_Replacement := "$1" |};
   {| tr_Pattern := {| re_text := first_ten_text; re_prog := first_ten |}; tr_Replacement := "$1" |}].

Definition apply_rule (transformed : string) (rule : TransformationRule) : string :=
  if MatchString (tr_Pattern rule) transformed
  then ReplaceAllString (tr_Pattern rule) transformed (tr_Replacement rule)
  else transformed.

Definition ApplyTransformationRules (d : DialplanManager) (number : string) : string :=
  foldl apply_rule number (dm_TransformationRules d).

Definition non_digit_re : Regexp := {| re_text := "\D"; re_prog := NClass non_digit |}.

Definition NormalizeNumber (number : string) : string := ReplaceAllString non_digit_re number "".

(** ** Loading *)

Definition dialplanSource (cfg : Config) : string :=
  match c_Dialplan cfg with
  | Some d => if (dc_Source d =? "db")%string then "db" else "config"
  | None => "config"
  end.

(** [s.Dialplan()]: the active manager, or the defaults. *)
Definition Dialplan (active : option DialplanManager) : DialplanManager :=
  default (NewDialplanManager DefaultTransformationRules) active.

Section loading.
Context {T : Type} `{!Table T DialplanRule}.
Variable regexp_Compile : string -> option node.

Definition compileRule (pattern replacement : string) : option TransformationRule :=
  match regexp_Compile pattern with
  | Some n => Some {| tr_Pattern := {| re_text := pattern; re_prog := n |};
                      tr_Replacement := replacement |}
  | None => None
  end.

Definition compileDialplanRules (rows : list DialplanRule) : list TransformationRule :=
  omap (fun r => compileRule (dr_Pattern r) (dr_Replacement r)) rows.

(** Config mode: one invalid pattern brings back the defaults. *)
Fixpoint compile_all (rules : list ConfigRule) : option (list TransformationRule) :=
  match rules with
  | [] => Some []
  | r :: rules' =>
      match compileRule (cr_Pattern r) (cr_Replacement r) with
      | None => None
      | Some rule => cons rule <$> compile_all rules'
      end
  end.

Definition loadDialplan (cfg : Config) : DialplanManager :=
  match c_Dialplan cfg with
  | None => NewDialplanManager DefaultTransformationRules
  | Some d =>
      match compile_all (dc_Rules d) with
      | None => NewDialplanManager DefaultTransformationRules
      | Some rules => NewDialplanManager rules
      end
  end.

(** The seed pairs, and the rows made of the valid ones: positions are the
    indices in the whole list. *)
Definition seed_pairs (cfg : Config) : list (string * string) :=
  match c_Dialplan cfg with
  | Some d =>
      match dc_Rules d with
      | [] => map (fun r => (re_text (tr_Pattern r), tr_Replacement r)) DefaultTransformationRules
      | _ :: _ => map (fun r => (cr_Pattern r, cr_Replacement r)) (dc_Rules d)
      end
  | None => map (fun r => (re_text (tr_Pattern r), tr_Replacement r)) DefaultTransformationRules
  end.

Fixpoint seed_rows (i : Z) (pairs : list (string * string)) : list DialplanRule :=
  match pairs with
  | [] => []
  | (p, r) :: pairs' =>
      match regexp_Compile p with
      | None => seed_rows (i + 1) pairs'
      | Some _ =>
          {| dr_ID := 0; dr_Position := i; dr_Pattern := p; dr_Replacement := r;
             dr_Enabled := true; dr_Description := "seeded from configuration/defaults" |}
          :: seed_rows (i + 1) pairs'
      end
  end.

(** [Ok None]: not seeded. *)
Definition seedDialplanRules (cfg : Config) (t : T) : res (option (list DialplanRule)) * T :=
  let '(all, t1) := tbl_find (fun _ => true) t in   (* Count *)
  match all with
  | None => (Err "count", t1)
  | Some (_ :: _) => (Ok None, t1)
  | Some [] =>
      match seed_rows 0 (seed_pairs cfg) with
      | [] => (Ok None, t1)
      | rows =>
          let '(created, t2) := tbl_create_all rows t1 in
          match created with
          | None => (Err "seed dialplan rules", t2)
          | Some rows' => (Ok (Some rows'), t2)
          end
      end
  end.

Definition position_less (a b : DialplanRule) : bool := dr_Position a <? dr_Position b.

Definition loadDialplanFromDB (cfg : Config) (t : T) : res DialplanManager * T :=
  let '(seeded, t1) := seedDialplanRules cfg t in
  match seeded with
  | Err e => (Err e, t1)
  | Ok _ =>
      let '(rows, t2) := tbl_find dr_Enabled t1 in
      match rows with
      | None => (Err "find", t2)
      | Some rows =>
          (Ok (NewDialplanManager (compileDialplanRules (stable_sort position_less rows))), t2)
      end
  end.

(** [reloadDialplan] swaps the active manager; the error leaves it alone. *)
Definition reloadDialplan (cfg : Config) (active : option DialplanManager) (t : T)
  : bool * option DialplanManager * T :=
  if negb (dialplanSource cfg =? "db")%string then (true, active, t)
  else
    let '(dm, t1) := loadDialplanFromDB cfg t in
    match dm with
    | Err _ => (false, active, t1)
    | Ok dm => (true, Some dm, t1)
    end.

(** What [Start] makes active: in db mode a load failure means the defaults. *)
Definition initial_dialplan (cfg : Config) (t : T) : option DialplanManager * T :=
  if (dialplanSource cfg =? "db")%string then
    let '(dm, t1) := loadDialplanFromDB cfg t in
    (match dm with Ok dm => Some dm | Err _ => Some (NewDialplanManager DefaultTransformationRules) end, t1)
  else (Some (loadDialplan cfg), t).

End loading.

(** ** Specification: what the built-in rules do to a number *)

Definition starts_with_ten_digits (s : list ascii) : bool :=
  Nat.leb 10 (List.length s) && forallb is_digit (take 10 s).

Definition one_line (s : list ascii) : bool := forallb any_char s.

(** A one, ten digits, and nothing but one line; ten digits likewise. *)
Definition strip_one_applies (s : list ascii) : bool :=
  match s with
  | c :: s' => Ascii.eqb "1" c && (starts_with_ten_digits s' && one_line (drop 10 s'))
  | [] => false
  end.

Definition first_ten_applies (s : list ascii) : bool :=
  starts_with_ten_digits s && one_line (drop 10 s).

Definition nanp (s : list ascii) : list ascii :=
  if strip_one_applies s then take 10 (drop 1 s)
  else if first_ten_applies s then take 10 s else s.

Definition digits_only (number : string) : string :=
  String.string_of_list_ascii (List.filter is_digit (String.list_ascii_of_string number)).

(** ** Facts *)

Lemma mt_ten_digits i s k :
  mt (NSeq ten_digits rest_of_line) i s ∅ k =
  if starts_with_ten_digits s && one_line (drop 10 s)
  then k (i + List.length s)%nat [] (<[1 := (i, (i + 10)%nat)]> ∅) else None.
Proof.
  change (mt (NSeq ten_digits rest_of_line) i s ∅ k) with
    (mt (nrep 10 (NClass is_digit)) i s ∅ (fun i' s' c' => mt rest_of_line i' s' (<[1 := (i, i')]> c') k)).
  rewrite mt_nrep. unfold starts_with_ten_digits, one_line, rest_of_line.
  destruct (Nat.leb_spec 10 (List.length s)); [|done].
  destruct (forallb is_digit (take 10 s)); [|done]. rewrite mt_rest, length_drop. simpl andb.
  replace (i + 10 + (List.length s - 10))%nat with (i + List.length s)%nat by lia. done.
Qed.

Lemma first_ten_match s :
  match_here (NSeq ten_digits rest_of_line) 0 s =
  if starts_with_ten_digits s && one_line (drop 10 s)
  then Some (List.length s, <[1 := (0%nat, 10%nat)]> ∅) else None.
Proof. apply mt_ten_digits. Qed.

Lemma strip_one_match c s :
  match_here (NSeq (NClass (Ascii.eqb "1")) (NSeq ten_digits rest_of_line)) 0 (c :: s) =
  if Ascii.eqb "1" c && (starts_with_ten_digits s && one_line (drop 10 s))
  then Some (S (List.length s), <[1 := (1%nat, 11%nat)]> ∅) else None.
Proof.
  unfold match_here.
  change (mt (NSeq (NClass (Ascii.eqb "1")) (NSeq ten_digits rest_of_line)) 0 (c :: s) ∅ ?k) with
    (if Ascii.eqb "1" c then mt (NSeq ten_digits rest_of_line) 1 s ∅ k else None).
  destruct (Ascii.eqb "1" c); [|done]. by rewrite mt_ten_digits.
Qed.

(** One anchored match that covers the input is replaced by its first group. *)
Lemma replace_anchored a s g :
  (0 < List.length s)%nat ->
  match_here a 0 s = Some (List.length s, <[1 := g]> ∅) ->
  replace_loop (List.length s + 2) (NSeq NBegin a) ["$"%char; "1"%char] s 0 0 = slice s g.1 g.2.
Proof.
  intros Hl Hm. replace (List.length s + 2)%nat with (S (S (List.length s))) by lia.
  cbn [replace_loop]. rewrite drop_0, search_anchored_0, Hm. simpl Nat.ltb at 1.
  rewrite (proj2 (Nat.ltb_ge (List.length s) (0 + 1))) by lia.
  rewrite orb_true_r, Nat.ltb_irrefl, drop_all, search_anchored by done.
  unfold slice at 1. simpl. change (10 * 0 + digit_val "1") with 1. rewrite lookup_insert_ne, lookup_insert_eq by done.
  destruct g as [b e]. by rewrite !app_nil_r.
Qed.

Lemma of_to_ascii (s : string) :
  String.string_of_list_ascii (String.list_ascii_of_string s) = s.
Proof. apply String.string_of_list_ascii_of_string. Qed.

Lemma to_of_ascii (l : list ascii) :
  String.list_ascii_of_string (String.string_of_list_ascii l) = l.
Proof. apply String.list_ascii_of_string_of_list_ascii. Qed.

Lemma ten_digits_nonempty s : starts_with_ten_digits s = true -> (0 < List.length s)%nat.
Proof. unfold starts_with_ten_digits. intros [H _]%andb_prop. apply Nat.leb_le in H. lia. Qed.

Lemma apply_first_ten l :
  apply_rule (String.string_of_list_ascii l)
    {| tr_Pattern := {| re_text := first_ten_text; re_prog := first_ten |}; tr_Replacement := "$1" |} =
  String.string_of_list_ascii (if first_ten_applies l then take 10 l else l).
Proof.
  unfold apply_rule, MatchString, ReplaceAllString, first_ten, first_ten_applies. simpl re_prog.
  rewrite to_of_ascii, search_anchored_0, first_ten_match.
  destruct (starts_with_ten_digits l && one_line (drop 10 l)) eqn:E; [|done].
  f_equal. apply andb_prop in E as E'. destruct E' as [E1 _].
  cbn [String.list_ascii_of_string tr_Replacement].
  rewrite (replace_anchored _ l (0%nat, 10%nat)); [by unfold slice; rewrite drop_0|by apply ten_digits_nonempty|].
  by rewrite first_ten_match, E.
Qed.

Lemma apply_strip_one l :
  apply_rule (String.string_of_list_ascii l)
    {| tr_Pattern := {| re_text := strip_one_text; re_prog := strip_one |}; tr_Replacement := "$1" |} =
  String.string_of_list_ascii (if strip_one_applies l then take 10 (drop 1 l) else l).
Proof.
  unfold apply_rule, MatchString, ReplaceAllString, strip_one. simpl re_prog.
  rewrite to_of_ascii, search_anchored_0. destruct l as [|c l]; [done|].
  rewrite strip_one_match. unfold strip_one_applies.
  destruct (Ascii.eqb "1" c && (starts_with_ten_digits l && one_line (drop 10 l))) eqn:E; [|done].
  f_equal. cbn [String.list_ascii_of_string tr_Replacement].
  rewrite (replace_anchored _ (c :: l) (1%nat, 11%nat)); [done|simpl; lia|].
  by rewrite strip_one_match, E.
Qed.

(** The built-in rules, rule by rule. *)
Lemma default_rules_lists l :
  ApplyTransformationRules (NewDialplanManager DefaultTransformationRules) (String.string_of_list_ascii l) =
  String.string_of_list_ascii
    (let l' := if strip_one_applies l then take 10 (drop 1 l) else l in
     if first_ten_applies l' then take 10 l' else l').
Proof.
  unfold ApplyTransformationRules. simpl. by rewrite apply_strip_one, apply_first_ten.
Qed.

Lemma take_ten_applies l : starts_with_ten_digits l = true -> first_ten_applies (take 10 l) = true.
Proof.
  unfold first_ten_applies, starts_with_ten_digits, one_line. rewrite !andb_true_iff, Nat.leb_le. intros [Hl Hd].
  rewrite length_take, take_take, Nat.min_id. replace (Nat.min 10 (List.length l)) with 10%nat by lia.
  rewrite drop_ge by (rewrite length_take; lia). done.
Qed.

Lemma ten_not_eleven l : List.length l = 10%nat -> strip_one_applies l = false.
Proof.
  unfold strip_one_applies, starts_with_ten_digits. destruct l as [|c l]; [done|]. intros [= Hl]. rewrite Hl.
  simpl. by rewrite andb_false_r.
Qed.

Lemma length_take_ten l : starts_with_ten_digits l = true -> List.length (take 10 l) = 10%nat.
Proof. unfold starts_with_ten_digits. intros [H _]%andb_prop. apply Nat.leb_le in H. rewrite length_take. lia. Qed.

(** The two rules in a row are [nanp], whose results they leave alone. *)
Lemma default_rules_nanp l :
  ApplyTransformationRules (NewDialplanManager DefaultTransformationRules) (String.string_of_list_ascii l) =
  String.string_of_list_ascii (nanp l).
Proof.
  rewrite default_rules_lists. unfold nanp. simpl. destruct (strip_one_applies l) eqn:E; [|done].
  unfold strip_one_applies in E. destruct l as [|c l]; [done|].
  apply andb_prop in E as [_ E]. apply andb_prop in E as [E _]. simpl drop. rewrite drop_0.
  by rewrite take_ten_applies, take_take, Nat.min_id.
Qed.

Lemma nanp_idem l : nanp (nanp l) = nanp l.
Proof.
  assert (forall m, starts_with_ten_digits m = true -> nanp (take 10 m) = take 10 m) as Hten.
  { intros m Hm. unfold nanp. rewrite ten_not_eleven by by apply length_take_ten.
    by rewrite take_ten_applies, take_take, Nat.min_id. }
  unfold nanp at 2 3. destruct (strip_one_applies l) eqn:E1.
  - unfold strip_one_applies in E1. destruct l as [|c l]; [done|].
    apply andb_prop in E1 as [_ E1]. apply andb_prop in E1 as [E1 _]. by apply Hten.
  - destruct (first_ten_applies l) eqn:E2; [|by unfold nanp; rewrite E1, E2].
    unfold first_ten_applies in E2. apply andb_prop in E2 as [E2 _]. by apply Hten.
Qed.

Section loading_facts.
Context {T : Type} `{!Table T DialplanRule, !TableLaws T DialplanRule}.
Variable regexp_Compile : string -> option node.
#[local] Notation compileRule := (compileRule regexp_Compile).
#[local] Notation seed_rows := (seed_rows regexp_Compile).

(** Rules whose patterns all compile, as pairs. *)
Definition compiled (pairs : list (string * string)) (rules : list TransformationRule) : Prop :=
  Forall2 (fun p r => compileRule p.1 p.2 = Some r) pairs rules.

Lemma seed_rows_lower i pairs : Forall (fun r => i <= dr_Position r) (seed_rows i pairs).
Proof.
  revert i. induction pairs as [|[p r] pairs IH]; intros i; simpl; [constructor|].
  assert (Forall (fun r => i <= dr_Position r) (seed_rows (i + 1) pairs)).
  { eapply Forall_impl; [apply IH|]. simpl. lia. }
  destruct (regexp_Compile p); [|done]. constructor; [simpl; lia|done].
Qed.

Lemma seed_rows_compiled i pairs rules rows :
  compiled pairs rules ->
  Forall2 (fun r r' => r' = set_id (get_id r') r /\ 0 < get_id r') (seed_rows i pairs) rows ->
  List.filter dr_Enabled rows = rows /\
  stable_sort position_less rows = rows /\
  compileDialplanRules regexp_Compile rows = rules /\
  Forall (fun r => i <= dr_Position r) rows.
Proof.
  intros Hc. revert i rows. induction Hc as [|[p r] rule pairs rules Hpr Hc IH]; intros i rows Hrows; simpl in *.
  { by inversion Hrows. }
  pose proof Hpr as Hpr'. unfold Dialplan.compileRule in Hpr'. destruct (regexp_Compile p) eqn:Ep; [|done].
  inversion Hrows as [|? row ? rows' [Hrow _] Hrest]; subst.
  destruct (IH _ _ Hrest) as (He & Hs & Hr & Hl).
  rewrite Hrow. simpl. rewrite He, Hs. split; [done|]. split; [|split].
  - destruct rows' as [|y rows']; simpl; [done|]. apply Forall_cons in Hl as [Hy _].
    unfold position_less. simpl. by rewrite (proj2 (Z.ltb_ge _ _)) by lia.
  - unfold compileDialplanRules in *. simpl. rewrite Hpr. simpl. by rewrite <- Hr.
  - constructor; [simpl; lia|]. eapply Forall_impl; [exact Hl|]. simpl. lia.
Qed.

Lemma seed_rows_nonempty i pairs rules :
  compiled pairs rules -> pairs <> [] -> seed_rows i pairs <> [].
Proof.
  intros [|[p r] rule pairs' rules' Hpr _] Hne; [done|]. simpl in *.
  unfold Dialplan.compileRule in Hpr. by destruct (regexp_Compile p).
Qed.

(** Seeding an empty table and loading it. *)
Lemma load_seeded (cfg : Config) (t : T) rules :
  tbl_healthy t -> tbl_rows t = [] -> compiled (seed_pairs cfg) rules -> seed_pairs cfg <> [] ->
  (loadDialplanFromDB regexp_Compile cfg t).1 = Ok (NewDialplanManager rules) /\
  let t' := (loadDialplanFromDB regexp_Compile cfg t).2 in
  (loadDialplanFromDB regexp_Compile cfg t').1 = Ok (NewDialplanManager rules).
Proof.
  intros Hh Hempty Hc Hne. unfold loadDialplanFromDB, seedDialplanRules.
  destruct (find_healthy (fun _ => true) t Hh) as (Hf & Hr & Hh1).
  destruct (tbl_find _ t) as [o t1]; simpl in *. subst o. rewrite Hempty in Hr |- *. simpl.
  pose proof (seed_rows_nonempty 0 _ _ Hc Hne) as Hsn.
  pose proof (fun rows => seed_rows_compiled 0 _ rules rows Hc) as Hsr.
  set (seeds := seed_rows 0 (seed_pairs cfg)) in *. clearbody seeds.
  destruct (healthy_create_all seeds t1 Hh1) as [[rows Hcr] Hh2].
  destruct (create_all_ok seeds t1 rows Hcr) as (Hrows & Hids & _).
  rewrite Hr in Hrows. simpl in Hrows. destruct (Hsr rows Hids) as (He & Hs & Hcomp & _).
  assert (rows <> []) as Hrn by (intros ->; by inversion Hids; subst).
  assert ((let '(created, t2) := tbl_create_all seeds t1 in
           match created with None => (Err "seed dialplan rules", t2) | Some rows' => (Ok (Some rows'), t2) end)
          = (Ok (Some rows), (tbl_create_all seeds t1).2)) as Hcreate.
  { destruct (tbl_create_all seeds t1); simpl in *. by rewrite Hcr. }
  destruct seeds as [|sd seeds]; [done|]. rewrite Hcreate.
  set (t2 := (tbl_create_all (sd :: seeds) t1).2) in *. clearbody t2.
  destruct (find_healthy dr_Enabled t2 Hh2) as (Hf2 & Hr2 & Hh3).
  destruct (tbl_find _ t2) as [o t3]; simpl in *. subst o. rewrite Hrows in *.
  rewrite He, Hs, Hcomp. split; [done|]. simpl.
  destruct (find_healthy (fun _ => true) t3 Hh3) as (Hf4 & Hr4 & Hh4).
  destruct (tbl_find _ t3) as [o t4]; simpl in *. subst o. rewrite Hr2, filter_true in *.
  destruct rows as [|row rows]; [done|].
  destruct (find_healthy dr_Enabled t4 Hh4) as (Hf5 & _ & _).
  destruct (tbl_find _ t4) as [o t5]; simpl fst in *. subst o. rewrite Hr4. by rewrite He, Hs, Hcomp.
Qed.

Lemma compile_all_compiled rules :
  (forall r, r ∈ rules -> regexp_Compile (cr_Pattern r) <> None) ->
  exists out, compile_all regexp_Compile rules = Some out /\
    compiled (map (fun r => (cr_Pattern r, cr_Replacement r)) rules) out.
Proof.
  induction rules as [|r rules IH]; intros Hc; simpl; [exists []; split; [done|constructor]|].
  destruct IH as (out & -> & Hout); [intros; apply Hc; by right|].
  assert (exists rule, compileRule (cr_Pattern r) (cr_Replacement r) = Some rule) as [rule Hrule].
  { unfold Dialplan.compileRule. specialize (Hc r (list_elem_of_here _ _)).
    destruct (regexp_Compile _); [eauto|done]. }
  exists (rule :: out). unfold Dialplan.compileRule in Hrule |- *. rewrite Hrule. split; [done|].
  by constructor.
Qed.

End loading_facts.

(** ** Properties *)

(** The built-in dialplan, on every string: a leading one before ten digits is
    dropped and the number cut to those ten, otherwise a number that begins
    with ten digits is cut to them, otherwise (too short, other characters, a
    line break) it passes unchanged; and transforming twice is transforming
    once, so an already normalised number stays. *)
Theorem default_dialplan_nanp (number : string) :
  let d := NewDialplanManager DefaultTransformationRules in
  ApplyTransformationRules d number =
    String.string_of_list_ascii (nanp (String.list_ascii_of_string number)) /\
  ApplyTransformationRules d (ApplyTransformationRules d number) = ApplyTransformationRules d number.
Proof.
  assert (forall l, ApplyTransformationRules (NewDialplanManager DefaultTransformationRules)
    (String.string_of_list_ascii l) = String.string_of_list_ascii (nanp l)) as H by apply default_rules_nanp.
  simpl. generalize (of_to_ascii number). generalize (String.list_ascii_of_string number) as l.
  intros l <-. by rewrite !H, nanp_idem.
Qed.

(** Normalising a number keeps its digits, in order, and nothing else. *)
Theorem NormalizeNumber_digits (number : string) : NormalizeNumber number = digits_only number.
Proof.
  unfold NormalizeNumber, digits_only, ReplaceAllString. simpl re_prog.
  set (l := String.list_ascii_of_string number). f_equal.
  pose proof (replace_class non_digit (List.length l + 2) [] l ltac:(lia)) as H. simpl in H.
  change (String.list_ascii_of_string "") with (@nil ascii). rewrite H.
  apply filter_ext. intros a. unfold non_digit. by rewrite negb_involutive.
Qed.

Section loading_properties.
Context {T : Type} `{!Table T DialplanRule, !TableLaws T DialplanRule}.
Variable regexp_Compile : string -> option node.

(** Switching a working dialplan section to database mode changes nothing: on an
    empty table, with every configured pattern valid and at least one rule, the
    first load seeds the table and yields the very rules config mode yields,
    and so does every load after it. *)
Theorem db_dialplan_seeds_config (cfg : Config) (d : DialplanConfig) (t : T) :
  tbl_healthy t -> tbl_rows t = [] ->
  c_Dialplan cfg = Some d -> dc_Rules d <> [] ->
  (forall r, r ∈ dc_Rules d -> regexp_Compile (cr_Pattern r) <> None) ->
  (loadDialplanFromDB regexp_Compile cfg t).1 = Ok (loadDialplan regexp_Compile cfg) /\
  (loadDialplanFromDB regexp_Compile cfg (loadDialplanFromDB regexp_Compile cfg t).2).1 =
    Ok (loadDialplan regexp_Compile cfg).
Proof.
  intros Hh He Hd Hne Hc. destruct (compile_all_compiled regexp_Compile _ Hc) as (out & Hout & Hcomp).
  assert (loadDialplan regexp_Compile cfg = NewDialplanManager out) as ->
    by (unfold loadDialplan; by rewrite Hd, Hout).
  assert (seed_pairs cfg = map (fun r => (cr_Pattern r, cr_Replacement r)) (dc_Rules d)) as Hs.
  { unfold seed_pairs. rewrite Hd. by destruct (dc_Rules d). }
  apply load_seeded; [done|done|by rewrite Hs|]. rewrite Hs. by destruct (dc_Rules d).
Qed.

(** An empty rules list means two different things: in config mode it disables
    transformation, in database mode an empty table is seeded with the built-in
    rules and numbers are rewritten. *)
Theorem empty_rules_differ (cfg : Config) (d : DialplanConfig) (t : T) :
  tbl_healthy t -> tbl_rows t = [] -> c_Dialplan cfg = Some d -> dc_Rules d = [] ->
  regexp_Compile strip_one_text = Some strip_one -> regexp_Compile first_ten_text = Some first_ten ->
  (forall number, ApplyTransformationRules (loadDialplan regexp_Compile cfg) number = number) /\
  (loadDialplanFromDB regexp_Compile cfg t).1 = Ok (NewDialplanManager DefaultTransformationRules).
Proof.
  intros Hh He Hd Hr H1 H2. split.
  - intros number. unfold loadDialplan. by rewrite Hd, Hr.
  - apply load_seeded; [done|done| |].
    + unfold seed_pairs. rewrite Hd, Hr. unfold compiled, compileRule. cbn [map DefaultTransformationRules].
      constructor; [simpl fst; by rewrite H1|]. constructor; [simpl fst; by rewrite H2|constructor].
    + unfold seed_pairs. by rewrite Hd, Hr.
Qed.

End loading_properties.

(** A parser that knows the two built-in patterns and literal strings. *)
Definition example_compile (p : string) : option node :=
  if (p =? strip_one_text)%string then Some strip_one
  else if (p =? first_ten_text)%string then Some first_ten
  else if (p =? "(")%string then None
  else Some (foldr (fun c n => NSeq (NClass (Ascii.eqb c)) n) NEmpty (String.list_ascii_of_string p)).

Definition example_dialplan : DialplanConfig :=
  {| dc_Source := "db"; dc_Rules := [{| cr_Pattern := "9"; cr_Replacement := "1" |};
                                     {| cr_Pattern := strip_one_text; cr_Replacement := "$1" |}] |}.

Lemma db_dialplan_seeds_config_witness :
  exists dm, (loadDialplanFromDB example_compile (zero_config <| c_Dialplan := Some example_dialplan |>)
                (fresh_table [] 1 [])).1 = Ok dm /\
    ApplyTransformationRules dm "95551234567" = "5551234567".
Proof.
  destruct (db_dialplan_seeds_config example_compile (zero_config <| c_Dialplan := Some example_dialplan |>)
    example_dialplan (fresh_table [] 1 [])) as [H _].
  - reflexivity.
  - reflexivity.
  - reflexivity.
  - discriminate.
  - intros r Hr. apply list_elem_of_In in Hr. destruct Hr as [<-|[<-|[]]]; discriminate.
  - eexists. split; [exact H|]. vm_compute. reflexivity.
Defined.

Lemma empty_rules_differ_witness :
  ApplyTransformationRules (loadDialplan example_compile
    (zero_config <| c_Dialplan := Some {| dc_Source := "db"; dc_Rules := [] |} |>)) "15551234567" = "15551234567".
Proof.
  refine (proj1 (empty_rules_differ example_compile
    (zero_config <| c_Dialplan := Some {| dc_Source := "db"; dc_Rules := [] |} |>) _ (fresh_table [] 1 [])
    eq_refl eq_refl eq_refl eq_refl eq_refl eq_refl) _).
Defined.
