(* ===== verification/Directory.v ===== *)
(** * Directory: tenants, numbers, endpoints and gateway access
    ([gofaxserver/tenants.go] and [endpoints.go])

    [Directory] holds the server's in-memory maps; the tables behind them are
    passed next to it. Go's map iteration order is unspecified: where the
    result can depend on it, the enumeration of the map is an argument and the
    theorems quantify over it. DNS and [net.ParseIP] are parameters. *)

From S2P Require Import Prelude Store FaxJob.

(** ** Data *)

Record TenantNumber := {
  tn_ID : Z; tn_TenantID : Z; tn_Number : string;
  tn_Name : string; tn_Header : string; tn_Notify : string;
}.

Record Tenant := {
  te_ID : Z; te_Name : string; te_Notify : string; te_Numbers : list TenantNumber;
}.

#[export] Instance tenant_number_id : HasID TenantNumber := {
  get_id := tn_ID; set_id i r := r <| tn_ID := i |>; get_set_id i r := eq_refl }.
#[export] Instance tenant_id : HasID Tenant := {
  get_id := te_ID; set_id i r := r <| te_ID := i |>; get_set_id i r := eq_refl }.
#[export] Instance endpoint_id : HasID Endpoint := {
  get_id := ep_ID; set_id i r := r <| ep_ID := i |>; get_set_id i r := eq_refl }.

Record Directory := {
  d_Tenants : gmap Z Tenant;
  d_TenantNumbers : gmap string TenantNumber;
  d_TenantEndpoints : gmap Z (list Endpoint);
  d_NumberEndpoints : gmap string (list Endpoint);
  d_Endpoints : gmap string Endpoint;
  d_GatewayEndpointsACL : list string;
  d_GatewayACLResolved : gmap string (list string);
  d_UpstreamFsGateways : list string;
}.

Definition empty_directory : Directory :=
  {| d_Tenants := ∅; d_TenantNumbers := ∅; d_TenantEndpoints := ∅; d_NumberEndpoints := ∅;
     d_Endpoints := ∅; d_GatewayEndpointsACL := []; d_GatewayACLResolved := ∅;
     d_UpstreamFsGateways := [] |}.

(** The tables. *)
Record Tables (TT TN TE : Type) := { tb_tenants : TT; tb_numbers : TN; tb_endpoints : TE }.
Arguments tb_tenants {TT TN TE} _.
Arguments tb_numbers {TT TN TE} _.
Arguments tb_endpoints {TT TN TE} _.

(** ** Lookups *)

Definition getNumber (d : Directory) (number : string) : option TenantNumber :=
  d_TenantNumbers d !! number.

Definition getTenantByNumber (d : Directory) (number : string) : res Tenant :=
  match d_TenantNumbers d !! number with
  | None => Err "number not found"
  | Some tn => match d_Tenants d !! tn_TenantID tn with
               | None => Err "tenant not found"
               | Some t => Ok t
               end
  end.

Definition filterValid (endpoints : list Endpoint) : list Endpoint :=
  List.filter (fun ep => negb (ep_Priority ep =? 666)) endpoints.

Definition map_list {K} `{Countable K} (m : gmap K (list Endpoint)) (k : K) : list Endpoint :=
  default [] (m !! k).

Definition getEndpointsForNumber (d : Directory) (number : string) : res (list Endpoint) :=
  match filterValid (map_list (d_NumberEndpoints d) number) with
  | (_ :: _) as filtered => Ok filtered
  | [] =>
      match d_TenantNumbers d !! number with
      | None => Err "number not found"
      | Some tn =>
          match filterValid (map_list (d_TenantEndpoints d) (tn_TenantID tn)) with
          | (_ :: _) as filtered => Ok filtered
          | [] => Err "no valid endpoints"
          end
      end
  end.

Definition getEndpointsForBridge (d : Directory) (number : string) : res (list Endpoint) :=
  match map_list (d_NumberEndpoints d) number with
  | (_ :: _) as eps => Ok eps
  | [] =>
      match d_TenantNumbers d !! number with
      | None => Err "number not found"
      | Some tn =>
          match map_list (d_TenantEndpoints d) (tn_TenantID tn) with
          | (_ :: _) as eps => Ok eps
          | [] => Err "no endpoints"
          end
      end
  end.

(** ** Gateway access *)

(** [idx := strings.Index(k, ":")]: the part after the first colon must be the
    address; an entry without a colon must be the address itself. *)
Definition acl_literal (ip k : string) : bool :=
  match str_cut ":" k with
  | (_, Some host) => (host =? ip)%string
  | (_, None) => (k =? ip)%string
  end.

Definition acl_resolved (d : Directory) (ip k : string) : bool :=
  str_mem ip (default [] (d_GatewayACLResolved d !! k)).

Definition fsGatewayACL (d : Directory) (ip : string) : res string :=
  match List.find (acl_literal ip) (d_GatewayEndpointsACL d) with
  | Some k => Ok k
  | None =>
      match List.find (acl_resolved d ip) (d_GatewayEndpointsACL d) with
      | Some k => Ok k
      | None => Err "unable to find matching gateway from sending IP"
      end
  end.

Definition splitGatewayACLHost (entry : string) : option string :=
  match str_cut ":" entry with
  | (_, Some EmptyString) => None
  | (_, o) => o
  end.

(** The resolved map and the entries whose lookup failed. *)
Definition resolveGatewayACLs (is_ip : string -> bool) (lookup : string -> option (list string))
  (entries : list string) : gmap string (list string) * gset string :=
  foldl (fun '(resolved, failures) entry =>
    match splitGatewayACLHost entry with
    | None => (resolved, failures)
    | Some host =>
        if is_ip host then (resolved, failures)
        else match lookup host with
             | None => (resolved, {[entry]} ∪ failures)
             | Some ips => (<[entry := ips]> resolved, failures)
             end
    end) (∅, ∅) entries.

(** [order] enumerates [s.Endpoints] the way one [range] does. *)
Fixpoint getEndpointByName (name : string) (order : list (string * Endpoint))
  (substringHit : option Endpoint) : res Endpoint :=
  match order with
  | [] => match substringHit with
          | Some ep => Ok ep
          | None => Err "unable to find endpoint by name"
          end
  | (epName, ep) :: order' =>
      if (gatewayLabel ep =? name)%string then Ok ep
      else getEndpointByName name order'
             (match substringHit with
              | None => if str_contains epName name then Some ep else None
              | Some _ => substringHit
              end)
  end.

Definition gateway_matches (gateway : string) (ep : Endpoint) : bool :=
  (ep_EndpointType ep =? "gateway")%string && (gatewayLabel ep =? gateway)%string.

(** The two nested loops: the first owner found in each enumeration. *)
Definition tenant_of_entry (d : Directory) (gateway : string) (e : Z * list Endpoint) : option Tenant :=
  if existsb (gateway_matches gateway) e.2 then d_Tenants d !! e.1 else None.

Definition tenant_of_number_entry (d : Directory) (gateway : string)
  (e : string * list Endpoint) : option Tenant :=
  if existsb (gateway_matches gateway) e.2 then
    tn ← d_TenantNumbers d !! e.1; d_Tenants d !! tn_TenantID tn
  else None.

Definition getTenantByGateway (d : Directory) (gateway : string)
  (tenants : list (Z * list Endpoint)) (numbers : list (string * list Endpoint)) : res Tenant :=
  match omap (tenant_of_entry d gateway) tenants with
  | t :: _ => Ok t
  | [] => match omap (tenant_of_number_entry d gateway) numbers with
          | t :: _ => Ok t
          | [] => Err "no tenant found for gateway"
          end
  end.

(** ** Dialstrings *)

Definition bridgeGatewayTagVar : string := "gofax_bridge_gw".
Definition outboundGatewayTagVar : string := "gofax_gw".

Definition gateway_leg (gw dstNum : string) : string := "sofia/gateway/" +:+ gw +:+ "/" +:+ dstNum.

Definition endpointGatewayDialstring (endpoints : list string) (dstNum : string) : string :=
  str_join "," (map (fun gw => gateway_leg gw dstNum) endpoints).

Definition endpointGatewayDialstringTagged (endpoints : list string) (dstNum : string) : string :=
  str_join "," (map (fun gw =>
    "[" +:+ bridgeGatewayTagVar +:+ "=" +:+ gw +:+ ",export_vars=" +:+ bridgeGatewayTagVar +:+ "]" +:+
    gateway_leg gw dstNum) endpoints).

Definition endpointGatewayDialstringOutboundTagged (endpoints : list string) (dstNum : string) : string :=
  str_join "," (map (fun gw =>
    "[" +:+ outboundGatewayTagVar +:+ "=" +:+ gw +:+ "]" +:+ gateway_leg gw dstNum) endpoints).

Record bridgeAttempt := { ba_Gateway : string; ba_HangupCause : string }.

Definition resolveUpstreamBridgeGateway (current : string) (attempts : list bridgeAttempt) : string :=
  if negb (current =? "upstream")%string then current
  else match last attempts with
       | None => current
       | Some a => ba_Gateway a
       end.

(** ** Changing the maps *)

(** The number string of a tenant number id. Ids are primary keys, so which
    enumeration finds it does not matter. *)
Definition number_of_id (numbers : gmap string TenantNumber) (id : Z) : option string :=
  match List.find (fun e => tn_ID e.2 =? id) (map_to_list numbers) with
  | Some (_, tn) => if (tn_Number tn =? "")%string then None else Some (tn_Number tn)
  | None => None
  end.

Definition append_endpoint {K} `{Countable K} (k : K) (ep : Endpoint) (m : gmap K (list Endpoint))
  : gmap K (list Endpoint) := <[k := map_list m k ++ [ep]]> m.

Definition endpoint_key (ep : Endpoint) : string := ep_Type ep +:+ "/" +:+ ep_Endpoint ep.

(** [addEndpoint], which [addEndpointToDB] and [updateEndpoint] repeat: an
    error leaves the maps alone. *)
Definition addEndpoint (ep : Endpoint) (d : Directory) : res Directory :=
  if (ep_Type ep =? "tenant")%string then
    Ok (d <| d_TenantEndpoints ::= append_endpoint (ep_TypeID ep) ep |>)
  else if (ep_Type ep =? "number")%string then
    match number_of_id (d_TenantNumbers d) (ep_TypeID ep) with
    | None => Err "tenant number not found"
    | Some numberStr => Ok (d <| d_NumberEndpoints ::= append_endpoint numberStr ep |>)
    end
  else if (ep_Type ep =? "global")%string then
    let d1 := if (ep_EndpointType ep =? "gateway")%string
              then d <| d_UpstreamFsGateways ::= fun l => l ++ [gatewayLabel ep] |> else d in
    Ok (d1 <| d_Endpoints ::= insert (endpoint_key ep) ep |>)
  else Err "unknown endpoint type".

(** Cutting the first endpoint with an id out of a list, and out of a map. *)
Fixpoint cut_id (id : Z) (eps : list Endpoint) : option (list Endpoint) :=
  match eps with
  | [] => None
  | ep :: eps' => if ep_ID ep =? id then Some eps' else cons ep <$> cut_id id eps'
  end.

Definition cut_entry {K} (id : Z) (e : K * list Endpoint) : option (K * list Endpoint) :=
  pair e.1 <$> cut_id id e.2.

Definition cut_map {K} `{Countable K} (id : Z) (m : gmap K (list Endpoint))
  : option (gmap K (list Endpoint)) :=
  match omap (cut_entry id) (map_to_list m) with
  | (k, eps) :: _ => Some (<[k := eps]> m)
  | [] => None
  end.

Definition is_global_named (id : Z) (gwName : string) (e : string * Endpoint) : bool :=
  (ep_ID e.2 =? id) && (ep_Type e.2 =? "global")%string &&
  (has_prefix (ep_Endpoint e.2) (gwName +:+ ":") || (ep_Endpoint e.2 =? gwName)%string).

Fixpoint cut_first (P : string -> bool) (l : list string) : list string :=
  match l with
  | [] => []
  | x :: l' => if P x then l' else x :: cut_first P l'
  end.

Definition removeEndpoint (id : Z) (d : Directory) : res Directory :=
  match cut_map id (d_TenantEndpoints d) with
  | Some m => Ok (d <| d_TenantEndpoints := m |>)
  | None =>
      match cut_map id (d_NumberEndpoints d) with
      | Some m => Ok (d <| d_NumberEndpoints := m |>)
      | None =>
          let eps := map_to_list (d_Endpoints d) in
          let d1 := d <| d_UpstreamFsGateways ::=
            cut_first (fun gwName => existsb (is_global_named id gwName) eps) |> in
          match List.find (fun e => ep_ID e.2 =? id) eps with
          | Some (k, _) => Ok (d1 <| d_Endpoints ::= delete k |>)
          | None => Err "endpoint not found"
          end
      end
  end.

(** The in-memory effect of [removeEndpoint] when it reports an error: the
    gateway list has been cut already. *)
Definition remove_residue (id : Z) (d : Directory) : Directory :=
  d <| d_UpstreamFsGateways ::=
    cut_first (fun gwName => existsb (is_global_named id gwName) (map_to_list (d_Endpoints d))) |>.

Definition keep {A} (d : A) (r : res A) : bool * A :=
  match r with Ok d' => (true, d') | Err _ => (false, d) end.

(** One iteration of the loading loop. *)
Definition load_step (numbers : gmap string TenantNumber) (d : Directory) (ep : Endpoint) : Directory :=
  let d1 := d <| d_Endpoints ::= insert (endpoint_key ep) ep |> in
  let d2 := if (ep_EndpointType ep =? "gateway")%string
            then d1 <| d_GatewayEndpointsACL ::= fun l => l ++ [ep_Endpoint ep] |> else d1 in
  if (ep_Type ep =? "global")%string then
    if (ep_EndpointType ep =? "gateway")%string
    then d2 <| d_UpstreamFsGateways ::= fun l => l ++ [gatewayLabel ep] |> else d2
  else if (ep_Type ep =? "tenant")%string then
    d2 <| d_TenantEndpoints ::= append_endpoint (ep_TypeID ep) ep |>
  else if (ep_Type ep =? "number")%string then
    match number_of_id numbers (ep_TypeID ep) with
    | None => d2
    | Some numberStr => d2 <| d_NumberEndpoints ::= append_endpoint numberStr ep |>
    end
  else d2.

Section tables.
Context {TT TN TE : Type} `{!Table TT Tenant} `{!Table TN TenantNumber} `{!Table TE Endpoint}.
Variable is_ip : string -> bool.
Variable lookup_ip : string -> option (list string).
#[local] Notation state := (Directory * Tables TT TN TE)%type.

Definition loadEndpoints (st : state) : bool * state :=
  let '(d, tb) := st in
  let '(rows, te) := tbl_find (fun _ => true) (tb_endpoints tb) in
  let tb' := tb <| tb_endpoints := te |> in
  match rows with
  | None => (false, (d, tb'))
  | Some rows =>
      let d0 := d <| d_TenantEndpoints := ∅ |> <| d_NumberEndpoints := ∅ |> <| d_Endpoints := ∅ |>
                  <| d_UpstreamFsGateways := [] |> <| d_GatewayEndpointsACL := [] |> in
      let d1 := foldl (load_step (d_TenantNumbers d)) d0 rows in
      (true, (d1 <| d_GatewayACLResolved :=
                (resolveGatewayACLs is_ip lookup_ip (d_GatewayEndpointsACL d1)).1 |>, tb'))
  end.

Definition addEndpointToDB (ep : Endpoint) (st : state) : bool * state :=
  let '(d, tb) := st in
  let '(created, te) := tbl_create ep (tb_endpoints tb) in
  let tb' := tb <| tb_endpoints := te |> in
  match created with
  | None => (false, (d, tb'))
  | Some ep' => let '(ok, d') := keep d (addEndpoint ep' d) in (ok, (d', tb'))
  end.

Definition removeEndpointFromDB (id : Z) (st : state) : bool * state :=
  let '(d, tb) := st in
  let '(ok, te) := tbl_delete (fun ep => ep_ID ep =? id) (tb_endpoints tb) in
  let tb' := tb <| tb_endpoints := te |> in
  if ok then let '(ok', d') := keep (remove_residue id d) (removeEndpoint id d) in (ok', (d', tb'))
  else (false, (d, tb')).

Definition updateEndpoint (ep : Endpoint) (st : state) : bool * state :=
  let '(d, tb) := st in
  let '(ok, te) := tbl_save ep (tb_endpoints tb) in
  let tb' := tb <| tb_endpoints := te |> in
  if ok then
    match removeEndpoint (ep_ID ep) d with
    | Err _ => (false, (remove_residue (ep_ID ep) d, tb'))
    | Ok d1 => let '(ok', d') := keep d1 (addEndpoint ep d1) in (ok', (d', tb'))
    end
  else (false, (d, tb')).

(** [Preload("Numbers")]: each tenant with its numbers. *)
Definition loadTenants (st : state) : bool * state :=
  let '(d, tb) := st in
  let '(rows, tts) := tbl_find (fun _ => true) (tb_tenants tb) in
  match rows with
  | None => (false, (d, tb <| tb_tenants := tts |>))
  | Some rows =>
      let '(nums, tn) := tbl_find (fun n => existsb (fun t => te_ID t =? tn_TenantID n) rows) (tb_numbers tb) in
      let tb' := tb <| tb_tenants := tts |> <| tb_numbers := tn |> in
      match nums with
      | None => (false, (d, tb'))
      | Some nums =>
          let full t := t <| te_Numbers := List.filter (fun n => tn_TenantID n =? te_ID t) nums |> in
          (true, (d <| d_Tenants := foldl (fun m t => <[te_ID t := full t]> m) ∅ rows |>, tb'))
      end
  end.

Definition number_map (rows : list TenantNumber) : gmap string TenantNumber :=
  foldl (fun m n => <[tn_Number n := n]> m) ∅ rows.

Definition loadTenantNumbers (st : state) : bool * state :=
  let '(d, tb) := st in
  let '(rows, tn) := tbl_find (fun _ => true) (tb_numbers tb) in
  let tb' := tb <| tb_numbers := tn |> in
  match rows with
  | None => (false, (d, tb'))
  | Some rows => (true, (d <| d_TenantNumbers := number_map rows |>, tb'))
  end.

Definition and_then (f g : state -> bool * state) (st : state) : bool * state :=
  let '(ok, st1) := f st in if ok then g st1 else (false, st1).

Definition reloadTenantsAndNumbers : state -> bool * state :=
  and_then loadTenants loadTenantNumbers.

(** The directory half of [ReloadData]: endpoints first, then the numbers they
    refer to. [Start] loads numbers first, and goes on after a failure. *)
Definition ReloadData_directory : state -> bool * state :=
  and_then loadEndpoints reloadTenantsAndNumbers.

Definition Start_directory (st : state) : state :=
  (loadEndpoints (loadTenants (loadTenantNumbers st).2).2).2.

Definition addTenantNumber (tenantID : Z) (number : TenantNumber) (st : state) : bool * state :=
  let '(d, tb) := st in
  match d_Tenants d !! tenantID, d_TenantNumbers d !! tn_Number number with
  | Some _, None =>
      let '(created, tn) := tbl_create (number <| tn_TenantID := tenantID |>) (tb_numbers tb) in
      let tb' := tb <| tb_numbers := tn |> in
      match created with
      | None => (false, (d, tb'))
      | Some n => (true, (d <| d_TenantNumbers ::= insert (tn_Number n) n |>, tb'))
      end
  | _, _ => (false, st)
  end.

Definition removeTenantNumber (tenantID : Z) (numberStr : string) (st : state) : bool * state :=
  let '(d, tb) := st in
  match d_TenantNumbers d !! numberStr with
  | None => (false, st)
  | Some number =>
      if negb (tn_TenantID number =? tenantID) then (false, st)
      else
        let '(ok, tn) := tbl_delete (fun n => tn_ID n =? tn_ID number) (tb_numbers tb) in
        let tb' := tb <| tb_numbers := tn |> in
        if ok then (true, (d <| d_TenantNumbers ::= delete numberStr |>, tb')) else (false, (d, tb'))
  end.

End tables.

(** ** Facts *)

Lemma map_list_append {K} `{Countable K} (m : gmap K (list Endpoint)) k k' ep :
  map_list (append_endpoint k ep m) k' = if decide (k' = k) then map_list m k' ++ [ep] else map_list m k'.
Proof.
  unfold map_list at 1, append_endpoint. destruct (decide (k' = k)) as [->|].
  - by rewrite lookup_insert_eq.
  - by rewrite lookup_insert_ne.
Qed.

Definition of_tenant (id : Z) (ep : Endpoint) : bool :=
  (ep_Type ep =? "tenant")%string && (ep_TypeID ep =? id).

Definition of_number (numbers : gmap string TenantNumber) (n : string) (ep : Endpoint) : bool :=
  (ep_Type ep =? "number")%string &&
  match number_of_id numbers (ep_TypeID ep) with Some n' => (n' =? n)%string | None => false end.

Definition is_gateway (ep : Endpoint) : bool := (ep_EndpointType ep =? "gateway")%string.

Definition is_upstream (ep : Endpoint) : bool := (ep_Type ep =? "global")%string && is_gateway ep.

(** One loading step, map by map. *)
Lemma load_step_spec numbers d ep :
  (forall id, map_list (d_TenantEndpoints (load_step numbers d ep)) id =
     map_list (d_TenantEndpoints d) id ++ (if of_tenant id ep then [ep] else [])) /\
  (forall n, map_list (d_NumberEndpoints (load_step numbers d ep)) n =
     map_list (d_NumberEndpoints d) n ++ (if of_number numbers n ep then [ep] else [])) /\
  d_GatewayEndpointsACL (load_step numbers d ep) =
    d_GatewayEndpointsACL d ++ (if is_gateway ep then [ep_Endpoint ep] else []) /\
  d_UpstreamFsGateways (load_step numbers d ep) =
    d_UpstreamFsGateways d ++ (if is_upstream ep then [gatewayLabel ep] else []).
Proof.
  unfold load_step, of_tenant, of_number, is_upstream, is_gateway.
  destruct (String.eqb_spec (ep_Type ep) "global") as [E|_];
    [rewrite E; simpl; destruct (ep_EndpointType ep =? "gateway")%string; simpl;
     repeat split; intros; by rewrite ?app_nil_r|].
  destruct (String.eqb_spec (ep_Type ep) "tenant") as [E|_]; [rewrite E; simpl|].
  { destruct (ep_EndpointType ep =? "gateway")%string; simpl; repeat split; intros; rewrite ?app_nil_r; try done;
      rewrite map_list_append; destruct (Z.eqb_spec (ep_TypeID ep) id) as [->|];
      case_decide; try congruence; by rewrite ?app_nil_r. }
  destruct (String.eqb_spec (ep_Type ep) "number") as [E|_]; simpl.
  - destruct (number_of_id numbers (ep_TypeID ep)) as [ns|]; destruct (ep_EndpointType ep =? "gateway")%string;
      simpl; repeat split; intros; rewrite ?app_nil_r; try done;
      rewrite map_list_append; destruct (String.eqb_spec ns n) as [->|];
      case_decide; try congruence; by rewrite ?app_nil_r.
  - destruct (ep_EndpointType ep =? "gateway")%string; simpl; repeat split; intros; by rewrite ?app_nil_r.
Qed.

(** The whole loop. *)
Lemma load_loop_spec numbers rows d :
  let d' := foldl (load_step numbers) d rows in
  (forall id, map_list (d_TenantEndpoints d') id =
     map_list (d_TenantEndpoints d) id ++ List.filter (of_tenant id) rows) /\
  (forall n, map_list (d_NumberEndpoints d') n =
     map_list (d_NumberEndpoints d) n ++ List.filter (of_number numbers n) rows) /\
  d_GatewayEndpointsACL d' = d_GatewayEndpointsACL d ++ map ep_Endpoint (List.filter is_gateway rows) /\
  d_UpstreamFsGateways d' = d_UpstreamFsGateways d ++ map gatewayLabel (List.filter is_upstream rows) /\
  d_TenantNumbers d' = d_TenantNumbers d /\ d_Tenants d' = d_Tenants d.
Proof.
  revert d. induction rows as [|ep rows IH]; intros d; simpl.
  { repeat split; intros; by rewrite app_nil_r. }
  destruct (IH (load_step numbers d ep)) as (Ht & Hn & Ha & Hu & Hm & Hte).
  destruct (load_step_spec numbers d ep) as (Ht1 & Hn1 & Ha1 & Hu1).
  assert (d_TenantNumbers (load_step numbers d ep) = d_TenantNumbers d /\
          d_Tenants (load_step numbers d ep) = d_Tenants d) as [<- <-].
  { unfold load_step. repeat (destruct (_ =? _)%string; try done). by destruct (number_of_id _ _). by destruct (number_of_id _ _). }
  split; [|split; [|split; [|split; [|done]]]].
  - intros id. rewrite Ht, Ht1, <- app_assoc. by destruct (of_tenant id ep).
  - intros n. rewrite Hn, Hn1, <- app_assoc. by destruct (of_number numbers n ep).
  - rewrite Ha, Ha1, <- app_assoc. by destruct (is_gateway ep).
  - rewrite Hu, Hu1, <- app_assoc. by destruct (is_upstream ep).
Qed.

(** The number an id stands for, in a map built from rows with distinct ids
    and distinct non-empty numbers. *)
Lemma number_map_lookup rows n :
  NoDup (map tn_Number rows) ->
  number_map rows !! n = List.find (fun x => (tn_Number x =? n)%string) rows.
Proof.
  unfold number_map. intros Hnd.
  assert (forall m : gmap string TenantNumber, foldl (fun m n => <[tn_Number n := n]> m) m rows !! n =
    match List.find (fun x => (tn_Number x =? n)%string) rows with Some x => Some x | None => m !! n end) as H.
  { induction rows as [|x rows IH]; intros m; simpl; [done|]. simpl in Hnd. apply NoDup_cons in Hnd as [Hx Hnd].
    rewrite IH by done. destruct (List.find _ rows) as [y|] eqn:E.
    - apply find_some in E as [Hy Hyn]. apply String.eqb_eq in Hyn. apply list_elem_of_In in Hy.
      destruct (String.eqb_spec (tn_Number x) n) as [Hxn|]; [|done]. destruct Hx. rewrite Hxn, <- Hyn.
      by apply (list_elem_of_fmap_2 tn_Number).
    - destruct (String.eqb_spec (tn_Number x) n) as [->|]; [by rewrite lookup_insert_eq|by rewrite lookup_insert_ne]. }
  rewrite H. destruct (List.find _ rows); [done|]. by rewrite lookup_empty.
Qed.

Lemma number_of_id_map rows tn :
  NoDup (map tn_Number rows) -> ids_ok rows -> tn ∈ rows -> tn_Number tn <> "" ->
  number_of_id (number_map rows) (tn_ID tn) = Some (tn_Number tn).
Proof.
  intros Hnd Hid Hin Hne. unfold number_of_id.
  assert (forall k x, number_map rows !! k = Some x -> x ∈ rows) as Helem.
  { intros k x Hx. rewrite number_map_lookup in Hx by done.
    apply find_some in Hx as [Hx _]. by apply list_elem_of_In. }
  destruct (List.find _ (map_to_list (number_map rows))) as [[k x]|] eqn:E.
  - apply find_some in E as [Hx Hi]. apply list_elem_of_In, elem_of_map_to_list in Hx. simpl in Hi.
    apply Z.eqb_eq in Hi. rewrite (ids_ok_inj rows x tn Hid (Helem k x Hx) Hin Hi).
    by rewrite (proj2 (String.eqb_neq _ _)).
  - assert (exists x, number_map rows !! tn_Number tn = Some x /\ tn_Number x = tn_Number tn) as (x & Hx & Hxn).
    { rewrite number_map_lookup by done.
      destruct (List.find _ rows) as [x|] eqn:Ef.
      - apply find_some in Ef as [_ Hxn]. apply String.eqb_eq in Hxn. eauto.
      - apply list_elem_of_In in Hin. pose proof (find_none _ _ Ef tn Hin) as Hno. simpl in Hno.
        by rewrite str_eqb_refl in Hno. }
    assert (x = tn) as ->.
    { rewrite number_map_lookup in Hx by done. apply find_some in Hx as [Hxin _]. apply list_elem_of_In in Hxin.
      clear -Hnd Hxin Hin Hxn. induction rows as [|y rows IH]; simpl in *; [set_solver|].
      apply NoDup_cons in Hnd as [Hy Hnd].
      apply elem_of_cons in Hxin as [->|Hxin]; apply elem_of_cons in Hin as [->|Hin]; auto; destruct Hy.
      - rewrite Hxn. by apply (list_elem_of_fmap_2 tn_Number).
      - rewrite <- Hxn. by apply (list_elem_of_fmap_2 tn_Number). }
    apply elem_of_map_to_list, list_elem_of_In in Hx. pose proof (find_none _ _ E _ Hx) as Hno. simpl in Hno.
    by rewrite Z.eqb_refl in Hno.
Qed.

Lemma filterValid_valid l ep : ep ∈ filterValid l -> ep_Priority ep <> 666.
Proof.
  unfold filterValid. intros Hep. apply list_elem_of_In, filter_In in Hep as [_ Hp].
  by apply negb_true_iff, Z.eqb_neq in Hp.
Qed.

Lemma getEndpointsForNumber_valid d n :
  match getEndpointsForNumber d n with
  | Ok eps => forall ep, ep ∈ eps -> ep_Priority ep <> 666 | Err _ => True end.
Proof.
  unfold getEndpointsForNumber.
  pose proof (filterValid_valid (map_list (d_NumberEndpoints d) n)) as H1.
  destruct (filterValid (map_list (d_NumberEndpoints d) n)) as [|ep eps]; [|done].
  destruct (d_TenantNumbers d !! n) as [tn|]; [|done].
  pose proof (filterValid_valid (map_list (d_TenantEndpoints d) (tn_TenantID tn))) as H2.
  by destruct (filterValid (map_list (d_TenantEndpoints d) (tn_TenantID tn))).
Qed.

(** ** Properties *)

(** The endpoints a fax to a number is delivered to are never none and never of
    priority 666; they are the number's own usable endpoints when it has any,
    and otherwise all usable endpoints of its tenant, in stored order; an error
    means exactly that neither level has a usable endpoint. *)
Theorem getEndpointsForNumber_spec (d : Directory) (number : string) :
  let own := filterValid (map_list (d_NumberEndpoints d) number) in
  let inherited := match d_TenantNumbers d !! number with
                   | Some tn => filterValid (map_list (d_TenantEndpoints d) (tn_TenantID tn))
                   | None => []
                   end in
  match getEndpointsForNumber d number with
  | Ok eps => eps <> [] /\ (forall ep, ep ∈ eps -> ep_Priority ep <> 666) /\
              (own <> [] -> eps = own) /\ (own = [] -> eps = inherited)
  | Err _ => own = [] /\ inherited = []
  end.
Proof.
  simpl. unfold getEndpointsForNumber.
  pose proof (filterValid_valid (map_list (d_NumberEndpoints d) number)) as H1.
  destruct (filterValid (map_list (d_NumberEndpoints d) number)) as [|ep eps]; [|done].
  destruct (d_TenantNumbers d !! number) as [tn|]; [|done].
  pose proof (filterValid_valid (map_list (d_TenantEndpoints d) (tn_TenantID tn))) as H2.
  by destruct (filterValid (map_list (d_TenantEndpoints d) (tn_TenantID tn))).
Qed.

(** An inbound address is accepted exactly when some ACL entry names it: literally
    after its first colon, as a bare entry, or through the entry's last DNS
    resolution; the entry returned is one that does, and in particular an
    address that merely contains, or is contained in, an entry is refused. *)
Theorem fsGatewayACL_exact (d : Directory) (ip : string) :
  let admits k := k ∈ d_GatewayEndpointsACL d /\
    ((exists name, k = name +:+ ":" +:+ ip /\ str_cut ":" name = (name, None)) \/
     (k = ip /\ str_cut ":" k = (k, None)) \/
     (exists ips, d_GatewayACLResolved d !! k = Some ips /\ ip ∈ ips)) in
  match fsGatewayACL d ip with
  | Ok k => admits k
  | Err _ => forall k, ~ admits k
  end.
Proof.
  intros admits.
  assert (forall k, acl_literal ip k = true <->
    (exists name, k = name +:+ ":" +:+ ip /\ str_cut ":" name = (name, None)) \/
    (k = ip /\ str_cut ":" k = (k, None))) as Hlit.
  { intros k. unfold acl_literal. destruct (str_cut ":" k) as [a [host|]] eqn:E; rewrite String.eqb_eq.
    - pose proof (str_cut_spec _ _ _ _ E) as Hk. pose proof (str_cut_before _ _ _ _ E) as Ha. split.
      + intros ->. left. exists a. done.
      + intros [(name & -> & Hn)|[-> Hn]]; [|congruence].
        change (":" +:+ ip)%string with (String ":" ip) in E.
        rewrite (str_cut_no_sep_app ":" name ip Hn) in E. by injection E.
    - pose proof (str_cut_no_sep ":" k) as Hns. rewrite E in Hns. simpl in Hns. rewrite (Hns eq_refl). split.
      + intros ->. right. done.
      + intros [(name & Hk & Hn)|[-> _]]; [|done]. exfalso. rewrite Hk in E.
        change (":" +:+ ip)%string with (String ":" ip) in E.
        by rewrite (str_cut_no_sep_app ":" name ip Hn) in E. }
  assert (forall k, acl_resolved d ip k = true <-> exists ips, d_GatewayACLResolved d !! k = Some ips /\ ip ∈ ips) as Hres.
  { intros k. unfold acl_resolved. rewrite str_mem_spec.
    destruct (d_GatewayACLResolved d !! k) as [ips|]; simpl; [|split; [set_solver|naive_solver]].
    split; [eauto|]. by intros (? & [= <-] & ?). }
  unfold fsGatewayACL. destruct (List.find (acl_literal ip) _) as [k|] eqn:E1.
  - apply find_some in E1 as [Hin Hk]. apply Hlit in Hk. split; [by apply list_elem_of_In|tauto].
  - destruct (List.find (acl_resolved d ip) _) as [k|] eqn:E2.
    + apply find_some in E2 as [Hin Hk]. apply Hres in Hk. split; [by apply list_elem_of_In|tauto].
    + intros k [Hin Hk]. apply list_elem_of_In in Hin.
      pose proof (find_none _ _ E1 k Hin) as N1. pose proof (find_none _ _ E2 k Hin) as N2.
      destruct Hk as [Hk|[Hk|Hk]].
      * rewrite (proj2 (Hlit k)) in N1; [done|by left].
      * rewrite (proj2 (Hlit k)) in N1; [done|by right].
      * rewrite (proj2 (Hres k)) in N2; done.
Qed.

(** Whatever order the maps are enumerated in, the tenant a gateway resolves to owns
    a gateway endpoint of that name, directly or through one of its numbers;
    an error means no tenant does, so global trunks resolve to nobody. *)
Theorem getTenantByGateway_owner (d : Directory) (gateway : string)
  (tenants : list (Z * list Endpoint)) (numbers : list (string * list Endpoint)) :
  tenants ≡ₚ map_to_list (d_TenantEndpoints d) -> numbers ≡ₚ map_to_list (d_NumberEndpoints d) ->
  let owns t := exists ep, gateway_matches gateway ep = true /\
    ((exists id, ep ∈ map_list (d_TenantEndpoints d) id /\ d_Tenants d !! id = Some t) \/
     (exists n tn, ep ∈ map_list (d_NumberEndpoints d) n /\ d_TenantNumbers d !! n = Some tn /\
        d_Tenants d !! tn_TenantID tn = Some t)) in
  match getTenantByGateway d gateway tenants numbers with
  | Ok t => owns t
  | Err _ => forall t, ~ owns t
  end.
Proof.
  intros Ht Hn owns.
  assert (forall t, t ∈ omap (tenant_of_entry d gateway) tenants <-> exists ep id,
    gateway_matches gateway ep = true /\ ep ∈ map_list (d_TenantEndpoints d) id /\ d_Tenants d !! id = Some t) as H1.
  { intros t. rewrite list_elem_of_omap. setoid_rewrite Ht. unfold tenant_of_entry, map_list. split.
    - intros ([id eps] & Hin & Hx). apply elem_of_map_to_list in Hin. simpl in Hx.
      destruct (existsb _ eps) eqn:E; [|done]. apply existsb_exists in E as (ep & Hep & Hm).
      exists ep, id. rewrite Hin. simpl. by rewrite list_elem_of_In.
    - intros (ep & id & Hm & Hep & Hid). destruct (d_TenantEndpoints d !! id) as [eps|] eqn:E; [|by apply not_elem_of_nil in Hep].
      exists (id, eps). rewrite elem_of_map_to_list. split; [done|]. simpl.
      rewrite (proj2 (existsb_exists _ _)); [done|]. exists ep. by rewrite <- list_elem_of_In. }
  assert (forall t, t ∈ omap (tenant_of_number_entry d gateway) numbers <-> exists ep n tn,
    gateway_matches gateway ep = true /\ ep ∈ map_list (d_NumberEndpoints d) n /\
    d_TenantNumbers d !! n = Some tn /\ d_Tenants d !! tn_TenantID tn = Some t) as H2.
  { intros t. rewrite list_elem_of_omap. setoid_rewrite Hn. unfold tenant_of_number_entry, map_list. split.
    - intros ([n eps] & Hin & Hx). apply elem_of_map_to_list in Hin. simpl in Hx.
      destruct (existsb _ eps) eqn:E; [|done]. apply existsb_exists in E as (ep & Hep & Hm).
      destruct (d_TenantNumbers d !! n) as [tn|] eqn:En; [|done]. simpl in Hx.
      exists ep, n, tn. rewrite Hin. simpl. by rewrite list_elem_of_In.
    - intros (ep & n & tn & Hm & Hep & En & Hid). destruct (d_NumberEndpoints d !! n) as [eps|] eqn:E; [|by apply not_elem_of_nil in Hep].
      exists (n, eps). rewrite elem_of_map_to_list. split; [done|]. simpl.
      rewrite (proj2 (existsb_exists _ _)), En; [done|]. exists ep. by rewrite <- list_elem_of_In. }
  unfold getTenantByGateway.
  destruct (omap (tenant_of_entry d gateway) tenants) as [|t ts].
  - destruct (omap (tenant_of_number_entry d gateway) numbers) as [|t ts].
    + intros t (ep & Hm & [(id & ? & ?)|(n & tn & ? & ? & ?)]).
      * apply (not_elem_of_nil t), H1. eauto.
      * apply (not_elem_of_nil t), H2. eauto 10.
    + destruct (proj1 (H2 t) (list_elem_of_here _ _)) as (ep & n & tn & ? & ? & ? & ?).
      exists ep. split; [done|]. right. eauto.
  - destruct (proj1 (H1 t) (list_elem_of_here _ _)) as (ep & id & ? & ? & ?).
    exists ep. split; [done|]. left. eauto.
Qed.

Section loading_properties.
Context {TT TN TE : Type} `{!Table TT Tenant, !TableLaws TT Tenant} `{!Table TN TenantNumber, !TableLaws TN TenantNumber}
  `{!Table TE Endpoint, !TableLaws TE Endpoint}.
Variable is_ip : string -> bool.
Variable lookup_ip : string -> option (list string).
#[local] Notation loadEndpoints := (loadEndpoints (TT := TT) (TN := TN) (TE := TE) is_ip lookup_ip).
#[local] Notation ReloadData_directory := (ReloadData_directory (TT := TT) (TN := TN) (TE := TE) is_ip lookup_ip).

Definition tables_healthy (tb : Tables TT TN TE) : Prop :=
  tbl_healthy (tb_tenants tb) /\ tbl_healthy (tb_numbers tb) /\ tbl_healthy (tb_endpoints tb).

(** The maps a healthy load leaves, and the tables it found. *)
Lemma loadEndpoints_healthy d tb :
  tables_healthy tb ->
  exists d' tb', loadEndpoints (d, tb) = (true, (d', tb')) /\ tables_healthy tb' /\
    tbl_rows (tb_tenants tb') = tbl_rows (tb_tenants tb) /\
    tbl_rows (tb_numbers tb') = tbl_rows (tb_numbers tb) /\
    tbl_rows (tb_endpoints tb') = tbl_rows (tb_endpoints tb) /\
    d_TenantNumbers d' = d_TenantNumbers d /\ d_Tenants d' = d_Tenants d /\
    let rows := tbl_rows (tb_endpoints tb) in
    (forall id, map_list (d_TenantEndpoints d') id = List.filter (of_tenant id) rows) /\
    (forall n, map_list (d_NumberEndpoints d') n = List.filter (of_number (d_TenantNumbers d) n) rows) /\
    d_GatewayEndpointsACL d' = map ep_Endpoint (List.filter is_gateway rows) /\
    d_UpstreamFsGateways d' = map gatewayLabel (List.filter is_upstream rows).
Proof.
  intros (Ht & Hn & He). unfold Directory.loadEndpoints.
  destruct (find_healthy (fun _ => true) (tb_endpoints tb) He) as (Hf & Hr & Hh).
  destruct (tbl_find _ (tb_endpoints tb)) as [o te]; simpl in *. subst o. rewrite filter_true.
  set (d0 := d <| d_TenantEndpoints := ∅ |> <| d_NumberEndpoints := ∅ |> <| d_Endpoints := ∅ |>
               <| d_UpstreamFsGateways := [] |> <| d_GatewayEndpointsACL := [] |>).
  pose proof (load_loop_spec (d_TenantNumbers d) (tbl_rows (tb_endpoints tb)) d0)
    as (H1 & H2 & H3 & H4 & H5 & H6).
  eexists _, _. split; [reflexivity|]. split; [done|]. do 3 (split; [done|]). split; [exact H5|].
  split; [exact H6|]. split; [exact H1|]. split; [exact H2|]. split; [exact H3|exact H4].
Qed.

Lemma loadTenants_healthy d tb :
  tables_healthy tb ->
  exists d' tb', loadTenants (d, tb) = (true, (d', tb')) /\ tables_healthy tb' /\
    tbl_rows (tb_tenants tb') = tbl_rows (tb_tenants tb) /\
    tbl_rows (tb_numbers tb') = tbl_rows (tb_numbers tb) /\
    tbl_rows (tb_endpoints tb') = tbl_rows (tb_endpoints tb) /\
    d_TenantNumbers d' = d_TenantNumbers d /\ d_NumberEndpoints d' = d_NumberEndpoints d.
Proof.
  intros (Ht & Hn & He). unfold loadTenants.
  destruct (find_healthy (fun _ => true) (tb_tenants tb) Ht) as (Hf & Hr & Hh).
  destruct (tbl_find _ (tb_tenants tb)) as [o tts]; simpl in *. subst o. rewrite filter_true.
  set (P := fun n : TenantNumber => _).
  destruct (find_healthy P (tb_numbers tb) Hn) as (Hf2 & Hr2 & Hh2).
  destruct (tbl_find P (tb_numbers tb)) as [o tns]; simpl in *. subst o.
  eexists _, _. split; [reflexivity|]. done.
Qed.

Lemma loadTenantNumbers_healthy d tb :
  tables_healthy tb ->
  exists d' tb', loadTenantNumbers (d, tb) = (true, (d', tb')) /\ tables_healthy tb' /\
    tbl_rows (tb_numbers tb') = tbl_rows (tb_numbers tb) /\
    tbl_rows (tb_endpoints tb') = tbl_rows (tb_endpoints tb) /\
    d_TenantNumbers d' = number_map (tbl_rows (tb_numbers tb)) /\
    d_NumberEndpoints d' = d_NumberEndpoints d.
Proof.
  intros (Ht & Hn & He). unfold loadTenantNumbers.
  destruct (find_healthy (fun _ => true) (tb_numbers tb) Hn) as (Hf & Hr & Hh).
  destruct (tbl_find _ (tb_numbers tb)) as [o tns]; simpl in *. subst o. rewrite filter_true.
  eexists _, _. split; [reflexivity|]. done.
Qed.

(** One reload resolves the endpoints against the numbers known before it, and
    leaves the numbers of the table. *)
Lemma reload_pass d tb :
  tables_healthy tb ->
  exists d' tb', ReloadData_directory (d, tb) = (true, (d', tb')) /\ tables_healthy tb' /\
    tbl_rows (tb_numbers tb') = tbl_rows (tb_numbers tb) /\
    tbl_rows (tb_endpoints tb') = tbl_rows (tb_endpoints tb) /\
    d_TenantNumbers d' = number_map (tbl_rows (tb_numbers tb)) /\
    (forall n, map_list (d_NumberEndpoints d') n =
       List.filter (of_number (d_TenantNumbers d) n) (tbl_rows (tb_endpoints tb))).
Proof.
  intros Hh. destruct (loadEndpoints_healthy d tb Hh) as (d1 & tb1 & H1 & Hh1 & _ & Hn1 & He1 & _ & _ & _ & Hne & _).
  destruct (loadTenants_healthy d1 tb1 Hh1) as (d2 & tb2 & H2 & Hh2 & _ & Hn2 & He2 & _ & Hne2).
  destruct (loadTenantNumbers_healthy d2 tb2 Hh2) as (d3 & tb3 & H3 & Hh3 & Hn3 & He3 & Hm & Hne3).
  exists d3, tb3. unfold Directory.ReloadData_directory, reloadTenantsAndNumbers, and_then.
  rewrite H1, H2, H3. split; [done|]. split; [done|]. split; [congruence|]. split; [congruence|].
  split; [congruence|]. intros n. rewrite Hne3, Hne2. apply Hne.
Qed.

(** Loading on a healthy database leaves in the maps exactly the stored endpoints,
    in stored order: each tenant its own, each known number its own, the ACL
    every gateway's entry and the upstream list the global gateways' names. *)
Theorem loadEndpoints_exact (d : Directory) (tb : Tables TT TN TE) :
  tables_healthy tb ->
  let d' := (loadEndpoints (d, tb)).2.1 in let rows := tbl_rows (tb_endpoints tb) in
  (loadEndpoints (d, tb)).1 = true /\
  (forall id, map_list (d_TenantEndpoints d') id = List.filter (of_tenant id) rows) /\
  (forall n, map_list (d_NumberEndpoints d') n = List.filter (of_number (d_TenantNumbers d) n) rows) /\
  d_GatewayEndpointsACL d' = map ep_Endpoint (List.filter is_gateway rows) /\
  d_UpstreamFsGateways d' = map gatewayLabel (List.filter is_upstream rows).
Proof.
  intros Hh. destruct (loadEndpoints_healthy d tb Hh) as (d1 & tb1 & H1 & _ & _ & _ & _ & _ & _ & H).
  rewrite H1. simpl. split; [done|exact H].
Qed.

(** A reload resolves number endpoints against the numbers loaded before it: for a
    number that is in the table but was not in memory, one reload succeeds and
    leaves its endpoints out, and only the next one brings them in. *)
Theorem ReloadData_needs_two_passes (d : Directory) (tb : Tables TT TN TE) (tn : TenantNumber) :
  tables_healthy tb -> ids_ok (tbl_rows (tb_numbers tb)) ->
  NoDup (map tn_Number (tbl_rows (tb_numbers tb))) ->
  tn ∈ tbl_rows (tb_numbers tb) -> tn_Number tn <> "" ->
  d_TenantNumbers d = ∅ ->
  let once := ReloadData_directory (d, tb) in let twice := ReloadData_directory once.2 in
  let own := List.filter (fun ep => (ep_Type ep =? "number")%string && (ep_TypeID ep =? tn_ID tn))
               (tbl_rows (tb_endpoints tb)) in
  once.1 = true /\ map_list (d_NumberEndpoints once.2.1) (tn_Number tn) = [] /\
  twice.1 = true /\ map_list (d_NumberEndpoints twice.2.1) (tn_Number tn) =
    List.filter (of_number (number_map (tbl_rows (tb_numbers tb))) (tn_Number tn)) (tbl_rows (tb_endpoints tb)) /\
  (forall ep, ep ∈ own -> ep ∈ map_list (d_NumberEndpoints twice.2.1) (tn_Number tn)).
Proof.
  intros Hh Hid Hnd Hin Hne Hempty.
  destruct (reload_pass d tb Hh) as (d1 & tb1 & H1 & Hh1 & Hn1 & He1 & Hm1 & Hne1).
  destruct (reload_pass d1 tb1 Hh1) as (d2 & tb2 & H2 & _ & _ & _ & _ & Hne2).
  simpl. rewrite H1. simpl. rewrite H2. simpl. split; [done|].
  assert (map_list (d_NumberEndpoints d2) (tn_Number tn) =
    List.filter (of_number (number_map (tbl_rows (tb_numbers tb))) (tn_Number tn)) (tbl_rows (tb_endpoints tb))) as Htw
    by (rewrite Hne2, Hm1, He1; done).
  split; [|split; [done|split; [done|]]].
  - rewrite Hne1, Hempty. unfold of_number, number_of_id. rewrite map_to_list_empty. simpl.
    clear. induction (tbl_rows (tb_endpoints tb)) as [|ep l IH]; simpl; [done|]. by rewrite andb_false_r, IH.
  - intros ep Hep. rewrite Htw. apply list_elem_of_In, filter_In in Hep as [Hep Hp].
    apply list_elem_of_In, filter_In. split; [done|]. apply andb_prop in Hp as [Hty Hi]. apply Z.eqb_eq in Hi.
    unfold of_number. rewrite Hty, Hi, number_of_id_map by done. apply str_eqb_refl.
Qed.

End loading_properties.

(** ** Witnesses *)

Definition example_endpoint (id : Z) (ty : string) (tid : Z) (ety v : string) (prio : Z) : Endpoint :=
  {| ep_ID := id; ep_Type := ty; ep_TypeID := tid; ep_EndpointType := ety; ep_Endpoint := v;
     ep_Priority := prio; ep_Bridge := false |}.

Definition example_number (id tenant : Z) (n : string) : TenantNumber :=
  {| tn_ID := id; tn_TenantID := tenant; tn_Number := n; tn_Name := ""; tn_Header := ""; tn_Notify := "" |}.

Definition example_endpoints : list Endpoint :=
  [example_endpoint 1 "tenant" 1 "gateway" "pbx:192.0.2.1" 0;
   example_endpoint 2 "number" 5 "webhook" "https://example.org" 1;
   example_endpoint 3 "global" 0 "gateway" "carrier:198.51.100.1" 0].

Definition example_tables : Tables (ListTable Tenant) (ListTable TenantNumber) (ListTable Endpoint) :=
  {| tb_tenants := fresh_table [{| te_ID := 1; te_Name := "t"; te_Notify := ""; te_Numbers := [] |}] 2 [];
     tb_numbers := fresh_table [example_number 5 1 "5551234567"] 6 [];
     tb_endpoints := fresh_table example_endpoints 4 [] |}.

Definition no_ip (s : string) : bool := false.
Definition no_dns (s : string) : option (list string) := None.

Definition example_directory : Directory :=
  (Start_directory no_ip no_dns (empty_directory, example_tables)).1.

Lemma getTenantByGateway_owner_witness :
  exists t, getTenantByGateway example_directory "pbx" (map_to_list (d_TenantEndpoints example_directory))
      (map_to_list (d_NumberEndpoints example_directory)) = Ok t /\
    exists ep, gateway_matches "pbx" ep = true.
Proof.
  pose proof (getTenantByGateway_owner example_directory "pbx" _ _ (reflexivity _) (reflexivity _)) as H.
  destruct (getTenantByGateway _ _ _ _) as [t|] eqn:E; [|vm_compute in E; discriminate E].
  exists t. split; [reflexivity|]. destruct H as (ep & Hm & _). exists ep. exact Hm.
Defined.

Lemma loadEndpoints_exact_witness :
  d_UpstreamFsGateways (loadEndpoints no_ip no_dns (empty_directory, example_tables)).2.1 = ["carrier"].
Proof.
  destruct (loadEndpoints_exact no_ip no_dns empty_directory example_tables) as (_ & _ & _ & _ & H).
  - repeat split; reflexivity.
  - exact H.
Defined.

Lemma ReloadData_needs_two_passes_witness :
  map_list (d_NumberEndpoints (ReloadData_directory no_ip no_dns (empty_directory, example_tables)).2.1) "5551234567" = [] /\
  map_list (d_NumberEndpoints (ReloadData_directory no_ip no_dns
    (ReloadData_directory no_ip no_dns (empty_directory, example_tables)).2).2.1) "5551234567"
    = [example_endpoint 2 "number" 5 "webhook" "https://example.org" 1].
Proof.
  destruct (ReloadData_needs_two_passes no_ip no_dns empty_directory example_tables
    (example_number 5 1 "5551234567")) as (_ & H1 & _ & H2 & _).
  - repeat split; reflexivity.
  - apply NoDup_singleton.
  - apply NoDup_singleton.
  - vm_compute. left.
  - discriminate.
  - reflexivity.
  - split; [exact H1|]. exact (eq_trans H2 eq_refl).
Defined.
