(* ===== verification/Router.v ===== *)
(** * Router: where a fax goes ([gofaxserver/router.go])

    [routeFax] rewrites the numbers, resolves the tenants, sends a progress
    snapshot and then hands the job to the queue or drops it. The two channel
    sends are its output, in order. *)

From S2P Require Import Prelude Config FaxResult FaxJob Regexp Dialplan Directory.

(** A send on [Queue.QueueFaxResult] or on [Queue.Queue]. *)
Inductive route_msg :=
| Tick (job : FaxJob)
| Enqueue (job : FaxJob).

Definition upstream_endpoint (up : string) : Endpoint :=
  {| ep_ID := 0; ep_Type := "global"; ep_TypeID := 0; ep_EndpointType := "gateway";
     ep_Endpoint := up; ep_Priority := 999; ep_Bridge := false |}.

(** Numbers, tenants and caller identity. *)
Definition resolve_parties (now : Z) (dm : DialplanManager) (d : Directory) (fax : FaxJob) : FaxJob :=
  let srcNum := ApplyTransformationRules dm (fj_CallerIdNumber fax) in
  let dstNum := ApplyTransformationRules dm (fj_CalleeNumber fax) in
  let f1 := fax <| fj_CalleeNumber := dstNum |> <| fj_CallerIdNumber := srcNum |> <| fj_Ts := now |> in
  let f2 :=
    match getTenantByNumber d srcNum with
    | Err _ => f1
    | Ok srcTenant =>
        let g1 := f1 <| fj_SrcTenantID := te_ID srcTenant |> in
        let g2 := match getNumber d srcNum with
                  | Some cid => g1 <| fj_CallerIdName := tn_Name cid |> <| fj_Header := tn_Header cid |>
                  | None => g1 <| fj_Header := fj_CallerIdName g1 |>
                  end in
        g2 <| fj_Identifier := fj_CallerIdNumber g2 |>
    end in
  match getTenantByNumber d dstNum with
  | Err _ => f2
  | Ok dstTenant => f2 <| fj_DstTenantID := te_ID dstTenant |>
  end.

(** What follows the progress tick. *)
Definition route_resolved (d : Directory) (fax : FaxJob) : FaxJob * list route_msg :=
  let send f := (f, [Enqueue f]) in
  let default_routing :=
    match getEndpointsForNumber d (fj_CalleeNumber fax) with
    | Ok ((_ :: _) as endpoints) => send (fax <| fj_Endpoints := endpoints |>)
    | _ =>
        match d_UpstreamFsGateways d with
        | [] =>
            if fj_NotifyOnly fax then send (fax <| fj_Endpoints := [] |>)
            else (fax, [])
        | upstreams => send (fax <| fj_Endpoints := map upstream_endpoint upstreams |>)
        end
    end in
  if (si_SourceType (fj_SourceInfo fax) =? "gateway")%string &&
     contains (d_UpstreamFsGateways d) (si_Source (fj_SourceInfo fax)) then
    match getEndpointsForNumber d (fj_CalleeNumber fax) with
    | Ok endpoints => send (fax <| fj_Endpoints := endpoints |>)
    | Err _ => default_routing
    end
  else default_routing.

Definition routeFax (now : Z) (dm : DialplanManager) (d : Directory) (fax : FaxJob)
  : FaxJob * list route_msg :=
  let f := resolve_parties now dm d fax in
  let '(f', msgs) := route_resolved d f in
  (f', Tick f :: msgs).

Definition checkForBridge (d : Directory) (numberToCheck : string) : res string :=
  match getEndpointsForNumber d numberToCheck with
  | Err e => Err e
  | Ok epList =>
      match List.find (fun ep => ep_Bridge ep && (ep_EndpointType ep =? "gateway")%string) epList with
      | Some ep => Ok (gatewayLabel ep)
      | None => Err "unable to find matching endpoint for number"
      end
  end.

(** The gateway to bridge to, when the call is to be bridged; [order]
    enumerates the endpoint map. *)
Definition detectAndRouteToBridge (d : Directory) (order : list (string * Endpoint))
  (dstNumber srcNumber srcGateway : string) : option string :=
  if contains (d_UpstreamFsGateways d) srcGateway then
    res_option (checkForBridge d dstNumber)
  else
    match getEndpointByName srcGateway order None with
    | Err _ => None
    | Ok ep =>
        if negb (ep_Bridge ep) then None
        else match checkForBridge d dstNumber with
             | Ok bridgeDst => Some bridgeDst
             | Err _ => Some "upstream"
             end
    end.

(** ** Facts *)

(** The transformed callee, the tenants' effect aside. *)
Lemma resolve_parties_frame now dm d fax :
  let f := resolve_parties now dm d fax in
  fj_CalleeNumber f = ApplyTransformationRules dm (fj_CalleeNumber fax) /\
  fj_CallerIdNumber f = ApplyTransformationRules dm (fj_CallerIdNumber fax) /\
  fj_Endpoints f = fj_Endpoints fax /\ fj_NotifyOnly f = fj_NotifyOnly fax /\
  fj_UUID f = fj_UUID fax /\ fj_SourceInfo f = fj_SourceInfo fax.
Proof.
  unfold resolve_parties.
  cbv zeta. repeat (case_match; simpl in *); repeat split.
Qed.

Lemma usable_nonempty d n eps : getEndpointsForNumber d n = Ok eps -> eps <> [].
Proof.
  unfold getEndpointsForNumber. intros H.
  repeat case_match; congruence.
Qed.

(** The gateway endpoints a name lookup can return. *)
Lemma getEndpointByName_elem name order hit ep :
  getEndpointByName name order hit = Ok ep ->
  hit = Some ep \/ exists k, (k, ep) ∈ order /\ (gatewayLabel ep = name \/ str_contains k name = true).
Proof.
  revert hit. induction order as [|[k x] order IH]; intros hit; simpl.
  - destruct hit; [|done]. intros [= ->]. by left.
  - destruct (String.eqb_spec (gatewayLabel x) name) as [Hl|].
    + intros [= ->]. right. exists k. split; [left|by left].
    + intros H. destruct (IH _ H) as [Hh|(k' & ? & ?)]; [|right; exists k'; split; [by right|done]].
      destruct hit as [h|]; [by left|]. destruct (str_contains k name) eqn:E; simplify_eq.
      right. exists k. split; [left|by right].
Qed.

(** An exact name always wins over a substring. *)
Lemma getEndpointByName_exact name order hit :
  (exists e, e ∈ order /\ gatewayLabel e.2 = name) ->
  exists ep k, getEndpointByName name order hit = Ok ep /\ (k, ep) ∈ order /\ gatewayLabel ep = name.
Proof.
  revert hit. induction order as [|[k x] order IH]; intros hit ([k0 e] & Hin & He); [set_solver|]. simpl.
  destruct (String.eqb_spec (gatewayLabel x) name) as [Hl|Hne].
  - exists x, k. split; [done|]. split; [left|done].
  - apply elem_of_cons in Hin as [[= -> ->]|Hin]; [done|].
    destruct (IH (match hit with None => if str_contains k name then Some x else None | Some _ => hit end))
      as (ep & k' & ? & ? & ?); [by exists (k0, e)|].
    exists ep, k'. split; [done|]. split; [by right|done].
Qed.

(** ** Properties *)

(** C6: routing always decides: the snapshot goes out first and shows the job without
    new endpoints; then the job is queued exactly once, for the endpoints of
    the transformed callee when it has usable ones, else for all upstream
    gateways at priority 999, else (notify-only jobs) for none; it is dropped
    only when there are no usable endpoints, no upstreams and nothing to
    notify. *)
Theorem routeFax_decision (now : Z) (dm : DialplanManager) (d : Directory) (fax : FaxJob) :
  let callee := ApplyTransformationRules dm (fj_CalleeNumber fax) in
  let '(f, msgs) := routeFax now dm d fax in
  exists tick rest, msgs = Tick tick :: rest /\ fj_Endpoints tick = fj_Endpoints fax /\
  fj_UUID f = fj_UUID fax /\ fj_CalleeNumber f = callee /\
  (rest = [Enqueue f] \/ rest = []) /\
  match getEndpointsForNumber d callee with
  | Ok eps => rest = [Enqueue f] /\ fj_Endpoints f = eps
  | Err _ =>
      match d_UpstreamFsGateways d with
      | [] => if fj_NotifyOnly fax then rest = [Enqueue f] /\ fj_Endpoints f = [] else rest = []
      | ups => rest = [Enqueue f] /\ fj_Endpoints f = map upstream_endpoint ups
      end
  end.
Proof.
  simpl. unfold routeFax.
  destruct (resolve_parties_frame now dm d fax) as (Hcallee & _ & Heps & Hno & Hid & _).
  set (f := resolve_parties now dm d fax) in *. clearbody f.
  unfold route_resolved. rewrite Hcallee, Hno.
  pose proof (usable_nonempty d (ApplyTransformationRules dm (fj_CalleeNumber fax))) as Hne.
  destruct (_ && _);
    (destruct (getEndpointsForNumber d _) as [[|ep eps]|e]; [by specialize (Hne [] eq_refl)|..]);
    try (destruct (d_UpstreamFsGateways d); [destruct (fj_NotifyOnly fax)|]);
    eexists _, _; (split; [reflexivity|]); split; try done; split; try done; split; try done; auto.
Qed.

(** Bridging follows the configuration whatever order the endpoint map is
    enumerated in: a call is bridged to a gateway only if that is the first
    bridge-enabled gateway among the endpoints the callee is delivered to; a
    call from a carrier is never bridged anywhere else, and a call from another
    gateway only if the endpoint found under that name has bridging on, in
    which case it is always bridged, to the carriers when the callee has no
    bridge of its own. *)
Theorem detectAndRouteToBridge_spec (d : Directory) (order : list (string * Endpoint))
  (dst src gw : string) :
  let callee_bridge g := exists eps ep, getEndpointsForNumber d dst = Ok eps /\
    List.find (fun ep => ep_Bridge ep && (ep_EndpointType ep =? "gateway")%string) eps = Some ep /\
    g = gatewayLabel ep /\ ep_Priority ep <> 666 in
  let source_bridges := exists ep k, (k, ep) ∈ order /\ ep_Bridge ep = true /\
    (gatewayLabel ep = gw \/ str_contains k gw = true) in
  match detectAndRouteToBridge d order dst src gw with
  | Some g =>
      callee_bridge g \/ (g = "upstream" /\ gw ∉ d_UpstreamFsGateways d /\ source_bridges)
  | None =>
      (gw ∈ d_UpstreamFsGateways d -> forall g, ~ callee_bridge g) /\
      (gw ∉ d_UpstreamFsGateways d ->
         (forall e, e ∈ order -> gatewayLabel e.2 = gw -> ep_Bridge e.2 = true) ->
         forall e, e ∈ order -> gatewayLabel e.2 <> gw)
  end.
Proof.
  intros callee_bridge source_bridges.
  assert (forall g, checkForBridge d dst = Ok g <-> callee_bridge g) as Hcheck.
  { intros g. unfold checkForBridge, callee_bridge. pose proof (getEndpointsForNumber_valid d dst) as Hv.
    destruct (getEndpointsForNumber d dst) as [eps|e]; [|naive_solver].
    destruct (List.find _ eps) as [ep|] eqn:E; [|naive_solver]. split; [|naive_solver].
    intros [= <-]. exists eps, ep. repeat split; try done. apply find_some in E as [Hin _].
    apply Hv. by apply list_elem_of_In. }
  unfold detectAndRouteToBridge, contains. destruct (str_mem gw (d_UpstreamFsGateways d)) eqn:Hm.
  - apply str_mem_spec in Hm. destruct (checkForBridge d dst) as [g|e]; simpl.
    + left. by apply Hcheck.
    + split; [|done]. intros _ g Hg. by apply Hcheck in Hg.
  - assert (gw ∉ d_UpstreamFsGateways d) as Hnm by (rewrite <- str_mem_spec; congruence).
    pose proof (getEndpointByName_elem gw order None) as Helem.
    pose proof (getEndpointByName_exact gw order None) as Hexact.
    destruct (getEndpointByName gw order None) as [ep|e].
    + destruct (Helem ep eq_refl) as [?|(k & Hin & Hk)]; [done|].
      destruct (ep_Bridge ep) eqn:Hb; simpl.
      * destruct (checkForBridge d dst) as [g|e'] eqn:Ec; [left; by apply Hcheck|].
        right. split; [done|]. split; [done|]. exists ep, k. done.
      * split; [done|]. intros _ Hall e He Hl.
        destruct Hexact as (ep' & k' & [= <-] & Hin' & Hl'); [by exists e|].
        specialize (Hall (k', ep) Hin' Hl'). simpl in Hall. congruence.
    + split; [done|]. intros _ _ e' He' Hl. destruct Hexact as (? & ? & ? & ?); [by exists e'|done].
Qed.
