(* ===== verification/Notify.v ===== *)
(** * Notify: who is told about a finished fax ([gofaxserver/notify.go], first half)

    A number and a tenant each carry a notify string, a comma-separated list of
    [type->destination] segments. This file models the parser, and the
    resolution of a finished job's destinations from the two sides of the call.
    What is done with each destination is in [NotifyDispatch]. *)

From S2P Require Import Prelude FaxJob Directory.

Record NotifyDestination := { nd_Type : string; nd_Destination : string }.

#[export] Instance notify_destination_eq_dec : EqDecision NotifyDestination.
Proof. solve_decision. Defined.

(** ** Parsing *)

(** [\s] of a Go regular expression, and [a-zA-Z_]. *)
Definition re_space (c : ascii) : bool := is_space c && negb (Nat.eqb (ascii_nat c) 11).

Definition name_char (c : ascii) : bool :=
  let n := ascii_nat c in
  (Nat.leb 65 n && Nat.leb n 90) || (Nat.leb 97 n && Nat.leb n 122) || Nat.eqb n 95.

Fixpoint drop_chars (P : ascii -> bool) (s : string) : string :=
  match s with
  | EmptyString => EmptyString
  | String c s' => if P c then drop_chars P s' else s
  end.

Definition arrow : string := "->".

(** [notifySegmentStart]: the three character classes are disjoint, so greedy
    matching never has to give anything back. *)
Definition notifySegmentStart (s : string) : bool :=
  match drop_chars re_space s with
  | String c s' => name_char c && has_prefix (drop_chars re_space (drop_chars name_char s')) arrow
  | EmptyString => false
  end.

Definition comma : ascii := ",".

Fixpoint splitNotifySegments (notify : string) : list string :=
  match notify with
  | EmptyString => [EmptyString]
  | String c rest =>
      if Ascii.eqb c comma && notifySegmentStart rest then EmptyString :: splitNotifySegments rest
      else match splitNotifySegments rest with
           | w :: ws => String c w :: ws
           | [] => [String c EmptyString]
           end
  end.

(** [strings.SplitN(s, "->", 2)]: the two parts, when there is an arrow. *)
Fixpoint cut_arrow (s : string) : option (string * string) :=
  match s with
  | EmptyString => None
  | String c s' =>
      if has_prefix s arrow
      then Some (EmptyString, match s' with String _ rest => rest | EmptyString => EmptyString end)
      else match cut_arrow s' with Some (a, b) => Some (String c a, b) | None => None end
  end.

(** One segment: nothing, a destination, or a skipped segment. *)
Definition parse_segment (segment : string) : option (string + NotifyDestination) :=
  let segment := trim_space segment in
  if (segment =? "")%string then None
  else match cut_arrow segment with
       | None => Some (inl segment)
       | Some (a, b) =>
           let destType := trim_space a in
           let destValue := trim_space b in
           if (destType =? "")%string || (destValue =? "")%string then Some (inl segment)
           else
             let destType := if (destType =? "email")%string then "email_report" else destType in
             Some (inr {| nd_Type := destType; nd_Destination := destValue |})
       end.

Definition collect_segment (acc : list NotifyDestination * list string) (segment : string)
  : list NotifyDestination * list string :=
  match parse_segment segment with
  | None => acc
  | Some (inl skipped) => (acc.1, acc.2 ++ [skipped])
  | Some (inr d) => (acc.1 ++ [d], acc.2)
  end.

(** The destinations, and the segments that were skipped. *)
Definition parseNotifyString (notify : string) : list NotifyDestination * list string :=
  foldl collect_segment ([], []) (splitNotifySegments notify).

(** ** Recipients *)

Definition recipient_sep (c : ascii) : bool := Ascii.eqb c ";" || Ascii.eqb c comma.

Definition splitEmailRecipients (dest : string) : list string :=
  List.filter nonempty (map trim_space (fields_func recipient_sep dest)).

(** ** Resolution *)

Definition usable (notify : string) : list NotifyDestination := (parseNotifyString notify).1.

(** [resolveSide]: the number's destinations, then its tenant's. *)
Definition resolveSide (d : Directory) (tenantID : Z) (number : string) : list NotifyDestination :=
  (match getNumber d number with
   | Some tn => if (tn_Notify tn =? "")%string then [] else usable (tn_Notify tn)
   | None => []
   end) ++
  (match d_Tenants d !! tenantID with
   | Some t => if (te_Notify t =? "")%string then [] else usable (te_Notify t)
   | None => []
   end).

Definition notify_key (d : NotifyDestination) : string := nd_Type d +:+ arrow +:+ nd_Destination d.

(** The first destination of every key. *)
Fixpoint dedup_keys (seen : list string) (l : list NotifyDestination) : list NotifyDestination :=
  match l with
  | [] => []
  | d :: l' => if str_mem (notify_key d) seen then dedup_keys seen l'
               else d :: dedup_keys (notify_key d :: seen) l'
  end.

Definition full_recipients (l : list NotifyDestination) : list string :=
  flat_map (fun d => if (nd_Type d =? "email_full")%string
                     then map to_lower (splitEmailRecipients (nd_Destination d)) else []) l.

Definition is_report (d : NotifyDestination) : bool :=
  (nd_Type d =? "email_report")%string || (nd_Type d =? "email")%string.

Definition override_step (full : list string) (d : NotifyDestination) : list NotifyDestination :=
  if negb (is_report d) then [d]
  else
    match List.filter (fun r => negb (str_mem (to_lower r) full)) (splitEmailRecipients (nd_Destination d)) with
    | [] => []
    | kept => [d <| nd_Destination := str_join ";" kept |>]
    end.

Definition full_override (l : list NotifyDestination) : list NotifyDestination :=
  let full := full_recipients l in
  match full with [] => l | _ => flat_map (override_step full) l end.

Definition resolved (d : Directory) (f : FaxJob) : list NotifyDestination :=
  resolveSide d (fj_SrcTenantID f) (fj_CallerIdNumber f) ++
  resolveSide d (fj_DstTenantID f) (fj_CalleeNumber f).

Definition processNotifyDestinations (d : Directory) (f : FaxJob) : list NotifyDestination :=
  let deduped := full_override (dedup_keys [] (resolved d f)) in
  if fj_IsBridge f then [] else deduped.

(** ** Trimming and splitting *)

Definition no_lead (s : string) : Prop := match s with String c _ => is_space c = false | _ => True end.

Lemma trim_left_no_lead s : no_lead (trim_left s).
Proof. induction s as [|c s IH]; simpl; [done|]. destruct (is_space c) eqn:E; simpl; auto. Qed.

Lemma trim_left_id s : no_lead s -> trim_left s = s.
Proof. destruct s as [|c s]; simpl; [done|]. by intros ->. Qed.

Lemma trim_right_cons c s : trim_right (String c s) =
  match trim_right s with
  | EmptyString => if is_space c then EmptyString else String c EmptyString
  | t => String c t
  end.
Proof. reflexivity. Qed.

Lemma trim_right_no_lead s : no_lead s -> no_lead (trim_right s).
Proof.
  destruct s as [|c s]; [done|]. intros H. rewrite trim_right_cons. simpl in H.
  destruct (trim_right s); rewrite ?H; done.
Qed.

Lemma trim_right_idem s : trim_right (trim_right s) = trim_right s.
Proof.
  induction s as [|c s IH]; [done|]. rewrite trim_right_cons.
  destruct (trim_right s) as [|d t] eqn:E.
  - destruct (is_space c) eqn:Ec; [done|]. simpl. by rewrite Ec.
  - rewrite trim_right_cons, IH. done.
Qed.

Lemma trim_space_idem s : trim_space (trim_space s) = trim_space s.
Proof.
  unfold trim_space. rewrite (trim_left_id (trim_right _)), trim_right_idem; [done|].
  apply trim_right_no_lead, trim_left_no_lead.
Qed.

(** What it takes for a string to survive [trim_space]. *)
Lemma trimmed_spec s : trim_space s = s <-> no_lead s /\ trim_right s = s.
Proof.
  split.
  - intros H. assert (no_lead s) as Hl.
    { rewrite <- H. apply trim_right_no_lead, trim_left_no_lead. }
    split; [done|]. unfold trim_space in H. by rewrite trim_left_id in H.
  - intros [Hl Hr]. unfold trim_space. by rewrite trim_left_id.
Qed.

Lemma trim_right_app a b : trim_right b <> EmptyString -> trim_right (a +:+ b) = a +:+ trim_right b.
Proof.
  intros H. induction a as [|c a IH]; [done|]. rewrite !str_app_cons, trim_right_cons, IH.
  destruct a as [|d a]; simpl; [|done].
  destruct (trim_right b); done.
Qed.

Lemma str_forall_trim_left P s : str_forall P s = true -> str_forall P (trim_left s) = true.
Proof.
  induction s as [|c s IH]; simpl; [done|]. intros [Hc Hs]%andb_prop.
  destruct (is_space c); [auto|]. simpl. by rewrite Hc, Hs.
Qed.

Lemma str_forall_trim_right P s : str_forall P s = true -> str_forall P (trim_right s) = true.
Proof.
  induction s as [|c s IH]; [done|]. rewrite trim_right_cons. simpl. intros [Hc Hs]%andb_prop.
  specialize (IH Hs). destruct (trim_right s).
  - destruct (is_space c); simpl; by rewrite ?Hc.
  - simpl in *. by rewrite Hc.
Qed.

Lemma str_forall_trim P s : str_forall P s = true -> str_forall P (trim_space s) = true.
Proof. intros. by apply str_forall_trim_right, str_forall_trim_left. Qed.

Lemma split_on_cons P s : split_on P s <> [].
Proof. destruct s as [|c s]; simpl; [done|]. destruct (P c); [done|]. by destruct (split_on P s). Qed.

Lemma split_on_tokens P s : Forall (fun w => str_forall (fun c => negb (P c)) w = true) (split_on P s).
Proof.
  induction s as [|c s IH]; simpl; [by repeat constructor|].
  destruct (P c) eqn:E; [by constructor|].
  destruct (split_on P s) as [|w ws]; [by constructor; [simpl; rewrite E|]|].
  inversion IH; subst. constructor; [|done]. simpl. rewrite E. by apply andb_true_intro.
Qed.

(** [splitEmailRecipients] yields non-empty trimmed tokens without separators,
    and gives back any list of such tokens that was joined. *)
Definition is_token (r : string) : Prop :=
  r <> "" /\ trim_space r = r /\ str_forall (fun c => negb (recipient_sep c)) r = true.

Lemma splitEmailRecipients_tokens dest : Forall is_token (splitEmailRecipients dest).
Proof.
  unfold splitEmailRecipients, fields_func. apply Forall_forall. intros r Hr.
  rewrite list_elem_of_In, filter_In, in_map_iff in Hr. destruct Hr as ((w & <- & Hw) & Hne).
  apply filter_In in Hw as [Hw _]. apply list_elem_of_In in Hw.
  pose proof (proj1 (Forall_forall _ _) (split_on_tokens recipient_sep dest) _ Hw) as Hf. simpl in Hf.
  unfold is_token. repeat split.
  - intros E. unfold nonempty in Hne. by rewrite E in Hne.
  - apply trim_space_idem.
  - by apply str_forall_trim.
Qed.

Lemma split_on_token P r : str_forall (fun c => negb (P c)) r = true -> split_on P r = [r].
Proof.
  induction r as [|c r IH]; simpl; [done|]. intros [Hc Hr]%andb_prop.
  apply negb_true_iff in Hc. by rewrite Hc, IH.
Qed.

Lemma split_on_app P r c s : str_forall (fun c => negb (P c)) r = true -> P c = true ->
  split_on P (r +:+ String c s) = r :: split_on P s.
Proof.
  intros Hr Hc. induction r as [|x r IH]; [simpl; by rewrite Hc|].
  simpl in Hr. apply andb_prop in Hr as [Hx Hr]. apply negb_true_iff in Hx.
  rewrite str_app_cons. simpl. by rewrite Hx, IH.
Qed.

Lemma splitEmailRecipients_join kept : Forall is_token kept ->
  splitEmailRecipients (str_join ";" kept) = kept.
Proof.
  intros H. unfold splitEmailRecipients, fields_func.
  destruct (decide (kept = [])) as [->|Hne]; [done|].
  assert (split_on recipient_sep (str_join ";" kept) = kept) as ->.
  { induction kept as [|r [|r2 kept] IH]; [done| |].
    - inversion H as [|? ? (? & ? & Hr)]; subst. by apply split_on_token.
    - inversion H as [|? ? (? & ? & Hr)]; subst.
      change (str_join ";" (r :: r2 :: kept)) with (r +:+ String ";" (str_join ";" (r2 :: kept))).
      rewrite split_on_app by done. f_equal. by apply IH. }
  assert (List.filter nonempty kept = kept /\ map trim_space kept = kept) as [-> ->].
  { clear Hne. induction H as [|r l (Hr & Ht & _) _ [IH1 IH2]]; [done|]. simpl.
    assert (nonempty r = true) as -> by (unfold nonempty; by apply negb_true_iff, String.eqb_neq).
    by rewrite IH1, IH2, Ht. }
  clear Hne. induction H as [|r l (Hr & _ & _) _ IH]; [done|]. simpl.
  assert (nonempty r = true) as -> by (unfold nonempty; by apply negb_true_iff, String.eqb_neq).
  by rewrite IH.
Qed.

(** ** Arrows and segments *)

Lemma drop_chars_app P a c b : P c = false ->
  drop_chars P (a +:+ String c b) = drop_chars P a +:+ String c b.
Proof.
  intros Hc. induction a as [|x a IH]; [simpl; by rewrite Hc|].
  rewrite str_app_cons. simpl. by destruct (P x).
Qed.

Lemma has_arrow_app a c b : Ascii.eqb c ">" = false -> Ascii.eqb c "-" = false ->
  has_prefix (a +:+ String c b) arrow = has_prefix a arrow.
Proof.
  rewrite (Ascii.eqb_sym c ">"), (Ascii.eqb_sym c "-"). intros Hg Hm. unfold arrow.
  destruct a as [|x [|y a]]; rewrite ?str_app_cons, ?str_app_nil, ?has_prefix_cons, ?Hg, ?Hm,
    ?has_prefix_nil; simpl; rewrite ?andb_false_r; done.
Qed.

(** Whether a segment starts is decided before the next comma. *)
Lemma segment_start_app a b : notifySegmentStart (a +:+ String comma b) = notifySegmentStart a.
Proof.
  unfold notifySegmentStart. rewrite drop_chars_app by done.
  destruct (drop_chars re_space a) as [|c a']; [done|].
  rewrite str_app_cons. f_equal. rewrite !drop_chars_app by done. by apply has_arrow_app.
Qed.

Lemma splitNotifySegments_nonempty s : splitNotifySegments s <> [].
Proof.
  destruct s as [|c s]; simpl; [done|]. destruct (_ && _); [done|]. by destruct (splitNotifySegments s).
Qed.

(** A string that is one segment, followed by a comma and another segment. *)
Lemma splitNotifySegments_app a b :
  splitNotifySegments a = [a] -> notifySegmentStart b = true ->
  splitNotifySegments (a +:+ String comma b) = a :: splitNotifySegments b.
Proof.
  intros Ha Hb. induction a as [|c a IH].
  - simpl. by rewrite Hb.
  - rewrite str_app_cons. cbn [splitNotifySegments] in *. rewrite segment_start_app.
    destruct (Ascii.eqb c comma && notifySegmentStart a).
    { pose proof (splitNotifySegments_nonempty a). injection Ha as _ ?. done. }
    pose proof (splitNotifySegments_nonempty a) as Hne.
    destruct (splitNotifySegments a) as [|w ws]; [done|].
    injection Ha as -> ->. by rewrite IH.
Qed.

(** Joining the segments gives the string back: nothing is lost in splitting. *)
Lemma splitNotifySegments_join s : str_join "," (splitNotifySegments s) = s.
Proof.
  induction s as [|c s IH]; [done|]. cbn [splitNotifySegments].
  pose proof (splitNotifySegments_nonempty s) as Hne.
  destruct (Ascii.eqb c comma && notifySegmentStart s) eqn:E.
  - apply andb_prop in E as [->%Ascii.eqb_eq _].
    destruct (splitNotifySegments s) as [|w ws]; [done|]. simpl in *. by rewrite IH.
  - rewrite <- IH at 2. by destruct (splitNotifySegments s) as [|w [|w2 ws]].
Qed.

Lemma cut_arrow_spec s a b : cut_arrow s = Some (a, b) -> s = a +:+ arrow +:+ b /\ cut_arrow a = None.
Proof.
  revert a b. induction s as [|c s IH]; intros a b H; [done|].
  cbn [cut_arrow] in H. destruct (has_prefix (String c s) arrow) eqn:Hp.
  - injection H as <- <-. apply has_prefix_spec in Hp as [t Ht]. injection Ht as -> ->. done.
  - destruct (cut_arrow s) as [[a' b']|] eqn:Hs; [|done]. injection H as <- <-.
    destruct (IH _ _ eq_refl) as [-> Ha]. split; [done|].
    cbn [cut_arrow]. rewrite Ha. destruct (has_prefix (String c a') arrow) eqn:Hp'; [|done].
    apply has_prefix_spec in Hp' as [t Ht]. simpl in Ht. injection Ht as -> ->.
    assert (has_prefix (String "-" ((">" +:+ t) +:+ arrow +:+ b')) arrow = true) as Ht; [|congruence].
    apply has_prefix_spec. by exists (t +:+ arrow +:+ b').
Qed.

Lemma cut_arrow_key a b : cut_arrow a = None -> cut_arrow (a +:+ arrow +:+ b) = Some (a, b).
Proof.
  induction a as [|c a IH]; intros H; [by destruct b|].
  rewrite str_app_cons. cbn [cut_arrow] in *.
  destruct (has_prefix (String c a) arrow) eqn:Hp; [done|].
  destruct (cut_arrow a) as [[? ?]|] eqn:Ha; [done|]. rewrite IH by done.
  destruct (has_prefix (String c (a +:+ arrow +:+ b)) arrow) eqn:Hp'; [|done].
  apply has_prefix_spec in Hp' as [t Ht]. destruct a as [|x a]; [discriminate Ht|].
  injection Ht as -> -> _. exfalso. apply not_true_iff_false in Hp. apply Hp, has_prefix_spec. by exists a.
Qed.

Lemma cut_arrow_trim_left s : cut_arrow s = None -> cut_arrow (trim_left s) = None.
Proof.
  induction s as [|c s IH]; [done|]. intros H. cbn [cut_arrow] in H. simpl.
  destruct (has_prefix (String c s) arrow) eqn:Hp; [done|].
  destruct (cut_arrow s) as [[? ?]|] eqn:Hs; [done|].
  destruct (is_space c); [auto|]. cbn [cut_arrow]. by rewrite Hp, Hs.
Qed.

Lemma cut_arrow_none_prefix a b : cut_arrow (a +:+ b) = None -> cut_arrow a = None.
Proof.
  intros H. destruct (cut_arrow a) as [[x y]|] eqn:E; [|done]. exfalso.
  apply cut_arrow_spec in E as [-> Hx]. rewrite !str_app_assoc, cut_arrow_key in H; done.
Qed.

Lemma trim_right_prefix s : exists t, s = trim_right s +:+ t.
Proof.
  induction s as [|c s [t IH]]; [by exists ""|]. rewrite trim_right_cons.
  destruct (trim_right s) as [|d u].
  - destruct (is_space c); [by exists (String c s)|]. by exists s.
  - exists t. rewrite str_app_cons. by rewrite <- IH.
Qed.

Lemma cut_arrow_trim s : cut_arrow s = None -> cut_arrow (trim_space s) = None.
Proof.
  intros H%cut_arrow_trim_left. unfold trim_space.
  destruct (trim_right_prefix (trim_left s)) as [t Ht]. rewrite Ht in H.
  by eapply cut_arrow_none_prefix.
Qed.

(** ** Printing and parsing notify strings *)

(** A text that reads as the opening of a segment: blanks, a name, blanks, an
    arrow. This is the grammar, stated without the scanner. *)
Definition opens_segment (s : string) : Prop :=
  exists before name after rest, s = before +:+ name +:+ after +:+ "->" +:+ rest /\
    str_forall re_space before = true /\ name <> "" /\ str_forall name_char name = true /\
    str_forall re_space after = true.

(** A destination that can be told from its neighbours: its type is a name, its
    value is trimmed and not empty, and none of its commas is followed by the
    opening of another segment. Any other comma is allowed. *)
Definition well_formed (d : NotifyDestination) : Prop :=
  nd_Type d <> "" /\ nd_Type d <> "email" /\ str_forall name_char (nd_Type d) = true /\
  nd_Destination d <> "" /\ trim_space (nd_Destination d) = nd_Destination d /\
  (forall a b, nd_Destination d = a +:+ "," +:+ b -> ~ opens_segment b).

(** The scanner recognises that grammar. *)
Lemma drop_chars_split P s : exists a, s = a +:+ drop_chars P s /\ str_forall P a = true.
Proof.
  induction s as [|c s (a & IH & Ha)]; [by exists ""|]. cbn [drop_chars]. destruct (P c) eqn:E; [|by exists ""].
  exists (String c a). rewrite str_app_cons. cbn [str_forall]. rewrite E, <- IH. done.
Qed.

Lemma drop_chars_prefix P a b : str_forall P a = true -> drop_chars P (a +:+ b) = drop_chars P b.
Proof. induction a as [|c a IH]; [done|]. rewrite str_app_cons. cbn [str_forall drop_chars]. intros [-> H]%andb_prop. by apply IH. Qed.

Lemma name_stops c : name_char c = true -> re_space c = false.
Proof. destruct c as [[] [] [] [] [] [] [] []]; by vm_compute. Qed.

Lemma space_not_name c : re_space c = true -> name_char c = false.
Proof. destruct c as [[] [] [] [] [] [] [] []]; by vm_compute. Qed.

Lemma notifySegmentStart_opens s : notifySegmentStart s = true -> opens_segment s.
Proof.
  unfold notifySegmentStart. destruct (drop_chars_split re_space s) as (before & Hs & Hb).
  destruct (drop_chars re_space s) as [|c s']; [done|]. intros [Hc Hp]%andb_prop.
  destruct (drop_chars_split name_char s') as (name & Hn & Hname).
  destruct (drop_chars_split re_space (drop_chars name_char s')) as (after & Ha & Hafter).
  apply has_prefix_spec in Hp as [rest Hr].
  exists before, (String c name), after, rest. split_and!; [|done|done|by cbn [str_forall]; rewrite Hc|done].
  rewrite Hs. f_equal. rewrite str_app_cons. f_equal. rewrite Hn at 1. f_equal. rewrite Ha at 1. f_equal. exact Hr.
Qed.

Lemma opens_notifySegmentStart s : opens_segment s -> notifySegmentStart s = true.
Proof.
  intros (before & name & after & rest & -> & Hb & Hn & Hname & Ha). unfold notifySegmentStart.
  rewrite drop_chars_prefix by done. destruct name as [|c name]; [done|]. cbn [str_forall] in Hname.
  apply andb_prop in Hname as [Hc Hname]. rewrite str_app_cons. cbn [drop_chars]. rewrite (name_stops c Hc), Hc. cbn [andb].
  rewrite drop_chars_prefix by done.
  assert (drop_chars name_char (after +:+ "->" +:+ rest) = after +:+ "->" +:+ rest) as ->.
  { destruct after as [|x after]; [done|]. cbn [str_forall] in Ha. apply andb_prop in Ha as [Hx _].
    rewrite str_app_cons. cbn [drop_chars]. by rewrite (space_not_name x Hx). }
  rewrite drop_chars_prefix by done. apply has_prefix_spec. by exists rest.
Qed.

(** A value without such a comma is one segment, and conversely. *)
Lemma unsplit_one_segment v : (forall a b, v = a +:+ "," +:+ b -> ~ opens_segment b) -> splitNotifySegments v = [v].
Proof.
  induction v as [|c v IH]; [done|]. intros H. cbn [splitNotifySegments].
  destruct (Ascii.eqb c comma && notifySegmentStart v) eqn:E.
  - apply andb_prop in E as [->%Ascii.eqb_eq Hs%notifySegmentStart_opens]. by destruct (H "" v eq_refl).
  - rewrite IH; [done|]. intros a b ->. by apply (H (String c a) b).
Qed.

Lemma one_segment_unsplit v : splitNotifySegments v = [v] -> forall a b, v = a +:+ "," +:+ b -> ~ opens_segment b.
Proof.
  intros Hv a b -> Hb%opens_notifySegmentStart. revert Hv. change ("," +:+ b) with (String comma b).
  assert (exists w ws, splitNotifySegments (a +:+ String comma b) = w :: ws /\ ws <> []) as (w & ws & -> & Hne).
  2: { by intros [= _ ->]. }
  induction a as [|c a (w & ws & Ha & Hne)].
  - rewrite str_app_nil. cbn [splitNotifySegments]. rewrite Hb. eexists _, _. split; [done|].
    intros E. by destruct (splitNotifySegments_nonempty b).
  - rewrite str_app_cons. cbn [splitNotifySegments]. rewrite Ha. destruct (_ && _); eauto.
Qed.

Definition print_notify (ds : list NotifyDestination) : string := str_join "," (map notify_key ds).

Lemma name_not_space c : name_char c = true -> is_space c = false /\ re_space c = false /\
  Ascii.eqb c comma = false /\ Ascii.eqb c "-" = false.
Proof. destruct c as [[] [] [] [] [] [] [] []]; by vm_compute. Qed.

Lemma names_kept t b : str_forall name_char t = true -> drop_chars name_char (t +:+ String "-" b) = String "-" b.
Proof.
  induction t as [|c t IH]; [done|]. simpl. intros [Hc Ht]%andb_prop.
  rewrite Hc. by apply IH.
Qed.

Lemma key_segment_start d : well_formed d -> notifySegmentStart (notify_key d) = true.
Proof.
  intros (Hne & _ & Hn & _). unfold notifySegmentStart, notify_key.
  destruct (nd_Type d) as [|c t]; [done|]. simpl in Hn. apply andb_prop in Hn as [Hc Ht].
  rewrite str_app_cons. cbn [drop_chars].
  destruct (name_not_space _ Hc) as (_ & -> & _). rewrite Hc. simpl.
  change (arrow +:+ nd_Destination d) with (String "-" (String ">" (nd_Destination d))).
  rewrite names_kept by done. apply has_prefix_spec. by exists (nd_Destination d).
Qed.

Lemma splitNotifySegments_prefix t b :
  str_forall (fun c => negb (Ascii.eqb c comma)) t = true -> splitNotifySegments b = [b] ->
  splitNotifySegments (t +:+ b) = [t +:+ b].
Proof.
  intros Ht Hb. induction t as [|c t IH]; [done|]. simpl in Ht. apply andb_prop in Ht as [Hc Ht].
  apply negb_true_iff in Hc. rewrite str_app_cons. cbn [splitNotifySegments]. by rewrite Hc, IH.
Qed.

Lemma str_forall_impl (P Q : ascii -> bool) s : (forall c, P c = true -> Q c = true) ->
  str_forall P s = true -> str_forall Q s = true.
Proof. intros H. induction s as [|c s IH]; simpl; [done|]. intros [? ?]%andb_prop. rewrite H, IH; done. Qed.

Lemma key_one_segment d : well_formed d -> splitNotifySegments (notify_key d) = [notify_key d].
Proof.
  intros (_ & _ & Hn & _ & _ & Hs%unsplit_one_segment). unfold notify_key.
  apply splitNotifySegments_prefix; [|by apply splitNotifySegments_prefix].
  eapply str_forall_impl; [|done]. intros c Hc. by destruct (name_not_space _ Hc) as (_ & _ & -> & _).
Qed.

Lemma no_space_trimmed s : str_forall (fun c => negb (is_space c)) s = true -> trim_space s = s.
Proof.
  intros H. apply trimmed_spec. split.
  - destruct s; simpl in *; [done|]. apply andb_prop in H as [H _]. by apply negb_true_iff.
  - induction s as [|c s IH]; [done|]. simpl in H. apply andb_prop in H as [Hc Hs].
    rewrite trim_right_cons, IH by done. apply negb_true_iff in Hc. rewrite Hc. by destruct s.
Qed.

Lemma key_trimmed d : well_formed d -> trim_space (notify_key d) = notify_key d.
Proof.
  intros (Hne & _ & Hn & Hd & Ht & _). apply trimmed_spec in Ht as [_ Hr]. apply trimmed_spec.
  unfold notify_key. split.
  - destruct (nd_Type d) as [|c t]; [done|]. simpl in *. apply andb_prop in Hn as [Hc _].
    by apply name_not_space.
  - rewrite <- str_app_assoc, trim_right_app; rewrite Hr; done.
Qed.

Lemma names_no_arrow t : str_forall name_char t = true -> cut_arrow t = None.
Proof.
  induction t as [|c t IH]; [done|]. cbn [str_forall cut_arrow]. intros [Hc Ht]%andb_prop. rewrite IH by done.
  destruct (name_not_space _ Hc) as (_ & _ & _ & Hm).
  unfold arrow. by rewrite has_prefix_cons, Ascii.eqb_sym, Hm.
Qed.

Lemma parse_key d : well_formed d -> parse_segment (notify_key d) = Some (inr d).
Proof.
  intros Hw. pose proof Hw as (Hne & Hem & Hn & Hd & Ht & _). unfold parse_segment.
  rewrite key_trimmed by done.
  assert ((notify_key d =? "")%string = false) as ->.
  { unfold notify_key. by destruct (nd_Type d). }
  unfold notify_key. rewrite cut_arrow_key by (by apply names_no_arrow).
  rewrite (no_space_trimmed (nd_Type d)).
  2: { eapply str_forall_impl; [|done]. intros c Hc. by destruct (name_not_space _ Hc) as (-> & _). }
  rewrite Ht. apply String.eqb_neq in Hne, Hem, Hd. rewrite Hne, Hd, Hem. simpl. by destruct d.
Qed.

Lemma print_notify_split ds : ds <> [] -> Forall well_formed ds ->
  splitNotifySegments (print_notify ds) = map notify_key ds.
Proof.
  unfold print_notify. intros Hne H. induction H as [|d l Hd Hl IH]; [done|].
  destruct l as [|d2 l]; [by apply key_one_segment|].
  cbn [map]. change (str_join "," (?x :: ?y :: ?l)) with (x +:+ String comma (str_join "," (y :: l))).
  rewrite splitNotifySegments_app; [f_equal; by apply IH|by apply key_one_segment|].
  inversion Hl as [|? ? Hd2 Hl2]; subst. pose proof (key_segment_start _ Hd2) as Hs.
  destruct l as [|d3 l]; [done|]. simpl.
  rewrite <- (segment_start_app _ (str_join "," (map notify_key (d3 :: l)))) in Hs. done.
Qed.

Lemma collect_all (segs : list string) acc :
  foldl collect_segment acc segs =
    (acc.1 ++ omap (fun s => match parse_segment s with Some (inr d) => Some d | _ => None end) segs,
     acc.2 ++ omap (fun s => match parse_segment s with Some (inl x) => Some x | _ => None end) segs).
Proof.
  revert acc. induction segs as [|s segs IH]; intros [ds sk]; simpl; [by rewrite !app_nil_r|].
  rewrite IH. unfold collect_segment. destruct (parse_segment s) as [[x|d]|]; simpl; by rewrite <- ?app_assoc.
Qed.

Lemma print_notify_parses ds : Forall well_formed ds -> parseNotifyString (print_notify ds) = (ds, []).
Proof.
  intros H. unfold parseNotifyString. destruct (decide (ds = [])) as [->|Hne]; [reflexivity|].
  rewrite print_notify_split, collect_all by done. simpl. clear Hne.
  f_equal; induction H as [|d l Hd _ IH]; [done| |done|]; simpl; rewrite parse_key by done;
    [f_equal|]; exact IH.
Qed.

(** C11: a notify string printed from well-formed destinations parses back
    to exactly those destinations, in order, with nothing skipped. Well-formed
    is stated by the grammar, not by the scanner: the type is a name other than
    the old [email], the value is trimmed and not empty, and no comma in it is
    followed by what opens another segment (blanks, a name, blanks, an arrow).
    Any other comma in a value, such as one in a URL's query, never splits it. *)
Theorem parseNotifyString_print ds :
  Forall well_formed ds -> parseNotifyString (print_notify ds) = (ds, []).
Proof. apply print_notify_parses. Qed.

(** ** Resolution *)

(** What the parser produces: a type without an arrow. *)
Definition arrow_free (d : NotifyDestination) : Prop := cut_arrow (nd_Type d) = None.

Lemma parse_segment_arrow_free s d : parse_segment s = Some (inr d) -> arrow_free d.
Proof.
  unfold parse_segment, arrow_free. intros H.
  destruct (_ =? "")%string; [done|].
  destruct (cut_arrow (trim_space s)) as [[a b]|] eqn:E; [|done].
  destruct (_ || _); [done|]. injection H as <-. simpl.
  apply cut_arrow_spec in E as [_ Ha]. destruct (_ =? "email")%string; [done|].
  by apply cut_arrow_trim.
Qed.

Lemma usable_arrow_free notify : Forall arrow_free (usable notify).
Proof.
  unfold usable, parseNotifyString. rewrite collect_all. simpl. apply Forall_forall.
  intros d (s & _ & Hs)%list_elem_of_omap. apply parse_segment_arrow_free with s.
  destruct (parse_segment s) as [[x|d']|]; congruence.
Qed.

Lemma resolveSide_arrow_free dir tenant number : Forall arrow_free (resolveSide dir tenant number).
Proof.
  unfold resolveSide. apply Forall_app_2.
  - destruct (getNumber dir number); [|done]. destruct (_ =? "")%string; [done|]. apply usable_arrow_free.
  - destruct (d_Tenants dir !! tenant); [|done]. destruct (_ =? "")%string; [done|]. apply usable_arrow_free.
Qed.

Lemma resolved_arrow_free d f : Forall arrow_free (resolved d f).
Proof. apply Forall_app_2; apply resolveSide_arrow_free. Qed.

(** On such destinations the key determines the destination. *)
Lemma notify_key_inj x y : arrow_free x -> arrow_free y -> notify_key x = notify_key y -> x = y.
Proof.
  unfold arrow_free, notify_key. intros Hx Hy H.
  pose proof (cut_arrow_key _ (nd_Destination x) Hx) as Ex. rewrite H, cut_arrow_key in Ex by done.
  destruct x, y; simpl in *. congruence.
Qed.

Lemma dedup_keys_spec seen l : Forall arrow_free l -> forall x, arrow_free x ->
  x ∈ dedup_keys seen l <-> x ∈ l /\ notify_key x ∉ seen.
Proof.
  revert seen. induction l as [|d l IH]; intros seen Hl x Hx; simpl; [set_solver|].
  inversion Hl as [|? ? Hd Hl']; subst.
  destruct (str_mem (notify_key d) seen) eqn:E; [apply str_mem_spec in E|].
  - rewrite IH, elem_of_cons by done. split; [tauto|]. intros [[->|?] ?]; done.
  - assert (notify_key d ∉ seen) as Hns by (intros H%str_mem_spec; congruence).
    rewrite !elem_of_cons, IH, elem_of_cons by done. split.
    + intros [->|[? ?]]; tauto.
    + intros [[->|Hin] ?]; [tauto|]. destruct (decide (x = d)) as [->|Hne]; [tauto|].
      right. split; [done|]. intros [Hk|?]; [|done]. by apply notify_key_inj in Hk.
Qed.

Lemma dedup_keys_nodup seen l : NoDup (map notify_key (dedup_keys seen l)) /\
  Forall (fun k => k ∉ seen) (map notify_key (dedup_keys seen l)).
Proof.
  revert seen. induction l as [|d l IH]; intros seen; simpl; [split; constructor|].
  destruct (str_mem (notify_key d) seen) eqn:E; [apply IH|].
  destruct (IH (notify_key d :: seen)) as [Hnd Hf]. simpl. split.
  - constructor; [|done]. intros Hin. apply (proj1 (Forall_forall _ _) Hf _ Hin). by left.
  - constructor; [intros H%str_mem_spec; congruence|].
    eapply Forall_impl; [done|]. intros k Hk Hs. apply Hk. by right.
Qed.

Lemma override_step_elem full l y :
  y ∈ flat_map (override_step full) l <-> exists x, x ∈ l /\ y ∈ override_step full x.
Proof. rewrite list_elem_of_In, in_flat_map. by setoid_rewrite list_elem_of_In. Qed.

Lemma override_step_other full x : is_report x = false -> override_step full x = [x].
Proof. unfold override_step. by intros ->. Qed.

Lemma is_report_type x y : nd_Type x = nd_Type y -> is_report x = is_report y.
Proof. unfold is_report. by intros ->. Qed.

Lemma override_step_type full x y : y ∈ override_step full x -> nd_Type y = nd_Type x.
Proof.
  unfold override_step. destruct (negb _); [by intros ->%list_elem_of_singleton|].
  destruct (List.filter _ _); [by intros ?%elem_of_nil|by intros ->%list_elem_of_singleton].
Qed.

(** The recipients of a report after the override. *)
Lemma override_step_recipients full x : is_report x = true -> forall r,
  r ∈ flat_map (fun y => splitEmailRecipients (nd_Destination y)) (override_step full x) <->
  r ∈ splitEmailRecipients (nd_Destination x) /\ to_lower r ∉ full.
Proof.
  intros Hx r. unfold override_step. rewrite Hx. simpl.
  set (kept := List.filter _ _).
  assert (forall q, q ∈ kept <-> q ∈ splitEmailRecipients (nd_Destination x) /\ to_lower q ∉ full) as Hk.
  { intros q. unfold kept. rewrite !list_elem_of_In, filter_In, <- list_elem_of_In. f_equiv.
    rewrite negb_true_iff, <- not_true_iff_false, str_mem_spec. by rewrite <- list_elem_of_In. }
  rewrite <- Hk. destruct kept as [|k kept'] eqn:E; [done|]. simpl. rewrite app_nil_r.
  change (match kept' with [] => k | _ :: _ => k +:+ ";" +:+ str_join ";" kept' end)
    with (str_join ";" (k :: kept')).
  rewrite splitEmailRecipients_join; [done|]. rewrite <- E in *. apply Forall_forall. intros q Hq.
  apply Hk in Hq as [Hq _]. by apply (proj1 (Forall_forall _ _) (splitEmailRecipients_tokens (nd_Destination x))).
Qed.

Definition receives (l : list NotifyDestination) (type r : string) : Prop :=
  exists y, y ∈ l /\ nd_Type y = type /\ r ∈ splitEmailRecipients (nd_Destination y).

Lemma full_recipients_elem l k : k ∈ full_recipients l <->
  exists y r, y ∈ l /\ nd_Type y = "email_full" /\ r ∈ splitEmailRecipients (nd_Destination y) /\ to_lower r = k.
Proof.
  unfold full_recipients. rewrite list_elem_of_In, in_flat_map. split.
  - intros (y & Hy & Hk). destruct (nd_Type y =? "email_full")%string eqn:E; [|done].
    apply String.eqb_eq in E. apply in_map_iff in Hk as (r & <- & Hr).
    exists y, r. by rewrite !list_elem_of_In.
  - intros (y & r & Hy%list_elem_of_In & Ht & Hr%list_elem_of_In & <-). exists y.
    split; [done|]. rewrite Ht. simpl. by apply in_map.
Qed.

Lemma full_recipients_ext l l' : (forall x, x ∈ l <-> x ∈ l') ->
  forall k, k ∈ full_recipients l <-> k ∈ full_recipients l'.
Proof. intros H k. rewrite !full_recipients_elem. by setoid_rewrite H. Qed.

(** The override on its own. *)
Lemma full_override_others l x : is_report x = false -> x ∈ full_override l <-> x ∈ l.
Proof.
  intros Hx. unfold full_override. destruct (full_recipients l) as [|k full]; [done|].
  rewrite override_step_elem. split.
  - intros (y & Hy & Hin). pose proof (override_step_type _ _ _ Hin) as Ht.
    rewrite override_step_other in Hin by (by rewrite <- (is_report_type _ _ Ht)).
    by apply list_elem_of_singleton in Hin as ->.
  - intros Hin. exists x. split; [done|]. rewrite override_step_other by done. by left.
Qed.

Lemma full_override_receives l type r :
  is_report {| nd_Type := type; nd_Destination := "" |} = true ->
  receives (full_override l) type r <-> receives l type r /\ to_lower r ∉ full_recipients l.
Proof.
  intros Hrep. unfold full_override.
  destruct (full_recipients l) as [|k full] eqn:Hf; [set_solver|]. rewrite <- Hf. clear k full Hf.
  set (full := full_recipients l). split.
  - intros (y & (x & Hx & Hy)%override_step_elem & Hty & Hr).
    pose proof (override_step_type _ _ _ Hy) as Ht.
    assert (is_report x = true) as Hrx by (rewrite <- Hrep; apply is_report_type; simpl; congruence).
    assert (r ∈ flat_map (fun y => splitEmailRecipients (nd_Destination y)) (override_step full x)) as Hin.
    { rewrite list_elem_of_In, in_flat_map. exists y. by rewrite <- !list_elem_of_In. }
    apply (override_step_recipients full x Hrx) in Hin as [Hin Hnf].
    split; [|done]. exists x. split; [done|]. split; [congruence|done].
  - intros [(x & Hx & Htx & Hr) Hnf].
    assert (is_report x = true) as Hrx by (rewrite <- Hrep; by apply is_report_type).
    pose proof (proj2 (override_step_recipients full x Hrx r) (conj Hr Hnf)) as Hin.
    rewrite list_elem_of_In, in_flat_map in Hin. destruct Hin as (y & Hy%list_elem_of_In & Hry%list_elem_of_In). exists y.
    split; [apply override_step_elem; by exists x|]. split; [|done].
    rewrite <- Htx. by apply override_step_type with full.
Qed.

Lemma full_override_nodup l : NoDup (map notify_key l) ->
  NoDup (map notify_key (List.filter (fun x => negb (is_report x)) (full_override l))).
Proof.
  assert (forall full, NoDup (map notify_key l) ->
    NoDup (map notify_key (List.filter (fun x => negb (is_report x)) (flat_map (override_step full) l)))
    /\ forall k, k ∈ map notify_key (List.filter (fun x => negb (is_report x)) (flat_map (override_step full) l)) ->
       k ∈ map notify_key l) as H.
  { intros full. induction l as [|x l IH]; intros Hnd; simpl; [split; [constructor|done]|].
    apply NoDup_cons in Hnd as [Hx Hnd]. destruct (IH Hnd) as [IH1 IH2].
    rewrite List.filter_app, map_app. destruct (is_report x) eqn:Hrep.
    - assert (List.filter (fun x => negb (is_report x)) (override_step full x) = []) as ->.
      { destruct (List.filter _ (override_step full x)) as [|y ys] eqn:E; [done|]. exfalso.
        assert (y ∈ List.filter (fun x => negb (is_report x)) (override_step full x)) as Hy by (rewrite E; by left).
        rewrite list_elem_of_In, filter_In, <- list_elem_of_In in Hy. destruct Hy as [Hy Hn].
        apply override_step_type in Hy. rewrite (is_report_type _ _ Hy), Hrep in Hn. done. }
      split; [done|]. intros k Hk. right. by apply IH2.
    - rewrite override_step_other by done. simpl. rewrite Hrep. simpl. split.
      + constructor; [intros Hin; by apply Hx, IH2|done].
      + intros k [->|Hk]%elem_of_cons; [by left|]. right. by apply IH2. }
  intros Hnd. unfold full_override. destruct (full_recipients l) as [|k full]; [|by apply H].
  clear H. induction l as [|x l IH]; [done|]. apply NoDup_cons in Hnd as [Hx Hnd].
  simpl. destruct (negb (is_report x)); [|by apply IH]. simpl. constructor; [|by apply IH].
  intros (y & Hk & [Hy _]%filter_In)%list_elem_of_In%in_map_iff.
  apply Hx, list_elem_of_In, in_map_iff. by exists y.
Qed.

(** Who is notified of a finished job. A bridged call notifies
    nobody. Otherwise every destination configured for the number or the
    tenant of either side is kept, once, except for report mails; a recipient
    gets a report mail exactly when one is configured for them and none of the
    full mails of the job goes to them, compared without case. So nobody
    configured is lost, nobody is added, and nobody gets both. *)
Theorem processNotifyDestinations_exact d f :
  let out := processNotifyDestinations d f in
  let all := resolved d f in
  if fj_IsBridge f then out = []
  else
    (forall x, is_report x = false -> x ∈ out <-> x ∈ all) /\
    NoDup (map notify_key (List.filter (fun x => negb (is_report x)) out)) /\
    (forall type r, type = "email_report" \/ type = "email" ->
      receives out type r <-> receives all type r /\ to_lower r ∉ full_recipients all).
Proof.
  simpl. unfold processNotifyDestinations. destruct (fj_IsBridge f); [done|].
  pose proof (resolved_arrow_free d f) as Hf.
  assert (forall x, x ∈ dedup_keys [] (resolved d f) <-> x ∈ resolved d f) as Hd.
  { intros x. split.
    - assert (forall seen l, x ∈ dedup_keys seen l -> x ∈ l) as H; [|by apply H].
      intros seen l. revert seen. induction l as [|y l IH]; intros seen; simpl; [done|].
      destruct (str_mem _ _); [intros; right; eauto|].
      intros [->|Hx]%elem_of_cons; [by left|right; eauto].
    - intros Hx. apply dedup_keys_spec; [done|by apply (proj1 (Forall_forall _ _) Hf)|].
      split; [done|]. apply not_elem_of_nil. }
  split; [|split].
  - intros x Hx. by rewrite full_override_others, Hd.
  - apply full_override_nodup, dedup_keys_nodup.
  - intros type r Ht. rewrite full_override_receives.
    + rewrite (full_recipients_ext _ _ Hd). unfold receives. by setoid_rewrite Hd.
    + by destruct Ht as [-> | ->].
Qed.

(** ** Witnesses *)

Lemma parseNotifyString_print_witness :
  parseNotifyString "email_report->a@x.org;b@x.org,webhook->https://x.org/?q=1,2,portal->svc" =
    ([{| nd_Type := "email_report"; nd_Destination := "a@x.org;b@x.org" |};
      {| nd_Type := "webhook"; nd_Destination := "https://x.org/?q=1,2" |};
      {| nd_Type := "portal"; nd_Destination := "svc" |}], []).
Proof.
  apply (parseNotifyString_print
    [{| nd_Type := "email_report"; nd_Destination := "a@x.org;b@x.org" |};
     {| nd_Type := "webhook"; nd_Destination := "https://x.org/?q=1,2" |};
     {| nd_Type := "portal"; nd_Destination := "svc" |}]).
  repeat constructor; try done; cbn [nd_Destination nd_Type]; by apply one_segment_unsplit.
Defined.
