(* ===== verification/PortalModels.v ===== *)
(** * PortalModels: the portal's rows ([portal/internal/models/models.go])

    The tables that more than one component of the portal touches. Sealed
    columns are byte strings, empty for NULL; creation and update stamps are
    kept where the code reads them. *)

From S2P Require Import Prelude Store.

Definition RoleAdmin : string := "admin".
Definition RoleUser : string := "user".
Definition PendingAuthPurposeLogin : string := "login".
Definition PendingAuthPurposeEnroll : string := "enroll".

Record PortalOrg := {
  po_ID : Z; po_Name : string; po_GofaxTenantID : Z; po_SvcUsername : string; po_SvcPasswordEnc : string;
  po_TenantNotify : string; po_TOTPRequired : bool; po_RetentionDays : Z; po_Active : bool;
}.

Record PortalUser := {
  pu_ID : Z; pu_Username : string; pu_Email : string; pu_PasswordHash : string; pu_Role : string;
  pu_OrgID : option Z; pu_Active : bool; pu_EmailNotify : bool;
  pu_TOTPSecretEnc : string; pu_TOTPEnabled : bool;
}.

(** The mirror of one of gofaxserver's numbers. *)
Record PortalNumber := {
  pn_ID : Z; pn_Number : string; pn_Name : string; pn_Header : string; pn_GofaxNumberID : Z; pn_OrgID : Z;
  pn_Active : bool; pn_InboundEnabled : bool; pn_PortalEndpointID : Z; pn_CustomNotify : string;
}.

(** A row of [user_numbers]. *)
Record UserNumber := { un_UserID : Z; un_NumberID : Z }.

#[export] Instance user_number_eq_dec : EqDecision UserNumber.
Proof. solve_decision. Defined.

Record Session := {
  ss_ID : Z; ss_TokenHash : string; ss_CSRFToken : string; ss_UserID : Z; ss_ExpiresAt : Z; ss_CreatedAt : Z;
}.

Record PendingAuth := {
  pa_ID : Z; pa_TokenHash : string; pa_UserID : Z; pa_Purpose : string; pa_ExpiresAt : Z;
}.

(** A fax received for an organisation, its document sealed. *)
Record InboundFax := {
  if_ID : Z; if_JobUUID : string; if_OrgID : Z; if_NumberID : option Z; if_CallerNumber : string;
  if_CallerName : string; if_CalleeNumber : string; if_Pages : Z; if_Partial : bool; if_TotalPages : Z;
  if_FileEnc : string; if_FileSHA256 : string; if_FileBytes : Z; if_ReceivedAt : Z;
}.

(** A converted document awaiting its user's confirmation, and a page of its
    preview; both sealed. *)
Record PreparedFax := {
  pf_ID : string; pf_UserID : Z; pf_OrgID : Z; pf_Filename : string; pf_Pages : Z; pf_PreviewPages : Z; pf_FitMode : string;
  pf_Cover : bool; pf_DocEnc : string; pf_DocSHA256 : string; pf_DocBytes : Z; pf_CreatedAt : Z; pf_ExpiresAt : Z;
}.
Record PreparedFaxPreview := { pp_PreparedFaxID : string; pp_Page : Z; pp_DataEnc : string }.

#[export] Instance prepared_eq_dec : EqDecision PreparedFax.
Proof. solve_decision. Defined.
#[export] Instance preview_eq_dec : EqDecision PreparedFaxPreview.
Proof. solve_decision. Defined.

#[export] Instance portal_org_id : HasID PortalOrg := {
  get_id := po_ID; set_id i r := r <| po_ID := i |>; get_set_id i r := eq_refl }.
#[export] Instance portal_user_id : HasID PortalUser := {
  get_id := pu_ID; set_id i r := r <| pu_ID := i |>; get_set_id i r := eq_refl }.
#[export] Instance portal_number_id : HasID PortalNumber := {
  get_id := pn_ID; set_id i r := r <| pn_ID := i |>; get_set_id i r := eq_refl }.
#[export] Instance inbound_fax_id : HasID InboundFax := {
  get_id := if_ID; set_id i r := r <| if_ID := i |>; get_set_id i r := eq_refl }.
#[export] Instance session_id : HasID Session := {
  get_id := ss_ID; set_id i r := r <| ss_ID := i |>; get_set_id i r := eq_refl }.
#[export] Instance pending_auth_id : HasID PendingAuth := {
  get_id := pa_ID; set_id i r := r <| pa_ID := i |>; get_set_id i r := eq_refl }.

(** gorm inserts a field that declares a default and is zero with its default,
    in the row and in the value the caller holds. *)
Definition number_defaults (n : PortalNumber) : PortalNumber :=
  n <| pn_Active := true |> <| pn_InboundEnabled := true |>.

Definition user_defaults (u : PortalUser) : PortalUser :=
  u <| pu_Role := if (pu_Role u =? "")%string then RoleUser else pu_Role u |>
    <| pu_Active := true |> <| pu_EmailNotify := true |>.

Definition org_defaults (o : PortalOrg) : PortalOrg :=
  o <| po_RetentionDays := if po_RetentionDays o =? 0 then 30 else po_RetentionDays o |> <| po_Active := true |>.

(** A user of an organisation, active and with nothing enrolled. *)
Definition plain_user (id : Z) (name email : string) (org : Z) : PortalUser :=
  {| pu_ID := id; pu_Username := name; pu_Email := email; pu_PasswordHash := ""; pu_Role := RoleUser;
     pu_OrgID := Some org; pu_Active := true; pu_EmailNotify := true; pu_TOTPSecretEnc := ""; pu_TOTPEnabled := false |}.
