(* ===== verification/PortalNotify.v ===== *)
(** * PortalNotify: the notify strings the portal writes
    ([portal/internal/api/handlers_admin.go])

    The portal derives a number's notify string from its assigned users, the
    organisation's service account and an operator's custom segments, and
    pushes it to gofaxserver, whose parser is in [Notify]. *)

From S2P Require Import Prelude FaxJob Directory Notify Store PortalModels.

(** ** Custom segments *)

(** [%q] of text that needs no escape. *)
Definition invalid_segment (seg : string) : string :=
  "invalid notify segment " +:+ String "034" (seg +:+ String "034" "") +:+ " (want type->destination)".

(** The loop of [normalizeCustomNotify]; [out] doubles as the [seen] set. *)
Fixpoint normalize_loop (segs : list string) (out : list string) : res (list string) :=
  match segs with
  | [] => Ok out
  | seg :: segs' =>
      let seg := trim_space seg in
      if (seg =? "")%string then normalize_loop segs' out
      else
        match cut_arrow seg with
        | None => Err (invalid_segment seg)
        | Some (typ, dest) =>
            if (trim_space typ =? "")%string || (trim_space dest =? "")%string
            then Err (invalid_segment seg)
            else normalize_loop segs' (if str_mem seg out then out else out ++ [seg])
        end
  end.

Definition normalizeCustomNotify (raw : string) : res string :=
  let raw := trim_space raw in
  if (raw =? "")%string then Ok ""
  else match normalize_loop (str_split comma raw) [] with
       | Ok out => Ok (str_join "," out)
       | Err e => Err e
       end.

(** The segments of a custom string; none when it does not normalize. *)
Definition custom_segments (customNotify : string) : list string :=
  match normalizeCustomNotify customNotify with
  | Ok custom => if (custom =? "")%string then [] else str_split comma custom
  | Err _ => []
  end.

Definition semicolon : ascii := ";".

Definition emailFullRecipients (customNotify : string) : list string :=
  flat_map (fun seg =>
    match cut_arrow seg with
    | Some (typ, dest) =>
        if (trim_space typ =? "email_full")%string
        then List.filter nonempty (map (fun r => to_lower (trim_space r)) (str_split semicolon dest))
        else []
    | None => []
    end) (custom_segments customNotify).

Definition filterDerivedReportEmails (emails : list string) (customNotify : string) : list string :=
  match emailFullRecipients customNotify with
  | [] => emails
  | full => List.filter (fun e => negb (str_mem (to_lower (trim_space e)) full)) emails
  end.

(** Segments that are not there yet, appended. *)
Definition append_new (out : list string) (seg : string) : list string :=
  if str_mem seg out then out else out ++ [seg].

Definition mergeNotifySegments (derived : list string) (customNotify : string) : string :=
  str_join "," (foldl append_new derived (custom_segments customNotify)).

(** ** The number's notify string *)

Definition is_assigned (numberID : Z) (assignments : list UserNumber) (u : PortalUser) : bool :=
  existsb (fun a => (un_NumberID a =? numberID) && (un_UserID a =? pu_ID u)) assignments.

(** The query: [order] is the database's [DISTINCT ... ORDER BY email]. *)
Definition assigned_emails (order : list string -> list string) (users : list PortalUser)
  (assignments : list UserNumber) (numberID : Z) : list string :=
  order (map pu_Email (List.filter (fun u =>
    is_assigned numberID assignments u && pu_Active u && pu_EmailNotify u && nonempty (pu_Email u)) users)).

(** The derived destinations, in order. *)
Definition derived_segments (emails : list string) (svcUsername : string) : list string :=
  (match emails with [] => [] | _ => ["email_report->" +:+ str_join ";" emails] end) ++
  (if (svcUsername =? "")%string then [] else ["portal->" +:+ svcUsername]).

Definition computeNotify (order : list string -> list string) (users : list PortalUser)
  (assignments : list UserNumber) (numberID : Z) (svcUsername customNotify : string) : string :=
  let emails := filterDerivedReportEmails (assigned_emails order users assignments numberID) customNotify in
  mergeNotifySegments (derived_segments emails svcUsername) customNotify.

(** ** Facts *)

Lemma str_split_on c s : str_split c s = split_on (fun x => Ascii.eqb x c) s.
Proof. induction s as [|x s IH]; simpl; [done|]. rewrite IH. done. Qed.

Definition no_char (c : ascii) (s : string) : Prop := str_forall (fun x => negb (Ascii.eqb x c)) s = true.

Lemma str_split_join c (l : list string) : l <> [] -> Forall (no_char c) l ->
  str_split c (str_join (String c "") l) = l.
Proof.
  intros Hne H. rewrite str_split_on. induction H as [|w l Hw Hl IH]; [done|].
  destruct l as [|w2 l]; [by apply split_on_token|].
  change (str_join (String c "") (w :: w2 :: l)) with (w +:+ String c (str_join (String c "") (w2 :: l))).
  rewrite split_on_app; [|done|apply Ascii.eqb_refl]. f_equal. by apply IH.
Qed.

(** A destination the portal can carry: it also splits on every comma. *)
Definition portable (d : NotifyDestination) : Prop := well_formed d /\ no_char comma (nd_Destination d).

Lemma key_no_comma d : portable d -> no_char comma (notify_key d).
Proof.
  intros [(_ & _ & Hn & _) Hc]. unfold no_char, notify_key in *. rewrite !str_forall_app, Hc.
  rewrite (str_forall_impl name_char (fun x => negb (Ascii.eqb x comma)) (nd_Type d)); [done| |done].
  intros c Hname. by destruct (name_not_space _ Hname) as (_ & _ & -> & _).
Qed.

Lemma normalize_loop_keys ds out : Forall portable ds ->
  normalize_loop (map notify_key ds) out = Ok (foldl append_new out (map notify_key ds)).
Proof.
  intros H. revert out. induction H as [|d l [Hd Hc] _ IH]; intros out; [done|].
  cbn [map normalize_loop foldl]. rewrite key_trimmed by done.
  assert ((notify_key d =? "")%string = false) as ->.
  { unfold notify_key. destruct Hd as (Hne & _). by destruct (nd_Type d). }
  pose proof Hd as (Hne & _ & Hn & Hdn & Ht & _). unfold notify_key at 1.
  rewrite cut_arrow_key by (by apply names_no_arrow).
  rewrite (no_space_trimmed (nd_Type d)), Ht.
  2: { eapply str_forall_impl; [|done]. intros c Hname. by destruct (name_not_space _ Hname) as (-> & _). }
  apply String.eqb_neq in Hne, Hdn. rewrite Hne, Hdn. simpl. apply IH.
Qed.

Lemma append_new_elem out l x : x ∈ foldl append_new out l <-> x ∈ out \/ x ∈ l.
Proof.
  revert out. induction l as [|y l IH]; intros out; simpl; [set_solver|].
  rewrite IH. unfold append_new. destruct (str_mem y out) eqn:E; [apply str_mem_spec in E|]; set_solver.
Qed.

Lemma append_new_idem out l : Forall (fun x => x ∈ out) l -> foldl append_new out l = out.
Proof.
  induction 1 as [|x l Hx _ IH]; simpl; [done|]. unfold append_new at 2.
  apply str_mem_spec in Hx. by rewrite Hx.
Qed.

(** Deduplicating first changes nothing. *)
Lemma append_new_twice base out l :
  foldl append_new base (foldl append_new out l) = foldl append_new (foldl append_new base out) l.
Proof.
  revert out. induction l as [|x l IH]; intros out; simpl; [done|]. rewrite IH. f_equal.
  destruct (str_mem x out) eqn:E.
  - assert (str_mem x (foldl append_new base out) = true) as Ex.
    { apply str_mem_spec in E. apply str_mem_spec, append_new_elem. by right. }
    assert (forall o, str_mem x o = true -> append_new o x = o) as Ha by (unfold append_new; by intros o ->).
    by rewrite !Ha.
  - assert (append_new out x = out ++ [x]) as -> by (unfold append_new; by rewrite E).
    by rewrite foldl_app.
Qed.

Lemma trim_join_trimmed ds : Forall portable ds -> trim_space (print_notify ds) = print_notify ds.
Proof.
  intros H. unfold print_notify. apply trimmed_spec. induction H as [|d l [Hd _] Hl [IH1 IH2]]; [done|].
  pose proof (proj1 (trimmed_spec _) (key_trimmed _ Hd)) as [H1 H2].
  destruct l as [|d2 l]; [done|].
  change (str_join "," (map notify_key (d :: d2 :: l)))
    with (notify_key d +:+ ("," +:+ str_join "," (map notify_key (d2 :: l)))).
  set (rest := str_join "," (map notify_key (d2 :: l))) in *.
  assert (rest <> "") as Hne.
  { unfold rest. inversion Hl as [|? ? [(Hne & _) _] _]; subst. cbn [map]. unfold notify_key at 1.
    destruct (nd_Type d2); [done|]. by destruct (map notify_key l). }
  assert (trim_right ("," +:+ rest) = "," +:+ rest) as Hr by (by rewrite trim_right_app; rewrite IH2).
  split.
  - destruct (notify_key d) eqn:E; [|done]. by unfold no_lead.
  - rewrite trim_right_app; rewrite Hr; done.
Qed.

Lemma print_notify_nonempty ds : ds <> [] -> Forall portable ds -> print_notify ds <> "".
Proof.
  intros Hne H. destruct H as [|d l [(Hd & _) _] _]; [done|]. unfold print_notify. cbn [map].
  unfold notify_key at 1. destruct (nd_Type d); [done|]. by destruct (map notify_key l).
Qed.

Lemma custom_segments_print ds : Forall portable ds ->
  custom_segments (print_notify ds) = foldl append_new [] (map notify_key ds).
Proof.
  intros H. unfold custom_segments, normalizeCustomNotify.
  rewrite trim_join_trimmed by done. destruct (decide (ds = [])) as [->|Hne]; [done|].
  pose proof (print_notify_nonempty _ Hne H) as Hp. apply String.eqb_neq in Hp. rewrite Hp.
  assert (Forall (no_char comma) (map notify_key ds)) as Hk.
  { clear -H. induction H; constructor; [by apply key_no_comma|done]. }
  unfold print_notify at 1. change "," with (String comma ""). rewrite str_split_join; [|by destruct ds|done].
  rewrite normalize_loop_keys by done. cbv iota beta.
  set (segs := foldl append_new [] (map notify_key ds)).
  assert (forall x, x ∈ segs <-> x ∈ map notify_key ds) as Hs.
  { intros x. unfold segs. rewrite append_new_elem, elem_of_nil. tauto. }
  assert (segs <> []) as Hsn.
  { destruct ds as [|d ds]; [done|]. intros E.
    assert (notify_key d ∈ segs) as Hin by (apply Hs; by left). rewrite E in Hin. by apply elem_of_nil in Hin. }
  destruct (str_join (String comma "") segs =? "")%string eqn:E.
  - apply String.eqb_eq in E. destruct segs as [|w segs']; [done|].
    assert (w ∈ map notify_key ds) as Hw by (apply Hs; by left).
    apply list_elem_of_fmap in Hw as (d & -> & Hd).
    pose proof (proj1 (Forall_forall _ _) H _ Hd) as [(Hne' & _) _].
    unfold notify_key in E at 1. destruct (nd_Type d); [done|]. by destruct segs'.
  - rewrite str_split_join; [done|done|]. apply Forall_forall. intros x Hx%Hs.
    by apply (proj1 (Forall_forall _ _) Hk).
Qed.

(** The same union on destinations. *)
Definition add_new (out : list NotifyDestination) (d : NotifyDestination) : list NotifyDestination :=
  if decide (d ∈ out) then out else out ++ [d].

Lemma add_new_elem out ds x : x ∈ foldl add_new out ds <-> x ∈ out \/ x ∈ ds.
Proof.
  revert out. induction ds as [|y ds IH]; intros out; simpl; [set_solver|].
  rewrite IH. unfold add_new. destruct (decide (y ∈ out)); set_solver.
Qed.

Lemma well_formed_arrow_free d : well_formed d -> arrow_free d.
Proof. intros (_ & _ & Hn & _). by apply names_no_arrow. Qed.

Lemma append_new_keys out ds : Forall well_formed out -> Forall well_formed ds ->
  foldl append_new (map notify_key out) (map notify_key ds) = map notify_key (foldl add_new out ds) /\
  Forall well_formed (foldl add_new out ds).
Proof.
  intros Hout Hds. revert out Hout. induction Hds as [|d ds Hd _ IH]; intros out Hout; [done|].
  cbn [map foldl]. unfold append_new at 2, add_new at 2 4.
  assert (str_mem (notify_key d) (map notify_key out) = true <-> d ∈ out) as Hm.
  { rewrite str_mem_spec. split; [|apply list_elem_of_fmap_2].
    intros (x & Hk & Hx)%list_elem_of_fmap.
    rewrite (notify_key_inj d x); [done| | |done]; apply well_formed_arrow_free; [done|].
    by apply (proj1 (Forall_forall _ _) Hout). }
  destruct (decide (d ∈ out)) as [Hin|Hnin].
  - rewrite (proj2 Hm Hin). by apply IH.
  - destruct (str_mem _ _); [by destruct Hnin; apply Hm|].
    change [notify_key d] with (map notify_key [d]). rewrite <- map_app. apply IH.
    by apply Forall_app_2; [|constructor].
Qed.

(** The destinations derived for a number. *)
Definition derived (emails : list string) (svcUsername : string) : list NotifyDestination :=
  (match emails with
   | [] => []
   | _ => [{| nd_Type := "email_report"; nd_Destination := str_join ";" emails |}]
   end) ++
  (if (svcUsername =? "")%string then [] else [{| nd_Type := "portal"; nd_Destination := svcUsername |}]).

Lemma derived_segments_keys emails svc : derived_segments emails svc = map notify_key (derived emails svc).
Proof. unfold derived_segments, derived. by destruct emails, (svc =? "")%string. Qed.

Lemma no_comma_one_segment s : no_char comma s -> splitNotifySegments s = [s].
Proof.
  intros H. induction s as [|c s IH]; [done|]. unfold no_char in H. simpl in H.
  apply andb_prop in H as [Hc Hs]. apply negb_true_iff in Hc. cbn [splitNotifySegments]. by rewrite Hc, IH.
Qed.

Lemma token_no_comma r : is_token r -> no_char comma r.
Proof.
  intros (_ & _ & H). eapply str_forall_impl; [|done]. intros c Hc. unfold recipient_sep in Hc.
  by destruct (Ascii.eqb c comma), (Ascii.eqb c ";").
Qed.

Lemma join_tokens_facts emails : emails <> [] -> Forall is_token emails ->
  str_join ";" emails <> "" /\ trim_space (str_join ";" emails) = str_join ";" emails /\
  no_char comma (str_join ";" emails).
Proof.
  intros Hne H. rewrite trimmed_spec. induction H as [|e l He Hl IH]; [done|]. clear Hne.
  pose proof He as (Hn & [H1 H2]%trimmed_spec & _). pose proof (token_no_comma _ He) as Hc.
  destruct l as [|e2 l]; [done|]. destruct (IH ltac:(done)) as (In & [I1 I2] & Ic).
  change (str_join ";" (e :: e2 :: l)) with (e +:+ (";" +:+ str_join ";" (e2 :: l))).
  set (rest := str_join ";" (e2 :: l)) in *.
  assert (trim_right (";" +:+ rest) = ";" +:+ rest) as Hr by (by rewrite trim_right_app; rewrite I2).
  split; [by destruct e|]. split; [split|].
  - destruct e; [done|exact H1].
  - by rewrite trim_right_app; rewrite Hr.
  - unfold no_char in *. rewrite !str_forall_app, Hc, Ic. done.
Qed.

Lemma derived_well_formed emails svc : Forall is_token emails -> svc = "" \/ is_token svc ->
  Forall well_formed (derived emails svc).
Proof.
  intros He Hs. unfold derived. apply Forall_app_2.
  - destruct emails as [|e l] eqn:E; [done|]. rewrite <- E in *. constructor; [|done].
    destruct (join_tokens_facts emails) as (? & ? & ?); [by rewrite E|done|].
    split_and!; simpl; try done. by apply one_segment_unsplit, no_comma_one_segment.
  - destruct (svc =? "")%string eqn:E; [done|]. apply String.eqb_neq in E.
    destruct Hs as [?|Hs]; [done|]. constructor; [|done]. pose proof Hs as (? & ? & ?).
    split_and!; simpl; try done. by apply one_segment_unsplit, no_comma_one_segment, token_no_comma.
Qed.

(** Who the custom segments already reach with the full fax. *)
Lemma emailFullRecipients_print ds k : Forall portable ds ->
  k ∈ emailFullRecipients (print_notify ds) -> k ∈ full_recipients ds.
Proof.
  intros H Hk. unfold emailFullRecipients in Hk. rewrite custom_segments_print in Hk by done.
  apply list_elem_of_In, in_flat_map in Hk as (seg & Hseg%list_elem_of_In & Hk).
  apply append_new_elem in Hseg as [Hseg|Hseg]; [by apply elem_of_nil in Hseg|].
  apply list_elem_of_fmap in Hseg as (d & -> & Hd).
  pose proof (proj1 (Forall_forall _ _) H _ Hd) as [Hw Hc]. pose proof Hw as (_ & _ & Hn & _).
  unfold notify_key in Hk. rewrite cut_arrow_key in Hk by (by apply names_no_arrow).
  rewrite (no_space_trimmed (nd_Type d)) in Hk.
  2: { eapply str_forall_impl; [|done]. intros c Hname. by destruct (name_not_space _ Hname) as (-> & _). }
  destruct (nd_Type d =? "email_full")%string eqn:Ht; [|done]. apply String.eqb_eq in Ht.
  apply filter_In in Hk as [Hk Hne]. apply in_map_iff in Hk as (w & <- & Hw').
  apply full_recipients_elem. exists d, (trim_space w). split; [done|]. split; [done|]. split; [|done].
  unfold splitEmailRecipients, fields_func. apply list_elem_of_In, filter_In. split.
  - apply in_map, filter_In. split.
    + rewrite str_split_on in Hw'.
      assert (split_on recipient_sep (nd_Destination d) =
              split_on (fun x => Ascii.eqb x semicolon) (nd_Destination d)) as ->; [|done].
      clear -Hc. induction (nd_Destination d) as [|c s IH]; [done|].
      unfold no_char in Hc. simpl in Hc. apply andb_prop in Hc as [Hc Hs]. apply negb_true_iff in Hc.
      simpl. rewrite IH by done. unfold recipient_sep. by rewrite Hc, orb_false_r.
    + destruct w; [|done]. by simpl in Hne.
  - by destruct (trim_space w).
Qed.

(** The notify string the portal pushes for a number means to
    gofaxserver what the portal meant: it parses, with nothing skipped, to the
    report destination of the assigned users, the portal's own status push and
    the custom destinations, without duplicates; and every assigned user who
    wants mail is sent the report, or is already sent the full fax. *)
Theorem computeNotify_parses order users assignments numberID svc custom :
  let emails := assigned_emails order users assignments numberID in
  Forall is_token emails -> svc = "" \/ is_token svc -> Forall portable custom ->
  let kept := filterDerivedReportEmails emails (print_notify custom) in
  let dests := foldl add_new (derived kept svc) custom in
  parseNotifyString (computeNotify order users assignments numberID svc (print_notify custom)) = (dests, []) /\
  (forall e, e ∈ emails -> receives dests "email_report" e \/ to_lower e ∈ full_recipients dests).
Proof.
  intros emails He Hs Hc kept dests.
  assert (forall e, e ∈ kept <-> e ∈ emails /\
    (emailFullRecipients (print_notify custom) = [] \/
     to_lower (trim_space e) ∉ emailFullRecipients (print_notify custom))) as Hk.
  { intros e. unfold kept, filterDerivedReportEmails.
    destruct (emailFullRecipients _) as [|k full] eqn:E; [tauto|].
    rewrite list_elem_of_In, filter_In, <- list_elem_of_In, negb_true_iff, <- not_true_iff_false, str_mem_spec.
    split; [tauto|]. intros [? [?|?]]; done. }
  assert (Forall is_token kept) as Hkt.
  { apply Forall_forall. intros e [Hin _]%Hk. by apply (proj1 (Forall_forall _ _) He). }
  assert (Forall well_formed custom) as Hcw by (eapply Forall_impl; [done|]; by intros ? [? _]).
  destruct (append_new_keys (derived kept svc) custom) as [Hkeys Hw];
    [by apply derived_well_formed|done|]. split.
  - unfold computeNotify. fold emails kept. unfold mergeNotifySegments.
    rewrite custom_segments_print, derived_segments_keys by done.
    rewrite append_new_twice. cbn [foldl]. rewrite Hkeys. by apply print_notify_parses.
  - intros e Hin. destruct (decide (e ∈ kept)) as [Hkept|Hno].
    + left. exists {| nd_Type := "email_report"; nd_Destination := str_join ";" kept |}.
      split; [|split; [done|]].
      * apply add_new_elem. left. unfold derived. destruct kept; [by apply elem_of_nil in Hkept|].
        apply elem_of_app. left. by left.
      * simpl. by rewrite splitEmailRecipients_join.
    + right. rewrite Hk in Hno. pose proof (proj1 (Forall_forall _ _) He _ Hin) as (_ & Ht & _).
      rewrite Ht in Hno.
      destruct (decide (to_lower e ∈ emailFullRecipients (print_notify custom))) as [Hf|Hf]; [|tauto].
      apply emailFullRecipients_print in Hf; [|done].
      apply full_recipients_elem in Hf as (y & r & Hy & Hty & Hr & Hl).
      apply full_recipients_elem. exists y, r. split; [|done]. apply add_new_elem. by right.
Qed.

(** The portal accepts a segment whose type has a digit; gofaxserver does not
    see it begin and reads it as part of the status push before it, which then
    goes to an account that does not exist. *)
Lemma portal_accepts_unparsable :
  normalizeCustomNotify "sms2->+15550001" = Ok "sms2->+15550001" /\
  parseNotifyString (computeNotify id [] [] 1 "svc_acme" "sms2->+15550001") =
    ([{| nd_Type := "portal"; nd_Destination := "svc_acme,sms2->+15550001" |}], []).
Proof. split; vm_compute; reflexivity. Qed.

Lemma computeNotify_parses_witness :
  let users := [plain_user 1 "a" "a@x.org" 1;
                plain_user 2 "b" "B@x.org" 1] in
  let rows := [{| un_UserID := 1; un_NumberID := 5 |}; {| un_UserID := 2; un_NumberID := 5 |}] in
  parseNotifyString (computeNotify id users rows 5 "svc_acme" "email_full->b@x.org") =
    ([{| nd_Type := "email_report"; nd_Destination := "a@x.org" |};
      {| nd_Type := "portal"; nd_Destination := "svc_acme" |};
      {| nd_Type := "email_full"; nd_Destination := "b@x.org" |}], []).
Proof.
  intros users rows.
  refine (proj1 (computeNotify_parses id users rows 5 "svc_acme"
    [{| nd_Type := "email_full"; nd_Destination := "b@x.org" |}] _ _ _)).
  - repeat constructor; simpl; done.
  - right. repeat split; simpl; done.
  - constructor; [|constructor]. split; [|done].
    split_and!; simpl; try done. by apply one_segment_unsplit.
Defined.
