(* ===== verification/PortalJobs.v ===== *)
(** * PortalJobs: the life of a fax submitted through the portal
    ([portal/internal/poller/poller.go], [portal/internal/api/handlers_notify.go])

    A submitted job is "queued", then "sending", and ends as "success" or
    "failed". Two writers move it: the poller, which asks gofaxserver for the
    job's rows every few seconds, and gofaxserver's own status push. *)

From S2P Require Import Prelude Store PortalModels.

(** ** Data *)

Record PortalJob := {
  pj_ID : Z; pj_JobUUID : string; pj_OrgID : Z; pj_UserID : Z;
  pj_CallerNumber : string; pj_CalleeNumber : string; pj_OriginalFilename : string; pj_Status : string;
  pj_Pages : Z; pj_TotalPages : Z; pj_Attempts : Z;
  pj_ResultText : string; pj_LastError : string; pj_SeenActive : bool;
  pj_SubmittedAt : Z; pj_CompletedAt : option Z; pj_UpdatedAt : Z;
}.

#[export] Instance portal_job_id : HasID PortalJob := {
  get_id := pj_ID; set_id i r := r <| pj_ID := i |>; get_set_id i r := eq_refl }.

Definition JobQueued : string := "queued".
Definition JobSending : string := "sending".
Definition JobSuccess : string := "success".
Definition JobFailed : string := "failed".

(** A row of gofaxserver's status listing. *)
Record FaxStatusRow := {
  fs_ResultType : string; fs_StartTs : Z; fs_EndTs : Z; fs_HangupCause : string;
  fs_TransferredPages : Z; fs_TotalPages : Z; fs_Success : bool; fs_ResultText : string;
}.

Definition failureGrace : Z := 30 * second.
Definition placeholderCause : string := "WEBHOOK".
Definition notifyResultType : string := "notify".

(** ** The decision *)

Record decision := {
  de_status : string; de_attempts : Z; de_pages : Z; de_totalPages : Z;
  de_resultText : string; de_lastErr : string; de_completed : option Z;
  de_terminal : bool; de_sawActive : bool;
}.

Definition max_pages (f : FaxStatusRow -> Z) (rows : list FaxStatusRow) : Z :=
  foldl (fun m r => if m <? f r then f r else m) 0 rows.

Definition is_notify_row (r : FaxStatusRow) : bool := (fs_ResultType r =? notifyResultType)%string.

Definition is_attempt (r : FaxStatusRow) : bool :=
  negb ((fs_HangupCause r =? placeholderCause)%string || is_notify_row r).

(** The latest row; of equals, the last. *)
Definition last_row (rows : list FaxStatusRow) : option FaxStatusRow :=
  foldl (fun l r => match l with
                    | None => Some r
                    | Some x => if fs_StartTs r <? fs_StartTs x then l else Some r
                    end) None rows.

Definition decide_job (rows : list FaxStatusRow) (inActive activeOK seenActive : bool)
  (submitted now : Z) : decision :=
  let totalPages := max_pages fs_TotalPages (List.filter (fun r => negb (is_notify_row r)) rows) in
  let real := List.filter is_attempt rows in
  let d := {| de_status := JobQueued; de_attempts := Z.of_nat (length real);
              de_pages := max_pages fs_TransferredPages real; de_totalPages := totalPages;
              de_resultText := ""; de_lastErr := ""; de_completed := None;
              de_terminal := false; de_sawActive := false |} in
  match List.find fs_Success real with
  | Some r =>
      d <| de_status := JobSuccess |> <| de_terminal := true |> <| de_resultText := fs_ResultText r |>
        <| de_completed := Some (if is_zero_time (fs_EndTs r) then now else fs_EndTs r) |>
  | None =>
      match last_row real with
      | Some r =>
          if (negb activeOK || (negb inActive && seenActive)) && (failureGrace <? time_sub now submitted)
          then d <| de_status := JobFailed |> <| de_terminal := true |>
                 <| de_resultText := fs_ResultText r |>
                 <| de_lastErr := if (fs_ResultText r =? "")%string then fs_HangupCause r else fs_ResultText r |>
                 <| de_completed := Some now |>
          else if inActive then d <| de_status := JobSending |> <| de_sawActive := true |>
          else if seenActive then d <| de_status := JobSending |> else d
      | None =>
          if inActive then d <| de_status := JobSending |> <| de_sawActive := true |>
          else if seenActive then d <| de_status := JobSending |> else d
      end
  end.

(** ** Writing a decision *)

(** The [Updates] map of [reconcile], on the stored row. *)
Definition apply_decision (d : decision) (now : Z) (j : PortalJob) : PortalJob :=
  let j1 := j <| pj_Attempts := de_attempts d |> <| pj_UpdatedAt := now |>
              <| pj_TotalPages ::= fun old => if 0 <? de_totalPages d then de_totalPages d else old |>
              <| pj_Status := de_status d |> in
  if de_terminal d then
    j1 <| pj_Pages := de_pages d |> <| pj_ResultText := de_resultText d |>
       <| pj_LastError := de_lastErr d |> <| pj_SeenActive := true |>
       <| pj_CompletedAt ::= fun old => match de_completed d with Some c => Some c | None => old end |>
  else if de_sawActive d then j1 <| pj_SeenActive := true |> else j1.


Definition same_job (job j : PortalJob) : bool := pj_ID j =? pj_ID job.

(** What a tick sees of gofaxserver and the organisations: [None] is an error. *)
Record PollWorld := {
  pw_now : Z;
  pw_active : option (list string);
  pw_creds : Z -> option (string * string);
  pw_rows : string * string -> string -> option (list FaxStatusRow);
  pw_clock : PortalJob -> Z;
}.

Section poller.
Context `{!Table T PortalJob, !TableLaws T PortalJob}.

Definition reconcile (w : PollWorld) (activeSet : list string) (activeOK : bool) (job : PortalJob) (t : T) : T :=
  match pw_creds w (pj_OrgID job) with
  | None => t
  | Some creds =>
      match pw_rows w creds (pj_JobUUID job) with
      | None => t
      | Some rows =>
          let now := pw_clock w job in
          let d := decide_job rows (str_mem (pj_JobUUID job) activeSet) activeOK (pj_SeenActive job)
                     (pj_SubmittedAt job) now in
          (tbl_update (same_job job) (apply_decision d now) t).2
      end
  end.


Definition is_open (j : PortalJob) : bool :=
  (pj_Status j =? JobQueued)%string || (pj_Status j =? JobSending)%string.





End poller.

(** ** The status push *)

Record statusNotifyPayload := {
  sp_UUID : string; sp_Success : bool; sp_AllAttemptsFailed : bool; sp_Attempts : Z;
  sp_TransferredPages : Z; sp_TotalPages : Z; sp_ResultText : string; sp_HangupCause : string; sp_EndTs : Z;
}.

Inductive push_reply :=
| Refused (code : Z)
| Ignored            (* not one of the portal's jobs *)
| Duplicate          (* the job is already finished *)
| Updated (status : string).

(** The optional pre-shared key. *)
Definition key_ok (configured header : string) : bool :=
  (configured =? "")%string || (header =? configured)%string.

(** [First], with "not found" apart from an error: [None] is the error. *)
Definition first_row {R} (o : option (list R)) : option (option R) :=
  match o with None => None | Some l => Some (head l) end.

Definition push_status (p : statusNotifyPayload) : string :=
  if sp_Success p then JobSuccess else if sp_AllAttemptsFailed p then JobFailed else JobSending.

Definition apply_push (p : statusNotifyPayload) (now : Z) (j : PortalJob) : PortalJob :=
  let completed := if is_zero_time (sp_EndTs p) then now else sp_EndTs p in
  let j1 := j <| pj_Attempts := sp_Attempts p |> <| pj_Pages := int_of_uint (sp_TransferredPages p) |>
              <| pj_TotalPages := int_of_uint (sp_TotalPages p) |> <| pj_UpdatedAt := now |>
              <| pj_Status := push_status p |> in
  if sp_Success p then j1 <| pj_ResultText := sp_ResultText p |> <| pj_CompletedAt := Some completed |>
  else if sp_AllAttemptsFailed p then
    j1 <| pj_ResultText := sp_ResultText p |> <| pj_CompletedAt := Some completed |>
       <| pj_LastError := if (sp_ResultText p =? "")%string then sp_HangupCause p else sp_ResultText p |>
  else j1.

Definition is_terminal (j : PortalJob) : bool :=
  (pj_Status j =? JobSuccess)%string || (pj_Status j =? JobFailed)%string.

Section push.
Context `{!Table T PortalJob, !TableLaws T PortalJob}.
Context `{!Table TO PortalOrg, !TableLaws TO PortalOrg}.

Definition find_job (orgID : Z) (uuid : string) (j : PortalJob) : bool :=
  (pj_OrgID j =? orgID) && (pj_JobUUID j =? uuid)%string.

(** [handleStatusNotify]; [payload] is [None] when the body does not parse. *)
Definition handleStatusNotify (apiKey header svcUsername : string) (payload : option statusNotifyPayload)
  (now : Z) (orgs : TO) (t : T) : push_reply * T :=
  if negb (key_ok apiKey header) then (Refused 401, t)
  else
    match first_row (tbl_find (fun o => (po_SvcUsername o =? svcUsername)%string) orgs).1 with
    | None => (Refused 500, t)
    | Some None => (Refused 404, t)
    | Some (Some org) =>
        if negb (po_Active org) then (Refused 404, t)
        else
          match payload with
          | None => (Refused 422, t)
          | Some p =>
              if (sp_UUID p =? "")%string then (Refused 422, t)
              else
                let '(found, t1) := tbl_find (find_job (po_ID org) (sp_UUID p)) t in
                match first_row found with
                | None => (Refused 500, t1)
                | Some None => (Ignored, t1)
                | Some (Some job) =>
                    if is_terminal job then (Duplicate, t1)
                    else
                      let '(ok, t2) := tbl_update (same_job job) (apply_push p now) t1 in
                      if (ok : bool) then (Updated (push_status p), t2) else (Refused 500, t2)
                end
          end
    end.
End push.

(** ** The decision, facts *)

Lemma filter_attempt_notify rows :
  List.filter is_attempt (List.filter (fun r => negb (is_notify_row r)) rows) = List.filter is_attempt rows.
Proof.
  induction rows as [|r rows IH]; simpl; [done|]. unfold is_attempt at 2.
  destruct (is_notify_row r) eqn:E; simpl; [rewrite orb_true_r; exact IH|].
  unfold is_attempt at 1. rewrite E. by destruct (negb _); rewrite IH.
Qed.

Lemma last_row_some rows : rows <> [] -> exists r, last_row rows = Some r /\ r ∈ rows.
Proof.
  unfold last_row. intros Hne.
  assert (forall l o, (exists x, o = Some x) \/ l <> [] -> exists r,
    foldl (fun l r => match l with None => Some r
       | Some x => if fs_StartTs r <? fs_StartTs x then l else Some r end) o l = Some r /\
    (r ∈ l \/ o = Some r)) as H.
  { induction l as [|y l IH]; intros o Ho; simpl.
    - destruct Ho as [[x ->]|?]; [|done]. exists x. auto.
    - match goal with |- exists r, foldl ?f ?o' l = _ /\ _ => destruct (IH o') as (r & Hr & Hin) end.
      { left. destruct o; [destruct (_ <? _)|]; eauto. }
      exists r. split; [done|]. destruct Hin as [?|Hin]; [left; by right|].
      destruct o as [x|]; [destruct (_ <? _)|]; simplify_eq; auto; left; by left. }
  destruct (H rows None) as (r & Hr & [Hin|?]); [by right|eauto|done].
Qed.

(** The poller's verdict on a job. Notify rows have no influence at
    all, so a delivered receipt never turns a failed fax into a success. The
    verdict is success exactly when a real attempt succeeded; it is failure
    only when there were attempts, none succeeded, the grace period is over,
    and the tracker was unreachable or has stopped tracking the job. *)
Theorem decide_job_spec rows inActive activeOK seenActive submitted now :
  let d := decide_job rows inActive activeOK seenActive submitted now in
  d = decide_job (List.filter (fun r => negb (is_notify_row r)) rows) inActive activeOK seenActive submitted now /\
  (de_status d = JobSuccess <-> exists r, r ∈ rows /\ is_attempt r = true /\ fs_Success r = true) /\
  (de_status d = JobFailed ->
     (exists r, r ∈ rows /\ is_attempt r = true) /\
     (forall r, r ∈ rows -> is_attempt r = true -> fs_Success r = false) /\
     failureGrace < time_sub now submitted /\ (activeOK = false \/ inActive = false /\ seenActive = true)) /\
  de_terminal d = bool_decide (de_status d = JobSuccess \/ de_status d = JobFailed).
Proof.
  intros d. split.
  { unfold d, decide_job. rewrite filter_attempt_notify.
    rewrite filter_filter. do 2 f_equal.
    assert (List.filter (fun r => negb (is_notify_row r) && negb (is_notify_row r)) rows =
            List.filter (fun r => negb (is_notify_row r)) rows) as ->; [|done].
    apply List.filter_ext. intros r. by destruct (is_notify_row r). }
  unfold d, decide_job.
  assert (forall r, r ∈ List.filter is_attempt rows <-> r ∈ rows /\ is_attempt r = true) as Hreal.
  { intros r. by rewrite !list_elem_of_In, filter_In. }
  destruct (List.find fs_Success (List.filter is_attempt rows)) as [r|] eqn:Hf.
  { apply List.find_some in Hf as [Hin Hs]. apply list_elem_of_In, Hreal in Hin as [Hin Ha]. simpl.
    split; [split; [eauto|done]|]. done. }
  assert (forall r, r ∈ rows -> is_attempt r = true -> fs_Success r = false) as Hnone.
  { intros r Hr Ha. apply (List.find_none _ _ Hf). by apply list_elem_of_In, Hreal. }
  assert (~ exists r, r ∈ rows /\ is_attempt r = true /\ fs_Success r = true) as Hno.
  { intros (r & Hr & Ha & Hs). by rewrite (Hnone r Hr Ha) in Hs. }
  destruct (last_row (List.filter is_attempt rows)) as [r|] eqn:Hl.
  - assert (exists r, r ∈ rows /\ is_attempt r = true) as Hex.
    { destruct (List.filter is_attempt rows) as [|x l] eqn:E; [done|]. exists x. apply Hreal. by left. }
    destruct ((negb activeOK || (negb inActive && seenActive)) && (failureGrace <? time_sub now submitted)) eqn:E.
    + apply andb_prop in E as [E1 E2%Z.ltb_lt]. simpl. split; [split; [done|by intros ?%Hno]|].
      split; [|done].
      intros _. split; [done|]. split; [done|]. split; [done|]. destruct activeOK; [right|by left].
      by destruct inActive, seenActive.
    + destruct inActive, seenActive; simpl; (split; [split; [done|by intros ?%Hno]|]);
        done.
  - destruct inActive, seenActive; simpl; (split; [split; [done|by intros ?%Hno]|]);
      done.
Qed.

(** ** A tick, on the rows *)


Section tick_facts.
Context `{!Table T PortalJob, !TableLaws T PortalJob}.




End tick_facts.

(** ** Liveness of the poller *)

Section liveness.
Context `{!Table T PortalJob, !TableLaws T PortalJob}.






(** ** Pushes and races *)

(** A status push changes at most one row, the job it names in the
    organisation it authenticates for, and never one that is finished. *)
Theorem push_never_regresses `{!Table TO PortalOrg, !TableLaws TO PortalOrg}
  apiKey header svc payload now (orgs : TO) (t : T) j :
  ids_ok (tbl_rows t) -> j ∈ tbl_rows t ->
  let t' := (handleStatusNotify apiKey header svc payload now orgs t).2 in
  j ∈ tbl_rows t' \/
  exists p org, payload = Some p /\ org ∈ tbl_rows orgs /\ po_SvcUsername org = svc /\ po_Active org = true /\
    key_ok apiKey header = true /\ pj_OrgID j = po_ID org /\ pj_JobUUID j = sp_UUID p /\
    is_terminal j = false /\ apply_push p now j ∈ tbl_rows t'.
Proof.
  intros Hnd Hj t'. unfold t', handleStatusNotify.
  destruct (key_ok apiKey header); [|by left]. cbn [negb].
  set (Psvc := fun o => _).
  destruct (first_row (tbl_find Psvc orgs).1) as [[org|]|] eqn:Ho; [|by left..].
  destruct (po_Active org) eqn:Hact; [|by left]. cbn [negb].
  destruct payload as [p|]; [|by left]. destruct (sp_UUID p =? "")%string; [by left|].
  pose proof (find_rows (find_job (po_ID org) (sp_UUID p)) t) as Hrows.
  pose proof (find_result (find_job (po_ID org) (sp_UUID p)) t) as Hres.
  destruct (tbl_find (find_job (po_ID org) (sp_UUID p)) t) as [found t1]. simpl in Hrows, Hres.
  destruct (first_row found) as [[job|]|] eqn:Hf; cbn [snd]; [|by left; rewrite Hrows..].
  destruct (is_terminal job) eqn:Hterm; cbn [snd]; [by left; rewrite Hrows|].
  pose proof (update_ok (same_job job) (apply_push p now) t1) as Hok.
  pose proof (update_err (same_job job) (apply_push p now) t1) as Herr.
  destruct (tbl_update (same_job job) (apply_push p now) t1) as [ok t2]. simpl in Hok, Herr.
  destruct ok; cbn [snd]; [rewrite Hok by done|left; rewrite Herr by done; by rewrite Hrows]. rewrite Hrows.
  destruct found as [l|]; [|done]. specialize (Hres l eq_refl). subst l.
  injection Hf as Hf. apply head_Some in Hf as [l Hf].
  assert (job ∈ tbl_rows t /\ find_job (po_ID org) (sp_UUID p) job = true) as [Hjob Hfj].
  { rewrite list_elem_of_In, <- filter_In, Hf. by left. }
  destruct (same_job job j) eqn:Hsame.
  - apply Z.eqb_eq in Hsame. pose proof (ids_ok_inj (tbl_rows t) j job Hnd Hj Hjob Hsame) as ->.
    right. exists p, org. unfold find_job in Hfj. apply andb_prop in Hfj as [H1%Z.eqb_eq H2%String.eqb_eq].
    pose proof (find_result Psvc orgs) as Hor. destruct (tbl_find Psvc orgs).1 as [lo|]; [|done].
    specialize (Hor lo eq_refl). subst lo. injection Ho as Ho. apply head_Some in Ho as [lo Ho].
    assert (org ∈ tbl_rows orgs /\ Psvc org = true) as [Hin Hsvc%String.eqb_eq].
    { rewrite list_elem_of_In, <- filter_In, Ho. by left. }
    repeat (split; [done|]). apply list_elem_of_fmap. exists job. split; [|done].
    unfold same_job. by rewrite Z.eqb_refl.
  - left. apply list_elem_of_fmap. exists j. by rewrite Hsame.
Qed.

End liveness.

(** The poller does not share that protection. It writes the verdict
    of a job it read earlier without looking at the row again, so a push that
    lands in between is overwritten: the finished job is open again. *)
Theorem poll_regresses_pushed_job `{!Table T PortalJob, !TableLaws T PortalJob} w active ok job creds rows (t : T) j :
  tbl_healthy t -> j ∈ tbl_rows t -> same_job job j = true ->
  pw_creds w (pj_OrgID job) = Some creds -> pw_rows w creds (pj_JobUUID job) = Some rows ->
  de_terminal (decide_job rows (str_mem (pj_JobUUID job) active) ok (pj_SeenActive job)
                 (pj_SubmittedAt job) (pw_clock w job)) = false ->
  exists j', j' ∈ tbl_rows (reconcile w active ok job t) /\ pj_ID j' = pj_ID j /\ is_open j' = true.
Proof.
  intros Ht Hj Hsame Hc Hr Hd. unfold reconcile. rewrite Hc, Hr.
  set (d := decide_job _ _ _ _ _ _) in *. cbv zeta.
  destruct (update_healthy (same_job job) (apply_decision d (pw_clock w job)) t Ht) as (_ & -> & _).
  exists (apply_decision d (pw_clock w job) j). split.
  { apply list_elem_of_fmap. exists j. by rewrite Hsame. }
  assert (de_status d = JobQueued \/ de_status d = JobSending) as Hst.
  { unfold d, decide_job in *. destruct (List.find _ _); [done|].
    destruct (last_row _); [destruct (_ && _); [done|]|];
      destruct (str_mem (pj_JobUUID job) active), (pj_SeenActive job); auto. }
  unfold apply_decision, is_open. rewrite Hd. destruct (de_sawActive d); (split; [done|]); simpl;
    destruct Hst as [-> | ->]; done.
Qed.

(** ** Witnesses *)

Definition example_portal_job (id : Z) (status : string) (submitted : Z) : PortalJob := {|
  pj_ID := id; pj_JobUUID := "u"; pj_OrgID := 1; pj_UserID := 1; pj_CallerNumber := "1";
  pj_CalleeNumber := "2"; pj_OriginalFilename := "a.pdf"; pj_Status := status; pj_Pages := 0; pj_TotalPages := 0;
  pj_Attempts := 0; pj_ResultText := ""; pj_LastError := ""; pj_SeenActive := false;
  pj_SubmittedAt := submitted; pj_CompletedAt := None; pj_UpdatedAt := submitted |}.

(** Nothing upstream, two days later. *)
Definition example_world : PollWorld := {|
  pw_now := 48 * hour; pw_active := Some []; pw_creds _ := Some ("svc", "pw"); pw_rows _ _ := Some [];
  pw_clock _ := 48 * hour |}.

Definition example_jobs : ListTable PortalJob :=
  fresh_table [example_portal_job 1 JobQueued (1 * hour); example_portal_job 2 JobSuccess (1 * hour)] 3 [].


Definition example_push : statusNotifyPayload := {|
  sp_UUID := "u"; sp_Success := false; sp_AllAttemptsFailed := true; sp_Attempts := 3;
  sp_TransferredPages := 0; sp_TotalPages := 2; sp_ResultText := ""; sp_HangupCause := "NO_ANSWER"; sp_EndTs := 0 |}.

Definition example_orgs : ListTable PortalOrg :=
  fresh_table [{| po_ID := 1; po_Name := "Acme"; po_GofaxTenantID := 4; po_SvcUsername := "svc"; po_SvcPasswordEnc := ""; po_TenantNotify := ""; po_TOTPRequired := false; po_RetentionDays := 30; po_Active := true |}] 2 [].

Lemma push_never_regresses_witness :
  let t' := (handleStatusNotify "" "" "svc" (Some example_push) 5 example_orgs example_jobs).2 in
  example_portal_job 2 JobSuccess (1 * hour) ∈ tbl_rows t' /\
  map pj_Status (tbl_rows t') = [JobFailed; JobSuccess].
Proof.
  intros t'. split; [|vm_compute; reflexivity].
  pose proof (push_never_regresses (T := ListTable PortalJob) (TO := ListTable PortalOrg)
    "" "" "svc" (Some example_push) 5 example_orgs example_jobs
    (example_portal_job 2 JobSuccess (1 * hour))) as H.
  cbv zeta in H. fold t' in H.
  destruct H as [H|(p & org & H)];
    [apply (bool_decide_unpack _); vm_compute; exact I|right; left|exact H|].
  destruct H as (_ & _ & _ & _ & _ & _ & _ & Ht & _). discriminate Ht.
Defined.

Lemma poll_regresses_pushed_job_witness :
  let pushed := (handleStatusNotify "" "" "svc" (Some example_push) 5 example_orgs example_jobs).2 in
  exists j', j' ∈ tbl_rows (reconcile (example_world <| pw_clock := fun _ => 1 * hour |>) [] true
                              (example_portal_job 1 JobQueued (1 * hour)) pushed) /\
    pj_ID j' = 1 /\ is_open j' = true.
Proof.
  intros pushed.
  destruct (poll_regresses_pushed_job (example_world <| pw_clock := fun _ => 1 * hour |>) [] true
    (example_portal_job 1 JobQueued (1 * hour)) ("svc", "pw") [] pushed
    (apply_push example_push 5 (example_portal_job 1 JobQueued (1 * hour)))) as (j' & H1 & H2 & H3).
  - repeat constructor.
  - assert (tbl_rows pushed = [apply_push example_push 5 (example_portal_job 1 JobQueued (1 * hour));
      example_portal_job 2 JobSuccess (1 * hour)]) as -> by (vm_compute; reflexivity). by left.
  - reflexivity.
  - reflexivity.
  - reflexivity.
  - vm_compute. reflexivity.
  - exists j'. split; [exact H1|]. split; [exact H2|exact H3].
Defined.
