(* ===== verification/RateLimit.v ===== *)
(** * RateLimit: the portal's rate limiter ([portal/internal/auth/auth.go])

    A limiter keeps, per key, the times of the granted requests that are still
    in the window; it prunes the key it is asked about, and every key once in
    ten windows. The specification is a limiter that never forgets: it keeps
    the whole log of grants and counts the recent ones. *)

From S2P Require Import Prelude.

Record RateLimiter := { rl_window : Z; rl_hits : gmap string (list Z); rl_lastGC : Z }.

Definition NewRateLimiter (window now : Z) : RateLimiter :=
  {| rl_window := window; rl_hits := ∅; rl_lastGC := now |}.

(** The loop that keeps the times inside the window, in both places. *)
Definition recent (window now : Z) (ts : list Z) : list Z :=
  List.filter (fun t => time_sub now t <? window) ts.

(** The collection: a key without a recent time goes. *)
Definition collect (now : Z) (r : RateLimiter) : RateLimiter :=
  if wrap64 (10 * rl_window r) <? time_sub now (rl_lastGC r) then
    r <| rl_hits ::= omap (fun ts => match recent (rl_window r) now ts with [] => None | kept => Some kept end) |>
      <| rl_lastGC := now |>
  else r.

(** The map's zero value: no times. *)
Definition hits_of (r : RateLimiter) (key : string) : list Z := default [] (rl_hits r !! key).

Definition Allow (now : Z) (key : string) (limit : Z) (r : RateLimiter) : bool * RateLimiter :=
  let r1 := collect now r in
  let kept := recent (rl_window r1) now (hits_of r1 key) in
  if limit <=? Z.of_nat (length kept)
  then (false, r1 <| rl_hits ::= <[key := kept]> |>)
  else (true, r1 <| rl_hits ::= <[key := kept ++ [now]]> |>).

(** ** The limiter that never forgets *)

Record attempt := { at_time : Z; at_key : string; at_limit : Z }.

(** What was granted so far, oldest first. *)
Notation grant_log := (list (string * Z)) (only parsing).

Definition granted_times (key : string) (log : grant_log) : list Z :=
  map snd (List.filter (fun g => (fst g =? key)%string) log).

Definition spec_allow (window : Z) (a : attempt) (log : grant_log) : bool :=
  Z.of_nat (length (recent window (at_time a) (granted_times (at_key a) log))) <? at_limit a.

Definition spec_step (window : Z) (a : attempt) (log : grant_log) : bool * grant_log :=
  if spec_allow window a log then (true, log ++ [(at_key a, at_time a)]) else (false, log).

Fixpoint spec_run (window : Z) (tr : list attempt) (log : grant_log) : list bool * grant_log :=
  match tr with
  | [] => ([], log)
  | a :: tr' =>
      let '(b, log1) := spec_step window a log in
      let '(bs, log2) := spec_run window tr' log1 in (b :: bs, log2)
  end.

Fixpoint run_limiter (tr : list attempt) (r : RateLimiter) : list bool * RateLimiter :=
  match tr with
  | [] => ([], r)
  | a :: tr' =>
      let '(b, r1) := Allow (at_time a) (at_key a) (at_limit a) r in
      let '(bs, r2) := run_limiter tr' r1 in (b :: bs, r2)
  end.

(** The clock does not run backwards, and starts at [from]. *)
Fixpoint clock_from (from : Z) (tr : list attempt) : Prop :=
  match tr with
  | [] => True
  | a :: tr' => from <= at_time a /\ clock_from (at_time a) tr'
  end.

(** The grants of a run. *)
Fixpoint grants (tr : list attempt) (bs : list bool) : grant_log :=
  match tr, bs with
  | a :: tr', b :: bs' => (if b then [(at_key a, at_time a)] else []) ++ grants tr' bs'
  | _, _ => []
  end.

(** Those of [key] in a window that starts at [from]. *)
Definition in_window (window : Z) (key : string) (from : Z) (log : grant_log) : grant_log :=
  List.filter (fun g => (fst g =? key)%string && (from <=? snd g) && (snd g <? from + window)) log.

Example limiter_runs :
  (run_limiter [{| at_time := 0; at_key := "k"; at_limit := 2 |}; {| at_time := 1; at_key := "k"; at_limit := 2 |};
     {| at_time := 2; at_key := "k"; at_limit := 2 |}; {| at_time := 10; at_key := "k"; at_limit := 2 |};
     {| at_time := 10; at_key := "k"; at_limit := 2 |}] (NewRateLimiter 10 0)).1 = [true; true; false; true; false].
Proof. vm_compute. reflexivity. Qed.

(** ** Facts *)

(** A window is a duration the limiter can compare. *)
Definition window_ok (window : Z) : Prop := 0 < window <= int64_max.

Lemma recent_later window now1 now2 ts : window_ok window -> now1 <= now2 ->
  recent window now2 (recent window now1 ts) = recent window now2 ts.
Proof.
  intros Hw ?. unfold recent. rewrite filter_filter. apply filter_ext. intros t.
  unfold window_ok, int64_max in Hw. rewrite !time_sub_lt by (unfold int64_min, int64_max; lia).
  destruct (now2 - t <? window) eqn:E; [|apply andb_false_r]. reflect_bools.
  rewrite (proj2 (Z.ltb_lt (now1 - t) window)) by lia. reflexivity.
Qed.

Lemma recent_app window now ts1 ts2 :
  recent window now (ts1 ++ ts2) = recent window now ts1 ++ recent window now ts2.
Proof. apply List.filter_app. Qed.

Lemma collect_window now r : rl_window (collect now r) = rl_window r.
Proof. unfold collect. by case_match. Qed.

Lemma collect_hits window now now' r key :
  window_ok window -> rl_window r = window -> now <= now' ->
  recent window now' (hits_of (collect now r) key) = recent window now' (hits_of r key).
Proof.
  intros Hw Hr Hle. unfold collect. case_match; [|done]. unfold hits_of. cbn. rewrite lookup_omap, Hr.
  destruct (rl_hits r !! key) as [ts|]; simpl; [|done].
  rewrite <- (recent_later window now now' ts Hw Hle). by destruct (recent window now ts).
Qed.

Lemma hits_of_insert (r : RateLimiter) key key' ts :
  hits_of (r <| rl_hits ::= <[key := ts]> |>) key' = if (key =? key')%string then ts else hits_of r key'.
Proof.
  unfold hits_of. cbn. destruct (String.eqb_spec key key') as [->|]; [by rewrite lookup_insert_eq|].
  by rewrite lookup_insert_ne.
Qed.

Lemma granted_times_app key log g :
  granted_times key (log ++ [g]) =
    granted_times key log ++ (if (fst g =? key)%string then [snd g] else []).
Proof. unfold granted_times. rewrite List.filter_app, map_app. simpl. by destruct (_ =? _)%string. Qed.

(** From [now0] on, the limiter's memory and the log look the same. *)
Definition agrees (window now0 : Z) (r : RateLimiter) (log : grant_log) : Prop :=
  rl_window r = window /\
  forall key now, now0 <= now -> recent window now (hits_of r key) = recent window now (granted_times key log).

Lemma Allow_agrees window now0 r log a :
  window_ok window -> agrees window now0 r log -> now0 <= at_time a ->
  let '(b, r') := Allow (at_time a) (at_key a) (at_limit a) r in
  let '(b', log') := spec_step window a log in
  b = b' /\ agrees window (at_time a) r' log'.
Proof.
  intros Hw [Hr Hag] Hle. unfold Allow, spec_step, spec_allow.
  rewrite collect_window, Hr, (collect_hits window) by (done || lia). rewrite Hag by done.
  assert (forall key now, at_time a <= now ->
    recent window now (hits_of (collect (at_time a) r) key) = recent window now (granted_times key log)) as Hc.
  { intros key now Hn. rewrite (collect_hits window) by done. apply Hag. lia. }
  rewrite Z.leb_antisym. destruct (_ <? at_limit a); cbn [negb]; (split; [done|]);
    (split; [cbn; by rewrite collect_window|]); intros key now Hn; rewrite hits_of_insert.
  - rewrite granted_times_app. cbn [fst snd]. destruct (String.eqb_spec (at_key a) key) as [<-|].
    + rewrite !recent_app. by rewrite recent_later.
    + rewrite app_nil_r. by apply Hc.
  - destruct (String.eqb_spec (at_key a) key) as [<-|]; [|by apply Hc]. by rewrite recent_later.
Qed.

Lemma run_agrees window tr : window_ok window -> forall now0 r log,
  agrees window now0 r log -> clock_from now0 tr ->
  (run_limiter tr r).1 = (spec_run window tr log).1.
Proof.
  intros Hw. induction tr as [|a tr IH]; intros now0 r log Hag Hc; [done|].
  destruct Hc as [Hle Hc]. simpl. pose proof (Allow_agrees window now0 r log a Hw Hag Hle) as Hstep.
  destruct (Allow _ _ _ r) as [b r1], (spec_step window a log) as [b' log1].
  destruct Hstep as [-> Hag1]. specialize (IH _ _ _ Hag1 Hc).
  destruct (run_limiter tr r1), (spec_run window tr log1). simpl in *. by rewrite IH.
Qed.

Lemma new_agrees window now : agrees window now (NewRateLimiter window now) [].
Proof. split; [done|]. intros key n ?. reflexivity. Qed.

Lemma spec_run_log window tr log : (spec_run window tr log).2 = log ++ grants tr (spec_run window tr log).1.
Proof.
  revert log. induction tr as [|a tr IH]; intros log; simpl; [by rewrite app_nil_r|].
  unfold spec_step. destruct (spec_allow window a log); simpl.
  - specialize (IH (log ++ [(at_key a, at_time a)])). destruct (spec_run window tr _); simpl in *.
    by rewrite IH, <- app_assoc.
  - specialize (IH log). by destruct (spec_run window tr log).
Qed.

Lemma in_window_app window key from log g :
  in_window window key from (log ++ [g]) = in_window window key from log ++ in_window window key from [g].
Proof. apply List.filter_app. Qed.

(** Of the log's grants in a window that has begun, all are recent. *)
Lemma in_window_recent window key from now log :
  window_ok window -> now < from + window -> Forall (fun g => snd g <= now) log ->
  (length (in_window window key from log) <= length (recent window now (granted_times key log)))%nat.
Proof.
  intros Hw Hn. unfold in_window, granted_times, recent. induction 1 as [|[k t] log Ht Hlog IH]; simpl in *; [lia|].
  destruct (k =? key)%string; simpl; [|lia]. unfold window_ok, int64_max in Hw.
  rewrite time_sub_lt by (unfold int64_min, int64_max; lia).
  destruct ((from <=? t) && (t <? from + window)) eqn:E; reflect_bools.
  - rewrite (proj2 (Z.ltb_lt (now - t) window)) by lia. simpl. lia.
  - destruct (now - t <? window); simpl; lia.
Qed.

(** The specification never grants more than [limit] times in a window. *)
Lemma spec_run_bounded window limit key from tr : window_ok window -> 0 <= limit -> forall now0 log,
  Forall (fun a => at_limit a <= limit) tr -> clock_from now0 tr ->
  Forall (fun g => snd g <= now0) log ->
  Z.of_nat (length (in_window window key from log)) <= limit ->
  Z.of_nat (length (in_window window key from (spec_run window tr log).2)) <= limit.
Proof.
  intros Hw Hlim. induction tr as [|a tr IH]; intros now0 log Hl Hc Hlog Hb; [done|].
  apply Forall_cons in Hl as [Ha Hl]. destruct Hc as [Hle Hc]. simpl.
  assert (Forall (fun g => snd g <= at_time a) log) as Hlog' by (eapply Forall_impl; [exact Hlog|]; simpl; lia).
  destruct (spec_step window a log) as [b log1] eqn:E.
  assert (Forall (fun g => snd g <= at_time a) log1 /\ Z.of_nat (length (in_window window key from log1)) <= limit) as [H1 H2].
  { unfold spec_step in E. destruct (spec_allow window a log) eqn:Ea; injection E as <- <-; [|done].
    split; [apply Forall_app; split; [done|repeat constructor; simpl; lia]|].
    rewrite in_window_app, length_app. unfold in_window at 2. simpl.
    destruct (String.eqb_spec (at_key a) key) as [<-|]; simpl; [|lia].
    destruct ((from <=? at_time a) && (at_time a <? from + window)) eqn:Ew; simpl; [|lia]. reflect_bools.
    unfold spec_allow in Ea. reflect_bools.
    pose proof (in_window_recent window (at_key a) from (at_time a) log Hw ltac:(lia) Hlog'). lia. }
  specialize (IH _ _ Hl Hc H1 H2). by destruct (spec_run window tr log1).
Qed.

(** On a clock that does not run backwards the limiter, which prunes
    and collects, answers every request as the limiter that keeps the whole log
    of grants and counts those less than a window old; it allows a request
    exactly when the log holds fewer than the limit of the key's grants, so a
    refused request costs nothing. *)
Theorem limiter_forgets_nothing window start tr :
  window_ok window -> clock_from start tr ->
  (run_limiter tr (NewRateLimiter window start)).1 = (spec_run window tr []).1.
Proof. intros Hw Hc. by apply (run_agrees window tr Hw start); [apply new_agrees|]. Qed.

(** C19: whatever the requests, in no window of the limiter's length does a
    key get more grants than the limit. *)
Theorem limiter_bounds_window window start limit key from tr :
  window_ok window -> 0 <= limit -> clock_from start tr -> Forall (fun a => at_limit a <= limit) tr ->
  Z.of_nat (length (in_window window key from (grants tr (run_limiter tr (NewRateLimiter window start)).1))) <= limit.
Proof.
  intros Hw Hlim Hc Hl. rewrite (run_agrees window tr Hw start _ []) by (done || apply new_agrees).
  replace (grants tr _) with (spec_run window tr []).2 by apply spec_run_log.
  by apply (spec_run_bounded window limit key from tr Hw Hlim start []).
Qed.

Definition burst : list attempt :=
  map (fun t => {| at_time := t * second; at_key := "10.0.0.1|ann"; at_limit := 3 |})
    [0; 1; 2; 3; 59; 60; 61; 700; 701].

Lemma limiter_forgets_nothing_witness :
  (run_limiter burst (NewRateLimiter minute 0)).1 = (spec_run minute burst []).1 /\
  (spec_run minute burst []).1 = [true; true; true; false; false; true; true; true; true].
Proof.
  split; [|vm_compute; reflexivity]. apply (limiter_forgets_nothing minute 0 burst).
  - split; [reflexivity|vm_compute; discriminate].
  - vm_compute. repeat split; discriminate.
Defined.

Lemma limiter_bounds_window_witness :
  Z.of_nat (length (in_window minute "10.0.0.1|ann" 0 (grants burst (run_limiter burst (NewRateLimiter minute 0)).1))) <= 3.
Proof.
  apply (limiter_bounds_window minute 0 3 "10.0.0.1|ann" 0 burst).
  - split; [reflexivity|vm_compute; discriminate].
  - vm_compute. discriminate.
  - vm_compute. repeat split; discriminate.
  - unfold burst. cbn [map]. repeat (apply Forall_cons; split; [cbn [at_limit]; lia|]). apply Forall_nil. exact I.
Defined.
