(* ===== verification/PortalAuth.v ===== *)
(** * PortalAuth: logging in to the portal
    ([portal/internal/auth/auth.go], [portal/internal/api/handlers_auth.go],
    [handlers_totp.go], the middleware of [server.go], [internal/totp],
    [internal/crypto])

    A password login ends in a session, or, when the user's organisation
    demands a second factor, in a pending token that a one-time code turns into
    a session. Handlers run in a small monad: the tables and the limiter are
    the state, and an early return carries the reply. The clock reads the same
    throughout one request. Audit rows and what the reply says of the user's
    organisation and numbers are left out. *)

From S2P Require Import Prelude Store PortalModels RateLimit.

(** ** Sealed boxes ([crypto.Box]) *)

(** AES-GCM under a 32-byte key, and SHA-256. *)
Class Crypto := {
  sha256 : string -> string;
  hex : string -> string;
  nonce_size : nat;
  aead_seal : string -> string -> string -> string;          (* key, nonce, plaintext *)
  aead_open : string -> string -> string -> option string;   (* key, nonce, ciphertext *)
}.

Class CryptoLaws `{Crypto} : Prop :=
  open_seal : forall k n p, String.length n = nonce_size -> aead_open k n (aead_seal k n p) = Some p.

Section boxes.
Context `{Crypto}.

(** A box is its derived key. *)
Definition NewBox (secret : string) : string := sha256 secret.
Definition NewFaxBox (secret : string) : string := NewBox ("gofaxportal-fax-storage-v1:" +:+ secret).
Definition NewTOTPBox (secret : string) : string := NewBox ("gofaxportal-totp-v1:" +:+ secret).
Definition NewPrepBox (secret : string) : string := NewBox ("gofaxportal-prep-storage-v1:" +:+ secret).

(** [nonce]: what the random source yields, or its error. *)
Definition SealString (box : string) (nonce : option string) (s : string) : option string :=
  match nonce with
  | None => None
  | Some n => Some (n +:+ aead_seal box n s)
  end.

Definition OpenString (box data : string) : option string :=
  if (String.length data <? nonce_size)%nat then None
  else aead_open box (str_take nonce_size data) (str_drop nonce_size data).

Definition HashToken (token : string) : string := hex (sha256 token).

End boxes.

(** A nonce of the right length, if the random source yields one. *)
Definition fresh_nonce `{Crypto} (nonce : option string) : Prop := forall n, nonce = Some n -> String.length n = nonce_size.

Lemma sealed_opens `{CryptoLaws} box nonce s sealed : fresh_nonce nonce -> SealString box nonce s = Some sealed ->
  OpenString box sealed = Some s.
Proof.
  intros Hn. unfold SealString. destruct nonce as [n|]; [|done]. intros [= <-]. specialize (Hn n eq_refl).
  unfold OpenString. rewrite str_length_app, Hn, (proj2 (Nat.ltb_ge _ _)) by lia.
  rewrite <- Hn, str_take_app, str_drop_app. by apply open_seal.
Qed.

(** ** One-time codes ([internal/totp]) *)

Record Enrollment := { en_Secret : string; en_URL : string; en_QRPNG : string }.

(** The otp library and the picture: a key for the account, fresh ([None]) or
    from raw bytes; the check of a code at a time, [None] an error. *)
Class OTP := {
  otp_generate : Z -> string -> option string -> option Enrollment;
  otp_validate : string -> string -> Z -> option bool;
  b32_decode : string -> option string;
}.

Section totp.
Context `{OTP}.

Definition build (rnd : Z) (accountName : string) (secret : option string) : option Enrollment :=
  otp_generate rnd accountName secret.

Definition Generate (rnd : Z) (accountName : string) : option Enrollment := build rnd accountName None.

Definition EnrollmentFromSecret (rnd : Z) (accountName secret : string) : option Enrollment :=
  match b32_decode (to_upper (trim_space secret)) with
  | None => None
  | Some raw => build rnd accountName (Some raw)
  end.

Definition Validate (now : Z) (code secret : string) : bool :=
  let code := trim_space code in
  if negb (String.length code =? 6)%nat || (secret =? "")%string then false
  else match otp_validate code secret now with Some ok => ok | None => false end.

End totp.

(** ** The handlers' monad *)

Inductive reply :=
| Fail (code : Z) (error : string)
| MFA (mfa token : string)
| LoggedIn (user : Z) (token csrf : string) (expires : Z)   (* the cookie, and the /auth/me payload *)
| ShowEnrollment (e : Enrollment)
| LoggedOut
| Me (user : Z) (csrf : string)
| Served.                                                    (* the route's own handler ran *)

Inductive flow (A : Type) := Return (r : reply) | Next (a : A).
Arguments Return {A} r.
Arguments Next {A} a.

Definition sessionTTL : Z := 24 * hour.
Definition pendingAuthTTL : Z := 10 * minute.

(** What a request brings besides its body. [ev_token] and [ev_csrf] are the
    next two random tokens, [ev_nonce] the next nonce. *)
Record ReqEnv := {
  ev_now : Z; ev_ip : string; ev_token : string; ev_csrf : string; ev_rnd : Z; ev_nonce : option string;
}.

Record PortalConfig := { pc_EncryptionKey : string; pc_LoginRatePerMinute : Z }.

Section portal.
Context {TS TP TU TO : Type} `{!Table TS Session} `{!Table TP PendingAuth}
  `{!Table TU PortalUser} `{!Table TO PortalOrg} `{Crypto} `{OTP}.
(** [bcrypt.CompareHashAndPassword] succeeds. *)
Variable CheckPassword : string -> string -> bool.
Variable cfg : PortalConfig.

Record Portal := {
  ps_sessions : TS; ps_pending : TP; ps_users : TU; ps_orgs : TO; ps_loginLimit : RateLimiter;
}.

Definition HM (A : Type) : Type := Portal -> flow A * Portal.

#[local] Instance hm_ret : MRet HM := fun A a st => (Next a, st).
#[local] Instance hm_bind : MBind HM := fun A B f m st =>
  match m st with
  | (Next a, st') => f a st'
  | (Return r, st') => (Return r, st')
  end.

(** An early return, and one taken unless [b]. *)
Definition reply_with {A} (r : reply) : HM A := fun st => (Return r, st).
Definition check (b : bool) (r : reply) : HM () := if b then mret () else reply_with r.
Definition or_reply {A} (o : option A) (r : reply) : HM A :=
  match o with Some a => mret a | None => reply_with r end.

(** The table operations, on their component of the state. *)
Definition on_sessions {A} (f : TS -> A * TS) : HM A := fun st =>
  let '(a, t) := f (ps_sessions st) in (Next a, st <| ps_sessions := t |>).
Definition on_pending {A} (f : TP -> A * TP) : HM A := fun st =>
  let '(a, t) := f (ps_pending st) in (Next a, st <| ps_pending := t |>).
Definition on_users {A} (f : TU -> A * TU) : HM A := fun st =>
  let '(a, t) := f (ps_users st) in (Next a, st <| ps_users := t |>).
Definition on_orgs {A} (f : TO -> A * TO) : HM A := fun st =>
  let '(a, t) := f (ps_orgs st) in (Next a, st <| ps_orgs := t |>).
Definition on_limit {A} (f : RateLimiter -> A * RateLimiter) : HM A := fun st =>
  let '(a, t) := f (ps_loginLimit st) in (Next a, st <| ps_loginLimit := t |>).

Definition has_id {R} `{HasID R} (i : Z) (r : R) : bool := get_id r =? i.

(** ** The session service *)

(** A token and the row stored for it. *)
Definition new_session (ev : ReqEnv) (userID : Z) : Session :=
  {| ss_ID := 0; ss_TokenHash := HashToken (ev_token ev); ss_CSRFToken := ev_csrf ev; ss_UserID := userID;
     ss_ExpiresAt := ev_now ev + sessionTTL; ss_CreatedAt := ev_now ev |}.

(** The token, the CSRF token and the expiry; [None] when the insert fails. *)
Definition CreateSession (ev : ReqEnv) (userID : Z) : HM (option (string * string * Z)) :=
  made ← on_sessions (tbl_create (new_session ev userID));
  mret (match made with
        | Some _ => Some (ev_token ev, ev_csrf ev, ev_now ev + sessionTTL)
        | None => None
        end).

Definition has_token (token : string) (s : Session) : bool := (ss_TokenHash s =? HashToken token)%string.

(** The half of a lifetime after which a session is renewed. *)
Definition renews (now : Z) (s : Session) : bool := sessionTTL / 2 <? time_sub now (ss_CreatedAt s).

Definition Lookup (now : Z) (token : string) : HM (option (Session * PortalUser)) :=
  if (token =? "")%string then mret None
  else
    found ← on_sessions (tbl_first (has_token token));
    match found with
    | None => mret None
    | Some sess =>
        if ss_ExpiresAt sess <? now
        then _ ← on_sessions (tbl_delete (has_id (ss_ID sess))); mret None
        else
          owner ← on_users (tbl_first (has_id (ss_UserID sess)));
          match owner with
          | None => mret None
          | Some user =>
              if negb (pu_Active user)
              then _ ← on_sessions (tbl_delete (has_id (ss_ID sess))); mret None
              else if renews now sess
              then
                let renewed := sess <| ss_ExpiresAt := now + sessionTTL |> in
                _ ← on_sessions (tbl_update (has_id (ss_ID sess)) (fun s => s <| ss_ExpiresAt := now + sessionTTL |>));
                mret (Some (renewed, user))
              else mret (Some (sess, user))
          end
    end.

Definition Destroy (token : string) : HM bool := on_sessions (tbl_delete (has_token token)).

Definition CreatePendingAuth (ev : ReqEnv) (userID : Z) (purpose : string) : HM (option string) :=
  made ← on_pending (tbl_create
    {| pa_ID := 0; pa_TokenHash := HashToken (ev_token ev); pa_UserID := userID; pa_Purpose := purpose;
       pa_ExpiresAt := ev_now ev + pendingAuthTTL |});
  mret (match made with Some _ => Some (ev_token ev) | None => None end).

Definition has_pending_token (token : string) (p : PendingAuth) : bool :=
  (pa_TokenHash p =? HashToken token)%string.

Definition ConsumePendingAuth (pa : PendingAuth) : HM bool := on_pending (tbl_delete (has_id (pa_ID pa))).

Definition LookupPendingAuth (now : Z) (token : string) : HM (option PendingAuth) :=
  if (token =? "")%string then mret None
  else
    found ← on_pending (tbl_first (has_pending_token token));
    match found with
    | None => mret None
    | Some pa =>
        if pa_ExpiresAt pa <? now then _ ← ConsumePendingAuth pa; mret None
        else mret (Some pa)
    end.

Definition DestroyUserSessions (userID : Z) : HM bool :=
  on_sessions (tbl_delete (fun s => ss_UserID s =? userID)).

(** In Go a length check and a constant-time comparison. *)
Definition SecureEquals (a b : string) : bool :=
  (String.length a =? String.length b)%nat && (a =? b)%string.

Definition PurgeExpired (now : Z) : HM () :=
  _ ← on_sessions (tbl_delete (fun s => ss_ExpiresAt s <? now));
  _ ← on_pending (tbl_delete (fun p => pa_ExpiresAt p <? now));
  mret ().

(** ** Logging in *)

Definition totp_box : string := NewTOTPBox (pc_EncryptionKey cfg).

Definition issueSession (ev : ReqEnv) (user : PortalUser) : HM reply :=
  made ← CreateSession ev (pu_ID user);
  '(token, csrf, expires) ← or_reply made (Fail 500 "failed to create session");
  mret (LoggedIn (pu_ID user) token csrf expires).

(** Seals a secret for a user who has none; the user as the caller goes on
    with it, or [None] for an error. *)
Definition prepareEnrollment (ev : ReqEnv) (user : PortalUser) : HM bool :=
  if negb (pu_TOTPSecretEnc user =? "")%string then mret true
  else
    match Generate (ev_rnd ev) (pu_Username user) with
    | None => mret false
    | Some enr =>
        match SealString totp_box (ev_nonce ev) (en_Secret enr) with
        | None => mret false
        | Some sealed =>
            on_users (tbl_update (has_id (pu_ID user))
              (fun u => u <| pu_TOTPSecretEnc := sealed |> <| pu_TOTPEnabled := false |>))
        end
    end.

Definition bad_mfa : reply := Fail 401 "invalid or expired 2FA session".

Definition login_key (ev : ReqEnv) (username : string) : string := ev_ip ev +:+ "|" +:+ to_lower username.

(** The second factor is due; the reply names the stage. *)
Definition secondFactor (ev : ReqEnv) (user : PortalUser) : HM reply :=
  if negb (pu_TOTPEnabled user) then
    ready ← prepareEnrollment ev user;
    _ ← check ready (Fail 500 "failed to start 2FA enrollment");
    made ← CreatePendingAuth ev (pu_ID user) PendingAuthPurposeEnroll;
    pending ← or_reply made (Fail 500 "failed to start 2FA enrollment");
    mret (MFA "enroll_required" pending)
  else
    made ← CreatePendingAuth ev (pu_ID user) PendingAuthPurposeLogin;
    pending ← or_reply made (Fail 500 "failed to start 2FA challenge");
    mret (MFA "totp_required" pending).

Definition by_username (username : string) (u : PortalUser) : bool := (pu_Username u =? username)%string.

(** [req] is [None] when the body does not parse. *)
Definition handleLogin (ev : ReqEnv) (req : option (string * string)) : HM reply :=
  '(name, password) ← or_reply req (Fail 400 "username and password required");
  _ ← check (nonempty name && nonempty password) (Fail 400 "username and password required");
  let username := trim_space name in
  allowed ← on_limit (Allow (ev_now ev) (login_key ev username) (pc_LoginRatePerMinute cfg));
  _ ← check allowed (Fail 429 "too many login attempts, try again later");
  found ← on_users (tbl_first (by_username username));
  user ← or_reply found (Fail 401 "invalid credentials");
  _ ← check (CheckPassword (pu_PasswordHash user) password) (Fail 401 "invalid credentials");
  _ ← check (pu_Active user) (Fail 403 "account is deactivated");
  match pu_OrgID user with
  | None => issueSession ev user
  | Some orgID =>
      row ← on_orgs (tbl_first (has_id orgID));
      org ← or_reply row (Fail 403 "organization is inactive");
      _ ← check (po_Active org) (Fail 403 "organization is inactive");
      if (pu_Role user =? RoleUser)%string && po_TOTPRequired org then secondFactor ev user
      else issueSession ev user
  end.

Definition handleTOTPSetup (ev : ReqEnv) (req : option string) : HM reply :=
  token ← or_reply req (Fail 400 "mfa_token required");
  let token := trim_space token in
  _ ← check (nonempty token) (Fail 400 "mfa_token required");
  found ← LookupPendingAuth (ev_now ev) token;
  pa ← or_reply found bad_mfa;
  _ ← check (pa_Purpose pa =? PendingAuthPurposeEnroll)%string bad_mfa;
  owner ← on_users (tbl_first (has_id (pa_UserID pa)));
  user ← or_reply owner bad_mfa;
  secret ← or_reply (OpenString totp_box (pu_TOTPSecretEnc user)) (Fail 500 "failed to unlock 2FA enrollment");
  enr ← or_reply (EnrollmentFromSecret (ev_rnd ev) (pu_Username user) secret)
    (Fail 500 "failed to render 2FA enrollment");
  mret (ShowEnrollment enr).

Definition totp_key (ev : ReqEnv) (token : string) : string := ev_ip ev +:+ "|totp|" +:+ token.

Definition handleTOTPVerify (ev : ReqEnv) (req : option (string * string)) : HM reply :=
  '(rawToken, code) ← or_reply req (Fail 400 "mfa_token and code required");
  let token := trim_space rawToken in
  _ ← check (nonempty token && nonempty (trim_space code)) (Fail 400 "mfa_token and code required");
  allowed ← on_limit (Allow (ev_now ev) (totp_key ev token) (pc_LoginRatePerMinute cfg));
  _ ← check allowed (Fail 429 "too many attempts, try again later");
  found ← LookupPendingAuth (ev_now ev) token;
  pa ← or_reply found bad_mfa;
  owner ← on_users (tbl_first (has_id (pa_UserID pa)));
  user ← or_reply owner bad_mfa;
  _ ← check (pu_Active user) bad_mfa;
  secret ← or_reply (OpenString totp_box (pu_TOTPSecretEnc user)) (Fail 500 "failed to unlock 2FA secret");
  _ ← check (Validate (ev_now ev) code secret) (Fail 401 "invalid code");
  _ ← ConsumePendingAuth pa;
  if (pa_Purpose pa =? PendingAuthPurposeEnroll)%string then
    done ← on_users (tbl_update (has_id (pu_ID user)) (fun u => u <| pu_TOTPEnabled := true |>));
    _ ← check done (Fail 500 "failed to finalize enrollment");
    issueSession ev user
  else issueSession ev user.

(** ** The middleware *)

(** What [authenticate] leaves in the request context. *)
Notation Identity := (option (Session * PortalUser)) (only parsing).

Definition currentUser (ctx : Identity) : option (Session * PortalUser) := ctx.

Definition currentOrgID (ctx : Identity) : option Z :=
  match ctx with Some (_, user) => pu_OrgID user | None => None end.

(** [cookie]: the session cookie's value, [None] without one. *)
Definition authenticate (ev : ReqEnv) (cookie : option string) : HM Identity :=
  match cookie with
  | Some value => if nonempty value then Lookup (ev_now ev) value else mret None
  | None => mret None
  end.

Definition mutatingMethods : list string := ["POST"; "PUT"; "PATCH"; "DELETE"].

Definition requireAuth (method csrfHeader : string) (ctx : Identity) : HM () :=
  match currentUser ctx with
  | Some (sess, user) =>
      _ ← check (pu_Active user) (Fail 401 "authentication required");
      check (negb (str_mem method mutatingMethods && negb (SecureEquals csrfHeader (ss_CSRFToken sess))))
        (Fail 403 "csrf validation failed")
  | None => reply_with (Fail 401 "authentication required")
  end.

Definition requireAdminRealm (ctx : Identity) : HM () :=
  match currentUser ctx with
  | Some (_, user) => check (pu_Role user =? RoleAdmin)%string (Fail 403 "admin access required")
  | None => reply_with (Fail 403 "admin access required")
  end.

Definition requireUserRealm (ctx : Identity) : HM () :=
  '(_, user) ← or_reply (currentUser ctx) (Fail 401 "authentication required");
  _ ← check (pu_Role user =? RoleUser)%string (Fail 403 "this area is for fax user accounts");
  orgID ← or_reply (currentOrgID ctx) (Fail 403 "account is not linked to an organization");
  row ← on_orgs (tbl_first (has_id orgID));
  org ← or_reply row (Fail 403 "organization is inactive");
  _ ← check (po_Active org) (Fail 403 "organization is inactive");
  check (negb (po_TOTPRequired org && negb (pu_TOTPEnabled user))) (Fail 403 "totp_enrollment_required").

Definition handleLogout (cookie : option string) : HM reply :=
  match cookie with
  | Some value => _ ← Destroy value; mret LoggedOut
  | None => mret LoggedOut
  end.

Definition handleMe (ctx : Identity) : HM reply :=
  '(sess, user) ← or_reply (currentUser ctx) (Fail 401 "authentication required");
  mret (Me (pu_ID user) (ss_CSRFToken sess)).

(** ** The routes *)

Inductive realm := RealmAny | RealmUser | RealmAdmin.

Record Call := { cl_method : string; cl_cookie : option string; cl_csrf : string }.

(** What follows [authenticate] in a party's middleware chain ([BuildApp]). *)
Definition gates (r : realm) (c : Call) (ctx : Identity) : HM Identity :=
  _ ← requireAuth (cl_method c) (cl_csrf c) ctx;
  _ ← match r with
      | RealmAny => mret ()
      | RealmUser => requireUserRealm ctx
      | RealmAdmin => requireAdminRealm ctx
      end;
  mret ctx.

Definition middleware (ev : ReqEnv) (r : realm) (c : Call) : HM Identity :=
  ctx ← authenticate ev (cl_cookie c); gates r c ctx.

(** ** What the portal keeps, step by step *)

Inductive event :=
| EvLogin (ev : ReqEnv) (req : option (string * string))
| EvSetup (ev : ReqEnv) (req : option string)
| EvVerify (ev : ReqEnv) (req : option (string * string))
| EvRoute (ev : ReqEnv) (r : realm) (c : Call)
| EvLogout (ev : ReqEnv) (c : Call)
| EvPurge (now : Z)
| EvAccounts.    (* another part of the portal works on the accounts *)

Definition sess (st : Portal) : list Session := tbl_rows (ps_sessions st).
Definition pend (st : Portal) : list PendingAuth := tbl_rows (ps_pending st).
Definition users (st : Portal) : list PortalUser := tbl_rows (ps_users st).
Definition orgs (st : Portal) : list PortalOrg := tbl_rows (ps_orgs st).

(** The same session, perhaps renewed. *)
Definition same_session (s s' : Session) : Prop := s' = s <| ss_ExpiresAt := ss_ExpiresAt s' |>.

(** What the rest of the portal may do: anything to users and organisations,
    but it opens neither a session nor a pending login. *)
Definition keeps (st st' : Portal) : Prop :=
  (forall s, s ∈ sess st' -> exists s0, s0 ∈ sess st /\ same_session s0 s) /\
  (forall p, p ∈ pend st' -> p ∈ pend st).

(** One request, or one action of the rest of the portal. *)
Inductive step (st : Portal) : event -> Portal -> Prop :=
| StepLogin ev req : step st (EvLogin ev req) (handleLogin ev req st).2
| StepSetup ev req : step st (EvSetup ev req) (handleTOTPSetup ev req st).2
| StepVerify ev req : step st (EvVerify ev req) (handleTOTPVerify ev req st).2
| StepRoute ev r c : step st (EvRoute ev r c) (middleware ev r c st).2
| StepLogout ev c : step st (EvLogout ev c) ((_ ← middleware ev RealmAny c; handleLogout (cl_cookie c)) st).2
| StepPurge now : step st (EvPurge now) (PurgeExpired now st).2
| StepAccounts st' : keeps st st' -> step st EvAccounts st'.

(** The history of a run, latest first: each event with the state it met. *)
Inductive run (st0 : Portal) : list (Portal * event) -> Portal -> Prop :=
| run_start : run st0 [] st0
| run_step h st e st' : run st0 h st -> step st e st' -> run st0 ((st, e) :: h) st'.

(** The request names an active user of an active organisation, if any, and
    brings the user's password; [due]: the second factor is demanded. *)
Definition password_ok (st : Portal) (req : option (string * string)) (uid : Z) (due : bool) : Prop :=
  exists name password u, req = Some (name, password) /\ u ∈ users st /\ pu_ID u = uid /\
    pu_Username u = trim_space name /\ CheckPassword (pu_PasswordHash u) password = true /\ pu_Active u = true /\
    match pu_OrgID u with
    | None => due = false
    | Some i => exists o, o ∈ orgs st /\ po_ID o = i /\ po_Active o = true /\
                due = (pu_Role u =? RoleUser)%string && po_TOTPRequired o
    end.

(** The request brings a code that the user's sealed secret answers for, with
    a token that is pending for that user. *)
Definition code_ok (st : Portal) (ev : ReqEnv) (req : option (string * string)) (uid : Z) (pa : PendingAuth) : Prop :=
  exists token code u secret, req = Some (token, code) /\ u ∈ users st /\ pu_ID u = uid /\ pu_Active u = true /\
    OpenString totp_box (pu_TOTPSecretEnc u) = Some secret /\ Validate (ev_now ev) code secret = true /\
    pa ∈ pend st /\ has_pending_token (trim_space token) pa = true /\ pa_UserID pa = uid /\
    ev_now ev <= pa_ExpiresAt pa.

(** The pending login [pa] is the one a login in the history left: that login
    gave the user's password, and [pa] has the token it answered with. *)
Definition password_login (h : list (Portal * event)) (pa : PendingAuth) : Prop :=
  exists st ev req, (st, EvLogin ev req) ∈ h /\ password_ok st req (pa_UserID pa) true /\
    pa_TokenHash pa = HashToken (ev_token ev) /\ pa_ExpiresAt pa = ev_now ev + pendingAuthTTL.

(** The session [s] is the one opened by the request [ev]: created then, with
    the tokens the request drew. *)
Definition opened_by (ev : ReqEnv) (s : Session) : Prop :=
  ss_TokenHash s = HashToken (ev_token ev) /\ ss_CSRFToken s = ev_csrf ev /\ ss_CreatedAt s = ev_now ev.

(** How the session [s] may have come about. *)
Definition earned (h : list (Portal * event)) (s : Session) : Prop :=
  (exists st ev req, (st, EvLogin ev req) ∈ h /\ password_ok st req (ss_UserID s) false /\ opened_by ev s) \/
  (exists later st ev req pa earlier, h = later ++ (st, EvVerify ev req) :: earlier /\
     code_ok st ev req (ss_UserID s) pa /\ opened_by ev s /\ password_login earlier pa).

End portal.

#[export] Instance same_session_preorder : PreOrder same_session.
Proof. split; [by intros []|]. unfold same_session. intros [] [] [] Hab Hbc. injection Hab as -> -> -> -> ->. by injection Hbc as -> -> -> -> ->. Qed.

#[export] Hint Extern 0 (same_session ?s ?s) => reflexivity : core.

#[export] Instance keeps_preorder {TS TP TU TO : Type} `{!Table TS Session} `{!Table TP PendingAuth} :
  PreOrder (@keeps TS TP TU TO _ _).
Proof.
  split; [split; eauto|]. intros a b c [H1 H2] [H3 H4]. split; [|auto].
  intros s Hs. destruct (H3 s Hs) as (s1 & Hs1 & E1). destruct (H1 s1 Hs1) as (s0 & ? & E0).
  exists s0. split; [done|]. by etrans.
Qed.
