(* ===== verification/PortalSessions.v ===== *)
(** * PortalSessions: what the portal's logins guarantee

    The theorems about [PortalAuth]. Handlers are followed through with weakest
    preconditions, one rule per table operation; a run of the portal is any
    sequence of requests and of actions of its other parts. *)

From S2P Require Import Prelude Store PortalModels RateLimit PortalAuth.

Section proofs.
Context {TS TP TU TO : Type} `{!Table TS Session, !TableLaws TS Session} `{!Table TP PendingAuth, !TableLaws TP PendingAuth}
  `{!Table TU PortalUser, !TableLaws TU PortalUser} `{!Table TO PortalOrg, !TableLaws TO PortalOrg} `{Crypto} `{OTP}.
Variable CheckPassword : string -> string -> bool.
Variable cfg : PortalConfig.
#[local] Notation Portal := (Portal (TS := TS) (TP := TP) (TU := TU) (TO := TO)).
#[local] Notation HM := (HM (TS := TS) (TP := TP) (TU := TU) (TO := TO)).
#[local] Existing Instances hm_ret hm_bind.

(** ** Weakest preconditions *)

Definition hwp {A} (m : HM A) (Q : flow A -> Portal -> Prop) (st : Portal) : Prop := Q (m st).1 (m st).2.

Lemma hwp_bind {A B} (m : HM A) (f : A -> HM B) Q st :
  hwp m (fun r st' => match r with Next a => hwp (f a) Q st' | Return r => Q (Return r) st' end) st -> hwp (m ≫= f) Q st.
Proof. unfold hwp, mbind, hm_bind. by destruct (m st) as [[r|a] st']. Qed.

Lemma hwp_ret {A} (a : A) Q st : Q (Next a) st -> hwp (mret a : HM A) Q st.
Proof. done. Qed.

Lemma hwp_reply {A} r Q st : Q (Return r) st -> hwp (reply_with r : HM A) Q st.
Proof. done. Qed.

Lemma hwp_mono {A} (m : HM A) (Q Q' : flow A -> Portal -> Prop) st :
  hwp m Q st -> (forall r st', Q r st' -> Q' r st') -> hwp m Q' st.
Proof. unfold hwp. auto. Qed.

Lemma hwp_exists {A B} (b : B) (m : HM A) (Q : B -> flow A -> Portal -> Prop) st :
  hwp m (Q b) st -> hwp m (fun r st' => exists b, Q b r st') st.
Proof. unfold hwp. eauto. Qed.

Lemma hwp_check b r (Q : flow () -> Portal -> Prop) st :
  (b = true -> Q (Next ()) st) -> (b = false -> Q (Return r) st) -> hwp (check b r) Q st.
Proof. destruct b; unfold hwp; simpl; auto. Qed.

Lemma hwp_or_reply {A} (o : option A) r (Q : flow A -> Portal -> Prop) st :
  (forall a, o = Some a -> Q (Next a) st) -> (o = None -> Q (Return r) st) -> hwp (or_reply o r) Q st.
Proof. destruct o; unfold hwp; simpl; auto. Qed.

(** ** What an operation leaves alone *)

(** The database answers. *)
Definition healthy (st : Portal) : Prop :=
  tbl_healthy (ps_sessions st) /\ tbl_healthy (ps_pending st) /\ tbl_healthy (ps_users st) /\ tbl_healthy (ps_orgs st).

(** The rows of two states agree on every table. *)
Definition same_rows (st st' : Portal) : Prop :=
  sess st' = sess st /\ pend st' = pend st /\ users st' = users st /\ orgs st' = orgs st /\ (healthy st -> healthy st').

Lemma first_stays {T R} `{TableLaws T R} P (t : T) : tbl_healthy t -> tbl_healthy (tbl_first P t).2.
Proof. intros Ht. apply (first_healthy P t Ht). Qed.

Lemma hwp_limit {A} (f : RateLimiter -> A * RateLimiter) (Q : flow A -> Portal -> Prop) st :
  (forall st', same_rows st st' -> Q (Next (f (ps_loginLimit st)).1) st') -> hwp (on_limit f) Q st.
Proof. intros HQ. unfold hwp, on_limit. destruct (f (ps_loginLimit st)). by apply HQ. Qed.

Lemma hwp_on_users {A} (f : TU -> A * TU) (Q : flow A -> Portal -> Prop) st :
  (forall a t, Q (Next a) (st <| ps_users := t |>)) -> hwp (on_users f) Q st.
Proof. intros HQ. unfold hwp, on_users. destruct (f _). apply HQ. Qed.

Lemma hwp_users_first P (Q : flow (option PortalUser) -> Portal -> Prop) st :
  (forall o st', same_rows st st' -> (forall u, o = Some u -> u ∈ users st /\ P u = true) -> Q (Next o) st') ->
  hwp (on_users (tbl_first P)) Q st.
Proof.
  intros HQ. unfold hwp, on_users. pose proof (first_rows P (ps_users st)) as Hr.
  pose proof (first_stays P (ps_users st)) as Hh. pose proof (fun u => first_some P (ps_users st) u) as Hf. destruct (tbl_first P (ps_users st)) as [o t]. simpl in *.
  apply HQ; [split_and!; try done; unfold healthy; simpl; tauto|]. intros u ->. by apply Hf.
Qed.

Lemma hwp_orgs_first P (Q : flow (option PortalOrg) -> Portal -> Prop) st :
  (forall o st', same_rows st st' -> (forall u, o = Some u -> u ∈ orgs st /\ P u = true) -> Q (Next o) st') ->
  hwp (on_orgs (tbl_first P)) Q st.
Proof.
  intros HQ. unfold hwp, on_orgs. pose proof (first_rows P (ps_orgs st)) as Hr.
  pose proof (first_stays P (ps_orgs st)) as Hh. pose proof (fun u => first_some P (ps_orgs st) u) as Hf. destruct (tbl_first P (ps_orgs st)) as [o t]. simpl in *.
  apply HQ; [split_and!; try done; unfold healthy; simpl; tauto|]. intros u ->. by apply Hf.
Qed.

Lemma hwp_sessions_first P (Q : flow (option Session) -> Portal -> Prop) st :
  (forall o st', same_rows st st' -> (forall u, o = Some u -> u ∈ sess st /\ P u = true) -> Q (Next o) st') ->
  hwp (on_sessions (tbl_first P)) Q st.
Proof.
  intros HQ. unfold hwp, on_sessions. pose proof (first_rows P (ps_sessions st)) as Hr.
  pose proof (first_stays P (ps_sessions st)) as Hh. pose proof (fun u => first_some P (ps_sessions st) u) as Hf. destruct (tbl_first P (ps_sessions st)) as [o t]. simpl in *.
  apply HQ; [split_and!; try done; unfold healthy; simpl; tauto|]. intros u ->. by apply Hf.
Qed.

Lemma hwp_pending_first P (Q : flow (option PendingAuth) -> Portal -> Prop) st :
  (forall o st', same_rows st st' -> (forall u, o = Some u -> u ∈ pend st /\ P u = true) -> Q (Next o) st') ->
  hwp (on_pending (tbl_first P)) Q st.
Proof.
  intros HQ. unfold hwp, on_pending. pose proof (first_rows P (ps_pending st)) as Hr.
  pose proof (first_stays P (ps_pending st)) as Hh. pose proof (fun u => first_some P (ps_pending st) u) as Hf. destruct (tbl_first P (ps_pending st)) as [o t]. simpl in *.
  apply HQ; [split_and!; try done; unfold healthy; simpl; tauto|]. intros u ->. by apply Hf.
Qed.

(** ** Operations that open nothing *)

Lemma same_rows_keeps st st' : same_rows st st' -> keeps st st'.
Proof. intros (Hs & Hp & _). split; [rewrite Hs; eauto|by rewrite Hp]. Qed.

Definition tame {A} (m : HM A) : Prop := forall st, keeps st (m st).2.

Lemma hwp_tame {A} (m : HM A) (Q : flow A -> Portal -> Prop) st : tame m ->
  (forall r st', keeps st st' -> Q r st') -> hwp m Q st.
Proof. intros Hm HQ. by apply HQ. Qed.

Lemma tame_bind {A B} (m : HM A) (f : A -> HM B) : tame m -> (forall a, tame (f a)) -> tame (m ≫= f).
Proof.
  intros Hm Hf st. specialize (Hm st). unfold mbind, hm_bind. destruct (m st) as [[r|a] st']; [done|].
  simpl in Hm. etrans; [exact Hm|apply Hf].
Qed.

Lemma tame_ret {A} (a : A) : tame (mret a).
Proof. intros st. reflexivity. Qed.
Lemma tame_reply {A} r : tame (reply_with r : HM A).
Proof. intros st. reflexivity. Qed.
Lemma tame_check b r : tame (check b r).
Proof. destruct b; [apply tame_ret|apply tame_reply]. Qed.
Lemma tame_or_reply {A} (o : option A) r : tame (or_reply o r).
Proof. destruct o; [apply tame_ret|apply tame_reply]. Qed.
Lemma tame_users {A} (f : TU -> A * TU) : tame (on_users f).
Proof. intros st. unfold on_users. destruct (f _). split; eauto. Qed.
Lemma tame_orgs {A} (f : TO -> A * TO) : tame (on_orgs f).
Proof. intros st. unfold on_orgs. destruct (f _). split; eauto. Qed.
Lemma tame_limit {A} (f : RateLimiter -> A * RateLimiter) : tame (on_limit f).
Proof. intros st. unfold on_limit. destruct (f _). split; eauto. Qed.

Lemma tame_on_sessions {A} (f : TS -> A * TS) :
  (forall t s, s ∈ tbl_rows (f t).2 -> exists s0, s0 ∈ tbl_rows t /\ same_session s0 s) -> tame (on_sessions f).
Proof. intros Hf st. specialize (Hf (ps_sessions st)). unfold on_sessions. destruct (f _). split; [exact Hf|eauto]. Qed.

Lemma tame_on_pending {A} (f : TP -> A * TP) :
  (forall t s, s ∈ tbl_rows (f t).2 -> s ∈ tbl_rows t) -> tame (on_pending f).
Proof. intros Hf st. specialize (Hf (ps_pending st)). unfold on_pending. destruct (f _). split; [eauto|exact Hf]. Qed.

Lemma tame_sessions_first P : tame (on_sessions (tbl_first P)).
Proof. apply tame_on_sessions. intros t s. rewrite first_rows. eauto. Qed.
Lemma tame_pending_first P : tame (on_pending (tbl_first P)).
Proof. apply tame_on_pending. intros t s. by rewrite first_rows. Qed.

Lemma deleted_rows {T R} `{TableLaws T R} P (t : T) x : x ∈ tbl_rows (tbl_delete P t).2 -> x ∈ tbl_rows t.
Proof.
  destruct (tbl_delete P t).1 eqn:E; [rewrite (delete_ok _ _ E)|by rewrite (delete_err _ _ E)].
  rewrite !list_elem_of_In. by intros [? _]%filter_In.
Qed.

Lemma tame_sessions_delete P : tame (on_sessions (tbl_delete P)).
Proof. apply tame_on_sessions. intros t s ?%deleted_rows. eauto. Qed.
Lemma tame_pending_delete P : tame (on_pending (tbl_delete P)).
Proof. apply tame_on_pending. intros t s. apply deleted_rows. Qed.

Lemma tame_sessions_update P f : (forall s, same_session s (f s)) -> tame (on_sessions (tbl_update P f)).
Proof.
  intros Hf. apply tame_on_sessions. intros t s.
  destruct (tbl_update P f t).1 eqn:E; [rewrite (update_ok _ _ _ E)|rewrite (update_err _ _ _ E); eauto].
  intros (s0 & -> & ?)%list_elem_of_fmap. exists s0. split; [done|]. by destruct (P s0).
Qed.

Create HintDb tame.
#[local] Hint Resolve @tame_ret @tame_reply tame_check @tame_or_reply @tame_users @tame_orgs @tame_limit
  tame_sessions_first tame_pending_first tame_sessions_delete tame_pending_delete : tame.

(** Walks through a handler: binds, branches, primitives. *)
Ltac tame :=
  repeat first
    [ progress eauto with tame
    | match goal with
      | |- tame (_ ≫= _) => apply tame_bind; [|intros ?]
      | |- tame (match ?x with _ => _ end) => destruct x
      | |- tame (let _ := _ in _) => cbv zeta
      end ].

Lemma tame_Lookup now token : tame (Lookup now token).
Proof. unfold Lookup. tame. by apply tame_sessions_update. Qed.

Lemma tame_LookupPendingAuth now token : tame (LookupPendingAuth now token).
Proof. unfold LookupPendingAuth, ConsumePendingAuth. tame. Qed.

#[local] Hint Resolve tame_Lookup tame_LookupPendingAuth : tame.

Lemma tame_handleTOTPSetup ev req : tame (handleTOTPSetup cfg ev req).
Proof. unfold handleTOTPSetup. tame. Qed.

Lemma tame_middleware ev r c : tame (middleware ev r c).
Proof. unfold middleware, gates, authenticate, requireAuth, requireUserRealm, requireAdminRealm. tame. Qed.

#[local] Hint Resolve tame_middleware : tame.

Lemma tame_logout ev c : tame (_ ← middleware ev RealmAny c; handleLogout (cl_cookie c)).
Proof. unfold handleLogout, Destroy. tame. Qed.

Lemma tame_PurgeExpired now : tame (PurgeExpired now).
Proof. unfold PurgeExpired. tame. Qed.

(** ** Operations that open something *)

(** A session row created, or an error. *)
Lemma issueSession_opens ev u st :
  hwp (issueSession ev u) (fun _ st' =>
    (forall s, s ∈ sess st' -> s ∈ sess st \/ ss_UserID s = pu_ID u /\ opened_by ev s) /\ pend st' = pend st) st.
Proof.
  unfold issueSession, CreateSession. apply hwp_bind, hwp_bind. unfold hwp at 1, on_sessions.
  pose proof (create_ok (new_session ev (pu_ID u)) (ps_sessions st)) as Hok.
  pose proof (create_err (new_session ev (pu_ID u)) (ps_sessions st)) as Herr.
  destruct (tbl_create _ _) as [[r|] t]; simpl in *.
  - destruct (Hok r eq_refl) as (Ht & Hr & _). apply hwp_ret, hwp_bind, hwp_or_reply; [|done]. intros [[tk c] e] _.
    apply hwp_ret. split; [|done]. unfold sess. simpl. rewrite Ht. intros s [?|Hs]%elem_of_app; [by left|right].
    apply list_elem_of_singleton in Hs as ->. by rewrite Hr.
  - apply hwp_ret, hwp_bind, hwp_or_reply; [done|]. intros _. split; [|done]. unfold sess. simpl. rewrite (Herr eq_refl). auto.
Qed.

(** The pending login a request left. *)
Definition pending_of (ev : ReqEnv) (p : PendingAuth) : Prop :=
  pa_TokenHash p = HashToken (ev_token ev) /\ pa_ExpiresAt p = ev_now ev + pendingAuthTTL.

Lemma CreatePendingAuth_opens ev uid purpose st :
  hwp (CreatePendingAuth ev uid purpose) (fun _ st' =>
    (forall p, p ∈ pend st' -> p ∈ pend st \/ pa_UserID p = uid /\ pending_of ev p) /\ sess st' = sess st) st.
Proof.
  unfold CreatePendingAuth. apply hwp_bind. unfold hwp at 1, on_pending.
  match goal with |- context [tbl_create ?r _] => set (row := r) end.
  pose proof (create_ok row (ps_pending st)) as Hok. pose proof (create_err row (ps_pending st)) as Herr.
  destruct (tbl_create _ _) as [[r|] t]; simpl in *; apply hwp_ret; (split; [|done]); unfold pend; simpl.
  - destruct (Hok r eq_refl) as (-> & Hr & _). intros p [?|Hp]%elem_of_app; [by left|right].
    apply list_elem_of_singleton in Hp as ->. by rewrite Hr.
  - rewrite (Herr eq_refl). auto.
Qed.

(** Opens a session or a pending login for [uid] only, with what the request
    brings. *)
Definition opens (s_ok p_ok : Prop) (uid : Z) (ev : ReqEnv) (st st' : Portal) : Prop :=
  (forall s, s ∈ sess st' -> (exists s0, s0 ∈ sess st /\ same_session s0 s) \/ (s_ok /\ ss_UserID s = uid /\ opened_by ev s)) /\
  (forall p, p ∈ pend st' -> p ∈ pend st \/ (p_ok /\ pa_UserID p = uid /\ pending_of ev p)).

Lemma keeps_opens s_ok p_ok uid ev st st' : keeps st st' -> opens s_ok p_ok uid ev st st'.
Proof. intros [Hs Hp]. split; auto. Qed.

Lemma issueSession_hwp (s_ok p_ok : Prop) ev u st0 st : s_ok -> keeps st0 st ->
  hwp (issueSession ev u) (fun _ st' => opens s_ok p_ok (pu_ID u) ev st0 st') st.
Proof.
  intros Hok [Hks Hkp]. eapply hwp_mono; [apply issueSession_opens|]. simpl. intros _ st' [Hs Hp]. split.
  - intros s Hin. destruct (Hs s Hin) as [?|?]; auto.
  - intros p. rewrite Hp. auto.
Qed.

Lemma secondFactor_hwp (s_ok p_ok : Prop) ev u st0 st : p_ok -> keeps st0 st ->
  hwp (secondFactor cfg ev u) (fun _ st' => opens s_ok p_ok (pu_ID u) ev st0 st') st.
Proof.
  intros Hok Hk. unfold secondFactor.
  assert (forall purpose r (f : string -> HM reply) st1, keeps st0 st1 -> (forall x, exists y, f x = mret y) ->
    hwp (made ← CreatePendingAuth ev (pu_ID u) purpose; pending ← or_reply made r; f pending)
      (fun _ st' => opens s_ok p_ok (pu_ID u) ev st0 st') st1) as Hcreate.
  { intros purpose r f st1 [Hks Hkp] Hf. apply hwp_bind. eapply hwp_mono; [apply CreatePendingAuth_opens|].
    intros fl st' [Hp Hs]. assert (opens s_ok p_ok (pu_ID u) ev st0 st').
    { split; [intros s; rewrite Hs; auto|]. intros p Hin. destruct (Hp p Hin) as [?|[??]]; auto. }
    destruct fl as [?|made]; [done|]. apply hwp_bind, hwp_or_reply; [|done].
    intros a _. destruct (Hf a) as [y ->]. by apply hwp_ret. }
  destruct (negb (pu_TOTPEnabled u)); [|apply Hcreate; eauto].
  apply hwp_bind, hwp_tame; [unfold prepareEnrollment; tame|]. intros [r|ready] st1 Hst1.
  - apply keeps_opens. by etrans.
  - apply hwp_bind, hwp_check; intros _; [apply Hcreate; [by etrans|eauto]|]. apply keeps_opens. by etrans.
Qed.

Lemma same_rows_trans st1 st2 st3 : same_rows st1 st2 -> same_rows st2 st3 -> same_rows st1 st3.
Proof. intros (?&?&?&?&?) (?&?&?&?&?). split_and!; try congruence. tauto. Qed.

Lemma handleLogin_opens ev req st :
  hwp (handleLogin CheckPassword cfg ev req) (fun _ st' => exists uid,
    opens (password_ok CheckPassword st req uid false) (password_ok CheckPassword st req uid true) uid ev st st') st.
Proof.
  unfold handleLogin.
  assert (forall (P Q : Z -> Prop) st', same_rows st st' ->
    exists uid, opens (P uid) (Q uid) uid ev st st') as Hquiet.
  { intros P Q st' Hs. exists 0. by apply keeps_opens, same_rows_keeps. }
  assert (same_rows st st) as H0st by by split_and!.
  apply hwp_bind, hwp_or_reply; [|auto]. intros [name password] ->.
  set (req_ok := password_ok CheckPassword st (Some (name, password))) in *.
  apply hwp_bind, hwp_check; intros _; [|auto]. apply hwp_bind, hwp_limit. intros st1 Hst1.
  apply hwp_bind, hwp_check; intros _; [|auto]. apply hwp_bind, hwp_users_first. intros o st2 Hst2 Ho.
  assert (same_rows st st2) as H2 by by eapply same_rows_trans.
  apply hwp_bind, hwp_or_reply; [|auto]. intros u ->. destruct (Ho u eq_refl) as [Hu Hname].
  replace (users st1) with (users st) in Hu by (symmetry; apply Hst1).
  apply hwp_bind, hwp_check; intros Hpw; [|auto]. apply hwp_bind, hwp_check; intros Hact; [|auto].
  unfold by_username in Hname. reflect_bools.
  destruct (pu_OrgID u) as [i|] eqn:Horg.
  - apply hwp_bind, hwp_orgs_first. intros oo st3 Hst3 Hoo.
    assert (same_rows st st3) as H3 by by eapply same_rows_trans.
    apply hwp_bind, hwp_or_reply; [|auto]. intros org ->. destruct (Hoo org eq_refl) as [Hin Hid].
    replace (orgs st2) with (orgs st) in Hin by (symmetry; apply H2). unfold has_id in Hid. reflect_bools.
    apply hwp_bind, hwp_check; intros Hoact; [|auto].
    assert (req_ok (pu_ID u)
      ((pu_Role u =? RoleUser)%string && po_TOTPRequired org)) as Hok.
    { exists name, password, u. rewrite Horg. split_and!; try done. exists org. by split_and!. }
    destruct ((pu_Role u =? RoleUser)%string && po_TOTPRequired org).
    + apply (hwp_exists (pu_ID u)). by apply (secondFactor_hwp _ (req_ok _ true)), same_rows_keeps.
    + apply (hwp_exists (pu_ID u)). by apply (issueSession_hwp (req_ok _ false)), same_rows_keeps.
  - apply (hwp_exists (pu_ID u)). apply (issueSession_hwp (req_ok _ false)); [|by apply same_rows_keeps].
    exists name, password, u. rewrite Horg. by split_and!.
Qed.

Lemma LookupPendingAuth_hwp now token (Q : flow (option PendingAuth) -> Portal -> Prop) st :
  (forall o st', keeps st st' -> users st' = users st ->
    (forall pa, o = Some pa -> pa ∈ pend st /\ has_pending_token token pa = true /\ now <= pa_ExpiresAt pa) ->
    Q (Next o) st') ->
  hwp (LookupPendingAuth now token) Q st.
Proof.
  intros HQ. unfold LookupPendingAuth. destruct (token =? "")%string; [by apply hwp_ret, HQ|].
  apply hwp_bind, hwp_pending_first. intros o st1 Hst1 Ho. pose proof (same_rows_keeps _ _ Hst1) as Hk.
  destruct o as [pa|]; [|by apply hwp_ret, HQ; [..|apply Hst1|]]. destruct (Ho pa eq_refl) as [Hin Htok].
  destruct (pa_ExpiresAt pa <? now) eqn:E; reflect_bools.
  - unfold ConsumePendingAuth. apply hwp_bind. pose proof (tame_pending_delete (has_id (pa_ID pa)) st1) as Hd.
    unfold hwp, on_pending in *. destruct (tbl_delete _ _) as [b t]. apply hwp_ret, HQ; [by etrans|apply Hst1|done].
  - apply hwp_ret, HQ; [done|apply Hst1|]. intros ? [= <-]. by split_and!.
Qed.

Lemma handleTOTPVerify_opens ev req st :
  hwp (handleTOTPVerify cfg ev req) (fun _ st' => exists uid,
    opens (exists pa, code_ok cfg st ev req uid pa) False uid ev st st') st.
Proof.
  unfold handleTOTPVerify.
  assert (forall (P : Z -> Prop) st', keeps st st' -> exists uid, opens (P uid) False uid ev st st') as Hquiet.
  { intros P st' Hs. exists 0. by apply keeps_opens. }
  apply hwp_bind, hwp_or_reply; [|intros; apply Hquiet; reflexivity]. intros [token code] ->.
  apply hwp_bind, hwp_check; intros _; [|apply Hquiet; reflexivity]. apply hwp_bind, hwp_limit. intros st1 Hst1.
  pose proof (same_rows_keeps _ _ Hst1) as Hk1.
  apply hwp_bind, hwp_check; intros _; [|auto]. apply hwp_bind, LookupPendingAuth_hwp. intros o st2 Hk2 Hu2 Ho.
  assert (keeps st st2) as Hk by by etrans. apply hwp_bind, hwp_or_reply; [|auto]. intros pa ->.
  destruct (Ho pa eq_refl) as (Hin & Htok & Hexp).
  replace (pend st1) with (pend st) in Hin by (symmetry; apply Hst1).
  apply hwp_bind, hwp_users_first. intros ou st3 Hst3 Hou. pose proof (same_rows_keeps _ _ Hst3) as Hk3.
  assert (keeps st st3) as Hk' by by etrans. apply hwp_bind, hwp_or_reply; [|auto]. intros u ->.
  destruct (Hou u eq_refl) as [Hu Hid]. rewrite Hu2 in Hu. replace (users st1) with (users st) in Hu by (symmetry; apply Hst1).
  unfold has_id in Hid. reflect_bools.
  apply hwp_bind, hwp_check; intros Hact; [|auto]. apply hwp_bind, hwp_or_reply; [|auto]. intros secret Hopen.
  apply hwp_bind, hwp_check; intros Hval; [|auto].
  assert (exists pa, code_ok cfg st ev (Some (token, code)) (pu_ID u) pa) as Hok.
  { exists pa, token, code, u, secret. by split_and!. }
  assert (forall st', keeps st st' -> hwp (issueSession ev u) (fun _ st' => exists uid,
    opens (exists pa, code_ok cfg st ev (Some (token, code)) uid pa) False uid ev st st') st') as Hissue.
  { intros st' Hst'. apply (hwp_exists (pu_ID u)). by apply issueSession_hwp. }
  apply hwp_bind, hwp_tame; [unfold ConsumePendingAuth; tame|]. intros [r|b] st4 Hk4; [by apply Hquiet; etrans|].
  assert (keeps st st4) by by etrans. case_match; [|by apply Hissue].
  apply hwp_bind, hwp_tame; [tame|]. intros [r|b'] st5 Hk5; [by apply Hquiet; etrans|].
  apply hwp_bind, hwp_check; intros _; [apply Hissue|apply Hquiet]; by etrans.
Qed.

(** ** Runs *)

#[local] Notation history := (list (Portal * event)) (only parsing).

Definition accounted (h : history) (st : Portal) : Prop :=
  (forall s, s ∈ sess st -> earned CheckPassword cfg h s) /\
  (forall p, p ∈ pend st -> password_login CheckPassword h p).

Lemma password_login_cons x (h : history) pa :
  password_login CheckPassword h pa -> password_login CheckPassword (x :: h) pa.
Proof. intros (st & ev & req & ? & ?). exists st, ev, req. split; [by right|done]. Qed.

Lemma earned_cons x (h : history) s : earned CheckPassword cfg h s -> earned CheckPassword cfg (x :: h) s.
Proof.
  intros [(st & ev & req & ? & ?)|(later & st & ev & req & pa & earlier & -> & ?)].
  - left. exists st, ev, req. split; [by right|done].
  - right. by exists (x :: later), st, ev, req, pa, earlier.
Qed.

(** Renewing a session changes nothing of how it came about. *)
Lemma earned_same (h : history) s s' : same_session s s' -> earned CheckPassword cfg h s -> earned CheckPassword cfg h s'.
Proof. intros ->. exact id. Qed.

Lemma accounted_keeps x (h : history) st st' : accounted h st -> keeps st st' -> accounted (x :: h) st'.
Proof.
  intros [Hs Hp] [Hks Hkp]. split.
  - intros s Hin. destruct (Hks s Hin) as (s0 & ? & Hsame). by eapply earned_cons, earned_same, Hs.
  - intros p Hin. by apply password_login_cons, Hp, Hkp.
Qed.

Lemma run_accounted st0 h st : run CheckPassword cfg st0 h st -> sess st0 = [] -> pend st0 = [] -> accounted h st.
Proof.
  intros Hrun Hs0 Hp0. induction Hrun as [|h st e st' Hrun IH Hstep].
  { split; intros x; rewrite ?Hs0, ?Hp0; by intros ?%elem_of_nil. }
  inversion Hstep; subst; try solve [eapply accounted_keeps; [exact IH|];
    first [apply tame_handleTOTPSetup|apply tame_middleware|apply tame_logout|apply tame_PurgeExpired|done]].
  all: destruct IH as [IHs IHp].
  - pose proof (handleLogin_opens ev req st) as (uid & Hs & Hp). split.
    + intros s Hin. destruct (Hs s Hin) as [(s0 & ? & Hsame)|(Hok & Hid & Hev)]; [by eapply earned_cons, earned_same, IHs|].
      left. exists st, ev, req. rewrite Hid. split; [by left|done].
    + intros p Hin. destruct (Hp p Hin) as [?|(Hok & Hid & Hev)]; [by apply password_login_cons, IHp|].
      exists st, ev, req. rewrite Hid. split; [by left|done].
  - pose proof (handleTOTPVerify_opens ev req st) as (uid & Hs & Hp). split.
    + intros s Hin. destruct (Hs s Hin) as [(s0 & ? & Hsame)|([pa Hok] & Hid & Hev)]; [by eapply earned_cons, earned_same, IHs|].
      right. exists [], st, ev, req, pa, h. rewrite Hid. split_and!; [done..|].
      assert (pa ∈ pend st /\ pa_UserID pa = uid) as [Hpa <-]
        by by destruct Hok as (?&?&?&?&_&_&_&_&_&_&?&_&?&_).
      by apply IHp.
    + intros p Hin. destruct (Hp p Hin) as [?|([] & _)]. by apply password_login_cons, IHp.
Qed.

(** C20: start the portal without sessions and pending logins and let it
    serve any requests in any order, while its other parts do what they like to
    users and organisations and end sessions: each session there ever is was
    opened by a request of its own owner, at that moment and with the tokens
    that request drew; either a login with the right password, by an active user
    of an active organisation that did not demand a second factor of them then,
    or a code that the active user's sealed secret answered for, sent with the
    token of a pending login that was not over, which an earlier login with
    the right password had left ten minutes ago at most. *)
Theorem sessions_are_earned st0 h st s :
  run CheckPassword cfg st0 h st -> sess st0 = [] -> pend st0 = [] -> s ∈ sess st -> earned CheckPassword cfg h s.
Proof. intros Hrun Hs Hp. by apply (run_accounted st0 h st Hrun Hs Hp). Qed.

(** ** Who gets through the middleware *)

(** The tables' unique indexes. *)
Definition keyed (st : Portal) : Prop :=
  NoDup (map ss_TokenHash (sess st)) /\ NoDup (map pa_TokenHash (pend st)) /\ ids_ok (users st) /\ ids_ok (orgs st).

(** [s] is the live session of the cookie and [u] its active owner. *)
Definition live (st : Portal) (now : Z) (cookie : string) (s : Session) (u : PortalUser) : Prop :=
  cookie <> "" /\ s ∈ sess st /\ ss_TokenHash s = HashToken cookie /\ now <= ss_ExpiresAt s /\
  u ∈ users st /\ pu_ID u = ss_UserID s /\ pu_Active u = true.

(** The session as the request carries it on. *)
Definition touched (now : Z) (s : Session) : Session :=
  if renews now s then s <| ss_ExpiresAt := now + sessionTTL |> else s.

Lemma Lookup_only now token st :
  hwp (Lookup now token) (fun r st' => ps_orgs st' = ps_orgs st /\
    exists o, r = Next o /\ forall s' u, o = Some (s', u) -> exists s, live st now token s u /\ s' = touched now s) st.
Proof.
  unfold Lookup. destruct (String.eqb_spec token "") as [->|Ht].
  { apply hwp_ret. split; [done|]. by exists None. }
  unfold hwp, mbind, hm_bind, mret, hm_ret, on_sessions, on_users.
  pose proof (first_some (has_token token) (ps_sessions st)) as Hs.
  destruct (tbl_first (has_token token) (ps_sessions st)) as [[s|] t1]; simpl in *; [|by split; [|exists None]].
  destruct (Hs s eq_refl) as [Hin Htok]. destruct (ss_ExpiresAt s <? now) eqn:Hexp; simpl.
  { destruct (tbl_delete _ t1). simpl. by split; [|exists None]. }
  pose proof (first_some (has_id (ss_UserID s)) (ps_users st)) as Hu.
  destruct (tbl_first (has_id (ss_UserID s)) (ps_users st)) as [[u|] t2]; simpl in *; [|by split; [|exists None]].
  destruct (Hu u eq_refl) as [Huin Hid]. destruct (pu_Active u) eqn:Hact; simpl.
  2: { destruct (tbl_delete _ t1). simpl. by split; [|exists None]. }
  assert (live st now token s u) as Hlive.
  { unfold has_token, has_id in *. reflect_bools. by split_and!. }
  destruct (renews now s) eqn:Hr; [match goal with |- context [tbl_update ?P ?f ?t] => destruct (tbl_update P f t) end|]; simpl; (split; [done|]); eexists; (split; [done|]);
    intros ?? [= <- <-]; exists s; unfold touched; by rewrite Hr.
Qed.

Lemma key_inj {A} (f : A -> string) l x y : NoDup (map f l) -> x ∈ l -> y ∈ l -> f x = f y -> x = y.
Proof.
  intros Hn Hx Hy He. apply list_elem_of_lookup in Hx as [i Hi]. apply list_elem_of_lookup in Hy as [j Hj].
  assert (i = j) as ->; [|congruence]. eapply (NoDup_lookup (map f l)); [done|..]; rewrite list_lookup_fmap.
  - by rewrite Hi.
  - by rewrite Hj, He.
Qed.

Lemma Lookup_live now token st s u : healthy st -> keyed st -> live st now token s u ->
  exists st', Lookup now token st = (Next (Some (touched now s, u)), st') /\ ps_orgs st' = ps_orgs st.
Proof.
  intros (Hhs & _ & Hhu & _) (Hks & _ & Hku & _) (Hne & Hin & Htok & Hexp & Hu & Hid & Hact).
  unfold Lookup. rewrite (proj2 (String.eqb_neq token "") Hne).
  unfold mbind, hm_bind, mret, hm_ret, on_sessions, on_users.
  assert ((tbl_first (has_token token) (ps_sessions st)).1 = Some s) as Hf.
  { apply first_only; [done..| |].
    - unfold has_token. rewrite Htok. apply String.eqb_refl.
    - unfold has_token. intros y Hy ?. reflect_bools. eapply (key_inj ss_TokenHash); eauto. congruence. }
  destruct (tbl_first (has_token token) (ps_sessions st)) as [o t1]; simpl in Hf; subst o.
  rewrite (proj2 (Z.ltb_ge (ss_ExpiresAt s) now)) by lia. simpl.
  assert ((tbl_first (has_id (ss_UserID s)) (ps_users st)).1 = Some u) as Hg.
  { apply first_only; [done..| |].
    - unfold has_id. by apply Z.eqb_eq.
    - unfold has_id. intros y Hy ?. reflect_bools. eapply ids_ok_inj; eauto.
      etrans; [eassumption|symmetry; exact Hid]. }
  destruct (tbl_first (has_id (ss_UserID s)) (ps_users st)) as [o t2]; simpl in Hg; subst o.
  rewrite Hact. unfold touched. simpl. destruct (renews now s); [match goal with |- context [tbl_update ?P ?f ?t] => destruct (tbl_update P f t) end|]; eauto.
Qed.

Lemma SecureEquals_spec a b : SecureEquals a b = true <-> a = b.
Proof.
  clear. unfold SecureEquals. rewrite andb_true_iff, Nat.eqb_eq, String.eqb_eq. split; [tauto|by intros ->].
Qed.

(** What a realm asks of the session's owner. *)
Definition realm_open (st : Portal) (r : realm) (u : PortalUser) : Prop :=
  match r with
  | RealmAny => True
  | RealmAdmin => pu_Role u = RoleAdmin
  | RealmUser => pu_Role u = RoleUser /\ exists o, o ∈ orgs st /\ pu_OrgID u = Some (po_ID o) /\
      po_Active o = true /\ (po_TOTPRequired o = true -> pu_TOTPEnabled u = true)
  end.

Lemma requireUserRealm_iff s u st : tbl_healthy (ps_orgs st) -> ids_ok (orgs st) ->
  (requireUserRealm (Some (s, u)) st).1 = Next () <-> realm_open st RealmUser u.
Proof.
  intros Hh Hk. unfold requireUserRealm, mbind, hm_bind, check, or_reply, reply_with, mret, hm_ret, on_orgs. simpl.
  destruct (String.eqb_spec (pu_Role u) RoleUser) as [Hr|Hr]; simpl; [|by split; [|tauto]].
  destruct (pu_OrgID u) as [i|] eqn:Hi; simpl; [|by split; [|intros (_ & ? & _ & ? & _)]].
  pose proof (first_some (has_id i) (ps_orgs st)) as Hf.
  assert (forall o, o ∈ orgs st -> po_ID o = i -> (tbl_first (has_id i) (ps_orgs st)).1 = Some o) as Hb.
  { intros o Ho Hid. apply first_only; [done..|by apply Z.eqb_eq|]. unfold has_id. intros y Hy ?. reflect_bools.
    eapply ids_ok_inj; eauto.
    etrans; [eassumption|symmetry; exact Hid]. }
  destruct (tbl_first (has_id i) (ps_orgs st)) as [[o|] t]; simpl in *.
  - destruct (Hf o eq_refl) as [Hin Hid]. unfold has_id in Hid. reflect_bools. simpl in Hid.
    assert ((exists o0, o0 ∈ orgs st /\ Some i = Some (po_ID o0) /\ po_Active o0 = true /\
      (po_TOTPRequired o0 = true -> pu_TOTPEnabled u = true)) <->
      po_Active o = true /\ (po_TOTPRequired o = true -> pu_TOTPEnabled u = true)) as ->.
    { split; [|intros [??]; exists o; by rewrite Hid]. intros (o' & Ho' & [= ->] & ?). 
      specialize (Hb o' Ho' eq_refl). by simplify_eq. }
    destruct (po_Active o), (po_TOTPRequired o), (pu_TOTPEnabled u); simpl; naive_solver.
  - split; [done|]. intros (_ & o & Ho & [= ->] & _). by specialize (Hb o Ho eq_refl).
Qed.

(** A request with a live session, the CSRF token where it changes something,
    and a user the realm is open to. *)
Definition may_pass (st : Portal) (now : Z) (r : realm) (c : Call) (s : Session) (u : PortalUser) : Prop :=
  exists cookie, cl_cookie c = Some cookie /\ live st now cookie s u /\
    (str_mem (cl_method c) mutatingMethods = true -> cl_csrf c = ss_CSRFToken s) /\ realm_open st r u.

Lemma gates_open r c s u st : pu_Active u = true -> tbl_healthy (ps_orgs st) -> ids_ok (orgs st) ->
  (gates r c (Some (s, u)) st).1 = Next (Some (s, u)) <->
  (str_mem (cl_method c) mutatingMethods = true -> cl_csrf c = ss_CSRFToken s) /\ realm_open st r u.
Proof.
  intros Hact Hh Hk. pose proof (requireUserRealm_iff s u st Hh Hk) as Huser.
  unfold gates, requireAuth, requireAdminRealm, currentUser, mbind, hm_bind, check, reply_with, mret, hm_ret.
  rewrite Hact. simpl.
  assert ((str_mem (cl_method c) mutatingMethods = true -> cl_csrf c = ss_CSRFToken s) <->
    negb (str_mem (cl_method c) mutatingMethods && negb (SecureEquals (cl_csrf c) (ss_CSRFToken s))) = true) as ->.
  { rewrite negb_true_iff, andb_false_iff, negb_false_iff, SecureEquals_spec.
    destruct (str_mem (cl_method c) mutatingMethods); naive_solver. }
  destruct (negb _); [|by split; [|intros []]]. destruct r; unfold realm_open; cbn beta iota.
  - tauto.
  - destruct (requireUserRealm (Some (s, u)) st) as [[x|[]] st']; simpl in *; rewrite <- Huser; [|tauto].
    by split; [|intros []].
  - destruct (String.eqb_spec (pu_Role u) RoleAdmin); simpl; [tauto|]. by split; [|intros []].
Qed.

Lemma gates_ctx r c ctx ctx' (st : Portal) : (gates r c ctx st).1 = Next ctx' -> ctx' = ctx /\ exists s u, ctx = Some (s, u).
Proof.
  unfold gates, mbind, hm_bind, mret, hm_ret. destruct ctx as [[s u]|]; [|done].
  destruct (requireAuth _ _ _ st) as [[?|?] st2]; [done|].
  match goal with |- context [match ?m st2 with _ => _ end] => destruct (m st2) as [[?|?] ?] end; [done|].
  simpl. intros [= <-]. eauto.
Qed.

Lemma authenticate_hwp ev cookie st : hwp (authenticate ev cookie) (fun r st' => ps_orgs st' = ps_orgs st /\
    exists o, r = Next o /\ forall s' u, o = Some (s', u) ->
      exists token s, cookie = Some token /\ live st (ev_now ev) token s u /\ s' = touched (ev_now ev) s) st.
Proof.
  unfold authenticate. destruct cookie as [token|]; [|apply hwp_ret; split; [done|by exists None]].
  destruct (nonempty token); [|apply hwp_ret; split; [done|by exists None]].
  eapply hwp_mono; [apply Lookup_only|]. simpl. intros r st' (Ho & o & -> & Hl). split; [done|].
  exists o. split; [done|]. intros s' u E. destruct (Hl s' u E) as (s & ? & ?). eauto.
Qed.

(** C21: on a database that answers and keeps its unique indexes, a request
    gets through the middleware of a realm, as a certain user, exactly when its
    cookie is the token of a stored session that has not expired, the user is
    that session's owner and active, the CSRF header is the session's own if
    the method changes anything, and the realm is open to the user: the user
    realm to a fax user of an active organisation who is enrolled if the
    organisation demands it, the admin realm to an administrator. *)
Theorem middleware_exact ev r c st ctx :
  healthy st -> keyed st ->
  (middleware ev r c st).1 = Next ctx <->
  exists s u, may_pass st (ev_now ev) r c s u /\ ctx = Some (touched (ev_now ev) s, u).
Proof.
  intros Hh Hk.
  assert (forall (st' : Portal) s u, ps_orgs st' = ps_orgs st -> pu_Active u = true ->
    (gates r c (Some (touched (ev_now ev) s, u)) st').1 = Next (Some (touched (ev_now ev) s, u)) <->
    (str_mem (cl_method c) mutatingMethods = true -> cl_csrf c = ss_CSRFToken s) /\ realm_open st r u) as Hgates.
  { intros st' s u Ho Ha. replace (ss_CSRFToken s) with (ss_CSRFToken (touched (ev_now ev) s))
      by (unfold touched; by destruct (renews _ _)).
    replace (realm_open st r u) with (realm_open st' r u) by (unfold realm_open, orgs; by rewrite Ho).
    apply gates_open; [done|..]; unfold orgs; rewrite Ho; [apply Hh|apply Hk]. }
  unfold middleware. split.
  - pose proof (authenticate_hwp ev (cl_cookie c) st) as [Ho (o & Heq & Hl)]. unfold mbind, hm_bind.
    destruct (authenticate _ _ st) as [fl st']. simpl in *. subst fl. intros Hn.
    destruct (gates_ctx _ _ _ _ _ Hn) as [-> (s' & u & ->)]. destruct (Hl s' u eq_refl) as (token & s & Hc & Hlive & ->).
    apply Hgates in Hn as [??]; [|done|apply Hlive]. exists s, u. split; [|done]. by exists token.
  - intros (s & u & (token & Hc & Hlive & Hcs & Hr) & ->). unfold authenticate, nonempty, mbind, hm_bind.
    destruct (Lookup_live _ _ _ _ _ Hh Hk Hlive) as (st' & Heq & Ho).
    rewrite Hc, (proj2 (String.eqb_neq token "") (proj1 Hlive)). simpl. rewrite Heq.
    apply Hgates; [done|apply Hlive|done].
Qed.

(** ** A pending login serves once *)

(** No login is pending under [token]. *)
Definition spent (token : string) (st : Portal) : Prop :=
  forall p, p ∈ pend st -> has_pending_token token p = false.

Lemma LookupPendingAuth_found now token (Q : flow (option PendingAuth) -> Portal -> Prop) st :
  (forall pa st', same_rows st st' -> pa ∈ pend st -> has_pending_token token pa = true -> Q (Next (Some pa)) st') ->
  (forall st', Q (Next None) st') ->
  hwp (LookupPendingAuth now token) Q st.
Proof.
  intros HQ HN. unfold LookupPendingAuth. destruct (token =? "")%string; [by apply hwp_ret|].
  apply hwp_bind, hwp_pending_first. intros o st1 Hst1 Ho. destruct o as [pa|]; [|by apply hwp_ret].
  destruct (Ho pa eq_refl) as [Hin Htok]. destruct (pa_ExpiresAt pa <? now); [|by apply hwp_ret, HQ].
  unfold ConsumePendingAuth. apply hwp_bind. unfold hwp, on_pending. destruct (tbl_delete _ _). by apply hwp_ret.
Qed.

Lemma ConsumePendingAuth_spends token pa st :
  healthy st -> NoDup (map pa_TokenHash (pend st)) -> pa ∈ pend st -> has_pending_token token pa = true ->
  hwp (ConsumePendingAuth pa) (fun r st' => spent token st' /\ exists b, r = Next b) st.
Proof.
  intros (_ & Hh & _) Hk Hin Htok. unfold ConsumePendingAuth, hwp, on_pending.
  destruct (delete_healthy (has_id (pa_ID pa)) _ Hh) as (_ & Hrows & _). destruct (tbl_delete _ _) as [b t]. simpl in *.
  split; [|eauto]. intros p. unfold pend. simpl. rewrite Hrows, list_elem_of_In. intros [Hp Hid]%filter_In.
  apply not_true_iff_false. intros Hsame. unfold has_pending_token in *. reflect_bools.
  assert (p = pa) as ->; [|unfold has_id in Hid; reflect_bools; by destruct Hid].
  eapply (key_inj pa_TokenHash); eauto; [by apply list_elem_of_In|congruence].
Qed.

Lemma verify_spends ev raw code st : healthy st -> keyed st ->
  hwp (handleTOTPVerify cfg ev (Some (raw, code))) (fun r st' => forall x, r = Next x -> spent (trim_space raw) st') st.
Proof.
  intros Hh (_ & Hk & _). unfold handleTOTPVerify. apply hwp_bind, hwp_ret. cbv zeta.
  apply hwp_bind, hwp_check; intros _; [|done]. apply hwp_bind, hwp_limit. intros st1 Hst1.
  apply hwp_bind, hwp_check; intros _; [|done].
  apply hwp_bind, LookupPendingAuth_found; [|intros; apply hwp_bind, hwp_or_reply; done].
  intros pa st2 Hst2 Hin Htok. apply hwp_bind, hwp_or_reply; [|done]. intros ? [= <-].
  apply hwp_bind, hwp_users_first. intros ou st3 Hst3 _. apply hwp_bind, hwp_or_reply; [|done]. intros u ->.
  apply hwp_bind, hwp_check; intros _; [|done]. apply hwp_bind, hwp_or_reply; [|done]. intros secret _.
  apply hwp_bind, hwp_check; intros _; [|done].
  assert (same_rows st st3) as (_ & Hp & _ & _ & Hh3) by eauto using same_rows_trans.
  assert (pend st1 = pend st) as Hp1 by apply Hst1. rewrite Hp1, <- Hp in Hin. rewrite <- Hp in Hk.
  apply hwp_bind. eapply hwp_mono; [by apply (ConsumePendingAuth_spends _ _ _ (Hh3 Hh) Hk Hin Htok)|].
  intros r st4 [Hsp [b ->]].
  assert (forall st5, pend st5 = pend st4 ->
    hwp (issueSession ev u) (fun r st' => forall x, r = Next x -> spent (trim_space raw) st') st5) as Hissue.
  { intros st5 H5. eapply hwp_mono; [apply issueSession_opens|]. intros r st' [_ Hpend] x _. unfold spent.
    simpl in Hpend. by rewrite Hpend, H5. }
  case_match; [|by apply Hissue]. apply hwp_bind, hwp_on_users. intros b' t.
  apply hwp_bind, hwp_check; intros _; [by apply Hissue|done].
Qed.

Lemma spent_refuses ev raw code st x : spent (trim_space raw) st ->
  (handleTOTPVerify cfg ev (Some (raw, code)) st).1 <> Next x.
Proof.
  intros Hsp. cut (hwp (handleTOTPVerify cfg ev (Some (raw, code))) (fun r _ => r <> Next x) st); [done|].
  unfold handleTOTPVerify. apply hwp_bind, hwp_ret. cbv zeta.
  apply hwp_bind, hwp_check; intros _; [|done]. apply hwp_bind, hwp_limit. intros st1 (_ & Hp1 & _).
  apply hwp_bind, hwp_check; intros _; [|done].
  apply hwp_bind, LookupPendingAuth_found; [|intros; apply hwp_bind, hwp_or_reply; done].
  intros pa st2 _ Hin Htok. rewrite Hp1 in Hin. specialize (Hsp pa Hin). congruence.
Qed.

(** A code that logs the user in spends its token: on a database that
    answers and keeps its unique indexes, whatever happens to the accounts in
    between, no later attempt with that token is let in, with any code, unless
    a new login was opened. *)
Theorem pending_login_single_use ev raw code st r st' st'' ev' code' x :
  healthy st -> keyed st ->
  handleTOTPVerify cfg ev (Some (raw, code)) st = (Next r, st') -> keeps st' st'' ->
  (handleTOTPVerify cfg ev' (Some (raw, code')) st'').1 <> Next x.
Proof.
  intros Hh Hk Heq [_ Hp]. apply spent_refuses. pose proof (verify_spends ev raw code st Hh Hk) as Hv.
  unfold hwp in Hv. rewrite Heq in Hv. simpl in Hv. intros p Hin. exact (Hv r eq_refl p (Hp p Hin)).
Qed.

End proofs.

(** ** A concrete portal *)

Module Demo.

#[export] Instance demo_crypto : Crypto := {
  sha256 s := s; hex s := s; nonce_size := 1;
  aead_seal k n p := p; aead_open k n c := Some c }.

#[export] Instance demo_crypto_laws : CryptoLaws.
Proof. intros k n p _. reflexivity. Qed.

#[export] Instance demo_otp : OTP := {
  otp_generate rnd acct raw := Some {| en_Secret := default "FRESH" raw; en_URL := acct; en_QRPNG := "" |};
  otp_validate code secret now := Some (code =? "123456")%string;
  b32_decode s := Some s }.

Definition check_pw (hash pw : string) : bool := (hash =? pw)%string.

Definition conf : PortalConfig := {| pc_EncryptionKey := "k"; pc_LoginRatePerMinute := 5 |}.

(** An organisation that demands a second factor, and one user of it. *)
Definition acme (totp : bool) : PortalOrg :=
  {| po_ID := 1; po_Name := "Acme"; po_GofaxTenantID := 4; po_SvcUsername := "svc"; po_SvcPasswordEnc := ""; po_TenantNotify := ""; po_TOTPRequired := totp; po_RetentionDays := 30;
     po_Active := true |}.

Definition ann : PortalUser := (plain_user 7 "ann" "ann@acme.tld" 1) <| pu_PasswordHash := "secret" |>.

(** [ann] as she is once enrolled. *)
Definition enrolled : PortalUser := ann <| pu_TOTPSecretEnc := "nFRESH" |> <| pu_TOTPEnabled := true |>.

Notation Portal := (Portal (TS := ListTable Session) (TP := ListTable PendingAuth)
  (TU := ListTable PortalUser) (TO := ListTable PortalOrg)).

Definition portal (sessions : list Session) (users : list PortalUser) (orgs : list PortalOrg) : Portal :=
  {| ps_sessions := fresh_table sessions 1 []; ps_pending := fresh_table [] 1 []; ps_users := fresh_table users 1 [];
     ps_orgs := fresh_table orgs 1 []; ps_loginLimit := NewRateLimiter minute 0 |}.

Definition env (now : Z) (token : string) : ReqEnv :=
  {| ev_now := now * second; ev_ip := "10.0.0.1"; ev_token := token; ev_csrf := "c" +:+ token; ev_rnd := 0;
     ev_nonce := Some "n" |}.

Definition login (now : Z) (token password : string) : event := EvLogin (env now token) (Some ("ann", password)).
Definition verify (now : Z) (token mfa code : string) : event := EvVerify (env now token) (Some (mfa, code)).

(** Requests in order; the reply is dropped. *)
Definition serve (e : event) (st : Portal) : Portal :=
  match e with
  | EvLogin ev req => (handleLogin check_pw conf ev req st).2
  | EvSetup ev req => (handleTOTPSetup conf ev req st).2
  | EvVerify ev req => (handleTOTPVerify conf ev req st).2
  | EvRoute ev r c => (middleware ev r c st).2
  | _ => st
  end.

Definition is_served (e : event) : bool :=
  match e with EvLogin _ _ | EvSetup _ _ | EvVerify _ _ | EvRoute _ _ _ => true | _ => false end.

Fixpoint serve_all (es : list event) (h : list (Portal * event)) (st : Portal) : list (Portal * event) * Portal :=
  match es with
  | [] => (h, st)
  | e :: es' => serve_all es' ((st, e) :: h) (serve e st)
  end.

Lemma serve_all_run es st0 h st : run check_pw conf st0 h st -> forallb is_served es = true ->
  run check_pw conf st0 (serve_all es h st).1 (serve_all es h st).2.
Proof.
  revert h st. induction es as [|e es IH]; intros h st Hrun He; [done|]. simpl in *.
  apply andb_prop in He as [He Hes]. apply IH; [|done]. eapply run_step; [exact Hrun|].
  destruct e; try discriminate He; constructor.
Qed.

(** A wrong password, the right one, the enrolment page, a wrong code, the
    right one. *)
Definition story : list event :=
  [login 1 "t1" "guess"; login 2 "t2" "secret"; EvSetup (env 3 "") (Some "t2"); verify 4 "t4" "t2" "000000";
   verify 5 "t5" " t2 " "123456"].

Definition start : Portal := portal [] [ann] [acme true].

Definition after : Portal := (serve_all story [] start).2.

Definition with_cookie (token : string) : Call := {| cl_method := "GET"; cl_cookie := Some token; cl_csrf := "" |}.

(** The session lets her into the user realm. *)
Example story_admits :
  (is_Some (head (sess after)) /\ map ss_UserID (sess after) = [7] /\ pend after = [] /\
   map pu_TOTPEnabled (users after) = [true]) /\
  exists ctx, (middleware (env 6 "") RealmUser (with_cookie "t5") after).1 = Next ctx.
Proof. split; [vm_compute; eauto|]. vm_compute. eauto. Qed.

End Demo.

Section witnesses.
Import Demo.

Lemma sessions_are_earned_witness :
  exists (h : list (Portal * event)) s, s ∈ sess after /\ earned check_pw conf h s.
Proof.
  destruct (head (sess after)) as [s|] eqn:E; [|vm_compute in E; discriminate E].
  assert (s ∈ sess after) as Hs.
  { destruct (sess after) as [|x l]; [discriminate E|]. simpl in E. injection E as ->. by left. }
  exists (serve_all story [] start).1, s. split; [exact Hs|].
  apply (sessions_are_earned check_pw conf start _ after s).
  - apply (serve_all_run story start [] start); [apply run_start|reflexivity].
  - reflexivity.
  - reflexivity.
  - exact Hs.
Defined.

Lemma after_healthy : healthy after.
Proof. split_and!; reflexivity. Qed.

Lemma after_keyed : keyed after.
Proof.
  split_and!; vm_compute; [| |apply NoDup_singleton|apply NoDup_singleton]; [apply NoDup_singleton|apply NoDup_nil_2].
Qed.

Lemma middleware_exact_witness :
  (exists ctx, (middleware (env 6 "") RealmUser (with_cookie "t5") after).1 = Next ctx) /\
  exists s u, may_pass after (ev_now (env 6 "")) RealmUser (with_cookie "t5") s u.
Proof.
  destruct (middleware (env 6 "") RealmUser (with_cookie "t5") after).1 as [r|ctx] eqn:E;
    [vm_compute in E; discriminate E|].
  split; [eauto|].
  destruct (proj1 (middleware_exact (env 6 "") RealmUser (with_cookie "t5") after ctx after_healthy after_keyed) E)
    as (s & u & Hp & _).
  by exists s, u.
Defined.

(** The state the right code is sent to. *)
Definition before : Portal := (serve_all (firstn 4 story) [] start).2.

Lemma pending_login_single_use_witness :
  exists r st', handleTOTPVerify conf (env 5 "t5") (Some (" t2 ", "123456")) before = (Next r, st') /\
    forall x, (handleTOTPVerify conf (env 6 "t6") (Some (" t2 ", "123456")) st').1 <> Next x.
Proof.
  destruct (handleTOTPVerify conf (env 5 "t5") (Some (" t2 ", "123456")) before) as [[r|r] st'] eqn:E.
  { exfalso. assert ((handleTOTPVerify conf (env 5 "t5") (Some (" t2 ", "123456")) before).1 = Return r) as E'
      by (by rewrite E). vm_compute in E'. discriminate E'. }
  exists r, st'. split; [reflexivity|]. intros x.
  apply (pending_login_single_use conf (env 5 "t5") " t2 " "123456" before r st' st').
  - split_and!; reflexivity.
  - split_and!; vm_compute; [apply NoDup_nil_2|apply NoDup_singleton..].
  - exact E.
  - reflexivity.
Defined.

(** Enrolled while the organisation demanded it, logged in by password alone
    while it did not: when the organisation demands it again, that session
    still acts in the user realm. *)
Example session_older_than_the_demand :
  let st := (handleLogin check_pw conf (env 1 "t1") (Some ("ann", "secret")) (portal [] [enrolled] [acme false])).2 in
  (exists s, head (sess st) = Some s) /\
  exists ctx, (middleware (env 2 "") RealmUser (with_cookie "t1") (st <| ps_orgs := fresh_table [acme true] 1 [] |>)).1 = Next ctx.
Proof. vm_compute. eauto. Qed.

(** After another token has completed the enrolment, a token of an earlier
    login still shows the confirmed secret. *)
Example confirmed_secret_is_shown :
  let st := (serve_all [login 1 "t1" "secret"; login 2 "t2" "secret"; verify 3 "t3" "t2" "123456"] [] start).2 in
  map pu_TOTPEnabled (users st) = [true] /\
  exists e, (handleTOTPSetup conf (env 4 "") (Some "t1") st).1 = Next (ShowEnrollment e) /\ en_Secret e = "FRESH".
Proof. vm_compute. eauto. Qed.

(** The limit on code attempts is kept per token: a fresh login gives five more. *)
Example five_codes_per_token :
  let st := portal [] [enrolled] [acme true] in
  let guesses token := map (fun c => verify 2 "x" token c) ["000001"; "000002"; "000003"; "000004"; "000005"; "000006"] in
  let st1 := (serve_all (login 1 "t1" "secret" :: login 1 "t2" "secret" :: guesses "t1") [] st).2 in
  (handleTOTPVerify conf (env 3 "y") (Some ("t1", "123456")) st1).1 = Return (Fail 429 "too many attempts, try again later") /\
  exists r, (handleTOTPVerify conf (env 3 "y") (Some ("t2", "123456")) st1).1 = Next r.
Proof. vm_compute. eauto. Qed.

End witnesses.
