(* ===== verification/Secrets.v ===== *)
(** * Secrets: base64, stored passwords and Basic authentication
    ([gofaxlib/aes256.go], the Basic headers of [gofaxserver/web.go] and of
    [portal/internal/fsclient/client.go])

    Passwords of service accounts are stored encrypted (AES-256 in CFB mode,
    base64) and travel in Basic headers. The block cipher is a parameter;
    base64 and CFB are spelled out, so the round trips need nothing of it but
    the size of a block. *)

From S2P Require Import Prelude.

(** ** [encoding/base64], [StdEncoding] *)

Definition byte_of (c : ascii) : Z := Z.of_nat (nat_of_ascii c).
Definition char_of (z : Z) : ascii := ascii_of_nat (Z.to_nat z).

Definition b64_alphabet : string := "ABCDEFGHIJKLMNOPQRSTUVWXYZabcdefghijklmnopqrstuvwxyz0123456789+/".

Definition b64_char (z : Z) : ascii := default "A"%char (String.get (Z.to_nat z) b64_alphabet).

Fixpoint str_index (c : ascii) (s : string) : option Z :=
  match s with
  | EmptyString => None
  | String d s' => if Ascii.eqb d c then Some 0 else Z.succ <$> str_index c s'
  end.

Definition b64_val (c : ascii) : option Z := str_index c b64_alphabet.

Definition pad : ascii := "=".

Fixpoint EncodeToString (s : string) : string :=
  match s with
  | EmptyString => ""
  | String a EmptyString =>
      String (b64_char (byte_of a / 4)) (String (b64_char (byte_of a mod 4 * 16)) "==")
  | String a (String b EmptyString) =>
      String (b64_char (byte_of a / 4)) (String (b64_char (byte_of a mod 4 * 16 + byte_of b / 16))
        (String (b64_char (byte_of b mod 16 * 4)) "="))
  | String a (String b (String c s')) =>
      String (b64_char (byte_of a / 4)) (String (b64_char (byte_of a mod 4 * 16 + byte_of b / 16))
        (String (b64_char (byte_of b mod 16 * 4 + byte_of c / 64)) (String (b64_char (byte_of c mod 64))
          (EncodeToString s'))))
  end.

(** Four characters at a time; the padding ends the text. *)
Fixpoint b64_groups (s : string) : option string :=
  match s with
  | EmptyString => Some ""
  | String c1 (String c2 (String c3 (String c4 s'))) =>
      match b64_val c1, b64_val c2 with
      | Some v1, Some v2 =>
          let a := char_of (v1 * 4 + v2 / 16) in
          match b64_val c3 with
          | None =>
              if Ascii.eqb c3 pad && Ascii.eqb c4 pad && (s' =? "")%string then Some (String a "") else None
          | Some v3 =>
              let b := char_of (v2 mod 16 * 16 + v3 / 4) in
              match b64_val c4 with
              | None => if Ascii.eqb c4 pad && (s' =? "")%string then Some (String a (String b "")) else None
              | Some v4 =>
                  match b64_groups s' with
                  | Some r => Some (String a (String b (String (char_of (v3 mod 4 * 64 + v4)) r)))
                  | None => None
                  end
              end
          end
      | _, _ => None
      end
  | _ => None
  end.

Definition is_newline (c : ascii) : bool := Ascii.eqb c "010" || Ascii.eqb c "013".

Fixpoint str_filter (P : ascii -> bool) (s : string) : string :=
  match s with
  | EmptyString => ""
  | String c s' => if P c then String c (str_filter P s') else str_filter P s'
  end.

(** The decoder skips newlines. *)
Definition DecodeString (s : string) : option string := b64_groups (str_filter (fun c => negb (is_newline c)) s).

Example b64_example : EncodeToString "admin:k3y" = "YWRtaW46azN5" /\ DecodeString "YWRtaW46azN5" = Some "admin:k3y".
Proof. by vm_compute. Qed.

(** ** Stored passwords *)

(** The AES block function: key and block to block. *)
Class BlockCipher := { aes : string -> string -> string }.
Class BlockCipherLaws `{BlockCipher} : Prop := aes_block : forall k b, String.length (aes k b) = 16%nat.

Definition BlockSize : nat := 16.

Definition xor_char (a b : ascii) : ascii :=
  let '(Ascii a0 a1 a2 a3 a4 a5 a6 a7) := a in
  let '(Ascii b0 b1 b2 b3 b4 b5 b6 b7) := b in
  Ascii (xorb a0 b0) (xorb a1 b1) (xorb a2 b2) (xorb a3 b3) (xorb a4 b4) (xorb a5 b5) (xorb a6 b6) (xorb a7 b7).

(** The key: the pre-shared secret cut or padded to 32 bytes. *)
Fixpoint pad_key (n : nat) (s : string) : string :=
  match n, s with
  | O, _ => ""
  | S n', String c s' => String c (pad_key n' s')
  | S n', EmptyString => String "000" (pad_key n' "")
  end.

Definition key_of (psk : string) : string := pad_key 32 psk.

Section cfb.
Context `{BlockCipher}.

(** One byte at a time: [block] collects the ciphertext of the current block,
    [stream] is what is left of its key stream. *)
Fixpoint cfb (decrypt : bool) (key block stream text : string) : string :=
  match text with
  | EmptyString => ""
  | String t text' =>
      let '(block, stream) := match stream with EmptyString => ("", aes key block) | _ => (block, stream) end in
      match stream with
      | EmptyString => ""
      | String k stream' =>
          let o := xor_char t k in
          String o (cfb decrypt key (block +:+ String (if decrypt then t else o) "") stream' text')
      end
  end.

Definition Encrypt (iv : option string) (text psk : string) : option string :=
  match iv with
  | None => None
  | Some iv => Some (EncodeToString (iv +:+ cfb false (key_of psk) iv "" text))
  end.

Definition Decrypt (encryptedBase64 psk : string) : option string :=
  match DecodeString encryptedBase64 with
  | None => None
  | Some combined =>
      if (String.length combined <? BlockSize)%nat then None
      else let iv := str_take BlockSize combined in Some (cfb true (key_of psk) iv "" (str_drop BlockSize combined))
  end.

End cfb.

(** ** Basic authentication *)

(** [http.Request.SetBasicAuth]. *)
Definition basic_header (username password : string) : string :=
  "Basic " +:+ EncodeToString (username +:+ ":" +:+ password).

(** The position of the separator, as the two halves. [missing]: what to say of
    a header that is not a Basic one. *)
Definition credentials_of (missing header : string) : res (string * string) :=
  if (String.length header <? 6)%nat || negb (has_prefix header "Basic ") then Err missing
  else
    match DecodeString (str_drop 6 header) with
    | None => Err "Failed to decode credentials"
    | Some credentials =>
        match str_cut ":" credentials with
        | (username, Some password) => Ok (username, password)
        | (_, None) => Err "Invalid credentials format"
        end
    end.

(** ** Facts *)

Lemma byte_range c : 0 <= byte_of c < 256.
Proof. unfold byte_of. pose proof (nat_ascii_bounded c). lia. Qed.

Lemma char_of_byte c : char_of (byte_of c) = c.
Proof. unfold char_of, byte_of. by rewrite Nat2Z.id, ascii_nat_embedding. Qed.

Lemma b64_val_char z : 0 <= z < 64 -> b64_val (b64_char z) = Some z.
Proof.
  intros Hz. assert (forallb (fun n => match b64_val (b64_char (Z.of_nat n)) with
    | Some v => v =? Z.of_nat n | None => false end) (seq 0 64) = true) as Hall by (vm_compute; reflexivity).
  rewrite forallb_forall in Hall. specialize (Hall (Z.to_nat z)). rewrite Z2Nat.id in Hall by lia.
  assert (In (Z.to_nat z) (seq 0 64)) as Hin by (apply in_seq; lia). specialize (Hall Hin).
  destruct (b64_val (b64_char z)); [|discriminate Hall]. reflect_bools. by subst.
Qed.

Lemma b64_char_plain z : 0 <= z < 64 -> is_newline (b64_char z) = false.
Proof.
  intros Hz. assert (forallb (fun n => negb (is_newline (b64_char (Z.of_nat n)))) (seq 0 64) = true) as Hall
    by (vm_compute; reflexivity).
  rewrite forallb_forall in Hall. specialize (Hall (Z.to_nat z)). rewrite Z2Nat.id in Hall by lia.
  apply negb_true_iff, Hall, in_seq. lia.
Qed.

#[local] Ltac div_lia := Z.div_mod_to_equations; lia.

(** The four values of three bytes. *)
Lemma sextets a b c : 0 <= a < 256 -> 0 <= b < 256 -> 0 <= c < 256 ->
  0 <= a / 4 < 64 /\ 0 <= a mod 4 * 16 + b / 16 < 64 /\ 0 <= b mod 16 * 4 + c / 64 < 64 /\ 0 <= c mod 64 < 64 /\
  a / 4 * 4 + (a mod 4 * 16 + b / 16) / 16 = a /\
  (a mod 4 * 16 + b / 16) mod 16 * 16 + (b mod 16 * 4 + c / 64) / 4 = b /\
  (b mod 16 * 4 + c / 64) mod 4 * 64 + c mod 64 = c.
Proof. intros. repeat split; div_lia. Qed.

(** Induction over three bytes at a time. *)
Lemma three_ind (P : string -> Prop) :
  P "" -> (forall a, P (String a "")) -> (forall a b, P (String a (String b ""))) ->
  (forall a b c s, P s -> P (String a (String b (String c s)))) -> forall s, P s.
Proof.
  intros H0 H1 H2 H3 s. assert (P s /\ (forall a, P (String a s)) /\ (forall a b, P (String a (String b s)))) as [? _]; [|done].
  induction s as [|c s (IH0 & IH1 & IH2)]; [by split_and!|]. split_and!; auto.
Qed.

Lemma b64_plain s : str_filter (fun c => negb (is_newline c)) (EncodeToString s) = EncodeToString s.
Proof.
  induction s as [|a|a b|a b c s IH] using three_ind; [done|..]; cbn [EncodeToString str_filter].
  - pose proof (sextets (byte_of a) 0 0 (byte_range a) ltac:(lia) ltac:(lia)) as (?&Hb&_).
    change (0 / 16) with 0 in Hb. rewrite Z.add_0_r in Hb. by rewrite !b64_char_plain by done.
  - pose proof (sextets (byte_of a) (byte_of b) 0 (byte_range a) (byte_range b) ltac:(lia)) as (?&?&Hc&_).
    change (0 / 64) with 0 in Hc. rewrite Z.add_0_r in Hc. by rewrite !b64_char_plain by done.
  - pose proof (sextets (byte_of a) (byte_of b) (byte_of c) (byte_range a) (byte_range b) (byte_range c)) as (?&?&?&?&_).
    rewrite !b64_char_plain by done. cbn. by rewrite IH.
Qed.

Lemma b64_groups_encode s : b64_groups (EncodeToString s) = Some s.
Proof.
  induction s as [|a|a b|a b c s IH] using three_ind; [done|..]; cbn [EncodeToString b64_groups].
  - pose proof (sextets (byte_of a) 0 0 (byte_range a) ltac:(lia) ltac:(lia)) as (?&Hb&_&_&Ha&_).
    change (0 / 16) with 0 in *. rewrite Z.add_0_r in *. rewrite !b64_val_char by done. cbn.
    by rewrite Ha, char_of_byte.
  - pose proof (sextets (byte_of a) (byte_of b) 0 (byte_range a) (byte_range b) ltac:(lia)) as (?&?&Hc&_&Ha&Hb&_).
    change (0 / 64) with 0 in *. rewrite Z.add_0_r in *. rewrite !b64_val_char by done. cbn.
    by rewrite Ha, Hb, !char_of_byte.
  - pose proof (sextets (byte_of a) (byte_of b) (byte_of c) (byte_range a) (byte_range b) (byte_range c))
      as (?&?&?&?&Ha&Hb&Hc).
    rewrite !b64_val_char by done. rewrite IH, Ha, Hb, Hc. by rewrite !char_of_byte.
Qed.

Lemma decode_encode s : DecodeString (EncodeToString s) = Some s.
Proof. unfold DecodeString. rewrite b64_plain. apply b64_groups_encode. Qed.

Lemma xor_char_twice a b : xor_char (xor_char a b) b = a.
Proof.
  destruct a, b. cbn. by rewrite !xorb_assoc_reverse, !xorb_nilpotent, !xorb_false_r.
Qed.

Section cfb_facts.
Context `{BlockCipherLaws}.

Lemma cfb_inverse key text : forall block stream,
  cfb true key block stream (cfb false key block stream text) = text.
Proof.
  induction text as [|t text IH]; intros block stream; [done|]. cbn [cfb].
  assert (exists k s, (match stream with "" => aes key block | _ => stream end)%string = String k s) as (k & s & Hks).
  { destruct stream; [|by eauto]. pose proof (aes_block key block) as Hl. destruct (aes key block); [discriminate Hl|eauto]. }
  destruct stream as [|c stream].
  - rewrite Hks. cbn [cfb]. rewrite Hks, xor_char_twice. by rewrite IH.
  - cbn [cfb]. rewrite xor_char_twice. by rewrite IH.
Qed.

(** A stored password decrypts to what was encrypted. *)
Lemma Decrypt_Encrypt iv text psk e : String.length iv = BlockSize ->
  Encrypt (Some iv) text psk = Some e -> Decrypt e psk = Some text.
Proof.
  intros Hiv [= <-]. unfold Decrypt. rewrite decode_encode, str_length_app, Hiv.
  rewrite (proj2 (Nat.ltb_ge _ _)) by lia. rewrite <- Hiv, str_take_app, str_drop_app. by rewrite cfb_inverse.
Qed.

End cfb_facts.

(** A user name without a colon. *)
Definition plain_name (username : string) : Prop := str_forall (fun c => negb (Ascii.eqb c ":")) username = true.

Lemma cut_plain u rest : plain_name u -> str_cut ":" (u +:+ String ":" rest) = (u, Some rest).
Proof.
  unfold plain_name. induction u as [|c u IH]; intros Hu; [done|]. cbn [str_forall] in Hu.
  apply andb_prop in Hu as [Hc Hu]. rewrite str_app_cons. cbn [str_cut]. apply negb_true_iff in Hc.
  rewrite Hc. by rewrite IH.
Qed.

Lemma credentials_of_basic m u p : plain_name u -> credentials_of m (basic_header u p) = Ok (u, p).
Proof.
  intros Hu. unfold credentials_of, basic_header. rewrite str_length_app, has_prefix_app.
  replace (str_drop 6 ("Basic " +:+ EncodeToString (u +:+ ":" +:+ p)))
    with (EncodeToString (u +:+ ":" +:+ p)) by reflexivity.
  rewrite decode_encode. change (":" +:+ p) with (String ":" p). rewrite cut_plain by done.
  by rewrite (proj2 (Nat.ltb_ge _ _)) by (cbn [String.length]; lia).
Qed.
