(* ===== verification/TenantUsers.v ===== *)
(** * TenantUsers: service accounts and who may call the server
    ([gofaxserver/tenants.go], the authentication of [gofaxserver/web.go])

    The accounts that submit faxes. The rows keep encrypted passwords; the
    specification is a list of accounts with their passwords in the clear. *)

From S2P Require Import Prelude Store Secrets.

Record TenantUser := {
  tu_ID : Z; tu_TenantID : Z; tu_Username : string; tu_Password : string; tu_APIKey : string;
}.

#[export] Instance tenant_user_id : HasID TenantUser := {
  get_id := tu_ID; set_id i r := r <| tu_ID := i |>; get_set_id i r := eq_refl }.

(** What a handler answers: 200 with a body, or a status with a message. *)
Inductive answer (A : Type) := Answer (a : A) | Reject (code : Z) (error : string).
Arguments Answer {A} a.
Arguments Reject {A} code error.

Section accounts.
Context {T : Type} `{!Table T TenantUser} `{BlockCipher}.
(** [gofaxlib.Config.PSK] and [gofaxlib.Config.Web.APIKey]. *)
Variable PSK : string.
Variable APIKey : string.

Definition same_user (id : Z) (u : TenantUser) : bool := tu_ID u =? id.

(** [username] is unique in the table: a row that takes another's name is refused. *)
Definition username_taken (user r : TenantUser) : bool :=
  (tu_Username r =? tu_Username user)%string && negb (tu_ID r =? tu_ID user).

(** [iv]: what the random source yields. The row as stored, or the error. *)
Definition AddTenantUser (iv : option string) (user : TenantUser) (t : T) : option TenantUser * T :=
  match Encrypt iv (tu_Password user) PSK with
  | None => (None, t)
  | Some encrypted =>
      if existsb (username_taken user) (tbl_rows t) then (None, t)
      else gorm_create (user <| tu_Password := encrypted |>) t
  end.

(** The user as the handler answers it, or the error. *)
Definition UpdateTenantUser (iv : option string) (user : TenantUser) (t : T) : option TenantUser * T :=
  if nonempty (tu_Password user) then
    match Encrypt iv (tu_Password user) PSK with
    | None => (None, t)
    | Some encrypted =>
        if existsb (username_taken user) (tbl_rows t) then (None, t)
        else gorm_save (user <| tu_Password := encrypted |>) t
    end
  else if existsb (same_user (tu_ID user)) (tbl_rows t) && existsb (username_taken user) (tbl_rows t) then (None, t)
  else
    let '(ok, t1) := tbl_update (same_user (tu_ID user))
         (fun u => u <| tu_TenantID := tu_TenantID user |> <| tu_Username := tu_Username user |>
                     <| tu_APIKey := tu_APIKey user |>) t in
    (if ok then Some user else None, t1).

Definition DeleteTenantUser (id : Z) (t : T) : bool * T := tbl_delete (same_user id) t.

Definition AuthenticateTenantUser (username password : string) (t : T) : res TenantUser * T :=
  let '(found, t1) := tbl_first (fun u => (tu_Username u =? username)%string) t in
  (match found with
   | None => Err "user not found"
   | Some user =>
       match Decrypt (tu_Password user) PSK with
       | None => Err "failed to encrypt provided password"
       | Some decrypted => if (password =? decrypted)%string then Ok user else Err "invalid password"
       end
   end, t1).

(** ** The callers *)

Definition unauthorized {A} (message : string) : answer A := Reject 401 message.

(** The Basic credentials, then the account. *)
Definition authenticate_basic (authHeader : string) (t : T) : res TenantUser * T :=
  match credentials_of "Missing or invalid Authorization header" authHeader with
  | Err e => (Err e, t)
  | Ok (username, password) =>
      match AuthenticateTenantUser username password t with
      | (Err e, t1) => (Err ("Authentication failed: " +:+ e), t1)
      | found => found
      end
  end.

Record AuthenticateReply := { ar_APIKey : string; ar_UserID : Z; ar_TenantID : Z }.

Definition handleAuthenticateTenantUser (authHeader : string) (t : T) : answer AuthenticateReply * T :=
  let '(r, t1) := authenticate_basic authHeader t in
  (match r with
   | Ok user => Answer {| ar_APIKey := tu_APIKey user; ar_UserID := tu_ID user; ar_TenantID := tu_TenantID user |}
   | Err e => unauthorized e
   end, t1).

(** The middleware of the fax routes: the tenant and user ids it leaves in the
    request context. *)
Definition basicTenantUserAuthMiddleware (authHeader : string) (t : T) : answer (Z * Z) * T :=
  let '(r, t1) := authenticate_basic authHeader t in
  (match r with
   | Ok user => Answer (tu_TenantID user, tu_ID user)
   | Err e => unauthorized e
   end, t1).

(** The middleware of the admin routes. *)
Definition basicAuthMiddleware (authHeader : string) : answer unit :=
  if (APIKey =? "")%string then Reject 500 "Internal Server Error"
  else if (authHeader =? "")%string then unauthorized "Authorization header missing"
  else
    match credentials_of "Invalid Authorization header format" authHeader with
    | Err e => unauthorized e
    | Ok (_, apiKey) => if (apiKey =? APIKey)%string then Answer tt else unauthorized "Invalid API key"
    end.

Lemma authenticated `{!TableLaws T TenantUser} name pw user t : (AuthenticateTenantUser name pw t).1 = Ok user ->
  head (List.filter (fun u => (tu_Username u =? name)%string) (tbl_rows t)) = Some user /\
  Decrypt (tu_Password user) PSK = Some pw.
Proof.
  unfold AuthenticateTenantUser. set (P := fun u => (tu_Username u =? name)%string).
  pose proof (find_result P t) as Hres. unfold tbl_first.
  destruct (tbl_find P t) as [[[|x l]|] t1]; simpl in *; [done| |done]. destruct (Decrypt _ _) as [dec|] eqn:Ed; [|done].
  destruct (String.eqb_spec pw dec) as [->|]; [|done]. intros [= <-]. by rewrite <- (Hres _ eq_refl).
Qed.

Lemma authenticate_rows `{!TableLaws T TenantUser} name pw t : tbl_rows (AuthenticateTenantUser name pw t).2 = tbl_rows t.
Proof.
  unfold AuthenticateTenantUser. pose proof (first_rows (fun u => (tu_Username u =? name)%string) t) as Hr.
  by destruct (tbl_first _ t).
Qed.

(** ** Accounts with their passwords in the clear *)

Record Account := { ac_ID : Z; ac_TenantID : Z; ac_Username : string; ac_Secret : string; ac_APIKey : string }.

Definition account_of (u : TenantUser) : Account :=
  {| ac_ID := tu_ID u; ac_TenantID := tu_TenantID u; ac_Username := tu_Username u; ac_Secret := tu_Password u;
     ac_APIKey := tu_APIKey u |}.

#[local] Instance account_id : HasID Account := {
  get_id := ac_ID; set_id i r := r <| ac_ID := i |>; get_set_id i r := eq_refl }.

Inductive user_op :=
| OpAdd (iv : option string) (user : TenantUser)
| OpUpdate (iv : option string) (user : TenantUser)
| OpDelete (id : Z).

(** What the operation reports, and the table it leaves. *)
Definition run_op (op : user_op) (t : T) : bool * T :=
  match op with
  | OpAdd iv user => let '(r, t1) := AddTenantUser iv user t in (match r with Some _ => true | None => false end, t1)
  | OpUpdate iv user => let '(r, t1) := UpdateTenantUser iv user t in (match r with Some _ => true | None => false end, t1)
  | OpDelete id => DeleteTenantUser id t
  end.

Fixpoint run_ops (ops : list user_op) (t : T) : list bool * T :=
  match ops with
  | [] => ([], t)
  | op :: ops' => let '(ok, t1) := run_op op t in let '(oks, t2) := run_ops ops' t1 in (ok :: oks, t2)
  end.

(** An operation that reports success has done what it is for, one that reports
    a failure nothing: an addition gives the account a key of its own; an update
    replaces the account of that key, or makes one when nobody has it; an update
    without a password keeps the one there is; a deletion removes the account. *)
Inductive spec_op : user_op -> bool -> list Account -> list Account -> Prop :=
| SpecAdd iv user i l : (tu_ID user <> 0 -> i = tu_ID user) -> i <> 0 -> i ∉ map ac_ID l ->
    spec_op (OpAdd iv user) true l (l ++ [(account_of user) <| ac_ID := i |>])
| SpecReplace iv user l : tu_Password user <> "" -> tu_ID user <> 0 ->
    spec_op (OpUpdate iv user) true l (replace_row (account_of user) l)
| SpecMake iv user i l : tu_Password user <> "" -> tu_ID user = 0 -> i <> 0 -> i ∉ map ac_ID l ->
    spec_op (OpUpdate iv user) true l (l ++ [(account_of user) <| ac_ID := i |>])
| SpecKeep iv user l : tu_Password user = "" ->
    spec_op (OpUpdate iv user) true l (map (fun a => if ac_ID a =? tu_ID user
      then (account_of user) <| ac_Secret := ac_Secret a |> <| ac_ID := ac_ID a |> else a) l)
| SpecDelete id l : spec_op (OpDelete id) true l (List.filter (fun a => negb (ac_ID a =? id)) l)
| SpecFail op l : spec_op op false l l.

Inductive spec_run : list user_op -> list bool -> list Account -> list Account -> Prop :=
| spec_done l : spec_run [] [] l l
| spec_next op ops ok oks l l1 l2 : spec_op op ok l l1 -> spec_run ops oks l1 l2 -> spec_run (op :: ops) (ok :: oks) l l2.

(** An operation that cannot fail while the database is reachable: a random
    source, a name nobody has, and no key of its own for a new account. *)
Definition unobstructed (op : user_op) (l : list Account) : Prop :=
  match op with
  | OpAdd iv user => is_Some iv /\ tu_ID user = 0 /\ tu_Username user ∉ map ac_Username l
  | OpUpdate iv user => is_Some iv /\ tu_Username user ∉ map ac_Username l
  | OpDelete _ => True
  end.

(** Who the specification lets in: the first account of that name, with its
    password. *)
Definition spec_auth (username password : string) (l : list Account) : option Account :=
  match List.find (fun a => (ac_Username a =? username)%string) l with
  | Some a => if (password =? ac_Secret a)%string then Some a else None
  | None => None
  end.

(** The row holds the account, its password encrypted. *)
Definition holds (u : TenantUser) (a : Account) : Prop :=
  (account_of u) <| ac_Secret := ac_Secret a |> = a /\ Decrypt (tu_Password u) PSK = Some (ac_Secret a).

Definition good_iv (op : user_op) : Prop :=
  match op with
  | OpAdd (Some iv) _ | OpUpdate (Some iv) _ => String.length iv = BlockSize
  | _ => True
  end.

End accounts.

(** ** Facts *)

Section facts.
Context {T : Type} `{!Table T TenantUser, !TableLaws T TenantUser} `{BlockCipherLaws}.
Variable PSK : string.
Variable APIKey : string.
#[local] Existing Instance account_id.

Lemma holds_id u a : holds PSK u a -> tu_ID u = ac_ID a.
Proof. intros [<- _]. reflexivity. Qed.

Lemma holds_encrypted iv user e : String.length iv = BlockSize -> Encrypt (Some iv) (tu_Password user) PSK = Some e ->
  holds PSK (user <| tu_Password := e |>) (account_of user).
Proof. intros Hiv He. split; [by destruct user|]. by apply (Decrypt_Encrypt iv). Qed.

Lemma replace_row_holds u a rows l :
  Forall2 (holds PSK) rows l -> holds PSK u a -> Forall2 (holds PSK) (replace_row u rows) (replace_row a l).
Proof.
  intros Hrel Hu. unfold replace_row.
  assert (existsb (fun x => get_id x =? get_id u) rows = existsb (fun x => get_id x =? get_id a) l) as <-.
  { induction Hrel as [|x y rows l Hxy _ IH]; cbn [existsb]; [done|]. rewrite IH. f_equal.
    change (get_id x) with (tu_ID x). change (get_id u) with (tu_ID u). by rewrite (holds_id _ _ Hxy), (holds_id _ _ Hu). }
  destruct (existsb _ rows); [|by apply Forall2_app, Forall2_cons; [|split]].
  induction Hrel as [|x y rows l Hxy _ IH]; cbn [map]; [by constructor|constructor; [|done]].
  change (get_id x) with (tu_ID x). change (get_id u) with (tu_ID u).
  rewrite (holds_id _ _ Hxy), (holds_id _ _ Hu). change (get_id y) with (ac_ID y). change (get_id a) with (ac_ID a). by destruct (_ =? _).
Qed.

Lemma holds_fresh i rows l : Forall2 (holds PSK) rows l -> Forall (fun x => get_id x <> i) rows -> i ∉ map ac_ID l.
Proof.
  intros Hrel Hf Hi. apply list_elem_of_fmap in Hi as (a & -> & Ha). induction Hrel as [|x y rows l Hxy _ IH]; [by apply elem_of_nil in Ha|].
  apply Forall_cons in Hf as [Hx Hf]. apply elem_of_cons in Ha as [->|Ha]; [|by apply IH].
  apply Hx. change (get_id x) with (tu_ID x). by apply holds_id.
Qed.

(** A stored account with its password encrypted, under the key it got. *)
Lemma appended iv user e u rows l : String.length iv = BlockSize -> Encrypt (Some iv) (tu_Password user) PSK = Some e ->
  Forall2 (holds PSK) rows l -> u = user <| tu_Password := e |> <| tu_ID := tu_ID u |> ->
  Forall2 (holds PSK) (rows ++ [u]) (l ++ [(account_of user) <| ac_ID := tu_ID u |>]).
Proof.
  intros Hiv He Hrel Hu. apply Forall2_app, Forall2_cons; [done|]. split; [|constructor].
  split; rewrite Hu; [by destruct user|]. by apply (Decrypt_Encrypt iv).
Qed.

Lemma add_simulates iv user t l : good_iv (OpAdd iv user) -> Forall2 (holds PSK) (tbl_rows t) l ->
  let '(ok, t1) := run_op PSK (OpAdd iv user) t in
  exists l', spec_op (OpAdd iv user) ok l l' /\ Forall2 (holds PSK) (tbl_rows t1) l'.
Proof.
  intros Hiv Hrel. cbn [run_op]. unfold AddTenantUser. destruct iv as [iv|]; [|by exists l; split; [constructor|]].
  destruct (Encrypt (Some iv) (tu_Password user) PSK) as [e|] eqn:He; [|by exists l; split; [constructor|]].
  destruct (existsb _ (tbl_rows t)); [by exists l; split; [constructor|]|].
  pose proof (gorm_create_rows (user <| tu_Password := e |>) t) as Hc.
  destruct (gorm_create _ t) as [[u|] t1]; cbn [fst snd] in Hc; [|by exists l; split; [constructor|rewrite Hc]].
  destruct Hc as (Hown & Hnew & Hf & Hrows). change (get_id (user <| tu_Password := e |>)) with (tu_ID user) in *.
  exists (l ++ [(account_of user) <| ac_ID := tu_ID u |>]). rewrite Hrows. split.
  - constructor; [intros Hz; by rewrite (Hown Hz)| |exact (holds_fresh _ _ _ Hrel Hf)].
    destruct (decide (tu_ID user = 0)) as [Hz|Hz]; [destruct (Hnew Hz) as [_ Hp]; change (0 < tu_ID u) in Hp; lia|by rewrite (Hown Hz)].
  - apply (appended iv user e); [done..|]. destruct (decide (tu_ID user = 0)) as [Hz|Hz]; [by destruct (Hnew Hz) as [-> _]|].
    rewrite (Hown Hz). by destruct user.
Qed.

Lemma save_simulates iv user t l : good_iv (OpUpdate iv user) -> tu_Password user <> "" -> Forall2 (holds PSK) (tbl_rows t) l ->
  let '(ok, t1) := run_op PSK (OpUpdate iv user) t in
  exists l', spec_op (OpUpdate iv user) ok l l' /\ Forall2 (holds PSK) (tbl_rows t1) l'.
Proof.
  intros Hiv Hp Hrel. cbn [run_op]. unfold UpdateTenantUser, nonempty. rewrite (proj2 (String.eqb_neq _ _) Hp). cbn [negb].
  destruct iv as [iv|]; [|by exists l; split; [constructor|]].
  destruct (Encrypt (Some iv) (tu_Password user) PSK) as [e|] eqn:He; [|by exists l; split; [constructor|]].
  destruct (existsb _ (tbl_rows t)); [by exists l; split; [constructor|]|].
  pose proof (gorm_save_rows (user <| tu_Password := e |>) t) as Hc.
  destruct (gorm_save _ t) as [[u|] t1]; cbn [fst snd] in Hc; [|by exists l; split; [constructor|rewrite Hc]].
  destruct Hc as (Hown & Hnew & Hrows). change (get_id (user <| tu_Password := e |>)) with (tu_ID user) in *.
  destruct (decide (tu_ID user = 0)) as [Hz|Hz].
  - destruct (Hnew Hz) as (Hu & Hpos & Hf). exists (l ++ [(account_of user) <| ac_ID := tu_ID u |>]). split.
    + constructor; [done|done| |exact (holds_fresh _ _ _ Hrel Hf)]. change (0 < tu_ID u) in Hpos. lia.
    + rewrite Hrows, <- append_replace by done. by apply (appended iv user e).
  - exists (replace_row (account_of user) l). split; [by constructor|]. rewrite Hrows, (Hown Hz).
    apply replace_row_holds; [done|]. by apply (holds_encrypted iv).
Qed.

Lemma keep_simulates iv user t l : tu_Password user = "" -> Forall2 (holds PSK) (tbl_rows t) l ->
  let '(ok, t1) := run_op PSK (OpUpdate iv user) t in
  exists l', spec_op (OpUpdate iv user) ok l l' /\ Forall2 (holds PSK) (tbl_rows t1) l'.
Proof.
  intros Hp Hrel. cbn [run_op]. unfold UpdateTenantUser, nonempty. rewrite Hp. cbn [String.eqb negb].
  destruct (_ && _); [by exists l; split; [constructor|]|].
  match goal with |- context [tbl_update ?P ?f t] => pose proof (update_ok P f t) as Ho; pose proof (update_err P f t) as He;
    destruct (tbl_update P f t) as [[|] t1] end; cbn [fst snd] in *; [|exists l; split; [constructor|by rewrite He]].
  eexists. split; [by apply SpecKeep|]. rewrite Ho by done. clear Ho He.
  induction Hrel as [|x y rows l Hxy _ IH]; cbn [map]; [by constructor|constructor; [|done]].
  unfold same_user. rewrite (holds_id _ _ Hxy). destruct (ac_ID y =? tu_ID user); [|done]. destruct Hxy as [<- Hd]. by split.
Qed.

Lemma delete_simulates id t l : Forall2 (holds PSK) (tbl_rows t) l ->
  let '(ok, t1) := run_op PSK (OpDelete id) t in
  exists l', spec_op (OpDelete id) ok l l' /\ Forall2 (holds PSK) (tbl_rows t1) l'.
Proof.
  intros Hrel. cbn [run_op]. unfold DeleteTenantUser. pose proof (delete_ok (same_user id) t) as Ho. pose proof (delete_err (same_user id) t) as He.
  destruct (tbl_delete (same_user id) t) as [[|] t1]; cbn [fst snd] in *; [|exists l; split; [constructor|by rewrite He]].
  eexists. split; [apply SpecDelete|]. rewrite Ho by done. clear Ho He.
  induction Hrel as [|x y rows l Hxy _ IH]; cbn [List.filter]; [by constructor|]. unfold same_user at 1. rewrite (holds_id _ _ Hxy).
  destruct (ac_ID y =? id); cbn [negb]; [done|by constructor].
Qed.

Lemma run_op_simulates op t l : good_iv op -> Forall2 (holds PSK) (tbl_rows t) l ->
  let '(ok, t1) := run_op PSK op t in
  exists l', spec_op op ok l l' /\ Forall2 (holds PSK) (tbl_rows t1) l'.
Proof.
  intros Hiv Hrel. destruct op as [iv user|iv user|id]; [by apply add_simulates| |by apply delete_simulates].
  destruct (decide (tu_Password user = "")); [by apply keep_simulates|by apply save_simulates].
Qed.

(** Nobody else has a name that no account has. *)
Lemma name_free user rows l : Forall2 (holds PSK) rows l -> tu_Username user ∉ map ac_Username l ->
  existsb (username_taken user) rows = false.
Proof.
  induction 1 as [|x y rows l Hxy _ IH]; [done|]. cbn [map existsb]. rewrite not_elem_of_cons. intros [Hy Hl]. rewrite IH by done.
  assert (tu_Username x = ac_Username y) as Hname by (by destruct Hxy as [<- _]). unfold username_taken.
  rewrite (proj2 (String.eqb_neq (tu_Username x) (tu_Username user))); [done|congruence].
Qed.

Lemma unobstructed_succeeds op t l : tbl_healthy t -> Forall2 (holds PSK) (tbl_rows t) l -> unobstructed op l ->
  (run_op PSK op t).1 = true.
Proof.
  intros Ht Hrel Ho. destruct op as [iv user|iv user|id]; cbn [run_op unobstructed] in *.
  - destruct Ho as ([iv' ->] & Hz & Hn). unfold AddTenantUser. cbn [Encrypt]. rewrite (name_free _ _ _ Hrel Hn).
    match goal with |- context [gorm_create ?r t] => pose proof (proj1 (gorm_create_healthy r t Ht)) as Hc;
      destruct (gorm_create r t) as [[u|] t1]; [done|]; destruct (proj1 Hc eq_refl) as [Hne _]; by destruct Hne end.
  - destruct Ho as ([iv' ->] & Hn). unfold UpdateTenantUser. cbn [Encrypt]. rewrite (name_free _ _ _ Hrel Hn), andb_false_r.
    destruct (nonempty _).
    + match goal with |- context [gorm_save ?r t] => destruct (proj1 (gorm_save_healthy r t Ht)) as [x Hx];
        destruct (gorm_save r t); simpl in *; by subst end.
    + match goal with |- context [tbl_update ?P ?f t] => pose proof (proj1 (healthy_update P f t Ht)) as Hu;
        destruct (tbl_update P f t); simpl in *; by subst end.
  - exact (proj1 (healthy_delete _ _ Ht)).
Qed.

Lemma find_holds name rows l : Forall2 (holds PSK) rows l ->
  match head (List.filter (fun u => (tu_Username u =? name)%string) rows),
        List.find (fun a => (ac_Username a =? name)%string) l with
  | Some u, Some a => holds PSK u a
  | None, None => True
  | _, _ => False
  end.
Proof.
  induction 1 as [|u a rows l Hua _ IH]; simpl; [done|].
  replace (ac_Username a) with (tu_Username u) by (destruct Hua as [<- _]; reflexivity).
  by destruct (tu_Username u =? name)%string.
Qed.

Lemma authenticate_spec name password t l : tbl_healthy t -> Forall2 (holds PSK) (tbl_rows t) l ->
  match (AuthenticateTenantUser PSK name password t).1, spec_auth name password l with
  | Ok u, Some a => holds PSK u a
  | Err _, None => True
  | _, _ => False
  end.
Proof.
  intros Ht Hrel. unfold AuthenticateTenantUser, spec_auth.
  pose proof (first_healthy (fun u => (tu_Username u =? name)%string) t Ht) as (Hf & _).
  pose proof (find_holds name _ _ Hrel) as Hfind.
  destruct (tbl_first _ t) as [o t1]; simpl in *. subst o.
  destruct (head _) as [u|], (List.find _ l) as [a|]; try done. destruct Hfind as [Ha Hd]. rewrite Hd.
  by destruct (password =? ac_Secret a)%string.
Qed.

Lemma run_ops_simulate ops : forall t l, Forall good_iv ops -> Forall2 (holds PSK) (tbl_rows t) l ->
  let '(oks, t') := run_ops PSK ops t in
  exists l', spec_run ops oks l l' /\ Forall2 (holds PSK) (tbl_rows t') l'.
Proof.
  induction ops as [|op ops IH]; intros t l Hiv Hrel; [by exists l; split; [constructor|]|].
  apply Forall_cons in Hiv as [Hop Hops]. cbn [run_ops]. pose proof (run_op_simulates op t l Hop Hrel) as H1.
  destruct (run_op PSK op t) as [ok t1]. destruct H1 as (l1 & Hs & Hrel1). specialize (IH t1 l1 Hops Hrel1).
  destruct (run_ops PSK ops t1) as [oks t2]. destruct IH as (l2 & ? & ?). exists l2. split; [by econstructor|done].
Qed.

(** C22: whatever sequence of additions, updates and deletions is carried out
    or fails, the stored accounts stay in step with a list of accounts whose
    passwords are in the clear: what is reported as done has been done on that
    list (an update without a password keeps the one there is), and what is
    reported as failed has changed nothing. While the database is reachable an
    operation that nothing stands in the way of is reported as done; and a name
    and password are accepted exactly when they are those of the first account
    of that name, whose ids and key are returned. *)
Theorem tenant_users_refine ops t l :
  Forall good_iv ops -> Forall2 (holds PSK) (tbl_rows t) l ->
  let '(oks, t') := run_ops PSK ops t in
  exists l', spec_run ops oks l l' /\
    (tbl_healthy t' ->
     (forall op, unobstructed op l' -> (run_op PSK op t').1 = true) /\
     forall name password,
      match (AuthenticateTenantUser PSK name password t').1, spec_auth name password l' with
      | Ok u, Some a => ac_ID a = tu_ID u /\ ac_TenantID a = tu_TenantID u /\ ac_APIKey a = tu_APIKey u
      | Err _, None => True
      | _, _ => False
      end).
Proof.
  intros Hiv Hrel. pose proof (run_ops_simulate ops t l Hiv Hrel) as H1. destruct (run_ops PSK ops t) as [oks t'].
  destruct H1 as (l' & Hrun & Hrel'). exists l'. split; [done|]. intros Ht'. split.
  { intros op Ho. by apply (unobstructed_succeeds op t' l'). }
  intros name password. pose proof (authenticate_spec name password t' l' Ht' Hrel') as Hauth.
  destruct (AuthenticateTenantUser _ _ _ _).1, (spec_auth _ _ _); try done. by destruct Hauth as [<- _].
Qed.

End facts.

(** The Basic header the portal's client builds from a name without a
    colon is understood: the admin routes take it exactly when it carries the
    configured key and a key is configured, the fax routes exactly when name and
    password authenticate, as that account. *)
Theorem basic_auth_understood {T} `{!Table T TenantUser} `{BlockCipher} (PSK APIKey : string) (t : T) u p :
  plain_name u ->
  (basicAuthMiddleware APIKey (basic_header u p) = Answer tt <-> APIKey <> "" /\ p = APIKey) /\
  (forall ids, (basicTenantUserAuthMiddleware PSK (basic_header u p) t).1 = Answer ids <->
    exists user, (AuthenticateTenantUser PSK u p t).1 = Ok user /\ ids = (tu_TenantID user, tu_ID user)).
Proof.
  intros Hu. split.
  - unfold basicAuthMiddleware. rewrite credentials_of_basic by done.
    destruct (String.eqb_spec APIKey "") as [->|]; [by split; [|intros []]|].
    rewrite (proj2 (String.eqb_neq (basic_header u p) "")) by done.
    destruct (String.eqb_spec p APIKey); [by split|by split; [|intros []]].
  - intros ids. unfold basicTenantUserAuthMiddleware, authenticate_basic. rewrite credentials_of_basic by done.
    destruct (AuthenticateTenantUser PSK u p t) as [[user|e] t1]; simpl.
    + split; [by intros [= <-]; eauto|]. by intros (? & [= <-] & ->).
    + by split; [|intros (? & ? & _)].
Qed.

(** ** A concrete server *)

(** A cipher of the right size: it returns the block, padded. *)
#[local] Instance demo_cipher : BlockCipher := { aes k b := pad_key 16 b }.

#[local] Instance demo_cipher_laws : BlockCipherLaws.
Proof.
  intros k b. change (String.length (pad_key 16 b) = 16%nat).
  assert (forall n s, String.length (pad_key n s) = n) as Hl; [|apply Hl].
  induction n as [|n IH]; intros [|c s]; cbn; by rewrite ?IH.
Qed.

Definition demo_iv : string := "0123456789abcdef".

Definition demo_user (id : Z) (name password : string) : TenantUser :=
  {| tu_ID := id; tu_TenantID := 4; tu_Username := name; tu_Password := password; tu_APIKey := "k" |}.

(** Created, renamed without a password, given a new one. *)
Definition demo_ops : list user_op :=
  [OpAdd (Some demo_iv) (demo_user 0 "svc" "first"); OpUpdate None (demo_user 1 "svc2" "");
   OpUpdate (Some demo_iv) (demo_user 1 "svc2" "second")].

Lemma tenant_users_refine_witness :
  let t' := (run_ops "psk" demo_ops (fresh_table [] 1 [])).2 in
  (exists l', spec_run demo_ops [true; true; true] [] l') /\ is_ok (AuthenticateTenantUser "psk" "svc2" "second" t').1 = true /\
  is_ok (AuthenticateTenantUser "psk" "svc2" "first" t').1 = false.
Proof.
  split; [|split; vm_compute; reflexivity].
  pose proof (tenant_users_refine (T := ListTable TenantUser) "psk" demo_ops (fresh_table [] 1 []) []) as H1.
  assert ((run_ops "psk" demo_ops (fresh_table [] 1 [])).1 = [true; true; true]) as Hok by (vm_compute; reflexivity).
  destruct (run_ops "psk" demo_ops (fresh_table [] 1 [])) as [oks t']. cbn [fst] in Hok. rewrite Hok in H1.
  destruct H1 as (l' & Hrun & _).
  - unfold demo_ops. repeat (apply Forall_cons; split; [reflexivity || exact I|]). apply Forall_nil. exact I.
  - constructor.
  - exists l'. exact Hrun.
Defined.

Lemma basic_auth_understood_witness : basicAuthMiddleware "k3y" (basic_header "admin" "k3y") = Answer tt.
Proof.
  apply (basic_auth_understood (T := ListTable TenantUser) "psk" "k3y" (fresh_table [] 1 []) "admin" "k3y"); [reflexivity|].
  split; [discriminate|reflexivity].
Defined.
