(* ===== verification/JobResult.v ===== *)
(** * JobResult: persisting the legs of a job ([gofaxserver/faxjobresult.go])

    Every outcome the router or a delivery worker reports becomes one row.
    [JSON] marshalling is a record of functions the code calls; [None] is its
    error. A job's intake shows as a "submission" row that goes from "queued"
    to "processed". *)

From S2P Require Import Prelude Store FaxResult FaxJob.

Record FaxJobResult := {
  jr_ID : Z;
  jr_SrcTenantID : Z; jr_DstTenantID : Z; jr_JobUUID : Z; jr_CallUUID : Z;
  jr_CalleeNumber : string; jr_CallerIdNumber : string; jr_CallerIdName : string;
  jr_FileName : string; jr_UseECM : bool; jr_DisableV17 : bool;
  jr_Identifier : string; jr_Header : string; jr_Endpoints : string; jr_SourceInfo : string;
  jr_ResultType : string; jr_AttemptNumber : Z; jr_EndpointID : Z; jr_EndpointType : string;
  jr_Gateway : string;
  jr_NPages : Z; jr_DataFormat : string; jr_SignalRate : Z; jr_CSI : string; jr_Status : string;
  jr_Returned : string; jr_TotDials : Z; jr_NDials : Z; jr_TotTries : Z; jr_JobTime : Z;
  jr_ConnTime : Z; jr_Ts : option Z;
  jr_StartTs : option Z; jr_EndTs : option Z; jr_HangupCause : string; jr_TotalPages : Z;
  jr_TransferredPages : Z; jr_ECM : bool; jr_EcmRequested : bool; jr_RemoteID : string;
  jr_LocalID : string; jr_ResultCode : Z; jr_ResultText : string; jr_Success : bool;
  jr_TransferRate : Z; jr_NegotiateCount : Z; jr_T38Status : string; jr_V17Disabled : bool;
  jr_PageResults : string;
  jr_BadRows : Z; jr_LongestBadRowRun : Z; jr_Encoding : Z; jr_EncodingName : string;
  jr_ImageSize : Z; jr_ImageResolution : string; jr_FileImageResolution : string;
  jr_ImagePixelSize : string; jr_FileImagePixelSize : string; jr_RemoteCountry : string;
  jr_RemoteVendor : string; jr_RemoteModel : string; jr_TraceFile : string; jr_ResultMetadata : string;
  jr_IsBridge : bool; jr_BridgeDirection : string; jr_BridgeGateway : string;
  jr_BridgeStartTs : option Z; jr_BridgeEndTs : option Z; jr_BridgeDuration : Z; jr_BridgeT38 : bool;
  jr_BridgeT38ALeg : string; jr_BridgeT38BLeg : string; jr_SoftmodemSrc : bool; jr_SoftmodemDst : bool;
  jr_UsedT38 : bool; jr_SoftmodemFallback : bool; jr_AppliedPolicies : string;
  jr_CreatedAt : Z;
}.

(** [FaxJobResult{}]. *)
Definition zero_record : FaxJobResult := {|
  jr_ID := 0; jr_SrcTenantID := 0; jr_DstTenantID := 0; jr_JobUUID := 0; jr_CallUUID := 0;
  jr_CalleeNumber := ""; jr_CallerIdNumber := ""; jr_CallerIdName := ""; jr_FileName := "";
  jr_UseECM := false; jr_DisableV17 := false; jr_Identifier := ""; jr_Header := "";
  jr_Endpoints := ""; jr_SourceInfo := ""; jr_ResultType := ""; jr_AttemptNumber := 0;
  jr_EndpointID := 0; jr_EndpointType := ""; jr_Gateway := ""; jr_NPages := 0; jr_DataFormat := "";
  jr_SignalRate := 0; jr_CSI := ""; jr_Status := ""; jr_Returned := ""; jr_TotDials := 0;
  jr_NDials := 0; jr_TotTries := 0; jr_JobTime := 0; jr_ConnTime := 0; jr_Ts := None;
  jr_StartTs := None; jr_EndTs := None; jr_HangupCause := ""; jr_TotalPages := 0;
  jr_TransferredPages := 0; jr_ECM := false; jr_EcmRequested := false; jr_RemoteID := "";
  jr_LocalID := ""; jr_ResultCode := 0; jr_ResultText := ""; jr_Success := false;
  jr_TransferRate := 0; jr_NegotiateCount := 0; jr_T38Status := ""; jr_V17Disabled := false;
  jr_PageResults := ""; jr_BadRows := 0; jr_LongestBadRowRun := 0; jr_Encoding := 0;
  jr_EncodingName := ""; jr_ImageSize := 0; jr_ImageResolution := ""; jr_FileImageResolution := "";
  jr_ImagePixelSize := ""; jr_FileImagePixelSize := ""; jr_RemoteCountry := "";
  jr_RemoteVendor := ""; jr_RemoteModel := ""; jr_TraceFile := ""; jr_ResultMetadata := "";
  jr_IsBridge := false; jr_BridgeDirection := ""; jr_BridgeGateway := ""; jr_BridgeStartTs := None;
  jr_BridgeEndTs := None; jr_BridgeDuration := 0; jr_BridgeT38 := false; jr_BridgeT38ALeg := "";
  jr_BridgeT38BLeg := ""; jr_SoftmodemSrc := false; jr_SoftmodemDst := false; jr_UsedT38 := false;
  jr_SoftmodemFallback := false; jr_AppliedPolicies := ""; jr_CreatedAt := 0 |}.

#[export] Instance job_result_id : HasID FaxJobResult := {
  get_id := jr_ID; set_id i r := r <| jr_ID := i |>; get_set_id i r := eq_refl }.

Record Json := {
  js_endpoints : list Endpoint -> option string;
  js_policies : list Z -> option string;
  js_source : FaxSourceInfo -> option string;
  js_vars : gmap string string -> option string;
  js_pages : list PageResult -> option string;
}.

Definition timePtr (t : Z) : option Z := if is_zero_time t then None else Some t.

(** [""] stays when there is nothing to marshal or marshalling fails. *)
Definition json_list {A} (f : list A -> option string) (l : list A) : string :=
  match l with [] => "" | _ :: _ => default "" (f l) end.

(** The record literal. *)
Definition base_record (js : Json) (now : Z) (job : FaxJob) : FaxJobResult :=
  let c := classifyFaxResult job in {|
  jr_ID := 0;
  jr_SrcTenantID := fj_SrcTenantID job; jr_DstTenantID := fj_DstTenantID job;
  jr_JobUUID := fj_UUID job; jr_CallUUID := fj_CallUUID job;
  jr_CalleeNumber := fj_CalleeNumber job; jr_CallerIdNumber := fj_CallerIdNumber job;
  jr_CallerIdName := fj_CallerIdName job; jr_FileName := fj_FileName job; jr_UseECM := fj_UseECM job;
  jr_DisableV17 := fj_DisableV17 job; jr_Identifier := fj_Identifier job; jr_Header := fj_Header job;
  jr_Endpoints := json_list (js_endpoints js) (fj_Endpoints job); jr_SourceInfo := "";
  jr_ResultType := cl_resultType c; jr_AttemptNumber := cl_attemptNumber c;
  jr_EndpointID := cl_endpointID c; jr_EndpointType := cl_endpointType c; jr_Gateway := cl_gateway c;
  jr_NPages := fj_NPages job; jr_DataFormat := fj_DataFormat job; jr_SignalRate := fj_SignalRate job;
  jr_CSI := fj_CSI job; jr_Status := fj_Status job; jr_Returned := fj_Returned job;
  jr_TotDials := fj_TotDials job; jr_NDials := fj_NDials job; jr_TotTries := fj_TotTries job;
  jr_JobTime := fj_JobTime job; jr_ConnTime := fj_ConnTime job; jr_Ts := timePtr (fj_Ts job);
  jr_StartTs := None; jr_EndTs := None; jr_HangupCause := ""; jr_TotalPages := 0;
  jr_TransferredPages := 0; jr_ECM := false; jr_EcmRequested := false; jr_RemoteID := "";
  jr_LocalID := ""; jr_ResultCode := 0; jr_ResultText := ""; jr_Success := false;
  jr_TransferRate := 0; jr_NegotiateCount := 0; jr_T38Status := ""; jr_V17Disabled := false;
  jr_PageResults := "";
  jr_BadRows := 0; jr_LongestBadRowRun := 0; jr_Encoding := 0; jr_EncodingName := "";
  jr_ImageSize := 0; jr_ImageResolution := ""; jr_FileImageResolution := ""; jr_ImagePixelSize := "";
  jr_FileImagePixelSize := ""; jr_RemoteCountry := ""; jr_RemoteVendor := ""; jr_RemoteModel := "";
  jr_TraceFile := ""; jr_ResultMetadata := "";
  jr_IsBridge := fj_IsBridge job; jr_BridgeDirection := fj_BridgeDirection job;
  jr_BridgeGateway := fj_BridgeGateway job; jr_BridgeStartTs := timePtr (fj_BridgeStartTs job);
  jr_BridgeEndTs := timePtr (fj_BridgeEndTs job);
  jr_BridgeDuration := time_sub (fj_BridgeEndTs job) (fj_BridgeStartTs job);
  jr_BridgeT38 := fj_BridgeT38 job; jr_BridgeT38ALeg := ""; jr_BridgeT38BLeg := "";
  jr_SoftmodemSrc := fj_SoftmodemSrc job; jr_SoftmodemDst := fj_SoftmodemDst job;
  jr_UsedT38 := fj_UsedT38 job; jr_SoftmodemFallback := fj_SoftmodemFallback job;
  jr_AppliedPolicies := json_list (js_policies js) (fj_AppliedPolicyIDs job);
  jr_CreatedAt := now |}.

Definition with_call_uuid (r : FaxJobResult) : FaxJobResult :=
  if jr_CallUUID r =? uuid_nil then r <| jr_CallUUID := jr_JobUUID r |> else r.

(** The intake row; [legs] is the count of real legs stored so far, [None]
    when the query failed. *)
Definition intake_state (now : Z) (legs : option nat) (r : FaxJobResult) : FaxJobResult :=
  let r1 := r <| jr_Status := "queued" |> in
  match legs with
  | Some (S _) =>
      r1 <| jr_Status := "processed" |> <| jr_ResultText := "processed" |>
         <| jr_Success := true |> <| jr_EndTs := Some now |>
  | _ => r1
  end.

Definition res_string (r : option Resolution) (old : string) : string :=
  match r with Some x => Resolution_String x | None => old end.

(** [if job.Result != nil { ... }]. *)
Definition fill_result (js : Json) (res : FaxResult) (r : FaxJobResult) : FaxJobResult :=
  r <| jr_StartTs := timePtr (fr_StartTs res) |> <| jr_EndTs := timePtr (fr_EndTs res) |>
    <| jr_HangupCause := fr_HangupCause res |> <| jr_TotalPages := fr_TotalPages res |>
    <| jr_TransferredPages := fr_TransferredPages res |> <| jr_ECM := fr_Ecm res |>
    <| jr_EcmRequested := fr_EcmRequested res |> <| jr_RemoteID := fr_RemoteID res |>
    <| jr_LocalID := fr_LocalID res |> <| jr_ResultCode := fr_ResultCode res |>
    <| jr_ResultText := fr_ResultText res |> <| jr_Success := fr_Success res |>
    <| jr_TransferRate := fr_TransferRate res |> <| jr_NegotiateCount := fr_NegotiateCount res |>
    <| jr_T38Status := fr_T38Status res |> <| jr_V17Disabled := fr_V17Disabled res |>
    <| jr_BridgeT38ALeg := fr_BridgeALegT38 res |> <| jr_BridgeT38BLeg := fr_BridgeBLegT38 res |>
    <| jr_BadRows := fr_BadRows res |> <| jr_LongestBadRowRun := fr_LongestBadRowRun res |>
    <| jr_Encoding := fr_Encoding res |> <| jr_EncodingName := fr_EncodingName res |>
    <| jr_ImageSize := fr_ImageSize res |> <| jr_RemoteCountry := fr_RemoteCountry res |>
    <| jr_RemoteVendor := fr_RemoteVendor res |> <| jr_RemoteModel := fr_RemoteModel res |>
    <| jr_TraceFile := fr_TraceFile res |>
    <| jr_ImageResolution ::= res_string (fr_ImageResolution res) |>
    <| jr_FileImageResolution ::= res_string (fr_FileImageResolution res) |>
    <| jr_ImagePixelSize ::= res_string (fr_ImagePixelSize res) |>
    <| jr_FileImagePixelSize ::= res_string (fr_FileImagePixelSize res) |>
    <| jr_ResultMetadata ::= fun old =>
         if decide (fr_ResultVars res = ∅) then old else default old (js_vars js (fr_ResultVars res)) |>
    <| jr_PageResults ::= fun old => default old (js_pages js (fr_PageResults res)) |>.

(** A bridge that cleared normally succeeded. *)
Definition infer_bridge (job : FaxJob) (r : FaxJobResult) : FaxJobResult :=
  if fj_IsBridge job && negb (jr_Success r) then
    let hangup := if (jr_HangupCause r =? "")%string
                  then match fj_Result job with Some res => fr_HangupCause res | None => "" end
                  else jr_HangupCause r in
    if (hangup =? "NORMAL_CLEARING")%string
    then r <| jr_Success := true |>
           <| jr_ResultText := if (jr_ResultText r =? "")%string then "Bridge completed" else jr_ResultText r |>
    else r
  else r.

(** The row that is inserted; [None] when the source cannot be marshalled. *)
Definition build_record (js : Json) (now : Z) (legs : option nat) (job : FaxJob) : option FaxJobResult :=
  let r1 := with_call_uuid (base_record js now job) in
  let r2 := if (jr_ResultType r1 =? "submission")%string then intake_state now legs r1 else r1 in
  match js_source js (fj_SourceInfo job) with
  | None => None
  | Some src =>
      let r3 := r2 <| jr_SourceInfo := src |> in
      let r4 := match fj_Result job with Some res => fill_result js res r3 | None => r3 end in
      Some (infer_bridge job r4)
  end.

Definition is_queued_submission (jobID : Z) (r : FaxJobResult) : bool :=
  (jr_JobUUID r =? jobID) && (jr_ResultType r =? "submission")%string &&
  (jr_ResultText r =? "queued")%string.

Definition is_real_leg (jobID : Z) (r : FaxJobResult) : bool :=
  (jr_JobUUID r =? jobID) && negb (jr_ResultType r =? "submission")%string.

Definition processed (now : Z) (r : FaxJobResult) : FaxJobResult :=
  r <| jr_Success := true |> <| jr_Status := "processed" |> <| jr_ResultText := "processed" |>
    <| jr_EndTs := Some now |>.

Section store.
Context {T : Type} `{!Table T FaxJobResult}.
Variable js : Json.

Definition markSubmissionProcessed (now : Z) (jobID : Z) (t : T) : T :=
  (tbl_update (is_queued_submission jobID) (processed now) t).2.

Definition storeQueueFaxResult (now : Z) (job : FaxJob) (t : T) : bool * T :=
  let submission := (cl_resultType (classifyFaxResult job) =? "submission")%string in
  let '(legs, t1) :=
    if submission then
      let '(l, t') := tbl_find (is_real_leg (fj_UUID job)) t in (List.length (A := FaxJobResult) <$> l, t')
    else (None, t) in
  match build_record js now legs job with
  | None => (false, t1)
  | Some r =>
      let '(created, t2) := tbl_create r t1 in
      match created with
      | None => (false, t2)
      | Some _ =>
          (true, if submission then t2 else markSubmissionProcessed now (fj_UUID job) t2)
      end
  end.

End store.

(** ** Facts *)

Lemma build_record_facts js now legs job r :
  build_record js now legs job = Some r ->
  jr_JobUUID r = fj_UUID job /\
  jr_ResultType r = cl_resultType (classifyFaxResult job) /\
  jr_AttemptNumber r = cl_attemptNumber (classifyFaxResult job) /\
  jr_Gateway r = cl_gateway (classifyFaxResult job) /\
  jr_CallUUID r = (if fj_CallUUID job =? uuid_nil then fj_UUID job else fj_CallUUID job) /\
  (forall res, fj_Result job = Some res ->
     jr_HangupCause r = fr_HangupCause res /\
     jr_Success r = fr_Success res || (fj_IsBridge job && (fr_HangupCause res =? "NORMAL_CLEARING")%string) /\
     (fj_IsBridge job = false -> jr_ResultText r = fr_ResultText res /\ jr_EndTs r = timePtr (fr_EndTs res))).
Proof.
  unfold build_record. destruct (js_source js _) as [src|]; [|done]. intros [= <-].
  assert (forall x, jr_JobUUID (infer_bridge job x) = jr_JobUUID x /\
    jr_ResultType (infer_bridge job x) = jr_ResultType x /\
    jr_AttemptNumber (infer_bridge job x) = jr_AttemptNumber x /\
    jr_Gateway (infer_bridge job x) = jr_Gateway x /\
    jr_CallUUID (infer_bridge job x) = jr_CallUUID x /\ jr_HangupCause (infer_bridge job x) = jr_HangupCause x /\
    jr_EndTs (infer_bridge job x) = jr_EndTs x) as Hinf.
  { intros x. unfold infer_bridge. repeat (destruct (_ && _) || destruct (_ =? _)%string); done. }
  match goal with |- context [infer_bridge job ?y] => set (x := y); destruct (Hinf x) as (-> & -> & -> & -> & -> & -> & ->) end.
  assert (jr_JobUUID x = fj_UUID job /\ jr_ResultType x = cl_resultType (classifyFaxResult job) /\
    jr_AttemptNumber x = cl_attemptNumber (classifyFaxResult job) /\
    jr_Gateway x = cl_gateway (classifyFaxResult job) /\
    jr_CallUUID x = (if fj_CallUUID job =? uuid_nil then fj_UUID job else fj_CallUUID job)) as (-> & -> & -> & -> & ->).
  { subst x. unfold with_call_uuid, intake_state. simpl.
    destruct (fj_CallUUID job =? uuid_nil); simpl; destruct (_ =? _)%string;
      destruct legs as [[|]|]; destruct (fj_Result job); done. }
  do 5 (split; [done|]). intros res Hres. subst x. rewrite Hres.
  unfold infer_bridge. simpl. rewrite Hres. split; [done|]. split.
  - destruct (fj_IsBridge job), (fr_Success res) eqn:Es; simpl; rewrite ?Es; try done.
    destruct (fr_HangupCause res =? "")%string;
      destruct (fr_HangupCause res =? "NORMAL_CLEARING")%string; simpl; congruence.
  - by intros ->.
Qed.

(** What an insert of a real leg or of an intake row does to a healthy table. *)
Section store_facts.
Context {T : Type} `{!Table T FaxJobResult, !TableLaws T FaxJobResult}.
Variable js : Json.

Definition same_but_id (r r' : FaxJobResult) : Prop := r' = r <| jr_ID := jr_ID r' |>.

Lemma store_real_leg now job r (t : T) :
  tbl_healthy t -> cl_resultType (classifyFaxResult job) <> "submission" ->
  build_record js now None job = Some r ->
  exists r', same_but_id r r' /\ (storeQueueFaxResult js now job t).1 = true /\
    tbl_rows (storeQueueFaxResult js now job t).2 =
      map (fun x => if is_queued_submission (fj_UUID job) x then processed now x else x) (tbl_rows t ++ [r']) /\
    tbl_healthy (storeQueueFaxResult js now job t).2.
Proof.
  intros Hh Hty Hb. unfold storeQueueFaxResult. rewrite (proj2 (String.eqb_neq _ _)) by done. rewrite Hb.
  destruct (create_healthy r t Hh) as (r' & Hc & Hr & Hset & _ & _ & Hh').
  destruct (tbl_create r t) as [o t2]; simpl in *. subst o.
  unfold markSubmissionProcessed.
  destruct (update_healthy (is_queued_submission (fj_UUID job)) (processed now) t2 Hh') as (_ & Hr2 & Hh2).
  exists r'. split; [exact Hset|]. split; [done|]. cbn [snd]. by rewrite Hr2, Hr.
Qed.

Lemma store_submission now job legs r (t : T) :
  tbl_healthy t -> cl_resultType (classifyFaxResult job) = "submission" ->
  legs = List.length (List.filter (is_real_leg (fj_UUID job)) (tbl_rows t)) ->
  build_record js now (Some legs) job = Some r ->
  exists r', same_but_id r r' /\ (storeQueueFaxResult js now job t).1 = true /\
    tbl_rows (storeQueueFaxResult js now job t).2 = tbl_rows t ++ [r'] /\
    tbl_healthy (storeQueueFaxResult js now job t).2.
Proof.
  intros Hh Hty -> Hb. unfold storeQueueFaxResult. rewrite Hty. simpl.
  destruct (find_healthy (is_real_leg (fj_UUID job)) t Hh) as (Hf & Hr & Hh1).
  destruct (tbl_find _ t) as [o t1]; simpl in *. subst o. simpl. rewrite Hb.
  destruct (create_healthy r t1 Hh1) as (r' & Hc & Hr' & Hset & _ & _ & Hh').
  destruct (tbl_create r t1) as [o t2]; simpl in *. subst o.
  exists r'. split; [exact Hset|]. split; [done|]. cbn [snd]. by rewrite Hr', Hr.
Qed.

End store_facts.

(** ** Properties *)

Section store_properties.
Context {T : Type} `{!Table T FaxJobResult, !TableLaws T FaxJobResult}.
Variable js : Json.

(** Storing a real leg on a healthy database adds exactly one row: classified as
    [classifyFaxResult] says, under its own call id or else the job's, and
    successful exactly when its result is or a bridged call cleared normally;
    every earlier row is kept, changed only where it was the same job's queued
    intake, which becomes processed. *)
Theorem storeQueueFaxResult_leg (now : Z) (job : FaxJob) (res : FaxResult) (t : T) :
  tbl_healthy t -> fj_Result job = Some res -> isPlaceholderResult job = false ->
  is_Some (js_source js (fj_SourceInfo job)) ->
  exists r, (storeQueueFaxResult js now job t).1 = true /\
    tbl_rows (storeQueueFaxResult js now job t).2 =
      map (fun x => if is_queued_submission (fj_UUID job) x then processed now x else x) (tbl_rows t) ++ [r] /\
    jr_JobUUID r = fj_UUID job /\ jr_ResultType r = cl_resultType (classifyFaxResult job) /\
    jr_AttemptNumber r = cl_attemptNumber (classifyFaxResult job) /\
    jr_CallUUID r = (if fj_CallUUID job =? uuid_nil then fj_UUID job else fj_CallUUID job) /\
    jr_Success r = fr_Success res || (fj_IsBridge job && (fr_HangupCause res =? "NORMAL_CLEARING")%string) /\
    Forall (fun x => is_queued_submission (fj_UUID job) x = false) (tbl_rows (storeQueueFaxResult js now job t).2).
Proof.
  intros Hh Hres Hph [src Hsrc].
  assert (cl_resultType (classifyFaxResult job) <> "submission") as Hty.
  { unfold classifyFaxResult. rewrite Hph.
    destruct (fj_IsBridge job); [done|]. destruct (fj_Endpoints job) as [|ep eps]; [done|].
    by destruct (ep_EndpointType ep =? "gateway")%string. }
  destruct (build_record js now None job) as [r|] eqn:Hb; [|unfold build_record in Hb; by rewrite Hsrc in Hb].
  destruct (store_real_leg js now job r t Hh Hty Hb) as (r' & Hsame & Hok & Hrows & _).
  destruct (build_record_facts js now None job r Hb) as (Hid & Hrt & Hat & _ & Hcall & Hr).
  destruct (Hr res Hres) as (_ & Hs & _). clear Hr.
  assert (is_queued_submission (fj_UUID job) r' = false) as Hnq.
  { unfold is_queued_submission. rewrite Hsame. simpl. rewrite Hrt, (proj2 (String.eqb_neq _ _)) by done.
    by rewrite andb_false_r. }
  rewrite map_app in Hrows. simpl in Hrows. rewrite Hnq in Hrows.
  exists r'. split; [done|]. split; [done|]. rewrite Hrows.
  assert (jr_JobUUID r' = jr_JobUUID r /\ jr_ResultType r' = jr_ResultType r /\
    jr_AttemptNumber r' = jr_AttemptNumber r /\ jr_CallUUID r' = jr_CallUUID r /\ jr_Success r' = jr_Success r)
    as (-> & -> & -> & -> & ->) by (by rewrite Hsame).
  do 5 (split; [done|]). apply Forall_app. split; [|by repeat constructor].
  apply Forall_forall. intros x Hx. apply list_elem_of_fmap in Hx as (y & -> & _).
  destruct (is_queued_submission (fj_UUID job) y) eqn:E; [|done].
  unfold is_queued_submission. simpl. by rewrite andb_false_r.
Qed.

(** The safety net for late intake rows does nothing: whatever legs of the job
    are stored already (when there is one, the row is meant to be recorded as
    processed and successful), the placeholder result is copied over it
    afterwards, so the new row says queued, unsuccessful and unfinished. *)
Theorem late_submission_stays_queued (now : Z) (job : FaxJob) (res : FaxResult) (t : T) :
  tbl_healthy t -> fj_Result job = Some res -> fr_HangupCause res = placeholderHangupCause ->
  fr_ResultText res = "queued" -> fr_Success res = false -> fj_IsBridge job = false ->
  is_Some (js_source js (fj_SourceInfo job)) ->
  exists r, tbl_rows (storeQueueFaxResult js now job t).2 = tbl_rows t ++ [r] /\
    jr_JobUUID r = fj_UUID job /\ jr_ResultType r = "submission" /\
    jr_ResultText r = "queued" /\ jr_Success r = false /\ jr_EndTs r = timePtr (fr_EndTs res).
Proof.
  intros Hh Hres Hhc Htext Hsucc Hbr [src Hsrc].
  assert (isPlaceholderResult job = true) as Hph.
  { unfold isPlaceholderResult. rewrite Hres, Hhc. apply str_eqb_refl. }
  assert (cl_resultType (classifyFaxResult job) = "submission") as Hty by (unfold classifyFaxResult; by rewrite Hph).
  set (legs := List.length (List.filter (is_real_leg (fj_UUID job)) (tbl_rows t))).
  destruct (build_record js now (Some legs) job) as [r|] eqn:Hb; [|unfold build_record in Hb; by rewrite Hsrc in Hb].
  destruct (store_submission js now job legs r t Hh Hty eq_refl Hb) as (r' & Hsame & _ & Hrows & _).
  destruct (build_record_facts js now (Some legs) job r Hb) as (Hid & Hrt & _ & _ & _ & Hr).
  destruct (Hr res Hres) as (_ & Hs & Hrest). destruct (Hrest Hbr) as [Ht He]. clear Hr Hrest.
  exists r'. split; [done|].
  assert (jr_JobUUID r' = jr_JobUUID r /\ jr_ResultType r' = jr_ResultType r /\
    jr_ResultText r' = jr_ResultText r /\ jr_Success r' = jr_Success r /\ jr_EndTs r' = jr_EndTs r)
    as (-> & -> & -> & -> & ->) by (by rewrite Hsame).
  by rewrite Hid, Hrt, Hty, Ht, He, Hs, Htext, Hsucc, Hbr.
Qed.

End store_properties.

(** ** Witnesses *)

Definition example_json : Json :=
  {| js_endpoints _ := Some "[]"; js_policies _ := Some "[]"; js_source _ := Some "{}";
     js_vars _ := Some "{}"; js_pages _ := Some "[]" |}.

Definition example_intake : FaxJob :=
  zero_job <| fj_UUID := 7 |>
    <| fj_Result := Some (empty_result <| fr_HangupCause := "WEBHOOK" |> <| fr_ResultText := "queued" |>) |>.

Definition example_leg : FaxJob :=
  zero_job <| fj_UUID := 7 |> <| fj_CallUUID := 71 |>
    <| fj_Result := Some (empty_result <| fr_HangupCause := "NORMAL_CLEARING" |> <| fr_Success := true |>) |>.

Definition intake_table : ListTable FaxJobResult :=
  (storeQueueFaxResult example_json 3 example_intake (fresh_table [] 1 [])).2.

Definition leg_table : ListTable FaxJobResult :=
  (storeQueueFaxResult example_json 3 example_leg (fresh_table [] 1 [])).2.

Lemma storeQueueFaxResult_leg_witness :
  exists r, tbl_rows (storeQueueFaxResult example_json 9 example_leg intake_table).2 =
    map (fun x => if is_queued_submission (fj_UUID example_leg) x then processed 9 x else x)
      (tbl_rows intake_table) ++ [r] /\ jr_JobUUID r = fj_UUID example_leg.
Proof.
  destruct (storeQueueFaxResult_leg example_json 9 example_leg
    (empty_result <| fr_HangupCause := "NORMAL_CLEARING" |> <| fr_Success := true |>) intake_table)
    as (r & _ & Hrows & Hid & _).
  - vm_compute. reflexivity.
  - reflexivity.
  - reflexivity.
  - eexists. reflexivity.
  - exists r. split; [exact Hrows|exact Hid].
Defined.

Lemma late_submission_stays_queued_witness :
  exists r, tbl_rows (storeQueueFaxResult example_json 9 example_intake leg_table).2 = tbl_rows leg_table ++ [r] /\
    jr_ResultText r = "queued" /\ jr_Success r = false.
Proof.
  destruct (late_submission_stays_queued example_json 9 example_intake
    (empty_result <| fr_HangupCause := "WEBHOOK" |> <| fr_ResultText := "queued" |>) leg_table)
    as (r & Hrows & _ & _ & Ht & Hs & _).
  - vm_compute. reflexivity.
  - reflexivity.
  - reflexivity.
  - reflexivity.
  - reflexivity.
  - reflexivity.
  - eexists. reflexivity.
  - exists r. split; [exact Hrows|]. split; [exact Ht|exact Hs].
Defined.
