(* ===== verification/GoTime.v ===== *)
(** * GoTime: [time.Parse] for the two layouts the search of results accepts

    Instants are nanoseconds since Go's zero time, the first of January of the
    year 1 in UTC. [parse_rfc3339] is [time.Parse(time.RFC3339, v)], with what
    the library tolerates (an hour of one digit, a comma before the fraction,
    an offset of 24:60); [parse_date] is [time.Parse("2006-01-02", v)]. *)

From S2P Require Import Prelude.

(** ** The calendar *)

Definition isLeap (y : Z) : bool := (y mod 4 =? 0) && (negb (y mod 100 =? 0) || (y mod 400 =? 0)).

Definition daysIn (m y : Z) : Z :=
  if m =? 2 then (if isLeap y then 29 else 28)
  else if (m =? 4) || (m =? 6) || (m =? 9) || (m =? 11) then 30 else 31.

(** Days from the first of January of the year 1 to that of [y]. *)
Definition days_before_year (y : Z) : Z :=
  let p := y - 1 in 365 * p + p / 4 - p / 100 + p / 400.

Fixpoint days_before_month (y : Z) (months : nat) : Z :=
  match months with
  | O => 0
  | S k => days_before_month y k + daysIn (Z.of_nat months) y
  end.

Definition civil_days (y m d : Z) : Z :=
  days_before_year y + days_before_month y (Z.to_nat (m - 1)) + (d - 1).

Definition day : Z := 24 * hour.

(** [time.Date(...)] in UTC. *)
Definition instant (y m d hh mm ss ns : Z) : Z :=
  civil_days y m d * day + hh * hour + mm * minute + ss * second + ns.

(** ** Scanning *)

Definition getnum (fixed : bool) (s : string) : option (Z * string) :=
  match s with
  | String a s1 =>
      if is_digit a then
        match s1 with
        | String b s2 =>
            if is_digit b then Some (10 * digit_val a + digit_val b, s2)
            else if fixed then None else Some (digit_val a, s1)
        | EmptyString => if fixed then None else Some (digit_val a, s1)
        end
      else None
  | EmptyString => None
  end.

Definition in_range (lo hi : Z) (x : option (Z * string)) : option (Z * string) :=
  '(n, s) ← x; if (lo <=? n) && (n <=? hi) then Some (n, s) else None.

Definition skip (c : ascii) (s : string) : option string :=
  match s with String d s' => if Ascii.eqb d c then Some s' else None | EmptyString => None end.

Definition scan_year (s : string) : option (Z * string) :=
  if (4 <=? String.length s)%nat then y ← parse_digits (str_take 4 s); Some (y, str_drop 4 s) else None.

(** "2006-01-02": year, month, day and what follows. *)
Definition scan_date (s : string) : option (Z * Z * Z * string) :=
  '(y, s) ← scan_year s; s ← skip "-" s;
  '(m, s) ← in_range 1 12 (getnum true s); s ← skip "-" s;
  '(d, s) ← getnum true s;
  Some (y, m, d, s).

Fixpoint digit_run (s : string) : string * string :=
  match s with
  | String c s' => if is_digit c then let '(a, b) := digit_run s' in (String c a, b) else (EmptyString, s)
  | EmptyString => (EmptyString, EmptyString)
  end.

(** The digits past the ninth are dropped. *)
Definition nanoseconds (digits : string) : Z :=
  let kept := str_take 9 digits in
  default 0 (parse_digits kept) * 10 ^ (9 - Z.of_nat (String.length kept)).

Definition scan_fraction (s : string) : Z * string :=
  match s with
  | String c s1 =>
      if Ascii.eqb c "." || Ascii.eqb c "," then
        match digit_run s1 with
        | (EmptyString, _) => (0, s)
        | (digits, s2) => (nanoseconds digits, s2)
        end
      else (0, s)
  | EmptyString => (0, s)
  end.

(** "Z07:00": the offset in seconds. *)
Definition scan_zone (s : string) : option (Z * string) :=
  match s with
  | String c s1 =>
      if Ascii.eqb c "Z" then Some (0, s1)
      else
        '(hh, s2) ← in_range 0 24 (getnum true s1); s3 ← skip ":" s2;
        '(mm, s4) ← in_range 0 60 (getnum true s3);
        let offset := (hh * 60 + mm) * 60 in
        if Ascii.eqb c "+" then Some (offset, s4) else if Ascii.eqb c "-" then Some (- offset, s4) else None
  | EmptyString => None
  end.

Definition valid_day (y m d : Z) : bool := (1 <=? d) && (d <=? daysIn m y).

Definition parse_date (v : string) : option Z :=
  '(y, m, d, s) ← scan_date v;
  if (s =? "")%string && valid_day y m d then Some (instant y m d 0 0 0 0) else None.

Definition parse_rfc3339 (v : string) : option Z :=
  '(y, m, d, s) ← scan_date v; s ← skip "T" s;
  '(hh, s) ← in_range 0 23 (getnum false s); s ← skip ":" s;
  '(mm, s) ← in_range 0 59 (getnum true s); s ← skip ":" s;
  '(ss, s) ← in_range 0 59 (getnum true s);
  let '(ns, s) := scan_fraction s in
  '(offset, s) ← scan_zone s;
  if (s =? "")%string && valid_day y m d then Some (instant y m d hh mm ss ns - offset * second) else None.

Example parse_date_ex :
  parse_date "0001-01-01" = Some 0 /\ parse_date "1970-01-01" = Some (62135596800 * second) /\
  parse_date "2024-02-29" = Some (63844761600 * second) /\ parse_date "2026-13-99" = None /\
  parse_date "2026-02-29" = None /\ parse_date "2026-09-01T10:00:00Z" = None.
Proof. by vm_compute. Qed.

Example parse_rfc3339_ex :
  parse_rfc3339 "1970-01-01T01:00:00+01:00" = Some (62135596800 * second) /\
  parse_rfc3339 "1970-01-01T1:00:00,5-00:30" = Some (62135602200 * second + 500000000) /\
  parse_rfc3339 "2026-09-01" = None /\ parse_rfc3339 "2026-09-01T24:00:00Z" = None.
Proof. by vm_compute. Qed.

(** ** Facts *)

(** A date never reads as a timestamp, and begins a day. *)
Lemma parse_date_spec v t :
  parse_date v = Some t ->
  parse_rfc3339 v = None /\ exists y m d, valid_day y m d = true /\ 1 <= m <= 12 /\ t = civil_days y m d * day.
Proof.
  unfold parse_date, parse_rfc3339. destruct (scan_date v) as [[[[y m] d] s]|] eqn:E; simpl; [|done].
  destruct (s =? "")%string eqn:Es; simpl; [|done]. apply String.eqb_eq in Es as ->.
  destruct (valid_day y m d) eqn:Ev; [|done]. intros [= <-].
  split; [done|]. exists y, m, d. split; [done|]. split; [|unfold instant; lia].
  revert E. unfold scan_date, in_range. destruct (scan_year v) as [[? s1]|]; simpl; [|done].
  destruct (skip _ s1) as [s2|]; simpl; [|done]. destruct (getnum true s2) as [[? s3]|]; simpl; [|done].
  destruct (_ && _) eqn:Em; simpl; [|done]. destruct (skip _ s3) as [s4|]; simpl; [|done].
  destruct (getnum true s4) as [[? s5]|]; simpl; [|done]. intros [= <- <- <- ->]. lia.
Qed.

(** Consecutive dates are consecutive days. *)
Lemma next_day y m d :
  valid_day y m d = true -> 1 <= m <= 12 ->
  civil_days y m d + 1 =
    if d <? daysIn m y then civil_days y m (d + 1)
    else if m <? 12 then civil_days y (m + 1) 1 else civil_days (y + 1) 1 1.
Proof.
  unfold valid_day, civil_days. intros Hd Hm. apply andb_true_iff in Hd as [H1 H2]. reflect_bools.
  destruct (Z.ltb_spec d (daysIn m y)); [lia|]. assert (d = daysIn m y) as -> by lia.
  destruct (Z.ltb_spec m 12).
  - replace (Z.to_nat (m + 1 - 1)) with (S (Z.to_nat (m - 1))) by lia. cbn [days_before_month].
    replace (Z.of_nat (S (Z.to_nat (m - 1)))) with m by lia. lia.
  - assert (m = 12) as -> by lia. cbn [Z.to_nat Z.sub]. change (Z.to_nat (12 - 1)) with 11%nat.
    change (Z.to_nat (1 - 1)) with 0%nat. cbn [days_before_month]. unfold daysIn. simpl.
    unfold days_before_year. replace (y + 1 - 1) with y by lia.
    pose proof (Z.div_mod y 4 ltac:(lia)). pose proof (Z.div_mod y 100 ltac:(lia)). pose proof (Z.div_mod y 400 ltac:(lia)).
    pose proof (Z.div_mod (y - 1) 4 ltac:(lia)). pose proof (Z.div_mod (y - 1) 100 ltac:(lia)).
    pose proof (Z.div_mod (y - 1) 400 ltac:(lia)).
    unfold isLeap. destruct (Z.eqb_spec (y mod 4) 0), (Z.eqb_spec (y mod 100) 0), (Z.eqb_spec (y mod 400) 0); simpl;
      Z.div_mod_to_equations; lia.
Qed.
