(* ===== verification/FaxSearch.v ===== *)
(** * FaxSearch: the search of stored results ([gofaxserver/web_faxresults.go])

    The rows of [JobResult] are filtered, grouped by job and summarised. A
    query is one statement on the table, so it sees one state of it, in its
    subqueries too. Where SQL leaves the order of equal rows open, it is the
    database's ([SqlOrder]). [uuid.Parse] and the reading of a stored
    [FaxSourceInfo] are parameters. *)

From S2P Require Import Prelude Store GoTime FaxResult FaxJob JobResult.

(** [ORDER BY], for any type of row. *)
Class SqlOrder := {
  order_by {A : Type} (less : A -> A -> bool) : list A -> list A;
  order_by_perm {A : Type} (less : A -> A -> bool) l : order_by less l ≡ₚ l;
  order_by_sorted {A : Type} (less : A -> A -> bool) `{!WeakOrder less} l : sorted_by less (order_by less l);
}.

(** Equal rows in the order they are stored in. *)
#[export] Program Instance stored_order : SqlOrder := { order_by _ less := stable_sort less }.
Next Obligation. intros. apply stable_sort_perm. Qed.
Next Obligation. intros. by apply stable_sort_sorted. Qed.

(** ** The query *)

Record faxResultQuery := {
  q_TenantID : Z; q_ResultType : string; q_Success : option bool; q_Origin : string; q_Number : string;
  q_JobUUID : option Z; q_From : option Z; q_To : option Z; q_Limit : Z; q_Offset : Z;
}.

Inductive QueryError :=
| BadTime (v : string) | BadResultType (rt : string) | BadSuccess | BadOrigin (o : string) | BadJobUUID (v : string).

(** [url.Values] and its [Get]. *)
Abbreviation Values := (gmap string (list string)).
Definition values_Get (v : Values) (key : string) : string :=
  match v !! key with Some (x :: _) => x | _ => "" end.

Definition intDefault (s : string) (def : Z) : Z :=
  if (s =? "")%string then def else default def (atoi s).

Definition faxResultTypes : list string :=
  ["reception"; "bridge"; "transmission"; "delivery"; "submission"; "notify"]%string.

Definition parseTimeBound (v : string) (endOfDay : bool) : QueryError + Z :=
  match parse_rfc3339 v with
  | Some t => inr t
  | None =>
      match parse_date v with
      | None => inl (BadTime v)
      | Some t => inr (if endOfDay then t + (24 * hour - 1) else t)
      end
  end.

#[export] Instance parsed_ret : MRet (sum QueryError) := fun A a => inr a.
#[export] Instance parsed_bind : MBind (sum QueryError) := fun A B k m =>
  match m with inr a => k a | inl e => inl e end.

(** An absent parameter is no filter. *)
Definition optional {A} (v : string) (k : string -> QueryError + A) : QueryError + option A :=
  if (v =? "")%string then mret None else a ← k v; mret (Some a).

Section parse.
Variable uuid_Parse : string -> option Z.

Definition parse_limit (v : string) : Z :=
  let limit := intDefault v 50 in
  let limit := if limit <=? 0 then 50 else limit in
  if 500 <? limit then 500 else limit.

Definition parseFaxResultQuery (v : Values) : QueryError + faxResultQuery :=
  let limit := parse_limit (values_Get v "limit") in
  let offset := intDefault (values_Get v "offset") 0 in
  let offset := if offset <? 0 then 0 else offset in
  let tid := intDefault (values_Get v "tenant_id") 0 in
  rt ← optional (values_Get v "result_type") (fun rt => if str_mem rt faxResultTypes then inr rt else inl (BadResultType rt));
  success ← optional (values_Get v "success") (fun sv =>
    if (sv =? "true")%string then inr true else if (sv =? "false")%string then inr false else inl BadSuccess);
  origin ← optional (values_Get v "origin") (fun o =>
    if negb (o =? "portal")%string && negb (o =? "non-portal")%string then inl (BadOrigin o) else inr o);
  id ← optional (values_Get v "job_uuid") (fun ju => match uuid_Parse ju with Some id => inr id | None => inl (BadJobUUID ju) end);
  from ← optional (values_Get v "from") (fun f => parseTimeBound f false);
  to ← optional (values_Get v "to") (fun t => parseTimeBound t true);
  mret {| q_TenantID := if 0 <? tid then tid else 0; q_ResultType := default "" rt; q_Success := success;
          q_Origin := default "" origin; q_Number := values_Get v "number"; q_JobUUID := id; q_From := from; q_To := to;
          q_Limit := limit; q_Offset := offset |}.

End parse.

(** ** The filters *)

Definition is_type (rt : string) (r : FaxJobResult) : bool := (jr_ResultType r =? rt)%string.
Definition of_job (id : Z) (r : FaxJobResult) : bool := jr_JobUUID r =? id.

(** The filters on a row. *)
Definition apply (q : faxResultQuery) (r : FaxJobResult) : bool :=
  (if 0 <? q_TenantID q then (jr_SrcTenantID r =? q_TenantID q) || (jr_DstTenantID r =? q_TenantID q) else true) &&
  (if nonempty (q_Number q) then
     let like := "%" +:+ q_Number q +:+ "%" in
     sql_like like (jr_CallerIdNumber r) || sql_like like (jr_CalleeNumber r)
   else true) &&
  (match q_JobUUID q with Some id => of_job id r | None => true end) &&
  (match q_From q with Some t => t <=? jr_CreatedAt r | None => true end) &&
  (match q_To q with Some t => jr_CreatedAt r <=? t | None => true end).

Definition quote : string := String "034" "".

(** [LIKE '%"source":"portal"%']. *)
Definition portal_mark : string := "%" +:+ quote +:+ "source" +:+ quote +:+ ":" +:+ quote +:+ "portal" +:+ quote +:+ "%".

Definition portal_intake (r : FaxJobResult) : bool :=
  is_type "submission" r && sql_like portal_mark (jr_SourceInfo r).

Definition is_outcome (r : FaxJobResult) : bool := negb (is_type "submission" r || is_type "notify" r).

(** [ORDER BY job_uuid, CASE WHEN result_type = 'delivery' ..., created_at DESC]. *)
Definition delivery_rank (r : FaxJobResult) : Z := if is_type "delivery" r then 1 else 0.

Definition latest_first (a b : FaxJobResult) : bool :=
  (jr_JobUUID a <? jr_JobUUID b) ||
  ((jr_JobUUID a =? jr_JobUUID b) &&
   ((delivery_rank a <? delivery_rank b) ||
    ((delivery_rank a =? delivery_rank b) && (jr_CreatedAt b <? jr_CreatedAt a)))).

(** [DISTINCT ON (job_uuid)]: the first row of every job. *)
Fixpoint distinct_on (l : list FaxJobResult) : list FaxJobResult :=
  match l with
  | [] => []
  | r :: l' => r :: List.filter (fun x => negb (of_job (jr_JobUUID r) x)) (distinct_on l')
  end.

Section search.
Context `{!SqlOrder}.

Definition latest_legs (rows : list FaxJobResult) : list FaxJobResult :=
  distinct_on (order_by latest_first (List.filter is_outcome rows)).

(** [job_uuid IN (SELECT job_uuid FROM rows WHERE P)]. *)
Definition in_jobs (P : FaxJobResult -> bool) (rows : list FaxJobResult) (id : Z) : bool :=
  existsb (of_job id) (List.filter P rows).

(** The filters on a job. *)
Definition job_filter (q : faxResultQuery) (rows : list FaxJobResult) (id : Z) : bool :=
  (if nonempty (q_ResultType q) then in_jobs (is_type (q_ResultType q)) rows id else true) &&
  (if nonempty (q_Origin q) then
     if (q_Origin q =? "portal")%string then in_jobs portal_intake rows id else negb (in_jobs portal_intake rows id)
   else true) &&
  (match q_Success q with
   | Some b => in_jobs (fun r => Bool.eqb (jr_Success r) b) (latest_legs rows) id
   | None => true
   end).

Definition base (q : faxResultQuery) (rows : list FaxJobResult) (r : FaxJobResult) : bool :=
  apply q r && job_filter q rows (jr_JobUUID r).

(** ** The summary of a job *)

Record FaxResultGroup := {
  g_JobUUID : Z; g_CallerIDNumber : string; g_CallerIDName : string; g_CalleeNumber : string;
  g_SrcTenantID : Z; g_DstTenantID : Z; g_Attempts : Z; g_LegTypes : list string; g_Success : bool;
  g_Status : string; g_TransferredPages : Z; g_TotalPages : Z; g_FirstTs : Z; g_LastTs : Z; g_Portal : bool;
  g_Legs : list FaxJobResult;
}.

Definition empty_group (id : Z) (legs : list FaxJobResult) : FaxResultGroup :=
  {| g_JobUUID := id; g_CallerIDNumber := ""; g_CallerIDName := ""; g_CalleeNumber := "";
     g_SrcTenantID := 0; g_DstTenantID := 0; g_Attempts := 0; g_LegTypes := []; g_Success := false;
     g_Status := ""; g_TransferredPages := 0; g_TotalPages := 0; g_FirstTs := time_zero; g_LastTs := time_zero;
     g_Portal := false; g_Legs := legs |}.

(** The [Source] of a stored [FaxSourceInfo]; [None] when it does not parse. *)
Variable source_of : string -> option string.

(** One round of the loop over the legs; [LegTypes] holds what was seen. *)
Definition leg_step (g : FaxResultGroup) (l : FaxJobResult) : FaxResultGroup :=
  let g := if str_mem (jr_ResultType l) (g_LegTypes g) then g
           else g <| g_LegTypes ::= fun ts => ts ++ [jr_ResultType l] |> in
  let g := if (is_type "transmission" l || is_type "delivery" l) && (g_Attempts g <? jr_AttemptNumber l)
           then g <| g_Attempts := jr_AttemptNumber l |> else g in
  if is_type "submission" l && negb (g_Portal g) && bool_decide (source_of (jr_SourceInfo l) = Some "portal"%string)
  then g <| g_Portal := true |> else g.

Definition is_primary (l : FaxJobResult) : bool :=
  negb (is_type "delivery" l) && negb (is_type "submission" l) && negb (is_type "notify" l).

(** The loop from the last leg down. *)
Definition primary_leg (legs : list FaxJobResult) (last : FaxJobResult) : FaxJobResult :=
  default last (List.find is_primary (rev legs)).

Definition group_outcome (primary : FaxJobResult) (g : FaxResultGroup) : FaxResultGroup :=
  let g := g <| g_Success := jr_Success primary |> <| g_Status := jr_Status primary |>
             <| g_TransferredPages := jr_TransferredPages primary |> <| g_TotalPages := jr_TotalPages primary |> in
  if is_type "submission" primary then
    g <| g_Success := false |>
      <| g_Status := if (jr_ResultText primary =? "")%string then "queued" else jr_ResultText primary |>
  else g.

Definition deriveGroup (id : Z) (legs : list FaxJobResult) : FaxResultGroup :=
  match legs, last legs with
  | first :: _, Some last =>
      let g := (empty_group id legs)
        <| g_CallerIDNumber := jr_CallerIdNumber last |> <| g_CallerIDName := jr_CallerIdName last |>
        <| g_CalleeNumber := jr_CalleeNumber last |> <| g_SrcTenantID := jr_SrcTenantID last |>
        <| g_DstTenantID := jr_DstTenantID last |> <| g_FirstTs := jr_CreatedAt first |>
        <| g_LastTs := jr_CreatedAt last |> in
      group_outcome (primary_leg legs last) (foldl leg_step g legs)
  | _, _ => empty_group id legs
  end.

(** ** The handler *)

Definition sql_max (l : list Z) : Z := match l with x :: l' => foldr Z.max x l' | [] => 0 end.

(** [SELECT job_uuid, MAX(created_at) ... GROUP BY job_uuid]. *)
Definition group_rows (rows : list FaxJobResult) : list (Z * Z) :=
  map (fun id => (id, sql_max (jr_CreatedAt <$> List.filter (of_job id) rows)))
      (remove_dups (jr_JobUUID <$> rows)).

Definition last_active_first (a b : Z * Z) : bool := b.2 <? a.2.
Definition oldest_first (a b : FaxJobResult) : bool := jr_CreatedAt a <? jr_CreatedAt b.

(** The map [byJob], filled in the order of the legs. *)
Definition by_job (legs : list FaxJobResult) : gmap Z (list FaxJobResult) :=
  foldl (fun m l => <[jr_JobUUID l := default [] (m !! jr_JobUUID l) ++ [l]]> m) ∅ legs.

Inductive Listing :=
| BadQuery (e : QueryError)
| QueryFailed (msg : string)
| Listed (total : Z) (items : list FaxResultGroup).

Section handler.
Context {T : Type} `{!Table T FaxJobResult}.
Variable uuid_Parse : string -> option Z.

(** The page of jobs with their legs. *)
Definition with_legs (total : Z) (jobs : list (Z * Z)) (t : T) : Listing * T :=
  match jobs with
  | [] => (Listed total [], t)
  | _ =>
      let '(found, t') := tbl_find (fun r => existsb (fun j => of_job j.1 r) jobs) t in
      match found with
      | None => (QueryFailed "failed to retrieve fax job legs", t')
      | Some legs =>
          let byJob := by_job (order_by oldest_first legs) in
          (Listed total (map (fun j => deriveGroup j.1 (default [] (byJob !! j.1))) jobs), t')
      end
  end.

Definition list_results (q : faxResultQuery) (t : T) : Listing * T :=
  let '(counted, t1) := tbl_find (base q (tbl_rows t)) t in
  match counted with
  | None => (QueryFailed "failed to count fax jobs", t1)
  | Some rows =>
      let total := Z.of_nat (length (remove_dups (jr_JobUUID <$> rows))) in
      let '(grouped, t2) := tbl_find (base q (tbl_rows t1)) t1 in
      match grouped with
      | None => (QueryFailed "failed to retrieve fax jobs", t2)
      | Some rows => with_legs total (page (q_Limit q) (q_Offset q) (order_by last_active_first (group_rows rows))) t2
      end
  end.

Definition handleListFaxResults (v : Values) (t : T) : Listing * T :=
  match parseFaxResultQuery uuid_Parse v with
  | inl e => (BadQuery e, t)
  | inr q => list_results q t
  end.

End handler.
End search.
