(* ===== verification/FaxSearchFacts.v ===== *)
(** * FaxSearchFacts: what the search of results shows

    Every row of a listing is the summary of all legs of one job; the success
    filter and the success shown agree for the jobs that have a leg to decide
    it; a reported outcome is the one shown. *)

From S2P Require Import Prelude Store GoTime FaxResult FaxJob JobResult FaxSearch.

(** ** Orders *)

#[export] Instance oldest_first_weak : WeakOrder oldest_first.
Proof. split; unfold oldest_first; intros; lia. Qed.

#[export] Instance last_active_weak : WeakOrder last_active_first.
Proof. split; unfold last_active_first; intros; lia. Qed.

#[export] Instance latest_first_weak : WeakOrder latest_first.
Proof.
  split; unfold latest_first; intros *;
    generalize (delivery_rank a) (delivery_rank b); try generalize (delivery_rank c); intros; lia.
Qed.

(** ** Lists *)

Lemma in_jobs_spec P rows id :
  in_jobs P rows id = true <-> exists r, r ∈ rows /\ P r = true /\ jr_JobUUID r = id.
Proof.
  unfold in_jobs. rewrite existsb_exists. setoid_rewrite filter_In. unfold of_job.
  split; intros (r & H); exists r; rewrite list_elem_of_In in *; rewrite Z.eqb_eq in *; tauto.
Qed.

Lemma elem_of_job id (r : FaxJobResult) rows :
  r ∈ List.filter (of_job id) rows <-> r ∈ rows /\ jr_JobUUID r = id.
Proof. rewrite !list_elem_of_In, filter_In. unfold of_job. by rewrite Z.eqb_eq. Qed.

Lemma by_job_from (m : gmap Z (list FaxJobResult)) legs id :
  default [] (foldl (fun m l => <[jr_JobUUID l := default [] (m !! jr_JobUUID l) ++ [l]]> m) m legs !! id) =
  default [] (m !! id) ++ List.filter (of_job id) legs.
Proof.
  revert m. induction legs as [|l legs IH]; intros m; simpl; [by rewrite app_nil_r|].
  rewrite IH. unfold of_job at 2. destruct (Z.eqb_spec (jr_JobUUID l) id) as [<-|Hne].
  - rewrite lookup_insert_eq. simpl. by rewrite <- (assoc_L (++)).
  - by rewrite lookup_insert_ne.
Qed.

Lemma by_job_lookup legs id : default [] (by_job legs !! id) = List.filter (of_job id) legs.
Proof. unfold by_job. rewrite by_job_from. by rewrite lookup_empty. Qed.

#[export] Instance filter_perm {A} (P : A -> bool) : Proper ((≡ₚ) ==> (≡ₚ)) (List.filter P).
Proof.
  intros l l' H. induction H as [|x l l' _ IH|x y l|l l1 l2 _ IH1 _ IH2]; simpl.
  - done.
  - destruct (P x); [by constructor|done].
  - destruct (P x), (P y); try done. apply Permutation_swap.
  - by rewrite IH1.
Qed.

Lemma filter_sorted {A} (R : A -> A -> Prop) (P : A -> bool) l : StronglySorted R l -> StronglySorted R (List.filter P l).
Proof.
  induction 1 as [|x l Hl IH Hx]; simpl; [constructor|]. destruct (P x); [|done]. constructor; [done|].
  rewrite Forall_forall in *. intros y Hy. apply Hx. rewrite list_elem_of_In in *. by apply filter_In in Hy as [??].
Qed.

(** The last element of a sorted list that satisfies [P] is a maximum. *)
Lemma find_rev_max {A} (less : A -> A -> bool) `{!WeakOrder less} (P : A -> bool) l x :
  sorted_by less l -> List.find P (rev l) = Some x ->
  x ∈ l /\ P x = true /\ forall y, y ∈ l -> P y = true -> less x y = false.
Proof.
  induction l as [|z l IH] using rev_ind; intros Hs; [done|]. rewrite rev_app_distr. cbn [rev app List.find].
  assert (sorted_by less l /\ forall y, y ∈ l -> less z y = false) as [Hl Hz].
  { clear IH. unfold sorted_by in *. induction l as [|w l IH]; [by split; [constructor|set_solver]|].
    cbn [app] in Hs. inversion Hs as [|? ? Hs' Hw]; subst. destruct (IH Hs') as [? Hz]. rewrite Forall_app in Hw.
    destruct Hw as [Hw Hw']. inversion Hw'; subst. split; [by constructor|]. intros y [->|?]%elem_of_cons; auto. }
  destruct (P z) eqn:Pz.
  - intros [= <-]. split; [set_solver|]. split; [done|]. intros y [Hy|Hy]%elem_of_app _; [auto|].
    apply list_elem_of_singleton in Hy as ->. destruct (less z z) eqn:E; [|done].
    pose proof (less_asym _ _ E). congruence.
  - intros Hf. destruct (IH Hl Hf) as (Hx & Px & Hm). split; [set_solver|]. split; [done|].
    intros y [Hy|Hy]%elem_of_app Py; [auto|]. apply list_elem_of_singleton in Hy as ->. congruence.
Qed.

Lemma sql_max_spec l :
  l <> [] -> sql_max l ∈ l /\ forall x, x ∈ l -> x <= sql_max l.
Proof.
  destruct l as [|x l]; [done|]. intros _. cbn [sql_max]. induction l as [|y l [Hin Hle]]; cbn [foldr].
  - split; [set_solver|]. intros y Hy. apply list_elem_of_singleton in Hy as ->. lia.
  - split.
    + destruct (Z.max_spec y (foldr Z.max x l)) as [[_ ->]|[_ ->]]; set_solver.
    + intros z [->|[->|Hz]%elem_of_cons]%elem_of_cons.
      * specialize (Hle x ltac:(set_solver)). lia.
      * lia.
      * specialize (Hle z ltac:(set_solver)). lia.
Qed.

(** ** The latest outcome legs *)

Lemma distinct_on_spec l :
  sorted_by latest_first l ->
  (forall x, x ∈ distinct_on l -> x ∈ l /\ forall y, y ∈ l -> jr_JobUUID y = jr_JobUUID x -> latest_first y x = false) /\
  (forall y, y ∈ l -> exists x, x ∈ distinct_on l /\ jr_JobUUID x = jr_JobUUID y).
Proof.
  induction 1 as [|r l Hl [IH1 IH2] Hr]; cbn [distinct_on]; [split; intros ? ?%elem_of_nil; done|].
  rewrite Forall_forall in Hr. split.
  - intros x [->|Hx]%elem_of_cons.
    + split; [by left|]. intros y [->|Hy]%elem_of_cons _; [|by apply Hr].
      unfold latest_first. lia.
    + apply list_elem_of_In, filter_In in Hx as [Hx Hne]. apply list_elem_of_In in Hx.
      destruct (IH1 x Hx) as [Hin Hmin]. split; [by right|].
      intros y [->|Hy]%elem_of_cons E; [|by apply Hmin]. unfold of_job in Hne. lia.
  - intros y Hy. destruct (decide (jr_JobUUID y = jr_JobUUID r)) as [E|E].
    + exists r. split; [by left|done].
    + apply elem_of_cons in Hy as [->|Hy]; [done|]. destruct (IH2 y Hy) as (x & Hx & Ex).
      exists x. split; [|done]. right. apply list_elem_of_In, filter_In. rewrite <- list_elem_of_In.
      split; [done|]. unfold of_job. lia.
Qed.

(** ** The summary of a job *)

Section summary.
Variable source_of : string -> option string.

Definition outbound (l : FaxJobResult) : bool := is_type "transmission" l || is_type "delivery" l.
Definition from_portal (l : FaxJobResult) : Prop := is_type "submission" l = true /\ source_of (jr_SourceInfo l) = Some "portal"%string.

(** What the loop has found among the legs it has seen. *)
Record summarises (g : FaxResultGroup) (seen : list FaxJobResult) : Prop := {
  sum_distinct : NoDup (g_LegTypes g);
  sum_types : forall rt, rt ∈ g_LegTypes g <-> exists l, l ∈ seen /\ jr_ResultType l = rt;
  sum_nonneg : 0 <= g_Attempts g;
  sum_bound : forall l, l ∈ seen -> outbound l = true -> jr_AttemptNumber l <= g_Attempts g;
  sum_reached : g_Attempts g = 0 \/ exists l, l ∈ seen /\ outbound l = true /\ jr_AttemptNumber l = g_Attempts g;
  sum_portal : g_Portal g = true <-> exists l, l ∈ seen /\ from_portal l;
}.

Lemma exists_snoc (P : FaxJobResult -> Prop) seen l :
  (exists x, x ∈ seen ++ [l] /\ P x) <-> (exists x, x ∈ seen /\ P x) \/ P l.
Proof.
  split.
  - intros (x & [Hx|Hx]%elem_of_app & HP); [by left; eauto|]. apply list_elem_of_singleton in Hx as ->. by right.
  - intros [(x & Hx & HP)|HP]; [exists x|exists l]; set_solver.
Qed.

Lemma step_types g l :
  g_LegTypes (leg_step source_of g l) =
    if str_mem (jr_ResultType l) (g_LegTypes g) then g_LegTypes g else g_LegTypes g ++ [jr_ResultType l].
Proof. unfold leg_step. by repeat case_match. Qed.

Lemma step_attempts g l :
  g_Attempts (leg_step source_of g l) = if outbound l then Z.max (g_Attempts g) (jr_AttemptNumber l) else g_Attempts g.
Proof.
  unfold leg_step, outbound. destruct (str_mem _ _), (is_type "transmission" l || is_type "delivery" l); cbn [andb];
    try (destruct (Z.ltb_spec (g_Attempts g) (jr_AttemptNumber l)); simpl); repeat case_match; simpl in *; lia.
Qed.

Lemma step_portal g l :
  g_Portal (leg_step source_of g l) =
    g_Portal g || (is_type "submission" l && bool_decide (source_of (jr_SourceInfo l) = Some "portal"%string)).
Proof.
  unfold leg_step. destruct (g_Portal g) eqn:E, (is_type "submission" l), (bool_decide _) eqn:?; simpl;
    repeat (case_match; simpl in *; rewrite ?E in * ); simpl in *; try congruence.
Qed.

Lemma leg_step_summarises g seen l :
  summarises g seen -> summarises (leg_step source_of g l) (seen ++ [l]).
Proof.
  intros [Hd Ht Hn Hb Hr Hp]. split.
  - rewrite step_types. destruct (str_mem _ _) eqn:E; [done|]. apply NoDup_app. split; [done|].
    split; [|by apply NoDup_singleton]. intros x Hx Hx'. apply list_elem_of_singleton in Hx' as ->.
    apply str_mem_spec in Hx. congruence.
  - intros rt. rewrite step_types, (exists_snoc (fun l => jr_ResultType l = rt)), <- Ht.
    destruct (str_mem _ _) eqn:E; [apply str_mem_spec in E|]; set_solver.
  - rewrite step_attempts. destruct (outbound l); lia.
  - intros x [Hx|Hx]%elem_of_app Hox; rewrite step_attempts.
    + specialize (Hb x Hx Hox). destruct (outbound l); lia.
    + apply list_elem_of_singleton in Hx as ->. rewrite Hox. lia.
  - rewrite (exists_snoc (fun x => outbound x = true /\ jr_AttemptNumber x = _)), step_attempts.
    destruct (outbound l); [|tauto].
    destruct (Z.max_spec (g_Attempts g) (jr_AttemptNumber l)) as [[_ ->]|[_ ->]]; tauto.
  - rewrite step_portal, exists_snoc, orb_true_iff, andb_true_iff, bool_decide_eq_true, Hp. done.
Qed.

Lemma legs_summarised g seen legs :
  summarises g seen -> summarises (foldl (leg_step source_of) g legs) (seen ++ legs).
Proof.
  revert g seen. induction legs as [|l legs IH]; intros g seen H; simpl; [by rewrite app_nil_r|].
  replace (seen ++ l :: legs) with ((seen ++ [l]) ++ legs) by by rewrite <- (assoc_L (++)).
  by apply IH, leg_step_summarises.
Qed.

(** What the loop leaves alone. *)
Definition header (g : FaxResultGroup) := (g_JobUUID g, g_Legs g, g_FirstTs g, g_LastTs g, g_CalleeNumber g, g_CallerIDNumber g).

Lemma legs_header g legs : header (foldl (leg_step source_of) g legs) = header g.
Proof.
  revert g. induction legs as [|l legs IH]; intros g; simpl; [done|]. rewrite IH.
  unfold leg_step. by repeat case_match.
Qed.

Lemma outcome_frame p g :
  header (group_outcome p g) = header g /\ g_LegTypes (group_outcome p g) = g_LegTypes g /\
  g_Attempts (group_outcome p g) = g_Attempts g /\ g_Portal (group_outcome p g) = g_Portal g /\
  g_Success (group_outcome p g) = jr_Success p && negb (is_type "submission" p).
Proof.
  unfold group_outcome. destruct (is_type "submission" p); simpl; [by rewrite andb_false_r|by rewrite andb_true_r].
Qed.

Lemma primary_leg_elem legs x : x ∈ legs -> primary_leg legs x ∈ legs.
Proof.
  intros Hx. unfold primary_leg. destruct (List.find is_primary (rev legs)) eqn:E; [|done]. simpl.
  apply find_some in E as [E _]. apply list_elem_of_In. by apply in_rev.
Qed.

Lemma last_some (l : list FaxJobResult) x : last l = Some x -> x ∈ l.
Proof. intros H. apply last_Some in H as [l' ->]. set_solver. Qed.

(** The summary of the legs of a job: each kind of leg once; the attempts are
    the highest number of an outbound leg; it is the portal's exactly when an
    intake row says so; and it is a success only if some leg other than the
    intake succeeded. *)
Theorem deriveGroup_summary id first legs :
  exists final, last (first :: legs) = Some final /\
  let g := deriveGroup source_of id (first :: legs) in
  let p := primary_leg (first :: legs) final in
  summarises g (first :: legs) /\ p ∈ first :: legs /\
  header g = (id, first :: legs, jr_CreatedAt first, jr_CreatedAt final, jr_CalleeNumber final, jr_CallerIdNumber final) /\
  g_Success g = jr_Success p && negb (is_type "submission" p).
Proof.
  destruct (last (first :: legs)) as [final|] eqn:E; [|by apply last_None in E].
  exists final. split; [done|]. cbn zeta. unfold deriveGroup. rewrite E.
  set (g0 := (empty_group id (first :: legs)) <| g_CallerIDNumber := _ |> <| g_CallerIDName := _ |>
     <| g_CalleeNumber := _ |> <| g_SrcTenantID := _ |> <| g_DstTenantID := _ |> <| g_FirstTs := _ |> <| g_LastTs := _ |>).
  destruct (outcome_frame (primary_leg (first :: legs) final) (foldl (leg_step source_of) g0 (first :: legs)))
    as (Hh & Ht & Ha & Hp & Hs).
  assert (summarises g0 []) as H0.
  { split; simpl; [apply NoDup_nil_2| |lia| |by left|split; [done|]].
    - intros rt. split; [by intros ?%elem_of_nil|by intros (x & ?%elem_of_nil & _)].
    - by intros l ?%elem_of_nil.
    - by intros (x & ?%elem_of_nil & _). }
  pose proof (legs_summarised g0 [] (first :: legs) H0) as [H1 H2 H3 H4 H5 H6]. cbn [app] in *.
  split; [|split; [by apply primary_leg_elem, last_some|]].
  - split; by rewrite ?Ht, ?Ha, ?Hp.
  - split; [|done]. by rewrite Hh, legs_header.
Qed.

Lemma deriveGroup_legs id legs :
  g_JobUUID (deriveGroup source_of id legs) = id /\ g_Legs (deriveGroup source_of id legs) = legs.
Proof.
  destruct legs as [|first legs]; [done|]. destruct (deriveGroup_summary id first legs) as (final & _ & _ & _ & H & _).
  split; [exact (f_equal (fun h => h.1.1.1.1.1) H)|exact (f_equal (fun h => h.1.1.1.1.2) H)].
Qed.

End summary.

(** ** The search in its own words *)

(** *** Patterns *)

Definition plain_char (c : ascii) : bool := negb (Ascii.eqb c "%" || Ascii.eqb c "_" || Ascii.eqb c "\").

Lemma sql_like_any p s : sql_like (String "%" p) s = true <-> exists a b, s = a +:+ b /\ sql_like p b = true.
Proof.
  cbn [sql_like]. change (Ascii.eqb "%" "%") with true. cbv iota. induction s as [|c s IH].
  - rewrite orb_false_r. split; [intros Hp; by exists "", ""|]. intros (a & b & E & Hp). destruct a; [|done]. change ("" = b) in E. by subst.
  - rewrite orb_true_iff, IH. split.
    + intros [Hp|(a & b & -> & Hp)]; [by exists "", (String c s)|by exists (String c a), b].
    + intros (a & b & E & Hp). destruct a as [|c' a]; [change (String c s = b) in E; left; by subst|right].
      change (String c s = String c' (a +:+ b)) in E. injection E as -> ->. by exists a, b.
Qed.

Lemma sql_like_plain l p s : str_forall plain_char l = true ->
  sql_like (l +:+ p) s = true <-> exists b, s = l +:+ b /\ sql_like p b = true.
Proof.
  revert s. induction l as [|c l IH]; intros s Hl; [split; [by exists s|by intros (b & -> & ?)]|].
  cbn in Hl. apply andb_prop in Hl as [Hc Hl]. unfold plain_char in Hc. apply negb_true_iff in Hc.
  apply orb_false_iff in Hc as [[H1 H2]%orb_false_iff H3]. change (String c l +:+ p) with (String c (l +:+ p)). cbn [sql_like]. rewrite H1, H2, H3.
  destruct s as [|d s]; [split; [done|by intros (b & ? & _)]|]. rewrite andb_true_iff, Ascii.eqb_eq, IH by done. split.
  - intros (-> & b & -> & Hb). by exists b.
  - intros (b & E & Hb). change (String d s = String c (l +:+ b)) in E. injection E as -> ->. eauto.
Qed.

Lemma sql_like_contains l s : str_forall plain_char l = true ->
  sql_like ("%" +:+ l +:+ "%") s = true <-> exists a b, s = a +:+ l +:+ b.
Proof.
  intros Hl. change ("%" +:+ l +:+ "%") with (String "%" (l +:+ "%")). rewrite sql_like_any. split.
  - intros (a & b & -> & (b' & -> & _)%sql_like_plain); [by exists a, b'|done].
  - intros (a & b & ->). exists a, (l +:+ b). split; [done|]. apply sql_like_plain; [done|]. exists b. split; [done|].
    apply sql_like_any. exists b, "". split; [|done]. clear. induction b as [|c b IH]; [done|]. change (String c b = String c (b +:+ "")). by rewrite <- IH.
Qed.

(** *** Which jobs are asked for *)

(** The row is one the query speaks of: sent or received by the tenant, from or
    to a number that is [LIKE '%number%'], of the job, and stored between the
    bounds. *)
Definition row_asked (q : faxResultQuery) (r : FaxJobResult) : Prop :=
  (0 < q_TenantID q -> jr_SrcTenantID r = q_TenantID q \/ jr_DstTenantID r = q_TenantID q) /\
  (q_Number q <> "" -> sql_like ("%" +:+ q_Number q +:+ "%") (jr_CallerIdNumber r) = true \/
     sql_like ("%" +:+ q_Number q +:+ "%") (jr_CalleeNumber r) = true) /\
  (forall i, q_JobUUID q = Some i -> jr_JobUUID r = i) /\
  (forall t, q_From q = Some t -> t <= jr_CreatedAt r) /\ (forall t, q_To q = Some t -> jr_CreatedAt r <= t).

Definition has_leg (rows : list FaxJobResult) (id : Z) (P : FaxJobResult -> Prop) : Prop :=
  exists r, r ∈ rows /\ jr_JobUUID r = id /\ P r.

(** The intake row says that the portal handed the fax in. *)
Definition handed_in_by_portal (rows : list FaxJobResult) (id : Z) : Prop :=
  has_leg rows id (fun r => jr_ResultType r = "submission" /\
    exists a b, jr_SourceInfo r = a +:+ (quote +:+ "source" +:+ quote +:+ ":" +:+ quote +:+ "portal" +:+ quote) +:+ b).

(** The leg that says how the fax went: neither intake nor receipt; a delivery
    only if there is nothing else; and none of its kind is later. *)
Definition final_leg (rows : list FaxJobResult) (id : Z) (x : FaxJobResult) : Prop :=
  let tells r := jr_ResultType r <> "submission" /\ jr_ResultType r <> "notify" in
  x ∈ rows /\ jr_JobUUID x = id /\ tells x /\
  forall y, y ∈ rows -> jr_JobUUID y = id -> tells y ->
    (jr_ResultType y = "delivery" /\ jr_ResultType x <> "delivery") \/
    ((jr_ResultType y = "delivery" <-> jr_ResultType x = "delivery") /\ jr_CreatedAt y <= jr_CreatedAt x).

(** The job is asked for, if [ended b] says that it ended with success [b]. *)
Definition job_asked (q : faxResultQuery) (rows : list FaxJobResult) (id : Z) (ended : bool -> Prop) : Prop :=
  has_leg rows id (row_asked q) /\
  (q_ResultType q <> "" -> has_leg rows id (fun r => jr_ResultType r = q_ResultType q)) /\
  (q_Origin q = "portal" -> handed_in_by_portal rows id) /\
  (q_Origin q <> "" -> q_Origin q <> "portal" -> ~ handed_in_by_portal rows id) /\
  (forall b, q_Success q = Some b -> ended b).

(** When the job was last active, as far as the rows asked for tell. *)
Definition active_at (q : faxResultQuery) (rows : list FaxJobResult) (id at_ : Z) : Prop :=
  has_leg rows id (fun r => row_asked q r /\ jr_CreatedAt r = at_) /\
  forall r, r ∈ rows -> jr_JobUUID r = id -> row_asked q r -> jr_CreatedAt r <= at_.

Lemma nonempty_spec s : nonempty s = true <-> s <> "".
Proof. unfold nonempty. by rewrite negb_true_iff, String.eqb_neq. Qed.

Lemma if_spec (b c : bool) : (if b then c else true) = true <-> (b = true -> c = true).
Proof. destruct b; intuition done. Qed.

Lemma opt_spec {A} (o : option A) (f : A -> bool) :
  match o with Some a => f a | None => true end = true <-> forall a, o = Some a -> f a = true.
Proof. destruct o as [a|]; split; [by intros ? ? [= <-]|auto|done|done]. Qed.

Lemma apply_spec q r : apply q r = true <-> row_asked q r.
Proof.
  unfold apply, row_asked, of_job. cbv zeta. rewrite !andb_true_iff, !if_spec, !opt_spec, Z.ltb_lt, nonempty_spec, !orb_true_iff, !Z.eqb_eq.
  setoid_rewrite Z.eqb_eq. setoid_rewrite Z.leb_le. tauto.
Qed.

Lemma in_jobs_has P rows id (Q : FaxJobResult -> Prop) : (forall r, P r = true <-> Q r) -> in_jobs P rows id = true <-> has_leg rows id Q.
Proof. intros HP. rewrite in_jobs_spec. unfold has_leg. setoid_rewrite <- HP. firstorder. Qed.

Lemma portal_intake_spec rows id : in_jobs portal_intake rows id = true <-> handed_in_by_portal rows id.
Proof.
  apply in_jobs_has. intros r. unfold portal_intake, is_type. rewrite andb_true_iff, String.eqb_eq.
  change portal_mark with ("%" +:+ (quote +:+ "source" +:+ quote +:+ ":" +:+ quote +:+ "portal" +:+ quote) +:+ "%").
  by rewrite sql_like_contains.
Qed.

(** *** What is shown of a job *)

(** The leg the summary goes by: the last that is no delivery, intake or
    receipt, and without one the last of all. *)
Definition outcome_leg (legs : list FaxJobResult) (p : FaxJobResult) : Prop :=
  let other l := jr_ResultType l <> "delivery" /\ jr_ResultType l <> "submission" /\ jr_ResultType l <> "notify" in
  (exists before after, legs = before ++ p :: after /\ other p /\ forall l, l ∈ after -> ~ other l) \/
  (last legs = Some p /\ forall l, l ∈ legs -> ~ other l).

Record describes (source_of : string -> option string) (g : FaxResultGroup) (legs : list FaxJobResult) : Prop := {
  ds_first : exists first rest, legs = first :: rest /\ g_FirstTs g = jr_CreatedAt first;
  ds_last : exists final, last legs = Some final /\ g_LastTs g = jr_CreatedAt final /\
    g_CallerIDNumber g = jr_CallerIdNumber final /\ g_CallerIDName g = jr_CallerIdName final /\
    g_CalleeNumber g = jr_CalleeNumber final /\ g_SrcTenantID g = jr_SrcTenantID final /\ g_DstTenantID g = jr_DstTenantID final;
  ds_types : NoDup (g_LegTypes g) /\ forall rt, rt ∈ g_LegTypes g <-> exists l, l ∈ legs /\ jr_ResultType l = rt;
  ds_attempts : let sent l := jr_ResultType l = "transmission" \/ jr_ResultType l = "delivery" in
    0 <= g_Attempts g /\ (forall l, l ∈ legs -> sent l -> jr_AttemptNumber l <= g_Attempts g) /\
    (g_Attempts g = 0 \/ exists l, l ∈ legs /\ sent l /\ jr_AttemptNumber l = g_Attempts g);
  ds_portal : g_Portal g = true <-> exists l, l ∈ legs /\ jr_ResultType l = "submission" /\ source_of (jr_SourceInfo l) = Some "portal";
  ds_outcome : exists p, outcome_leg legs p /\ g_TransferredPages g = jr_TransferredPages p /\ g_TotalPages g = jr_TotalPages p /\
    (jr_ResultType p <> "submission" -> g_Success g = jr_Success p /\ g_Status g = jr_Status p) /\
    (jr_ResultType p = "submission" -> g_Success g = false /\
       g_Status g = if decide (jr_ResultText p = "") then "queued" else jr_ResultText p);
}.

Lemma is_primary_spec l : is_primary l = true <->
  jr_ResultType l <> "delivery" /\ jr_ResultType l <> "submission" /\ jr_ResultType l <> "notify".
Proof. unfold is_primary, is_type. rewrite !andb_true_iff, !negb_true_iff, !String.eqb_neq. tauto. Qed.

Lemma find_rev_split {A} (P : A -> bool) l x : List.find P (rev l) = Some x ->
  exists before after, l = before ++ x :: after /\ P x = true /\ forall y, y ∈ after -> P y = false.
Proof.
  induction l as [|z l IH] using rev_ind; [done|]. rewrite rev_app_distr. cbn [rev app List.find]. destruct (P z) eqn:Pz.
  - intros [= <-]. exists l, []. split; [done|]. split; [done|]. intros y ?%elem_of_nil. done.
  - intros Hf. destruct (IH Hf) as (before & after & -> & Px & Hafter). exists before, (after ++ [z]).
    split; [by rewrite <- app_assoc|]. split; [done|]. intros y [Hy|Hy]%elem_of_app; [by apply Hafter|].
    by apply list_elem_of_singleton in Hy as ->.
Qed.

Lemma primary_leg_outcome legs final : last legs = Some final -> outcome_leg legs (primary_leg legs final).
Proof.
  intros Hl. unfold outcome_leg, primary_leg. cbv zeta. destruct (List.find is_primary (rev legs)) as [p|] eqn:E; cbn [default Datatypes.id].
  - left. apply find_rev_split in E as (before & after & -> & Hp & Hafter). exists before, after. split; [done|].
    split; [by apply is_primary_spec|]. intros l Hin. rewrite <- is_primary_spec. by rewrite Hafter.
  - right. split; [done|]. intros l Hin. rewrite <- is_primary_spec. rewrite (find_none _ _ E); [done|].
    rewrite <- in_rev. by apply list_elem_of_In.
Qed.

(** The other columns the loop leaves alone. *)
Definition parties (g : FaxResultGroup) := (g_CallerIDName g, g_SrcTenantID g, g_DstTenantID g).

Lemma legs_parties source_of g legs : parties (foldl (leg_step source_of) g legs) = parties g.
Proof.
  revert g. induction legs as [|l legs IH]; intros g; simpl; [done|]. rewrite IH. unfold leg_step. by repeat case_match.
Qed.

Lemma outcome_parties p g : parties (group_outcome p g) = parties g.
Proof. unfold group_outcome. by destruct (is_type "submission" p). Qed.

Lemma deriveGroup_describes source_of id first rest :
  describes source_of (deriveGroup source_of id (first :: rest)) (first :: rest).
Proof.
  destruct (deriveGroup_summary source_of id first rest) as (final & Hlast & [H1 H2 H3 H4 H5 H6] & _ & Hh & Hs).
  cbv zeta in *. assert (parties (deriveGroup source_of id (first :: rest)) = (jr_CallerIdName final, jr_SrcTenantID final, jr_DstTenantID final)) as Hp.
  { unfold deriveGroup. rewrite Hlast, outcome_parties, legs_parties. done. }
  injection Hh as _ _ Hf Hl Hc Hn. injection Hp as Hcn Hst Hdt.
  assert (forall l, outbound l = true <-> jr_ResultType l = "transmission" \/ jr_ResultType l = "delivery") as Hout
    by (intros l; unfold outbound, is_type; by rewrite orb_true_iff, !String.eqb_eq).
  split.
  - by exists first, rest.
  - by exists final.
  - by split.
  - cbv zeta. split; [done|]. split; [intros l Hin Ho; apply H4; [done|by apply Hout]|]. destruct H5 as [?|(l & ? & ?%Hout & ?)]; eauto 6.
  - rewrite H6. unfold from_portal, is_type. setoid_rewrite String.eqb_eq. done.
  - exists (primary_leg (first :: rest) final). split; [by apply primary_leg_outcome|]. unfold deriveGroup. rewrite Hlast.
    unfold group_outcome, is_type. set (p := primary_leg (first :: rest) final). clearbody p.
    destruct (String.eqb_spec (jr_ResultType p) "submission"); cbn; (split; [done|]); (split; [done|]); (split; [done|]); [|done].
    intros _. split; [done|]. destruct (String.eqb_spec (jr_ResultText p) ""); [by rewrite decide_True|by rewrite decide_False].
Qed.

Section facts.
Context `{!SqlOrder}.

Lemma elem_of_order {A} (less : A -> A -> bool) x l : x ∈ order_by less l <-> x ∈ l.
Proof. by rewrite order_by_perm. Qed.

(** A job is among the latest legs with one leg, which no outcome leg follows. *)
Lemma latest_leg_spec rows id b :
  in_jobs (fun r => Bool.eqb (jr_Success r) b) (latest_legs rows) id = true <->
  exists x, x ∈ latest_legs rows /\ jr_JobUUID x = id /\ jr_Success x = b.
Proof.
  rewrite in_jobs_spec. setoid_rewrite eqb_true_iff. firstorder.
Qed.

Lemma latest_leg_facts rows :
  (forall x, x ∈ latest_legs rows ->
     x ∈ rows /\ is_outcome x = true /\
     forall y, y ∈ rows -> is_outcome y = true -> jr_JobUUID y = jr_JobUUID x ->
       delivery_rank x < delivery_rank y \/ (delivery_rank x = delivery_rank y /\ jr_CreatedAt y <= jr_CreatedAt x)) /\
  (forall y, y ∈ rows -> is_outcome y = true -> exists x, x ∈ latest_legs rows /\ jr_JobUUID x = jr_JobUUID y).
Proof.
  unfold latest_legs. set (l := order_by latest_first (List.filter is_outcome rows)).
  assert (forall x, x ∈ l <-> x ∈ rows /\ is_outcome x = true) as Hl.
  { intros x. unfold l. rewrite elem_of_order, !list_elem_of_In. apply filter_In. }
  destruct (distinct_on_spec l) as [H1 H2]; [apply (order_by_sorted _ _)|].
  split.
  - intros x Hx. destruct (H1 x Hx) as [Hin Hmin]. apply Hl in Hin as [Hin Ho]. split; [done|]. split; [done|].
    intros y Hy Hoy E. specialize (Hmin y (proj2 (Hl y) (conj Hy Hoy)) E).
    unfold latest_first in Hmin. lia.
  - intros y Hy Ho. apply H2. by apply Hl.
Qed.

(** The legs of a job, oldest first. *)
Definition legs_of (id : Z) (rows legs : list FaxJobResult) : Prop :=
  legs ≡ₚ List.filter (of_job id) rows /\ sorted_by oldest_first legs.

(** ** The listing *)

Section listing.
Context {T : Type} `{!Table T FaxJobResult, !TableLaws T FaxJobResult}.
Variable source_of : string -> option string.
#[local] Notation list_results := (list_results source_of).

Lemma elem_of_base q rows r :
  r ∈ List.filter (base q rows) rows <-> r ∈ rows /\ row_asked q r /\ job_filter q rows (jr_JobUUID r) = true.
Proof. rewrite !list_elem_of_In, filter_In. unfold base. rewrite andb_true_iff, apply_spec. tauto. Qed.

Lemma elem_of_selected q rows id :
  id ∈ remove_dups (jr_JobUUID <$> List.filter (base q rows) rows) <-> job_filter q rows id = true /\ has_leg rows id (row_asked q).
Proof.
  rewrite elem_of_remove_dups, list_elem_of_fmap. setoid_rewrite elem_of_base. unfold has_leg. split.
  - intros (r & -> & Hr & Ha & Hj). eauto 6.
  - intros (Hj & r & Hr & <- & Ha). eauto 6.
Qed.

Lemma latest_leg_final rows x : x ∈ latest_legs rows -> final_leg rows (jr_JobUUID x) x.
Proof.
  intros Hx. destruct (latest_leg_facts rows) as [H1 _]. destruct (H1 x Hx) as (Hin & Ho & Hmax).
  assert (forall r, is_outcome r = true <-> jr_ResultType r <> "submission" /\ jr_ResultType r <> "notify") as Hout.
  { intros r. unfold is_outcome, is_type. by rewrite negb_true_iff, orb_false_iff, !String.eqb_neq. }
  unfold final_leg. cbv zeta. split; [done|]. split; [done|]. split; [by apply Hout|]. intros y Hy Hid Hoy%Hout.
  specialize (Hmax y Hy Hoy Hid). unfold delivery_rank, is_type in Hmax.
  destruct (String.eqb_spec (jr_ResultType x) "delivery"), (String.eqb_spec (jr_ResultType y) "delivery"); [right|right|left|right];
    (split; [done || tauto|lia || done]) || lia.
Qed.

Lemma job_filter_asked q rows id : has_leg rows id (row_asked q) ->
  (job_filter q rows id = true -> job_asked q rows id (fun b => exists x, final_leg rows id x /\ jr_Success x = b)) /\
  (job_asked q rows id (fun b => (exists x, final_leg rows id x) /\ forall x, final_leg rows id x -> jr_Success x = b) ->
   job_filter q rows id = true).
Proof.
  intros Hrow. unfold job_filter, job_asked.
  assert (in_jobs (is_type (q_ResultType q)) rows id = true <-> has_leg rows id (fun r => jr_ResultType r = q_ResultType q)) as Htype
    by (apply in_jobs_has; intros r; apply String.eqb_eq).
  rewrite !andb_true_iff, !if_spec, opt_spec, !nonempty_spec, Htype. setoid_rewrite latest_leg_spec.
  assert ((q_Origin q <> "" -> (if (q_Origin q =? "portal")%string then in_jobs portal_intake rows id else negb (in_jobs portal_intake rows id)) = true) <->
    (q_Origin q = "portal" -> handed_in_by_portal rows id) /\ (q_Origin q <> "" -> q_Origin q <> "portal" -> ~ handed_in_by_portal rows id)) as ->.
  { rewrite <- portal_intake_spec. destruct (String.eqb_spec (q_Origin q) "portal") as [->|]; [split; [intros Hp; split; [by auto|done]|by intros [? _]; auto]|].
    rewrite negb_true_iff, <- not_true_iff_false. tauto. }
  split.
  - intros [[? [? ?]] Hs]. split_and!; try done. intros b Hb. destruct (Hs b Hb) as (x & Hx & <- & ?). exists x. split; [by apply latest_leg_final|done].
  - intros (_ & ? & ? & ? & Hs). split; [done|]. intros b Hb. destruct (Hs b Hb) as [(x & Hx) Hall].
    destruct (proj2 (latest_leg_facts rows) x) as (y & Hy & Hid); [apply Hx| |].
    { destruct Hx as (_ & _ & [Hns Hnn] & _). unfold is_outcome, is_type. by rewrite (proj2 (String.eqb_neq _ _) Hns), (proj2 (String.eqb_neq _ _) Hnn). }
    exists y. split; [done|]. assert (jr_JobUUID y = id) as <- by (rewrite Hid; apply Hx). split; [done|]. by apply Hall, latest_leg_final.
Qed.

Lemma group_rows_spec q rows (g : Z * Z) :
  g ∈ group_rows (List.filter (base q rows) rows) -> active_at q rows g.1 g.2.
Proof.
  intros (id & -> & Hid)%list_elem_of_fmap. cbn [fst snd]. apply elem_of_selected in Hid as [Hj Hm].
  set (l := jr_CreatedAt <$> List.filter (of_job id) (List.filter (base q rows) rows)).
  assert (forall x, x ∈ l <-> has_leg rows id (fun r => row_asked q r /\ jr_CreatedAt r = x)) as Hl.
  { intros x. unfold l, has_leg. rewrite list_elem_of_fmap. setoid_rewrite elem_of_job. setoid_rewrite elem_of_base. split.
    - intros (r & -> & (Hr & Ha & _) & Hi). eauto 6.
    - intros (r & Hr & Hi & Ha & <-). exists r. by rewrite Hi. }
  destruct Hm as (r & Hr & Hi & Ha).
  destruct (sql_max_spec l) as [Hin Hle].
  { intros E. assert (jr_CreatedAt r ∈ l) as Hx by (apply Hl; exists r; eauto). rewrite E in Hx. by apply elem_of_nil in Hx. }
  split; [by apply Hl|]. intros y Hy Hyi Hya. apply Hle, Hl. exists y. eauto.
Qed.

Lemma legs_of_found id (jobs : list (Z * Z)) rows legs :
  id ∈ jobs.*1 -> legs = List.filter (fun r => existsb (fun j => of_job j.1 r) jobs) rows ->
  legs_of id rows (default [] (by_job (order_by oldest_first legs) !! id)).
Proof.
  intros Hid ->. rewrite by_job_lookup. split.
  - rewrite order_by_perm. clear -Hid. induction rows as [|r rows IH]; simpl; [done|].
    destruct (of_job id r) eqn:E.
    + assert (existsb (fun j => of_job j.1 r) jobs = true) as Hj.
      { apply existsb_exists. apply list_elem_of_fmap in Hid as (j & -> & Hj). exists j. by rewrite <- list_elem_of_In. }
      rewrite Hj. simpl. rewrite E. by constructor.
    + destruct (existsb _ jobs); simpl; rewrite ?E; done.
  - apply filter_sorted, order_by_sorted, _.
Qed.

Lemma with_legs_exact (total : nat) (jobs : list (Z * Z)) (t : T) :
  tbl_healthy t ->
  exists items, (with_legs source_of (Z.of_nat total) jobs t).1 = Listed (Z.of_nat total) items /\
    tbl_rows (with_legs source_of (Z.of_nat total) jobs t).2 = tbl_rows t /\ map g_JobUUID items = jobs.*1 /\
    Forall (fun g => legs_of (g_JobUUID g) (tbl_rows t) (g_Legs g) /\ g = deriveGroup source_of (g_JobUUID g) (g_Legs g)) items.
Proof.
  intros Hh. destruct jobs as [|j0 jobs']; [by exists []|]. unfold with_legs. set (jobs := j0 :: jobs').
  destruct (find_healthy (fun r => existsb (fun j => of_job j.1 r) jobs) t Hh) as (Hf & Hr & _).
  destruct (tbl_find _ t) as [o t']. cbn [fst snd] in *. subst o. eexists. split; [done|]. split; [done|].
  rewrite map_map. split; [apply map_ext; intros j; apply deriveGroup_legs|].
  apply Forall_fmap, Forall_forall. intros j Hj. unfold compose.
  match goal with |- context [deriveGroup source_of j.1 ?l] => destruct (deriveGroup_legs source_of j.1 l) as [E1 E2] end.
  rewrite E1, E2. split; [|done]. eapply legs_of_found; [|done]. apply list_elem_of_fmap. by exists j.
Qed.

(** C34: while the database answers, a search returns a page of the jobs that
    are asked for, most recently active first, and how many there are in all.
    A job is asked for when it has a row sent or received by the tenant, from or
    to a number like the one given, of the job and between the bounds, if these
    are given; and a leg of the type, an intake row that names the portal (or
    none), and an end with the success, if those are given. (Where several legs
    of one instant could be its end, SQL chooses: a job is listed only if one of
    them has the success, and always if all have.) Each item of the page
    describes all legs of its job, oldest first, whether the query speaks of
    them or not: how it ended, by its last leg that is no delivery, intake or
    receipt, its attempts, types, parties and times. Nothing is written. *)
Theorem fax_search_exact (q : faxResultQuery) (t : T) :
  tbl_healthy t -> let rows := tbl_rows t in
  exists jobs items,
    (list_results q t).1 = Listed (Z.of_nat (length jobs)) items /\
    tbl_rows (list_results q t).2 = rows /\
    NoDup jobs.*1 /\
    (forall id, id ∈ jobs.*1 -> job_asked q rows id (fun b => exists x, final_leg rows id x /\ jr_Success x = b)) /\
    (forall id, job_asked q rows id (fun b => (exists x, final_leg rows id x) /\ forall x, final_leg rows id x -> jr_Success x = b) ->
       id ∈ jobs.*1) /\
    Forall (fun j => active_at q rows j.1 j.2) jobs /\ StronglySorted (fun j k => k.2 <= j.2) jobs /\
    map g_JobUUID items = take (Z.to_nat (q_Limit q)) (drop (Z.to_nat (q_Offset q)) jobs.*1) /\
    Forall (fun g => legs_of (g_JobUUID g) rows (g_Legs g) /\ describes source_of g (g_Legs g)) items.
Proof.
  cbv zeta.
  intros Hh. set (rows := tbl_rows t). set (kept := List.filter (base q rows) rows).
  set (jobs := order_by last_active_first (group_rows kept)).
  assert ((group_rows kept).*1 = remove_dups (jr_JobUUID <$> kept)) as Hids.
  { unfold group_rows. rewrite <- list_fmap_compose. apply list_fmap_id. }
  assert (jobs.*1 ≡ₚ remove_dups (jr_JobUUID <$> kept)) as Hperm.
  { unfold jobs. by rewrite (fmap_Permutation _ _ _ (order_by_perm _ _)), Hids. }
  destruct (find_healthy (base q rows) t Hh) as (Hf1 & Hr1 & Hh1).
  destruct (find_healthy (base q (tbl_rows (tbl_find (base q rows) t).2)) _ Hh1) as (Hf2 & Hr2 & Hh2).
  rewrite Hr1 in Hf2, Hr2, Hh2. fold rows in Hf1, Hr1, Hf2, Hr2, Hh2.
  assert (length jobs = length (remove_dups (jr_JobUUID <$> kept))) as Hlen.
  { by rewrite <- Hperm, length_fmap. }
  exists jobs. unfold FaxSearch.list_results. fold rows. destruct (tbl_find (base q rows) t) as [o1 t1].
  cbn [fst snd] in *. subst o1. rewrite Hr1. destruct (tbl_find (base q rows) t1) as [o2 t2]. cbn [fst snd] in *. subst o2.
  fold kept. fold jobs. rewrite <- Hlen.
  destruct (with_legs_exact (length jobs) (page (q_Limit q) (q_Offset q) jobs) t2 Hh2)
    as (items & -> & Hr3 & Hmap & Hall). rewrite Hr2 in Hr3, Hall.
  assert (map g_JobUUID items = page (q_Limit q) (q_Offset q) jobs.*1) as Hpage.
  { rewrite Hmap. unfold page. by rewrite fmap_take, fmap_drop. }
  exists items. split; [done|]. split; [done|]. split; [rewrite Hperm; apply NoDup_remove_dups|].
  split; [intros id Hid; rewrite Hperm in Hid; apply elem_of_selected in Hid as [? ?]; by apply job_filter_asked|].
  split; [intros id Hid; rewrite Hperm; apply elem_of_selected; split; [apply job_filter_asked|]; [apply Hid..]|].
  split.
  { apply Forall_forall. intros j Hj. apply (group_rows_spec q rows j). by rewrite <- (order_by_perm last_active_first). }
  split; [|split; [done|]].
  2: { apply Forall_forall. intros g Hg. rewrite Forall_forall in Hall. destruct (Hall g Hg) as [Hlegs Hderive]. split; [done|].
    assert (g_JobUUID g ∈ jobs.*1) as Hid.
    { assert (g_JobUUID g ∈ map g_JobUUID items) as Hin by (by apply list_elem_of_fmap_2). rewrite Hpage in Hin. unfold page in Hin.
      eapply elem_of_sublist; [exact Hin|]. etrans; [apply sublist_take|apply sublist_drop]. }
    rewrite Hperm in Hid. apply elem_of_selected in Hid as (_ & r & Hr & Hri & _).
    destruct (g_Legs g) as [|first rest]; [|rewrite Hderive; apply deriveGroup_describes].
    assert (r ∈ []) as ?%elem_of_nil; [|done]. rewrite (proj1 Hlegs). by apply elem_of_job. }
  pose proof (order_by_sorted last_active_first (group_rows kept)) as Hs. fold jobs in Hs.
  unfold sorted_by in Hs. clear -Hs. induction Hs as [|j l _ IH Hj]; constructor; [done|].
  eapply Forall_impl; [exact Hj|]. unfold last_active_first. intros. lia.
Qed.

End listing.

(** ** The success filter and the success shown *)

Section outcome.
Variable source_of : string -> option string.

(** No outcome leg of [legs] comes before [p] in the order of the filter. *)
Definition decides (legs : list FaxJobResult) (p : FaxJobResult) : Prop :=
  p ∈ legs /\ is_outcome p = true /\
  forall y, y ∈ legs -> is_outcome y = true ->
    delivery_rank p < delivery_rank y \/ (delivery_rank p = delivery_rank y /\ jr_CreatedAt y <= jr_CreatedAt p).

(** The job has a leg the summary can take its outcome from: one that is no
    delivery, intake or receipt, or a delivery that is the last row of all. *)
Definition decided (legs : list FaxJobResult) : bool :=
  existsb is_primary legs || match last legs with Some l => is_type "delivery" l | None => false end.

Lemma is_primary_outcome l : is_primary l = true <-> is_outcome l = true /\ delivery_rank l = 0.
Proof. unfold is_primary, is_outcome, delivery_rank. destruct (is_type "delivery" l), (is_type "submission" l), (is_type "notify" l); simpl; split; try done; lia. Qed.

Lemma delivery_outcome l : is_type "delivery" l = true -> is_outcome l = true /\ delivery_rank l = 1.
Proof. unfold is_outcome, delivery_rank, is_type. intros E. rewrite E. by apply String.eqb_eq in E as ->. Qed.

Lemma outcome_not_intake l : is_outcome l = true -> is_type "submission" l = false.
Proof. unfold is_outcome. by destruct (is_type "submission" l). Qed.

Lemma rank_range l : delivery_rank l = 0 \/ delivery_rank l = 1.
Proof. unfold delivery_rank. destruct (is_type _ _); auto. Qed.

Lemma last_is_latest legs final :
  sorted_by oldest_first legs -> last legs = Some final -> forall y, y ∈ legs -> jr_CreatedAt y <= jr_CreatedAt final.
Proof.
  intros Hs Hl. pose proof (find_rev_max oldest_first (fun _ => true) legs final Hs) as Hmax.
  destruct Hmax as (_ & _ & Hmax).
  { apply last_Some in Hl as [l ->]. by rewrite rev_app_distr. }
  intros y Hy. specialize (Hmax y Hy eq_refl). unfold oldest_first in Hmax. lia.
Qed.

(** The leg the summary takes its outcome from. *)
Lemma primary_decides legs final :
  sorted_by oldest_first legs -> last legs = Some final -> decided legs = true ->
  decides legs (primary_leg legs final).
Proof.
  intros Hs Hl Hd. unfold primary_leg. destruct (List.find is_primary (rev legs)) as [p|] eqn:Hf; cbn [default Datatypes.id].
  - destruct (find_rev_max oldest_first _ _ _ Hs Hf) as (Hp & Pp & Hmax). apply is_primary_outcome in Pp as Hpo.
    destruct Hpo as [Ho Hr]. split; [done|]. split; [done|]. intros y Hy Hoy.
    destruct (rank_range y) as [Hy0|Hy1]; [right|left; lia]. split; [lia|].
    specialize (Hmax y Hy). unfold oldest_first in Hmax. rewrite is_primary_outcome in Hmax. specialize (Hmax (conj Hoy Hy0)). lia.
  - assert (forall y, y ∈ legs -> is_primary y = false) as Hnone.
    { intros y Hy. eapply find_none; [exact Hf|]. rewrite <- in_rev. by apply list_elem_of_In. }
    assert (is_type "delivery" final = true) as Hdel.
    { unfold decided in Hd. rewrite Hl in Hd. apply orb_true_iff in Hd as [Hd|Hd]; [|done].
      apply existsb_exists in Hd as (y & Hy & Py). apply list_elem_of_In in Hy. by rewrite Hnone in Py. }
    destruct (delivery_outcome final Hdel) as [Ho Hr]. split; [by apply last_some|]. split; [done|].
    intros y Hy Hoy. right. destruct (rank_range y) as [Hy0|Hy1].
    + specialize (Hnone y Hy). apply not_true_iff_false in Hnone. destruct Hnone. by apply is_primary_outcome.
    + split; [lia|]. by eapply last_is_latest.
Qed.

(** A newest leg decides, unless it is a delivery of a job with other legs. *)
Lemma newest_decides legs r :
  sorted_by oldest_first legs -> r ∈ legs -> is_outcome r = true ->
  (forall y, y ∈ legs -> y = r \/ jr_CreatedAt y < jr_CreatedAt r) ->
  (is_type "delivery" r = true -> forall y, y ∈ legs -> is_primary y = false) ->
  last legs = Some r /\ primary_leg legs r = r /\ decides legs r.
Proof.
  intros Hs Hin Ho Hnew Hdel.
  assert (last legs = Some r) as Hlast.
  { destruct (last legs) as [final|] eqn:E; [|by apply last_None in E as ->; apply elem_of_nil in Hin].
    destruct (Hnew final (last_some _ _ E)) as [->|Hlt]; [done|]. pose proof (last_is_latest _ _ Hs E r Hin). lia. }
  assert (decided legs = true) as Hd.
  { unfold decided. rewrite Hlast. destruct (is_type "delivery" r) eqn:E; [by rewrite orb_true_r|].
    apply orb_true_iff. left. apply existsb_exists. exists r. split; [by apply list_elem_of_In|].
    apply is_primary_outcome. split; [done|]. unfold delivery_rank. by rewrite E. }
  pose proof (primary_decides _ _ Hs Hlast Hd) as Hp. pose proof Hp as (Pin & Po & Pmin).
  assert (primary_leg legs r = r) as Ep; [|by rewrite Ep in Hp].
  destruct (Hnew _ Pin) as [|Hlt]; [done|]. destruct (Pmin r Hin Ho) as [Hrank|[_ Hle]]; [|lia].
  exfalso. destruct (is_type "delivery" r) eqn:E; [|pose proof (rank_range (primary_leg legs r)); unfold delivery_rank at 2 in Hrank; rewrite E in Hrank; lia].
  specialize (Hdel eq_refl _ Pin). apply not_true_iff_false in Hdel. apply Hdel, is_primary_outcome. split; [done|].
  destruct (rank_range r), (rank_range (primary_leg legs r)); lia.
Qed.

(** The filter [success=b], alone. *)
Definition success_query (b : bool) : faxResultQuery :=
  {| q_TenantID := 0; q_ResultType := ""; q_Success := Some b; q_Origin := ""; q_Number := ""; q_JobUUID := None;
     q_From := None; q_To := None; q_Limit := 50; q_Offset := 0 |}.

(** The filter goes by the same leg, or one it is tied with. *)
Lemma filter_decides rows id legs p b :
  legs_of id rows legs -> decides legs p ->
  (forall y, y ∈ legs -> is_outcome y = true -> delivery_rank y = delivery_rank p -> jr_CreatedAt y = jr_CreatedAt p ->
     jr_Success y = jr_Success p) ->
  job_filter (success_query b) rows id = Bool.eqb (jr_Success p) b.
Proof.
  intros [Hperm _] (Hp & Ho & Hmin) Htie. unfold job_filter, success_query. cbn [q_ResultType q_Origin q_Success nonempty].
  change (nonempty "") with false. cbn [andb].
  assert (forall y, y ∈ legs <-> y ∈ rows /\ jr_JobUUID y = id) as Hl by (intros y; by rewrite Hperm, elem_of_job).
  destruct (latest_leg_facts rows) as [H1 H2].
  assert (forall x, x ∈ latest_legs rows -> jr_JobUUID x = id -> jr_Success x = jr_Success p) as Hx.
  { intros x Hx Hid. destruct (H1 x Hx) as (Hin & Hox & Hmx). apply Hl in Hp as [Hpr Hpid].
    specialize (Hmx p Hpr Ho ltac:(congruence)). specialize (Hmin x (proj2 (Hl x) (conj Hin Hid)) Hox).
    apply Htie; [by apply Hl|done|lia|lia]. }
  apply eq_iff_eq_true. rewrite latest_leg_spec, eqb_true_iff. split.
  - intros (x & Hx' & Hid & <-). symmetry. by apply Hx.
  - intros <-. apply Hl in Hp as [Hpr Hpid]. destruct (H2 p Hpr Ho) as (x & Hx' & Hid). exists x.
    split; [done|]. split; [congruence|]. apply Hx; [done|congruence].
Qed.

(** The success filter selects exactly the jobs shown with that success,
    for every job with a leg that decides: its last leg that is no delivery,
    intake or receipt, or, without one, its last row if that is a delivery
    ([receipt_overrides_delivery] is why this must be asked). Legs of one
    instant must agree, for SQL does not say which comes first. A job that has
    neither legs nor deliveries matches neither value, and is shown
    unsuccessful if its last row is its intake. *)
Theorem success_filter_agrees (rows : list FaxJobResult) (id : Z) (legs : list FaxJobResult) (b : bool) :
  legs_of id rows legs ->
  (forall x y, x ∈ legs -> y ∈ legs -> is_outcome x = true -> is_outcome y = true ->
     delivery_rank x = delivery_rank y -> jr_CreatedAt x = jr_CreatedAt y -> jr_Success x = jr_Success y) ->
  (decided legs = true ->
     job_filter (success_query b) rows id = Bool.eqb (g_Success (deriveGroup source_of id legs)) b) /\
  ((forall y, y ∈ legs -> is_outcome y = false) ->
     job_filter (success_query b) rows id = false /\
     (forall l, last legs = Some l -> is_type "submission" l = true -> g_Success (deriveGroup source_of id legs) = false)).
Proof.
  intros Hlegs Htie. split.
  - intros Hd. destruct legs as [|first legs]; [done|].
    destruct (deriveGroup_summary source_of id first legs) as (final & Hlast & _ & _ & _ & ->).
    pose proof (primary_decides _ _ (proj2 Hlegs) Hlast Hd) as Hp. pose proof Hp as (Hin & Ho & _).
    rewrite (outcome_not_intake _ Ho), andb_true_r. eapply filter_decides; [done..|]. intros y Hy Hoy Hr Hc. by apply Htie.
  - intros Hnone. split.
    + apply not_true_iff_false. unfold job_filter, success_query. cbn. rewrite latest_leg_spec.
      intros (x & Hx & Hid & _). destruct (latest_leg_facts rows) as [H1 _]. destruct (H1 x Hx) as (Hin & Ho & _).
      rewrite Hnone in Ho; [done|]. rewrite (proj1 Hlegs). by apply elem_of_job.
    + intros l Hl Hsub. destruct legs as [|first legs]; [done|].
      destruct (deriveGroup_summary source_of id first legs) as (final & Hlast & _ & Hp & _ & ->).
      assert (final = l) as -> by congruence. unfold primary_leg in *.
      destruct (List.find is_primary _) as [p|] eqn:Hf; cbn [default Datatypes.id] in *; [|by rewrite Hsub, andb_false_r].
      apply find_some in Hf as [_ Hf]. apply is_primary_outcome in Hf as [Hf _]. by rewrite Hnone in Hf.
Qed.

End outcome.

(** ** From a report to the listing *)

Lemma build_record_created js now legs job r : build_record js now legs job = Some r -> jr_CreatedAt r = now.
Proof.
  unfold build_record. destruct (js_source js _) as [src|]; [|done]. intros [= <-].
  assert (forall x, jr_CreatedAt (infer_bridge job x) = jr_CreatedAt x) as Hinf.
  { intros x. unfold infer_bridge. repeat (destruct (_ && _) || destruct (_ =? _)%string); done. }
  rewrite Hinf. unfold with_call_uuid, intake_state.
  destruct (fj_Result job); simpl; destruct (fj_CallUUID job =? uuid_nil); simpl; destruct (_ =? _)%string;
    destruct legs as [[|]|]; done.
Qed.

Lemma real_leg_type job : isPlaceholderResult job = false ->
  let rt := cl_resultType (classifyFaxResult job) in
  rt = "bridge"%string \/ rt = "reception"%string \/ rt = "transmission"%string \/ rt = "delivery"%string.
Proof.
  intros Hph. unfold classifyFaxResult. rewrite Hph. destruct (fj_IsBridge job); [by left|].
  destruct (fj_Endpoints job) as [|ep eps]; [by right; left|].
  destruct (ep_EndpointType ep =? "gateway")%string; [by do 2 right; left|by do 3 right].
Qed.

Lemma queued_is_intake id x : is_queued_submission id x = true -> is_type "submission" x = true.
Proof. unfold is_queued_submission, is_type. intros Hq. by apply andb_true_iff in Hq as [[_ ?]%andb_true_iff _]. Qed.

Section reported.
Context {T : Type} `{!Table T FaxJobResult, !TableLaws T FaxJobResult}.
Variable js : Json.
Variable source_of : string -> option string.

(** The outcome a worker reports is the outcome shown, and what the
    success filter goes by, once its row is stored as the newest of its job: for
    the leg of a call always, for a delivery when the job has no other legs to
    decide. *)
Theorem reported_outcome_shown (now : Z) (job : FaxJob) (res : FaxResult) (t : T) (legs : list FaxJobResult) (b : bool) :
  tbl_healthy t -> fj_Result job = Some res -> isPlaceholderResult job = false ->
  is_Some (js_source js (fj_SourceInfo job)) ->
  (forall r, r ∈ tbl_rows t -> jr_JobUUID r = fj_UUID job -> jr_CreatedAt r < now) ->
  (cl_resultType (classifyFaxResult job) = "delivery"%string ->
     forall r, r ∈ tbl_rows t -> jr_JobUUID r = fj_UUID job -> is_primary r = false) ->
  let rows := tbl_rows (storeQueueFaxResult js now job t).2 in
  let outcome := fr_Success res || (fj_IsBridge job && (fr_HangupCause res =? "NORMAL_CLEARING")%string) in
  legs_of (fj_UUID job) rows legs ->
  g_Success (deriveGroup source_of (fj_UUID job) legs) = outcome /\ g_LastTs (deriveGroup source_of (fj_UUID job) legs) = now /\
  job_filter (success_query b) rows (fj_UUID job) = Bool.eqb outcome b.
Proof.
  intros Hh Hres Hph [src Hsrc] Hold Hdel rows outcome Hlegs.
  destruct (build_record js now None job) as [r0|] eqn:Hb; [|unfold build_record in Hb; by rewrite Hsrc in Hb].
  pose proof (real_leg_type job Hph) as Hty.
  destruct (store_real_leg js now job r0 t Hh) as (r & Hsame & _ & Hrows & _).
  { by destruct Hty as [->|[->|[->| ->]]]. }
  { done. }
  destruct (build_record_facts js now None job r0 Hb) as (Hid & Hrt & _ & _ & _ & Hr).
  destruct (Hr res Hres) as (_ & Hs & _). clear Hr. pose proof (build_record_created js now None job r0 Hb) as Hc.
  assert (jr_JobUUID r = fj_UUID job /\ jr_ResultType r = cl_resultType (classifyFaxResult job) /\
    jr_Success r = outcome /\ jr_CreatedAt r = now) as (Rid & Rrt & Rs & Rc) by (by rewrite Hsame).
  clear Hsame Hid Hrt Hs Hc Hb r0.
  assert (is_outcome r = true) as Ho.
  { unfold is_outcome, is_type. rewrite Rrt. by destruct Hty as [->|[->|[->| ->]]]. }
  assert (is_queued_submission (fj_UUID job) r = false) as Hnq.
  { apply not_true_iff_false. intros Hq%queued_is_intake. by rewrite (outcome_not_intake _ Ho) in Hq. }
  assert (forall y, y ∈ legs <-> y = r \/ exists x, x ∈ tbl_rows t /\ jr_JobUUID x = fj_UUID job /\
    y = if is_queued_submission (fj_UUID job) x then processed now x else x) as Hl.
  { intros y. rewrite (proj1 Hlegs), elem_of_job. unfold rows. rewrite Hrows, map_app, elem_of_app. cbn [map].
    rewrite Hnq, list_elem_of_singleton, list_elem_of_fmap. split.
    - intros [[(x & -> & Hx)| ->] E]; [right; exists x; split; [done|]; split; [|done]|by left].
      by destruct (is_queued_submission (fj_UUID job) x).
    - intros [->|(x & Hx & E & ->)]; [by split; [right|]|]. split; [left; by exists x|].
      by destruct (is_queued_submission (fj_UUID job) x). }
  assert (forall y, y ∈ legs -> y = r \/ jr_CreatedAt y < jr_CreatedAt r) as Hnew.
  { intros y [->|(x & Hx & E & ->)]%Hl; [by left|right]. rewrite Rc. specialize (Hold x Hx E).
    by destruct (is_queued_submission (fj_UUID job) x). }
  destruct (newest_decides legs r (proj2 Hlegs)) as (Hlast & Ep & Hp); [by apply Hl; left|done..| |].
  { intros Hd y [->|(x & Hx & E & ->)]%Hl; [by unfold is_primary; rewrite Hd|].
    destruct (is_queued_submission (fj_UUID job) x) eqn:Eq.
    - apply queued_is_intake in Eq. unfold is_primary, is_type, processed in *. simpl. by rewrite Eq, andb_false_r.
    - apply Hdel; [|done|done]. rewrite <- Rrt. by apply String.eqb_eq. }
  destruct legs as [|first legs]; [done|].
  destruct (deriveGroup_summary source_of (fj_UUID job) first legs) as (final & Hlast' & _ & _ & Hhead & Hsucc).
  assert (final = r) as -> by congruence. cbn zeta in Hhead.
  split; [by rewrite Hsucc, Ep, (outcome_not_intake _ Ho), andb_true_r|].
  split; [rewrite <- Rc; exact (f_equal (fun h => h.1.1.2) Hhead)|].
  rewrite <- Rs. eapply filter_decides; [done..|]. intros y Hy _ _ Hc. destruct (Hnew y Hy) as [->|Hlt]; [done|lia].
Qed.

End reported.
End facts.

(** ** The bounds of a query *)

(** A date as both bounds spans exactly the instants of that day. *)
Theorem date_bounds_span_day (v : string) (t0 t1 x : Z) :
  parse_rfc3339 v = None -> parseTimeBound v false = inr t0 -> parseTimeBound v true = inr t1 ->
  t0 <= x <= t1 <-> x / day = t0 / day.
Proof.
  unfold parseTimeBound. intros ->. destruct (parse_date v) as [t|] eqn:E; [|done]. intros [= <-] [= <-].
  destruct (parse_date_spec v t E) as (_ & y & m & d & _ & _ & ->).
  rewrite Z.div_mul by done. unfold day, hour, minute, second, millisecond, microsecond.
  Z.div_mod_to_equations. lia.
Qed.

Lemma parsed_bind_inv {A B} (m : QueryError + A) (k : A -> QueryError + B) b :
  (m ≫= k) = inr b -> exists a, m = inr a /\ k a = inr b.
Proof. destruct m as [e|a]; simpl; [done|]. eauto. Qed.

Lemma optional_inv {A} v (k : string -> QueryError + A) o :
  optional v k = inr o -> o = None \/ exists a, k v = inr a /\ o = Some a.
Proof.
  unfold optional. destruct (v =? "")%string; [intros [= <-]; by left|].
  intros (a & Ha & [= <-])%parsed_bind_inv. eauto.
Qed.

(** A parsed query asks for one to five hundred jobs, from no negative offset,
    of a known leg type and origin. *)
Theorem parsed_query_ranges (uuid_Parse : string -> option Z) (v : Values) (q : faxResultQuery) :
  parseFaxResultQuery uuid_Parse v = inr q ->
  1 <= q_Limit q <= 500 /\ 0 <= q_Offset q /\ 0 <= q_TenantID q /\
  (q_ResultType q = "" \/ str_mem (q_ResultType q) faxResultTypes = true)%string /\
  (q_Origin q = "" \/ q_Origin q = "portal" \/ q_Origin q = "non-portal")%string.
Proof.
  unfold parseFaxResultQuery. cbn zeta.
  intros (rt & Hrt & (sc & _ & (o & Ho & (id & _ & (from & _ & (to & _ & Hq)%parsed_bind_inv)
    %parsed_bind_inv)%parsed_bind_inv)%parsed_bind_inv)%parsed_bind_inv)%parsed_bind_inv.
  injection Hq as <-. cbn [q_Limit q_Offset q_TenantID q_ResultType q_Origin].
  split; [unfold parse_limit|].
  { destruct (Z.leb_spec (intDefault (values_Get v "limit") 50) 0); [by vm_compute|].
    destruct (Z.ltb_spec 500 (intDefault (values_Get v "limit") 50)); lia. }
  split; [destruct (Z.ltb_spec (intDefault (values_Get v "offset") 0) 0); lia|].
  split; [destruct (Z.ltb_spec 0 (intDefault (values_Get v "tenant_id") 0)); lia|]. split.
  - apply optional_inv in Hrt as [->|(x & Hx & ->)]; [by left|right].
    destruct (str_mem _ faxResultTypes) eqn:E in Hx; [|done]. by injection Hx as <-.
  - apply optional_inv in Ho as [->|(x & Hx & ->)]; [by left|right].
    destruct (negb _ && negb _) eqn:E in Hx; [done|]. injection Hx as <-. simpl.
    apply andb_false_iff in E as [E|E]; apply negb_false_iff, String.eqb_eq in E; auto.
Qed.

(** The origin filter and the mark shown are the same thing, where the text of
    an intake row says what it parses to. *)
Theorem origin_filter_agrees `{!SqlOrder} (source_of : string -> option string) rows id first legs :
  legs_of id rows (first :: legs) ->
  (forall l, l ∈ first :: legs -> sql_like portal_mark (jr_SourceInfo l) = bool_decide (source_of (jr_SourceInfo l) = Some "portal"%string)) ->
  in_jobs portal_intake rows id = g_Portal (deriveGroup source_of id (first :: legs)).
Proof.
  intros [Hperm _] Htext. destruct (deriveGroup_summary source_of id first legs) as (final & _ & Hsum & _).
  destruct Hsum as [_ _ _ _ _ Hp]. apply eq_iff_eq_true. rewrite Hp, in_jobs_spec.
  assert (forall l, l ∈ first :: legs -> portal_intake l = true <-> from_portal source_of l) as Hl.
  { intros l Hl. unfold portal_intake, from_portal. by rewrite (Htext l Hl), andb_true_iff, bool_decide_eq_true. }
  split; intros (r & Hr); exists r.
  - destruct Hr as (Hin & Hi & Hid). assert (r ∈ first :: legs) as Hr by (rewrite Hperm; by apply elem_of_job).
    split; [done|]. by apply Hl.
  - destruct Hr as [Hr Hf]. pose proof Hr as Hr'. rewrite Hperm in Hr'. apply elem_of_job in Hr' as [??].
    split; [done|]. split; [by apply Hl|done].
Qed.

(** ** A receipt decides *)

(** On a concrete table. *)
Fixpoint ascending (l : list FaxJobResult) : bool :=
  match l with r :: l' => forallb (fun x => negb (oldest_first x r)) l' && ascending l' | [] => true end.

Lemma legs_of_dec id rows legs : List.filter (of_job id) rows = legs -> ascending legs = true -> legs_of id rows legs.
Proof.
  intros Hf Ha. split; [by rewrite Hf|]. clear Hf. induction legs as [|r l IH]; cbn in Ha; [constructor|].
  apply andb_true_iff in Ha as [Hr Ha]. constructor; [by apply IH|]. apply Forall_forall. intros x Hx.
  rewrite forallb_forall in Hr. apply list_elem_of_In in Hx. by apply negb_true_iff, Hr.
Qed.

Definition example_row (at_ : Z) (rt : string) (attempt : Z) (ok : bool) : FaxJobResult :=
  zero_record <| jr_ID := at_ |> <| jr_JobUUID := 7 |> <| jr_ResultType := rt |> <| jr_AttemptNumber := attempt |>
    <| jr_Success := ok |> <| jr_CreatedAt := at_ |>.

(** A document posted to the web API whose delivery to the tenant's webhook
    failed twice, and whose failure was reported by mail. *)
Definition undelivered : list FaxJobResult :=
  [example_row 1 "submission" 0 true; example_row 2 "delivery" 1 false; example_row 3 "delivery" 2 false;
   example_row 4 "notify" 0 true].

(** It is shown as a success, though the success filter counts it a failure and
    a delivered receipt is meant never to turn a failed fax into a sent one. *)
Theorem receipt_overrides_delivery :
  legs_of 7 undelivered undelivered /\
  g_Success (deriveGroup (fun _ => None) 7 undelivered) = true /\
  job_filter (success_query false) undelivered 7 = true /\ job_filter (success_query true) undelivered 7 = false.
Proof.
  split.
  - apply legs_of_dec; vm_compute; reflexivity.
  - split_and!; vm_compute; reflexivity.
Qed.

(** ** Witnesses *)

(** Another job, received and delivered. *)
Definition received_legs : list FaxJobResult :=
  [(example_row 5 "reception" 0 true) <| jr_ID := 5 |> <| jr_JobUUID := 8 |> <| jr_CalleeNumber := "16045550100" |>;
   (example_row 6 "delivery" 1 false) <| jr_ID := 6 |> <| jr_JobUUID := 8 |>].

Definition result_table : ListTable FaxJobResult := fresh_table (undelivered ++ received_legs) 7 [].

Definition number_query : faxResultQuery := (success_query true) <| q_Number := "5550" |>.

Lemma fax_search_exact_witness :
  exists (jobs : list (Z * Z)) items, (list_results (fun _ => None) number_query result_table).1 = Listed (Z.of_nat (length jobs)) items /\
    map g_JobUUID items = page 50 0 jobs.*1 /\
    (list_results (fun _ => None) number_query result_table).1 = Listed 1 [deriveGroup (fun _ => None) 8 received_legs].
Proof.
  destruct (fax_search_exact (fun _ => None) number_query result_table) as (jobs & items & H1 & _ & _ & _ & _ & _ & _ & H2 & _).
  - reflexivity.
  - exists jobs, items. split; [exact H1|]. split; [exact H2|]. vm_compute. reflexivity.
Defined.

Lemma success_filter_agrees_witness :
  job_filter (success_query true) (undelivered ++ received_legs) 8 = true /\
  g_Success (deriveGroup (fun _ => None) 8 received_legs) = true.
Proof.
  destruct (success_filter_agrees (fun _ => None) (undelivered ++ received_legs) 8 received_legs true) as [H _].
  - apply legs_of_dec; vm_compute; reflexivity.
  - intros x y Hx Hy _ _ Hr Hc. unfold received_legs in Hx, Hy.
    rewrite !elem_of_cons, elem_of_nil in Hx, Hy. destruct Hx as [->|[->|[]]], Hy as [->|[->|[]]]; done.
  - split; [|reflexivity]. rewrite H by reflexivity. reflexivity.
Defined.

Lemma reported_outcome_shown_witness :
  let rows := tbl_rows (storeQueueFaxResult example_json 9 example_leg intake_table).2 in
  g_Success (deriveGroup (fun _ => None) 7 rows) = true /\ job_filter (success_query true) rows 7 = true.
Proof.
  destruct (reported_outcome_shown example_json (fun _ => None) 9 example_leg
    (empty_result <| fr_HangupCause := "NORMAL_CLEARING" |> <| fr_Success := true |>) intake_table
    (tbl_rows (storeQueueFaxResult example_json 9 example_leg intake_table).2) true) as (H1 & _ & H2).
  - reflexivity.
  - reflexivity.
  - reflexivity.
  - eexists. reflexivity.
  - intros r Hr _. apply list_elem_of_In in Hr. vm_compute in Hr. destruct Hr as [<-|[]]. reflexivity.
  - intros Hd. vm_compute in Hd. discriminate Hd.
  - apply legs_of_dec; vm_compute; reflexivity.
  - split; [exact H1|exact H2].
Defined.
