(* ===== verification/Queue.v ===== *)
(** * Queue: delivering a job ([gofaxserver/queue.go])

    [processFax] groups a job's endpoints by type and priority and runs one
    worker per type; a worker walks the priorities in order and tries each
    group with retries. A worker is a program in the small monad [M]: it reads
    outcomes of the outside world (calls placed by FreeSWITCH, HTTP requests,
    fresh ids, random jitter, clock readings) from an oracle, one per attempt,
    writes what it does to a trace, and may panic. Logging is left out. *)

From S2P Require Import Prelude Config FaxResult FaxJob Policy Regexp Dialplan Directory Router Tracker.

(** ** The worker monad *)

(** The body of a delivery: the job, the file, and the outcome of the call that
    came before the queue. *)
Record FaxJobWithFile := {
  pl_FaxJob : FaxJob;
  pl_FileData : string;
  pl_CallSuccess : bool; pl_CallPartial : bool; pl_CallTotalPages : Z;
  pl_CallHangupCause : string; pl_CallResultText : string;
}.

Inductive qevent :=
| EvSetCall (call : Z)                                  (* tracker: a new call id *)
| EvMarkAttempt (call attempt prio : Z) (ep : string * string * string)
| EvDial (prio : Z) (ff : FaxJob)                       (* SendFax *)
| EvPost (prio : Z) (url : string) (call : Z) (body : FaxJobWithFile)   (* HTTP request, X-Call-UUID *)
| EvResult (prio : Z) (ff : FaxJob)                     (* sendResult *)
| EvWait (sleep : Z).                                   (* tracker: waiting; sleep *)

(** The attempt counter is threaded; [None] is a panic. *)
Definition M (A : Type) : Type := nat -> option (A * nat * list qevent).

#[export] Instance m_ret : MRet M := fun A a n => Some (a, n, []).
#[export] Instance m_bind : MBind M := fun A B f m n =>
  match m n with
  | None => None
  | Some (a, n1, t1) =>
      match f a n1 with
      | None => None
      | Some (b, n2, t2) => Some (b, n2, t1 ++ t2)
      end
  end.

Definition tell (e : qevent) : M unit := fun n => Some (tt, n, [e]).
Definition next : M nat := fun n => Some (n, S n, []).
Definition panic {A} : M A := fun _ => None.

(** ** The outside world *)

Inductive http_outcome :=
| HttpRequestError         (* the request could not be built *)
| HttpSendError            (* client.Do failed *)
| HttpStatus (code : Z).

Record Oracle := {
  or_uuid : nat -> Z;                                  (* uuid.New *)
  or_clock : nat -> Z * Z;                             (* start and end of an attempt *)
  or_call : nat -> FaxJob -> FaxJob * option bool;     (* SendFax: job, and error with retry flag *)
  or_http : nat -> string -> http_outcome;
  or_marshal : nat -> bool;                            (* json.Marshal succeeded *)
  or_rand : nat -> Z -> Z;                             (* rand.Int63n, in [0, n) *)
  or_payload : option string;                          (* the PDF in base64, if converted and read *)
}.

(** ** Groups and priorities *)

Definition isGlobalUpstreamGatewayGroup (group : list Endpoint) : bool :=
  match group with
  | [] => false
  | _ :: _ => forallb (fun ep => equal_fold (ep_Type ep) "global" && (ep_TypeID ep =? 0) &&
                                 equal_fold (ep_EndpointType ep) "gateway") group
  end.

(** [groupMap]: type, then priority, then endpoints in order. *)
Definition groupMap : Type := gmap string (gmap Z (list Endpoint)).

Definition add_to_group (m : groupMap) (ep : Endpoint) : groupMap :=
  let prioMap := default ∅ (m !! ep_EndpointType ep) in
  <[ep_EndpointType ep := append_endpoint (ep_Priority ep) ep prioMap]> m.

Definition build_groups (eps : list Endpoint) : groupMap := foldl add_to_group ∅ eps.

Definition prio_less (a b : Z) : bool :=
  if (a =? 999) && negb (b =? 999) then false
  else if (b =? 999) && negb (a =? 999) then true
  else a <? b.

Definition sorted_prios (typeMap : gmap Z (list Endpoint)) : list Z :=
  stable_sort prio_less (map fst (map_to_list typeMap)).

(** ** Retrying *)

Definition max_delay : Z := 60 * second.

Definition retry_attempts (cfg : FaxingConfig) : Z :=
  if (fc_RetryAttempts cfg =? "")%string then 3
  else match atoi (fc_RetryAttempts cfg) with
       | Some n => if 0 <? n then n else 3
       | None => 3
       end.

Definition base_delay (cfg : FaxingConfig) : Z :=
  match ParseDuration (fc_RetryDelay cfg) with
  | Ok d => if 0 <? d then d else minute
  | Err _ => minute
  end.

(** What a worker reads of the server: configuration, dialplan, directory, and
    the map enumerations its bridge checks happen to see. *)
Record QueueContext := {
  qc_cfg : Config;
  qc_dialplan : DialplanManager;
  qc_dir : Directory;
  qc_order : Z -> list (string * Endpoint);
}.

Section worker.
Variable o : Oracle.

(** [retryWithBackoff], with [left] attempts to go: the job as the attempts
    left it, and success. [rand.Int63n] panics on a bound that is not
    positive. *)
Fixpoint retry_loop (fn : Z -> FaxJob -> M (FaxJob * bool * bool))
  (left : nat) (attempt delay : Z) (ff : FaxJob) : M (FaxJob * bool) :=
  match left with
  | O => mret (ff, false)
  | S left' =>
      '(ff1, ok, retriable) ← fn attempt ff;
      if (ok : bool) then mret (ff1, true)
      else if negb retriable || Nat.eqb left' 0 then mret (ff1, false)
      else
        let bound := Z.quot delay 5 in
        if bound <=? 0 then panic
        else
          n ← next;
          let jit := wrap64 (or_rand o n bound - Z.quot delay 10) in
          let sleep := Z.min (wrap64 (delay + jit)) max_delay in
          _ ← tell (EvWait sleep);
          let delay2 := wrap64 (delay * 2) in
          retry_loop fn left' (attempt + 1) (Z.min delay2 max_delay) ff1
  end.

Definition retryWithBackoff (maxAttempts base : Z) (fn : Z -> FaxJob -> M (FaxJob * bool * bool))
  (ff : FaxJob) : M (FaxJob * bool) :=
  retry_loop fn (Z.to_nat maxAttempts) 1 base ff.

(** [stampAndSend]. *)
Definition stamp (start stop : Z) (success : bool) (humanStatus : string) (ff : FaxJob) : FaxJob :=
  let res := default empty_result (fj_Result ff) in
  let res' := res <| fr_UUID := fj_CallUUID ff |> <| fr_Success := success |>
                  <| fr_StartTs := start |> <| fr_EndTs := stop |> in
  let ff1 := ff <| fj_Result := Some res' |> in
  if negb success then
    if (fr_HangupCause res' =? "")%string && negb (humanStatus =? "")%string
    then ff1 <| fj_Status := humanStatus |> else ff1
  else if negb (humanStatus =? "")%string then ff1 <| fj_Status := humanStatus |> else ff1.

Definition stampAndSend (prio : Z) (n : nat) (success : bool) (humanStatus : string) (ff : FaxJob)
  : M FaxJob :=
  let ff' := stamp (or_clock o n).1 (or_clock o n).2 success humanStatus ff in
  _ ← tell (EvResult prio ff'); mret ff'.

(** The result of a job says success. *)
Definition job_success (ff : FaxJob) : bool :=
  match fj_Result ff with Some r => fr_Success r | None => false end.

(** A non-retriable error without a hangup cause takes over the status. *)
Definition status_as_cause (retri : bool) (ff : FaxJob) : FaxJob :=
  match fj_Result ff with
  | Some r => if negb retri && (fr_HangupCause r =? "")%string
              then ff <| fj_Result := Some (r <| fr_HangupCause := fj_Status ff |>) |> else ff
  | None => ff
  end.

(** [sendOnce] and [sendOne]: one call through FreeSWITCH. *)
Definition send_call (cfg : FaxPolicyConfig) (prio : Z) (brief : string * string * string)
  (attempt : Z) (ff : FaxJob) : M (FaxJob * bool * bool) :=
  n ← next;
  let ff1 := (escalateRetryChain cfg ff attempt) <| fj_Result := Some empty_result |>
               <| fj_CallUUID := or_uuid o n |> in
  _ ← tell (EvSetCall (fj_CallUUID ff1));
  _ ← tell (EvMarkAttempt (fj_CallUUID ff1) attempt prio brief);
  _ ← tell (EvDial prio ff1);
  let '(ff2, err) := or_call o n ff1 in
  match err with
  | Some retri =>
      ff3 ← stampAndSend prio n false "send error" (status_as_cause retri ff2);
      mret (ff3, false, retri)
  | None =>
      if job_success ff2
      then ff3 ← stampAndSend prio n true "" ff2; mret (ff3, true, false)
      else ff3 ← stampAndSend prio n false "gateway failure" ff2; mret (ff3, false, true)
  end.

Definition isRetriableStatus (code : Z) : bool :=
  if (code =? 408) || (code =? 429) then true else (500 <=? code) && (code <=? 599).

(** [fmt.Sprintf("status %d", code)] of a three-digit status code. *)
Definition status_text (code : Z) : string := "status " +:+ dec_string code.

(** [sendWebhookOnce]: one HTTP delivery. The body is marshalled before the
    attempt re-stamps the job. *)
Definition send_http (epType : string) (prio : Z) (url : string) (brief : string * string * string)
  (payload : string -> FaxJob -> FaxJobWithFile) (attempt : Z) (ff : FaxJob) : M (FaxJob * bool * bool) :=
  n ← next;
  let fileB64 := default "" (or_payload o) in
  if (fileB64 =? "")%string then
    ff1 ← stampAndSend prio n false (epType +:+ " payload not prepared") ff; mret (ff1, false, false)
  else if negb (or_marshal o n) then
    ff1 ← stampAndSend prio n false "marshal error" ff; mret (ff1, false, false)
  else
    let body := payload fileB64 ff in
    let ff1 := ff <| fj_Result := Some empty_result |> <| fj_CallUUID := or_uuid o n |> in
    _ ← tell (EvSetCall (fj_CallUUID ff1));
    _ ← tell (EvMarkAttempt (fj_CallUUID ff1) attempt prio brief);
    match or_http o n url with
    | HttpRequestError =>
        ff2 ← stampAndSend prio n false "request creation error" ff1; mret (ff2, false, false)
    | HttpSendError =>
        _ ← tell (EvPost prio url (fj_CallUUID ff1) body);
        ff2 ← stampAndSend prio n false (epType +:+ " request error") ff1; mret (ff2, false, true)
    | HttpStatus code =>
        _ ← tell (EvPost prio url (fj_CallUUID ff1) body);
        if (200 <=? code) && (code <? 300)
        then ff2 ← stampAndSend prio n true (status_text code) ff1; mret (ff2, true, false)
        else ff2 ← stampAndSend prio n false (status_text code) ff1;
             mret (ff2, false, isRetriableStatus code)
    end.

(** The loop over a group's endpoints: stop at the first that succeeds. *)
Fixpoint first_success (try_one : Endpoint -> M bool) (group : list Endpoint) : M bool :=
  match group with
  | [] => mret false
  | ep :: group' => ok ← try_one ep; if (ok : bool) then mret true else first_success try_one group'
  end.

(** ** One priority group *)

Variable qc : QueueContext.
Variable f : FaxJob.

Definition q_maxAttempts : Z := retry_attempts (c_Faxing (qc_cfg qc)).
Definition q_baseDelay : Z := base_delay (c_Faxing (qc_cfg qc)).
Definition q_policy : FaxPolicyConfig := fc_Policy (c_Faxing (qc_cfg qc)).

Definition enable_bridge (prio : Z) : bool :=
  let srcNum := ApplyTransformationRules (qc_dialplan qc) (fj_CallerIdNumber f) in
  let dstNum := ApplyTransformationRules (qc_dialplan qc) (fj_CalleeNumber f) in
  match detectAndRouteToBridge (qc_dir qc) (qc_order qc prio) dstNum srcNum
          (si_Source (fj_SourceInfo f)) with
  | Some _ => true
  | None => false
  end.

(** Strategy A: one aggregated attempt over all upstreams, once if bridging. *)
Definition global_batch (prio : Z) : M bool :=
  let ff := f <| fj_Result := Some empty_result |> in
  let brief := ("gateway", "global", str_join "," (d_UpstreamFsGateways (qc_dir qc))) in
  if enable_bridge prio then
    '(_, ok, _) ← send_call q_policy prio brief (-1) ff; mret ok
  else
    '(_, ok) ← retryWithBackoff q_maxAttempts q_baseDelay (send_call q_policy prio brief) ff; mret ok.

(** Strategy B: endpoint by endpoint. *)
Definition single_gateway (prio : Z) (ep : Endpoint) : M bool :=
  let ff := f <| fj_Endpoints := [ep] |> <| fj_Result := Some empty_result |>
              <| fj_Gateway := gatewayLabel ep |> in
  '(_, ok) ← retryWithBackoff q_maxAttempts q_baseDelay (send_call q_policy prio (endpointBrief ep)) ff;
  mret ok.

Definition gateway_group (prio : Z) (group : list Endpoint) : M bool :=
  if isGlobalUpstreamGatewayGroup group then global_batch prio
  else first_success (single_gateway prio) group.

(** [strings.TrimRight(url, "/")]. *)
Fixpoint trim_slashes (s : string) : string :=
  match s with
  | EmptyString => EmptyString
  | String c s' =>
      match trim_slashes s' with
      | EmptyString => if Ascii.eqb c "/" then EmptyString else String c EmptyString
      | t => String c t
      end
  end.

Definition portal_base : string := trim_slashes (c_PortalURL (qc_cfg qc)).

Definition resolve_url (epType : string) (ep : Endpoint) : string :=
  if (epType =? "portal")%string then portal_base +:+ "/portal/api/inbound/" +:+ ep_Endpoint ep
  else ep_Endpoint ep.

(** The job a delivery carries: the reception's page count survives. *)
Definition delivery_job (ep : Endpoint) : FaxJob :=
  let ff := f <| fj_Endpoints := [ep] |> <| fj_Result := Some empty_result |> in
  match fj_Result f with
  | Some r => if isPlaceholderResult f then ff
              else ff <| fj_NPages := int_of_uint (fr_TransferredPages r) |>
  | None => ff
  end.

(** The call metadata is fixed when the delivery starts. *)
Definition delivery_payload (fileData : string) (ff : FaxJob) : FaxJobWithFile :=
  match fj_Result f with
  | Some r =>
      if isPlaceholderResult f then
        {| pl_FaxJob := ff; pl_FileData := fileData; pl_CallSuccess := false; pl_CallPartial := false;
           pl_CallTotalPages := 0; pl_CallHangupCause := ""; pl_CallResultText := "" |}
      else
        {| pl_FaxJob := ff; pl_FileData := fileData; pl_CallSuccess := fr_Success r;
           pl_CallPartial := negb (fr_Success r) && (0 <? fr_TransferredPages r);
           pl_CallTotalPages := fr_TotalPages r; pl_CallHangupCause := fr_HangupCause r;
           pl_CallResultText := fr_ResultText r |}
  | None =>
      {| pl_FaxJob := ff; pl_FileData := fileData; pl_CallSuccess := false; pl_CallPartial := false;
         pl_CallTotalPages := 0; pl_CallHangupCause := ""; pl_CallResultText := "" |}
  end.

Definition single_http (epType : string) (prio : Z) (ep : Endpoint) : M bool :=
  '(_, ok) ← retryWithBackoff q_maxAttempts q_baseDelay
    (send_http epType prio (resolve_url epType ep) (endpointBrief ep) delivery_payload) (delivery_job ep);
  mret ok.

(** What follows a group: the next priority, or the end of the worker. *)
Inductive flow := NextPriority | BreakPrioLoop.

Definition process_group (epType : string) (prio : Z) (group : list Endpoint) : M flow :=
  if (epType =? "gateway")%string then
    ok ← gateway_group prio group;
    if (ok : bool)
    then mret NextPriority      (* [break]: leaves the switch *)
    else mret NextPriority      (* [continue] *)
  else if (epType =? "webhook")%string || (epType =? "portal")%string then
    if (epType =? "portal")%string && (portal_base =? "")%string then mret NextPriority
    else
      ok ← first_success (single_http epType prio) group;
      if (ok : bool) then mret BreakPrioLoop else mret NextPriority
  else mret NextPriority.

Fixpoint prio_loop (epType : string) (typeMap : gmap Z (list Endpoint)) (prios : list Z) : M unit :=
  match prios with
  | [] => mret tt
  | prio :: prios' =>
      match map_list typeMap prio with
      | [] => prio_loop epType typeMap prios'
      | group =>
          fl ← process_group epType prio group;
          match (fl : flow) with
          | BreakPrioLoop => mret tt
          | NextPriority => prio_loop epType typeMap prios'
          end
      end
  end.

(** The goroutine of one endpoint type. *)
Definition type_worker (epType : string) (typeMap : gmap Z (list Endpoint)) : M unit :=
  prio_loop epType typeMap (sorted_prios typeMap).

End worker.

(** ** The whole job *)

(** [f.NotifyOnly]: the bridge outcome inference, and no endpoints. *)
Definition prepare_job (f : FaxJob) : FaxJob :=
  if fj_NotifyOnly f then
    let f1 :=
      match fj_Result f with
      | Some r =>
          if fj_IsBridge f && negb (fr_Success r) && (fr_HangupCause r =? "NORMAL_CLEARING")%string
          then f <| fj_Result := Some (r <| fr_Success := true |>
                 <| fr_ResultText := if (fr_ResultText r =? "")%string then "Bridge completed"
                                     else fr_ResultText r |>) |>
          else f
      | None => f
      end in
    f1 <| fj_Endpoints := [] |>
  else f.

Definition label_endpoint (label : string) : Endpoint :=
  {| ep_ID := 0; ep_Type := ""; ep_TypeID := 0; ep_EndpointType := label; ep_Endpoint := "";
     ep_Priority := 0; ep_Bridge := false |}.

(** [snapshotCallOutcome]. *)
Definition call_outcome (f : FaxJob) : option FaxJob :=
  match fj_Result f with
  | None => None
  | Some _ =>
      if isPlaceholderResult f then None
      else
        let copy := if fj_CallUUID f =? uuid_nil then f <| fj_CallUUID := fj_UUID f |> else f in
        Some (copy <| fj_Endpoints :=
          [label_endpoint (if fj_IsBridge f then "bridge" else "reception")] |>)
  end.

Definition record_result (m : gmap Z FaxJob) (e : qevent) : gmap Z FaxJob :=
  match e with EvResult _ ff => <[fj_CallUUID ff := ff]> m | _ => m end.

(** The notify results: the call outcome first, then the attempts in the order
    they were reported. *)
Definition notify_results (f : FaxJob) (trace : list qevent) : gmap Z FaxJob :=
  foldl record_result
    (match call_outcome f with Some c => <[fj_CallUUID c := c]> ∅ | None => ∅ end) trace.

Definition is_reception (f : FaxJob) : bool :=
  match fj_Result f with
  | Some _ => negb (fj_IsBridge f) && (si_SourceType (fj_SourceInfo f) =? "gateway")%string &&
              negb (isPlaceholderResult f)
  | None => false
  end.

Definition computeAllAttemptsFailed (f : FaxJob) (results : gmap Z FaxJob) : bool :=
  if is_reception f then negb (job_success f)
  else forallb (fun e => negb (job_success e.2)) (map_to_list results).

(** Zero-page failed receptions notify nobody. *)
Definition dispatches_notify (f : FaxJob) : bool :=
  match fj_Result f with
  | Some r => negb (fj_NotifyOnly f && negb (fj_IsBridge f) && negb (fr_Success r) &&
                    (fr_TransferredPages r =? 0))
  | None => true
  end.

(** Workers run concurrently: the job's trace is some merge of theirs. *)
Inductive merged_traces : list (list qevent) -> list qevent -> Prop :=
| merged_done ts : Forall (fun t => t = []) ts -> merged_traces ts []
| merged_step ts1 e t ts2 out :
    merged_traces (ts1 ++ t :: ts2) out -> merged_traces (ts1 ++ (e :: t) :: ts2) (e :: out).

(** A run of [processFax] that no worker panics in, with one oracle per type:
    the trace and the job the tail of the function sees. *)
Definition process_run (os : string -> Oracle) (qc : QueueContext) (f : FaxJob) (trace : list qevent) : Prop :=
  let f' := prepare_job f in
  exists ts, Forall2 (fun e t => exists n, type_worker (os e.1) qc f' e.1 e.2 O = Some (tt, n, t))
                     (map_to_list (build_groups (fj_Endpoints f'))) ts /\
    merged_traces ts trace.

(** What the run does to the tracker. *)
Definition tracker_op_of (job : Z) (maxAttempts : Z) (e : qevent) : list tracker_op :=
  match e with
  | EvSetCall c => [OpSetCall 0 job c]
  | EvMarkAttempt c a p (ty, l, v) => [OpMarkAttempt 0 job c a maxAttempts p ty l v]
  | EvWait _ => [OpMarkWaiting 0 job]
  | _ => []
  end.

Definition tracker_ops_of (qc : QueueContext) (f : FaxJob) (trace : list qevent) : list tracker_op :=
  OpBegin 0 f :: flat_map (tracker_op_of (fj_UUID f) (q_maxAttempts qc)) trace ++ [OpComplete (fj_UUID f)].

(** ** Reasoning about workers

    [spec pan m P]: whatever the counter, [m] returns with a value and a trace
    that satisfy [P], or panics, which [pan] must then allow. With
    [pan := True] this is partial correctness, with [pan := False] total. *)

Definition spec (pan : Prop) {A} (m : M A) (P : A -> list qevent -> Prop) : Prop :=
  forall n, match m n with Some (a, _, t) => P a t | None => pan end.

Section spec_rules.
Context {pan : Prop}.

Lemma spec_ret {A} (a : A) P : P a [] -> spec pan (mret a) P.
Proof. by intros H n. Qed.

Lemma spec_bind {A B} (m : M A) (f : A -> M B) P Q :
  spec pan m P -> (forall a t, P a t -> spec pan (f a) (fun b t' => Q b (t ++ t'))) ->
  spec pan (m ≫= f) Q.
Proof.
  intros Hm Hf n. unfold mbind, m_bind. specialize (Hm n).
  destruct (m n) as [[[a n1] t1]|]; [|done]. specialize (Hf a t1 Hm n1).
  by destruct (f a n1) as [[[b n2] t2]|].
Qed.

Lemma spec_tell {B} e (m : M B) Q :
  spec pan m (fun b t => Q b (e :: t)) -> spec pan (tell e ≫= fun _ => m) Q.
Proof. intros Hm. eapply (spec_bind _ _ (fun _ t => t = [e])); [by intros n|]. by intros [] ? ->. Qed.

Lemma spec_next {B} (m : nat -> M B) Q : (forall k, spec pan (m k) Q) -> spec pan (next ≫= m) Q.
Proof. intros Hm. eapply (spec_bind _ _ (fun _ t => t = [])); [by intros n|]. intros k ? ->. apply Hm. Qed.

Lemma spec_weaken {A} (m : M A) (P Q : A -> list qevent -> Prop) :
  spec pan m P -> (forall a t, P a t -> Q a t) -> spec pan m Q.
Proof. intros Hm HPQ n. specialize (Hm n). destruct (m n) as [[[a n1] t]|]; [by apply HPQ|done]. Qed.

End spec_rules.

Lemma spec_total {A} (m : M A) P n : spec False m P -> exists a n' t, m n = Some (a, n', t) /\ P a t.
Proof. intros Hm. specialize (Hm n). destruct (m n) as [[[a n'] t]|]; [eauto|done]. Qed.

(** ** What one group leaves in the trace *)

Definition event_prio (e : qevent) : option Z :=
  match e with
  | EvMarkAttempt _ _ p _ | EvDial p _ | EvPost p _ _ _ | EvResult p _ => Some p
  | _ => None
  end.

Definition is_result (e : qevent) : bool := match e with EvResult _ _ => true | _ => false end.

Definition is_success (e : qevent) : bool :=
  match e with EvResult _ ff => job_success ff | _ => false end.

Definition results_at (prio : Z) (t : list qevent) : nat :=
  length (List.filter (fun e => is_result e && bool_decide (event_prio e = Some prio)) t).

(** A successful run ends with its only successful result; a failed run has none. *)
Definition stops_at_success (ok : bool) (t : list qevent) : Prop :=
  if ok then exists t' e, t = t' ++ [e] /\ is_success e = true /\ Forall (fun e => is_success e = false) t'
  else Forall (fun e => is_success e = false) t.

Definition at_prio (prio : Z) (e : qevent) : Prop := event_prio e = None \/ event_prio e = Some prio.

(** Every pause is positive and at most a minute, unless panics are allowed. *)
Definition wait_ok (pan : Prop) (e : qevent) : Prop :=
  match e with EvWait s => pan \/ 0 < s <= max_delay | _ => True end.

(** Every attempt announces its call, a fresh id, right before it is marked. *)
Inductive paired (o : Oracle) : list qevent -> Prop :=
| paired_nil : paired o []
| paired_attempt k a p b t : paired o t -> paired o (EvSetCall (or_uuid o k) :: EvMarkAttempt (or_uuid o k) a p b :: t)
| paired_other e t :
    match e with EvSetCall _ | EvMarkAttempt _ _ _ _ => False | _ => True end -> paired o t -> paired o (e :: t).

Lemma paired_app o t1 t2 : paired o t1 -> paired o t2 -> paired o (t1 ++ t2).
Proof. induction 1; intros; simpl; [done|by apply paired_attempt; auto|by apply paired_other; auto]. Qed.

Record attempts_trace (o : Oracle) (pan : Prop) (prio : Z) (k : nat) (ok : bool) (t : list qevent) : Prop := {
  at_at_prio : Forall (at_prio prio) t;
  at_wait : Forall (wait_ok pan) t;
  at_count : (length (List.filter is_result t) <= k)%nat;
  at_stops : stops_at_success ok t;
  at_paired : paired o t;
}.

Lemma attempts_nil o pan prio k : attempts_trace o pan prio k false [].
Proof. split; try constructor; simpl; lia. Qed.

Lemma stops_app ok t1 t2 :
  stops_at_success false t1 -> stops_at_success ok t2 -> stops_at_success ok (t1 ++ t2).
Proof.
  destruct ok; simpl.
  - intros H1 (t' & e & -> & He & Ht'). exists (t1 ++ t'), e. rewrite app_assoc, Forall_app. done.
  - intros. by apply Forall_app.
Qed.

Lemma attempts_app o pan prio k1 k2 k ok t1 t2 :
  attempts_trace o pan prio k1 false t1 -> attempts_trace o pan prio k2 ok t2 -> (k1 + k2 <= k)%nat ->
  attempts_trace o pan prio k ok (t1 ++ t2).
Proof.
  intros [A1 B1 C1 D1 E1] [A2 B2 C2 D2 E2] Hk.
  split; [by apply Forall_app..| |by apply stops_app|by apply paired_app].
  rewrite List.filter_app, length_app. lia.
Qed.

Lemma attempts_le o pan prio k k' ok t :
  attempts_trace o pan prio k ok t -> (k <= k')%nat -> attempts_trace o pan prio k' ok t.
Proof. intros [?????] ?. split; try done. lia. Qed.

(** One attempt: some quiet events of its priority, then its result. *)
Definition quiet (prio : Z) (e : qevent) : bool :=
  match e with
  | EvSetCall _ => true
  | EvMarkAttempt _ _ p _ | EvDial p _ | EvPost p _ _ _ => p =? prio
  | _ => false
  end.

Lemma attempts_one o pan prio ok ff t :
  forallb (quiet prio) t = true -> job_success ff = ok -> paired o t ->
  attempts_trace o pan prio 1 ok (t ++ [EvResult prio ff]).
Proof.
  intros Ht Hff Hpair.
  assert (Forall (fun e => at_prio prio e /\ wait_ok pan e /\ is_success e = false /\ is_result e = false) t) as Hq.
  { clear Hpair. induction t as [|e t IH]; [constructor|]. simpl in Ht. reflect_bools. constructor; [|by apply IH].
    unfold at_prio. destruct e; simpl in *; reflect_bools; try done; subst; auto. }
  split.
  - apply Forall_app; split; [|by repeat constructor; right].
    eapply Forall_impl; [exact Hq|]. by intros e (?&_).
  - apply Forall_app; split; [|by repeat constructor].
    eapply Forall_impl; [exact Hq|]. by intros e (_&?&_).
  - rewrite List.filter_app, length_app. simpl.
    enough (List.filter is_result t = []) as -> by done.
    clear Ht Hpair. induction Hq as [|e t (_&_&_&He) Hq IH]; simpl; [done|]. by rewrite He.
  - assert (Forall (fun e => is_success e = false) t) as Hs.
    { eapply Forall_impl; [exact Hq|]. by intros e (_&_&?&_). }
    destruct ok; simpl; [by exists t, (EvResult prio ff)|].
    apply Forall_app; split; [done|]. by repeat constructor.
  - apply paired_app; [done|]. by apply paired_other; [|constructor].
Qed.

Lemma job_success_stamp a b ok h ff : job_success (stamp a b ok h ff) = ok.
Proof. unfold stamp. by destruct ok, (fr_HangupCause _ =? "")%string, (h =? "")%string. Qed.

(** ** The retry loop *)

(** Durations the code parses are whole seconds modulo 2{^64}, so a base delay
    never falls below the ten nanoseconds the jitter needs. *)
Lemma wrap64_mult z : (512 | z) -> (512 | wrap64 z) .
Proof.
  intros [q ->]. unfold wrap64. exists ((q + 2 ^ 54) mod 2 ^ 55 - 2 ^ 54).
  replace (q * 512 + 2 ^ 63) with ((q + 2 ^ 54) * 512) by lia.
  replace (2 ^ 64) with (2 ^ 55 * 512) by lia. rewrite Z.mul_mod_distr_r by lia. lia.
Qed.

Lemma unit_of_char_mult c k : unit_of_char c = Some k -> (512 | k).
Proof.
  unfold unit_of_char. intros H.
  go_cases; [exists 1953125|exists (60 * 1953125)|exists (3600 * 1953125)|exists (86400 * 1953125)];
  reflexivity.
Qed.

Lemma base_delay_mult cfg : (512 | base_delay cfg).
Proof.
  unfold base_delay. assert (512 | minute) by (by exists (60 * 1953125)).
  destruct (ParseDuration _) as [d|] eqn:E; [|done]. destruct (0 <? d); [|done].
  unfold ParseDuration in E. go_cases. apply wrap64_mult.
  apply Z.divide_mul_r. by eapply unit_of_char_mult.
Qed.

Lemma base_delay_min cfg : 512 <= base_delay cfg.
Proof.
  apply Z.divide_pos_le; [|apply base_delay_mult].
  unfold base_delay. destruct (ParseDuration _) as [d|]; [|done].
  destruct (0 <? d) eqn:E; [|done]. by reflect_bools.
Qed.

Lemma retry_attempts_pos cfg : 0 < retry_attempts cfg.
Proof.
  unfold retry_attempts. go_cases; reflect_bools; lia.
Qed.

(** What the standard library promises of [rand.Int63n]. *)
Definition rand_in_range (o : Oracle) : Prop := forall n b, 0 < b -> 0 <= or_rand o n b < b.

(** Panics are impossible with a sane random source and a delay that can be
    doubled; [pan] allows them otherwise. *)
Definition delay_ok (o : Oracle) (pan : Prop) (delay : Z) : Prop :=
  pan \/ rand_in_range o /\ 10 <= delay < 2 ^ 62.

Lemma jitter_sleep o n delay :
  rand_in_range o -> 10 <= delay < 2 ^ 62 ->
  0 < Z.quot delay 5 /\
  0 < Z.min (wrap64 (delay + wrap64 (or_rand o n (Z.quot delay 5) - Z.quot delay 10))) max_delay <= max_delay.
Proof.
  intros Hr Hd. rewrite !Z.quot_div_nonneg by lia.
  pose proof (Z.div_mod delay 5 ltac:(lia)). pose proof (Z.mod_pos_bound delay 5 ltac:(lia)).
  pose proof (Z.div_mod delay 10 ltac:(lia)). pose proof (Z.mod_pos_bound delay 10 ltac:(lia)).
  assert (0 < delay / 5) by lia. pose proof (Hr n (delay / 5) ltac:(done)).
  split; [done|].
  rewrite (wrap64_small (or_rand o n (delay / 5) - delay / 10)) by (unfold int64_min, int64_max; lia).
  rewrite wrap64_small by (unfold int64_min, int64_max; lia).
  unfold max_delay, second, millisecond, microsecond; lia.
Qed.

Lemma retry_loop_spec o pan prio fn left :
  (forall a ff, spec pan (fn a ff) (fun r t => attempts_trace o pan prio 1 r.1.2 t)) ->
  forall attempt delay ff, delay_ok o pan delay ->
  spec pan (retry_loop o fn left attempt delay ff) (fun r t => attempts_trace o pan prio left r.2 t).
Proof.
  intros Hfn. induction left as [|left IH]; intros attempt delay ff Hd; simpl.
  { apply spec_ret, attempts_nil. }
  eapply spec_bind; [apply Hfn|]. intros [[ff1 ok] retriable] t Ht. simpl in Ht.
  destruct ok; [apply spec_ret; rewrite app_nil_r; eapply attempts_le; [exact Ht|lia]|].
  case_match; [apply spec_ret; rewrite app_nil_r; eapply attempts_le; [exact Ht|lia]|].
  destruct (_ <=? 0) eqn:Eb; reflect_bools.
  { intros n. unfold panic. destruct Hd as [|[Hr Hd]]; [done|].
    pose proof (jitter_sleep o n delay Hr Hd). lia. }
  apply spec_next. intros k. apply spec_tell.
  assert (delay_ok o pan (Z.min (wrap64 (delay * 2)) max_delay)) as Hd'.
  { destruct Hd as [|[Hr Hd]]; [by left|right]. split; [done|].
    rewrite wrap64_small; unfold int64_min, int64_max, max_delay, second, millisecond, microsecond in *; lia. }
  eapply spec_weaken; [by apply IH|]. intros [ff2 ok] t2 Ht2. simpl in *.
  eapply attempts_app; [exact Ht|..|reflexivity].
  match goal with |- attempts_trace _ _ _ _ _ (EvWait ?s :: _) =>
    eapply (attempts_app o pan prio 0 left left ok [EvWait s]); [|exact Ht2|lia] end.
  split; [by repeat constructor; left| |simpl; lia|by repeat constructor|by apply paired_other; [|constructor]].
  constructor; [|constructor]. simpl. destruct Hd as [|[Hr Hd]]; [by left|right].
  by apply jitter_sleep.
Qed.

(** The first attempt always happens. *)
Lemma retry_loop_first o fn left attempt delay ff P :
  (0 < left)%nat -> spec True (fn attempt ff) (fun _ t => Exists P t) ->
  spec True (retry_loop o fn left attempt delay ff) (fun _ t => Exists P t).
Proof.
  intros Hl Hfn. destruct left as [|left]; [lia|]. simpl.
  eapply spec_bind; [exact Hfn|]. intros [[ff1 ok] retriable] t Ht.
  intros n. match goal with |- context [?m n] => destruct (m n) as [[[a n'] t']|] end; [|done].
  apply Exists_app. by left.
Qed.

(** ** Attempts, groups, priorities *)

Lemma spec_stamp {B} pan o prio n ok h ff (m : FaxJob -> M B) Q :
  (forall ff', job_success ff' = ok -> spec pan (m ff') (fun b t => Q b (EvResult prio ff' :: t))) ->
  spec pan (stampAndSend o prio n ok h ff ≫= m) Q.
Proof.
  intros Hm. eapply (spec_bind _ _ (fun ff' t => job_success ff' = ok /\ t = [EvResult prio ff'])).
  - unfold stampAndSend. apply spec_tell, spec_ret. by rewrite job_success_stamp.
  - intros ff' ? [H ->]. by apply Hm.
Qed.

(** Step through an attempt; each leaf is an instance of [attempts_one]. *)
Ltac run_attempt :=
  repeat ((apply spec_next; intros ?k) || apply spec_tell || case_match);
  apply spec_stamp; intros ?ff' ?Hs; apply spec_ret; simpl;
  (match goal with
  | |- attempts_trace _ _ _ _ _ [?a; ?b; ?c; _] => apply (attempts_one _ _ _ _ _ [a; b; c])
  | |- attempts_trace _ _ _ _ _ [?a; ?b; _] => apply (attempts_one _ _ _ _ _ [a; b])
  | |- attempts_trace _ _ _ _ _ [_] => apply (attempts_one _ _ _ _ _ [])
  end; [simpl; by rewrite ?Z.eqb_refl|done|
    first [apply paired_nil|apply paired_attempt; repeat (apply paired_other; [done|]); apply paired_nil]]).

Lemma send_call_spec pan o cfg prio brief a ff :
  spec pan (send_call o cfg prio brief a ff) (fun r t => attempts_trace o pan prio 1 r.1.2 t).
Proof. unfold send_call. run_attempt. Qed.

Lemma send_http_spec pan o ty prio url brief pl a ff :
  spec pan (send_http o ty prio url brief pl a ff) (fun r t => attempts_trace o pan prio 1 r.1.2 t).
Proof. unfold send_http. run_attempt. Qed.

Lemma first_success_spec o pan prio k try_one group :
  (forall ep, spec pan (try_one ep) (attempts_trace o pan prio k)) ->
  spec pan (first_success try_one group) (attempts_trace o pan prio (length group * k)).
Proof.
  intros Ht. induction group as [|ep group IH]; simpl; [apply spec_ret, attempts_nil|].
  eapply spec_bind; [apply Ht|]. intros ok t H. destruct ok.
  - apply spec_ret. rewrite app_nil_r. eapply attempts_le; [exact H|lia].
  - eapply spec_weaken; [exact IH|]. intros ok t2 H2. eapply attempts_app; eauto.
Qed.

Section groups.
Context (pan : Prop) (o : Oracle) (qc : QueueContext) (f : FaxJob).
Hypothesis Hdelay : delay_ok o pan (q_baseDelay qc).

Let k : nat := Z.to_nat (q_maxAttempts qc).

Lemma retry_spec prio fn ff :
  (forall a ff, spec pan (fn a ff) (fun r t => attempts_trace o pan prio 1 r.1.2 t)) ->
  spec pan ('(_, ok) ← retryWithBackoff o (q_maxAttempts qc) (q_baseDelay qc) fn ff; mret ok)
    (attempts_trace o pan prio k).
Proof.
  intros Hfn. unfold retryWithBackoff.
  eapply spec_bind; [apply retry_loop_spec; [exact Hfn|exact Hdelay]|].
  intros [ff' ok] t Ht. apply spec_ret. by rewrite app_nil_r.
Qed.

Lemma gateway_group_spec prio ep group :
  spec pan (gateway_group o qc f prio (ep :: group)) (attempts_trace o pan prio (length (ep :: group) * k)).
Proof.
  pose proof (retry_attempts_pos (c_Faxing (qc_cfg qc))).
  unfold gateway_group. case_match.
  - eapply (spec_weaken _ (attempts_trace o pan prio k)).
    + unfold global_batch. case_match; [|apply retry_spec; intros; apply send_call_spec].
      eapply spec_bind; [apply send_call_spec|]. intros [[ff' ok] r] t Ht. apply spec_ret.
      rewrite app_nil_r. eapply attempts_le; [exact Ht|]. unfold k, q_maxAttempts. lia.
    + intros ok t Ht. eapply attempts_le; [exact Ht|]. simpl. lia.
  - apply first_success_spec. intros ep'. apply retry_spec. intros. apply send_call_spec.
Qed.

Definition group_flow (ty : string) (ok : bool) (fl : flow) : Prop :=
  if (ty =? "gateway")%string then fl = NextPriority
  else fl = if ok then BreakPrioLoop else NextPriority.

Lemma process_group_spec ty prio ep group :
  spec pan (process_group o qc f ty prio (ep :: group)) (fun fl t => exists ok,
    group_flow ty ok fl /\ attempts_trace o pan prio (length (ep :: group) * k) ok t).
Proof.
  unfold process_group, group_flow. destruct (ty =? "gateway")%string.
  { eapply spec_bind; [apply gateway_group_spec|]. intros ok t Ht.
    destruct ok; apply spec_ret; rewrite app_nil_r; eauto. }
  destruct (_ || _); [|by apply spec_ret; exists false; auto using attempts_nil].
  destruct (_ && _); [by apply spec_ret; exists false; auto using attempts_nil|].
  eapply spec_bind; [apply first_success_spec; intros; apply retry_spec; intros; apply send_http_spec|].
  intros ok t Ht. destruct ok; apply spec_ret; rewrite app_nil_r; by eexists; split; [|exact Ht].
Qed.

(** What a worker leaves in the trace, the priorities [prios] being visited. *)
Record worker_trace (tm : gmap Z (list Endpoint)) (prios : list Z) (t : list qevent) : Prop := {
  wt_wait : Forall (wait_ok pan) t;
  wt_prios : Forall (fun p => p ∈ prios) (omap event_prio t);
  wt_sorted : sorted_by prio_less (omap event_prio t);
  wt_paired : paired o t;
  wt_count : forall p, (results_at p t <= length (map_list tm p) * k)%nat;
}.

End groups.

Lemma prio_less_spec a b : prio_less a b = true <-> a <> 999 /\ (b = 999 \/ a < b).
Proof.
  unfold prio_less. destruct (Z.eqb_spec a 999), (Z.eqb_spec b 999); simpl; rewrite ?Z.ltb_lt; split; try done; lia.
Qed.

Lemma prio_not_less_spec a b : prio_less a b = false <-> ~ (a <> 999 /\ (b = 999 \/ a < b)).
Proof. by rewrite <- prio_less_spec, not_true_iff_false. Qed.

#[export] Instance prio_less_order : WeakOrder prio_less.
Proof.
  split.
  - intros a b. rewrite prio_less_spec, prio_not_less_spec. lia.
  - intros a b c. rewrite !prio_not_less_spec. lia.
Qed.

(** ** The walk over the priorities *)

Lemma at_prio_omap prio t : Forall (at_prio prio) t -> Forall (fun p => p = prio) (omap event_prio t).
Proof.
  induction 1 as [|e t He Ht IH]; simpl; [constructor|].
  destruct He as [->| ->]; [done|by constructor].
Qed.

Lemma results_at_app p t1 t2 : results_at p (t1 ++ t2) = (results_at p t1 + results_at p t2)%nat.
Proof. unfold results_at. by rewrite List.filter_app, length_app. Qed.

Lemma results_at_attempts o pan prio k ok t p :
  attempts_trace o pan prio k ok t -> (results_at p t <= if decide (p = prio) then k else 0)%nat.
Proof.
  intros [Ha _ Hc _ _]. unfold results_at. destruct (decide (p = prio)) as [->|Hne].
  - etrans; [|exact Hc]. rewrite <- filter_filter. apply List.filter_length_le.
  - clear Hc. induction Ha as [|e t He Ha IH]; simpl; [done|].
    case_bool_decide as Hp; [|by rewrite andb_false_r].
    destruct He as [He|He]; congruence.
Qed.

Lemma prio_less_irrefl p : prio_less p p = false.
Proof. destruct (prio_less p p) eqn:E; [|done]. pose proof (less_asym _ _ E). congruence. Qed.

(** The priorities of a group, then those of later groups. *)
Lemma sorted_prios_app prio prios l1 l2 :
  Forall (fun p => p = prio) l1 -> Forall (fun p => p ∈ prios) l2 ->
  sorted_by prio_less (prio :: prios) -> sorted_by prio_less l2 -> sorted_by prio_less (l1 ++ l2).
Proof.
  intros H1 H2 Hp Hl2. inversion Hp as [|? ? _ Hall]; subst.
  induction H1 as [|p l1 -> H1 IH]; simpl; [done|]. constructor; [done|].
  apply Forall_app; split.
  - eapply Forall_impl; [exact H1|]. intros p ->. apply prio_less_irrefl.
  - eapply Forall_impl; [exact H2|]. intros p Hin. by rewrite Forall_forall in Hall; apply Hall.
Qed.

Section walk.
Context (pan : Prop) (o : Oracle) (qc : QueueContext) (f : FaxJob) (ty : string) (tm : gmap Z (list Endpoint)).
Hypothesis Hdelay : delay_ok o pan (q_baseDelay qc).

Let k : nat := Z.to_nat (q_maxAttempts qc).

Lemma results_at_outside (prios : list Z) t p :
  Forall (fun p => p ∈ prios) (omap event_prio t) -> p ∉ prios -> results_at p t = O.
Proof.
  intros Ht Hp. unfold results_at. induction t as [|e t IH]; simpl; [done|].
  simpl in Ht. destruct (event_prio e) as [p'|] eqn:He.
  - inversion Ht; subst. rewrite (bool_decide_eq_false_2 (Some p' = Some p)), andb_false_r; [by apply IH|].
    intros [= ->]. done.
  - rewrite (bool_decide_eq_false_2 (None = Some p)), andb_false_r; [by apply IH|done].
Qed.

Lemma worker_trace_cons prio prios kg ok t1 t2 :
  NoDup (prio :: prios) -> sorted_by prio_less (prio :: prios) ->
  attempts_trace o pan prio kg ok t1 -> (kg <= length (map_list tm prio) * k)%nat ->
  worker_trace pan o qc tm prios t2 -> worker_trace pan o qc tm (prio :: prios) (t1 ++ t2).
Proof.
  intros Hnd Hs Ht1 Hkg [A B C E D]. apply NoDup_cons in Hnd as [Hnin Hnd].
  pose proof (at_prio_omap _ _ (at_at_prio _ _ _ _ _ _ Ht1)) as Hp1.
  split; rewrite ?omap_app.
  - apply Forall_app; split; [apply Ht1|done].
  - apply Forall_app; split; [eapply Forall_impl; [exact Hp1|]; intros ? ->|
      eapply Forall_impl; [exact B|]; intros p ?]; set_solver.
  - by eapply sorted_prios_app.
  - apply paired_app; [apply Ht1|done].
  - intros p. rewrite results_at_app. pose proof (results_at_attempts _ _ _ _ _ _ p Ht1) as H1.
    specialize (D p). destruct (decide (p = prio)) as [->|]; [|lia].
    rewrite (results_at_outside prios t2) by done. unfold k in Hkg. lia.
Qed.

Lemma worker_trace_skip prio prios t :
  worker_trace pan o qc tm prios t -> worker_trace pan o qc tm (prio :: prios) t.
Proof.
  intros [A B C E D]. split; try done. eapply Forall_impl; [exact B|]. intros p. set_solver.
Qed.

Lemma worker_trace_nil prios : worker_trace pan o qc tm prios [].
Proof. split; simpl; try constructor. intros p. unfold results_at. simpl. lia. Qed.

Lemma prio_loop_spec prios :
  NoDup prios -> sorted_by prio_less prios ->
  spec pan (prio_loop o qc f ty tm prios) (fun _ t => worker_trace pan o qc tm prios t).
Proof.
  induction prios as [|prio prios IH]; intros Hnd Hs; simpl; [apply spec_ret, worker_trace_nil|].
  assert (spec pan (prio_loop o qc f ty tm prios) (fun _ t => worker_trace pan o qc tm prios t)) as IH'.
  { apply IH; [by inversion Hnd|by inversion Hs]. }
  destruct (map_list tm prio) as [|ep group] eqn:Eg.
  { eapply spec_weaken; [exact IH'|]. intros [] t. apply worker_trace_skip. }
  eapply spec_bind; [apply process_group_spec, Hdelay|]. intros fl t (ok & _ & Ht). destruct fl.
  - eapply spec_weaken; [exact IH'|]. intros [] t2. apply worker_trace_cons with (length (ep :: group) * k)%nat ok;
      try done. by rewrite Eg.
  - apply spec_ret. apply worker_trace_cons with (length (ep :: group) * k)%nat ok; try done.
    + by rewrite Eg.
    + apply worker_trace_nil.
Qed.

(** Outside gateways a successful group ends the walk. *)
Lemma prio_loop_stops prios :
  (ty =? "gateway")%string = false ->
  spec pan (prio_loop o qc f ty tm prios) (fun _ t => exists ok, stops_at_success ok t).
Proof.
  intros Hty. induction prios as [|prio prios IH]; simpl; [apply spec_ret; exists false; constructor|].
  destruct (map_list tm prio) as [|ep group]; [exact IH|].
  eapply spec_bind; [apply process_group_spec, Hdelay|]. intros fl t (ok & Hfl & Ht).
  unfold group_flow in Hfl. rewrite Hty in Hfl. subst fl. destruct ok.
  - apply spec_ret. exists true. rewrite app_nil_r. apply Ht.
  - eapply spec_weaken; [exact IH|]. intros [] t2 [ok Hok]. exists ok.
    apply stops_app; [apply Ht|done].
Qed.

End walk.

Lemma sorted_prios_NoDup tm : NoDup (sorted_prios tm).
Proof. unfold sorted_prios. rewrite stable_sort_perm. apply NoDup_fst_map_to_list. Qed.

Lemma sorted_prios_sorted tm : sorted_by prio_less (sorted_prios tm).
Proof. apply stable_sort_sorted, _. Qed.

Lemma elem_of_sorted_prios tm p : p ∈ sorted_prios tm <-> is_Some (tm !! p).
Proof.
  unfold sorted_prios. rewrite elem_of_stable_sort, list_elem_of_fmap. split.
  - intros ([p' l] & -> & H). apply elem_of_map_to_list in H. simpl. eauto.
  - intros [l H]. exists (p, l). by rewrite elem_of_map_to_list.
Qed.

Lemma type_worker_spec pan o qc f ty tm :
  delay_ok o pan (q_baseDelay qc) ->
  spec pan (type_worker o qc f ty tm) (fun _ t => worker_trace pan o qc tm (sorted_prios tm) t).
Proof. intros. apply prio_loop_spec; [done|apply sorted_prios_NoDup|apply sorted_prios_sorted]. Qed.

Lemma build_groups_spec eps ty p :
  map_list (default ∅ (build_groups eps !! ty)) p =
  List.filter (fun ep => (ep_EndpointType ep =? ty)%string && (ep_Priority ep =? p)) eps.
Proof.
  unfold build_groups. enough (forall m, map_list (default ∅ (foldl add_to_group m eps !! ty)) p =
    map_list (default ∅ (m !! ty)) p ++
    List.filter (fun ep => (ep_EndpointType ep =? ty)%string && (ep_Priority ep =? p)) eps) as H by apply H.
  induction eps as [|ep eps IH]; intros m; simpl; [by rewrite app_nil_r|]. rewrite IH. clear IH.
  unfold add_to_group, groupMap in *. cbv zeta. destruct (String.eqb_spec (ep_EndpointType ep) ty) as [->|Hne]; cbn [andb].
  - rewrite lookup_insert_eq. cbn [default from_option id]. rewrite map_list_append.
    destruct (Z.eqb_spec (ep_Priority ep) p) as [->|]; [|by rewrite decide_False].
    by rewrite decide_True, <- app_assoc.
  - by rewrite lookup_insert_ne.
Qed.

(** ** Gateways are always dialled *)

Definition dials (prio : Z) (e : qevent) : Prop := match e with EvDial p _ => p = prio | _ => False end.

Lemma spec_exists_bind {A B} (m : M A) (f : A -> M B) P :
  spec True m (fun _ t => Exists P t) -> spec True (m ≫= f) (fun _ t => Exists P t).
Proof.
  intros Hm. eapply spec_bind; [exact Hm|]. intros a t Ht n.
  destruct (f a n) as [[[b n'] t']|]; [|done]. apply Exists_app. by left.
Qed.

Lemma spec_any {A} (m : M A) : spec True m (fun _ _ => True).
Proof. intros n. by destruct (m n) as [[[? ?] ?]|]. Qed.

Lemma send_call_dials o cfg prio brief a ff :
  spec True (send_call o cfg prio brief a ff) (fun _ t => Exists (dials prio) t).
Proof.
  unfold send_call. apply spec_next. intros k. do 3 apply spec_tell.
  intros n. match goal with |- context [?m n] => destruct (m n) as [[[a' n'] t']|] end; [|done].
  do 2 apply Exists_cons_tl. by apply Exists_cons_hd.
Qed.

Lemma retry_dials o qc prio brief ff :
  spec True (retryWithBackoff o (q_maxAttempts qc) (q_baseDelay qc) (send_call o (q_policy qc) prio brief) ff)
    (fun _ t => Exists (dials prio) t).
Proof.
  unfold retryWithBackoff. apply retry_loop_first; [|apply send_call_dials].
  pose proof (retry_attempts_pos (c_Faxing (qc_cfg qc))). unfold q_maxAttempts. lia.
Qed.

Lemma gateway_group_dials o qc f prio ep group :
  spec True (gateway_group o qc f prio (ep :: group)) (fun _ t => Exists (dials prio) t).
Proof.
  unfold gateway_group, global_batch. case_match.
  - case_match; apply spec_exists_bind; [apply send_call_dials|apply retry_dials].
  - simpl. apply spec_exists_bind. unfold single_gateway. apply spec_exists_bind, retry_dials.
Qed.

Lemma gateway_prio_loop_dials o qc f tm prio prios :
  prio ∈ prios -> map_list tm prio <> [] ->
  spec True (prio_loop o qc f "gateway" tm prios) (fun _ t => Exists (dials prio) t).
Proof.
  intros Hin Hne. induction prios as [|p prios IH]; [by apply not_elem_of_nil in Hin|]. simpl.
  apply elem_of_cons in Hin. destruct (decide (prio = p)) as [<-|Hp].
  - destruct (map_list tm prio) as [|ep group]; [done|]. apply spec_exists_bind.
    unfold process_group. simpl. apply spec_exists_bind, gateway_group_dials.
  - destruct Hin as [?|Hin]; [done|]. destruct (map_list tm p) as [|ep group]; [by apply IH|].
    eapply (spec_bind _ _ (fun fl _ => fl = NextPriority)).
    + unfold process_group. simpl. eapply spec_bind; [apply spec_any|].
      intros [] t _; by apply spec_ret.
    + intros fl t ->. eapply spec_weaken; [by apply IH|]. intros [] t2 Ht2. apply Exists_app. by right.
Qed.

(** ** Properties of the workers *)

(** C2: delivery terminates. With a random source that honours
    [rand.Int63n] and a retry delay below 2{^62} ns, the worker of any endpoint
    type returns: no division or random draw panics, every pause is longer than
    zero and at most sixty seconds, and a priority group of m endpoints costs at
    most m times [maxAttempts] attempts. *)
Theorem type_worker_returns o qc f ty eps n :
  rand_in_range o -> q_baseDelay qc < 2 ^ 62 ->
  exists n' t, type_worker o qc f ty (default ∅ (build_groups eps !! ty)) n = Some (tt, n', t) /\
    (forall s, EvWait s ∈ t -> 0 < s <= 60 * second) /\
    forall p, Z.of_nat (results_at p t) <= q_maxAttempts qc * Z.of_nat (length
      (List.filter (fun ep => (ep_EndpointType ep =? ty)%string && (ep_Priority ep =? p)) eps)).
Proof.
  intros Hr Hd. pose proof (base_delay_min (c_Faxing (qc_cfg qc))).
  pose proof (retry_attempts_pos (c_Faxing (qc_cfg qc))).
  assert (delay_ok o False (q_baseDelay qc)) as Hok.
  { right. split; [exact Hr|]. unfold q_baseDelay in *. lia. }
  destruct (spec_total _ _ n (type_worker_spec False o qc f ty (default ∅ (build_groups eps !! ty)) Hok))
    as ([] & n' & t & Ht & [Hw _ _ _ Hc]).
  exists n', t. split; [exact Ht|]. split.
  - intros s Hs. rewrite Forall_forall in Hw. by destruct (Hw _ Hs).
  - intros p. specialize (Hc p). rewrite build_groups_spec in Hc. apply Nat2Z.inj_le in Hc.
    rewrite Nat2Z.inj_mul, Z2Nat.id in Hc by (unfold q_maxAttempts; lia). lia.
Qed.

(** A worker visits the priorities in ascending order, 999 last, and
    only priorities that have endpoints of its type. *)
Theorem type_worker_priority_order o qc f ty tm n n' t :
  type_worker o qc f ty tm n = Some (tt, n', t) ->
  sorted_by prio_less (omap event_prio t) /\
  forall p, p ∈ omap event_prio t -> is_Some (tm !! p).
Proof.
  intros H. pose proof (type_worker_spec True o qc f ty tm (or_introl I) n) as Ht.
  rewrite H in Ht. destruct Ht as [_ Hp Hs _ _]. split; [done|].
  intros p Hin. rewrite Forall_forall in Hp. by apply elem_of_sorted_prios, Hp.
Qed.

(** C3: a webhook or portal worker stops at its first success: no event of
    any kind follows a successful result. *)
Theorem http_worker_stops_at_success o qc f ty tm n n' t1 e t2 :
  ty <> "gateway" -> type_worker o qc f ty tm n = Some (tt, n', t1 ++ e :: t2) ->
  is_success e = true -> t2 = [].
Proof.
  intros Hty H He. apply String.eqb_neq in Hty.
  pose proof (prio_loop_stops True o qc f ty tm (or_introl I) (sorted_prios tm) Hty n) as Ht.
  unfold type_worker in H. rewrite H in Ht. destruct Ht as [[] Ht]; simpl in Ht.
  - destruct Ht as (t' & e' & Heq & _ & Hf). destruct t2 as [|e2 t2 _] using rev_ind; [done|].
    rewrite app_comm_cons, app_assoc in Heq. apply app_inj_tail in Heq as [<- _].
    apply Forall_app in Hf as [_ Hf]. inversion Hf. congruence.
  - apply Forall_app in Ht as [_ Ht]. inversion Ht. congruence.
Qed.

(** A gateway worker dials every priority of its job, whatever the
    earlier ones returned: the [break] meant to stop the escalation after a
    success only leaves the [switch]. The witness has a fax delivered at
    priority 1 and sent again at priority 2. *)
Theorem gateway_worker_escalates o qc f tm n n' t prio :
  type_worker o qc f "gateway" tm n = Some (tt, n', t) -> map_list tm prio <> [] ->
  exists ff, EvDial prio ff ∈ t.
Proof.
  intros H Hne.
  assert (prio ∈ sorted_prios tm) as Hin.
  { apply elem_of_sorted_prios. unfold map_list in Hne. destruct (tm !! prio); [eauto|done]. }
  pose proof (gateway_prio_loop_dials o qc f tm prio (sorted_prios tm) Hin Hne n) as Ht.
  unfold type_worker in H. rewrite H in Ht. apply Exists_exists in Ht as (e & He & Hd).
  destruct e; try done. simpl in Hd. subst. eauto.
Qed.

(** ** What a worker does to the tracker *)

(** The tracker while only job [j] is in flight. *)
Record tracks_only (j : Z) (tr : FaxTracker) : Prop := {
  to_inv : tracker_inv tr;
  to_index : index_exact tr;
  to_only : forall j', is_Some (tr_byJob tr !! j') -> j' = j;
}.

Lemma tracks_only_step j tr op :
  tracks_only j tr -> disciplined tr op -> op_job op = j -> tracks_only j (run_op tr op).
Proof.
  intros [Hi Hx Ho] Hd Hj. split; [by apply run_op_inv|by apply run_op_index|].
  intros j' Hsome. apply run_op_presence in Hsome; [|done].
  destruct op; simpl in *; try (apply bool_decide_eq_true in Hsome; by apply Ho).
  - apply orb_true_iff in Hsome as [Hs|Hs]; [by apply bool_decide_eq_true, Ho in Hs|]. reflect_bools. congruence.
  - apply andb_true_iff in Hsome as [Hs _]. by apply bool_decide_eq_true, Ho in Hs.
Qed.

Lemma tracks_only_trace j ops tr :
  tracks_only j tr -> disciplined_trace tr ops -> Forall (fun op => op_job op = j) ops ->
  tracks_only j (foldl run_op tr ops).
Proof.
  revert tr. induction ops as [|op ops IH]; intros tr Ht Hd Hj; simpl; [done|].
  destruct Hd as [Hd1 Hd2]. inversion Hj; subst. apply IH; [by apply tracks_only_step|done|done].
Qed.

Lemma paired_disciplined o j m t tr rest :
  (forall k, or_uuid o k <> uuid_nil) -> paired o t -> tracks_only j tr ->
  (forall tr', tracks_only j tr' -> disciplined_trace tr' rest) ->
  disciplined_trace tr (flat_map (tracker_op_of j m) t ++ rest).
Proof.
  intros Hu Hp. revert tr. induction Hp as [|k a p b t Hp IH|e t He Hp IH]; intros tr Ht Hrest; [by apply Hrest| |].
  - destruct b as [[ty l] v]. cbn [flat_map tracker_op_of app disciplined_trace].
    assert (disciplined tr (OpSetCall 0 j (or_uuid o k))) as Hd1.
    { intros _ j' Hc. apply (to_index _ _ Ht) in Hc as (_ & st & Hst & _). apply (to_only _ _ Ht). eauto. }
    pose proof (tracks_only_step _ _ _ Ht Hd1 eq_refl) as Ht1.
    assert (disciplined (run_op tr (OpSetCall 0 j (or_uuid o k))) (OpMarkAttempt 0 j (or_uuid o k) a m p ty l v)) as Hd2.
    { split; [by apply Hu|]. intros st. simpl. unfold SetCall. destruct (tr_byJob tr !! j) as [st0|] eqn:E; simpl.
      - rewrite lookup_insert_eq. by intros [= <-].
      - congruence. }
    split; [exact Hd1|]. split; [exact Hd2|]. apply IH; [|done]. by apply tracks_only_step.
  - destruct e; try done; cbn [flat_map tracker_op_of app disciplined_trace]; try by apply IH.
    split; [done|]. apply IH; [|done]. by apply tracks_only_step.
Qed.

(** C8: one worker leaves the tracker as it found it. With call ids that are
    never nil, the operations of a job whose endpoints are of one type obey the
    tracker's discipline from start to end, and after the last of them no job
    is active and no call is found. *)
Theorem single_worker_tracked o qc f ty tm n n' t :
  (forall k, or_uuid o k <> uuid_nil) -> type_worker o qc f ty tm n = Some (tt, n', t) ->
  disciplined_trace NewFaxTracker (tracker_ops_of qc f t) /\
  ActiveCount (run_ops (tracker_ops_of qc f t)) = 0 /\
  forall c, FindJobByCall c (run_ops (tracker_ops_of qc f t)) = None.
Proof.
  intros Hu H. pose proof (type_worker_spec True o qc f ty tm (or_introl I) n) as Ht.
  rewrite H in Ht. destruct Ht as [_ _ _ Hp _].
  assert (tracks_only (fj_UUID f) NewFaxTracker) as H0.
  { split; [exact (run_ops_inv [])| |].
    - intros c j. simpl. rewrite !lookup_empty. split; [done|]. intros (_ & st & [=] & _).
    - intros j'. simpl. rewrite lookup_empty. by intros [? ?]. }
  assert (disciplined NewFaxTracker (OpBegin 0 f)) as Hb by (simpl; by rewrite !lookup_empty).
  assert (disciplined_trace NewFaxTracker (tracker_ops_of qc f t)) as Hd.
  { split; [exact Hb|]. eapply paired_disciplined; [exact Hu|exact Hp|by apply tracks_only_step|].
    intros tr' _. by split. }
  split; [exact Hd|].
  assert (Forall (fun op => op_job op = fj_UUID f) (tracker_ops_of qc f t)) as Hj.
  { constructor; [done|]. apply Forall_app; split; [|by repeat constructor].
    clear. induction t as [|e t IH]; [constructor|]. simpl. apply Forall_app; split; [|done].
    destruct e as [|? ? ? [[? ?] ?]| | | |]; simpl; repeat constructor. }
  destruct (tracks_only_trace _ _ _ H0 Hd Hj) as [Hi Hx Ho]. fold (run_ops (tracker_ops_of qc f t)) in *.
  assert (tr_byJob (run_ops (tracker_ops_of qc f t)) = ∅) as Hempty.
  { apply map_empty. intros j. apply eq_None_not_Some. intros Hs. pose proof (Ho _ Hs). subst j.
    apply run_ops_presence in Hs. unfold in_flight, tracker_ops_of in Hs.
    rewrite app_comm_cons, foldl_app in Hs. simpl in Hs. by rewrite Z.eqb_refl, andb_false_r in Hs. }
  split; [unfold ActiveCount; by rewrite (ti_running _ Hi), Hempty, map_size_empty|].
  intros c. apply eq_None_not_Some. intros [j Hc]. apply Hx in Hc as (_ & st & Hst & _).
  by rewrite Hempty, lookup_empty in Hst.
Qed.

(** ** The failure flag of the notify report *)

Definition result_job (e : qevent) : option FaxJob := match e with EvResult _ ff => Some ff | _ => None end.

(** Results under distinct call ids are all kept. *)
Lemma record_results_lookup (t : list qevent) (m : gmap Z FaxJob) k v :
  NoDup (fj_CallUUID <$> omap result_job t) ->
  (forall ff, ff ∈ omap result_job t -> m !! fj_CallUUID ff = None) ->
  foldl record_result m t !! k = Some v <->
  m !! k = Some v \/ v ∈ omap result_job t /\ fj_CallUUID v = k.
Proof.
  revert m. induction t as [|e t IH]; intros m Hnd Hm; simpl in *; [set_solver|].
  destruct (result_job e) as [ff|] eqn:He.
  - destruct e; try done. simpl in *. simplify_eq. apply NoDup_cons in Hnd as [Hnin Hnd].
    rewrite IH; [|done|].
    + rewrite lookup_insert_Some, elem_of_cons. split.
      * intros [[[<- <-]|[_ ?]]|[? ?]]; auto.
      * intros [Hk|[[->|?] <-]]; [|by left; left|by right]. left. right. split; [|done].
        intros <-. by rewrite Hm in Hk by left.
    + intros ff' Hff'. rewrite lookup_insert_ne; [apply Hm; by right|].
      intros Heq. apply Hnin. rewrite Heq. by apply list_elem_of_fmap_2.
  - assert (record_result m e = m) as -> by (destruct e; [reflexivity..|simpl in He; congruence|reflexivity]). by apply IH.
Qed.

(** The results of a job whose calls have distinct ids: the call outcome and
    every reported attempt. *)
Definition distinct_calls (f : FaxJob) (t : list qevent) : Prop :=
  NoDup (fj_CallUUID <$> omap result_job t) /\
  forall c ff, call_outcome f = Some c -> ff ∈ omap result_job t -> fj_CallUUID c <> fj_CallUUID ff.

Lemma notify_results_lookup f t : distinct_calls f t -> forall k v,
  notify_results f t !! k = Some v <->
  v ∈ option_list (call_outcome f) ++ omap result_job t /\ fj_CallUUID v = k.
Proof.
  intros [Hnd Hc] k v. unfold notify_results. rewrite record_results_lookup; [|done|].
  - rewrite elem_of_app. destruct (call_outcome f) as [c|]; simpl.
    + rewrite lookup_insert_Some, lookup_empty, list_elem_of_singleton. split.
      * intros [[[<- <-]|[_ ?]]|[? ?]]; [auto|done|auto].
      * intros [[->|?] <-]; auto.
    + rewrite lookup_empty, elem_of_nil. split; [intros [?|[? ?]]|intros [[?|?] ?]]; auto; done.
  - intros ff Hff. destruct (call_outcome f) as [c|]; [|done].
    rewrite lookup_insert_ne; [done|]. by apply Hc.
Qed.

Lemma notify_results_values f t : distinct_calls f t -> forall v,
  v ∈ map snd (map_to_list (notify_results f t)) <-> v ∈ option_list (call_outcome f) ++ omap result_job t.
Proof.
  intros Hd v. split.
  - intros ([k v'] & -> & Hin%elem_of_map_to_list)%list_elem_of_fmap.
    by apply notify_results_lookup in Hin as [? _].
  - intros Hv. apply list_elem_of_fmap. exists (fj_CallUUID v, v). split; [done|].
    by apply elem_of_map_to_list, notify_results_lookup.
Qed.

Lemma forallb_values {A} (P : A -> bool) (m : gmap Z A) :
  forallb (fun e => P e.2) (map_to_list m) = forallb P (map snd (map_to_list m)).
Proof. induction (map_to_list m) as [|e l IH]; simpl; [done|]. by rewrite IH. Qed.

Lemma forallb_ext_elem {A} (P : A -> bool) (l l' : list A) :
  (forall x, x ∈ l <-> x ∈ l') -> forallb P l = forallb P l'.
Proof.
  intros H. apply eq_true_iff_eq. rewrite !forallb_forall.
  setoid_rewrite <- list_elem_of_In. by setoid_rewrite H.
Qed.

Lemma failure_flag_exact f t : distinct_calls f t ->
  computeAllAttemptsFailed f (notify_results f t) =
    if is_reception f then negb (job_success f)
    else forallb (fun ff => negb (job_success ff)) (option_list (call_outcome f) ++ omap result_job t).
Proof.
  intros Hd. unfold computeAllAttemptsFailed. destruct (is_reception f); [done|].
  rewrite (forallb_values (fun ff => negb (job_success ff))).
  apply forallb_ext_elem, notify_results_values, Hd.
Qed.

(** The flag that gates failure-only notifications. For a reception it
    says whether the call itself failed, whatever its deliveries did. For any
    other job whose reported calls have distinct ids it is set exactly when
    neither the call outcome nor any reported attempt was a success. *)
Theorem computeAllAttemptsFailed_exact f t :
  NoDup (fj_CallUUID <$> omap result_job t) ->
  (forall c ff, call_outcome f = Some c -> ff ∈ omap result_job t -> fj_CallUUID c <> fj_CallUUID ff) ->
  computeAllAttemptsFailed f (notify_results f t) =
    if is_reception f then negb (job_success f)
    else forallb (fun ff => negb (job_success ff)) (option_list (call_outcome f) ++ omap result_job t).
Proof. intros Hnd Hc. by apply failure_flag_exact. Qed.

(** ** Witnesses *)

Definition example_oracle (ok : nat -> bool) (code : Z) : Oracle := {|
  or_uuid n := Z.of_nat n + 1;
  or_clock n := (Z.of_nat n, Z.of_nat n + 1);
  or_call n ff := (if ok n then ff <| fj_Result := Some (empty_result <| fr_Success := true |>) |> else ff, None);
  or_http n url := HttpStatus code;
  or_marshal n := true;
  or_rand n b := 0;
  or_payload := Some "JVBERi0=";
|}.

Lemma example_rand_in_range ok code : rand_in_range (example_oracle ok code).
Proof. intros n b Hb. simpl. lia. Qed.

Definition example_context (delay : string) : QueueContext := {|
  qc_cfg := zero_config <| c_Faxing := zero_faxing <| fc_RetryDelay := delay |> |>
                        <| c_PortalURL := "http://portal/" |>;
  qc_dialplan := NewDialplanManager [];
  qc_dir := empty_directory;
  qc_order _ := [];
|}.

Definition example_queue_endpoints (ty : string) : list Endpoint :=
  [example_endpoint 1 "number" 1 ty "gw1" 1; example_endpoint 2 "number" 1 ty "gw2" 1;
   example_endpoint 3 "number" 1 ty "gw3" 2; example_endpoint 4 "number" 1 ty "last" 999].

Definition example_groups (ty : string) : gmap Z (list Endpoint) :=
  default ∅ (build_groups (example_queue_endpoints ty) !! ty).

Definition run_example (delay ty : string) (ok : nat -> bool) (code : Z) : option (unit * nat * list qevent) :=
  type_worker (example_oracle ok code) (example_context delay) zero_job ty (example_groups ty) O.

(** The trace of a run, its jobs erased. *)
Definition example_trace (delay ty : string) (ok : nat -> bool) (code : Z) : list qevent :=
  match run_example delay ty ok code with Some (_, _, t) => t | None => [] end.

Definition example_count (delay ty : string) (ok : nat -> bool) (code : Z) : nat :=
  match run_example delay ty ok code with Some (_, n, _) => n | None => O end.

Lemma type_worker_returns_witness :
  exists n' t, run_example "60s" "portal" (fun _ => false) 503 = Some (tt, n', t) /\ results_at 1 t = 6%nat /\
    forall s, EvWait s ∈ t -> 0 < s <= 60 * second.
Proof.
  destruct (type_worker_returns (example_oracle (fun _ => false) 503) (example_context "60s") zero_job "portal"
    (example_queue_endpoints "portal") 0 (example_rand_in_range _ _)) as (n' & t & Ht & Hw & _); [vm_compute; reflexivity|].
  exists n', t. split; [exact Ht|]. split; [|exact Hw].
  assert (t = example_trace "60s" "portal" (fun _ => false) 503) as ->.
  { unfold example_trace, run_example, example_groups. rewrite Ht. reflexivity. }
  vm_compute. reflexivity.
Defined.

Lemma type_worker_priority_order_witness :
  sorted_by prio_less (omap event_prio (example_trace "60s" "gateway" (fun _ => false) 503)) /\
  forall p, p ∈ omap event_prio (example_trace "60s" "gateway" (fun _ => false) 503) ->
    is_Some (example_groups "gateway" !! p).
Proof.
  apply (type_worker_priority_order (example_oracle (fun _ => false) 503) (example_context "60s") zero_job "gateway"
    (example_groups "gateway") 0 (example_count "60s" "gateway" (fun _ => false) 503)).
  vm_compute. reflexivity.
Defined.

Lemma http_worker_stops_at_success_witness :
  exists e t2, nth_error (example_trace "60s" "webhook" (fun _ => false) 200) 3 = Some e /\
    is_success e = true /\ drop 4 (example_trace "60s" "webhook" (fun _ => false) 200) = t2 /\ t2 = [].
Proof.
  eexists _, _. split; [vm_compute; reflexivity|]. split; [vm_compute; reflexivity|]. split; [reflexivity|].
  eapply (http_worker_stops_at_success (example_oracle (fun _ => false) 200) (example_context "60s") zero_job "webhook"
    (example_groups "webhook") 0 (example_count "60s" "webhook" (fun _ => false) 200)
    (take 3 (example_trace "60s" "webhook" (fun _ => false) 200))); [discriminate|..].
  - vm_compute. reflexivity.
  - vm_compute. reflexivity.
Defined.

Lemma gateway_worker_escalates_witness :
  (exists ff, EvResult 1 ff ∈ example_trace "60s" "gateway" (fun _ => true) 200 /\ job_success ff = true) /\
  exists ff, EvDial 2 ff ∈ example_trace "60s" "gateway" (fun _ => true) 200.
Proof.
  split.
  - eexists. split; [apply list_elem_of_In; vm_compute; do 3 right; left; reflexivity|vm_compute; reflexivity].
  - apply (gateway_worker_escalates (example_oracle (fun _ => true) 200) (example_context "60s") zero_job
      (example_groups "gateway") 0 (example_count "60s" "gateway" (fun _ => true) 200)).
    + vm_compute. reflexivity.
    + vm_compute. discriminate.
Defined.

Lemma single_worker_tracked_witness :
  length (tracker_ops_of (example_context "60s") zero_job (example_trace "60s" "gateway" (fun _ => false) 503)) = 34%nat /\
  ActiveCount (run_ops (tracker_ops_of (example_context "60s") zero_job
    (example_trace "60s" "gateway" (fun _ => false) 503))) = 0.
Proof.
  split; [vm_compute; reflexivity|].
  apply (single_worker_tracked (example_oracle (fun _ => false) 503) (example_context "60s") zero_job "gateway"
    (example_groups "gateway") 0 (example_count "60s" "gateway" (fun _ => false) 503)).
  - intros k. simpl. unfold uuid_nil. lia.
  - vm_compute. reflexivity.
Defined.

(** Without the bound the worker can panic: with a retry delay of
    60000 days, which is accepted, the doubled delay wraps to a negative number
    and the second failed attempt calls [rand.Int63n] with it. *)
Theorem retry_delay_overflow_panics :
  base_delay (c_Faxing (qc_cfg (example_context "60000d"))) = 60000 * 24 * hour /\
  rand_in_range (example_oracle (fun _ => false) 503) /\
  run_example "60000d" "gateway" (fun _ => false) 503 = None /\
  run_example "60000d" "gateway" (fun n => Nat.leb 2 n) 503 <> None.
Proof.
  split; [vm_compute; reflexivity|]. split; [apply example_rand_in_range|].
  split; [vm_compute; reflexivity|].
  intros H. apply (f_equal (fun r => match r with Some _ => true | None => false end)) in H. vm_compute in H. discriminate.
Qed.

Lemma computeAllAttemptsFailed_exact_witness :
  computeAllAttemptsFailed zero_job (notify_results zero_job (example_trace "60s" "webhook" (fun _ => false) 200))
    = false.
Proof.
  rewrite computeAllAttemptsFailed_exact; [vm_compute; reflexivity|..].
  - vm_compute. repeat constructor; rewrite list_elem_of_In; simpl; intuition discriminate.
  - discriminate.
Defined.

(** The body of a retried delivery lags one attempt behind its headers: the
    second request announces a new call and carries the first attempt's call id
    and failed result. *)
Lemma webhook_body_lags :
  match List.filter (fun e => match e with EvPost _ _ _ _ => true | _ => false end)
          (example_trace "60s" "webhook" (fun _ => false) 503) with
  | EvPost _ _ call1 body1 :: EvPost _ _ call2 body2 :: _ =>
      call1 <> call2 /\ fj_CallUUID (pl_FaxJob body1) = uuid_nil /\ fj_CallUUID (pl_FaxJob body2) = call1 /\
      option_map fr_UUID (fj_Result (pl_FaxJob body2)) = Some call1
  | _ => False
  end.
Proof. vm_compute. repeat split. discriminate. Qed.
