(* ===== verification/Backend.v ===== *)
(** * Backend: firewall enforcement of IP bans ([gofaxserver/ipsentry_backend.go])

    A backend turns bans into firewall commands. The firewall tools (nft, ipset,
    iptables) are not part of the repository: [sentryRunner], which runs one
    command, is the parameter [run] over an abstract firewall state, and the
    nftables theorem assumes of it what the nft manual says ([NftLaws]). The
    interface [sentryBackend] is the record the sentry is written against. An
    error is a failed command; its text is left out. *)

From S2P Require Import Prelude Config Store.

Record BlockedIP := {
  bi_ID : Z; bi_IP : string; bi_Reason : string; bi_Source : string;
  bi_FailCount : Z; bi_OffenseCount : Z;
  bi_BannedAt : Z; bi_ExpiresAt : option Z;
  bi_Active : bool; bi_UnbannedAt : option Z; bi_UnbanReason : string;
}.

#[export] Instance blocked_id : HasID BlockedIP := {
  get_id := bi_ID; set_id i r := r <| bi_ID := i |>; get_set_id i r := eq_refl }.

(** ** Durations as the backends print them *)

(** [int64(d.Seconds())]: whole seconds and nanoseconds are added as doubles,
    so from 2{^22} seconds on a large fraction can round up to the next second. *)
Definition duration_seconds (d : Z) : Z :=
  let u := Z.abs d in
  let sec := u / second in
  let nsec := u mod second in
  let up := (0 <? sec) && (0 <? nsec) && ((second - nsec) * 2 ^ (53 - Z.log2 sec) <=? second) in
  Z.sgn d * (sec + if up then 1 else 0).

(** [%d] of an int64. *)
Definition int_string (z : Z) : string := if z <? 0 then "-" +:+ dec_string (- z) else dec_string z.

Definition nftTimeout (d : Z) : string := int_string (duration_seconds d) +:+ "s".

Definition nftSetFor (ip : string) : string :=
  if str_contains ip ":" then "blocklist6" else "blocklist4".

Definition nl : string := String (ascii_of_nat 10) EmptyString.
Definition tab : string := String (ascii_of_nat 9) EmptyString.

Definition nftBootstrapScript : string := str_join nl
  ["table inet gofax_sentry {";
   tab +:+ "set blocklist4 {"; tab +:+ tab +:+ "type ipv4_addr"; tab +:+ tab +:+ "flags timeout"; tab +:+ "}";
   tab +:+ "set blocklist6 {"; tab +:+ tab +:+ "type ipv6_addr"; tab +:+ tab +:+ "flags timeout"; tab +:+ "}";
   tab +:+ "chain input {";
   tab +:+ tab +:+ "type filter hook input priority filter - 10; policy accept;";
   tab +:+ tab +:+ "ip saddr @blocklist4 drop"; tab +:+ tab +:+ "ip6 saddr @blocklist6 drop"; tab +:+ "}";
   "}"; ""].

(** ** The interface *)

(** Each operation runs commands against the firewall and reports success;
    [be_Sync] counts errors. Instants are the clock reading of the call. *)
Record sentryBackend (F : Type) := {
  be_Name : string;
  be_Bootstrap : F -> F * bool;
  be_Ban : Z -> string -> option Z -> F -> F * bool;
  be_Unban : string -> F -> F * bool;
  be_Sync : Z -> list BlockedIP -> F -> F * Z;
}.
Arguments be_Name {F} _.
Arguments be_Bootstrap {F} _.
Arguments be_Ban {F} _.
Arguments be_Unban {F} _.
Arguments be_Sync {F} _.

Section backends.
Context {F : Type}.
(** [sentryRunner]: tool, arguments, standard input. *)
Variable run : string -> list string -> string -> F -> F * bool.

(** *** nftables *)

Definition ensureTable (fw : F) : F * bool :=
  let '(fw1, ok) := run "nft" ["list"; "table"; "inet"; "gofax_sentry"] "" fw in
  if (ok : bool) then (fw1, true) else run "nft" ["-f"; "-"] nftBootstrapScript fw1.

Definition withHeal (op : F -> F * bool) (fw : F) : F * bool :=
  let '(fw1, ok) := op fw in
  if (ok : bool) then (fw1, true)
  else let '(fw2, ok2) := ensureTable fw1 in
       if (ok2 : bool) then op fw2 else (fw2, false).

Definition nft_elem (now : Z) (ip : string) (until : option Z) : string :=
  match until with
  | Some u => ip +:+ " timeout " +:+ nftTimeout (time_sub u now)
  | None => ip
  end.

Definition nft_add (set elem : string) (fw : F) : F * bool :=
  run "nft" ["add"; "element"; "inet"; "gofax_sentry"; set; "{ " +:+ elem +:+ " }"] "" fw.

Definition nft_Ban (now : Z) (ip : string) (until : option Z) : F -> F * bool :=
  withHeal (nft_add (nftSetFor ip) (nft_elem now ip until)).

Definition nft_Unban (ip : string) (fw : F) : F * bool :=
  ((run "nft" ["delete"; "element"; "inet"; "gofax_sentry"; nftSetFor ip; "{ " +:+ ip +:+ " }"] "" fw).1, true).

(** One line of the batch; an expired ban is re-added without a timeout. *)
Definition sync_line (now : Z) (r : BlockedIP) : string :=
  let elem := match bi_ExpiresAt r with
              | Some u => if 0 <? time_sub u now then nft_elem now (bi_IP r) (Some u) else bi_IP r
              | None => bi_IP r
              end in
  "add element inet gofax_sentry " +:+ nftSetFor (bi_IP r) +:+ " { " +:+ elem +:+ " }" +:+ nl.

Definition nft_Sync (now : Z) (active : list BlockedIP) (fw : F) : F * Z :=
  match active with
  | [] => let '(fw1, ok) := ensureTable fw in (fw1, if (ok : bool) then 0 else 1)
  | _ :: _ =>
      let script := str_join "" (map (sync_line now) active) in
      let '(fw1, ok) := withHeal (run "nft" ["-f"; "-"] script) fw in
      (fw1, if (ok : bool) then 0 else 1)
  end.

Definition nftBackend : sentryBackend F := {|
  be_Name := "nft"; be_Bootstrap := ensureTable; be_Ban := nft_Ban;
  be_Unban := nft_Unban; be_Sync := nft_Sync |}.

(** *** ipset and iptables *)

Definition ipsetName : string := "gofax_block".

Definition drop_rule : list string := ["-m"; "set"; "--match-set"; ipsetName; "src"; "-j"; "DROP"].

Definition ipset_Bootstrap (fw : F) : F * bool :=
  let '(fw1, ok) := run "ipset" ["create"; "-exist"; ipsetName; "hash:ip"; "family"; "inet"; "timeout"; "0"] "" fw in
  if negb ok then (fw1, false)
  else let '(fw2, ok2) := run "iptables" (["-C"; "INPUT"] ++ drop_rule) "" fw1 in
       if (ok2 : bool) then (fw2, true)
       else run "iptables" (["-I"; "INPUT"; "1"] ++ drop_rule) "" fw2.

Definition ipset_Ban (now : Z) (ip : string) (until : option Z) (fw : F) : F * bool :=
  let timeout := match until with Some u => int_string (duration_seconds (time_sub u now)) | None => "0" end in
  let add := run "ipset" ["add"; "-exist"; ipsetName; ip; "timeout"; timeout] "" in
  let '(fw1, ok) := add fw in
  if (ok : bool) then (fw1, true)
  else let '(fw2, ok2) := ipset_Bootstrap fw1 in
       if (ok2 : bool) then add fw2 else (fw2, false).

Definition ipset_Unban (ip : string) (fw : F) : F * bool :=
  ((run "ipset" ["del"; "-exist"; ipsetName; ip] "" fw).1, true).

Definition ipset_Sync (now : Z) (active : list BlockedIP) (fw : F) : F * Z :=
  foldl (fun '(fw, errs) r =>
    let '(fw1, ok) := ipset_Ban now (bi_IP r) (bi_ExpiresAt r) fw in
    (fw1, if (ok : bool) then errs else errs + 1)) (fw, 0) active.

Definition ipsetBackend : sentryBackend F := {|
  be_Name := "ipset"; be_Bootstrap := ipset_Bootstrap; be_Ban := ipset_Ban;
  be_Unban := ipset_Unban; be_Sync := ipset_Sync |}.

(** *** log-only *)

Definition logOnlyBackend : sentryBackend F := {|
  be_Name := "log-only"; be_Bootstrap fw := (fw, true); be_Ban _ _ _ fw := (fw, true);
  be_Unban _ fw := (fw, true); be_Sync _ _ fw := (fw, 0) |}.

Definition newSentryBackend (name : string) : res (sentryBackend F) :=
  if (name =? "nft")%string then Ok nftBackend
  else if (name =? "ipset")%string then Ok ipsetBackend
  else if (name =? "log-only")%string then Ok logOnlyBackend
  else Err ("unknown backend " +:+ name).

End backends.

(** ** What the nft manual says

    Listing a table succeeds when it exists; the script creates the table;
    adding an element needs the table, blocks the address, and blocks no
    address less than before. *)
Record NftLaws {F : Type} (run : string -> list string -> string -> F -> F * bool)
  (table : F -> bool) (blocked : F -> string -> string -> bool) : Prop := {
  nft_list fw : run "nft" ["list"; "table"; "inet"; "gofax_sentry"] "" fw = (fw, table fw);
  nft_boot fw : table fw = false ->
    (run "nft" ["-f"; "-"] nftBootstrapScript fw).2 = true /\
    table (run "nft" ["-f"; "-"] nftBootstrapScript fw).1 = true;
  nft_add_missing set elem fw : table fw = false -> nft_add run set elem fw = (fw, false);
  nft_add_ok set ip elem fw : table fw = true ->
    elem = ip \/ (exists n, 0 < n /\ elem = ip +:+ " timeout " +:+ int_string n +:+ "s") ->
    (nft_add run set elem fw).2 = true /\ table (nft_add run set elem fw).1 = true /\
    blocked (nft_add run set elem fw).1 set ip = true /\
    forall set' ip', blocked fw set' ip' = true -> blocked (nft_add run set elem fw).1 set' ip' = true;
}.

Lemma duration_seconds_pos d : second <= d -> 0 < duration_seconds d.
Proof.
  intros Hd. unfold duration_seconds. cbv zeta. assert (0 < second) by done.
  rewrite Z.abs_eq, Z.sgn_pos by lia. assert (1 <= d / second) by (by apply Z.div_le_lower_bound; lia).
  case_match; lia.
Qed.

(** Banning heals itself. Whether or not the dedicated table exists, a
    permanent ban, or one with at least a second to run, succeeds, leaves the
    table in place and the address in the set of its family; when the table was
    there, no address that was blocked stops being blocked. *)
Theorem nft_ban_heals {F} (run : string -> list string -> string -> F -> F * bool) table blocked now ip until fw :
  NftLaws run table blocked ->
  (forall u, until = Some u -> second <= time_sub u now) ->
  let r := be_Ban (nftBackend run) now ip until fw in
  r.2 = true /\ table r.1 = true /\ blocked r.1 (nftSetFor ip) ip = true /\
  (table fw = true -> forall set' ip', blocked fw set' ip' = true -> blocked r.1 set' ip' = true).
Proof.
  intros L Hu r.
  set (elem := nft_elem now ip until).
  assert (elem = ip \/ exists n, 0 < n /\ elem = ip +:+ " timeout " +:+ int_string n +:+ "s") as He.
  { unfold elem, nft_elem. destruct until as [u|]; [right|by left].
    exists (duration_seconds (time_sub u now)). split; [by apply duration_seconds_pos, Hu|done]. }
  subst r. simpl. unfold nft_Ban, withHeal. fold elem. destruct (table fw) eqn:Et.
  - destruct (nft_add_ok _ _ _ L (nftSetFor ip) ip elem fw Et He) as (H1 & H2 & H3 & H4).
    destruct (nft_add run _ elem fw) as [fw1 ok]; simpl in *. subst ok. simpl. by rewrite H2.
  - rewrite (nft_add_missing _ _ _ L) by done. unfold ensureTable. rewrite (nft_list _ _ _ L), Et.
    destruct (nft_boot _ _ _ L fw Et) as [B1 B2].
    destruct (run "nft" ["-f"; "-"] nftBootstrapScript fw) as [fw2 ok2]; simpl in *. subst ok2.
    destruct (nft_add_ok _ _ _ L (nftSetFor ip) ip elem fw2 B2 He) as (H1 & H2 & H3 & _).
    destruct (nft_add run _ elem fw2) as [fw3 ok3]; simpl in *. done.
Qed.

(** A firewall for the witness: the table's elements as written, if it exists. *)
Definition toy_firewall : Type := option (list (string * string)).

Definition toy_run (tool : string) (args : list string) (stdin : string) (fw : toy_firewall)
  : toy_firewall * bool :=
  match args with
  | ["list"; _; _; _] => (fw, bool_decide (is_Some fw))
  | ["-f"; _] => (Some (default [] fw), true)
  | ["add"; _; _; _; set; elem] =>
      match fw with Some l => (Some ((set, elem) :: l), true) | None => (None, false) end
  | _ => (fw, true)
  end%string.

Definition toy_blocked (fw : toy_firewall) (set ip : string) : bool :=
  existsb (fun '(s, e) => (s =? set)%string && has_prefix e ("{ " +:+ ip +:+ " ")) (default [] fw).

Lemma toy_elem (ip rest : string) : has_prefix ("{ " +:+ (ip +:+ " " +:+ rest)) ("{ " +:+ ip +:+ " ") = true.
Proof.
  replace ("{ " +:+ (ip +:+ " " +:+ rest)) with (("{ " +:+ ip +:+ " ") +:+ rest) by (by rewrite !str_app_assoc).
  apply has_prefix_app.
Qed.

Lemma toy_laws : NftLaws toy_run (fun fw => bool_decide (is_Some fw)) toy_blocked.
Proof.
  split; unfold nft_add; try done.
  - intros set elem [l|] H; [done|done].
  - intros set ip elem [l|] H He; [|done]. simpl. split; [done|]. split; [done|]. split.
    + unfold toy_blocked. simpl. apply orb_true_iff. left. rewrite str_eqb_refl.
      destruct He as [->|(n & _ & ->)]; [apply (toy_elem ip "}")|].
      rewrite str_app_assoc. apply (toy_elem ip (("timeout " +:+ int_string n +:+ "s") +:+ " }")).
    + intros set' ip' Hb. unfold toy_blocked in *. simpl in *. apply orb_true_iff. by right.
Qed.

Lemma nft_ban_heals_witness :
  toy_blocked (be_Ban (nftBackend toy_run) 0 "192.0.2.7" (Some (10 * minute)) None).1 "blocklist4" "192.0.2.7" = true.
Proof.
  refine (proj1 (proj2 (proj2 (nft_ban_heals toy_run _ toy_blocked 0 "192.0.2.7" (Some (10 * minute)) None
    toy_laws _)))).
  intros u [= <-]. vm_compute. discriminate.
Defined.
