(* ===== verification/Media.v ===== *)
(** * Media: channel variables of a call leg ([gofaxserver/freeswitch_inbound.go])

    The RTP hardening variables and their rendering, shared by the outbound and
    the inbound call handling. *)

From S2P Require Import Prelude Config.

(** [strconv.FormatBool]. *)
Definition format_bool (b : bool) : string := if b then "true" else "false".

Definition media_names : list string := ["jitterbuffer_msec"; "rtp_jitter_buffer_during_bridge"].

(** A copy of the override when there is one. *)
Definition overlay (overrides vars : gmap string string) (name : string) : gmap string string :=
  match overrides !! name with Some v => <[name := v]> vars | None => vars end.

Definition rtpMediaVars (cfg : FaxingConfig) (overrides : gmap string string) : gmap string string :=
  if negb (RTPJitterBufferEnabled cfg) then ∅
  else
    foldl (overlay overrides)
      (<["jitterbuffer_msec" := RTPJitterBufferSpec cfg]>
       (<["rtp_jitter_buffer_during_bridge" := format_bool (RTPJitterBufferDuringBridgeEnabled cfg)]> ∅))
      media_names.

(** [sort.Strings]. *)
Definition str_less (a b : string) : bool :=
  match String.compare a b with Lt => true | _ => false end.

Definition chanVarPairs (vars : gmap string string) : list string :=
  stable_sort str_less (map (fun kv => kv.1 +:+ "=" +:+ kv.2) (map_to_list vars)).

Definition chanVarPrefix (vars : gmap string string) : string :=
  if decide (vars = ∅) then "" else "{" +:+ str_join "," (chanVarPairs vars) +:+ "}".

(** ** Facts *)

(** Which hardening variables a leg gets: none when the feature is
    off; otherwise both, each taken from the route's override when it has one. *)
Lemma rtpMediaVars_lookup cfg overrides name :
  rtpMediaVars cfg overrides !! name =
    if RTPJitterBufferEnabled cfg && str_mem name media_names
    then Some (default (if (name =? "jitterbuffer_msec")%string then RTPJitterBufferSpec cfg
                        else format_bool (RTPJitterBufferDuringBridgeEnabled cfg)) (overrides !! name))
    else None.
Proof.
  unfold rtpMediaVars. destruct (RTPJitterBufferEnabled cfg); simpl; [|apply lookup_empty].
  unfold overlay.
  destruct (String.eqb_spec name "jitterbuffer_msec") as [->|Hj];
    [|destruct (String.eqb_spec name "rtp_jitter_buffer_during_bridge") as [->|Hd]]; simpl;
    destruct (overrides !! "jitterbuffer_msec") eqn:E1,
             (overrides !! "rtp_jitter_buffer_during_bridge") eqn:E2;
    rewrite ?E1, ?E2; simpl; simplify_map_eq; try done.
  all: assert (str_mem name media_names = false) as ->; [|done];
    apply not_true_iff_false; rewrite str_mem_spec; unfold media_names; set_solver.
Qed.
