(* ===== verification/Outbound.v ===== *)
(** * Outbound: sending a fax through FreeSWITCH
    ([gofaxserver/freeswitch_outbound.go])

    [SendFax] starts an event client that originates the call and follows its
    events; the two run concurrently and share the job and, once the first
    negotiation result is handed over, the result: what the client accumulates
    later is what [SendFax] reads. The event socket is the record [OutWorld].
    The server is never nil here, and logging is left out. *)

From S2P Require Import Prelude Config Store FaxResult FaxJob Policy Learning PairState Directory Backend Media.

(** ** Send results and messages *)

Inductive SendResult := SendRetry | SendFailed | SendDone.

(** [strconv.Itoa(int(r))]; the other HylaFax codes are never produced. *)
Definition SendResult_code (r : SendResult) : string :=
  match r with SendRetry => "0" | SendFailed => "1" | SendDone => "2" end.

(** ** The T.38 decision *)

Record CallPlan := {
  cp_enableT38 : bool; cp_requestT38 : bool;
  cp_fallbackHit : bool; cp_upstream : bool;
}.

Definition is_upstream_call (upstreams : list string) (eps : list Endpoint) : bool :=
  existsb (fun ep => existsb (equal_fold (gatewayLabel ep)) upstreams) eps.

(** [pairAllow]: what [ShouldAllowT38ForPair] answers. *)
Definition plan_call (policy : FaxPolicy) (forceOff upstream pairAllow : bool) : CallPlan :=
  let off := forceOff && fp_EnableT38 policy in
  let enable := if off then false else fp_EnableT38 policy in
  let request := if off then false else fp_RequestT38 policy in
  let keep :=
    if negb upstream then false
    else if negb (fp_T38Decided policy) && negb forceOff then pairAllow else true in
  {| cp_enableT38 := if keep then enable else false;
     cp_requestT38 := if keep then request else false;
     cp_fallbackHit := fp_T38ForcedOff policy; cp_upstream := upstream |}.

(** The policy's settings on the job. *)
Definition apply_plan (policy : FaxPolicy) (plan : CallPlan) (job : FaxJob) : FaxJob :=
  job <| fj_UseECM ::= fun old => match fp_UseECM policy with Some b => b | None => old end |>
      <| fj_DisableV17 ::= fun old => match fp_DisableV17 policy with Some true => true | _ => old end |>
      <| fj_UsedT38 := cp_enableT38 plan |>
      <| fj_SoftmodemFallback := cp_fallbackHit plan |>
      <| fj_AppliedPolicyIDs := fp_AppliedRuleIDs policy |>.

(** ** The dialstring *)

Section dialstring.
Variable uuid_string : Z -> string.
Variable cfg : Config.

Definition base_vars (plan : CallPlan) (job : FaxJob) : gmap string string :=
  list_to_map
    [("ignore_early_media", "true");
     ("origination_uuid", uuid_string (fj_UUID job));
     ("origination_caller_id_number", fj_CallerIdNumber job);
     ("origination_caller_id_name", fj_CallerIdName job);
     ("fax_ident", fj_Identifier job); ("fax_header", fj_Header job);
     ("fax_use_ecm", format_bool (fj_UseECM job)); ("fax_disable_v17", format_bool (fj_DisableV17 job));
     ("fax_enable_t38", format_bool (cp_enableT38 plan));
     ("fax_enable_t38_request", format_bool (cp_requestT38 plan));
     ("fax_enable_image_resizing", format_bool (ImageResizingEnabled (c_Faxing cfg)));
     ("fax_verbose", format_bool (c_Verbose cfg))].

(** Hardening defaults over the base, policy overrides over both. *)
Definition dial_vars (policy : FaxPolicy) (plan : CallPlan) (job : FaxJob) : gmap string string :=
  fp_VarOverrides policy ∪ (rtpMediaVars (c_Faxing cfg) ∅ ∪ base_vars plan job).

(** [order] is the enumeration of the map. *)
Definition dialstring (order : list (string * string)) (job : FaxJob) : string :=
  "{" +:+ str_join "," (map (fun kv => kv.1 +:+ "='" +:+ kv.2 +:+ "'") order) +:+ "}" +:+
  endpointGatewayDialstringOutboundTagged (map gatewayLabel (fj_Endpoints job)) (fj_CalleeNumber job).

End dialstring.

(** ** The world of one call *)

Inductive stream_item :=
| StreamEvent (now : Z) (ev : Event)
| StreamError (text : string)
| StreamSignal (name : string).      (* SIGTERM or SIGINT *)

(** Errors are [None] when there is none. *)
Record OutWorld := {
  ow_now : Z;                         (* policy, pair and transmission clock *)
  ow_stat : option string;            (* os.Stat of the file *)
  ow_dial : option string; ow_filter : option string; ow_subscribe : option string;
  ow_originate : string -> option string;      (* the originate command *)
  ow_enum : gmap string string -> list (string * string);   (* a map's enumeration *)
  ow_uuid : Z -> string;
  ow_stream : list stream_item;       (* what arrives, as far as it does *)
  ow_end : Z;                         (* clock when SendFax stops waiting *)
}.

Definition originate_command (cfg : Config) (w : OutWorld) (policy : FaxPolicy) (plan : CallPlan)
  (job : FaxJob) : string :=
  "api originate " +:+ dialstring (ow_enum w (dial_vars (ow_uuid w) cfg policy plan job)) job +:+
  " &txfax(" +:+ fj_FileName job +:+ ")".

(** ** Pure parts of [SendFax] *)

Definition retry_threshold (s : string) : Z := default 0 (atoi s).

(** The fallbacks after many tries, and the dial counter. *)
Definition begin_send (cfg : FaxingConfig) (job : FaxJob) : FaxJob :=
  let v17retry := retry_threshold (fc_DisableV17AfterRetry cfg) in
  let ecmretry := retry_threshold (fc_DisableECMAfterRetry cfg) in
  job <| fj_DisableV17 ::= fun old => if (0 <? v17retry) && (v17retry <=? fj_TotTries job) then true else old |>
      <| fj_UseECM ::= fun old => if (0 <? ecmretry) && (ecmretry <=? fj_TotTries job) then false else old |>
      <| fj_TotDials ::= fun n => wrap64 (n + 1) |>.

Definition on_page (pr : PageResult) (job : FaxJob) : FaxJob :=
  job <| fj_NPages := int_of_uint (pg_Page pr) |>.

Definition on_result (r : FaxResult) (job : FaxJob) : FaxJob :=
  job <| fj_SignalRate := int_of_uint (fr_TransferRate r) |> <| fj_CSI := fr_RemoteID r |>.

Definition negotiation_status (r : FaxResult) : string :=
  "Sending " +:+ dec_string (fr_TransferRate r) +:+ (if fr_Ecm r then "/ECM" else "").

Definition on_negotiation (r : FaxResult) (job : FaxJob) : FaxJob :=
  on_result r job <| fj_TotTries ::= fun n => wrap64 (n + 1) |> <| fj_NDials := 0 |>
                  <| fj_Status := negotiation_status r |>.

(** The end of [SendFax]: the result it holds, the status and the code so far. *)
Definition finish_send (start stop : Z) (returned : SendResult) (status : string) (result : FaxResult)
  (job : FaxJob) : SendResult * option string * FaxJob :=
  let job1 := job <| fj_Status := status |> <| fj_Returned := SendResult_code returned |>
                  <| fj_Ts := start |> <| fj_JobTime := time_sub stop start |> <| fj_Result := Some result |> in
  if fr_Success result then (SendDone, None, job1) else (returned, Some "faxing failed", job1).

(** ** The call *)

(** The server state a call touches. *)
Record OutServer (TP TS : Type) := { os_policy : PolicyState TP; os_pairs : PairServer TS }.
Arguments os_policy {TP TS} _.
Arguments os_pairs {TP TS} _.

(** [Waiting]: the stream has delivered everything it will, and the call has not
    ended. [Panicked]: the page index is out of range. *)
Inductive sent (St : Type) :=
| Returned (returned : SendResult) (err : option string) (job : FaxJob) (server : St)
| Waiting (job : FaxJob)
| Panicked.
Arguments Returned {St} _ _ _ _.
Arguments Waiting {St} _.
Arguments Panicked {St}.

Section call.
Context `{!Table TP FaxPolicyRule, !TableLaws TP FaxPolicyRule}.
Context `{!Table TS FaxPairState, !TableLaws TS FaxPairState}.
Variable cfg : Config.
Variable w : OutWorld.

Definition policy_cfg : FaxPolicyConfig := fc_Policy (c_Faxing cfg).

(** What the server learns when the call hangs up. *)
Definition learn_outcome (src dst : string) (now : Z) (plan : CallPlan) (result : FaxResult)
  (st : OutServer TP TS) : OutServer TP TS :=
  let st1 :=
    if fr_Success result then st <| os_policy ::= LearnFaxPolicySuccess policy_cfg now dst |>
    else if qualifiesForLearning (Some result)
    then st <| os_policy ::= LearnFaxPolicyFailure policy_cfg now dst (Some result) |>
    else st in
  if negb (cp_fallbackHit plan) && cp_upstream plan
  then st1 <| os_pairs ::= UpdateT38PairState src dst CallTypeSoftmodem (cp_enableT38 plan) now |>
  else st1.

(** The result [SendFax] holds: a blank one until the client hands over its own. *)
Definition held (handed : bool) (result : FaxResult) : FaxResult := if handed then result else empty_result.

(** An error of the client, as [SendFax] sees it. *)
Definition fail_send (text : string) (retry handed : bool) (result : FaxResult) (job : FaxJob)
  (st : OutServer TP TS) : sent (OutServer TP TS) :=
  let returned := if retry then SendRetry else SendFailed in
  let '(r, e, j) := finish_send (ow_now w) (ow_end w) returned text (held handed result)
                      (job <| fj_NDials ::= fun n => wrap64 (n + 1) |>) in
  Returned r e j st.

Definition attribute_gateway (ev : Event) (job : FaxJob) : FaxJob :=
  if (fj_Gateway job =? "")%string then job <| fj_Gateway := ev_get ev "Variable_gofax_gw" |> else job.

Definition is_negotiation (ev : Event) : bool :=
  (ev_get ev "Event-Subclass" =? "spandsp::txfaxnegociateresult")%string.

(** The event loop, with [pages] as in the code. *)
Fixpoint event_loop (plan : CallPlan) (stream : list stream_item) (result : FaxResult) (pages : Z)
  (handed : bool) (job : FaxJob) (st : OutServer TP TS) : sent (OutServer TP TS) :=
  match stream with
  | [] => Waiting job
  | StreamError text :: _ => fail_send text true handed result job st
  | StreamSignal name :: _ => fail_send ("Killed by signal " +:+ name) false handed result job st
  | StreamEvent now ev :: stream' =>
      let result1 := AddEvent now ev result in
      let job1 := attribute_gateway ev job in
      if negb (fr_HangupCause result1 =? "")%string then
        let st1 := learn_outcome (fj_CallerIdNumber job) (fj_CalleeNumber job) now plan result1 st in
        let '(r, e, j) := finish_send (ow_now w) (ow_end w) SendRetry (fr_ResultText result1) result1
                            (on_result result1 job1) in
        Returned r e j st1
      else if is_negotiation ev then
        event_loop plan stream' result1 pages true (on_negotiation result1 job1) st
      else if fr_TransferredPages result1 =? pages then
        event_loop plan stream' result1 pages handed job1 st
      else
        let pages1 := fr_TransferredPages result1 in
        (* [pages-1] wraps around at zero *)
        match nth_error (fr_PageResults result1) (Z.to_nat ((pages1 - 1) mod 2 ^ 64)) with
        | None => Panicked
        | Some pr => event_loop plan stream' result1 pages1 handed (on_page pr job1) st
        end
  end.

(** The client's checks, and its connection: an error and whether to retry. *)
Definition open_client (job : FaxJob) : option (string * bool) :=
  if (fj_CalleeNumber job =? "")%string then Some ("Number to dial is empty", false)
  else if bool_decide (fj_Endpoints job = []) then Some ("Gateway not set", false)
  else
    match ow_stat w, ow_dial w, ow_filter w, ow_subscribe w with
    | Some e, _, _, _ => Some (e, false)
    | None, Some e, _, _ => Some (e, true)
    | None, None, Some e, _ => Some (e, true)
    | None, None, None, Some e => Some (e, true)
    | None, None, None, None => None
    end.

(** [SendFax] and the client it starts. *)
Definition SendFax (upstreams : list string) (job0 : FaxJob) (st : OutServer TP TS) : sent (OutServer TP TS) :=
  let job := begin_send (c_Faxing cfg) job0 in
  match open_client job with
  | Some (e, retry) => fail_send e retry false empty_result job st
  | None =>
      let src := fj_CallerIdNumber job in
      let dst := fj_CalleeNumber job in
      let policy := ResolveFaxPolicy (c_Faxing cfg) (ps_cache (os_policy st)) src dst CallTypeSoftmodem (ow_now w) in
      let plan := plan_call policy (fj_ForceT38Off job) (is_upstream_call upstreams (fj_Endpoints job))
                    (ShouldAllowT38ForPair policy_cfg src dst CallTypeSoftmodem (ow_now w) (os_pairs st)) in
      let job1 := apply_plan policy plan job in
      match ow_originate w (originate_command cfg w policy plan job1) with
      | Some e =>
          let hangupcause := trim_space e in
          fail_send hangupcause (negb (FailedHangUpCause (c_Faxing cfg) hangupcause)) false empty_result job1 st
      | None => event_loop plan (ow_stream w) (NewFaxResult (fj_UUID job) false) 0 false job1 st
      end
  end.

End call.

(** ** The T.38 plan *)

(** When T.38 is used: the policy allows it, the call goes upstream, no earlier
    attempt of the job ran into trouble, and the flip-flop of an undecided pair
    is on its T.38 side. *)
Lemma plan_call_enable policy force upstream allow :
  cp_enableT38 (plan_call policy force upstream allow) =
    fp_EnableT38 policy && upstream && negb force && (fp_T38Decided policy || allow).
Proof. unfold plan_call. by destruct (fp_EnableT38 policy), upstream, force, (fp_T38Decided policy), allow. Qed.

(** A call never asks for what it does not enable, when the policy does not. *)
Lemma plan_call_request policy force upstream allow :
  (fp_RequestT38 policy = true -> fp_EnableT38 policy = true) ->
  cp_requestT38 (plan_call policy force upstream allow) = true ->
  cp_enableT38 (plan_call policy force upstream allow) = true.
Proof.
  unfold plan_call. destruct (fp_EnableT38 policy), upstream, force, (fp_T38Decided policy), allow,
    (fp_RequestT38 policy); simpl; auto.
Qed.

(** ** What every ending has in common *)

Definition job_result (j : FaxJob) : FaxResult := default empty_result (fj_Result j).

Record ended (returned : SendResult) (err : option string) (j : FaxJob) : Prop := {
  en_result : fj_Result j = Some (job_result j);
  en_done : returned = SendDone <-> fr_Success (job_result j) = true;
  en_err : err = None <-> fr_Success (job_result j) = true;
  en_code : fj_Returned j <> SendResult_code SendDone;
}.

Lemma finish_send_ended a b returned status result job r e j :
  finish_send a b returned status result job = (r, e, j) -> returned <> SendDone ->
  ended r e j /\ job_result j = result /\ (r = SendDone \/ r = returned).
Proof.
  unfold finish_send. intros H Hr.
  assert (fj_Returned j = SendResult_code returned /\ fj_Result j = Some result) as [Hc Hj].
  { destruct (fr_Success result); by injection H as <- <- <-. }
  assert (job_result j = result) as Hjr by (unfold job_result; by rewrite Hj).
  split; [|split; [done|]].
  - constructor; rewrite ?Hjr; [done| | |].
    + destruct (fr_Success result); injection H as <- _ _; split; done.
    + destruct (fr_Success result); injection H as _ <- _; split; done.
    + rewrite Hc. by destruct returned.
  - destruct (fr_Success result); injection H as <- _ _; auto.
Qed.

(** What following the events leaves alone. *)
Record same_route (j j' : FaxJob) : Prop := {
  sr_used : fj_UsedT38 j' = fj_UsedT38 j;
  sr_eps : fj_Endpoints j' = fj_Endpoints j;
  sr_callee : fj_CalleeNumber j' = fj_CalleeNumber j;
  sr_caller : fj_CallerIdNumber j' = fj_CallerIdNumber j;
  sr_force : fj_ForceT38Off j' = fj_ForceT38Off j;
  sr_uuid : fj_CallUUID j' = fj_CallUUID j;
}.

#[export] Instance same_route_refl : Reflexive same_route.
Proof. by split. Qed.

#[export] Instance same_route_trans : Transitive same_route.
Proof. intros j1 j2 j3 [] []. split; congruence. Qed.

Lemma finish_send_route a b returned status result job r e j :
  finish_send a b returned status result job = (r, e, j) -> same_route job j.
Proof. unfold finish_send. destruct (fr_Success result); intros H; injection H as <- <- <-; by split. Qed.

Lemma attribute_gateway_route ev job : same_route job (attribute_gateway ev job).
Proof. unfold attribute_gateway. destruct (_ =? _)%string; by split. Qed.

Lemma on_negotiation_route r job : same_route job (on_negotiation r job).
Proof. by split. Qed.

Lemma on_page_route pr job : same_route job (on_page pr job).
Proof. by split. Qed.

Lemma begin_send_route cfg job : same_route job (begin_send cfg job).
Proof. by split. Qed.

#[export] Hint Resolve finish_send_route attribute_gateway_route on_negotiation_route on_page_route
  begin_send_route : gofax.

Section outcome.
Context `{!Table TP FaxPolicyRule, !TableLaws TP FaxPolicyRule}.
Context `{!Table TS FaxPairState, !TableLaws TS FaxPairState}.
Variable cfg : Config.
Variable w : OutWorld.
Notation server := (OutServer TP TS).

(** How a call that was answered ends: by an error, which teaches the server
    nothing, or by a hangup, after which it has learned once. *)
Definition call_end (stream : list stream_item) (plan : CallPlan) (src dst : string) (r : SendResult)
  (j : FaxJob) (st st' : server) (killed : Prop) : Prop :=
  if (fr_HangupCause (job_result j) =? "")%string
  then st' = st /\ (r = SendFailed -> killed)
  else r <> SendFailed /\
       exists now ev, StreamEvent now ev ∈ stream /\ st' = learn_outcome cfg src dst now plan (job_result j) st.

Lemma fail_send_returned text retry handed result job (st : server) r e j st' :
  fr_HangupCause result = "" ->
  fail_send w text retry handed result job st = Returned r e j st' ->
  ended r e j /\ same_route job j /\ st' = st /\ fr_HangupCause (job_result j) = "" /\
  job_result j = held handed result /\ (r = SendFailed -> retry = false).
Proof.
  intros Hh. unfold fail_send. destruct (finish_send _ _ _ _ _ _) as [[r' e'] j'] eqn:E.
  intros H. injection H as <- <- <- <-.
  destruct (finish_send_ended _ _ _ _ _ _ _ _ _ E ltac:(by destruct retry)) as (Hend & Hj & Hr).
  apply finish_send_route in E. split; [done|]. split.
  { etrans; [|exact E]. by split. }
  split; [done|]. split; [rewrite Hj; by destruct handed|]. split; [done|].
  intros ->. destruct Hr as [?|Hr]; [done|]. by destruct retry.
Qed.

Lemma event_loop_returned plan stream result pages handed job (st : server) r e j st' :
  fr_HangupCause result = "" ->
  event_loop cfg w plan stream result pages handed job st = Returned r e j st' ->
  ended r e j /\ same_route job j /\
  call_end stream plan (fj_CallerIdNumber job) (fj_CalleeNumber job) r j st st'
    (exists name, StreamSignal name ∈ stream).
Proof.
  revert result pages handed job. induction stream as [|item stream IH]; intros result pages handed job Hh H;
    cbn [event_loop] in H; [done|].
  destruct item as [now ev|text|name].
  2,3: apply fail_send_returned in H as (He & Hs & -> & Hc & _ & Hf); [|done]; (split; [done|]); (split; [done|]);
       unfold call_end; rewrite Hc; (split; [done|]); intros Hr.
  2: by specialize (Hf Hr).
  2: exists name; by left.
  assert (forall j0, same_route job j0 -> same_route j0 j -> same_route job j) as Htrans by (intros; by etrans).
  assert (forall j0, same_route job j0 -> call_end stream plan (fj_CallerIdNumber j0) (fj_CalleeNumber j0) r j st st'
      (exists name, StreamSignal name ∈ stream) ->
    call_end (StreamEvent now ev :: stream) plan (fj_CallerIdNumber job) (fj_CalleeNumber job) r j st st'
      (exists name, StreamSignal name ∈ StreamEvent now ev :: stream)) as Hmono.
  { intros j0 [_ _ Hce Hca _ _]. rewrite Hce, Hca. unfold call_end. destruct (fr_HangupCause (job_result j) =? "")%string.
    2: { intros (? & n1 & ev1 & ? & ?). split; [done|]. exists n1, ev1. split; [by right|done]. }
    intros [? Hk]. split; [done|]. intros Hr. destruct (Hk Hr) as [nm ?]. exists nm. by right. }
  destruct (fr_HangupCause (AddEvent now ev result) =? "")%string eqn:Hhang; cbn [negb] in H.
  - apply String.eqb_eq in Hhang.
    destruct (is_negotiation ev).
    { destruct (IH _ _ _ _ Hhang H) as (He & Hs & Hc).
      split; [done|]. split; [eapply Htrans; [|exact Hs]|eapply Hmono; [|exact Hc]];
        (etrans; [apply attribute_gateway_route|apply on_negotiation_route]). }
    destruct (_ =? pages).
    { destruct (IH _ _ _ _ Hhang H) as (He & Hs & Hc).
      split; [done|]. split; [eapply Htrans; [|exact Hs]|eapply Hmono; [|exact Hc]]; apply attribute_gateway_route. }
    destruct (nth_error _ _) as [pr|]; [|done].
    destruct (IH _ _ _ _ Hhang H) as (He & Hs & Hc).
    split; [done|]. split; [eapply Htrans; [|exact Hs]|eapply Hmono; [|exact Hc]];
      (etrans; [apply attribute_gateway_route|apply on_page_route]).
  - destruct (finish_send _ _ _ _ _ _) as [[r' e'] j'] eqn:E. injection H as <- <- <- <-.
    destruct (finish_send_ended _ _ _ _ _ _ _ _ _ E ltac:(done)) as (Hend & Hj & Hr).
    apply finish_send_route in E. split; [done|]. split.
    + etrans; [apply (attribute_gateway_route ev)|]. etrans; [|exact E]. by split.
    + unfold call_end. rewrite Hj, Hhang. split; [by destruct Hr as [-> | ->]|].
      exists now, ev. split; [by left|done].
Qed.

(** ** The outcome of a call *)

(** The policy and plan of a call. *)
Definition call_policy (job : FaxJob) (st : server) : FaxPolicy :=
  ResolveFaxPolicy (c_Faxing cfg) (ps_cache (os_policy st)) (fj_CallerIdNumber job) (fj_CalleeNumber job)
    CallTypeSoftmodem (ow_now w).

Definition call_plan (upstreams : list string) (job : FaxJob) (st : server) : CallPlan :=
  plan_call (call_policy job st) (fj_ForceT38Off job) (is_upstream_call upstreams (fj_Endpoints job))
    (ShouldAllowT38ForPair (policy_cfg cfg) (fj_CallerIdNumber job) (fj_CalleeNumber job) CallTypeSoftmodem
       (ow_now w) (os_pairs st)).

(** The retry fallbacks do not enter the policy or the plan. *)
Lemma call_plan_begin upstreams job st :
  call_plan upstreams (begin_send (c_Faxing cfg) job) st = call_plan upstreams job st.
Proof. reflexivity. Qed.

Lemma learn_outcome_parts upstreams src dst now job result (st0 st : server) :
  let plan := call_plan upstreams job st0 in
  os_policy (learn_outcome cfg src dst now plan result st) =
    (if fr_Success result then LearnFaxPolicySuccess (policy_cfg cfg) now dst (os_policy st)
     else if qualifiesForLearning (Some result)
     then LearnFaxPolicyFailure (policy_cfg cfg) now dst (Some result) (os_policy st)
     else os_policy st) /\
  os_pairs (learn_outcome cfg src dst now plan result st) =
    (if is_upstream_call upstreams (fj_Endpoints job) && negb (fp_T38ForcedOff (call_policy job st0))
     then UpdateT38PairState src dst CallTypeSoftmodem (cp_enableT38 plan) now (os_pairs st)
     else os_pairs st).
Proof.
  unfold learn_outcome. cbn zeta.
  change (cp_upstream (call_plan upstreams job st0)) with (is_upstream_call upstreams (fj_Endpoints job)).
  change (cp_fallbackHit (call_plan upstreams job st0)) with (fp_T38ForcedOff (call_policy job st0)).
  generalize (cp_enableT38 (call_plan upstreams job st0)). intros b. rewrite andb_comm.
  destruct (fr_Success result), (qualifiesForLearning (Some result)),
    (is_upstream_call upstreams (fj_Endpoints job) && negb (fp_T38ForcedOff (call_policy job st0))); split; reflexivity.
Qed.

(** The errors that make no sense to retry. *)
Definition hopeless (job : FaxJob) (command : string) : Prop :=
  fj_CalleeNumber job = "" \/ fj_Endpoints job = [] \/ is_Some (ow_stat w) \/
  (exists text, ow_originate w command = Some text /\ FailedHangUpCause (c_Faxing cfg) (trim_space text) = true) \/
  (exists name, StreamSignal name ∈ ow_stream w).

Lemma open_client_final job text : open_client w job = Some (text, false) ->
  fj_CalleeNumber job = "" \/ fj_Endpoints job = [] \/ is_Some (ow_stat w).
Proof.
  unfold open_client. destruct (String.eqb_spec (fj_CalleeNumber job) ""); [by left|].
  case_bool_decide; [by right; left|]. destruct (ow_stat w); [by do 2 right|].
  by destruct (ow_dial w), (ow_filter w), (ow_subscribe w).
Qed.

Lemma SendFax_cases upstreams job0 (st : server) r e j st' :
  SendFax cfg w upstreams job0 st = Returned r e j st' ->
  let job := begin_send (c_Faxing cfg) job0 in
  let plan := call_plan upstreams job st in
  let job1 := apply_plan (call_policy job st) plan job in
  let command := originate_command cfg w (call_policy job st) plan job1 in
  ended r e j /\
  (r = SendFailed -> hopeless job0 command) /\
  ((same_route job0 j /\ st' = st /\ fr_HangupCause (job_result j) = "") \/
   (same_route job1 j /\
    call_end (ow_stream w) plan (fj_CallerIdNumber job0) (fj_CalleeNumber job0) r j st st' (hopeless job0 command))).
Proof.
  intros H job plan job1 command. unfold SendFax in H. fold job in H.
  assert (forall text retry, fail_send w text retry false empty_result job st = Returned r e j st' ->
    (retry = false -> hopeless job0 command) ->
    ended r e j /\ (r = SendFailed -> hopeless job0 command) /\
    ((same_route job0 j /\ st' = st /\ fr_HangupCause (job_result j) = "") \/
     (same_route job1 j /\
      call_end (ow_stream w) plan (fj_CallerIdNumber job0) (fj_CalleeNumber job0) r j st st' (hopeless job0 command)))) as Hfail.
  { intros text retry Hf Hh. apply fail_send_returned in Hf as (He & Hs & -> & Hc & _ & Hr); [|done].
    split; [done|]. split; [auto|]. left. split; [|done]. etrans; [apply (begin_send_route (c_Faxing cfg))|done]. }
  destruct (open_client w job) as [[text retry]|] eqn:Eo.
  { apply (Hfail _ _ H). intros ->. destruct (open_client_final _ _ Eo) as [?|[?|?]]; unfold hopeless; auto. }
  fold (call_policy job st) in H. fold (call_plan upstreams job st) in H. fold plan job1 command in H.
  destruct (ow_originate w command) as [text|] eqn:E7.
  - destruct (fail_send_returned _ _ _ empty_result _ _ _ _ _ _ eq_refl H) as (He & Hs & Hst & Hc & _ & Hr).
    assert (r = SendFailed -> hopeless job0 command) as Hhop.
    { intros Hf. specialize (Hr Hf). right. right. right. left. exists text. by destruct (FailedHangUpCause _ _). }
    split; [done|]. split; [done|]. right. split; [done|]. unfold call_end. by rewrite Hc.
  - destruct (event_loop_returned _ _ (NewFaxResult (fj_UUID job) false) _ _ _ _ _ _ _ _ eq_refl H) as (He & Hs & Hc).
    assert (r = SendFailed -> hopeless job0 command) as Hhop.
    { intros Hf. unfold call_end in Hc. destruct (fr_HangupCause (job_result j) =? "")%string; [|by destruct Hc].
      destruct Hc as [_ Hk]. destruct (Hk Hf) as [nm ?]. do 4 right. by exists nm. }
    split; [done|]. split; [done|]. right. split; [done|]. unfold call_end in *.
    destruct (fr_HangupCause (job_result j) =? "")%string; [|done]. split; [apply Hc|done].
Qed.

End outcome.

(** ** Page counting *)

Definition is_uint (n : Z) : Prop := 0 <= n < 2 ^ 64.

Lemma uint_or_range v old : is_uint old -> is_uint (uint_or v old).
Proof. intros H. unfold uint_or. destruct (atoi v); [exact (uint_of_int_range _)|exact H]. Qed.

Lemma harvest_var_pages name v f : is_uint (fr_TransferredPages f) -> is_uint (fr_TransferredPages (harvest_var name v f)).
Proof. intros H. open_harvest; first [exact H | exact (uint_or_range v _ H)]. Qed.

Lemma harvest_foldl_pages ev names f : is_uint (fr_TransferredPages f) ->
  is_uint (fr_TransferredPages (foldl (harvest_step ev) f names)).
Proof.
  revert f. induction names as [|n names IH]; intros f Hf; simpl; [done|]. apply IH.
  unfold harvest_step. destruct (_ =? "")%string; [exact Hf|]. apply harvest_var_pages. exact Hf.
Qed.

Lemma add_hangup_pages ev f : is_uint (fr_TransferredPages f) -> is_uint (fr_TransferredPages (add_hangup ev f)).
Proof.
  intros Hf. apply (harvest_foldl_pages ev faxResultVarNames) in Hf. unfold add_hangup, harvestResultVars.
  revert Hf. generalize (foldl (harvest_step ev) f faxResultVarNames) as g. intros g. by destruct (fr_bridge g).
Qed.

Lemma AddEvent_pages now ev f : is_uint (fr_TransferredPages f) -> is_uint (fr_TransferredPages (AddEvent now ev f)).
Proof.
  intros Hf. unfold AddEvent. destruct (_ =? "CHANNEL_CALLSTATE")%string.
  { unfold add_callstate. do 2 destruct (_ =? _)%string; exact Hf. }
  destruct (_ =? "CHANNEL_HANGUP")%string.
  { apply add_hangup_pages. exact Hf. }
  destruct (_ =? "CUSTOM")%string; [|exact Hf]. unfold add_custom.
  destruct (str_mem _ negotiation_events); [exact Hf|].
  destruct (str_mem _ page_events); [exact (uint_or_range _ _ Hf)|].
  destruct (str_mem _ result_events); [exact (uint_or_range _ _ Hf)|exact Hf].
Qed.

Definition is_page_event (ev : Event) : bool :=
  (ev_get ev "Event-Name" =? "CUSTOM")%string && str_mem (ev_get ev "Event-Subclass") page_events.

Lemma page_event_grows now ev f : is_page_event ev = true ->
  length (fr_PageResults (AddEvent now ev f)) = S (length (fr_PageResults f)).
Proof.
  unfold is_page_event. intros [Hn%String.eqb_eq Hs]%andb_prop. unfold AddEvent. rewrite Hn. simpl.
  unfold add_custom. rewrite (str_mem_disjoint _ _ negotiation_events Hs eq_refl), Hs. unfold add_page. simpl. rewrite length_app. simpl. lia.
Qed.

(** FreeSWITCH counts pages as it reports them: the number of transferred pages
    grows only with a page report, and then by one. *)
Fixpoint counted (stream : list stream_item) (result : FaxResult) : Prop :=
  match stream with
  | StreamEvent now ev :: stream' =>
      let result1 := AddEvent now ev result in
      (fr_TransferredPages result1 = fr_TransferredPages result \/
       is_page_event ev = true /\ fr_TransferredPages result1 = fr_TransferredPages result + 1) /\
      counted stream' result1
  | _ => True
  end.

(** An item that ends the wait. *)
Definition terminal (item : stream_item) : Prop :=
  match item with
  | StreamEvent _ ev =>
      ev_get ev "Event-Name" = "CHANNEL_CALLSTATE" /\ ev_get ev "Channel-Call-State" = "HANGUP" /\
      ev_get ev "Hangup-Cause" <> ""
  | _ => True
  end.

Lemma terminal_hangs_up now ev f : terminal (StreamEvent now ev) -> fr_HangupCause (AddEvent now ev f) <> "".
Proof.
  simpl. intros (Hn & Hs & Hc). unfold AddEvent. rewrite Hn. simpl. unfold add_callstate. by rewrite Hs.
Qed.

Section pages.
Context `{!Table TP FaxPolicyRule, !TableLaws TP FaxPolicyRule}.
Context `{!Table TS FaxPairState, !TableLaws TS FaxPairState}.
Variable cfg : Config.
Variable w : OutWorld.
Notation server := (OutServer TP TS).

Lemma event_loop_safe plan stream result pages handed job (st : server) :
  counted stream result -> is_uint (fr_TransferredPages result) ->
  0 <= pages <= fr_TransferredPages result ->
  fr_TransferredPages result <= Z.of_nat (length (fr_PageResults result)) ->
  event_loop cfg w plan stream result pages handed job st <> Panicked /\
  ((exists item, item ∈ stream /\ terminal item) ->
   exists r e j st', event_loop cfg w plan stream result pages handed job st = Returned r e j st').
Proof.
  revert result pages handed job. induction stream as [|item stream IH]; intros result pages handed job Hc Hu Hp Hl;
    cbn [event_loop].
  { split; [done|]. by intros (? & ?%elem_of_nil & _). }
  destruct item as [now ev|text|name].
  2,3: unfold fail_send; destruct (finish_send _ _ _ _ _ _) as [[r e] j]; split; [done|by eauto].
  cbn [counted] in Hc. destruct Hc as [Hstep Hc].
  pose proof (AddEvent_pages now ev result Hu) as Hu1.
  assert (fr_TransferredPages result <= fr_TransferredPages (AddEvent now ev result)) as Hmono by lia.
  assert (fr_TransferredPages (AddEvent now ev result) <=
          Z.of_nat (length (fr_PageResults (AddEvent now ev result)))) as Hl1.
  { destruct Hstep as [->|[Hpe ->]].
    - pose proof (prefix_length _ _ (m_pages _ _ (AddEvent_merged now ev result))). lia.
    - rewrite (page_event_grows now ev result Hpe). lia. }
  assert (forall pages' handed' job', 0 <= pages' <= fr_TransferredPages (AddEvent now ev result) ->
    fr_HangupCause (AddEvent now ev result) = "" ->
    event_loop cfg w plan stream (AddEvent now ev result) pages' handed' job' st <> Panicked /\
    ((exists item, item ∈ StreamEvent now ev :: stream /\ terminal item) ->
     exists r e j st', event_loop cfg w plan stream (AddEvent now ev result) pages' handed' job' st = Returned r e j st'))
    as Hgo.
  { intros pages' handed' job' Hp' Hh. destruct (IH _ pages' handed' job' Hc Hu1 Hp' Hl1) as [H1 H2].
    split; [done|]. intros (item & [->|Hin]%elem_of_cons & Ht); [by apply (terminal_hangs_up now ev result) in Ht|].
    apply H2. by exists item. }
  destruct (fr_HangupCause (AddEvent now ev result) =? "")%string eqn:Hh; cbn [negb].
  - apply String.eqb_eq in Hh. destruct (is_negotiation ev); [apply Hgo; [lia|done]|].
    destruct (fr_TransferredPages (AddEvent now ev result) =? pages) eqn:Ep; [apply Hgo; [lia|done]|].
    apply Z.eqb_neq in Ep.
    rewrite Z.mod_small by (unfold is_uint in *; lia).
    destruct (nth_error _ _) as [pr|] eqn:En; [apply Hgo; [lia|done]|].
    apply nth_error_None in En. lia.
  - destruct (finish_send _ _ _ _ _ _) as [[r e] j]. split; [done|]. by eauto.
Qed.

(** Without the counting the loop ends as well, but perhaps in a panic. *)
Lemma event_loop_ends plan stream result pages handed job (st : server) :
  (exists item, item ∈ stream /\ terminal item) ->
  event_loop cfg w plan stream result pages handed job st = Panicked \/
  exists r e j st', event_loop cfg w plan stream result pages handed job st = Returned r e j st'.
Proof.
  revert result pages handed job. induction stream as [|item stream IH]; intros result pages handed job (x & Hx & Ht).
  { by apply elem_of_nil in Hx. }
  cbn [event_loop]. destruct item as [now ev|text|name].
  2,3: unfold fail_send; destruct (finish_send _ _ _ _ _ _) as [[r e] j]; right; by eauto.
  destruct (String.eqb_spec (fr_HangupCause (AddEvent now ev result)) "") as [Hh|Hh]; cbn [negb].
  2: { destruct (finish_send _ _ _ _ _ _) as [[r e] j]. right. by eauto. }
  assert (exists item, item ∈ stream /\ terminal item) as Hrest.
  { apply elem_of_cons in Hx as [->|Hx]; [by apply (terminal_hangs_up now ev result) in Ht|by exists x]. }
  destruct (is_negotiation ev); [by apply IH|]. destruct (_ =? pages); [by apply IH|].
  destruct (nth_error _ _); [by apply IH|by left].
Qed.

Lemma SendFax_loop upstreams job0 (st : server) (P : sent server -> Prop) :
  (forall text retry job, P (fail_send w text retry false empty_result job st)) ->
  (forall plan job, P (event_loop cfg w plan (ow_stream w) (NewFaxResult (fj_UUID job0) false) 0 false job st)) ->
  P (SendFax cfg w upstreams job0 st).
Proof.
  intros Hf Hl. unfold SendFax. destruct (open_client _ _) as [[??]|]; [apply Hf|].
  destruct (ow_originate w _); [apply Hf|apply Hl].
Qed.
End pages.

(** ** Properties *)

Section properties.
Context `{!Table TP FaxPolicyRule, !TableLaws TP FaxPolicyRule}.
Context `{!Table TS FaxPairState, !TableLaws TS FaxPairState}.
Variable cfg : Config.
Variable upstreams : list string.
Notation server := (OutServer TP TS).

(** How a send reports: no error exactly when the result it holds says success, and
    then the answer is [SendDone]; a permanent failure is answered only when
    retrying makes no sense (nothing to dial, no gateway, no file, a hangup cause
    configured as final, or the service being stopped); and the job's route is
    not touched. *)
Theorem SendFax_outcome (w : OutWorld) (job0 : FaxJob) (st : server) r e j st'
  (H : SendFax cfg w upstreams job0 st = Returned r e j st') :
  (e = None <-> r = SendDone) /\
  (r = SendDone <-> exists f, fj_Result j = Some f /\ fr_Success f = true) /\
  (r = SendFailed ->
   hopeless cfg w job0
     (originate_command cfg w (call_policy cfg w job0 st)
        (call_plan cfg w upstreams job0 st)
        (apply_plan (call_policy cfg w job0 st) (call_plan cfg w upstreams job0 st)
           (begin_send (c_Faxing cfg) job0)))) /\
  fj_Endpoints j = fj_Endpoints job0 /\ fj_CalleeNumber j = fj_CalleeNumber job0.
Proof.
  apply SendFax_cases in H as ([Hr Hd He _] & Hf & Hroute).
  split; [by rewrite He, Hd|]. split.
  { rewrite Hd, Hr. split; [by eauto|]. by intros (f & [= ->] & ?). }
  split; [exact Hf|]. by destruct Hroute as [([] & _)|([] & _)].
Qed.


(** A send that ends without a hangup teaches nothing; one that ends with a hangup
    learns once: the policy changes only by the success of the call or by a
    failure that qualifies, and the pair state only when the call went upstream
    and no fallback rule switched T.38 off. *)
Theorem SendFax_learns (w : OutWorld) (job0 : FaxJob) (st : server) r e j st'
  (H : SendFax cfg w upstreams job0 st = Returned r e j st') :
  let policy := call_policy cfg w job0 st in
  let src := fj_CallerIdNumber job0 in
  let dst := fj_CalleeNumber job0 in
  (fr_HangupCause (job_result j) = "" -> st' = st) /\
  (fr_HangupCause (job_result j) <> "" -> exists now ev, StreamEvent now ev ∈ ow_stream w /\
    os_policy st' =
      (if fr_Success (job_result j) then LearnFaxPolicySuccess (policy_cfg cfg) now dst (os_policy st)
       else if qualifiesForLearning (Some (job_result j))
       then LearnFaxPolicyFailure (policy_cfg cfg) now dst (Some (job_result j)) (os_policy st)
       else os_policy st) /\
    os_pairs st' =
      (if is_upstream_call upstreams (fj_Endpoints job0) && negb (fp_T38ForcedOff policy)
       then UpdateT38PairState src dst CallTypeSoftmodem (fj_UsedT38 j) now (os_pairs st)
       else os_pairs st)).
Proof.
  apply SendFax_cases in H as (_ & _ & [(_ & -> & Hc)|([Hu _ _ _ _ _] & Hend)]); [by split|].
  unfold call_end in Hend. rewrite call_plan_begin in Hend, Hu.
  change (fj_UsedT38 (apply_plan _ ?p _)) with (cp_enableT38 p) in Hu. rewrite Hu.
  destruct (String.eqb_spec (fr_HangupCause (job_result j)) "") as [Hh|Hh]; [by destruct Hend as [-> _]|].
  split; [done|]. intros _. destruct Hend as (_ & now & ev & Hin & ->). exists now, ev. split; [done|].
  apply learn_outcome_parts.
Qed.

(** Probing works: when a call of a pair went upstream, was not under a fallback
    rule and hung up, the next call of the pair that goes upstream within the
    pair state's lifetime, undecided by policy and with T.38 enabled, uses T.38
    exactly when the previous one did not. *)
Theorem SendFax_alternates (w1 w2 : OutWorld) (job1 job2 : FaxJob) (st : server) r1 e1 j1 st1 r2 e2 j2 st2
  (H1 : SendFax cfg w1 upstreams job1 st = Returned r1 e1 j1 st1)
  (H2 : SendFax cfg w2 upstreams job2 st1 = Returned r2 e2 j2 st2)
  (Hsrc : fj_CallerIdNumber job2 = fj_CallerIdNumber job1) (Hdst : fj_CalleeNumber job2 = fj_CalleeNumber job1)
  (Hup1 : fr_HangupCause (job_result j1) <> "") (Hup2 : fr_HangupCause (job_result j2) <> "")
  (Hroute1 : is_upstream_call upstreams (fj_Endpoints job1) = true)
  (Hroute2 : is_upstream_call upstreams (fj_Endpoints job2) = true)
  (Hoff : fp_T38ForcedOff (call_policy cfg w1 job1 st) = false)
  (Hforce : fj_ForceT38Off job2 = false)
  (Henable : fp_EnableT38 (call_policy cfg w2 job2 st1) = true)
  (Hopen : fp_T38Decided (call_policy cfg w2 job2 st1) = false)
  (Httl : forall now ev, StreamEvent now ev ∈ ow_stream w1 -> ow_now w2 - now <= PairStateTTL (policy_cfg cfg)) :
  fj_UsedT38 j2 = negb (fj_UsedT38 j1).
Proof.
  apply SendFax_cases in H1 as (_ & _ & [(_ & _ & ?)|([Hu1 _ _ _ _ _] & Hend)]); [done|].
  apply SendFax_cases in H2 as (_ & _ & [(_ & _ & ?)|([Hu2 _ _ _ _ _] & _)]); [done|].
  unfold call_end in Hend. apply String.eqb_neq in Hup1. rewrite Hup1 in Hend.
  rewrite call_plan_begin in Hu1, Hend.
  destruct Hend as (_ & now & ev & Hin & ->).
  change (fj_UsedT38 (apply_plan _ ?p _)) with (cp_enableT38 p) in Hu1.
  rewrite call_plan_begin in Hu2. etrans; [exact Hu2|]. etrans; [exact (plan_call_enable _ _ _ _)|].
  rewrite Henable, Hroute2, Hforce, Hopen, Hsrc, Hdst. cbn [andb negb orb].
  rewrite (proj2 (learn_outcome_parts cfg _ _ _ _ _ _ _ _ _)). cbn [cp_upstream cp_fallbackHit call_plan plan_call].
  rewrite Hroute1, Hoff. cbn [andb negb]. rewrite Hu1. apply pair_flip. by eapply Httl.
Qed.

(** When FreeSWITCH counts pages as it reports them, the page index is always in
    range: the server does not panic. *)
Theorem SendFax_pages_in_range (w : OutWorld) (job0 : FaxJob) (st : server)
  (Hc : counted (ow_stream w) (NewFaxResult (fj_UUID job0) false)) :
  SendFax cfg w upstreams job0 st <> Panicked.
Proof.
  apply SendFax_loop.
  - intros text retry job. unfold fail_send. by destruct (finish_send _ _ _ _ _ _) as [[??]?].
  - intros plan job. by apply event_loop_safe.
Qed.

(** C10: a send ends. Once the stream delivers an error of the event socket, a
    stop signal or the hangup of the call, [SendFax] does not wait any longer:
    it returns, or the server panics on a page index out of range. It always
    returns, and never panics, when FreeSWITCH counts pages as it reports them
    ([counted]: the number of transferred pages grows only with a page report,
    and then by one); [lost_page_report_panics] shows that this hypothesis is
    needed, since one lost page report brings the server down. *)
Theorem SendFax_returns (w : OutWorld) (job0 : FaxJob) (st : server)
  (Ht : exists item, item ∈ ow_stream w /\ terminal item) :
  (SendFax cfg w upstreams job0 st = Panicked \/ exists r e j st', SendFax cfg w upstreams job0 st = Returned r e j st') /\
  (counted (ow_stream w) (NewFaxResult (fj_UUID job0) false) ->
   exists r e j st', SendFax cfg w upstreams job0 st = Returned r e j st').
Proof.
  split; [|intros Hc]; apply SendFax_loop.
  1,3: intros text retry job; unfold fail_send; destruct (finish_send _ _ _ _ _ _) as [[??]?]; first [right; by eauto | by eauto].
  - intros plan job. by apply event_loop_ends.
  - intros plan job. by apply event_loop_safe.
Qed.
End properties.

(** ** Witnesses and examples *)

Definition page_event (n : string) : Event :=
  {["Event-Name" := "CUSTOM"; "Event-Subclass" := "spandsp::txfaxpageresult";
    "Fax-Document-Transferred-Pages" := n]}.

Definition negotiation_event : Event :=
  {["Event-Name" := "CUSTOM"; "Event-Subclass" := "spandsp::txfaxnegociateresult"; "Fax-Transfer-Rate" := "14400"]}.

Definition success_event (pages : string) : Event :=
  {["Event-Name" := "CUSTOM"; "Event-Subclass" := "spandsp::txfaxresult"; "Fax-Success" := "1";
    "Fax-Document-Transferred-Pages" := pages]}.

Definition hangup_event : Event :=
  {["Event-Name" := "CHANNEL_CALLSTATE"; "Channel-Call-State" := "HANGUP"; "Hangup-Cause" := "NORMAL_CLEARING"]}.

Definition good_stream : list stream_item :=
  [StreamEvent 11 negotiation_event; StreamEvent 12 (page_event "1"); StreamEvent 13 (page_event "2");
   StreamEvent 14 (success_event "2"); StreamEvent 15 hangup_event].

Definition example_out (stream : list stream_item) (now : Z) : OutWorld :=
  {| ow_now := now; ow_stat := None; ow_dial := None; ow_filter := None; ow_subscribe := None;
     ow_originate := fun _ => None; ow_enum := map_to_list; ow_uuid := fun _ => "u"; ow_stream := stream;
     ow_end := now + 20 |}.

Definition example_out_cfg : Config :=
  zero_config <| c_Faxing := zero_faxing <| fc_EnableT38 := true |> <| fc_RequestT38 := true |> |>.

Definition example_out_job : FaxJob :=
  zero_job <| fj_CalleeNumber := "200" |> <| fj_CallerIdNumber := "100" |>
           <| fj_Endpoints := [example_endpoint 3 "global" 0 "gateway" "carrier:198.51.100.1" 0] |>.

Definition example_server : OutServer (ListTable FaxPolicyRule) (ListTable FaxPairState) :=
  {| os_policy := {| ps_db := fresh_table [] 1 []; ps_cache := None |}; os_pairs := example_pairs |}.

Definition example_send (stream : list stream_item) : sent (OutServer (ListTable FaxPolicyRule) (ListTable FaxPairState)) :=
  SendFax example_out_cfg (example_out stream 10) ["carrier"] example_out_job example_server.

(** A page report lost on the way (or merged with the next) takes the server
    down: the index of the last page is past the end of the page list. *)
Lemma lost_page_report_panics :
  example_send [StreamEvent 12 (page_event "2"); StreamEvent 15 hangup_event] = Panicked /\
  example_send [StreamEvent 14 (success_event "1"); StreamEvent 15 hangup_event] = Panicked.
Proof. split; vm_compute; reflexivity. Qed.

(** The recorded return code is the one before success was known: a fax that was
    sent is stored with code "0", the code for a retry. *)
Lemma sent_fax_recorded_as_retry :
  match example_send good_stream with
  | Returned r _ j _ => r = SendDone /\ fj_Returned j = SendResult_code SendRetry
  | _ => False
  end.
Proof. vm_compute. by split. Qed.

(** A quote in the caller's name ends the quoted value: the rest is read as
    further channel variables. *)
Lemma caller_name_injects_variables :
  dialstring [("origination_caller_id_name", "x',sip_h_X-Bill='other")]
    (example_out_job <| fj_Endpoints := [] |>) =
  "{" +:+ "origination_caller_id_name='x',sip_h_X-Bill='other'}" +:+
  endpointGatewayDialstringOutboundTagged [] "200".
Proof. reflexivity. Qed.

(** A job that must not use T.38 still asks for it when the configuration says
    request without enable. *)
Lemma forced_off_keeps_request policy : fp_EnableT38 policy = false ->
  cp_requestT38 (plan_call policy true true true) = fp_RequestT38 policy.
Proof. unfold plan_call. intros ->. simpl. by rewrite andb_false_r. Qed.

Lemma SendFax_outcome_witness : exists r e j st',
  example_send good_stream = Returned r e j st' /\ (e = None <-> r = SendDone) /\ e = None.
Proof.
  eexists _, _, _, _. split; [vm_compute; reflexivity|]. split; [|reflexivity].
  refine (proj1 (SendFax_outcome example_out_cfg ["carrier"] (example_out good_stream 10) example_out_job
    example_server _ _ _ _ _)). vm_compute. reflexivity.
Defined.


(** A send that learns: answered, hung up, over T.38. *)
Example good_send_learns :
  match example_send good_stream with
  | Returned _ _ j _ =>
      fr_HangupCause (job_result j) = "NORMAL_CLEARING" /\ fr_Success (job_result j) = true /\ fj_UsedT38 j = true
  | _ => False
  end.
Proof. vm_compute. repeat split. Qed.

Lemma SendFax_pages_in_range_witness : example_send good_stream <> Panicked.
Proof.
  apply (SendFax_pages_in_range example_out_cfg ["carrier"] (example_out good_stream 10)).
  vm_compute. repeat split; first [left; reflexivity | right; split; reflexivity].
Defined.

Lemma SendFax_returns_witness : exists r e j st', example_send good_stream = Returned r e j st'.
Proof.
  apply (SendFax_returns example_out_cfg ["carrier"] (example_out good_stream 10)).
  - exists (StreamEvent 15 hangup_event). split; [do 4 right; left|]. vm_compute. repeat split; discriminate.
  - vm_compute. repeat split; first [left; reflexivity | right; split; reflexivity].
Defined.

Definition returned_job {St} (x : sent St) : FaxJob :=
  match x with Returned _ _ j _ => j | _ => zero_job end.
Definition returned_server {St} (st : St) (x : sent St) : St :=
  match x with Returned _ _ _ st' => st' | _ => st end.

(** The second call of the example pair, placed after the first hung up. *)
Lemma SendFax_alternates_witness :
  let first := example_send good_stream in
  let second := SendFax example_out_cfg (example_out good_stream 40) ["carrier"] example_out_job
                  (returned_server example_server first) in
  fj_UsedT38 (returned_job second) = negb (fj_UsedT38 (returned_job first)).
Proof.
  intros first second.
  assert (SendFax example_out_cfg (example_out good_stream 10) ["carrier"] example_out_job example_server =
          Returned SendDone None (returned_job first) (returned_server example_server first)) as H1
    by (vm_compute; reflexivity).
  assert (SendFax example_out_cfg (example_out good_stream 40) ["carrier"] example_out_job
            (returned_server example_server first) =
          Returned SendDone None (returned_job second) (returned_server example_server second)) as H2
    by (vm_compute; reflexivity).
  refine (SendFax_alternates example_out_cfg ["carrier"] (example_out good_stream 10) (example_out good_stream 40)
    _ _ _ _ _ _ _ _ _ _ _ H1 H2 eq_refl eq_refl _ _ eq_refl eq_refl _ eq_refl _ _ _);
    [vm_compute; discriminate..| | | |]; [vm_compute; reflexivity..|].
  intros now ev Hin. apply list_elem_of_In in Hin.
  repeat (destruct Hin as [Hin|Hin]; [injection Hin as <- _; vm_compute; discriminate|]). destruct Hin.
Defined.
