(* ===== verification/NotifyDispatch.v ===== *)
(** * NotifyDispatch: telling people about a finished fax
    ([gofaxserver/notify.go], second half)

    The outcome of a job is collapsed into one payload, rendered as a mail or a
    report, and sent to every resolved destination; each dispatch leaves a
    "notify" row. The results are a map that Go enumerates in any order, so the
    enumeration is an argument and the theorems hold for every one. The mail
    transport, HTTP, the converters and the file system are the record [IO]. *)

From S2P Require Import Prelude Config Store Secrets FaxResult FaxJob Directory Notify JobResult Queue Backend.

Record NotifyFaxResults := {
  nf_Results : gmap Z FaxJob;
  nf_FaxJob : FaxJob;
  nf_AllAttemptsFailed : bool;
}.

Record PortalStatusPayload := {
  pp_UUID : Z; pp_Success : bool; pp_AllAttemptsFailed : bool; pp_Attempts : Z;
  pp_TransferredPages : Z; pp_TotalPages : Z; pp_ResultText : string; pp_HangupCause : string;
  pp_CallerIdNumber : string; pp_CalleeNumber : string; pp_StartTs : Z; pp_EndTs : Z;
}.

(** ** Collapsing the attempts *)

Definition is_call_leg (job : FaxJob) : bool :=
  match fj_Endpoints job with
  | [] => false
  | ep :: _ => (ep_EndpointType ep =? "reception")%string || (ep_EndpointType ep =? "bridge")%string
  end.

(** The variables of the loop. *)
Record Collapse := {
  co_pages : Z; co_total : Z;
  co_call : option FaxResult; co_success : option FaxResult; co_last : option FaxResult;
}.

Definition collapse_step (c : Collapse) (job : FaxJob) : Collapse :=
  match fj_Result job with
  | None => c
  | Some r => {|
      co_pages := if co_pages c <? fr_TransferredPages r then fr_TransferredPages r else co_pages c;
      co_total := if co_total c <? fr_TotalPages r then fr_TotalPages r else co_total c;
      co_call := match co_call c with Some x => Some x | None => if is_call_leg job then Some r else None end;
      co_success := match co_success c with Some x => Some x | None => if fr_Success r then Some r else None end;
      co_last := match co_last c with
                 | Some l => if fr_EndTs l <? fr_EndTs r then Some r else Some l
                 | None => Some r
                 end |}
  end.

Definition collapse (order : list FaxJob) : Collapse :=
  foldl collapse_step {| co_pages := 0; co_total := 0; co_call := None; co_success := None; co_last := None |} order.

Definition chosen (c : Collapse) : option FaxResult :=
  match co_call c with
  | Some r => Some r
  | None => match co_success c with Some r => Some r | None => co_last c end
  end.

Definition buildPortalStatusPayload (nfr : NotifyFaxResults) (order : list FaxJob) : PortalStatusPayload :=
  let c := collapse order in
  let ch := chosen c in
  {| pp_UUID := fj_UUID (nf_FaxJob nfr);
     pp_Success := match ch with Some r => fr_Success r | None => false end;
     pp_AllAttemptsFailed := nf_AllAttemptsFailed nfr;
     pp_Attempts := Z.of_nat (size (nf_Results nfr));
     pp_TransferredPages := co_pages c; pp_TotalPages := co_total c;
     pp_ResultText := match ch with Some r => fr_ResultText r | None => "" end;
     pp_HangupCause := match ch with Some r => fr_HangupCause r | None => "" end;
     pp_CallerIdNumber := fj_CallerIdNumber (nf_FaxJob nfr);
     pp_CalleeNumber := fj_CalleeNumber (nf_FaxJob nfr);
     pp_StartTs := match ch with Some r => fr_StartTs r | None => time_zero end;
     pp_EndTs := match ch with Some r => fr_EndTs r | None => time_zero end |}.

(** ** Text *)

Definition jobIsOutboundSend (j : FaxJob) : bool :=
  negb (fj_IsBridge j) && negb (si_SourceType (fj_SourceInfo j) =? "gateway")%string.

Definition pagesSummary (transferred total : Z) (showTotal : bool) : string :=
  if showTotal && (0 <? total) then
    if (transferred =? 1) && (total =? 1) then "1/1 page"
    else dec_string transferred +:+ "/" +:+ dec_string total +:+ " pages"
  else if transferred =? 1 then "1 page"
  else dec_string transferred +:+ " pages".

Definition pagesSummaryPlain (transferred total : Z) (showTotal : bool) : string :=
  if showTotal && (0 <? total) then dec_string transferred +:+ "/" +:+ dec_string total
  else dec_string transferred.

Definition crlf : string := String "013" (String "010" "").

Definition first_of (a b c : string) : string :=
  if (a =? "")%string then if (b =? "")%string then c else b else a.

Section text.
(** [uuid.String] and [time.Format], which reads the local time zone. *)
Variable uuid_string : Z -> string.
Variable format_time : string -> Z -> string.

Definition mail_subject (p : PortalStatusPayload) (j : FaxJob) : string :=
  let phrase :=
    if fj_IsBridge j then "Bridged fax " +:+ fj_CallerIdNumber j +:+ " → " +:+ fj_CalleeNumber j
    else if (si_SourceType (fj_SourceInfo j) =? "gateway")%string then "Fax from " +:+ fj_CallerIdNumber j
    else "Fax to " +:+ fj_CalleeNumber j in
  if pp_Success p
  then phrase +:+ " succeeded (" +:+
       pagesSummary (pp_TransferredPages p) (pp_TotalPages p) (jobIsOutboundSend j) +:+ ")"
  else phrase +:+ " FAILED (" +:+ first_of (pp_HangupCause p) (pp_ResultText p) "unknown error" +:+ ")".

(** A line that is only written when its value is there. *)
Definition opt_line (label value : string) : string :=
  if (value =? "")%string then "" else label +:+ value +:+ nl.

Definition time_line (label : string) (t : Z) : string :=
  if is_zero_time t then "" else label +:+ format_time "2006-01-02 15:04:05 MST" t +:+ nl.

Definition mail_body (p : PortalStatusPayload) (j : FaxJob) (kind : string) : string :=
  let from := if (fj_CallerIdName j =? "")%string then fj_CallerIdNumber j
              else fj_CallerIdNumber j +:+ " (" +:+ fj_CallerIdName j +:+ ")" in
  let direction := if fj_IsBridge j then "Bridged"
                   else if (si_SourceType (fj_SourceInfo j) =? "gateway")%string then "Received" else "Sent" in
  mail_subject p j +:+ nl +:+ nl +:+
  "Status:    " +:+ (if pp_Success p then "SUCCESS" else "FAILED") +:+ nl +:+
  "Direction: " +:+ direction +:+ nl +:+
  "From:      " +:+ from +:+ nl +:+
  "To:        " +:+ fj_CalleeNumber j +:+ nl +:+
  "Pages:     " +:+ pagesSummaryPlain (pp_TransferredPages p) (pp_TotalPages p) (jobIsOutboundSend j) +:+ nl +:+
  "Attempts:  " +:+ dec_string (pp_Attempts p) +:+ nl +:+
  opt_line "Result:    " (pp_ResultText p) +:+
  opt_line "Cause:     " (pp_HangupCause p) +:+
  time_line "Started:   " (pp_StartTs p) +:+
  time_line "Completed: " (pp_EndTs p) +:+
  "Job UUID:  " +:+ uuid_string (pp_UUID p) +:+ nl +:+
  (if (kind =? "email_full")%string || (kind =? "email_full_failure")%string
   then nl +:+ "The detailed fax report and the original fax are attached." +:+ nl
   else nl +:+ "The detailed fax report is attached." +:+ nl).

Definition emailSubjectBody (nfr : NotifyFaxResults) (order : list FaxJob) (kind : string) : string * string :=
  let p := buildPortalStatusPayload nfr order in
  (mail_subject p (nf_FaxJob nfr), mail_body p (nf_FaxJob nfr) kind).

(** ** The report *)

(** [GetStringWidth] is the font's. *)
Fixpoint fit_go (fits : string -> bool) (fuel : nat) (text : string) : string :=
  match fuel with
  | O => text
  | S fuel' =>
      if negb (fits (text +:+ "...")) && nonempty text
      then fit_go fits fuel' (str_take (String.length text - 1) text)
      else text
  end.

Definition fitText (fits : string -> bool) (text : string) : string :=
  if fits text then text else fit_go fits (String.length text) text +:+ "...".

(** The cells of one attempt: call, time, status, pages, message. *)
Definition report_row (nfr : NotifyFaxResults) (faxJob : FaxJob) : list string :=
  let showTotal := jobIsOutboundSend (nf_FaxJob nfr) in
  let shortCallID := List.last (str_split "-" (uuid_string (fj_CallUUID faxJob))) "" in
  let endpointType := match fj_Endpoints faxJob with ep :: _ => ep_EndpointType ep | [] => "fax" end in
  match fj_Result faxJob with
  | None => [shortCallID; ""; "failed (" +:+ endpointType +:+ ")"; ""; fj_Status faxJob]
  | Some r =>
      [shortCallID; format_time "2006-01-02 15:04:05" (fr_EndTs r);
       (if fr_Success r then "success" else "failed") +:+ " (" +:+ endpointType +:+ ")";
       (if (0 <? fr_TransferredPages r) || (showTotal && (0 <? fr_TotalPages r))
        then pagesSummaryPlain (fr_TransferredPages r) (fr_TotalPages r) showTotal else "");
       first_of (fr_ResultText r) (fr_HangupCause r) (fj_Status faxJob)]
  end.

End text.

(** ** Mail *)

Record SMTPConfig := {
  smtp_Host : string; smtp_Port : Z; smtp_Username : string; smtp_Password : string;
  smtp_Encryption : string; smtp_FromAddress : string; smtp_FromName : string;
}.

Definition maxLineLen : nat := 76.

(** [for i := 0; i < len(encoded); i += maxLineLen]. *)
Fixpoint line_loop (fuel : nat) (encoded : string) : list string :=
  match fuel with
  | O => []
  | S fuel' =>
      if (encoded =? "")%string then []
      else str_take maxLineLen encoded :: line_loop fuel' (str_drop maxLineLen encoded)
  end.

Definition attachment_lines (encoded : string) : list string := line_loop (String.length encoded) encoded.

Definition boundary : string := "myBoundary123456789".

Definition quoted (s : string) : string := String "034" (s +:+ String "034" "").

Definition lines_of (l : list string) : string := str_join "" (map (fun x => x +:+ crlf) l).

Definition mail_headers (smtp : SMTPConfig) (subject to : string) : list (string * string) :=
  [("From", smtp_FromName smtp +:+ " <" +:+ smtp_FromAddress smtp +:+ ">"); ("To", to); ("Subject", subject);
   ("MIME-Version", "1.0"); ("Content-Type", "multipart/mixed; boundary=" +:+ boundary)].

(** [filepath.Base] of a clean path. *)
Definition base_name (path : string) : string := List.last (str_split "/" path) "".

Definition attachment_part (path content : string) : string :=
  lines_of (["--" +:+ boundary;
             "Content-Type: application/octet-stream; name=" +:+ quoted (base_name path);
             "Content-Transfer-Encoding: base64";
             "Content-Disposition: attachment; filename=" +:+ quoted (base_name path); ""] ++
            attachment_lines (EncodeToString content)).

Inductive smtp_cmd := CmdMail (from : string) | CmdRcpt (to : string) | CmdData (msg : string).

(** The mail transport: [ml_order] is the order in which the header map is
    enumerated; the rest are errors, [None] when there is none. *)
Record Mailer := {
  ml_order : list (string * string) -> list (string * string);
  ml_read : string -> res string;
  ml_dial : option string; ml_client : option string; ml_auth : option string;
  ml_reply : smtp_cmd -> option string;
  ml_SendMail : string -> list string -> string -> option string;
}.

Fixpoint attachment_parts (read : string -> res string) (paths : list string) : res string :=
  match paths with
  | [] => Ok ""
  | p :: paths' =>
      match read p with
      | Err e => Err ("failed to read attachment " +:+ p +:+ ": " +:+ e)
      | Ok content =>
          match attachment_parts read paths' with
          | Err e => Err e
          | Ok rest => Ok (attachment_part p content +:+ rest)
          end
      end
  end.

Definition mail_message (ml : Mailer) (smtp : SMTPConfig) (subject to body parts : string) : string :=
  lines_of (map (fun kv => kv.1 +:+ ": " +:+ kv.2) (ml_order ml (mail_headers smtp subject to))) +:+ crlf +:+
  lines_of ["--" +:+ boundary; "Content-Type: text/plain; charset=" +:+ quoted "utf-8";
            "Content-Transfer-Encoding: 7bit"; ""; body] +:+
  parts +:+ lines_of ["--" +:+ boundary +:+ "--"].

(** The envelope recipients: trimmed after empty tokens were dropped. *)
Definition mail_recipients (to : string) : list string := map trim_space (fields_func recipient_sep to).

(** Commands until one fails. *)
Fixpoint smtp_dialogue (reply : smtp_cmd -> option string) (cmds : list smtp_cmd) : option string :=
  match cmds with
  | [] => None
  | c :: cmds' => match reply c with Some e => Some e | None => smtp_dialogue reply cmds' end
  end.

Definition SendEmailWithAttachment (ml : Mailer) (smtp : SMTPConfig) (subject to body : string)
  (attachmentPaths : list string) : option string :=
  match attachment_parts (ml_read ml) attachmentPaths with
  | Err e => Some e
  | Ok parts =>
      let msg := mail_message ml smtp subject to body parts in
      let recipients := mail_recipients to in
      let enc := to_lower (smtp_Encryption smtp) in
      if (enc =? "tls")%string || (enc =? "ssl")%string then
        match ml_dial ml, ml_client ml, (if (smtp_Username smtp =? "")%string then None else ml_auth ml) with
        | Some e, _, _ => Some ("failed to dial TLS: " +:+ e)
        | None, Some e, _ => Some ("failed to create SMTP client: " +:+ e)
        | None, None, Some e => Some ("failed to authenticate: " +:+ e)
        | None, None, None =>
            smtp_dialogue (ml_reply ml)
              (CmdMail (smtp_FromAddress smtp) :: map CmdRcpt recipients ++ [CmdData msg])
        end
      else
        match ml_SendMail ml (smtp_FromAddress smtp) recipients msg with
        | Some e => Some ("failed to send email: " +:+ e)
        | None => None
        end
  end.

(** ** Dispatch *)

(** What one dispatch reads of the world. *)
Record IO := {
  io_mailer : Mailer;
  io_order : list FaxJob;                          (* this goroutine's enumeration *)
  io_tiffToPdf : string -> res string;
  io_webhook_payload : res string;                 (* reading the report, marshalling it *)
  io_form_payload : res string;                    (* marshalling, and the multipart body *)
  io_portal_payload : PortalStatusPayload -> res string;
  io_post : string -> string -> res Z;             (* http.NewRequest and client.Do *)
}.

Inductive delivery :=
| Mailed (subject to : string) (attachments : list string)
| Posted (url body : string).

Record Dispatch := { do_outcome : string; do_detail : string; do_attempts : list delivery }.

Section dispatch.
Variable uuid_string : Z -> string.
Variable format_time : string -> Z -> string.
Variable smtp : SMTPConfig.
Variable portalURL : string.
Variable nfr : NotifyFaxResults.
Variables faxReport firstPageTiffPDF : string.

Definition skipped (detail : string) : Dispatch :=
  {| do_outcome := "skipped"; do_detail := detail; do_attempts := [] |}.

Definition send_mail (io : IO) (kind label to : string) (attachments : list string) : Dispatch :=
  let '(subject, body) := emailSubjectBody uuid_string format_time nfr (io_order io) kind in
  let sends := [Mailed subject to attachments] in
  match SendEmailWithAttachment (io_mailer io) smtp subject to body attachments with
  | Some e => {| do_outcome := "failed"; do_detail := label +:+ " -> " +:+ to +:+ ": " +:+ e; do_attempts := sends |}
  | None => {| do_outcome := "sent"; do_detail := label +:+ " -> " +:+ to +:+ ": sent"; do_attempts := sends |}
  end.

(** The common tail of the three HTTP types. *)
Definition send_post (io : IO) (label to url : string) (payload : res string) : Dispatch :=
  match payload with
  | Err e => {| do_outcome := "failed"; do_detail := label +:+ " -> " +:+ to +:+ ": " +:+ e; do_attempts := [] |}
  | Ok body =>
      let sends := [Posted url body] in
      match io_post io url body with
      | Err e => {| do_outcome := "failed"; do_detail := label +:+ " -> " +:+ to +:+ ": " +:+ e; do_attempts := sends |}
      | Ok code =>
          if (200 <=? code) && (code <? 300)
          then {| do_outcome := "sent"; do_attempts := sends;
                  do_detail := label +:+ " -> " +:+ to +:+ ": sent (HTTP " +:+ int_string code +:+ ")" |}
          else {| do_outcome := "failed"; do_attempts := sends;
                  do_detail := label +:+ " -> " +:+ to +:+ ": HTTP " +:+ int_string code |}
      end
  end.

(** The report, and the fax itself when it converts. *)
Definition full_attachments (io : IO) : list string :=
  faxReport :: match io_tiffToPdf io (fj_FileName (nf_FaxJob nfr)) with Ok pdf => [pdf] | Err _ => [] end.

Definition send_webhook (io : IO) (to : string) : Dispatch := send_post io "webhook" to to (io_webhook_payload io).

(** The form attaches the first page: without it there is nothing to post. *)
Definition send_webhook_form (io : IO) (to : string) : Dispatch :=
  if (firstPageTiffPDF =? "")%string
  then skipped ("webhook_form -> " +:+ to +:+ ": skipped, no first-page PDF available")
  else send_post io "webhook_form" to to (io_form_payload io).

Definition send_portal (io : IO) (to : string) : Dispatch :=
  let portalBase := trim_slashes portalURL in
  if (portalBase =? "")%string
  then skipped ("portal -> " +:+ to +:+ ": skipped, portal.url is empty")
  else send_post io "portal" to (portalBase +:+ "/portal/api/notify/" +:+ to)
         (io_portal_payload io (buildPortalStatusPayload nfr (io_order io))).

Definition dispatch (io : IO) (dest : NotifyDestination) : Dispatch :=
  let type := nd_Type dest in
  let to := nd_Destination dest in
  if (type =? "email")%string || (type =? "email_report")%string then
    send_mail io "email_report" "email_report" to [faxReport]
  else if (type =? "email_full")%string || (type =? "email_full_failure")%string then
    if (type =? "email_full_failure")%string && negb (nf_AllAttemptsFailed nfr)
    then skipped ("email_full_failure -> " +:+ to +:+ ": skipped, not all attempts failed")
    else send_mail io type type to (full_attachments io)
  else if (type =? "webhook")%string then send_webhook io to
  else if (type =? "webhook_form")%string then send_webhook_form io to
  else if (type =? "portal")%string then send_portal io to
  else if (type =? "gateway")%string then skipped ("gateway -> " +:+ to +:+ ": skipped, not implemented")
  else skipped (type +:+ " -> " +:+ to +:+ ": skipped, unknown notify destination type").

(** [recordNotifyDelivery]. *)
Definition notify_row (f : FaxJob) (dest : NotifyDestination) (d : Dispatch) (start stop : Z) : FaxJobResult :=
  zero_record
    <| jr_SrcTenantID := fj_SrcTenantID f |> <| jr_DstTenantID := fj_DstTenantID f |>
    <| jr_JobUUID := fj_UUID f |> <| jr_CallUUID := fj_UUID f |>
    <| jr_CalleeNumber := fj_CalleeNumber f |> <| jr_CallerIdNumber := fj_CallerIdNumber f |>
    <| jr_CallerIdName := fj_CallerIdName f |> <| jr_FileName := fj_FileName f |>
    <| jr_IsBridge := fj_IsBridge f |> <| jr_ResultType := "notify" |>
    <| jr_EndpointType := nd_Type dest |> <| jr_Status := do_outcome d |>
    <| jr_Success := (do_outcome d =? "sent")%string |> <| jr_ResultText := do_detail d |>
    <| jr_StartTs := Some start |> <| jr_EndTs := Some stop |> <| jr_CreatedAt := stop |>.

Section rows.
Context `{!Table T FaxJobResult, !TableLaws T FaxJobResult}.

Definition recordNotifyDelivery (dest : NotifyDestination) (d : Dispatch) (start stop : Z) (t : T) : T :=
  (tbl_create (notify_row (nf_FaxJob nfr) dest d start stop) t).2.

(** The goroutines of one job, in the order in which they finish: [world]
    gives each its input and its start and end times. *)
Definition processNotifyDestinationsAsync (report : res string) (world : nat -> IO * Z * Z)
  (finished : list (nat * NotifyDestination)) (t : T) : T * list delivery :=
  match finished, report with
  | [], _ => (t, [])
  | _, Err _ => (t, [])
  | _, Ok _ =>
      foldl (fun '(t, sends) '(i, dest) =>
        let '(io, start, stop) := world i in
        let d := dispatch io dest in
        (recordNotifyDelivery dest d start stop t, sends ++ do_attempts d)) (t, []) finished
  end.
End rows.
End dispatch.

(** ** Facts *)

(** *** The collapsed outcome does not depend on the enumeration *)


(** ** The collapsed outcome *)

Definition call_result (j : FaxJob) : option FaxResult := if is_call_leg j then fj_Result j else None.
Definition success_result (j : FaxJob) : option FaxResult :=
  match fj_Result j with Some r => if fr_Success r then Some r else None | None => None end.

Lemma collapse_first (sel : Collapse -> option FaxResult) (P : FaxJob -> option FaxResult) order c :
  (forall c j, sel (collapse_step c j) = match sel c with Some x => Some x | None => P j end) ->
  sel (foldl collapse_step c order) = match sel c with Some x => Some x | None => head (omap P order) end.
Proof.
  intros H. revert c. induction order as [|j order IH]; intros c; simpl; [by destruct (sel c)|].
  rewrite IH, H. destruct (sel c); [done|]. by destruct (P j).
Qed.

Lemma collapse_call order : co_call (collapse order) = head (omap call_result order).
Proof.
  unfold collapse. rewrite (collapse_first co_call call_result); [done|].
  intros c j. unfold collapse_step, call_result.
  destruct (fj_Result j); simpl; destruct (co_call c); try done; by destruct (is_call_leg j).
Qed.

Lemma collapse_success order : co_success (collapse order) = head (omap success_result order).
Proof.
  unfold collapse. rewrite (collapse_first co_success success_result); [done|].
  intros c j. unfold collapse_step, success_result.
  destruct (fj_Result j); simpl; destruct (co_success c); done.
Qed.

(** The latest result is one of the results. *)
Lemma collapse_last order r : co_last (collapse order) = Some r -> exists j, j ∈ order /\ fj_Result j = Some r.
Proof.
  unfold collapse. intros H.
  assert (forall l c, co_last (foldl collapse_step c l) = Some r ->
    co_last c = Some r \/ exists j, j ∈ l /\ fj_Result j = Some r) as Hg.
  { clear H order. induction l as [|j l IH]; intros c H; [by left|]. simpl in H.
    destruct (IH _ H) as [Hc|(x & Hx & Hr)]; [|right; exists x; split; [by right|done]].
    unfold collapse_step in Hc. destruct (fj_Result j) as [q|] eqn:Hq; [|by left]. simpl in Hc.
    destruct (co_last c) as [q0|]; [destruct (_ <? _); simplify_eq; [|by left]|simplify_eq];
      right; exists j; split; [by left|done| |done]; by left. }
  destruct (Hg _ _ H) as [?|?]; done.
Qed.

Lemma head_omap_elem {A B} (P : A -> option B) l b : head (omap P l) = Some b -> exists a, a ∈ l /\ P a = Some b.
Proof.
  intros H. assert (b ∈ omap P l) as Hb by (destruct (omap P l); simplify_eq/=; by left).
  by apply list_elem_of_omap in Hb.
Qed.

Lemma head_omap_none {A B} (P : A -> option B) l : head (omap P l) = None -> forall a, a ∈ l -> P a = None.
Proof.
  intros H a Ha. destruct (P a) as [b|] eqn:E; [|done].
  assert (b ∈ omap P l) as Hb by (apply list_elem_of_omap; eauto).
  by destruct (omap P l); [apply elem_of_nil in Hb|].
Qed.

(** The reported success: that of the call leg when there is one, otherwise
    whether any attempt succeeded, whatever the enumeration. *)
Lemma payload_success nfr order :
  (forall x y, x ∈ order -> y ∈ order -> is_Some (call_result x) -> is_Some (call_result y) ->
     call_result x = call_result y) ->
  forall (call : option FaxJob),
  (forall c, call = Some c -> c ∈ order /\ is_Some (call_result c)) ->
  (call = None -> forall x, x ∈ order -> call_result x = None) ->
  pp_Success (buildPortalStatusPayload nfr order) =
    match call with Some c => job_success c | None => existsb job_success order end.
Proof.
  intros Huniq call Hsome Hnone. unfold buildPortalStatusPayload, chosen. simpl.
  rewrite collapse_call, collapse_success. destruct call as [c|].
  - destruct (Hsome c eq_refl) as [Hc [r Hr]].
    destruct (head (omap call_result order)) as [r'|] eqn:E.
    + apply head_omap_elem in E as (x & Hx & Hxr).
      assert (Some r' = Some r) as [= ->].
      { rewrite <- Hxr, <- Hr. apply Huniq; rewrite ?Hxr, ?Hr; eauto. }
      unfold job_success. unfold call_result in Hr. destruct (is_call_leg c); [|done]. by rewrite Hr.
    + by rewrite (head_omap_none _ _ E _ Hc) in Hr.
  - assert (head (omap call_result order) = None) as ->.
    { destruct (head (omap call_result order)) as [r'|] eqn:E; [|done].
      apply head_omap_elem in E as (x & Hx & Hxr). by rewrite (Hnone eq_refl _ Hx) in Hxr. }
    destruct (head (omap success_result order)) as [r|] eqn:E.
    + apply head_omap_elem in E as (x & Hx & Hxr). unfold success_result in Hxr.
      destruct (fj_Result x) as [q|] eqn:Hq; [|done]. destruct (fr_Success q) eqn:Hs; [|done].
      simplify_eq. rewrite Hs. symmetry. apply existsb_exists. exists x.
      split; [by apply list_elem_of_In|]. unfold job_success. by rewrite Hq.
    + assert (existsb job_success order = false) as ->.
      { apply not_true_iff_false. rewrite existsb_exists. intros (x & Hx%list_elem_of_In & Hs).
        pose proof (head_omap_none _ _ E _ Hx) as Hn. unfold success_result, job_success in *.
        destruct (fj_Result x); [|done]. by rewrite Hs in Hn. }
      destruct (co_last (collapse order)) as [r|] eqn:El; [|done].
      apply collapse_last in El as (x & Hx & Hr). pose proof (head_omap_none _ _ E _ Hx) as Hn.
      unfold success_result in Hn. rewrite Hr in Hn. by destruct (fr_Success r).
Qed.

(** ** Agreement with the failure flag *)

(** A job as the server queues it: a call outcome is that of a reception or a
    bridge without deliveries; a submitted job has none. *)
Definition queued_shape (f : FaxJob) (t : list qevent) : Prop :=
  call_outcome f = None \/ is_reception f = true \/ omap result_job t = [].

Lemma call_outcome_leg f c : call_outcome f = Some c ->
  is_call_leg c = true /\ fj_Result c = fj_Result f /\ is_Some (fj_Result f) /\ isPlaceholderResult f = false.
Proof.
  unfold call_outcome. destruct (fj_Result f) as [r|] eqn:Hr; [|done].
  destruct (isPlaceholderResult f); [done|]. intros [= <-].
  split; [|split; [|done]].
  - unfold is_call_leg. simpl. by destruct (fj_IsBridge f).
  - simpl. by destruct (_ =? _).
Qed.

Lemma is_reception_outcome f : is_reception f = true -> exists c, call_outcome f = Some c.
Proof.
  unfold is_reception, call_outcome. destruct (fj_Result f); [|done].
  intros [_ Hp]%andb_prop. apply negb_true_iff in Hp. rewrite Hp. eauto.
Qed.

(** The portal payload and the failure flag of a finished job never
    contradict each other: the payload reports success exactly when the flag
    that gates failure-only mails is off, whatever order the result map is
    enumerated in. *)
Theorem payload_agrees_with_failure_flag f t order :
  distinct_calls f t -> queued_shape f t ->
  Forall (fun ff => is_call_leg ff = false) (omap result_job t) ->
  order ≡ₚ map snd (map_to_list (notify_results f t)) ->
  let nfr := {| nf_Results := notify_results f t; nf_FaxJob := f;
                nf_AllAttemptsFailed := computeAllAttemptsFailed f (notify_results f t) |} in
  pp_Success (buildPortalStatusPayload nfr order) = negb (nf_AllAttemptsFailed nfr).
Proof.
  intros Hd Hshape Hlegs Hperm nfr.
  change (nf_AllAttemptsFailed nfr) with (computeAllAttemptsFailed f (notify_results f t)).
  assert (forall x, x ∈ order <-> x ∈ option_list (call_outcome f) ++ omap result_job t) as Hin.
  { intros x. rewrite Hperm. by apply notify_results_values. }
  assert (forall x, x ∈ order -> is_Some (call_result x) -> call_outcome f = Some x) as Hcall.
  { intros x [Hx|Hx]%Hin%elem_of_app [r Hr].
    - destruct (call_outcome f); [by apply list_elem_of_singleton in Hx as ->|by apply elem_of_nil in Hx].
    - unfold call_result in Hr. by rewrite (proj1 (Forall_forall _ _) Hlegs _ Hx) in Hr. }
  rewrite (payload_success nfr order) with (call := call_outcome f).
  - rewrite failure_flag_exact by done.
    destruct (call_outcome f) as [c|] eqn:Ec.
    + destruct (call_outcome_leg _ _ Ec) as (_ & Hr & _).
      assert (job_success c = job_success f) as Hjs by (unfold job_success; by rewrite Hr).
      rewrite Hjs. destruct Hshape as [?|[->|Ht]]; [congruence|by rewrite negb_involutive|].
      rewrite Ht. destruct (is_reception f); simpl; rewrite ?Hjs; by destruct (job_success f).
    + destruct (is_reception f) eqn:Hrec.
      { apply is_reception_outcome in Hrec as [c Hc]. congruence. }
      rewrite (forallb_ext_elem _ _ order) by (intros x; by rewrite Hin).
      clear. induction order as [|x l IH]; simpl; [done|]. rewrite IH. by destruct (job_success x).
  - intros x y Hx Hy Hsx Hsy. pose proof (Hcall _ Hx Hsx). pose proof (Hcall _ Hy Hsy). congruence.
  - intros c Hc. split; [apply Hin; rewrite Hc; by left|].
    apply call_outcome_leg in Hc as (Hl & Hr & Hs & _). unfold call_result. by rewrite Hl, Hr.
  - intros Hn x Hx. destruct (call_result x) as [r|] eqn:E; [|done].
    rewrite (Hcall x Hx) in Hn; [done|by rewrite E].
Qed.

(** ** Bounds of what is sent *)

Lemma str_join_nil_cons w ws : str_join "" (w :: ws) = w +:+ str_join "" ws.
Proof. destruct ws; [|done]. simpl. induction w as [|c w IH]; [done|]. rewrite str_app_cons. by f_equal. Qed.

(** An attachment is broken into base64 lines of at most 76
    characters, all full but perhaps the last, and the lines together are the
    encoded attachment: the loop ends and loses nothing. *)
Theorem attachment_lines_bounded s :
  str_join "" (attachment_lines s) = s /\
  Forall (fun l => (0 < String.length l <= 76)%nat) (attachment_lines s) /\
  (forall l1 a b l2, attachment_lines s = l1 ++ a :: b :: l2 -> String.length a = 76%nat).
Proof.
  unfold attachment_lines.
  assert (forall fuel s, (String.length s <= fuel)%nat ->
    str_join "" (line_loop fuel s) = s /\
    Forall (fun l => (0 < String.length l <= 76)%nat) (line_loop fuel s) /\
    (forall l1 a b l2, line_loop fuel s = l1 ++ a :: b :: l2 -> String.length a = 76%nat)) as H.
  { clear s. induction fuel as [|fuel IH]; intros s Hs; cbn [line_loop].
    - destruct s; simpl in Hs; [|lia]. split; [done|]. split; [done|]. by intros [|??].
    - destruct (s =? "")%string eqn:E; [apply String.eqb_eq in E as ->|].
      { split; [done|]. split; [done|]. by intros [|??]. }
      assert (0 < String.length s)%nat as Hpos by (destruct s; simpl in *; [done|lia]).
      destruct (IH (str_drop maxLineLen s)) as (IH1 & IH2 & IH3).
      { rewrite str_drop_length. unfold maxLineLen. lia. }
      split; [rewrite str_join_nil_cons, IH1; apply str_take_drop|]. split.
      + constructor; [|done]. rewrite str_take_length. unfold maxLineLen. lia.
      + intros [|x l1] a b l2 Heq; [|injection Heq as _ Heq; by eapply IH3].
        rewrite app_nil_l in Heq. assert (a = str_take maxLineLen s) as -> by congruence.
        assert (line_loop fuel (str_drop maxLineLen s) = b :: l2) as Heq' by congruence. clear Heq.
        rewrite str_take_length.
        destruct (decide (76 <= String.length s)%nat) as [Hle|Hgt]; [unfold maxLineLen; lia|].
        exfalso. assert (str_drop maxLineLen s = "") as Hd.
        { destruct (str_drop maxLineLen s) eqn:Hd; [done|].
          pose proof (str_drop_length maxLineLen s) as Hl. rewrite Hd in Hl. unfold maxLineLen in Hl. simpl in Hl. lia. }
        rewrite Hd in Heq'. by destruct fuel. }
  by apply H.
Qed.

(** A report cell is cut until it fits, or to the bare ellipsis. *)
Lemma fit_go_spec fits fuel text : (String.length text <= fuel)%nat ->
  let out := fit_go fits fuel text in
  (exists rest, text = out +:+ rest) /\ (fits (out +:+ "...") = true \/ out = "").
Proof.
  revert text. induction fuel as [|fuel IH]; intros text Hlen; simpl.
  - destruct text; simpl in Hlen; [|lia]. split; [by exists ""|by right].
  - destruct (fits (text +:+ "...")) eqn:E; simpl.
    { split; [exists ""; clear; induction text as [|c t IHt]; [done|]; rewrite str_app_cons; by f_equal|by left]. }
    destruct (nonempty text) eqn:En.
    + destruct (IH (str_take (String.length text - 1) text)) as [[rest Hr] Hf].
      { rewrite str_take_length. lia. }
      split; [|done]. exists (rest +:+ str_drop (String.length text - 1) text).
      rewrite <- str_app_assoc, <- Hr. by rewrite str_take_drop.
    + destruct text; [|done]. split; [by exists ""|by right].
Qed.

(** ** Outcomes of a dispatch *)

(** Blank recipients: the envelope keeps a token of spaces as an empty address
    that [splitEmailRecipients] would drop. *)
Lemma mail_recipients_nonempty to : List.filter nonempty (mail_recipients to) = splitEmailRecipients to.
Proof. reflexivity. Qed.

Lemma mail_recipients_blank : mail_recipients "a@x.org; ;b@x.org" = ["a@x.org"; ""; "b@x.org"].
Proof. reflexivity. Qed.

(** ** What it means that a message was delivered

    Stated on the transport alone: which commands the mail server took, which
    status the HTTP endpoint answered. *)

(** A mail is accepted when its attachments can be read and every step of the
    transport goes through: over TLS the connection, the client, the login (when
    there is a user name), the sender, each recipient and the message; otherwise
    [smtp.SendMail] as a whole. *)
Definition mail_accepted (ml : Mailer) (smtp : SMTPConfig) (subject to body : string) (attachments : list string) : Prop :=
  exists parts, attachment_parts (ml_read ml) attachments = Ok parts /\
    let msg := mail_message ml smtp subject to body parts in
    let tls := to_lower (smtp_Encryption smtp) = "tls" \/ to_lower (smtp_Encryption smtp) = "ssl" in
    (tls -> ml_dial ml = None /\ ml_client ml = None /\ (smtp_Username smtp <> "" -> ml_auth ml = None) /\
            ml_reply ml (CmdMail (smtp_FromAddress smtp)) = None /\
            (forall r, r ∈ mail_recipients to -> ml_reply ml (CmdRcpt r) = None) /\
            ml_reply ml (CmdData msg) = None) /\
    (~ tls -> ml_SendMail ml (smtp_FromAddress smtp) (mail_recipients to) msg = None).

(** A post is accepted when the endpoint answers a status from 200 to 299. *)
Definition post_accepted (io : IO) (url body : string) : Prop :=
  exists status, io_post io url body = Ok status /\ 200 <= status < 300.

Lemma smtp_dialogue_none reply cmds : smtp_dialogue reply cmds = None <-> Forall (fun c => reply c = None) cmds.
Proof.
  induction cmds as [|c cmds IH]; [split; [constructor|done]|]. cbn [smtp_dialogue]. rewrite Forall_cons, <- IH.
  destruct (reply c); [split; [done|by intros [? _]]|tauto].
Qed.

Lemma SendEmail_accepted ml smtp subject to body attachments :
  SendEmailWithAttachment ml smtp subject to body attachments = None <-> mail_accepted ml smtp subject to body attachments.
Proof.
  unfold SendEmailWithAttachment, mail_accepted. destruct (attachment_parts _ _) as [parts|e].
  2: { split; [done|by intros (? & ? & _)]. }
  cbv zeta. set (msg := mail_message ml smtp subject to body parts).
  transitivity (let tls := to_lower (smtp_Encryption smtp) = "tls" \/ to_lower (smtp_Encryption smtp) = "ssl" in
    (tls -> ml_dial ml = None /\ ml_client ml = None /\ (smtp_Username smtp <> "" -> ml_auth ml = None) /\
            ml_reply ml (CmdMail (smtp_FromAddress smtp)) = None /\
            (forall r, r ∈ mail_recipients to -> ml_reply ml (CmdRcpt r) = None) /\ ml_reply ml (CmdData msg) = None) /\
    (~ tls -> ml_SendMail ml (smtp_FromAddress smtp) (mail_recipients to) msg = None)).
  2: { split; [intros H; by exists parts|]. intros (parts' & [= <-] & H). exact H. }
  cbv zeta.
  destruct (String.eqb_spec (to_lower (smtp_Encryption smtp)) "tls") as [Ht|Ht],
    (String.eqb_spec (to_lower (smtp_Encryption smtp)) "ssl") as [Hs|Hs]; cbn [orb].
  4: { destruct (ml_SendMail _ _ _ _); split; intuition (congruence || tauto). }
  all: destruct (ml_dial ml), (ml_client ml); [split; intuition congruence..|];
    destruct (String.eqb_spec (smtp_Username smtp) "") as [Hu|Hu];
    try (destruct (ml_auth ml); [split; intuition congruence|]);
    rewrite smtp_dialogue_none, Forall_cons, Forall_app, Forall_map, Forall_singleton, Forall_forall;
    unfold compose; intuition congruence.
Qed.

Section deliveries.
Variable uuid_string : Z -> string.
Variable format_time : string -> Z -> string.
Variable smtp : SMTPConfig.
Variable portalURL : string.
Variable nfr : NotifyFaxResults.
Variables faxReport firstPageTiffPDF : string.

Notation dispatched := (dispatch uuid_string format_time smtp portalURL nfr faxReport firstPageTiffPDF).

(** The mail of a kind, with the report attached and, for the full kinds, the
    fax itself when it converts. *)
Definition mailed (io : IO) (kind to : string) (attachments : list string) (s : delivery) : Prop :=
  let '(subject, body) := emailSubjectBody uuid_string format_time nfr (io_order io) kind in
  s = Mailed subject to attachments /\ mail_accepted (io_mailer io) smtp subject to body attachments.

Definition posted (io : IO) (url : string) (payload : res string) (s : delivery) : Prop :=
  exists body, payload = Ok body /\ s = Posted url body /\ post_accepted io url body.

(** [s] was transmitted for a destination of this type, and accepted. *)
Inductive delivered (io : IO) : string -> string -> delivery -> Prop :=
| dl_report type to s : type = "email" \/ type = "email_report" ->
    mailed io "email_report" to [faxReport] s -> delivered io type to s
| dl_full type to s att : type = "email_full" \/ (type = "email_full_failure" /\ nf_AllAttemptsFailed nfr = true) ->
    att = (match io_tiffToPdf io (fj_FileName (nf_FaxJob nfr)) with Ok pdf => [faxReport; pdf] | Err _ => [faxReport] end) ->
    mailed io type to att s -> delivered io type to s
| dl_webhook to s : posted io to (io_webhook_payload io) s -> delivered io "webhook" to s
| dl_form to s : firstPageTiffPDF <> "" -> posted io to (io_form_payload io) s -> delivered io "webhook_form" to s
| dl_portal to s : trim_slashes portalURL <> "" ->
    posted io (trim_slashes portalURL +:+ "/portal/api/notify/" +:+ to)
      (io_portal_payload io (buildPortalStatusPayload nfr (io_order io))) s ->
    delivered io "portal" to s.

(** There is nothing to send to a destination of this type. *)
Definition nothing_to_send (type : string) : Prop :=
  (type = "email_full_failure" /\ nf_AllAttemptsFailed nfr = false) \/
  (type = "webhook_form" /\ firstPageTiffPDF = "") \/
  (type = "portal" /\ trim_slashes portalURL = "") \/
  type ∉ ["email"; "email_report"; "email_full"; "email_full_failure"; "webhook"; "webhook_form"; "portal"].

(** What a row and the transmissions made for it say of a destination. *)
Record told (io : IO) (start stop : Z) (dest : NotifyDestination) (row : FaxJobResult) (sends : list delivery) : Prop := {
  to_job : jr_JobUUID row = fj_UUID (nf_FaxJob nfr) /\ jr_ResultType row = "notify" /\
           jr_EndpointType row = nd_Type dest /\ jr_StartTs row = Some start /\ jr_EndTs row = Some stop;
  to_status : jr_Status row = "sent" \/ jr_Status row = "failed" \/ jr_Status row = "skipped";
  to_success : jr_Success row = true <-> jr_Status row = "sent";
  to_sent : jr_Status row = "sent" <-> exists s, delivered io (nd_Type dest) (nd_Destination dest) s;
  to_once : forall s, delivered io (nd_Type dest) (nd_Destination dest) s -> sends = [s];
  to_skipped : jr_Status row = "skipped" <-> nothing_to_send (nd_Type dest);
  to_quiet : nothing_to_send (nd_Type dest) -> sends = [];
  to_few : (length sends <= 1)%nat }.

(** The same of a dispatch. *)
Record honest (io : IO) (type to : string) (d : Dispatch) : Prop := {
  ho_status : do_outcome d = "sent" \/ do_outcome d = "failed" \/ do_outcome d = "skipped";
  ho_sent : do_outcome d = "sent" <-> exists s, delivered io type to s;
  ho_once : forall s, delivered io type to s -> do_attempts d = [s];
  ho_skipped : do_outcome d = "skipped" <-> nothing_to_send type;
  ho_quiet : nothing_to_send type -> do_attempts d = [];
  ho_few : (length (do_attempts d) <= 1)%nat }.

Lemma send_mail_honest io type to kind label att :
  (forall s, delivered io type to s <-> mailed io kind to att s) -> ~ nothing_to_send type ->
  honest io type to (send_mail uuid_string format_time smtp nfr io kind label to att).
Proof.
  intros Hd Hn. unfold send_mail. unfold mailed in Hd. destruct (emailSubjectBody _ _ _ _ _) as [subject body].
  pose proof (SendEmail_accepted (io_mailer io) smtp subject to body att) as Hm.
  destruct (SendEmailWithAttachment _ _ _ _ _ _); constructor; cbn [do_outcome do_attempts length]; auto.
  all: try (split; [done|]); try done; try lia.
  - intros (x & [_ ?%Hm]%Hd). done.
  - intros x [_ ?%Hm]%Hd. done.
  - split; [|done]. intros _. eexists. apply Hd. split; [done|]. by apply Hm.
  - by intros s [-> _]%Hd.
Qed.

Lemma send_post_honest io type to label url payload :
  (forall s, delivered io type to s <-> posted io url payload s) -> ~ nothing_to_send type ->
  honest io type to (send_post io label to url payload).
Proof.
  intros Hd Hn. unfold send_post.
  assert (forall d, do_outcome d = "failed" -> (length (do_attempts d) <= 1)%nat ->
    (forall s, ~ posted io url payload s) -> honest io type to d) as Hfail.
  { intros d Ho Hl Hno. constructor; rewrite ?Ho; auto; try done.
    - split; [done|]. intros (s & ?%Hd%Hno). done.
    - by intros s ?%Hd%Hno. }
  destruct payload as [body|e]; [|apply Hfail; [done|simpl; lia|by intros s (? & ? & _)]].
  destruct (io_post io url body) as [code|e] eqn:E.
  2: { apply Hfail; [done|simpl; lia|]. intros s (? & [= <-] & _ & status & ? & _). congruence. }
  destruct ((200 <=? code) && (code <? 300)) eqn:Ec.
  - constructor; cbn [do_outcome do_attempts length]; auto; try done.
    + split; [|done]. intros _. eexists. apply Hd. exists body. split_and!; [done..|]. exists code. split; [done|lia].
    + by intros s (? & [= <-] & -> & _)%Hd.
  - apply Hfail; [done|simpl; lia|]. intros s (? & [= <-] & _ & status & Hp & ?). assert (status = code) as -> by congruence. lia.
Qed.

Lemma skipped_honest io type to detail :
  nothing_to_send type -> (forall s, ~ delivered io type to s) -> honest io type to (skipped detail).
Proof.
  intros Hn Hd. constructor; simpl; auto; try done.
  - split; [done|]. by intros (s & ?%Hd).
  - by intros s ?%Hd.
Qed.

(** A type for which there is something to send is none of the four cases. *)
Ltac sendable := unfold nothing_to_send; intros [[? ?]|[[? ?]|[[? ?]|Hno]]]; [congruence..|apply Hno; set_unfold; tauto].

Lemma dispatch_honest io dest : honest io (nd_Type dest) (nd_Destination dest) (dispatched io dest).
Proof.
  unfold dispatch. destruct dest as [type to]. cbn [nd_Type nd_Destination].
  destruct (String.eqb_spec type "email") as [->|H1]; cbn [orb].
  { apply send_mail_honest; [|sendable]. intros s. split; [inversion 1; naive_solver|]. intros. by apply dl_report; [left|]. }
  destruct (String.eqb_spec type "email_report") as [->|H2].
  { apply send_mail_honest; [|sendable]. intros s. split; [inversion 1; naive_solver|]. intros. by apply dl_report; [right|]. }
  destruct (String.eqb_spec type "email_full") as [->|H3]; cbn [orb andb].
  { cbn. apply send_mail_honest; [|sendable]. intros s. unfold full_attachments. split.
    - inversion 1; subst; [naive_solver|]. by destruct (io_tiffToPdf _ _).
    - intros Hm. eapply dl_full; [by left|done|]. by destruct (io_tiffToPdf _ _). }
  destruct (String.eqb_spec type "email_full_failure") as [->|H4]; cbn [andb].
  { destruct (nf_AllAttemptsFailed nfr) eqn:Ef; cbn [negb].
    - apply send_mail_honest; [|sendable]. intros s. unfold full_attachments. split.
      + inversion 1; subst; [naive_solver|]. by destruct (io_tiffToPdf _ _).
      + intros Hm. eapply dl_full; [by right|done|]. by destruct (io_tiffToPdf _ _).
    - apply skipped_honest; [by left|]. intros s. inversion 1; naive_solver congruence. }
  destruct (String.eqb_spec type "webhook") as [->|H5].
  { apply send_post_honest; [|sendable]. intros s. split; [inversion 1; naive_solver|]. apply dl_webhook. }
  destruct (String.eqb_spec type "webhook_form") as [->|H6].
  { unfold send_webhook_form. destruct (String.eqb_spec firstPageTiffPDF "") as [Hf|Hf].
    - apply skipped_honest; [by right; left|]. intros s. inversion 1; naive_solver.
    - apply send_post_honest; [|sendable]. intros s. split; [inversion 1; naive_solver|]. by apply dl_form. }
  destruct (String.eqb_spec type "portal") as [->|H7].
  { unfold send_portal. destruct (String.eqb_spec (trim_slashes portalURL) "") as [Hf|Hf].
    - apply skipped_honest; [by right; right; left|]. intros s. inversion 1; naive_solver.
    - apply send_post_honest; [|sendable]. intros s. split; [inversion 1; naive_solver|]. by apply dl_portal. }
  destruct (String.eqb type "gateway"); (apply skipped_honest;
    [right; right; right; set_unfold; tauto|intros s; inversion 1; naive_solver]).
Qed.

Lemma honest_told io start stop dest d row :
  honest io (nd_Type dest) (nd_Destination dest) d ->
  same_but_id (notify_row nfr.(nf_FaxJob) dest d start stop) row -> told io start stop dest row (do_attempts d).
Proof.
  intros [] Hrow. unfold same_but_id in Hrow. constructor; try rewrite Hrow; simpl; try done.
  apply String.eqb_eq.
Qed.
End deliveries.

Section rows_facts.
Variable uuid_string : Z -> string.
Variable format_time : string -> Z -> string.
Variable smtp : SMTPConfig.
Variable portalURL : string.
Variable nfr : NotifyFaxResults.
Variables faxReport firstPageTiffPDF : string.
Context `{!Table T FaxJobResult, !TableLaws T FaxJobResult}.

Notation run := (processNotifyDestinationsAsync uuid_string format_time smtp portalURL nfr faxReport firstPageTiffPDF (T := T)).
Notation telling := (told uuid_string format_time smtp portalURL nfr faxReport firstPageTiffPDF).

(** C12: with the results table healthy, every destination leaves exactly one
    "notify" row. The row is successful, with status "sent", exactly when the
    message of that destination was delivered: the mail server took the sender,
    every recipient and the message, or the HTTP endpoint answered 2xx. It is
    "skipped" exactly when there is nothing to send (a failure-only mail
    although an attempt succeeded, a form without a first page, no portal URL,
    an unknown type), and "failed" otherwise. At most one message is
    transmitted per destination, none for a skipped one. When the report cannot
    be generated nobody is told and no row is left. *)
Theorem notify_rows_complete report world finished t :
  tbl_healthy t ->
  let out := run report world finished t in
  match report with
  | Err _ => out = (t, [])
  | Ok _ =>
      exists log : list (FaxJobResult * list delivery),
        tbl_rows out.1 = tbl_rows t ++ map fst log /\
        out.2 = flat_map snd log /\
        Forall2 (fun '(i, dest) '(row, sends) =>
          telling (world i).1.1 (world i).1.2 (world i).2 dest row sends) finished log
  end.
Proof.
  intros Ht out. subst out. unfold processNotifyDestinationsAsync.
  destruct report as [path|e]; [|by destruct finished].
  set (step := fun '(t, sends) '(i, dest) => _).
  assert (forall sends, exists log : list (FaxJobResult * list delivery),
    tbl_rows (foldl step (t, sends) finished).1 = tbl_rows t ++ map fst log /\
    (foldl step (t, sends) finished).2 = sends ++ flat_map snd log /\
    Forall2 (fun '(i, dest) '(row, sends) =>
      telling (world i).1.1 (world i).1.2 (world i).2 dest row sends) finished log) as H.
  { revert t Ht. induction finished as [|[i dest] finished IH]; intros t Ht sends.
    - exists []. simpl. by rewrite !app_nil_r.
    - cbn [foldl]. unfold step at 2 4. destruct (world i) as [[io start] stop] eqn:Hw. cbn [fst snd].
      set (d := dispatch _ _ _ _ _ _ _ io dest). unfold recordNotifyDelivery.
      destruct (create_healthy (notify_row (nf_FaxJob nfr) dest d start stop) t Ht)
        as (row & Hc & Hrows & Hrow & _ & _ & Ht').
      destruct (IH _ Ht' (sends ++ do_attempts d)) as (log & H1 & H2 & H3).
      exists ((row, do_attempts d) :: log). rewrite H1, Hrows, H2. split; [by rewrite <- app_assoc|].
      split; [cbn [flat_map snd]; by rewrite <- app_assoc|].
      constructor; [|done]. rewrite Hw. cbn [fst snd]. by apply honest_told; [apply dispatch_honest|]. }
  destruct (H []) as (log & H1 & H2 & H3).
  destruct finished as [|p finished].
  - exists []. simpl. by rewrite app_nil_r.
  - by exists log.
Qed.
End rows_facts.

(** ** Witnesses *)

Definition example_mailer : Mailer := {|
  ml_order l := l; ml_read p := Ok "%PDF"; ml_dial := None; ml_client := None; ml_auth := None;
  ml_reply c := match c with CmdRcpt "" => Some "501 syntax error" | _ => None end;
  ml_SendMail _ _ _ := None |}.

Definition example_io : IO := {|
  io_mailer := example_mailer; io_order := []; io_tiffToPdf _ := Err "no such file";
  io_webhook_payload := Ok "{}"; io_form_payload := Ok "form"; io_portal_payload _ := Ok "{}";
  io_post _ _ := Ok 503 |}.

Definition example_smtp : SMTPConfig := {|
  smtp_Host := "mail.example.org"; smtp_Port := 465; smtp_Username := ""; smtp_Password := "";
  smtp_Encryption := "TLS"; smtp_FromAddress := "fax@example.org"; smtp_FromName := "Fax" |}.

(** An outbound job whose second attempt went through. *)
Definition example_submitted : FaxJob := zero_job <| fj_UUID := 7 |>.

Definition example_attempts : list qevent :=
  [EvResult 0 (zero_job <| fj_CallUUID := 11 |> <| fj_Result := Some empty_result |>);
   EvResult 0 (zero_job <| fj_CallUUID := 12 |> <| fj_Result := Some (empty_result <| fr_Success := true |>) |>)].

Lemma payload_agrees_with_failure_flag_witness :
  pp_Success (buildPortalStatusPayload
    {| nf_Results := notify_results example_submitted example_attempts; nf_FaxJob := example_submitted;
       nf_AllAttemptsFailed := computeAllAttemptsFailed example_submitted
         (notify_results example_submitted example_attempts) |}
    (map snd (map_to_list (notify_results example_submitted example_attempts)))) = true.
Proof.
  assert (computeAllAttemptsFailed example_submitted (notify_results example_submitted example_attempts) = false)
    as Hf by (vm_compute; reflexivity).
  rewrite (payload_agrees_with_failure_flag example_submitted example_attempts).
  - cbn [nf_AllAttemptsFailed]. by rewrite Hf.
  - split; [apply (bool_decide_unpack _); vm_compute; exact I|]. intros c ff Hc. discriminate Hc.
  - left. reflexivity.
  - repeat constructor.
  - reflexivity.
Defined.

Lemma notify_rows_complete_witness :
  exists row, tbl_rows (processNotifyDestinationsAsync (fun _ => "id") (fun _ _ => "now") example_smtp
      "https://portal.example.org/" {| nf_Results := ∅; nf_FaxJob := example_submitted; nf_AllAttemptsFailed := false |}
      "report.pdf" "" (Ok "report.pdf") (fun _ => (example_io, 1, 2))
      [(0%nat, {| nd_Type := "portal"; nd_Destination := "svc" |})]
      (fresh_table [] 1 [])).1 = [row] /\ jr_Success row = false /\ jr_Status row = "failed".
Proof.
  destruct (notify_rows_complete (fun _ => "id") (fun _ _ => "now") example_smtp
      "https://portal.example.org/" {| nf_Results := ∅; nf_FaxJob := example_submitted; nf_AllAttemptsFailed := false |}
      "report.pdf" "" (T := ListTable FaxJobResult) (Ok "report.pdf") (fun _ => (example_io, 1, 2))
      [(0%nat, {| nd_Type := "portal"; nd_Destination := "svc" |})] (fresh_table [] 1 []))
    as (log & H1 & _ & H2); [repeat constructor|].
  inversion H2 as [|? [row sends] ? log' Hrow Hnil]; subst. inversion Hnil; subst.
  cbv beta iota zeta in Hrow. destruct Hrow as [_ [Hst|[Hst|Hst]] Hok Hsent _ Hskip _ _].
  - exfalso. apply Hsent in Hst as [s Hd]. inversion Hd as [? ? ? []|? ? ? ? [|[]]| | |? ? _ (b & _ & _ & st & [= <-] & ?)]; try done. lia.
  - exists row. split; [exact H1|]. split; [|exact Hst]. destruct (jr_Success row); [|reflexivity].
    rewrite (proj1 Hok eq_refl) in Hst. discriminate Hst.
  - exfalso. apply Hskip in Hst as [[? _]|[[? _]|[[_ Hu]|Hno]]]; [discriminate..|vm_compute in Hu; discriminate Hu|].
    apply Hno. vm_compute. set_solver.
Defined.

(** One blank token refuses the mail for everybody on the list. *)
Lemma blank_recipient_refuses_mail :
  SendEmailWithAttachment example_mailer example_smtp "s" "a@x.org; ;b@x.org" "body" [] = Some "501 syntax error" /\
  SendEmailWithAttachment example_mailer example_smtp "s" "a@x.org;b@x.org" "body" [] = None.
Proof. split; vm_compute; reflexivity. Qed.
