(* ===== verification/Sentry.v ===== *)
(** * Sentry: the brute-force sentry ([gofaxserver/ipsentry.go])

    Failed SIP attempts are counted per source address in a sliding window;
    repeat offenders are banned for escalating durations. The state is the
    in-memory caches, the table of bans and the firewall behind a backend; every
    handler is one step, its clock reading an argument (the readings a handler
    makes are one instant). The address functions of package [net] are the
    section's parameters; the gateway ACLs are those of a [Directory]. Error texts
    leave out the address they quote; logging and the janitor goroutine's ticker
    are left out. *)

From S2P Require Import Prelude Config Store FaxJob Regexp Dialplan Directory Backend.

(** ** [time.Duration.String] *)

Fixpoint fmtFrac (prec : nat) (v : Z) (print : bool) (acc : string) : string * Z :=
  match prec with
  | O => (if print then "." +:+ acc else acc, v)
  | S p =>
      let digit := v mod 10 in
      let print' := print || negb (digit =? 0) in
      fmtFrac p (v / 10) print' (if print' then String (digit_char digit) acc else acc)
  end.

Definition duration_String (d : Z) : string :=
  let u := Z.abs d in
  let with_frac (prec : nat) (u : Z) := let '(fr, q) := fmtFrac prec u false "" in (q, fr) in
  let body :=
    if u =? 0 then "0s"
    else if u <? microsecond then dec_string u +:+ "ns"
    else if u <? millisecond then let '(q, fr) := with_frac 3%nat u in dec_string q +:+ fr +:+ "µs"
    else if u <? second then let '(q, fr) := with_frac 6%nat u in dec_string q +:+ fr +:+ "ms"
    else
      let '(q, fr) := with_frac 9%nat u in
      let m := q / 60 in
      let h := m / 60 in
      (if 0 <? h then dec_string h +:+ "h" else "") +:+
      (if 0 <? m then dec_string (m mod 60) +:+ "m" else "") +:+
      dec_string (q mod 60) +:+ fr +:+ "s" in
  if d <? 0 then "-" +:+ body else body.

(** ** State *)

Record SentryCounters := {
  sn_failuresSeen : Z; sn_blockedHits : Z; sn_bansCreated : Z; sn_bansExpired : Z;
  sn_reconcileUnbans : Z; sn_manualBans : Z; sn_manualUnbans : Z;
  sn_enforceErrors : Z; sn_whitelistSkipped : Z;
}.

Definition zero_counters : SentryCounters :=
  {| sn_failuresSeen := 0; sn_blockedHits := 0; sn_bansCreated := 0; sn_bansExpired := 0;
     sn_reconcileUnbans := 0; sn_manualBans := 0; sn_manualUnbans := 0;
     sn_enforceErrors := 0; sn_whitelistSkipped := 0 |}.

Record IPSentry (T F Net : Type) := {
  is_db : T;
  is_fw : F;
  is_failures : gmap string (list Z);
  is_banned : gmap string BlockedIP;
  is_lastLog : gmap string Z;
  is_offenses : gmap string Z;
  is_whitelistNets : list Net;
  is_whitelistIPs : gmap string bool;
  is_count : SentryCounters;
}.
Arguments is_db {T F Net} _.
Arguments is_fw {T F Net} _.
Arguments is_failures {T F Net} _.
Arguments is_banned {T F Net} _.
Arguments is_lastLog {T F Net} _.
Arguments is_offenses {T F Net} _.
Arguments is_whitelistNets {T F Net} _.
Arguments is_whitelistIPs {T F Net} _.
Arguments is_count {T F Net} _.

Definition blockedLogSampleInterval : Z := 5 * minute.

Definition has_ip (ip : string) (r : BlockedIP) : bool := (bi_IP r =? ip)%string.

(** [b.ExpiresAt != nil && b.ExpiresAt.Before(now)]. *)
Definition expired_at (now : Z) (r : BlockedIP) : bool :=
  match bi_ExpiresAt r with Some e => e <? now | None => false end.

Section sentry.
Context {T F Net IPAddr : Type} `{!Table T BlockedIP}.

(** Package [net]: [ParseIP], [IP.String], [ParseCIDR], [IPNet.Contains]. *)
Variable parse_ip : string -> option IPAddr.
Variable ip_string : IPAddr -> string.
Variable parse_cidr : string -> option Net.
Variable net_contains : Net -> IPAddr -> bool.

Variable cfg : SecurityConfig.
Variable be : sentryBackend F.
(** The directory as the step sees it. *)
Variable d : Directory.

#[local] Notation state := (IPSentry T F Net).

Definition bump (f : SentryCounters -> SentryCounters) (st : state) : state := st <| is_count ::= f |>.

Definition enforce_error (ok : bool) (st : state) : state :=
  if ok then st else bump (fun c => c <| sn_enforceErrors ::= Z.succ |>) st.

Definition IsWhitelisted (ip : string) (st : state) : bool :=
  match parse_ip ip with
  | None => false
  | Some a => default false (is_whitelistIPs st !! ip_string a) ||
              existsb (fun n => net_contains n a) (is_whitelistNets st)
  end.

Definition IsBanned (now : Z) (ip : string) (st : state) : bool :=
  match is_banned st !! ip with
  | None => false
  | Some b => negb (expired_at now b)
  end.

Definition matches_acl (ip : string) : bool := is_ok (fsGatewayACL d ip).

(** The insert runs against the unique index on [ip]. *)
Definition create_ban (r : BlockedIP) (t : T) : option BlockedIP * T :=
  if existsb (has_ip (bi_IP r)) (tbl_rows t) then (None, t) else tbl_create r t.

(** First, then Save under the previous key, or Create; [merge] is what the
    caller takes over from the previous row. The record keeps the key that
    [Create] assigned. *)
Definition persist_ban (merge : BlockedIP -> BlockedIP -> BlockedIP) (r : BlockedIP) (t : T) : BlockedIP * T :=
  let '(prev, t1) := tbl_first (has_ip (bi_IP r)) t in
  match prev with
  | Some p => let r' := merge p r in (r', (tbl_save r' t1).2)
  | None =>
      let '(created, t2) := create_ban r t1 in
      (match created with Some r' => r' | None => r end, t2)
  end.

Definition ban_expiry (now offense : Z) : option Z :=
  if offense <=? Z.of_nat (length (Durations cfg))
  then option_map (fun dur => now + dur) (nth_error (Durations cfg) (Z.to_nat (offense - 1)))
  else None.

Definition banIP (now : Z) (ip source reason : string) (failCount : Z) (st : state) : state :=
  if matches_acl ip then bump (fun c => c <| sn_whitelistSkipped ::= Z.succ |>) st
  else if match is_banned st !! ip with Some b => bi_Active b | None => false end then st
  else
    let offense0 := default 0 (is_offenses st !! ip) + 1 in
    let '(prev, t1) := tbl_first (has_ip ip) (is_db st) in
    let '(offense, fails) :=
      match prev with
      | Some p => (if offense0 <? bi_OffenseCount p + 1 then bi_OffenseCount p + 1 else offense0,
                   if failCount <? bi_FailCount p then bi_FailCount p else failCount)
      | None => (offense0, failCount)
      end in
    let rec := {| bi_ID := 0; bi_IP := ip; bi_Reason := reason; bi_Source := source;
                  bi_FailCount := fails; bi_OffenseCount := offense; bi_BannedAt := now;
                  bi_ExpiresAt := ban_expiry now offense; bi_Active := true;
                  bi_UnbannedAt := None; bi_UnbanReason := "" |} in
    let '(fw, ok) := be_Ban be now ip (bi_ExpiresAt rec) (is_fw st) in
    let '(rec', t2) := persist_ban (fun p r => r <| bi_ID := bi_ID p |>) rec t1 in
    let st1 := enforce_error ok (st <| is_offenses ::= insert ip offense |> <| is_fw := fw |> <| is_db := t2 |>) in
    bump (fun c => if (source =? "manual")%string
                   then c <| sn_bansCreated ::= Z.succ |> <| sn_manualBans ::= Z.succ |>
                   else c <| sn_bansCreated ::= Z.succ |>)
      (st1 <| is_banned ::= insert ip rec' |> <| is_failures ::= delete ip |>).

Definition failure_reason (count : Z) : string :=
  int_string count +:+ " failed ACL attempts within " +:+ duration_String (Window cfg).

Definition kept_failures (now : Z) (ip : string) (st : state) : list Z :=
  List.filter (fun t => time_sub now t <? Window cfg) (default [] (is_failures st !! ip)) ++ [now].

Definition RecordFailure (now : Z) (ip : string) (st : state) : state :=
  match parse_ip ip with
  | None => st
  | Some _ =>
      let st1 := bump (fun c => c <| sn_failuresSeen ::= Z.succ |>) st in
      if IsWhitelisted ip st1 then bump (fun c => c <| sn_whitelistSkipped ::= Z.succ |>) st1
      else if IsBanned now ip st1 then st1
      else
        let kept := kept_failures now ip st1 in
        let st2 := st1 <| is_failures ::= insert ip kept |> in
        let count := Z.of_nat (length kept) in
        if Threshold cfg <=? count then banIP now ip "auto" (failure_reason count) count st2 else st2
  end.

Definition count_manual_ban (c : SentryCounters) : SentryCounters :=
  c <| sn_bansCreated ::= Z.succ |> <| sn_manualBans ::= Z.succ |>.

(** [banIPPermanent]: the offense count is past the ladder. *)
Definition banIPPermanent (now : Z) (ip reason : string) (st : state) : state :=
  let rec := {| bi_ID := 0; bi_IP := ip; bi_Reason := reason; bi_Source := "manual"; bi_FailCount := 0;
                bi_OffenseCount := Z.of_nat (length (Durations cfg)) + 1; bi_BannedAt := now;
                bi_ExpiresAt := None; bi_Active := true; bi_UnbannedAt := None; bi_UnbanReason := "" |} in
  let '(rec', t) := persist_ban (fun p r => r <| bi_ID := bi_ID p |> <| bi_FailCount := bi_FailCount p |>)
                      rec (is_db st) in
  let '(fw, ok) := be_Ban be now ip None (is_fw st) in
  bump count_manual_ban
    (enforce_error ok (st <| is_db := t |> <| is_fw := fw |>) <| is_banned ::= insert ip rec' |>).

(** [BanManual]: the state after the call, and its error. *)
Definition BanManual (now : Z) (ip reason : string) (duration : option Z) (st : state) : state * option string :=
  match parse_ip ip with
  | None => (st, Some "invalid IP address")
  | Some _ =>
      if IsWhitelisted ip st then (st, Some "whitelisted and cannot be banned")
      else if IsBanned now ip st then (st, Some "already banned")
      else match duration with
           | None => (banIPPermanent now ip reason st, None)
           | Some dur =>
               let exp := now + dur in
               let rec := {| bi_ID := 0; bi_IP := ip; bi_Reason := reason; bi_Source := "manual"; bi_FailCount := 0;
                             bi_OffenseCount := 1; bi_BannedAt := now; bi_ExpiresAt := Some exp;
                             bi_Active := true; bi_UnbannedAt := None; bi_UnbanReason := "" |} in
               let '(rec', t) := persist_ban (fun p r => r <| bi_ID := bi_ID p |>
                   <| bi_OffenseCount := bi_OffenseCount p + 1 |> <| bi_FailCount := bi_FailCount p |>)
                   rec (is_db st) in
               let '(fw, ok) := be_Ban be now ip (Some exp) (is_fw st) in
               let st1 := st <| is_db := t |> <| is_fw := fw |> in
               if negb ok then (enforce_error false st1, Some "firewall ban failed")
               else (bump count_manual_ban (st1 <| is_banned ::= insert ip rec' |>), None)
           end
  end.

Definition close_row (now : Z) (reason : string) (r : BlockedIP) : BlockedIP :=
  r <| bi_Active := false |> <| bi_UnbannedAt := Some now |> <| bi_UnbanReason := reason |>.

Definition unbanIP (now : Z) (reason : string) (st : state) (ip : string) : state :=
  let '(fw, ok) := be_Unban be ip (is_fw st) in
  let t := (tbl_update (fun r => has_ip ip r && bi_Active r) (close_row now reason) (is_db st)).2 in
  enforce_error ok (st <| is_fw := fw |>) <| is_banned ::= delete ip |> <| is_failures ::= delete ip |>
    <| is_db := t |>.

Definition UnbanIP (now : Z) (ip : string) (st : state) : state * bool :=
  if negb (IsBanned now ip st) then (st, false)
  else (unbanIP now "manual" (bump (fun c => c <| sn_manualUnbans ::= Z.succ |>) st) ip, true).

(** One address of [Reconcile]. *)
Definition reconcile_one (now : Z) (st : state) (ip : string) : state :=
  let bumped := bump (fun c => c <| sn_reconcileUnbans ::= Z.succ |>) st in
  if IsWhitelisted ip st then unbanIP now "whitelisted" bumped ip
  else if matches_acl ip then unbanIP now "now-matches-endpoint-acl" bumped ip
  else st.

Definition Reconcile (now : Z) (st : state) : state :=
  foldl (reconcile_one now) st (map fst (map_to_list (is_banned st))).

Definition expire_one (now : Z) (st : state) (ip : string) : state :=
  unbanIP now "expired" (bump (fun c => c <| sn_bansExpired ::= Z.succ |>) st) ip.

Definition janitorTick (now : Z) (st : state) : state :=
  let bans := map snd (map_to_list (is_banned st)) in
  let expired := map bi_IP (List.filter (expired_at now) bans) in
  let active := List.filter (fun b => negb (expired_at now b)) bans in
  let st1 := foldl (expire_one now) st expired in
  let '(fw, errs) := be_Sync be now active (is_fw st1) in
  let st2 := st1 <| is_fw := fw |> in
  let st3 := if 0 <? errs then bump (fun c => c <| sn_enforceErrors ::= Z.add errs |>) st2 else st2 in
  Reconcile now st3.

Definition ShouldLogBlocked (now : Z) (ip : string) (st : state) : state * bool :=
  let st1 := bump (fun c => c <| sn_blockedHits ::= Z.succ |>) st in
  match is_lastLog st1 !! ip with
  | Some last => if time_sub now last <? blockedLogSampleInterval then (st1, false)
                 else (st1 <| is_lastLog ::= insert ip now |>, true)
  | None => (st1 <| is_lastLog ::= insert ip now |>, true)
  end.

(** [ListBans]: the table, newest first; the cache if the table cannot be read. *)
Definition newer (a b : BlockedIP) : bool := bi_BannedAt b <? bi_BannedAt a.

Definition ListBans (includeHistory : bool) (st : state) : list BlockedIP :=
  match (tbl_find (fun r => includeHistory || bi_Active r) (is_db st)).1 with
  | Some rows => stable_sort newer rows
  | None => stable_sort newer (map snd (map_to_list (is_banned st)))
  end.

(** ** Start-up *)

Definition add_whitelist (st : state) (cidr : string) : state :=
  match parse_cidr cidr with
  | Some n => st <| is_whitelistNets ::= (fun l => l ++ [n]) |>
  | None => match parse_ip cidr with
            | Some a => st <| is_whitelistIPs ::= insert (ip_string a) true |>
            | None => st
            end
  end.

Definition reapply (now : Z) (st : state) (row : BlockedIP) : state :=
  if expired_at now row then unbanIP now "expired-during-downtime" st (bi_IP row)
  else
    let '(fw, ok) := be_Ban be now (bi_IP row) (bi_ExpiresAt row) (is_fw st) in
    enforce_error ok (st <| is_fw := fw |>) <| is_banned ::= insert (bi_IP row) row |>.

(** The rest of [newIPSentry], once the backend [be] is chosen. *)
Definition start_sentry (now : Z) (db : T) (fw : F) : state :=
  let st0 := {| is_db := db; is_fw := fw; is_failures := ∅; is_banned := ∅; is_lastLog := ∅;
                is_offenses := ∅; is_whitelistNets := []; is_whitelistIPs := ∅; is_count := zero_counters |} in
  let st1 := foldl add_whitelist st0 (sc_WhitelistCIDRs cfg) in
  let '(fw1, ok) := be_Bootstrap be (is_fw st1) in
  let st2 := enforce_error ok (st1 <| is_fw := fw1 |>) in
  let '(rows, db1) := tbl_find bi_Active (is_db st2) in
  foldl (reapply now) (st2 <| is_db := db1 |>) (default [] rows).

End sentry.

(** [newIPSentry]: nothing when disabled; the backend by its configured name. *)
Definition newIPSentry {T F Net IPAddr : Type} `{!Table T BlockedIP}
  (parse_ip : string -> option IPAddr) (ip_string : IPAddr -> string) (parse_cidr : string -> option Net)
  (run : string -> list string -> string -> F -> F * bool) (cfg : SecurityConfig)
  (now : Z) (db : T) (fw : F) : res (option (sentryBackend F * IPSentry T F Net)) :=
  if negb (sc_Enabled cfg) then Ok None
  else match newSentryBackend run (BackendName cfg) with
       | Err e => Err ("security backend: " +:+ e)
       | Ok be => Ok (Some (be, start_sentry parse_ip ip_string parse_cidr cfg be now db fw))
       end.

(** ** [loadEndpoints] ends by reconciling *)

(** [reconcileBans]: nothing while the sentry is disabled or not started. *)
Definition reconcileBans {T F Net IPAddr : Type} `{!Table T BlockedIP}
  (parse_ip : string -> option IPAddr) (ip_string : IPAddr -> string) (net_contains : Net -> IPAddr -> bool)
  (be : sentryBackend F) (d : Directory) (now : Z) (sentry : option (IPSentry T F Net)) : option (IPSentry T F Net) :=
  option_map (Reconcile parse_ip ip_string net_contains be d now) sentry.

(** The whole handler: the directory part, then the sentry. *)
Definition load_and_reconcile {T F Net IPAddr TT TN TE : Type}
  `{!Table T BlockedIP} `{!Table TT Tenant} `{!Table TN TenantNumber} `{!Table TE Endpoint}
  (parse_ip : string -> option IPAddr) (ip_string : IPAddr -> string) (net_contains : Net -> IPAddr -> bool)
  (be : sentryBackend F) (lookup_ip : string -> option (list string)) (now : Z)
  (st : Directory * Tables TT TN TE) (sentry : option (IPSentry T F Net))
  : bool * (Directory * Tables TT TN TE) * option (IPSentry T F Net) :=
  let '(ok, st') := loadEndpoints (fun s => bool_decide (is_Some (parse_ip s))) lookup_ip st in
  (ok, st', if (ok : bool) then reconcileBans parse_ip ip_string net_contains be st'.1 now sentry else sentry).

(** ** Facts *)

Section sentry_facts.
Context {T F Net IPAddr : Type} `{!Table T BlockedIP, !TableLaws T BlockedIP}.
Variable parse_ip : string -> option IPAddr.
Variable ip_string : IPAddr -> string.
Variable net_contains : Net -> IPAddr -> bool.
Variable cfg : SecurityConfig.
Variable be : sentryBackend F.
Variable d : Directory.

#[local] Notation state := (IPSentry T F Net).
#[local] Notation IsWhitelisted := (IsWhitelisted (T := T) (F := F) parse_ip ip_string net_contains).
#[local] Notation RecordFailure := (RecordFailure (T := T) parse_ip ip_string net_contains cfg be d).
#[local] Notation janitorTick := (janitorTick (T := T) parse_ip ip_string net_contains be d).

(** What of the state a step of an operation keeps. *)
Record same_filters (st st' : state) : Prop := {
  sf_nets : is_whitelistNets st' = is_whitelistNets st;
  sf_ips : is_whitelistIPs st' = is_whitelistIPs st;
}.

Lemma IsWhitelisted_same st st' ip : same_filters st st' -> IsWhitelisted ip st' = IsWhitelisted ip st.
Proof. unfold Sentry.IsWhitelisted. by intros [-> ->]. Qed.

Lemma enforce_error_frame ok (st : state) :
  enforce_error ok st = st \/ exists f, enforce_error ok st = bump f st.
Proof. destruct ok; [by left|right]. by eexists. Qed.

(** An unban: the caches forget the address, its active rows are closed. *)
Lemma unbanIP_spec now reason (st : state) ip :
  let st' := unbanIP be now reason st ip in
  is_banned st' = delete ip (is_banned st) /\
  is_failures st' = delete ip (is_failures st) /\
  is_db st' = (tbl_update (fun r => has_ip ip r && bi_Active r) (close_row now reason) (is_db st)).2 /\
  same_filters st st'.
Proof.
  unfold unbanIP. destruct (be_Unban be ip (is_fw st)) as [fw ok].
  destruct ok; simpl; (split; [done|]; split; [done|]; split; [done|]; split; done).
Qed.

(** The cache after a fold of steps each of which keeps or deletes its address. *)
Lemma foldl_unban (step : state -> string -> state) (gone : string -> bool) ips st :
  (forall st ip, same_filters st (step st ip)) ->
  (forall s ip, same_filters st s ->
     is_banned (step s ip) = if gone ip then delete ip (is_banned s) else is_banned s) ->
  same_filters st (foldl step st ips) /\
  forall ip, is_banned (foldl step st ips) !! ip =
    if bool_decide (ip ∈ ips) && gone ip then None else is_banned st !! ip.
Proof.
  intros Hf Hb. enough (forall s, same_filters st s -> same_filters st (foldl step s ips) /\
    forall ip, is_banned (foldl step s ips) !! ip =
      if bool_decide (ip ∈ ips) && gone ip then None else is_banned s !! ip) as H by (apply H; by split).
  induction ips as [|ip0 ips IH]; intros s Hs; [done|].
  assert (same_filters st (step s ip0)) as Hs'.
  { destruct Hs as [H1 H2], (Hf s ip0) as [H3 H4]. split; congruence. }
  destruct (IH _ Hs') as [H1 H2]. split; [done|]. intros ip. simpl. rewrite H2, Hb by done.
  destruct (decide (ip = ip0)) as [->|Hne].
  - rewrite (bool_decide_eq_true_2 (ip0 ∈ ip0 :: ips)) by left. simpl.
    destruct (gone ip0); [rewrite lookup_delete_eq; by destruct (_ && _)|by rewrite andb_false_r].
  - assert (bool_decide (ip ∈ ip0 :: ips) = bool_decide (ip ∈ ips)) as ->.
    { apply bool_decide_ext. rewrite elem_of_cons. split; [by intros [?|?]|by right]. }
    destruct (gone ip0); [by rewrite lookup_delete_ne|done].
Qed.

(** Rows of an address, once closed, stay closed. *)
Definition closed (ip : string) (t : T) : Prop :=
  forall r, r ∈ tbl_rows t -> has_ip ip r = true -> bi_Active r = false.

Lemma unban_closes now reason (st : state) ip ip' :
  tbl_healthy (is_db st) ->
  tbl_healthy (is_db (unbanIP be now reason st ip)) /\
  (ip' = ip \/ closed ip' (is_db st) -> closed ip' (is_db (unbanIP be now reason st ip))).
Proof.
  intros Hh. destruct (unbanIP_spec now reason st ip) as (_ & _ & -> & _).
  destruct (update_healthy (fun r => has_ip ip r && bi_Active r) (close_row now reason) _ Hh) as (_ & Hr & Hh').
  split; [done|]. intros Hc r Hin Hip. rewrite Hr in Hin.
  apply list_elem_of_fmap in Hin as (r0 & -> & Hin).
  destruct (has_ip ip r0 && bi_Active r0) eqn:E; [done|].
  destruct Hc as [->|Hc]; [|by apply Hc]. rewrite Hip in E. done.
Qed.

Lemma foldl_closes (step : state -> string -> state) (gone : string -> bool) ips st ip :
  (forall s ip, step s ip = s \/ exists f now reason, step s ip = unbanIP be now reason (bump f s) ip) ->
  (forall s ip, gone ip = true -> same_filters st s -> exists f now reason, step s ip = unbanIP be now reason (bump f s) ip) ->
  tbl_healthy (is_db st) ->
  tbl_healthy (is_db (foldl step st ips)) /\
  (ip ∈ ips /\ gone ip = true \/ closed ip (is_db st) -> closed ip (is_db (foldl step st ips))).
Proof.
  intros Hstep Hgone. enough (forall s, same_filters st s -> tbl_healthy (is_db s) ->
    tbl_healthy (is_db (foldl step s ips)) /\
    (ip ∈ ips /\ gone ip = true \/ closed ip (is_db s) -> closed ip (is_db (foldl step s ips)))) as H
    by (apply H; by split).
  induction ips as [|ip0 ips IH]; intros s Hs Hh; simpl; [set_solver|].
  assert (same_filters st (step s ip0) /\ tbl_healthy (is_db (step s ip0)) /\
    (closed ip (is_db s) -> closed ip (is_db (step s ip0))) /\
    (ip = ip0 -> gone ip = true -> closed ip (is_db (step s ip0)))) as (Hs' & Hh' & Hc & Hg).
  { destruct (Hstep s ip0) as [Heq|(f & now & reason & Heq)].
    - rewrite Heq. repeat split; try done; try apply Hs. intros -> Hgo.
      destruct (Hgone s ip0 Hgo Hs) as (f & now & reason & Heq'). rewrite <- Heq, Heq'.
      by apply (unban_closes now reason (bump f s) ip0 ip0); [|left].
    - rewrite Heq. destruct (unban_closes now reason (bump f s) ip0 ip Hh) as [H1 H2].
      destruct (unbanIP_spec now reason (bump f s) ip0) as (_ & _ & _ & [H3 H4]).
      split; [split; rewrite ?H3, ?H4; apply Hs|]. split; [done|]. split; auto. }
  destruct (IH _ Hs' Hh') as [H1 H2]. split; [done|]. intros [[Hin Hgo]|Hcl]; apply H2; auto.
  apply elem_of_cons in Hin as [->|Hin]; auto.
Qed.




Lemma banIP_frame now ip source reason n (st : state) ip' :
  ip' <> ip ->
  is_banned (banIP cfg be d now ip source reason n st) !! ip' = is_banned st !! ip' /\
  is_failures (banIP cfg be d now ip source reason n st) !! ip' = is_failures st !! ip'.
Proof.
  intros Hne. unfold banIP. destruct (matches_acl d ip); [done|].
  destruct (match is_banned st !! ip with Some b => bi_Active b | None => false end); [done|].
  destruct (tbl_first _ _) as [prev t1]. destruct (match prev with Some _ => _ | None => _ end) as [off fails].
  destruct (be_Ban be now ip _ _) as [fw ok]. destruct (persist_ban _ _ _) as [rec t2].
  destruct ok; simpl; by rewrite lookup_insert_ne, lookup_delete_ne by done.
Qed.


(** ** Properties *)


(** Automatic banning is safe: if a failed attempt changes the ban
    entry of any address, then it is the address of the attempt, which is a
    valid address, outside the whitelist, matches no gateway ACL and has at
    least the threshold of failures within the window. *)
Theorem RecordFailure_safe now ip ip' (st : state) :
  is_banned (RecordFailure now ip st) !! ip' <> is_banned st !! ip' ->
  ip' = ip /\ is_Some (parse_ip ip) /\ IsWhitelisted ip st = false /\
  fsGatewayACL d ip = Err "unable to find matching gateway from sending IP" /\
  Threshold cfg <= Z.of_nat (length (kept_failures cfg now ip st)).
Proof.
  unfold Sentry.RecordFailure. destruct (parse_ip ip) as [a|] eqn:Hp; [|done].
  change (Sentry.IsWhitelisted _ _ _ ip (bump ?f st)) with (IsWhitelisted ip st).
  destruct (IsWhitelisted ip st); [done|].
  destruct (IsBanned now ip _); [done|].
  change (kept_failures cfg now ip (bump ?f st)) with (kept_failures cfg now ip st).
  destruct (Threshold cfg <=? _) eqn:Et; [|done]. reflect_bools. intros Hne.
  destruct (matches_acl d ip) eqn:Hacl; [unfold banIP in Hne; by rewrite Hacl in Hne|].
  split.
  - destruct (decide (ip' = ip)) as [|Hd]; [done|]. exfalso. apply Hne.
    by match goal with |- context [banIP _ _ _ _ _ _ ?re ?n ?s] =>
      destruct (banIP_frame now ip "auto" re n s ip' Hd) as [-> _] end.
  - split; [done|]. split; [done|]. split; [|done].
    unfold matches_acl, fsGatewayACL in *.
    destruct (List.find (acl_literal ip) _); [done|]. by destruct (List.find (acl_resolved d ip) _).
Qed.

Lemma unban_bumped now reason f (s : state) ip :
  is_banned (unbanIP be now reason (bump f s) ip) = delete ip (is_banned s) /\
  same_filters s (unbanIP be now reason (bump f s) ip).
Proof. destruct (unbanIP_spec now reason (bump f s) ip) as (-> & _ & _ & [H1 H2]). split; [done|by split]. Qed.

(** A phase that releases the addresses [gone] of the state [st]. *)
Definition releases (gone : string -> bool) (st st' : state) : Prop :=
  same_filters st st' /\
  (forall ip, is_banned st' !! ip = if gone ip then None else is_banned st !! ip) /\
  (tbl_healthy (is_db st) -> tbl_healthy (is_db st') /\
     forall ip, is_Some (is_banned st !! ip) /\ gone ip = true \/ closed ip (is_db st) -> closed ip (is_db st')).

Definition expired_ban (now : Z) (st : state) (ip : string) : bool :=
  match is_banned st !! ip with Some b => expired_at now b | None => false end.

Lemma expire_all_releases now (st : state) :
  map_Forall (fun ip b => bi_IP b = ip) (is_banned st) ->
  releases (expired_ban now st) st (foldl (expire_one be now) st
    (map bi_IP (List.filter (expired_at now) (map snd (map_to_list (is_banned st)))))).
Proof.
  intros Hkey. set (exps := map bi_IP _).
  assert (forall ip, ip ∈ exps <-> expired_ban now st ip = true) as Hexps.
  { intros ip. unfold exps, expired_ban. rewrite list_elem_of_fmap. setoid_rewrite list_elem_of_In.
    setoid_rewrite filter_In. setoid_rewrite <- list_elem_of_In. setoid_rewrite list_elem_of_fmap. split.
    - intros (b & -> & ([k b'] & -> & Hin) & He). apply elem_of_map_to_list in Hin. simpl in *.
      by rewrite (Hkey _ _ Hin), Hin.
    - destruct (is_banned st !! ip) as [b|] eqn:Hb; [|done]. intros He. exists b.
      split; [by rewrite (Hkey _ _ Hb)|]. split; [|done]. exists (ip, b). by rewrite elem_of_map_to_list. }
  destruct (foldl_unban (expire_one be now) (fun _ => true) exps st) as [F1 B1].
  { intros s ip. apply unban_bumped. }
  { intros s ip _. apply unban_bumped. }
  split; [done|]. split.
  - intros ip. rewrite B1, andb_true_r. specialize (Hexps ip).
    destruct (expired_ban now st ip); [by rewrite bool_decide_eq_true_2 by by apply Hexps|].
    rewrite bool_decide_eq_false_2; [done|]. rewrite Hexps. done.
  - intros Hh. split; [apply (foldl_closes (expire_one be now) (fun _ => true) exps st ""); unfold expire_one; eauto|].
    intros ip Hip. apply (foldl_closes (expire_one be now) (fun _ => true) exps st ip);
      [unfold expire_one; eauto..|]. rewrite Hexps. tauto.
Qed.

Definition protected (st : state) (ip : string) : bool := IsWhitelisted ip st || matches_acl d ip.

Lemma Reconcile_releases now (st : state) :
  releases (protected st) st (Reconcile parse_ip ip_string net_contains be d now st).
Proof.
  unfold Reconcile. set (step := reconcile_one _ _ _ be d now). set (keys := map fst _).
  assert (forall ip, ip ∈ keys <-> is_Some (is_banned st !! ip)) as Hkeys.
  { intros ip. unfold keys. rewrite list_elem_of_fmap. split.
    - intros ([k b] & -> & Hin). apply elem_of_map_to_list in Hin. simpl. eauto.
    - intros [b Hb]. exists (ip, b). by rewrite elem_of_map_to_list. }
  assert (forall s ip, (exists f reason, protected s ip = true /\ step s ip = unbanIP be now reason (bump f s) ip) \/
                       protected s ip = false /\ step s ip = s) as Hstep.
  { intros s ip. unfold step, reconcile_one, protected. destruct (IsWhitelisted ip s); [eauto|].
    destruct (matches_acl d ip); eauto. }
  assert (forall s ip, same_filters st s -> protected s ip = protected st ip) as Hp.
  { intros s ip Hs. unfold protected. by rewrite (IsWhitelisted_same st s). }
  destruct (foldl_unban step (protected st) keys st) as [F1 B1].
  { intros s ip. destruct (Hstep s ip) as [(f & reason & _ & ->)|[_ ->]]; [apply unban_bumped|done]. }
  { intros s ip Hs. rewrite <- (Hp s ip Hs).
    destruct (Hstep s ip) as [(f & reason & -> & ->)|[-> ->]]; [apply unban_bumped|done]. }
  split; [done|]. split.
  - intros ip. rewrite B1. specialize (Hkeys ip). destruct (protected st ip); [|by rewrite andb_false_r].
    rewrite andb_true_r. case_bool_decide as Hin; [done|].
    destruct (is_banned st !! ip); [|done]. destruct Hin. apply Hkeys. eauto.
  - assert (forall s ip, step s ip = s \/ exists f now reason, step s ip = unbanIP be now reason (bump f s) ip) as C1.
    { intros s ip. destruct (Hstep s ip) as [(f & reason & _ & ->)|[_ ->]]; eauto. }
    assert (forall s ip, protected st ip = true -> same_filters st s ->
      exists f now reason, step s ip = unbanIP be now reason (bump f s) ip) as C2.
    { intros s ip Hg Hs. rewrite <- (Hp s ip Hs) in Hg.
      destruct (Hstep s ip) as [(f & reason & _ & ->)|[Hf _]]; [eauto|congruence]. }
    intros Hh. split; [by apply (foldl_closes step (protected st) keys st "")|].
    intros ip Hip. apply (foldl_closes step (protected st) keys st ip); [done..|]. by rewrite Hkeys.
Qed.

(** One tick of the janitor leaves exactly the bans that have not
    expired, are not whitelisted and match no gateway ACL, and no row of an
    address it released stays active. *)
Theorem janitorTick_exact now (st : state) :
  tbl_healthy (is_db st) -> map_Forall (fun ip b => bi_IP b = ip) (is_banned st) ->
  (forall ip, is_banned (janitorTick now st) !! ip =
     match is_banned st !! ip with
     | Some b => if expired_at now b || IsWhitelisted ip st || matches_acl d ip then None else Some b
     | None => None
     end) /\
  forall ip, is_Some (is_banned st !! ip) -> is_banned (janitorTick now st) !! ip = None ->
    closed ip (is_db (janitorTick now st)).
Proof.
  intros Hh Hkey. destruct (expire_all_releases now st Hkey) as (F1 & B1 & C1).
  unfold Sentry.janitorTick. set (s1 := foldl (expire_one be now) st _) in *.
  destruct (be_Sync be now _ (is_fw s1)) as [fw errs]. set (s3 := if 0 <? errs then _ else _).
  assert (is_banned s3 = is_banned s1 /\ is_db s3 = is_db s1 /\ same_filters s1 s3) as (Eb & Ed & F3).
  { unfold s3. by destruct (0 <? errs); repeat split. }
  destruct (Reconcile_releases now s3) as (_ & B2 & C2). destruct (C1 Hh) as [Hh1 Hc1].
  rewrite Ed, Eb in C2. destruct (C2 Hh1) as [_ Hc2].
  assert (forall ip, protected s3 ip = IsWhitelisted ip st || matches_acl d ip) as Hp.
  { intros ip. unfold protected. by rewrite (IsWhitelisted_same s1 s3), (IsWhitelisted_same st s1). }
  split.
  - intros ip. rewrite B2, Eb, B1, Hp. unfold expired_ban. destruct (is_banned st !! ip) as [b|]; [|by repeat case_match].
    rewrite <- orb_assoc. by destruct (expired_at now b), (_ || _).
  - intros ip Hsome. rewrite B2, Eb. intros Hnone. apply Hc2.
    specialize (Hc1 ip). rewrite !B1 in *. destruct (expired_ban now st ip); [right; apply Hc1; by left|].
    left. split; [done|]. destruct (protected s3 ip); [done|]. rewrite Hnone in Hsome. by destruct Hsome.
Qed.

Lemma reapply_banned now (s : state) row :
  is_banned (reapply be now s row) =
    if expired_at now row then delete (bi_IP row) (is_banned s) else <[bi_IP row := row]> (is_banned s).
Proof.
  unfold reapply. destruct (expired_at now row).
  - by destruct (unbanIP_spec now "expired-during-downtime" s (bi_IP row)) as (-> & _).
  - destruct (be_Ban be now _ _ _) as [fw ok]. by destruct ok.
Qed.

Lemma reapply_all rows now (s : state) :
  NoDup (map bi_IP rows) -> forall ip r,
  is_banned (foldl (reapply be now) s rows) !! ip = Some r <->
  (r ∈ rows /\ bi_IP r = ip /\ expired_at now r = false) \/ (is_banned s !! ip = Some r /\ ip ∉ map bi_IP rows).
Proof.
  revert s. induction rows as [|row rows IH]; intros s Hnd ip r; simpl.
  { rewrite !elem_of_nil. tauto. }
  apply NoDup_cons in Hnd as [Hnin Hnd]. rewrite IH by done. rewrite reapply_banned, !elem_of_cons.
  assert (r ∈ rows -> bi_IP r <> bi_IP row) as Hne.
  { intros Hr Heq. apply Hnin. rewrite <- Heq. by apply list_elem_of_fmap_2. }
  destruct (expired_at now row) eqn:E.
  - rewrite lookup_delete_Some. split.
    + intros [(H1 & H2 & H3)|((H1 & H2) & H3)]; [by left; auto|right]. split; [done|]. by intros [->|?].
    + intros [([->|H1] & H2 & H3)|(H1 & H2)]; [congruence|by left|right]. split; [|intros ?; apply H2; by right].
      split; [|done]. intros <-. apply H2. by left.
  - rewrite lookup_insert_Some. split.
    + intros [(H1 & H2 & H3)|([(<- & <-)|(H1 & H2)] & H3)]; [by left; auto|by left; auto|right].
      split; [done|]. by intros [->|?].
    + intros [([->|H1] & <- & H3)|(H1 & H2)]; [right; split; [by left|done]|by left|right].
      split; [|intros ?; apply H2; by right]. right. split; [|done]. intros <-. apply H2. by left.
Qed.

Lemma reapply_closes rows now (s : state) ip :
  tbl_healthy (is_db s) ->
  closed ip (is_db s) \/ (exists r, r ∈ rows /\ bi_IP r = ip /\ expired_at now r = true) ->
  closed ip (is_db (foldl (reapply be now) s rows)).
Proof.
  revert s. induction rows as [|row rows IH]; intros s Hh Hc; simpl; [destruct Hc as [?|(?&[]%elem_of_nil&_)]; done|].
  assert (tbl_healthy (is_db (reapply be now s row)) /\
    (closed ip (is_db s) \/ bi_IP row = ip /\ expired_at now row = true -> closed ip (is_db (reapply be now s row))))
    as [Hh' Hc'].
  { unfold reapply. destruct (expired_at now row).
    - destruct (unban_closes now "expired-during-downtime" s (bi_IP row) ip Hh) as [H1 H2].
      split; [done|]. intros [?|[? _]]; apply H2; auto.
    - destruct (be_Ban be now _ _ _) as [fw ok]. destruct ok; simpl; (split; [done|]); intros [?|[_ ?]]; done. }
  apply IH; [done|]. destruct Hc as [Hc|(r & Hr & Hip & He)]; [left; auto|].
  apply elem_of_cons in Hr as [->|Hr]; [left; auto|right; eauto].
Qed.

Variable parse_cidr : string -> option Net.

(** Bans survive a restart: a sentry started over a readable table
    holds exactly the active rows that have not expired, each as it was saved,
    and the expired ones are closed. *)
Theorem restart_reapplies_bans now (db : T) (fw : F) :
  tbl_healthy db -> NoDup (map bi_IP (tbl_rows db)) ->
  let st : state := start_sentry parse_ip ip_string parse_cidr cfg be now db fw in
  (forall ip r, is_banned st !! ip = Some r <->
     r ∈ tbl_rows db /\ bi_IP r = ip /\ bi_Active r = true /\ expired_at now r = false) /\
  forall r, r ∈ tbl_rows db -> bi_Active r = true -> expired_at now r = true -> closed (bi_IP r) (is_db st).
Proof.
  intros Hh Hnd st. unfold st, start_sentry. clear st.
  set (st0 := {| is_db := db |}). set (st1 := foldl _ st0 (sc_WhitelistCIDRs cfg)).
  assert (is_db st1 = db /\ is_banned st1 = ∅) as [E1 E2].
  { unfold st1. assert (is_db st0 = db /\ is_banned st0 = ∅) as H by done. revert H. generalize st0.
    induction (sc_WhitelistCIDRs cfg) as [|c l IH]; intros s Hs; [done|]. apply IH.
    unfold add_whitelist. by repeat case_match. }
  destruct (be_Bootstrap be (is_fw st1)) as [fw1 ok]. set (st2 := enforce_error ok _).
  assert (is_db st2 = db /\ is_banned st2 = ∅) as [E3 E4] by (unfold st2; by destruct ok).
  rewrite E3. destruct (find_healthy bi_Active db Hh) as (Hf & Hr & Hh1).
  destruct (tbl_find bi_Active db) as [rows db1]; simpl in Hf, Hr, Hh1. subst rows. cbn [default from_option id].
  assert (NoDup (map bi_IP (List.filter bi_Active (tbl_rows db)))) as Hnd'.
  { clear -Hnd. induction (tbl_rows db) as [|x l IH]; simpl; [constructor|]. apply NoDup_cons in Hnd as [Hx Hl].
    destruct (bi_Active x); [|by apply IH]. simpl. apply NoDup_cons; split; [|by apply IH]. intros Hin. apply Hx.
    apply list_elem_of_fmap in Hin as (y & -> & Hy). apply list_elem_of_In, filter_In in Hy as [Hy _].
    apply list_elem_of_fmap_2. by apply list_elem_of_In. }
  assert (forall r, r ∈ List.filter bi_Active (tbl_rows db) <-> r ∈ tbl_rows db /\ bi_Active r = true) as Hin.
  { intros r. rewrite !list_elem_of_In. apply filter_In. }
  split.
  - intros ip r. rewrite (reapply_all _ now _ Hnd'), Hin. simpl. rewrite E4, lookup_empty. split; [intros [?|[? _]]; [tauto|done]|tauto].
  - intros r H1 H2 H3. apply reapply_closes; [done|]. right. exists r. by rewrite Hin.
Qed.

(** A ban that has expired but waits for the janitor shields its address: a
    failed attempt at the threshold only extends the window. *)
Lemma expired_ban_shields now ip source reason n b (st : state) :
  is_banned st !! ip = Some b -> bi_Active b = true -> expired_at now b = true ->
  IsBanned now ip st = false /\
  is_banned (banIP cfg be d now ip source reason n st) = is_banned st /\
  is_db (banIP cfg be d now ip source reason n st) = is_db st /\
  is_fw (banIP cfg be d now ip source reason n st) = is_fw st.
Proof.
  intros Hb Ha He. unfold IsBanned, banIP. rewrite Hb, He, Ha. split; [done|]. by destruct (matches_acl d ip).
Qed.

End sentry_facts.

(** Loading the endpoints lifts bans: after a successful load no
    cached ban is of an address that the new directory's ACL admits or the
    whitelist covers, and every ban that went has its rows closed. *)
Theorem loading_endpoints_lifts_bans {T F Net IPAddr TT TN TE : Type}
  `{!Table T BlockedIP, !TableLaws T BlockedIP} `{!Table TT Tenant} `{!Table TN TenantNumber} `{!Table TE Endpoint}
  (parse_ip : string -> option IPAddr) ip_string (net_contains : Net -> IPAddr -> bool)
  (be : sentryBackend F) lookup_ip now (st st' : Directory * Tables TT TN TE) (s s' : IPSentry T F Net) :
  tbl_healthy (is_db s) ->
  load_and_reconcile parse_ip ip_string net_contains be lookup_ip now st (Some s) = (true, st', Some s') ->
  forall ip b, is_banned s !! ip = Some b ->
    if is_ok (fsGatewayACL st'.1 ip) || IsWhitelisted parse_ip ip_string net_contains ip s
    then is_banned s' !! ip = None /\ closed ip (is_db s')
    else is_banned s' !! ip = Some b.
Proof.
  intros Hh. unfold load_and_reconcile. destruct (loadEndpoints _ _ st) as [ok st1]. destruct ok; [|done].
  intros [= <- <-] ip b Hb.
  destruct (Reconcile_releases parse_ip ip_string net_contains be st1.1 now s) as (_ & B & C).
  specialize (B ip). unfold protected in *. rewrite orb_comm. fold (matches_acl st1.1 ip).
  destruct (IsWhitelisted _ _ _ ip s || matches_acl st1.1 ip) eqn:E; [|congruence].
  split; [done|]. apply C; [done|]. left. rewrite Hb, E. by split.
Qed.

(** ** Witnesses *)

(** Addresses are their texts, networks are prefixes; no firewall. *)
Definition example_ban (id : Z) (ip : string) (offenses : Z) (expires : option Z) (active : bool) : BlockedIP :=
  {| bi_ID := id; bi_IP := ip; bi_Reason := ""; bi_Source := "auto"; bi_FailCount := 5;
     bi_OffenseCount := offenses; bi_BannedAt := 0; bi_ExpiresAt := expires; bi_Active := active;
     bi_UnbannedAt := None; bi_UnbanReason := "" |}.

Definition example_rows : list BlockedIP :=
  [example_ban 1 "192.0.2.1" 1 (Some (10 * minute)) true; example_ban 2 "192.0.2.2" 2 (Some hour) true;
   example_ban 3 "192.0.2.3" 1 (Some minute) false].

#[local] Notation toy_state := (IPSentry (ListTable BlockedIP) unit string).

Definition example_sentry (now : Z) (cfg : SecurityConfig) : toy_state :=
  start_sentry (IPAddr := string) Some id (fun _ => None) cfg (logOnlyBackend (F := unit)) now
    (fresh_table example_rows 4 []) tt.

Definition example_RecordFailure (now : Z) (ip : string) (st : toy_state) : toy_state :=
  RecordFailure (IPAddr := string) Some id has_prefix (c_Security zero_config) logOnlyBackend empty_directory now ip st.

Definition four_failures : toy_state :=
  foldl (fun st now => example_RecordFailure now "192.0.2.3" st) (example_sentry 0 (c_Security zero_config))
    [second; 2 * second; 3 * second; 4 * second].


Lemma RecordFailure_safe_witness :
  "192.0.2.3" = "192.0.2.3" /\ 5 <= Z.of_nat (length (kept_failures (c_Security zero_config) (5 * second) "192.0.2.3" four_failures)).
Proof.
  destruct (RecordFailure_safe (IPAddr := string) Some id has_prefix (c_Security zero_config) logOnlyBackend
    empty_directory (5 * second) "192.0.2.3" "192.0.2.3" four_failures) as (H1 & _ & _ & _ & H2);
    [vm_compute; discriminate|]. split; [exact H1|]. exact H2.
Defined.

Lemma janitorTick_exact_witness :
  is_banned (janitorTick (IPAddr := string) Some id has_prefix logOnlyBackend empty_directory (11 * minute)
    (example_sentry 0 (c_Security zero_config))) !! "192.0.2.1" = None /\
  is_banned (janitorTick (IPAddr := string) Some id has_prefix logOnlyBackend empty_directory (11 * minute)
    (example_sentry 0 (c_Security zero_config))) !! "192.0.2.2" = Some (example_ban 2 "192.0.2.2" 2 (Some hour) true).
Proof.
  destruct (janitorTick_exact (IPAddr := string) Some id has_prefix logOnlyBackend empty_directory (11 * minute)
    (example_sentry 0 (c_Security zero_config))) as [H _].
  - vm_compute. reflexivity.
  - apply (bool_decide_unpack _). vm_compute. exact I.
  - split; rewrite H; vm_compute; reflexivity.
Defined.

Lemma restart_reapplies_bans_witness :
  is_banned (example_sentry (20 * minute) (c_Security zero_config)) !! "192.0.2.2" =
    Some (example_ban 2 "192.0.2.2" 2 (Some hour) true).
Proof.
  destruct (restart_reapplies_bans (IPAddr := string) (Net := string) Some id (c_Security zero_config)
    (logOnlyBackend (F := unit)) (fun _ => None) (20 * minute) (fresh_table example_rows 4 []) tt) as [H _].
  - vm_compute. reflexivity.
  - vm_compute. repeat constructor; rewrite list_elem_of_In; simpl; intuition discriminate.
  - apply H. split; [apply list_elem_of_In; right; left; reflexivity|]. repeat split; vm_compute; reflexivity.
Defined.

(** A manual ban whose firewall command fails is reported as failed and is not
    in the cache, but its row is already active, so a restart enforces it. *)
Definition failing_backend : sentryBackend unit :=
  {| be_Name := "nft"; be_Bootstrap fw := (fw, false); be_Ban _ _ _ fw := (fw, false);
     be_Unban _ fw := (fw, true); be_Sync _ l fw := (fw, Z.of_nat (length l)) |}.

Lemma failed_manual_ban_persists :
  let r := BanManual (IPAddr := string) Some id has_prefix (c_Security zero_config) failing_backend 0 "192.0.2.9" "abuse"
    (Some hour) (example_sentry 0 (c_Security zero_config)) in
  r.2 = Some "firewall ban failed" /\ IsBanned second "192.0.2.9" r.1 = false /\
  IsBanned second "192.0.2.9" (start_sentry (IPAddr := string) Some id (fun _ => None) (c_Security zero_config)
    failing_backend second (is_db r.1) tt : toy_state) = true.
Proof. vm_compute. repeat split. Qed.

(** A customer's gateway at a banned address. *)
Definition rescued_tables : Tables (ListTable Tenant) (ListTable TenantNumber) (ListTable Endpoint) :=
  {| tb_tenants := fresh_table [] 1 []; tb_numbers := fresh_table [] 1 [];
     tb_endpoints := fresh_table [example_endpoint 1 "tenant" 1 "gateway" "pbx:192.0.2.1" 1] 2 [] |}.

Definition load_example : bool * (Directory * Tables (ListTable Tenant) (ListTable TenantNumber) (ListTable Endpoint)) *
    option toy_state :=
  load_and_reconcile (IPAddr := string) Some id has_prefix logOnlyBackend (fun _ => None) minute
    (empty_directory, rescued_tables) (Some (example_sentry 0 (c_Security zero_config))).

Lemma loading_endpoints_lifts_bans_witness :
  is_banned (default (example_sentry 0 (c_Security zero_config)) load_example.2) !! "192.0.2.1" = None.
Proof.
  pose proof (loading_endpoints_lifts_bans (IPAddr := string) Some id has_prefix logOnlyBackend (fun _ => None) minute
    (empty_directory, rescued_tables) load_example.1.2 (example_sentry 0 (c_Security zero_config))
    (default (example_sentry 0 (c_Security zero_config)) load_example.2)) as H.
  specialize (H ltac:(vm_compute; reflexivity) ltac:(vm_compute; reflexivity) "192.0.2.1"
    (example_ban 1 "192.0.2.1" 1 (Some (10 * minute)) true) ltac:(vm_compute; reflexivity)).
  match type of H with if ?c then _ else _ => assert (c = true) as E by (vm_compute; reflexivity) end.
  rewrite E in H. apply H.
Defined.
