(* ===== verification/Inbound.v ===== *)
(** * Inbound: a call that FreeSWITCH hands to the server
    ([gofaxserver/freeswitch_inbound.go])

    [handler] admits the call, decides bridge and T.38, drives the channel,
    follows its events and hands one job to the router. What it sends to the
    event socket is a list of commands; what it reads is the record [InWorld].
    The clock is read at three moments: up to the job's creation, when a bridge
    is dialled, and when the event loop ends. Send errors are only logged. *)

From S2P Require Import Prelude Config Store FaxResult FaxJob Policy Learning PairState Tracker Regexp Dialplan Directory Router Backend Media Sentry.

(** ** The number in a SIP URI *)

(** The digits before the rest. *)
Fixpoint span_digits (s : string) : string * string :=
  match s with
  | String c s' => if is_digit c then let '(d, r) := span_digits s' in (String c d, r) else (EmptyString, s)
  | EmptyString => (EmptyString, EmptyString)
  end.

(** A match of [sip:(\d+)@] at the start. *)
Definition sip_here (s : string) : option string :=
  if has_prefix s "sip:" then
    match span_digits (str_drop 4 s) with
    | (String c d, String a _) => if Ascii.eqb a "@" then Some (String c d) else None
    | _ => None
    end
  else None.

Fixpoint sip_number (uri : string) : option string :=
  match sip_here uri with
  | Some n => Some n
  | None => match uri with String _ rest => sip_number rest | EmptyString => None end
  end.

Definition getNumberFromSIPURI (uri : string) : res string :=
  match sip_number uri with
  | Some n => Ok n
  | None => Err "number could not be extracted from SIP URI"
  end.

(** ** The event socket *)

Inductive fs_cmd :=
| Send (cmd : string)
| Execute (app args : string)
| CloseConn.

(** [getvar] is the answer to [uuid_getvar] on the other leg, should the handler ask. *)
Inductive in_item :=
| InEvent (now : Z) (ev : Event) (getvar : option string)
| InError (text : string)
| InKill.

Record InWorld := {
  iw_connect : res Event;
  iw_uuid : string -> option Z;                              (* uuid.Parse *)
  iw_now : Z; iw_dialled : Z; iw_ended : Z;
  iw_endpoints : list (string * Endpoint);                   (* enumerations of the maps *)
  iw_tenants : nat -> list (Z * list Endpoint);
  iw_numbers : nat -> list (string * list Endpoint);
  iw_stream : list in_item;
  iw_getvar : option string;                                 (* the last uuid_getvar *)
}.

(** What the handler asks of the brute-force sentry. *)
Record SentryOps (S : Type) := {
  so_IsBanned : Z -> string -> S -> bool;
  so_ShouldLogBlocked : Z -> string -> S -> S * bool;
  so_RecordFailure : Z -> string -> S -> S;
}.
Arguments so_IsBanned {S} _.
Arguments so_ShouldLogBlocked {S} _.
Arguments so_RecordFailure {S} _.

(** The server state a call touches; [in_sentry] is [None] when there is no sentry. *)
Record InServer (TP TS S : Type) := {
  in_policy : PolicyState TP; in_pairs : PairServer TS; in_tracker : FaxTracker; in_sentry : option S;
}.
Arguments in_policy {TP TS S} _.
Arguments in_pairs {TP TS S} _.
Arguments in_tracker {TP TS S} _.
Arguments in_sentry {TP TS S} _.

(** How a handler ends. *)
Inductive handled (St : Type) :=
| Dropped (server : St)                   (* no connection, no usable channel *)
| Refused (code : string) (server : St)
| Killed (server : St)
| Following (server : St)                 (* the call is still up *)
| Routed (job : FaxJob) (server : St).
Arguments Dropped {St} _.
Arguments Refused {St} _ _.
Arguments Killed {St} _.
Arguments Following {St} _.
Arguments Routed {St} _ _.

(** ** Decisions *)

Record InPlan := {
  ip_src : string; ip_dst : string;
  ip_bridge : option string;
  ip_policy : FaxPolicy;
  ip_enableT38 : bool; ip_requestT38 : bool;
}.

Definition is_bridge (plan : InPlan) : bool := match ip_bridge plan with Some _ => true | None => false end.

Section handler.
Context `{!Table TP FaxPolicyRule} `{!Table TS FaxPairState} {S : Type}.
Variable sentry : SentryOps S.
Variable uuid_string : Z -> string.
Variable filepath_Join : string -> string -> string.
Variable cfg : Config.
Variable dm : DialplanManager.
Variable d : Directory.
Variable w : InWorld.

Notation server := (InServer TP TS S).

Definition in_policy_cfg : FaxPolicyConfig := fc_Policy (c_Faxing cfg).

Definition recipient_of (connectev : Event) : res string :=
  if fc_RecipientFromDiversionHeader (c_Faxing cfg)
  then match getNumberFromSIPURI (ev_get connectev "Variable_sip_h_diversion") with
       | Ok n => if (n =? "")%string then Err "empty" else Ok n
       | Err e => Err e
       end
  else Ok (ev_get connectev "Variable_sip_to_user").

(** The source address: the gateway, or the SIP answer to refuse with. *)
Definition admit_source (sourceIP : string) (st : server) : server * res string :=
  let acl st :=
    match fsGatewayACL d sourceIP with
    | Ok ep1 => (st, Ok (str_cut ":" ep1).1)
    | Err _ => (st <| in_sentry ::= option_map (so_RecordFailure sentry (iw_now w) sourceIP) |>, Err "401")
    end in
  match in_sentry st with
  | Some s =>
      if so_IsBanned sentry (iw_now w) sourceIP s
      then (st <| in_sentry := Some (so_ShouldLogBlocked sentry (iw_now w) sourceIP s).1 |>, Err "403")
      else acl st
  | None => acl st
  end.

Definition plan_inbound (gateway cidNum recipient : string) (st : server) : InPlan :=
  let src := ApplyTransformationRules dm cidNum in
  let dst := ApplyTransformationRules dm recipient in
  let bridge := detectAndRouteToBridge d (iw_endpoints w) dst src gateway in
  let callType := match bridge with Some _ => CallTypeBridge | None => CallTypeSoftmodem end in
  let policy := ResolveFaxPolicy (c_Faxing cfg) (ps_cache (in_policy st)) src dst callType (iw_now w) in
  let allow := ShouldAllowT38ForPair in_policy_cfg src dst callType (iw_now w) (in_pairs st) in
  let keep :=
    match bridge with
    | Some _ => if negb (fp_T38Decided policy) then allow else true
    | None =>
        if negb (existsb (equal_fold gateway) (d_UpstreamFsGateways d)) then false
        else if negb (fp_T38Decided policy) then allow else true
    end in
  {| ip_src := src; ip_dst := dst; ip_bridge := bridge; ip_policy := policy;
     ip_enableT38 := if keep then fp_EnableT38 policy else false;
     ip_requestT38 := if keep then fp_RequestT38 policy else false |}.

(** ** Driving the channel *)

Definition inbound_media (plan : InPlan) : gmap string string :=
  rtpMediaVars (c_Faxing cfg) (fp_VarOverrides (ip_policy plan)).

Definition set_var (name value : string) : fs_cmd := Execute "set" (name +:+ "=" +:+ value).

Definition media_cmds (plan : InPlan) : list fs_cmd := map (Execute "set") (chanVarPairs (inbound_media plan)).

Definition bridge_cmds (gw : string) (plan : InPlan) : list fs_cmd :=
  set_var "origination_caller_id_number" (ip_src plan) ::
  if (gw =? "upstream")%string then
    let exportParts :=
      ["fax_enable_t38=" +:+ format_bool (ip_enableT38 plan);
       "fax_enable_t38_request=" +:+ format_bool (ip_requestT38 plan);
       "sip_execute_on_image='t38_gateway self nocng'"] ++ chanVarPairs (inbound_media plan) in
    map (fun up => Send ("filter Variable_" +:+ bridgeGatewayTagVar +:+ " " +:+ up)) (d_UpstreamFsGateways d) ++
    [Execute "bridge" ("{" +:+ str_join "," exportParts +:+ "}" +:+
                       endpointGatewayDialstringTagged (d_UpstreamFsGateways d) (ip_dst plan))]
  else
    [set_var "fax_enable_t38" (format_bool (ip_enableT38 plan));
     set_var "fax_enable_t38_request" (format_bool (ip_requestT38 plan));
     set_var "sip_execute_on_image" "t38_gateway self nocng";
     Execute "bridge" (chanVarPrefix (inbound_media plan) +:+ gateway_leg gw (ip_dst plan))].

Definition receive_cmds (filename : string) (plan : InPlan) : list fs_cmd :=
  [set_var "fax_enable_t38" (format_bool (ip_enableT38 plan));
   set_var "fax_enable_t38_request" (format_bool (ip_requestT38 plan))] ++
  match fp_UseECM (ip_policy plan) with Some b => [set_var "fax_use_ecm" (format_bool b)] | None => [] end ++
  match fp_DisableV17 (ip_policy plan) with Some true => [set_var "fax_disable_v17" "true"] | _ => [] end ++
  (if fc_AnswerAfter (c_Faxing cfg) =? 0 then []
   else [Execute "ring_ready" ""; Execute "sleep" (dec_string (fc_AnswerAfter (c_Faxing cfg)))]) ++
  [Execute "answer" ""] ++
  (if fc_WaitTime (c_Faxing cfg) =? 0 then []
   else [Execute "playback" ("silence_stream://" +:+ dec_string (fc_WaitTime (c_Faxing cfg)))]) ++
  [set_var "fax_ident" (c_Ident cfg); Execute "rxfax" filename; Execute "hangup" ""].

Definition call_cmds (filename : string) (plan : InPlan) : list fs_cmd :=
  media_cmds plan ++
  match ip_bridge plan with Some gw => bridge_cmds gw plan | None => receive_cmds filename plan end.

(** ** The job *)

Definition found_tenant (r : res Tenant) : option Z := match r with Ok t => Some (te_ID t) | Err _ => None end.

Definition gateway_tenant (i : nat) (gateway : string) : option Z :=
  found_tenant (getTenantByGateway d gateway (iw_tenants w i) (iw_numbers w i)).

Definition src_tenant (gateway : string) (plan : InPlan) : Z :=
  match found_tenant (getTenantByNumber d (ip_src plan)) with
  | Some t => t
  | None => default 0 (gateway_tenant 0 gateway)
  end.

Definition dst_tenant (plan : InPlan) : Z :=
  match found_tenant (getTenantByNumber d (ip_dst plan)) with
  | Some t => t
  | None =>
      match ip_bridge plan with
      | Some gw => if negb (gw =? "")%string && negb (gw =? "upstream")%string
                   then default 0 (gateway_tenant 1 gw) else 0
      | None => 0
      end
  end.

Definition inbound_job (channel : Z) (filename gateway recipient : string) (connectev : Event)
  (plan : InPlan) : FaxJob :=
  zero_job <| fj_UUID := channel |> <| fj_CallUUID := channel |>
    <| fj_CalleeNumber := recipient |>
    <| fj_CallerIdNumber := ev_get connectev "Channel-Caller-Id-Number" |>
    <| fj_CallerIdName := ev_get connectev "Channel-Caller-Id-Name" |>
    <| fj_FileName := filename |>
    <| fj_SourceInfo := {| si_Timestamp := iw_now w; si_SourceType := "gateway"; si_Source := gateway;
                           si_SourceID := uuid_string channel |} |>
    <| fj_UsedT38 := ip_enableT38 plan |> <| fj_SoftmodemFallback := fp_T38ForcedOff (ip_policy plan) |>
    <| fj_AppliedPolicyIDs := fp_AppliedRuleIDs (ip_policy plan) |>
    <| fj_SrcTenantID := src_tenant gateway plan |> <| fj_DstTenantID := dst_tenant plan |>.

(** ** The event loop *)

Record InLoop := {
  il_result : FaxResult;
  il_bLeg : string;                          (* the bridged leg, once known *)
  il_gateway : string;
  il_attempts : list bridgeAttempt;
  il_tracker : FaxTracker;
  il_sent : list fs_cmd;
}.

Inductive loop_end := Hungup | StreamFailed | KillRequested | StillUp.

(** An event of another leg of a bridged call. *)
Definition is_other_leg (bridged : bool) (channel : Z) (ev : Event) : bool :=
  bridged && negb (ev_get ev "Unique-ID" =? "")%string &&
  negb (ev_get ev "Unique-ID" =? uuid_string channel)%string.

Definition on_other_leg (ev : Event) (l : InLoop) : InLoop :=
  let l1 := l <| il_result ::= AddBridgeBLegEvent ev |> in
  let gw := ev_get ev ("Variable_" +:+ bridgeGatewayTagVar) in
  if (ev_get ev "Event-Name" =? "CHANNEL_HANGUP")%string && negb (gw =? "")%string
  then l1 <| il_attempts ::= fun a => a ++ [{| ba_Gateway := gw; ba_HangupCause := ev_get ev "Hangup-Cause" |}] |>
  else l1.

Definition follow_bLeg (bridged : bool) (ev : Event) (l : InLoop) : InLoop :=
  let bleg := ev_get ev "Other-Leg-Unique-Id" in
  if bridged && (il_bLeg l =? "")%string && (ev_get ev "Event-Name" =? "CHANNEL_BRIDGE")%string &&
     negb (bleg =? "")%string
  then l <| il_bLeg := bleg |> <| il_sent ::= fun c => c ++ [Send ("filter Unique-ID " +:+ bleg)] |>
  else l.

Definition note_gateway (now : Z) (jobID : Z) (gw : string) (l : InLoop) : InLoop :=
  l <| il_gateway := gw |> <| il_tracker ::= MarkBridging now jobID "upstream" gw |>.

(** Which upstream gateway answered: the tag on the event, or on the other leg
    when the event tells of the bridge. *)
Definition learn_gateway (direction : string) (jobID now : Z) (ev : Event) (getvar : option string)
  (l : InLoop) : InLoop :=
  if (direction =? "upstream")%string && (il_gateway l =? "upstream")%string then
    let tag := ev_get ev ("Variable_" +:+ bridgeGatewayTagVar) in
    let bleg := ev_get ev "Other-Leg-Unique-Id" in
    let ask := (tag =? "")%string && (ev_get ev "Event-Name" =? "CHANNEL_BRIDGE")%string &&
               negb (bleg =? "")%string in
    let l1 := if ask
              then l <| il_sent ::= fun c => c ++ [Send ("api uuid_getvar " +:+ bleg +:+ " " +:+ bridgeGatewayTagVar)] |>
              else l in
    let gw := if ask then match getvar with Some body => trim_space body | None => "" end else tag in
    if (gw =? "")%string then l1 else note_gateway now jobID gw l1
  else l.

Definition on_call_event (bridged : bool) (direction : string) (jobID now : Z) (ev : Event)
  (getvar : option string) (l : InLoop) : InLoop :=
  learn_gateway direction jobID now ev getvar (follow_bLeg bridged ev (l <| il_result ::= AddEvent now ev |>)).

Fixpoint inbound_loop (bridged : bool) (direction : string) (channel : Z) (stream : list in_item) (l : InLoop)
  : loop_end * InLoop :=
  match stream with
  | [] => (StillUp, l)
  | InKill :: _ =>
      (KillRequested,
       l <| il_sent ::= fun c => c ++ [Send ("api uuid_kill " +:+ uuid_string channel); CloseConn] |>)
  | InError _ :: _ => (StreamFailed, l)
  | InEvent now ev getvar :: stream' =>
      if (ev_get ev "Content-Type" =? "text/disconnect-notice")%string
      then inbound_loop bridged direction channel stream' l
      else if is_other_leg bridged channel ev
      then inbound_loop bridged direction channel stream' (on_other_leg ev l)
      else
        let l1 := on_call_event bridged direction channel now ev getvar l in
        if negb (fr_HangupCause (il_result l1) =? "")%string
        then (Hungup, l1 <| il_sent ::= fun c => c ++ [CloseConn] |>)
        else inbound_loop bridged direction channel stream' l1
  end.

(** ** After the call *)

(** The last attempts to name the upstream gateway. *)
Definition attribute_upstream (direction : string) (channel : Z) (l : InLoop) : InLoop :=
  if (direction =? "upstream")%string then
    let l1 :=
      if (il_gateway l =? "upstream")%string then
        let l0 := l <| il_sent ::= fun c => c ++ [Send ("api uuid_getvar " +:+ uuid_string channel +:+ " " +:+ bridgeGatewayTagVar)] |> in
        match iw_getvar w with
        | Some body => if (trim_space body =? "")%string then l0
                       else note_gateway (iw_ended w) channel (trim_space body) l0
        | None => l0
        end
      else l in
    let resolved := resolveUpstreamBridgeGateway (il_gateway l1) (il_attempts l1) in
    if (resolved =? il_gateway l1)%string then l1 else note_gateway (iw_ended w) channel resolved l1
  else l.

Definition learn_inbound (direction : string) (plan : InPlan) (result : FaxResult) (st : PolicyState TP)
  : PolicyState TP :=
  if negb (is_bridge plan) then
    if fr_Success result then LearnFaxPolicySuccess in_policy_cfg (iw_ended w) (ip_src plan) st
    else if qualifiesForLearning (Some result)
    then LearnFaxPolicyFailure in_policy_cfg (iw_ended w) (ip_src plan) (Some result) st
    else st
  else if negb (fr_Success result) && ip_enableT38 plan && isT38NegotiationHangup (fr_HangupCause result)
  then LearnFaxPolicyBridgeFailure in_policy_cfg (iw_ended w)
         (if (direction =? "downstream")%string then ip_src plan else ip_dst plan) (fr_HangupCause result) st
  else st.

Definition update_pairs (plan : InPlan) (st : PairServer TS) : PairServer TS :=
  if fp_T38ForcedOff (ip_policy plan) then st
  else UpdateT38PairState (ip_src plan) (ip_dst plan)
         (if is_bridge plan then CallTypeBridge else CallTypeSoftmodem) (ip_enableT38 plan) (iw_ended w) st.

(** Bridge data, the result, and whether there is a document to deliver. *)
Definition finish_job (direction : string) (plan : InPlan) (gateway : string) (result : FaxResult)
  (job : FaxJob) : FaxJob :=
  if is_bridge plan then
    let job1 := if is_zero_time (iw_dialled w) || is_zero_time (iw_ended w) then job
                else job <| fj_ConnTime := time_sub (iw_ended w) (iw_dialled w) |> in
    job1 <| fj_IsBridge := true |> <| fj_BridgeDirection := direction |> <| fj_BridgeGateway := gateway |>
         <| fj_BridgeStartTs := iw_dialled w |> <| fj_BridgeEndTs := iw_ended w |>
         <| fj_BridgeT38 := ip_enableT38 plan |> <| fj_Result := Some result |> <| fj_NotifyOnly := true |>
  else
    let job1 := job <| fj_Result := Some result |> in
    if negb (fr_Success result) && (fr_TransferredPages result =? 0)
    then job1 <| fj_NotifyOnly := true |> else job1.

Definition bridge_direction (plan : InPlan) : string :=
  match ip_bridge plan with
  | Some gw => if (gw =? "upstream")%string then "upstream" else "downstream"
  | None => ""
  end.

(** Following the call once it is set up. *)
Definition follow_call (channel : Z) (plan : InPlan) (job : FaxJob) (st : server) : list fs_cmd * handled server :=
  let direction := bridge_direction plan in
  let gw := default "" (ip_bridge plan) in
  let tracker1 := Begin (iw_now w) job (in_tracker st) in
  let tracker2 := if is_bridge plan then MarkBridging (iw_now w) channel direction gw tracker1
                  else MarkReceiving (iw_now w) channel tracker1 in
  let l0 := {| il_result := NewFaxResult channel (is_bridge plan); il_bLeg := ""; il_gateway := gw;
               il_attempts := []; il_tracker := tracker2; il_sent := [] |} in
  match inbound_loop (is_bridge plan) direction channel (iw_stream w) l0 with
  | (StillUp, l) => (il_sent l, Following (st <| in_tracker := il_tracker l |>))
  | (KillRequested, l) => (il_sent l, Killed (st <| in_tracker := il_tracker l |>))
  | (_, l) =>
      let l1 := attribute_upstream direction channel l in
      (il_sent l1,
       Routed (finish_job direction plan (il_gateway l1) (il_result l1) job)
         (st <| in_tracker := il_tracker l1 |>
             <| in_policy ::= learn_inbound direction plan (il_result l1) |>
             <| in_pairs ::= update_pairs plan |>))
  end.

Definition subscribe_cmds (channel : Z) : list fs_cmd :=
  [Send "linger"; Send ("filter Unique-ID " +:+ uuid_string channel);
   Send "event plain CHANNEL_CALLSTATE CHANNEL_BRIDGE CHANNEL_HANGUP CUSTOM spandsp::rxfaxnegociateresult spandsp::rxfaxpageresult spandsp::rxfaxresult"].

Definition refuse_cmds (code : string) : list fs_cmd := [Execute "respond" code; Send "exit"].

(** [handler]: what it sends and how it ends. *)
Definition handler (st : server) : list fs_cmd * handled server :=
  match iw_connect w with
  | Err _ => ([Send "connect"; Send "exit"], Dropped st)
  | Ok connectev =>
      match iw_uuid w (ev_get connectev "Unique-Id") with
      | None => ([Send "connect"; Send "exit"], Dropped st)
      | Some channel =>
          let opening := Send "connect" :: subscribe_cmds channel in
          match recipient_of connectev with
          | Err _ => (opening ++ refuse_cmds "404", Refused "404" st)
          | Ok recipient =>
              match admit_source (ev_get connectev "Variable_sip_network_ip") st with
              | (st1, Err code) => (opening ++ refuse_cmds code, Refused code st1)
              | (st1, Ok gateway) =>
                  let plan := plan_inbound gateway (ev_get connectev "Channel-Caller-Id-Number") recipient st1 in
                  let filename := filepath_Join (fc_TempDir (c_Faxing cfg)) ("fax_" +:+ uuid_string channel +:+ ".tiff") in
                  let job := inbound_job channel filename gateway recipient connectev plan in
                  let '(sent, out) := follow_call channel plan job st1 in
                  (opening ++ call_cmds filename plan ++ sent, out)
              end
          end
      end
  end.

End handler.

(** ** Facts *)

Lemma span_digits_spec s d r : span_digits s = (d, r) ->
  s = d +:+ r /\ str_forall is_digit d = true /\ (forall c r', r = String c r' -> is_digit c = false).
Proof.
  revert d r. induction s as [|c s IH]; intros d r; simpl; [intros [= <- <-]; by split|].
  destruct (is_digit c) eqn:E; [|intros [= <- <-]; split; [done|]; split; [done|]; by intros ?? [= -> ->]].
  destruct (span_digits s) as [d1 r1] eqn:Es. intros [= <- <-].
  destruct (IH _ _ eq_refl) as (-> & Hd & Hr). split; [done|]. simpl. by rewrite E, Hd.
Qed.

Lemma span_digits_app d r : str_forall is_digit d = true ->
  (forall c r', r = String c r' -> is_digit c = false) -> span_digits (d +:+ r) = (d, r).
Proof.
  intros Hd Hr. induction d as [|c d IH]; rewrite ?str_app_nil, ?str_app_cons.
  - destruct r as [|c r]; simpl; [done|]. by rewrite (Hr c r).
  - simpl in Hd |- *. destruct (is_digit c); [|done]. by rewrite (IH Hd).
Qed.

(** A SIP address of the number [n] at the start. *)
Definition sip_prefix (n s : string) : Prop :=
  n <> "" /\ str_forall is_digit n = true /\ exists post, s = "sip:" +:+ n +:+ "@" +:+ post.

Lemma sip_here_spec s n : sip_here s = Some n <-> sip_prefix n s.
Proof.
  unfold sip_here, sip_prefix. split.
  - destruct (has_prefix s "sip:") eqn:Hp; [|done]. apply has_prefix_spec in Hp as [t ->].
    change (str_drop 4 ("sip:" +:+ t)) with t.
    destruct (span_digits t) as [[|c d] [|a r]] eqn:Es; try done.
    destruct (Ascii.eqb_spec a "@") as [->|]; [|done]. intros [= <-].
    apply span_digits_spec in Es as (-> & Hd & _). split; [done|]. split; [done|]. by exists r.
  - intros (Hn & Hd & post & ->). rewrite has_prefix_app.
    change (str_drop 4 ("sip:" +:+ ?t)) with t.
    rewrite span_digits_app; [|done|by intros ?? [= <- _]]. by destruct n.
Qed.

Lemma sip_number_spec s : 
  match sip_number s with
  | Some n => exists pre rest, s = pre +:+ rest /\ sip_prefix n rest /\
      forall pre' rest' n', s = pre' +:+ rest' -> sip_prefix n' rest' -> (String.length pre <= String.length pre')%nat
  | None => forall pre rest n, s = pre +:+ rest -> ~ sip_prefix n rest
  end.
Proof.
  induction s as [|c s IH]; simpl.
  - intros pre rest n H (_ & _ & post & ->). by destruct pre.
  - destruct (sip_here (String c s)) as [n|] eqn:E.
    { exists "", (String c s). split; [done|]. split; [by apply sip_here_spec|]. simpl. lia. }
    assert (forall n, ~ sip_prefix n (String c s)) as Hno by (intros n Hn%sip_here_spec; congruence).
    destruct (sip_number s) as [n|].
    + destruct IH as (pre & rest & -> & Hn & Hmin). exists (String c pre), rest.
      split; [done|]. split; [done|]. intros [|c' pre'] rest' n' H Hn'; [rewrite str_app_nil in H; subst; by apply Hno in Hn'|].
      rewrite str_app_cons in H. injection H as <- H. simpl. apply le_n_S. by eapply Hmin.
    + intros [|c' pre] rest n H Hn; [rewrite str_app_nil in H; subst; by apply (Hno n)|].
      rewrite str_app_cons in H. injection H as <- H. by eapply IH.
Qed.

(** *** The b-leg and the result *)

Lemma harvest_var_bleg name v f x :
  harvest_var name v (f <| fr_BridgeBLegT38 := x |>) = (harvest_var name v f) <| fr_BridgeBLegT38 := x |>.
Proof. open_harvest; reflexivity. Qed.

Lemma harvest_foldl_bleg ev names f x :
  foldl (harvest_step ev) (f <| fr_BridgeBLegT38 := x |>) names =
  (foldl (harvest_step ev) f names) <| fr_BridgeBLegT38 := x |>.
Proof.
  revert f. induction names as [|n names IH]; intros f; simpl; [reflexivity|].
  rewrite <- IH. f_equal. unfold harvest_step. destruct (_ =? "")%string; [reflexivity|].
  change (f <| fr_BridgeBLegT38 := x |> <| fr_ResultVars ::= ?g |>)
    with (f <| fr_ResultVars ::= g |> <| fr_BridgeBLegT38 := x |>).
  apply harvest_var_bleg.
Qed.

Lemma add_hangup_bleg ev f x :
  add_hangup ev (f <| fr_BridgeBLegT38 := x |>) = (add_hangup ev f) <| fr_BridgeBLegT38 := x |>.
Proof.
  unfold add_hangup, harvestResultVars. rewrite harvest_foldl_bleg.
  generalize (foldl (harvest_step ev) f faxResultVarNames) as g. intros g. by destruct g as [], fr_bridge.
Qed.

Lemma AddEvent_bleg now ev f x :
  AddEvent now ev (f <| fr_BridgeBLegT38 := x |>) = (AddEvent now ev f) <| fr_BridgeBLegT38 := x |>.
Proof.
  unfold AddEvent. destruct (_ =? "CHANNEL_CALLSTATE")%string.
  { unfold add_callstate. do 2 destruct (_ =? _)%string; reflexivity. }
  destruct (_ =? "CHANNEL_HANGUP")%string; [apply add_hangup_bleg|].
  destruct (_ =? "CUSTOM")%string; [|reflexivity]. unfold add_custom.
  repeat (destruct (str_mem _ _); [reflexivity|]). reflexivity.
Qed.

(** The events of the call's own leg. *)
Definition own_leg (e : leg_event) : bool := match e with ALeg _ _ => true | BLeg _ => false end.

(** Events of other legs touch nothing but their own T.38 mark. *)
Lemma feed_all_own es f :
  feed_all es f = (feed_all (List.filter own_leg es) f) <| fr_BridgeBLegT38 := fr_BridgeBLegT38 (feed_all es f) |>.
Proof.
  assert (forall es g x, exists y, feed_all es (g <| fr_BridgeBLegT38 := x |>) =
            (feed_all (List.filter own_leg es) g) <| fr_BridgeBLegT38 := y |>) as H.
  { clear. intros es. induction es as [|[now ev|ev] es IH]; intros g x; simpl; [by exists x| |].
    - rewrite AddEvent_bleg. apply IH.
    - rewrite (proj2 (bridge_legs_isolated ev [] _)). apply (IH g). }
  destruct (H es f (fr_BridgeBLegT38 f)) as [y Hy].
  assert (f <| fr_BridgeBLegT38 := fr_BridgeBLegT38 f |> = f) as Hf by (by destruct f).
  rewrite Hf in Hy. rewrite Hy. generalize (feed_all (List.filter own_leg es) f) as g. intros g. by destruct g.
Qed.

Lemma feed_all_app es es' f : feed_all (es ++ es') f = feed_all es' (feed_all es f).
Proof. apply foldl_app. Qed.

(** *** The loop *)

Section loop.
Variable uuid_string : Z -> string.
Variables (bridged : bool) (direction : string) (channel : Z).
Notation loop := (inbound_loop uuid_string bridged direction channel).

(** What an item is to the result. *)
Definition leg_of (item : in_item) : option leg_event :=
  match item with
  | InEvent now ev _ =>
      if (ev_get ev "Content-Type" =? "text/disconnect-notice")%string then None
      else if is_other_leg uuid_string bridged channel ev then Some (BLeg ev) else Some (ALeg now ev)
  | _ => None
  end.

Lemma follow_bLeg_result ev l : il_result (follow_bLeg bridged ev l) = il_result l.
Proof. unfold follow_bLeg. by destruct (_ && _). Qed.

Lemma learn_gateway_result jobID now ev getvar l :
  il_result (learn_gateway direction jobID now ev getvar l) = il_result l.
Proof.
  unfold learn_gateway. destruct (_ && _); [|done].
  destruct ((ev_get ev ("Variable_" +:+ bridgeGatewayTagVar) =? "")%string && _ && _); by destruct (_ =? "")%string.
Qed.

Lemma on_call_event_result jobID now ev getvar l :
  il_result (on_call_event bridged direction jobID now ev getvar l) = AddEvent now ev (il_result l).
Proof. unfold on_call_event. by rewrite learn_gateway_result, follow_bLeg_result. Qed.

Lemma on_other_leg_result ev l : il_result (on_other_leg ev l) = AddBridgeBLegEvent ev (il_result l).
Proof. unfold on_other_leg. by destruct (_ && _). Qed.

(** The end the loop found, and what follows it in the stream. *)
Definition ends_at (e : loop_end) (result : FaxResult) (rest : list in_item) : Prop :=
  match e with
  | Hungup => fr_HangupCause result <> ""
  | StreamFailed => fr_HangupCause result = "" /\ exists text rest', rest = InError text :: rest'
  | KillRequested => fr_HangupCause result = "" /\ exists rest', rest = InKill :: rest'
  | StillUp => fr_HangupCause result = "" /\ rest = []
  end.

Lemma bleg_cause ev f : fr_HangupCause (AddBridgeBLegEvent ev f) = fr_HangupCause f.
Proof. unfold AddBridgeBLegEvent. by destruct (_ || _). Qed.

(** No proper beginning of these items has brought a hangup cause. *)
Definition no_cause_before (pre : list in_item) (f : FaxResult) : Prop :=
  forall a b, pre = a ++ b -> b <> [] -> fr_HangupCause (feed_all (omap leg_of a) f) = "".

Lemma no_cause_before_cons item pre f :
  fr_HangupCause f = "" -> no_cause_before pre (feed_all (omap leg_of [item]) f) -> no_cause_before (item :: pre) f.
Proof.
  intros Hf H [|x a] b E Hb; [done|]. injection E as <- ->.
  change (omap leg_of (?i :: a)) with (omap leg_of ([i] ++ a)). rewrite omap_app, feed_all_app. by apply (H a b).
Qed.

Lemma inbound_loop_spec stream l e l' :
  fr_HangupCause (il_result l) = "" -> loop stream l = (e, l') ->
  exists pre rest, stream = pre ++ rest /\ il_result l' = feed_all (omap leg_of pre) (il_result l) /\
    ends_at e (il_result l') rest /\ no_cause_before pre (il_result l).
Proof.
  revert l. induction stream as [|[now ev getvar|text|] stream IH]; intros l Hh; cbn [inbound_loop].
  - intros [= <- <-]. exists [], []. split_and!; [done..|]. by intros [|??] [|??] E.
  - assert (forall l1, il_result l1 = feed_all (omap leg_of [InEvent now ev getvar]) (il_result l) ->
      fr_HangupCause (il_result l1) = "" -> loop stream l1 = (e, l') ->
      exists pre rest, InEvent now ev getvar :: stream = pre ++ rest /\
        il_result l' = feed_all (omap leg_of pre) (il_result l) /\ ends_at e (il_result l') rest /\
        no_cause_before pre (il_result l)) as Hgo.
    { intros l1 Hr Hh1 H. destruct (IH l1 Hh1 H) as (pre & rest & -> & Hres & Hend & Hno).
      exists (InEvent now ev getvar :: pre), rest. split; [done|]. split; [|split; [done|]].
      2: { apply no_cause_before_cons; [done|]. by rewrite <- Hr. }
      change (omap leg_of (?i :: pre)) with (omap leg_of ([i] ++ pre)). rewrite omap_app, feed_all_app, <- Hr.
      exact Hres. }
    unfold leg_of in Hgo at 1. cbn [omap list_omap] in Hgo.
    destruct (ev_get ev "Content-Type" =? "text/disconnect-notice")%string eqn:Ed; [by apply (Hgo l)|].
    destruct (is_other_leg uuid_string bridged channel ev) eqn:Eo.
    + apply Hgo; rewrite on_other_leg_result; [reflexivity|by rewrite bleg_cause].
    + pose proof (on_call_event_result channel now ev getvar l) as Hr.
      destruct (fr_HangupCause (il_result (on_call_event bridged direction channel now ev getvar l)) =? "")%string eqn:E;
        cbn [negb].
      * apply Hgo; [exact Hr|by apply String.eqb_eq].
      * intros [= <- <-]. exists [InEvent now ev getvar], stream. split; [done|].
        assert (omap leg_of [InEvent now ev getvar] = [ALeg now ev]) as ->
          by (unfold leg_of; simpl; by rewrite Ed, Eo).
        split; [exact Hr|]. split; [by apply String.eqb_neq in E|]. apply no_cause_before_cons; [done|].
        by intros [|??] [|??] ?.
  - intros [= <- <-]. exists [], (InError text :: stream). split; [done|]. split; [done|].
    split; [split; [done|]; by eexists _, _|]. by intros [|??] [|??] ?.
  - intros [= <- <-]. exists [], (InKill :: stream). split; [done|]. split; [done|].
    split; [split; [done|]; by eexists|]. by intros [|??] [|??] ?.
Qed.

End loop.

(** *** Properties *)

(** A number is read from a SIP address when there is one, the leftmost, and the
    call is refused otherwise. *)
Theorem getNumberFromSIPURI_exact uri :
  match getNumberFromSIPURI uri with
  | Ok n => exists pre rest, uri = pre +:+ rest /\ sip_prefix n rest /\
      forall pre' rest' n', uri = pre' +:+ rest' -> sip_prefix n' rest' -> (String.length pre <= String.length pre')%nat
  | Err _ => forall pre rest n, uri = pre +:+ rest -> ~ sip_prefix n rest
  end.
Proof.
  unfold getNumberFromSIPURI. pose proof (sip_number_spec uri) as H. by destruct (sip_number uri).
Qed.

(** *** The tracker *)

Definition tracked (id : Z) (t : FaxTracker) : Prop := is_Some (tr_byJob t !! id).

Lemma update_job_tracked id jobID f t : tracked id t -> tracked id (update_job jobID f t).
Proof.
  unfold tracked, update_job. intros [x Hx]. destruct (tr_byJob t !! jobID) eqn:E; [|by exists x]. simpl.
  destruct (decide (id = jobID)) as [->|Hne]; [rewrite lookup_insert_eq; by eexists|].
  rewrite lookup_insert_ne by congruence. by exists x.
Qed.

Lemma Begin_tracked now job t : tracked (fj_UUID job) (Begin now job t).
Proof.
  unfold tracked, Begin. destruct (tr_byJob t !! fj_UUID job) eqn:E; simpl;
    (destruct (fj_CallUUID job =? uuid_nil); simpl; rewrite ?lookup_insert_eq; by eexists).
Qed.

Section tracking.
Variable uuid_string : Z -> string.
Variables (bridged : bool) (direction : string) (channel id : Z).
Notation kept l l' := (tracked id (il_tracker l) -> tracked id (il_tracker l')).

Lemma note_gateway_tracked now jobID gw l : kept l (note_gateway now jobID gw l).
Proof. apply update_job_tracked. Qed.

Lemma on_call_event_tracked jobID now ev getvar l : kept l (on_call_event bridged direction jobID now ev getvar l).
Proof.
  unfold on_call_event. set (l1 := follow_bLeg _ _ _).
  assert (il_tracker l1 = il_tracker l) as <- by (unfold l1, follow_bLeg; by destruct (_ && _)). clearbody l1.
  unfold learn_gateway. destruct (_ && (il_gateway l1 =? "upstream")%string); [|done].
  set (ask := _ && _ && _). clearbody ask.
  destruct ask; destruct (_ =? "")%string; try done; apply update_job_tracked.
Qed.

Lemma inbound_loop_tracked stream l : kept l (inbound_loop uuid_string bridged direction channel stream l).2.
Proof.
  revert l. induction stream as [|[now ev getvar|text|] stream IH]; intros l Hl; cbn [inbound_loop]; try done.
  destruct (_ =? _)%string; [by apply IH|]. destruct (is_other_leg _ _ _ _).
  { apply IH. unfold on_other_leg. by destruct (_ && _). }
  apply (on_call_event_tracked channel now ev getvar) in Hl.
  set (l1 := on_call_event _ _ _ _ _ _ _) in *. clearbody l1.
  destruct (fr_HangupCause (il_result l1) =? "")%string; [by apply IH|done].
Qed.

Lemma attribute_upstream_tracked w l : kept l (attribute_upstream uuid_string w direction channel l).
Proof.
  intros Hl. unfold attribute_upstream. destruct (direction =? "upstream")%string; [|done].
  set (l1 := if (il_gateway l =? "upstream")%string then _ else _).
  assert (tracked id (il_tracker l1)) as Hl1.
  { unfold l1. destruct (_ =? _)%string; [|done]. destruct (iw_getvar w) as [body|]; [|done].
    destruct (trim_space body =? "")%string; [done|]. by apply note_gateway_tracked. }
  clearbody l1. cbv zeta. destruct (_ =? _)%string; [done|]. by apply note_gateway_tracked.
Qed.
End tracking.

(** Routing queues a job, unless there is nobody to deliver its document to. *)
Lemma routed_or_unknown now dm d job dst id :
  ApplyTransformationRules dm (fj_CalleeNumber job) = dst -> fj_UUID job = id ->
  let '(f, msgs) := routeFax now dm d job in
  Enqueue f ∈ msgs /\ fj_UUID f = id \/
  fj_NotifyOnly job = false /\ d_UpstreamFsGateways d = [] /\ is_ok (getEndpointsForNumber d dst) = false.
Proof.
  intros Hdst Hid. unfold routeFax.
  destruct (resolve_parties_frame now dm d job) as (Hcallee & _ & _ & Hno & Hu & _).
  set (f := resolve_parties now dm d job) in *. clearbody f. rewrite Hdst in Hcallee. rewrite Hid in Hu.
  unfold route_resolved. rewrite Hcallee, Hno.
  assert (forall g, fj_UUID g = id -> Enqueue g ∈ [Tick f; Enqueue g] /\ fj_UUID g = id) as Hsend
    by (intros g Hg; split; [right; left|done]).
  pose proof (usable_nonempty d dst) as Hne.
  destruct (_ && _);
    (destruct (getEndpointsForNumber d dst) as [[|ep eps]|e]; [by specialize (Hne [] eq_refl)|..]);
    try (destruct (d_UpstreamFsGateways d); [destruct (fj_NotifyOnly job)|]);
    first [left; by apply Hsend | by right].
Qed.

Section properties.
Context `{!Table TP FaxPolicyRule, !TableLaws TP FaxPolicyRule}.
Context `{!Table TS FaxPairState, !TableLaws TS FaxPairState} {S : Type}.
Variable sentry : SentryOps S.
Variable uuid_string : Z -> string.
Variable filepath_Join : string -> string -> string.
Variable cfg : Config.
Variable dm : DialplanManager.
Variable d : Directory.
Variable w : InWorld.
Notation server := (InServer TP TS S).
Notation run := (handler sentry uuid_string filepath_Join cfg dm d w).
Notation plan_of := (plan_inbound cfg dm d w).

Definition call_ip (ev : Event) : string := ev_get ev "Variable_sip_network_ip".

Definition banned (ip : string) (st : server) : bool :=
  match in_sentry st with Some s => so_IsBanned sentry (iw_now w) ip s | None => false end.

Definition same_rest (st st' : server) : Prop :=
  in_policy st' = in_policy st /\ in_pairs st' = in_pairs st /\ in_tracker st' = in_tracker st.

Lemma admit_source_cases ip (st : server) :
  match admit_source sentry d w ip st with
  | (st', Ok gateway) => st' = st /\ banned ip st = false /\ exists ep1, fsGatewayACL d ip = Ok ep1 /\ gateway = (str_cut ":" ep1).1
  | (st', Err code) => same_rest st st' /\
      (code = "403" /\ (exists s, in_sentry st = Some s /\ so_IsBanned sentry (iw_now w) ip s = true /\
                          in_sentry st' = Some (so_ShouldLogBlocked sentry (iw_now w) ip s).1) \/
       code = "401" /\ banned ip st = false /\ is_ok (fsGatewayACL d ip) = false /\
         in_sentry st' = option_map (so_RecordFailure sentry (iw_now w) ip) (in_sentry st))
  end.
Proof.
  unfold admit_source, banned, same_rest.
  destruct (in_sentry st) as [s|] eqn:Es; [destruct (so_IsBanned sentry (iw_now w) ip s) eqn:Eb|].
  - split; [done|]. left. split; [done|]. by exists s.
  - destruct (fsGatewayACL d ip) as [ep1|e]; [by eauto|].
    split; [done|]. right. split; [done|]. split; [done|]. split; [done|]. simpl. by rewrite Es.
  - destruct (fsGatewayACL d ip) as [ep1|e]; [by eauto|].
    split; [done|]. right. split; [done|]. split; [done|]. split; [done|]. simpl. by rewrite Es.
Qed.

(** The call once it is admitted. *)
Record call := {
  ca_ev : Event; ca_channel : Z; ca_recipient : string; ca_gateway : string; ca_plan : InPlan; ca_job : FaxJob;
}.

Definition admitted_call (st : server) (c : call) : Prop :=
  iw_connect w = Ok (ca_ev c) /\ iw_uuid w (ev_get (ca_ev c) "Unique-Id") = Some (ca_channel c) /\
  recipient_of cfg (ca_ev c) = Ok (ca_recipient c) /\ banned (call_ip (ca_ev c)) st = false /\
  (exists ep1, fsGatewayACL d (call_ip (ca_ev c)) = Ok ep1 /\ ca_gateway c = (str_cut ":" ep1).1) /\
  ca_plan c = plan_of (ca_gateway c) (ev_get (ca_ev c) "Channel-Caller-Id-Number") (ca_recipient c) st /\
  ca_job c = inbound_job uuid_string d w (ca_channel c)
    (filepath_Join (fc_TempDir (c_Faxing cfg)) ("fax_" +:+ uuid_string (ca_channel c) +:+ ".tiff"))
    (ca_gateway c) (ca_recipient c) (ca_ev c) (ca_plan c).

(** A handler refuses, or follows the admitted call. *)
Lemma handler_cases (st : server) cmds out : run st = (cmds, out) ->
  (out = Dropped st /\ cmds = [Send "connect"; Send "exit"]) \/
  (exists ev channel code st', out = Refused code st' /\ iw_connect w = Ok ev /\
     cmds = (Send "connect" :: subscribe_cmds uuid_string channel) ++ refuse_cmds code /\
     ((code = "404" /\ st' = st /\ is_ok (recipient_of cfg ev) = false) \/
      (exists recipient, recipient_of cfg ev = Ok recipient /\ admit_source sentry d w (call_ip ev) st = (st', Err code)))) \/
  (exists c sent, admitted_call st c /\
     follow_call uuid_string cfg w (ca_channel c) (ca_plan c) (ca_job c) st = (sent, out) /\
     cmds = (Send "connect" :: subscribe_cmds uuid_string (ca_channel c)) ++
            call_cmds cfg d (fj_FileName (ca_job c)) (ca_plan c) ++ sent).
Proof.
  unfold handler. destruct (iw_connect w) as [ev|e] eqn:Ec; [|intros [= <- <-]; by left].
  destruct (iw_uuid w _) as [channel|] eqn:Eu; [|intros [= <- <-]; by left].
  destruct (recipient_of cfg ev) as [recipient|e] eqn:Er.
  2: { intros [= <- <-]. right. left. exists ev, channel, "404", st. repeat (split; [done|]). left. by rewrite Er. }
  pose proof (admit_source_cases (call_ip ev) st) as Hadmit.
  destruct (admit_source sentry d w (ev_get ev "Variable_sip_network_ip") st) as [st1 [gateway|code]] eqn:Ea.
  2: { intros [= <- <-]. right. left. exists ev, channel, code, st1. repeat (split; [done|]). right. by exists recipient. }
  unfold call_ip in Hadmit. rewrite Ea in Hadmit. destruct Hadmit as (-> & Hb & Hacl).
  destruct (follow_call _ _ _ _ _ _ _) as [sent out'] eqn:Ef. intros [= <- <-]. right. right.
  exists {| ca_ev := ev; ca_channel := channel; ca_recipient := recipient; ca_gateway := gateway;
            ca_plan := plan_of gateway (ev_get ev "Channel-Caller-Id-Number") recipient st;
            ca_job := inbound_job uuid_string d w channel
              (filepath_Join (fc_TempDir (c_Faxing cfg)) ("fax_" +:+ uuid_string channel +:+ ".tiff"))
              gateway recipient ev (plan_of gateway (ev_get ev "Channel-Caller-Id-Number") recipient st) |}, sent.
  split; [|split; [exact Ef|reflexivity]]. repeat (split; [done|]). done.
Qed.

(** Why a call was refused, and what that left of the server. Only an address
    that matched no gateway is charged; for a banned one the sentry notes at most
    that it wrote a log line. *)
Inductive refusal (ev : Event) (st st' : server) : string -> Prop :=
| rf_recipient : is_ok (recipient_of cfg ev) = false -> st' = st -> refusal ev st st' "404"
| rf_banned s : is_ok (recipient_of cfg ev) = true -> in_sentry st = Some s ->
    so_IsBanned sentry (iw_now w) (call_ip ev) s = true ->
    in_sentry st' = Some (so_ShouldLogBlocked sentry (iw_now w) (call_ip ev) s).1 -> refusal ev st st' "403"
| rf_unknown : is_ok (recipient_of cfg ev) = true -> banned (call_ip ev) st = false ->
    is_ok (fsGatewayACL d (call_ip ev)) = false ->
    in_sentry st' = option_map (so_RecordFailure sentry (iw_now w) (call_ip ev)) (in_sentry st) ->
    refusal ev st st' "401".

(** C14: who gets through. A call is answered, bridged or turned into a job
    only when it names a recipient and its source address is not banned and
    belongs to a configured gateway, and then the sentry is untouched. A refused
    call changes neither policy nor pair state nor tracker, and only the SIP
    refusal is executed: 404 without a recipient, with nothing changed; 403 for
    a banned address, which is not charged again (the sentry only notes the time
    of its log line); 401 for an address that is not banned and matches no
    gateway, and that refusal, alone, records a failure of the address. *)
Theorem handler_admission (st : server) :
  let admitted st' := in_sentry st' = in_sentry st /\ exists ev, iw_connect w = Ok ev /\
    is_ok (recipient_of cfg ev) = true /\
    banned (call_ip ev) st = false /\ is_ok (fsGatewayACL d (call_ip ev)) = true in
  match run st with
  | (cmds, Dropped st') => st' = st /\ forall app args, Execute app args ∉ cmds
  | (cmds, Refused code st') =>
      same_rest st st' /\ (forall app args, Execute app args ∈ cmds -> app = "respond" /\ args = code) /\
      exists ev, iw_connect w = Ok ev /\ refusal ev st st' code
  | (_, Killed st') | (_, Following st') | (_, Routed _ st') => admitted st'
  end.
Proof.
  intros admitted. destruct (run st) as [cmds out] eqn:H. apply handler_cases in H.
  destruct H as [[-> ->]|[(ev & channel & code & st' & -> & Hc & -> & Hcode)|(c & sent & Hcall & Hf & _)]].
  - split; [done|]. intros app args. rewrite !elem_of_cons, elem_of_nil. intros [?|[?|?]]; done.
  - assert (same_rest st st' /\ refusal ev st st' code) as [Hsame Hwhy].
    { destruct Hcode as [(-> & -> & Hr)|(recipient & Hr & Ha)]; [by split; [|constructor]|].
      pose proof (admit_source_cases (call_ip ev) st) as H. rewrite Ha in H. destruct H as [Hs Hw].
      split; [exact Hs|]. destruct Hw as [(-> & s & Hs1 & Hb & Hs2)|(-> & Hb & Hacl & Hrec)].
      - apply rf_banned with s; [by rewrite Hr|done..].
      - apply rf_unknown; [by rewrite Hr|done..]. }
    split; [exact Hsame|]. split; [|by exists ev].
    intros app args. unfold subscribe_cmds, refuse_cmds. simpl. rewrite !elem_of_cons, elem_of_nil.
    intros [?|[?|[?|[?|[Hx|[?|?]]]]]]; try done. by injection Hx.
  - destruct Hcall as (Hc & _ & Hr & Hb & (ep1 & Hacl & _) & _).
    assert (forall st', in_sentry st' = in_sentry st -> admitted st') as Hok.
    { intros st' Hs. split; [exact Hs|]. exists (ca_ev c). rewrite Hacl, Hr. done. }
    unfold follow_call in Hf. destruct (inbound_loop _ _ _ _ _ _) as [[] l]; injection Hf as _ <-; by apply Hok.
Qed.

(** The events of a call up to where its handler stopped. *)
Definition consumed (c : call) (pre : list in_item) : list leg_event :=
  omap (leg_of uuid_string (is_bridge (ca_plan c)) (ca_channel c)) pre.

Definition fresh_result (c : call) : FaxResult := NewFaxResult (ca_channel c) (is_bridge (ca_plan c)).

Lemma note_gateway_result now jobID gw l : il_result (note_gateway now jobID gw l) = il_result l.
Proof. done. Qed.

Lemma attribute_upstream_result direction channel l :
  il_result (attribute_upstream uuid_string w direction channel l) = il_result l.
Proof.
  unfold attribute_upstream. destruct (direction =? "upstream")%string; [|done].
  assert (forall l1, il_result l1 = il_result l ->
    il_result (let resolved := resolveUpstreamBridgeGateway (il_gateway l1) (il_attempts l1) in
               if (resolved =? il_gateway l1)%string then l1 else note_gateway (iw_ended w) channel resolved l1) =
    il_result l) as H by (intros l1 <-; simpl; by destruct (_ =? _)%string).
  apply H. destruct (il_gateway l =? "upstream")%string; [|done].
  destruct (iw_getvar w) as [body|]; [|done]. by destruct (trim_space body =? "")%string.
Qed.

(** The job a handler hands to the router. *)
Lemma handler_routed (st : server) cmds job st' : run st = (cmds, Routed job st') ->
  exists c l pre rest, admitted_call st c /\ iw_stream w = pre ++ rest /\
    il_result l = feed_all (consumed c pre) (fresh_result c) /\
    (fr_HangupCause (il_result l) <> "" \/ exists text rest', rest = InError text :: rest') /\
    (forall a b, pre = a ++ b -> b <> [] -> fr_HangupCause (feed_all (consumed c a) (fresh_result c)) = "") /\
    job = finish_job w (bridge_direction (ca_plan c)) (ca_plan c) (il_gateway l) (il_result l) (ca_job c) /\
    in_policy st' = learn_inbound cfg w (bridge_direction (ca_plan c)) (ca_plan c) (il_result l) (in_policy st) /\
    in_pairs st' = update_pairs w (ca_plan c) (in_pairs st) /\ in_sentry st' = in_sentry st /\
    in_tracker st' = il_tracker l.
Proof.
  intros H. apply handler_cases in H as [[? _]|[(?&?&?&?&?&_)|(c & sent & Hcall & Hf & _)]]; [done|done|].
  unfold follow_call in Hf.
  destruct (inbound_loop _ _ _ _ _ _) as [e l] eqn:E.
  apply inbound_loop_spec in E as (pre & rest & Hs & Hr & Hend & Hno); [|done].
  exists c, (attribute_upstream uuid_string w (bridge_direction (ca_plan c)) (ca_channel c) l), pre, rest.
  rewrite attribute_upstream_result.
  destruct e; try discriminate Hf; injection Hf as _ Hj <-; (split; [done|]); (split; [done|]); (split; [exact Hr|]);
    (split; [first [by left | by right; destruct Hend]|]); (split; [exact Hno|]); by rewrite <- Hj, attribute_upstream_result.
Qed.


(** An event of this call: everything FreeSWITCH reports of a received call; of
    a bridged one, what carries this call's channel or no channel at all. The end
    of the event connection is no event of any call. *)
Definition of_this_call (c : call) (ev : Event) : Prop :=
  ev_get ev "Content-Type" <> "text/disconnect-notice" /\
  (ip_bridge (ca_plan c) = None \/ ev_get ev "Unique-ID" = "" \/ ev_get ev "Unique-ID" = uuid_string (ca_channel c)).

#[local] Instance of_this_call_dec c ev : Decision (of_this_call c ev).
Proof. unfold of_this_call. apply _. Defined.

Definition own_events (c : call) (items : list in_item) : list (Z * Event) :=
  omap (fun item => match item with
                    | InEvent now ev _ => if decide (of_this_call c ev) then Some (now, ev) else None
                    | _ => None
                    end) items.

(** The result after these events and no others. *)
Definition result_of (c : call) (es : list (Z * Event)) : FaxResult :=
  foldl (fun f '(now, ev) => AddEvent now ev f) (fresh_result c) es.

Lemma leg_of_this_call c now ev getvar :
  let leg := leg_of uuid_string (is_bridge (ca_plan c)) (ca_channel c) (InEvent now ev getvar) in
  if decide (of_this_call c ev) then leg = Some (ALeg now ev) else leg = None \/ leg = Some (BLeg ev).
Proof.
  cbv zeta. unfold leg_of, is_other_leg, is_bridge.
  destruct (decide (of_this_call c ev)) as [[Hd Ho]|Ho]; unfold of_this_call in Ho;
    destruct (String.eqb_spec (ev_get ev "Content-Type") "text/disconnect-notice") as [?|?]; try (by left); try done;
    destruct (ip_bridge (ca_plan c)) as [gw|]; cbn [andb]; try tauto;
    destruct (String.eqb_spec (ev_get ev "Unique-ID") "") as [?|?]; try tauto;
    destruct (String.eqb_spec (ev_get ev "Unique-ID") (uuid_string (ca_channel c))) as [?|?]; cbn; tauto || naive_solver.
Qed.

Lemma feed_all_own_events c items :
  feed_all (List.filter own_leg (consumed c items)) (fresh_result c) = result_of c (own_events c items).
Proof.
  unfold result_of. generalize (fresh_result c) as f. induction items as [|item items IH]; intros f; [done|].
  unfold consumed, own_events in *. cbn [omap list_omap]. destruct item as [now ev getvar|text|]; [|apply IH..].
  pose proof (leg_of_this_call c now ev getvar) as Hl. cbv zeta in Hl.
  destruct (decide (of_this_call c ev)); [rewrite Hl; apply IH|]. destruct Hl as [-> | ->]; apply IH.
Qed.

(** C15: the result of a call is that of its own leg. What the handler
    routes is the result of the events that carry this call's channel (or none),
    in their order, and of no other event; it stops at the first of them that
    brings a hangup cause, or at an error of the stream. Whatever the other legs
    of a bridge report, in whatever order, changes only the mark of the far
    leg's T.38: the far leg hanging up first neither ends the call nor lends it
    its cause. *)
Theorem handler_result (st : server) cmds job st' (H : run st = (cmds, Routed job st')) :
  exists c pre rest r, admitted_call st c /\ iw_stream w = pre ++ rest /\ fj_Result job = Some r /\
    r <| fr_BridgeBLegT38 := "" |> = (result_of c (own_events c pre)) <| fr_BridgeBLegT38 := "" |> /\
    (fr_HangupCause r <> "" \/ exists text rest', rest = InError text :: rest') /\
    (forall a b, pre = a ++ b -> b <> [] -> fr_HangupCause (result_of c (own_events c a)) = "").
Proof.
  apply handler_routed in H as (c & l & pre & rest & Hc & Hs & Hr & Hend & Hno & -> & _).
  exists c, pre, rest, (il_result l). split; [exact Hc|]. split; [exact Hs|]. split.
  { unfold finish_job. destruct (is_bridge _); [by destruct (_ || _)|]. by destruct (_ && _). }
  rewrite <- feed_all_own_events. split; [|split; [exact Hend|]].
  - rewrite Hr, feed_all_own.
    generalize (feed_all (List.filter own_leg (consumed c pre)) (fresh_result c)) as g.
    generalize (fr_BridgeBLegT38 (feed_all (consumed c pre) (fresh_result c))) as x. intros x g. by destruct g.
  - intros a b Hp Hb. rewrite <- feed_all_own_events. pose proof (Hno a b Hp Hb) as Ha. rewrite feed_all_own in Ha.
    revert Ha. generalize (feed_all (List.filter own_leg (consumed c a)) (fresh_result c)) as g.
    generalize (fr_BridgeBLegT38 (feed_all (consumed c a) (fresh_result c))) as x. intros x g. by destruct g.
Qed.

Lemma finish_job_fields direction plan gateway r job :
  let j := finish_job w direction plan gateway r job in
  fj_UUID j = fj_UUID job /\ fj_CallUUID j = fj_CallUUID job /\ fj_CalleeNumber j = fj_CalleeNumber job /\
  fj_CallerIdNumber j = fj_CallerIdNumber job /\ fj_SourceInfo j = fj_SourceInfo job /\
  fj_UsedT38 j = fj_UsedT38 job /\ fj_Result j = Some r /\
  fj_NotifyOnly j = fj_NotifyOnly job || is_bridge plan ||
    (negb (fr_Success r) && (fr_TransferredPages r =? 0)) && negb (is_bridge plan) /\
  fj_IsBridge j = fj_IsBridge job || is_bridge plan.
Proof.
  unfold finish_job. destruct (is_bridge plan).
  - destruct (_ || _); simpl; rewrite ?orb_true_r; repeat split.
  - destruct (negb (fr_Success r) && _); simpl; rewrite ?orb_true_r, ?orb_false_r; repeat split.
Qed.

(** The T.38 decision of an inbound call. A received call negotiates T.38
    only when it arrived from an upstream gateway; a bridged one either way; in
    both cases only when the policy enables it and either decides or leaves it
    to a pair that the flip-flop allows. What was decided is recorded on the
    job and is what the channel was set to. *)
Theorem handler_t38 (st : server) cmds job st' (H : run st = (cmds, Routed job st')) :
  exists c, admitted_call st c /\
    let p := ca_plan c in
    let callType := if is_bridge p then CallTypeBridge else CallTypeSoftmodem in
    fj_UsedT38 job =
      fp_EnableT38 (ip_policy p) &&
      (is_bridge p || existsb (equal_fold (ca_gateway c)) (d_UpstreamFsGateways d)) &&
      (fp_T38Decided (ip_policy p) ||
       ShouldAllowT38ForPair (in_policy_cfg cfg) (ip_src p) (ip_dst p) callType (iw_now w) (in_pairs st)) /\
    (is_bridge p = false -> set_var "fax_enable_t38" (format_bool (fj_UsedT38 job)) ∈ cmds).
Proof.
  pose proof H as Hcmd. apply handler_cases in Hcmd as [[? _]|[(?&?&?&?&?&_)|(c & sent & Hcall & Hf & ->)]]; [done|done|].
  exists c. split; [exact Hcall|]. intros p callType.
  assert (fj_UsedT38 job = ip_enableT38 p) as ->.
  { unfold follow_call in Hf. destruct (inbound_loop _ _ _ _ _ _) as [e l].
    destruct Hcall as (_ & _ & _ & _ & _ & _ & Hj).
    destruct e; try discriminate Hf; injection Hf as _ <- _;
      rewrite (proj1 (proj2 (proj2 (proj2 (proj2 (proj2 (finish_job_fields _ _ _ _ _))))))), Hj; done. }
  split.
  - subst p callType. destruct Hcall as (_ & _ & _ & _ & _ & -> & _). unfold plan_inbound, is_bridge. simpl.
    destruct (detectAndRouteToBridge _ _ _ _ _); simpl;
      destruct (fp_T38Decided _), (fp_EnableT38 _), (existsb (equal_fold (ca_gateway c)) (d_UpstreamFsGateways d)), (ShouldAllowT38ForPair _ _ _ _ _ _); done.
  - intros Hb. apply elem_of_app. right. apply elem_of_app. left. unfold call_cmds. apply elem_of_app. right.
    unfold is_bridge in Hb. destruct (ip_bridge (ca_plan c)) as [gw|] eqn:E; [by subst p; rewrite E in Hb|].
    unfold receive_cmds. left.
Qed.

(** A call that ended settles the pair: unless a rule forced T.38 off, the
    next call of the pair and kind within the pair state's lifetime is allowed
    T.38 exactly when this one did not use it. *)
Theorem handler_settles_pair (st : server) cmds job st' now (H : run st = (cmds, Routed job st'))
  (Httl : now - iw_ended w <= PairStateTTL (in_policy_cfg cfg)) :
  exists c, admitted_call st c /\
    let p := ca_plan c in
    (fp_T38ForcedOff (ip_policy p) = true -> in_pairs st' = in_pairs st) /\
    (fp_T38ForcedOff (ip_policy p) = false ->
     ShouldAllowT38ForPair (in_policy_cfg cfg) (ip_src p) (ip_dst p)
       (if is_bridge p then CallTypeBridge else CallTypeSoftmodem) now (in_pairs st') = negb (fj_UsedT38 job)).
Proof.
  apply handler_routed in H as (c & l & pre & rest & Hc & _ & _ & _ & _ & -> & _ & Hp & _).
  exists c. split; [exact Hc|]. intros p. subst p. rewrite Hp. unfold update_pairs.
  rewrite (proj1 (proj2 (proj2 (proj2 (proj2 (proj2 (finish_job_fields _ _ _ _ _))))))).
  assert (fj_UsedT38 (ca_job c) = ip_enableT38 (ca_plan c)) as -> by (by destruct Hc as (_ & _ & _ & _ & _ & _ & ->)).
  split; intros ->; [done|]. by apply pair_flip.
Qed.


(** The tracker when the call is set up. *)
Lemma follow_call_tracked c (st : server) sent job st' : fj_UUID (ca_job c) = ca_channel c ->
  follow_call uuid_string cfg w (ca_channel c) (ca_plan c) (ca_job c) st = (sent, Routed job st') ->
  tracked (ca_channel c) (in_tracker st').
Proof.
  intros Hid Hf. unfold follow_call in Hf.
  set (l0 := {| il_tracker := _ |}) in Hf.
  assert (tracked (ca_channel c) (il_tracker l0)) as H0.
  { unfold l0. simpl. destruct (is_bridge _); apply update_job_tracked; rewrite <- Hid; apply Begin_tracked. }
  pose proof (inbound_loop_tracked uuid_string (is_bridge (ca_plan c)) (bridge_direction (ca_plan c)) (ca_channel c)
    (ca_channel c) (iw_stream w) l0 H0) as H1.
  destruct (inbound_loop _ _ _ _ _ _) as [e l].
  destruct e; try discriminate Hf; injection Hf as _ _ <-; by apply attribute_upstream_tracked.
Qed.

(** C16: no outcome is lost. The job of an ended call is in the tracker when it is
    handed over, carries the call's identity, and is for notification only
    exactly when there is no document (a bridged call, or a failed one without
    a page): a partial fax is delivered. And the router queues it, unless it
    holds a document that nobody is configured to receive. *)
Theorem handler_reaches_queue (st : server) cmds job st' now (H : run st = (cmds, Routed job st')) :
  exists c r, admitted_call st c /\ fj_Result job = Some r /\
    fj_UUID job = ca_channel c /\ fj_CallUUID job = ca_channel c /\ fj_CalleeNumber job = ca_recipient c /\
    tracked (ca_channel c) (in_tracker st') /\
    fj_NotifyOnly job = is_bridge (ca_plan c) || (negb (fr_Success r) && (fr_TransferredPages r =? 0)) /\
    (let '(f, msgs) := routeFax now dm d job in
     Enqueue f ∈ msgs /\ fj_UUID f = ca_channel c \/
     fj_NotifyOnly job = false /\ d_UpstreamFsGateways d = [] /\
       is_ok (getEndpointsForNumber d (ip_dst (ca_plan c))) = false).
Proof.
  pose proof H as Hcmd.
  apply handler_cases in Hcmd as [[? _]|[(?&?&?&?&?&_)|(c & sent & Hcall & Hf & _)]]; [done|done|].
  pose proof Hcall as (_ & _ & _ & _ & _ & Hplan & Hj).
  assert (fj_UUID (ca_job c) = ca_channel c) as Hid by (by rewrite Hj).
  pose proof (follow_call_tracked c st sent job st' Hid Hf) as Htr.
  unfold follow_call in Hf. destruct (inbound_loop _ _ _ _ _ _) as [e l].
  set (l1 := attribute_upstream uuid_string w (bridge_direction (ca_plan c)) (ca_channel c) l) in *.
  assert (job = finish_job w (bridge_direction (ca_plan c)) (ca_plan c) (il_gateway l1) (il_result l1) (ca_job c)) as ->
    by (destruct e; try discriminate Hf; by injection Hf as _ <- _).
  destruct (finish_job_fields (bridge_direction (ca_plan c)) (ca_plan c) (il_gateway l1) (il_result l1) (ca_job c))
    as (Hu & Hcu & Hca & _ & _ & _ & Hres & Hno & _).
  set (job := finish_job _ _ _ _ _ _) in *. clearbody job.
  assert (fj_NotifyOnly job = is_bridge (ca_plan c) || (negb (fr_Success (il_result l1)) && (fr_TransferredPages (il_result l1) =? 0))) as Hno'.
  { rewrite Hno, Hj. simpl. by destruct (is_bridge _), (negb _ && _). }
  exists c, (il_result l1). split; [exact Hcall|]. split; [exact Hres|]. rewrite Hu, Hcu, Hca, Hj.
  split; [done|]. split; [done|]. split; [done|]. split; [exact Htr|]. split; [exact Hno'|].
  apply routed_or_unknown; [|by rewrite Hu]. rewrite Hca, Hj, Hplan. done.
Qed.


(** A fax taken in from a local gateway marks the pair as not having used T.38,
    though no T.38 was in play: the next call of the pair, the one that relays
    this fax, is always allowed T.38, whatever the last relay used. *)
Lemma local_intake_rearms_pair c (st : server) now :
  admitted_call st c -> is_bridge (ca_plan c) = false ->
  existsb (equal_fold (ca_gateway c)) (d_UpstreamFsGateways d) = false ->
  fp_T38ForcedOff (ip_policy (ca_plan c)) = false -> now - iw_ended w <= PairStateTTL (in_policy_cfg cfg) ->
  ShouldAllowT38ForPair (in_policy_cfg cfg) (ip_src (ca_plan c)) (ip_dst (ca_plan c)) CallTypeSoftmodem now
    (update_pairs w (ca_plan c) (in_pairs st)) = true.
Proof.
  intros (_ & _ & _ & _ & _ & Hp & _) Hb Hup Hoff Httl. unfold update_pairs. rewrite Hoff, Hb.
  assert (ip_enableT38 (ca_plan c) = false) as ->; [|by apply pair_flip].
  unfold is_bridge in Hb. rewrite Hp in Hb |- *. unfold plan_inbound in *. simpl in *.
  destruct (detectAndRouteToBridge _ _ _ _ _); [done|]. by rewrite Hup.
Qed.

End properties.

(** ** The sentry behind the interface *)

Definition sentry_ops {T F Net IPAddr : Type} `{!Table T BlockedIP} (parse_ip : string -> option IPAddr)
  (ip_string : IPAddr -> string) (net_contains : Net -> IPAddr -> bool) (cfg : SecurityConfig)
  (be : sentryBackend F) (d : Directory) : SentryOps (IPSentry T F Net) := {|
  so_IsBanned := IsBanned; so_ShouldLogBlocked := ShouldLogBlocked;
  so_RecordFailure := RecordFailure parse_ip ip_string net_contains cfg be d |}.

(** ** Witnesses *)

Definition example_sentry_ops : SentryOps (IPSentry (ListTable BlockedIP) unit string) :=
  sentry_ops (IPAddr := string) Some id has_prefix (c_Security zero_config) logOnlyBackend example_directory.

Definition example_in_server : InServer (ListTable FaxPolicyRule) (ListTable FaxPairState) (IPSentry (ListTable BlockedIP) unit string) :=
  {| in_policy := {| ps_db := fresh_table [] 1 []; ps_cache := None |}; in_pairs := example_pairs;
     in_tracker := NewFaxTracker; in_sentry := Some (example_sentry 0 (c_Security zero_config)) |}.

Definition incoming (ip : string) : Event :=
  {["Unique-Id" := "c1"; "Channel-Caller-Id-Number" := "5550001111"; "Variable_sip_to_user" := "5551234567";
    "Variable_sip_network_ip" := ip]}.

Definition in_hangup : Event :=
  {["Event-Name" := "CHANNEL_CALLSTATE"; "Channel-Call-State" := "HANGUP"; "Hangup-Cause" := "NORMAL_CLEARING"]}.

Definition in_success : Event :=
  {["Event-Name" := "CUSTOM"; "Event-Subclass" := "spandsp::rxfaxresult"; "Fax-Success" := "1";
    "Fax-Document-Transferred-Pages" := "3"]}.

Definition example_incoming (ip : string) : InWorld :=
  {| iw_connect := Ok (incoming ip); iw_uuid := fun s => if (s =? "c1")%string then Some 1 else None;
     iw_now := 100; iw_dialled := 101; iw_ended := 200;
     iw_endpoints := map_to_list (d_Endpoints example_directory);
     iw_tenants := fun _ => map_to_list (d_TenantEndpoints example_directory);
     iw_numbers := fun _ => map_to_list (d_NumberEndpoints example_directory);
     iw_stream := [InEvent 110 in_success None; InEvent 120 in_hangup None]; iw_getvar := None |}.

Definition example_in_cfg : Config := zero_config <| c_Faxing := zero_faxing <| fc_EnableT38 := true |> |>.

Definition example_handler (ip : string) :=
  handler example_sentry_ops (fun _ => "c1") (fun a b => a +:+ "/" +:+ b) example_in_cfg
    (NewDialplanManager DefaultTransformationRules) example_directory (example_incoming ip) example_in_server.

Definition routed_job {St} (x : handled St) : FaxJob := match x with Routed j _ => j | _ => zero_job end.
Definition routed_server {St} (st : St) (x : handled St) : St := match x with Routed _ st' => st' | _ => st end.

(** An address of no gateway is refused; the carrier's is answered. *)
Lemma example_handler_refuses : exists st', (example_handler "203.0.113.9").2 = Refused "401" st'.
Proof. eexists. vm_compute. reflexivity. Qed.

Notation example_out :=
  ((example_handler "198.51.100.1").1, Routed (routed_job (example_handler "198.51.100.1").2)
     (routed_server example_in_server (example_handler "198.51.100.1").2)) (only parsing).

(** The call the example handler follows. *)
Definition example_plan : InPlan :=
  plan_inbound example_in_cfg (NewDialplanManager DefaultTransformationRules) example_directory
    (example_incoming "198.51.100.1") "carrier" "5550001111" "5551234567" example_in_server.

Notation example_call := (admitted_call example_sentry_ops (fun _ => "c1") (fun a b => a +:+ "/" +:+ b) example_in_cfg
    (NewDialplanManager DefaultTransformationRules) example_directory (example_incoming "198.51.100.1") example_in_server).

Lemma example_call_unique c : example_call c -> ca_plan c = example_plan /\ ca_channel c = 1.
Proof.
  intros (Hev & Hch & Hrec & _ & (ep & Hep & Hgw) & Hp & _).
  injection Hev as Hev. rewrite <- Hev in *.
  assert (ep = "carrier:198.51.100.1") as -> by (vm_compute in Hep; congruence).
  assert (ca_recipient c = "5551234567") as Hr.
  { assert (recipient_of example_in_cfg (incoming "198.51.100.1") = Ok "5551234567") as E by (vm_compute; reflexivity).
    rewrite E in Hrec. by injection Hrec. }
  rewrite Hr, Hgw in Hp. split; [exact Hp|].
  assert (Some 1 = Some (ca_channel c)) as E by exact Hch. by injection E.
Qed.

Lemma handler_result_witness :
  let job := routed_job (example_handler "198.51.100.1").2 in
  exists es r, fj_Result job = Some r /\ fr_Success r = true /\
    r <| fr_BridgeBLegT38 := "" |> =
      (foldl (fun f '(now, ev) => AddEvent now ev f) (NewFaxResult 1 false) es) <| fr_BridgeBLegT38 := "" |>.
Proof.
  assert (example_handler "198.51.100.1" = example_out) as H by (vm_compute; reflexivity).
  destruct (handler_result _ _ _ _ _ _ _ _ _ _ _ H) as (c & pre & rest & r & Hc & _ & Hr & Heq & _).
  intros job. eexists _, r. split; [exact Hr|]. split.
  - assert (option_map fr_Success (fj_Result job) = Some true) as E by (vm_compute; reflexivity).
    unfold job in E. rewrite Hr in E. by injection E.
  - unfold result_of, fresh_result in Heq. destruct (example_call_unique c Hc) as [Hp Hch]. rewrite Hp, Hch in Heq. exact Heq.
Defined.

Lemma handler_t38_witness :
  fj_UsedT38 (routed_job (example_handler "198.51.100.1").2) = true /\
  set_var "fax_enable_t38" (format_bool (fj_UsedT38 (routed_job (example_handler "198.51.100.1").2)))
    ∈ (example_handler "198.51.100.1").1.
Proof.
  assert (example_handler "198.51.100.1" = example_out) as H by (vm_compute; reflexivity).
  split; [vm_compute; reflexivity|].
  destruct (handler_t38 _ _ _ _ _ _ _ _ _ _ _ H) as (c & Hc & _ & Hset).
  refine (Hset _). rewrite (proj1 (example_call_unique c Hc)). vm_compute. reflexivity.
Defined.

Lemma handler_settles_pair_witness :
  ShouldAllowT38ForPair zero_policy (ip_src example_plan) (ip_dst example_plan) CallTypeSoftmodem 300
    (in_pairs (routed_server example_in_server (example_handler "198.51.100.1").2)) =
  negb (fj_UsedT38 (routed_job (example_handler "198.51.100.1").2)).
Proof.
  assert (example_handler "198.51.100.1" = example_out) as H by (vm_compute; reflexivity).
  destruct (handler_settles_pair _ _ _ _ _ _ _ _ _ _ _ 300 H) as (c & Hc & _ & Hpair); [vm_compute; discriminate|].
  rewrite (proj1 (example_call_unique c Hc)) in Hpair. apply Hpair. vm_compute. reflexivity.
Defined.

Lemma handler_reaches_queue_witness :
  exists f, Enqueue f ∈ (routeFax 300 (NewDialplanManager DefaultTransformationRules) example_directory
    (routed_job (example_handler "198.51.100.1").2)).2 /\
  fj_NotifyOnly (routed_job (example_handler "198.51.100.1").2) = false.
Proof.
  assert (example_handler "198.51.100.1" = example_out) as H by (vm_compute; reflexivity).
  destruct (handler_reaches_queue _ _ _ _ _ _ _ _ _ _ _ 300 H) as (c & r & _ & _ & _ & _ & _ & _ & _ & Hroute).
  destruct (routeFax _ _ _ _) as [f msgs]. destruct Hroute as [[Hin _]|(_ & Hup & _)].
  - exists f. split; [exact Hin|]. vm_compute. reflexivity.
  - vm_compute in Hup. discriminate.
Defined.
