(* ===== verification/GatewayTemplates.v ===== *)
(** * GatewayTemplates: parameters and rendering of gateway files
    ([gofaxserver/gateway_provision.go], first part)

    Parameters are JSON values; the code looks inside strings and booleans
    only. [encoding/json], the cipher of [gofaxlib], the XML parser and the
    template engine are the record [Codec]: what the program does with the
    parsed template, with the parameters and with the rendered text is here. *)

From S2P Require Import Prelude Config Regexp Media.

(** ** Parameters *)

(** A JSON value; [POther] carries what is neither a string nor a boolean. *)
Inductive pval := PStr (s : string) | PBool (b : bool) | POther (raw : string).

Notation Params := (gmap string pval).

#[export] Instance pval_eq_dec : EqDecision pval.
Proof. solve_decision. Defined.

Definition param_str (p : Params) (key : string) : string :=
  match p !! key with Some (PStr s) => s | _ => "" end.

(** ** Template trees *)

(** [text/template/parse], with the nodes the walk does not look into as [NOther]. *)
Inductive tnode :=
| NAction (pipe : tnode)
| NPipe (cmds : list tnode)
| NCommand (args : list tnode)
| NField (ident : list string)
| NIf (pipe : tnode) (body : list tnode) (els : list tnode)
| NRange (pipe : tnode) (body : list tnode) (els : list tnode)
| NWith (pipe : tnode) (body : list tnode) (els : list tnode)
| NTemplate (name : string)
| NList (nodes : list tnode)
| NOther (text : string).

(** The packages behind the code. *)
Record Codec := {
  cd_marshal : Params -> res string;
  cd_unmarshal : string -> res Params;
  cd_encrypt : string -> res string;
  cd_decrypt : string -> res string;
  cd_parse : string -> res (list (list tnode));              (* one tree per template *)
  cd_execute : string -> Params -> res string;               (* with missingkey=error *)
  cd_well_formed : string -> bool;                           (* xml.Unmarshal *)
}.

Fixpoint walk (n : tnode) : list string :=
  match n with
  | NAction p => walk p
  | NPipe ns | NCommand ns | NList ns => flat_map walk ns
  | NField (v :: _) => [v]
  | NField [] | NTemplate _ | NOther _ => []
  | NIf p body els | NRange p body els | NWith p body els =>
      walk p ++ flat_map walk body ++ flat_map walk els
  end.

(** ** Operations *)

Definition maskSentinel : string := "********".

Definition isSensitiveParam (key : string) : bool :=
  let k := to_lower key in str_contains k "password" || str_contains k "secret".

(** One character of [xml.EscapeText]; characters above ASCII stay. *)
Definition xml_escape_char (c : ascii) : string :=
  let n := nat_of_ascii c in
  if (n =? 34)%nat then "&#34;"
  else if (n =? 39)%nat then "&#39;"
  else if (n =? 38)%nat then "&amp;"
  else if (n =? 60)%nat then "&lt;"
  else if (n =? 62)%nat then "&gt;"
  else if (n =? 9)%nat then "&#x9;"
  else if (n =? 10)%nat then "&#xA;"
  else if (n =? 13)%nat then "&#xD;"
  else if (n <? 32)%nat then String "239" (String "191" (String "189" ""))   (* U+FFFD *)
  else String c "".

Fixpoint xml_escape (s : string) : string :=
  match s with EmptyString => EmptyString | String c s' => xml_escape_char c +:+ xml_escape s' end.

Definition xmlEscapeParams (params : Params) : Params :=
  (fun v => match v with PStr s => PStr (xml_escape s) | _ => v end) <$> params.

(** [^[A-Za-z0-9_]+$]. *)
Definition gateway_char (c : ascii) : bool :=
  let n := nat_of_ascii c in
  is_digit c || (Nat.leb 65 n && Nat.leb n 90) || (Nat.leb 97 n && Nat.leb n 122) || Nat.eqb n 95.

Definition gatewayNameRe (name : string) : bool := negb (name =? "")%string && str_forall gateway_char name.

Definition validateGatewayName (name : string) : res unit :=
  if gatewayNameRe name then Ok tt else Err ("invalid gateway name " +:+ name).

(** [provisionDefaults]. *)
Definition provisionDefaults (params : Params) : Params :=
  let p1 := match params !! "extension" with
            | None => <["extension" := PStr "auto_to_user"]> params
            | Some v => if decide (v = PStr "") then <["extension" := PStr "auto_to_user"]> params else params
            end in
  match p1 !! "register" with None => <["register" := PBool false]> p1 | Some _ => p1 end.

Definition mask_param (k : string) (v : pval) : pval :=
  if isSensitiveParam k
  then match v with PStr s => if (s =? "")%string then v else PStr maskSentinel | _ => v end
  else v.

Definition mask_params (params : Params) : Params := map_imap (fun k v => Some (mask_param k v)) params.

(** What [UpdateGateway] does with the secrets it is sent. *)
Definition unmask_param (stored : Params) (k : string) (v : pval) : pval :=
  if isSensitiveParam k && bool_decide (v = PStr maskSentinel) then default v (stored !! k) else v.

Definition unmask_params (stored params : Params) : Params :=
  map_imap (fun k v => Some (unmask_param stored k v)) params.

(** "name:ip", or "name". *)
Definition endpointValue (name endpointIP : string) (params : Params) : string :=
  let ip := if (endpointIP =? "")%string then param_str params "realm" else endpointIP in
  if (ip =? "")%string then name else name +:+ ":" +:+ ip.

Section codec.
Variable cd : Codec.

Definition encodeParams (params : Params) : res string :=
  match cd_marshal cd params with Ok raw => cd_encrypt cd raw | Err e => Err e end.

(** A value that does not decrypt is a row from before encryption. *)
Definition decodeParams (stored : string) : res Params :=
  let raw := match cd_decrypt cd stored with Ok raw => raw | Err _ => stored end in
  match cd_unmarshal cd raw with
  | Ok params => Ok params
  | Err e => Err ("decode gateway params: " +:+ e)
  end.

Definition maskedParamsJSON (stored : string) : string :=
  match decodeParams stored with
  | Err _ => "{}"
  | Ok params => match cd_marshal cd (mask_params params) with Ok raw => raw | Err _ => "{}" end
  end.

Definition TemplateVariables (body : string) : res (list string) :=
  match cd_parse cd body with
  | Err e => Err ("invalid template: " +:+ e)
  | Ok trees => Ok (stable_sort str_less (remove_dups (flat_map (flat_map walk) trees)))
  end.

(** The parameters a template is executed with. *)
Definition render_params (vars : list string) (params : Params) : Params :=
  xmlEscapeParams params ∪ list_to_map (map (fun v => (v, PStr "")) vars).

Definition renderGatewayTemplate (body : string) (params : Params) : res string :=
  match TemplateVariables body with
  | Err e => Err e
  | Ok vars =>
      match cd_execute cd body (render_params vars params) with
      | Err e => Err ("template render failed: " +:+ e)
      | Ok out => if cd_well_formed cd out then Ok out else Err "rendered gateway XML is not well-formed"
      end
  end.

End codec.

(** ** Facts *)

(** A gateway name has no colon, so it is the label of its endpoint value. *)
Lemma gateway_name_no_colon name : gatewayNameRe name = true -> str_cut ":" name = (name, None).
Proof.
  unfold gatewayNameRe. intros [_ H]%andb_prop. induction name as [|c name IH]; simpl in *; [done|].
  apply andb_prop in H as [Hc H]. destruct (Ascii.eqb_spec c ":") as [->|]; [done|]. by rewrite (IH H).
Qed.

Lemma endpointValue_label name ip params : gatewayNameRe name = true ->
  (str_cut ":" (endpointValue name ip params)).1 = name.
Proof.
  intros H. apply gateway_name_no_colon in H. unfold endpointValue.
  destruct (_ =? "")%string; [by rewrite H|].
  change (":" +:+ ?x)%string with (String ":" x).
  destruct (str_cut ":" (name +:+ String ":" _)) as [a b] eqn:E.
  rewrite str_cut_no_sep_app in E; [by injection E as <- _|exact H].
Qed.

(** *** Escaping *)

(** The reading of an XML text: entities back to characters. *)
Fixpoint xml_unescape (fuel : nat) (s : string) : string :=
  match fuel, s with
  | S fuel', String c s' =>
      if has_prefix s "&#34;" then String "034" (xml_unescape fuel' (str_drop 5 s))
      else if has_prefix s "&#39;" then String "039" (xml_unescape fuel' (str_drop 5 s))
      else if has_prefix s "&amp;" then String "&" (xml_unescape fuel' (str_drop 5 s))
      else if has_prefix s "&lt;" then String "<" (xml_unescape fuel' (str_drop 4 s))
      else if has_prefix s "&gt;" then String ">" (xml_unescape fuel' (str_drop 4 s))
      else if has_prefix s "&#x9;" then String "009" (xml_unescape fuel' (str_drop 5 s))
      else if has_prefix s "&#xA;" then String "010" (xml_unescape fuel' (str_drop 5 s))
      else if has_prefix s "&#xD;" then String "013" (xml_unescape fuel' (str_drop 5 s))
      else String c (xml_unescape fuel' s')
  | _, _ => EmptyString
  end.

(** Characters XML allows in a text. *)
Definition xml_char (c : ascii) : bool :=
  let n := nat_of_ascii c in (32 <=? n)%nat || (n =? 9)%nat || (n =? 10)%nat || (n =? 13)%nat.

(** Markup: what could end an attribute or open a tag. *)
Definition markup (c : ascii) : bool :=
  let n := nat_of_ascii c in (n =? 34)%nat || (n =? 39)%nat || (n =? 60)%nat || (n =? 62)%nat.

Lemma xml_escape_char_safe c : str_forall (fun x => negb (markup x) && xml_char x) (xml_escape_char c) = true.
Proof. destruct c as [[] [] [] [] [] [] [] []]; reflexivity. Qed.

Lemma xml_escape_char_length c : (1 <= String.length (xml_escape_char c))%nat.
Proof. destruct c as [[] [] [] [] [] [] [] []]; cbv; lia. Qed.

Lemma xml_unescape_char c s fuel : xml_char c = true ->
  xml_unescape (S fuel) (xml_escape_char c +:+ s) = String c (xml_unescape fuel s).
Proof. destruct c as [[] [] [] [] [] [] [] []]; intros H; first [discriminate H | reflexivity | destruct s; reflexivity]. Qed.

(** Escaping: whatever a parameter holds, the escaped text has no quote and no angle
    bracket, so it cannot leave the attribute it is put in; and a reader of the
    XML gets the parameter back. *)
Theorem xml_escape_safe s :
  str_forall (fun x => negb (markup x) && xml_char x) (xml_escape s) = true /\
  (str_forall xml_char s = true -> forall fuel, (String.length (xml_escape s) <= fuel)%nat ->
     xml_unescape fuel (xml_escape s) = s).
Proof.
  induction s as [|c s [IH1 IH2]]; cbn [xml_escape].
  - split; [done|]. intros _ [|fuel] _; done.
  - split; [by rewrite str_forall_app, xml_escape_char_safe, IH1|].
    cbn [str_forall]. intros [Hc Hs]%andb_prop [|fuel] Hf; rewrite str_length_app in Hf;
      pose proof (xml_escape_char_length c); [lia|].
    rewrite xml_unescape_char by exact Hc. rewrite IH2 by (done || lia). done.
Qed.

(** *** Secrets *)

Lemma mask_params_lookup stored k : mask_params stored !! k = mask_param k <$> stored !! k.
Proof. etrans; [exact (map_lookup_imap _ stored k)|]. by destruct (stored !! k). Qed.

Lemma unmask_params_lookup stored params k : unmask_params stored params !! k = unmask_param stored k <$> params !! k.
Proof. etrans; [exact (map_lookup_imap _ params k)|]. by destruct (params !! k). Qed.

(** Secrets: the masked view shows no secret string, and an update that sends the
    masked view back, with whatever other parameters changed, keeps every stored
    secret. *)
Theorem masked_update_keeps_secrets (stored edits : Params)
  (Hnew : forall k v, edits !! k = Some v -> isSensitiveParam k = true -> v <> PStr maskSentinel) :
  (forall k s, mask_params stored !! k = Some (PStr s) -> isSensitiveParam k = true -> s = "" \/ s = maskSentinel) /\
  unmask_params stored (edits ∪ mask_params stored) = edits ∪ stored.
Proof.
  split.
  - intros k s. rewrite mask_params_lookup. destruct (stored !! k) as [v|]; [|done]. simpl. intros Heq Hk.
    injection Heq as Heq. unfold mask_param in Heq. rewrite Hk in Heq. destruct v as [x|b|raw]; try done.
    destruct (String.eqb_spec x "") as [E|E]; injection Heq as Heq; [left; congruence|by right].
  - apply map_eq. intros k. rewrite unmask_params_lookup, !lookup_union, mask_params_lookup.
    destruct (edits !! k) as [v|] eqn:Ee; simpl.
    + assert (unmask_param stored k v = v) as E.
      { unfold unmask_param. destruct (isSensitiveParam k) eqn:Ek; [|done]. simpl.
        rewrite bool_decide_eq_false_2; [done|]. by eapply Hnew. }
      destruct (stored !! k); simpl; by rewrite E.
    + destruct (stored !! k) as [v|] eqn:Es; [|done]. simpl. f_equal. unfold unmask_param, mask_param.
      destruct (isSensitiveParam k) eqn:Ek; [|done]. simpl.
      destruct (bool_decide _) eqn:Eb; [by rewrite Es|].
      destruct v as [x|b|raw]; try done. destruct (x =? "")%string; [done|]. by rewrite bool_decide_eq_true_2 in Eb.
Qed.

(** A secret that is not a string is shown as it is. *)
Lemma numeric_secret_is_shown :
  mask_params {["password" := POther "48151623"]} !! "password" = Some (POther "48151623").
Proof. reflexivity. Qed.

(** A secret that is unknown to the stored row keeps the mask as its value. *)
Lemma unknown_secret_becomes_the_mask :
  unmask_params ∅ {["password" := PStr maskSentinel]} !! "password" = Some (PStr maskSentinel).
Proof. reflexivity. Qed.

(** *** Rendering *)

(** A template is executed with every variable it mentions bound, each string
    escaped, and only well-formed output is accepted. *)
Lemma render_sound cd body params out : renderGatewayTemplate cd body params = Ok out ->
  exists trees vars, cd_parse cd body = Ok trees /\ TemplateVariables cd body = Ok vars /\
    (forall tree n v, tree ∈ trees -> n ∈ tree -> v ∈ walk n -> is_Some (render_params vars params !! v)) /\
    cd_execute cd body (render_params vars params) = Ok out /\ cd_well_formed cd out = true.
Proof.
  unfold renderGatewayTemplate, TemplateVariables. destruct (cd_parse cd body) as [trees|e]; [|done].
  set (vars := stable_sort str_less _). destruct (cd_execute cd body (render_params vars params)) as [o|e] eqn:Ex; [|done].
  destruct (cd_well_formed cd o) eqn:Ew; [|done]. intros [= <-]. exists trees, vars.
  split; [done|]. split; [done|]. split; [|done]. intros tree n v Ht Hn Hv.
  unfold render_params. apply lookup_union_is_Some. right.
  apply not_eq_None_Some. intros H. apply not_elem_of_list_to_map_2 in H. apply H.
  rewrite map_map. apply list_elem_of_fmap. exists v. split; [done|].
  unfold vars. apply elem_of_stable_sort, elem_of_remove_dups. apply list_elem_of_In, in_flat_map.
  exists tree. split; [by apply list_elem_of_In|]. apply in_flat_map. exists n. by rewrite <- !list_elem_of_In.
Qed.

Lemma masked_update_keeps_secrets_witness :
  let stored := {["password" := PStr "s3cret"; "realm" := PStr "192.0.2.1"]} : Params in
  let edits := {["realm" := PStr "192.0.2.9"]} : Params in
  unmask_params stored (edits ∪ mask_params stored) = edits ∪ stored /\
  mask_params stored !! "password" = Some (PStr maskSentinel).
Proof.
  intros stored edits. split; [|vm_compute; reflexivity].
  refine (proj2 (masked_update_keeps_secrets stored edits _)).
  intros k v H Hk. destruct (decide (k = "realm")) as [->|Hn]; [vm_compute in Hk; discriminate|].
  unfold edits in H. rewrite lookup_singleton_ne in H by congruence. discriminate.
Defined.
