(* ===== verification/Gateways.v ===== *)
(** * Gateways: provisioning FreeSWITCH gateways
    ([gofaxserver/gateway_provision.go], [gofaxserver/gateway_monitor.go])

    Every operation is a program in a state and error monad over the store, the
    gateway directory and the commands sent to FreeSWITCH. The directory holds
    file names and contents; a write replaces a file as a whole, as the rename
    does. File ownership, log lines and the masked copy in the answers are left
    out, the latter is [maskedParamsJSON]. *)

From S2P Require Import Prelude Config Store FaxJob Regexp Directory Media GatewayTemplates.

(** ** Data *)

Record GatewayTemplate := { gt_ID : Z; gt_Name : string; gt_Description : string; gt_Body : string }.

Record GatewayConfig := {
  gc_ID : Z; gc_Name : string; gc_TemplateID : Z; gc_Params : string; gc_EndpointID : Z;
  gc_LastState : string; gc_LastStateCheckedAt : option Z;
}.

#[export] Instance gateway_template_id : HasID GatewayTemplate := {
  get_id := gt_ID; set_id i r := r <| gt_ID := i |>; get_set_id i r := eq_refl }.
#[export] Instance gateway_config_id : HasID GatewayConfig := {
  get_id := gc_ID; set_id i r := r <| gc_ID := i |>; get_set_id i r := eq_refl }.

Record GatewayProvisionSpec := {
  gp_Name : string; gp_TemplateID : Z; gp_Params : Params;
  gp_Scope : string; gp_TypeID : Z; gp_Priority : Z; gp_Bridge : bool; gp_EndpointIP : string;
}.

Record GatewayAliasSpec := { ga_TypeID : Z; ga_Priority : Z; ga_Bridge : bool }.

Record ProvisionGatewayFromEndpointSpec := { pe_EndpointID : Z; pe_TemplateID : Z; pe_Params : Params }.

(** What an operation answers: the row and the live state. *)
Record GatewayStatus := {
  gw_Gateway : GatewayConfig; gw_File : string; gw_State : string; gw_Exists : bool; gw_Aliases : list Endpoint;
}.

Record UnmanagedFile := { uf_File : string; uf_Name : string }.
Record GatewayOverview := { go_Gateways : list GatewayStatus; go_Unmanaged : list UnmanagedFile }.

(** A built-in template. *)
Record TemplateDef := { td_name : string; td_description : string; td_body : string }.

(** The world: configuration, FreeSWITCH (given what it was told before), the
    file system, and the codecs. *)
Record GwEnv := {
  ge_GatewayConfigDir : string; ge_GatewayProfile : string;
  ge_api : list string -> string -> res string;
  ge_write : gmap string string -> string -> option string;       (* an error writing the file *)
  ge_unlink : gmap string string -> string -> option string;      (* an error removing it *)
  ge_join : string -> string -> string;                           (* filepath.Join *)
  ge_xml_names : string -> res (list string);                     (* the gateways an XML file declares *)
  ge_codec : Codec;
}.

(** ** Checks *)

Definition validateSpec (spec : GatewayProvisionSpec) : res unit :=
  match validateGatewayName (gp_Name spec) with
  | Err e => Err e
  | Ok _ =>
      if (trim_space (param_str (gp_Params spec) "realm") =? "")%string then Err "params.realm is required"
      else
        match gp_Params spec !! "register" with
        | Some (PBool true) =>
            if (param_str (gp_Params spec) "username" =? "")%string || (param_str (gp_Params spec) "password" =? "")%string
            then Err "params.username and params.password are required when register=true" else Ok tt
        | _ => Ok tt
        end
  end.

Definition endpointFromSpec (spec : GatewayProvisionSpec) : res Endpoint :=
  if (gp_Scope spec =? "tenant")%string || (gp_Scope spec =? "number")%string || (gp_Scope spec =? "global")%string
  then Ok {| ep_ID := 0; ep_Type := gp_Scope spec;
             ep_TypeID := if (gp_Scope spec =? "global")%string then 0 else gp_TypeID spec;
             ep_EndpointType := "gateway";
             ep_Endpoint := endpointValue (gp_Name spec) (gp_EndpointIP spec) (gp_Params spec);
             ep_Priority := gp_Priority spec; ep_Bridge := gp_Bridge spec |}
  else Err ("type must be tenant, number or global, got " +:+ gp_Scope spec).

Definition isGatewayAliasValue (gwName value : string) : bool :=
  (value =? gwName)%string || has_prefix value (gwName +:+ ":").

Definition xml_file (name : string) : string := name +:+ ".xml".

(** ** The monad *)

Section ops.
Context {TT TN TE TG TC : Type} `{!Table TT Tenant} `{!Table TN TenantNumber} `{!Table TE Endpoint}
  `{!Table TG GatewayTemplate} `{!Table TC GatewayConfig}.
Variable is_ip : string -> bool.
Variable lookup_ip : string -> option (list string).
Variable env : GwEnv.

Record GwState := {
  gs_store : Directory * Tables TT TN TE;
  gs_templates : TG;
  gs_configs : TC;
  gs_files : gmap string string;
  gs_api : list string;
}.

Definition GM (A : Type) : Type := GwState -> res A * GwState.

#[local] Instance gm_ret : MRet GM := fun A a st => (Ok a, st).
#[local] Instance gm_bind : MBind GM := fun A B f m st =>
  match m st with (Ok a, st') => f a st' | (Err e, st') => (Err e, st') end.

Definition fail {A} (e : string) : GM A := fun st => (Err e, st).
Definition lift {A} (r : res A) : GM A := fun st => (r, st).
(** The error as a value. *)
Definition attempt {A} (m : GM A) : GM (res A) := fun st => let '(r, st') := m st in (Ok r, st').

(** ** FreeSWITCH, files, tables *)

Definition fsAPI (cmd : string) : GM string := fun st =>
  (match ge_api env (gs_api st) cmd with Ok body => Ok (trim_space body) | Err e => Err e end,
   st <| gs_api := gs_api st ++ [cmd] |>).

Definition gatewayProfile : string :=
  if (trim_space (ge_GatewayProfile env) =? "")%string then "fax" else trim_space (ge_GatewayProfile env).

Definition gatewayDir : GM string :=
  if (trim_space (ge_GatewayConfigDir env) =? "")%string then fail "gateway provisioning is disabled"
  else mret (trim_space (ge_GatewayConfigDir env)).

Definition fsReloadGateways : GM string :=
  _ ← fsAPI "reloadxml";
  fsAPI ("sofia profile " +:+ gatewayProfile +:+ " rescan").

Definition fsKillGateway (name : string) : GM string :=
  _ ← attempt (fsAPI ("sofia killgw " +:+ gatewayProfile +:+ " " +:+ name));
  fsReloadGateways.

Definition state_of_line (line : string) : option string :=
  match fields_func is_space line with
  | [k; v] => if equal_fold k "State" then Some v else None
  | _ => None
  end.

Definition fsGatewayState (name : string) : GM string :=
  r ← attempt (fsAPI ("sofia status gateway " +:+ name));
  mret match r with
       | Err _ => "unknown"
       | Ok out =>
           match omap state_of_line (str_split "010" out) with
           | s :: _ => s
           | [] => if str_contains out "Invalid Gateway" || str_contains out "-ERR" then "not-loaded" else "unknown"
           end
       end.

Definition writeGatewayFile (name content : string) : GM string := fun st =>
  match ge_write env (gs_files st) name with
  | Some e => (Err e, st)
  | None => (Ok (ge_join env (trim_space (ge_GatewayConfigDir env)) (xml_file name)),
             st <| gs_files ::= insert (xml_file name) content |>)
  end.

(** [os.Remove]; the callers that roll back do not look at its error. *)
Definition os_remove (name : string) : GM unit := fun st =>
  match gs_files st !! xml_file name, ge_unlink env (gs_files st) name with
  | None, _ => (Err "no such file", st)
  | Some _, Some e => (Err e, st)
  | Some _, None => (Ok tt, st <| gs_files ::= delete (xml_file name) |>)
  end.

Definition removeFile (name : string) : GM unit := _ ← attempt (os_remove name); mret tt.

Definition file_exists (file : string) : GM bool := fun st => (Ok (bool_decide (is_Some (gs_files st !! file))), st).

Definition first_config (P : GatewayConfig -> bool) (e : string) : GM GatewayConfig := fun st =>
  let '(r, t) := tbl_first P (gs_configs st) in
  (match r with Some g => Ok g | None => Err e end, st <| gs_configs := t |>).

(** [Count], whose error is not looked at. *)
Definition count_configs (name : string) : GM nat := fun st =>
  let '(r, t) := tbl_find (fun g => (gc_Name g =? name)%string) (gs_configs st) in
  (Ok (length (default [] r)), st <| gs_configs := t |>).

Definition first_template (id : Z) : GM GatewayTemplate := fun st =>
  let '(r, t) := tbl_first (fun g => gt_ID g =? id) (gs_templates st) in
  (match r with Some g => Ok g | None => Err "template" end, st <| gs_templates := t |>).

(** [First(&tpl, id)] on a [tpl] that already holds a row: gorm adds the
    primary key the struct carries to the conditions. *)
Definition reload_template (tpl : GatewayTemplate) (id : Z) : GM GatewayTemplate := fun st =>
  let '(r, t) := tbl_first (fun g => (gt_ID g =? id) && ((gt_ID tpl =? 0) || (gt_ID g =? gt_ID tpl))) (gs_templates st) in
  (match r with Some g => Ok g | None => Err "template" end, st <| gs_templates := t |>).

Definition find_configs (P : GatewayConfig -> bool) : GM (list GatewayConfig) := fun st =>
  let '(r, t) := tbl_find P (gs_configs st) in
  (match r with Some l => Ok l | None => Err "gateway configs" end, st <| gs_configs := t |>).

Definition delete_config (id : Z) (e : string) : GM unit := fun st =>
  let '(ok, t) := tbl_delete (fun g => gc_ID g =? id) (gs_configs st) in
  (if ok then Ok tt else Err e, st <| gs_configs := t |>).

(** [Preload("Template")]: no row leaves the zero value. *)
Definition preload_template (gw : GatewayConfig) : GM GatewayTemplate :=
  r ← attempt (first_template (gc_TemplateID gw));
  mret match r with Ok t => t | Err _ => {| gt_ID := 0; gt_Name := ""; gt_Description := ""; gt_Body := "" |} end.

Definition first_number (id : Z) (e : string) : GM TenantNumber := fun st =>
  let '(r, t) := tbl_first (fun n => tn_ID n =? id) (tb_numbers (gs_store st).2) in
  (match r with Some n => Ok n | None => Err e end,
   st <| gs_store ::= fun s => (s.1, s.2 <| tb_numbers := t |>) |>).

(** What the loaded maps say now. *)
Definition asks {A} (f : Directory -> A) : GM A := fun st => (Ok (f (gs_store st).1), st).

Definition on_endpoints {A} (f : TE -> A * TE) : GM A := fun st =>
  let '(a, t) := f (tb_endpoints (gs_store st).2) in
  (Ok a, st <| gs_store ::= fun s => (s.1, s.2 <| tb_endpoints := t |>) |>).

Definition first_endpoint (id : Z) (e : string) : GM Endpoint :=
  r ← on_endpoints (tbl_first (fun ep => ep_ID ep =? id));
  match r with Some ep => mret ep | None => fail e end.

Definition create_config (g : GatewayConfig) (e : string) : GM GatewayConfig := fun st =>
  let '(r, t) := tbl_create g (gs_configs st) in
  (match r with Some g' => Ok g' | None => Err e end, st <| gs_configs := t |>).

Definition save_config (g : GatewayConfig) (e : string) : GM unit := fun st =>
  let '(ok, t) := tbl_save g (gs_configs st) in
  (if ok then Ok tt else Err e, st <| gs_configs := t |>).

(** An operation of the directory component: its error, if any. *)
Definition on_store (f : Directory * Tables TT TN TE -> bool * (Directory * Tables TT TN TE)) (e : string) : GM unit :=
  fun st => let '(ok, s) := f (gs_store st) in (if ok : bool then Ok tt else Err e, st <| gs_store := s |>).

(** [addEndpointToDB]: gorm writes the new key into the struct. *)
Definition add_endpoint (ep : Endpoint) (e : string) : GM Z := fun st =>
  let id := match (tbl_create ep (tb_endpoints (gs_store st).2)).1 with Some ep' => ep_ID ep' | None => 0 end in
  match on_store (addEndpointToDB ep) e st with
  | (Ok _, st') => (Ok id, st')
  | (Err x, st') => (Err x, st')
  end.

Definition reload_endpoints (e : string) : GM unit := on_store (loadEndpoints is_ip lookup_ip) e.

(** ** Endpoints of a gateway *)

(** The endpoints routed to the gateway, its own aside. *)
Definition alias_filter (gw : GatewayConfig) (eps : list Endpoint) : list Endpoint :=
  List.filter (fun ep => negb (ep_ID ep =? gc_EndpointID gw) && isGatewayAliasValue (gc_Name gw) (ep_Endpoint ep)) eps.

Definition gatewayAliasEndpoints (gw : GatewayConfig) : GM (list Endpoint) :=
  r ← on_endpoints (tbl_find (fun ep => (ep_EndpointType ep =? "gateway")%string));
  match r with Some eps => mret (alias_filter gw eps) | None => fail "alias lookup" end.

(** [gatewayManagingEndpoint]; no answer also when the table cannot be read. *)
Definition gatewayManagingEndpoint (endpointID : Z) : GM (option string) :=
  r ← attempt (first_config (fun g => gc_EndpointID g =? endpointID) "");
  mret match r with Ok g => Some (gc_Name g) | Err _ => None end.

Definition gatewayEndpointValue (gw : GatewayConfig) : GM string :=
  let from_params :=
    params ← lift (decodeParams (ge_codec env) (gc_Params gw));
    mret (endpointValue (gc_Name gw) "" params) in
  if gc_EndpointID gw =? 0 then from_params
  else
    r ← attempt (first_endpoint (gc_EndpointID gw) "");
    match r with
    | Ok ep => if (ep_Endpoint ep =? "")%string then from_params else mret (ep_Endpoint ep)
    | Err _ => from_params
    end.

Definition status_of (gw : GatewayConfig) (path : string) : GM GatewayStatus :=
  s ← fsGatewayState (gc_Name gw);
  mret {| gw_Gateway := gw; gw_File := path; gw_State := s; gw_Exists := true; gw_Aliases := [] |}.

(** A step that is undone when it fails. *)
Definition or_undo {A} (undo : GM unit) (m : GM A) : GM A :=
  r ← attempt m;
  match r with Ok a => mret a | Err e => _ ← attempt undo; fail e end.

Definition remove_and_kill (name : string) : GM unit :=
  _ ← removeFile name; _ ← attempt (fsKillGateway name); mret tt.

Definition new_config (name : string) (tpl : GatewayTemplate) (params : string) (endpointID : Z) : GatewayConfig :=
  {| gc_ID := 0; gc_Name := name; gc_TemplateID := gt_ID tpl; gc_Params := params; gc_EndpointID := endpointID;
     gc_LastState := ""; gc_LastStateCheckedAt := None |}.

(** The common middle of provisioning: the file, FreeSWITCH, the stored parameters. *)
Definition install (name rendered : string) (params : Params) : GM (string * string) :=
  path ← writeGatewayFile name rendered;
  _ ← or_undo (removeFile name) fsReloadGateways;
  paramsJSON ← or_undo (remove_and_kill name) (lift (encodeParams (ge_codec env) params));
  mret (path, paramsJSON).

Definition ProvisionGateway (spec : GatewayProvisionSpec) : GM GatewayStatus :=
  _ ← lift (validateSpec spec);
  _ ← gatewayDir;
  existing ← count_configs (gp_Name spec);
  if (0 <? existing)%nat then fail ("gateway " +:+ gp_Name spec +:+ " is already provisioned")
  else
    tpl ← first_template (gp_TemplateID spec);
    let params := <["name" := PStr (gp_Name spec)]> (provisionDefaults (gp_Params spec)) in
    rendered ← lift (renderGatewayTemplate (ge_codec env) (gt_Body tpl) params);
    ep ← lift (endpointFromSpec spec);
    '(path, paramsJSON) ← install (gp_Name spec) rendered params;
    id ← or_undo (remove_and_kill (gp_Name spec)) (add_endpoint ep "endpoint creation failed (rolled back)");
    gw ← or_undo (_ ← attempt (on_store (removeEndpointFromDB id) ""); remove_and_kill (gp_Name spec))
           (create_config (new_config (gp_Name spec) tpl paramsJSON id) "persist gateway config");
    _ ← reload_endpoints "gateway provisioned but endpoint reload failed";
    status_of gw path.

(** Writing a new value to each alias that does not have it. *)
Fixpoint retarget (newValue : string) (aliases : list Endpoint) : GM unit :=
  match aliases with
  | [] => mret tt
  | al :: aliases' =>
      if (ep_Endpoint al =? newValue)%string then retarget newValue aliases'
      else
        ok ← on_endpoints (tbl_save (al <| ep_Endpoint := newValue |>));
        if ok : bool then retarget newValue aliases' else fail "alias endpoint update failed"
  end.

(** The linked endpoint's value; its scope, priority and bridge flag stay. *)
Definition update_linked (gw : GatewayConfig) (newValue : string) : GM unit :=
  if gc_EndpointID gw =? 0 then mret tt
  else
    ep ← first_endpoint (gc_EndpointID gw) "linked endpoint read failed";
    on_store (updateEndpoint (ep <| ep_Endpoint := newValue |>)) "endpoint update failed".

Definition UpdateGateway (name : string) (spec0 : GatewayProvisionSpec) : GM GatewayStatus :=
  let spec := spec0 <| gp_Name := name |> in
  _ ← lift (validateSpec spec);
  _ ← gatewayDir;
  gw ← first_config (fun g => (gc_Name g =? name)%string) ("gateway " +:+ name);
  own ← preload_template gw;
  tpl ← (if negb (gp_TemplateID spec =? 0) && negb (gp_TemplateID spec =? gc_TemplateID gw)
         then reload_template own (gp_TemplateID spec) else mret own);
  let params0 := provisionDefaults (gp_Params spec) in
  let params1 := match decodeParams (ge_codec env) (gc_Params gw) with
                 | Ok stored => unmask_params stored params0
                 | Err _ => params0
                 end in
  let params := <["name" := PStr name]> params1 in
  rendered ← lift (renderGatewayTemplate (ge_codec env) (gt_Body tpl) params);
  path ← writeGatewayFile name rendered;
  _ ← fsReloadGateways;
  let newValue := endpointValue name (gp_EndpointIP spec) params in
  _ ← update_linked gw newValue;
  aliases ← gatewayAliasEndpoints gw;
  _ ← retarget newValue aliases;
  paramsJSON ← lift (encodeParams (ge_codec env) params);
  let gw1 := gw <| gc_TemplateID := gt_ID tpl |> <| gc_Params := paramsJSON |> in
  _ ← save_config gw1 "persist gateway config";
  _ ← reload_endpoints "gateway updated but endpoint reload failed";
  status_of gw1 path.

Definition DeprovisionGateway (name : string) : GM unit :=
  _ ← lift (validateGatewayName name);
  _ ← gatewayDir;
  gw ← first_config (fun g => (gc_Name g =? name)%string) ("gateway " +:+ name);
  aliases ← gatewayAliasEndpoints gw;
  match aliases with
  | _ :: _ => fail "gateway has alias endpoints"
  | [] =>
      _ ← removeFile name;
      _ ← fsKillGateway name;
      delete_config (gc_ID gw) "delete gateway config"
  end.

Definition CreateGatewayAlias (name : string) (spec : GatewayAliasSpec) : GM Endpoint :=
  _ ← lift (validateGatewayName name);
  gw ← first_config (fun g => (gc_Name g =? name)%string) "gateway not provisioned";
  tn ← first_number (ga_TypeID spec) "tenant number not found";
  loaded ← asks (fun d => d_TenantNumbers d !! tn_Number tn);
  match loaded with
  | None => fail "tenant number is not loaded; reload data first"
  | Some _ =>
      value ← gatewayEndpointValue gw;
      dupes ← on_endpoints (tbl_find (fun ep =>
        (ep_Type ep =? "number")%string && (ep_TypeID ep =? ga_TypeID spec) &&
        (ep_EndpointType ep =? "gateway")%string && (ep_Endpoint ep =? value)%string));
      match default [] dupes with
      | _ :: _ => fail "gateway alias already exists"
      | [] =>
          let ep := {| ep_ID := 0; ep_Type := "number"; ep_TypeID := ga_TypeID spec; ep_EndpointType := "gateway";
                       ep_Endpoint := value; ep_Priority := ga_Priority spec; ep_Bridge := ga_Bridge spec |} in
          id ← add_endpoint ep "persist alias endpoint";
          _ ← reload_endpoints "alias created but endpoint reload failed";
          mret (ep <| ep_ID := id |>)
      end
  end.

Definition ProvisionGatewayFromEndpoint (spec : ProvisionGatewayFromEndpointSpec) : GM GatewayStatus :=
  _ ← gatewayDir;
  ep ← first_endpoint (pe_EndpointID spec) "endpoint";
  if negb (ep_EndpointType ep =? "gateway")%string then fail "not gateway"
  else
    managed ← gatewayManagingEndpoint (ep_ID ep);
    match managed with
    | Some _ => fail "endpoint is already managed"
    | None =>
        let '(name, rest) := str_cut ":" (ep_Endpoint ep) in
        let ip := default "" rest in
        _ ← lift (validateGatewayName name);
        existing ← count_configs name;
        if (0 <? existing)%nat then fail ("gateway " +:+ name +:+ " is already provisioned")
        else
          tpl ← first_template (pe_TemplateID spec);
          let params0 := provisionDefaults (pe_Params spec) in
          params1 ← lift (if (trim_space (param_str params0 "realm") =? "")%string
                          then if (ip =? "")%string then Err "params.realm is required"
                               else Ok (<["realm" := PStr ip]> params0)
                          else Ok params0);
          let params := <["name" := PStr name]> params1 in
          rendered ← lift (renderGatewayTemplate (ge_codec env) (gt_Body tpl) params);
          '(path, paramsJSON) ← install name rendered params;
          gw ← or_undo (remove_and_kill name) (create_config (new_config name tpl paramsJSON (ep_ID ep)) "persist gateway config");
          status_of gw path
    end.

(** ** Files without a row *)

Definition gatewayNameFromFile (file : string) : GM string := fun st =>
  (match gs_files st !! file with
   | None => Err "no such file"
   | Some data =>
       match ge_xml_names env data with
       | Err e => Err ("parse " +:+ file +:+ ": " +:+ e)
       | Ok [] => Err "no gateway name found"
       | Ok (n :: _) => if (n =? "")%string then Err "no gateway name found" else Ok n
       end
   end, st).

(** [base] is the last element of the path that was sent. *)
Definition AdoptGateway (base : string) : GM GatewayStatus :=
  dir ← gatewayDir;
  if negb (has_suffix base ".xml") then fail "not an XML file"
  else
    name ← gatewayNameFromFile base;
    _ ← lift (validateGatewayName name);
    existing ← count_configs name;
    if (0 <? existing)%nat then fail ("gateway " +:+ name +:+ " is already managed")
    else
      paramsJSON ← lift (encodeParams (ge_codec env) {["name" := PStr name]});
      gw ← create_config {| gc_ID := 0; gc_Name := name; gc_TemplateID := 0; gc_Params := paramsJSON;
                            gc_EndpointID := 0; gc_LastState := ""; gc_LastStateCheckedAt := None |} "persist gateway config";
      status_of gw (ge_join env dir base).

Definition DeleteUnmanagedGateway (name : string) : GM unit :=
  _ ← lift (validateGatewayName name);
  _ ← gatewayDir;
  tracked ← count_configs name;
  if (0 <? tracked)%nat then fail ("gateway " +:+ name +:+ " is managed")
  else
    there ← file_exists (xml_file name);
    if there : bool then _ ← os_remove name; _ ← fsKillGateway name; mret tt
    else fail "no unmanaged file".

Definition RepairGateway (name : string) : GM GatewayStatus :=
  _ ← lift (validateGatewayName name);
  _ ← gatewayDir;
  gw ← first_config (fun g => (gc_Name g =? name)%string) ("gateway " +:+ name);
  own ← preload_template gw;
  if gc_TemplateID gw =? 0 then fail "gateway has no template"
  else
    params ← lift (decodeParams (ge_codec env) (gc_Params gw));
    rendered ← lift (renderGatewayTemplate (ge_codec env) (gt_Body own) (<["name" := PStr name]> params));
    path ← writeGatewayFile name rendered;
    _ ← fsReloadGateways;
    status_of gw path.

(** [os.ReadDir]: the file names in order. *)
Definition read_dir : GM (list string) := fun st =>
  (Ok (stable_sort String.ltb (map fst (map_to_list (gs_files st)))), st).

Definition gateway_status (dir : res string) (gw : GatewayConfig) : GM GatewayStatus :=
  s ← fsGatewayState (gc_Name gw);
  aliases ← attempt (gatewayAliasEndpoints gw);
  let als := match aliases with Ok l => l | Err _ => [] end in
  match dir with
  | Err _ => mret {| gw_Gateway := gw; gw_File := ""; gw_State := s; gw_Exists := false; gw_Aliases := als |}
  | Ok d =>
      there ← file_exists (xml_file (gc_Name gw));
      mret {| gw_Gateway := gw; gw_File := ge_join env d (xml_file (gc_Name gw)); gw_State := s;
              gw_Exists := there; gw_Aliases := als |}
  end.

Fixpoint map_status (dir : res string) (gws : list GatewayConfig) : GM (list GatewayStatus) :=
  match gws with
  | [] => mret []
  | gw :: gws' => s ← gateway_status dir gw; l ← map_status dir gws'; mret (s :: l)
  end.

Definition is_unmanaged (tracked : list string) (file : string) : bool :=
  has_suffix file ".xml" && negb (has_prefix file ".") &&
  negb (str_mem (str_take (String.length file - 4) file) tracked).

Fixpoint map_unmanaged (files : list string) : GM (list UnmanagedFile) :=
  match files with
  | [] => mret []
  | f :: files' =>
      n ← attempt (gatewayNameFromFile f);
      l ← map_unmanaged files';
      mret ({| uf_File := f; uf_Name := match n with Ok n => n | Err _ => "" end |} :: l)
  end.

Definition ListGateways : GM GatewayOverview :=
  gws ← find_configs (fun _ => true);
  dir ← attempt gatewayDir;
  sts ← map_status dir gws;
  match dir with
  | Err _ => mret {| go_Gateways := sts; go_Unmanaged := [] |}
  | Ok _ =>
      files ← read_dir;
      un ← map_unmanaged (List.filter (is_unmanaged (map gc_Name gws)) files);
      mret {| go_Gateways := sts; go_Unmanaged := un |}
  end.

(** ** The built-in templates *)

Definition all_templates : GM (list GatewayTemplate) := fun st =>
  let '(r, t) := tbl_find (fun _ => true) (gs_templates st) in
  (match r with Some l => Ok l | None => Err "count" end, st <| gs_templates := t |>).

Definition create_template (g : GatewayTemplate) : GM unit := fun st =>
  let '(r, t) := tbl_create g (gs_templates st) in
  (match r with Some _ => Ok tt | None => Err ("seed gateway template " +:+ gt_Name g) end, st <| gs_templates := t |>).

Fixpoint seed (defs : list TemplateDef) : GM unit :=
  match defs with
  | [] => mret tt
  | d :: defs' =>
      _ ← create_template {| gt_ID := 0; gt_Name := td_name d; gt_Description := td_description d; gt_Body := td_body d |};
      seed defs'
  end.

Definition seedGatewayTemplates (defaults : list TemplateDef) : GM unit :=
  l ← all_templates;
  match l with [] => seed defaults | _ :: _ => mret tt end.

End ops.
