(* ===== verification/GatewayInvariant.v ===== *)
(** * GatewayInvariant: what gateway provisioning keeps and achieves

    The rows of the gateway and endpoint tables and the gateway directory are
    the view the theorems are about. Each operation of [Gateways] is followed
    through with weakest preconditions: one rule per primitive, and everything
    that only reads, or only talks to FreeSWITCH, is [quiet]. *)

From S2P Require Import Prelude Config Store FaxJob Regexp Directory Media GatewayTemplates Gateways.

Section proofs.
Context {TT TN TE TG TC : Type} `{!Table TT Tenant} `{!Table TN TenantNumber}
  `{!Table TE Endpoint, !TableLaws TE Endpoint} `{!Table TG GatewayTemplate, !TableLaws TG GatewayTemplate}
  `{!Table TC GatewayConfig, !TableLaws TC GatewayConfig}.
Variable is_ip : string -> bool.
Variable lookup_ip : string -> option (list string).
Variable env : GwEnv.
#[local] Notation GwState := (GwState (TT := TT) (TN := TN) (TE := TE) (TG := TG) (TC := TC)).
#[local] Notation GM := (GM (TT := TT) (TN := TN) (TE := TE) (TG := TG) (TC := TC)).

Definition cfgs (st : GwState) : list GatewayConfig := tbl_rows (gs_configs st).
Definition eps (st : GwState) : list Endpoint := tbl_rows (tb_endpoints (gs_store st).2).

(** ** Weakest preconditions *)

Definition wp {A} (m : GM A) (Q : res A -> GwState -> Prop) (st : GwState) : Prop := Q (m st).1 (m st).2.

(** Only reads, or talks to FreeSWITCH. *)
Definition quiet {A} (m : GM A) : Prop := forall st,
  cfgs (m st).2 = cfgs st /\ eps (m st).2 = eps st /\ gs_files (m st).2 = gs_files st.

(** Leaves the tables alone. *)
Definition inert {A} (m : GM A) : Prop := forall st, cfgs (m st).2 = cfgs st /\ eps (m st).2 = eps st.

#[local] Existing Instances gm_ret gm_bind.

Lemma wp_bind {A B} (m : GM A) (f : A -> GM B) Q st :
  wp m (fun r st' => match r with Ok a => wp (f a) Q st' | Err e => Q (Err e) st' end) st -> wp (m ≫= f) Q st.
Proof. unfold wp, mbind, gm_bind. by destruct (m st) as [[a|e] st']. Qed.

Lemma wp_lift {A} (r : res A) Q st : Q r st -> wp (lift r : GM A) Q st.
Proof. done. Qed.
Lemma wp_fail {A} e Q st : Q (Err e) st -> wp (fail e : GM A) Q st.
Proof. done. Qed.
Lemma wp_ret {A} (a : A) Q st : Q (Ok a) st -> wp (mret a : GM A) Q st.
Proof. done. Qed.

Lemma wp_attempt {A} (m : GM A) Q st : wp m (fun r st' => Q (Ok r) st') st -> wp (attempt m) Q st.
Proof. unfold wp, attempt. by destruct (m st) as [[a|e] st']. Qed.

Lemma wp_mono {A} (m : GM A) (Q Q' : res A -> GwState -> Prop) st :
  wp m Q st -> (forall r st', Q r st' -> Q' r st') -> wp m Q' st.
Proof. unfold wp. auto. Qed.

Lemma wp_quiet {A} (m : GM A) (Q : res A -> GwState -> Prop) st : quiet m ->
  (forall r st', cfgs st' = cfgs st -> eps st' = eps st -> gs_files st' = gs_files st -> Q r st') -> wp m Q st.
Proof. intros Hm HQ. destruct (Hm st) as (?&?&?). by apply HQ. Qed.

Lemma wp_inert {A} (m : GM A) (Q : res A -> GwState -> Prop) st : inert m ->
  (forall r st', cfgs st' = cfgs st -> eps st' = eps st -> Q r st') -> wp m Q st.
Proof. intros Hm HQ. destruct (Hm st) as (?&?). by apply HQ. Qed.

(** The endpoint table answers, and what leaves it answering. *)
Definition ep_ok (st : GwState) : Prop := tbl_healthy (tb_endpoints (gs_store st).2).
Definition steady {A} (m : GM A) : Prop := forall st, ep_ok st -> ep_ok (m st).2.


(** ** What is quiet, what is inert *)

Lemma quiet_inert {A} (m : GM A) : quiet m -> inert m.
Proof. intros H st. destruct (H st) as (?&?&?). auto. Qed.

Lemma quiet_same {A} (m : GM A) : (forall st, (m st).2 = st) -> quiet m.
Proof. intros H st. rewrite H. auto. Qed.

Lemma quiet_ret {A} (a : A) : quiet (mret a : GM A).
Proof. by apply quiet_same. Qed.
Lemma quiet_fail {A} e : quiet (fail e : GM A).
Proof. by apply quiet_same. Qed.
Lemma quiet_lift {A} (r : res A) : quiet (lift r : GM A).
Proof. by apply quiet_same. Qed.

Lemma quiet_bind {A B} (m : GM A) (f : A -> GM B) : quiet m -> (forall a, quiet (f a)) -> quiet (m ≫= f).
Proof.
  intros Hm Hf st. unfold mbind, gm_bind. destruct (Hm st) as (H1 & H2 & H3).
  destruct (m st) as [[a|e] st']; simpl in *; [|auto].
  destruct (Hf a st') as (->&->&->). auto.
Qed.

Lemma inert_bind {A B} (m : GM A) (f : A -> GM B) : inert m -> (forall a, inert (f a)) -> inert (m ≫= f).
Proof.
  intros Hm Hf st. unfold mbind, gm_bind. destruct (Hm st) as (H1 & H2).
  destruct (m st) as [[a|e] st']; simpl in *; [|auto]. destruct (Hf a st') as (->&->). auto.
Qed.

Lemma quiet_attempt {A} (m : GM A) : quiet m -> quiet (attempt m).
Proof. intros Hm st. specialize (Hm st). unfold attempt. by destruct (m st). Qed.
Lemma inert_attempt {A} (m : GM A) : inert m -> inert (attempt m).
Proof. intros Hm st. specialize (Hm st). unfold attempt. by destruct (m st). Qed.

Create HintDb gw.
#[local] Hint Resolve quiet_ret quiet_fail quiet_lift : gw.

(** Follows the shape of a program down to its primitives. *)
Ltac follow :=
  repeat first
    [ progress eauto 2 with gw
    | apply quiet_bind; [|intros ?]
    | apply quiet_attempt
    | case_match ].
Ltac follow_inert :=
  repeat first
    [ progress eauto 2 with gw
    | apply quiet_inert; progress eauto 2 with gw
    | apply inert_bind; [|intros ?]
    | apply inert_attempt
    | case_match ].

Lemma quiet_fsAPI cmd : quiet (fsAPI env cmd : GM string).
Proof. intros st. done. Qed.
Lemma quiet_asks {A} (f : Directory -> A) : quiet (asks f : GM A).
Proof. by apply quiet_same. Qed.
Lemma quiet_exists file : quiet (file_exists file : GM bool).
Proof. by apply quiet_same. Qed.
Lemma quiet_read_dir : quiet (read_dir : GM (list string)).
Proof. by apply quiet_same. Qed.
Lemma quiet_name file : quiet (gatewayNameFromFile env file : GM string).
Proof. by apply quiet_same. Qed.
#[local] Hint Resolve quiet_fsAPI quiet_asks quiet_exists quiet_read_dir quiet_name : gw.

Lemma quiet_dir : quiet (gatewayDir env : GM string).
Proof. unfold gatewayDir. follow. Qed.
Lemma quiet_reload : quiet (fsReloadGateways env : GM string).
Proof. unfold fsReloadGateways. follow. Qed.
#[local] Hint Resolve quiet_dir quiet_reload : gw.
Lemma quiet_kill name : quiet (fsKillGateway env name : GM string).
Proof. unfold fsKillGateway. follow. Qed.
Lemma quiet_state name : quiet (fsGatewayState env name : GM string).
Proof. unfold fsGatewayState. follow. Qed.
#[local] Hint Resolve quiet_kill quiet_state : gw.
Lemma quiet_status gw path : quiet (status_of env gw path : GM GatewayStatus).
Proof. unfold status_of. follow. Qed.

Lemma quiet_first_config P e : quiet (first_config P e : GM GatewayConfig).
Proof.
  intros st. unfold first_config, cfgs, eps. pose proof (first_rows P (gs_configs st)) as H.
  by destruct (tbl_first P (gs_configs st)).
Qed.
Lemma quiet_count name : quiet (count_configs name : GM nat).
Proof.
  intros st. unfold count_configs, cfgs, eps.
  pose proof (find_rows (fun g => (gc_Name g =? name)%string) (gs_configs st)) as H. by destruct (tbl_find _ _).
Qed.
Lemma quiet_find_configs P : quiet (find_configs P : GM (list GatewayConfig)).
Proof.
  intros st. unfold find_configs, cfgs, eps. pose proof (find_rows P (gs_configs st)) as H. by destruct (tbl_find _ _).
Qed.
Lemma quiet_template id : quiet (first_template id : GM GatewayTemplate).
Proof. intros st. unfold first_template. by destruct (tbl_first _ _). Qed.
Lemma quiet_reload_template tpl id : quiet (reload_template tpl id : GM GatewayTemplate).
Proof. intros st. unfold reload_template. by destruct (tbl_first _ _). Qed.
Lemma quiet_number id e : quiet (first_number id e : GM TenantNumber).
Proof. intros st. unfold first_number. by destruct (tbl_first _ _). Qed.
Lemma quiet_find_eps P : quiet (on_endpoints (tbl_find P) : GM (option (list Endpoint))).
Proof.
  intros st. unfold on_endpoints, cfgs, eps.
  pose proof (find_rows P (tb_endpoints (gs_store st).2)) as H. by destruct (tbl_find _ _).
Qed.
Lemma quiet_first_ep P : quiet (on_endpoints (tbl_first P) : GM (option Endpoint)).
Proof.
  intros st. unfold on_endpoints, cfgs, eps.
  pose proof (first_rows P (tb_endpoints (gs_store st).2)) as H. by destruct (tbl_first _ _).
Qed.
Lemma quiet_load e : quiet (reload_endpoints is_ip lookup_ip e : GM unit).
Proof.
  intros st. unfold reload_endpoints, on_store, loadEndpoints, cfgs, eps. destruct (gs_store st) as [d tb]. simpl.
  pose proof (find_rows (fun _ : Endpoint => true) (tb_endpoints tb)) as H.
  destruct (tbl_find _ _) as [[rows|] te]; simpl in *; auto.
Qed.
#[local] Hint Resolve quiet_status quiet_first_config quiet_count quiet_find_configs quiet_template quiet_reload_template
  quiet_number quiet_find_eps quiet_first_ep quiet_load : gw.

Lemma quiet_preload gw : quiet (preload_template gw : GM GatewayTemplate).
Proof. unfold preload_template. follow. Qed.
Lemma quiet_first_endpoint id e : quiet (first_endpoint id e : GM Endpoint).
Proof. unfold first_endpoint. follow. Qed.
#[local] Hint Resolve quiet_preload quiet_first_endpoint : gw.
Lemma quiet_aliases gw : quiet (gatewayAliasEndpoints gw : GM (list Endpoint)).
Proof. unfold gatewayAliasEndpoints. follow. Qed.
Lemma quiet_managing id : quiet (gatewayManagingEndpoint id : GM (option string)).
Proof. unfold gatewayManagingEndpoint. follow. Qed.
Lemma quiet_value gw : quiet (gatewayEndpointValue env gw : GM string).
Proof. unfold gatewayEndpointValue. follow. Qed.
#[local] Hint Resolve quiet_aliases quiet_managing quiet_value : gw.

Lemma inert_write name content : inert (writeGatewayFile env name content : GM string).
Proof. intros st. unfold writeGatewayFile. by destruct (ge_write _ _ _). Qed.
Lemma inert_os_remove name : inert (os_remove env name : GM unit).
Proof. intros st. unfold os_remove. by repeat case_match. Qed.
#[local] Hint Resolve inert_write inert_os_remove : gw.
Lemma inert_remove name : inert (removeFile env name : GM unit).
Proof. unfold removeFile. follow_inert. Qed.
#[local] Hint Resolve inert_remove : gw.
Lemma inert_remove_kill name : inert (remove_and_kill env name : GM unit).
Proof. unfold remove_and_kill. follow_inert. Qed.
#[local] Hint Resolve inert_remove_kill : gw.
Lemma inert_undo {A} undo (m : GM A) : inert undo -> inert m -> inert (or_undo undo m).
Proof. unfold or_undo. intros ??. follow_inert. Qed.
#[local] Hint Resolve inert_undo : gw.
Lemma inert_install name rendered params : inert (install env name rendered params : GM (string * string)).
Proof.
  unfold install. apply inert_bind; [auto with gw|intros path]. apply inert_bind; [|intros _].
  { apply inert_undo; [auto with gw|apply quiet_inert; auto with gw]. }
  apply inert_bind; [|intros ?; apply quiet_inert; auto with gw].
  apply inert_undo; [auto with gw|apply quiet_inert; auto with gw].
Qed.

(** ** What leaves the endpoint table answering *)

Lemma steady_aside {A} (m : GM A) : (forall st, gs_store (m st).2 = gs_store st) -> steady m.
Proof. intros H st. unfold ep_ok. by rewrite H. Qed.
Lemma steady_bind {A B} (m : GM A) (f : A -> GM B) : steady m -> (forall a, steady (f a)) -> steady (m ≫= f).
Proof.
  intros Hm Hf st Ho. specialize (Hm st Ho). unfold mbind, gm_bind. destruct (m st) as [[a|e] st']; [|done]. by apply Hf.
Qed.
Lemma steady_attempt {A} (m : GM A) : steady m -> steady (attempt m).
Proof. intros Hm st Ho. specialize (Hm st Ho). unfold attempt. by destruct (m st). Qed.

(** A primitive that keeps to its own part of the state. *)
Ltac aside := apply steady_aside; intros ?st; repeat case_match; simplify_eq; reflexivity.
Lemma steady_dir : steady (gatewayDir env : GM string).
Proof. unfold gatewayDir. case_match; aside. Qed.
Lemma steady_count name : steady (count_configs name : GM nat).
Proof. unfold count_configs. aside. Qed.
Lemma steady_template id : steady (first_template id : GM GatewayTemplate).
Proof. unfold first_template. aside. Qed.
Lemma steady_create g e : steady (create_config g e : GM GatewayConfig).
Proof. unfold create_config. aside. Qed.
Lemma steady_reload : steady (fsReloadGateways env : GM string).
Proof. unfold fsReloadGateways. apply steady_bind; [|intros ?]; aside. Qed.
Lemma steady_remove name : steady (removeFile env name : GM unit).
Proof. unfold removeFile, os_remove. apply steady_bind; [apply steady_attempt; aside|intros ?; aside]. Qed.
Lemma steady_remove_kill name : steady (remove_and_kill env name : GM unit).
Proof.
  unfold remove_and_kill, fsKillGateway. apply steady_bind; [apply steady_remove|intros ?].
  apply steady_bind; [|intros ?; aside]. apply steady_attempt, steady_bind; [apply steady_attempt; aside|].
  intros ?. apply steady_reload.
Qed.
Lemma steady_undo {A} undo (m : GM A) : steady undo -> steady m -> steady (or_undo undo m).
Proof.
  intros Hu Hm. unfold or_undo. apply steady_bind; [by apply steady_attempt|]. intros [a|e]; [aside|].
  apply steady_bind; [by apply steady_attempt|intros ?; aside].
Qed.
Lemma steady_install name rendered params : steady (install env name rendered params : GM (string * string)).
Proof.
  unfold install. apply steady_bind; [unfold writeGatewayFile; aside|intros ?].
  apply steady_bind; [apply steady_undo; [apply steady_remove|apply steady_reload]|intros ?].
  apply steady_bind; [apply steady_undo; [apply steady_remove_kill|aside]|intros ?; aside].
Qed.
Lemma steady_add ep e : steady (add_endpoint ep e : GM Z).
Proof.
  intros st Ho. unfold ep_ok, add_endpoint, on_store, addEndpointToDB in *. destruct (gs_store st) as [d tb]; simpl in *.
  destruct (healthy_create ep (tb_endpoints tb) Ho) as [_ Hc].
  destruct (tbl_create ep (tb_endpoints tb)) as [[ep'|] t]; simpl in *; [|done].
  unfold keep. by destruct (addEndpoint ep' d).
Qed.
#[local] Hint Resolve steady_dir steady_count steady_template steady_create steady_install steady_add : gw.

(** ** What the writes do to the rows *)

Lemma wp_create_config g e (Q : res GatewayConfig -> GwState -> Prop) st :
  (forall x st', cfgs st' = cfgs st -> eps st' = eps st -> gs_files st' = gs_files st -> Q (Err x) st') ->
  (forall g' st', cfgs st' = cfgs st ++ [g'] -> eps st' = eps st -> gs_files st' = gs_files st ->
     g' = set_id (gc_ID g') g -> 0 < gc_ID g' -> Forall (fun c => gc_ID c <> gc_ID g') (cfgs st) -> Q (Ok g') st') ->
  wp (create_config g e) Q st.
Proof.
  intros He Ho. unfold wp, create_config. pose proof (create_ok g (gs_configs st)) as H1.
  pose proof (create_err g (gs_configs st)) as H2. destruct (tbl_create g (gs_configs st)) as [[g'|] t] eqn:E; simpl in *.
  - destruct (H1 _ eq_refl) as (Hr & Hg & Hp & Hf). by apply Ho.
  - apply He; [apply (H2 eq_refl)|done..].
Qed.

Lemma wp_save_config g e (Q : res unit -> GwState -> Prop) st :
  (forall r st', cfgs st' = cfgs st \/ cfgs st' = replace_row g (cfgs st) -> eps st' = eps st ->
     gs_files st' = gs_files st -> (r = Ok tt -> cfgs st' = replace_row g (cfgs st)) -> Q r st') ->
  wp (save_config g e) Q st.
Proof.
  intros HQ. unfold wp, save_config. pose proof (save_ok g (gs_configs st)) as H1.
  pose proof (save_err g (gs_configs st)) as H2. destruct (tbl_save g (gs_configs st)) as [[|] t]; simpl in *; apply HQ; try done.
  - right. by apply H1.
  - intros _. by apply H1.
  - left. by apply H2.
Qed.

Lemma wp_delete_config id e (Q : res unit -> GwState -> Prop) st :
  (forall r st', cfgs st' = cfgs st \/ cfgs st' = List.filter (fun g => negb (gc_ID g =? id)) (cfgs st) ->
     eps st' = eps st -> gs_files st' = gs_files st ->
     (r = Ok tt -> cfgs st' = List.filter (fun g => negb (gc_ID g =? id)) (cfgs st)) -> Q r st') ->
  wp (delete_config id e) Q st.
Proof.
  intros HQ. unfold wp, delete_config. set (P := fun g : GatewayConfig => gc_ID g =? id).
  pose proof (delete_ok P (gs_configs st)) as H1. pose proof (delete_err P (gs_configs st)) as H2.
  destruct (tbl_delete P (gs_configs st)) as [[|] t]; simpl in *; apply HQ; try done.
  - right. by apply H1.
  - intros _. by apply H1.
  - left. by apply H2.
Qed.

Lemma wp_add_endpoint ep e (Q : res Z -> GwState -> Prop) st :
  (forall x st', cfgs st' = cfgs st -> eps st' = eps st -> gs_files st' = gs_files st -> Q (Err x) st') ->
  (forall r ep' st', cfgs st' = cfgs st -> eps st' = eps st ++ [ep'] -> gs_files st' = gs_files st ->
     ep' = ep <| ep_ID := ep_ID ep' |> -> 0 < ep_ID ep' -> Forall (fun x => ep_ID x <> ep_ID ep') (eps st) ->
     (forall id, r = Ok id -> id = ep_ID ep') ->
     (forall x, r = Err x -> x = e /\ ep_Type ep <> "tenant" /\ ep_Type ep <> "global") -> Q r st') ->
  wp (add_endpoint ep e) Q st.
Proof.
  intros He Ho. unfold wp, add_endpoint, on_store, addEndpointToDB, cfgs, eps in *.
  destruct (gs_store st) as [d tb]; simpl in *. pose proof (create_ok ep (tb_endpoints tb)) as H1.
  pose proof (create_err ep (tb_endpoints tb)) as H2.
  destruct (tbl_create ep (tb_endpoints tb)) as [[ep'|] t] eqn:E; simpl in *.
  - destruct (H1 _ eq_refl) as (Hr & Hg & Hp & Hf).
    assert (forall x, addEndpoint ep' d = Err x -> ep_Type ep <> "tenant" /\ ep_Type ep <> "global") as Hno.
    { intros x. unfold addEndpoint. rewrite Hg. cbn. destruct (String.eqb_spec (ep_Type ep) "tenant"); [done|].
      destruct (String.eqb_spec (ep_Type ep) "number") as [->|]; [done|]. by destruct (String.eqb_spec (ep_Type ep) "global"). }
    unfold keep. destruct (addEndpoint ep' d) as [d'|x]; simpl;
      (apply (Ho _ ep'); simpl; [done|exact Hr|done|exact Hg|done|done|congruence|]); [done|].
    intros y [= <-]. split; [done|]. by apply (Hno x).
  - apply He; [done|apply (H2 eq_refl)|done].
Qed.

(** Saving an endpoint: with or without the change of the maps. *)
Lemma wp_save_endpoint ep (Q : res bool -> GwState -> Prop) st :
  (forall b st', cfgs st' = cfgs st -> eps st' = eps st \/ eps st' = replace_row ep (eps st) ->
     gs_files st' = gs_files st -> (b = true -> eps st' = replace_row ep (eps st)) -> Q (Ok b) st') ->
  wp (on_endpoints (tbl_save ep)) Q st.
Proof.
  intros HQ. unfold wp, on_endpoints, cfgs, eps in *. pose proof (save_ok ep (tb_endpoints (gs_store st).2)) as H1.
  pose proof (save_err ep (tb_endpoints (gs_store st).2)) as H2.
  destruct (tbl_save ep _) as [[|] t]; simpl in *; apply HQ; try done.
  - right. by apply H1.
  - left. by apply H2.
Qed.

Lemma wp_update_endpoint ep e (Q : res unit -> GwState -> Prop) st :
  (forall r st', cfgs st' = cfgs st -> eps st' = eps st \/ eps st' = replace_row ep (eps st) ->
     gs_files st' = gs_files st -> (r = Ok tt -> eps st' = replace_row ep (eps st)) -> Q r st') ->
  wp (on_store (updateEndpoint ep) e) Q st.
Proof.
  intros HQ. unfold wp, on_store, updateEndpoint, cfgs, eps in *. destruct (gs_store st) as [d tb]; simpl in *.
  pose proof (save_ok ep (tb_endpoints tb)) as H1. pose proof (save_err ep (tb_endpoints tb)) as H2.
  destruct (tbl_save ep _) as [[|] t]; simpl in *; [specialize (H1 eq_refl)|apply HQ; [done|left; by apply H2|done|done]].
  destruct (removeEndpoint (ep_ID ep) d) as [d1|]; simpl; [destruct (keep d1 _) as [[|] d']; simpl|]; apply HQ; simpl; auto; done.
Qed.

Lemma wp_remove_endpoint id e (Q : res unit -> GwState -> Prop) st :
  (forall r st', cfgs st' = cfgs st ->
     eps st' = eps st /\ ~ ep_ok st \/ eps st' = List.filter (fun ep => negb (ep_ID ep =? id)) (eps st) ->
     gs_files st' = gs_files st -> Q r st') ->
  wp (on_store (removeEndpointFromDB id) e) Q st.
Proof.
  intros HQ. unfold wp, on_store, removeEndpointFromDB, cfgs, eps, ep_ok in *. destruct (gs_store st) as [d tb]; simpl in *.
  set (P := fun ep : Endpoint => ep_ID ep =? id) in *.
  pose proof (delete_ok P (tb_endpoints tb)) as H1. pose proof (delete_err P (tb_endpoints tb)) as H2.
  destruct (tbl_delete P (tb_endpoints tb)) as [[|] t] eqn:E; simpl in *; [specialize (H1 eq_refl)|].
  - destruct (keep _ _) as [ok d']; destruct ok; simpl; apply HQ; auto.
  - apply HQ; [done| |done]. left. split; [by apply H2|]. intros Hh.
    destruct (healthy_delete P (tb_endpoints tb) Hh) as [Hd _]. by rewrite E in Hd.
Qed.

(** The reads that matter: what is found is stored. *)
Lemma wp_first_config P e (Q : res GatewayConfig -> GwState -> Prop) st :
  (forall r st', cfgs st' = cfgs st -> eps st' = eps st -> gs_files st' = gs_files st ->
     (forall g, r = Ok g -> g ∈ cfgs st /\ P g = true) -> Q r st') ->
  wp (first_config P e) Q st.
Proof.
  intros HQ. unfold wp, first_config. pose proof (first_rows P (gs_configs st)) as H.
  pose proof (first_some P (gs_configs st)) as H1. destruct (tbl_first P (gs_configs st)) as [[g|] t]; simpl in *;
    apply HQ; try done. intros g' [= <-]. by apply H1.
Qed.

Lemma wp_first_endpoint id e (Q : res Endpoint -> GwState -> Prop) st :
  (forall r st', cfgs st' = cfgs st -> eps st' = eps st -> gs_files st' = gs_files st ->
     (forall ep, r = Ok ep -> ep ∈ eps st /\ ep_ID ep = id) -> Q r st') ->
  wp (first_endpoint id e) Q st.
Proof.
  intros HQ. unfold wp, first_endpoint, on_endpoints, mbind, gm_bind, cfgs, eps in *. simpl.
  pose proof (first_rows (fun ep => ep_ID ep =? id) (tb_endpoints (gs_store st).2)) as H.
  pose proof (first_some (fun ep => ep_ID ep =? id) (tb_endpoints (gs_store st).2)) as H1.
  destruct (tbl_first _ _) as [[ep|] t]; simpl in *; apply HQ; try done.
  intros ep' [= <-]. destruct (H1 _ eq_refl) as [? ?%Z.eqb_eq]. done.
Qed.

Lemma wp_aliases gw (Q : res (list Endpoint) -> GwState -> Prop) st :
  (forall r st', cfgs st' = cfgs st -> eps st' = eps st -> gs_files st' = gs_files st ->
     (forall l, r = Ok l -> l = alias_filter gw (List.filter is_gateway (eps st))) -> Q r st') ->
  wp (gatewayAliasEndpoints gw) Q st.
Proof.
  intros HQ. unfold wp, gatewayAliasEndpoints, on_endpoints, mbind, gm_bind, cfgs, eps in *. simpl.
  pose proof (find_rows is_gateway (tb_endpoints (gs_store st).2)) as H.
  pose proof (find_result is_gateway (tb_endpoints (gs_store st).2)) as H1. fold is_gateway.
  destruct (tbl_find _ _) as [[l|] t]; simpl in *; apply HQ; try done. intros l' [= <-]. by rewrite (H1 _ eq_refl).
Qed.

#[local] Hint Resolve inert_install : gw.

(** ** The invariant: gateways and their endpoints agree on the name *)

Definition linked (E : list Endpoint) (g : GatewayConfig) : Prop :=
  gatewayNameRe (gc_Name g) = true /\
  (gc_EndpointID g = 0 \/
   exists ep, ep ∈ E /\ ep_ID ep = gc_EndpointID g /\ is_gateway ep = true /\ gatewayLabel ep = gc_Name g).

Definition Linked (C : list GatewayConfig) (E : list Endpoint) : Prop := ids_ok E /\ forall g, g ∈ C -> linked E g.

Lemma linked_app E ep g : linked E g -> linked (E ++ [ep]) g.
Proof. intros [Hn [H0|(x & Hx & H)]]; (split; [done|]); [by left|right]. exists x. set_solver. Qed.

Lemma linked_replace E ep g :
  (gc_EndpointID g <> 0 -> ep_ID ep = gc_EndpointID g -> is_gateway ep = true /\ gatewayLabel ep = gc_Name g) ->
  linked E g -> linked (replace_row ep E) g.
Proof.
  intros Hep [Hn [H0|(x & Hx & Hi & H)]]; (split; [done|]); [by left|].
  destruct (decide (gc_EndpointID g = 0)) as [|H0]; [by left|right].
  destruct (decide (ep_ID x = ep_ID ep)) as [He|He].
  - exists ep. split; [apply replace_row_new|]. split; [congruence|]. apply Hep; congruence.
  - exists x. split; [by apply replace_row_old|done].
Qed.

Lemma Linked_app C E ep : Forall (fun x => ep_ID x <> ep_ID ep) E -> Linked C E -> Linked C (E ++ [ep]).
Proof. intros Hf [Hi HC]. split; [by apply ids_ok_app|]. intros g Hg. by apply linked_app, HC. Qed.

Lemma Linked_replace C E ep : (forall g, g ∈ C -> gc_EndpointID g <> 0 -> ep_ID ep = gc_EndpointID g ->
    is_gateway ep = true /\ gatewayLabel ep = gc_Name g) -> Linked C E -> Linked C (replace_row ep E).
Proof.
  intros H [Hi HC]. split; [by apply replace_row_ids|]. intros g Hg. apply linked_replace; auto.
Qed.

Lemma Linked_add C E g : linked E g -> Linked C E -> Linked (C ++ [g]) E.
Proof. intros Hg [Hi HC]. split; [done|]. intros x [Hx| ->%list_elem_of_singleton]%elem_of_app; auto. Qed.

Lemma Linked_replace_config C E g : linked E g -> Linked C E -> Linked (replace_row g C) E.
Proof. intros Hg [Hi HC]. split; [done|]. intros x [->|Hx]%replace_row_elem; auto. Qed.

Lemma Linked_filter C E P : Linked C E -> Linked (List.filter P C) E.
Proof.
  intros [Hi HC]. split; [done|]. intros x Hx. apply HC.
  apply list_elem_of_In in Hx. apply filter_In in Hx as [Hx _]. by apply list_elem_of_In.
Qed.

Lemma filter_fresh (E : list Endpoint) ep : Forall (fun x => ep_ID x <> ep_ID ep) E ->
  List.filter (fun x => negb (ep_ID x =? ep_ID ep)) (E ++ [ep]) = E.
Proof.
  induction 1 as [|x l Hx _ IH]; simpl.
  - by rewrite Z.eqb_refl.
  - by rewrite (proj2 (Z.eqb_neq _ _) Hx), IH.
Qed.

Definition InvSt (st : GwState) : Prop := Linked (cfgs st) (eps st).

(** Facts about the rows follow the state along. *)
Ltac settle :=
  repeat match goal with
  | HC : cfgs ?s = ?C, H : context [cfgs ?s] |- _ => lazymatch type of H with cfgs s = C => fail | _ => rewrite HC in H end
  | HC : eps ?s = ?E, H : context [eps ?s] |- _ => lazymatch type of H with eps s = E => fail | _ => rewrite HC in H end
  | HC : gs_files ?s = ?F, H : context [gs_files ?s] |- _ => lazymatch type of H with gs_files s = F => fail | _ => rewrite HC in H end
  end;
  repeat match goal with
  | HC : cfgs ?s = _, H : cfgs ?s' = _ |- _ => rewrite HC in H; clear HC
  | HC : eps ?s = _, H : eps ?s' = _ |- _ => rewrite HC in H; clear HC
  end.
Ltac close := try (apply wp_fail || apply wp_ret); unfold InvSt; repeat match goal with H : cfgs _ = _ |- _ => rewrite H; clear H | H : eps _ = _ |- _ => rewrite H; clear H end;
  auto.
Ltac quietly := apply wp_quiet; [solve [follow]|]; intros ?r ?st ? ? ?; settle.
Ltac inertly := apply wp_inert; [solve [follow_inert]|]; intros ?r ?st ? ?; settle.
Ltac pass := apply wp_bind; first [quietly | inertly];
  match goal with r : res _ |- _ => destruct r as [?|?]; [|solve [close]] end.

Lemma endpointFromSpec_ok spec ep : endpointFromSpec spec = Ok ep -> gatewayNameRe (gp_Name spec) = true ->
  is_gateway ep = true /\ gatewayLabel ep = gp_Name spec.
Proof.
  unfold endpointFromSpec. intros H Hn. case_match; simplify_eq. split; [done|]. by apply endpointValue_label.
Qed.

Lemma validateSpec_name spec : validateSpec spec = Ok tt -> gatewayNameRe (gp_Name spec) = true.
Proof. unfold validateSpec, validateGatewayName. by destruct (gatewayNameRe _). Qed.


Lemma validateGatewayName_ok name u : validateGatewayName name = Ok u -> gatewayNameRe name = true.
Proof. unfold validateGatewayName. by destruct (gatewayNameRe name). Qed.

Lemma wp_undo {A} (undo : GM unit) (m : GM A) Q st :
  wp m (fun r st' => match r with Ok a => Q (Ok a) st' | Err e => wp undo (fun _ => Q (Err e)) st' end) st ->
  wp (or_undo undo m) Q st.
Proof.
  unfold wp, or_undo, attempt, mbind, gm_bind, fail. destruct (m st) as [[a|e] st']; [done|]. simpl.
  by destruct (undo st').
Qed.

Lemma ProvisionGateway_linked spec st : InvSt st ->
  wp (ProvisionGateway is_ip lookup_ip env spec) (fun _ => InvSt) st.
Proof.
  unfold InvSt at 1. remember (cfgs st) as C eqn:HC. remember (eps st) as E eqn:HE. symmetry in HC, HE.
  intros HI. unfold ProvisionGateway. apply wp_bind, wp_lift. destruct (validateSpec spec) as [[]|] eqn:Hv; [|close].
  apply validateSpec_name in Hv. pass. pass. case_match; [close|]. pass.
  apply wp_bind, wp_lift. destruct (renderGatewayTemplate _ _ _) as [out|]; [|close].
  apply wp_bind, wp_lift. destruct (endpointFromSpec spec) as [ep|] eqn:Hep; [|close].
  destruct (endpointFromSpec_ok _ _ Hep Hv) as [Hg Hl]. pass. destruct a2 as [path paramsJSON].
  apply wp_bind, wp_undo, wp_add_endpoint; [intros; settle; inertly; close|].
  intros r ep' st' ? ? _ Hep' Hpos Hfr Hid _. settle.
  assert (Linked C (E ++ [ep'])) as HI' by by apply Linked_app.
  assert (is_gateway ep' = true /\ gatewayLabel ep' = gp_Name spec) as Hl'
    by (rewrite Hep'; split; [exact Hg|exact Hl]).
  destruct r as [id|e]; [|inertly; close]. rewrite (Hid _ eq_refl). clear Hid.
  apply wp_bind, wp_undo, wp_create_config.
  - intros x s ? ? _. settle. apply wp_bind, wp_attempt, wp_remove_endpoint. intros r s1 ? Hr' _.
    assert (eps s1 = eps s \/ eps s1 = List.filter (fun ep => negb (ep_ID ep =? ep_ID ep')) (eps s)) as Hr by (destruct Hr' as [[? _]|?]; auto).
    clear Hr'. settle.
    inertly. close. destruct Hr as [->| ->]; [done|]. by rewrite filter_fresh.
  - intros g st'' ? ? _ Hg' _ _. settle. assert (Linked (C ++ [g]) (E ++ [ep'])) as HI2.
    { apply Linked_add; [|done]. rewrite Hg'. split; [exact Hv|]. right. exists ep'. set_solver. }
    pass. quietly. close.
Qed.

(** *** The other operations *)

Lemma isGatewayAliasValue_label name v : gatewayNameRe name = true ->
  isGatewayAliasValue name v = true <-> (str_cut ":" v).1 = name.
Proof.
  intros Hn. apply gateway_name_no_colon in Hn. unfold isGatewayAliasValue. split.
  - intros [H|H]%orb_prop.
    + apply String.eqb_eq in H as ->. by rewrite Hn.
    + apply has_prefix_spec in H as [t ->]. rewrite str_app_assoc. change (":" +:+ t) with (String ":" t).
      destruct (str_cut ":" (name +:+ String ":" t)) as [a b] eqn:E.
      rewrite str_cut_no_sep_app in E; [by injection E as <- _|exact Hn].
  - destruct (str_cut ":" v) as [a [b|]] eqn:E; simpl; intros ->; apply orb_true_iff.
    + right. apply str_cut_spec in E as ->. apply has_prefix_spec. exists b. by rewrite str_app_assoc.
    + left. apply String.eqb_eq. pose proof (str_cut_no_sep ":" v) as H. rewrite E in H. symmetry. by apply H.
Qed.

(** An endpoint that may get a value labelled [name]: whoever is linked to it has that name. *)
Definition retargetable (C : list GatewayConfig) (name : string) (ep : Endpoint) : Prop :=
  is_gateway ep = true /\
  forall g, g ∈ C -> gc_EndpointID g <> 0 -> gc_EndpointID g = ep_ID ep -> gc_Name g = name.

Lemma Linked_retargetable C E ep : Linked C E -> ep ∈ E -> is_gateway ep = true ->
  retargetable C (gatewayLabel ep) ep.
Proof.
  intros [Hid HL] Hin Hg. split; [done|]. intros g Hgc H0 Hi.
  destruct (HL g Hgc) as [_ [?|(x & Hx & Hxi & _ & H)]]; [done|].
  replace ep with x; [done|]. apply (ids_ok_inj E); [done..|]. simpl. congruence.
Qed.

Lemma Linked_save C E ep name v : retargetable C name ep -> (str_cut ":" v).1 = name -> Linked C E ->
  Linked C (replace_row (ep <| ep_Endpoint := v |>) E).
Proof.
  intros [Hg Hn] Hv. apply Linked_replace. intros g Hgc H0 Hi. split; [exact Hg|].
  change ((str_cut ":" v).1 = gc_Name g). rewrite Hv. symmetry. apply Hn; [done..|]. symmetry. exact Hi.
Qed.

Lemma retarget_linked C name newValue aliases st : cfgs st = C -> Linked C (eps st) ->
  (str_cut ":" newValue).1 = name -> Forall (retargetable C name) aliases ->
  wp (retarget newValue aliases) (fun _ st' => cfgs st' = C /\ Linked C (eps st')) st.
Proof.
  intros HC HL Hv Hal. revert st HC HL. induction Hal as [|al aliases Hr _ IH]; intros st HC HL; simpl; [done|].
  case_match; [by apply IH|]. apply wp_bind, wp_save_endpoint. intros b st' HC' HE _ _.
  assert (Linked C (eps st')) as HL' by (destruct HE as [->| ->]; [done|by apply (Linked_save _ _ _ name)]).
  rewrite HC in HC'. destruct b; [by apply IH|by apply wp_fail].
Qed.

Lemma update_linked_linked C gw v st : cfgs st = C -> Linked C (eps st) -> gw ∈ C ->
  (str_cut ":" v).1 = gc_Name gw ->
  wp (update_linked gw v) (fun _ st' => cfgs st' = C /\ Linked C (eps st')) st.
Proof.
  intros HC HL Hin Hv. unfold update_linked. destruct HL as [Hids HL]. pose proof (HL gw Hin) as Hgw.
  case_match; [by apply wp_ret|]. apply wp_bind, wp_first_endpoint.
  intros [ep|] s1 HC1 HE1 _ Hep; [|by rewrite HC1, HE1]. destruct (Hep _ eq_refl) as [Hepin Hid].
  destruct Hgw as [_ [|(x & Hx & Hxi & Hg & Hlab)]]; [lia|].
  assert (x = ep) as -> by (apply (ids_ok_inj (eps st)); [done..|simpl; congruence]).
  apply wp_update_endpoint. intros r s2 HC2 HE2 _ _. split; [congruence|].
  destruct HE2 as [->| ->]; rewrite HE1; [done|].
  apply (Linked_save _ _ _ (gc_Name gw)); [|done|done]. rewrite <- Hlab. by apply (Linked_retargetable C (eps st)).
Qed.

Lemma UpdateGateway_linked name spec st : InvSt st ->
  wp (UpdateGateway is_ip lookup_ip env name spec) (fun _ => InvSt) st.
Proof.
  unfold InvSt at 1. remember (cfgs st) as C eqn:HC. remember (eps st) as E eqn:HE. symmetry in HC, HE.
  intros HI. unfold UpdateGateway. set (spec' := spec <| gp_Name := name |>). cbv zeta.
  apply wp_bind, wp_lift. destruct (validateSpec spec') as [[]|] eqn:Hv; [|close].
  apply validateSpec_name in Hv. change (gatewayNameRe name = true) in Hv. pass.
  apply wp_bind, wp_first_config. intros [gw|] s1 ? ? _ Hgw; settle; [|close].
  destruct (Hgw _ eq_refl) as [Hin Hnm%String.eqb_eq]. clear Hgw. pass. pass.
  apply wp_bind, wp_lift. destruct (renderGatewayTemplate _ _ _) as [out|]; [|close]. pass. pass.
  set (newValue := endpointValue _ _ _).
  assert ((str_cut ":" newValue).1 = name) as Hval by by apply endpointValue_label. clearbody newValue.
  apply wp_bind. apply (wp_mono _ (fun _ st' => cfgs st' = C /\ Linked C (eps st'))).
  { apply update_linked_linked; [done|close|done|congruence]. }
  intros r s5 [HC5 HL5]. destruct r as [[]|]; [|by unfold InvSt; rewrite HC5].
  apply wp_bind, wp_aliases. intros [al|] s6 HC6 HE6 _ Hal; [|unfold InvSt; by rewrite HC6, HE6, HC5].
  specialize (Hal _ eq_refl). apply wp_bind.
  apply (wp_mono _ (fun _ st' => cfgs st' = C /\ Linked C (eps st'))).
  { apply (retarget_linked C name); [congruence|by rewrite HE6|done|].
    apply Forall_forall. intros ep Hep. subst al. unfold alias_filter in Hep.
    apply list_elem_of_In, filter_In in Hep as [Hep [_ Ha]%andb_prop]. apply filter_In in Hep as [Hep Hg].
    rewrite Hnm in Ha. apply isGatewayAliasValue_label in Ha as <-; [|done].
    apply (Linked_retargetable C (eps s5)); [done|by apply list_elem_of_In|done]. }
  intros [[]|] s7 [HC7 HL7]; [|by unfold InvSt; rewrite HC7].
  apply wp_bind, wp_lift. destruct (encodeParams _ _) as [pj|]; [|by unfold InvSt; rewrite HC7].
  apply wp_bind, wp_save_config. intros r s8 HC8 HE8 _ _.
  assert (InvSt s8) as HI8.
  { unfold InvSt. rewrite HE8, HC7 in *. destruct HC8 as [->| ->]; [done|]. apply Linked_replace_config; [|done]. exact (proj2 HL7 gw Hin). }
  destruct r as [[]|]; [|done]. unfold InvSt in HI8 |- *.
  remember (cfgs s8) as C8 eqn:E8. remember (eps s8) as E8' eqn:E8''. symmetry in E8, E8''.
  pass. quietly. close.
Qed.

Lemma DeprovisionGateway_linked name st : InvSt st -> wp (DeprovisionGateway env name) (fun _ => InvSt) st.
Proof.
  unfold InvSt at 1. remember (cfgs st) as C eqn:HC. remember (eps st) as E eqn:HE. symmetry in HC, HE.
  intros HI. unfold DeprovisionGateway. apply wp_bind, wp_lift. destruct (validateGatewayName name); [|close].
  pass. pass. pass. case_match; [|close]. pass. pass. apply wp_delete_config. intros r s HC' HE' _ _. settle.
  close. destruct HC' as [->| ->]; [done|by apply Linked_filter].
Qed.

Lemma CreateGatewayAlias_linked name spec st : InvSt st ->
  wp (CreateGatewayAlias is_ip lookup_ip env name spec) (fun _ => InvSt) st.
Proof.
  unfold InvSt at 1. remember (cfgs st) as C eqn:HC. remember (eps st) as E eqn:HE. symmetry in HC, HE.
  intros HI. unfold CreateGatewayAlias. apply wp_bind, wp_lift. destruct (validateGatewayName name); [|close].
  pass. pass. pass. case_match; [|close]. pass. pass. case_match; [|close].
  apply wp_bind, wp_add_endpoint; [intros; settle; close|].
  intros r ep' s ? ? _ _ _ Hfr _ _. settle. assert (Linked C (E ++ [ep'])) as HI' by by apply Linked_app.
  destruct r; [|close]. pass. close.
Qed.

Lemma ProvisionGatewayFromEndpoint_linked spec st : InvSt st ->
  wp (ProvisionGatewayFromEndpoint env spec) (fun _ => InvSt) st.
Proof.
  unfold InvSt at 1. remember (cfgs st) as C eqn:HC. remember (eps st) as E eqn:HE. symmetry in HC, HE.
  intros HI. unfold ProvisionGatewayFromEndpoint. pass.
  apply wp_bind, wp_first_endpoint. intros [ep|] s1 ? ? _ Hep; settle; [|close].
  case_match eqn:Hty; [close|]. apply negb_false_iff in Hty. pass. case_match; [close|].
  destruct (str_cut ":" (ep_Endpoint ep)) as [name rest] eqn:Hcut.
  apply wp_bind, wp_lift. destruct (validateGatewayName name) eqn:Hn; [|close]. pass. case_match; [close|]. pass.
  apply wp_bind, wp_lift. match goal with |- match ?x with _ => _ end => destruct x as [params1|]; [|close] end.
  apply wp_bind, wp_lift. destruct (renderGatewayTemplate _ _ _) as [out|]; [|close]. pass. match goal with p : (string * string)%type |- _ => destruct p as [path pj] end.
  apply wp_bind, wp_undo, wp_create_config; [intros; settle; inertly; close|].
  intros g s ? ? _ Hg _ _. settle. quietly. close. apply Linked_add; [|done].
  destruct (Hep _ eq_refl) as [Hin _]. rewrite Hg. split; [by apply validateGatewayName_ok in Hn|].
  right. exists ep. split; [done|]. split; [done|]. split; [exact Hty|]. unfold gatewayLabel. by rewrite Hcut.
Qed.

Lemma AdoptGateway_linked base st : InvSt st -> wp (AdoptGateway env base) (fun _ => InvSt) st.
Proof.
  unfold InvSt at 1. remember (cfgs st) as C eqn:HC. remember (eps st) as E eqn:HE. symmetry in HC, HE.
  intros HI. unfold AdoptGateway. pass. case_match; [close|]. pass.
  apply wp_bind, wp_lift. destruct (validateGatewayName _) eqn:Hn; [|close]. pass. case_match; [close|].
  apply wp_bind, wp_lift. destruct (encodeParams _ _); [|close].
  apply wp_bind, wp_create_config; [intros; settle; close|].
  intros g s ? ? _ Hg _ _. settle. quietly. close. apply Linked_add; [|done].
  rewrite Hg. split; [by apply validateGatewayName_ok in Hn|by left].
Qed.

Lemma CreateOrInert_linked {A} (m : GM A) st : inert m -> InvSt st -> wp m (fun _ => InvSt) st.
Proof. intros Hm HI. apply wp_inert; [done|]. intros r st' HC HE. unfold InvSt. by rewrite HC, HE. Qed.

Lemma inert_delete_unmanaged name : inert (DeleteUnmanagedGateway env name : GM unit).
Proof. unfold DeleteUnmanagedGateway. follow_inert. Qed.
Lemma inert_repair name : inert (RepairGateway env name : GM GatewayStatus).
Proof. unfold RepairGateway. follow_inert. Qed.
Lemma quiet_gateway_status dir gw : quiet (gateway_status env dir gw : GM GatewayStatus).
Proof. unfold gateway_status. follow. Qed.
#[local] Hint Resolve quiet_gateway_status : gw.
Lemma quiet_map_status dir gws : quiet (map_status env dir gws : GM (list GatewayStatus)).
Proof. induction gws; simpl; follow. Qed.
Lemma quiet_map_unmanaged files : quiet (map_unmanaged env files : GM (list UnmanagedFile)).
Proof. induction files; simpl; follow. Qed.
#[local] Hint Resolve quiet_map_status quiet_map_unmanaged : gw.
Lemma quiet_list : quiet (ListGateways env : GM GatewayOverview).
Proof. unfold ListGateways. follow. Qed.
Lemma quiet_create_template g : quiet (create_template g : GM unit).
Proof. intros st. unfold create_template. by destruct (tbl_create _ _). Qed.
Lemma quiet_all_templates : quiet (all_templates : GM (list GatewayTemplate)).
Proof. intros st. unfold all_templates. by destruct (tbl_find _ _). Qed.
#[local] Hint Resolve quiet_create_template quiet_all_templates : gw.
Lemma quiet_seed defs : quiet (seedGatewayTemplates defs : GM unit).
Proof.
  unfold seedGatewayTemplates. assert (quiet (seed defs : GM unit)) by (induction defs; simpl; follow). follow.
Qed.

(** The requests of the admin API and the start-up step. *)
Inductive GwOp :=
  | OpProvision (spec : GatewayProvisionSpec) | OpUpdate (name : string) (spec : GatewayProvisionSpec)
  | OpDeprovision (name : string) | OpAlias (name : string) (spec : GatewayAliasSpec)
  | OpFromEndpoint (spec : ProvisionGatewayFromEndpointSpec) | OpAdopt (base : string)
  | OpDeleteUnmanaged (name : string) | OpRepair (name : string) | OpList | OpSeed (defs : list TemplateDef).

Definition run_op (op : GwOp) (st : GwState) : GwState :=
  match op with
  | OpProvision spec => (ProvisionGateway is_ip lookup_ip env spec st).2
  | OpUpdate name spec => (UpdateGateway is_ip lookup_ip env name spec st).2
  | OpDeprovision name => (DeprovisionGateway env name st).2
  | OpAlias name spec => (CreateGatewayAlias is_ip lookup_ip env name spec st).2
  | OpFromEndpoint spec => (ProvisionGatewayFromEndpoint env spec st).2
  | OpAdopt base => (AdoptGateway env base st).2
  | OpDeleteUnmanaged name => (DeleteUnmanagedGateway env name st).2
  | OpRepair name => (RepairGateway env name st).2
  | OpList => (ListGateways env st).2
  | OpSeed defs => (seedGatewayTemplates defs st).2
  end.

Lemma run_op_linked op st : InvSt st -> InvSt (run_op op st).
Proof.
  intros HI. destruct op; simpl.
  - by apply ProvisionGateway_linked.
  - by apply UpdateGateway_linked.
  - by apply DeprovisionGateway_linked.
  - by apply CreateGatewayAlias_linked.
  - by apply ProvisionGatewayFromEndpoint_linked.
  - by apply AdoptGateway_linked.
  - apply (CreateOrInert_linked _ _ (inert_delete_unmanaged name) HI).
  - apply (CreateOrInert_linked _ _ (inert_repair name) HI).
  - apply (CreateOrInert_linked _ _ (quiet_inert _ quiet_list) HI).
  - apply (CreateOrInert_linked _ _ (quiet_inert _ (quiet_seed defs)) HI).
Qed.

(** ** What provisioning achieves *)

(** Removing a file that is there works. *)
Definition unlink_works : Prop := forall fs name, ge_unlink env fs name = None.

Lemma wp_removeFile name (Q : res unit -> GwState -> Prop) st : unlink_works ->
  (forall st', cfgs st' = cfgs st -> eps st' = eps st -> gs_files st' = delete (xml_file name) (gs_files st) -> Q (Ok tt) st') ->
  wp (removeFile env name) Q st.
Proof.
  intros Hu HQ. unfold wp, removeFile, attempt, os_remove, mbind, gm_bind. rewrite Hu.
  destruct (gs_files st !! xml_file name) eqn:E; simpl; apply HQ; try done. simpl. by rewrite delete_id.
Qed.


Lemma wp_write name content (Q : res string -> GwState -> Prop) st :
  (forall e st', cfgs st' = cfgs st -> eps st' = eps st -> gs_files st' = gs_files st -> Q (Err e) st') ->
  (forall p st', cfgs st' = cfgs st -> eps st' = eps st -> gs_files st' = <[xml_file name := content]> (gs_files st) ->
     Q (Ok p) st') ->
  wp (writeGatewayFile env name content) Q st.
Proof.
  intros He Ho. unfold wp, writeGatewayFile. destruct (ge_write _ _ _); simpl; [by apply He|by apply Ho].
Qed.


Lemma wp_load e (Q : res unit -> GwState -> Prop) st :
  (forall r st', cfgs st' = cfgs st -> eps st' = eps st -> gs_files st' = gs_files st ->
     (r = Ok tt -> d_GatewayEndpointsACL (gs_store st').1 = map ep_Endpoint (List.filter is_gateway (eps st))) ->
     (forall x, r = Err x -> x = e) -> Q r st') ->
  wp (reload_endpoints is_ip lookup_ip e) Q st.
Proof.
  intros HQ. unfold wp, reload_endpoints, on_store, loadEndpoints, cfgs, eps in *. destruct (gs_store st) as [d tb]. simpl in *.
  pose proof (find_rows (fun _ : Endpoint => true) (tb_endpoints tb)) as H.
  pose proof (find_result (fun _ : Endpoint => true) (tb_endpoints tb)) as H1.
  destruct (tbl_find _ _) as [[rows|] te]; simpl in *; apply HQ; try done; [|by intros x [= <-]]. intros _. simpl.
  rewrite (H1 _ eq_refl), filter_true.
  match goal with |- d_GatewayEndpointsACL (foldl (load_step ?n) ?d0 ?l) = _ => destruct (load_loop_spec n l d0) as (_ & _ & -> & _) end.
  done.
Qed.

Lemma wp_status gw path (Q : res GatewayStatus -> GwState -> Prop) st :
  (forall s st', cfgs st' = cfgs st -> eps st' = eps st -> gs_files st' = gs_files st -> gs_store st' = gs_store st ->
     gw_Gateway s = gw -> Q (Ok s) st') -> wp (status_of env gw path) Q st.
Proof. intros HQ. apply HQ; done. Qed.















(** ** What an update achieves *)

Definition set_values (P : Endpoint -> bool) (v : string) (E : list Endpoint) : list Endpoint :=
  map (fun ep => if P ep then ep <| ep_Endpoint := v |> else ep) E.

Definition same_id (l : list Endpoint) (ep : Endpoint) : bool := existsb (fun al => ep_ID ep =? ep_ID al) l.

Lemma set_value_id v al : ep_Endpoint al = v -> al <| ep_Endpoint := v |> = al.
Proof. by destruct al; simpl; intros ->. Qed.

Lemma replace_row_value v al E : ids_ok E -> al ∈ E ->
  replace_row (al <| ep_Endpoint := v |>) E = set_values (same_id [al]) v E.
Proof.
  intros Hid Hin. unfold replace_row, set_values. simpl.
  assert (existsb (fun x => ep_ID x =? ep_ID al) E = true) as ->.
  { apply existsb_exists. exists al. split; [by apply list_elem_of_In|apply Z.eqb_refl]. }
  apply map_ext_in. intros x Hx. apply list_elem_of_In in Hx. unfold same_id. simpl. rewrite orb_false_r.
  destruct (Z.eqb_spec (ep_ID x) (ep_ID al)); [|done]. by rewrite (ids_ok_inj E x al).
Qed.

Lemma set_values_ids P v E : map ep_ID (set_values P v E) = map ep_ID E.
Proof. unfold set_values. rewrite map_map. apply map_ext. intros x. by destruct (P x). Qed.

Lemma retarget_effect v aliases st : ids_ok (eps st) -> Forall (fun al => al ∈ eps st) aliases -> NoDup (map ep_ID aliases) ->
  wp (retarget v aliases) (fun r st' => cfgs st' = cfgs st /\ gs_files st' = gs_files st /\
    (r = Ok tt -> eps st' = set_values (same_id aliases) v (eps st))) st.
Proof.
  intros Hid Hin Hnd. revert st Hid Hin. induction aliases as [|al aliases IH]; intros st Hid Hin; simpl.
  { apply wp_ret. repeat split. intros _. unfold set_values. simpl. symmetry. apply map_id. }
  apply NoDup_cons in Hnd as [Hnew Hnd]. apply Forall_cons in Hin as [Hal Hin]. case_match eqn:Hv.
  - apply String.eqb_eq in Hv. eapply wp_mono; [by apply IH|]. intros r st' (HC & HF & HE). repeat split; [done..|].
    intros Hr. rewrite (HE Hr). apply map_ext_in. intros x Hx. apply list_elem_of_In in Hx. unfold same_id. simpl.
    destruct (Z.eqb_spec (ep_ID x) (ep_ID al)); simpl; [|done]. rewrite (ids_ok_inj (eps st) x al) by done.
    rewrite (set_value_id v al) by done. by destruct (existsb _ _).
  - apply wp_bind, wp_save_endpoint. intros b st' HC _ HF HE. destruct b; [|by apply wp_fail].
    specialize (HE eq_refl). rewrite replace_row_value in HE by done.
    eapply wp_mono; [apply IH; [done| |]|].
    + unfold ids_ok. rewrite HE. simpl. rewrite set_values_ids. exact Hid.
    + rewrite HE. apply Forall_forall. intros x Hx. rewrite Forall_forall in Hin. apply list_elem_of_fmap.
      exists x. split; [|by apply Hin]. unfold same_id. simpl.
      destruct (Z.eqb_spec (ep_ID x) (ep_ID al)) as [He|]; [|done]. destruct Hnew. rewrite <- He.
      by apply (list_elem_of_fmap_2 ep_ID).
    + intros r s2 (HC2 & HF2 & HE2). repeat split; [congruence..|]. intros Hr. rewrite (HE2 Hr), HE.
      unfold set_values. rewrite map_map. apply map_ext. intros x. unfold same_id. simpl.
      destruct (ep_ID x =? ep_ID al) eqn:Ex; simpl; [|done]. by destruct (existsb _ _).
Qed.

Definition is_linked (gw : GatewayConfig) (ep : Endpoint) : bool :=
  negb (gc_EndpointID gw =? 0) && (ep_ID ep =? gc_EndpointID gw).

Lemma update_linked_effect gw v st : ids_ok (eps st) ->
  wp (update_linked gw v) (fun r st' => cfgs st' = cfgs st /\ gs_files st' = gs_files st /\
    (r = Ok tt -> eps st' = set_values (is_linked gw) v (eps st))) st.
Proof.
  intros Hid. unfold update_linked. unfold is_linked. destruct (gc_EndpointID gw =? 0) eqn:H0; simpl.
  { apply wp_ret. repeat split. intros _. symmetry. apply map_id. }
  apply wp_bind, wp_first_endpoint. intros [ep|] s1 HC HE HF Hep; [|by repeat split].
  destruct (Hep _ eq_refl) as [Hin <-]. apply wp_update_endpoint. intros r s2 HC2 _ HF2 HE2.
  repeat split; [congruence..|]. intros Hr. rewrite (HE2 Hr), HE, replace_row_value by done.
  apply map_ext. intros x. unfold same_id. simpl. by rewrite orb_false_r.
Qed.

(** The endpoints that route to a gateway, with a new value. *)
Definition retarget_one (name v : string) (ep : Endpoint) : Endpoint :=
  if is_gateway ep && (gatewayLabel ep =? name)%string then ep <| ep_Endpoint := v |> else ep.

Lemma same_id_alias gw E x : gatewayNameRe (gc_Name gw) = true -> ids_ok E -> x ∈ E ->
  same_id (alias_filter gw (List.filter is_gateway E)) x =
  is_gateway x && negb (ep_ID x =? gc_EndpointID gw) && (gatewayLabel x =? gc_Name gw)%string.
Proof.
  intros Hn Hid Hx. apply eq_true_iff_eq. unfold same_id, alias_filter. rewrite existsb_exists, !andb_true_iff. split.
  - intros (al & Hal & Hi%Z.eqb_eq). apply filter_In in Hal as [Hal [Hne Ha]%andb_prop].
    apply filter_In in Hal as [Hal Hg]. assert (x = al) as -> by (apply (ids_ok_inj E); [done..|by apply list_elem_of_In|done]).
    apply isGatewayAliasValue_label in Ha; [|done]. split; [done|]. by apply String.eqb_eq.
  - intros [[Hg Hne] Hl%String.eqb_eq]. exists x. split; [|apply Z.eqb_refl]. apply filter_In. split.
    + apply filter_In. split; [by apply list_elem_of_In|done].
    + apply andb_true_iff. split; [done|]. by apply isGatewayAliasValue_label.
Qed.

Lemma retarget_all gw v E : linked E gw -> ids_ok E -> (forall ep, ep ∈ E -> 0 < ep_ID ep) ->
  let E1 := set_values (is_linked gw) v E in
  set_values (same_id (alias_filter gw (List.filter is_gateway E1))) v E1 = map (retarget_one (gc_Name gw) v) E.
Proof.
  intros [Hn Hl] Hid Hpos E1. assert (ids_ok E1) as Hid1 by (unfold ids_ok; simpl; unfold E1; by rewrite set_values_ids).
  unfold set_values at 1. unfold E1 at 2. unfold set_values at 1. rewrite map_map. apply map_ext_in.
  intros x Hx. apply list_elem_of_In in Hx. set (y := if is_linked gw x then _ else _).
  assert (y ∈ E1) as Hy by (apply list_elem_of_fmap; by exists x).
  rewrite (same_id_alias gw E1 y) by done. unfold retarget_one. subst y. destruct (is_linked gw x) eqn:El.
  - unfold is_linked in El. reflect_bools. destruct Hl as [|(ep & Hep & Hi & Hg & Hlab)]; [lia|].
    assert (x = ep) as -> by (apply (ids_ok_inj E); [done..|simpl; congruence]).
    rewrite Hg, Hlab, str_eqb_refl. simpl. by rewrite (proj2 (Z.eqb_eq _ _) Hi), andb_false_r.
  - assert ((ep_ID x =? gc_EndpointID gw) = false) as ->.
    { unfold is_linked in El. specialize (Hpos x Hx). apply Z.eqb_neq. intros Hi. rewrite Hi in *.
      rewrite Z.eqb_refl, andb_true_r in El. reflect_bools. lia. }
    by rewrite andb_true_r.
Qed.

Definition updated (name : string) (spec : GatewayProvisionSpec) (st : GwState) (s : GatewayStatus) (st' : GwState) : Prop :=
  exists params body out, let v := endpointValue name (gp_EndpointIP spec) params in
    renderGatewayTemplate (ge_codec env) body params = Ok out /\ params !! "name" = Some (PStr name) /\
    gs_files st' = <[xml_file name := out]> (gs_files st) /\
    gc_Name (gw_Gateway s) = name /\ encodeParams (ge_codec env) params = Ok (gc_Params (gw_Gateway s)) /\
    cfgs st' = replace_row (gw_Gateway s) (cfgs st) /\
    eps st' = map (retarget_one name v) (eps st) /\
    d_GatewayEndpointsACL (gs_store st').1 = map ep_Endpoint (List.filter is_gateway (eps st')).

Ltac fails := try (apply wp_fail || apply wp_ret); intros ? [=].
Ltac passu := apply wp_bind; quietly; match goal with r : res _ |- _ => destruct r as [?|?]; [|solve [fails]] end.

(** The last steps, once the endpoints have their value. *)
Lemma update_persist gw tpl params path v st0 st : Linked (cfgs st0) (eps st0) -> gw ∈ cfgs st0 ->
  (forall ep, ep ∈ eps st0 -> 0 < ep_ID ep) -> cfgs st = cfgs st0 -> eps st = set_values (is_linked gw) v (eps st0) ->
  wp (aliases ← gatewayAliasEndpoints gw;
      _ ← retarget v aliases;
      paramsJSON ← lift (encodeParams (ge_codec env) params);
      let gw1 := gw <| gc_TemplateID := gt_ID tpl |> <| gc_Params := paramsJSON |> in
      _ ← save_config gw1 "persist gateway config";
      _ ← reload_endpoints is_ip lookup_ip "gateway updated but endpoint reload failed";
      status_of env gw1 path)
    (fun r st' => forall s, r = Ok s ->
       gs_files st' = gs_files st /\ gc_Name (gw_Gateway s) = gc_Name gw /\
       encodeParams (ge_codec env) params = Ok (gc_Params (gw_Gateway s)) /\
       cfgs st' = replace_row (gw_Gateway s) (cfgs st0) /\ eps st' = map (retarget_one (gc_Name gw) v) (eps st0) /\
       d_GatewayEndpointsACL (gs_store st').1 = map ep_Endpoint (List.filter is_gateway (eps st'))) st.
Proof.
  intros [Hid HL] Hin Hpos HC HE. pose proof (HL gw Hin) as Hgw. remember (gs_files st) as F eqn:HF. symmetry in HF.
  assert (ids_ok (eps st)) as Hid1 by (unfold ids_ok; simpl; rewrite HE, set_values_ids; exact Hid).
  apply wp_bind, wp_aliases. intros [al|] s1 HC1 HE1 HF1 Hal; [|fails]. specialize (Hal _ eq_refl).
  apply wp_bind. eapply wp_mono.
  { apply retarget_effect; [by rewrite HE1| |]; subst al.
    - rewrite HE1. apply Forall_forall. intros x Hx. apply list_elem_of_In in Hx. unfold alias_filter in Hx.
      apply filter_In in Hx as [Hx _]. apply filter_In in Hx as [Hx _]. by apply list_elem_of_In.
    - change (ids_ok (alias_filter gw (List.filter is_gateway (eps st)))). by apply ids_ok_filter, ids_ok_filter. }
  intros r s2 (HC2 & HF2 & HE2). destruct r as [[]|]; [|fails]. specialize (HE2 eq_refl).
  rewrite HE1, Hal, HE in HE2. rewrite retarget_all in HE2 by done.
  apply wp_bind, wp_lift. destruct (encodeParams _ _) as [pj|] eqn:Hpj; [|fails].
  apply wp_bind, wp_save_config. intros r s3 _ HE3 HF3 HC3. destruct r as [[]|]; [|fails]. specialize (HC3 eq_refl).
  apply wp_bind, wp_load. intros r s4 HC4 HE4 HF4 Hacl _. destruct r as [[]|]; [|fails]. specialize (Hacl eq_refl).
  apply wp_status. intros s s5 HC5 HE5 HF5 Hst Hs ? [= <-]. rewrite Hs.
  split; [congruence|]. split; [done|]. split; [done|]. split; [congruence|]. split; [congruence|].
  rewrite Hst, Hacl, HE5, HE4. done.
Qed.

(** A successful update gives every endpoint that routes to the gateway, the
    linked one and its aliases alike, the new address and touches no other
    endpoint; it stores the parameters, puts the file rendered from the very
    same parameters in place, and refreshes the admission list. *)
Theorem UpdateGateway_retargets (name : string) (spec : GatewayProvisionSpec) (st st' : GwState) (s : GatewayStatus) :
  ids_ok (eps st) -> (forall ep, ep ∈ eps st -> 0 < ep_ID ep) -> (forall c, c ∈ cfgs st -> linked (eps st) c) ->
  UpdateGateway is_ip lookup_ip env name spec st = (Ok s, st') -> updated name spec st s st'.
Proof.
  intros Hid Hpos HL Hrun. assert (Linked (cfgs st) (eps st)) as HLk by by split.
  enough (wp (UpdateGateway is_ip lookup_ip env name spec) (fun r s1 => forall x, r = Ok x -> updated name spec st x s1) st) as H
    by (unfold wp in H; rewrite Hrun in H; by apply H).
  clear Hrun. remember (cfgs st) as C eqn:HC. remember (eps st) as E eqn:HE. remember (gs_files st) as F eqn:HF.
  symmetry in HC, HE, HF. unfold UpdateGateway. set (spec' := spec <| gp_Name := name |>). cbv zeta.
  apply wp_bind, wp_lift. destruct (validateSpec spec') as [[]|] eqn:Hv; [|fails].
  apply validateSpec_name in Hv. change (gatewayNameRe name = true) in Hv. passu.
  apply wp_bind, wp_first_config. intros [gw|] s1 ? ? ? Hgw; settle; [|fails].
  destruct (Hgw _ eq_refl) as [Hin Hnm%String.eqb_eq]. clear Hgw. passu. passu.
  set (params := <["name" := PStr name]> _). apply wp_bind, wp_lift.
  destruct (renderGatewayTemplate _ _ _) as [out|] eqn:Hout; [|fails].
  apply wp_bind, wp_write; [intros; discriminate|]. intros path s2 HC2 HE2 HF2. settle.
  apply wp_bind, wp_quiet; [follow|]. intros r s3 HC3 HE3 HF3. settle. destruct r; [|fails].
  set (v := endpointValue _ _ _).
  apply wp_bind. eapply wp_mono; [by apply update_linked_effect; rewrite HE3; apply HLk|].
  intros r s4 (HC4 & HF4 & HE4). destruct r as [[]|]; [|fails]. specialize (HE4 eq_refl).
  rewrite HC3 in HC4. rewrite HE3 in HE4. rewrite HF3 in HF4. subst C E F.
  eapply wp_mono; [by apply (update_persist gw _ params _ v st); try congruence|].
  intros r s5 Hout5 x Hx. destruct (Hout5 x Hx) as (Hf & Hn & Henc & Hc & He & Ha). rewrite Hnm in *.
  exists params, (gt_Body a1), out. repeat split; try done; [by apply lookup_insert_eq|]. congruence.
Qed.

(** ** Taking a gateway away *)

Definition routes_to (gw : GatewayConfig) (ep : Endpoint) : Prop :=
  is_gateway ep = true /\ gatewayLabel ep = gc_Name gw /\ ep_ID ep <> gc_EndpointID gw.

Definition unrouted (name : string) (st : GwState) (gw : GatewayConfig) : Prop :=
  gw ∈ cfgs st /\ gc_Name gw = name /\ forall ep, ep ∈ eps st -> ~ routes_to gw ep.

Definition deprovisioned (name : string) (st : GwState) (r : res unit) (st' : GwState) : Prop :=
  eps st' = eps st /\
  ((is_ok r = false /\ cfgs st' = cfgs st /\ gs_files st' = gs_files st) \/
   exists gw, unrouted name st gw /\ gs_files st' = delete (xml_file name) (gs_files st) /\
     (cfgs st' = List.filter (fun g => negb (gc_ID g =? gc_ID gw)) (cfgs st) \/ is_ok r = false /\ cfgs st' = cfgs st)).

(** A gateway is taken away, its file and its row, only when no endpoint other than its own
    routes to it; otherwise nothing changes at all. Endpoint rows stay in any case. *)
Theorem DeprovisionGateway_outcome (name : string) (st : GwState) : unlink_works ->
  let out := DeprovisionGateway env name st in deprovisioned name st out.1 out.2.
Proof.
  intros Hu out. change (wp (DeprovisionGateway env name) (deprovisioned name st) st).
  remember (cfgs st) as C eqn:HC. remember (eps st) as E eqn:HE. remember (gs_files st) as F eqn:HF.
  symmetry in HC, HE, HF. unfold DeprovisionGateway.
  assert (forall e s, cfgs s = C -> eps s = E -> gs_files s = F -> deprovisioned name st (Err e) s) as Hno
    by (intros; split; [|left; repeat split]; first [done|congruence]).
  apply wp_bind, wp_lift. unfold validateGatewayName. destruct (gatewayNameRe name) eqn:Hn; [|by apply Hno].
  apply wp_bind; quietly; destruct r; [|by apply Hno].
  apply wp_bind, wp_first_config. intros [gw|] s1 ? ? ? Hgw; settle; [|by apply Hno].
  destruct (Hgw _ eq_refl) as [Hin Hnm%String.eqb_eq]. apply wp_bind, wp_aliases.
  intros [al|] s2 ? ? ? Hal; settle; [|by apply Hno]. specialize (Hal _ eq_refl).
  destruct al as [|? ?]; [|by apply wp_fail, Hno]. apply wp_bind, wp_removeFile; [done|]. intros s3 ? ? ?. settle.
  assert (unrouted name st gw) as Hgo.
  { split; [congruence|]. split; [done|]. rewrite HE. intros ep Hep (Hg & Hl & Hne).
    assert (ep ∈ alias_filter gw (List.filter is_gateway E)) as Ha; [|by rewrite <- Hal in Ha; apply not_elem_of_nil in Ha].
    apply list_elem_of_In, filter_In. split; [apply filter_In; split; [by apply list_elem_of_In|done]|].
    apply andb_true_iff. split; [by apply negb_true_iff, Z.eqb_neq|]. apply isGatewayAliasValue_label; [by rewrite Hnm|done]. }
  apply wp_bind; quietly; destruct r.
  - apply wp_delete_config. intros r s5 HC5 ? ? Hok. settle. split; [congruence|]. right. exists gw. split; [done|].
    split; [congruence|]. destruct r as [[]|]; [left; rewrite HC; by apply Hok|].
    destruct HC5; [right; split; [done|congruence]|left; congruence].
  - split; [congruence|]. right. exists gw. split; [done|]. split; [congruence|]. right. split; [done|congruence].
Qed.

End proofs.

(** A template is not found by its key once the struct carries another one. *)
Lemma reload_template_loaded {TT TN TE TG TC : Type} `{!Table TT Tenant} `{!Table TN TenantNumber} `{!Table TE Endpoint}
  `{!Table TG GatewayTemplate, !TableLaws TG GatewayTemplate} `{!Table TC GatewayConfig}
  (own : GatewayTemplate) (id : Z) (st : GwState (TT := TT) (TN := TN) (TE := TE) (TG := TG) (TC := TC)) :
  gt_ID own <> 0 -> gt_ID own <> id -> (reload_template own id st).1 = Err "template".
Proof.
  intros H0 Hid. unfold reload_template.
  pose proof (first_some (fun g => (gt_ID g =? id) && ((gt_ID own =? 0) || (gt_ID g =? gt_ID own))) (gs_templates st)) as H.
  destruct (tbl_first _ _) as [[g|] t]; [|done]. destruct (H _ eq_refl) as [_ Hg].
  apply andb_prop in Hg as [Hg [Hg'|Hg']%orb_prop]; reflect_bools; congruence.
Qed.

(** ** Witnesses *)

(** Parameters stored as the realm alone, and a template that prints its text and the name. *)
Definition toy_codec : Codec := {|
  cd_marshal p := Ok (param_str p "realm");
  cd_unmarshal s := Ok {["realm" := PStr s]};
  cd_encrypt := Ok; cd_decrypt := Ok;
  cd_parse _ := Ok [[NAction (NField ["realm"])]];
  cd_execute body p := Ok (body +:+ param_str p "realm");
  cd_well_formed _ := true |}.

Definition toy_env : GwEnv := {|
  ge_GatewayConfigDir := "/gateways"; ge_GatewayProfile := "";
  ge_api _ cmd := if has_prefix cmd "sofia status" then Ok "State REGED" else Ok "+OK";
  ge_write _ _ := None; ge_unlink _ _ := None; ge_join d f := d +:+ "/" +:+ f;
  ge_xml_names s := Ok [s]; ge_codec := toy_codec |}.

#[local] Notation ToyState := (GwState (TT := ListTable Tenant) (TN := ListTable TenantNumber) (TE := ListTable Endpoint)
  (TG := ListTable GatewayTemplate) (TC := ListTable GatewayConfig)).

Definition toy_template (id : Z) : GatewayTemplate :=
  {| gt_ID := id; gt_Name := "pbx"; gt_Description := ""; gt_Body := "gateway " |}.

Definition toy_state : ToyState := {|
  gs_store := (empty_directory,
    {| tb_tenants := fresh_table [] 1 []; tb_numbers := fresh_table [] 1 [];
       tb_endpoints := fresh_table [example_endpoint 7 "tenant" 1 "gateway" "pbx_old:192.0.2.7" 0] 8 [] |});
  gs_templates := fresh_table [toy_template 1; toy_template 2] 3 [];
  gs_configs := fresh_table [] 1 []; gs_files := ∅; gs_api := [] |}.

Definition toy_spec : GatewayProvisionSpec := {|
  gp_Name := "pbx_acme"; gp_TemplateID := 1; gp_Params := {["realm" := PStr "192.0.2.1"]};
  gp_Scope := "tenant"; gp_TypeID := 1; gp_Priority := 0; gp_Bridge := false; gp_EndpointIP := "" |}.

Definition toy_provisioned : ToyState := (ProvisionGateway no_ip no_dns toy_env toy_spec toy_state).2.
(** With an alias of the gateway for the number [5]. *)
Definition toy_aliased : ToyState :=
  toy_provisioned <| gs_store ::= fun s => (s.1, s.2 <| tb_endpoints :=
    (tbl_create (example_endpoint 0 "number" 5 "gateway" "pbx_acme:192.0.2.1" 1) (tb_endpoints s.2)).2 |>) |>.


Lemma UpdateGateway_retargets_witness :
  exists s st', UpdateGateway no_ip no_dns toy_env "pbx_acme" (toy_spec <| gp_EndpointIP := "198.51.100.9" |>) toy_aliased
      = (Ok s, st') /\
    map ep_Endpoint (eps st') = ["pbx_old:192.0.2.7"; "pbx_acme:198.51.100.9"; "pbx_acme:198.51.100.9"].
Proof.
  assert (is_ok (UpdateGateway no_ip no_dns toy_env "pbx_acme" (toy_spec <| gp_EndpointIP := "198.51.100.9" |>) toy_aliased).1
    = true) as Hr by (vm_compute; reflexivity).
  destruct (UpdateGateway no_ip no_dns toy_env "pbx_acme" (toy_spec <| gp_EndpointIP := "198.51.100.9" |>) toy_aliased)
    as [[s|e] st'] eqn:E; [|discriminate Hr]. exists s, st'. split; [reflexivity|].
  assert (eps toy_aliased = [example_endpoint 7 "tenant" 1 "gateway" "pbx_old:192.0.2.7" 0;
    example_endpoint 8 "tenant" 1 "gateway" "pbx_acme:192.0.2.1" 0; example_endpoint 9 "number" 5 "gateway" "pbx_acme:192.0.2.1" 1])
    as HE by (vm_compute; reflexivity).
  assert (exists g, cfgs toy_aliased = [g] /\ gc_Name g = "pbx_acme" /\ gc_EndpointID g = 8) as (g & HC & Hn & Hi)
    by (eexists; split; [vm_compute; reflexivity|split; reflexivity]).
  destruct (UpdateGateway_retargets no_ip no_dns toy_env "pbx_acme" (toy_spec <| gp_EndpointIP := "198.51.100.9" |>)
    toy_aliased st' s) as (params & body & out & _ & _ & _ & _ & _ & _ & He & _).
  - rewrite HE. unfold ids_ok. apply (bool_decide_unpack _). vm_compute; reflexivity.
  - rewrite HE. intros ep [->|[->|[->|[]%not_elem_of_nil]%elem_of_cons]%elem_of_cons]%elem_of_cons; reflexivity.
  - rewrite HE, HC. intros c ->%list_elem_of_singleton. split; [rewrite Hn; reflexivity|]. right.
    eexists. split; [apply elem_of_cons; right; apply elem_of_cons; left; reflexivity|]. rewrite Hi, Hn. repeat split; reflexivity.
  - exact E.
  - rewrite He, HE. reflexivity.
Defined.

Lemma DeprovisionGateway_outcome_witness :
  eps (DeprovisionGateway toy_env "pbx_acme" toy_aliased).2 = eps toy_aliased /\
  is_ok (DeprovisionGateway toy_env "pbx_acme" toy_aliased).1 = false /\
  gs_files (DeprovisionGateway toy_env "pbx_acme" toy_provisioned).2 = ∅.
Proof.
  split; [|split; [vm_compute; reflexivity|]].
  - exact (proj1 (DeprovisionGateway_outcome toy_env "pbx_acme" toy_aliased (fun _ _ => eq_refl))).
  - vm_compute; reflexivity.
Defined.

(** A gateway rendered from template [1] cannot be switched to template [2], although both exist. *)
Example switching_template_fails :
  (UpdateGateway no_ip no_dns toy_env "pbx_acme" (toy_spec <| gp_TemplateID := 2 |>) toy_aliased).1 = Err "template".
Proof. vm_compute. reflexivity. Qed.

(** A rolled back request for a number that is not loaded leaves its endpoint row, and the next
    reload admits the address. *)
Example rolled_back_endpoint_stays :
  let st := (ProvisionGateway no_ip no_dns toy_env (toy_spec <| gp_Scope := "number" |>) toy_state).2 in
  let st' := (reload_endpoints no_ip no_dns "" st).2 in
  is_ok (ProvisionGateway no_ip no_dns toy_env (toy_spec <| gp_Scope := "number" |>) toy_state).1 = false /\
  length (cfgs st) = 0%nat /\ gs_files st = ∅ /\ is_ok (fsGatewayACL (gs_store st').1 "192.0.2.1") = true.
Proof. vm_compute. repeat split; reflexivity. Qed.

(** Adopting a file whose name differs from the gateway it declares leaves a row
    whose file does not exist. *)
Example adopted_under_another_name :
  let st := toy_state <| gs_files := {["foo.xml" := "bar"]} |> in
  let '(r, st') := AdoptGateway toy_env "foo.xml" st in
  is_ok r = true /\ map gc_Name (cfgs st') = ["bar"] /\ gs_files st' !! xml_file "bar" = None.
Proof. vm_compute. repeat split; reflexivity. Qed.
