(* ===== verification/WebAdmin.v ===== *)
(** * WebAdmin: the server's HTTP surface ([gofaxserver/web.go],
    [gofaxserver/web_list.go], [gofaxserver/tiff.go])

    The handlers that manage tenants, numbers and endpoints, and the intake of
    a document. A request body is [None] when it does not parse; a tenant's body
    may bring a key and numbers, which gorm stores along with it; in the bodies
    of a new number, endpoint or fallback rule the key is taken as absent.
    External programs are parameters of the request. *)

From S2P Require Import Prelude Store FaxResult FaxJob Policy Learning Regexp Directory GatewayTemplates Gateways TenantUsers.

Definition bad_payload {A} : answer A := Reject 400 "invalid payload".

(** [strconv.Atoi] of the path parameter, as [uint]. *)
Definition path_id (idStr : string) : option Z := uint_of_int <$> atoi idStr.

(** ** Tenants and numbers *)

Section directory.
Context {TT TN TE : Type} `{!Table TT Tenant} `{!Table TN TenantNumber} `{!Table TE Endpoint}.
#[local] Notation state := (Directory * Tables TT TN TE)%type.

(** [number] is unique in the table: a row that takes another's number is
    refused. *)
Definition number_taken (tn : TenantNumber) (r : TenantNumber) : bool :=
  (tn_Number r =? tn_Number tn)%string && negb (tn_ID r =? tn_ID tn).

(** What gorm's [Create] and [Save] do with the numbers a tenant brings
    ([saveAssociations]): each becomes the tenant's own; one whose key is stored
    changes owner there and nothing else ([ON CONFLICT (id) DO UPDATE SET
    tenant_id]), any other is inserted. *)
Definition attach_number (tenantID : Z) (n : TenantNumber) (t : TN) : option TenantNumber * TN :=
  let n := n <| tn_TenantID := tenantID |> in
  if existsb (fun r => tn_ID r =? tn_ID n) (tbl_rows t) then
    let '(ok, t1) := tbl_update (fun r => tn_ID r =? tn_ID n) (fun r => r <| tn_TenantID := tenantID |>) t in
    (if ok then Some n else None, t1)
  else if existsb (number_taken n) (tbl_rows t) then (None, t)
  else gorm_create n t.

Fixpoint attach_numbers (tenantID : Z) (numbers : list TenantNumber) (t : TN) : option (list TenantNumber) * TN :=
  match numbers with
  | [] => (Some [], t)
  | n :: numbers' =>
      match attach_number tenantID n t with
      | (None, t1) => (None, t1)
      | (Some n', t1) => let '(rest, t2) := attach_numbers tenantID numbers' t1 in (cons n' <$> rest, t2)
      end
  end.

(** The tenant's row and its numbers, in one transaction: the tenant as it is in
    memory afterwards, and the two tables; or nothing stored. *)
Definition store_tenant (write : Tenant -> TT -> option Tenant * TT) (tenant : Tenant) (tb : Tables TT TN TE)
  : option Tenant * Tables TT TN TE :=
  match write (tenant <| te_Numbers := [] |>) (tb_tenants tb) with
  | (None, t) => (None, tb <| tb_tenants := t |>)
  | (Some stored, t) =>
      match attach_numbers (te_ID stored) (te_Numbers tenant) (tb_numbers tb) with
      | (None, _) => (None, tb)
      | (Some ns, tn) => (Some (stored <| te_Numbers := ns |>), tb <| tb_tenants := t |> <| tb_numbers := tn |>)
      end
  end.

Definition handleAddTenant (body : option Tenant) (st : state) : answer Tenant * state :=
  match body with
  | None => (bad_payload, st)
  | Some b =>
      let '(d, tb) := st in
      let '(made, tb') := store_tenant gorm_create b tb in
      match made with
      | None => (Reject 500 "failed to add tenant", (d, tb'))
      | Some tenant => (Answer tenant, (d <| d_Tenants ::= insert (te_ID tenant) tenant |>, tb'))
      end
  end.

Definition handleUpdateTenant (idStr : string) (body : option Tenant) (st : state) : answer Tenant * state :=
  match path_id idStr with
  | None => (Reject 400 "invalid tenant id", st)
  | Some id =>
      match body with
      | None => (bad_payload, st)
      | Some b =>
          let '(d, tb) := st in
          let '(saved, tb') := store_tenant gorm_save (b <| te_ID := id |>) tb in
          match saved with
          | Some tenant => (Answer tenant, (d <| d_Tenants ::= insert (te_ID tenant) tenant |>, tb'))
          | None => (Reject 500 "failed to update tenant", (d, tb'))
          end
      end
  end.

Definition handleDeleteTenant (idStr : string) (st : state) : answer unit * state :=
  match path_id idStr with
  | None => (Reject 400 "invalid tenant id", st)
  | Some id =>
      let '(d, tb) := st in
      let '(ok, t) := tbl_delete (fun r => te_ID r =? id) (tb_tenants tb) in
      let tb' := tb <| tb_tenants := t |> in
      if ok then (Answer tt, (d <| d_Tenants ::= delete id |>, tb')) else (Reject 500 "failed to delete tenant", (d, tb'))
  end.

Definition handleAddTenantNumber (body : option TenantNumber) (st : state) : answer TenantNumber * state :=
  match body with
  | None => (bad_payload, st)
  | Some tn =>
      match addTenantNumber (tn_TenantID tn) tn st with
      | (true, st') => (match d_TenantNumbers st'.1 !! tn_Number tn with Some n => Answer n | None => Answer tn end, st')
      | (false, st') => (Reject 500 "failed to add tenant number", st')
      end
  end.

Definition save_number (tn : TenantNumber) (t : TN) : option TenantNumber * TN :=
  if existsb (number_taken tn) (tbl_rows t) then (None, t) else gorm_save tn t.

Definition handleUpdateTenantNumber (idStr : string) (body : option TenantNumber) (st : state) : answer TenantNumber * state :=
  match path_id idStr with
  | None => (Reject 400 "invalid tenant number id", st)
  | Some id =>
      match body with
      | None => (bad_payload, st)
      | Some b =>
          let '(d, tb) := st in
          let '(saved, t) := save_number (b <| tn_ID := id |>) (tb_numbers tb) in
          let tb' := tb <| tb_numbers := t |> in
          match saved with
          | Some tn => (Answer tn, (d <| d_TenantNumbers ::= insert (tn_Number tn) tn |>, tb'))
          | None => (Reject 500 "failed to update tenant number", (d, tb'))
          end
      end
  end.

Definition handleDeleteTenantNumber (numberStr tenantIDStr : string) (st : state) : answer unit * state :=
  if (numberStr =? "")%string || (tenantIDStr =? "")%string then (Reject 400 "both number and tenant_id are required", st)
  else
    match path_id tenantIDStr with
    | None => (Reject 400 "invalid tenant_id", st)
    | Some tenantID =>
        match removeTenantNumber tenantID numberStr st with
        | (true, st') => (Answer tt, st')
        | (false, st') => (Reject 500 "failed to delete tenant number", st')
        end
    end.

(** *** Listings *)

(** [strconv.ParseUint(v, 10, 64)]. *)
Definition parse_uint (v : string) : option Z :=
  match parse_digits v with Some z => if z <? 2 ^ 64 then Some z else None | None => None end.

(** The optional filter: absent, unreadable or a key. *)
Definition uint_filter {A} (v : string) (bad : answer A) (k : option Z -> answer A) : answer A :=
  if (v =? "")%string then k None
  else match parse_uint v with Some id => k (Some id) | None => bad end.

Definition matches_id (o : option Z) (id : Z) : bool := match o with Some i => id =? i | None => true end.

Definition found {A} (o : option (list A)) (e : string) : answer (list A) :=
  match o with Some l => Answer l | None => Reject 500 e end.

Definition handleListTenants (tb : Tables TT TN TE) : answer (list Tenant) :=
  match (tbl_find (fun _ => true) (tb_tenants tb)).1 with
  | None => Reject 500 "failed to retrieve tenants"
  | Some rows =>
      match (tbl_find (fun n => existsb (fun t => te_ID t =? tn_TenantID n) rows) (tb_numbers tb)).1 with
      | None => Reject 500 "failed to retrieve tenants"
      | Some nums => Answer (map (fun t => t <| te_Numbers := List.filter (fun n => tn_TenantID n =? te_ID t) nums |>) rows)
      end
  end.

Definition handleListTenantNumbers (tenantID : string) (tb : Tables TT TN TE) : answer (list TenantNumber) :=
  uint_filter tenantID (Reject 400 "invalid tenant_id") (fun o =>
    found (tbl_find (fun n => matches_id o (tn_TenantID n)) (tb_numbers tb)).1 "failed to retrieve numbers").

Definition handleListEndpoints (type typeID : string) (tb : Tables TT TN TE) : answer (list Endpoint) :=
  uint_filter typeID (Reject 400 "invalid type_id") (fun o =>
    found (tbl_find (fun ep => ((type =? "")%string || (ep_Type ep =? type)%string) && matches_id o (ep_TypeID ep))
      (tb_endpoints tb)).1 "failed to retrieve endpoints").

End directory.

Record TenantUserPublic := { tp_ID : Z; tp_TenantID : Z; tp_Username : string; tp_APIKey : string }.

Definition public (u : TenantUser) : TenantUserPublic :=
  {| tp_ID := tu_ID u; tp_TenantID := tu_TenantID u; tp_Username := tu_Username u; tp_APIKey := tu_APIKey u |}.

Section users.
Context {T : Type} `{!Table T TenantUser} `{Secrets.BlockCipher}.
Variable PSK : string.

Definition handleListTenantUsers (tenantID : string) (t : T) : answer (list TenantUserPublic) :=
  uint_filter tenantID (Reject 400 "invalid tenant_id") (fun o =>
    found (map public <$> (tbl_find (fun u => matches_id o (tu_TenantID u)) t).1) "failed to retrieve users").

Definition handleAddTenantUser (iv : option string) (body : option TenantUser) (t : T) : answer TenantUser * T :=
  match body with
  | None => (Reject 400 "invalid input", t)
  | Some user =>
      let '(made, t1) := AddTenantUser PSK iv user t in
      (match made with Some u => Answer u | None => Reject 500 "failed to add tenant user" end, t1)
  end.

Definition handleUpdateTenantUser (iv : option string) (idStr : string) (body : option TenantUser) (t : T)
  : answer TenantUser * T :=
  match path_id idStr with
  | None => (Reject 400 "invalid user id", t)
  | Some id =>
      match body with
      | None => (Reject 400 "invalid input", t)
      | Some user =>
          let '(saved, t1) := UpdateTenantUser PSK iv (user <| tu_ID := id |>) t in
          (match saved with Some u => Answer u | None => Reject 500 "failed to update tenant user" end, t1)
      end
  end.

Definition handleDeleteTenantUser (idStr : string) (t : T) : answer unit * T :=
  match path_id idStr with
  | None => (Reject 400 "invalid user id", t)
  | Some id =>
      let '(ok, t1) := DeleteTenantUser id t in (if ok then Answer tt else Reject 500 "failed to delete tenant user", t1)
  end.

End users.

(** ** Endpoints *)

Section endpoints.
Context {TT TN TE TG TC : Type} `{!Table TT Tenant} `{!Table TN TenantNumber} `{!Table TE Endpoint}
  `{!Table TG GatewayTemplate} `{!Table TC GatewayConfig}.
Variable is_ip : string -> bool.
Variable lookup_ip : string -> option (list string).
#[local] Notation GwState := (GwState (TT := TT) (TN := TN) (TE := TE) (TG := TG) (TC := TC)).

(** After the change the whole directory of endpoints is loaded again. *)
Definition then_reload {A} (a : A) (st : GwState) : answer A * GwState :=
  match reload_endpoints is_ip lookup_ip "added endpoint but failed to reload" st with
  | (Ok _, st') => (Answer a, st')
  | (Err e, st') => (Reject 500 e, st')
  end.

Definition handleAddEndpoint (body : option Endpoint) (st : GwState) : answer Endpoint * GwState :=
  match body with
  | None => (bad_payload, st)
  | Some ep =>
      match add_endpoint ep "failed to add endpoint" st with
      | (Ok id, st1) => then_reload (ep <| ep_ID := id |>) st1
      | (Err e, st1) => (Reject 500 e, st1)
      end
  end.

(** The value of an endpoint that names a provisioned gateway may not change. *)
Definition value_locked (existing ep : Endpoint) (st : GwState) : bool * GwState :=
  if (ep_EndpointType existing =? "gateway")%string && negb (ep_Endpoint ep =? ep_Endpoint existing)%string then
    match count_configs (str_cut ":" (ep_Endpoint existing)).1 st with
    | (Ok n, st') => ((0 <? n)%nat, st')
    | (Err _, st') => (false, st')
    end
  else (false, st).

(** The stored endpoint: [None] an error, [Some None] not found. *)
Definition load_existing (id : Z) (st : GwState) : option (option Endpoint) * GwState :=
  match on_endpoints (tbl_find (fun ep => ep_ID ep =? id)) st with
  | (Ok (Some l), st') => (Some (head l), st')
  | (_, st') => (None, st')
  end.

Definition handleUpdateEndpoint (idStr : string) (body : option Endpoint) (st : GwState) : answer Endpoint * GwState :=
  match path_id idStr with
  | None => (Reject 400 "invalid endpoint id", st)
  | Some id =>
      match body with
      | None => (bad_payload, st)
      | Some b =>
          let ep := b <| ep_ID := id |> in
          match gatewayManagingEndpoint id st with
          | (Ok (Some gwName), st1) => (Reject 409 "endpoint is managed by gateway", st1)
          | (_, st1) =>
              match load_existing id st1 with
              | (None, st2) => (Reject 500 "failed to load endpoint", st2)
              | (Some None, st2) => (Reject 404 "endpoint not found", st2)
              | (Some (Some existing), st2) =>
                  match value_locked existing ep st2 with
                  | (true, st3) => (Reject 409 "endpoint value is derived from provisioned gateway", st3)
                  | (false, st3) =>
                      match on_store (updateEndpoint ep) "failed to update endpoint" st3 with
                      | (Ok _, st4) => then_reload ep st4
                      | (Err e, st4) => (Reject 500 e, st4)
                      end
                  end
              end
          end
      end
  end.

Definition handleDeleteEndpoint (idStr : string) (st : GwState) : answer unit * GwState :=
  match path_id idStr with
  | None => (Reject 400 "invalid endpoint id", st)
  | Some id =>
      match gatewayManagingEndpoint id st with
      | (Ok (Some gwName), st1) => (Reject 409 "endpoint is managed by gateway", st1)
      | (_, st1) =>
          match on_store (removeEndpointFromDB id) "failed to delete endpoint" st1 with
          | (Ok _, st2) => then_reload tt st2
          | (Err e, st2) => (Reject 500 e, st2)
          end
      end
  end.

End endpoints.

(** ** The deprecated fallback route *)

Section fallback.
Context {T : Type} `{!Table T FaxPolicyRule}.

Definition fallback_rule (number : string) : FaxPolicyRule :=
  {| pr_ID := 0; pr_Scope := PolicyScopeDst; pr_SrcNumber := ""; pr_DstNumber := number; pr_Effect := PolicyEffectT38Off;
     pr_AppliesTo := "both"; pr_Origin := PolicyOriginManual; pr_Enabled := true; pr_ExpiresAt := None;
     pr_VarName := ""; pr_VarValue := ""; pr_FailureCount := 0; pr_SuccessCount := 0; pr_LastSeenAt := None;
     pr_LastT38Status := ""; pr_Notes := "created via deprecated /admin/fallback shim" |}.

(** The number and the key of its rule. *)
Definition handleFallbackNumber (now : Z) (body : option string) (st : PolicyState T) : answer (string * Z) * PolicyState T :=
  match body with
  | None => (bad_payload, st)
  | Some raw =>
      let number := trim_space raw in
      if (number =? "")%string then (Reject 400 "no fallback number provided", st)
      else
        let '(made, t) := tbl_create (fallback_rule number) (ps_db st) in
        let st1 := st <| ps_db := t |> in
        match made with
        | None => (Reject 500 "failed to set fallback number", st1)
        | Some rule =>
            let '(ok, st2) := reloadFaxPolicies now st1 in
            (if ok then Answer (number, pr_ID rule) else Reject 500 "rule saved but reload failed", st2)
        end
  end.

End fallback.

(** ** Intake of a document *)

(** [filepath.Ext]: from the last dot after the last slash. *)
Fixpoint Ext (path : string) : string :=
  match path with
  | EmptyString => ""
  | String c path' =>
      match Ext path' with
      | EmptyString => if Ascii.eqb c "." && str_forall (fun x => negb (Ascii.eqb x "/")) path' then path else ""
      | e => e
      end
  end.

(** What the external converter leaves: its exit, its output and the size of
    the file it was to write, if there is one. *)
Record GsRun := { gs_exit0 : bool; gs_output : string; gs_size : option Z }.

Definition truncateGSOutput (out : string) : string :=
  let s := trim_space out in
  if (500 <? String.length s)%nat then "…" +:+ str_drop (String.length s - 500) s else s.

Definition verifyTiffOutput (run : GsRun) : res unit :=
  match gs_size run with
  | None => Err ("conversion produced no output file, gs output: " +:+ truncateGSOutput (gs_output run))
  | Some size =>
      if size =? 0 then Err ("conversion produced an empty output file, gs output: " +:+ truncateGSOutput (gs_output run))
      else Ok tt
  end.

(** [saved]: the upload could be written to its temporary file. *)
Definition pdfToTiff (destFile : string) (saved : bool) (run : GsRun) : res string :=
  if negb saved then Err "failed to create temp file"
  else if negb (gs_exit0 run) then Err ("failed to convert document, output: " +:+ truncateGSOutput (gs_output run))
  else match verifyTiffOutput run with Err e => Err e | Ok _ => Ok destFile end.

(** [magick identify] prints one line per page; [None]: it fails. *)
Definition countTiffPages (output : option string) : res Z :=
  match output with
  | None => Err "failed to identify TIFF page count"
  | Some out =>
      match length (List.filter (fun l => nonempty (trim_space l)) (str_split "010" out)) with
      | O => Err "no images found in TIFF"
      | S n => Ok (Z.of_nat (S n))
      end
  end.

Definition allowedExts : list string := [".pdf"; ".tif"; ".tiff"].
Definition allowedContentTypes : list string := ["application/pdf"; "image/tiff"; "image/x-tiff"].

Record Upload := {
  ul_file : option (string * string);   (* name and bytes of the form's file *)
  ul_readable : bool;                   (* it can be read and rewound *)
  ul_callee : string; ul_caller : string; ul_source : string;
}.

(** What the intake draws and what the external programs do. *)
Record IntakeEnv := {
  ie_docID : Z; ie_resultID : Z; ie_now : Z;
  ie_destFile : string; ie_saved : bool; ie_gs : GsRun; ie_identify : option string;
}.

Inductive intake :=
| Enqueued (job : FaxJob)
| Declined (code : Z) (error : string)
| Panicked.

Definition upload_job (env : IntakeEnv) (u : Upload) (tiff : string) (totalPages : Z) (userID : string) : FaxJob :=
  zero_job <| fj_UUID := ie_docID env |> <| fj_CalleeNumber := ul_callee u |> <| fj_CallerIdNumber := ul_caller u |>
    <| fj_FileName := tiff |> <| fj_Status := "WEBHOOK" |>
    <| fj_Result := Some ((NewFaxResult (ie_resultID env) false) <| fr_StartTs := ie_now env |>
         <| fr_HangupCause := "WEBHOOK" |> <| fr_ResultText := "queued" |> <| fr_TotalPages := totalPages |>) |>
    <| fj_SourceInfo := {| si_Timestamp := ie_now env; si_SourceType := "webhook";
         si_Source := if (ul_source u =? "")%string then "user" else ul_source u; si_SourceID := userID |} |>
    <| fj_Ts := ie_now env |>.

(** [tenantID] and [userID] are what the middleware left in the context. When
    the caller number belongs to another tenant, [err] is nil and the message
    asks it for its text. *)
Definition handleDocumentUpload (DetectContentType : string -> string) (env : IntakeEnv) (d : Directory) (tenantID : Z)
  (userID : string) (u : Upload) : intake :=
  match ul_file u with
  | None => Declined 400 "failed to get document"
  | Some (filename, content) =>
      if negb (str_mem (to_lower (Ext filename)) allowedExts) then Declined 400 "unsupported file type"
      else if negb (ul_readable u) then Declined 500 "failed to read file header"
      else if negb (str_mem (DetectContentType (str_take 512 content)) allowedContentTypes)
      then Declined 400 "unsupported MIME type"
      else
        match pdfToTiff (ie_destFile env) (ie_saved env) (ie_gs env) with
        | Err e => Declined 500 ("failed to convert file using ghostscript: " +:+ e)
        | Ok tiff =>
            let totalPages := match countTiffPages (ie_identify env) with Ok n => n | Err _ => 0 end in
            match getNumber d (ul_caller u) with
            | None => Declined 500 "failed to validate caller number"
            | Some srcNum =>
                if tn_TenantID srcNum =? tenantID then Enqueued (upload_job env u tiff totalPages userID) else Panicked
            end
        end
  end.

Section status.
Context {T R : Type} `{HasID R} `{!Table T R}.
(** The [job_uuid] column. *)
Variable job_of : R -> Z.

(** [uuid.Parse] is the parameter [parse]. *)
Definition getFaxLogByUUID (parse : string -> option Z) (uuidStr : string) (t : T) : answer (list R) :=
  if (uuidStr =? "")%string then Reject 400 "uuid query parameter is required"
  else
    match parse uuidStr with
    | None => Reject 400 "invalid uuid format"
    | Some jobUUID => found (tbl_find (fun r => job_of r =? jobUUID) t).1 "failed to retrieve fax logs"
    end.

End status.
