(* ===== verification/WebAdminFacts.v ===== *)
(** * WebAdminFacts: what the server's HTTP surface guarantees

    Endpoint requests leave provisioned gateways intact; tenant and number
    requests keep the loaded directory in step with its tables; a document is
    taken in only for a number of the caller's own tenant. *)

From S2P Require Import Prelude Store FaxResult FaxJob Policy Regexp Directory GatewayTemplates Gateways GatewayInvariant TenantUsers WebAdmin.

(** ** Endpoint requests and gateways *)

Section gateways.
Context {TT TN TE TG TC : Type} `{!Table TT Tenant} `{!Table TN TenantNumber}
  `{!Table TE Endpoint, !TableLaws TE Endpoint} `{!Table TG GatewayTemplate, !TableLaws TG GatewayTemplate}
  `{!Table TC GatewayConfig, !TableLaws TC GatewayConfig}.
Variable is_ip : string -> bool.
Variable lookup_ip : string -> option (list string).
#[local] Notation GwState := (GwState (TT := TT) (TN := TN) (TE := TE) (TG := TG) (TC := TC)).
#[local] Notation GM := (GM (TT := TT) (TN := TN) (TE := TE) (TG := TG) (TC := TC)).

Inductive endpoint_request :=
| ReqAdd (body : option Endpoint)
| ReqUpdate (idStr : string) (body : option Endpoint)
| ReqDelete (idStr : string).

Definition serve_endpoint (r : endpoint_request) (st : GwState) : GwState :=
  match r with
  | ReqAdd body => (handleAddEndpoint is_ip lookup_ip body st).2
  | ReqUpdate idStr body => (handleUpdateEndpoint is_ip lookup_ip idStr body st).2
  | ReqDelete idStr => (handleDeleteEndpoint is_ip lookup_ip idStr st).2
  end.

(** Leaves the rows of gateways and endpoints alone. *)
Definition same_gw (st st' : GwState) : Prop := cfgs st' = cfgs st /\ eps st' = eps st.

Lemma same_gw_inv st st' : same_gw st st' -> InvSt st -> InvSt st'.
Proof. unfold InvSt. by intros [-> ->]. Qed.

Lemma same_gw_trans st1 st2 st3 : same_gw st1 st2 -> same_gw st2 st3 -> same_gw st1 st3.
Proof. intros [??] [??]. split; congruence. Qed.

Lemma quiet_same_gw {A} (m : GM A) st r st' : quiet m -> m st = (r, st') -> same_gw st st'.
Proof. intros Hm Heq. destruct (Hm st) as (H1 & H2 & _). rewrite Heq in H1, H2. by split. Qed.

Lemma then_reload_same {A} (a : A) st : same_gw st (then_reload is_ip lookup_ip a st).2.
Proof.
  unfold then_reload. destruct (reload_endpoints _ _ _ st) as [[?|?] st'] eqn:E; simpl; eapply quiet_same_gw;
    eauto using quiet_load.
Qed.

Lemma load_existing_same id st : same_gw st (load_existing id st).2.
Proof.
  unfold load_existing. destruct (on_endpoints _ st) as [[[l|]|] st'] eqn:E; simpl;
    exact (quiet_same_gw _ _ _ _ (quiet_find_eps _) E).
Qed.

Lemma value_locked_same existing ep st : same_gw st (value_locked existing ep st).2.
Proof.
  unfold value_locked. case_match; [|by split].
  destruct (count_configs _ st) as [[n|] st'] eqn:E; simpl; exact (quiet_same_gw _ _ _ _ (quiet_count _) E).
Qed.

(** Nobody manages the endpoint, if the table of gateways answers. *)
Lemma managing_none id st st' : tbl_healthy (gs_configs st) ->
  gatewayManagingEndpoint id st = (Ok None, st') ->
  same_gw st st' /\ forall g, g ∈ cfgs st -> gc_EndpointID g <> id.
Proof.
  intros Hh E. split; [exact (quiet_same_gw _ _ _ _ (quiet_managing id) E)|].
  unfold gatewayManagingEndpoint, attempt, first_config, mbind, gm_bind in E. simpl in E.
  pose proof (first_healthy (fun g => gc_EndpointID g =? id) (gs_configs st) Hh) as (Hf & _).
  destruct (tbl_first _ _) as [o t]; simpl in *. subst o.
  destruct (List.filter (fun g => gc_EndpointID g =? id) (tbl_rows (gs_configs st))) as [|g l] eqn:Hl; [|discriminate E].
  intros g Hg Hid. assert (In g (List.filter (fun g => gc_EndpointID g =? id) (tbl_rows (gs_configs st)))) as Hin.
  { apply filter_In. split; [by apply list_elem_of_In|]. by apply Z.eqb_eq. }
  by rewrite Hl in Hin.
Qed.

Lemma managing_cases id (st : GwState) : exists o, (gatewayManagingEndpoint id st).1 = Ok o.
Proof. unfold gatewayManagingEndpoint, attempt, mbind, gm_bind. destruct (first_config _ _ st) as [[?|?] ?]; simpl; eauto. Qed.

Lemma add_endpoint_inv ep e (st : GwState) : InvSt st -> InvSt (add_endpoint ep e st).2.
Proof.
  intros HI. cut (wp (add_endpoint ep e) (fun _ => InvSt) st); [done|]. apply wp_add_endpoint.
  - intros x st' HC HE _. by apply (same_gw_inv st).
  - intros r ep' st' HC HE _ _ _ Hf _ _. unfold InvSt. rewrite HC, HE. by apply Linked_app.
Qed.

Lemma update_endpoint_inv ep e (st : GwState) : InvSt st -> (forall g, g ∈ cfgs st -> gc_EndpointID g <> ep_ID ep) ->
  InvSt (on_store (updateEndpoint ep) e st).2.
Proof.
  intros HI Hn. cut (wp (on_store (updateEndpoint ep) e) (fun _ => InvSt) st); [done|]. apply wp_update_endpoint.
  intros r st' HC [HE|HE] _ _; unfold InvSt; rewrite HC, HE; [done|]. apply Linked_replace; [|done].
  intros g Hg _ Hid. by destruct (Hn g Hg).
Qed.

Lemma remove_endpoint_inv id e (st : GwState) : InvSt st -> (forall g, g ∈ cfgs st -> gc_EndpointID g <> id) ->
  InvSt (on_store (removeEndpointFromDB id) e st).2.
Proof.
  intros HI Hn. cut (wp (on_store (removeEndpointFromDB id) e) (fun _ => InvSt) st); [done|]. apply wp_remove_endpoint.
  intros r st' HC [[HE _]|HE] _; unfold InvSt; rewrite HC, HE; [done|]. destruct HI as [Hids HC']. split; [by apply ids_ok_filter|].
  intros g Hg. destruct (HC' g Hg) as [Hname [H0|(ep & Hin & Hid & Hgw)]]; (split; [done|]); [by left|right].
  exists ep. split; [|done]. rewrite list_elem_of_In in Hin |- *. apply filter_In. split; [done|].
  apply negb_true_iff, Z.eqb_neq. rewrite Hid. by apply Hn.
Qed.

Lemma update_request_inv idStr body (st : GwState) : tbl_healthy (gs_configs st) -> InvSt st ->
  InvSt (handleUpdateEndpoint is_ip lookup_ip idStr body st).2.
Proof.
  intros Hh HI. unfold handleUpdateEndpoint. destruct (path_id idStr) as [id|]; [|done]. destruct body as [b|]; [|done].
  cbv zeta. destruct (managing_cases id st) as [o Ho]. destruct (gatewayManagingEndpoint id st) as [r st1] eqn:E.
  simpl in Ho. subst r. destruct o as [gw|].
  { apply (same_gw_inv st); [|done]. exact (quiet_same_gw _ _ _ _ (quiet_managing id) E). }
  destruct (managing_none _ _ _ Hh E) as [Hs1 Hn]. pose proof (load_existing_same id st1) as Hs2.
  destruct (load_existing id st1) as [[[existing|]|] st2]; simpl in *;
    [|by apply (same_gw_inv st), HI; eapply same_gw_trans..].
  pose proof (value_locked_same existing (b <| ep_ID := id |>) st2) as Hs3.
  destruct (value_locked _ _ st2) as [[|] st3]; simpl in *; assert (same_gw st st3) as Hs by eauto using same_gw_trans;
    [by apply (same_gw_inv st)|].
  pose proof (update_endpoint_inv (b <| ep_ID := id |>) "failed to update endpoint" st3 (same_gw_inv _ _ Hs HI)) as Hu.
  destruct Hs as [HC HE]. rewrite HC in Hu. specialize (Hu Hn).
  destruct (on_store _ _ st3) as [[?|?] st4]; simpl in *; [|done]. by apply (same_gw_inv st4), Hu; apply then_reload_same.
Qed.

Lemma delete_request_inv idStr (st : GwState) : tbl_healthy (gs_configs st) -> InvSt st ->
  InvSt (handleDeleteEndpoint is_ip lookup_ip idStr st).2.
Proof.
  intros Hh HI. unfold handleDeleteEndpoint. destruct (path_id idStr) as [id|]; [|done].
  destruct (managing_cases id st) as [o Ho]. destruct (gatewayManagingEndpoint id st) as [r st1] eqn:E.
  simpl in Ho. subst r. destruct o as [gw|].
  { apply (same_gw_inv st); [|done]. exact (quiet_same_gw _ _ _ _ (quiet_managing id) E). }
  destruct (managing_none _ _ _ Hh E) as [Hs Hn].
  pose proof (remove_endpoint_inv id "failed to delete endpoint" st1 (same_gw_inv _ _ Hs HI)) as Hu.
  destruct Hs as [HC HE]. rewrite HC in Hu. specialize (Hu Hn).
  destruct (on_store _ _ st1) as [[?|?] st2]; simpl in *; [|done]. by apply (same_gw_inv st2), Hu; apply then_reload_same.
Qed.

Lemma serve_endpoint_inv (r : endpoint_request) (st : GwState) :
  tbl_healthy (gs_configs st) -> InvSt st -> InvSt (serve_endpoint r st).
Proof.
  intros Hh HI. destruct r as [body|idStr body|idStr]; simpl; [|by apply update_request_inv|by apply delete_request_inv].
  unfold handleAddEndpoint. destruct body as [ep|]; [|done].
  pose proof (add_endpoint_inv ep "failed to add endpoint" st HI) as Ha.
  destruct (add_endpoint _ _ st) as [[id|e] st1]; simpl in *; [|done]. by apply (same_gw_inv st1), Ha; apply then_reload_same.
Qed.

(** An endpoint request, whatever it asks and whatever else of it fails,
    leaves every provisioned gateway with its endpoint, which still is a gateway
    endpoint that starts with the gateway's name, as long as the table of
    gateways can be read; so these requests and the gateway operations can be
    mixed freely. *)
Theorem endpoint_requests_spare_gateways (r : endpoint_request) (st : GwState) (g : GatewayConfig) :
  tbl_healthy (gs_configs st) -> ids_ok (eps st) -> (forall c, c ∈ cfgs st -> linked (eps st) c) ->
  g ∈ cfgs (serve_endpoint r st) ->
  ids_ok (eps (serve_endpoint r st)) /\
  gatewayNameRe (gc_Name g) = true /\
  (gc_EndpointID g <> 0 -> exists ep, ep ∈ eps (serve_endpoint r st) /\ ep_ID ep = gc_EndpointID g /\
     is_gateway ep = true /\ gatewayLabel ep = gc_Name g).
Proof.
  intros Hh Hid Hl. assert (InvSt st) as HI by by split.
  destruct (serve_endpoint_inv r st Hh HI) as [Hids HC].
  intros Hg. destruct (HC g Hg) as [Hname H]. split; [done|]. split; [done|]. intros H0. by destruct H.
Qed.

End gateways.

(** ** Tenants and numbers *)

Section directory.
Context {TT TN TE : Type} `{!Table TT Tenant, !TableLaws TT Tenant} `{!Table TN TenantNumber, !TableLaws TN TenantNumber}
  `{!Table TE Endpoint}.
#[local] Notation state := (Directory * Tables TT TN TE)%type.

Inductive directory_request :=
| ReqAddTenant (body : option Tenant)
| ReqUpdateTenant (idStr : string) (body : option Tenant)
| ReqDeleteTenant (idStr : string)
| ReqAddNumber (body : option TenantNumber)
| ReqUpdateNumber (idStr : string) (body : option TenantNumber)
| ReqDeleteNumber (numberStr tenantIDStr : string).

Definition serve_directory (r : directory_request) (st : state) : state :=
  match r with
  | ReqAddTenant body => (handleAddTenant body st).2
  | ReqUpdateTenant idStr body => (handleUpdateTenant idStr body st).2
  | ReqDeleteTenant idStr => (handleDeleteTenant idStr st).2
  | ReqAddNumber body => (handleAddTenantNumber body st).2
  | ReqUpdateNumber idStr body => (handleUpdateTenantNumber idStr body st).2
  | ReqDeleteNumber numberStr tenantIDStr => (handleDeleteTenantNumber numberStr tenantIDStr st).2
  end.

(** The request does not give a stored row another number. *)
Definition keeps_number (st : state) (r : directory_request) : Prop :=
  match r with
  | ReqUpdateNumber idStr (Some b) => forall id n, path_id idStr = Some id ->
      n ∈ tbl_rows (tb_numbers st.2) -> tn_ID n = id -> tn_Number n = tn_Number b
  | _ => True
  end.

(** The loaded numbers are the rows, by number. *)
Definition numbers_loaded (m : gmap string TenantNumber) (rows : list TenantNumber) : Prop :=
  NoDup (map tn_Number rows) /\ ids_ok rows /\ (forall n, n ∈ rows -> tn_ID n <> 0) /\
  forall k n, m !! k = Some n <-> n ∈ rows /\ tn_Number n = k.

(** The loaded tenants are the rows, by key; their numbers are not looked at. *)
Definition tenants_loaded (m : gmap Z Tenant) (rows : list Tenant) : Prop :=
  ids_ok rows /\ (forall i, is_Some (m !! i) <-> exists t, t ∈ rows /\ te_ID t = i) /\
  forall i t t', m !! i = Some t -> t' ∈ rows -> te_ID t' = i -> te_Name t = te_Name t' /\ te_Notify t = te_Notify t'.

Definition in_step (st : state) : Prop :=
  tenants_loaded (d_Tenants st.1) (tbl_rows (tb_tenants st.2)) /\
  numbers_loaded (d_TenantNumbers st.1) (tbl_rows (tb_numbers st.2)).

(** What is loaded for a tenant is its row, perhaps with numbers. *)
Definition same_tenant (t u : Tenant) : Prop := te_ID u = te_ID t /\ te_Name u = te_Name t /\ te_Notify u = te_Notify t.

Lemma tenants_loaded_insert m rows t u : same_tenant t u ->
  tenants_loaded m rows -> tenants_loaded (<[te_ID u := u]> m) (replace_row t rows).
Proof.
  intros (-> & Hname & Hnotify) (Hids & Hdom & Hval). split; [by apply replace_row_ids|]. split.
  - intros i. rewrite lookup_insert_is_Some', Hdom. split.
    + intros [<-|(x & Hx & Hi)]; [exists t; by split; [apply replace_row_new|]|].
      destruct (decide (te_ID x = te_ID t)) as [He|He]; [|exists x; by split; [apply replace_row_old|]].
      exists t. split; [apply replace_row_new|congruence].
    + intros (x & [->|Hx]%replace_row_elem & Hi); [by left|right; eauto].
  - intros i x y. destruct (decide (te_ID t = i)) as [<-|Hne].
    + rewrite lookup_insert_eq. intros [= <-] Hy Hi.
      assert (y = t) as ->; [|done]. apply (ids_ok_inj (replace_row t rows)); auto using replace_row_ids, replace_row_new.
    + rewrite lookup_insert_ne by done. intros Hx [->|Hy]%replace_row_elem Hi; [done|]. by apply (Hval i).
Qed.

Lemma tenants_loaded_delete m rows i :
  tenants_loaded m rows -> tenants_loaded (delete i m) (List.filter (fun r => negb (te_ID r =? i)) rows).
Proof.
  intros (Hids & Hdom & Hval). split; [by apply ids_ok_filter|].
  assert (forall x, x ∈ List.filter (fun r => negb (te_ID r =? i)) rows <-> x ∈ rows /\ te_ID x <> i) as Hf.
  { intros x. rewrite !list_elem_of_In, filter_In, negb_true_iff, Z.eqb_neq. done. }
  split.
  - intros j. rewrite lookup_delete_is_Some, Hdom. setoid_rewrite Hf. naive_solver.
  - intros j x y. rewrite lookup_delete_Some, Hf. intros [_ Hx] [Hy _]. by apply (Hval j).
Qed.

Lemma numbers_loaded_insert m rows tn : numbers_loaded m rows -> tn_ID tn <> 0 ->
  (forall n, n ∈ rows -> tn_ID n = tn_ID tn <-> tn_Number n = tn_Number tn) ->
  numbers_loaded (<[tn_Number tn := tn]> m) (replace_row tn rows).
Proof.
  intros (Hnd & Hids & Hpos & Hm) H0 Hkey.
  assert (forall x, x ∈ replace_row tn rows <-> x = tn \/ x ∈ rows /\ tn_Number x <> tn_Number tn) as Hin.
  { intros x. split.
    - intros Hx. destruct (decide (tn_ID x = tn_ID tn)) as [He|Hne].
      + left. apply (ids_ok_inj (replace_row tn rows)); auto using replace_row_ids, replace_row_new.
      + destruct (replace_row_elem _ _ _ Hx) as [->|Hr]; [done|]. right. split; [done|]. by rewrite <- Hkey.
    - intros [->|[Hx Hne]]; [apply replace_row_new|]. apply replace_row_old; [done|].
      change (tn_ID x <> tn_ID tn). by rewrite Hkey. }
  split; [|split; [by apply replace_row_ids|split]].
  - apply (NoDup_fmap_2_strong tn_Number); [|eapply NoDup_fmap_1; exact (replace_row_ids tn rows Hids)].
    intros x y [->|[Hx Hnx]]%Hin [->|[Hy Hny]]%Hin He; [done|congruence|congruence|].
    pose proof (proj2 (Hm _ x) (conj Hx eq_refl)) as H1. pose proof (proj2 (Hm _ y) (conj Hy eq_refl)) as H2. congruence.
  - intros n [->|[Hn _]]%Hin; auto.
  - intros k n. rewrite Hin. destruct (decide (tn_Number tn = k)) as [<-|Hne].
    + rewrite lookup_insert_eq. naive_solver.
    + rewrite lookup_insert_ne, Hm by done. naive_solver.
Qed.

Lemma numbers_loaded_delete m rows n : numbers_loaded m rows -> n ∈ rows ->
  numbers_loaded (delete (tn_Number n) m) (List.filter (fun x => negb (tn_ID x =? tn_ID n)) rows).
Proof.
  intros (Hnd & Hids & Hpos & Hm) Hn.
  assert (forall x, x ∈ List.filter (fun x => negb (tn_ID x =? tn_ID n)) rows <-> x ∈ rows /\ tn_ID x <> tn_ID n) as Hf.
  { intros x. rewrite !list_elem_of_In, filter_In, negb_true_iff, Z.eqb_neq. done. }
  assert (forall x, x ∈ rows -> tn_ID x = tn_ID n <-> tn_Number x = tn_Number n) as Hkey.
  { intros x Hx. split; intros He.
    - by rewrite (ids_ok_inj rows x n Hids Hx Hn He).
    - pose proof (proj2 (Hm _ x) (conj Hx eq_refl)) as H1. pose proof (proj2 (Hm _ n) (conj Hn eq_refl)) as H2. congruence. }
  split; [|split; [by apply ids_ok_filter|split]].
  - apply (NoDup_fmap_2_strong tn_Number); [|eapply NoDup_fmap_1; exact (ids_ok_filter _ rows Hids)].
    intros x y [Hx _]%Hf [Hy _]%Hf He.
    pose proof (proj2 (Hm _ x) (conj Hx eq_refl)) as H1. pose proof (proj2 (Hm _ y) (conj Hy eq_refl)) as H2. congruence.
  - intros x [Hx _]%Hf. by apply Hpos.
  - intros k x. rewrite lookup_delete_Some, Hm, Hf. naive_solver.
Qed.

(** Storing a tenant without numbers touches its own row. *)
Lemma store_tenant_rows write b (tb : Tables TT TN TE) : te_Numbers b = [] ->
  (forall r t, match (write r t).1 with
               | Some r' => same_tenant r' r' /\ tbl_rows (write r t).2 = replace_row r' (tbl_rows t)
               | None => tbl_rows (write r t).2 = tbl_rows t
               end) ->
  let '(made, tb') := store_tenant write b tb in
  tb_numbers tb' = tb_numbers tb /\
  match made with
  | Some u => exists r', same_tenant r' u /\ tbl_rows (tb_tenants tb') = replace_row r' (tbl_rows (tb_tenants tb))
  | None => tbl_rows (tb_tenants tb') = tbl_rows (tb_tenants tb)
  end.
Proof.
  intros Hb Hw. unfold store_tenant. specialize (Hw (b <| te_Numbers := [] |>) (tb_tenants tb)).
  destruct (write _ _) as [[r'|] t]; simpl in *; [|done]. rewrite Hb. simpl. split; [done|]. exists r'. by destruct Hw.
Qed.

(** The request brings no numbers along with a tenant. *)
Definition brings_no_numbers (r : directory_request) : Prop :=
  match r with ReqAddTenant (Some b) | ReqUpdateTenant _ (Some b) => te_Numbers b = [] | _ => True end.

Lemma tenant_requests_in_step r st : in_step st -> brings_no_numbers r ->
  match r with ReqAddTenant _ | ReqUpdateTenant _ _ | ReqDeleteTenant _ => True | _ => False end ->
  in_step (serve_directory r st).
Proof.
  destruct st as [d tb]. intros [Ht Hn] Hno Hr. destruct r as [body|idStr body|idStr| | |]; try done; simpl in *.
  - unfold handleAddTenant. destruct body as [b|]; [|done].
    pose proof (store_tenant_rows gorm_create b tb Hno) as Hs. destruct (store_tenant _ b tb) as [made tb'].
    destruct Hs as [Hnum Hs].
    { intros r t. pose proof (gorm_create_rows r t) as Hc. destruct (gorm_create r t) as [[r'|] t']; simpl in *; [|done].
      destruct Hc as (_ & _ & Hf & Hrows). split; [done|]. by rewrite Hrows, append_replace. }
    destruct made as [u|]; simpl in *; (split; simpl; [|by rewrite Hnum]); [|by rewrite Hs].
    destruct Hs as (r' & Hsame & ->). by apply tenants_loaded_insert.
  - unfold handleUpdateTenant. destruct (path_id idStr); [|done]. destruct body as [b|]; [|done].
    match goal with |- context [store_tenant gorm_save ?b' tb] =>
      pose proof (store_tenant_rows gorm_save b' tb Hno) as Hs; destruct (store_tenant gorm_save b' tb) as [made tb'] end.
    destruct Hs as [Hnum Hs].
    { intros r t. pose proof (gorm_save_rows r t) as Hc. destruct (gorm_save r t) as [[r'|] t']; simpl in *; [|done].
      by destruct Hc as (_ & _ & Hrows). }
    destruct made as [u|]; simpl in *; (split; simpl; [|by rewrite Hnum]); [|by rewrite Hs].
    destruct Hs as (r' & Hsame & ->). by apply tenants_loaded_insert.
  - unfold handleDeleteTenant. destruct (path_id idStr) as [i|]; [|done].
    match goal with |- context [tbl_delete ?P ?t] => pose proof (delete_ok P t) as Hc; pose proof (delete_err P t) as He;
      destruct (tbl_delete P t) as [[|] t1] end; simpl in *; [|by split; simpl; rewrite ?He].
    split; simpl; [|done]. rewrite Hc by done. by apply tenants_loaded_delete.
Qed.

(** *** Number requests

    What each does to the table; the loaded map follows. *)

Definition numbers_in_step (st : state) : Prop := numbers_loaded (d_TenantNumbers st.1) (tbl_rows (tb_numbers st.2)).

Definition same_tenants (st st' : state) : Prop :=
  d_Tenants st'.1 = d_Tenants st.1 /\ tbl_rows (tb_tenants st'.2) = tbl_rows (tb_tenants st.2).

Definition refused {A} (a : answer A) : Prop := exists code e, a = Reject code e.

(** The new row among the stored ones. *)
Definition inserted (tn n' : TenantNumber) (rows : list TenantNumber) : Prop :=
  n' = tn <| tn_ID := tn_ID n' |> /\ 0 < tn_ID n' /\
  forall r, r ∈ rows -> tn_ID r <> tn_ID n' /\ tn_Number r <> tn_Number tn.

Lemma add_number_effect tn st : numbers_in_step st ->
  let '(a, st') := handleAddTenantNumber (Some tn) st in let rows := tbl_rows (tb_numbers st.2) in
  same_tenants st st' /\ numbers_in_step st' /\
  (tbl_rows (tb_numbers st'.2) = rows /\ refused a \/
   exists n', a = Answer n' /\ inserted tn n' rows /\ tbl_rows (tb_numbers st'.2) = rows ++ [n']).
Proof.
  unfold refused. destruct st as [d tb]. intros Hn. unfold handleAddTenantNumber, addTenantNumber.
  destruct (d_Tenants d !! tn_TenantID tn); [|by split_and!; eauto]. destruct (d_TenantNumbers d !! tn_Number tn) eqn:Hfree; [by split_and!; eauto|].
  match goal with |- context [tbl_create ?r ?t] => pose proof (create_ok r t) as Hc; pose proof (create_err r t) as He;
    destruct (tbl_create r t) as [[r'|] t1] end; simpl in *; [|unfold numbers_in_step; simpl; rewrite He by done; by split_and!; eauto].
  destruct (Hc r' eq_refl) as (Hrows & Hr' & Hpos & Hfresh). unfold numbers_in_step in *. simpl in *. rewrite Forall_forall in Hfresh.
  change (set_id (get_id r') (tn <| tn_TenantID := tn_TenantID tn |>)) with (tn <| tn_TenantID := tn_TenantID tn |> <| tn_ID := tn_ID r' |>) in Hr'.
  assert (tn_Number r' = tn_Number tn) as Hnum by by rewrite Hr'.
  assert (forall n, n ∈ tbl_rows (tb_numbers tb) -> tn_ID n <> tn_ID r' /\ tn_Number n <> tn_Number tn) as Hnew.
  { intros n Hin. split; [by apply Hfresh|]. intros He'. destruct Hn as (_ & _ & _ & Hm). pose proof (proj2 (Hm _ n) (conj Hin He')). congruence. }
  split; [done|]. split.
  - rewrite Hrows, append_replace by by apply Forall_forall. apply numbers_loaded_insert; [done|change (0 < tn_ID r') in Hpos; lia|].
    intros n Hin. destruct (Hnew n Hin). by rewrite Hnum.
  - right. exists r'. split; [|split; [split_and!; [by rewrite Hr' at 1; destruct tn|done|done]|done]]. by rewrite Hnum, lookup_insert_eq || rewrite <- Hnum, lookup_insert_eq.
Qed.

Lemma update_number_effect idStr b st : numbers_in_step st -> keeps_number st (ReqUpdateNumber idStr (Some b)) ->
  let '(a, st') := handleUpdateTenantNumber idStr (Some b) st in let rows := tbl_rows (tb_numbers st.2) in
  same_tenants st st' /\ numbers_in_step st' /\
  (tbl_rows (tb_numbers st'.2) = rows /\ refused a \/
   exists r' i, a = Answer r' /\ path_id idStr = Some i /\ (i <> 0 -> r' = b <| tn_ID := i |>) /\ tbl_rows (tb_numbers st'.2) = replace_row r' rows).
Proof.
  unfold refused. destruct st as [d tb]. intros Hn Hk. unfold handleUpdateTenantNumber, save_number. simpl in Hk.
  destruct (path_id idStr) as [i|] eqn:Hi; [|by split_and!; eauto].
  simpl. destruct (existsb _ (tbl_rows (tb_numbers tb))) eqn:Htaken; [by split_and!; eauto|].
  match goal with |- context [gorm_save ?r ?t] => pose proof (gorm_save_rows r t) as Hs;
    destruct (gorm_save r t) as [[r'|] t1] end; simpl in *; [|unfold numbers_in_step; simpl; rewrite Hs; by split_and!; eauto].
  destruct Hs as (Hsame & Hnew & Hrows). unfold numbers_in_step in *. simpl in *. split; [done|]. split; [|right; exists r', i; by split_and!].
  rewrite Hrows. assert (tn_Number r' = tn_Number b /\ tn_ID r' <> 0) as [Hnum Hpos].
  { destruct (decide (i = 0)) as [H0|H0]; [|by rewrite (Hsame H0)].
    destruct (Hnew H0) as (Hr & Hp & _). rewrite Hr at 1. split; [done|]. simpl in Hp. lia. }
  apply numbers_loaded_insert; [done..|]. intros n Hin. rewrite Hnum. split; intros He.
  - destruct (decide (i = 0)) as [H0|H0]; [|rewrite (Hsame H0) in He; by apply (Hk i)].
    destruct (Hnew H0) as (_ & _ & Hf). rewrite Forall_forall in Hf. by destruct (Hf n Hin).
  - destruct (decide (tn_ID n = i)) as [Hni|Hni].
    + destruct Hn as (_ & _ & Hnz & _). specialize (Hnz n Hin). rewrite (Hsame ltac:(congruence)). exact Hni.
    + apply not_true_iff_false in Htaken. destruct Htaken. apply existsb_exists. exists n.
      split; [by apply list_elem_of_In|]. unfold number_taken. simpl.
      by rewrite He, str_eqb_refl, (proj2 (Z.eqb_neq _ _) Hni).
Qed.

Lemma delete_number_effect numberStr tidStr st : numbers_in_step st ->
  let '(a, st') := handleDeleteTenantNumber numberStr tidStr st in let rows := tbl_rows (tb_numbers st.2) in
  same_tenants st st' /\ numbers_in_step st' /\
  (tbl_rows (tb_numbers st'.2) = rows /\ refused a \/
   (exists n, n ∈ rows /\ tn_Number n = numberStr) /\
   tbl_rows (tb_numbers st'.2) = List.filter (fun n => negb (tn_Number n =? numberStr)%string) rows).
Proof.
  unfold refused. destruct st as [d tb]. intros Hn. unfold handleDeleteTenantNumber.
  destruct (_ || _); [by split_and!; eauto|]. destruct (path_id tidStr) as [tid|]; [|by split_and!; eauto].
  unfold removeTenantNumber. destruct (d_TenantNumbers d !! numberStr) as [n|] eqn:En; [|by split_and!; eauto].
  destruct (negb _); [by split_and!; eauto|]. unfold numbers_in_step in *. simpl in *. pose proof (proj1 (proj2 (proj2 (proj2 Hn)) _ _) En) as [Hin <-].
  match goal with |- context [tbl_delete ?P ?t] => pose proof (delete_ok P t) as Hc; pose proof (delete_err P t) as He;
    destruct (tbl_delete P t) as [[|] t1] end; simpl in *; [|rewrite He by done; by split_and!; eauto].
  rewrite Hc by done. split; [done|]. split; [by apply numbers_loaded_delete|]. right. split; [eauto|].
  apply filter_ext_in. intros x Hx. apply list_elem_of_In in Hx. f_equal. apply eq_true_iff_eq. rewrite Z.eqb_eq, String.eqb_eq.
  destruct Hn as (_ & Hids & _ & Hm). split; intros He'.
  - by rewrite (ids_ok_inj _ x n Hids Hx Hin He').
  - pose proof (proj2 (Hm _ x) (conj Hx He')). congruence.
Qed.

Lemma same_tenants_in_step st st' : same_tenants st st' -> numbers_in_step st' -> in_step st -> in_step st'.
Proof. intros [H1 H2] Hn [Ht _]. split; [by rewrite H1, H2|done]. Qed.

Lemma number_requests_in_step r st : in_step st -> keeps_number st r ->
  match r with ReqAddNumber _ | ReqUpdateNumber _ _ | ReqDeleteNumber _ _ => True | _ => False end ->
  in_step (serve_directory r st).
Proof.
  intros Hin Hk Hr. destruct r as [| | |body|idStr body|numberStr tidStr]; try done; cbn [serve_directory].
  - destruct body as [tn|]; [|done]. pose proof (add_number_effect tn st (proj2 Hin)) as He.
    destruct (handleAddTenantNumber _ _) as [a st']. destruct He as (? & ? & _). by apply (same_tenants_in_step st).
  - destruct body as [b|]; [|simpl; unfold handleUpdateTenantNumber; by destruct (path_id idStr)].
    pose proof (update_number_effect idStr b st (proj2 Hin) Hk) as He.
    destruct (handleUpdateTenantNumber _ _ _) as [a st']. destruct He as (? & ? & _). by apply (same_tenants_in_step st).
  - pose proof (delete_number_effect numberStr tidStr st (proj2 Hin)) as He.
    destruct (handleDeleteTenantNumber _ _ _) as [a st']. destruct He as (? & ? & _). by apply (same_tenants_in_step st).
Qed.

(** The requests a state goes through, none of which renumbers a row or brings
    numbers along with a tenant. *)
Inductive served : list directory_request -> state -> state -> Prop :=
| served_none st : served [] st st
| served_one r rs st st' : keeps_number st r -> brings_no_numbers r -> served rs (serve_directory r st) st' -> served (r :: rs) st st'.

(** C23: through any sequence of tenant and number requests, failing ones
    included, the loaded directory stays in step with the tables: a number is
    loaded exactly when it is stored, with the stored row, and a tenant exactly
    when it is stored, with the stored name and notify string. Two requests are
    excluded, because the handlers do not follow them in memory: one that gives a
    stored row another number ([renumbered_row_answers_twice]), and a tenant
    whose body brings [numbers], which are stored and not loaded
    ([brought_numbers_not_loaded]). *)
Theorem directory_stays_in_step rs st st' : served rs st st' -> in_step st -> in_step st'.
Proof.
  induction 1 as [st|r rs st st' Hk Hb _ IH]; [done|]. intros Hin. apply IH.
  destruct r; first [by apply tenant_requests_in_step|by apply number_requests_in_step].
Qed.

End directory.

(** ** Intake *)

(** What the uploaded document must be. *)
Definition acceptable (DetectContentType : string -> string) (env : IntakeEnv) (u : Upload) : Prop :=
  exists filename content, ul_file u = Some (filename, content) /\ ul_readable u = true /\
    str_mem (to_lower (Ext filename)) allowedExts = true /\
    str_mem (DetectContentType (str_take 512 content)) allowedContentTypes = true /\
    ie_saved env = true /\ gs_exit0 (ie_gs env) = true /\ exists size, gs_size (ie_gs env) = Some size /\ size <> 0.

Lemma pdfToTiff_ok dest saved run f : pdfToTiff dest saved run = Ok f <->
  f = dest /\ saved = true /\ gs_exit0 run = true /\ exists size, gs_size run = Some size /\ size <> 0.
Proof.
  unfold pdfToTiff, verifyTiffOutput. destruct saved, (gs_exit0 run), (gs_size run) as [size|]; simpl;
    try (split; [discriminate|naive_solver]).
  destruct (size =? 0) eqn:E; reflect_bools; split; [discriminate|naive_solver|intros [= <-]; eauto 10|naive_solver].
Qed.

Lemma countTiffPages_pos out n : countTiffPages out = Ok n -> 0 < n.
Proof. unfold countTiffPages. destruct out; [|done]. destruct (length _); [done|]. intros [= <-]. lia. Qed.

(** A document is queued exactly when it is a readable PDF or TIFF by name
    and by content, its conversion exits cleanly with a non-empty file, and the
    caller number is loaded as one of the authenticated tenant's own; the queued
    job carries the request's numbers and the converted file, and its placeholder
    result counts as no transmission: it is classified as a submission and not as
    a success. *)
Theorem upload_admission (detect : string -> string) (env : IntakeEnv) (d : Directory) (tenantID : Z)
  (userID : string) (u : Upload) (job : FaxJob) :
  handleDocumentUpload detect env d tenantID userID u = Enqueued job <->
  acceptable detect env u /\
  (exists tn, getNumber d (ul_caller u) = Some tn /\ tn_TenantID tn = tenantID) /\
  exists pages, 0 <= pages /\ job = upload_job env u (ie_destFile env) pages userID /\
    fj_UUID job = ie_docID env /\ fj_CallerIdNumber job = ul_caller u /\ fj_CalleeNumber job = ul_callee u /\
    isPlaceholderResult job = true /\ cl_resultType (classifyFaxResult job) = "submission" /\
    (exists r, fj_Result job = Some r /\ fr_Success r = false) /\
    pages = match countTiffPages (ie_identify env) with Ok n => n | Err _ => 0 end.
Proof.
  unfold handleDocumentUpload, acceptable. split.
  - destruct (ul_file u) as [[filename content]|]; [|done].
    destruct (str_mem (to_lower _) _) eqn:E1; simpl; [|done]. destruct (ul_readable u); simpl; [|done].
    destruct (str_mem (detect _) _) eqn:E2; simpl; [|done].
    destruct (pdfToTiff _ _ _) as [tiff|] eqn:E3; [|done]. apply pdfToTiff_ok in E3 as (-> & Hs & Hx & Hsize).
    destruct (getNumber d _) as [tn|]; [|done]. destruct (tn_TenantID tn =? tenantID) eqn:E4; [|done]. reflect_bools.
    intros [= <-]. split; [by exists filename, content|]. split; [by exists tn|].
    eexists. split; [|split; [reflexivity|]]; [|split_and!; try reflexivity; by eexists].
    destruct (countTiffPages _) as [n|] eqn:E5; [|lia]. apply countTiffPages_pos in E5. lia.
  - intros ((filename & content & -> & -> & E1 & E2 & Hs & Hx & Hsize) & (tn & -> & <-) & pages & _ & -> & _ & _ & _ & _ & _ & _ & ->).
    rewrite E1, E2. simpl. rewrite (proj2 (pdfToTiff_ok _ _ _ (ie_destFile env))) by done. by rewrite Z.eqb_refl.
Qed.

(** ** Concrete requests *)

Section witnesses.

#[local] Notation ToyState := (GwState (TT := ListTable Tenant) (TN := ListTable TenantNumber) (TE := ListTable Endpoint)
  (TG := ListTable GatewayTemplate) (TC := ListTable GatewayConfig)).

(** The gateway table cannot be read while the request is checked. *)
Definition unreadable : ToyState := toy_provisioned <| gs_configs ::= fun t => fresh_table (lt_rows t) 100 [true] |>.

(** Then a delete takes the endpoint of a provisioned gateway away. *)
Example managed_endpoint_deleted_on_error :
  map gc_EndpointID (cfgs unreadable) = [8] /\ map ep_ID (eps unreadable) = [7; 8] /\
  (handleDeleteEndpoint no_ip no_dns "8" unreadable).1 = Answer tt /\
  map gc_EndpointID (cfgs (handleDeleteEndpoint no_ip no_dns "8" unreadable).2) = [8] /\
  map ep_ID (eps (handleDeleteEndpoint no_ip no_dns "8" unreadable).2) = [7].
Proof. vm_compute. by split_and!. Qed.

Lemma endpoint_requests_spare_gateways_witness :
  (handleDeleteEndpoint no_ip no_dns "8" toy_provisioned).1 = Reject 409 "endpoint is managed by gateway" /\
  exists g, g ∈ cfgs (serve_endpoint no_ip no_dns (ReqDelete "8") toy_provisioned) /\ gatewayNameRe (gc_Name g) = true.
Proof.
  split; [vm_compute; reflexivity|].
  assert (exists g, cfgs (serve_endpoint no_ip no_dns (ReqDelete "8") toy_provisioned) = [g]) as [g Hg]
    by (eexists; vm_compute; reflexivity).
  exists g. split; [rewrite Hg; by left|].
  assert (exists c, cfgs toy_provisioned = [c] /\ linked (eps toy_provisioned) c) as (c & Hc & Hl).
  { assert (exists c e, cfgs toy_provisioned = [c] /\ (exists a, eps toy_provisioned = [a; e]) /\ gatewayNameRe (gc_Name c) = true /\
      ep_ID e = gc_EndpointID c /\ is_gateway e = true /\ gatewayLabel e = gc_Name c) as (c & e & -> & [a ->] & ? & ? & ? & ?)
      by (do 2 eexists; split; [vm_compute; reflexivity|]; split; [eexists; vm_compute; reflexivity|]; repeat split; vm_compute; reflexivity).
    exists c. split; [reflexivity|]. split; [assumption|]. right. exists e. split; [by right; left|done]. }
  apply (endpoint_requests_spare_gateways no_ip no_dns (ReqDelete "8") toy_provisioned g).
  - vm_compute. reflexivity.
  - unfold ids_ok. apply (bool_decide_unpack _). vm_compute. reflexivity.
  - intros x Hx. rewrite Hc in Hx. apply list_elem_of_singleton in Hx as ->. exact Hl.
  - rewrite Hg. by left.
Defined.

Definition web_start : Directory * Tables (ListTable Tenant) (ListTable TenantNumber) (ListTable Endpoint) :=
  (empty_directory, {| tb_tenants := fresh_table [] 1 []; tb_numbers := fresh_table [] 1 []; tb_endpoints := fresh_table [] 1 [] |}).

Definition number_body (tenant : Z) (number notify : string) : TenantNumber :=
  {| tn_ID := 0; tn_TenantID := tenant; tn_Number := number; tn_Name := ""; tn_Header := ""; tn_Notify := notify |}.

Definition tenant_body (name : string) (numbers : list TenantNumber) : Tenant :=
  {| te_ID := 0; te_Name := name; te_Notify := ""; te_Numbers := numbers |}.

(** A tenant, a number, its notify string changed. *)
Definition web_requests : list directory_request :=
  [ReqAddTenant (Some (tenant_body "acme" []));
   ReqAddNumber (Some (number_body 1 "2505551234" ""));
   ReqUpdateNumber "1" (Some (number_body 1 "2505551234" "portal->svc"))].

Lemma directory_stays_in_step_witness :
  in_step (foldl (fun st r => serve_directory r st) web_start web_requests).
Proof.
  apply (directory_stays_in_step web_requests web_start).
  - unfold web_requests. apply served_one; [exact I|reflexivity|]. apply served_one; [exact I..|]. apply served_one; [|exact I|apply served_none].
    intros id n Hid Hn _. vm_compute in Hn. apply list_elem_of_singleton in Hn as ->. reflexivity.
  - split.
    + split; [constructor|]. split; [|intros i t t'; change ((∅ : gmap Z Tenant) !! i = Some t -> t' ∈ [] -> te_ID t' = i -> te_Name t = te_Name t' /\ te_Notify t = te_Notify t');
      by rewrite lookup_empty].
      intros i. change (is_Some ((∅ : gmap Z Tenant) !! i) <-> exists t, t ∈ [] /\ te_ID t = i). rewrite lookup_empty.
      split; [by intros []|by intros (t & ?%elem_of_nil & _)].
    + split; [constructor|]. split; [constructor|]. split; [by intros n ?%elem_of_nil|].
      intros k n. change ((∅ : gmap string TenantNumber) !! k = Some n <-> n ∈ [] /\ tn_Number n = k). rewrite lookup_empty.
      split; [done|by intros [?%elem_of_nil _]].
Defined.

(** A renumbered row stays loaded under its old number as well. *)
Example renumbered_row_answers_twice :
  let st := foldl (fun st r => serve_directory r st) web_start
    (web_requests ++ [ReqUpdateNumber "1" (Some (number_body 1 "2505559999" ""))]) in
  map tn_Number (tbl_rows (tb_numbers st.2)) = ["2505559999"] /\
  is_ok (getTenantByNumber st.1 "2505551234") = true /\ is_ok (getTenantByNumber st.1 "2505559999") = true.
Proof. vm_compute. by split_and!. Qed.

(** Numbers brought along with a tenant are stored, and a stored one changes
    owner, but nothing of it is loaded: the new number is unknown, the other one
    still answers for its old tenant. *)
Example brought_numbers_not_loaded :
  let st := foldl (fun st r => serve_directory r st) web_start
    (web_requests ++ [ReqAddTenant (Some (tenant_body "other"
       [number_body 0 "2505559999" ""; (number_body 0 "" "") <| tn_ID := 1 |>]))]) in
  map (fun n => (tn_Number n, tn_TenantID n)) (tbl_rows (tb_numbers st.2)) = [("2505551234", 2); ("2505559999", 2)] /\
  is_ok (getTenantByNumber st.1 "2505559999") = false /\
  te_ID <$> res_option (getTenantByNumber st.1 "2505551234") = Some 1.
Proof. vm_compute. by split_and!. Qed.

Definition pdf_upload (caller : string) : Upload :=
  {| ul_file := Some ("Letter.PDF", "%PDF-1.4"); ul_readable := true; ul_callee := "2505550000"; ul_caller := caller;
     ul_source := "portal" |}.

Definition intake_env : IntakeEnv :=
  {| ie_docID := 9; ie_resultID := 10; ie_now := 100; ie_destFile := "/tmp/fax_9.tiff"; ie_saved := true;
     ie_gs := {| gs_exit0 := true; gs_output := ""; gs_size := Some 4096 |};
     ie_identify := Some ("fax_9.tiff[0] TIFF" +:+ String "010" "fax_9.tiff[1] TIFF") |}.

Definition sniff (head : string) : string := if has_prefix head "%PDF-" then "application/pdf" else "text/plain".

Definition web_directory : Directory := (foldl (fun st r => serve_directory r st) web_start web_requests).1.

(** A number of another tenant, and one that nobody has. *)
Example upload_for_another_tenant :
  handleDocumentUpload sniff intake_env web_directory 2 "u" (pdf_upload "2505551234") = Panicked /\
  handleDocumentUpload sniff intake_env web_directory 2 "u" (pdf_upload "1") = Declined 500 "failed to validate caller number".
Proof. vm_compute. by split. Qed.

Example upload_counts_pages :
  match handleDocumentUpload sniff intake_env web_directory 1 "u" (pdf_upload "2505551234") with
  | Enqueued job => fr_TotalPages <$> fj_Result job = Some 2 /\ si_Source (fj_SourceInfo job) = "portal"
  | _ => False
  end.
Proof. vm_compute. by split. Qed.

End witnesses.
