(* ===== verification/PolicyAdmin.v ===== *)
(** * PolicyAdmin: fax policy rules through the web API
    ([gofaxserver/web_faxpolicy.go])

    The handlers of rules, of the dry run and of the pair states, over the state
    of [Learning] and [PairState]. A request is one step with one reading of the
    clock. *)

From S2P Require Import Prelude Config Store FaxResult FaxJob Policy Learning PairState TenantUsers WebAdmin.

(** ** Validation *)

(** What "^[A-Za-z0-9_]+$" matches. *)
Definition var_char (c : ascii) : bool :=
  let n := nat_of_ascii c in
  (65 <=? n)%nat && (n <=? 90)%nat || (97 <=? n)%nat && (n <=? 122)%nat || (48 <=? n)%nat && (n <=? 57)%nat || (n =? 95)%nat.
Definition varNamePattern (s : string) : bool := nonempty s && str_forall var_char s.

Definition deniedVarOverrides : list string := ["origination_uuid"].

Definition blank (s : string) : bool := (trim_space s =? "")%string.

Definition validate_scope (r : FaxPolicyRule) : res FaxPolicyRule :=
  if (pr_Scope r =? PolicyScopeDst)%string then
    if blank (pr_DstNumber r) then Err "dst_number is required for scope=dst" else Ok (r <| pr_SrcNumber := "" |>)
  else if (pr_Scope r =? PolicyScopeSrc)%string then
    if blank (pr_SrcNumber r) then Err "src_number is required for scope=src" else Ok (r <| pr_DstNumber := "" |>)
  else if (pr_Scope r =? PolicyScopePair)%string then
    if blank (pr_SrcNumber r) || blank (pr_DstNumber r) then Err "src_number and dst_number are required for scope=pair" else Ok r
  else Err "invalid scope".

Definition plain_effects : list string :=
  [PolicyEffectT38Off; PolicyEffectT38On; PolicyEffectECMOff; PolicyEffectECMOn; PolicyEffectV17Off; PolicyEffectSoftmodemOnly].

Definition validate_effect (r : FaxPolicyRule) : res FaxPolicyRule :=
  if str_mem (pr_Effect r) plain_effects then Ok (r <| pr_VarName := "" |> <| pr_VarValue := "" |>)
  else if (pr_Effect r =? PolicyEffectVarOverride)%string then
    let r := r <| pr_VarName ::= trim_space |> in
    if negb (varNamePattern (pr_VarName r)) then Err "var_name is required for effect=var_override"
    else if str_mem (to_lower (pr_VarName r)) deniedVarOverrides then Err "var_name may not be overridden"
    else if blank (pr_VarValue r) then Err "var_value is required for effect=var_override"
    else Ok r
  else Err "invalid effect".

Definition validate_applies (r : FaxPolicyRule) : res FaxPolicyRule :=
  if (pr_AppliesTo r =? "")%string then Ok (r <| pr_AppliesTo := "both" |>)
  else if str_mem (pr_AppliesTo r) ["both"; CallTypeSoftmodem; CallTypeBridge] then Ok r
  else Err "invalid applies_to".

(** The rule as validation leaves it. *)
Definition validateFaxPolicyRule (r : FaxPolicyRule) : res FaxPolicyRule :=
  match validate_scope r with
  | Err e => Err e
  | Ok r1 => match validate_effect r1 with Err e => Err e | Ok r2 => validate_applies r2 end
  end.

Section handlers.
Context {T : Type} `{!Table T FaxPolicyRule}.

(** The last step of every change. *)
Definition then_reload_policies {A} (now : Z) (a : A) (e : string) (st : PolicyState T) : answer A * PolicyState T :=
  let '(ok, st') := reloadFaxPolicies now st in (if ok then Answer a else Reject 500 e, st').

Definition handleCreateFaxPolicyRule (now : Z) (body : option FaxPolicyRule) (st : PolicyState T)
  : answer FaxPolicyRule * PolicyState T :=
  match body with
  | None => (Reject 400 "invalid payload", st)
  | Some rule =>
      match validateFaxPolicyRule (rule <| pr_ID := 0 |> <| pr_Origin := PolicyOriginManual |>) with
      | Err e => (Reject 400 e, st)
      | Ok rule =>
          let '(created, t) := tbl_create rule (ps_db st) in
          let st := st <| ps_db := t |> in
          match created with
          | None => (Reject 500 "failed to create rule", st)
          | Some rule => then_reload_policies now rule "rule saved but reload failed" st
          end
      end
  end.

Definition has_rule_id (id : Z) (r : FaxPolicyRule) : bool := pr_ID r =? id.

Definition handleUpdateFaxPolicyRule (now : Z) (idStr : string) (body : option FaxPolicyRule) (st : PolicyState T)
  : answer FaxPolicyRule * PolicyState T :=
  match atoi idStr with
  | None => (Reject 400 "invalid rule id", st)
  | Some id =>
      let '(existing, t) := tbl_first (has_rule_id id) (ps_db st) in
      let st := st <| ps_db := t |> in
      match existing, body with
      | None, _ => (Reject 404 "rule not found", st)
      | Some _, None => (Reject 400 "invalid payload", st)
      | Some existing, Some rule =>
          match validateFaxPolicyRule (rule <| pr_ID := uint_of_int id |> <| pr_Origin := pr_Origin existing |>) with
          | Err e => (Reject 400 e, st)
          | Ok rule =>
              let '(saved, t) := tbl_save rule (ps_db st) in
              let st := st <| ps_db := t |> in
              if saved then then_reload_policies now rule "rule saved but reload failed" st
              else (Reject 500 "failed to update rule", st)
          end
      end
  end.

Definition handleDeleteFaxPolicyRule (now : Z) (idStr : string) (st : PolicyState T) : answer () * PolicyState T :=
  match atoi idStr with
  | None => (Reject 400 "invalid rule id", st)
  | Some id =>
      let '(ok, t) := tbl_delete (has_rule_id id) (ps_db st) in
      let st := st <| ps_db := t |> in
      if ok then then_reload_policies now () "rule deleted but reload failed" st else (Reject 500 "failed to delete rule", st)
  end.

Definition expire_at (now : Z) (r : FaxPolicyRule) : FaxPolicyRule := r <| pr_ExpiresAt := Some now |>.

Definition handleExpireFaxPolicyRule (now : Z) (idStr : string) (st : PolicyState T) : answer () * PolicyState T :=
  match atoi idStr with
  | None => (Reject 400 "invalid rule id", st)
  | Some id =>
      let '(ok, t) := tbl_update (has_rule_id id) (expire_at now) (ps_db st) in
      let st := st <| ps_db := t |> in
      if ok then then_reload_policies now () "rule expired but reload failed" st else (Reject 500 "failed to expire rule", st)
  end.

(** The filters of the listing. *)
Definition optional_filter (value : string) (P : string -> FaxPolicyRule -> bool) (r : FaxPolicyRule) : bool :=
  let v := trim_space value in if nonempty v then P v r else true.

Definition listed (number scope effect origin appliesTo : string) (r : FaxPolicyRule) : bool :=
  optional_filter number (fun n r => (pr_SrcNumber r =? n)%string || (pr_DstNumber r =? n)%string) r &&
  optional_filter scope (fun s r => (pr_Scope r =? s)%string) r && optional_filter effect (fun s r => (pr_Effect r =? s)%string) r &&
  optional_filter origin (fun s r => (pr_Origin r =? s)%string) r && optional_filter appliesTo (fun s r => (pr_AppliesTo r =? s)%string) r.

Definition handleListFaxPolicies (number scope effect origin appliesTo : string) (st : PolicyState T)
  : answer (list FaxPolicyRule) * PolicyState T :=
  let '(rules, t) := tbl_find (listed number scope effect origin appliesTo) (ps_db st) in
  (match rules with
   | Some l => Answer (stable_sort (fun a b => pr_ID a <? pr_ID b) l)
   | None => Reject 500 "failed to list fax policies"
   end, st <| ps_db := t |>).

(** The dry run: the policy, and the rules behind it. *)
Definition handleResolveFaxPolicy (cfg : FaxingConfig) (now : Z) (src dst type : string) (st : PolicyState T)
  : answer (FaxPolicy * list FaxPolicyRule) * PolicyState T :=
  let srcNum := trim_space src in
  let dstNum := trim_space dst in
  let callType := let t := trim_space type in if nonempty t then t else CallTypeSoftmodem in
  if negb (str_mem callType [CallTypeSoftmodem; CallTypeBridge]) then (Reject 400 "type must be softmodem or bridge", st)
  else if negb (nonempty dstNum || nonempty srcNum) then (Reject 400 "src and/or dst query parameters are required", st)
  else
    let policy := ResolveFaxPolicy cfg (ps_cache st) srcNum dstNum callType now in
    match fp_AppliedRuleIDs policy with
    | [] => (Answer (policy, []), st)
    | (_ :: _) as ids =>
        let '(rules, t) := tbl_find (fun r => existsb (Z.eqb (pr_ID r)) ids) (ps_db st) in
        (match rules with
         | Some rules => Answer (policy, rules)
         | None => Reject 500 "failed to load applied rules"
         end, st <| ps_db := t |>)
    end.

End handlers.

(** ** Pair states *)

Section pairs.
Context {T : Type} `{!Table T FaxPairState}.

Definition handleListFaxPairStates (number : string) (st : PairServer T) : answer (list FaxPairState) * PairServer T :=
  let n := trim_space number in
  let '(rows, t) := tbl_find (fun r => if nonempty n then (ps_SrcNumber r =? n)%string || (ps_DstNumber r =? n)%string else true) (pp_db st) in
  (match rows with
   | Some l => Answer (take 500 (stable_sort (fun a b => ps_LastSeen b <? ps_LastSeen a) l))
   | None => Reject 500 "failed to list pair states"
   end, {| pp_db := t; pp_pairStates := pp_pairStates st |}).

Definition has_pair_id (id : Z) (r : FaxPairState) : bool := ps_ID r =? id.

Definition handleDeleteFaxPairState (idStr : string) (st : PairServer T) : answer () * PairServer T :=
  match atoi idStr with
  | None => (Reject 400 "invalid pair state id", st)
  | Some id =>
      let '(row, t) := tbl_first (has_pair_id id) (pp_db st) in
      match row with
      | None => (Reject 404 "pair state not found", {| pp_db := t; pp_pairStates := pp_pairStates st |})
      | Some row =>
          let '(ok, t) := tbl_delete (has_pair_id id) t in
          if ok then (Answer (), {| pp_db := t; pp_pairStates := delete (row_key row) (pp_pairStates st) |})
          else (Reject 500 "failed to delete pair state", {| pp_db := t; pp_pairStates := pp_pairStates st |})
      end
  end.
End pairs.

(** ** Requests *)

Inductive PolicyRequest :=
| CreateRule (body : option FaxPolicyRule)
| UpdateRule (idStr : string) (body : option FaxPolicyRule)
| DeleteRule (idStr : string)
| ExpireRule (idStr : string).

(** The answer's rule, where there is one. *)
Definition no_rule {S} (r : answer () * S) : answer (option FaxPolicyRule) * S :=
  (match r.1 with Answer _ => Answer None | Reject code e => Reject code e end, r.2).
Definition a_rule {S} (r : answer FaxPolicyRule * S) : answer (option FaxPolicyRule) * S :=
  (match r.1 with Answer x => Answer (Some x) | Reject code e => Reject code e end, r.2).

Definition serve_policy {T} `{!Table T FaxPolicyRule} (now : Z) (req : PolicyRequest) (st : PolicyState T)
  : answer (option FaxPolicyRule) * PolicyState T :=
  match req with
  | CreateRule body => a_rule (handleCreateFaxPolicyRule now body st)
  | UpdateRule id body => a_rule (handleUpdateFaxPolicyRule now id body st)
  | DeleteRule id => no_rule (handleDeleteFaxPolicyRule now id st)
  | ExpireRule id => no_rule (handleExpireFaxPolicyRule now id st)
  end.

(** ** Well-formed rules *)

Record well_formed (r : FaxPolicyRule) : Prop := {
  wf_scope : (pr_Scope r = PolicyScopeDst /\ pr_DstNumber r <> "" /\ pr_SrcNumber r = "") \/
             (pr_Scope r = PolicyScopeSrc /\ pr_SrcNumber r <> "" /\ pr_DstNumber r = "") \/
             (pr_Scope r = PolicyScopePair /\ pr_SrcNumber r <> "" /\ pr_DstNumber r <> "");
  wf_effect : (str_mem (pr_Effect r) plain_effects = true /\ pr_VarName r = "" /\ pr_VarValue r = "") \/
              (pr_Effect r = PolicyEffectVarOverride /\ varNamePattern (pr_VarName r) = true /\
               str_mem (to_lower (pr_VarName r)) deniedVarOverrides = false /\ blank (pr_VarValue r) = false);
  wf_applies : str_mem (pr_AppliesTo r) ["both"; CallTypeSoftmodem; CallTypeBridge] = true;
  wf_origin : pr_Origin r = PolicyOriginManual \/ pr_Origin r = PolicyOriginAuto;
}.

Lemma well_formed_id r i : well_formed r -> well_formed (set_id i r).
Proof. by intros []; split. Qed.

Lemma not_blank s : blank s = false -> s <> "".
Proof. by intros Hb ->. Qed.

(** Only these fields count. *)
Lemma well_formed_same r r' : pr_Scope r' = pr_Scope r -> pr_SrcNumber r' = pr_SrcNumber r -> pr_DstNumber r' = pr_DstNumber r ->
  pr_Effect r' = pr_Effect r -> pr_VarName r' = pr_VarName r -> pr_VarValue r' = pr_VarValue r -> pr_AppliesTo r' = pr_AppliesTo r ->
  pr_Origin r' = pr_Origin r -> well_formed r -> well_formed r'.
Proof. intros E1 E2 E3 E4 E5 E6 E7 E8 []. split; by rewrite ?E1, ?E2, ?E3, ?E4, ?E5, ?E6, ?E7, ?E8. Qed.

(** What validation lets through is well formed, and it changes neither the id
    nor the origin. *)
Lemma validated r r' : validateFaxPolicyRule r = Ok r' -> pr_Origin r = PolicyOriginManual \/ pr_Origin r = PolicyOriginAuto ->
  well_formed r' /\ pr_ID r' = pr_ID r /\ pr_Origin r' = pr_Origin r /\ pr_ExpiresAt r' = pr_ExpiresAt r /\ pr_Enabled r' = pr_Enabled r.
Proof.
  unfold validateFaxPolicyRule. intros Hv Ho. destruct (validate_scope r) as [r1|e] eqn:E1; [|done].
  destruct (validate_effect r1) as [r2|e] eqn:E2; [|done].
  assert (((pr_Scope r1 = PolicyScopeDst /\ pr_DstNumber r1 <> "" /\ pr_SrcNumber r1 = "") \/
           (pr_Scope r1 = PolicyScopeSrc /\ pr_SrcNumber r1 <> "" /\ pr_DstNumber r1 = "") \/
           (pr_Scope r1 = PolicyScopePair /\ pr_SrcNumber r1 <> "" /\ pr_DstNumber r1 <> "")) /\
    pr_ID r1 = pr_ID r /\ pr_Origin r1 = pr_Origin r /\ pr_ExpiresAt r1 = pr_ExpiresAt r /\ pr_Enabled r1 = pr_Enabled r) as [Hs Hf1].
  { revert E1. unfold validate_scope.
    destruct (String.eqb_spec (pr_Scope r) PolicyScopeDst); [|destruct (String.eqb_spec (pr_Scope r) PolicyScopeSrc);
      [|destruct (String.eqb_spec (pr_Scope r) PolicyScopePair); [|done]]].
    - destruct (blank _) eqn:Hb; [done|]. intros [= <-]. apply not_blank in Hb. by split; [left|].
    - destruct (blank _) eqn:Hb; [done|]. intros [= <-]. apply not_blank in Hb. by split; [right; left|].
    - destruct (blank (pr_SrcNumber r)) eqn:Hb; [done|]. destruct (blank (pr_DstNumber r)) eqn:Hb'; [done|]. intros [= <-].
      apply not_blank in Hb, Hb'. by split; [right; right|]. }
  assert (((str_mem (pr_Effect r2) plain_effects = true /\ pr_VarName r2 = "" /\ pr_VarValue r2 = "") \/
      (pr_Effect r2 = PolicyEffectVarOverride /\ varNamePattern (pr_VarName r2) = true /\
       str_mem (to_lower (pr_VarName r2)) deniedVarOverrides = false /\ blank (pr_VarValue r2) = false)) /\
    exists n x, r2 = r1 <| pr_VarName := n |> <| pr_VarValue := x |>) as [He (n & x & ->)].
  { revert E2. unfold validate_effect. destruct (str_mem (pr_Effect r1) plain_effects) eqn:Hp.
    - intros [= <-]. split; [by left|eauto].
    - destruct (String.eqb_spec (pr_Effect r1) PolicyEffectVarOverride); [|done]. cbv zeta.
      destruct (varNamePattern _) eqn:Hn; [|done]. destruct (str_mem (to_lower _) _) eqn:Hd; [done|]. simpl.
      destruct (blank _) eqn:Hb; [done|]. intros [= <-]. split; [by right|]. exists (trim_space (pr_VarName r1)), (pr_VarValue r1). by destruct r1. }
  destruct Hf1 as (Hid & Ho1 & Hx & Hen). revert Hv. unfold validate_applies. simpl.
  destruct (String.eqb_spec (pr_AppliesTo r1) "") as [|_]; [|destruct (str_mem (pr_AppliesTo r1) _) eqn:Ha; [|done]]; intros [= <-]; simpl;
    (split; [split; simpl; [done|done|done|by rewrite Ho1]|by split_and!]).
Qed.

(** ** Rows under the operations of a table *)

Section keeps.
Context {T R : Type} `{HasID R} `{!Table T R} `{!TableLaws T R}.
Variable P : R -> Prop.
Implicit Types (t : T).
Definition all_rows t : Prop := forall r, r ∈ tbl_rows t -> P r.
#[local] Notation all := all_rows.

Lemma first_keeps Q t : all t -> all (tbl_first Q t).2.
Proof. intros Ht r. rewrite first_rows. apply Ht. Qed.

Lemma create_keeps x t : (forall i, P (set_id i x)) -> all t -> all (tbl_create x t).2 /\ forall y, (tbl_create x t).1 = Some y -> P y.
Proof.
  unfold all_rows. intros Hx Ht. destruct (tbl_create x t).1 as [y|] eqn:E.
  - apply create_ok in E as (-> & Hy & _). assert (P y) as Py by (rewrite Hy; apply Hx). split; [|by intros ? [= <-]].
    intros r [Hr| ->%list_elem_of_singleton]%elem_of_app; auto.
  - apply create_err in E as ->. by split.
Qed.

Lemma save_keeps x t : P x -> all t -> all (tbl_save x t).2.
Proof.
  intros Hx Ht r. destruct (tbl_save x t).1 eqn:E; [rewrite (save_ok _ _ E)|rewrite (save_err _ _ E); apply Ht].
  intros [-> |Hr]%replace_row_elem; auto.
Qed.

Lemma delete_keeps Q t : all t -> all (tbl_delete Q t).2.
Proof.
  intros Ht r. destruct (tbl_delete Q t).1 eqn:E; [rewrite (delete_ok _ _ E)|rewrite (delete_err _ _ E); apply Ht].
  intros [Hr _]%list_elem_of_In%filter_In. apply Ht. by apply list_elem_of_In.
Qed.

Lemma update_keeps Q f t : (forall r, P r -> P (f r)) -> all t -> all (tbl_update Q f t).2.
Proof.
  intros Hf Ht r. destruct (tbl_update Q f t).1 eqn:E; [rewrite (update_ok _ _ _ E)|rewrite (update_err _ _ _ E); apply Ht].
  intros (x & -> & Hx)%list_elem_of_fmap. destruct (Q x); auto.
Qed.

Lemma found_keeps Q t : all t -> all (tbl_find Q t).2 /\ forall l, (tbl_find Q t).1 = Some l -> Forall P l.
Proof.
  intros Ht. split; [intros r; rewrite find_rows; apply Ht|]. intros l ->%find_result. apply List.Forall_forall.
  intros r [Hr _]%filter_In. apply Ht. by apply list_elem_of_In.
Qed.
End keeps.

(** ** Rules stay well formed *)

Section sound.
Context {T : Type} `{!Table T FaxPolicyRule, !TableLaws T FaxPolicyRule}.
Variable cfg : FaxPolicyConfig.
Implicit Types (st : PolicyState T) (t : T) (now : Z).

#[local] Notation rows_sound := (all_rows (T := T) well_formed).
Definition rules_sound st : Prop := rows_sound (ps_db st) /\ forall rules, ps_cache st = Some rules -> Forall well_formed rules.

Lemma prune_sound now rules t : rows_sound t -> rows_sound (prune_loop now rules t).2.
Proof.
  revert t. induction rules as [|r rules IH]; intros t Ht; simpl; [done|].
  destruct (prunable now r); [by apply IH, delete_keeps|]. specialize (IH t Ht). by destruct (prune_loop now rules t).
Qed.

Lemma reload_sound now st t : rules_sound st -> rows_sound t -> rules_sound (reloadFaxPolicies now (st <| ps_db := t |>)).2.
Proof.
  intros [_ Hc] Ht. unfold reloadFaxPolicies. simpl.
  destruct (found_keeps well_formed (fun _ => true) t Ht) as [H1 H2].
  destruct (tbl_find (fun _ : FaxPolicyRule => true) t) as [[rules|] t1]; cbn [fst snd] in *; [|by split].
  pose proof (prune_sound now rules t1 H1) as Hp. pose proof (prune_loop_kept now rules t1) as Hk.
  destruct (prune_loop now rules t1) as [kept t2]; cbn [fst snd] in *. split; [done|]. intros ? [= <-]. rewrite Hk.
  apply List.Forall_forall. intros r [Hr _]%filter_In. by apply (List.Forall_forall well_formed rules); [apply H2|].
Qed.

Lemma then_reload_sound {A} now (a : A) e st t :
  rules_sound st -> rows_sound t -> rules_sound (then_reload_policies now a e (st <| ps_db := t |>)).2.
Proof. intros Hs Ht. unfold then_reload_policies. pose proof (reload_sound now st t Hs Ht). by destruct (reloadFaxPolicies _ _). Qed.

Lemma with_rows st t : rules_sound st -> rows_sound t -> rules_sound (st <| ps_db := t |>).
Proof. by intros []. Qed.

Lemma requests_sound now req st : rules_sound st -> rules_sound (serve_policy now req st).2.
Proof.
  intros Hs. pose proof Hs as [Ht _]. destruct req as [[rule|]|id body|id|id]; cbn [serve_policy a_rule no_rule snd].
  - unfold handleCreateFaxPolicyRule. destruct (validateFaxPolicyRule _) as [r|e] eqn:Ev; [|done].
    apply validated in Ev as [Hr _]; [|by left].
    destruct (create_keeps well_formed r (ps_db st)) as [H1 _]; [intros i; by apply well_formed_id|done|].
    destruct (tbl_create r (ps_db st)) as [[x|] t]; [by apply then_reload_sound|by apply with_rows].
  - done.
  - unfold handleUpdateFaxPolicyRule. destruct (atoi id) as [i|]; [|done].
    pose proof (first_keeps well_formed (has_rule_id i) (ps_db st) Ht) as H1. pose proof (first_some (has_rule_id i) (ps_db st)) as Hf.
    destruct (tbl_first _ (ps_db st)) as [[old|] t1]; cbn [fst snd] in *; [|by apply with_rows].
    destruct body as [rule|]; [|by apply with_rows]. destruct (validateFaxPolicyRule _) as [r|e] eqn:Ev; [|by apply with_rows].
    apply validated in Ev as [Hr _]; [|apply (wf_origin old), Ht; by apply (Hf old)]. simpl.
    pose proof (save_keeps well_formed r t1 Hr H1) as H2. destruct (tbl_save r t1) as [[|] t2]; [|by apply (with_rows st)].
    by apply (then_reload_sound _ _ _ st).
  - unfold handleDeleteFaxPolicyRule. destruct (atoi id) as [i|]; [|done].
    pose proof (delete_keeps well_formed (has_rule_id i) (ps_db st) Ht) as H1.
    destruct (tbl_delete _ _) as [[|] t]; [by apply then_reload_sound|by apply with_rows].
  - unfold handleExpireFaxPolicyRule. destruct (atoi id) as [i|]; [|done].
    assert (rows_sound (tbl_update (has_rule_id i) (expire_at now) (ps_db st)).2) as H1.
    { apply update_keeps; [|done]. intros r. by apply well_formed_same. }
    destruct (tbl_update _ _ _) as [[|] t]; [by apply then_reload_sound|by apply with_rows].
Qed.

Lemma upsert_sound now n effect applies status k t : n <> "" -> str_mem effect plain_effects = true ->
  str_mem applies ["both"; CallTypeSoftmodem; CallTypeBridge] = true ->
  rows_sound t -> rows_sound (upsertAutoRule cfg now n effect applies status k t).2.
Proof.
  intros Hn He Ha Ht. unfold upsertAutoRule, findAutoRule.
  pose proof (first_keeps well_formed (is_auto_rule n effect applies) t Ht) as H1. pose proof (first_some (is_auto_rule n effect applies) t) as Hf.
  destruct (tbl_first _ t) as [[old|] t1]; cbn [fst snd] in *.
  - pose proof (save_keeps well_formed (refreshed_rule now (now + autoRuleTTL cfg) status k old) t1) as H2.
    destruct (tbl_save _ t1) as [ok t2]. cbn [fst snd] in *. apply H2; [|done]. apply (well_formed_same old); [done..|]. apply Ht. by apply Hf.
  - apply create_keeps; [|done]. intros i. apply well_formed_id.
    split; simpl; [by left|by left|done|by right].
Qed.

Lemma find_auto_sound n effect applies t : rows_sound t -> rows_sound (findAutoRule n effect applies t).2.
Proof. apply (first_keeps well_formed). Qed.

Lemma failure_sound now n result st : rules_sound st -> rules_sound (LearnFaxPolicyFailure cfg now n result st).
Proof.
  intros Hs. pose proof Hs as [Ht _]. unfold LearnFaxPolicyFailure. destruct (String.eqb_spec n "") as [|Hn]; [by rewrite !orb_true_r|].
  destruct (_ || _); [done|]. cbv zeta.
  pose proof (find_auto_sound n PolicyEffectT38Off "both" (ps_db st) Ht) as H1.
  destruct (findAutoRule _ _ _ _) as [o t1]; cbn [snd] in H1. destruct (_ <? _); [by apply with_rows|].
  set (k := match o with Some r => _ | None => _ end). set (status := match result with Some _ => _ | None => _ end).
  pose proof (upsert_sound now n PolicyEffectT38Off "both" status k t1 Hn eq_refl eq_refl H1) as H2.
  destruct (upsertAutoRule _ _ _ _ _ _ _ t1) as [[u|] t2]; cbn [snd] in H2; [|by apply with_rows].
  apply reload_sound; [done|]. destruct (V17Threshold cfg <=? k), (ECMThreshold cfg <=? k); repeat (apply upsert_sound; [done..|]); done.
Qed.

Lemma bridge_sound now n cause st : rules_sound st -> rules_sound (LearnFaxPolicyBridgeFailure cfg now n cause st).
Proof.
  intros Hs. pose proof Hs as [Ht _]. unfold LearnFaxPolicyBridgeFailure. destruct (String.eqb_spec n "") as [|Hn]; [by rewrite !orb_true_r|].
  destruct (_ || _); [done|].
  pose proof (find_auto_sound n PolicyEffectT38Off CallTypeBridge (ps_db st) Ht) as H1.
  destruct (findAutoRule _ _ _ _) as [o t1]; cbn [snd] in H1.
  set (k := match o with Some r => _ | None => _ end).
  pose proof (upsert_sound now n PolicyEffectT38Off CallTypeBridge cause k t1 Hn eq_refl eq_refl H1) as H2.
  destruct (upsertAutoRule _ _ _ _ _ _ _ t1) as [[u|] t2]; cbn [snd] in H2; [by apply reload_sound|by apply with_rows].
Qed.

Lemma heal_sound now n rules t b : Forall well_formed rules -> rows_sound t -> rows_sound (heal_loop cfg now n rules t b).1.
Proof.
  intros Hr. revert t b. induction Hr as [|r rules Hr Hrs IH]; intros t b Ht; cbn [heal_loop]; [done|].
  destruct (_ <=? _); [by apply delete_keeps|]. apply IH, save_keeps; [by apply (well_formed_same r)|done].
Qed.

Lemma success_sound now n st : rules_sound st -> rules_sound (LearnFaxPolicySuccess cfg now n st).
Proof.
  intros Hs. pose proof Hs as [Ht _]. unfold LearnFaxPolicySuccess. destruct (_ || _); [done|].
  destruct (found_keeps well_formed (is_auto_for n) (ps_db st) Ht) as [H1 H2].
  destruct (tbl_find _ _) as [[[|r l]|] t1]; cbn [fst snd] in *; [by apply with_rows| |by apply with_rows].
  pose proof (heal_sound now n (r :: l) t1 false (H2 _ eq_refl) H1) as H3.
  destruct (heal_loop _ _ _ _ _ _) as [t2 [|]]; cbn [fst] in *; [by apply reload_sound|by apply with_rows].
Qed.

(** The deprecated route skips validation; its rule is one all the same. *)
Lemma fallback_sound now body st : rules_sound st -> rules_sound (handleFallbackNumber now body st).2.
Proof.
  intros Hs. unfold handleFallbackNumber. destruct body as [raw|]; [|done].
  destruct (String.eqb_spec (trim_space raw) "") as [|Hn]; [done|].
  destruct (create_keeps well_formed (fallback_rule (trim_space raw)) (ps_db st)) as [H1 _]; [|apply Hs|].
  { intros i. apply well_formed_id. split; [by left|by left|done|by left]. }
  destruct (tbl_create _ (ps_db st)) as [[x|] t]; [|by apply with_rows].
  pose proof (reload_sound now st t Hs H1). by destruct (reloadFaxPolicies _ _).
Qed.

(** Everything that changes rules: the requests for rules, the deprecated
    fallback route, which inserts without validation, what calls teach, and
    reloading. *)
Inductive policy_step : PolicyState T -> PolicyState T -> Prop :=
| step_request now req st : policy_step st (serve_policy now req st).2
| step_fallback now body st : policy_step st (handleFallbackNumber now body st).2
| step_failure now n result st : policy_step st (LearnFaxPolicyFailure cfg now n result st)
| step_bridge now n cause st : policy_step st (LearnFaxPolicyBridgeFailure cfg now n cause st)
| step_success now n st : policy_step st (LearnFaxPolicySuccess cfg now n st)
| step_reload now st : policy_step st (reloadFaxPolicies now st).2.

Lemma step_sound st st' : policy_step st st' -> rules_sound st -> rules_sound st'.
Proof.
  intros [] Hs; auto using requests_sound, fallback_sound, failure_sound, bridge_sound, success_sound.
  match goal with |- rules_sound (reloadFaxPolicies ?now ?s).2 => replace s with (s <| ps_db := ps_db s |>) by (by destruct s) end.
  apply reload_sound; [done|apply Hs].
Qed.

(** C38: rules are well formed for ever. From a database and a cache of well
    formed rules, through any sequence of requests of administrators, the
    deprecated fallback route included, of learning, healing and reloading,
    whatever fails on the way, every stored and
    every active rule has one of the three scopes with just the numbers it needs,
    a known effect, a variable exactly when it overrides one, and a known range.
    So no policy of any call ever overrides the id that ties a call to its job,
    in whatever case it is written, nor anything that is not a plain name. *)
Theorem rules_stay_well_formed st0 st : rules_sound st0 -> rtc policy_step st0 st ->
  rules_sound st /\
  forall fcfg src dst callType now name x, fp_VarOverrides (ResolveFaxPolicy fcfg (ps_cache st) src dst callType now) !! name = Some x ->
    varNamePattern name = true /\ to_lower name <> "origination_uuid" /\ blank x = false.
Proof.
  intros Hs Hrun. assert (rules_sound st) as Hst by (induction Hrun; eauto using step_sound). split; [done|].
  intros fcfg src dst ct now name x. unfold ResolveFaxPolicy. destruct (negb (PolicyEnabled _)); [done|].
  destruct (ps_cache st) as [rules|] eqn:Ec; [|done]. pose proof (proj2 Hst rules Ec) as Hr.
  assert (forall r, r ∈ stable_sort rule_less (matching_rules rules src dst ct now) -> well_formed r) as Hwf.
  { intros r Hin. rewrite stable_sort_perm in Hin. apply list_elem_of_In, filter_In in Hin as [Hin _].
    by apply (List.Forall_forall well_formed rules). }
  destruct (matching_rules _ _ _ _ _) as [|m ms]; [done|]. cbv zeta. set (l := stable_sort rule_less (m :: ms)) in *. clearbody l.
  match goal with |- context [foldl (resolve_step fcfg) (?p, false) l] =>
    pose proof (resolve_fold_other fcfg l p false) as (_ & _ & Ho & _); destruct (foldl _ (p, false) l) as [q d] end.
  simpl in *. rewrite Ho, lookup_empty. destruct (List.find (overrides_var name) l) as [r|] eqn:Ef; [|done]. intros [= <-].
  apply find_some in Ef as [Hin%list_elem_of_In Hov]. apply andb_true_iff in Hov as [He%String.eqb_eq <-%String.eqb_eq].
  destruct (wf_effect _ (Hwf r Hin)) as [[Hp _]|(_ & Hn & Hd & Hb)]; [by rewrite He in Hp|]. split; [done|]. split; [|done].
  intros E. by rewrite E in Hd.
Qed.
End sound.

(** ** Requests take effect *)

Section effects.
Context {T : Type} `{!Table T FaxPolicyRule, !TableLaws T FaxPolicyRule}.
Implicit Types (st : PolicyState T) (t : T) (now : Z) (rows rules : list FaxPolicyRule).










(** The dry run shows the policy a call of these numbers gets now. *)
Theorem dry_run_agrees cfg now src dst type st policy rules :
  (handleResolveFaxPolicy cfg now src dst type st).1 = Answer (policy, rules) ->
  exists callType, (callType = CallTypeSoftmodem \/ callType = CallTypeBridge) /\
    policy = ResolveFaxPolicy cfg (ps_cache st) (trim_space src) (trim_space dst) callType now /\
    forall r, r ∈ rules <-> r ∈ tbl_rows (ps_db st) /\ pr_ID r ∈ fp_AppliedRuleIDs policy.
Proof.
  unfold handleResolveFaxPolicy. cbv zeta. set (ct := if nonempty (trim_space type) then _ else _). clearbody ct.
  destruct (str_mem ct _) eqn:Hct; [|done]. destruct (_ || _); [|done]. simpl.
  intros Hr. exists ct. split; [apply str_mem_spec in Hct; set_solver|]. revert Hr.
  destruct (fp_AppliedRuleIDs _) as [|i ids] eqn:Ea; simpl.
  - intros [= <- <-]. split; [done|]. intros r. rewrite Ea. split; [by intros ?%elem_of_nil|by intros [_ ?%elem_of_nil]].
  - match goal with |- context [tbl_find ?P ?t] => pose proof (find_result P t) as Hf; destruct (tbl_find P t) as [[l|] t'] end; [|done].
    simpl in *. intros [= <- <-]. split; [done|]. intros r. rewrite (Hf l eq_refl), Ea, list_elem_of_In, filter_In, <- list_elem_of_In.
    assert ((pr_ID r =? i) || existsb (Z.eqb (pr_ID r)) ids = true <-> pr_ID r ∈ i :: ids) as ->; [|done].
    rewrite elem_of_cons, orb_true_iff, Z.eqb_eq, existsb_exists. apply or_iff_compat_l. split.
    + intros (j & Hj & ->%Z.eqb_eq). by apply list_elem_of_In.
    + intros Hj. exists (pr_ID r). rewrite Z.eqb_refl. split; [by apply list_elem_of_In|done].
Qed.
End effects.

(** A pair whose state is cleared is probed anew, and cache and table stay
    coherent. *)
Theorem cleared_pair_is_probed {T} `{!Table T FaxPairState, !TableLaws T FaxPairState} cfg idStr (st : PairServer T) :
  coherent st -> (handleDeleteFaxPairState idStr st).1 = Answer () ->
  let st' := (handleDeleteFaxPairState idStr st).2 in
  coherent st' /\ exists row, row ∈ tbl_rows (pp_db st) /\ atoi idStr = Some (ps_ID row) /\
    (forall r, r ∈ tbl_rows (pp_db st') <-> r ∈ tbl_rows (pp_db st) /\ r <> row) /\
    forall now, ShouldAllowT38ForPair cfg (ps_SrcNumber row) (ps_DstNumber row) (ps_CallType row) now st' = true.
Proof.
  intros Hc. unfold handleDeleteFaxPairState. destruct (atoi idStr) as [i|] eqn:Ei; [|done].
  pose proof (first_some (has_pair_id i) (pp_db st)) as Hf. pose proof (first_rows (has_pair_id i) (pp_db st)) as Hr.
  destruct (tbl_first _ _) as [[row|] t1]; cbn [fst snd] in *; [|done]. destruct (Hf row eq_refl) as [Hin Hid%Z.eqb_eq].
  pose proof (delete_ok (has_pair_id i) t1) as Hd. destruct (tbl_delete _ t1) as [[|] t2]; cbn [fst snd] in *; [|done]. intros _.
  specialize (Hd eq_refl). rewrite Hr in Hd. subst i.
  assert (forall r, r ∈ tbl_rows t2 <-> r ∈ tbl_rows (pp_db st) /\ r <> row) as Hrows.
  { intros r. rewrite Hd, list_elem_of_In, filter_In, <- list_elem_of_In, negb_true_iff. unfold has_pair_id. rewrite Z.eqb_neq.
    split; intros [Hr1 Hne]; (split; [done|]); [by intros ->|]. intros E. by apply Hne, (ids_ok_inj _ r row (co_ids _ Hc)). }
  destruct Hc as [Hids Huniq Hpos Hkey Hcached Hclean Hclean']. split.
  - split; simpl.
    + rewrite Hd. by apply ids_ok_filter.
    + intros r r' [? _]%Hrows [? _]%Hrows. by apply Huniq.
    + intros r [? _]%Hrows. by apply Hpos.
    + intros k r [_ ?]%lookup_delete_Some. by apply Hkey.
    + intros k r [Hk Hl]%lookup_delete_Some Hr0. apply Hrows. split; [by eapply Hcached|]. intros ->. apply Hk. symmetry. by apply Hkey.
    + intros r [? _]%Hrows. by apply Hclean.
    + intros k r [_ ?]%lookup_delete_Some. by eapply Hclean'.
  - exists row. split; [done|]. split; [done|]. split; [done|]. intros now. unfold ShouldAllowT38ForPair. simpl.
    unfold row_key. by rewrite lookup_delete_eq.
Qed.

Section witnesses.
#[local] Notation State := (PolicyState (ListTable FaxPolicyRule)).

Definition default_fax : FaxingConfig := c_Faxing zero_config.
Definition learning_on : FaxPolicyConfig := fc_Policy default_fax.

Definition override_body : FaxPolicyRule := {|
  pr_ID := 9; pr_Scope := "dst"; pr_SrcNumber := "7"; pr_DstNumber := "6045550199"; pr_Effect := "var_override"; pr_AppliesTo := "";
  pr_Origin := "auto"; pr_Enabled := true; pr_ExpiresAt := None; pr_VarName := " fax_local_station "; pr_VarValue := "ACME";
  pr_FailureCount := 0; pr_SuccessCount := 0; pr_LastSeenAt := None; pr_LastT38Status := ""; pr_Notes := "" |}.

Definition with_override : State := (serve_policy 5 (CreateRule (Some override_body)) empty_policy_state).2.

Example override_applies :
  fp_VarOverrides (ResolveFaxPolicy default_fax (ps_cache with_override) "" "6045550199" "softmodem" 6) !! "fax_local_station" = Some "ACME" /\
  (serve_policy 5 (CreateRule (Some (override_body <| pr_VarName := "Origination_UUID" |>))) empty_policy_state).1 = Reject 400 "var_name may not be overridden".
Proof. by vm_compute. Qed.

Definition with_fallback : State := (handleFallbackNumber 6 (Some " 2505550100 ") with_override).2.

Lemma rules_stay_well_formed_witness :
  rules_sound with_fallback /\ to_lower "fax_local_station" <> "origination_uuid" /\ blank "ACME" = false.
Proof.
  assert (rules_sound empty_policy_state) as H0 by (split; [intros r ?%elem_of_nil; done|intros ? [= <-]; constructor]).
  destruct (rules_stay_well_formed learning_on empty_policy_state with_fallback H0) as [Hs Hv].
  { eapply rtc_l; [apply (step_request learning_on 5 (CreateRule (Some override_body)) empty_policy_state)|].
    apply rtc_once. apply (step_fallback learning_on 6 (Some " 2505550100 ") with_override). }
  split; [exact Hs|].
  assert (fp_VarOverrides (ResolveFaxPolicy default_fax (ps_cache with_fallback) "" "6045550199" "softmodem" 6) !! "fax_local_station" = Some "ACME")
    as Hx by (vm_compute; reflexivity).
  exact (proj2 (Hv default_fax "" "6045550199" "softmodem" 6 "fax_local_station" "ACME" Hx)).
Defined.


Definition one_pair : PairServer (ListTable FaxPairState) := UpdateT38PairState "1" "2" "softmodem" true 100 example_pairs.

Lemma cleared_pair_is_probed_witness :
  ShouldAllowT38ForPair learning_on "1" "2" "softmodem" 101 one_pair = false /\
  ShouldAllowT38ForPair learning_on "1" "2" "softmodem" 101 (handleDeleteFaxPairState "1" one_pair).2 = true.
Proof.
  split; [by vm_compute|].
  assert (coherent one_pair) as Hc.
  { apply (update_coherent "1" "2" "softmodem" true 100 example_pairs); [done| |done..].
    split; try (intros ? ?%elem_of_nil; done); try (intros ? ? ?%elem_of_nil; done); try (intros k r; change (pp_pairStates example_pairs) with (∅ : gmap string FaxPairState); by rewrite lookup_empty). apply NoDup_nil_2. }
  destruct (cleared_pair_is_probed learning_on "1" one_pair Hc ltac:(by vm_compute)) as [_ (row & Hr & _ & _ & Hs)].
  assert (row = {| ps_ID := 1; ps_SrcNumber := "1"; ps_DstNumber := "2"; ps_CallType := "softmodem"; ps_LastUsedT38 := true; ps_LastSeen := 100 |}) as ->;
    [|exact (Hs 101)].
  vm_compute in Hr. by apply list_elem_of_singleton in Hr.
Defined.
End witnesses.
