(* ===== verification/DialplanAdmin.v ===== *)
(** * DialplanAdmin: dialplan rules through the web API
    ([gofaxserver/web_dialplan.go])

    The handlers over the rules table and the active manager. In database mode
    a change is followed by [reloadDialplan]; in configuration mode rules are
    stored and stay inactive. *)

From S2P Require Import Prelude Config Store Regexp Dialplan TenantUsers WebAdmin PolicyAdmin.

(** An entry of a reordering. *)
Record RulePosition := { rp_ID : Z; rp_Position : Z }.

Section handlers.
Context {T : Type} `{!Table T DialplanRule}.
Variable regexp_Compile : string -> option node.
Variable cfg : Config.
#[local] Notation state := (option DialplanManager * T)%type.

Definition validateDialplanRule (r : DialplanRule) : bool := bool_decide (is_Some (regexp_Compile (dr_Pattern r))).

Definition handleGetDialplan (st : state) : answer (string * list DialplanRule) * state :=
  let '(rules, t) := tbl_find (fun _ => true) st.2 in
  (match rules with
   | Some l => Answer (dialplanSource cfg, stable_sort position_less l)
   | None => Reject 500 "failed to list dialplan rules"
   end, (st.1, t)).

Definition then_reload_dialplan {A} (a : A) (e : string) (st : state) : answer A * state :=
  let '(ok, active, t) := reloadDialplan regexp_Compile cfg st.1 st.2 in
  (if ok then Answer a else Reject 500 e, (active, t)).

(** "SELECT COALESCE(MAX(position), -1)". *)
Definition max_position (rows : list DialplanRule) : Z :=
  match rows with
  | [] => -1
  | r :: rows' => foldl Z.max (dr_Position r) (map dr_Position rows')
  end.

(** The next free position; an error of the query leaves its result at 0. *)
Definition next_position (t : T) : Z * T :=
  let '(rows, t) := tbl_find (fun _ => true) t in
  (wrap64 (match rows with Some rows => max_position rows | None => 0 end + 1), t).

Definition handleCreateDialplanRule (body : option DialplanRule) (st : state) : answer DialplanRule * state :=
  match body with
  | None => (Reject 400 "invalid payload", st)
  | Some rule =>
      if negb (validateDialplanRule rule) then (Reject 400 "invalid pattern", st)
      else
        let '(rule, t) := if dr_Position rule =? 0
                          then let '(p, t) := next_position st.2 in (rule <| dr_Position := p |>, t)
                          else (rule, st.2) in
        let '(created, t) := gorm_create rule t in
        match created with
        | None => (Reject 500 "failed to create rule", (st.1, t))
        | Some rule => then_reload_dialplan rule "rule saved but reload failed" (st.1, t)
        end
  end.

Definition handleUpdateDialplanRule (idStr : string) (body : option DialplanRule) (st : state) : answer DialplanRule * state :=
  match atoi idStr, body with
  | None, _ => (Reject 400 "invalid rule id", st)
  | _, None => (Reject 400 "invalid payload", st)
  | Some id, Some rule =>
      if negb (validateDialplanRule rule) then (Reject 400 "invalid pattern", st)
      else
        let '(saved, t) := gorm_save (rule <| dr_ID := uint_of_int id |>) st.2 in
        match saved with
        | None => (Reject 500 "failed to update rule", (st.1, t))
        | Some rule => then_reload_dialplan rule "rule saved but reload failed" (st.1, t)
        end
  end.

Definition handleDeleteDialplanRule (idStr : string) (st : state) : answer () * state :=
  match atoi idStr with
  | None => (Reject 400 "invalid rule id", st)
  | Some id =>
      let '(ok, t) := tbl_delete (fun r => dr_ID r =? id) st.2 in
      if ok then then_reload_dialplan () "rule deleted but reload failed" (st.1, t)
      else (Reject 500 "failed to delete rule", (st.1, t))
  end.

Definition at_position (p : Z) (r : DialplanRule) : DialplanRule := r <| dr_Position := p |>.

(** The loop: the positions set up to the first failure. *)
Fixpoint reorder (order : list RulePosition) (t : T) : bool * T :=
  match order with
  | [] => (true, t)
  | o :: order' =>
      let '(ok, t') := tbl_update (fun r => dr_ID r =? rp_ID o) (at_position (rp_Position o)) t in
      if ok then reorder order' t' else (false, t')
  end.

Definition handleReorderDialplanRules (body : option (list RulePosition)) (st : state) : answer () * state :=
  match body with
  | None => (Reject 400 "invalid payload", st)
  | Some order =>
      let '(ok, t) := reorder order st.2 in
      if ok then then_reload_dialplan () "reordered but reload failed" (st.1, t)
      else (Reject 500 "failed to reorder", (st.1, t))
  end.

Inductive DialplanRequest :=
| CreateDialplanRule (body : option DialplanRule)
| UpdateDialplanRule (idStr : string) (body : option DialplanRule)
| DeleteDialplanRule (idStr : string)
| ReorderDialplanRules (body : option (list RulePosition)).

Definition serve_dialplan (req : DialplanRequest) (st : state) : answer (option DialplanRule) * state :=
  let rule (r : answer DialplanRule * state) := (match r.1 with Answer x => Answer (Some x) | Reject code e => Reject code e end, r.2) in
  let none (r : answer () * state) := (match r.1 with Answer _ => Answer None | Reject code e => Reject code e end, r.2) in
  match req with
  | CreateDialplanRule body => rule (handleCreateDialplanRule body st)
  | UpdateDialplanRule id body => rule (handleUpdateDialplanRule id body st)
  | DeleteDialplanRule id => none (handleDeleteDialplanRule id st)
  | ReorderDialplanRules body => none (handleReorderDialplanRules body st)
  end.

End handlers.

(** ** What is stored is what numbers go through *)

Section facts.
Context {T : Type} `{!Table T DialplanRule, !TableLaws T DialplanRule}.
Variable regexp_Compile : string -> option node.
Variable cfg : Config.
#[local] Notation state := (option DialplanManager * T)%type.
#[local] Notation serve := (serve_dialplan regexp_Compile cfg).
Implicit Types (t : T) (rows : list DialplanRule).

Definition compiles (r : DialplanRule) : Prop := is_Some (regexp_Compile (dr_Pattern r)).

Definition reordered (order : list RulePosition) rows : list DialplanRule :=
  foldl (fun l o => map (fun r => if dr_ID r =? rp_ID o then at_position (rp_Position o) r else r) l) rows order.

(** What an answered request makes of the rows. *)
Definition edited_rules (req : DialplanRequest) (answered : option DialplanRule) rows : list DialplanRule :=
  match req, answered with
  | (CreateDialplanRule _ | UpdateDialplanRule _ _), Some r => replace_row r rows
  | DeleteDialplanRule idStr, _ => List.filter (fun r => negb (bool_decide (atoi idStr = Some (dr_ID r)))) rows
  | ReorderDialplanRules (Some order), _ => reordered order rows
  | _, _ => rows
  end.

(** The enabled rules in order of position, and the rules of a manager, as
    pattern and replacement. *)
Definition plan_of rows : list (string * string) :=
  map (fun r => (dr_Pattern r, dr_Replacement r)) (stable_sort position_less (List.filter dr_Enabled rows)).
Definition plan_in (dm : DialplanManager) : list (string * string) :=
  map (fun r => (re_text (tr_Pattern r), tr_Replacement r)) (dm_TransformationRules dm).

Lemma compile_shows rows : Forall compiles rows ->
  map (fun r => (re_text (tr_Pattern r), tr_Replacement r)) (compileDialplanRules regexp_Compile rows) =
  map (fun r => (dr_Pattern r, dr_Replacement r)) rows.
Proof.
  induction 1 as [|r rows [n Hr] _ IH]; [done|]. 
  change (compileDialplanRules regexp_Compile (r :: rows)) with (match compileRule regexp_Compile (dr_Pattern r) (dr_Replacement r) with
    | Some x => x :: compileDialplanRules regexp_Compile rows | None => compileDialplanRules regexp_Compile rows end).
  unfold compileRule. rewrite Hr. simpl. by rewrite IH.
Qed.

Lemma seeds_compile i pairs : Forall compiles (seed_rows regexp_Compile i pairs).
Proof.
  revert i. induction pairs as [|[p r] pairs IH]; intros i; simpl; [constructor|]. destruct (regexp_Compile p) eqn:E; [|apply IH].
  constructor; [by exists n|apply IH].
Qed.

Lemma compiles_id r i : compiles r -> compiles (set_id i r).
Proof. done. Qed.

Lemma seed_keeps t : all_rows compiles t ->
  let '(r, t') := seedDialplanRules regexp_Compile cfg t in
  all_rows compiles t' /\ (tbl_rows t' = tbl_rows t \/ tbl_rows t = []).
Proof.
  intros Ht. unfold seedDialplanRules. pose proof (find_rows (fun _ => true) t) as Hr. pose proof (find_result (fun _ => true) t) as Hf.
  destruct (found_keeps compiles (fun _ => true) t Ht) as [H1 _].
  destruct (tbl_find _ t) as [[[|x l]|] t1]; cbn [fst snd] in *; [|by split; [|left]..].
  specialize (Hf [] eq_refl). rewrite filter_true in Hf. pose proof (seeds_compile 0 (seed_pairs cfg)) as Hs.
  destruct (seed_rows _ _ _) as [|s ss]; [by split; [|left]|].
  pose proof (create_all_ok (s :: ss) t1) as Hc. pose proof (create_all_err (s :: ss) t1) as He.
  destruct (tbl_create_all _ t1) as [[l'|] t2]; cbn [fst snd] in *; (split; [|by right]).
  - destruct (Hc l' eq_refl) as (Hrows & Hall & _). intros r. rewrite Hrows. intros [?|Hin]%elem_of_app; [by apply H1|].
    apply list_elem_of_lookup in Hin as [k Hk]. destruct (Forall2_lookup_r _ _ _ _ _ Hall Hk) as (y & Hy & -> & _).
    apply compiles_id. rewrite List.Forall_forall in Hs. apply Hs, list_elem_of_In. by eapply list_elem_of_lookup_2.
  - intros r. rewrite He by done. apply H1.
Qed.

(** Reloading: what is in effect is what is stored, or nothing has changed. *)
Lemma reload_cases active t : all_rows compiles t ->
  let '(ok, active', t') := reloadDialplan regexp_Compile cfg active t in
  all_rows compiles t' /\ (tbl_rows t' = tbl_rows t \/ tbl_rows t = [] /\ dialplanSource cfg = "db") /\
  (ok = false -> active' = active) /\
  (ok = true -> if (dialplanSource cfg =? "db")%string then exists dm, active' = Some dm /\ plan_in dm = plan_of (tbl_rows t') else active' = active).
Proof.
  intros Ht. unfold reloadDialplan. destruct (String.eqb_spec (dialplanSource cfg) "db") as [Hdb|]; simpl; [|by split_and!; [|left|..]].
  unfold loadDialplanFromDB. pose proof (seed_keeps t Ht) as Hs. destruct (seedDialplanRules _ _ t) as [[o|e] t1]; destruct Hs as [H1 Hrows].
  - destruct (found_keeps compiles dr_Enabled t1 H1) as [H2 _]. pose proof (find_rows dr_Enabled t1) as Hr. pose proof (find_result dr_Enabled t1) as Hf.
    destruct (tbl_find _ t1) as [[l|] t2]; cbn [fst snd] in *; rewrite Hr; (split; [done|]); (split; [tauto|]); (split; [done|]); [|done].
    intros _. eexists. split; [done|]. unfold plan_in, plan_of. simpl. rewrite (Hf l eq_refl). apply compile_shows, List.Forall_forall.
    intros r Hin. apply H1, list_elem_of_In. apply list_elem_of_In in Hin. rewrite stable_sort_perm in Hin.
    by apply list_elem_of_In, filter_In in Hin as [Hin _].
  - by split_and!; [|tauto|..].
Qed.

(** The rule as the body describes it, whatever its key and position. *)
Definition same_rule (r b : DialplanRule) : Prop :=
  dr_Pattern r = dr_Pattern b /\ dr_Replacement r = dr_Replacement b /\ dr_Enabled r = dr_Enabled b /\ dr_Description r = dr_Description b.

(** One past the last position, or the first when the positions cannot be read. *)
Definition next_free (p : Z) rows : Prop :=
  p = 1 \/ exists m, p = wrap64 (m + 1) /\ (forall x, x ∈ rows -> dr_Position x <= m) /\ (m = -1 \/ exists x, x ∈ rows /\ dr_Position x = m).

(** What the request asked for is what was stored: a new rule has the body's
    content, its own key, and the body's position unless that is 0, which means
    the end; a changed rule has the body's content and position under the key of
    the path, and key 0 makes a new rule. *)
Definition asked_for (req : DialplanRequest) (answered : option DialplanRule) rows : Prop :=
  match req, answered with
  | CreateDialplanRule (Some b), Some r =>
      same_rule r b /\ dr_ID r <> 0 /\ (forall x, x ∈ rows -> dr_ID x <> dr_ID r) /\ (dr_ID b <> 0 -> dr_ID r = dr_ID b) /\
      (dr_Position b <> 0 -> dr_Position r = dr_Position b) /\ (dr_Position b = 0 -> next_free (dr_Position r) rows)
  | UpdateDialplanRule idStr (Some b), Some r =>
      same_rule r b /\ dr_Position r = dr_Position b /\ exists i, atoi idStr = Some i /\
      (uint_of_int i <> 0 -> dr_ID r = uint_of_int i) /\ (uint_of_int i = 0 -> forall x, x ∈ rows -> dr_ID x <> dr_ID r)
  | DeleteDialplanRule idStr, None => is_Some (atoi idStr)
  | ReorderDialplanRules (Some _), None => True
  | _, _ => False
  end.

Definition in_effect (req : DialplanRequest) (st : state) (a : answer (option DialplanRule)) (st' : state) : Prop :=
  all_rows compiles st'.2 /\
  match a with
  | Answer x =>
      asked_for req x (tbl_rows st.2) /\
      (tbl_rows st'.2 = edited_rules req x (tbl_rows st.2) \/ edited_rules req x (tbl_rows st.2) = [] /\ dialplanSource cfg = "db") /\
      if (dialplanSource cfg =? "db")%string then exists dm, st'.1 = Some dm /\ plan_in dm = plan_of (tbl_rows st'.2) else st'.1 = st.1
  | Reject code _ => st'.1 = st.1 /\ (code <> 500 -> tbl_rows st'.2 = tbl_rows st.2)
  end.

Lemma then_reload_in_effect {A} req (st : state) (x : A) (f : A -> option DialplanRule) e t :
  all_rows compiles t -> tbl_rows t = edited_rules req (f x) (tbl_rows st.2) -> asked_for req (f x) (tbl_rows st.2) ->
  let '(a, st') := then_reload_dialplan regexp_Compile cfg x e (st.1, t) in
  in_effect req st (match a with Answer x => Answer (f x) | Reject code e => Reject code e end) st'.
Proof.
  intros Ht He Hask. unfold then_reload_dialplan. cbn [fst snd]. pose proof (reload_cases st.1 t Ht) as Hr.
  destruct (reloadDialplan _ _ _ t) as [[[|] active'] t']; destruct Hr as (H1 & H2 & H3 & H4); rewrite He in H2; split; try done; simpl.
  - split; [done|]. split; [done|]. by apply H4.
  - split; [by apply H3|done].
Qed.

Lemma declined_in_effect req (st st' : state) code e : all_rows compiles st'.2 -> st'.1 = st.1 ->
  (code <> 500 -> tbl_rows st'.2 = tbl_rows st.2) -> in_effect req st (Reject code e) st'.
Proof. done. Qed.

(** A stored rule is the given one, under its own key or a fresh one. *)
Definition stored_as (r x : DialplanRule) rows : Prop :=
  x = r <| dr_ID := dr_ID x |> /\ (dr_ID r <> 0 -> dr_ID x = dr_ID r) /\
  (dr_ID r = 0 -> dr_ID x <> 0 /\ forall y, y ∈ rows -> dr_ID y <> dr_ID x).

Lemma stored_as_intro r x rows : (get_id r <> 0 -> x = r) ->
  (get_id r = 0 -> x = set_id (get_id x) r /\ 0 < get_id x /\ Forall (fun y => get_id y <> get_id x) rows) -> stored_as r x rows.
Proof.
  intros Hown Hnew. unfold stored_as. destruct (decide (dr_ID r = 0)) as [Hz|Hz].
  - destruct (Hnew Hz) as (Hx & Hp & Hf). change (0 < dr_ID x) in Hp. rewrite Forall_forall in Hf. split_and!; [exact Hx|done|].
    intros _. split; [lia|]. exact Hf.
  - rewrite (Hown Hz). split_and!; [by destruct r|done..].
Qed.

Lemma stored_compiles r x rows : compiles r -> stored_as r x rows -> compiles x.
Proof. intros Hr (-> & _). exact Hr. Qed.

Lemma gorm_create_cases r t : compiles r -> all_rows compiles t ->
  let '(c, t') := gorm_create r t in
  all_rows compiles t' /\ forall x, c = Some x -> tbl_rows t' = replace_row x (tbl_rows t) /\ stored_as r x (tbl_rows t) /\
    dr_ID x <> 0 /\ (forall y, y ∈ tbl_rows t -> dr_ID y <> dr_ID x).
Proof.
  intros Hr Ht. pose proof (gorm_create_rows r t) as Hc. destruct (gorm_create r t) as [[x|] t']; cbn [fst snd] in Hc.
  2: { split; [|done]. intros y. by rewrite Hc; apply Ht. }
  destruct Hc as (Hown & Hnew & Hf & Hrows).
  assert (stored_as r x (tbl_rows t)) as Hs by (apply stored_as_intro; [done|]; intros Hz; destruct (Hnew Hz); by split_and!).
  split; [|intros ? [= <-]; split; [by rewrite Hrows, append_replace|]; split; [done|]].
  - intros y. rewrite Hrows. intros [?| ->%list_elem_of_singleton]%elem_of_app; [by apply Ht|by apply (stored_compiles r x (tbl_rows t))].
  - rewrite Forall_forall in Hf. split; [|exact Hf]. destruct Hs as (_ & Ho & Hn). destruct (decide (dr_ID r = 0)) as [Hz|Hz]; [by apply Hn|].
    by rewrite (Ho Hz).
Qed.

(** An update is an insertion where there is no such row. *)
Lemma gorm_save_cases r t : compiles r -> all_rows compiles t ->
  let '(c, t') := gorm_save r t in
  all_rows compiles t' /\ forall x, c = Some x -> tbl_rows t' = replace_row x (tbl_rows t) /\ stored_as r x (tbl_rows t).
Proof.
  intros Hr Ht. pose proof (gorm_save_rows r t) as Hc. destruct (gorm_save r t) as [[x|] t']; cbn [fst snd] in Hc.
  2: { split; [|done]. intros y. by rewrite Hc; apply Ht. }
  destruct Hc as (Hown & Hnew & Hrows). assert (stored_as r x (tbl_rows t)) as Hs by by apply stored_as_intro.
  split; [|by intros ? [= <-]]. intros y. rewrite Hrows. intros [->|?]%replace_row_elem; [by apply (stored_compiles r x (tbl_rows t))|by apply Ht].
Qed.

(** The greatest stored position. *)
Lemma foldl_max_spec (l : list Z) m :
  m <= foldl Z.max m l /\ Forall (fun x => x <= foldl Z.max m l) l /\ (foldl Z.max m l = m \/ foldl Z.max m l ∈ l).
Proof.
  revert m. induction l as [|x l IH]; intros m; cbn [foldl]; [split_and!; [lia|constructor|by left]|].
  destruct (IH (Z.max m x)) as (H1 & H2 & H3). split; [lia|]. split; [constructor; [lia|done]|].
  destruct H3 as [H3|H3]; [|by right; right]. destruct (Z.max_spec m x) as [[_ E]|[_ E]]; rewrite E in H3 |- *; [right; rewrite H3; by left|by left].
Qed.

Lemma next_position_free t : next_free (next_position t).1 (tbl_rows t).
Proof.
  unfold next_position. pose proof (find_result (fun _ => true) t) as Hf. destruct (tbl_find _ t) as [[l|] t1]; cbn [fst snd] in *; [|by left].
  specialize (Hf l eq_refl). rewrite filter_true in Hf. subst l. right. exists (max_position (tbl_rows t)). split; [done|].
  unfold max_position. destruct (tbl_rows t) as [|r rows]; [split; [by intros x ?%elem_of_nil|by left]|].
  destruct (foldl_max_spec (map dr_Position rows) (dr_Position r)) as (H1 & H2 & H3). rewrite Forall_forall in H2. split.
  - intros x [->|Hx]%elem_of_cons; [done|]. apply H2. by apply list_elem_of_fmap_2.
  - right. destruct H3 as [H3|(x & H3 & Hx)%list_elem_of_fmap]; [exists r; split; [by left|done]|exists x; split; [by right|done]].
Qed.

Lemma reorder_cases order t : all_rows compiles t ->
  let '(ok, t') := reorder order t in
  all_rows compiles t' /\ (ok = true -> tbl_rows t' = reordered order (tbl_rows t)).
Proof.
  revert t. induction order as [|o order IH]; intros t Ht; simpl; [done|].
  pose proof (update_keeps compiles (fun r => dr_ID r =? rp_ID o) (at_position (rp_Position o)) t ltac:(done) Ht) as H1.
  pose proof (update_ok (fun r => dr_ID r =? rp_ID o) (at_position (rp_Position o)) t) as Hu.
  destruct (tbl_update _ _ t) as [[|] t1]; cbn [fst snd] in *; [|done].
  specialize (IH t1 H1). destruct (reorder order t1) as [ok t2]. destruct IH as [H2 H3]. split; [done|]. intros Hok.
  by rewrite H3, Hu.
Qed.

Lemma create_in_effect body (st : state) : all_rows compiles st.2 ->
  in_effect (CreateDialplanRule body) st (serve (CreateDialplanRule body) st).1 (serve (CreateDialplanRule body) st).2.
Proof.
  intros Ht. destruct body as [rule|]; cbn [serve_dialplan fst snd]; [|done]. unfold handleCreateDialplanRule.
  destruct (validateDialplanRule _ rule) eqn:Hv; simpl; [|done]. apply bool_decide_eq_true in Hv.
  set (m := if dr_Position rule =? 0 then _ else _).
  assert (m.1 = rule <| dr_Position := dr_Position m.1 |> /\ all_rows compiles m.2 /\ tbl_rows m.2 = tbl_rows st.2 /\
    (dr_Position rule <> 0 -> dr_Position m.1 = dr_Position rule) /\ (dr_Position rule = 0 -> next_free (dr_Position m.1) (tbl_rows st.2)))
    as (Hm1 & Hm2 & Hm3 & Hm4 & Hm5).
  { subst m. destruct (Z.eqb_spec (dr_Position rule) 0) as [Hz|Hz]; [|by split_and!; [by destruct rule|..]].
    pose proof (next_position_free st.2) as Hn. unfold next_position in *.
    pose proof (find_rows (fun _ => true) st.2) as Hr. destruct (found_keeps compiles (fun _ => true) st.2 Ht) as [H1 _].
    destruct (tbl_find _ st.2) as [l t]; cbn [fst snd] in *. by rewrite Hr. }
  destruct m as [rule' t1]; cbn [fst snd] in *.
  assert (compiles rule') as Hcomp by (rewrite Hm1; exact Hv). pose proof (gorm_create_cases rule' t1 Hcomp Hm2) as Hi.
  destruct (gorm_create rule' t1) as [[x|] t2]; destruct Hi as [H1 H2]; [|done]. destruct (H2 x eq_refl) as (H3 & (Hx & Hown & _) & Hxz & Hfresh).
  pose proof (then_reload_in_effect (CreateDialplanRule (Some rule)) st x Some "rule saved but reload failed" t2 H1) as Hr.
  destruct (then_reload_dialplan _ _ _ _ _) as [a st']. rewrite Hm3 in *. apply Hr; [done|]. simpl.
  assert (dr_ID rule' = dr_ID rule /\ dr_Position x = dr_Position rule' /\ same_rule x rule) as (Hid & Hpos & Hsame)
    by (unfold same_rule; rewrite Hx; cbn; rewrite Hm1; by split_and!).
  rewrite Hpos. split_and!; [done|done|exact Hfresh| |exact Hm4|exact Hm5]. rewrite <- Hid. exact Hown.
Qed.

Lemma update_in_effect idStr body (st : state) : all_rows compiles st.2 ->
  in_effect (UpdateDialplanRule idStr body) st (serve (UpdateDialplanRule idStr body) st).1 (serve (UpdateDialplanRule idStr body) st).2.
Proof.
  intros Ht. cbn [serve_dialplan fst snd]. unfold handleUpdateDialplanRule. destruct (atoi idStr) as [i|] eqn:Ei; [|done]. destruct body as [rule|]; [|done].
  destruct (validateDialplanRule _ rule) eqn:Hv; cbn [negb]; [|done]. apply bool_decide_eq_true in Hv.
  match goal with |- context [gorm_save ?r _] => pose proof (gorm_save_cases r st.2 Hv Ht) as Hi end.
  destruct (gorm_save _ st.2) as [[x|] t2]; destruct Hi as [H1 H2]; [|done]. destruct (H2 x eq_refl) as (H3 & Hx & Hown & Hnew).
  pose proof (then_reload_in_effect (UpdateDialplanRule idStr (Some rule)) st x Some "rule saved but reload failed" t2 H1) as Hr.
  destruct (then_reload_dialplan _ _ _ _ _) as [a st']. apply Hr; [done|]. simpl.
  assert (dr_Position x = dr_Position rule /\ same_rule x rule) as [Hpos Hsame] by (unfold same_rule; rewrite Hx; by split_and!).
  split; [done|]. split; [done|]. exists i. split; [done|]. split; [exact Hown|]. intros Hz. by apply Hnew.
Qed.

Lemma delete_in_effect idStr (st : state) : all_rows compiles st.2 ->
  in_effect (DeleteDialplanRule idStr) st (serve (DeleteDialplanRule idStr) st).1 (serve (DeleteDialplanRule idStr) st).2.
Proof.
  intros Ht. cbn [serve_dialplan fst snd]. unfold handleDeleteDialplanRule. destruct (atoi idStr) as [i|] eqn:Ei; [|done].
  pose proof (delete_keeps compiles (fun r => dr_ID r =? i) st.2 Ht) as H1. pose proof (delete_ok (fun r => dr_ID r =? i) st.2) as Hd.
  destruct (tbl_delete _ st.2) as [[|] t]; cbn [fst snd] in *; [|done].
  pose proof (then_reload_in_effect (DeleteDialplanRule idStr) st () (fun _ => None) "rule deleted but reload failed" t H1) as Hr.
  destruct (then_reload_dialplan _ _ _ _ _) as [a st']. apply Hr; [|simpl; by rewrite Ei]. simpl. rewrite (Hd eq_refl). apply filter_ext. intros r. f_equal.
  rewrite Ei. apply eq_true_iff_eq. rewrite bool_decide_eq_true, Z.eqb_eq. split; [by intros ->|by intros [= ->]].
Qed.

Lemma reorder_in_effect body (st : state) : all_rows compiles st.2 ->
  in_effect (ReorderDialplanRules body) st (serve (ReorderDialplanRules body) st).1 (serve (ReorderDialplanRules body) st).2.
Proof.
  intros Ht. cbn [serve_dialplan fst snd]. unfold handleReorderDialplanRules. destruct body as [order|]; [|done].
  pose proof (reorder_cases order st.2 Ht) as Ho. destruct (reorder order st.2) as [[|] t]; destruct Ho as [H1 H2]; [|done].
  pose proof (then_reload_in_effect (ReorderDialplanRules (Some order)) st () (fun _ => None) "reordered but reload failed" t H1) as Hr.
  destruct (then_reload_dialplan _ _ _ _ _) as [a st']. apply Hr; [|done]. simpl. by apply H2.
Qed.

(** C40: what an administrator is told of the dialplan is what numbers go
    through. While every stored pattern compiles, which every request keeps so,
    an answered request has stored what it asked for: a new rule with the body's
    pattern, replacement, description and switch under a key of its own, at the
    body's position or, for 0, at the end; a changed rule with the body's
    content and position under the key of the path; the rule of the path gone;
    the positions listed. No other row is touched, unless the request left no
    rule, when the seeds come back. In database mode the active rules are then
    the enabled stored ones, each of them and in order of position; in
    configuration mode the active rules stay. A request that is turned away
    changes nothing, and one that fails leaves the active rules alone. *)
Theorem dialplan_requests_take_effect req (st : state) : all_rows compiles st.2 ->
  in_effect req st (serve req st).1 (serve req st).2.
Proof. destruct req; auto using create_in_effect, update_in_effect, delete_in_effect, reorder_in_effect. Qed.
End facts.

Section witnesses.
#[local] Notation serve := (serve_dialplan example_compile (zero_config <| c_Dialplan := Some {| dc_Source := "db"; dc_Rules := [] |} |>)).

Definition rule_body (p : string) (position : Z) : DialplanRule :=
  {| dr_ID := 0; dr_Position := position; dr_Pattern := p; dr_Replacement := "1"; dr_Enabled := true; dr_Description := "" |}.

Definition one_rule : option DialplanManager * ListTable DialplanRule :=
  (None, fresh_table [(rule_body "9" 3) <| dr_ID := 1 |>] 2 []).

Lemma dialplan_requests_take_effect_witness :
  let '(a, st') := serve (CreateDialplanRule (Some (rule_body "8" 2))) one_rule in
  (exists r, a = Answer (Some r)) /\ exists dm, st'.1 = Some dm /\ plan_in dm = [("8", "1"); ("9", "1")].
Proof.
  assert (all_rows (compiles example_compile) one_rule.2) as Hok.
  { intros r Hr. apply list_elem_of_singleton in Hr as ->. by eexists. }
  pose proof (dialplan_requests_take_effect example_compile _ (CreateDialplanRule (Some (rule_body "8" 2))) one_rule Hok
    : in_effect example_compile (zero_config <| c_Dialplan := Some {| dc_Source := "db"; dc_Rules := [] |} |>) _ _
        (serve (CreateDialplanRule (Some (rule_body "8" 2))) one_rule).1 (serve (CreateDialplanRule (Some (rule_body "8" 2))) one_rule).2) as He.
  assert ((serve (CreateDialplanRule (Some (rule_body "8" 2))) one_rule).1 = Answer (Some ((rule_body "8" 2) <| dr_ID := 2 |>))) as Ha by by vm_compute.
  assert (plan_of (tbl_rows (serve (CreateDialplanRule (Some (rule_body "8" 2))) one_rule).2.2) = [("8", "1"); ("9", "1")]) as Hp by by vm_compute.
  destruct (serve (CreateDialplanRule (Some (rule_body "8" 2))) one_rule) as [a st']. cbn [fst snd] in *. subst a. split; [by eexists|].
  destruct He as (_ & _ & _ & (dm & Hd & Hpl)). exists dm. split; [exact Hd|]. by rewrite Hpl.
Defined.

Example rules_apply_in_order :
  match (serve (CreateDialplanRule (Some (rule_body "8" 2))) one_rule).2.1 with
  | Some dm => ApplyTransformationRules dm "98" = "11"
  | None => False
  end.
Proof. vm_compute. reflexivity. Qed.

(** The last rule deleted, the built-in ones are back: an empty dialplan cannot
    be had this way. And position 0 means the end, not the beginning. *)
Example last_rule_deleted_seeds_return :
  let '(a, st') := serve (DeleteDialplanRule "1") one_rule in
  a = Answer None /\ match st'.1 with Some dm => ApplyTransformationRules dm "16045550199" = "6045550199" | None => False end.
Proof. vm_compute. split; reflexivity. Qed.

Example first_position_is_last :
  match (serve (CreateDialplanRule (Some (rule_body "8" 0))) one_rule).1 with Answer (Some r) => dr_Position r = 4 | _ => False end.
Proof. by vm_compute. Qed.
End witnesses.
