(* ===== verification/SentryAdmin.v ===== *)
(** * SentryAdmin: bans through the web API ([gofaxserver/web_security.go])

    The handlers over the sentry, which is absent when the feature is off. *)

From S2P Require Import Prelude Config Store FaxJob Regexp Dialplan Directory Backend Sentry TenantUsers.

Record banRequest := { br_IP : string; br_Reason : string; br_Duration : string }.

Section handlers.
Context {T F Net IPAddr : Type} `{!Table T BlockedIP}.
Variable parse_ip : string -> option IPAddr.
Variable ip_string : IPAddr -> string.
Variable net_contains : Net -> IPAddr -> bool.
Variable cfg : SecurityConfig.
Variable be : sentryBackend F.
#[local] Notation state := (IPSentry T F Net).

Definition disabled {A} : answer A := Reject 404 "security sentry is disabled (security.enabled=false)".

Definition sentryOr404 {A} (h : state -> answer A * state) (sentry : option state) : answer A * option state :=
  match sentry with
  | None => (disabled, None)
  | Some st => let '(a, st') := h st in (a, Some st')
  end.

(** [all]: the parameter is there. *)
Definition handleListBlockedIPs (all : bool) : option state -> answer (list BlockedIP) * option state :=
  sentryOr404 (fun st => (Answer (ListBans all st), st)).

(** The duration asked for: none, or an error. *)
Definition ban_duration (s : string) : res (option Z) :=
  if (s =? "")%string then Ok None
  else match time_ParseDuration s with
       | Some d => if d <=? 0 then Err "invalid duration" else Ok (Some d)
       | None => Err "invalid duration"
       end.

(** The answer names the address. *)
Definition handleBanIP (now : Z) (body : option banRequest) : option state -> answer string * option state :=
  sentryOr404 (fun st =>
    match body with
    | None => (Reject 400 "ip is required", st)
    | Some req =>
        let ip := trim_space (br_IP req) in
        if (ip =? "")%string then (Reject 400 "ip is required", st)
        else
          let reason := if (br_Reason req =? "")%string then "manual ban via admin API" else br_Reason req in
          match ban_duration (br_Duration req) with
          | Err e => (Reject 400 e, st)
          | Ok dur =>
              match BanManual parse_ip ip_string net_contains cfg be now ip reason dur st with
              | (st', Some e) => (Reject 409 e, st')
              | (st', None) => (Answer ip, st')
              end
          end
    end).

Definition handleUnbanIP (now : Z) (param : string) : option state -> answer string * option state :=
  sentryOr404 (fun st =>
    let ip := trim_space param in
    if (ip =? "")%string then (Reject 400 "ip parameter required", st)
    else let '(st', ok) := UnbanIP be now ip st in
         if ok then (Answer ip, st') else (Reject 404 "not banned", st')).

End handlers.

Section facts.
Context {T F Net IPAddr : Type} `{!Table T BlockedIP, !TableLaws T BlockedIP}.
Variable parse_ip : string -> option IPAddr.
Variable ip_string : IPAddr -> string.
Variable net_contains : Net -> IPAddr -> bool.
Variable cfg : SecurityConfig.
Variable be : sentryBackend F.
#[local] Notation state := (IPSentry T F Net).
Implicit Types (st : state) (t : T).

Lemma persisted_expiry merge (r : BlockedIP) t :
  (forall p, bi_ExpiresAt (merge p r) = bi_ExpiresAt r) -> bi_ExpiresAt (persist_ban merge r t).1 = bi_ExpiresAt r.
Proof.
  intros Hm. unfold persist_ban. destruct (tbl_first _ t) as [[p|] t1]; [apply Hm|]. unfold create_ban.
  destruct (existsb _ _); [done|]. pose proof (create_ok r t1) as Hc. destruct (tbl_create r t1) as [[x|] t2]; [|done]. simpl in *.
  destruct (Hc x eq_refl) as (_ & Hx & _). by rewrite Hx.
Qed.

(** What a manual ban does to the active bans. *)
Lemma ban_manual_cases now ip reason dur st :
  let '(st', e) := BanManual parse_ip ip_string net_contains cfg be now ip reason dur st in
  match e with
  | Some _ => is_banned st' = is_banned st
  | None => is_Some (parse_ip ip) /\ IsWhitelisted parse_ip ip_string net_contains ip st = false /\ IsBanned now ip st = false /\
      exists b, is_banned st' = <[ip := b]> (is_banned st) /\ bi_ExpiresAt b = option_map (fun d => now + d) dur
  end.
Proof.
  unfold BanManual. destruct (parse_ip ip) eqn:Hp; [|done]. destruct (IsWhitelisted _ _ _ ip st) eqn:Hw; [done|].
  destruct (IsBanned now ip st) eqn:Hb; [done|]. destruct dur as [dur|].
  - cbv zeta. match goal with |- context [persist_ban ?m ?r ?t] => pose proof (persisted_expiry m r t ltac:(done)) as Hx; destruct (persist_ban m r t) as [b t1] end.
    destruct (be_Ban be now ip _ _) as [fw [|]]; simpl in *; [|done]. split; [done|]. split; [done|]. split; [done|]. by exists b.
  - unfold banIPPermanent.
    match goal with |- context [persist_ban ?m ?r ?t] => pose proof (persisted_expiry m r t ltac:(done)) as Hx; destruct (persist_ban m r t) as [b t1] end.
    destruct (be_Ban be now ip _ _) as [fw ok]. split; [by eexists|]. split; [done|]. split; [done|]. exists b. split; [|done].
    by destruct ok.
Qed.

(** A ban an administrator is told of holds from the first instant and
    exactly as long as asked for, for ever without a duration; it touches no other
    address, and no address the whitelist protects can be banned so. What is
    turned away bans nobody, and an unban that is confirmed ends the ban of that
    address alone. *)
Theorem manual_bans_hold now body st ip :
  (let '(a, s) := handleBanIP parse_ip ip_string net_contains cfg be now body (Some st) in
   exists st', s = Some st' /\
   match a with
   | Answer ip => exists req dur, body = Some req /\ ip = trim_space (br_IP req) /\ ban_duration (br_Duration req) = Ok dur /\
       IsWhitelisted parse_ip ip_string net_contains ip st = false /\
       (forall now', IsBanned now' ip st' = match dur with Some d => now' <=? now + d | None => true end) /\
       forall ip', ip' <> ip -> is_banned st' !! ip' = is_banned st !! ip'
   | Reject _ _ => is_banned st' = is_banned st
   end) /\
  (let '(a, s) := handleUnbanIP be now ip (Some st) in
   exists st', s = Some st' /\
   match a with
   | Answer ip => IsBanned now ip st = true /\ is_banned st' = delete ip (is_banned st)
   | Reject _ _ => is_banned st' = is_banned st
   end).
Proof.
  split.
  - unfold handleBanIP, sentryOr404. destruct body as [req|]; [|by eexists]. cbv zeta.
    destruct (trim_space (br_IP req) =? "")%string; [by eexists|]. destruct (ban_duration (br_Duration req)) as [dur|e] eqn:Hd; [|by eexists].
    set (reason := if (br_Reason req =? "")%string then _ else _).
    pose proof (ban_manual_cases now (trim_space (br_IP req)) reason dur st) as Hc.
    destruct (BanManual _ _ _ _ _ _ _ _ _ _) as [st' [e|]]; eexists; (split; [done|]); [done|].
    destruct Hc as (_ & Hw & _ & b & Hb & Hx). exists req, dur. split; [done|]. split; [done|]. split; [done|]. split; [done|]. split.
    + intros now'. unfold IsBanned. rewrite Hb, lookup_insert_eq. unfold expired_at. rewrite Hx. destruct dur as [dd|]; [|done]. simpl.
      by rewrite Z.leb_antisym.
    + intros ip' Hne. by rewrite Hb, lookup_insert_ne.
  - unfold handleUnbanIP, sentryOr404. cbv zeta. destruct (trim_space ip =? "")%string; [by eexists|]. unfold UnbanIP.
    destruct (IsBanned now (trim_space ip) st) eqn:Hb; simpl; [|by eexists]. eexists. split; [done|]. split; [done|].
    unfold unbanIP. destruct (be_Unban be _ _) as [fw [|]]; done.
Qed.
End facts.

(** A duration that is not one: nothing happens; and a ban of ten minutes. *)
Example manual_bans :
  let st := example_sentry 0 (c_Security zero_config) in
  let ban d := handleBanIP (IPAddr := string) Some id has_prefix (c_Security zero_config) logOnlyBackend 0
    (Some {| br_IP := " 192.0.2.9 "; br_Reason := ""; br_Duration := d |}) (Some st) in
  (ban "soon").1 = Reject 400 "invalid duration" /\ (ban "10m").1 = Answer "192.0.2.9" /\
  match (ban "10m").2 with
  | Some st' => IsBanned (10 * minute) "192.0.2.9" st' = true /\ IsBanned (10 * minute + 1) "192.0.2.9" st' = false
  | None => False
  end.
Proof. vm_compute. repeat split. Qed.
