(* ===== verification/GatewayAdmin.v ===== *)
(** * GatewayAdmin: templates and gateways through the web API
    ([gofaxserver/web_gateways.go])

    Each handler decodes, runs an operation of [Gateways] and answers; the
    templates it edits itself. *)

From S2P Require Import Prelude Config Store FaxJob Regexp Directory Media GatewayTemplates Gateways GatewayInvariant TenantUsers WebAdmin WebAdminFacts.

Record gatewayTemplateView := { gv_Template : GatewayTemplate; gv_Variables : list string }.

Section handlers.
Context {TT TN TE TG TC : Type} `{!Table TT Tenant} `{!Table TN TenantNumber} `{!Table TE Endpoint}
  `{!Table TG GatewayTemplate} `{!Table TC GatewayConfig}.
Variable is_ip : string -> bool.
Variable lookup_ip : string -> option (list string).
Variable env : GwEnv.
#[local] Notation GwState := (GwState (TT := TT) (TN := TN) (TE := TE) (TG := TG) (TC := TC)).
#[local] Notation GM := (GM (TT := TT) (TN := TN) (TE := TE) (TG := TG) (TC := TC)).
#[local] Notation variables := (TemplateVariables (ge_codec env)).

(** ** Templates *)

Fixpoint templateViews (tpls : list GatewayTemplate) : res (list gatewayTemplateView) :=
  match tpls with
  | [] => Ok []
  | t :: tpls' =>
      match variables (gt_Body t) with
      | Err e => Err e
      | Ok vars => match templateViews tpls' with
                   | Err e => Err e
                   | Ok out => Ok ({| gv_Template := t; gv_Variables := vars |} :: out)
                   end
      end
  end.

Definition handleListGatewayTemplates (st : GwState) : answer (list gatewayTemplateView) * GwState :=
  let '(tpls, t) := tbl_find (fun _ => true) (gs_templates st) in
  (match tpls with
   | None => Reject 500 "failed to list templates"
   | Some tpls => match templateViews tpls with Ok views => Answer views | Err e => Reject 500 e end
   end, st <| gs_templates := t |>).

(** The view of a stored template; its body has been parsed before. *)
Definition view_of (tpl : GatewayTemplate) : gatewayTemplateView :=
  {| gv_Template := tpl; gv_Variables := match variables (gt_Body tpl) with Ok vars => vars | Err _ => [] end |}.

(** The unique index on the name. *)
Definition template_name_taken (tpl x : GatewayTemplate) : bool :=
  (gt_Name x =? gt_Name tpl)%string && negb (gt_ID x =? gt_ID tpl).

(** [Create] of a row that may bring its own key. *)
Definition insert_template (tpl : GatewayTemplate) (t : TG) : option GatewayTemplate * TG :=
  if existsb (template_name_taken tpl) (tbl_rows t) then (None, t)
  else gorm_create tpl t.

Definition handleCreateGatewayTemplate (body : option GatewayTemplate) (st : GwState) : answer gatewayTemplateView * GwState :=
  match body with
  | None => (Reject 400 "invalid payload", st)
  | Some tpl =>
      if (gt_Name tpl =? "")%string || (gt_Body tpl =? "")%string then (Reject 400 "name and body are required", st)
      else match variables (gt_Body tpl) with
           | Err e => (Reject 400 e, st)
           | Ok _ =>
               let '(created, t) := insert_template tpl (gs_templates st) in
               (match created with Some tpl => Answer (view_of tpl) | None => Reject 500 "failed to create template" end,
                st <| gs_templates := t |>)
           end
  end.

Definition save_template (tpl : GatewayTemplate) (t : TG) : option GatewayTemplate * TG :=
  if existsb (template_name_taken tpl) (tbl_rows t) then (None, t) else gorm_save tpl t.

Definition handleUpdateGatewayTemplate (idStr : string) (body : option GatewayTemplate) (st : GwState) : answer gatewayTemplateView * GwState :=
  match atoi idStr, body with
  | None, _ => (Reject 400 "invalid template id", st)
  | _, None => (Reject 400 "invalid payload", st)
  | Some id, Some tpl =>
      match variables (gt_Body tpl) with
      | Err e => (Reject 400 e, st)
      | Ok _ =>
          let '(saved, t) := save_template (tpl <| gt_ID := uint_of_int id |>) (gs_templates st) in
          (match saved with Some tpl => Answer (view_of tpl) | None => Reject 500 "failed to update template" end,
           st <| gs_templates := t |>)
      end
  end.

(** The count of its users; an error leaves it at 0. *)
Definition handleDeleteGatewayTemplate (idStr : string) (st : GwState) : answer () * GwState :=
  match atoi idStr with
  | None => (Reject 400 "invalid template id", st)
  | Some id =>
      let '(users, c) := tbl_find (fun g => gc_TemplateID g =? id) (gs_configs st) in
      let st := st <| gs_configs := c |> in
      if (0 <? length (default [] users))%nat then (Reject 409 "template is used by provisioned gateways", st)
      else
        let '(ok, t) := tbl_delete (fun x => gt_ID x =? id) (gs_templates st) in
        (if ok then Answer () else Reject 500 "failed to delete template", st <| gs_templates := t |>)
  end.

(** ** Gateways *)

(** An operation and the status its error is answered with. *)
Definition answered {A} (status : string -> Z) (m : GM A) (st : GwState) : answer A * GwState :=
  match m st with
  | (Ok a, st') => (Answer a, st')
  | (Err e, st') => (Reject (status e) e, st')
  end.
Definition internal (_ : string) : Z := 500.

Definition handleListGateways : GwState -> answer GatewayOverview * GwState := answered internal (ListGateways env).

(** [base]: the last element of the path. *)
Definition handleAdoptGateway (base : option string) (st : GwState) : answer GatewayStatus * GwState :=
  match base with
  | None => (Reject 400 "file is required", st)
  | Some f => if (f =? "")%string then (Reject 400 "file is required", st) else answered internal (AdoptGateway env f) st
  end.

Definition handleDeleteUnmanagedGateway (name confirm : string) (st : GwState) : answer () * GwState :=
  if negb (confirm =? "true")%string then (Reject 400 "refusing to delete unmanaged gateway without confirm=true query param", st)
  else answered internal (DeleteUnmanagedGateway env name) st.

Definition handleRepairGateway (name : string) : GwState -> answer GatewayStatus * GwState := answered internal (RepairGateway env name).

Definition handleProvisionGateway (body : option GatewayProvisionSpec) (st : GwState) : answer GatewayStatus * GwState :=
  match body with
  | None => (Reject 400 "invalid payload", st)
  | Some spec => answered internal (ProvisionGateway is_ip lookup_ip env spec) st
  end.

Definition handleUpdateGateway (name : string) (body : option GatewayProvisionSpec) (st : GwState) : answer GatewayStatus * GwState :=
  match body with
  | None => (Reject 400 "invalid payload", st)
  | Some spec => answered internal (UpdateGateway is_ip lookup_ip env name spec) st
  end.

Definition handleProvisionGatewayFromEndpoint (body : option ProvisionGatewayFromEndpointSpec) (st : GwState)
  : answer GatewayStatus * GwState :=
  match body with
  | None => (Reject 400 "invalid payload", st)
  | Some spec =>
      if (pe_EndpointID spec =? 0) || (pe_TemplateID spec =? 0) then (Reject 400 "endpoint_id and template_id are required", st)
      else answered internal (ProvisionGatewayFromEndpoint env spec) st
  end.

(** [errors.Is]: the kinds of the errors [CreateGatewayAlias] wraps. *)
Definition alias_status (name e : string) : Z :=
  if negb (gatewayNameRe name) then 400
  else if (e =? "gateway not provisioned")%string then 404
  else if (e =? "gateway alias already exists")%string then 409
  else if str_mem e ["tenant number not found"; "tenant number is not loaded; reload data first"] then 400
  else 500.

Definition handleCreateGatewayAlias (name : string) (body : option GatewayAliasSpec) (st : GwState) : answer Endpoint * GwState :=
  match body with
  | None => (Reject 400 "invalid payload", st)
  | Some spec => answered (alias_status name) (CreateGatewayAlias is_ip lookup_ip env name spec) st
  end.

Definition deprovision_status (e : string) : Z := if (e =? "gateway has alias endpoints")%string then 409 else 500.

Definition handleDeprovisionGateway (name : string) : GwState -> answer () * GwState :=
  answered deprovision_status (DeprovisionGateway env name).

Definition handleRescanFSProfile (st : GwState) : answer string * GwState :=
  match fsReloadGateways env st with
  | (Ok _, st') => (Answer (gatewayProfile env), st')
  | (Err e, st') => (Reject 502 ("freeswitch rescan failed: " +:+ e), st')
  end.

Definition fsRestartProfile : GM string := fsAPI env ("sofia profile " +:+ gatewayProfile env +:+ " restart").

Definition handleRestartFSProfile (confirm : string) (st : GwState) : answer string * GwState :=
  if negb (confirm =? "true")%string then (Reject 400 "refusing to restart the sofia profile (drops active calls) without confirm=true query param", st)
  else match fsRestartProfile st with
       | (Ok _, st') => (Answer (gatewayProfile env), st')
       | (Err e, st') => (Reject 502 ("freeswitch profile restart failed: " +:+ e), st')
       end.

Inductive GatewayRequest :=
  | ReqListTemplates | ReqCreateTemplate (body : option GatewayTemplate) | ReqUpdateTemplate (id : string) (body : option GatewayTemplate)
  | ReqDeleteTemplate (id : string) | ReqList | ReqAdopt (base : option string) | ReqDeleteUnmanaged (name confirm : string)
  | ReqRepair (name : string) | ReqProvision (body : option GatewayProvisionSpec)
  | ReqUpdate (name : string) (body : option GatewayProvisionSpec) | ReqFromEndpoint (body : option ProvisionGatewayFromEndpointSpec)
  | ReqAlias (name : string) (body : option GatewayAliasSpec) | ReqDeprovision (name : string) | ReqRescan | ReqRestart (confirm : string).

(** The state after a request. *)
Definition gateway_request (r : GatewayRequest) (st : GwState) : GwState :=
  match r with
  | ReqListTemplates => (handleListGatewayTemplates st).2
  | ReqCreateTemplate body => (handleCreateGatewayTemplate body st).2
  | ReqUpdateTemplate id body => (handleUpdateGatewayTemplate id body st).2
  | ReqDeleteTemplate id => (handleDeleteGatewayTemplate id st).2
  | ReqList => (handleListGateways st).2
  | ReqAdopt base => (handleAdoptGateway base st).2
  | ReqDeleteUnmanaged name confirm => (handleDeleteUnmanagedGateway name confirm st).2
  | ReqRepair name => (handleRepairGateway name st).2
  | ReqProvision body => (handleProvisionGateway body st).2
  | ReqUpdate name body => (handleUpdateGateway name body st).2
  | ReqFromEndpoint body => (handleProvisionGatewayFromEndpoint body st).2
  | ReqAlias name body => (handleCreateGatewayAlias name body st).2
  | ReqDeprovision name => (handleDeprovisionGateway name st).2
  | ReqRescan => (handleRescanFSProfile st).2
  | ReqRestart confirm => (handleRestartFSProfile confirm st).2
  end.
End handlers.

Section facts.
Context {TT TN TE TG TC : Type} `{!Table TT Tenant} `{!Table TN TenantNumber}
  `{!Table TE Endpoint, !TableLaws TE Endpoint} `{!Table TG GatewayTemplate, !TableLaws TG GatewayTemplate}
  `{!Table TC GatewayConfig, !TableLaws TC GatewayConfig}.
Variable is_ip : string -> bool.
Variable lookup_ip : string -> option (list string).
Variable env : GwEnv.
#[local] Notation GwState := (GwState (TT := TT) (TN := TN) (TE := TE) (TG := TG) (TC := TC)).
#[local] Notation GM := (GM (TT := TT) (TN := TN) (TE := TE) (TG := TG) (TC := TC)).
#[local] Notation run_op := (GatewayInvariant.run_op is_ip lookup_ip env).
#[local] Notation gateway_request := (gateway_request is_ip lookup_ip env).
Implicit Types (st : GwState).

(** A request runs one operation, or leaves gateways and endpoints alone. *)
Definition plain_request (r : GatewayRequest) st : Prop :=
  (cfgs (gateway_request r st) = cfgs st /\ eps (gateway_request r st) = eps st) \/ exists op, gateway_request r st = run_op op st.

Lemma answered_state {A} status (m : GM A) st : (answered status m st).2 = (m st).2.
Proof. unfold answered. by destruct (m st) as [[] ?]. Qed.

Lemma requests_plain r st : plain_request r st.
Proof.
  destruct r as [|[tpl|]|id body|id| |[f|]|name confirm|name|[spec|]|name [spec|]|[spec|]|name [spec|]|name| |confirm];
    unfold plain_request; cbn [GatewayAdmin.gateway_request]; try (by left).
  - left. unfold handleListGatewayTemplates. by destruct (tbl_find _ _).
  - left. unfold handleCreateGatewayTemplate. destruct (_ || _); [done|]. destruct (TemplateVariables _ _); [|done].
    by destruct (insert_template _ _).
  - left. unfold handleUpdateGatewayTemplate. destruct (atoi id), body as [tpl|]; try done. destruct (TemplateVariables _ _); [|done].
    by destruct (save_template _ _).
  - left. unfold handleDeleteGatewayTemplate. destruct (atoi id) as [i|]; [|done].
    pose proof (find_rows (fun g => gc_TemplateID g =? i) (gs_configs st)) as Hr. destruct (tbl_find _ _) as [users c]. simpl in Hr. cbv zeta.
    destruct (_ <? _)%nat; [by unfold cfgs; simpl|]. by destruct (tbl_delete _ _).
  - right. exists GatewayInvariant.OpList. apply answered_state.
  - unfold handleAdoptGateway. destruct (f =? "")%string; [by left|]. right. exists (GatewayInvariant.OpAdopt f). apply answered_state.
  - unfold handleDeleteUnmanagedGateway. destruct (negb _); [by left|]. right. exists (GatewayInvariant.OpDeleteUnmanaged name). apply answered_state.
  - right. exists (GatewayInvariant.OpRepair name). apply answered_state.
  - right. exists (GatewayInvariant.OpProvision spec). apply answered_state.
  - right. exists (GatewayInvariant.OpUpdate name spec). apply answered_state.
  - unfold handleProvisionGatewayFromEndpoint. destruct (_ || _); [by left|]. right. exists (GatewayInvariant.OpFromEndpoint spec). apply answered_state.
  - right. exists (GatewayInvariant.OpAlias name spec). apply answered_state.
  - right. exists (GatewayInvariant.OpDeprovision name). apply answered_state.
  - left. unfold handleRescanFSProfile. destruct (quiet_reload env st) as (HC & HE & _). by destruct (fsReloadGateways env st) as [[] st'].
  - left. unfold handleRestartFSProfile. destruct (negb _); [done|]. unfold fsRestartProfile, fsAPI. by destruct (ge_api env _ _).
Qed.

(** What changes the gateways and endpoints of a running server: the requests of
    the gateway API, those of the endpoint API that arrive while the gateway table
    answers, and the seeding of templates at the start. *)
Inductive gateway_step : GwState -> GwState -> Prop :=
| step_gateway_request r st : gateway_step st (gateway_request r st)
| step_endpoint_request r st : tbl_healthy (gs_configs st) -> gateway_step st (serve_endpoint is_ip lookup_ip r st)
| step_seed defs st : gateway_step st (seedGatewayTemplates defs st).2.

Lemma gateway_step_inv st st' : gateway_step st st' -> InvSt st -> InvSt st'.
Proof.
  intros [r s|r s Hh|defs s] HI.
  - destruct (requests_plain r s) as [[HC HE]|[op ->]]; [|by apply run_op_linked]. unfold InvSt. by rewrite HC, HE.
  - by apply serve_endpoint_inv.
  - by apply (run_op_linked is_ip lookup_ip env (GatewayInvariant.OpSeed defs)).
Qed.

(** C17: through any sequence of requests of the gateway API and of the
    endpoint API, whichever of their database, file and FreeSWITCH calls fail,
    every gateway row keeps a usable name, and the endpoint row it is linked to
    exists, is of type gateway and starts with that name. An endpoint request has
    to arrive while the gateway table answers: an unreadable table counts as "no
    gateway manages this endpoint", and the endpoint of a gateway can then be
    changed or deleted ([managed_endpoint_deleted_on_error]). *)
Theorem gateway_names_agree st st' (g : GatewayConfig) :
  ids_ok (eps st) -> (forall c, c ∈ cfgs st -> linked (eps st) c) -> rtc gateway_step st st' -> g ∈ cfgs st' ->
  gatewayNameRe (gc_Name g) = true /\
  (gc_EndpointID g <> 0 -> exists ep, ep ∈ eps st' /\ ep_ID ep = gc_EndpointID g /\ is_gateway ep = true /\ gatewayLabel ep = gc_Name g).
Proof.
  intros Hid Hl Hrun Hg. assert (InvSt st') as HI.
  { assert (InvSt st) as HI by by split. clear Hid Hl Hg. induction Hrun as [|x y z Hxy _ IH]; [done|].
    by apply IH, (gateway_step_inv x). }
  destruct (proj2 HI g Hg) as [Hn H]. split; [done|]. intros H0. by destruct H.
Qed.

(** A deleted template is no gateway's, while the gateway table answers. *)
Theorem deleted_template_unused idStr st : tbl_healthy (gs_configs st) ->
  let '(a, st') := handleDeleteGatewayTemplate idStr st in
  a = Answer () -> exists id, atoi idStr = Some id /\ (forall g, g ∈ cfgs st' -> gc_TemplateID g <> id) /\
    tbl_rows (gs_templates st') = List.filter (fun x => negb (gt_ID x =? id)) (tbl_rows (gs_templates st)).
Proof.
  intros Hh. unfold handleDeleteGatewayTemplate. destruct (atoi idStr) as [id|]; [|done].
  destruct (find_healthy (fun g => gc_TemplateID g =? id) (gs_configs st) Hh) as (Hf & Hr & _).
  destruct (tbl_find _ _) as [users c]. simpl in Hf, Hr. subst users. cbv zeta. cbn [default Datatypes.id].
  destruct (Nat.ltb_spec 0 (length (List.filter (fun g => gc_TemplateID g =? id) (tbl_rows (gs_configs st))))) as [|Hnone]; [done|].
  pose proof (delete_ok (fun x => gt_ID x =? id) (gs_templates (st <| gs_configs := c |>))) as Hd.
  destruct (tbl_delete _ _) as [[|] t]; [|done]. intros _. exists id. split; [done|]. split; [|exact (Hd eq_refl)].
  unfold cfgs. simpl. intros g Hg Hi. rewrite Hr in Hg.
  assert (In g (List.filter (fun g => gc_TemplateID g =? id) (tbl_rows (gs_configs st)))) as Hin
    by (apply filter_In; split; [by apply list_elem_of_In|by apply Z.eqb_eq]).
  destruct (List.filter _ _); [done|]. simpl in Hnone. lia.
Qed.
End facts.

(** When that table cannot be read the template of a gateway is deleted. *)
Example used_template_deleted_on_error :
  let broken := toy_provisioned <| gs_configs ::= fun t => fresh_table (lt_rows t) 9 [true] |> in
  map gc_TemplateID (tbl_rows (gs_configs toy_provisioned)) = [1] /\
  (handleDeleteGatewayTemplate "1" toy_provisioned).1 = Reject 409 "template is used by provisioned gateways" /\
  (handleDeleteGatewayTemplate "1" broken).1 = Answer ().
Proof. vm_compute. repeat split. Qed.

(** An update may leave a template without a name or a body, which a creation
    may not. *)
Example template_emptied_by_update :
  let empty := {| gt_ID := 0; gt_Name := ""; gt_Description := ""; gt_Body := "" |} in
  (handleCreateGatewayTemplate toy_env (Some empty) toy_provisioned).1 = Reject 400 "name and body are required" /\
  match (handleUpdateGatewayTemplate toy_env "1" (Some empty) toy_provisioned).1 with
  | Answer v => gt_ID (gv_Template v) = 1 /\ gt_Body (gv_Template v) = ""
  | Reject _ _ => False
  end.
Proof. vm_compute. repeat split. Qed.

(** A gateway is provisioned, its endpoint is asked to be deleted, which is
    refused, and its address is changed. *)
Lemma gateway_names_agree_witness :
  let st1 := gateway_request no_ip no_dns toy_env (ReqProvision (Some toy_spec)) toy_state in
  let st2 := serve_endpoint no_ip no_dns (ReqDelete "8") st1 in
  let st3 := gateway_request no_ip no_dns toy_env (ReqUpdate "pbx_acme" (Some (toy_spec <| gp_EndpointIP := "198.51.100.9" |>))) st2 in
  exists g, g ∈ cfgs st3 /\ gatewayNameRe (gc_Name g) = true /\ gc_EndpointID g = 8.
Proof.
  intros st1 st2 st3. assert (exists g, cfgs st3 = [g] /\ gc_EndpointID g = 8) as (g & HC & Hi)
    by (eexists; split; [vm_compute; reflexivity|reflexivity]).
  exists g. split; [rewrite HC; by left|]. split; [|exact Hi].
  apply (gateway_names_agree no_ip no_dns toy_env toy_state st3 g).
  - unfold ids_ok. apply (bool_decide_unpack _). vm_compute; reflexivity.
  - intros c Hc. by apply not_elem_of_nil in Hc.
  - eapply rtc_l; [apply step_gateway_request with (r := ReqProvision (Some toy_spec))|].
    eapply rtc_l; [apply step_endpoint_request with (r := ReqDelete "8"); vm_compute; reflexivity|].
    eapply rtc_l; [apply step_gateway_request with (r := ReqUpdate "pbx_acme" (Some (toy_spec <| gp_EndpointIP := "198.51.100.9" |>)))|].
    apply rtc_refl.
  - rewrite HC. by left.
Defined.
