(* ===== verification/PortalUpstream.v ===== *)
(** * PortalUpstream: what the portal asks of gofaxserver
    ([portal/internal/fsclient/client.go], as an interface)

    The portal keeps a mirror of gofaxserver's tenants, numbers and endpoints
    and works on the original through HTTP calls. This is the contract its
    handlers are proved against: what a call that succeeds has done, and that a
    call that fails has done all of it or nothing (the reply may be lost).
    [PortalClient] shows that the client and the server's own handlers honour
    it. *)

From S2P Require Import Prelude Store FaxJob Directory TenantUsers WebAdmin.

(** A failed call: no answer, an answer outside 200–299, one that cannot be
    decoded, or one to a send that names no job. *)
Inductive FxError :=
| Unreachable (e : string) | APIError (Status : Z) (Message : string) | Undecodable (path e : string) | NoJobUUID.

Definition Error (e : FxError) : string :=
  match e with
  | Unreachable e => "gofaxserver unreachable: " +:+ e
  | APIError status message => "gofaxserver " +:+ dec_string status +:+ ": " +:+ message
  | Undecodable path e => "decode response from " +:+ path +:+ ": " +:+ e
  | NoJobUUID => "gofaxserver did not return job_uuid"
  end.

Inductive fx (A : Type) := FxOk (a : A) | FxErr (e : FxError).
Arguments FxOk {A} a.
Arguments FxErr {A} e.

Definition fx_failed {A} (r : fx A) : Prop := exists e, r = FxErr e.

(** The client's methods; [up_numbers] and [up_logins] are what a reader of
    gofaxserver's tables would see. *)
Class Upstream (W : Type) := {
  fx_ListTenants : W -> fx (list Tenant) * W;
  fx_CreateTenant : string -> string -> W -> fx Tenant * W;
  fx_UpdateTenant : Z -> string -> string -> W -> fx unit * W;
  fx_DeleteTenant : Z -> W -> fx unit * W;
  fx_ListNumbers : Z -> W -> fx (list TenantNumber) * W;
  fx_AddNumber : TenantNumber -> W -> fx TenantNumber * W;
  fx_UpdateNumber : TenantNumber -> W -> fx unit * W;
  fx_DeleteNumber : Z -> string -> W -> fx unit * W;
  fx_ListUsers : Z -> W -> fx (list TenantUserPublic) * W;
  fx_CreateTenantUser : TenantUser -> W -> fx TenantUser * W;
  fx_UpdateTenantUser : TenantUser -> W -> fx unit * W;
  fx_DeleteTenantUser : Z -> W -> fx unit * W;
  fx_AuthenticateSvcAccount : string -> string -> W -> fx unit * W;
  fx_AddEndpoint : Endpoint -> W -> fx Endpoint * W;
  fx_UpdateEndpoint : Endpoint -> W -> fx unit * W;
  fx_DeleteEndpoint : Z -> W -> fx unit * W;
  fx_ListEndpoints : string -> Z -> W -> fx (list Endpoint) * W;
  up_numbers : W -> list TenantNumber;
  up_logins : W -> string -> string -> Prop;
  up_ok : W -> Prop;             (* gofaxserver's own bookkeeping is in order *)
}.

(** A call that has nothing to do with numbers. *)
Definition spares_numbers {W A} `{Upstream W} (f : W -> fx A * W) : Prop :=
  forall w, up_ok w -> up_ok (f w).2 /\ up_numbers (f w).2 = up_numbers w.

(** The row of a new number. *)
Definition added (n n' : TenantNumber) (rows : list TenantNumber) : Prop :=
  n' = n <| tn_ID := tn_ID n' |> /\ 0 < tn_ID n' /\
  (forall r, r ∈ rows -> tn_ID r <> tn_ID n' /\ tn_Number r <> tn_Number n).

(** A number as the portal stores it. *)
Definition dial_char (c : ascii) : bool := is_digit c || Ascii.eqb c "+".
Definition dialable (k : string) : Prop := str_forall dial_char k = true.

Class UpstreamLaws (W : Type) `{Upstream W} : Prop := {
  tenants_listed : spares_numbers fx_ListTenants;
  tenant_created : forall name notify, spares_numbers (fx_CreateTenant name notify);
  tenant_updated : forall i name notify, spares_numbers (fx_UpdateTenant i name notify);
  tenant_deleted : forall i, spares_numbers (fx_DeleteTenant i);
  numbers_listed : forall i, spares_numbers (fx_ListNumbers i);
  users_listed : forall i, spares_numbers (fx_ListUsers i);
  user_created : forall u, spares_numbers (fx_CreateTenantUser u);
  user_updated : forall u, spares_numbers (fx_UpdateTenantUser u);
  user_deleted : forall i, spares_numbers (fx_DeleteTenantUser i);
  user_authenticated : forall u p, spares_numbers (fx_AuthenticateSvcAccount u p);
  endpoint_added : forall ep, spares_numbers (fx_AddEndpoint ep);
  endpoint_updated : forall ep, spares_numbers (fx_UpdateEndpoint ep);
  endpoint_deleted : forall i, spares_numbers (fx_DeleteEndpoint i);
  endpoints_listed : forall t i, spares_numbers (fx_ListEndpoints t i);
  numbers_keyed : forall w, up_ok w -> ids_ok (up_numbers w) /\ NoDup (map tn_Number (up_numbers w));
  numbers_found : forall i w l, 0 <= i -> (fx_ListNumbers i w).1 = FxOk l ->
    l = List.filter (fun n => (i =? 0) || (tn_TenantID n =? i)) (up_numbers w);
  number_added : forall n w, up_ok w -> dialable (tn_Number n) -> let '(r, w') := fx_AddNumber n w in up_ok w' /\
    ((exists n', added n n' (up_numbers w) /\ up_numbers w' = up_numbers w ++ [n'] /\ (r = FxOk n' \/ fx_failed r)) \/
     fx_failed r /\ up_numbers w' = up_numbers w);
  (* of a number that is not renamed by it *)
  number_updated : forall n w, up_ok w -> 0 < tn_ID n -> dialable (tn_Number n) ->
    (forall r, r ∈ up_numbers w -> tn_ID r = tn_ID n -> tn_Number r = tn_Number n) ->
    let '(r, w') := fx_UpdateNumber n w in up_ok w' /\
    (up_numbers w' = replace_row n (up_numbers w) \/ fx_failed r /\ up_numbers w' = up_numbers w);
  number_deleted : forall i k w, up_ok w -> dialable k -> let '(r, w') := fx_DeleteNumber i k w in up_ok w' /\
    (up_numbers w' = List.filter (fun n => negb (tn_Number n =? k)%string) (up_numbers w) \/
     fx_failed r /\ up_numbers w' = up_numbers w);
  login_accepted : forall u p w, (fx_AuthenticateSvcAccount u p w).1 = FxOk () ->
    up_logins (fx_AuthenticateSvcAccount u p w).2 u p;
}.
