(* ===== verification/PortalAdmin.v ===== *)
(** * PortalAdmin: organisations, numbers and users
    ([portal/internal/api/handlers_admin.go], the parts with local state)

    Every handler works on two stores: the portal's tables and, through
    [Upstream], gofaxserver's. A request that changes what a number's notify
    string is derived from recomputes the string and pushes it before it
    commits. Audit rows are left out; a request body that does not parse is
    [None]. *)

From S2P Require Import Prelude Store FaxJob Directory PortalModels PortalNotify PortalAuth TenantUsers WebAdmin PortalUpstream.

(** What a request draws: random tokens, a nonce, password hashes, and whether
    the transaction, if there is one, begins and commits. *)
Record AdminEnv := {
  ae_suffix : string; ae_password : string; ae_apiKey : string; ae_nonce : option string;
  ae_bcrypt : string -> option string; ae_begin : bool; ae_commit : bool;
}.

(** ** Text *)

Definition slug_char (c : ascii) : bool :=
  let n := ascii_nat c in ((97 <=? n) && (n <=? 122))%nat || is_digit c.

(** A run of other characters becomes one dash; [prev]: the last character
    written was one. Lower case is that of ASCII letters. *)
Fixpoint slug_strip (prev : bool) (s : string) : string :=
  match s with
  | EmptyString => ""
  | String c s' =>
      if slug_char c then String c (slug_strip false s')
      else if prev then slug_strip true s' else String "-" (slug_strip true s')
  end.

Definition trim_dashes (s : string) : string :=
  let s := if has_prefix s "-" then str_drop 1 s else s in
  if has_suffix s "-" then str_take (String.length s - 1) s else s.

Definition slugify (name : string) : string :=
  let s := str_take 24 (trim_dashes (slug_strip false (to_lower name))) in
  if (s =? "")%string then "org" else s.

Example slugify_ex : slugify "Acme & Söhne Ltd." = "acme-s-hne-ltd" /\ slugify "!!" = "org".
Proof. by vm_compute. Qed.

(** Digits and plus signs; in Go by runes, of which only these are kept. *)
Fixpoint keep_dialable (s : string) : string :=
  match s with
  | EmptyString => ""
  | String c s' => if dial_char c then String c (keep_dialable s') else keep_dialable s'
  end.

Lemma keep_dialable_ok s : dialable (keep_dialable s).
Proof. unfold dialable. induction s as [|c s IH]; cbn; [done|]. destruct (dial_char c) eqn:E; [cbn; by rewrite E|done]. Qed.

Definition sanitizeNumber (raw : string) : string := keep_dialable (trim_space raw).

(** ** The handlers' monad *)

Section admin.
Context {TS TP TU TO TN TA TF W : Type} `{!Table TS Session} `{!Table TP PendingAuth}
  `{!Table TU PortalUser} `{!TableTx TU PortalUser} `{!Table TO PortalOrg} `{!Table TN PortalNumber}
  `{!Relation TA UserNumber} `{!Table TF InboundFax} `{!Upstream W} `{Crypto}.
(** [DISTINCT ... ORDER BY email], and the key that seals service passwords. *)
Variable order : list string -> list string.
Variable Box : string.
Variable env : AdminEnv.
#[local] Notation Portal := (Portal (TS := TS) (TP := TP) (TU := TU) (TO := TO)).

Record AdminState := {
  as_portal : Portal; as_numbers : TN; as_assigned : TA; as_faxes : TF; as_up : W;
  as_aborted : bool;       (* a statement of the open transaction failed *)
  as_saved : TU * TA;      (* what the open transaction found *)
}.

Definition AM (A : Type) : Type := AdminState -> answer A * AdminState.

#[local] Instance am_ret : MRet AM := fun A a st => (Answer a, st).
#[local] Instance am_bind : MBind AM := fun A B f m st =>
  match m st with
  | (Answer a, st') => f a st'
  | (Reject code e, st') => (Reject code e, st')
  end.

Definition reject {A} (code : Z) (e : string) : AM A := fun st => (Reject code e, st).
Definition ensure (b : bool) (code : Z) (e : string) : AM () := if b then mret () else reject code e.
Definition some_or {A} (o : option A) (code : Z) (e : string) : AM A :=
  match o with Some a => mret a | None => reject code e end.
Definition ok_or {A} (r : res A) (code : Z) (msg : string -> string) : AM A :=
  match r with Ok a => mret a | Err e => reject code (msg e) end.
Definition fx_or {A} (r : fx A) (code : Z) (msg : string) : AM A :=
  match r with FxOk a => mret a | FxErr e => reject code (msg +:+ Error e) end.

Definition with_sessions {A} (f : TS -> A * TS) : AM A := fun st =>
  let '(a, t) := f (ps_sessions (as_portal st)) in (Answer a, st <| as_portal ::= fun p => p <| ps_sessions := t |> |>).
Definition with_pending {A} (f : TP -> A * TP) : AM A := fun st =>
  let '(a, t) := f (ps_pending (as_portal st)) in (Answer a, st <| as_portal ::= fun p => p <| ps_pending := t |> |>).
Definition with_users {A} (f : TU -> A * TU) : AM A := fun st =>
  let '(a, t) := f (ps_users (as_portal st)) in (Answer a, st <| as_portal ::= fun p => p <| ps_users := t |> |>).
Definition with_orgs {A} (f : TO -> A * TO) : AM A := fun st =>
  let '(a, t) := f (ps_orgs (as_portal st)) in (Answer a, st <| as_portal ::= fun p => p <| ps_orgs := t |> |>).
Definition with_numbers {A} (f : TN -> A * TN) : AM A := fun st =>
  let '(a, t) := f (as_numbers st) in (Answer a, st <| as_numbers := t |>).
Definition with_assigned {A} (f : TA -> A * TA) : AM A := fun st =>
  let '(a, t) := f (as_assigned st) in (Answer a, st <| as_assigned := t |>).
Definition with_faxes {A} (f : TF -> A * TF) : AM A := fun st =>
  let '(a, t) := f (as_faxes st) in (Answer a, st <| as_faxes := t |>).
Definition FX {A} (f : W -> A * W) : AM A := fun st =>
  let '(a, w) := f (as_up st) in (Answer a, st <| as_up := w |>).

Fixpoint each {A} (f : A -> AM ()) (l : list A) : AM () :=
  match l with [] => mret () | a :: l' => _ ← f a; each f l' end.

(** *** Transactions *)

Inductive handle := DB | TX.

(** A statement. In a transaction that has failed every further statement
    fails. *)
Definition on_handle {A} (h : handle) (m : AM (option A)) : AM (option A) := fun st =>
  match h with
  | DB => m st
  | TX =>
      if as_aborted st then (Answer None, st)
      else match m st with
           | (Answer None, st') => (Answer None, st' <| as_aborted := true |>)
           | r => r
           end
  end.

Definition if_ok (b : bool) : option () := if b then Some () else None.

Definition Begin : AM () := fun st =>
  (Answer (), st <| as_aborted := negb (ae_begin env) |> <| as_saved := (ps_users (as_portal st), as_assigned st) |>).

Definition Rollback : AM () := fun st =>
  (Answer (), st <| as_portal ::= fun p => p <| ps_users ::= tbl_restore (as_saved st).1 |> |>
                 <| as_assigned ::= rel_restore (as_saved st).2 |>).

(** A transaction that cannot be committed is rolled back. *)
Definition Commit : AM bool := fun st =>
  if ae_commit env && negb (as_aborted st) then (Answer true, st)
  else let '(_, st') := Rollback st in (Answer false, st').

(** ** Notify strings *)

(** The other side of the join, read by the same query. *)
Definition assigned_rows : AM (list UserNumber) := fun st => (Answer (rel_rows (as_assigned st)), st).

(** [computeNotify] on a handle; a query that fails yields no addresses. *)
Definition notify_of (h : handle) (numberID : Z) (svcUsername customNotify : string) : AM string :=
  rows ← on_handle h (with_users (tbl_find (fun _ : PortalUser => true)));
  assigned ← assigned_rows;
  mret (computeNotify order (default [] rows) assigned numberID svcUsername customNotify).

(** The row [UpdateNumber] writes for a number. *)
Definition pushed (num : PortalNumber) (org : PortalOrg) (notify : string) : TenantNumber :=
  {| tn_ID := pn_GofaxNumberID num; tn_TenantID := po_GofaxTenantID org; tn_Number := pn_Number num;
     tn_Name := pn_Name num; tn_Header := pn_Header num; tn_Notify := notify |}.

Definition loadNumber (id : Z) : AM (res (PortalNumber * PortalOrg)) :=
  found ← with_numbers (tbl_first (has_id id));
  match found with
  | None => mret (Err "number not found")
  | Some num =>
      owner ← with_orgs (tbl_first (has_id (pn_OrgID num)));
      mret (match owner with Some org => Ok (num, org) | None => Err "org missing for number" end)
  end.

(** One number of [resyncNotifyForNumberIDs]; the failures it adds. *)
Definition resync_one (h : handle) (nid : Z) : AM (list string) :=
  loaded ← loadNumber nid;
  match loaded with
  | Err e => mret ["number:" +:+ dec_string nid +:+ " (" +:+ e +:+ ")"]
  | Ok (num, org) =>
      notify ← notify_of h (pn_ID num) (po_SvcUsername org) (pn_CustomNotify num);
      sent ← FX (fx_UpdateNumber (pushed num org notify));
      mret (match sent with
            | FxOk _ => []
            | FxErr e => [pn_Number num +:+ " (" +:+ Error e +:+ ")"]
            end)
  end.

Fixpoint resyncNotifyForNumberIDs (h : handle) (numberIDs : list Z) : AM (list string) :=
  match numberIDs with
  | [] => mret []
  | nid :: ids => f ← resync_one h nid; fs ← resyncNotifyForNumberIDs h ids; mret (f ++ fs)
  end.

(** The numbers assigned to a user; none when the query fails. *)
Definition number_ids (h : handle) (userID : Z) : AM (list Z) :=
  rows ← on_handle h (with_assigned (rel_find (fun un => un_UserID un =? userID)));
  mret (map un_NumberID (default [] rows)).

Definition resyncUserNotify (h : handle) (userID : Z) : AM (list string) :=
  ids ← number_ids h userID; resyncNotifyForNumberIDs h ids.

Record ResyncResult := { rr_Number : string; rr_Notify : string; rr_Error : option string }.

Definition resync_number (org : PortalOrg) (num : PortalNumber) : AM ResyncResult :=
  notify ← notify_of DB (pn_ID num) (po_SvcUsername org) (pn_CustomNotify num);
  sent ← FX (fx_UpdateNumber (pushed num org notify));
  mret {| rr_Number := pn_Number num; rr_Notify := notify;
          rr_Error := match sent with FxOk _ => None | FxErr e => Some (Error e) end |}.

Fixpoint collect_results {A B} (f : A -> AM B) (l : list A) : AM (list B) :=
  match l with [] => mret [] | a :: l' => b ← f a; bs ← collect_results f l'; mret (b :: bs) end.

Definition org_numbers (orgID : Z) : AM (list PortalNumber) :=
  rows ← with_numbers (tbl_find (fun n => pn_OrgID n =? orgID)); mret (default [] rows).

(** The results, with the status 200 or 502. *)
Definition adminResyncOrgNotify (id : Z) : AM (list ResyncResult) :=
  found ← with_orgs (tbl_first (has_id id));
  org ← some_or found 404 "org not found";
  numbers ← org_numbers (po_ID org);
  results ← collect_results (resync_number org) numbers;
  _ ← ensure (forallb (fun r => match rr_Error r with None => true | Some _ => false end) results) 502 "failures";
  mret results.

(** ** Organisations *)

Record createOrgReq := { co_Name : string }.

Definition adminCreateOrg (req : option createOrgReq) : AM PortalOrg :=
  r ← some_or req 400 "name required";
  _ ← ensure (nonempty (trim_space (co_Name r))) 400 "name required";
  let name := trim_space (co_Name r) in
  made ← FX (fx_CreateTenant name "");
  tenant ← fx_or made 502 "failed to create upstream tenant: ";
  let username := "svc_" +:+ slugify name +:+ "_" +:+ ae_suffix env in
  account ← FX (fx_CreateTenantUser {| tu_ID := 0; tu_TenantID := te_ID tenant; tu_Username := username;
                  tu_Password := ae_password env; tu_APIKey := ae_apiKey env |});
  match account with
  | FxErr e => _ ← FX (fx_DeleteTenant (te_ID tenant)); reject 502 ("failed to create upstream service account: " +:+ Error e)
  | FxOk _ =>
      accepted ← FX (fx_AuthenticateSvcAccount username (ae_password env));
      match accepted with
      | FxErr e => _ ← FX (fx_DeleteTenant (te_ID tenant)); reject 502 ("service account verification failed: " +:+ Error e)
      | FxOk _ =>
          match SealString Box (ae_nonce env) (ae_password env) with
          | None => _ ← FX (fx_DeleteTenant (te_ID tenant)); reject 500 "failed to seal credentials"
          | Some sealed =>
              row ← with_orgs (tbl_create (org_defaults
                {| po_ID := 0; po_Name := name; po_GofaxTenantID := te_ID tenant; po_SvcUsername := username;
                   po_SvcPasswordEnc := sealed; po_TenantNotify := ""; po_TOTPRequired := false;
                   po_RetentionDays := 0; po_Active := true |}));
              match row with
              | None => _ ← FX (fx_DeleteTenant (te_ID tenant)); reject 500 "failed to save organization locally"
              | Some org => mret org
              end
          end
      end
  end.

Definition validRetentionDays (v : Z) : bool := (0 <=? v) && (v <=? 3650).

Record updateOrgReq := {
  uo_Name : option string; uo_Active : option bool; uo_TenantNotify : option string;
  uo_TOTPRequired : option bool; uo_RetentionDays : option Z;
}.

(** The tenant's notify rules upstream, where the portal does not manage them. *)
Definition live_notify (org : PortalOrg) : AM string :=
  listed ← FX fx_ListTenants;
  mret (match listed with
        | FxOk l => foldl (fun acc t => if te_ID t =? po_GofaxTenantID org then te_Notify t else acc) (po_TenantNotify org) l
        | FxErr _ => po_TenantNotify org
        end).

(** The organisation after the rename or the new notify rules went upstream. *)
Definition push_org (r : updateOrgReq) (org : PortalOrg) : AM PortalOrg :=
  let newName := match uo_Name r with Some n => trim_space n | None => "" end in
  let managed := match uo_TenantNotify r with Some _ => true | None => false end in
  if nonempty newName then
    notify ← (if (po_TenantNotify org =? "")%string && negb managed then live_notify org else mret (po_TenantNotify org));
    sent ← FX (fx_UpdateTenant (po_GofaxTenantID org) newName notify);
    _ ← fx_or sent 502 "upstream rename failed: ";
    mret (org <| po_Name := newName |>)
  else if managed then
    sent ← FX (fx_UpdateTenant (po_GofaxTenantID org) (po_Name org) (po_TenantNotify org));
    _ ← fx_or sent 502 "upstream notify update failed: ";
    mret org
  else mret org.

Definition adminUpdateOrg (id : Z) (req : option updateOrgReq) : AM PortalOrg :=
  found ← with_orgs (tbl_first (has_id id));
  org ← some_or found 404 "org not found";
  r ← some_or req 400 "invalid payload";
  org ← match uo_TenantNotify r with
        | None => mret org
        | Some raw => s ← ok_or (normalizeCustomNotify raw) 400 (fun e => "tenant_notify: " +:+ e);
                      mret (org <| po_TenantNotify := s |>)
        end;
  org ← push_org r org;
  let org := org <| po_Active ::= fun a => default a (uo_Active r) |>
                 <| po_TOTPRequired ::= fun a => default a (uo_TOTPRequired r) |> in
  org ← match uo_RetentionDays r with
        | None => mret org
        | Some d => _ ← ensure (validRetentionDays d) 400 "retention_days must be 0 (keep forever) or between 1 and 3650";
                    mret (org <| po_RetentionDays := d |>)
        end;
  saved ← with_orgs (tbl_save org);
  _ ← ensure saved 500 "failed to update org";
  mret org.

(** ** Inbound endpoints *)

Definition provisionPortalEndpoint (num : PortalNumber) (org : PortalOrg) : AM (fx PortalNumber) :=
  made ← FX (fx_AddEndpoint {| ep_ID := 0; ep_Type := "number"; ep_TypeID := pn_GofaxNumberID num;
               ep_EndpointType := "portal"; ep_Endpoint := po_SvcUsername org; ep_Priority := 0; ep_Bridge := false |});
  mret (match made with
        | FxOk ep => FxOk (num <| pn_PortalEndpointID := ep_ID ep |>)
        | FxErr e => FxErr e
        end).

(** Every portal endpoint of the number, whatever comes of it. *)
Definition delete_portal_endpoints (num : PortalNumber) : AM () :=
  listed ← FX (fx_ListEndpoints "number" (pn_GofaxNumberID num));
  match listed with
  | FxOk eps => each (fun ep => if (ep_EndpointType ep =? "portal")%string
                                then _ ← FX (fx_DeleteEndpoint (ep_ID ep)); mret () else mret ()) eps
  | FxErr _ => mret ()
  end.

Definition deprovisionPortalEndpoint (num : PortalNumber) : AM PortalNumber :=
  gone ← (if pn_PortalEndpointID num =? 0 then mret false
          else deleted ← FX (fx_DeleteEndpoint (pn_PortalEndpointID num));
               mret (match deleted with FxOk _ => true | FxErr _ => false end));
  _ ← (if gone : bool then mret () else delete_portal_endpoints num);
  mret (num <| pn_PortalEndpointID := 0 |>).

(** *** Deleting an organisation *)

Definition DestroySessions (userID : Z) : AM bool := with_sessions (tbl_delete (fun s => ss_UserID s =? userID)).

Definition drop_number (org : PortalOrg) (num : PortalNumber) : AM () :=
  _ ← deprovisionPortalEndpoint num;
  _ ← FX (fx_DeleteNumber (po_GofaxTenantID org) (pn_Number num));
  mret ().

Definition of_org (orgID : Z) (u : PortalUser) : bool := match pu_OrgID u with Some i => i =? orgID | None => false end.

Definition retire_user (u : PortalUser) : AM () :=
  _ ← DestroySessions (pu_ID u);
  _ ← with_users (tbl_update (has_id (pu_ID u)) (fun u => u <| pu_Active := false |>));
  mret ().

(** The statement's subquery reads the users as they are. *)
Definition drop_assignments_of_org (orgID : Z) : AM bool := fun st =>
  with_assigned (rel_delete (fun un => existsb (fun u => (pu_ID u =? un_UserID un) && of_org orgID u)
    (tbl_rows (ps_users (as_portal st))))) st.

Definition purge_org (org : PortalOrg) : AM () :=
  numbers ← org_numbers (po_ID org);
  _ ← each (drop_number org) numbers;
  _ ← FX (fx_DeleteTenant (po_GofaxTenantID org));
  _ ← with_numbers (tbl_delete (fun n => pn_OrgID n =? po_ID org));
  _ ← with_faxes (tbl_delete (fun f => if_OrgID f =? po_ID org));
  _ ← drop_assignments_of_org (po_ID org);
  members ← with_users (tbl_find (of_org (po_ID org)));
  _ ← each retire_user (default [] members);
  _ ← with_orgs (tbl_delete (fun o : PortalOrg => po_ID o =? po_ID org));
  mret ().

(** [None]: purged. *)
Definition adminDeleteOrg (id : Z) (purge : bool) : AM (option PortalOrg) :=
  found ← with_orgs (tbl_first (has_id id));
  org ← some_or found 404 "org not found";
  if purge then _ ← purge_org org; mret None
  else
    let org := org <| po_Active := false |> in
    saved ← with_orgs (tbl_save org);
    _ ← ensure saved 500 "failed to deactivate org";
    mret (Some org).

(** *** The service account *)

(** The account of that name among the live ones, given the new credentials;
    whether it had to be created. *)
Definition rotate_upstream (org : PortalOrg) (live : list TenantUserPublic) : AM bool :=
  let renewed i := {| tu_ID := i; tu_TenantID := po_GofaxTenantID org; tu_Username := po_SvcUsername org;
                      tu_Password := ae_password env; tu_APIKey := ae_apiKey env |} in
  match List.find (fun u => (tp_Username u =? po_SvcUsername org)%string) live with
  | Some u =>
      sent ← FX (fx_UpdateTenantUser (renewed (tp_ID u)));
      _ ← fx_or sent 502 "upstream credential update failed: ";
      mret false
  | None =>
      sent ← FX (fx_CreateTenantUser (renewed 0));
      _ ← fx_or sent 502 "upstream service account recreation failed: ";
      mret true
  end.

Definition adminRotateSvcCredentials (id : Z) : AM bool :=
  found ← with_orgs (tbl_first (has_id id));
  org ← some_or found 404 "org not found";
  listed ← FX (fx_ListUsers (po_GofaxTenantID org));
  live ← fx_or listed 502 "failed to list upstream users: ";
  recreated ← rotate_upstream org live;
  accepted ← FX (fx_AuthenticateSvcAccount (po_SvcUsername org) (ae_password env));
  _ ← fx_or accepted 502 "rotated credential verification failed: ";
  sealed ← some_or (SealString Box (ae_nonce env) (ae_password env)) 500 "failed to seal credentials";
  saved ← with_orgs (tbl_save (org <| po_SvcPasswordEnc := sealed |>));
  _ ← ensure saved 500 "failed to store rotated credentials";
  mret recreated.

(** *** Comparing the mirror with gofaxserver *)

Record FieldDrift := { fd_number : string; fd_field : string; fd_portal : string; fd_live : string }.

Record Report := {
  rp_tenant_exists : bool;
  rp_tenant_notify_drift : option (string * string);
  rp_svc_account_ok : bool; rp_svc_auth_ok : bool;
  rp_missing_upstream_numbers : list string;
  rp_missing_local_numbers : list string;
  rp_number_field_drift : list FieldDrift;
}.

(** The last row of a number wins. *)
Definition by_number {A} (number : A -> string) (l : list A) : gmap string A :=
  foldl (fun m a => <[number a := a]> m) ∅ l.

(** One entry of the live map: the number is missing locally, or its fields
    may have drifted. *)
Definition field_drift (org : PortalOrg) (ln : TenantNumber) (num : PortalNumber) : AM (list FieldDrift) :=
  let number := tn_Number ln in
  want ← notify_of DB (pn_ID num) (po_SvcUsername org) (pn_CustomNotify num);
  mret ((if tn_ID ln =? pn_GofaxNumberID num then []
         else [{| fd_number := number; fd_field := "gofax_number_id"; fd_portal := dec_string (pn_GofaxNumberID num);
                  fd_live := dec_string (tn_ID ln) |}]) ++
        (if (tn_Notify ln =? want)%string then []
         else [{| fd_number := number; fd_field := "notify"; fd_portal := want; fd_live := tn_Notify ln |}])).

Definition compare_one (org : PortalOrg) (local : gmap string PortalNumber) (entry : string * TenantNumber)
  : AM (list string * list FieldDrift) :=
  match local !! entry.1 with
  | None => mret ([entry.1], [])
  | Some num => drift ← field_drift org entry.2 num; mret ([], drift)
  end.

(** Whether the stored password still opens and authenticates. *)
Definition svc_auth (org : PortalOrg) : AM bool :=
  match OpenString Box (po_SvcPasswordEnc org) with
  | None => mret false
  | Some pass =>
      accepted ← FX (fx_AuthenticateSvcAccount (po_SvcUsername org) pass);
      mret (match accepted with FxOk _ => true | FxErr _ => false end)
  end.

Definition notify_drift (org : PortalOrg) (live : list Tenant) : option (string * string) :=
  foldl (fun acc t => if (te_ID t =? po_GofaxTenantID org) && nonempty (po_TenantNotify org) &&
                         negb (te_Notify t =? po_TenantNotify org)%string
                      then Some (po_TenantNotify org, te_Notify t) else acc) None live.

(** [enum]: the order in which Go walks a map. *)
Definition adminReconcileOrg (enum : gmap string TenantNumber -> list (string * TenantNumber)) (id : Z) : AM Report :=
  found ← with_orgs (tbl_first (has_id id));
  org ← some_or found 404 "org not found";
  tenants ← FX fx_ListTenants;
  liveTenants ← fx_or tenants 502 "failed to list upstream tenants: ";
  nums ← FX (fx_ListNumbers (po_GofaxTenantID org));
  liveNumbers ← fx_or nums 502 "failed to list upstream numbers: ";
  accounts ← FX (fx_ListUsers (po_GofaxTenantID org));
  liveUsers ← fx_or accounts 502 "failed to list upstream users: ";
  let account_ok := existsb (fun u => (tp_Username u =? po_SvcUsername org)%string) liveUsers in
  auth_ok ← (if account_ok then svc_auth org else mret false);
  localNumbers ← org_numbers (po_ID org);
  let live := by_number tn_Number liveNumbers in
  let local := by_number pn_Number localNumbers in
  compared ← collect_results (compare_one org local) (enum live);
  mret {| rp_tenant_exists := existsb (fun t => te_ID t =? po_GofaxTenantID org) liveTenants;
          rp_tenant_notify_drift := notify_drift org liveTenants;
          rp_svc_account_ok := account_ok; rp_svc_auth_ok := auth_ok;
          rp_missing_upstream_numbers := stable_sort String.ltb
            (map pn_Number (List.filter (fun n => match live !! pn_Number n with Some _ => false | None => true end) localNumbers));
          rp_missing_local_numbers := stable_sort String.ltb (flat_map fst compared);
          rp_number_field_drift := flat_map snd compared |}.

(** ** Numbers *)

Record createNumberReq := {
  cn_OrgID : Z; cn_Number : string; cn_Name : string; cn_Header : string;
  cn_InboundEnabled : option bool; cn_CustomNotify : string;
}.

Definition count_number (number : string) : AM nat :=
  rows ← with_numbers (tbl_find (fun n => (pn_Number n =? number)%string)); mret (length (default [] rows)).

(** The mirror row; what gorm inserts has its defaults filled in. *)
Definition new_number (r : createNumberReq) (number custom : string) (org : PortalOrg) (gofaxID : Z) : PortalNumber :=
  number_defaults
    {| pn_ID := 0; pn_Number := number; pn_Name := cn_Name r; pn_Header := cn_Header r; pn_GofaxNumberID := gofaxID;
       pn_OrgID := po_ID org; pn_Active := true; pn_InboundEnabled := default true (cn_InboundEnabled r);
       pn_PortalEndpointID := 0; pn_CustomNotify := custom |}.

(** The inbound endpoint of a row just created. *)
Definition open_inbound (org : PortalOrg) (row : PortalNumber) : AM PortalNumber :=
  if pn_InboundEnabled row then
    provisioned ← provisionPortalEndpoint row org;
    match provisioned with
    | FxErr e =>
        _ ← FX (fx_DeleteNumber (po_GofaxTenantID org) (pn_Number row));
        _ ← with_numbers (tbl_delete (has_id (pn_ID row)));
        reject 502 ("inbound endpoint provisioning failed: " +:+ Error e)
    | FxOk row =>
        saved ← with_numbers (tbl_save row);
        _ ← ensure saved 500 "failed to record inbound endpoint";
        mret row
    end
  else mret row.

Definition adminCreateNumber (req : option createNumberReq) : AM PortalNumber :=
  r ← some_or req 400 "org_id and number required";
  _ ← ensure (nonempty (trim_space (cn_Number r)) && negb (cn_OrgID r =? 0)) 400 "org_id and number required";
  let number := sanitizeNumber (cn_Number r) in
  _ ← ensure (7 <=? String.length number)%nat 400 "number must contain at least 7 digits";
  found ← with_orgs (tbl_first (has_id (cn_OrgID r)));
  org ← some_or found 404 "org not found";
  count ← count_number number;
  _ ← ensure (count =? 0)%nat 409 "number already registered in portal";
  custom ← ok_or (normalizeCustomNotify (cn_CustomNotify r)) 400 (fun e => "custom_notify: " +:+ e);
  notify ← notify_of DB 0 (po_SvcUsername org) custom;
  sent ← FX (fx_AddNumber {| tn_ID := 0; tn_TenantID := po_GofaxTenantID org; tn_Number := number;
               tn_Name := cn_Name r; tn_Header := cn_Header r; tn_Notify := notify |});
  created ← fx_or sent 502 "upstream add failed: ";
  made ← with_numbers (tbl_create (new_number r number custom org (tn_ID created)));
  match made with
  | None => _ ← FX (fx_DeleteNumber (po_GofaxTenantID org) number); reject 500 "failed to save number mirror"
  | Some row => open_inbound org row
  end.

Record updateNumberReq := {
  un_Name : option string; un_Header : option string; un_Active : option bool;
  un_InboundEnabled : option bool; un_CustomNotify : option string;
}.

Definition switch_inbound (r : updateNumberReq) (num : PortalNumber) (org : PortalOrg) : AM PortalNumber :=
  match un_InboundEnabled r with
  | Some on =>
      if Bool.eqb on (pn_InboundEnabled num) then mret num
      else
        num ← (if on : bool then
                 provisioned ← provisionPortalEndpoint num org;
                 fx_or provisioned 502 "inbound endpoint provisioning failed: "
               else deprovisionPortalEndpoint num);
        mret (num <| pn_InboundEnabled := on |>)
  | None => mret num
  end.

Definition adminUpdateNumber (id : Z) (req : option updateNumberReq) : AM PortalNumber :=
  loaded ← loadNumber id;
  '(num, org) ← ok_or loaded 404 (fun e => e);
  r ← some_or req 400 "invalid payload";
  let num := num <| pn_Name ::= fun x => default x (un_Name r) |> <| pn_Header ::= fun x => default x (un_Header r) |>
                 <| pn_Active ::= fun x => default x (un_Active r) |> in
  num ← match un_CustomNotify r with
        | None => mret num
        | Some raw => s ← ok_or (normalizeCustomNotify raw) 400 (fun e => "custom_notify: " +:+ e);
                      mret (num <| pn_CustomNotify := s |>)
        end;
  num ← switch_inbound r num org;
  notify ← notify_of DB (pn_ID num) (po_SvcUsername org) (pn_CustomNotify num);
  sent ← FX (fx_UpdateNumber (pushed num org notify));
  _ ← fx_or sent 502 "upstream update failed: ";
  saved ← with_numbers (tbl_save num);
  _ ← ensure saved 500 "failed to update number";
  mret num.

Definition adminDeleteNumber (id : Z) : AM () :=
  loaded ← loadNumber id;
  '(num, org) ← ok_or loaded 404 (fun e => e);
  num ← deprovisionPortalEndpoint num;
  gone ← FX (fx_DeleteNumber (po_GofaxTenantID org) (pn_Number num));
  _ ← fx_or gone 502 "upstream delete failed: ";
  _ ← with_assigned (rel_delete (fun un => un_NumberID un =? pn_ID num));
  _ ← with_numbers (tbl_delete (has_id (pn_ID num)));
  mret ().

(** ** Assignments *)

(** Active fax users of the number's organisation; a query that fails drops
    the user. *)
Fixpoint valid_users (orgID : Z) (ids : list Z) : AM (list Z) :=
  match ids with
  | [] => mret []
  | uid :: ids' =>
      found ← with_users (tbl_first (has_id uid));
      rest ← valid_users orgID ids';
      mret (match found with
            | Some u => if pu_Active u && (pu_Role u =? RoleUser)%string && of_org orgID u then uid :: rest else rest
            | None => rest
            end)
  end.

(** Insert one by one until one fails. *)
Fixpoint store_assignments (numberID : Z) (valid : list Z) : AM bool :=
  match valid with
  | [] => mret true
  | uid :: valid' =>
      made ← on_handle TX (
        b ← with_assigned (rel_insert {| un_UserID := uid; un_NumberID := numberID |}); mret (if_ok b));
      match made with
      | Some _ => store_assignments numberID valid'
      | None => mret false
      end
  end.

(** The users assigned and the string pushed. *)
Definition adminSetAssignments (id : Z) (req : option (list Z)) : AM (list Z * string) :=
  loaded ← loadNumber id;
  '(num, org) ← ok_or loaded 404 (fun e => e);
  ids ← some_or req 400 "user_ids array required";
  valid ← valid_users (pn_OrgID num) ids;
  _ ← Begin;
  _ ← on_handle TX (b ← with_assigned (rel_delete (fun un => un_NumberID un =? pn_ID num)); mret (if_ok b));
  stored ← store_assignments (pn_ID num) valid;
  if (stored : bool) then
    notify ← notify_of TX (pn_ID num) (po_SvcUsername org) (pn_CustomNotify num);
    sent ← FX (fx_UpdateNumber (pushed num org notify));
    match sent with
    | FxErr e => _ ← Rollback; reject 502 ("assignments stored locally but upstream notify sync failed: " +:+ Error e)
    | FxOk _ =>
        committed ← Commit;
        _ ← ensure committed 500 "failed to commit assignments";
        mret (valid, notify)
    end
  else _ ← Rollback; reject 500 "failed to store assignments".

(** ** Users *)

Record createUserReq := {
  cu_Username : string; cu_Email : string; cu_Password : string; cu_Role : string;
  cu_OrgID : option Z; cu_EmailNotify : option bool;
}.

Definition role_of (r : createUserReq) : string :=
  let role := to_lower (trim_space (cu_Role r)) in if (role =? "")%string then RoleUser else role.

Definition named_org (r : createUserReq) : bool := match cu_OrgID r with Some i => negb (i =? 0) | None => false end.

Definition adminCreateUser (req : option createUserReq) : AM PortalUser :=
  r ← some_or req 400 "username and password required";
  _ ← ensure (nonempty (trim_space (cu_Username r)) && nonempty (cu_Password r)) 400 "username and password required";
  let role := role_of r in
  _ ← ensure ((role =? RoleAdmin)%string || (role =? RoleUser)%string) 400 "role must be admin or user";
  _ ← ensure (negb ((role =? RoleUser)%string && negb (named_org r))) 400 "org_id required for user accounts";
  _ ← (if named_org r then
         rows ← with_orgs (tbl_find (fun o : PortalOrg => bool_decide (Some (po_ID o) = cu_OrgID r)));
         ensure (negb (length (default [] rows) =? 0)%nat) 404 "org not found"
       else mret ());
  hash ← some_or (ae_bcrypt env (cu_Password r)) 500 "failed to hash password";
  made ← with_users (tbl_create (user_defaults
    {| pu_ID := 0; pu_Username := trim_space (cu_Username r); pu_Email := trim_space (cu_Email r);
       pu_PasswordHash := hash; pu_Role := role; pu_OrgID := cu_OrgID r; pu_Active := true;
       pu_EmailNotify := default true (cu_EmailNotify r); pu_TOTPSecretEnc := ""; pu_TOTPEnabled := false |}));
  some_or made 409 "failed to create user (duplicate username?)".

Record updateUserReq := { uu_Email : option string; uu_Active : option bool; uu_EmailNotify : option bool }.

Definition edited (r : updateUserReq) (u : PortalUser) : PortalUser :=
  u <| pu_Email ::= fun e => match uu_Email r with Some raw => trim_space raw | None => e end |>
    <| pu_Active ::= fun a => default a (uu_Active r) |>
    <| pu_EmailNotify ::= fun n => default n (uu_EmailNotify r) |>.

Definition notify_relevant (u u' : PortalUser) : bool :=
  negb ((pu_Email u' =? pu_Email u)%string && Bool.eqb (pu_Active u') (pu_Active u) &&
        Bool.eqb (pu_EmailNotify u') (pu_EmailNotify u)).

(** A fax user, whose address may be in notify strings. *)
Definition has_numbers (u : PortalUser) : bool :=
  (pu_Role u =? RoleUser)%string && match pu_OrgID u with Some _ => true | None => false end.

Definition sync_failed (failures : list string) : string :=
  "upstream notify sync failed for: " +:+ str_join "; " failures.

(** The change in a transaction that commits when every push went through. *)
Definition save_and_resync (u : PortalUser) : AM () :=
  _ ← Begin;
  saved ← on_handle TX (b ← with_users (tbl_save u); mret (if_ok b));
  match saved with
  | None => _ ← Rollback; reject 500 "failed to update user"
  | Some _ =>
      failures ← resyncUserNotify TX (pu_ID u);
      match failures with
      | _ :: _ => _ ← Rollback; reject 502 (sync_failed failures)
      | [] => committed ← Commit; ensure committed 500 "failed to commit user update"
      end
  end.

Definition adminUpdateUser (id : Z) (req : option updateUserReq) : AM PortalUser :=
  found ← with_users (tbl_first (has_id id));
  u ← some_or found 404 "user not found";
  r ← some_or req 400 "invalid payload";
  let u' := edited r u in
  _ ← (if pu_Active u && negb (pu_Active u') then _ ← DestroySessions (pu_ID u); mret () else mret ());
  _ ← (if notify_relevant u u' && has_numbers u then save_and_resync u'
       else saved ← with_users (tbl_save u'); ensure saved 500 "failed to update user");
  mret u'.

Definition adminResetPassword (id : Z) (req : option string) : AM () :=
  found ← with_users (tbl_first (has_id id));
  u ← some_or found 404 "user not found";
  password ← some_or req 400 "password of at least 10 characters required";
  _ ← ensure (10 <=? String.length password)%nat 400 "password of at least 10 characters required";
  hash ← some_or (ae_bcrypt env password) 500 "failed to hash password";
  saved ← with_users (tbl_save (u <| pu_PasswordHash := hash |>));
  _ ← ensure saved 500 "failed to set password";
  _ ← DestroySessions (pu_ID u);
  mret ().

Definition adminResetUserTOTP (id : Z) : AM () :=
  found ← with_users (tbl_first (has_id id));
  u ← some_or found 404 "user not found";
  if negb (pu_TOTPEnabled u) && (pu_TOTPSecretEnc u =? "")%string then mret ()
  else
    cleared ← with_users (tbl_update (has_id (pu_ID u)) (fun u => u <| pu_TOTPSecretEnc := "" |> <| pu_TOTPEnabled := false |>));
    _ ← ensure cleared 500 "failed to reset 2FA";
    _ ← DestroySessions (pu_ID u);
    _ ← with_pending (tbl_delete (fun p => pa_UserID p =? pu_ID u));
    mret ().

(** [actor]: who asks. *)
Definition adminDeleteUser (actor : option Z) (id : Z) : AM () :=
  _ ← ensure (negb (bool_decide (actor = Some id))) 400 "you cannot delete your own account";
  found ← with_users (tbl_first (has_id id));
  u ← some_or found 404 "user not found";
  ids ← number_ids DB (pu_ID u);
  _ ← Begin;
  _ ← on_handle TX (b ← with_assigned (rel_delete (fun un => un_UserID un =? pu_ID u)); mret (if_ok b));
  _ ← on_handle TX (b ← with_users (tbl_delete (has_id (pu_ID u))); mret (if_ok b));
  failures ← (if has_numbers u then resyncNotifyForNumberIDs TX ids else mret []);
  match failures with
  | _ :: _ => _ ← Rollback; reject 502 (sync_failed failures)
  | [] =>
      committed ← Commit;
      _ ← ensure committed 500 "failed to commit user deletion";
      _ ← DestroySessions (pu_ID u);
      mret ()
  end.

(** ** Listings *)

Definition count_rows {A} (o : option (list A)) : Z := Z.of_nat (length (default [] o)).

(** [by_name]: the order of the names in the database. *)
Definition adminListOrgs (by_name : list PortalOrg -> list PortalOrg) : AM (list (PortalOrg * Z * Z)) :=
  rows ← with_orgs (tbl_find (fun _ : PortalOrg => true));
  orgs ← some_or rows 500 "failed to load orgs";
  collect_results (fun o =>
    us ← with_users (tbl_find (of_org (po_ID o)));
    ns ← with_numbers (tbl_find (fun n => pn_OrgID n =? po_ID o));
    mret (o, count_rows us, count_rows ns)) (by_name orgs).

(** The other side of a join with the organisations. *)
Definition org_rows : AM (list PortalOrg) := fun st => (Answer (tbl_rows (ps_orgs (as_portal st))), st).

(** The rows with the name of their organisation and how many users they are
    assigned to; a number without its organisation is not listed.
    [by_digits]: the order of the numbers in the database. *)
Definition adminListNumbers (by_digits : list PortalNumber -> list PortalNumber) (oid : Z)
  : AM (list (PortalNumber * string * Z)) :=
  rows ← with_numbers (tbl_find (fun n => if 0 <? oid then pn_OrgID n =? oid else true));
  ns ← some_or rows 500 "failed to load numbers";
  orgs ← org_rows;
  let named n := option_map (fun o => (n, po_Name o)) (List.find (has_id (pn_OrgID n)) orgs) in
  collect_results (fun '(n, name) =>
    assigned ← with_assigned (rel_find (fun un => un_NumberID un =? pn_ID n));
    mret (n, name, count_rows assigned)) (omap named (by_digits ns)).

Definition adminGetAssignments (id : Z) : AM (list Z) :=
  rows ← with_assigned (rel_find (fun un => un_NumberID un =? id));
  mret (map un_UserID (default [] rows)).

Record UserResp := { ur_user : PortalUser; ur_OrgName : string; ur_AssignedIDs : list Z }.

Definition adminListUsers (by_name : list PortalUser -> list PortalUser) (oid : Z) : AM (list UserResp) :=
  rows ← with_users (tbl_find (fun u => if 0 <? oid then of_org oid u else true));
  us ← some_or rows 500 "failed to load users";
  orgs ← with_orgs (tbl_find (fun _ : PortalOrg => true));
  collect_results (fun u =>
    ids ← number_ids DB (pu_ID u);
    mret {| ur_user := u; ur_AssignedIDs := ids;
            ur_OrgName := match pu_OrgID u with
                          | Some i => match List.find (fun o => po_ID o =? i) (rev (default [] orgs)) with
                                      | Some o => po_Name o | None => "" end
                          | None => "" end |}) (by_name us).

End admin.
