(* ===== verification/PortalLogic.v ===== *)
(** * PortalLogic: reasoning about the portal's handlers

    A program logic for [AM]: handlers are executed on the rows that the
    tables hold ([View]), with one rule per primitive. In mode [h = true] the
    tables are known to be healthy, so no statement fails; in mode [false] each
    statement may. *)

From S2P Require Import Prelude Store FaxJob Directory PortalModels PortalNotify PortalAuth TenantUsers WebAdmin PortalUpstream PortalAdmin.

Section logic.
Context {TS TP TU TO TN TA TF W : Type} `{!Table TS Session, !TableLaws TS Session}
  `{!Table TP PendingAuth, !TableLaws TP PendingAuth} `{!Table TU PortalUser, !TableLaws TU PortalUser}
  `{!TableTx TU PortalUser, !TableTxLaws TU PortalUser} `{!Table TO PortalOrg, !TableLaws TO PortalOrg}
  `{!Table TN PortalNumber, !TableLaws TN PortalNumber} `{!Relation TA UserNumber, !RelationLaws TA UserNumber}
  `{!Table TF InboundFax, !TableLaws TF InboundFax} `{!Upstream W}.
#[local] Notation AdminState := (AdminState (TS := TS) (TP := TP) (TU := TU) (TO := TO) (TN := TN) (TA := TA) (TF := TF) (W := W)).
#[local] Notation AM := (AM (TS := TS) (TP := TP) (TU := TU) (TO := TO) (TN := TN) (TA := TA) (TF := TF) (W := W)).
#[local] Existing Instances am_ret am_bind.

(** The rows behind a state. *)
Record View := {
  vw_sess : list Session; vw_pend : list PendingAuth; vw_users : list PortalUser; vw_orgs : list PortalOrg;
  vw_numbers : list PortalNumber; vw_assigned : list UserNumber; vw_faxes : list InboundFax; vw_up : W;
  vw_aborted : bool; vw_saved : list PortalUser * list UserNumber;
}.

Definition view (st : AdminState) : View :=
  {| vw_sess := tbl_rows (ps_sessions (as_portal st)); vw_pend := tbl_rows (ps_pending (as_portal st));
     vw_users := tbl_rows (ps_users (as_portal st)); vw_orgs := tbl_rows (ps_orgs (as_portal st));
     vw_numbers := tbl_rows (as_numbers st); vw_assigned := rel_rows (as_assigned st);
     vw_faxes := tbl_rows (as_faxes st); vw_up := as_up st; vw_aborted := as_aborted st;
     vw_saved := (tbl_rows (as_saved st).1, rel_rows (as_saved st).2) |}.

Record healthy (st : AdminState) : Prop := {
  hl_sess : tbl_healthy (ps_sessions (as_portal st)); hl_pend : tbl_healthy (ps_pending (as_portal st));
  hl_users : tbl_healthy (ps_users (as_portal st)); hl_orgs : tbl_healthy (ps_orgs (as_portal st));
  hl_numbers : tbl_healthy (as_numbers st); hl_assigned : rel_healthy (as_assigned st);
  hl_faxes : tbl_healthy (as_faxes st);
}.

(** [m] run on rows [v] ends with [Q]. *)
Definition awp {A} (h : bool) (m : AM A) (Q : answer A -> View -> Prop) (v : View) : Prop :=
  forall st, (h = true -> healthy st) -> view st = v ->
    (h = true -> healthy (m st).2) /\ Q (m st).1 (view (m st).2).

Lemma awp_run {A} h (m : AM A) Q st : awp h m Q (view st) -> (h = true -> healthy st) ->
  (h = true -> healthy (m st).2) /\ Q (m st).1 (view (m st).2).
Proof. intros Hm Hh. by apply Hm. Qed.

Lemma awp_mono {A} h (m : AM A) (Q Q' : answer A -> View -> Prop) v :
  (forall r v', Q r v' -> Q' r v') -> awp h m Q v -> awp h m Q' v.
Proof. intros HQ Hm st Hh Hv. destruct (Hm st Hh Hv). auto. Qed.

Lemma awp_ret {A} h (a : A) Q v : Q (Answer a) v -> awp h (mret a) Q v.
Proof. by intros HQ st Hh <-. Qed.

Lemma awp_reject {A} h code e (Q : answer A -> View -> Prop) v : Q (Reject code e) v -> awp h (reject code e) Q v.
Proof. by intros HQ st Hh <-. Qed.

Lemma awp_bind {A B} h (m : AM A) (f : A -> AM B) (Q : answer B -> View -> Prop) v :
  awp h m (fun r v' => match r with Answer a => awp h (f a) Q v' | Reject code e => Q (Reject code e) v' end) v ->
  awp h (m ≫= f) Q v.
Proof.
  intros Hm st Hh Hv. destruct (Hm st Hh Hv) as [Hh' HQ]. unfold mbind, am_bind.
  destruct (m st) as [[a|code e] st']; simpl in *; [by apply HQ|done].
Qed.

Lemma awp_ensure h b code e Q v :
  (b = true -> Q (Answer ()) v) -> (b = false -> Q (Reject code e) v) -> awp h (ensure b code e) Q v.
Proof. destruct b; simpl; intros; [by apply awp_ret; auto|by apply awp_reject; auto]. Qed.

Lemma awp_some_or {A} h (o : option A) code e Q v :
  (forall a, o = Some a -> Q (Answer a) v) -> (o = None -> Q (Reject code e) v) -> awp h (some_or o code e) Q v.
Proof. destruct o; simpl; intros; [by apply awp_ret; auto|by apply awp_reject; auto]. Qed.

Lemma awp_ok_or {A} h (r : res A) code msg Q v :
  (forall a, r = Ok a -> Q (Answer a) v) -> (forall e, r = Err e -> Q (Reject code (msg e)) v) -> awp h (ok_or r code msg) Q v.
Proof. destruct r; simpl; intros; [by apply awp_ret; auto|by apply awp_reject; auto]. Qed.

Lemma awp_fx_or {A} h (r : fx A) code msg Q v :
  (forall a, r = FxOk a -> Q (Answer a) v) -> (forall e, r = FxErr e -> Q (Reject code (msg +:+ Error e)) v) ->
  awp h (fx_or r code msg) Q v.
Proof. destruct r; simpl; intros; [by apply awp_ret; auto|by apply awp_reject; auto]. Qed.

(** *** Statements *)

(** [f] run on a table that holds [rows] ends with [Q]. *)
Definition effect {T R A} `{Table T R} (h : bool) (f : T -> A * T) (Q : A -> list R -> Prop) (rows : list R) : Prop :=
  forall t, (h = true -> tbl_healthy t) -> tbl_rows t = rows ->
    (h = true -> tbl_healthy (f t).2) /\ Q (f t).1 (tbl_rows (f t).2).

Section effects.
Context {T R : Type} `{TableLaws T R}.
Implicit Types (P : R -> bool) (rows : list R).

Lemma effect_find h P (Q : option (list R) -> list R -> Prop) rows :
  Q (Some (List.filter P rows)) rows -> (h = false -> Q None rows) -> effect h (tbl_find P) Q rows.
Proof.
  intros Hs Hn t Hh <-. rewrite find_rows. split; [intros Hm; by apply healthy_find, Hh|].
  destruct (tbl_find P t).1 as [l|] eqn:E; [by rewrite (find_result _ _ _ E)|].
  destruct h; [|by apply Hn]. destruct (healthy_find P t (Hh eq_refl)) as [[l Hl] _]. congruence.
Qed.

Lemma effect_first h P (Q : option R -> list R -> Prop) rows :
  Q (head (List.filter P rows)) rows -> (h = false -> Q None rows) -> effect h (tbl_first P) Q rows.
Proof.
  intros Hs Hn t Hh Ht.
  assert (effect h (tbl_find P) (fun o rows => Q (match o with Some (r :: _) => Some r | _ => None end) rows) rows) as He.
  { apply effect_find; [|done]. by destruct (List.filter P rows). }
  destruct (He t Hh Ht) as [He1 He2]. unfold tbl_first. by destruct (tbl_find P t).
Qed.

Lemma effect_create h r (Q : option R -> list R -> Prop) rows :
  (forall r', r' = set_id (get_id r') r -> 0 < get_id r' -> Forall (fun x => get_id x <> get_id r') rows ->
     Q (Some r') (rows ++ [r'])) ->
  (h = false -> Q None rows) -> effect h (tbl_create r) Q rows.
Proof.
  intros Hs Hn t Hh <-. split; [intros Hm; by apply healthy_create, Hh|].
  destruct (tbl_create r t).1 as [r'|] eqn:E.
  - destruct (create_ok _ _ _ E) as (-> & ? & ? & ?). by apply Hs.
  - rewrite (create_err _ _ E). destruct h; [|by apply Hn]. destruct (healthy_create r t (Hh eq_refl)) as [[l Hl] _]. congruence.
Qed.

Lemma effect_save h r (Q : bool -> list R -> Prop) rows :
  Q true (replace_row r rows) -> (h = false -> Q false rows) -> effect h (tbl_save r) Q rows.
Proof.
  intros Hs Hn t Hh <-. split; [intros Hm; by apply healthy_save, Hh|].
  destruct (tbl_save r t).1 eqn:E; [by rewrite (save_ok _ _ E)|].
  rewrite (save_err _ _ E). destruct h; [|by apply Hn]. destruct (healthy_save r t (Hh eq_refl)) as [Hl _]. congruence.
Qed.

Lemma effect_delete h P (Q : bool -> list R -> Prop) rows :
  Q true (List.filter (fun r => negb (P r)) rows) -> (h = false -> Q false rows) -> effect h (tbl_delete P) Q rows.
Proof.
  intros Hs Hn t Hh <-. split; [intros Hm; by apply healthy_delete, Hh|].
  destruct (tbl_delete P t).1 eqn:E; [by rewrite (delete_ok _ _ E)|].
  rewrite (delete_err _ _ E). destruct h; [|by apply Hn]. destruct (healthy_delete P t (Hh eq_refl)) as [Hl _]. congruence.
Qed.

Lemma effect_update h P f (Q : bool -> list R -> Prop) rows :
  Q true (map (fun r => if P r then f r else r) rows) -> (h = false -> Q false rows) -> effect h (tbl_update P f) Q rows.
Proof.
  intros Hs Hn t Hh <-. split; [intros Hm; by apply healthy_update, Hh|].
  destruct (tbl_update P f t).1 eqn:E; [by rewrite (update_ok _ _ _ E)|].
  rewrite (update_err _ _ _ E). destruct h; [|by apply Hn]. destruct (healthy_update P f t (Hh eq_refl)) as [Hl _]. congruence.
Qed.

End effects.

(** A handler's statement is its effect on one component of the view. *)
Lemma awp_sessions {A} h (f : TS -> A * TS) Q v :
  effect h f (fun a rows => Q (Answer a) (v <| vw_sess := rows |>)) (vw_sess v) -> awp h (with_sessions f) Q v.
Proof.
  intros He st Hh <-. destruct (He (ps_sessions (as_portal st)) (fun Hm => hl_sess _ (Hh Hm)) eq_refl) as [He1 He2].
  unfold with_sessions. destruct (f _) as [a t]; simpl in *. split; [|exact He2].
  intros Hm. destruct (Hh Hm). by split; simpl; auto.
Qed.

Lemma awp_pending {A} h (f : TP -> A * TP) Q v :
  effect h f (fun a rows => Q (Answer a) (v <| vw_pend := rows |>)) (vw_pend v) -> awp h (with_pending f) Q v.
Proof.
  intros He st Hh <-. destruct (He (ps_pending (as_portal st)) (fun Hm => hl_pend _ (Hh Hm)) eq_refl) as [He1 He2].
  unfold with_pending. destruct (f _) as [a t]; simpl in *. split; [|exact He2].
  intros Hm. destruct (Hh Hm). by split; simpl; auto.
Qed.

Lemma awp_users {A} h (f : TU -> A * TU) Q v :
  effect h f (fun a rows => Q (Answer a) (v <| vw_users := rows |>)) (vw_users v) -> awp h (with_users f) Q v.
Proof.
  intros He st Hh <-. destruct (He (ps_users (as_portal st)) (fun Hm => hl_users _ (Hh Hm)) eq_refl) as [He1 He2].
  unfold with_users. destruct (f _) as [a t]; simpl in *. split; [|exact He2].
  intros Hm. destruct (Hh Hm). by split; simpl; auto.
Qed.

Lemma awp_orgs {A} h (f : TO -> A * TO) Q v :
  effect h f (fun a rows => Q (Answer a) (v <| vw_orgs := rows |>)) (vw_orgs v) -> awp h (with_orgs f) Q v.
Proof.
  intros He st Hh <-. destruct (He (ps_orgs (as_portal st)) (fun Hm => hl_orgs _ (Hh Hm)) eq_refl) as [He1 He2].
  unfold with_orgs. destruct (f _) as [a t]; simpl in *. split; [|exact He2].
  intros Hm. destruct (Hh Hm). by split; simpl; auto.
Qed.

Lemma awp_numbers {A} h (f : TN -> A * TN) Q v :
  effect h f (fun a rows => Q (Answer a) (v <| vw_numbers := rows |>)) (vw_numbers v) -> awp h (with_numbers f) Q v.
Proof.
  intros He st Hh <-. destruct (He (as_numbers st) (fun Hm => hl_numbers _ (Hh Hm)) eq_refl) as [He1 He2].
  unfold with_numbers. destruct (f _) as [a t]; simpl in *. split; [|exact He2].
  intros Hm. destruct (Hh Hm). by split; simpl; auto.
Qed.

Lemma awp_faxes {A} h (f : TF -> A * TF) Q v :
  effect h f (fun a rows => Q (Answer a) (v <| vw_faxes := rows |>)) (vw_faxes v) -> awp h (with_faxes f) Q v.
Proof.
  intros He st Hh <-. destruct (He (as_faxes st) (fun Hm => hl_faxes _ (Hh Hm)) eq_refl) as [He1 He2].
  unfold with_faxes. destruct (f _) as [a t]; simpl in *. split; [|exact He2].
  intros Hm. destruct (Hh Hm). by split; simpl; auto.
Qed.

Lemma awp_FX {A} h (f : W -> A * W) (Q : answer A -> View -> Prop) v :
  Q (Answer (f (vw_up v)).1) (v <| vw_up := (f (vw_up v)).2 |>) -> awp h (FX f) Q v.
Proof.
  intros HQ st Hh <-. unfold FX. change (vw_up (view st)) with (as_up st) in HQ.
  destruct (f (as_up st)) as [a w]; simpl in *. split; [|exact HQ]. intros Hm. destruct (Hh Hm). by split.
Qed.

Lemma awp_assigned_rows h (Q : answer (list UserNumber) -> View -> Prop) v :
  Q (Answer (vw_assigned v)) v -> awp h assigned_rows Q v.
Proof. by intros HQ st Hh <-. Qed.

Section assigned.
Implicit Types (P : UserNumber -> bool) (v : View).

#[local] Ltac on_rel Hh Hm := destruct (Hh Hm); by split; simpl; auto.

Lemma awp_assigned_find h P Q v :
  Q (Answer (Some (List.filter P (vw_assigned v)))) v -> (h = false -> Q (Answer None) v) ->
  awp h (with_assigned (rel_find P)) Q v.
Proof.
  intros Hs Hn st Hh <-. unfold with_assigned. pose proof (rel_find_rows P (as_assigned st)) as Hr.
  pose proof (rel_find_result P (as_assigned st)) as Hf.
  pose proof (fun Hm => rel_healthy_find P _ (hl_assigned _ (Hh Hm))) as Hok.
  destruct (rel_find P (as_assigned st)) as [o t]; simpl in *.
  split; [intros Hm; destruct (Hok Hm); on_rel Hh Hm|]. unfold view. simpl. rewrite Hr.
  destruct o as [l|]; [by rewrite (Hf l)|]. destruct h; [|by apply Hn]. by destruct (Hok eq_refl) as [[? ?] _].
Qed.

Lemma awp_assigned_insert h r Q v :
  (r ∉ vw_assigned v -> Q (Answer true) (v <| vw_assigned := vw_assigned v ++ [r] |>)) ->
  (h = false \/ r ∈ vw_assigned v -> Q (Answer false) v) -> awp h (with_assigned (rel_insert r)) Q v.
Proof.
  intros Hs Hn st Hh <-. unfold with_assigned. pose proof (rel_insert_ok r (as_assigned st)) as Ho.
  pose proof (rel_insert_err r (as_assigned st)) as He.
  pose proof (fun Hm => rel_healthy_insert r _ (hl_assigned _ (Hh Hm))) as Hok.
  destruct (rel_insert r (as_assigned st)) as [[|] t]; simpl in *; (split; [intros Hm; destruct (Hok Hm); on_rel Hh Hm|]).
  - destruct (Ho eq_refl) as [Hr Hin]. unfold view. simpl. rewrite Hr. by apply Hs.
  - unfold view. simpl. rewrite (He eq_refl). apply Hn. destruct h; [right|by left].
    destruct (Hok eq_refl) as [Hi _]. change (vw_assigned (view st)) with (rel_rows (as_assigned st)).
    destruct (decide (r ∈ rel_rows (as_assigned st))) as [Hin|Hin]; [done|]. by specialize (Hi Hin).
Qed.

Lemma awp_assigned_delete h P Q v :
  Q (Answer true) (v <| vw_assigned := List.filter (fun r => negb (P r)) (vw_assigned v) |>) ->
  (h = false -> Q (Answer false) v) -> awp h (with_assigned (rel_delete P)) Q v.
Proof.
  intros Hs Hn st Hh <-. unfold with_assigned. pose proof (rel_delete_ok P (as_assigned st)) as Ho.
  pose proof (rel_delete_err P (as_assigned st)) as He.
  pose proof (fun Hm => rel_healthy_delete P _ (hl_assigned _ (Hh Hm))) as Hok.
  destruct (rel_delete P (as_assigned st)) as [[|] t]; simpl in *; (split; [intros Hm; destruct (Hok Hm); on_rel Hh Hm|]);
    unfold view; simpl.
  - by rewrite (Ho eq_refl).
  - rewrite (He eq_refl). destruct h; [|by apply Hn]. by destruct (Hok eq_refl).
Qed.

End assigned.

(** *** Transactions *)

Lemma awp_Begin h env (Q : answer () -> View -> Prop) v :
  Q (Answer ()) (v <| vw_aborted := negb (ae_begin env) |> <| vw_saved := (vw_users v, vw_assigned v) |>) ->
  awp h (Begin env) Q v.
Proof. intros HQ st Hh <-. split; [|exact HQ]. intros Hm. destruct (Hh Hm). by split. Qed.

Lemma awp_Rollback h (Q : answer () -> View -> Prop) v :
  Q (Answer ()) (v <| vw_users := (vw_saved v).1 |> <| vw_assigned := (vw_saved v).2 |>) -> awp h Rollback Q v.
Proof.
  intros HQ st Hh <-. split.
  - intros Hm. destruct (Hh Hm). split; simpl; auto using restore_healthy, rel_healthy_restore.
  - unfold view. simpl. rewrite restore_rows, rel_restore_rows. exact HQ.
Qed.

Lemma awp_Commit h env (Q : answer bool -> View -> Prop) v :
  (ae_commit env = true -> vw_aborted v = false -> Q (Answer true) v) ->
  (ae_commit env = false \/ vw_aborted v = true ->
     Q (Answer false) (v <| vw_users := (vw_saved v).1 |> <| vw_assigned := (vw_saved v).2 |>)) ->
  awp h (Commit env) Q v.
Proof.
  intros Hs Hn st Hh <-. unfold Commit. change (as_aborted st) with (vw_aborted (view st)).
  destruct (ae_commit env && negb (vw_aborted (view st))) eqn:E; reflect_bools.
  - split; [done|]. apply Hs; [done|]. by destruct (vw_aborted _).
  - apply (awp_Rollback h (fun _ v' => Q (Answer false) v') (view st)); [|done..].
    apply Hn. destruct (ae_commit env); [right|by left]. by destruct (vw_aborted (view st)).
Qed.

(** In a transaction a statement runs unless an earlier one failed, and fails
    for good. *)
Lemma awp_TX {A} h (m : AM (option A)) Q v :
  (vw_aborted v = false ->
     awp h m (fun r v' => match r with
                          | Answer None => Q (Answer None) (v' <| vw_aborted := true |>)
                          | _ => Q r v' end) v) ->
  (vw_aborted v = true -> Q (Answer None) v) -> awp h (on_handle TX m) Q v.
Proof.
  intros Hr Ha st Hh Hv. unfold on_handle. change (as_aborted st) with (vw_aborted (view st)). rewrite Hv.
  destruct (vw_aborted v) eqn:E; [split; [done|]; rewrite <- Hv in *; by apply Ha|].
  destruct (Hr eq_refl st Hh Hv) as [H1 H2]. destruct (m st) as [[[a|]|code e] st']; simpl in *; [done| |done].
  split; [|exact H2]. intros Hm. destruct (H1 Hm). by split.
Qed.

Lemma awp_each {A} h (f : A -> AM ()) (I : View -> Prop) (Q : answer () -> View -> Prop) l v :
  I v -> (forall a v, a ∈ l -> I v -> awp h (f a) (fun r v' => match r with Answer _ => I v' | Reject c e => Q (Reject c e) v' end) v) ->
  (forall v, I v -> Q (Answer ()) v) -> awp h (each f l) Q v.
Proof.
  intros Hi Hf HQ. revert v Hi. induction l as [|a l IH]; intros v Hi; simpl; [by apply awp_ret, HQ|].
  apply awp_bind. eapply awp_mono; [|apply Hf; [by left|done]]. intros [[]|c e] v' Hv'; [|done].
  apply IH; [|done]. intros b v1 Hb. apply Hf. by right.
Qed.

End logic.
