(* ===== verification/PortalMirror.v ===== *)
(** * PortalMirror: the portal and gofaxserver agree on numbers

    Whatever the portal's administrators do, gofaxserver holds for every
    number of the portal the row that the portal's own tables call for, with
    the notify string derived from the users assigned at that moment. *)

From S2P Require Import Prelude Store FaxJob Directory PortalModels PortalNotify PortalAuth TenantUsers WebAdmin PortalUpstream PortalAdmin PortalLogic.

(** ** Which users a notify string depends on *)

Section emails.
Variable order : list string -> list string.
Implicit Types (us : list PortalUser) (asg : list UserNumber) (n : Z) (u : PortalUser).

(** What a user adds to the report list of a number. *)
Definition entry asg n u : option string :=
  if is_assigned n asg u && pu_Active u && pu_EmailNotify u && nonempty (pu_Email u) then Some (pu_Email u) else None.

Lemma assigned_emails_omap us asg n : assigned_emails order us asg n = order (omap (entry asg n) us).
Proof.
  unfold assigned_emails. f_equal. induction us as [|u us IH]; cbn [omap list_omap List.filter map]; [done|].
  unfold entry at 1. destruct (is_assigned n asg u && pu_Active u && pu_EmailNotify u && nonempty (pu_Email u)); simpl; congruence.
Qed.

(** Users may be exchanged, dropped or added as long as the entries stay. *)
Lemma omap_map {A B} (g : A -> A) (f : A -> option B) (l : list A) :
  (forall x, x ∈ l -> f (g x) = f x) -> omap f (map g l) = omap f l.
Proof.
  induction l as [|x l IH]; intros Hg; cbn; [done|]. rewrite Hg by (by left). rewrite IH by (intros y Hy; apply Hg; by right). done.
Qed.

Lemma omap_filter {A B} (P : A -> bool) (f : A -> option B) (l : list A) :
  (forall x, x ∈ l -> P x = false -> f x = None) -> omap f (List.filter P l) = omap f l.
Proof.
  induction l as [|x l IH]; intros Hf; cbn; [done|].
  assert (omap f (List.filter P l) = omap f l) as IH' by (apply IH; intros y Hy; apply Hf; by right).
  destruct (P x) eqn:E; cbn; [by rewrite IH'|]. rewrite (Hf x) by (by left || done). exact IH'.
Qed.

Lemma omap_ext_in {A B} (f g : A -> option B) (l : list A) : (forall x, x ∈ l -> f x = g x) -> omap f l = omap g l.
Proof.
  induction l as [|x l IH]; intros Hf; cbn; [done|]. rewrite Hf by (by left). rewrite IH by (intros y Hy; apply Hf; by right). done.
Qed.

Lemma is_assigned_spec n asg u :
  is_assigned n asg u = true <-> {| un_UserID := pu_ID u; un_NumberID := n |} ∈ asg.
Proof.
  unfold is_assigned. rewrite existsb_exists. split.
  - intros ([i k] & Hin & Hb). reflect_bools. simpl in *. subst. by apply list_elem_of_In.
  - intros Hin. exists {| un_UserID := pu_ID u; un_NumberID := n |}. split; [by apply list_elem_of_In|]. simpl. by rewrite !Z.eqb_refl.
Qed.

Lemma not_assigned n asg u : {| un_UserID := pu_ID u; un_NumberID := n |} ∉ asg -> entry asg n u = None.
Proof. intros Hn. unfold entry. destruct (is_assigned n asg u) eqn:E; [|done]. by apply is_assigned_spec in E. Qed.

End emails.

Section mirror.
Context {TS TP TU TO TN TA TF W : Type} `{!Table TS Session, !TableLaws TS Session}
  `{!Table TP PendingAuth, !TableLaws TP PendingAuth} `{!Table TU PortalUser, !TableLaws TU PortalUser}
  `{!TableTx TU PortalUser, !TableTxLaws TU PortalUser} `{!Table TO PortalOrg, !TableLaws TO PortalOrg}
  `{!Table TN PortalNumber, !TableLaws TN PortalNumber} `{!Relation TA UserNumber, !RelationLaws TA UserNumber}
  `{!Table TF InboundFax, !TableLaws TF InboundFax} `{!Upstream W, !UpstreamLaws W}.
Variable order : list string -> list string.
#[local] Notation View := (View (W := W)).
#[local] Notation AM := (AM (TS := TS) (TP := TP) (TU := TU) (TO := TO) (TN := TN) (TA := TA) (TF := TF) (W := W)).
#[local] Existing Instances am_ret am_bind.
Implicit Types (v : View) (num : PortalNumber) (org : PortalOrg) (u : PortalUser).

(** The notify string the tables call for. *)
Definition want v num org : string :=
  computeNotify order (vw_users v) (vw_assigned v) (pn_ID num) (po_SvcUsername org) (pn_CustomNotify num).

Definition owner v num : option PortalOrg := head (List.filter (has_id (pn_OrgID num)) (vw_orgs v)).

Definition mirrored v num : Prop :=
  exists org, owner v num = Some org /\ pushed num org (want v num org) ∈ up_numbers (vw_up v).

(** gofaxserver has a row for the number, whatever else is in it. *)
Definition linked v num : Prop :=
  (0 < pn_GofaxNumberID num /\ dialable (pn_Number num)) /\ is_Some (owner v num) /\
  exists r, r ∈ up_numbers (vw_up v) /\ tn_ID r = pn_GofaxNumberID num /\ tn_Number r = pn_Number num.

(** Assignments connect an existing fax user with a number of the user's own
    organisation. *)
Definition sound_assignment v (un : UserNumber) : Prop :=
  exists u num, u ∈ vw_users v /\ num ∈ vw_numbers v /\ pu_ID u = un_UserID un /\ pn_ID num = un_NumberID un /\
    pu_Role u = RoleUser /\ pu_OrgID u = Some (pn_OrgID num).

(** What every request may rely on, even after a push went wrong. *)
Record sound v : Prop := {
  so_up : up_ok (vw_up v);
  so_users : ids_ok (vw_users v);
  so_numbers : ids_ok (vw_numbers v);
  so_gofax : forall n1 n2, n1 ∈ vw_numbers v -> n2 ∈ vw_numbers v -> pn_GofaxNumberID n1 = pn_GofaxNumberID n2 -> n1 = n2;
  so_keys : forall num, num ∈ vw_numbers v -> pn_ID num <> 0;
  so_assigned : forall un, un ∈ vw_assigned v -> sound_assignment v un;
  so_linked : forall num, num ∈ vw_numbers v -> linked v num;
}.

Definition mirror v : Prop := sound v /\ forall num, num ∈ vw_numbers v -> mirrored v num.

(** *** A push *)

Definition push (num : PortalNumber) (org : PortalOrg) (notify : string) (w : W) : fx unit * W :=
  fx_UpdateNumber (pushed num org notify) w.

Lemma push_spec v num org notify : sound v -> linked v num ->
  let w' := (push num org notify (vw_up v)).2 in
  up_ok w' /\ ((push num org notify (vw_up v)).1 = FxOk () -> pushed num org notify ∈ up_numbers w') /\
  (forall r, r ∈ up_numbers (vw_up v) -> tn_ID r <> pn_GofaxNumberID num -> r ∈ up_numbers w') /\
  exists r, r ∈ up_numbers w' /\ tn_ID r = pn_GofaxNumberID num /\ tn_Number r = pn_Number num.
Proof.
  intros Hs (H0 & _ & r0 & Hr0 & Hid & Hnum). destruct (numbers_keyed _ (so_up _ Hs)) as [Hids _].
  pose proof (number_updated (pushed num org notify) (vw_up v) (so_up _ Hs) (proj1 H0) (proj2 H0)) as Hu. unfold push.
  destruct (fx_UpdateNumber _ _) as [r w']; simpl in *. destruct Hu as [Hok Hcase].
  { intros x Hx Hxi. rewrite <- Hnum. f_equal. apply (ids_ok_inj (up_numbers (vw_up v))); [done..|]. simpl. congruence. }
  split; [done|]. destruct Hcase as [->|[[e ->] ->]].
  - split; [intros _; apply replace_row_new|]. split; [|exists (pushed num org notify); split; [apply replace_row_new|done]].
    intros x Hx Hne. by apply replace_row_old.
  - split; [discriminate|]. eauto.
Qed.

(** Only [vw_up] changes, and every number keeps its row. *)
Lemma sound_up v w' : sound v -> up_ok w' ->
  (forall num, num ∈ vw_numbers v -> exists r, r ∈ up_numbers w' /\ tn_ID r = pn_GofaxNumberID num /\ tn_Number r = pn_Number num) ->
  sound (v <| vw_up := w' |>).
Proof.
  intros Hs Hok Hr. destruct Hs. split; try done. intros num Hn. destruct (so_linked0 num Hn) as (H0 & Ho & _). by split; [|split; [|apply Hr]].
Qed.

Lemma push_sound v num org notify : sound v -> linked v num -> sound (v <| vw_up := (push num org notify (vw_up v)).2 |>).
Proof.
  intros Hs Hl. destruct (push_spec v num org notify Hs Hl) as (Hok & _ & Hold & Hnew).
  apply sound_up; [done..|]. intros n Hn. destruct (so_linked v Hs n Hn) as (_ & _ & r & Hr & Hid & Hnum).
  destruct (decide (pn_GofaxNumberID n = pn_GofaxNumberID num)) as [He|He].
  - destruct Hl as (_ & _ & r1 & Hr1 & Hid1 & Hnum1). destruct (numbers_keyed _ (so_up _ Hs)) as [Hids _].
    assert (r = r1) as -> by (apply (ids_ok_inj (up_numbers (vw_up v))); [done..|]; change (tn_ID r = tn_ID r1); congruence).
    destruct Hnew as (r2 & Hr2 & Hid2 & Hnum2). exists r2. split_and!; [done|congruence|congruence].
  - exists r. split; [|done]. apply Hold; [done|congruence].
Qed.

(** A push leaves the other numbers' rows as they were. *)
Lemma push_other v num org notify n : sound v -> linked v num -> pn_GofaxNumberID n <> pn_GofaxNumberID num ->
  mirrored v n -> mirrored (v <| vw_up := (push num org notify (vw_up v)).2 |>) n.
Proof.
  intros Hs Hl Hne (o & Ho & Hin). destruct (push_spec v num org notify Hs Hl) as (_ & _ & Hold & _).
  exists o. split; [done|]. by apply Hold.
Qed.

Lemma push_mirrored v num org notify : sound v -> linked v num -> owner v num = Some org -> notify = want v num org ->
  (push num org notify (vw_up v)).1 = FxOk () -> mirrored (v <| vw_up := (push num org notify (vw_up v)).2 |>) num.
Proof.
  intros Hs Hl Ho -> Hok. destruct (push_spec v num org (want v num org) Hs Hl) as (_ & Hin & _). exists org. split; [done|]. by apply Hin.
Qed.


(** *** The handlers' reads *)

Lemma head_filter_elem {A} (P : A -> bool) l a : head (List.filter P l) = Some a -> a ∈ l /\ P a = true.
Proof.
  intros Hh. assert (In a (List.filter P l)) as Hin by (destruct (List.filter P l); [done|]; injection Hh as ->; by left).
  apply filter_In in Hin as [??]. by rewrite list_elem_of_In.
Qed.

Lemma awp_notify_of (hd : handle) n svc custom Q v : (hd = TX -> vw_aborted v = false) ->
  Q (Answer (computeNotify order (vw_users v) (vw_assigned v) n svc custom)) v ->
  awp true (notify_of (TS := TS) (TP := TP) (TU := TU) (TO := TO) (TN := TN) (TA := TA) (TF := TF) order hd n svc custom) Q v.
Proof.
  intros Ha HQ. unfold notify_of. apply awp_bind.
  assert (forall Q' : answer (option (list PortalUser)) -> View -> Prop, Q' (Answer (Some (vw_users v))) v ->
    awp true (with_users (TS := TS) (TP := TP) (TO := TO) (TN := TN) (TA := TA) (TF := TF) (tbl_find (fun _ : PortalUser => true))) Q' v) as Hfind.
  { intros Q' HQ'. apply awp_users, effect_find; [|done]. rewrite filter_true. by destruct v. }
  assert (awp true (on_handle hd (with_users (TS := TS) (TP := TP) (TO := TO) (TN := TN) (TA := TA) (TF := TF) (tbl_find (fun _ : PortalUser => true))))
    (fun r v' => r = Answer (Some (vw_users v)) /\ v' = v) v) as Hr.
  { destruct hd; [by apply Hfind|]. apply awp_TX; [intros _; by apply Hfind|]. intros Hab. rewrite Ha in Hab by done. done. }
  eapply awp_mono; [|exact Hr]. intros r v' [-> ->]. apply awp_bind, awp_assigned_rows, awp_ret. exact HQ.
Qed.

Lemma awp_first_org (P : PortalOrg -> bool) Q v : Q (Answer (head (List.filter P (vw_orgs v)))) v ->
  awp true (with_orgs (TS := TS) (TP := TP) (TU := TU) (TN := TN) (TA := TA) (TF := TF) (W := W) (tbl_first P)) Q v.
Proof. intros HQ. apply awp_orgs, effect_first; [|done]. by destruct v. Qed.

Lemma awp_first_number (P : PortalNumber -> bool) Q v : Q (Answer (head (List.filter P (vw_numbers v)))) v ->
  awp true (with_numbers (TS := TS) (TP := TP) (TU := TU) (TO := TO) (TA := TA) (TF := TF) (W := W) (tbl_first P)) Q v.
Proof. intros HQ. apply awp_numbers, effect_first; [|done]. by destruct v. Qed.

Lemma awp_first_user (P : PortalUser -> bool) Q v : Q (Answer (head (List.filter P (vw_users v)))) v ->
  awp true (with_users (TS := TS) (TP := TP) (TO := TO) (TN := TN) (TA := TA) (TF := TF) (W := W) (tbl_first P)) Q v.
Proof. intros HQ. apply awp_users, effect_first; [|done]. by destruct v. Qed.

(** A number that is there is loaded with its organisation. *)
Lemma awp_loadNumber id Q v :
  (forall num org, num ∈ vw_numbers v -> pn_ID num = id -> owner v num = Some org -> Q (Answer (Ok (num, org))) v) ->
  (forall e, Q (Answer (Err e)) v) ->
  awp true (loadNumber (TS := TS) (TP := TP) (TU := TU) (TO := TO) (TN := TN) (TA := TA) (TF := TF) id) Q v.
Proof.
  intros Hok Herr. unfold loadNumber. apply awp_bind, awp_first_number.
  destruct (head (List.filter (has_id id) (vw_numbers v))) as [num|] eqn:E; [|apply awp_ret, Herr].
  apply head_filter_elem in E as [Hin Hid]. unfold has_id in Hid. apply Z.eqb_eq in Hid.
  apply awp_bind, awp_first_org, awp_ret. fold (owner v num).
  destruct (owner v num) as [org|] eqn:Eo; [by apply Hok|apply Herr].
Qed.

(** *** Pushing several numbers *)

(** What pushes leave of [v]: only gofaxserver moved, the numbers not pushed
    stay as they were, and all of [ids] are right when nothing failed. *)
Definition resynced v (ids : list Z) (ok : Prop) v' : Prop :=
  exists w', v' = v <| vw_up := w' |> /\ sound v' /\
    (forall num, num ∈ vw_numbers v -> pn_ID num ∉ ids -> mirrored v num -> mirrored v' num) /\
    (ok -> forall num, num ∈ vw_numbers v -> pn_ID num ∈ ids -> mirrored v' num).

Lemma push_resynced v num org : sound v -> num ∈ vw_numbers v -> owner v num = Some org ->
  let r := push num org (want v num org) (vw_up v) in
  resynced v [pn_ID num] (r.1 = FxOk ()) (v <| vw_up := r.2 |>).
Proof.
  intros Hs Hn Ho r. pose proof (so_linked v Hs num Hn) as Hl. exists r.2. split; [done|]. split; [by apply push_sound|]. split.
  - intros n Hin Hid Hm. apply push_other; try done. intros He. apply Hid. rewrite (so_gofax v Hs n num) by done. by left.
  - intros Hok n Hin Hid. apply list_elem_of_singleton in Hid.
    rewrite (ids_ok_inj (vw_numbers v) n num (so_numbers v Hs) Hin Hn Hid). by apply (push_mirrored v num org).
Qed.

Lemma resynced_none v ids ok : sound v -> (ok -> ids = []) -> resynced v ids ok v.
Proof.
  intros Hs Hn. exists (vw_up v). split; [by destruct v|]. split; [done|]. split; [done|]. intros Hok num _ Hin.
  rewrite (Hn Hok) in Hin. by apply elem_of_nil in Hin.
Qed.

Lemma resynced_cons v v1 v2 nid ids (ok1 ok2 : Prop) :
  resynced v [nid] ok1 v1 -> resynced v1 ids ok2 v2 -> resynced v (nid :: ids) (ok1 /\ ok2) v2.
Proof.
  intros (w1 & -> & Hs1 & Hold1 & Hnew1) (w2 & -> & Hs2 & Hold2 & Hnew2). exists w2. split; [done|]. split; [done|]. split.
  - intros num Hn [Hid Hids]%not_elem_of_cons Hm. apply Hold2; [done..|]. apply Hold1; [done| |done]. set_solver.
  - intros [H1 H2] num Hn Hin. destruct (decide (pn_ID num ∈ ids)) as [Hi|Hi]; [by apply Hnew2|].
    apply Hold2; [done..|]. apply Hnew1; [done..|]. set_solver.
Qed.

Lemma awp_resync_one hd nid Q v : sound v -> (hd = TX -> vw_aborted v = false) ->
  (forall f v', resynced v [nid] (f = []) v' -> Q (Answer f) v') ->
  awp true (resync_one (TS := TS) (TP := TP) (TU := TU) (TO := TO) (TN := TN) (TA := TA) (TF := TF) order hd nid) Q v.
Proof.
  intros Hs Ha HQ. unfold resync_one. apply awp_bind, awp_loadNumber.
  - intros num org Hn Hid Ho. apply awp_bind, awp_notify_of; [done|].
    apply awp_bind, awp_FX, awp_ret, HQ. subst nid. pose proof (push_resynced v num org Hs Hn Ho) as Hr. simpl in Hr.
    change (fx_UpdateNumber (pushed num org _) (vw_up v)) with (push num org (want v num org) (vw_up v)).
    destruct Hr as (w' & Hw & ? & ? & Hok). exists w'. split_and!; try done. intros Hf n Hin Hidn. apply Hok; [|done..].
    by destruct (push num org (want v num org) (vw_up v)).1 as [[]|e].
  - intros e. apply awp_ret, HQ. by apply resynced_none.
Qed.

Lemma awp_resync hd ids : forall Q v, sound v -> (hd = TX -> vw_aborted v = false) ->
  (forall fs v', resynced v ids (fs = []) v' -> Q (Answer fs) v') ->
  awp true (resyncNotifyForNumberIDs (TS := TS) (TP := TP) (TU := TU) (TO := TO) (TN := TN) (TA := TA) (TF := TF) order hd ids) Q v.
Proof.
  induction ids as [|nid ids IH]; intros Q v Hs Ha HQ; cbn [resyncNotifyForNumberIDs].
  - apply awp_ret, HQ. by apply resynced_none.
  - apply awp_bind, awp_resync_one; [done..|]. intros f v1 H1.
    pose proof H1 as (w1 & -> & Hs1 & _). apply awp_bind, IH; [done..|]. intros fs v2 H2.
    apply awp_ret, HQ. destruct (resynced_cons _ _ _ _ _ _ _ H1 H2) as (w & ? & ? & ? & Hok).
    exists w. split_and!; try done. intros [??]%app_eq_nil. by apply Hok.
Qed.


(** *** Changes that the numbers do not notice *)

Definition same_entries v v' num : Prop :=
  omap (entry (vw_assigned v') (pn_ID num)) (vw_users v') = omap (entry (vw_assigned v) (pn_ID num)) (vw_users v).

Definition same_owner v v' num : Prop := forall org, owner v num = Some org ->
  exists org', owner v' num = Some org' /\ po_SvcUsername org' = po_SvcUsername org /\ po_GofaxTenantID org' = po_GofaxTenantID org.

Lemma mirrored_same v v' num : same_entries v v' num -> same_owner v v' num ->
  (forall r, r ∈ up_numbers (vw_up v) -> r ∈ up_numbers (vw_up v')) -> mirrored v num -> mirrored v' num.
Proof.
  intros He Ho Hup (org & Horg & Hin). destruct (Ho org Horg) as (org' & Horg' & Hs & Hg). exists org'. split; [done|].
  apply Hup. unfold pushed, want, computeNotify in *. rewrite Hs, Hg. by rewrite !assigned_emails_omap in *; rewrite He.
Qed.

Lemma same_owner_refl v v' num : vw_orgs v' = vw_orgs v -> same_owner v v' num.
Proof. intros He org Ho. exists org. unfold owner in *. by rewrite He. Qed.

(** The same rows, and gofaxserver the same numbers. *)
Lemma mirror_agree v v' :
  vw_users v' = vw_users v -> vw_orgs v' = vw_orgs v -> vw_numbers v' = vw_numbers v -> vw_assigned v' = vw_assigned v ->
  up_ok (vw_up v') -> up_numbers (vw_up v') = up_numbers (vw_up v) -> mirror v -> mirror v'.
Proof.
  intros Hu Ho Hn Ha Hok Hup [[] Hm]. split.
  - split; unfold sound_assignment, linked, owner in *; rewrite ?Hu, ?Ho, ?Hn, ?Ha, ?Hup; done.
  - rewrite Hn. intros num Hin. apply (mirrored_same v); [|by apply same_owner_refl|by rewrite Hup|by apply Hm].
    unfold same_entries. by rewrite Hu, Ha.
Qed.

Lemma sound_agree v v' :
  vw_users v' = vw_users v -> vw_orgs v' = vw_orgs v -> vw_numbers v' = vw_numbers v -> vw_assigned v' = vw_assigned v ->
  up_ok (vw_up v') -> up_numbers (vw_up v') = up_numbers (vw_up v) -> sound v -> sound v'.
Proof.
  intros Hu Ho Hn Ha Hok Hup []. split; unfold sound_assignment, linked, owner in *; rewrite ?Hu, ?Ho, ?Hn, ?Ha, ?Hup; done.
Qed.

(** Of a transaction that is rolled back only the pushes remain. *)
Lemma sound_rollback v v2 v3 : sound v -> sound v2 ->
  vw_numbers v2 = vw_numbers v -> vw_numbers v3 = vw_numbers v -> vw_orgs v3 = vw_orgs v -> vw_users v3 = vw_users v ->
  vw_assigned v3 = vw_assigned v -> vw_up v3 = vw_up v2 -> sound v3.
Proof.
  intros Hs Hs2 H2 Hn Ho Hu Ha Hup. apply (sound_agree (v <| vw_up := vw_up v2 |>)); try done.
  - rewrite Hup. apply so_up, Hs2.
  - by rewrite Hup.
  - apply sound_up; [done|apply so_up, Hs2|]. intros num Hnum. rewrite <- H2 in Hnum. by destruct (so_linked v2 Hs2 num Hnum) as (_ & _ & Hr).
Qed.

(** *** Editing users *)

(** A change of user rows that keeps what assignments refer to. *)
Definition keeps_users (g : PortalUser -> PortalUser) v : Prop :=
  forall u, u ∈ vw_users v -> pu_ID (g u) = pu_ID u /\ pu_Role (g u) = pu_Role u /\ pu_OrgID (g u) = pu_OrgID u.

Lemma map_ids g v : keeps_users g v -> map get_id (map g (vw_users v)) = map get_id (vw_users v).
Proof.
  intros Hg. rewrite map_map. apply map_ext_in. intros u Hu. rewrite <- list_elem_of_In in Hu. by destruct (Hg u Hu).
Qed.

Lemma sound_map_users g v : sound v -> keeps_users g v -> sound (v <| vw_users := map g (vw_users v) |>).
Proof.
  intros [] Hg. split; try done; simpl.
  - unfold ids_ok. by rewrite map_ids.
  - intros un Hun. destruct (so_assigned0 un Hun) as (u & num & Hu & Hn & Hid & Hnid & Hrole & Horg).
    destruct (Hg u Hu) as (Hg1 & Hg2 & Hg3). exists (g u), num. split_and!; simpl; try congruence.
    by apply (list_elem_of_fmap_2 g).
Qed.

Lemma mirror_map_users g v : mirror v -> keeps_users g v ->
  (forall num u, num ∈ vw_numbers v -> u ∈ vw_users v -> is_assigned (pn_ID num) (vw_assigned v) u = true ->
     pu_Email (g u) = pu_Email u /\ pu_Active (g u) = pu_Active u /\ pu_EmailNotify (g u) = pu_EmailNotify u) ->
  mirror (v <| vw_users := map g (vw_users v) |>).
Proof.
  intros [Hs Hm] Hg Hmail. split; [by apply sound_map_users|]. intros num Hn.
  apply (mirrored_same v); [|by apply same_owner_refl|done|by apply Hm].
  unfold same_entries. simpl. apply omap_map. intros u Hu. destruct (Hg u Hu) as (Hid & _).
  unfold entry. assert (is_assigned (pn_ID num) (vw_assigned v) (g u) = is_assigned (pn_ID num) (vw_assigned v) u) as ->.
  { unfold is_assigned. by rewrite Hid. }
  destruct (is_assigned _ _ u) eqn:Ea; [|done]. by destruct (Hmail num u Hn Hu Ea) as (-> & -> & ->).
Qed.

Definition put (u' : PortalUser) (u : PortalUser) : PortalUser := if get_id u =? get_id u' then u' else u.

Lemma replace_put u u' (us : list PortalUser) : u ∈ us -> pu_ID u' = pu_ID u -> replace_row u' us = map (put u') us.
Proof.
  intros Hu Hid. unfold replace_row, put. assert (existsb (fun x => get_id x =? get_id u') us = true) as ->; [|done].
  apply existsb_exists. exists u. split; [by apply list_elem_of_In|]. apply Z.eqb_eq. by symmetry.
Qed.

Lemma keeps_put u u' v : sound v -> u ∈ vw_users v -> pu_ID u' = pu_ID u -> pu_Role u' = pu_Role u -> pu_OrgID u' = pu_OrgID u ->
  keeps_users (put u') v.
Proof.
  intros Hs Hu Hid Hr Ho x Hx. unfold put. destruct (get_id x =? get_id u') eqn:E; [|done]. apply Z.eqb_eq in E.
  assert (x = u) as ->; [|by split_and!]. apply (ids_ok_inj (vw_users v)); [by apply so_users|done..|]. by rewrite E.
Qed.

(** A user without numbers is assigned to none. *)
Lemma no_numbers v u num : sound v -> u ∈ vw_users v -> has_numbers u = false -> is_assigned (pn_ID num) (vw_assigned v) u = false.
Proof.
  intros Hs Hu Hn. apply not_true_is_false. intros Ha%is_assigned_spec.
  destruct (so_assigned v Hs _ Ha) as (x & n & Hx & _ & Hid & _ & Hrole & Horg). simpl in Hid.
  assert (x = u) as -> by (apply (ids_ok_inj (vw_users v)); [by apply so_users|done..]).
  unfold has_numbers in Hn. by rewrite Hrole, Horg in Hn.
Qed.

(** The new row says the same to every number the user has. *)
Lemma mirror_put u u' v : mirror v -> u ∈ vw_users v -> pu_ID u' = pu_ID u -> pu_Role u' = pu_Role u -> pu_OrgID u' = pu_OrgID u ->
  (has_numbers u = true -> pu_Email u' = pu_Email u /\ pu_Active u' = pu_Active u /\ pu_EmailNotify u' = pu_EmailNotify u) ->
  mirror (v <| vw_users := replace_row u' (vw_users v) |>).
Proof.
  intros Hm Hu Hid Hr Ho Hsame. pose proof (proj1 Hm) as Hs. rewrite (replace_put u) by done.
  apply mirror_map_users; [done|by apply (keeps_put u)|]. intros num x Hn Hx Ha. unfold put.
  destruct (get_id x =? get_id u') eqn:E; [|done]. apply Z.eqb_eq in E.
  assert (x = u) as -> by (apply (ids_ok_inj (vw_users v)); [by apply so_users|done..|by rewrite E]).
  apply Hsame. destruct (has_numbers u) eqn:En; [done|]. by rewrite (no_numbers v u num) in Ha.
Qed.

End mirror.
