(* ===== verification/PortalAdminFacts.v ===== *)
(** * PortalAdminFacts: what administering the portal guarantees

    The mirror of numbers and notify strings survives every request but those
    that gofaxserver did not carry out; a failed request leaves the portal's own
    tables as they were; no request opens a session, and those that withdraw an
    account's rights close the account's sessions. *)

From S2P Require Import Prelude Store FaxJob Directory PortalModels PortalNotify PortalAuth TenantUsers WebAdmin PortalUpstream PortalAdmin PortalLogic PortalMirror.

(** Success counts as 200, whichever 2xx it is. *)
Definition status {A} (a : answer A) : Z := match a with Answer _ => 200 | Reject code _ => code end.

Section facts.
Context {TS TP TU TO TN TA TF W : Type} `{!Table TS Session, !TableLaws TS Session}
  `{!Table TP PendingAuth, !TableLaws TP PendingAuth} `{!Table TU PortalUser, !TableLaws TU PortalUser}
  `{!TableTx TU PortalUser, !TableTxLaws TU PortalUser} `{!Table TO PortalOrg, !TableLaws TO PortalOrg}
  `{!Table TN PortalNumber, !TableLaws TN PortalNumber} `{!Relation TA UserNumber, !RelationLaws TA UserNumber}
  `{!Table TF InboundFax, !TableLaws TF InboundFax} `{!Upstream W, !UpstreamLaws W} `{Crypto}.
Variable order : list string -> list string.
Variable Box : string.
#[local] Notation View := (View (W := W)).
#[local] Notation AM := (AM (TS := TS) (TP := TP) (TU := TU) (TO := TO) (TN := TN) (TA := TA) (TF := TF) (W := W)).
#[local] Notation AdminState := (AdminState (TS := TS) (TP := TP) (TU := TU) (TO := TO) (TN := TN) (TA := TA) (TF := TF) (W := W)).
#[local] Existing Instances am_ret am_bind.
#[local] Notation mirror := (mirror order).
#[local] Notation resynced := (resynced order).
Implicit Types (v : View) (env : AdminEnv).

(** ** The mirror, request by request *)

(** What a request leaves, if its transaction can begin and commit: when a push
    went wrong a state that can be pushed again. *)
Definition settled {A} (r : answer A) v : Prop := (status r = 502 /\ sound v) \/ mirror v.
Definition keeps_mirror {A} (m : AM A) : Prop := forall v, mirror v -> awp true m settled v.

Definition steady env : Prop := ae_begin env = true /\ ae_commit env = true.


Lemma mirror_up_ok v : mirror v -> up_ok (vw_up v).
Proof. intros [[] _]. done. Qed.

(** Sessions and pending logins are no part of it. *)
Lemma awp_DestroySessions (Q : answer bool -> View -> Prop) uid v :
  (forall l, (forall s, s ∈ l -> s ∈ vw_sess v /\ ss_UserID s <> uid) -> Q (Answer true) (v <| vw_sess := l |>)) ->
  awp true (DestroySessions uid : AM bool) Q v.
Proof.
  intros HQ. apply awp_sessions, effect_delete; [|done]. apply HQ. intros s Hs.
  apply list_elem_of_In, filter_In in Hs as [Hs Hb]. reflect_bools. split; [by apply list_elem_of_In|done].
Qed.

Lemma mirror_sess v l : mirror v -> mirror (v <| vw_sess := l |>).
Proof. intros Hm. apply (mirror_agree order v); try done. exact (mirror_up_ok v Hm). Qed.
Lemma mirror_pend v l : mirror v -> mirror (v <| vw_pend := l |>).
Proof. intros Hm. apply (mirror_agree order v); try done. exact (mirror_up_ok v Hm). Qed.

Lemma save_and_resync_keeps env u u' v : steady env -> mirror v -> u ∈ vw_users v ->
  pu_ID u' = pu_ID u -> pu_Role u' = pu_Role u -> pu_OrgID u' = pu_OrgID u ->
  awp true (save_and_resync order env u' : AM ()) settled v.
Proof.
  intros [Hb Hc] Hm Hu Hid Hr Ho. pose proof (proj1 Hm) as Hs. unfold save_and_resync.
  apply awp_bind, awp_Begin. rewrite Hb. apply awp_bind, awp_TX; [|done]. intros _.
  apply awp_bind, awp_users, effect_save; [|done]. apply awp_ret. cbn [if_ok].
  set (v1 := _ <| vw_users := replace_row u' _ |>).
  assert (sound v1) as Hs1.
  { apply (sound_agree (v <| vw_users := replace_row u' (vw_users v) |>)); try done; [exact (mirror_up_ok v Hm)|].
    rewrite (replace_put u) by done. apply sound_map_users; [done|]. by apply (keeps_put u). }
  apply awp_bind. unfold resyncUserNotify, number_ids. apply awp_bind, awp_bind, awp_TX; [|done]. intros _.
  apply awp_assigned_find; [|done]. apply awp_ret. cbn [default].
  apply (awp_resync order TX); [done..|]. intros fs v2 (w & -> & Hs2 & Hold & Hnew).
  destruct fs as [|f fs].
  2: { apply awp_bind, awp_Rollback, awp_reject. left. split; [done|]. by apply (sound_rollback v (v1 <| vw_up := w |>)). }
  apply awp_bind, awp_Commit; simpl; [|rewrite Hc; by intros [|]]. intros _ _.
  apply awp_ret. right. split; [done|]. intros num Hn.
  assert (num ∈ vw_numbers v1) as Hn1 by done. set (ids := map un_NumberID _) in *.
  destruct (decide (pn_ID num ∈ ids)) as [Hin|Hin]; [by apply Hnew|]. apply Hold; [done..|].
  apply (mirrored_same order v); [|by apply same_owner_refl|done|by apply (proj2 Hm)].
  unfold same_entries, v1. simpl. rewrite (replace_put u) by done. apply omap_map. intros x Hx.
  unfold put. destruct (get_id x =? get_id u') eqn:E; [|done]. apply Z.eqb_eq in E.
  assert (x = u) as -> by (apply (ids_ok_inj (vw_users v)); [by apply so_users|done..|by rewrite E]).
  assert ({| un_UserID := pu_ID u; un_NumberID := pn_ID num |} ∉ vw_assigned v) as Hna.
  { intros Ha. apply Hin. unfold ids. apply list_elem_of_fmap.
    exists {| un_UserID := pu_ID u; un_NumberID := pn_ID num |}. split; [done|].
    apply list_elem_of_In, filter_In. split; [by apply list_elem_of_In|]. simpl. by apply Z.eqb_eq. }
  rewrite !not_assigned; [done|done|by rewrite Hid].
Qed.

Lemma adminUpdateUser_keeps env id req : steady env -> keeps_mirror (adminUpdateUser order env id req : AM PortalUser).
Proof.
  intros Henv v Hm. unfold adminUpdateUser. apply awp_bind, awp_first_user.
  destruct (head _) as [u|] eqn:Hf; [|by apply awp_bind, awp_reject; right].
  apply head_filter_elem in Hf as [Hu _]. apply awp_bind, awp_ret, awp_bind, awp_some_or; [intros r ->|by right].
  set (u' := edited r u). apply awp_bind.
  assert (awp true (if pu_Active u && negb (pu_Active u') then _ ← DestroySessions (pu_ID u); mret () else mret () : AM ())
    (fun r v' => r = Answer () /\ mirror v' /\ u ∈ vw_users v') v) as Hd.
  { case_match; [|by apply awp_ret]. apply awp_bind, awp_DestroySessions. intros l _. apply awp_ret. split_and!; [done|by apply mirror_sess|done]. }
  eapply awp_mono; [|exact Hd]. intros ? v1 (-> & Hm1 & Hu1). apply awp_bind.
  assert (pu_ID u' = pu_ID u /\ pu_Role u' = pu_Role u /\ pu_OrgID u' = pu_OrgID u) as (Hid & Hr & Ho) by done.
  destruct (notify_relevant u u' && has_numbers u) eqn:E.
  - eapply awp_mono; [|by apply (save_and_resync_keeps env u)]. intros [[]|c e] v2 H2; [|done].
    apply awp_ret. right. by destruct H2 as [[? _]|].
  - apply awp_bind, awp_users, effect_save; [|done]. apply awp_ensure; [intros _|done]. apply awp_ret. right.
    apply (mirror_put order u); try done. intros Hn. rewrite Hn, andb_true_r in E. unfold notify_relevant in E.
    apply negb_false_iff in E. reflect_bools. apply eqb_prop in H1, H2. done.
Qed.

Lemma adminResetPassword_keeps env id req : keeps_mirror (adminResetPassword env id req : AM ()).
Proof.
  intros v Hm. unfold adminResetPassword. apply awp_bind, awp_first_user.
  destruct (head _) as [u|] eqn:Hf; [|by apply awp_bind, awp_reject; right].
  apply head_filter_elem in Hf as [Hu _]. apply awp_bind, awp_ret, awp_bind, awp_some_or; [intros pw _|by right].
  apply awp_bind, awp_ensure; [intros _|by right]. apply awp_bind, awp_some_or; [intros h _|by right].
  apply awp_bind, awp_users, effect_save; [|done]. apply awp_bind, awp_ret, awp_bind, awp_DestroySessions.
  intros l _. apply awp_ret. right. apply mirror_sess, (mirror_put order u); done.
Qed.

Lemma adminResetUserTOTP_keeps id : keeps_mirror (adminResetUserTOTP id : AM ()).
Proof.
  intros v Hm. unfold adminResetUserTOTP. apply awp_bind, awp_first_user.
  destruct (head _) as [u|] eqn:Hf; [|by apply awp_bind, awp_reject; right].
  apply awp_bind, awp_ret. case_match; [by apply awp_ret; right|].
  apply awp_bind, awp_users, effect_update; [|done]. apply awp_bind, awp_ret, awp_bind, awp_DestroySessions.
  intros l _. apply awp_bind, awp_pending, effect_delete; [|done]. apply awp_ret. right. apply mirror_pend, mirror_sess.
  apply mirror_map_users; [done|..].
  - intros x _. by case_match.
  - intros num x _ _ _. by case_match.
Qed.

(** *** A user goes *)

Lemma sound_drop_user v uid : sound v ->
  sound (v <| vw_users := List.filter (fun u => negb (has_id uid u)) (vw_users v) |>
           <| vw_assigned := List.filter (fun un => negb (un_UserID un =? uid)) (vw_assigned v) |>).
Proof.
  intros []. split; simpl; try done; [by apply ids_ok_filter|].
  intros un Hun. apply list_elem_of_In, filter_In in Hun as [Hun Hne]. apply list_elem_of_In in Hun. reflect_bools.
  destruct (so_assigned un Hun) as (u & num & Hu & Hn & Hid & ?). exists u, num. split_and!; try tauto.
  apply list_elem_of_In, filter_In. split; [by apply list_elem_of_In|]. unfold has_id. change (get_id u) with (pu_ID u).
  rewrite Hid. by apply negb_true_iff, Z.eqb_neq.
Qed.

Lemma mirrored_drop_user v uid num : mirrored order v num -> {| un_UserID := uid; un_NumberID := pn_ID num |} ∉ vw_assigned v ->
  mirrored order (v <| vw_users := List.filter (fun u => negb (has_id uid u)) (vw_users v) |>
           <| vw_assigned := List.filter (fun un => negb (un_UserID un =? uid)) (vw_assigned v) |>) num.
Proof.
  intros Hm Hn. apply (mirrored_same order v); [|by apply same_owner_refl|done|done]. unfold same_entries. simpl.
  rewrite omap_filter.
  - apply omap_ext_in. intros u Hu. unfold entry.
    assert (is_assigned (pn_ID num) (List.filter (fun un => negb (un_UserID un =? uid)) (vw_assigned v)) u
            = is_assigned (pn_ID num) (vw_assigned v) u) as ->; [|done].
    apply eq_true_iff_eq. rewrite !is_assigned_spec, !list_elem_of_In, filter_In. simpl.
    split; [tauto|]. intros Hin. split; [done|]. apply negb_true_iff, Z.eqb_neq. intros <-. by apply Hn, list_elem_of_In.
  - intros u Hu Hid. apply negb_false_iff in Hid. unfold has_id in Hid. apply Z.eqb_eq in Hid. change (pu_ID u = uid) in Hid. subst uid.
    apply not_assigned. intros Hin. apply list_elem_of_In, filter_In in Hin as [_ Hb]. by rewrite Z.eqb_refl in Hb.
Qed.

Lemma adminDeleteUser_keeps env actor id : steady env -> keeps_mirror (adminDeleteUser order env actor id : AM ()).
Proof.
  intros [Hb Hc] v Hm. pose proof (proj1 Hm) as Hs. unfold adminDeleteUser.
  apply awp_bind, awp_ensure; [intros _|by right]. apply awp_bind, awp_first_user.
  destruct (head _) as [u|] eqn:Hf; [|by apply awp_bind, awp_reject; right].
  apply head_filter_elem in Hf as [Hu _]. apply awp_bind, awp_ret. unfold number_ids.
  apply awp_bind, awp_bind, awp_assigned_find; [|done]. apply awp_ret. cbn [default].
  apply awp_bind, awp_Begin. rewrite Hb.
  apply awp_bind, awp_TX; [intros _|done]. apply awp_bind, awp_assigned_delete; [|done]. apply awp_ret. cbn [if_ok].
  apply awp_bind, awp_TX; [intros _|done]. apply awp_bind, awp_users, effect_delete; [|done]. apply awp_ret. cbn [if_ok].
  set (v1 := _ <| vw_users := _ |>). set (ids := map un_NumberID _).
  assert (sound v1) as Hs1.
  { eapply sound_agree; [..|apply (sound_drop_user v (pu_ID u) Hs)]; try done. exact (mirror_up_ok v Hm). }
  assert (forall num, num ∈ vw_numbers v -> pn_ID num ∉ ids -> mirrored order v1 num) as Hother.
  { intros num Hn Hi. destruct (mirrored_drop_user v (pu_ID u) num (proj2 Hm num Hn)) as (org & Ho & Hin); [|by exists org].
    intros Ha. apply Hi. unfold ids. apply list_elem_of_fmap. exists {| un_UserID := pu_ID u; un_NumberID := pn_ID num |}.
    split; [done|]. apply list_elem_of_In, filter_In. split; [by apply list_elem_of_In|]. simpl. apply Z.eqb_refl. }
  assert (awp true (if has_numbers u then resyncNotifyForNumberIDs order TX ids else mret [] : AM (list string))
    (fun r v2 => exists fs, r = Answer fs /\ resynced v1 ids (fs = []) v2) v1) as Hre.
  { destruct (has_numbers u) eqn:En; [apply (awp_resync order TX); [done..|]; by intros; eexists|].
    apply awp_ret. exists []. split; [done|]. apply (resynced_none order); [done|]. intros _. unfold ids, Datatypes.id. clear -En Hs Hu.
    destruct (List.filter _ (vw_assigned v)) as [|un l] eqn:El; [done|].
    destruct (head_filter_elem (fun un => un_UserID un =? pu_ID u) (vw_assigned v) un) as [Hin Hid]; [by rewrite El|].
    apply Z.eqb_eq in Hid.
    destruct (so_assigned v Hs un Hin) as (x & n & Hx & _ & Hxi & _ & Hrole & Horg).
    assert (x = u) as -> by (apply (ids_ok_inj (vw_users v)); [by apply so_users|done..|]; change (pu_ID x = pu_ID u); congruence).
    unfold has_numbers in En. by rewrite Hrole, Horg in En. }
  apply awp_bind. eapply awp_mono; [|exact Hre]. intros ? v2 (fs & -> & w & -> & Hs2 & Hold & Hnew).
  destruct fs as [|f fs].
  2: { apply awp_bind, awp_Rollback, awp_reject. left. split; [done|]. by apply (sound_rollback v (v1 <| vw_up := w |>)). }
  apply awp_bind, awp_Commit; simpl; [intros _ _|rewrite Hc; by intros [|]]. apply awp_bind, awp_ret.
  apply awp_bind, awp_DestroySessions. intros l _. apply awp_ret. right. apply mirror_sess. split; [done|]. intros num Hn.
  destruct (decide (pn_ID num ∈ ids)) as [Hi|Hi]; [by apply Hnew|]. apply Hold; [done..|]. by apply Hother.
Qed.

(** *** A user comes *)

Lemma mirror_new_user v u' : mirror v -> Forall (fun x : PortalUser => get_id x <> get_id u') (vw_users v) ->
  mirror (v <| vw_users := vw_users v ++ [u'] |>).
Proof.
  intros [[] Hm] Hf. split.
  - split; simpl; try done; [by apply ids_ok_app|]. intros un Hun.
    destruct (so_assigned un Hun) as (u & num & Hu & ?). exists u, num. split; [|tauto]. apply elem_of_app. by left.
  - intros num Hn. apply (mirrored_same order v); [|by apply same_owner_refl|done|by apply Hm].
    unfold same_entries. simpl. rewrite omap_app. cbn [omap list_omap].
    rewrite not_assigned; [by rewrite app_nil_r|]. intros Ha. destruct (so_assigned _ Ha) as (u & n & Hu & _ & Hid & _).
    rewrite Forall_forall in Hf. by apply (Hf u Hu).
Qed.

Lemma adminCreateUser_keeps env req : keeps_mirror (adminCreateUser env req : AM PortalUser).
Proof.
  intros v Hm. unfold adminCreateUser. apply awp_bind, awp_some_or; [intros r ->|by right].
  do 3 (apply awp_bind, awp_ensure; [intros _|by right]). apply awp_bind.
  assert (forall Q : answer () -> View -> Prop, Q (Answer ()) v -> Q (Reject 404 "org not found") v ->
    awp true (if named_org r then rows ← with_orgs (tbl_find (fun o : PortalOrg => bool_decide (Some (po_ID o) = cu_OrgID r)));
      ensure (negb (length (default [] rows) =? 0)%nat) 404 "org not found" else mret () : AM ()) Q v) as Horg.
  { intros Q H1 H2. case_match; [|by apply awp_ret]. apply awp_bind, awp_orgs, effect_find; [|done].
    apply awp_ensure; intros _; by destruct v. }
  apply Horg; [|by right]. apply awp_bind, awp_some_or; [intros h _|by right].
  apply awp_bind, awp_users, effect_create; [|done]. intros u' _ _ Hf. apply awp_ret. right. by apply mirror_new_user.
Qed.

(** *** Calls that do not touch numbers *)

Definition calm v v' : Prop :=
  exists w', v' = v <| vw_up := w' |> /\ up_ok w' /\ up_numbers w' = up_numbers (vw_up v).

Lemma calm_refl v : up_ok (vw_up v) -> calm v v.
Proof. intros Hok. exists (vw_up v). by destruct v. Qed.

Lemma calm_trans v1 v2 v3 : calm v1 v2 -> calm v2 v3 -> calm v1 v3.
Proof. intros (w1 & -> & _ & H1) (w2 & -> & ? & H2). exists w2. split; [done|]. split; [done|]. simpl in H2. congruence. Qed.

Lemma calm_ok v v' : calm v v' -> up_ok (vw_up v').
Proof. by intros (w & -> & ? & _). Qed.

Lemma calm_mirror v v' : calm v v' -> mirror v -> mirror v'.
Proof. intros (w & -> & ? & ?). by apply mirror_agree. Qed.

Lemma calm_sound v v' : calm v v' -> sound v -> sound v'.
Proof. intros (w & -> & ? & ?). by apply sound_agree. Qed.

Lemma settled_calm {A} (r : answer A) v v' : calm v v' -> mirror v -> settled r v'.
Proof. right. by eapply calm_mirror. Qed.

Lemma awp_spare {A} (f : W -> fx A * W) (Q : answer (fx A) -> View -> Prop) v : spares_numbers f -> up_ok (vw_up v) ->
  (forall v', calm v v' -> Q (Answer (f (vw_up v)).1) v') -> awp true (FX f : AM (fx A)) Q v.
Proof.
  intros Hf Hok HQ. apply awp_FX. destruct (Hf _ Hok) as [Hok' Hn]. apply HQ. exists (f (vw_up v)).2. by split_and!.
Qed.

Lemma awp_delete_portal_endpoints num (Q : answer () -> View -> Prop) v : up_ok (vw_up v) ->
  (forall v', calm v v' -> Q (Answer ()) v') -> awp true (delete_portal_endpoints num : AM ()) Q v.
Proof.
  intros Hok HQ. unfold delete_portal_endpoints. apply awp_bind, awp_spare; [apply endpoints_listed|done|]. intros v1 H1.
  destruct (fx_ListEndpoints _ _ _).1 as [eps|e]; [|by apply awp_ret, HQ].
  apply (awp_each true _ (calm v)); [done|..|done]. intros ep v2 _ H2. case_match; [|by apply awp_ret].
  apply awp_bind, awp_spare; [apply endpoint_deleted|exact (calm_ok _ _ H2)|]. intros v3 H3. apply awp_ret. by eapply calm_trans.
Qed.

Lemma awp_deprovision num (Q : answer PortalNumber -> View -> Prop) v : up_ok (vw_up v) ->
  (forall v', calm v v' -> Q (Answer (num <| pn_PortalEndpointID := 0 |>)) v') ->
  awp true (deprovisionPortalEndpoint num : AM PortalNumber) Q v.
Proof.
  intros Hok HQ. unfold deprovisionPortalEndpoint. apply awp_bind.
  assert (awp true (if pn_PortalEndpointID num =? 0 then mret false
    else deleted ← FX (fx_DeleteEndpoint (pn_PortalEndpointID num));
         mret (match deleted with FxOk _ => true | FxErr _ => false end) : AM bool)
    (fun r v' => exists b, r = Answer b /\ calm v v') v) as Hg.
  { case_match; [apply awp_ret; eauto using calm_refl|]. apply awp_bind, awp_spare; [apply endpoint_deleted|done|].
    intros v1 H1. apply awp_ret. eauto. }
  eapply awp_mono; [|exact Hg]. intros ? v1 (gone & -> & H1). apply awp_bind. destruct gone.
  - apply awp_ret, awp_ret. by apply HQ.
  - apply awp_delete_portal_endpoints; [exact (calm_ok _ _ H1)|]. intros v2 H2. apply awp_ret, HQ. by eapply calm_trans.
Qed.

Lemma awp_provision num org (Q : answer (fx PortalNumber) -> View -> Prop) v : up_ok (vw_up v) ->
  (forall r v', calm v v' -> match r with FxOk num' => exists i, num' = num <| pn_PortalEndpointID := i |> | FxErr _ => True end ->
     Q (Answer r) v') ->
  awp true (provisionPortalEndpoint num org : AM (fx PortalNumber)) Q v.
Proof.
  intros Hok HQ. unfold provisionPortalEndpoint. apply awp_bind, awp_spare; [apply endpoint_added|done|]. intros v1 H1.
  apply awp_ret, HQ; [done|]. destruct (fx_AddEndpoint _ _).1; eauto.
Qed.

(** *** Editing numbers *)

Definition same_place (num num' : PortalNumber) : Prop :=
  pn_ID num' = pn_ID num /\ pn_Number num' = pn_Number num /\ pn_GofaxNumberID num' = pn_GofaxNumberID num /\
  pn_OrgID num' = pn_OrgID num.

Lemma replace_number v num num' n : sound v -> num ∈ vw_numbers v -> same_place num num' ->
  n ∈ replace_row num' (vw_numbers v) -> n = num' \/ n ∈ vw_numbers v /\ n <> num.
Proof.
  intros Hs Hn Hp Hin. destruct (decide (pn_ID n = pn_ID num')) as [He|He].
  - left. apply (ids_ok_inj (replace_row num' (vw_numbers v))); [by apply replace_row_ids, so_numbers|done|apply replace_row_new|done].
  - destruct (replace_row_elem _ _ _ Hin) as [->|Hi]; [done|]. right. split; [done|]. intros ->. by destruct Hp as [? _].
Qed.

Lemma linked_place v num num' : same_place num num' -> linked v num -> linked v num'.
Proof. intros (_ & Hn & Hg & Ho). unfold linked, owner. by rewrite Hn, Hg, Ho. Qed.

Lemma sound_put_number v num num' : sound v -> num ∈ vw_numbers v -> same_place num num' ->
  sound (v <| vw_numbers := replace_row num' (vw_numbers v) |>).
Proof.
  intros Hs Hn Hp. pose proof (fun n => replace_number v num num' n Hs Hn Hp) as Hr. pose proof Hp as (Hid & Hnum & Hg & Ho).
  split; simpl; try apply Hs.
  - apply replace_row_ids. by apply so_numbers.
  - intros n1 n2 [->|[H1 Hne1]]%Hr [->|[H2 Hne2]]%Hr He; [done|..|by apply (so_gofax v)].
    + destruct Hne2. apply (so_gofax v); congruence.
    + destruct Hne1. apply (so_gofax v); congruence.
  - intros n [->|[H1 _]]%Hr; [rewrite Hid|]; by apply (so_keys v).
  - intros un Hun. destruct (so_assigned v Hs un Hun) as (u & n & Hu & Hnn & H1 & H2 & H3 & H4).
    destruct (decide (pn_ID n = pn_ID num)) as [He|Hne].
    + assert (n = num) as -> by (apply (ids_ok_inj (vw_numbers v)); [by apply so_numbers|done..]).
      exists u, num'. split_and!; try done; simpl; [apply replace_row_new|congruence|congruence].
    + exists u, n. split_and!; try done. apply replace_row_old; [done|]. change (pn_ID n <> pn_ID num'). congruence.
  - intros n [->|[H1 _]]%Hr; [|by apply (so_linked v)]. apply (linked_place v num num'); [done|]. by apply (so_linked v).
Qed.

(** A row that says the same to gofaxserver. *)
Lemma mirror_put_number v num num' : mirror v -> num ∈ vw_numbers v -> same_place num num' ->
  pn_Name num' = pn_Name num -> pn_Header num' = pn_Header num -> pn_CustomNotify num' = pn_CustomNotify num ->
  mirror (v <| vw_numbers := replace_row num' (vw_numbers v) |>).
Proof.
  intros [Hs Hm] Hn Hp H1 H2 H3. split; [by apply (sound_put_number v num)|].
  intros n [->|[Hi _]]%(replace_number v num); try done; [|by destruct (Hm n Hi) as (org & Ho & Hin); exists org].
  destruct (Hm num Hn) as (org & Ho & Hin). destruct Hp as (Hid & Hnum & Hg & Hor). exists org. unfold owner, pushed, want in *. simpl in *.
  by rewrite Hid, Hnum, Hg, Hor, H1, H2, H3.
Qed.

(** A push of new fields, then the row itself. *)
Lemma mirror_push_number v num num' org : mirror v -> num ∈ vw_numbers v -> same_place num num' -> owner v num = Some org ->
  let r := push num' org (want order v num' org) (vw_up v) in r.1 = FxOk () ->
  mirror (v <| vw_up := r.2 |> <| vw_numbers := replace_row num' (vw_numbers v) |>).
Proof.
  intros [Hs Hm] Hn Hp Ho r Hok.
  assert (linked v num') as Hl by (apply (linked_place v num); [done|by apply so_linked]).
  assert (owner v num' = Some org) as Ho' by (unfold owner in *; destruct Hp as (_ & _ & _ & ->); done).
  assert (sound (v <| vw_up := r.2 |>)) as Hs' by (unfold r; by apply push_sound).
  split; [exact (sound_put_number _ num num' Hs' Hn Hp)|].
  intros n [->|[Hi Hne]]%(replace_number v num); try done.
  - destruct (push_mirrored order v num' org _ Hs Hl Ho' eq_refl Hok) as (o & Hoo & Hin). by exists o.
  - destruct (push_other order v num' org (want order v num' org) n Hs Hl) as (o & Hoo & Hin); [|by apply Hm|by exists o].
    destruct Hp as (_ & _ & -> & _). intros He. apply Hne. by apply (so_gofax v).
Qed.

Lemma awp_switch_inbound r num org (Q : answer PortalNumber -> View -> Prop) v : up_ok (vw_up v) ->
  (forall num' v', calm v v' -> same_place num num' -> Q (Answer num') v') ->
  (forall e v', calm v v' -> Q (Reject 502 e) v') ->
  awp true (switch_inbound r num org : AM PortalNumber) Q v.
Proof.
  intros Hok HQ HE. unfold switch_inbound. destruct (un_InboundEnabled r) as [on|]; [|by apply awp_ret, HQ; [apply calm_refl|]].
  case_match; [by apply awp_ret, HQ; [apply calm_refl|]|]. apply awp_bind. destruct on.
  - apply awp_bind, awp_provision; [done|]. intros res v1 H1 Hres. apply awp_fx_or.
    + intros num' ->. destruct Hres as [i ->]. by apply awp_ret, HQ.
    + intros e ->. by apply HE.
  - apply awp_deprovision; [done|]. intros v1 H1. by apply awp_ret, HQ.
Qed.

Lemma adminUpdateNumber_keeps id req : keeps_mirror (adminUpdateNumber order id req : AM PortalNumber).
Proof.
  intros v Hm. unfold adminUpdateNumber. apply awp_bind, awp_loadNumber; [|intros e; by apply awp_bind, awp_reject; right].
  intros num org Hn _ Ho. apply awp_bind, awp_ret, awp_bind, awp_some_or; [intros r ->|by right].
  set (num1 := num <| pn_Name ::= _ |> <| pn_Header ::= _ |> <| pn_Active ::= _ |>).
  assert (same_place num num1) as H1 by done. clearbody num1.
  assert (forall num2, same_place num num2 -> awp true
    (num3 ← switch_inbound r num2 org; notify ← notify_of order DB (pn_ID num3) (po_SvcUsername org) (pn_CustomNotify num3);
     sent ← FX (fx_UpdateNumber (pushed num3 org notify)); _ ← fx_or sent 502 "upstream update failed: ";
     saved ← with_numbers (tbl_save num3); _ ← ensure saved 500 "failed to update number"; mret num3 : AM PortalNumber) settled v) as Hrest.
  { intros num2 H2. apply awp_bind, awp_switch_inbound; [by apply mirror_up_ok|..]; [|intros e v1 Hc; by apply (settled_calm _ v)].
    intros num3 v1 Hc H3. apply (calm_mirror v v1 Hc) in Hm as Hm1. destruct Hc as (w & -> & _).
    assert (same_place num num3) as Hp by (unfold same_place in *; intuition congruence).
    apply awp_bind, awp_notify_of; [done|]. apply awp_bind, awp_FX, awp_bind, awp_fx_or.
    2: { intros e _. left. split; [done|]. apply push_sound; [apply Hm1|]. apply (linked_place _ num); [done|]. by apply (so_linked _ (proj1 Hm1)). }
    intros [] Hok. apply awp_bind, awp_numbers, effect_save; [|done]. apply awp_bind, awp_ret, awp_ret. right.
    exact (mirror_push_number _ num num3 org Hm1 Hn Hp Ho Hok). }
  destruct (un_CustomNotify r) as [raw|]; [|by apply awp_bind, awp_ret, Hrest].
  apply awp_bind, awp_bind, awp_ok_or; [intros s _|by right]. by apply awp_ret, Hrest.
Qed.

(** *** Numbers come and go *)

(** gofaxserver loses numbers that are not among those that stay. *)
Lemma mirror_drop_numbers v (P : PortalNumber -> bool) (Pa : UserNumber -> bool) w' :
  mirror v -> up_ok w' ->
  (forall r num, r ∈ up_numbers (vw_up v) -> num ∈ vw_numbers v -> P num = true -> tn_Number r = pn_Number num -> r ∈ up_numbers w') ->
  (forall un num, un ∈ vw_assigned v -> num ∈ vw_numbers v -> pn_ID num = un_NumberID un -> Pa un = P num) ->
  mirror (v <| vw_up := w' |> <| vw_assigned := List.filter Pa (vw_assigned v) |> <| vw_numbers := List.filter P (vw_numbers v) |>).
Proof.
  intros [Hs Hm] Hok Hup Hpa. pose proof Hs as []. set (v' := _ <| vw_numbers := _ |>).
  assert (forall n, n ∈ vw_numbers v' <-> n ∈ vw_numbers v /\ P n = true) as Hf.
  { intros n. unfold v'. simpl. by rewrite !list_elem_of_In, filter_In. }
  split.
  - split; simpl; try done; [by apply ids_ok_filter|..].
    + intros n1 n2 [H1 _]%Hf [H2 _]%Hf. by apply so_gofax.
    + intros n [Hn _]%Hf. by apply so_keys.
    + intros un Hun. apply list_elem_of_In, filter_In in Hun as [Hun Hb]. apply list_elem_of_In in Hun.
      destruct (so_assigned un Hun) as (u & num & Hu & Hn & H1 & H2 & H3). exists u, num. split_and!; try tauto.
      apply Hf. split; [done|]. by rewrite <- (Hpa un num).
    + intros n [Hn Hp]%Hf. destruct (so_linked n Hn) as (H0 & Ho & r & Hr & Hi & Hk). split; [done|]. split; [done|].
      exists r. split; [by apply (Hup r n)|done].
  - intros n [Hn Hp]%Hf. destruct (Hm n Hn) as (org & Ho & Hin).
    apply (mirrored_same order (v <| vw_up := w' |>)).
    + unfold same_entries. simpl. apply omap_ext_in. intros u _. unfold entry.
      assert (is_assigned (pn_ID n) (List.filter Pa (vw_assigned v)) u = is_assigned (pn_ID n) (vw_assigned v) u) as ->; [|done].
      apply eq_true_iff_eq. rewrite !is_assigned_spec, !list_elem_of_In, filter_In. split; [tauto|]. intros Ha. split; [done|].
      apply list_elem_of_In in Ha. by rewrite (Hpa _ n Ha Hn eq_refl).
    + by apply same_owner_refl.
    + done.
    + exists org. split; [done|]. by apply (Hup _ n).
Qed.

Lemma same_number v n1 n2 : sound v -> n1 ∈ vw_numbers v -> n2 ∈ vw_numbers v -> pn_Number n1 = pn_Number n2 -> n1 = n2.
Proof.
  intros Hs H1 H2 He. destruct (so_linked v Hs n1 H1) as (_ & _ & r1 & Hr1 & Hi1 & Hk1).
  destruct (so_linked v Hs n2 H2) as (_ & _ & r2 & Hr2 & Hi2 & Hk2). apply (so_gofax v Hs); [done..|].
  destruct (numbers_keyed _ (so_up v Hs)) as [_ Hnd]. rewrite <- Hi1, <- Hi2. f_equal.
  apply list_elem_of_lookup in Hr1 as [i Hi], Hr2 as [j Hj]. cut (i = j); [congruence|].
  apply (NoDup_lookup _ i j (tn_Number r1) Hnd).
  - change (map tn_Number) with (fmap (M := list) tn_Number). by rewrite list_lookup_fmap, Hi.
  - change (map tn_Number) with (fmap (M := list) tn_Number). rewrite list_lookup_fmap, Hj. simpl. congruence.
Qed.

(** A deletion whose reply is lost leaves the portal with a number that
    gofaxserver no longer has. *)
Lemma adminDeleteNumber_keeps id v : mirror v -> awp true (adminDeleteNumber id : AM ()) (fun r v' => status r = 502 \/ mirror v') v.
Proof.
  intros Hm. unfold adminDeleteNumber. apply awp_bind, awp_loadNumber; [|intros e; by apply awp_bind, awp_reject; right].
  intros num org Hn _ Ho. apply awp_bind, awp_ret, awp_bind, awp_deprovision; [by apply mirror_up_ok|]. intros v1 H1.
  assert (mirror v1 /\ num ∈ vw_numbers v1) as [Hm1 Hn1] by (split; [exact (calm_mirror _ _ H1 Hm)|by destruct H1 as (w & -> & _)]).
  clear Hm Hn Ho H1. apply awp_bind, awp_FX. pose proof (number_deleted (po_GofaxTenantID org) (pn_Number num) (vw_up v1)) as Hd.
  change (pn_Number (_ <| pn_PortalEndpointID := 0 |>)) with (pn_Number num).
  destruct (fx_DeleteNumber _ _ _) as [r w']; simpl.
  destruct Hd as [Hok Hcase]; [by apply mirror_up_ok|by apply (so_linked v1 (proj1 Hm1))|].
  apply awp_bind, awp_fx_or; [intros [] ->|by left]. destruct Hcase as [Hrows|[[e [=]] _]].
  apply awp_bind, awp_assigned_delete; [|done]. apply awp_bind, awp_numbers, effect_delete; [|done]. apply awp_ret. right.
  change (pn_ID (_ <| pn_PortalEndpointID := 0 |>)) with (pn_ID num).
  apply (mirror_drop_numbers v1 (fun n => negb (has_id (pn_ID num) n)) (fun un => negb (un_NumberID un =? pn_ID num))); try done.
  - intros r n Hr Hnn Hp Hk. rewrite Hrows. apply list_elem_of_In, filter_In. split; [by apply list_elem_of_In|].
    apply negb_true_iff, String.eqb_neq. intros He. pose proof (same_number v1 n num (proj1 Hm1) Hnn Hn1) as Hsame.
    rewrite Hsame in Hp by congruence. unfold has_id in Hp. by rewrite Z.eqb_refl in Hp.
  - intros un n _ _ <-. done.
Qed.

Lemma awp_count_number k (Q : answer nat -> View -> Prop) v :
  Q (Answer (length (List.filter (fun n => (pn_Number n =? k)%string) (vw_numbers v)))) v -> awp true (count_number k : AM nat) Q v.
Proof. intros HQ. unfold count_number. apply awp_bind, awp_numbers, effect_find; [|done]. apply awp_ret. by destruct v. Qed.

(** Nobody is assigned to a number that is not there. *)
Lemma no_entries v n : sound v -> (forall num, num ∈ vw_numbers v -> pn_ID num <> n) ->
  omap (entry (vw_assigned v) n) (vw_users v) = [].
Proof.
  intros Hs Hn. assert (forall us : list PortalUser, omap (entry (vw_assigned v) n) us = []) as Hall; [|apply Hall].
  induction us as [|u us IH]; cbn; [done|]. rewrite not_assigned; [done|]. intros Ha.
  destruct (so_assigned v Hs _ Ha) as (_ & num & _ & Hin & _ & Hid & _). by apply (Hn num).
Qed.

Lemma mirror_new_number v row org n n' w' : mirror v -> up_ok w' -> added n n' (up_numbers (vw_up v)) ->
  up_numbers w' = up_numbers (vw_up v) ++ [n'] -> 0 < pn_ID row ->
  Forall (fun x : PortalNumber => get_id x <> get_id row) (vw_numbers v) -> owner v row = Some org ->
  pn_GofaxNumberID row = tn_ID n' -> dialable (pn_Number row) ->
  n = (pushed row org (computeNotify order (vw_users v) (vw_assigned v) 0 (po_SvcUsername org) (pn_CustomNotify row))) <| tn_ID := 0 |> ->
  mirror (v <| vw_up := w' |> <| vw_numbers := vw_numbers v ++ [row] |>).
Proof.
  intros [Hs Hm] Hok (Hn' & Hpos & Hfresh) Hrows Hid Hf Ho Hg Hdial ->. pose proof Hs as [].
  assert (forall x, x ∈ vw_numbers v -> pn_GofaxNumberID x <> tn_ID n') as Hgf.
  { intros x Hx. destruct (so_linked x Hx) as (_ & _ & r & Hr & Hri & _). rewrite <- Hri. by apply Hfresh. }
  assert (forall x, x ∈ vw_numbers v ++ [row] <-> x ∈ vw_numbers v \/ x = row) as Hin.
  { intros x. rewrite elem_of_app, list_elem_of_singleton. done. }
  rewrite Forall_forall in Hf. split.
  - split; simpl; try done.
    + apply ids_ok_app; [done|]. by apply Forall_forall.
    + intros n1 n2 [H1| ->]%Hin [H2| ->]%Hin He; [by apply so_gofax|..|done];
        [by destruct (Hgf n1); [|congruence]|by destruct (Hgf n2); [|congruence]].
    + intros x [Hx| ->]%Hin; [by apply so_keys|lia].
    + intros un Hun. destruct (so_assigned un Hun) as (u & num & Hu & Hn & ?). exists u, num. split_and!; try tauto. by apply Hin; left.
    + intros x [Hx| ->]%Hin.
      * destruct (so_linked x Hx) as (H0 & Hx1 & r & Hr & ?). split; [done|]. split; [done|]. exists r. simpl. rewrite Hrows, elem_of_app. tauto.
      * split; [split; [lia|done]|]. split; [by exists org|]. exists n'. simpl. rewrite Hrows, elem_of_app, list_elem_of_singleton. split; [by right|].
        split; [done|]. by rewrite Hn'.
  - intros x [Hx| ->]%Hin.
    + apply (mirrored_same order v); try done; [by apply same_owner_refl| |by apply Hm]. intros r Hr. simpl. rewrite Hrows, elem_of_app. by left.
    + exists org. split; [done|]. simpl. rewrite Hrows, elem_of_app, list_elem_of_singleton. right. rewrite Hn'.
      unfold pushed, want, computeNotify. simpl. rewrite !assigned_emails_omap, Hg, !no_entries; [done|done|done|done|].
      intros num Hnum. by apply Hf.
Qed.

Lemma open_inbound_keeps org row v : mirror v -> row ∈ vw_numbers v -> (forall un, un ∈ vw_assigned v -> un_NumberID un <> pn_ID row) ->
  awp true (open_inbound org row : AM PortalNumber) settled v.
Proof.
  intros Hm Hn Hfree. unfold open_inbound. case_match; [|by apply awp_ret; right].
  apply awp_bind, awp_provision; [by apply mirror_up_ok|]. intros [num'|e] v1 Hc Hr.
  - destruct Hr as [i ->]. pose proof (calm_mirror _ _ Hc Hm) as Hm1. destruct Hc as (w & -> & _).
    apply awp_bind, awp_numbers, effect_save; [|done]. apply awp_bind, awp_ret, awp_ret. right. by apply (mirror_put_number _ row).
  - pose proof (calm_mirror _ _ Hc Hm) as Hm1. destruct Hc as (w & -> & _). apply awp_bind, awp_FX. simpl.
    pose proof (number_deleted (po_GofaxTenantID org) (pn_Number row) w (mirror_up_ok _ Hm1) (proj2 (proj1 (so_linked v (proj1 Hm) row Hn)))) as Hd.
    destruct (fx_DeleteNumber _ _ w) as [res w']; simpl in *. destruct Hd as [Hok Hcase]. apply awp_bind, awp_numbers, effect_delete; [|done].
    apply awp_reject. right.
    eapply (mirror_agree order); [..|apply (mirror_drop_numbers _ (fun n => negb (has_id (pn_ID row) n)) (fun _ => true) w' Hm1 Hok)]; try done; simpl;
      [by rewrite filter_true|..].
    + intros x n Hx Hin Hp Hk. destruct Hcase as [->|[_ ->]]; [|done]. apply list_elem_of_In, filter_In. split; [by apply list_elem_of_In|].
      apply negb_true_iff, String.eqb_neq. intros He. pose proof (same_number v n row (proj1 Hm) Hin Hn) as Hsame.
      rewrite Hsame in Hp by congruence. unfold has_id in Hp. by rewrite Z.eqb_refl in Hp.
    + intros un n Hun _ Hid. symmetry. apply negb_true_iff, Z.eqb_neq. intros He. apply (Hfree un Hun). by rewrite <- Hid.
Qed.

Lemma adminCreateNumber_keeps req : keeps_mirror (adminCreateNumber order req : AM PortalNumber).
Proof.
  intros v Hm. unfold adminCreateNumber. apply awp_bind, awp_some_or; [intros r ->|by right].
  do 2 (apply awp_bind, awp_ensure; [intros _|by right]). apply awp_bind, awp_first_org.
  destruct (head _) as [org|] eqn:Ho; [|by apply awp_bind, awp_reject; right].
  apply awp_bind, awp_ret, awp_bind, awp_count_number, awp_bind, awp_ensure; [intros _|by right].
  apply awp_bind, awp_ok_or; [intros custom _|by right]. apply awp_bind, awp_notify_of; [done|]. apply awp_bind, awp_FX.
  set (n := {| tn_ID := 0 |}). pose proof (number_added n (vw_up v) (mirror_up_ok v Hm) (keep_dialable_ok _)) as Ha.
  destruct (fx_AddNumber n (vw_up v)) as [res w']; simpl. destruct Ha as [Hok Hcase].
  apply awp_bind, awp_fx_or.
  2: { intros e _. left. split; [done|]. apply sound_up; [apply Hm|done|]. intros num Hnum.
    destruct (so_linked v (proj1 Hm) num Hnum) as (_ & _ & x & Hx & ?). exists x. split; [|done].
    destruct Hcase as [(n' & _ & -> & _)|[_ ->]]; [apply elem_of_app; by left|done]. }
  intros created ->.
  destruct Hcase as [(n' & Hadd & Hrows & [[= ->]|[e [=]]])|[[e [=]] _]].
  apply awp_bind, awp_numbers, effect_create; [|done]. intros row Hrow Hpos Hf.
  apply open_inbound_keeps; [|simpl; apply elem_of_app; right; by apply list_elem_of_singleton|].
  2: { intros un Hun He. destruct (so_assigned v (proj1 Hm) un Hun) as (_ & num & _ & Hnum & _ & Hid & _).
    rewrite Forall_forall in Hf. apply (Hf num Hnum). change (pn_ID num = pn_ID row). congruence. }
  assert (owner v row = Some org) as Howner.
  { rewrite Hrow. apply head_filter_elem in Ho as Ho'. destruct Ho' as [_ Hi]. unfold has_id in Hi. apply Z.eqb_eq in Hi.
    unfold owner. simpl. change (po_ID org) with (get_id org). by rewrite Hi. }
  apply (mirror_new_number v row org n n' w'); try done; rewrite Hrow; [done|apply keep_dialable_ok|done].
Qed.

(** *** Assignments *)

Lemma awp_valid_users orgID ids : forall (Q : answer (list Z) -> View -> Prop) v,
  (forall l, (forall uid, uid ∈ l -> exists u, u ∈ vw_users v /\ pu_ID u = uid /\ pu_Role u = RoleUser /\ pu_OrgID u = Some orgID) ->
     Q (Answer l) v) -> awp true (valid_users orgID ids : AM (list Z)) Q v.
Proof.
  induction ids as [|uid ids IH]; intros Q v HQ; cbn [valid_users]; [apply awp_ret, HQ; intros ? ?%elem_of_nil; done|].
  apply awp_bind, awp_first_user. destruct (head _) as [u|] eqn:Hf; apply awp_bind, IH; intros l Hl; apply awp_ret, HQ; [|done].
  case_match; [|done]. apply head_filter_elem in Hf as [Hu Hi]. unfold has_id in Hi. reflect_bools.
  intros x [->|Hx]%elem_of_cons; [|by apply Hl]. exists u. split_and!; try done.
  unfold of_org in *. destruct (pu_OrgID u); [|done]. f_equal. by apply Z.eqb_eq.
Qed.

Lemma awp_store_assignments numberID valid : forall (Q : answer bool -> View -> Prop) v, vw_aborted v = false ->
  Q (Answer true) (v <| vw_assigned := vw_assigned v ++ map (fun uid => {| un_UserID := uid; un_NumberID := numberID |}) valid |>) ->
  (forall l, Q (Answer false) (v <| vw_assigned := l |> <| vw_aborted := true |>)) ->
  awp true (store_assignments numberID valid : AM bool) Q v.
Proof.
  induction valid as [|uid valid IH]; intros Q v Ha Ht Hf; cbn [store_assignments].
  - apply awp_ret. simpl in Ht. rewrite app_nil_r in Ht. by destruct v.
  - apply awp_bind, awp_TX; [intros _|intros Hab; by rewrite Ha in Hab]. apply awp_bind, awp_assigned_insert.
    + intros _. apply awp_ret. cbn [if_ok]. apply IH; [done|..|intros l; apply (Hf l)].
      simpl. rewrite <- app_assoc. exact Ht.
    + intros _. apply awp_ret. cbn [if_ok]. apply awp_ret. specialize (Hf (vw_assigned v)). by destruct v.
Qed.

Lemma mirror_assign v num valid : sound v -> num ∈ vw_numbers v ->
  (forall uid, uid ∈ valid -> exists u, u ∈ vw_users v /\ pu_ID u = uid /\ pu_Role u = RoleUser /\ pu_OrgID u = Some (pn_OrgID num)) ->
  let v' := v <| vw_assigned := List.filter (fun un => negb (un_NumberID un =? pn_ID num)) (vw_assigned v) ++
                 map (fun uid => {| un_UserID := uid; un_NumberID := pn_ID num |}) valid |> in
  sound v' /\ forall n, n ∈ vw_numbers v -> n <> num -> mirrored order v n -> mirrored order v' n.
Proof.
  intros Hs Hn Hv v'. pose proof Hs as []. split.
  - split; try done. intros un [Hun|Hun]%elem_of_app.
    + apply list_elem_of_In, filter_In in Hun as [Hun _]. apply list_elem_of_In in Hun. by apply so_assigned.
    + apply list_elem_of_fmap in Hun as (uid & -> & (u & Hu & Hid & Hr & Ho)%Hv). by exists u, num.
  - intros n Hnn Hne Hm. apply (mirrored_same order v); [|by apply same_owner_refl|done|done].
    unfold same_entries. apply omap_ext_in. intros u _. unfold entry.
    assert (is_assigned (pn_ID n) (vw_assigned v') u = is_assigned (pn_ID n) (vw_assigned v) u) as ->; [|done].
    assert (pn_ID n <> pn_ID num) as Hids.
    { intros He. apply Hne. by apply (ids_ok_inj (vw_numbers v)). }
    apply eq_true_iff_eq. rewrite !is_assigned_spec. unfold v'. simpl. rewrite elem_of_app, !list_elem_of_In, filter_In, in_map_iff.
    simpl. split; [intros [[? _]|(? & [=] & _)]; [done|by destruct Hids]|]. intros Hin. left. split; [done|].
    by apply negb_true_iff, Z.eqb_neq.
Qed.

Lemma adminSetAssignments_keeps env id req : steady env -> keeps_mirror (adminSetAssignments order env id req : AM (list Z * string)).
Proof.
  intros [Hb Hc] v Hm. unfold adminSetAssignments. apply awp_bind, awp_loadNumber; [|intros e; by apply awp_bind, awp_reject; right].
  intros num org Hn _ Ho. apply awp_bind, awp_ret, awp_bind, awp_some_or; [intros ids ->|by right].
  apply awp_bind, awp_valid_users. intros valid Hv. apply awp_bind, awp_Begin. rewrite Hb.
  apply awp_bind, awp_TX; [intros _|done]. apply awp_bind, awp_assigned_delete; [|done]. apply awp_ret. cbn [if_ok].
  apply awp_bind, awp_store_assignments; [done|..].
  - destruct (mirror_assign v num valid (proj1 Hm) Hn Hv) as [Hs' Hother]. simpl in *.
    set (v1 := _ <| vw_assigned := _ ++ _ |>).
    assert (sound v1) as Hs1 by (eapply sound_agree; [..|exact Hs']; try done; exact (mirror_up_ok v Hm)).
    apply awp_bind, awp_notify_of; [done|]. apply awp_bind, awp_FX.
    pose proof (push_resynced order v1 num org Hs1 Hn Ho) as Hr. simpl in Hr. unfold push in Hr. unfold want in Hr.
    destruct (fx_UpdateNumber _ _) as [r w']; simpl in *. destruct Hr as (w & Hw & Hs2 & Hold & Hnew). destruct r as [[]|e].
    2: { apply awp_bind, awp_Rollback, awp_reject. left. split; [done|].
      apply (sound_rollback v (v1 <| vw_up := w' |>)); [apply Hm|done..]. }
    apply awp_bind, awp_Commit; simpl; [intros _ _|rewrite Hc; by intros [|]].
    apply awp_bind, awp_ret, awp_ret. right. split; [done|]. intros n Hnn.
    destruct (decide (pn_ID n = pn_ID num)) as [He|He].
    + apply Hnew; [done|done|]. rewrite He. by left.
    + apply Hold; [done|by intros ?%list_elem_of_singleton|].
      destruct (Hother n Hnn) as (o & Hoo & Hin); [by intros ->|by apply (proj2 Hm)|by exists o].
  - intros l. apply awp_bind, awp_Rollback, awp_reject. right.
    apply (mirror_agree order v); try done. exact (mirror_up_ok v Hm).
Qed.

(** *** Organisations *)

Lemma mirror_orgs v orgs' : mirror v ->
  (forall num org, num ∈ vw_numbers v -> owner v num = Some org -> exists org', owner (v <| vw_orgs := orgs' |>) num = Some org' /\
     po_SvcUsername org' = po_SvcUsername org /\ po_GofaxTenantID org' = po_GofaxTenantID org) ->
  mirror (v <| vw_orgs := orgs' |>).
Proof.
  intros [Hs Hm] Ho. pose proof Hs as []. split.
  - split; try done. intros num Hn. destruct (so_linked num Hn) as (H0 & [org Horg] & Hr). split; [done|]. split; [|done].
    destruct (Ho num org Hn Horg) as (o & ? & _). by exists o.
  - intros num Hn. apply (mirrored_same order v); [done| |done|by apply Hm]. intros org Horg. by apply Ho.
Qed.

Lemma mirror_put_org v id org org' : mirror v -> head (List.filter (has_id id) (vw_orgs v)) = Some org ->
  po_ID org' = po_ID org -> po_SvcUsername org' = po_SvcUsername org -> po_GofaxTenantID org' = po_GofaxTenantID org ->
  mirror (v <| vw_orgs := replace_row org' (vw_orgs v) |>).
Proof.
  intros Hm Hf Hid Hsv Hg. apply mirror_orgs; [done|]. intros num o _ Ho. unfold owner in *. simpl.
  apply head_filter_elem in Hf as Hf'. destruct Hf' as [Hin Hi]. unfold has_id in Hi. apply Z.eqb_eq in Hi.
  assert (replace_row org' (vw_orgs v) = map (fun x => if get_id x =? get_id org' then org' else x) (vw_orgs v)) as ->.
  { unfold replace_row. assert (existsb (fun x => get_id x =? get_id org') (vw_orgs v) = true) as ->; [|done].
    apply existsb_exists. exists org. split; [by apply list_elem_of_In|]. apply Z.eqb_eq. by symmetry. }
  assert (forall l : list PortalOrg, head (List.filter (has_id (pn_OrgID num)) l) = Some o ->
    head (List.filter (has_id (pn_OrgID num)) (map (fun x => if get_id x =? get_id org' then org' else x) l))
    = Some (if get_id o =? get_id org' then org' else o)) as Hmap.
  { induction l as [|x l IH]; cbn [List.filter map]; [done|]. intros Hh.
    assert (has_id (pn_OrgID num) (if get_id x =? get_id org' then org' else x) = has_id (pn_OrgID num) x) as ->.
    { destruct (get_id x =? get_id org') eqn:E; [|done]. apply Z.eqb_eq in E. unfold has_id. by rewrite E. }
    destruct (has_id (pn_OrgID num) x); [|by apply IH]. by injection Hh as ->. }
  rewrite (Hmap _ Ho). eexists. split; [done|]. destruct (get_id o =? get_id org') eqn:E; [|done]. apply Z.eqb_eq in E.
  apply head_filter_elem in Ho as Ho'. destruct Ho' as [_ Hj]. unfold has_id in Hj. apply Z.eqb_eq in Hj.
  assert (pn_OrgID num = id) as Hnid.
  { rewrite <- Hj, E, <- Hi. exact Hid. }
  rewrite Hnid in Ho. assert (o = org) as -> by congruence. done.
Qed.

Lemma mirror_new_org v org : mirror v -> Forall (fun x : PortalOrg => get_id x <> get_id org) (vw_orgs v) ->
  mirror (v <| vw_orgs := vw_orgs v ++ [org] |>).
Proof.
  intros Hm _. apply mirror_orgs; [done|]. intros num o _ Ho. exists o. split; [|done]. unfold owner in *. simpl.
  rewrite List.filter_app. by destruct (List.filter (has_id (pn_OrgID num)) (vw_orgs v)).
Qed.

Lemma awp_compensate {A} code e i v v0 : mirror v0 -> calm v0 v ->
  awp true (_ ← FX (fx_DeleteTenant i); reject code e : AM A) settled v.
Proof.
  intros Hm Hc. apply awp_bind, awp_spare; [apply tenant_deleted|exact (calm_ok _ _ Hc)|]. intros v' Hc'.
  apply awp_reject. apply (settled_calm _ v0); [by eapply calm_trans|done].
Qed.

Lemma adminCreateOrg_keeps env req : keeps_mirror (adminCreateOrg Box env req : AM PortalOrg).
Proof.
  intros v Hm. unfold adminCreateOrg. apply awp_bind, awp_some_or; [intros r ->|by right].
  apply awp_bind, awp_ensure; [intros _|by right].
  apply awp_bind, awp_spare; [apply tenant_created|by apply mirror_up_ok|]. intros v1 H1.
  apply awp_bind, awp_fx_or; [intros tenant _|intros e _; by apply (settled_calm _ v)].
  apply awp_bind, awp_spare; [apply user_created|exact (calm_ok _ _ H1)|]. intros v2 H2.
  assert (calm v v2) as Hc2 by by eapply calm_trans.
  destruct (fx_CreateTenantUser _ _).1; [|by apply (awp_compensate _ _ _ _ v)].
  apply awp_bind, awp_spare; [apply user_authenticated|exact (calm_ok _ _ H2)|]. intros v3 H3.
  assert (calm v v3) as Hc3 by by eapply calm_trans.
  destruct (fx_AuthenticateSvcAccount _ _ _).1; [|by apply (awp_compensate _ _ _ _ v)].
  destruct (SealString _ _ _); [|by apply (awp_compensate _ _ _ _ v)].
  apply awp_bind, awp_orgs, effect_create; [|done]. intros org _ _ Hf. apply awp_ret. right.
  apply mirror_new_org; [by apply (calm_mirror v)|done].
Qed.

Lemma awp_push_org r org (Q : answer PortalOrg -> View -> Prop) v : up_ok (vw_up v) ->
  (forall org' v', calm v v' -> po_ID org' = po_ID org -> po_SvcUsername org' = po_SvcUsername org ->
     po_GofaxTenantID org' = po_GofaxTenantID org -> Q (Answer org') v') ->
  (forall e v', calm v v' -> Q (Reject 502 e) v') -> awp true (push_org r org : AM PortalOrg) Q v.
Proof.
  intros Hok HQ HE. unfold push_org. cbv zeta.
  assert (forall name notify e org' v1, calm v v1 -> po_ID org' = po_ID org -> po_SvcUsername org' = po_SvcUsername org ->
    po_GofaxTenantID org' = po_GofaxTenantID org ->
    awp true (sent ← FX (fx_UpdateTenant (po_GofaxTenantID org) name notify); _ ← fx_or sent 502 e; mret org' : AM PortalOrg) Q v1) as Hpush.
  { intros name notify e org' v1 Hc1 ???. apply awp_bind, awp_spare; [apply tenant_updated|exact (calm_ok _ _ Hc1)|]. intros v2 Hc2.
    assert (calm v v2) by by eapply calm_trans. apply awp_bind, awp_fx_or; [intros [] _; by apply awp_ret, HQ|intros e' _; by apply HE]. }
  destruct (nonempty _).
  - apply awp_bind. destruct (_ && _).
    + unfold live_notify. apply awp_bind, awp_spare; [apply tenants_listed|done|]. intros v1 Hc1. apply awp_ret. by apply Hpush.
    + apply awp_ret. apply Hpush; try done. by apply calm_refl.
  - destruct (uo_TenantNotify r); [apply Hpush; try done; by apply calm_refl|]. apply awp_ret, HQ; try done. by apply calm_refl.
Qed.

Lemma adminUpdateOrg_keeps id req : keeps_mirror (adminUpdateOrg id req : AM PortalOrg).
Proof.
  intros v Hm. unfold adminUpdateOrg. apply awp_bind, awp_first_org.
  destruct (head _) as [org|] eqn:Ho; [|by apply awp_bind, awp_reject; right].
  apply awp_bind, awp_ret, awp_bind, awp_some_or; [intros r ->|by right]. apply awp_bind.
  assert (forall org1, po_ID org1 = po_ID org -> po_SvcUsername org1 = po_SvcUsername org ->
    po_GofaxTenantID org1 = po_GofaxTenantID org -> awp true
    (org2 ← push_org r org1;
     org3 ← match uo_RetentionDays r with
            | None => mret (org2 <| po_Active ::= fun a => default a (uo_Active r) |>
                                 <| po_TOTPRequired ::= fun a => default a (uo_TOTPRequired r) |>)
            | Some d => _ ← ensure (validRetentionDays d) 400 "retention_days must be 0 (keep forever) or between 1 and 3650";
                        mret (org2 <| po_Active ::= fun a => default a (uo_Active r) |>
                                   <| po_TOTPRequired ::= fun a => default a (uo_TOTPRequired r) |> <| po_RetentionDays := d |>)
            end;
     saved ← with_orgs (tbl_save org3); _ ← ensure saved 500 "failed to update org"; mret org3 : AM PortalOrg) settled v) as Hrest.
  { intros org1 H1 H2 H3. apply awp_bind, awp_push_org; [by apply mirror_up_ok|..];
      [|intros e v' Hc; by apply (settled_calm _ v)]. intros org2 v1 Hc H4 H5 H6. apply awp_bind.
    assert (forall org3, po_ID org3 = po_ID org -> po_SvcUsername org3 = po_SvcUsername org ->
      po_GofaxTenantID org3 = po_GofaxTenantID org ->
      awp true (saved ← with_orgs (tbl_save org3); _ ← ensure saved 500 "failed to update org"; mret org3 : AM PortalOrg) settled v1) as Hsave.
    { intros org3 ???. apply awp_bind, awp_orgs, effect_save; [|done]. apply awp_bind, awp_ret, awp_ret. right.
      apply (mirror_put_org v1 id org); [by apply (calm_mirror v)|by destruct Hc as (w & -> & _)|done..]. }
    destruct (uo_RetentionDays r) as [d|]; [|apply awp_ret, Hsave; simpl; congruence].
    apply awp_bind, awp_ensure; [intros _; apply awp_ret, Hsave; simpl; congruence|intros _; by apply (settled_calm _ v)]. }
  destruct (uo_TenantNotify r) as [raw|]; [|by apply awp_ret, Hrest].
  apply awp_bind, awp_ok_or; [intros s _|by right]. by apply awp_ret, Hrest.
Qed.

Lemma adminRotateSvcCredentials_keeps env id : keeps_mirror (adminRotateSvcCredentials Box env id : AM bool).
Proof.
  intros v Hm. unfold adminRotateSvcCredentials. apply awp_bind, awp_first_org.
  destruct (head _) as [org|] eqn:Ho; [|by apply awp_bind, awp_reject; right].
  apply awp_bind, awp_ret, awp_bind, awp_spare; [apply users_listed|by apply mirror_up_ok|]. intros v1 H1.
  apply awp_bind, awp_fx_or; [intros live _|intros e _; by apply (settled_calm _ v)].
  apply awp_bind. unfold rotate_upstream.
  assert (forall b v2, calm v v2 -> awp true (accepted ← FX (fx_AuthenticateSvcAccount (po_SvcUsername org) (ae_password env));
    _ ← fx_or accepted 502 "rotated credential verification failed: ";
    sealed ← some_or (SealString Box (ae_nonce env) (ae_password env)) 500 "failed to seal credentials";
    saved ← with_orgs (tbl_save (org <| po_SvcPasswordEnc := sealed |>));
    _ ← ensure saved 500 "failed to store rotated credentials"; mret b : AM bool) settled v2) as Hrest.
  { intros b v2 H2. apply awp_bind, awp_spare; [apply user_authenticated|exact (calm_ok _ _ H2)|]. intros v3 H3.
    assert (calm v v3) as Hc by by eapply calm_trans.
    apply awp_bind, awp_fx_or; [intros [] _|intros e _; by apply (settled_calm _ v)].
    apply awp_bind, awp_some_or; [intros sealed _|intros _; by apply (settled_calm _ v)].
    apply awp_bind, awp_orgs, effect_save; [|done]. apply awp_bind, awp_ret, awp_ret. right.
    apply (mirror_put_org v3 id org); [by apply (calm_mirror v)|by destruct Hc as (w & -> & _)|done..]. }
  destruct (List.find _ live); apply awp_bind, awp_spare; try apply user_updated; try apply user_created; try exact (calm_ok _ _ H1);
    intros v2 H2; assert (calm v v2) as Hc by (by eapply calm_trans);
    (apply awp_bind, awp_fx_or; [intros ? _; by apply awp_ret, Hrest|intros e _; by apply (settled_calm _ v)]).
Qed.

(** *** Pushing a whole organisation *)

Lemma awp_org_numbers orgID (Q : answer (list PortalNumber) -> View -> Prop) v :
  Q (Answer (List.filter (fun n => pn_OrgID n =? orgID) (vw_numbers v))) v -> awp true (org_numbers orgID : AM (list PortalNumber)) Q v.
Proof. intros HQ. unfold org_numbers. apply awp_bind, awp_numbers, effect_find; [|done]. apply awp_ret. by destruct v. Qed.

Lemma awp_resync_numbers org l : forall (Q : answer (list ResyncResult) -> View -> Prop) v, sound v ->
  (forall num, num ∈ l -> num ∈ vw_numbers v /\ owner v num = Some org) ->
  (forall rs v', resynced v (map pn_ID l) (forallb (fun r => match rr_Error r with None => true | Some _ => false end) rs = true) v' ->
     Q (Answer rs) v') ->
  awp true (collect_results (resync_number order org) l : AM (list ResyncResult)) Q v.
Proof.
  induction l as [|num l IH]; intros Q v Hs Hl HQ; cbn [collect_results].
  - apply awp_ret, HQ. by apply resynced_none.
  - destruct (Hl num) as [Hn Ho]; [by left|]. unfold resync_number at 1.
    apply awp_bind, awp_bind, awp_notify_of; [done|]. apply awp_bind, awp_FX, awp_ret.
    pose proof (push_resynced order v num org Hs Hn Ho) as Hr. simpl in Hr.
    change (fx_UpdateNumber (pushed num org _) (vw_up v)) with (push num org (want order v num org) (vw_up v)).
    set (r := push _ _ _ _) in *. pose proof Hr as (w & Hw & Hs1 & _). apply awp_bind, IH; [done|..].
    { intros n Hin. destruct (Hl n) as [Hn1 Ho1]; [by right|]. by rewrite Hw. }
    intros rs v2 H2. apply awp_ret, HQ. destruct (resynced_cons order _ _ _ _ _ _ _ Hr H2) as (w2 & ? & ? & ? & Hok).
    exists w2. split_and!; try done. cbn [forallb rr_Error]. intros [Hone Hrest]%andb_prop. apply Hok. split; [|done].
    by destruct r.1 as [[]|].
Qed.

(** What the push of an organisation achieves, from any sound state. *)
Definition org_resynced id v (ok : Prop) v' : Prop :=
  sound v' /\
  (forall num, num ∈ vw_numbers v' -> mirrored order v num -> (ok \/ pn_OrgID num <> id) -> mirrored order v' num) /\
  (ok -> forall num, num ∈ vw_numbers v' -> pn_OrgID num = id -> mirrored order v' num).

Lemma adminResyncOrgNotify_spec id v : sound v ->
  awp true (adminResyncOrgNotify order id : AM (list ResyncResult))
    (fun r v' => status r = 404 /\ v' = v \/
       (status r = 200 \/ status r = 502) /\ org_resynced id v (status r = 200) v' /\ vw_numbers v' = vw_numbers v) v.
Proof.
  intros Hs. unfold adminResyncOrgNotify. apply awp_bind, awp_first_org.
  destruct (head _) as [org|] eqn:Ho; [|by apply awp_bind, awp_reject; left].
  apply awp_bind, awp_ret, awp_bind, awp_org_numbers, awp_bind.
  apply head_filter_elem in Ho as Ho'. destruct Ho' as [_ Hi]. unfold has_id in Hi. apply Z.eqb_eq in Hi. change (po_ID org = id) in Hi.
  set (l := List.filter _ _). assert (forall n, n ∈ l <-> n ∈ vw_numbers v /\ pn_OrgID n = id) as Hl.
  { intros n. unfold l. rewrite !list_elem_of_In, filter_In, Z.eqb_eq, Hi. done. }
  apply awp_resync_numbers; [done|..].
  { intros n [Hn He]%Hl. split; [done|]. unfold owner. by rewrite He. }
  intros rs v' (w & -> & Hs' & Hold & Hnew).
  assert (forall ok, (ok -> forallb (fun r => match rr_Error r with None => true | Some _ => false end) rs = true) ->
    org_resynced id v ok (v <| vw_up := w |>)) as Hres.
  { intros ok Hok. assert (forall num, num ∈ vw_numbers v -> pn_OrgID num = id -> pn_ID num ∈ map pn_ID l) as Hids.
    { intros num Hn He. apply (list_elem_of_fmap_2 pn_ID). by apply Hl. }
    split; [done|]. split; [|intros Hk num Hn He; apply Hnew; [by apply Hok|done|by apply Hids]].
    intros num Hn Hm Hcase. destruct (decide (pn_OrgID num = id)) as [He|He].
    - destruct Hcase as [Hk|Hne]; [|done]. apply Hnew; [by apply Hok|done|by apply Hids].
    - apply Hold; [done| |done]. intros (n & Hid & Hn')%list_elem_of_fmap. apply Hl in Hn' as [Hn' Hno]. apply He.
      by rewrite (ids_ok_inj (vw_numbers v) num n (so_numbers v Hs) Hn Hn' Hid). }
  apply awp_bind, awp_ensure; [intros Hall; apply awp_ret|intros _]; right.
  - split; [by left|]. split; [by apply Hres|done].
  - split; [by right|]. split; [by apply Hres|done].
Qed.

Lemma adminResyncOrgNotify_keeps id : keeps_mirror (adminResyncOrgNotify order id : AM (list ResyncResult)).
Proof.
  intros v [Hs Hm]. eapply awp_mono; [|by apply adminResyncOrgNotify_spec].
  intros r v' [[_ ->]|([Hok|Hok] & (Hs' & Hold & _) & Hn)]; [by right| |by left; split].
  right. split; [done|]. intros num Hin. apply Hold; [done| |by left]. apply Hm. by rewrite <- Hn.
Qed.

(** *** Purging an organisation *)

Definition others (oid : Z) (n : PortalNumber) : bool := negb (pn_OrgID n =? oid).
Definition outside (oid : Z) (us : list PortalUser) (un : UserNumber) : bool :=
  negb (existsb (fun u => (pu_ID u =? un_UserID un) && of_org oid u) us).

(** What stays: the numbers of the other organisations and their assignments. *)
Definition remains oid v : View :=
  v <| vw_assigned := List.filter (outside oid (vw_users v)) (vw_assigned v) |>
    <| vw_numbers := List.filter (others oid) (vw_numbers v) |>.

(** An assignment leads out of the organisation exactly when its number does. *)
Lemma outside_others v oid un num : sound v -> un ∈ vw_assigned v -> num ∈ vw_numbers v -> pn_ID num = un_NumberID un ->
  outside oid (vw_users v) un = others oid num.
Proof.
  intros Hs Hun Hn Hid. destruct (so_assigned v Hs un Hun) as (u & n & Hu & Hn' & Huid & Hnid & _ & Ho).
  assert (n = num) as -> by (apply (ids_ok_inj (vw_numbers v)); [by apply so_numbers|done..|]; change (pn_ID n = pn_ID num); congruence).
  unfold outside, others. f_equal. apply eq_true_iff_eq. rewrite existsb_exists. split.
  - intros (x & Hx%list_elem_of_In & [Hxi Hxo]%andb_prop). apply Z.eqb_eq in Hxi.
    assert (x = u) as -> by (apply (ids_ok_inj (vw_users v)); [by apply so_users|done..|]; change (pu_ID x = pu_ID u); congruence).
    unfold of_org in Hxo. by rewrite Ho in Hxo.
  - intros He. exists u. split; [by apply list_elem_of_In|]. unfold of_org. rewrite Ho, He, Huid, Z.eqb_refl. done.
Qed.

(** During the purge only gofaxserver changes, and not for the others. *)
Definition purging oid v v' : Prop := exists w', v' = v <| vw_up := w' |> /\ mirror (remains oid (v <| vw_up := w' |>)).

Lemma purging_start oid v : mirror v -> purging oid v v.
Proof.
  intros Hm. exists (vw_up v). split; [by destruct v|]. pose proof (proj1 Hm) as Hs.
  pose proof (mirror_drop_numbers v (others oid) (outside oid (vw_users v)) (vw_up v) Hm (mirror_up_ok v Hm)) as Hd.
  destruct v. apply Hd; [done|]. intros un num Hun Hn Hid. by apply outside_others.
Qed.

Lemma purging_calm oid v v1 v2 : purging oid v v1 -> calm v1 v2 -> purging oid v v2.
Proof.
  intros (w1 & -> & Hm) (w2 & -> & Hok & Hup). exists w2. split; [done|].
  by apply (mirror_agree order (remains oid (v <| vw_up := w1 |>))).
Qed.

Lemma drop_number_purging org num v v1 : mirror v -> num ∈ vw_numbers v -> pn_OrgID num = po_ID org -> purging (po_ID org) v v1 ->
  awp true (drop_number org num : AM ()) (fun r v2 => r = Answer () /\ purging (po_ID org) v v2) v1.
Proof.
  intros Hm0 Hn Ho Hp. unfold drop_number.
  assert (forall v', purging (po_ID org) v v' -> up_ok (vw_up v')) as Hok.
  { intros v' (w & -> & Hm). exact (mirror_up_ok _ Hm). }
  apply awp_bind, awp_deprovision; [by apply Hok|]. intros v2 H2.
  pose proof (purging_calm _ _ _ _ Hp H2) as Hp2. pose proof Hp2 as (w & -> & Hm). apply awp_bind, awp_FX.
  pose proof (number_deleted (po_GofaxTenantID org) (pn_Number num) w (Hok _ Hp2) (proj2 (proj1 (so_linked v (proj1 Hm0) num Hn)))) as Hd. simpl.
  destruct (fx_DeleteNumber _ _ _) as [r w']; simpl. apply awp_ret. split; [done|]. exists w'. split; [done|].
  destruct Hd as [Hok' [Hrows|[_ Hrows]]]; [|by apply (mirror_agree order (remains (po_ID org) (v <| vw_up := w |>)))].
  pose proof (mirror_drop_numbers _ (fun _ => true) (fun _ => true) w' Hm Hok') as Hdrop. rewrite !filter_true in Hdrop.
  apply Hdrop; [|done]. simpl. intros x n Hx Hin _ Hk. rewrite Hrows. apply list_elem_of_In, filter_In.
  split; [by apply list_elem_of_In|]. apply negb_true_iff, String.eqb_neq. intros He.
  apply list_elem_of_In, filter_In in Hin as [Hin Hoth]. apply list_elem_of_In in Hin.
  rewrite (same_number v n num (proj1 Hm0) Hin Hn) in Hoth by congruence. unfold others in Hoth. by rewrite Ho, Z.eqb_refl in Hoth.
Qed.

Lemma retire_user_keeps u v : mirror v -> (forall num, is_assigned num (vw_assigned v) u = false) ->
  awp true (retire_user u : AM ()) (fun r v' => r = Answer () /\ mirror v' /\ vw_assigned v' = vw_assigned v /\ vw_numbers v' = vw_numbers v) v.
Proof.
  intros Hm Hn. unfold retire_user. apply awp_bind, awp_DestroySessions. intros l _.
  apply awp_bind, awp_users, effect_update; [|done]. apply awp_ret. split; [done|]. split; [|done].
  refine (mirror_map_users order (fun x => if has_id (pu_ID u) x then x <| pu_Active := false |> else x) _ (mirror_sess v l Hm) _ _).
  - intros x _. by case_match.
  - intros num x _ _ Ha. case_match; [|done]. simpl in Ha. unfold is_assigned in Ha, Hn.
    assert (pu_ID x = pu_ID u) as He by (by apply Z.eqb_eq). rewrite He in Ha. by rewrite Hn in Ha.
Qed.

Lemma awp_drop_assignments oid (Q : answer bool -> View -> Prop) v :
  Q (Answer true) (v <| vw_assigned := List.filter (outside oid (vw_users v)) (vw_assigned v) |>) ->
  awp true (drop_assignments_of_org oid : AM bool) Q v.
Proof.
  intros HQ st Hh <-. unfold drop_assignments_of_org. change (tbl_rows (ps_users (as_portal st))) with (vw_users (view st)).
  by apply (awp_assigned_delete true _ Q (view st)).
Qed.

Lemma purge_org_keeps org v : mirror v -> awp true (purge_org org : AM ()) (fun r v' => r = Answer () /\ mirror v') v.
Proof.
  intros Hm. unfold purge_org. apply awp_bind, awp_org_numbers, awp_bind.
  apply (awp_each true _ (purging (po_ID org) v)); [by apply purging_start|..].
  { intros num v1 Hin Hp. apply list_elem_of_In, filter_In in Hin as [Hin Ho]. apply list_elem_of_In in Hin. apply Z.eqb_eq in Ho.
    eapply awp_mono; [|by apply (drop_number_purging org num v v1)]. by intros ? v2 [-> ?]. }
  intros v1 Hp. apply awp_bind, awp_spare; [apply tenant_deleted|by destruct Hp as (w & -> & H1); exact (mirror_up_ok _ H1)|].
  intros v2 H2. pose proof (purging_calm _ _ _ _ Hp H2) as (w & -> & Hm2). clear Hp H2.
  apply awp_bind, awp_numbers, effect_delete; [|done]. apply awp_bind, awp_faxes, effect_delete; [|done].
  apply awp_bind, awp_drop_assignments. set (v3 := _ <| vw_assigned := _ |>).
  assert (mirror v3) as Hm3 by (apply (mirror_agree order (remains (po_ID org) (v <| vw_up := w |>))); try done; exact (mirror_up_ok _ Hm2)).
  apply awp_bind, awp_users, effect_find; [|done]. apply awp_bind.
  apply (awp_each true _ (fun v' => mirror v' /\ vw_assigned v' = vw_assigned v3 /\ vw_numbers v' = vw_numbers v3));
    [split; [by apply (mirror_agree order v3); try done; exact (mirror_up_ok _ Hm3)|done]|..].
  { intros u v4 Hu (Hm4 & Ha & Hn). eapply awp_mono; [|apply retire_user_keeps; [done|]].
    - intros ? v5 (-> & ? & H1 & H2). by rewrite H1, H2.
    - intros num. rewrite Ha. apply not_true_is_false. intros Hin%is_assigned_spec. apply list_elem_of_In, filter_In in Hin as [_ Hout].
      apply list_elem_of_In, filter_In in Hu as [Hu Hof]. unfold outside in Hout. apply negb_true_iff, not_true_iff_false in Hout.
      apply Hout, existsb_exists. exists u. split; [done|]. simpl. by rewrite Z.eqb_refl. }
  intros v4 (Hm4 & _ & Hn). apply awp_bind, awp_orgs, effect_delete; [|done]. apply awp_ret. split; [done|].
  apply mirror_orgs; [done|]. intros num o Hin Ho. exists o. split; [|done]. rewrite Hn in Hin.
  apply list_elem_of_In, filter_In in Hin as [_ Hoth]. unfold others in Hoth. apply negb_true_iff, Z.eqb_neq in Hoth.
  unfold owner in *. simpl. rewrite <- Ho. f_equal. rewrite filter_filter. apply List.filter_ext_in. intros x _.
  unfold has_id. change (get_id x) with (po_ID x). destruct (po_ID x =? pn_OrgID num) eqn:E; [|by rewrite andb_false_r].
  apply Z.eqb_eq in E. rewrite andb_true_r. apply negb_true_iff, Z.eqb_neq. congruence.
Qed.

Lemma adminDeleteOrg_keeps id purge : keeps_mirror (adminDeleteOrg id purge : AM (option PortalOrg)).
Proof.
  intros v Hm. unfold adminDeleteOrg. apply awp_bind, awp_first_org.
  destruct (head _) as [org|] eqn:Ho; [|by apply awp_bind, awp_reject; right].
  apply awp_bind, awp_ret. destruct purge.
  - apply awp_bind. eapply awp_mono; [|by apply purge_org_keeps]. intros ? v' [-> ?]. by apply awp_ret; right.
  - apply awp_bind, awp_orgs, effect_save; [|done]. apply awp_bind, awp_ret, awp_ret. right. by apply (mirror_put_org v id org).
Qed.

End facts.
