(* ===== verification/PortalDirect.v ===== *)
(** * PortalDirect: tenants, accounts and numbers without an organisation
    ([portal/internal/api/handlers_admin_direct.go])

    The administrators' requests that are handed on to gofaxserver, with
    nothing kept in the portal. None of them asks whether what it changes is
    the portal's own: a number of an organisation can be changed or deleted
    here behind its back. [hands_off] says of a request that it does not. *)

From S2P Require Import Prelude Store FaxJob Directory PortalModels PortalNotify PortalAuth TenantUsers WebAdmin PortalUpstream PortalAdmin PortalLogic PortalMirror PortalAdminFacts.

Record directTenantReq := { dt_Name : string; dt_Notify : string }.
Record directUserReq := { du_Username : string; du_Password : string; du_APIKey : string }.
Record updateDirectUserReq := { ud_TenantID : Z; ud_Username : string; ud_Password : string; ud_APIKey : string }.
Record directNumberReq := { dn_Number : string; dn_Name : string; dn_Header : string; dn_Notify : string }.
Record updateDirectNumberReq := { dm_TenantID : Z; dm_Number : string; dm_Name : string; dm_Header : string; dm_Notify : string }.

Inductive direct_request :=
| CreateDirectTenant (req : option directTenantReq) | UpdateDirectTenant (id : Z) (req : option directTenantReq)
| DeleteDirectTenant (id : Z) (confirm : bool)
| CreateDirectUser (tid : Z) (req : option directUserReq) | UpdateDirectUser (id : Z) (req : option updateDirectUserReq)
| DeleteDirectUser (id : Z)
| CreateDirectNumber (tid : Z) (req : option directNumberReq) | UpdateDirectNumber (id : Z) (req : option updateDirectNumberReq)
| DeleteDirectNumber (tid : Z) (number : string) (confirm : bool).

Section direct.
Context {TS TP TU TO TN TA TF W : Type} `{!Table TS Session} `{!Table TP PendingAuth}
  `{!Table TU PortalUser} `{!TableTx TU PortalUser} `{!Table TO PortalOrg} `{!Table TN PortalNumber}
  `{!Relation TA UserNumber} `{!Table TF InboundFax} `{!Upstream W} `{Crypto}.
#[local] Notation AM := (AM (TS := TS) (TP := TP) (TU := TU) (TO := TO) (TN := TN) (TA := TA) (TF := TF) (W := W)).
#[local] Existing Instances am_ret am_bind.

Definition no_text (s : string) : bool := negb (nonempty (trim_space s)).

Definition adminCreateDirectTenant (req : option directTenantReq) : AM Tenant :=
  r ← some_or req 400 "name required";
  _ ← ensure (negb (no_text (dt_Name r))) 400 "name required";
  made ← FX (fx_CreateTenant (trim_space (dt_Name r)) (dt_Notify r));
  fx_or made 502 "upstream create failed: ".

Definition adminUpdateDirectTenant (id : Z) (req : option directTenantReq) : AM () :=
  r ← some_or req 400 "name required";
  _ ← ensure (negb (no_text (dt_Name r))) 400 "name required";
  sent ← FX (fx_UpdateTenant id (trim_space (dt_Name r)) (dt_Notify r));
  fx_or sent 502 "upstream update failed: ".

Definition adminDeleteDirectTenant (id : Z) (confirm : bool) : AM () :=
  _ ← ensure confirm 400 "refusing to delete tenant without confirm=true query param";
  sent ← FX (fx_DeleteTenant id);
  fx_or sent 502 "upstream delete failed: ".

(** The account, the password and the key it was made with, and whether the
    password was generated. *)
Definition adminCreateDirectTenantUser (env : AdminEnv) (tid : Z) (req : option directUserReq) : AM (TenantUser * string * string * bool) :=
  r ← some_or req 400 "username required";
  _ ← ensure (negb (no_text (du_Username r))) 400 "username required";
  let generated := (du_Password r =? "")%string in
  let password := if generated then ae_password env else du_Password r in
  let apiKey := if (du_APIKey r =? "")%string then ae_apiKey env else du_APIKey r in
  made ← FX (fx_CreateTenantUser {| tu_ID := 0; tu_TenantID := tid; tu_Username := trim_space (du_Username r);
    tu_Password := password; tu_APIKey := apiKey |});
  user ← fx_or made 502 "upstream create failed: ";
  mret (user, password, apiKey, generated).

(** The key an account has; none when the accounts cannot be listed. *)
Definition present_key (id : Z) (listed : fx (list TenantUserPublic)) : string :=
  match listed with
  | FxOk l => match List.find (fun u => tp_ID u =? id) l with Some u => tp_APIKey u | None => "" end
  | FxErr _ => ""
  end.

Definition adminUpdateDirectTenantUser (id : Z) (req : option updateDirectUserReq) : AM () :=
  r ← some_or req 400 "tenant_id and username required";
  _ ← ensure (negb (ud_TenantID r =? 0) && negb (no_text (ud_Username r))) 400 "tenant_id and username required";
  apiKey ← (if (ud_APIKey r =? "")%string
            then listed ← FX (fx_ListUsers (ud_TenantID r)); mret (present_key id listed)
            else mret (ud_APIKey r));
  sent ← FX (fx_UpdateTenantUser {| tu_ID := id; tu_TenantID := ud_TenantID r; tu_Username := trim_space (ud_Username r);
    tu_Password := ud_Password r; tu_APIKey := apiKey |});
  fx_or sent 502 "upstream update failed: ".

Definition adminDeleteDirectTenantUser (id : Z) : AM () :=
  sent ← FX (fx_DeleteTenantUser id);
  fx_or sent 502 "upstream delete failed: ".

Definition adminCreateDirectNumber (tid : Z) (req : option directNumberReq) : AM TenantNumber :=
  r ← some_or req 400 "number required";
  _ ← ensure (negb (no_text (dn_Number r))) 400 "number required";
  let number := sanitizeNumber (dn_Number r) in
  _ ← ensure (7 <=? String.length number)%nat 400 "number must contain at least 7 digits";
  made ← FX (fx_AddNumber {| tn_ID := 0; tn_TenantID := tid; tn_Number := number; tn_Name := dn_Name r;
    tn_Header := dn_Header r; tn_Notify := dn_Notify r |});
  fx_or made 502 "upstream add failed: ".

(** The row a change asks for: the number goes out as it came. *)
Definition direct_row (id : Z) (r : updateDirectNumberReq) : TenantNumber :=
  {| tn_ID := id; tn_TenantID := dm_TenantID r; tn_Number := dm_Number r; tn_Name := dm_Name r; tn_Header := dm_Header r;
     tn_Notify := dm_Notify r |}.

Definition adminUpdateDirectNumber (id : Z) (req : option updateDirectNumberReq) : AM () :=
  r ← some_or req 400 "tenant_id and number required";
  _ ← ensure (negb (dm_TenantID r =? 0) && negb (no_text (dm_Number r))) 400 "tenant_id and number required";
  sent ← FX (fx_UpdateNumber (direct_row id r));
  fx_or sent 502 "upstream update failed: ".

Definition adminDeleteDirectNumber (tid : Z) (number : string) (confirm : bool) : AM () :=
  _ ← ensure (negb (tid =? 0) && nonempty number) 400 "tenant_id and number query params required";
  _ ← ensure confirm 400 "refusing to delete number without confirm=true query param";
  sent ← FX (fx_DeleteNumber tid number);
  fx_or sent 502 "upstream delete failed: ".
End direct.

(** ** What they leave of the portal's numbers *)

Section facts.
Context {TS TP TU TO TN TA TF W : Type} `{!Table TS Session, !TableLaws TS Session}
  `{!Table TP PendingAuth, !TableLaws TP PendingAuth} `{!Table TU PortalUser, !TableLaws TU PortalUser}
  `{!TableTx TU PortalUser, !TableTxLaws TU PortalUser} `{!Table TO PortalOrg, !TableLaws TO PortalOrg}
  `{!Table TN PortalNumber, !TableLaws TN PortalNumber} `{!Relation TA UserNumber, !RelationLaws TA UserNumber}
  `{!Table TF InboundFax, !TableLaws TF InboundFax} `{!Upstream W, !UpstreamLaws W} `{Crypto}.
Variable order : list string -> list string.
#[local] Notation View := (View (W := W)).
#[local] Notation AM := (AM (TS := TS) (TP := TP) (TU := TU) (TO := TO) (TN := TN) (TA := TA) (TF := TF) (W := W)).
#[local] Existing Instances am_ret am_bind.
#[local] Notation mirror := (mirror order).
Implicit Types (v : View).

(** A direct change or deletion of a number is of one the portal does not have,
    and a change does not rename it. *)
Definition hands_off (d : direct_request) v : Prop :=
  match d with
  | UpdateDirectNumber id (Some r) =>
      0 < id /\ dialable (dm_Number r) /\ (forall n, n ∈ up_numbers (vw_up v) -> tn_ID n = id -> tn_Number n = dm_Number r) /\
      forall num, num ∈ vw_numbers v -> pn_GofaxNumberID num <> id
  | DeleteDirectNumber _ number _ => dialable number /\ forall num, num ∈ vw_numbers v -> pn_Number num <> number
  | _ => True
  end.

(** gofaxserver moves on, and the rows of the portal's numbers stay. *)
Lemma mirror_grows v w' : mirror v -> up_ok w' ->
  (forall r num, r ∈ up_numbers (vw_up v) -> num ∈ vw_numbers v -> tn_ID r = pn_GofaxNumberID num -> tn_Number r = pn_Number num ->
    r ∈ up_numbers w') -> mirror (v <| vw_up := w' |>).
Proof.
  intros [Hs Hm] Hok Hkeep. split.
  - apply sound_up; [done..|]. intros num Hn. destruct (so_linked v Hs num Hn) as (_ & _ & r & Hr & Hi & Hk). exists r.
    split; [by apply (Hkeep r num)|done].
  - intros num Hn. destruct (Hm num Hn) as (org & Ho & Hin). exists org. split; [done|]. by apply (Hkeep _ num).
Qed.

(** A call that is only reported on. *)
Lemma awp_handed_on {A} (f : W -> fx A * W) code msg (Q : answer A -> View -> Prop) v :
  (forall r, Q r (v <| vw_up := (f (vw_up v)).2 |>)) -> awp true (sent ← FX f; fx_or sent code msg : AM A) Q v.
Proof. intros HQ. apply awp_bind, awp_FX, awp_fx_or; intros; apply HQ. Qed.

Lemma spared_mirror {A} (f : W -> fx A * W) v : spares_numbers f -> mirror v -> mirror (v <| vw_up := (f (vw_up v)).2 |>).
Proof.
  intros Hf Hm. destruct (Hf _ (mirror_up_ok order v Hm)) as [Hok Hn]. apply mirror_grows; [done..|]. intros r num Hr _ _ _. by rewrite Hn.
Qed.

Definition stays {A} (m : AM A) v : Prop := awp true m (fun _ v' => mirror v') v.

#[local] Ltac guards := repeat first [apply awp_bind, awp_some_or; [intros ? _|done] | apply awp_bind, awp_ensure; [intros _|done]].

Lemma stays_DirectTenant req v : mirror v -> stays (adminCreateDirectTenant req) v.
Proof. intros Hm. unfold stays, adminCreateDirectTenant. guards. apply awp_handed_on. intros _. apply spared_mirror; [apply tenant_created|done]. Qed.
Lemma stays_UpdateDirectTenant id req v : mirror v -> stays (adminUpdateDirectTenant id req) v.
Proof. intros Hm. unfold stays, adminUpdateDirectTenant. guards. apply awp_handed_on. intros _. apply spared_mirror; [apply tenant_updated|done]. Qed.
Lemma stays_DeleteDirectTenant id confirm v : mirror v -> stays (adminDeleteDirectTenant id confirm) v.
Proof. intros Hm. unfold stays, adminDeleteDirectTenant. guards. apply awp_handed_on. intros _. apply spared_mirror; [apply tenant_deleted|done]. Qed.
Lemma stays_DeleteDirectUser id v : mirror v -> stays (adminDeleteDirectTenantUser id) v.
Proof. intros Hm. apply awp_handed_on. intros _. apply spared_mirror; [apply user_deleted|done]. Qed.

Lemma stays_DirectUser env tid req v : mirror v -> stays (adminCreateDirectTenantUser env tid req) v.
Proof.
  intros Hm. unfold stays, adminCreateDirectTenantUser. guards. cbv zeta. apply awp_bind, awp_FX.
  assert (forall u, mirror (v <| vw_up := (fx_CreateTenantUser u (vw_up v)).2 |>)) as Hc
    by (intros u; apply spared_mirror; [apply user_created|done]).
  apply awp_bind, awp_fx_or; [intros u _; apply awp_ret|intros e _]; apply Hc.
Qed.

Lemma stays_UpdateDirectUser id req v : mirror v -> stays (adminUpdateDirectTenantUser id req) v.
Proof.
  intros Hm. unfold stays, adminUpdateDirectTenantUser. guards. apply awp_bind.
  assert (forall (key : string) v1, mirror v1 -> forall u, mirror (v1 <| vw_up := (fx_UpdateTenantUser u (vw_up v1)).2 |>)) as Hu
    by (intros _ v1 Hm1 u; apply spared_mirror; [apply user_updated|done]).
  destruct (_ =? "")%string.
  - apply awp_bind, awp_FX, awp_ret, awp_handed_on. intros _. apply (Hu ""). apply spared_mirror; [apply users_listed|done].
  - apply awp_ret, awp_handed_on. intros _. by apply (Hu "").
Qed.

Lemma stays_DirectNumber tid req v : mirror v -> stays (adminCreateDirectNumber tid req) v.
Proof.
  intros Hm. unfold stays, adminCreateDirectNumber. guards. apply awp_handed_on. intros _.
  match goal with |- context [fx_AddNumber ?n _] => pose proof (number_added n (vw_up v) (mirror_up_ok order v Hm) (keep_dialable_ok _)) as Ha end.
  destruct (fx_AddNumber _ (vw_up v)) as [res w']; simpl. destruct Ha as [Hok Hcase]. apply mirror_grows; [done..|].
  intros r num Hr _ _ _. destruct Hcase as [(n' & _ & -> & _)|[_ ->]]; [apply elem_of_app; by left|done].
Qed.

Lemma stays_UpdateDirectNumber id req v : hands_off (UpdateDirectNumber id req) v -> mirror v -> stays (adminUpdateDirectNumber id req) v.
Proof.
  intros Hd Hm. unfold stays, adminUpdateDirectNumber. destruct req as [r|]; [|by apply awp_bind, awp_some_or]. destruct Hd as (Hpos & Hdial & Hsame & Hfree).
  apply awp_bind, awp_some_or; [intros ? [= <-]|done]. guards. apply awp_handed_on. intros _.
  pose proof (number_updated (direct_row id r) (vw_up v) (mirror_up_ok order v Hm) Hpos Hdial Hsame) as Hu.
  destruct (fx_UpdateNumber _ (vw_up v)) as [res w']; simpl. destruct Hu as [Hok Hcase]. apply mirror_grows; [done..|].
  intros x num Hx Hn Hi _. destruct Hcase as [->|[_ ->]]; [|done]. apply replace_row_old; [done|].
  change (tn_ID x <> id). rewrite Hi. by apply Hfree.
Qed.

Lemma stays_DeleteDirectNumber tid k confirm v : hands_off (DeleteDirectNumber tid k confirm) v -> mirror v ->
  stays (adminDeleteDirectNumber tid k confirm) v.
Proof.
  intros [Hdial Hfree] Hm. unfold stays, adminDeleteDirectNumber. guards. apply awp_handed_on. intros _.
  pose proof (number_deleted tid k (vw_up v) (mirror_up_ok order v Hm) Hdial) as Hd.
  destruct (fx_DeleteNumber _ _ (vw_up v)) as [res w']; simpl. destruct Hd as [Hok Hcase]. apply mirror_grows; [done..|].
  intros x num Hx Hn _ Hk. destruct Hcase as [->|[_ ->]]; [|done]. apply list_elem_of_In, filter_In.
  split; [by apply list_elem_of_In|]. apply negb_true_iff, String.eqb_neq. rewrite Hk. by apply Hfree.
Qed.
End facts.
