(* ===== verification/PortalAdminSpec.v ===== *)
(** * PortalAdminSpec: requests of the portal's administrators as a whole

    The guarantees of [PortalAdmin]'s handlers, stated for any request and any
    sequence of requests. *)

From S2P Require Import Prelude Store FaxJob Directory PortalModels PortalNotify PortalAuth TenantUsers WebAdmin PortalUpstream PortalAdmin PortalLogic PortalMirror PortalAdminFacts PortalDirect.

Create HintDb quiet.
Create HintDb sure.

(** One step of a handler's execution on its view. *)
Ltac astep :=
  lazymatch goal with
  | |- awp _ (_ ≫= _) _ _ => apply awp_bind
  | |- awp _ (mret _) _ _ => apply awp_ret
  | |- awp _ (reject _ _) _ _ => apply awp_reject
  | |- awp _ (ensure _ _ _) _ _ => apply awp_ensure; intros ?
  | |- awp _ (some_or _ _ _) _ _ => apply awp_some_or; intros
  | |- awp _ (ok_or _ _ _) _ _ => apply awp_ok_or; intros
  | |- awp _ (fx_or _ _ _) _ _ => apply awp_fx_or; intros
  | |- awp _ (FX _) _ _ => apply awp_FX
  | |- awp _ (with_sessions _) _ _ => apply awp_sessions
  | |- awp _ (with_pending _) _ _ => apply awp_pending
  | |- awp _ (with_users _) _ _ => apply awp_users
  | |- awp _ (with_orgs _) _ _ => apply awp_orgs
  | |- awp _ (with_numbers _) _ _ => apply awp_numbers
  | |- awp _ (with_faxes _) _ _ => apply awp_faxes
  | |- awp _ (with_assigned (rel_find _)) _ _ => apply awp_assigned_find; [|intros _]
  | |- awp _ (with_assigned (rel_insert _)) _ _ => apply awp_assigned_insert; [intros _|intros _]
  | |- awp _ (with_assigned (rel_delete _)) _ _ => apply awp_assigned_delete; [|intros _]
  | |- awp _ assigned_rows _ _ => apply awp_assigned_rows
  | |- awp _ (Begin _) _ _ => apply awp_Begin
  | |- awp _ Rollback _ _ => apply awp_Rollback
  | |- awp _ (Commit _) _ _ => apply awp_Commit; [intros _ _|intros _]
  | |- awp _ (on_handle TX _) _ _ => apply awp_TX; intros _
  | |- awp _ (on_handle DB ?m) _ _ => change (on_handle DB m) with m
  | |- awp _ (match ?x with _ => _ end) _ _ => destruct x
  | |- effect _ (tbl_find _) _ _ => apply effect_find; [|intros _]
  | |- effect _ (tbl_first _) _ _ => apply effect_first; [|intros _]
  | |- effect _ (tbl_create _) _ _ => apply effect_create; [intros ? _ _ _|intros _]
  | |- effect _ (tbl_save _) _ _ => apply effect_save; [|intros _]
  | |- effect _ (tbl_delete _) _ _ => apply effect_delete; [|intros _]
  | |- effect _ (tbl_update _ _) _ _ => apply effect_update; [|intros _]
  end; cbn beta iota delta [if_ok].

Section spec.
Context {TS TP TU TO TN TA TF W : Type} `{!Table TS Session, !TableLaws TS Session}
  `{!Table TP PendingAuth, !TableLaws TP PendingAuth} `{!Table TU PortalUser, !TableLaws TU PortalUser}
  `{!TableTx TU PortalUser, !TableTxLaws TU PortalUser} `{!Table TO PortalOrg, !TableLaws TO PortalOrg}
  `{!Table TN PortalNumber, !TableLaws TN PortalNumber} `{!Relation TA UserNumber, !RelationLaws TA UserNumber}
  `{!Table TF InboundFax, !TableLaws TF InboundFax} `{!Upstream W} `{Crypto}.
Variable order : list string -> list string.
Variable Box : string.
#[local] Notation View := (View (W := W)).
#[local] Notation AM := (AM (TS := TS) (TP := TP) (TU := TU) (TO := TO) (TN := TN) (TA := TA) (TF := TF) (W := W)).
#[local] Notation AdminState := (AdminState (TS := TS) (TP := TP) (TU := TU) (TO := TO) (TN := TN) (TA := TA) (TF := TF) (W := W)).
#[local] Existing Instances am_ret am_bind.
Implicit Types (v : View) (env : AdminEnv).

Inductive request :=
| CreateOrg (req : option createOrgReq) | UpdateOrg (id : Z) (req : option updateOrgReq) | DeleteOrg (id : Z) (purge : bool)
| RotateSvc (id : Z) | ResyncOrg (id : Z)
| ReconcileOrg (enum : gmap string TenantNumber -> list (string * TenantNumber)) (id : Z)
| CreateNumber (req : option createNumberReq) | UpdateNumber (id : Z) (req : option updateNumberReq) | DeleteNumber (id : Z)
| SetAssignments (id : Z) (req : option (list Z))
| CreateUser (req : option createUserReq) | UpdateUser (id : Z) (req : option updateUserReq)
| ResetPassword (id : Z) (req : option string) | ResetTOTP (id : Z) | DeleteUser (actor : option Z) (id : Z)
| Direct (d : direct_request).

(** The status of the answer and what is left. *)
Definition run {A} (m : AM A) (st : AdminState) : Z * AdminState := (status (m st).1, (m st).2).

Definition serve_direct env (d : direct_request) : AdminState -> Z * AdminState :=
  match d with
  | CreateDirectTenant req => run (adminCreateDirectTenant req)
  | UpdateDirectTenant id req => run (adminUpdateDirectTenant id req)
  | DeleteDirectTenant id confirm => run (adminDeleteDirectTenant id confirm)
  | CreateDirectUser tid req => run (adminCreateDirectTenantUser env tid req)
  | UpdateDirectUser id req => run (adminUpdateDirectTenantUser id req)
  | DeleteDirectUser id => run (adminDeleteDirectTenantUser id)
  | CreateDirectNumber tid req => run (adminCreateDirectNumber tid req)
  | UpdateDirectNumber id req => run (adminUpdateDirectNumber id req)
  | DeleteDirectNumber tid number confirm => run (adminDeleteDirectNumber tid number confirm)
  end.

Definition serve env (r : request) : AdminState -> Z * AdminState :=
  match r with
  | CreateOrg req => run (adminCreateOrg Box env req)
  | UpdateOrg id req => run (adminUpdateOrg id req)
  | DeleteOrg id purge => run (adminDeleteOrg id purge)
  | RotateSvc id => run (adminRotateSvcCredentials Box env id)
  | ResyncOrg id => run (adminResyncOrgNotify order id)
  | ReconcileOrg enum id => run (adminReconcileOrg order Box enum id)
  | CreateNumber req => run (adminCreateNumber order req)
  | UpdateNumber id req => run (adminUpdateNumber order id req)
  | DeleteNumber id => run (adminDeleteNumber id)
  | SetAssignments id req => run (adminSetAssignments order env id req)
  | CreateUser req => run (adminCreateUser env req)
  | UpdateUser id req => run (adminUpdateUser order env id req)
  | ResetPassword id req => run (adminResetPassword env id req)
  | ResetTOTP id => run (adminResetUserTOTP id)
  | DeleteUser actor id => run (adminDeleteUser order env actor id)
  | Direct d => serve_direct env d
  end.

(** ** A request that fails *)

(** The portal's own tables but for sessions and pending logins. *)
Definition unchanged v v' : Prop :=
  vw_users v' = vw_users v /\ vw_orgs v' = vw_orgs v /\ vw_numbers v' = vw_numbers v /\ vw_assigned v' = vw_assigned v.

(** Nor sessions, pending logins and the open transaction. *)
Definition undisturbed v v' : Prop := vw_saved v' = vw_saved v /\ vw_sess v' = vw_sess v /\ vw_pend v' = vw_pend v.

(** An operation that reads, or works upstream. *)
Definition quiet {A} (m : AM A) : Prop := forall h v, awp h m (fun _ v' => unchanged v v' /\ undisturbed v v') v.

Definition harmless {A} (m : AM A) : Prop := forall v, awp false m (fun r v' => status r <> 200 -> unchanged v v') v.


Lemma unchanged_refl v : unchanged v v.
Proof. done. Qed.

Lemma awp_quiet {A} h (m : AM A) (Q : answer A -> View -> Prop) v : quiet m ->
  (forall r v', unchanged v v' -> undisturbed v v' -> Q r v') -> awp h m Q v.
Proof. intros Hm HQ. eapply awp_mono; [|apply Hm]. intros r v' [??]. auto. Qed.

Lemma quiet_seq {A B} (m : AM A) (f : A -> AM B) : quiet m -> (forall a, quiet (f a)) -> quiet (m ≫= f).
Proof.
  intros Hm Hf h v. apply awp_bind, awp_quiet; [done|]. intros [a|c e] v1 H1 Hs; [|done].
  apply awp_quiet; [apply Hf|]. intros r v2 H2 Hs2. unfold unchanged, undisturbed in *. intuition congruence.
Qed.

Lemma quiet_answer {A} (a : A) : quiet (mret a : AM A).
Proof. by intros h v; apply awp_ret. Qed.

Lemma quiet_FX {A} (f : W -> A * W) : quiet (FX f : AM A).
Proof. by intros h v; apply awp_FX. Qed.

Lemma quiet_first_org P : quiet (with_orgs (tbl_first P) : AM (option PortalOrg)).
Proof. intros h v. repeat astep; by destruct v. Qed.
Lemma quiet_first_number P : quiet (with_numbers (tbl_first P) : AM (option PortalNumber)).
Proof. intros h v. repeat astep; by destruct v. Qed.
Lemma quiet_find_numbers P : quiet (with_numbers (tbl_find P) : AM (option (list PortalNumber))).
Proof. intros h v. repeat astep; by destruct v. Qed.
Lemma quiet_first_user P : quiet (with_users (tbl_first P) : AM (option PortalUser)).
Proof. intros h v. repeat astep; by destruct v. Qed.
Lemma quiet_handle {A} hd (m : AM (option A)) : quiet m -> quiet (on_handle hd m).
Proof.
  intros Hm h v. destruct hd; [apply Hm|]. apply awp_TX; intros _; [|done]. apply awp_quiet; [done|]. intros [[]|] v'; done.
Qed.
Lemma quiet_find_users P : quiet (with_users (tbl_find P) : AM (option (list PortalUser))).
Proof. intros h v. repeat astep; by destruct v. Qed.
Lemma quiet_assigned P : quiet (with_assigned (rel_find P) : AM (option (list UserNumber))).
Proof. intros h v. repeat astep; by destruct v. Qed.
Lemma quiet_assigned_rows : quiet (assigned_rows : AM (list UserNumber)).
Proof. by intros h v; apply awp_assigned_rows. Qed.
Lemma quiet_reject {A} c e : quiet (reject c e : AM A).
Proof. by intros h v; apply awp_reject. Qed.
Lemma quiet_fx_or {A} (r : fx A) c e : quiet (fx_or r c e : AM A).
Proof. intros h v. by repeat astep. Qed.

#[local] Hint Resolve quiet_answer quiet_FX quiet_first_org quiet_first_number quiet_find_numbers quiet_first_user
  quiet_find_users quiet_assigned quiet_assigned_rows quiet_reject quiet_fx_or : quiet.

#[local] Ltac quieten :=
  repeat (intros; lazymatch goal with
  | |- quiet (_ ≫= _) => apply quiet_seq
  | |- quiet (on_handle _ _) => apply quiet_handle
  | |- quiet (match ?x with _ => _ end) => destruct x
  | |- _ => solve [auto with quiet]
  end).

Lemma quiet_each {A} (f : A -> AM ()) l : (forall a, quiet (f a)) -> quiet (each f l).
Proof. intros Hf. induction l; cbn [each]; quieten. Qed.

Lemma quiet_collect {A B} (f : A -> AM B) l : (forall a, quiet (f a)) -> quiet (collect_results f l).
Proof. intros Hf. induction l; cbn [collect_results]; quieten. Qed.

Lemma quiet_notify_of hd n svc custom : quiet (notify_of order hd n svc custom : AM string).
Proof. unfold notify_of. quieten. Qed.
#[local] Hint Resolve quiet_each quiet_collect quiet_notify_of : quiet.

Lemma quiet_loadNumber id : quiet (loadNumber id : AM (res (PortalNumber * PortalOrg))).
Proof. unfold loadNumber. quieten. Qed.
#[local] Hint Resolve quiet_loadNumber : quiet.

Lemma quiet_resync hd ids : quiet (resyncNotifyForNumberIDs order hd ids : AM (list string)).
Proof. induction ids; cbn [resyncNotifyForNumberIDs]; unfold resync_one; quieten. Qed.

Lemma quiet_number_ids hd u : quiet (number_ids hd u : AM (list Z)).
Proof. unfold number_ids. quieten. Qed.
#[local] Hint Resolve quiet_resync quiet_number_ids : quiet.

Lemma quiet_resync_user hd u : quiet (resyncUserNotify order hd u : AM (list string)).
Proof. unfold resyncUserNotify. quieten. Qed.

Lemma quiet_resync_number org num : quiet (resync_number order org num : AM ResyncResult).
Proof. unfold resync_number. quieten. Qed.

Lemma quiet_org_numbers i : quiet (org_numbers i : AM (list PortalNumber)).
Proof. unfold org_numbers. quieten. Qed.

Lemma quiet_provision num org : quiet (provisionPortalEndpoint num org : AM (fx PortalNumber)).
Proof. unfold provisionPortalEndpoint. quieten. Qed.

Lemma quiet_deprovision num : quiet (deprovisionPortalEndpoint num : AM PortalNumber).
Proof. unfold deprovisionPortalEndpoint, delete_portal_endpoints. quieten. apply quiet_each. quieten. Qed.

Lemma quiet_push_org r org : quiet (push_org r org : AM PortalOrg).
Proof. unfold push_org, live_notify. quieten. Qed.

Lemma quiet_rotate env org live : quiet (rotate_upstream env org live : AM bool).
Proof. unfold rotate_upstream. quieten. Qed.

Lemma quiet_svc_auth org : quiet (svc_auth Box org : AM bool).
Proof. unfold svc_auth. quieten. Qed.

Lemma quiet_compare org local e : quiet (compare_one order org local e : AM (list string * list FieldDrift)).
Proof. unfold compare_one, field_drift. quieten. Qed.

Lemma quiet_valid_users orgID ids : quiet (valid_users orgID ids : AM (list Z)).
Proof. induction ids; cbn [valid_users]; quieten. Qed.

Lemma quiet_switch r num org : quiet (switch_inbound r num org : AM PortalNumber).
Proof. unfold switch_inbound. quieten; auto using quiet_provision, quiet_deprovision. Qed.

#[local] Hint Resolve quiet_resync_user quiet_resync_number quiet_org_numbers quiet_provision quiet_deprovision quiet_push_org
  quiet_rotate quiet_svc_auth quiet_compare quiet_valid_users quiet_switch : quiet.

(** An operation that always goes on. *)
Definition sure {A} (m : AM A) : Prop := forall st, exists a, (m st).1 = Answer a.

Lemma sure_bind {A B} (m : AM A) (f : A -> AM B) : sure m -> (forall a, sure (f a)) -> sure (m ≫= f).
Proof. intros Hm Hf st. unfold mbind, am_bind. destruct (Hm st) as [a Ha]. destruct (m st) as [r st']; simpl in *. subst r. apply Hf. Qed.
Lemma sure_ret {A} (a : A) : sure (mret a : AM A).
Proof. by intros st; exists a. Qed.
Lemma sure_FX {A} (f : W -> A * W) : sure (FX f : AM A).
Proof. intros st. unfold FX. destruct (f _) as [a w]. by exists a. Qed.
Lemma sure_users {A} (f : TU -> A * TU) : sure (with_users f : AM A).
Proof. intros st. unfold with_users. destruct (f _) as [a w]. by exists a. Qed.
Lemma sure_orgs {A} (f : TO -> A * TO) : sure (with_orgs f : AM A).
Proof. intros st. unfold with_orgs. destruct (f _) as [a w]. by exists a. Qed.
Lemma sure_numbers {A} (f : TN -> A * TN) : sure (with_numbers f : AM A).
Proof. intros st. unfold with_numbers. destruct (f _) as [a w]. by exists a. Qed.
Lemma sure_assigned {A} (f : TA -> A * TA) : sure (with_assigned f : AM A).
Proof. intros st. unfold with_assigned. destruct (f _) as [a w]. by exists a. Qed.
Lemma sure_assigned_rows : sure (assigned_rows : AM (list UserNumber)).
Proof. intros st. by eexists. Qed.
Lemma sure_handle {A} hd (m : AM (option A)) : sure m -> sure (on_handle hd m).
Proof.
  intros Hm st. unfold on_handle. destruct hd; [apply Hm|]. destruct (as_aborted st); [by eexists|].
  destruct (Hm st) as [a Ha]. destruct (m st) as [r st']; simpl in *. subst r. destruct a; by eexists.
Qed.
#[local] Hint Resolve sure_ret sure_FX sure_users sure_orgs sure_numbers sure_assigned sure_assigned_rows sure_handle : sure.

#[local] Ltac surely :=
  repeat (intros; lazymatch goal with
  | |- sure (_ ≫= _) => apply sure_bind
  | |- sure (match ?x with _ => _ end) => destruct x
  | |- _ => solve [auto with sure]
  end).

Lemma sure_notify_of hd n svc custom : sure (notify_of order hd n svc custom : AM string).
Proof. unfold notify_of. surely. Qed.
#[local] Hint Resolve sure_notify_of : sure.
Lemma sure_loadNumber id : sure (loadNumber id : AM (res (PortalNumber * PortalOrg))).
Proof. unfold loadNumber. surely. Qed.
#[local] Hint Resolve sure_loadNumber : sure.
Lemma sure_resync hd ids : sure (resyncNotifyForNumberIDs order hd ids : AM (list string)).
Proof. induction ids; cbn [resyncNotifyForNumberIDs]; unfold resync_one; surely. Qed.
Lemma sure_resync_user hd u : sure (resyncUserNotify order hd u : AM (list string)).
Proof. unfold resyncUserNotify, number_ids. apply sure_bind; [surely|]. intros; apply sure_resync. Qed.
#[local] Hint Resolve sure_resync sure_resync_user : sure.

Lemma awp_quiet_sure {A} h (m : AM A) (Q : answer A -> View -> Prop) v : quiet m -> sure m ->
  (forall a v', unchanged v v' -> undisturbed v v' -> Q (Answer a) v') -> awp h m Q v.
Proof.
  intros Hm Hs HQ st Hh Hv. destruct (Hm h v st Hh Hv) as [H1 [H2 H3]]. destruct (Hs st) as [a Ha]. rewrite Ha. split; [done|]. by apply HQ.
Qed.

(** Execute, keeping quiet parts whole, and compare what is left. *)
#[local] Ltac settle :=
  intros; cbn [status] in *; try done; unfold unchanged, undisturbed in *; cbn in *; destruct_and?;
  repeat match goal with Hs : vw_saved _ = _ |- _ => rewrite Hs; clear Hs end; cbn; destruct_and?; split_and!; congruence.
#[local] Ltac execute :=
  repeat first
    [ apply awp_ret; cbn beta iota
    | apply awp_reject; cbn beta iota
    | apply awp_quiet_sure; [solve [auto with quiet]|solve [auto with sure]|intros ? ? ? ?; cbn beta iota]
    | apply awp_quiet; [solve [auto with quiet]|intros [?|? ?] ? ? ?; cbn beta iota; [|solve [settle]]]
    | astep ];
  try solve [settle].

Lemma quiet_count_number k : quiet (count_number k : AM nat).
Proof. unfold count_number. quieten. Qed.
#[local] Hint Resolve quiet_count_number : quiet.

Lemma harmless_UpdateOrg id req : harmless (adminUpdateOrg id req : AM PortalOrg).
Proof. intros v. unfold adminUpdateOrg. execute. Qed.

Lemma harmless_CreateOrg env req : harmless (adminCreateOrg Box env req : AM PortalOrg).
Proof. intros v. unfold adminCreateOrg. execute. Qed.

Lemma harmless_RotateSvc env id : harmless (adminRotateSvcCredentials Box env id : AM bool).
Proof. intros v. unfold adminRotateSvcCredentials. execute. Qed.

Lemma harmless_ResyncOrg id : harmless (adminResyncOrgNotify order id : AM (list ResyncResult)).
Proof. intros v. unfold adminResyncOrgNotify. execute. Qed.

Lemma harmless_ReconcileOrg enum id : harmless (adminReconcileOrg order Box enum id : AM Report).
Proof. intros v. unfold adminReconcileOrg. execute. Qed.

Lemma harmless_UpdateNumber id req : harmless (adminUpdateNumber order id req : AM PortalNumber).
Proof. intros v. unfold adminUpdateNumber. execute. Qed.

Lemma harmless_DeleteNumber id : harmless (adminDeleteNumber id : AM ()).
Proof. intros v. unfold adminDeleteNumber. execute. Qed.

Lemma harmless_CreateUser env req : harmless (adminCreateUser env req : AM PortalUser).
Proof. intros v. unfold adminCreateUser. execute. Qed.

Lemma harmless_ResetPassword env id req : harmless (adminResetPassword env id req : AM ()).
Proof. intros v. unfold adminResetPassword, DestroySessions. execute. Qed.

Lemma harmless_ResetTOTP id : harmless (adminResetUserTOTP id : AM ()).
Proof. intros v. unfold adminResetUserTOTP, DestroySessions. execute. Qed.

Lemma harmless_UpdateUser env id req : harmless (adminUpdateUser order env id req : AM PortalUser).
Proof. intros v. unfold adminUpdateUser, save_and_resync, DestroySessions. execute. Qed.

Lemma harmless_DeleteUser env actor id : harmless (adminDeleteUser order env actor id : AM ()).
Proof. intros v. unfold adminDeleteUser, DestroySessions. execute. Qed.

(** A request that is handed on works upstream only. *)
Lemma serve_direct_unchanged env d (st : AdminState) : unchanged (view st) (view (serve_direct env d st).2).
Proof.
  assert (forall {A} (m : AM A), quiet m -> unchanged (view st) (view (run m st).2)) as Hrun
    by (intros A m Hm; apply (awp_run false m _ st (Hm false (view st))); discriminate).
  destruct d; apply Hrun; unfold adminCreateDirectTenant, adminUpdateDirectTenant, adminDeleteDirectTenant, adminCreateDirectTenantUser,
    adminUpdateDirectTenantUser, adminDeleteDirectTenantUser, adminCreateDirectNumber, adminUpdateDirectNumber, adminDeleteDirectNumber,
    ensure, some_or; quieten.
Qed.

(** The loop of [adminSetAssignments] changes assignments only. *)
Lemma awp_store h numberID valid : forall (Q : answer bool -> View -> Prop) v,
  (forall b l ab, Q (Answer b) (v <| vw_assigned := l |> <| vw_aborted := ab |>)) ->
  awp h (store_assignments numberID valid : AM bool) Q v.
Proof.
  induction valid as [|uid valid IH]; intros Q v HQ; cbn [store_assignments].
  - apply awp_ret. specialize (HQ true (vw_assigned v) (vw_aborted v)). by destruct v.
  - apply awp_bind, awp_TX.
    + intros _. apply awp_bind, awp_assigned_insert; intros _; apply awp_ret; cbn [if_ok].
      * apply IH. intros b l ab. apply (HQ b).
      * apply awp_ret. specialize (HQ false (vw_assigned v) true). by destruct v.
    + intros _. apply awp_ret. specialize (HQ false (vw_assigned v) (vw_aborted v)). by destruct v.
Qed.

Lemma harmless_SetAssignments env id req : harmless (adminSetAssignments order env id req : AM (list Z * string)).
Proof.
  intros v. unfold adminSetAssignments.
  repeat first [apply awp_store; intros b l ab; cbn beta iota | progress execute].
Qed.

Lemma sure_each {A} (f : A -> AM ()) l : (forall a, sure (f a)) -> sure (each f l).
Proof. intros Hf. induction l; cbn [each]; surely. Qed.
Lemma sure_sessions {A} (f : TS -> A * TS) : sure (with_sessions f : AM A).
Proof. intros st. unfold with_sessions. destruct (f _) as [a w]. by exists a. Qed.
Lemma sure_faxes {A} (f : TF -> A * TF) : sure (with_faxes f : AM A).
Proof. intros st. unfold with_faxes. destruct (f _) as [a w]. by exists a. Qed.
Lemma sure_drop oid : sure (drop_assignments_of_org oid : AM bool).
Proof. intros st. apply sure_assigned. Qed.
#[local] Hint Resolve sure_sessions sure_faxes sure_drop : sure.

Lemma sure_drop_number org num : sure (drop_number org num : AM ()).
Proof. unfold drop_number, deprovisionPortalEndpoint, delete_portal_endpoints. surely. apply sure_each. surely. Qed.
#[local] Hint Resolve sure_drop_number sure_each : sure.

Lemma sure_purge org : sure (purge_org org : AM ()).
Proof.
  unfold purge_org, org_numbers. surely. apply sure_each; unfold retire_user, DestroySessions; surely.
Qed.

Lemma harmless_DeleteOrg id purge : harmless (adminDeleteOrg id purge : AM (option PortalOrg)).
Proof.
  intros v. unfold adminDeleteOrg. destruct purge; [|execute].
  apply awp_bind, awp_quiet; [auto with quiet|]. intros [o|] v1 H1 _; [|by intros _]. apply awp_bind, awp_some_or; [intros org _|by intros _].
  intros st _ _. split; [done|]. destruct (sure_purge org st) as [a Ha]. unfold mbind, am_bind.
  destruct (purge_org org st) as [r st']; simpl in *. by subst r.
Qed.
End spec.

#[export] Hint Resolve quiet_answer quiet_FX quiet_first_org quiet_first_number quiet_find_numbers quiet_first_user
  quiet_find_users quiet_assigned quiet_assigned_rows quiet_reject quiet_fx_or quiet_each quiet_notify_of quiet_loadNumber
  quiet_resync quiet_number_ids quiet_resync_user quiet_org_numbers quiet_deprovision quiet_handle : quiet.
#[export] Hint Resolve sure_resync sure_resync_user sure_notify_of sure_loadNumber sure_FX sure_drop_number sure_each : sure.
