(* ===== verification/PortalClient.v ===== *)
(** * PortalClient: the portal's client on gofaxserver's own handlers
    ([portal/internal/fsclient/client.go] over [gofaxserver/web.go])

    The two programs composed: a call of the client is a request to the route
    its path names, through the server's middleware, over a network that may
    lose the request or the reply. The composition keeps the contract
    ([UpstreamLaws]) the portal's handlers are proved against. *)

From S2P Require Import Prelude Store FaxJob Secrets Directory GatewayTemplates Gateways TenantUsers WebAdmin WebAdminFacts PortalUpstream.

(** What becomes of one exchange. *)
Inductive delivery := Delivered | LostRequest (e : string) | LostReply (e : string) | Garbled (e : string).

(** A dialable number in a query string, where nothing is escaped: the server
    reads a plus sign as a blank. *)
Fixpoint query_number (s : string) : string :=
  match s with
  | EmptyString => ""
  | String c s' => String (if Ascii.eqb c "+" then " " else c) (query_number s')
  end.

Section client.
Context {TT TN TE TG TC TX : Type} `{!Table TT Tenant} `{!Table TN TenantNumber} `{!Table TE Endpoint}
  `{!Table TG GatewayTemplate} `{!Table TC GatewayConfig} `{!Table TX TenantUser} `{BlockCipher}.
Variable is_ip : string -> bool.
Variable lookup_ip : string -> option (list string).
(** The server's keys, and the admin key the portal is configured with. *)
Variable PSK APIKey AdminKey : string.
#[local] Notation GwState := (GwState (TT := TT) (TN := TN) (TE := TE) (TG := TG) (TC := TC)).
#[local] Notation state := (Directory * Tables TT TN TE)%type.

(** The server, its random source, the jobs it has taken in and what its next
    intakes meet, and what the network has in store. *)
Record World := {
  w_server : GwState; w_users : TX; w_ivs : list string;
  w_jobs : list FaxJob; w_intakes : list IntakeEnv; w_net : list delivery;
}.

(** ** The server's routes *)

Definition route (A : Type) : Type := World -> answer A * World.

Definition on_gateways {A} (h : GwState -> answer A * GwState) : route A := fun w =>
  let '(a, s) := h (w_server w) in (a, w <| w_server := s |>).
Definition on_directory {A} (h : state -> answer A * state) : route A := fun w =>
  let '(a, s) := h (gs_store (w_server w)) in (a, w <| w_server ::= fun g => g <| gs_store := s |> |>).
Definition reading {A} (h : Tables TT TN TE -> answer A) : route A := fun w => (h (gs_store (w_server w)).2, w).
Definition on_accounts {A} (h : TX -> answer A * TX) : route A := fun w =>
  let '(a, t) := h (w_users w) in (a, w <| w_users := t |>).
(** A handler that encrypts draws an initialisation vector. *)
Definition with_iv {A} (h : option string -> TX -> answer A * TX) : route A := fun w =>
  on_accounts (h (head (w_ivs w))) (w <| w_ivs ::= tail |>).

(** The party of admin routes, behind its middleware. *)
Definition admin_route {A} (authHeader : string) (h : route A) : route A := fun w =>
  match basicAuthMiddleware APIKey authHeader with
  | Answer _ => h w
  | Reject code e => (Reject code e, w)
  end.

(** ** The client *)

(** [SetBasicAuth], when there is a name or a password. *)
Definition auth_header (basicUser basicPass : string) : string :=
  if nonempty basicPass || nonempty basicUser then basic_header basicUser basicPass else "".

(** [out]: the answer is decoded. *)
Definition do {A} (path basicUser basicPass : string) (out : bool) (h : string -> route A) (w : World) : fx A * World :=
  let d := head (w_net w) in
  let w := w <| w_net ::= tail |> in
  match d with
  | Some (LostRequest e) => (FxErr (Unreachable e), w)
  | Some (LostReply e) => let '(_, w') := h (auth_header basicUser basicPass) w in (FxErr (Unreachable e), w')
  | _ =>
      let '(a, w') := h (auth_header basicUser basicPass) w in
      (match a with
       | Reject code e => FxErr (APIError code e)
       | Answer x => match d, out with Some (Garbled e), true => FxErr (Undecodable path e) | _, _ => FxOk x end
       end, w')
  end.

Definition doAdmin {A} (path : string) (out : bool) (h : route A) : World -> fx A * World :=
  do path "admin" AdminKey out (fun header => admin_route header h).

(** The caller asks for nothing but success. *)
Definition done_ok {A} (f : World -> fx A * World) (w : World) : fx unit * World :=
  let '(r, w') := f w in (match r with FxOk _ => FxOk tt | FxErr e => FxErr e end, w').

Definition ListTenants : World -> fx (list Tenant) * World := doAdmin "/admin/tenants" true (reading handleListTenants).

Definition CreateTenant (name notify : string) : World -> fx Tenant * World :=
  doAdmin "/admin/tenant" true (on_directory (handleAddTenant (Some {| te_ID := 0; te_Name := name; te_Notify := notify; te_Numbers := [] |}))).

Definition UpdateTenant (id : Z) (name notify : string) : World -> fx unit * World :=
  done_ok (doAdmin ("/admin/tenant/" +:+ dec_string id) false
    (on_directory (handleUpdateTenant (dec_string id) (Some {| te_ID := 0; te_Name := name; te_Notify := notify; te_Numbers := [] |})))).

Definition DeleteTenant (id : Z) : World -> fx unit * World :=
  doAdmin ("/admin/tenant/" +:+ dec_string id) false (on_directory (handleDeleteTenant (dec_string id))).

(** A key in the query; 0 is not sent. *)
Definition key_param (id : Z) : string := if id =? 0 then "" else dec_string id.
Definition param (name v : string) : list string := if (v =? "")%string then [] else [name +:+ "=" +:+ v].
Definition query (qs : list string) : string := match qs with [] => "" | _ => "?" +:+ str_join "&" qs end.

Definition ListNumbers (tenantID : Z) : World -> fx (list TenantNumber) * World :=
  doAdmin ("/admin/numbers" +:+ query (param "tenant_id" (key_param tenantID))) true
    (reading (handleListTenantNumbers (key_param tenantID))).

Definition AddNumber (n : TenantNumber) : World -> fx TenantNumber * World :=
  doAdmin "/admin/number" true (on_directory (handleAddTenantNumber (Some (n <| tn_ID := 0 |>)))).

Definition UpdateNumber (n : TenantNumber) : World -> fx unit * World :=
  done_ok (doAdmin ("/admin/number/" +:+ dec_string (tn_ID n)) false
    (on_directory (handleUpdateTenantNumber (dec_string (tn_ID n)) (Some (n <| tn_ID := 0 |>))))).

Definition DeleteNumber (tenantID : Z) (number : string) : World -> fx unit * World :=
  doAdmin ("/admin/number?number=" +:+ number +:+ "&tenant_id=" +:+ dec_string tenantID) false
    (on_directory (handleDeleteTenantNumber (query_number number) (dec_string tenantID))).

Definition ListUsers (tenantID : Z) : World -> fx (list TenantUserPublic) * World :=
  doAdmin ("/admin/users" +:+ query (param "tenant_id" (key_param tenantID))) true
    (on_accounts (fun t => (handleListTenantUsers (key_param tenantID) t, t))).

(** The answer carries no password. *)
Definition CreateTenantUser (u : TenantUser) : World -> fx TenantUser * World := fun w =>
  let '(r, w') := doAdmin "/admin/user" true (with_iv (fun iv => handleAddTenantUser PSK iv (Some (u <| tu_ID := 0 |>)))) w in
  (match r with FxOk u' => FxOk (u' <| tu_Password := "" |>) | FxErr e => FxErr e end, w').

Definition UpdateTenantUser (u : TenantUser) : World -> fx unit * World :=
  done_ok (doAdmin ("/admin/user/" +:+ dec_string (tu_ID u)) false
    (with_iv (fun iv => handleUpdateTenantUser PSK iv (dec_string (tu_ID u)) (Some (u <| tu_ID := 0 |>))))).

Definition DeleteTenantUser (id : Z) : World -> fx unit * World :=
  doAdmin ("/admin/user/" +:+ dec_string id) false (on_accounts (handleDeleteTenantUser (dec_string id))).

Definition AuthenticateSvcAccount (username password : string) : World -> fx unit * World :=
  done_ok (do "/tenant/user/authenticate" username password false
    (fun header => on_accounts (handleAuthenticateTenantUser PSK header))).

Definition AddEndpoint (ep : Endpoint) : World -> fx Endpoint * World :=
  doAdmin "/admin/endpoint" true (on_gateways (handleAddEndpoint is_ip lookup_ip (Some ep))).

Definition UpdateEndpoint (ep : Endpoint) : World -> fx unit * World :=
  done_ok (doAdmin ("/admin/endpoint/" +:+ dec_string (ep_ID ep)) false
    (on_gateways (handleUpdateEndpoint is_ip lookup_ip (dec_string (ep_ID ep)) (Some ep)))).

Definition DeleteEndpoint (id : Z) : World -> fx unit * World :=
  doAdmin ("/admin/endpoint/" +:+ dec_string id) false (on_gateways (handleDeleteEndpoint is_ip lookup_ip (dec_string id))).

Definition ListEndpoints (typeFilter : string) (typeID : Z) : World -> fx (list Endpoint) * World :=
  doAdmin ("/admin/endpoints" +:+ query (param "type" typeFilter ++ param "type_id" (key_param typeID))) true
    (reading (handleListEndpoints typeFilter (key_param typeID))).

(** The client as the portal's handlers see it; what a reader of the server's
    tables sees; and whether the server's own bookkeeping is in order. *)
Definition stored_numbers (w : World) : gmap string TenantNumber * list TenantNumber :=
  (d_TenantNumbers (gs_store (w_server w)).1, tbl_rows (tb_numbers (gs_store (w_server w)).2)).

Definition in_order (w : World) : Prop :=
  numbers_loaded (stored_numbers w).1 (stored_numbers w).2 /\ forall n, n ∈ (stored_numbers w).2 -> 0 < tn_ID n /\ dialable (tn_Number n).

(** The account the server would find has that password. *)
Definition accepts (w : World) (header : string) : Prop :=
  exists name password user e, credentials_of e header = Ok (name, password) /\
    head (List.filter (fun u => (tu_Username u =? name)%string) (tbl_rows (w_users w))) = Some user /\
    Decrypt (tu_Password user) PSK = Some password.

#[local] Instance gofax_upstream : Upstream World := {
  fx_ListTenants := ListTenants; fx_CreateTenant := CreateTenant; fx_UpdateTenant := UpdateTenant; fx_DeleteTenant := DeleteTenant;
  fx_ListNumbers := ListNumbers; fx_AddNumber := AddNumber; fx_UpdateNumber := UpdateNumber; fx_DeleteNumber := DeleteNumber;
  fx_ListUsers := ListUsers; fx_CreateTenantUser := CreateTenantUser; fx_UpdateTenantUser := UpdateTenantUser; fx_DeleteTenantUser := DeleteTenantUser;
  fx_AuthenticateSvcAccount := AuthenticateSvcAccount; fx_AddEndpoint := AddEndpoint; fx_UpdateEndpoint := UpdateEndpoint;
  fx_DeleteEndpoint := DeleteEndpoint; fx_ListEndpoints := ListEndpoints;
  up_numbers w := (stored_numbers w).2; up_logins w u p := accepts w (auth_header u p); up_ok := in_order;
}.
End client.

(** ** The contract *)

Section contract.
Context {TT TN TE TG TC TX : Type} `{!Table TT Tenant, !TableLaws TT Tenant} `{!Table TN TenantNumber, !TableLaws TN TenantNumber}
  `{!Table TE Endpoint, !TableLaws TE Endpoint} `{!Table TG GatewayTemplate} `{!Table TC GatewayConfig}
  `{!Table TX TenantUser, !TableLaws TX TenantUser} `{BlockCipher}.
Variable is_ip : string -> bool.
Variable lookup_ip : string -> option (list string).
Variable PSK APIKey AdminKey : string.
#[local] Notation GwState := (GwState (TT := TT) (TN := TN) (TE := TE) (TG := TG) (TC := TC)).
#[local] Notation GM := (GM (TT := TT) (TN := TN) (TE := TE) (TG := TG) (TC := TC)).
#[local] Notation state := (Directory * Tables TT TN TE)%type.
#[local] Notation World := (World (TT := TT) (TN := TN) (TE := TE) (TG := TG) (TC := TC) (TX := TX)).
#[local] Notation route := (route (TT := TT) (TN := TN) (TE := TE) (TG := TG) (TC := TC) (TX := TX)).
#[local] Notation doAdmin := (doAdmin APIKey AdminKey).
#[local] Instance the_upstream : Upstream World := gofax_upstream is_ip lookup_ip PSK APIKey AdminKey.
Implicit Types (w : World).

(** *** Exchanges *)

(** A call either leaves the server alone and fails, or the handler has run and
    a success is the handler's answer. *)
Lemma do_cases {A} path u p out (h : string -> route A) w :
  let r := do path u p out h w in let w0 := w <| w_net ::= tail |> in
  (fx_failed r.1 /\ r.2 = w0) \/
  (r.2 = (h (auth_header u p) w0).2 /\ ((h (auth_header u p) w0).1 = match r.1 with FxOk a => Answer a | FxErr _ => (h (auth_header u p) w0).1 end)).
Proof.
  unfold do. cbv zeta. destruct (h _ (w <| w_net ::= tail |>)) as [a w']. unfold fx_failed.
  destruct (head (w_net w)) as [[]|], a; try destruct out; simpl; eauto.
Qed.

Lemma doAdmin_cases {A} path out (h : route A) w :
  let r := doAdmin path out h w in let w0 := w <| w_net ::= tail |> in
  (fx_failed r.1 /\ r.2 = w0) \/ (r.2 = (h w0).2 /\ forall a, r.1 = FxOk a -> (h w0).1 = Answer a).
Proof.
  cbv zeta. unfold PortalClient.doAdmin. destruct (do_cases path "admin" AdminKey out (fun header => admin_route APIKey header h) w) as [?|[-> Ha]];
    [by left|]. cbv beta in *. unfold admin_route in *. destruct (basicAuthMiddleware _ _) as [[]|code e] eqn:Eb.
  - right. split; [done|]. intros a Hr. by rewrite Hr in Ha.
  - left. destruct (do path _ _ out _ w).1 as [a|x]; [done|]. split; [by exists x|done].
Qed.

Lemma done_ok_fst {A} (f : World -> fx A * World) w : (done_ok f w).2 = (f w).2.
Proof. unfold done_ok. by destruct (f w) as [[] ?]. Qed.

Lemma done_ok_inv {A} (f : World -> fx A * World) w : (done_ok f w).1 = FxOk () -> exists a, (f w).1 = FxOk a.
Proof. unfold done_ok. destruct (f w) as [[] ?]; simpl; [eauto|done]. Qed.

Definition spares {A} (h : route A) : Prop := forall w, stored_numbers (h w).2 = stored_numbers w.

Lemma spares_do {A} path u p out (h : string -> route A) : (forall header, spares (h header)) -> spares_numbers (do path u p out h).
Proof.
  intros Hh w Hok. cbn [up_ok up_numbers the_upstream gofax_upstream] in *. unfold in_order in *.
  assert (stored_numbers (do path u p out h w).2 = stored_numbers w) as ->; [|done].
  destruct (do_cases path u p out h w) as [[_ ->]|[-> _]]; [done|]. by rewrite Hh.
Qed.

Lemma spares_doAdmin {A} path out (h : route A) : spares h -> spares_numbers (doAdmin path out h).
Proof. intros Hh. apply spares_do. intros header w. unfold admin_route. destruct (basicAuthMiddleware _ _); [apply Hh|done]. Qed.

Lemma spares_done_ok {A} (f : World -> fx A * World) : spares_numbers f -> spares_numbers (done_ok f).
Proof. intros Hf w Hok. rewrite done_ok_fst. by apply Hf. Qed.

Lemma spares_reading {A} (h : Tables TT TN TE -> answer A) : spares (reading h).
Proof. done. Qed.

Lemma spares_accounts {A} (h : TX -> answer A * TX) : spares (on_accounts h).
Proof. intros w. unfold on_accounts. by destruct (h _). Qed.

Lemma spares_with_iv {A} (h : option string -> TX -> answer A * TX) : spares (with_iv h).
Proof. intros w. unfold with_iv. by rewrite spares_accounts. Qed.

(** *** Tenants *)

Definition numbers_of (st : state) : gmap string TenantNumber * list TenantNumber :=
  (d_TenantNumbers st.1, tbl_rows (tb_numbers st.2)).

Lemma spares_directory {A} (h : state -> answer A * state) : (forall st, numbers_of (h st).2 = numbers_of st) -> spares (on_directory h).
Proof. intros Hh w. unfold on_directory. specialize (Hh (gs_store (w_server w))). by destruct (h _). Qed.

Lemma store_tenant_spares write b (tb : Tables TT TN TE) : te_Numbers b = [] ->
  tb_numbers (store_tenant write b tb).2 = tb_numbers tb.
Proof. clear. intros Hb. unfold store_tenant. destruct (write _ _) as [[]]; [|done]. by rewrite Hb. Qed.

Lemma spares_add_tenant b : te_Numbers b = [] -> spares (on_directory (handleAddTenant (Some b))).
Proof.
  intros Hb. apply spares_directory. intros [d tb]. unfold handleAddTenant, numbers_of.
  pose proof (store_tenant_spares gorm_create b tb Hb). destruct (store_tenant _ _ _) as [[] tb']; simpl in *; congruence.
Qed.
Lemma spares_update_tenant i b : te_Numbers b = [] -> spares (on_directory (handleUpdateTenant i (Some b))).
Proof.
  intros Hb. apply spares_directory. intros [d tb]. unfold handleUpdateTenant, numbers_of. destruct (path_id i) as [id|]; [|done].
  match goal with |- context [store_tenant ?w ?x ?t] => pose proof (store_tenant_spares w x t Hb) end. destruct (store_tenant _ _ _) as [[] tb']; simpl in *; congruence.
Qed.
Lemma spares_delete_tenant i : spares (on_directory (handleDeleteTenant i)).
Proof.
  apply spares_directory. intros [d tb]. unfold handleDeleteTenant. destruct (path_id i); try done. destruct (tbl_delete _ _) as [[]]; done.
Qed.

(** *** Endpoints *)

Lemma addEndpoint_numbers ep d d' : addEndpoint ep d = Ok d' -> d_TenantNumbers d' = d_TenantNumbers d.
Proof.
  clear. unfold addEndpoint. destruct (_ =? "tenant")%string; [by intros [= <-]|]. destruct (_ =? "number")%string.
  - destruct (number_of_id _ _); [by intros [= <-]|done].
  - destruct (_ =? "global")%string; [|done]. intros [= <-]. by destruct (_ =? "gateway")%string.
Qed.

Lemma removeEndpoint_numbers i d d' : removeEndpoint i d = Ok d' -> d_TenantNumbers d' = d_TenantNumbers d.
Proof.
  clear. unfold removeEndpoint. destruct (cut_map i (d_TenantEndpoints d)); [by intros [= <-]|].
  destruct (cut_map i (d_NumberEndpoints d)); [by intros [= <-]|]. destruct (List.find _ _) as [[? ?]|]; [by intros [= <-]|done].
Qed.

(** The loaded and the stored numbers behind a state of the gateways. *)
Definition gw_numbers (st : GwState) : gmap string TenantNumber * list TenantNumber := numbers_of (gs_store st).

Definition spares_gw {A} (m : GM A) : Prop := forall st, gw_numbers (m st).2 = gw_numbers st.

Lemma spares_store f e : (forall st, numbers_of (f st).2 = numbers_of st) -> spares_gw (on_store f e).
Proof. intros Hf st. unfold on_store, gw_numbers. specialize (Hf (gs_store st)). by destruct (f _). Qed.

Lemma numbers_addEndpointToDB ep (st : state) : numbers_of (addEndpointToDB ep st).2 = numbers_of st.
Proof.
  destruct st as [d tb]. unfold addEndpointToDB. destruct (tbl_create _ _) as [[ep'|] t]; [|done]. unfold keep.
  destruct (addEndpoint ep' d) eqn:E; [|done]. unfold numbers_of. simpl. by rewrite (addEndpoint_numbers _ _ _ E).
Qed.

Lemma numbers_updateEndpoint ep (st : state) : numbers_of (updateEndpoint ep st).2 = numbers_of st.
Proof.
  destruct st as [d tb]. unfold updateEndpoint. destruct (tbl_save _ _) as [[|] t]; [|done].
  destruct (removeEndpoint _ d) as [d1|] eqn:E1; [|done]. unfold keep. destruct (addEndpoint ep d1) eqn:E; unfold numbers_of; simpl;
    [rewrite (addEndpoint_numbers _ _ _ E)|]; by rewrite (removeEndpoint_numbers _ _ _ E1).
Qed.

Lemma numbers_removeEndpoint i (st : state) : numbers_of (removeEndpointFromDB i st).2 = numbers_of st.
Proof.
  destruct st as [d tb]. unfold removeEndpointFromDB. destruct (tbl_delete _ _) as [[|] t]; [|done]. unfold keep.
  destruct (removeEndpoint i d) eqn:E; [|done]. unfold numbers_of. simpl. by rewrite (removeEndpoint_numbers _ _ _ E).
Qed.

Lemma numbers_load (st : state) : numbers_of (loadEndpoints is_ip lookup_ip st).2 = numbers_of st.
Proof.
  destruct st as [d tb]. unfold loadEndpoints. destruct (tbl_find _ _) as [[rows|] t]; [|done]. unfold numbers_of. cbn.
  set (d0 := _ <| d_GatewayEndpointsACL := [] |>). by destruct (load_loop_spec (d_TenantNumbers d) rows d0) as (_ & _ & _ & _ & -> & _).
Qed.

Lemma spares_reload {A} (a : A) st : gw_numbers (then_reload is_ip lookup_ip a st).2 = gw_numbers st.
Proof.
  unfold then_reload, reload_endpoints. pose proof (spares_store _ "added endpoint but failed to reload" numbers_load st) as Hl.
  by destruct (on_store _ _ st) as [[[]|?] st'].
Qed.

Lemma spares_endpoints {A} (f : TE -> A * TE) : spares_gw (on_endpoints f : GM A).
Proof. intros st. unfold on_endpoints, gw_numbers. by destruct (f _). Qed.

Lemma spares_managing i : spares_gw (gatewayManagingEndpoint i : GM (option string)).
Proof.
  intros st. unfold gatewayManagingEndpoint, attempt, mbind, gm_bind, first_config. by destruct (tbl_first _ _) as [[] t].
Qed.

Lemma spares_existing i st : gw_numbers (load_existing i st).2 = gw_numbers st.
Proof.
  unfold load_existing. pose proof (spares_endpoints (tbl_find (fun ep => ep_ID ep =? i)) st) as Hf.
  by destruct (on_endpoints _ st) as [[[l|]|] st'].
Qed.

Lemma spares_locked existing ep st : gw_numbers (value_locked existing ep st).2 = gw_numbers st.
Proof.
  unfold value_locked, count_configs. destruct (_ && _); [|done]. by destruct (tbl_find _ _).
Qed.

Lemma spares_gateways {A} (h : GwState -> answer A * GwState) : (forall st, gw_numbers (h st).2 = gw_numbers st) -> spares (on_gateways h).
Proof. intros Hh w. unfold on_gateways. specialize (Hh (w_server w)). by destruct (h _). Qed.

Lemma spares_add_endpoint body : spares (on_gateways (handleAddEndpoint is_ip lookup_ip body)).
Proof.
  apply spares_gateways. intros st. unfold handleAddEndpoint. destruct body as [ep|]; [|done]. unfold add_endpoint.
  pose proof (spares_store _ "failed to add endpoint" (numbers_addEndpointToDB ep) st) as Ha.
  destruct (on_store _ _ st) as [[[]|?] st1]; [by rewrite spares_reload|done].
Qed.

Lemma spares_update_endpoint i body : spares (on_gateways (handleUpdateEndpoint is_ip lookup_ip i body)).
Proof.
  apply spares_gateways. intros st. unfold handleUpdateEndpoint. destruct (path_id i) as [k|]; [|done]. destruct body as [b|]; [|done]. cbv zeta.
  pose proof (spares_managing k st) as H1. destruct (gatewayManagingEndpoint k st) as [r st1]; simpl in *.
  destruct r as [[gw|]|e]; simpl; [done| |]; rewrite <- H1; clear H1.
  all: pose proof (spares_existing k st1) as H2; destruct (load_existing k st1) as [[[ex|]|] st2]; simpl in *; [|done..]; rewrite <- H2.
  all: pose proof (spares_locked ex (b <| ep_ID := k |>) st2) as H3; destruct (value_locked _ _ st2) as [[|] st3]; simpl in *; [done|].
  all: rewrite <- H3; pose proof (spares_store _ "failed to update endpoint" (numbers_updateEndpoint (b <| ep_ID := k |>)) st3) as H4.
  all: destruct (on_store _ _ st3) as [[[]|?] st4]; [by rewrite spares_reload|done].
Qed.

Lemma spares_delete_endpoint i : spares (on_gateways (handleDeleteEndpoint is_ip lookup_ip i)).
Proof.
  apply spares_gateways. intros st. unfold handleDeleteEndpoint. destruct (path_id i) as [k|]; [|done].
  pose proof (spares_managing k st) as H1. destruct (gatewayManagingEndpoint k st) as [r st1]; simpl in *.
  destruct r as [[gw|]|e]; simpl; [done| |]; rewrite <- H1; clear H1.
  all: pose proof (spares_store _ "failed to delete endpoint" (numbers_removeEndpoint k) st1) as H4.
  all: destruct (on_store _ _ st1) as [[[]|?] st4]; [by rewrite spares_reload|done].
Qed.

(** *** Numbers *)

Lemma path_id_dec i k : 0 <= i -> path_id (dec_string i) = Some k -> k = i.
Proof.
  clear. intros Hi. unfold path_id. destruct (atoi (dec_string i)) as [z|] eqn:E; [|done]. intros [= <-].
  assert (z = i /\ z <= int64_max) as [-> Hm].
  { pose proof (atoi_range _ _ E). unfold atoi in E. pose proof (parse_dec_string i Hi) as Hp.
    destruct (dec_string i) as [|c s]; [done|]. pose proof (parse_digits_head _ _ _ Hp) as Hc.
    destruct (Ascii.eqb_spec c "-") as [->|]; [done|]. destruct (Ascii.eqb_spec c "+") as [->|]; [done|].
    rewrite Hp in E. destruct (in_int64 i); [|done]. injection E as ->. lia. }
  by apply uint_of_int_small.
Qed.

Lemma parse_uint_dec i o : 0 <= i -> parse_uint (dec_string i) = Some o -> o = i.
Proof. clear. intros Hi. unfold parse_uint. rewrite parse_dec_string by done. destruct (_ <? _); by intros [= <-]. Qed.

Lemma in_order_step w : in_order w -> numbers_in_step (gs_store (w_server w)).
Proof. by intros [? _]. Qed.

(** A number request over the network: what the handler does, or nothing. *)
Lemma number_call {A} path out (h : state -> answer A * state) w (P : fx A -> list TenantNumber -> Prop) :
  in_order w ->
  (let '(a, st') := h (gs_store (w_server w)) in numbers_in_step st' /\ (forall n, n ∈ tbl_rows (tb_numbers st'.2) -> 0 < tn_ID n /\ dialable (tn_Number n)) /\
     (forall e, P (FxErr e) (tbl_rows (tb_numbers st'.2))) /\ (forall x, a = Answer x -> P (FxOk x) (tbl_rows (tb_numbers st'.2)))) ->
  (forall e, P (FxErr e) (stored_numbers w).2) ->
  let r := doAdmin path out (on_directory h) w in in_order r.2 /\ P r.1 (stored_numbers r.2).2.
Proof.
  intros Hok Hh Hfail. cbv zeta. destruct (doAdmin_cases path out (on_directory h) w) as [[[e ->] ->]|[-> Ha]]; [split; [exact Hok|apply Hfail]|].
  unfold on_directory in *. change (gs_store (w_server (w <| w_net ::= tail |>))) with (gs_store (w_server w)) in *.
  destruct (h (gs_store (w_server w))) as [a st']. destruct Hh as (Hn & Hpos & He & Hx). split; [by split|].
  destruct (doAdmin path out _ w).1 as [x|e]; [|apply He]. by apply Hx, Ha.
Qed.

Lemma AddNumber_law n w : in_order w -> dialable (tn_Number n) -> let '(r, w') := AddNumber APIKey AdminKey n w in in_order w' /\
    ((exists n', added n n' (stored_numbers w).2 /\ (stored_numbers w').2 = (stored_numbers w).2 ++ [n'] /\ (r = FxOk n' \/ fx_failed r)) \/
     fx_failed r /\ (stored_numbers w').2 = (stored_numbers w).2).
Proof.
  intros Hok Hdial. rewrite (surjective_pairing (AddNumber _ _ n w)). unfold AddNumber.
  apply (number_call _ _ _ w (fun r rows => (exists n', added n n' (stored_numbers w).2 /\ rows = (stored_numbers w).2 ++ [n'] /\ (r = FxOk n' \/ fx_failed r)) \/
     fx_failed r /\ rows = (stored_numbers w).2)); [done| |unfold fx_failed; eauto].
  pose proof (add_number_effect (n <| tn_ID := 0 |>) _ (in_order_step w Hok)) as He.
  destruct (handleAddTenantNumber _ _) as [a st']. destruct He as (_ & Hn & Hcase). split; [done|]. unfold fx_failed.
  destruct Hcase as [[-> [c [e ->]]]|(n' & -> & (Hn' & Hpos & Hfresh) & ->)].
  - split; [apply Hok|]. split; [eauto|discriminate].
  - assert (added n n' (stored_numbers w).2) as Hadd by (split_and!; [by rewrite Hn' at 1; destruct n|done|done]).
    split; [|split; [intros e|intros x [= <-]]; left; exists n'; split_and!; try done; [right; by exists e|by left]].
    intros x [Hx| ->%list_elem_of_singleton]%elem_of_app; [by apply Hok|]. split; [done|by rewrite Hn'].
Qed.

Lemma UpdateNumber_law n w : in_order w -> 0 < tn_ID n -> dialable (tn_Number n) ->
  (forall r, r ∈ (stored_numbers w).2 -> tn_ID r = tn_ID n -> tn_Number r = tn_Number n) ->
  let '(r, w') := UpdateNumber APIKey AdminKey n w in in_order w' /\
    ((stored_numbers w').2 = replace_row n (stored_numbers w).2 \/ fx_failed r /\ (stored_numbers w').2 = (stored_numbers w).2).
Proof.
  intros Hok Hid Hdial Hsame. rewrite (surjective_pairing (UpdateNumber _ _ n w)). unfold UpdateNumber. rewrite done_ok_fst.
  set (f := doAdmin _ _ _).
  assert (in_order (f w).2 /\ ((stored_numbers (f w).2).2 = replace_row n (stored_numbers w).2 \/
    fx_failed (f w).1 /\ (stored_numbers (f w).2).2 = (stored_numbers w).2)) as [Ho Hc].
  { apply (number_call _ _ _ w (fun r rows => rows = replace_row n (stored_numbers w).2 \/ fx_failed r /\ rows = (stored_numbers w).2));
      [done| |unfold fx_failed; eauto].
    pose proof (update_number_effect (dec_string (tn_ID n)) (n <| tn_ID := 0 |>) _ (in_order_step w Hok)) as He.
    destruct (handleUpdateTenantNumber _ _ _) as [a st']. destruct He as (_ & Hn & Hcase).
    { intros i x Hp Hx Hi. apply Hsame; [exact Hx|]. by rewrite Hi, (path_id_dec (tn_ID n) i) by (done || lia). }
    split; [done|]. unfold fx_failed. destruct Hcase as [[-> [c [e ->]]]|(r' & i & -> & Hp & Hr & ->)].
    - split; [apply Hok|]. split; [eauto|discriminate].
    - assert (i = tn_ID n) as -> by (apply path_id_dec; [lia|done]). rewrite Hr by lia.
      replace (n <| tn_ID := 0 |> <| tn_ID := tn_ID n |>) with n by by destruct n.
      split; [|split; [intros e; by left|intros x _; by left]].
      intros x [->|Hx]%replace_row_elem; [done|by apply Hok]. }
  split; [done|]. destruct Hc as [?|[[e He] ?]]; [by left|right]. split; [|done]. exists e. unfold done_ok.
  destruct (f w) as [r w']; simpl in *. by rewrite He.
Qed.

Lemma dialable_query k : dialable k -> query_number k = k \/ ~ dialable (query_number k).
Proof.
  clear. unfold dialable. induction k as [|c k IH]; cbn; [by left|]. intros [Hc Hk]%andb_true_iff. destruct (Ascii.eqb_spec c "+") as [->|].
  - by right.
  - destruct (IH Hk) as [->|Hn]; [by left|]. right. by intros [_ ?]%andb_true_iff.
Qed.

Lemma DeleteNumber_law i k w : in_order w -> dialable k -> let '(r, w') := DeleteNumber APIKey AdminKey i k w in in_order w' /\
    ((stored_numbers w').2 = List.filter (fun n => negb (tn_Number n =? k)%string) (stored_numbers w).2 \/
     fx_failed r /\ (stored_numbers w').2 = (stored_numbers w).2).
Proof.
  intros Hok Hdial. rewrite (surjective_pairing (DeleteNumber _ _ i k w)). unfold DeleteNumber.
  apply (number_call _ _ _ w (fun r rows => rows = List.filter (fun n => negb (tn_Number n =? k)%string) (stored_numbers w).2 \/
     fx_failed r /\ rows = (stored_numbers w).2)); [done| |unfold fx_failed; eauto].
  pose proof (delete_number_effect (query_number k) (dec_string i) _ (in_order_step w Hok)) as He.
  destruct (handleDeleteTenantNumber _ _ _) as [a st']. destruct He as (_ & Hn & Hcase). split; [done|]. unfold fx_failed.
  destruct Hcase as [[-> [c [e ->]]]|((n & Hin & Hnum) & ->)].
  - split; [apply Hok|]. split; [eauto|discriminate].
  - destruct (dialable_query k Hdial) as [->|Hnd]; [|destruct Hnd; rewrite <- Hnum; by apply Hok].
    split; [|split; [intros e; by left|intros x _; by left]].
    intros x [Hx _]%list_elem_of_In%filter_In. apply Hok. by apply list_elem_of_In.
Qed.

(** *** Reads *)

Lemma ListNumbers_law i w l : 0 <= i -> (ListNumbers APIKey AdminKey i w).1 = FxOk l ->
  l = List.filter (fun n => (i =? 0) || (tn_TenantID n =? i)) (stored_numbers w).2.
Proof.
  intros Hi Hl. unfold ListNumbers in Hl.
  match type of Hl with (doAdmin ?p ?o ?h w).1 = _ => destruct (doAdmin_cases p o h w) as [[[e He] _]|[_ Ha]] end; [congruence|].
  specialize (Ha l Hl). unfold reading, handleListTenantNumbers, uint_filter, key_param, found in Ha. cbn [fst snd] in Ha.
  assert (forall P, match (tbl_find P (tb_numbers (gs_store (w_server w)).2)).1 with Some l => Answer l | None => Reject 500 "failed to retrieve numbers" end = Answer l ->
    l = List.filter P (stored_numbers w).2) as Hf.
  { intros P Hm. destruct (tbl_find P _).1 as [l'|] eqn:E; [|done]. injection Hm as <-. by apply find_result. }
  destruct (i =? 0) eqn:E0; [by apply Hf|]. cbn [orb].
  destruct (dec_string i =? "")%string eqn:Ee; [apply String.eqb_eq in Ee; pose proof (parse_dec_string i Hi) as Hp; by rewrite Ee in Hp|].
  destruct (parse_uint (dec_string i)) as [k|] eqn:Ek; [|done]. apply (parse_uint_dec i k Hi) in Ek as ->. by apply Hf.
Qed.

Lemma Authenticate_law u p w : (AuthenticateSvcAccount PSK u p w).1 = FxOk () ->
  accepts PSK (AuthenticateSvcAccount PSK u p w).2 (auth_header u p).
Proof.
  intros Hok. unfold AuthenticateSvcAccount in *. rewrite done_ok_fst. apply done_ok_inv in Hok as [a Ha].
  match type of Ha with (do ?p ?u ?pw ?o ?h w).1 = _ => destruct (do_cases p u pw o h w) as [[[e He] _]|[-> Hr]] end; [congruence|].
  rewrite Ha in Hr. cbv beta in *. clear Ha. unfold on_accounts, handleAuthenticateTenantUser, authenticate_basic in *. simpl in *.
  destruct (credentials_of _ _) as [[name pw]|e] eqn:Ec; [|done].
  pose proof (fun user => authenticated PSK name pw user (w_users w)) as Hauth.
  pose proof (authenticate_rows PSK name pw (w_users w)) as H3.
  destruct (AuthenticateTenantUser PSK name pw (w_users w)) as [[user|e] t1]; simpl in *; [|done].
  destruct (Hauth user eq_refl) as [H1 H2]. exists name, pw, user, "Missing or invalid Authorization header".
  split; [done|]. unfold w_users at 1. simpl. by rewrite H3.
Qed.

(** *** The whole contract *)

#[local] Hint Resolve spares_doAdmin spares_done_ok spares_reading spares_accounts spares_with_iv spares_add_tenant spares_update_tenant
  spares_delete_tenant spares_add_endpoint spares_update_endpoint spares_delete_endpoint : spares.

Lemma spares_create_user u : spares_numbers (CreateTenantUser PSK APIKey AdminKey u : World -> fx TenantUser * World).
Proof.
  intros w Hok. unfold CreateTenantUser.
  match goal with |- context [doAdmin ?p ?o ?h w] => pose proof (spares_doAdmin p o h) as Hs; destruct (doAdmin p o h w) as [r w'] eqn:E end.
  rewrite <- (eq_refl w' : (r, w').2 = w'). specialize (Hs (spares_with_iv _) w Hok). by rewrite E in Hs.
Qed.

Lemma gofax_upstream_laws : UpstreamLaws World.
Proof.
  split; cbn [the_upstream gofax_upstream fx_ListTenants fx_CreateTenant fx_UpdateTenant fx_DeleteTenant fx_ListNumbers fx_AddNumber
    fx_UpdateNumber fx_DeleteNumber fx_ListUsers fx_CreateTenantUser fx_UpdateTenantUser fx_AuthenticateSvcAccount fx_AddEndpoint
    fx_UpdateEndpoint fx_DeleteEndpoint fx_ListEndpoints up_numbers up_logins up_ok].
  all: try (intros; try apply spares_done_ok; try apply spares_doAdmin; auto with spares; fail).
  - intros u. apply spares_create_user.
  - intros u p. apply spares_done_ok, spares_do. intros h. apply spares_accounts.
  - intros w [(? & ? & _) _]. done.
  - intros i w l. apply ListNumbers_law.
  - apply AddNumber_law.
  - apply UpdateNumber_law.
  - apply DeleteNumber_law.
  - intros u p w. apply Authenticate_law.
Qed.
(** C25: gofaxserver's handlers behind their middleware, called by the portal's
    client over a network that loses requests and replies, keep the contract
    the portal's handlers rely on: what a successful call has done, that a
    failed one has done all of it or nothing, that calls about tenants, users
    and endpoints leave numbers alone, and that an accepted login names an
    account with that password. *)
Theorem client_keeps_contract : UpstreamLaws World.
Proof. exact gofax_upstream_laws. Qed.
End contract.

(** ** A concrete pair *)

Section witnesses.
#[local] Existing Instance demo_cipher.

Lemma client_keeps_contract_witness :
  exists U : Upstream (World (TT := ListTable Tenant) (TN := ListTable TenantNumber) (TE := ListTable Endpoint)
    (TG := ListTable GatewayTemplate) (TC := ListTable GatewayConfig) (TX := ListTable TenantUser)), UpstreamLaws _.
Proof.
  exists (gofax_upstream (fun _ => false) (fun _ => None) "psk" "k3y" "k3y").
  apply (client_keeps_contract (fun _ => false) (fun _ => None) "psk" "k3y" "k3y").
Defined.
End witnesses.
