(* ===== verification/PortalGuarantees.v ===== *)
(** * PortalGuarantees: what the portal's administration guarantees

    Lemmas on whole requests: what each leaves of the mirror, of the tables
    when it fails, and of sessions. *)

From S2P Require Import Prelude Store FaxJob Directory PortalModels PortalNotify RateLimit PortalAuth TenantUsers WebAdmin PortalUpstream PortalAdmin PortalLogic PortalMirror PortalAdminFacts PortalDirect PortalAdminSpec.

Create HintDb tamed.

Section guarantees.
Context {TS TP TU TO TN TA TF W : Type} `{!Table TS Session, !TableLaws TS Session}
  `{!Table TP PendingAuth, !TableLaws TP PendingAuth} `{!Table TU PortalUser, !TableLaws TU PortalUser}
  `{!TableTx TU PortalUser, !TableTxLaws TU PortalUser} `{!Table TO PortalOrg, !TableLaws TO PortalOrg}
  `{!Table TN PortalNumber, !TableLaws TN PortalNumber} `{!Relation TA UserNumber, !RelationLaws TA UserNumber}
  `{!Table TF InboundFax, !TableLaws TF InboundFax} `{!Upstream W, !UpstreamLaws W} `{Crypto}.
Variable order : list string -> list string.
Variable Box : string.
#[local] Notation View := (View (W := W)).
#[local] Notation AM := (AM (TS := TS) (TP := TP) (TU := TU) (TO := TO) (TN := TN) (TA := TA) (TF := TF) (W := W)).
#[local] Notation AdminState := (AdminState (TS := TS) (TP := TP) (TU := TU) (TO := TO) (TN := TN) (TA := TA) (TF := TF) (W := W)).
#[local] Existing Instances am_ret am_bind.
#[local] Notation serve := (serve order Box).
#[local] Notation mirror := (mirror order).
Implicit Types (v : View) (env : AdminEnv) (st : AdminState) (r : request).

(** ** Numbers *)

Lemma awp_collect_calm {A B} (f : A -> AM B) l : (forall a v, up_ok (vw_up v) -> awp true (f a) (fun o v' => (exists b, o = Answer b) /\ calm v v') v) ->
  forall v, up_ok (vw_up v) -> awp true (collect_results f l) (fun o v' => (exists bs, o = Answer bs) /\ calm v v') v.
Proof.
  intros Hf. induction l as [|a l IH]; intros v Hok; cbn [collect_results]; [apply awp_ret; eauto using calm_refl|].
  apply awp_bind. eapply awp_mono; [|by apply Hf]. intros ? v1 [[b ->] H1]. apply awp_bind.
  eapply awp_mono; [|apply IH; exact (calm_ok _ _ H1)]. intros ? v2 [[bs ->] H2]. apply awp_ret. split; [eauto|by eapply calm_trans].
Qed.

Lemma adminReconcileOrg_keeps enum id : keeps_mirror order (adminReconcileOrg order Box enum id : AM Report).
Proof.
  intros v Hm. unfold adminReconcileOrg. apply awp_bind, awp_first_org.
  destruct (head _) as [org|] eqn:Ho; [|by apply awp_bind, awp_reject; right]. apply awp_bind, awp_ret.
  pose proof (mirror_up_ok order v Hm) as Hok.
  apply awp_bind, awp_spare; [apply tenants_listed|done|]. intros v1 H1.
  apply awp_bind, awp_fx_or; [intros lt _|intros; by apply (settled_calm order _ v)].
  apply awp_bind, awp_spare; [apply numbers_listed|exact (calm_ok _ _ H1)|]. intros v2 H2.
  assert (calm v v2) as Hc2 by by eapply calm_trans.
  apply awp_bind, awp_fx_or; [intros ln _|intros; by apply (settled_calm order _ v)].
  apply awp_bind, awp_spare; [apply users_listed|exact (calm_ok _ _ Hc2)|]. intros v3 H3.
  assert (calm v v3) as Hc3 by by eapply calm_trans.
  apply awp_bind, awp_fx_or; [intros lu _|intros; by apply (settled_calm order _ v)]. cbv zeta. apply awp_bind.
  assert (awp true (if existsb (fun u => (tp_Username u =? po_SvcUsername org)%string) lu then svc_auth Box org else mret false : AM bool)
    (fun o v' => (exists b, o = Answer b) /\ calm v v') v3) as Hauth.
  { destruct (existsb _ lu); [|apply awp_ret; eauto]. unfold svc_auth. destruct (OpenString _ _) as [pass|]; [|apply awp_ret; eauto].
    apply awp_bind, awp_spare; [apply user_authenticated|exact (calm_ok _ _ Hc3)|]. intros v4 H4. apply awp_ret.
    split; [eauto|by eapply calm_trans]. }
  eapply awp_mono; [|exact Hauth]. intros ? v4 [[b ->] Hc4]. apply awp_bind, awp_org_numbers, awp_bind.
  eapply awp_mono; [|apply awp_collect_calm; [|exact (calm_ok _ _ Hc4)]].
  - intros ? v5 [[bs ->] H5]. apply awp_ret. right. apply (calm_mirror order v); [by eapply calm_trans|done].
  - intros e v5 Hok5. unfold compare_one. destruct (_ !! _) as [num|]; [|apply awp_ret; eauto using calm_refl].
    apply awp_bind. unfold field_drift. apply awp_bind, awp_notify_of; [done|]. apply awp_ret, awp_ret. eauto using calm_refl.
Qed.

Definition is_delete_number (r : request) : bool := match r with DeleteNumber _ => true | _ => false end.

(** Of the portal's numbers, the request changes at gofaxserver only what it
    keeps in the portal. *)
Definition spares_managed (r : request) v : Prop := match r with Direct d => hands_off d v | _ => True end.

Lemma serve_direct_keeps env d st : healthy st -> mirror (view st) -> hands_off d (view st) ->
  healthy (serve env (Direct d) st).2 /\ mirror (view (serve env (Direct d) st).2).
Proof.
  intros Hh Hm Hd.
  assert (forall {A} (m : AM A), stays order m (view st) -> healthy (run m st).2 /\ mirror (view (run m st).2)) as Hrun.
  { intros A m Hk. destruct (awp_run true m _ st Hk (fun _ => Hh)) as [H1 H2]. split; [by apply H1|exact H2]. }
  destruct d; apply Hrun; auto using stays_DirectTenant, stays_UpdateDirectTenant, stays_DeleteDirectTenant, stays_DirectUser,
    stays_UpdateDirectUser, stays_DeleteDirectUser, stays_DirectNumber, stays_UpdateDirectNumber, stays_DeleteDirectNumber.
Qed.

(** One request against healthy tables. *)
Lemma serve_keeps env r st : steady env -> healthy st -> mirror (view st) -> spares_managed r (view st) ->
  healthy (serve env r st).2 /\
  ((serve env r st).1 = 502 /\ (is_delete_number r = false -> sound (view (serve env r st).2)) \/ mirror (view (serve env r st).2)).
Proof.
  intros He Hh Hm Hr.
  assert (forall {A} (m : AM A) Q, awp true m Q (view st) -> healthy (run m st).2 /\ Q (m st).1 (view (run m st).2)) as Hawp.
  { intros A m Q Hk. destruct (awp_run true m Q st Hk (fun _ => Hh)) as [H1 H2]. split; [by apply H1|exact H2]. }
  assert (forall {A} (m : AM A), keeps_mirror order m -> healthy (run m st).2 /\
    ((run m st).1 = 502 /\ (is_delete_number r = false -> sound (view (run m st).2)) \/ mirror (view (run m st).2))) as Hrun.
  { intros A m Hk. destruct (Hawp A m _ (Hk _ Hm)) as [Hh' [[H1 H2]|H1]]; [by split; [|left]|by split; [|right]]. }
  destruct r; try (apply Hrun; first [by apply adminCreateOrg_keeps|by apply adminUpdateOrg_keeps|by apply adminDeleteOrg_keeps|by apply adminRotateSvcCredentials_keeps
    |by apply adminResyncOrgNotify_keeps|by apply adminReconcileOrg_keeps|by apply adminCreateNumber_keeps|by apply adminUpdateNumber_keeps
    |by apply adminSetAssignments_keeps|by apply adminCreateUser_keeps|by apply adminUpdateUser_keeps
    |by apply adminResetPassword_keeps|by apply adminResetUserTOTP_keeps|by apply adminDeleteUser_keeps]; fail).
  match goal with |- context [serve env (DeleteNumber ?i) st] =>
    destruct (Hawp _ (adminDeleteNumber i : AM ()) (fun a v' => status a = 502 \/ mirror v')) as [Hh' [H1|H1]] end.
  - by eapply adminDeleteNumber_keeps.
  - split; [exact Hh'|]. left. by split.
  - split; [exact Hh'|]. by right.
  - match goal with |- context [Direct ?d] => destruct (serve_direct_keeps env d st Hh Hm Hr) end. by split; [|right].
Qed.

(** Requests one after another, with transactions that begin and commit; direct
    requests keep off the portal's numbers; no answer is 502. *)
Inductive served : list (AdminEnv * request) -> AdminState -> AdminState -> Prop :=
| served_none st : served [] st st
| served_one env r rs st st' : steady env -> spares_managed r (view st) -> (serve env r st).1 <> 502 -> served rs (serve env r st).2 st' ->
    served ((env, r) :: rs) st st'.

Lemma served_keeps rs st st' : served rs st st' -> healthy st -> mirror (view st) -> healthy st' /\ mirror (view st').
Proof.
  induction 1 as [st|env r rs st st' He Hd Hr _ IH]; intros Hh Hm; [done|].
  destruct (serve_keeps env r st He Hh Hm Hd) as [Hh' [[? _]|Hm']]; [done|]. by apply IH.
Qed.

(** ** Failed requests *)

Lemma CreateNumber_spares req v :
  awp false (adminCreateNumber order req : AM PortalNumber) (fun _ v' => vw_users v' = vw_users v /\ vw_orgs v' = vw_orgs v /\
    vw_assigned v' = vw_assigned v) v.
Proof.
  unfold adminCreateNumber, open_inbound, provisionPortalEndpoint, count_number, notify_of.
  repeat astep; cbn; try (by destruct v).
Qed.

(** ** Sessions and received faxes *)

(** No session, no pending login and no fax is added. *)
Definition spared (st st' : AdminState) : Prop :=
  keeps (as_portal st) (as_portal st') /\ sublist (tbl_rows (as_faxes st')) (tbl_rows (as_faxes st)).
Definition tamed {A} (m : AM A) : Prop := forall st, spared st (m st).2.

#[local] Ltac spare := split; [split; simpl; eauto|done].

#[export] Instance spared_preorder : PreOrder spared.
Proof. split; [intros st; split; reflexivity|]. intros a b c [H1 Hab] [H2 Hbc]. split; by etrans. Qed.

Lemma tamed_bind {A B} (m : AM A) (f : A -> AM B) : tamed m -> (forall a, tamed (f a)) -> tamed (m ≫= f).
Proof.
  intros Hm Hf st. specialize (Hm st). unfold mbind, am_bind. destruct (m st) as [[a|c e] st']; simpl in *; [|done].
  etrans; [exact Hm|apply Hf].
Qed.
Lemma tamed_ret {A} (a : A) : tamed (mret a : AM A).
Proof. by intros st. Qed.
Lemma tamed_reject {A} c e : tamed (reject c e : AM A).
Proof. by intros st. Qed.
Lemma tamed_users {A} (f : TU -> A * TU) : tamed (with_users f : AM A).
Proof. intros st. unfold with_users. destruct (f _). spare. Qed.
Lemma tamed_orgs {A} (f : TO -> A * TO) : tamed (with_orgs f : AM A).
Proof. intros st. unfold with_orgs. destruct (f _). spare. Qed.
Lemma tamed_numbers {A} (f : TN -> A * TN) : tamed (with_numbers f : AM A).
Proof. intros st. unfold with_numbers. destruct (f _). spare. Qed.
Lemma tamed_assigned {A} (f : TA -> A * TA) : tamed (with_assigned f : AM A).
Proof. intros st. unfold with_assigned. destruct (f _). spare. Qed.
Lemma tamed_FX {A} (f : W -> A * W) : tamed (FX f : AM A).
Proof. intros st. unfold FX. destruct (f _). spare. Qed.
Lemma tamed_rows : tamed (assigned_rows : AM (list UserNumber)).
Proof. by intros st. Qed.
Lemma tamed_Begin env : tamed (Begin env : AM ()).
Proof. intros st. spare. Qed.
Lemma tamed_Rollback : tamed (Rollback : AM ()).
Proof. intros st. spare. Qed.
Lemma tamed_Commit env : tamed (Commit env : AM bool).
Proof. intros st. unfold Commit. destruct (_ && _); spare. Qed.
Lemma tamed_handle {A} hd (m : AM (option A)) : tamed m -> tamed (on_handle hd m).
Proof.
  intros Hm st. specialize (Hm st). unfold on_handle. destruct hd; [done|]. destruct (as_aborted st); [done|].
  destruct (m st) as [[[a|]|c e] st']; [exact Hm| |exact Hm]. etrans; [exact Hm|spare].
Qed.
Lemma tamed_drop oid : tamed (drop_assignments_of_org oid : AM bool).
Proof. intros st. exact (tamed_assigned _ st). Qed.

Lemma filter_sublist {B} (P : B -> bool) l : sublist (List.filter P l) l.
Proof. induction l as [|b l IH]; simpl; [done|]. destruct (P b); by constructor. Qed.
Lemma deleted_sublist {T R} `{TableLaws T R} P (t : T) : sublist (tbl_rows (tbl_delete P t).2) (tbl_rows t).
Proof.
  destruct (tbl_delete P t).1 eqn:E; [rewrite (delete_ok _ _ E); apply filter_sublist|by rewrite (delete_err _ _ E)].
Qed.
Lemma deleted_elem {T R} `{TableLaws T R} P (t : T) x : x ∈ tbl_rows (tbl_delete P t).2 -> x ∈ tbl_rows t.
Proof. intros Hx. eapply elem_of_sublist; [exact Hx|apply deleted_sublist]. Qed.

Lemma tamed_faxes P : tamed (with_faxes (tbl_delete P) : AM bool).
Proof.
  intros st. unfold with_faxes. pose proof (deleted_sublist P (as_faxes st)) as Hd. destruct (tbl_delete _ _) as [b t].
  split; [|exact Hd]. split; simpl; eauto.
Qed.
Lemma tamed_DestroySessions u : tamed (DestroySessions u : AM bool).
Proof.
  intros st. unfold DestroySessions, with_sessions. pose proof (fun s => deleted_elem (fun s => ss_UserID s =? u) (ps_sessions (as_portal st)) s) as Hd.
  destruct (tbl_delete _ _) as [b t]. split; [|done]. split; [|done]. unfold sess. simpl in *. eauto.
Qed.
Lemma tamed_pending P : tamed (with_pending (tbl_delete P) : AM bool).
Proof.
  intros st. unfold with_pending. pose proof (fun s => deleted_elem P (ps_pending (as_portal st)) s) as Hd.
  destruct (tbl_delete _ _) as [b t]. split; [|done]. split; [unfold sess; simpl; eauto|done].
Qed.
#[local] Hint Resolve tamed_ret tamed_reject tamed_users tamed_orgs tamed_numbers tamed_assigned tamed_faxes tamed_FX tamed_rows
  tamed_Begin tamed_Rollback tamed_Commit tamed_drop tamed_DestroySessions tamed_pending : tamed.

#[local] Ltac tame :=
  repeat (intros; unfold ensure, some_or, ok_or, fx_or; lazymatch goal with
  | |- tamed (_ ≫= _) => apply tamed_bind
  | |- tamed (on_handle _ _) => apply tamed_handle
  | |- tamed (match ?x with _ => _ end) => destruct x
  | |- _ => solve [auto with tamed]
  end).

Lemma tamed_each {A} (f : A -> AM ()) l : (forall a, tamed (f a)) -> tamed (each f l).
Proof. intros Hf. induction l; cbn [each]; tame. Qed.
Lemma tamed_collect {A B} (f : A -> AM B) l : (forall a, tamed (f a)) -> tamed (collect_results f l).
Proof. intros Hf. induction l; cbn [collect_results]; tame. Qed.
Lemma tamed_notify_of hd n svc custom : tamed (notify_of order hd n svc custom : AM string).
Proof. unfold notify_of. tame. Qed.
Lemma tamed_loadNumber id : tamed (loadNumber id : AM (res (PortalNumber * PortalOrg))).
Proof. unfold loadNumber. tame. Qed.
#[local] Hint Resolve tamed_each tamed_collect tamed_notify_of tamed_loadNumber : tamed.
Lemma tamed_resync hd ids : tamed (resyncNotifyForNumberIDs order hd ids : AM (list string)).
Proof. induction ids; cbn [resyncNotifyForNumberIDs]; unfold resync_one; tame. Qed.
Lemma tamed_provision num org : tamed (provisionPortalEndpoint num org : AM (fx PortalNumber)).
Proof. unfold provisionPortalEndpoint. tame. Qed.
Lemma tamed_deprovision num : tamed (deprovisionPortalEndpoint num : AM PortalNumber).
Proof. unfold deprovisionPortalEndpoint, delete_portal_endpoints. tame. apply tamed_each. tame. Qed.
Lemma tamed_valid_users orgID ids : tamed (valid_users orgID ids : AM (list Z)).
Proof. induction ids; cbn [valid_users]; tame. Qed.
Lemma tamed_store n ids : tamed (store_assignments n ids : AM bool).
Proof. induction ids; cbn [store_assignments]; tame. Qed.
#[local] Hint Resolve tamed_resync tamed_provision tamed_deprovision tamed_valid_users tamed_store : tamed.

Lemma tamed_purge org : tamed (purge_org org : AM ()).
Proof. unfold purge_org, org_numbers. tame; apply tamed_each; unfold drop_number, retire_user; tame. Qed.
Lemma tamed_save_and_resync env u : tamed (save_and_resync order env u : AM ()).
Proof. unfold save_and_resync, resyncUserNotify, number_ids. tame. Qed.
Lemma tamed_reconcile enum id : tamed (adminReconcileOrg order Box enum id : AM Report).
Proof.
  unfold adminReconcileOrg, svc_auth, org_numbers. tame. apply tamed_collect. unfold compare_one, field_drift. tame.
Qed.
Lemma tamed_resync_org id : tamed (adminResyncOrgNotify order id : AM (list ResyncResult)).
Proof. unfold adminResyncOrgNotify, org_numbers. tame. apply tamed_collect. unfold resync_number. tame. Qed.
#[local] Hint Resolve tamed_purge tamed_save_and_resync tamed_reconcile tamed_resync_org : tamed.

Lemma serve_tamed env r st : spared st (serve env r st).2.
Proof.
  assert (forall {A} (m : AM A), tamed m -> spared st (run m st).2) as Hrun by (intros A m Hm; apply Hm).
  destruct r as [| | | | | | | | | | | | | | |[]]; apply Hrun;
    unfold adminCreateDirectTenant, adminUpdateDirectTenant, adminDeleteDirectTenant, adminCreateDirectTenantUser,
      adminUpdateDirectTenantUser, adminDeleteDirectTenantUser, adminCreateDirectNumber, adminUpdateDirectNumber, adminDeleteDirectNumber,
      adminCreateOrg, adminUpdateOrg, push_org, live_notify, adminDeleteOrg, adminRotateSvcCredentials, rotate_upstream,
      adminCreateNumber, open_inbound, count_number, adminUpdateNumber, switch_inbound, adminDeleteNumber, adminSetAssignments,
      adminCreateUser, adminUpdateUser, adminResetPassword, adminResetUserTOTP, adminDeleteUser, number_ids; tame.
Qed.

(** Whatever an administrator asks for, and whatever fails on the way, no
    session and no pending login is opened: for the portal's logins the request
    is one of the steps by other parts that their guarantees allow for. *)
Theorem administration_opens_nothing CheckPassword cfg env r st `{OTP} :
  step CheckPassword cfg (as_portal st) EvAccounts (as_portal (serve env r st).2).
Proof. apply StepAccounts, (serve_tamed env r st). Qed.
End guarantees.

#[export] Hint Resolve tamed_ret tamed_reject tamed_users tamed_orgs tamed_numbers tamed_assigned tamed_faxes tamed_FX tamed_rows
  tamed_handle tamed_notify_of : tamed.

(** Follows a handler to its statements. *)
Ltac tame :=
  repeat (intros; unfold ensure, some_or, ok_or, fx_or; lazymatch goal with
  | |- tamed (_ ≫= _) => apply tamed_bind
  | |- tamed (on_handle _ _) => apply tamed_handle
  | |- tamed (match ?x with _ => _ end) => destruct x
  | |- _ => solve [auto with tamed]
  end).
