(* ===== verification/PortalDemo.v ===== *)
(** * PortalDemo: one portal and one gofaxserver

    Concrete tables, keys and requests on which the guarantees of the portal's
    administration are tried out. *)

From S2P Require Import Prelude Store FaxJob Secrets Directory GatewayTemplates Gateways PortalModels PortalNotify PortalAuth PortalSessions TenantUsers WebAdmin WebAdminFacts PortalUpstream PortalAdmin PortalLogic PortalMirror PortalAdminFacts PortalClient PortalDirect PortalAdminSpec PortalGuarantees.

#[export] Existing Instance demo_cipher.

Module Office.

#[export] Existing Instance Demo.demo_crypto.
#[export] Existing Instance Demo.demo_crypto_laws.

Definition World : Type := World (TT := ListTable Tenant) (TN := ListTable TenantNumber) (TE := ListTable Endpoint)
  (TG := ListTable GatewayTemplate) (TC := ListTable GatewayConfig) (TX := ListTable TenantUser).

Definition no_ip (_ : string) : bool := false.
Definition no_dns (_ : string) : option (list string) := None.

#[export] Instance office_upstream : Upstream World := gofax_upstream no_ip no_dns "psk" "k3y" "k3y".

Definition Office : Type := AdminState (TS := ListTable Session) (TP := ListTable PendingAuth) (TU := ListTable PortalUser)
  (TO := ListTable PortalOrg) (TN := ListTable PortalNumber) (TA := ListRel UserNumber) (TF := ListTable InboundFax) (W := World).

(** A fresh gofaxserver; [net]: what the network has in store. *)
Definition gofaxserver (net : list delivery) : World := {|
  w_server := {| gs_store := (empty_directory, {| tb_tenants := fresh_table [] 1 []; tb_numbers := fresh_table [] 1 [];
                   tb_endpoints := fresh_table [] 1 [] |});
                 gs_templates := fresh_table [] 1 []; gs_configs := fresh_table [] 1 []; gs_files := ∅; gs_api := [] |};
  w_users := fresh_table [] 1 []; w_ivs := [demo_iv; demo_iv; demo_iv]; w_jobs := []; w_intakes := []; w_net := net |}.

Definition limiter : RateLimit.RateLimiter := RateLimit.NewRateLimiter 60 0.

Definition office (net : list delivery) : Office := {|
  as_portal := {| ps_sessions := fresh_table [] 1 []; ps_pending := fresh_table [] 1 []; ps_users := fresh_table [] 1 [];
                  ps_orgs := fresh_table [] 1 []; ps_loginLimit := limiter |};
  as_numbers := fresh_table [] 1 []; as_assigned := {| lr_rows := []; lr_faults := [] |}; as_faxes := fresh_table [] 1 [];
  as_up := gofaxserver net; as_aborted := false; as_saved := (fresh_table [] 1 [], {| lr_rows := []; lr_faults := [] |}) |}.

Definition env : AdminEnv := {|
  ae_suffix := "x7"; ae_password := "Pw-1"; ae_apiKey := "api"; ae_nonce := Some "n";
  ae_bcrypt := fun pw => Some ("hash:" +:+ pw); ae_begin := true; ae_commit := true |}.

Definition as_is (l : list string) : list string := l.

Definition serve (r : request) (st : Office) : Z * Office := PortalAdminSpec.serve as_is "box" env r st.

Definition hire : list request := [
  CreateOrg (Some {| co_Name := "Acme" |});
  CreateNumber (Some {| cn_OrgID := 1; cn_Number := "250 555 0100"; cn_Name := "Main"; cn_Header := "ACME"; cn_InboundEnabled := None; cn_CustomNotify := "" |});
  CreateUser (Some {| cu_Username := "ann"; cu_Email := "ann@acme.test"; cu_Password := "secret"; cu_Role := "user"; cu_OrgID := Some 1; cu_EmailNotify := None |});
  SetAssignments 1 (Some [1])].

Fixpoint serve_all (rs : list request) (st : Office) : list Z * Office :=
  match rs with
  | [] => ([], st)
  | r :: rs' => let '(s, st1) := serve r st in let '(ss, st2) := serve_all rs' st1 in (s :: ss, st2)
  end.

Definition staffed : Office := (serve_all hire (office [])).2.

Example hire_ok : (serve_all hire (office [])).1 = [200; 200; 200; 200] /\
  map tn_Notify (up_numbers (as_up staffed)) = ["email_report->ann@acme.test,portal->svc_acme_x7"].
Proof. by vm_compute. Qed.

(** The network fails from here on as [net] says. *)
Definition over (net : list delivery) (st : Office) : Office := st <| as_up ::= fun w => w <| w_net := net |> |>.

(** ** Where it starts *)

#[export] Instance office_laws : UpstreamLaws World := gofax_upstream_laws no_ip no_dns "psk" "k3y" "k3y".

Fixpoint with_env (rs : list request) : list (AdminEnv * request) :=
  match rs with [] => [] | r :: rs' => (env, r) :: with_env rs' end.

Definition handed_on (r : request) : bool := match r with Direct _ => true | _ => false end.

Lemma serve_all_served rs : forallb (fun r => negb (handed_on r)) rs = true -> forall st : Office, Forall (fun s => s <> 502) (serve_all rs st).1 ->
  served as_is "box" (with_env rs) st (serve_all rs st).2.
Proof.
  induction rs as [|r rs IH]; intros Hrs st Hs; cbn [serve_all with_env] in *; [apply served_none|].
  cbn [forallb] in Hrs. apply andb_prop in Hrs as [Hr Hrs].
  unfold serve in *. destruct (PortalAdminSpec.serve as_is "box" env r st) as [s st1] eqn:E.
  specialize (IH Hrs st1). destruct (serve_all rs st1) as [ss st2]. simpl in *. apply Forall_cons in Hs as [H1 H2].
  apply served_one; rewrite ?E; [done|by destruct r|done|by apply IH].
Qed.

Lemma office_healthy net : healthy (office net).
Proof. by split. Qed.

Lemma office_mirror net : mirror as_is (view (office net)).
Proof.
  split; [split|]; try (intros ? ?%elem_of_nil; done); try (by constructor); [|intros ? ? ?%elem_of_nil; done].
  split; [|intros ? ?%elem_of_nil; done]. split; [constructor|]. split; [constructor|]. split; [intros ? ?%elem_of_nil; done|].
  intros k n. change ((∅ : gmap string TenantNumber) !! k = Some n <-> n ∈ [] /\ tn_Number n = k). rewrite lookup_empty.
  split; [done|by intros [?%elem_of_nil _]].
Qed.

Lemma hired : served as_is "box" (with_env hire) (office []) staffed.
Proof. apply serve_all_served; [reflexivity|]. vm_compute. repeat constructor; discriminate. Qed.

Lemma staffed_mirror : healthy staffed /\ mirror as_is (view staffed).
Proof. exact (served_keeps as_is "box" _ _ _ hired (office_healthy []) (office_mirror [])). Qed.

Lemma mirror_in_order (st : Office) : mirror as_is (view st) -> up_ok (as_up st).
Proof. exact (mirror_up_ok as_is (view st)). Qed.

(** The network is no part of it. *)
Lemma over_mirror net (st : Office) : healthy st /\ mirror as_is (view st) -> healthy (over net st) /\ mirror as_is (view (over net st)).
Proof. intros [[] Hm]. split; [by split|]. by apply (mirror_agree as_is (view st)); [..|exact (mirror_up_ok as_is (view st) Hm)| |]. Qed.

(** ** What the handlers do that they do not mean to do *)

Definition rename (name : string) (days : Z) : request :=
  UpdateOrg 1 (Some {| uo_Name := Some name; uo_Active := None; uo_TenantNotify := None; uo_TOTPRequired := None; uo_RetentionDays := Some days |}).

(** The retention is checked after the new name went upstream. *)
Example refused_rename_is_pushed :
  let '(s, st) := serve (rename "Globex" 9999) staffed in
  s = 400 /\ map po_Name (tbl_rows (ps_orgs (as_portal st))) = ["Acme"] /\
  match handleListTenants (gs_store (w_server (as_up st))).2 with Answer l => map te_Name l | Reject _ _ => [] end = ["Globex"].
Proof. by vm_compute. Qed.

Definition number_req (number : string) (inbound : option bool) : request :=
  CreateNumber (Some {| cn_OrgID := 1; cn_Number := number; cn_Name := "N"; cn_Header := "H"; cn_InboundEnabled := inbound; cn_CustomNotify := "" |}).

(** What is to be created without inbound faxes or without e-mails has them:
    the column's default replaces the zero value. *)
Example created_disabled_is_enabled :
  map pn_InboundEnabled (tbl_rows (as_numbers (serve (number_req "2505550101" (Some false)) staffed).2)) = [true; true] /\
  map pu_EmailNotify (tbl_rows (ps_users (as_portal (serve (CreateUser (Some {| cu_Username := "bob"; cu_Email := "bob@acme.test";
    cu_Password := "secret"; cu_Role := "user"; cu_OrgID := Some 1; cu_EmailNotify := Some false |})) staffed).2))) = [true; true].
Proof. by vm_compute. Qed.

(** A number with a plus sign cannot be deleted any more: the sign reaches the
    server as a blank. *)
Example plus_number_stays :
  let '(ss, st) := serve_all [number_req "+12505550102" None; DeleteNumber 2] staffed in
  ss = [200; 502] /\ map pn_Number (tbl_rows (as_numbers st)) = ["2505550100"; "+12505550102"].
Proof. by vm_compute. Qed.

Definition move (email : string) : request :=
  UpdateUser 1 (Some {| uu_Email := Some email; uu_Active := None; uu_EmailNotify := None |}).

(** Two numbers; the second push of a change fails: the user keeps the old
    address, the first number reports to the new one. *)
Example half_pushed_change :
  let '(ss, st) := serve_all [number_req "2505550101" None; SetAssignments 2 (Some [1])] staffed in
  let '(s, st') := serve (move "ann@new.test") (over [Delivered; LostRequest "timeout"] st) in
  ss = [200; 200] /\ s = 502 /\ map pu_Email (tbl_rows (ps_users (as_portal st'))) = ["ann@acme.test"] /\
  map tn_Notify (up_numbers (as_up st')) =
    ["email_report->ann@new.test,portal->svc_acme_x7"; "email_report->ann@acme.test,portal->svc_acme_x7"].
Proof. by vm_compute. Qed.

(** Resynchronising the organisation repairs it. *)
Example resync_repairs :
  let '(ss, st) := serve_all [number_req "2505550101" None; SetAssignments 2 (Some [1])] staffed in
  let '(_, st1) := serve (move "ann@new.test") (over [Delivered; LostRequest "timeout"] st) in
  let '(s, st2) := serve (ResyncOrg 1) st1 in
  s = 200 /\ map tn_Notify (up_numbers (as_up st2)) =
    ["email_report->ann@acme.test,portal->svc_acme_x7"; "email_report->ann@acme.test,portal->svc_acme_x7"].
Proof. by vm_compute. Qed.

(** A deletion whose reply is lost: gofaxserver no longer has the number, and so
    the portal can never delete it. *)
Example lost_deletion_sticks :
  let '(s, st) := serve (DeleteNumber 1) (over [Delivered; LostReply "timeout"] staffed) in
  let '(s', st') := serve (DeleteNumber 1) st in
  s = 502 /\ s' = 502 /\ up_numbers (as_up st') = [] /\ map pn_Number (tbl_rows (as_numbers st')) = ["2505550100"].
Proof. by vm_compute. Qed.

(** New credentials that cannot be stored: the service account has them, and
    the portal's stored password no longer authenticates. *)
Example rotated_but_not_stored :
  let st := staffed <| as_portal ::= fun p => p <| ps_orgs ::= fun t => fresh_table (lt_rows t) 9 [false; true] |> |> in
  let '(s, st') := PortalAdminSpec.serve as_is "box" (env <| ae_password := "Pw-2" |>) (RotateSvc 1) st in
  s = 500 /\ map (fun o => OpenString "box" (po_SvcPasswordEnc o)) (tbl_rows (ps_orgs (as_portal st'))) = [Some "Pw-1"] /\
  (fx_AuthenticateSvcAccount "svc_acme_x7" "Pw-1" (as_up st')).1 = FxErr (APIError 401 "Authentication failed: invalid password").
Proof. by vm_compute. Qed.

(** A new password leaves a login begun with the old one pending. *)
Example pending_login_survives :
  let p := {| pa_ID := 1; pa_TokenHash := "t"; pa_UserID := 1; pa_Purpose := "login"; pa_ExpiresAt := 600 |} in
  let st := staffed <| as_portal ::= fun q => q <| ps_pending := fresh_table [p] 2 [] |> |> in
  let '(s, st') := serve (ResetPassword 1 (Some "a new password")) st in
  s = 200 /\ tbl_rows (ps_pending (as_portal st')) = [p].
Proof. by vm_compute. Qed.

End Office.
