(* ===== verification/PortalAgreement.v ===== *)
(** * PortalAgreement: the portal and gofaxserver, end to end

    The portal's administration on top of the real server: what the portal's
    tables say of a number is what the server routes by. *)

From S2P Require Import Prelude Store FaxJob Secrets Directory GatewayTemplates Gateways PortalModels PortalNotify PortalAuth TenantUsers WebAdmin WebAdminFacts PortalUpstream PortalAdmin PortalLogic PortalMirror PortalAdminFacts PortalDirect PortalClient PortalAdminSpec PortalGuarantees PortalDemo.

(** ** Any gofaxserver that keeps the contract *)

Section requests.
Context {TS TP TU TO TN TA TF W : Type} `{!Table TS Session, !TableLaws TS Session}
  `{!Table TP PendingAuth, !TableLaws TP PendingAuth} `{!Table TU PortalUser, !TableLaws TU PortalUser}
  `{!TableTx TU PortalUser, !TableTxLaws TU PortalUser} `{!Table TO PortalOrg, !TableLaws TO PortalOrg}
  `{!Table TN PortalNumber, !TableLaws TN PortalNumber} `{!Relation TA UserNumber, !RelationLaws TA UserNumber}
  `{!Table TF InboundFax, !TableLaws TF InboundFax} `{!Upstream W, !UpstreamLaws W} `{Crypto}.
Variable order : list string -> list string.
Variable Box : string.
#[local] Notation View := (View (W := W)).
#[local] Notation AM := (AM (TS := TS) (TP := TP) (TU := TU) (TO := TO) (TN := TN) (TA := TA) (TF := TF) (W := W)).
#[local] Notation AdminState := (AdminState (TS := TS) (TP := TP) (TU := TU) (TO := TO) (TN := TN) (TA := TA) (TF := TF) (W := W)).
#[local] Existing Instances am_ret am_bind.
#[local] Notation serve := (serve order Box).
#[local] Notation mirror := (mirror order).
Implicit Types (v : View) (env : AdminEnv) (st : AdminState) (r : request).

(** C26: whatever statement or call fails on the way, a request that does not
    answer 200 leaves users, organisations and assignments as they were, and
    the numbers too, unless it was to create one. *)
Theorem failed_requests_change_nothing env r st : (serve env r st).1 <> 200 ->
  let st' := (serve env r st).2 in
  tbl_rows (ps_users (as_portal st')) = tbl_rows (ps_users (as_portal st)) /\
  tbl_rows (ps_orgs (as_portal st')) = tbl_rows (ps_orgs (as_portal st)) /\
  rel_rows (as_assigned st') = rel_rows (as_assigned st) /\
  ((forall req, r <> CreateNumber req) -> tbl_rows (as_numbers st') = tbl_rows (as_numbers st)).
Proof.
  assert (forall {A} (m : AM A), harmless m -> (run m st).1 <> 200 -> unchanged (view st) (view (run m st).2)) as Hrun.
  { intros A m Hm Hs. destruct (awp_run false m _ st (Hm (view st))) as [_ Hq]; [discriminate|]. by apply Hq. }
  cbv zeta. intros Hs. assert ((exists req, r = CreateNumber req) \/ ~ exists req, r = CreateNumber req) as [[req ->]|Hne]
    by (destruct r; first [left; by eexists | right; by intros [? ?]]).
  { destruct (awp_run false _ _ st (CreateNumber_spares order req (view st))) as [_ (? & ? & ?)]; [discriminate|].
    split_and!; try done. intros Hr. by destruct (Hr req). }
  cut (unchanged (view st) (view (serve env r st).2)); [intros (? & ? & ? & ?); by split_and!|].
  destruct r as [| | | | | | | | | | | | | | |d]; try (revert Hs; apply Hrun; auto using harmless_CreateOrg, harmless_UpdateOrg, harmless_DeleteOrg, harmless_RotateSvc,
    harmless_ResyncOrg, harmless_ReconcileOrg, harmless_UpdateNumber, harmless_DeleteNumber, harmless_SetAssignments,
    harmless_CreateUser, harmless_UpdateUser, harmless_ResetPassword, harmless_ResetTOTP, harmless_DeleteUser).
  - destruct Hne. by eexists.
  - apply serve_direct_unchanged.
Qed.

(** C28: a push that fails is repaired. Start where the portal's tables answer
    and gofaxserver has the row they call for, for every number. However a
    request is then answered, its transaction beginning and committing, unless
    it is to delete a number or is handed on and reaches one of the portal's
    numbers: a resynchronisation of an organisation that follows and answers 200
    leaves gofaxserver with the row the tables call for, for every number of
    that organisation. *)
Theorem resync_repairs_failed_pushes env env' r id st : steady env -> healthy st -> mirror (view st) ->
  is_delete_number r = false -> spares_managed r (view st) ->
  let st1 := (serve env r st).2 in let st2 := (serve env' (ResyncOrg id) st1).2 in
  (serve env' (ResyncOrg id) st1).1 = 200 ->
  forall num, num ∈ tbl_rows (as_numbers st2) -> pn_OrgID num = id -> mirrored order (view st2) num.
Proof.
  intros He Hh Hm Hd Hr. cbv zeta. destruct (serve_keeps order Box env r st He Hh Hm Hr) as [Hh1 Hcase]. set (st1 := (serve env r st).2) in *.
  assert (sound (view st1)) as Hs1 by (destruct Hcase as [[_ Hs]|[Hs _]]; auto). intros Hok num Hn Ho.
  destruct (awp_run true _ _ st1 (adminResyncOrgNotify_spec order id (view st1) Hs1) (fun _ => Hh1)) as [_ [[H4 _]|[_ [(_ & _ & Hall) _]]]].
  - change (status (adminResyncOrgNotify order id st1).1 = 200) in Hok. congruence.
  - by apply Hall.
Qed.

End requests.

(** ** This gofaxserver *)

Section agreement.
Context {TT TN TE TG TC TX : Type} `{!Table TT Tenant, !TableLaws TT Tenant} `{!Table TN TenantNumber, !TableLaws TN TenantNumber}
  `{!Table TE Endpoint, !TableLaws TE Endpoint} `{!Table TG GatewayTemplate} `{!Table TC GatewayConfig}
  `{!Table TX TenantUser, !TableLaws TX TenantUser} `{BlockCipher}.
Context {PS PP PU PO PNum PA PF : Type} `{!Table PS Session, !TableLaws PS Session}
  `{!Table PP PendingAuth, !TableLaws PP PendingAuth} `{!Table PU PortalUser, !TableLaws PU PortalUser}
  `{!TableTx PU PortalUser, !TableTxLaws PU PortalUser} `{!Table PO PortalOrg, !TableLaws PO PortalOrg}
  `{!Table PNum PortalNumber, !TableLaws PNum PortalNumber} `{!Relation PA UserNumber, !RelationLaws PA UserNumber}
  `{!Table PF InboundFax, !TableLaws PF InboundFax} `{Crypto}.
Variable is_ip : string -> bool.
Variable lookup_ip : string -> option (list string).
Variable PSK APIKey AdminKey : string.
Variable order : list string -> list string.
Variable Box : string.
#[local] Notation World := (World (TT := TT) (TN := TN) (TE := TE) (TG := TG) (TC := TC) (TX := TX)).
#[local] Instance server : Upstream World := gofax_upstream is_ip lookup_ip PSK APIKey AdminKey.
#[local] Notation State := (AdminState (TS := PS) (TP := PP) (TU := PU) (TO := PO) (TN := PNum) (TA := PA) (TF := PF) (W := World)).
Implicit Types (st : State).

(** What the server has loaded for a number. *)
Definition loaded st (number : string) : option TenantNumber := d_TenantNumbers (gs_store (w_server (as_up st))).1 !! number.

(** C24: start where the portal's tables answer and gofaxserver has the row they
    call for, for every number (an empty portal is such a start). Then through
    any sequence of administrative requests over a network that loses requests
    and replies, while gofaxserver's own tables fail as they like, as long as no
    request is answered 502, transactions begin and commit, and requests that
    are handed on as they are ([PortalDirect]) neither change nor delete a
    number of the portal's nor rename another: for every number of the portal
    the running server has loaded, under that number, the row the portal's
    tables call for: its tenant, name and header, and the notify string computed
    from the users assigned now. *)
Theorem portal_and_server_agree rs st st' : served order Box rs st st' -> healthy st -> mirror order (view st) ->
  forall num, num ∈ tbl_rows (as_numbers st') -> exists org, org ∈ tbl_rows (ps_orgs (as_portal st')) /\ po_ID org = pn_OrgID num /\
    loaded st' (pn_Number num) = Some
      {| tn_ID := pn_GofaxNumberID num; tn_TenantID := po_GofaxTenantID org; tn_Number := pn_Number num; tn_Name := pn_Name num;
         tn_Header := pn_Header num;
         tn_Notify := computeNotify order (tbl_rows (ps_users (as_portal st'))) (rel_rows (as_assigned st')) (pn_ID num)
                        (po_SvcUsername org) (pn_CustomNotify num) |}.
Proof.
  intros Hserved Hh Hm num Hn.
  assert (UpstreamLaws World) as Hlaws by (exact (gofax_upstream_laws is_ip lookup_ip PSK APIKey AdminKey)).
  destruct (served_keeps order Box rs st st' Hserved Hh Hm) as [_ [Hs Hall]].
  destruct (Hall num Hn) as (org & Ho & Hin). apply head_filter_elem in Ho as [Ho Hi]. unfold has_id in Hi. apply Z.eqb_eq in Hi.
  exists org. split; [exact Ho|]. split; [exact Hi|]. destruct (so_up _ Hs) as [(_ & _ & _ & Hmap) _]. by apply Hmap.
Qed.

End agreement.

(** ** One office *)

Section witnesses.
Import Office.

Lemma portal_and_server_agree_witness :
  (exists num, num ∈ tbl_rows (as_numbers staffed)) /\
  forall num, num ∈ tbl_rows (as_numbers staffed) -> is_Some (loaded staffed (pn_Number num)).
Proof.
  split.
  { destruct (tbl_rows (as_numbers staffed)) as [|num l] eqn:E; [|exists num; left].
    assert (length (tbl_rows (as_numbers staffed)) = 1%nat) as Hl by (vm_compute; reflexivity). rewrite E in Hl. discriminate Hl. }
  intros num Hn.
  destruct (portal_and_server_agree no_ip no_dns "psk" "k3y" "k3y" as_is "box" (with_env hire) (office []) staffed) with (num := num)
    as (org & _ & _ & Hl).
  - exact hired.
  - apply office_healthy.
  - apply office_mirror.
  - exact Hn.
  - rewrite Hl. apply mk_is_Some with (1 := eq_refl).
Defined.

(** A rename that is refused for its retention, and one that the database
    refuses. *)
Lemma failed_requests_change_nothing_witness :
  (serve (rename "Globex" 9999) staffed).1 = 400 /\
  map po_Name (tbl_rows (ps_orgs (as_portal (serve (rename "Globex" 9999) staffed).2))) = ["Acme"].
Proof.
  split; [vm_compute; reflexivity|].
  destruct (failed_requests_change_nothing as_is "box" env (rename "Globex" 9999) staffed) as (_ & Ho & _); [vm_compute; discriminate|].
  refine (eq_trans (f_equal (map po_Name) Ho) _). vm_compute. reflexivity.
Defined.

(** Two numbers report to the user; the change of address reaches the first. *)
Definition expand : list request := hire ++ [number_req "2505550101" None; SetAssignments 2 (Some [1])].
Definition grown : Office := (serve_all expand (office [])).2.
Definition shaky : Office := over [Delivered; LostRequest "timeout"] grown.

Lemma shaky_mirror : healthy shaky /\ mirror as_is (view shaky).
Proof.
  apply over_mirror. apply (served_keeps as_is "box" (with_env expand) (office []) grown).
  - apply serve_all_served; [reflexivity|]. vm_compute. repeat constructor; discriminate.
  - apply office_healthy.
  - apply office_mirror.
Qed.

Lemma resync_repairs_failed_pushes_witness :
  (serve (move "ann@new.test") shaky).1 = 502 /\
  forall num, num ∈ tbl_rows (as_numbers (serve (ResyncOrg 1) (serve (move "ann@new.test") shaky).2).2) -> pn_OrgID num = 1 ->
    mirrored as_is (view (serve (ResyncOrg 1) (serve (move "ann@new.test") shaky).2).2) num.
Proof.
  split; [vm_compute; reflexivity|].
  apply (resync_repairs_failed_pushes as_is "box" env env (move "ann@new.test") 1 shaky); [by split|apply shaky_mirror|apply shaky_mirror|reflexivity|exact I|].
  vm_compute. reflexivity.
Defined.

(** The numbers cannot be listed: the resynchronisation answers 200 and has
    pushed nothing. *)
Example unread_resync_repairs_nothing :
  let broken := (serve (move "ann@new.test") shaky).2 in
  let '(s, st) := serve (ResyncOrg 1) (broken <| as_numbers ::= fun t => fresh_table (lt_rows t) (lt_next t) [true] |>) in
  (s, map tn_Notify (up_numbers (as_up st))) = (200, map tn_Notify (up_numbers (as_up broken))) /\
  map tn_Notify (up_numbers (as_up (serve (ResyncOrg 1) broken).2)) <> map tn_Notify (up_numbers (as_up broken)).
Proof. vm_compute. split; [reflexivity|discriminate]. Qed.

(** A request that is handed on does not ask whose number it changes: both
    answer 200, and the server no longer routes the portal's number as the
    portal says. *)
Definition quiet_down : request := Direct (UpdateDirectNumber 1 (Some
  {| dm_TenantID := 1; dm_Number := "2505550100"; dm_Name := "Main"; dm_Header := "ACME"; dm_Notify := "" |})).

Example direct_requests_break_agreement :
  (serve quiet_down staffed).1 = 200 /\
  (tn_Notify <$> loaded (serve quiet_down staffed).2 "2505550100") = Some "" /\
  (serve (Direct (DeleteDirectNumber 1 "2505550100" true)) staffed).1 = 200 /\
  loaded (serve (Direct (DeleteDirectNumber 1 "2505550100" true)) staffed).2 "2505550100" = None.
Proof. by vm_compute. Qed.

(** Deleting the tenant of a portal number directly leaves the number's row. *)
Example direct_tenant_deletion :
  (serve (Direct (DeleteDirectTenant 1 true)) staffed).1 = 200 /\
  loaded (serve (Direct (DeleteDirectTenant 1 true)) staffed).2 "2505550100" = loaded staffed "2505550100".
Proof. by vm_compute. Qed.
End witnesses.
