(* ===== verification/PortalRevocation.v ===== *)
(** * PortalRevocation: rights that are withdrawn are withdrawn at once

    Sessions outlive the request that opened them; the requests that change a
    password, reset a second factor, or deactivate, delete or purge a user must
    close them. *)

From S2P Require Import Prelude Store FaxJob Directory PortalModels PortalNotify RateLimit PortalAuth PortalSessions TenantUsers WebAdmin PortalUpstream PortalAdmin PortalLogic PortalMirror PortalAdminFacts PortalClient PortalAdminSpec PortalDemo.

Section revocation.
Context {TS TP TU TO TN TA TF W : Type} `{!Table TS Session, !TableLaws TS Session}
  `{!Table TP PendingAuth, !TableLaws TP PendingAuth} `{!Table TU PortalUser, !TableLaws TU PortalUser}
  `{!TableTx TU PortalUser, !TableTxLaws TU PortalUser} `{!Table TO PortalOrg, !TableLaws TO PortalOrg}
  `{!Table TN PortalNumber, !TableLaws TN PortalNumber} `{!Relation TA UserNumber, !RelationLaws TA UserNumber}
  `{!Table TF InboundFax, !TableLaws TF InboundFax} `{!Upstream W} `{Crypto}.
Variable order : list string -> list string.
Variable Box : string.
#[local] Notation View := (View (W := W)).
#[local] Notation AM := (AM (TS := TS) (TP := TP) (TU := TU) (TO := TO) (TN := TN) (TA := TA) (TF := TF) (W := W)).
#[local] Notation AdminState := (AdminState (TS := TS) (TP := TP) (TU := TU) (TO := TO) (TN := TN) (TA := TA) (TF := TF) (W := W)).
#[local] Existing Instances am_ret am_bind.
Implicit Types (v : View) (env : AdminEnv) (st : AdminState).

(** No session of [uid] finds an active user. *)
Definition shut (uid : Z) v : Prop :=
  forall s u, s ∈ vw_sess v -> u ∈ vw_users v -> pu_ID u = uid -> ss_UserID s = uid -> pu_Active u = false.

Lemma shut_lookup uid st now token s u :
  shut uid (view st) -> (Lookup now token (as_portal st)).1 = Next (Some (s, u)) -> pu_ID u <> uid.
Proof.
  intros Hs Hl Heq. destruct (Lookup_only now token (as_portal st)) as (_ & o & Ho & Hlive). rewrite Hl in Ho. injection Ho as <-.
  destruct (Hlive s u eq_refl) as (s0 & (_ & Hin & _ & _ & Hu & Hid & Ha) & _).
  rewrite (Hs s0 u) in Ha; [done|exact Hin|exact Hu|exact Heq|congruence].
Qed.

Definition shuts {A} (uid : Z) (m : AM A) : Prop := forall v, awp true m (fun r v' => status r = 200 -> shut uid v') v.

Lemma shut_sessions uid v : (forall s, s ∈ vw_sess v -> ss_UserID s <> uid) -> shut uid v.
Proof. intros Hl s u Hs _ _ Hid. by destruct (Hl s Hs). Qed.

Lemma shut_users uid v : (forall u, u ∈ vw_users v -> pu_ID u = uid -> pu_Active u = false) -> shut uid v.
Proof. intros Hu s u _ Hin Hid _. by apply Hu. Qed.

Lemma shut_agree uid v v' : vw_sess v' = vw_sess v -> vw_users v' = vw_users v -> shut uid v -> shut uid v'.
Proof. unfold shut. by intros -> ->. Qed.

(** A row saved over its id. *)
Lemma saved_inactive u' us x : x ∈ replace_row u' us -> pu_ID x = pu_ID u' -> pu_Active u' = false -> pu_Active x = false.
Proof.
  intros Hx Hid Ha. unfold replace_row in Hx. destruct (existsb _ us) eqn:Ex.
  - apply list_elem_of_In, in_map_iff in Hx as (y & Hy & _). destruct (get_id y =? get_id u') eqn:E; [congruence|].
    subst y. apply Z.eqb_neq in E. by destruct E.
  - apply elem_of_app in Hx as [Hx| ->%list_elem_of_singleton]; [|done]. apply not_true_iff_false in Ex. destruct Ex.
    apply existsb_exists. exists x. split; [by apply list_elem_of_In|]. by apply Z.eqb_eq.
Qed.

Lemma found_user id v u : head (List.filter (has_id id) (vw_users v)) = Some u -> pu_ID u = id.
Proof. intros [_ Hi]%head_filter_elem. by apply Z.eqb_eq. Qed.

Lemma ResetPassword_shuts env id req : shuts id (adminResetPassword env id req : AM ()).
Proof.
  intros v. unfold adminResetPassword. apply awp_bind, awp_first_user. destruct (head _) as [u|] eqn:Hu; [|by apply awp_bind, awp_reject].
  apply found_user in Hu as <-. apply awp_bind, awp_ret. repeat astep; try done. apply awp_DestroySessions. intros l Hl. apply awp_ret. intros _.
  apply shut_sessions. intros s Hs. by apply Hl.
Qed.

Lemma ResetTOTP_shuts id v : (forall u, u ∈ vw_users v -> pu_ID u = id -> pu_TOTPEnabled u || negb (pu_TOTPSecretEnc u =? "")%string = true) ->
  awp true (adminResetUserTOTP id : AM ()) (fun r v' => status r = 200 -> shut id v' /\ forall p, p ∈ vw_pend v' -> pa_UserID p <> id) v.
Proof.
  intros He. unfold adminResetUserTOTP. apply awp_bind, awp_first_user. destruct (head _) as [u|] eqn:Hu; [|by apply awp_bind, awp_reject].
  pose proof (proj1 (head_filter_elem _ _ _ Hu)) as Hin. apply found_user in Hu as <-. apply awp_bind, awp_ret.
  specialize (He u Hin eq_refl). destruct (negb (pu_TOTPEnabled u) && _) eqn:E.
  { destruct (pu_TOTPEnabled u), (pu_TOTPSecretEnc u =? "")%string; discriminate. }
  repeat astep; try done. apply awp_DestroySessions. intros l Hl. apply awp_bind, awp_pending, effect_delete; [|done].
  apply awp_ret. intros _. split; [apply shut_sessions; intros s Hs; by apply Hl|].
  intros p Hp. apply list_elem_of_In, filter_In in Hp as [_ Hp]. by reflect_bools.
Qed.

Lemma sure_number_ids hd u : sure (number_ids hd u : AM (list Z)).
Proof. unfold number_ids. apply sure_bind; [apply sure_handle, sure_assigned|intros; apply sure_ret]. Qed.
#[local] Hint Resolve sure_number_ids : sure.

Lemma DeleteUser_shuts env actor id : shuts id (adminDeleteUser order env actor id : AM ()).
Proof.
  intros v. unfold adminDeleteUser. apply awp_bind, awp_ensure; intros _; [|done].
  apply awp_bind, awp_first_user. destruct (head _) as [u|] eqn:Hu; [|by apply awp_bind, awp_reject].
  apply found_user in Hu as <-. apply awp_bind, awp_ret. apply awp_bind, awp_quiet_sure; [auto with quiet|auto with sure|]. intros ids v1 H1 _.
  repeat astep; try done.
  all: try (apply awp_quiet_sure; [auto with quiet|auto with sure|]; intros fs v2 H2 _; destruct fs as [|? ?]; repeat astep; try done).
  all: apply awp_DestroySessions; intros l Hl; apply awp_ret; intros _; apply shut_sessions; intros s Hs; by apply Hl.
Qed.

Lemma save_and_resync_users env u v :
  awp true (save_and_resync order env u : AM ()) (fun r v' => status r = 200 -> vw_users v' = replace_row u (vw_users v)) v.
Proof.
  unfold save_and_resync. repeat astep; cbn; try done.
  all: apply awp_quiet_sure; [auto with quiet|auto with sure|]; intros fs v2 H2 _; destruct fs; repeat astep; try done.
  all: intros _; cbn; unfold unchanged in H2; cbn in H2; apply H2.
Qed.

Lemma UpdateUser_shuts env id r : uu_Active r = Some false -> shuts id (adminUpdateUser order env id (Some r) : AM PortalUser).
Proof.
  intros Hr v. unfold adminUpdateUser. apply awp_bind, awp_first_user. destruct (head _) as [u|] eqn:Hu; [|by apply awp_bind, awp_reject].
  apply found_user in Hu as <-. apply awp_bind, awp_ret. apply awp_bind, awp_ret. cbv zeta.
  assert (forall v', vw_users v' = replace_row (edited r u) (vw_users v) -> shut (pu_ID u) v') as Hend.
  { intros v' Hv'. apply shut_users. intros x Hx Hid. rewrite Hv' in Hx. eapply saved_inactive; [exact Hx|exact Hid|].
    unfold edited. cbn. by rewrite Hr. }
  apply awp_bind. eapply (awp_mono _ _ (fun r v' => (exists a, r = Answer a) /\ vw_users v' = vw_users v)).
  2: { destruct (_ && _); [apply awp_bind, awp_DestroySessions; intros l _|]; apply awp_ret; eauto. }
  intros ? v1 [[[] ->] H1]. apply awp_bind. destruct (_ && _).
  - eapply awp_mono; [|apply save_and_resync_users]. intros [[]|c e] v2 H2; [apply awp_ret|]; intros Hs; apply Hend; rewrite <- H1; by apply H2.
  - repeat astep; try done. intros _. apply Hend. cbn. by rewrite H1.
Qed.

(** *** Purging an organisation *)

Definition retired v v' : Prop := forall uid, shut uid v -> shut uid v'.

Lemma retire_user_shuts u v : awp true (retire_user u : AM ()) (fun r v' => r = Answer () /\ shut (pu_ID u) v' /\ retired v v' /\
  forall x, x ∈ vw_users v' -> exists y, y ∈ vw_users v /\ pu_ID y = pu_ID x /\ pu_OrgID y = pu_OrgID x) v.
Proof.
  unfold retire_user. apply awp_bind, awp_DestroySessions. intros l Hl. apply awp_bind, awp_users, effect_update; [|done]. apply awp_ret.
  split; [done|]. assert (forall x, x ∈ map (fun y => if has_id (pu_ID u) y then y <| pu_Active := false |> else y) (vw_users v) ->
    exists y, y ∈ vw_users v /\ pu_ID y = pu_ID x /\ pu_OrgID y = pu_OrgID x /\ (pu_Active y = false -> pu_Active x = false)) as Hx.
  { intros x Hx. apply list_elem_of_In, in_map_iff in Hx as (y & <- & Hy). exists y. apply list_elem_of_In in Hy. by destruct (has_id _ y). }
  split_and!.
  - apply shut_sessions. intros s Hs. by apply Hl.
  - intros uid Hs s x Hin Hu Hid Hsid. destruct (Hx x Hu) as (y & Hy & Hyid & _ & Hact). apply Hact.
    apply (Hs s y); [by apply Hl|done|congruence|done].
  - intros x Hin. destruct (Hx x Hin) as (y & ? & ? & ? & _). eauto.
Qed.

Lemma retire_all_shut l : forall v, awp true (each retire_user l : AM ()) (fun r v' => r = Answer () /\ retired v v' /\
  (forall u, u ∈ l -> shut (pu_ID u) v') /\
  forall x, x ∈ vw_users v' -> exists y, y ∈ vw_users v /\ pu_ID y = pu_ID x /\ pu_OrgID y = pu_OrgID x) v.
Proof.
  induction l as [|u l IH]; intros v; cbn [each].
  { apply awp_ret. split_and!; [done|by intros ?|by intros ? ?%elem_of_nil|eauto]. }
  apply awp_bind. eapply awp_mono; [|apply retire_user_shuts]. intros ? v1 (-> & Hs & Hr & Hu).
  eapply awp_mono; [|apply IH]. intros ? v2 (-> & Hr2 & Hs2 & Hu2). split_and!; [done|by intros ? ?; apply Hr2, Hr| |].
  - intros x [->|Hx]%elem_of_cons; [by apply Hr2|by apply Hs2].
  - intros x Hx. destruct (Hu2 x Hx) as (y & Hy & E1 & E2). destruct (Hu y Hy) as (z & ? & ? & ?). exists z. split; [done|]. split; congruence.
Qed.

Lemma quiet_drop_number org num : quiet (drop_number org num : AM ()).
Proof.
  unfold drop_number. apply quiet_seq; [auto with quiet|]. intros _. apply quiet_seq; [auto with quiet|]. intros _. auto with quiet.
Qed.

Lemma awp_drop_rows (Q : answer bool -> View -> Prop) oid v :
  (forall l, Q (Answer true) (v <| vw_assigned := l |>)) -> awp true (drop_assignments_of_org oid : AM bool) Q v.
Proof.
  intros HQ st Hh Hv. unfold drop_assignments_of_org. by apply (awp_assigned_delete true _ Q v); [apply HQ| |..].
Qed.

Lemma purge_shuts org uid v : (exists u, u ∈ vw_users v /\ pu_ID u = uid /\ pu_OrgID u = Some (po_ID org)) ->
  awp true (purge_org org : AM ()) (fun _ v' => shut uid v') v.
Proof.
  intros (u & Hu & <- & Ho). unfold purge_org. apply awp_bind, awp_org_numbers, awp_bind.
  apply awp_quiet_sure; [apply quiet_each; intros; apply quiet_drop_number|auto with sure|]. intros _ v1 H1 _.
  apply awp_bind, awp_quiet_sure; [auto with quiet|apply sure_FX|]. intros _ v2 H2 _.
  apply awp_bind, awp_numbers, effect_delete; [|done]. apply awp_bind, awp_faxes, effect_delete; [|done].
  apply awp_bind, awp_drop_rows. intros asg. apply awp_bind, awp_users, effect_find; [|done]. apply awp_bind. cbn [default].
  eapply awp_mono; [|apply retire_all_shut]. intros ? v3 (-> & _ & Hs & _).
  apply awp_bind, awp_orgs, effect_delete; [|done]. apply awp_ret.
  eapply shut_agree; [| |apply (Hs u)]; [done..|]. apply list_elem_of_In, filter_In. split.
  - apply list_elem_of_In. cbn. destruct H1 as [H1 _], H2 as [H2 _]. congruence.
  - unfold of_org. rewrite Ho. apply Z.eqb_refl.
Qed.

Lemma DeleteOrg_shuts id uid v : (exists u, u ∈ vw_users v /\ pu_ID u = uid /\ pu_OrgID u = Some id) ->
  awp true (adminDeleteOrg id true : AM (option PortalOrg)) (fun r v' => status r = 200 -> shut uid v') v.
Proof.
  intros He. unfold adminDeleteOrg. apply awp_bind, awp_first_org. destruct (head _) as [org|] eqn:Ho; [|by apply awp_bind, awp_reject].
  apply awp_bind, awp_ret. apply head_filter_elem in Ho as [_ Ho]. apply Z.eqb_eq in Ho. change (po_ID org = id) in Ho. subst id. apply awp_bind.
  eapply awp_mono; [|by apply purge_shuts]. intros [[]|c e] v' Hv'; [by apply awp_ret|done].
Qed.

(** ** Whole requests *)

(** [r] takes away what [uid]'s sessions rest on. *)
Definition withdraws v (r : request) (uid : Z) : Prop :=
  match r with
  | ResetPassword id _ | DeleteUser _ id => uid = id
  | ResetTOTP id => uid = id /\ forall u, u ∈ vw_users v -> pu_ID u = id -> pu_TOTPEnabled u || negb (pu_TOTPSecretEnc u =? "")%string = true
  | UpdateUser id (Some req) => uid = id /\ uu_Active req = Some false
  | DeleteOrg id true => exists u, u ∈ vw_users v /\ pu_ID u = uid /\ pu_OrgID u = Some id
  | _ => False
  end.

(** C27: while the portal's tables answer, once a request answers 200 that sets
    a user's password, resets the second factor they had, deactivates or deletes
    them or purges their organisation, no session cookie identifies that user
    any more. (When the sessions cannot be deleted the request answers 200 all
    the same: [undeleted_sessions_live_on].) *)
Theorem withdrawn_rights_end_sessions env r st uid now token s u : healthy st -> withdraws (view st) r uid ->
  (serve order Box env r st).1 = 200 ->
  (Lookup now token (as_portal (serve order Box env r st).2)).1 = Next (Some (s, u)) -> pu_ID u <> uid.
Proof.
  intros Hh Hw Hs. apply shut_lookup. revert Hs.
  assert (forall {A} (m : AM A), awp true m (fun r v' => status r = 200 -> shut uid v') (view st) ->
    (run m st).1 = 200 -> shut uid (view (run m st).2)) as Hrun by (intros A m Hm; apply (awp_run true m _ st Hm (fun _ => Hh))).
  destruct r as [| |id []| | | | | | | | |id [req|]|id req|id|actor id|d]; try done; cbn [withdraws] in Hw; apply Hrun.
  - by apply DeleteOrg_shuts.
  - destruct Hw as [-> Hw]. by apply UpdateUser_shuts.
  - subst. apply ResetPassword_shuts.
  - destruct Hw as [-> Hw]. eapply awp_mono; [|by apply ResetTOTP_shuts]. intros ? v' H200 Hok. by apply H200.
  - subst. apply DeleteUser_shuts.
Qed.
End revocation.

(** ** Two users, each with a session *)

Section witnesses.
Import Office.

Definition session_of (id uid : Z) (token : string) : Session :=
  {| ss_ID := id; ss_TokenHash := HashToken token; ss_CSRFToken := "c"; ss_UserID := uid; ss_ExpiresAt := 1000; ss_CreatedAt := 0 |}.

Definition busy : Office := staffed <| as_portal ::= fun p => p <| ps_users ::= fun t => fresh_table (lt_rows t ++ [plain_user 2 "bob" "" 1]) 3 [] |>
  <| ps_sessions := fresh_table [session_of 1 1 "ann's"; session_of 2 2 "bob's"] 3 [] |> |>.

Definition new_password : request := ResetPassword 1 (Some "a new password").

Lemma withdrawn_rights_end_sessions_witness :
  let st' := (serve new_password busy).2 in
  (exists s u, (Lookup 5 "ann's" (as_portal busy)).1 = Next (Some (s, u)) /\ pu_ID u = 1) /\
  (Lookup 5 "ann's" (as_portal st')).1 = Next None /\
  exists s u, (Lookup 5 "bob's" (as_portal st')).1 = Next (Some (s, u)) /\ pu_ID u <> 1.
Proof.
  split; [eexists _, _; split; [vm_compute; reflexivity|reflexivity]|]. split; [vm_compute; reflexivity|].
  destruct (Lookup 5 "bob's" (as_portal (serve new_password busy).2)).1 as [?|[[s u]|]] eqn:E;
    [vm_compute in E; discriminate E| |vm_compute in E; discriminate E].
  exists s, u. split; [reflexivity|].
  apply (withdrawn_rights_end_sessions as_is "box" env new_password busy 1 5 "bob's" s u); [by split|reflexivity|vm_compute; reflexivity|exact E].
Defined.

(** The error of deleting the sessions is dropped: the new password is set, the
    answer is 200, and the old cookie still identifies the user. *)
Example undeleted_sessions_live_on :
  let st := busy <| as_portal ::= fun p => p <| ps_sessions ::= fun t => fresh_table (lt_rows t) (lt_next t) [true] |> |> in
  let '(code, st') := serve new_password st in
  code = 200 /\ map pu_PasswordHash (List.filter (has_id 1) (tbl_rows (ps_users (as_portal st')))) = ["hash:a new password"] /\
  exists s u, (Lookup 5 "ann's" (as_portal st')).1 = Next (Some (s, u)) /\ pu_ID u = 1.
Proof. vm_compute. split; [reflexivity|]. split; [reflexivity|]. eexists _, _. split; reflexivity. Qed.
End witnesses.
