(* ===== verification/PortalCredentials.v ===== *)
(** * PortalCredentials: the service accounts the portal logs in with

    The portal seals the password of each organisation's service account; a
    request that issues credentials must leave both sides with the same ones. *)

From S2P Require Import Prelude Store FaxJob Secrets Directory PortalModels PortalNotify PortalAuth TenantUsers WebAdmin PortalUpstream PortalAdmin PortalLogic PortalMirror PortalAdminFacts PortalClient PortalAdminSpec PortalDemo.

Section credentials.
Context {TS TP TU TO TN TA TF W : Type} `{!Table TS Session, !TableLaws TS Session}
  `{!Table TP PendingAuth, !TableLaws TP PendingAuth} `{!Table TU PortalUser, !TableLaws TU PortalUser}
  `{!TableTx TU PortalUser, !TableTxLaws TU PortalUser} `{!Table TO PortalOrg, !TableLaws TO PortalOrg}
  `{!Table TN PortalNumber, !TableLaws TN PortalNumber} `{!Relation TA UserNumber, !RelationLaws TA UserNumber}
  `{!Table TF InboundFax, !TableLaws TF InboundFax} `{!Upstream W, !UpstreamLaws W} `{Crypto, !CryptoLaws}.
Variable order : list string -> list string.
Variable Box : string.
#[local] Notation View := (View (W := W)).
#[local] Notation AM := (AM (TS := TS) (TP := TP) (TU := TU) (TO := TO) (TN := TN) (TA := TA) (TF := TF) (W := W)).
#[local] Notation AdminState := (AdminState (TS := TS) (TP := TP) (TU := TU) (TO := TO) (TN := TN) (TA := TA) (TF := TF) (W := W)).
#[local] Existing Instances am_ret am_bind.
Implicit Types (v : View) (env : AdminEnv) (st : AdminState).

(** The organisation's stored password is [env]'s and gofaxserver lets it in. *)
Definition holds_credentials env v org : Prop :=
  OpenString Box (po_SvcPasswordEnc org) = Some (ae_password env) /\ up_logins (vw_up v) (po_SvcUsername org) (ae_password env).

(** An account whose login was accepted and whose password was sealed. *)
Lemma issued env sealed name org w v : fresh_nonce (ae_nonce env) -> SealString Box (ae_nonce env) (ae_password env) = Some sealed ->
  (fx_AuthenticateSvcAccount name (ae_password env) w).1 = FxOk () ->
  vw_up v = (fx_AuthenticateSvcAccount name (ae_password env) w).2 -> po_SvcUsername org = name -> po_SvcPasswordEnc org = sealed ->
  holds_credentials env v org.
Proof. intros Hn Hs Ha Hup <- He. split; [rewrite He; by apply (sealed_opens Box (ae_nonce env))|]. rewrite Hup. by apply login_accepted. Qed.

Lemma RotateSvc_issues env id v : fresh_nonce (ae_nonce env) ->
  awp false (adminRotateSvcCredentials Box env id : AM bool) (fun r v' => status r = 200 -> exists org, org ∈ vw_orgs v' /\ po_ID org = id /\
    holds_credentials env v' org) v.
Proof.
  intros Hn. unfold adminRotateSvcCredentials, rotate_upstream.
  apply awp_bind, awp_orgs, effect_first; [|intros _; by apply awp_bind, awp_reject].
  destruct (head _) as [org|] eqn:Ho; [|by apply awp_bind, awp_reject]. apply head_filter_elem in Ho as [_ Ho]. apply Z.eqb_eq in Ho.
  apply awp_bind, awp_ret. repeat astep; try done.
  all: intros _; match goal with Ha : _ = FxOk ?x, Hs : SealString _ _ _ = Some ?sealed |- _ => exists (org <| po_SvcPasswordEnc := sealed |>) end.
  all: split; [apply replace_row_new|]; split; [exact Ho|]; eapply issued; [done|eassumption| |reflexivity..].
  all: match goal with Ha : (fx_AuthenticateSvcAccount _ _ _).1 = FxOk ?x |- _ => destruct x; exact Ha end.
Qed.

Lemma CreateOrg_issues env req v : fresh_nonce (ae_nonce env) ->
  awp false (adminCreateOrg Box env req : AM PortalOrg) (fun r v' => forall org, r = Answer org -> org ∈ vw_orgs v' /\ holds_credentials env v' org /\
    forall o, o ∈ vw_orgs v -> po_ID o <> po_ID org) v.
Proof.
  intros Hn. unfold adminCreateOrg.
  repeat first [lazymatch goal with
    | |- awp _ (match ?x with _ => _ end) _ _ => destruct x eqn:?
    | |- effect _ (tbl_create _) _ _ => apply effect_create; [intros ? ? ? ?|intros _] end; cbn beta iota | astep]; try done.
  intros org Ho. injection Ho as <-. match goal with Hr : ?r = set_id (get_id ?r) _, Hf : Forall _ _ |- _ =>
    split; [apply elem_of_app; right; by apply list_elem_of_singleton|]; split; [|rewrite Forall_forall in Hf; exact Hf];
    eapply (issued env); [done|eassumption| |reflexivity|by rewrite Hr|by rewrite Hr] end.
  match goal with Ha : (fx_AuthenticateSvcAccount _ _ _).1 = FxOk ?x |- _ => destruct x; exact Ha end.
Qed.

(** C29: whatever fails on the way, when the portal answers 200 to a request
    that creates an organisation or rotates its service credentials, the password
    sealed in the stored row opens to the one issued by this request, and
    gofaxserver has just accepted it for the row's service account. *)
Theorem issued_credentials_work env st : fresh_nonce (ae_nonce env) ->
  (forall req org, (adminCreateOrg Box env req st).1 = Answer org -> let st' := (adminCreateOrg Box env req st).2 in
     org ∈ tbl_rows (ps_orgs (as_portal st')) /\ OpenString Box (po_SvcPasswordEnc org) = Some (ae_password env) /\
     up_logins (as_up st') (po_SvcUsername org) (ae_password env)) /\
  (forall id b, (adminRotateSvcCredentials Box env id st).1 = Answer b -> let st' := (adminRotateSvcCredentials Box env id st).2 in
     exists org, org ∈ tbl_rows (ps_orgs (as_portal st')) /\ po_ID org = id /\
     OpenString Box (po_SvcPasswordEnc org) = Some (ae_password env) /\ up_logins (as_up st') (po_SvcUsername org) (ae_password env)).
Proof.
  intros Hn. split.
  - intros req org Ho. destruct (awp_run false _ _ st (CreateOrg_issues env req (view st) Hn)) as [_ Hq]; [discriminate|].
    by destruct (Hq org Ho) as (? & [? ?] & _).
  - intros id b Hb. destruct (awp_run false _ _ st (RotateSvc_issues env id (view st) Hn)) as [_ Hq]; [discriminate|].
    destruct Hq as (org & ? & ? & ? & ?); [by rewrite Hb|]. by exists org.
Qed.
End credentials.

Section witnesses.
Import Office.

Lemma issued_credentials_work_witness :
  exists org, (adminCreateOrg "box" env (Some {| co_Name := "Acme" |}) (office [])).1 = Answer org /\
    OpenString "box" (po_SvcPasswordEnc org) = Some "Pw-1".
Proof.
  destruct (adminCreateOrg "box" env (Some {| co_Name := "Acme" |}) (office [])).1 as [org|c e] eqn:E; [|vm_compute in E; discriminate E].
  exists org. split; [reflexivity|].
  assert (fresh_nonce (ae_nonce env)) as Hn by (intros n Hn; injection Hn as <-; reflexivity).
  destruct (issued_credentials_work "box" env (office []) Hn) as [Hc _]. destruct (Hc _ org E) as (_ & Ho & _). exact Ho.
Defined.
End witnesses.
