(* ===== verification/PortalReconcile.v ===== *)
(** * PortalReconcile: what a reconciliation report says

    [adminReconcileOrg] compares the portal's numbers with gofaxserver's; its
    lists name exactly the numbers that are missing on one side and the fields
    it compares that differ. *)

From S2P Require Import Prelude Store FaxJob Directory Gateways PortalModels PortalNotify PortalAuth TenantUsers WebAdmin PortalUpstream PortalAdmin PortalLogic PortalMirror PortalAdminFacts PortalClient PortalAdminSpec PortalDemo.

(** ** Indexing by number *)

Lemma by_number_lookup {A} (f : A -> string) (l : list A) : NoDup (map f l) ->
  forall k a, by_number f l !! k = Some a <-> a ∈ l /\ f a = k.
Proof.
  unfold by_number. assert (forall m : gmap string A, NoDup (map f l) -> forall k a,
    foldl (fun m a => <[f a := a]> m) m l !! k = Some a <-> (a ∈ l /\ f a = k) \/ (m !! k = Some a /\ k ∉ map f l)) as Hg.
  { induction l as [|x l IH]; intros m Hnd k a; cbn.
    - split; [intros ?; right; split; [done|apply not_elem_of_nil]|intros [[?%elem_of_nil _]|[? _]]; done].
    - apply NoDup_cons in Hnd as [Hx Hnd]. rewrite IH by done. rewrite elem_of_cons, not_elem_of_cons. split.
      + intros [[Hin He]|[Hm Hk]]; [by left; split; [right|]|]. destruct (decide (f x = k)) as [<-|Hne].
        * rewrite lookup_insert_eq in Hm. injection Hm as <-. by left; split; [left|].
        * rewrite lookup_insert_ne in Hm by done. by right.
      + intros [[[->|Hin] He]|[Hm [Hk1 Hk2]]].
        * right. subst k. by rewrite lookup_insert_eq.
        * by left.
        * right. by rewrite lookup_insert_ne. }
  intros Hnd k a. rewrite Hg by done. rewrite lookup_empty. split; [by intros [?|[? _]]|by left].
Qed.

Lemma by_number_none {A} (f : A -> string) (l : list A) k : NoDup (map f l) ->
  by_number f l !! k = None <-> forall a, a ∈ l -> f a <> k.
Proof.
  intros Hnd. rewrite eq_None_not_Some. split.
  - intros Hn a Ha He. apply Hn. exists a. by apply by_number_lookup.
  - intros Hn [a Ha]. apply by_number_lookup in Ha as [Hin He]; [|done]. by apply (Hn a).
Qed.

Section reconcile.
Context {TS TP TU TO TN TA TF W : Type} `{!Table TS Session, !TableLaws TS Session}
  `{!Table TP PendingAuth, !TableLaws TP PendingAuth} `{!Table TU PortalUser, !TableLaws TU PortalUser}
  `{!TableTx TU PortalUser, !TableTxLaws TU PortalUser} `{!Table TO PortalOrg, !TableLaws TO PortalOrg}
  `{!Table TN PortalNumber, !TableLaws TN PortalNumber} `{!Relation TA UserNumber, !RelationLaws TA UserNumber}
  `{!Table TF InboundFax, !TableLaws TF InboundFax} `{!Upstream W, !UpstreamLaws W} `{Crypto}.
Variable order : list string -> list string.
Variable Box : string.
#[local] Notation View := (View (W := W)).
#[local] Notation AM := (AM (TS := TS) (TP := TP) (TU := TU) (TO := TO) (TN := TN) (TA := TA) (TF := TF) (W := W)).
#[local] Notation AdminState := (AdminState (TS := TS) (TP := TP) (TU := TU) (TO := TO) (TN := TN) (TA := TA) (TF := TF) (W := W)).
#[local] Existing Instances am_ret am_bind.
Implicit Types (v : View) (st : AdminState) (num : PortalNumber) (r : TenantNumber) (org : PortalOrg).


(** ** What is compared *)

Definition drift_of v org r num : list FieldDrift :=
  (if tn_ID r =? pn_GofaxNumberID num then []
   else [{| fd_number := tn_Number r; fd_field := "gofax_number_id"; fd_portal := dec_string (pn_GofaxNumberID num);
            fd_live := dec_string (tn_ID r) |}]) ++
  (if (tn_Notify r =? want order v num org)%string then []
   else [{| fd_number := tn_Number r; fd_field := "notify"; fd_portal := want order v num org; fd_live := tn_Notify r |}]).

Definition compared v org (local : gmap string PortalNumber) (e : string * TenantNumber) : list string * list FieldDrift :=
  match local !! e.1 with None => ([e.1], []) | Some num => ([], drift_of v org e.2 num) end.

Lemma awp_compare org local l : forall (Q : answer (list (list string * list FieldDrift)) -> View -> Prop) v,
  Q (Answer (map (compared v org local) l)) v -> awp true (collect_results (compare_one order org local) l : AM _) Q v.
Proof.
  induction l as [|e l IH]; intros Q v HQ; cbn [collect_results]; [by apply awp_ret|].
  apply awp_bind. assert (awp true (compare_one order org local e : AM (list string * list FieldDrift))
    (fun a v' => a = Answer (compared v org local e) /\ v' = v) v) as He.
  { unfold compare_one, compared. destruct (local !! e.1) as [num|]; [|by apply awp_ret].
    apply awp_bind. unfold field_drift. apply awp_bind, awp_notify_of; [done|]. by apply awp_ret, awp_ret. }
  eapply awp_mono; [|exact He]. intros ? v' [-> ->]. apply awp_bind, IH, awp_ret. exact HQ.
Qed.

(** The numbers compared: the organisation's, and those of its tenant. *)
Definition local_numbers v id : list PortalNumber := List.filter (fun n => pn_OrgID n =? id) (vw_numbers v).
Definition live_numbers v org : list TenantNumber := List.filter (fun n => tn_TenantID n =? po_GofaxTenantID org) (up_numbers (vw_up v)).

(** The report's lists from the two listings. *)
Definition report_lists enum v id org (rep : Report) : Prop :=
  let live := by_number tn_Number (live_numbers v org) in
  let cmp := map (compared v org (by_number pn_Number (local_numbers v id))) (enum live) in
  rp_missing_upstream_numbers rep = stable_sort String.ltb
    (map pn_Number (List.filter (fun n => match live !! pn_Number n with Some _ => false | None => true end) (local_numbers v id))) /\
  rp_missing_local_numbers rep = stable_sort String.ltb (flat_map fst cmp) /\
  rp_number_field_drift rep = flat_map snd cmp.

Lemma reconcile_lists enum id v : up_ok (vw_up v) -> (forall org, org ∈ vw_orgs v -> 0 < po_GofaxTenantID org) ->
  awp true (adminReconcileOrg order Box enum id : AM Report) (fun a v' => forall rep, a = Answer rep ->
    exists org, org ∈ vw_orgs v /\ po_ID org = id /\ report_lists enum v id org rep) v.
Proof.
  intros Hok Hten. unfold adminReconcileOrg. apply awp_bind, awp_first_org.
  destruct (head _) as [org|] eqn:Ho; [|by apply awp_bind, awp_reject]. apply head_filter_elem in Ho as [Ho Hi]. apply Z.eqb_eq in Hi.
  change (po_ID org = id) in Hi. apply awp_bind, awp_ret, awp_bind, awp_spare; [apply tenants_listed|done|]. intros v1 H1.
  apply awp_bind, awp_fx_or; [intros lt _|done].
  apply awp_bind, awp_spare; [apply numbers_listed|exact (calm_ok _ _ H1)|]. intros v2 H2.
  apply awp_bind, awp_fx_or; [intros ln Hln|done]. apply numbers_found in Hln; [|specialize (Hten org Ho); lia].
  assert (ln = live_numbers v org) as ->.
  { rewrite Hln. destruct H1 as (w & -> & _ & Hw). simpl. rewrite Hw. apply filter_ext. intros r.
    by rewrite (proj2 (Z.eqb_neq _ _)) by (specialize (Hten org Ho); lia). }
  clear Hln. assert (calm v v2) as Hc2 by by eapply calm_trans. clear H1 H2.
  apply awp_bind, awp_spare; [apply users_listed|exact (calm_ok _ _ Hc2)|]. intros v3 H3.
  assert (calm v v3) as Hc3 by by eapply calm_trans. clear H3 Hc2.
  apply awp_bind, awp_fx_or; [intros lu _|done]. cbv zeta. apply awp_bind.
  assert (awp true (if existsb (fun u => (tp_Username u =? po_SvcUsername org)%string) lu then svc_auth Box org else mret false : AM bool)
    (fun o v' => (exists b, o = Answer b) /\ calm v v') v3) as Hauth.
  { destruct (existsb _ lu); [|apply awp_ret; eauto]. unfold svc_auth. destruct (OpenString _ _) as [pass|]; [|apply awp_ret; eauto].
    apply awp_bind, awp_spare; [apply user_authenticated|exact (calm_ok _ _ Hc3)|]. intros v4 H4. apply awp_ret.
    split; [eauto|by eapply calm_trans]. }
  eapply awp_mono; [|exact Hauth]. intros ? v4 [[b ->] (w & -> & _)]. apply awp_bind, awp_org_numbers, awp_bind, awp_compare, awp_ret.
  intros rep [= <-]. exists org. split; [done|]. split; [done|]. subst id. by split_and!.
Qed.

Lemma elem_local v id num : num ∈ local_numbers v id <-> num ∈ vw_numbers v /\ pn_OrgID num = id.
Proof. unfold local_numbers. by rewrite !list_elem_of_In, filter_In, Z.eqb_eq. Qed.

Lemma elem_live v org r : r ∈ live_numbers v org <-> r ∈ up_numbers (vw_up v) /\ tn_TenantID r = po_GofaxTenantID org.
Proof. unfold live_numbers. by rewrite !list_elem_of_In, filter_In, Z.eqb_eq. Qed.

Lemma map_filter_NoDup {A} (f : A -> string) (P : A -> bool) l : NoDup (map f l) -> NoDup (map f (List.filter P l)).
Proof.
  induction l as [|a l IH]; cbn; [done|]. intros [Ha Hl]%NoDup_cons. destruct (P a); [|by apply IH]. cbn. apply NoDup_cons. split; [|by apply IH].
  intros (b & Hb & Hin)%list_elem_of_fmap. apply Ha. rewrite Hb. apply (list_elem_of_fmap_2 f). apply list_elem_of_In, filter_In in Hin as [Hin _].
  by apply list_elem_of_In.
Qed.

(** The report names the entry [x] of the lists on the two sides. *)
Lemma report_exact enum v id org rep : (forall m, enum m ≡ₚ map_to_list m) ->
  NoDup (map tn_Number (up_numbers (vw_up v))) -> NoDup (map pn_Number (vw_numbers v)) -> report_lists enum v id org rep ->
  (forall k, k ∈ rp_missing_upstream_numbers rep <->
     exists num, num ∈ local_numbers v id /\ pn_Number num = k /\ forall r, r ∈ live_numbers v org -> tn_Number r <> k) /\
  (forall k, k ∈ rp_missing_local_numbers rep <->
     exists r, r ∈ live_numbers v org /\ tn_Number r = k /\ forall num, num ∈ local_numbers v id -> pn_Number num <> k) /\
  (forall d, d ∈ rp_number_field_drift rep <->
     exists r num, r ∈ live_numbers v org /\ num ∈ local_numbers v id /\ tn_Number r = pn_Number num /\ d ∈ drift_of v org r num).
Proof.
  intros Henum Hup Hloc (-> & -> & ->). pose proof (map_filter_NoDup tn_Number (fun n => tn_TenantID n =? po_GofaxTenantID org) _ Hup) as Hl.
  pose proof (map_filter_NoDup pn_Number (fun n => pn_OrgID n =? id) _ Hloc) as Hp. fold (live_numbers v org) in Hl. fold (local_numbers v id) in Hp.
  assert (forall e, e ∈ enum (by_number tn_Number (live_numbers v org)) <-> e.2 ∈ live_numbers v org /\ tn_Number e.2 = e.1) as He.
  { intros [k r]. rewrite Henum, elem_of_map_to_list. by apply by_number_lookup. }
  split; [|split].
  - intros k. rewrite elem_of_stable_sort, list_elem_of_fmap. split.
    + intros (num & -> & Hin). apply list_elem_of_In, filter_In in Hin as [Hin Hn]. exists num. split; [by apply list_elem_of_In|]. split; [done|].
      apply (by_number_none tn_Number); [done|]. by destruct (by_number _ _ !! _).
    + intros (num & Hin & <- & Hn). exists num. split; [done|]. apply list_elem_of_In, filter_In. split; [by apply list_elem_of_In|].
      apply (by_number_none tn_Number) in Hn as ->; done.
  - intros k. rewrite elem_of_stable_sort. split.
    + intros Hin. apply list_elem_of_In, in_flat_map in Hin as (c & Hc & Hk). apply in_map_iff in Hc as (e & <- & Hin). apply list_elem_of_In, He in Hin as [Hr Hek].
      unfold compared in Hk. destruct (by_number pn_Number (local_numbers v id) !! e.1) eqn:E; [done|]. destruct Hk as [<-|[]].
      exists e.2. split; [done|]. split; [done|]. by apply (by_number_none pn_Number).
    + intros (r & Hr & Hk & Hn). apply list_elem_of_In, in_flat_map. exists ([k], []). split; [|by left]. apply in_map_iff. exists (k, r).
      split; [|apply list_elem_of_In, He; done]. unfold compared. simpl. by apply (by_number_none pn_Number) in Hn as ->.
  - intros d. split.
    + intros Hin. apply list_elem_of_In, in_flat_map in Hin as (c & Hc & Hd). apply in_map_iff in Hc as (e & <- & Hin). apply list_elem_of_In, He in Hin as [Hr Hek].
      unfold compared in Hd. destruct (by_number pn_Number (local_numbers v id) !! e.1) as [num|] eqn:E; [|done].
      apply by_number_lookup in E as [Hnum Hk]; [|done]. exists e.2, num. split_and!; [done|done|congruence|by apply list_elem_of_In].
    + intros (r & num & Hr & Hnum & Hk & Hd). apply list_elem_of_In, in_flat_map. exists ([], drift_of v org r num). split; [|by apply list_elem_of_In].
      apply in_map_iff. exists (tn_Number r, r). split; [|apply list_elem_of_In, He; done]. unfold compared. simpl.
      by rewrite (proj2 (by_number_lookup pn_Number _ Hp (tn_Number r) num)).
Qed.

(** C30: a reconciliation report names exactly what it compares. For an
    organisation with a tenant, on healthy tables whose numbers are unique: a
    number is listed as missing upstream when the organisation has it and its
    tenant does not, as missing locally when it is the other way round, and a
    drift is listed for a number on both sides when gofaxserver's row has
    another id than the portal recorded or another notify string than the one
    computed from the users assigned now. *)
Theorem reconcile_report_exact enum id st rep : healthy st -> (forall m, enum m ≡ₚ map_to_list m) -> up_ok (as_up st) ->
  NoDup (map pn_Number (tbl_rows (as_numbers st))) -> (forall org, org ∈ tbl_rows (ps_orgs (as_portal st)) -> 0 < po_GofaxTenantID org) ->
  (adminReconcileOrg order Box enum id st).1 = Answer rep ->
  exists org, org ∈ tbl_rows (ps_orgs (as_portal st)) /\ po_ID org = id /\
    let mine num := num ∈ tbl_rows (as_numbers st) /\ pn_OrgID num = id in
    let theirs r := r ∈ up_numbers (as_up st) /\ tn_TenantID r = po_GofaxTenantID org in
    (forall k, k ∈ rp_missing_upstream_numbers rep <-> exists num, mine num /\ pn_Number num = k /\ forall r, theirs r -> tn_Number r <> k) /\
    (forall k, k ∈ rp_missing_local_numbers rep <-> exists r, theirs r /\ tn_Number r = k /\ forall num, mine num -> pn_Number num <> k) /\
    (forall d, d ∈ rp_number_field_drift rep <-> exists r num, theirs r /\ mine num /\ tn_Number r = pn_Number num /\
       d ∈ drift_of (view st) org r num).
Proof.
  intros Hh Henum Hok Hnd Hten Hrep. destruct (awp_run true _ _ st (reconcile_lists enum id (view st) Hok Hten) (fun _ => Hh)) as [_ Hq].
  destruct (Hq rep Hrep) as (org & Ho & Hi & Hlists). exists org. split; [done|]. split; [done|].
  destruct (numbers_keyed _ Hok) as [_ Hup].
  destruct (report_exact enum (view st) id org rep Henum Hup Hnd Hlists) as (H1 & H2 & H3). cbv zeta.
  pose proof (elem_local (view st) id) as El. pose proof (elem_live (view st) org) as Er. cbn in El, Er.
  split; [|split].
  - intros k. rewrite H1. by setoid_rewrite El; setoid_rewrite Er.
  - intros k. rewrite H2. by setoid_rewrite El; setoid_rewrite Er.
  - intros d. rewrite H3. by setoid_rewrite El; setoid_rewrite Er.
Qed.
End reconcile.

Section witnesses.
Import Office.

(** A number added to gofaxserver behind the portal's back, a notify string
    edited there, and a number whose row went away there. *)
Definition behind (w : World) : World := w <| w_server ::= fun g => g <| gs_store ::= fun s => (s.1, s.2 <| tb_numbers :=
  fresh_table [{| tn_ID := 1; tn_TenantID := 1; tn_Number := "2505550100"; tn_Name := "Main"; tn_Header := "ACME"; tn_Notify := "email->x@y.z" |};
               {| tn_ID := 9; tn_TenantID := 1; tn_Number := "2505550199"; tn_Name := ""; tn_Header := ""; tn_Notify := "" |}] 10 [] |>) |> |>.

Definition edited_upstream : Office := staffed <| as_up ::= behind |>.

Example report_of_edited : exists rep, (adminReconcileOrg as_is "box" map_to_list 1 edited_upstream).1 = Answer rep /\
  rp_missing_upstream_numbers rep = [] /\ rp_missing_local_numbers rep = ["2505550199"] /\
  map fd_field (rp_number_field_drift rep) = ["notify"].
Proof. eexists. split; [vm_compute; reflexivity|]. by split. Qed.

Lemma reconcile_report_exact_witness :
  exists rep, (adminReconcileOrg as_is "box" map_to_list 1 staffed).1 = Answer rep /\
    forall k, k ∈ rp_missing_local_numbers rep -> exists r, tn_Number r = k.
Proof.
  destruct (adminReconcileOrg as_is "box" map_to_list 1 staffed).1 as [rep|c e] eqn:E; [|vm_compute in E; discriminate E].
  exists rep. split; [reflexivity|].
  destruct (reconcile_report_exact as_is "box" map_to_list 1 staffed rep) as (org & _ & _ & _ & Hl & _).
  - exact (proj1 staffed_mirror).
  - intros m. reflexivity.
  - exact (mirror_in_order staffed (proj2 staffed_mirror)).
  - vm_compute. apply NoDup_singleton.
  - intros org Ho. vm_compute in Ho. apply list_elem_of_singleton in Ho as ->. reflexivity.
  - exact E.
  - intros k Hk. apply Hl in Hk as (r & _ & Hr & _). by exists r.
Defined.
End witnesses.
