(* ===== verification/PortalInbox.v ===== *)
(** * PortalInbox: received faxes ([portal/internal/api/handlers_inbound.go])

    gofaxserver delivers a received fax to the route of an organisation's
    service account; the portal seals the document, stores it once per job, and
    shows it to the users its number is assigned to. The handlers run in
    [PortalAdmin]'s monad; the users' routes behind [PortalAuth]'s middleware. *)

From S2P Require Import Prelude Store FaxJob Secrets Directory PortalModels PortalNotify PortalAuth TenantUsers WebAdmin PortalUpstream PortalAdmin.

(** The fields read from the body; [ip_Ts]: [None] is the zero time. *)
Record inboundPayload := {
  ip_UUID : string; ip_CallerNumber : string; ip_CallerName : string; ip_CalleeNumber : string;
  ip_Pages : Z; ip_Ts : option Z; ip_FileData : string; ip_CallPartial : bool; ip_CallTotalPages : Z;
}.

(** A delivery: its headers, the account in the path, the size of the body,
    whether it can be read, and what it parses to. *)
Record InboundRequest := {
  ir_APIKey : string; ir_FileSHA256 : string; ir_svc : string;
  ir_length : Z; ir_readable : bool; ir_payload : option inboundPayload;
}.

Record InboxConfig := { ic_InboundAPIKey : string; ic_UploadMaxMB : Z; ic_FaxBox : option string }.

Inductive received := Stored (id : Z) | Duplicate.

(** [INSERT ... ON CONFLICT DO NOTHING]: [Some None] when a row is there. *)
Definition insert_once {T R} `{Table T R} (P : R -> bool) (r : R) (t : T) : option (option R) * T :=
  match tbl_find P t with
  | (None, t') => (None, t')
  | (Some (_ :: _), t') => (Some None, t')
  | (Some [], t') => let '(o, t'') := tbl_create r t' in (option_map Some o, t'')
  end.

Definition clampLimit (v max : Z) : Z := if v <=? 0 then 50 else if max <? v then max else v.

Record inboxResp := { ix_fax : InboundFax; ix_Number : string; ix_NumberName : string }.

Section inbox.
Context {TS TP TU TO TN TA TF W : Type} `{!Table TS Session} `{!Table TP PendingAuth}
  `{!Table TU PortalUser} `{!TableTx TU PortalUser} `{!Table TO PortalOrg} `{!Table TN PortalNumber}
  `{!Relation TA UserNumber} `{!Table TF InboundFax} `{!Upstream W} `{Crypto}.
Variable cfg : InboxConfig.
#[local] Notation AM := (AM (TS := TS) (TP := TP) (TU := TU) (TO := TO) (TN := TN) (TA := TA) (TF := TF) (W := W)).
#[local] Existing Instances am_ret am_bind.

Definition maxFile : Z := wrap64 (Z.shiftl (ic_UploadMaxMB cfg) 20).
Definition maxBody : Z := wrap64 (Z.quot (wrap64 (maxFile * 4)) 3 + Z.shiftl 1 20 + 1).

(** What [io.ReadAll] returns through the limit. *)
Definition body_read (r : InboundRequest) : Z := Z.max 0 (Z.min (ir_length r) maxBody).

Definition sum_hex (pdf : string) : string := hex (sha256 pdf).

Definition svc_of (svc : string) (o : PortalOrg) : bool := (po_SvcUsername o =? svc)%string.

(** The column [received_at]: the time sent along, or now. *)
Definition inbound_row (now : Z) (p : inboundPayload) (org : PortalOrg) (num : option PortalNumber) (pdf sealed : string) : InboundFax :=
  {| if_ID := 0; if_JobUUID := ip_UUID p; if_OrgID := po_ID org; if_NumberID := option_map pn_ID num;
     if_CallerNumber := ip_CallerNumber p; if_CallerName := ip_CallerName p; if_CalleeNumber := ip_CalleeNumber p;
     if_Pages := ip_Pages p; if_Partial := ip_CallPartial p; if_TotalPages := int_of_uint (ip_CallTotalPages p);
     if_FileEnc := sealed; if_FileSHA256 := sum_hex pdf; if_FileBytes := Z.of_nat (String.length pdf);
     if_ReceivedAt := default now (ip_Ts p) |}.

(** The unique index on organisation and job. *)
Definition conflicts (r f : InboundFax) : bool := (if_OrgID f =? if_OrgID r) && (if_JobUUID f =? if_JobUUID r)%string.

Definition callee_of (org : PortalOrg) (p : inboundPayload) (n : PortalNumber) : bool :=
  (pn_OrgID n =? po_ID org) && (pn_Number n =? ip_CalleeNumber p)%string.

(** Who delivers, and the document delivered. *)
Definition inbound_org (r : InboundRequest) : AM PortalOrg :=
  _ ← ensure (negb (nonempty (ic_InboundAPIKey cfg) && negb (SecureEquals (ir_APIKey r) (ic_InboundAPIKey cfg)))) 401 "invalid api key";
  found ← with_orgs (tbl_find (svc_of (ir_svc r)));
  rows ← some_or found 500 "service account lookup failed";
  org ← some_or (head rows) 404 "unknown service account";
  _ ← ensure (po_Active org) 404 "unknown service account";
  mret org.

Definition inbound_document (r : InboundRequest) : AM (inboundPayload * string) :=
  _ ← ensure (ir_readable r) 500 "failed reading delivery payload";
  _ ← ensure (body_read r <? maxBody) 413 "fax too large";
  p ← some_or (ir_payload r) 422 "invalid delivery payload";
  _ ← ensure (nonempty (ip_UUID p) && nonempty (ip_FileData p)) 422 "invalid delivery payload";
  pdf ← some_or (DecodeString (ip_FileData p)) 422 "invalid file_data encoding";
  _ ← ensure (Z.of_nat (String.length pdf) <=? maxFile) 413 "fax too large";
  _ ← ensure (negb (nonempty (ir_FileSHA256 r) && negb (ir_FileSHA256 r =? sum_hex pdf)%string)) 422 "file checksum mismatch";
  mret (p, pdf).

Definition handleInboundFax (now : Z) (nonce : option string) (r : InboundRequest) : AM received :=
  org ← inbound_org r;
  '(p, pdf) ← inbound_document r;
  num ← with_numbers (tbl_first (callee_of org p));
  box ← some_or (ic_FaxBox cfg) 500 "inbound storage not configured";
  sealed ← some_or (SealString box nonce pdf) 500 "failed to seal fax";
  let row := inbound_row now p org num pdf sealed in
  made ← with_faxes (insert_once (conflicts row) row);
  stored ← some_or made 500 "failed to store fax";
  mret (match stored with Some fax => Stored (if_ID fax) | None => Duplicate end).

(** ** The users' inbox *)

(** The session's user and organisation. *)
Definition userScope (ctx : option (Session * PortalUser)) : AM (Z * Z) :=
  match currentUser ctx, currentOrgID ctx with
  | Some (_, user), Some org => mret (pu_ID user, org)
  | _, _ => reject 401 "authentication required"
  end.

(** A route of the user party. *)
Definition user_route {A} (ev : ReqEnv) (c : Call) (k : Z -> Z -> AM A) : AM A := fun st =>
  let '(fl, p) := middleware ev RealmUser c (as_portal st) in
  let st' := st <| as_portal := p |> in
  match fl with
  | Next ctx => ('(uid, oid) ← userScope ctx; k uid oid) st'
  | Return (Fail code e) => (Reject code e, st')
  | Return _ => (Reject 500 "internal server error", st')
  end.

(** The list columns: everything but the document. *)
Definition metadata (f : InboundFax) : InboundFax := f <| if_FileEnc := "" |>.

Definition decorateInbox (faxes : list InboundFax) : AM (list inboxResp) :=
  numbers ← match faxes with
            | [] => mret []
            | _ => rows ← with_numbers (tbl_find (fun n => existsb (fun f => if_OrgID f =? pn_OrgID n) faxes)); mret (default [] rows)
            end;
  mret (map (fun f =>
    let n := match if_NumberID f with Some i => List.find (has_id i) (rev numbers) | None => None end in
    {| ix_fax := f; ix_Number := match n with Some n => pn_Number n | None => "" end;
       ix_NumberName := match n with Some n => pn_Name n | None => "" end |}) faxes).

(** A count that fails is zero. *)
Definition userCanSeeInbound (userID orgID : Z) (fax : InboundFax) : AM bool :=
  match if_NumberID fax with
  | Some nid =>
      if if_OrgID fax =? orgID then
        rows ← with_assigned (rel_find (fun un => (un_UserID un =? userID) && (un_NumberID un =? nid)));
        mret (0 <? count_rows rows)
      else mret false
  | None => mret false
  end.

Definition newest_first : list InboundFax -> list InboundFax := stable_sort (fun a b => if_ReceivedAt b <? if_ReceivedAt a).

(** [limit] and [offset] as asked for. *)
Definition handleListInbox (limit offset : Z) (userID orgID : Z) : AM (list inboxResp) :=
  numberIDs ← number_ids DB userID;
  match numberIDs with
  | [] => mret []
  | _ =>
      rows ← with_faxes (tbl_find (fun f => (if_OrgID f =? orgID) &&
               match if_NumberID f with Some i => existsb (Z.eqb i) numberIDs | None => false end));
      faxes ← some_or rows 500 "failed to load inbox";
      decorateInbox (map metadata (page (clampLimit limit 200) offset (newest_first faxes)))
  end.

(** The fax, if the user may see it. *)
Definition visible_fax (id userID orgID : Z) : AM InboundFax :=
  found ← with_faxes (tbl_first (has_id id));
  fax ← some_or found 404 "fax not found";
  seen ← userCanSeeInbound userID orgID fax;
  _ ← ensure seen 404 "fax not found";
  mret fax.

Definition handleGetInbound (id userID orgID : Z) : AM (option inboxResp) :=
  fax ← visible_fax id userID orgID;
  shown ← decorateInbox [metadata fax];
  mret (head shown).

Definition serveInboundFile (fax : InboundFax) : AM string :=
  box ← some_or (ic_FaxBox cfg) 500 "inbound storage not configured";
  pdf ← some_or (OpenString box (if_FileEnc fax)) 500 "failed to decrypt fax";
  _ ← ensure (sum_hex pdf =? if_FileSHA256 fax)%string 500 "stored fax failed integrity check";
  mret pdf.

Definition handleGetInboundFile (id userID orgID : Z) : AM string :=
  fax ← visible_fax id userID orgID; serveInboundFile fax.

(** The outbound numbers of a user, in the order of the numbers. *)
Definition myNumbers (by_digits : list PortalNumber -> list PortalNumber) (userID orgID : Z) : AM (option (list PortalNumber)) :=
  rows ← with_numbers (tbl_find (fun n => (pn_OrgID n =? orgID) && pn_Active n));
  assigned ← assigned_rows;
  mret (option_map (fun ns => by_digits (List.filter (fun n =>
    existsb (fun un => (un_UserID un =? userID) && (un_NumberID un =? pn_ID n)) assigned) ns)) rows).

Definition handleMyNumbers (by_digits : list PortalNumber -> list PortalNumber) (userID orgID : Z) : AM (list PortalNumber) :=
  rows ← myNumbers by_digits userID orgID; some_or rows 500 "failed to load numbers".

(** ** The administrators' list *)

Definition inbound_filter (oid : Z) (uuid number : string) (f : InboundFax) : bool :=
  let ju := trim_space uuid in let n := trim_space number in let like := "%" +:+ n +:+ "%" in
  (if 0 <? oid then if_OrgID f =? oid else true) && (if nonempty ju then (if_JobUUID f =? ju)%string else true) &&
  (if nonempty n then sql_like like (if_CallerNumber f) || sql_like like (if_CalleeNumber f) else true).

Definition adminListInbound (limit offset oid : Z) (uuid number : string) : AM (Z * list inboxResp) :=
  counted ← with_faxes (tbl_find (inbound_filter oid uuid number));
  rows ← some_or counted 500 "failed to count inbound faxes";
  let total := Z.of_nat (length rows) in
  found ← with_faxes (tbl_find (inbound_filter oid uuid number));
  faxes ← some_or found 500 "failed to load inbound faxes";
  items ← decorateInbox (map metadata (page (clampLimit limit 200) offset (newest_first faxes)));
  mret (total, items).

Definition adminDeleteInbound (id : Z) : AM () :=
  found ← with_faxes (tbl_first (has_id id));
  fax ← some_or found 404 "fax not found";
  gone ← with_faxes (tbl_delete (has_id (if_ID fax)));
  ensure gone 500 "failed to delete fax".

End inbox.
