(* ===== verification/PortalSender.v ===== *)
(** * PortalSender: handing a document to gofaxserver
    ([portal/internal/fsclient/client.go], [SendFax], over the fax routes of
    [gofaxserver/web.go])

    What the portal relies on when it sends ([Sender], [SenderLaws]), and the
    client's method on the server's own middleware and intake. *)

From S2P Require Import Prelude Store FaxResult FaxJob Secrets Directory GatewayTemplates Gateways TenantUsers WebAdmin WebAdminFacts PortalUpstream PortalClient.

(** The method, the jobs taken in so far, and whether an account lets in for a
    tenant. *)
Class Sender (W : Type) `{Upstream W} := {
  fx_SendFax : string -> string -> string -> string -> string -> string -> W -> fx string * W;
  up_jobs : W -> list FaxJob;
  up_serves : W -> string -> string -> Z -> Prop;
  job_text : FaxJob -> string;     (* the job's id as text *)
}.

(** A job as the intake of the portal's documents queues it. *)
Definition portal_job (caller callee : string) (job : FaxJob) : Prop :=
  fj_CallerIdNumber job = caller /\ fj_CalleeNumber job = callee /\ si_Source (fj_SourceInfo job) = "portal" /\
  isPlaceholderResult job = true.

Class SenderLaws (W : Type) `{Sender W} : Prop := {
  send_spares : forall user pass name data caller callee, spares_numbers (fx_SendFax user pass name data caller callee);
  send_ok : forall user pass name data caller callee w uuid, up_ok w ->
    let '(r, w') := fx_SendFax user pass name data caller callee w in r = FxOk uuid ->
    exists job tn, up_jobs w' = up_jobs w ++ [job] /\ job_text job = uuid /\ portal_job caller callee job /\
      tn ∈ up_numbers w /\ tn_Number tn = caller /\ up_serves w user pass (tn_TenantID tn);
  send_err : forall user pass name data caller callee w,
    let '(r, w') := fx_SendFax user pass name data caller callee w in forall e, r = FxErr e ->
    up_jobs w' = up_jobs w \/ (forall code msg, e <> APIError code msg) /\ exists job, up_jobs w' = up_jobs w ++ [job];
}.

Section client.
Context {TT TN TE TG TC TX : Type} `{!Table TT Tenant} `{!Table TN TenantNumber} `{!Table TE Endpoint}
  `{!Table TG GatewayTemplate} `{!Table TC GatewayConfig} `{!Table TX TenantUser} `{BlockCipher}.
Variable PSK : string.
(** [http.DetectContentType], a UUID as text, the user id as the handler reads
    it back, and the base name of a file as the form gives it. *)
Variable DetectContentType : string -> string.
Variable uuid_String : Z -> string.
Variable id_text : Z -> string.
Variable form_name : string -> string.
#[local] Notation World := (World (TT := TT) (TN := TN) (TE := TE) (TG := TG) (TC := TC) (TX := TX)).

(** An intake that cannot write its file. *)
Definition no_intake : IntakeEnv :=
  {| ie_docID := 0; ie_resultID := 0; ie_now := 0; ie_destFile := ""; ie_saved := false;
     ie_gs := {| gs_exit0 := false; gs_output := ""; gs_size := None |}; ie_identify := None |}.

(** "POST /fax/send": the answer is the job's id; [None] when the handler
    panics, which closes the connection. *)
Definition send_route (header : string) (u : Upload) (w : World) : option (answer string) * World :=
  let '(r, t) := basicTenantUserAuthMiddleware PSK header (w_users w) in
  let w := w <| w_users := t |> in
  match r with
  | Reject code e => (Some (Reject code e), w)
  | Answer (tenantID, userID) =>
      let env := default no_intake (head (w_intakes w)) in
      let w := w <| w_intakes ::= tail |> in
      match handleDocumentUpload DetectContentType env (gs_store (w_server w)).1 tenantID (id_text userID) u with
      | Enqueued job => (Some (Answer (uuid_String (fj_UUID job))), w <| w_jobs ::= fun l => l ++ [job] |>)
      | Declined code e => (Some (Reject code e), w)
      | Panicked => (None, w)
      end
  end.

Definition portal_upload (filename data caller callee : string) : Upload :=
  {| ul_file := Some (form_name filename, data); ul_readable := true; ul_callee := callee; ul_caller := caller;
     ul_source := "portal" |}.

Definition SendFax (username password filename data caller callee : string) (w : World) : fx string * World :=
  let d := head (w_net w) in
  let w := w <| w_net ::= tail |> in
  match d with
  | Some (LostRequest e) => (FxErr (Unreachable e), w)
  | _ =>
      let '(a, w') := send_route (auth_header username password) (portal_upload filename data caller callee) w in
      (match d, a with
       | Some (LostReply e), _ => FxErr (Unreachable e)
       | _, None => FxErr (Unreachable "EOF")
       | _, Some (Reject code e) => FxErr (APIError code e)
       | Some (Garbled e), Some (Answer _) => FxErr (Undecodable "/fax/send" e)
       | _, Some (Answer uuid) => if (uuid =? "")%string then FxErr NoJobUUID else FxOk uuid
       end, w')
  end.

(** The account the server would find has that password and that tenant. *)
Definition serves (w : World) (username password : string) (tenantID : Z) : Prop :=
  exists name pw user e, credentials_of e (auth_header username password) = Ok (name, pw) /\
    head (List.filter (fun u => (tu_Username u =? name)%string) (tbl_rows (w_users w))) = Some user /\
    Decrypt (tu_Password user) PSK = Some pw /\ tu_TenantID user = tenantID.

Context `{!Upstream World}.

#[local] Instance gofax_sender : Sender World := {
  fx_SendFax := SendFax; up_jobs := w_jobs; up_serves := serves; job_text j := uuid_String (fj_UUID j);
}.
End client.

(** ** The contract *)

Section contract.
Context {TT TN TE TG TC TX : Type} `{!Table TT Tenant, !TableLaws TT Tenant} `{!Table TN TenantNumber, !TableLaws TN TenantNumber}
  `{!Table TE Endpoint, !TableLaws TE Endpoint} `{!Table TG GatewayTemplate} `{!Table TC GatewayConfig}
  `{!Table TX TenantUser, !TableLaws TX TenantUser} `{BlockCipher}.
Variable is_ip : string -> bool.
Variable lookup_ip : string -> option (list string).
Variable PSK APIKey AdminKey : string.
Variable DetectContentType : string -> string.
Variable uuid_String : Z -> string.
Variable id_text : Z -> string.
Variable form_name : string -> string.
#[local] Notation World := (World (TT := TT) (TN := TN) (TE := TE) (TG := TG) (TC := TC) (TX := TX)).
#[local] Instance the_upstream : Upstream World := gofax_upstream is_ip lookup_ip PSK APIKey AdminKey.
#[local] Instance the_sender : Sender World := gofax_sender PSK DetectContentType uuid_String id_text form_name.
#[local] Notation send_route := (send_route PSK DetectContentType uuid_String id_text).
#[local] Notation SendFax := (SendFax PSK DetectContentType uuid_String id_text form_name).
Implicit Types (w : World).

(** Who is let in. *)
Lemma middleware_serves header (t : TX) tenantID userID :
  (basicTenantUserAuthMiddleware PSK header t).1 = Answer (tenantID, userID) ->
  exists name pw user e, credentials_of e header = Ok (name, pw) /\
    head (List.filter (fun u => (tu_Username u =? name)%string) (tbl_rows t)) = Some user /\
    Decrypt (tu_Password user) PSK = Some pw /\ tu_TenantID user = tenantID /\ tu_ID user = userID.
Proof.
  unfold basicTenantUserAuthMiddleware, authenticate_basic. destruct (credentials_of _ header) as [[name pw]|e] eqn:Ec; [|done].
  pose proof (fun user => authenticated PSK name pw user t) as Ha.
  destruct (AuthenticateTenantUser PSK name pw t) as [[user|e] t1]; simpl in *; [|done]. intros [= <- <-].
  destruct (Ha user eq_refl) as [H1 H2]. exists name, pw, user, "Missing or invalid Authorization header". by split_and!.
Qed.

(** What the route leaves of the server: the jobs grow by the one it names. *)
Lemma send_route_cases header (u : Upload) w :
  let '(a, w') := send_route header u w in
  stored_numbers w' = stored_numbers w /\
  match a with
  | Some (Answer uuid) => exists env job tenantID userID,
      w_jobs w' = w_jobs w ++ [job] /\ uuid = uuid_String (fj_UUID job) /\
      (basicTenantUserAuthMiddleware PSK header (w_users w)).1 = Answer (tenantID, userID) /\
      handleDocumentUpload DetectContentType env (gs_store (w_server w)).1 tenantID (id_text userID) u = Enqueued job
  | _ => w_jobs w' = w_jobs w
  end.
Proof.
  unfold PortalSender.send_route. destruct (basicTenantUserAuthMiddleware PSK header (w_users w)) as [[[tenantID userID]|code e] t];
    [|by split]. cbv zeta.
  set (env := default no_intake (head (w_intakes (w <| w_users := t |>)))).
  change (gs_store (w_server _)) with (gs_store (w_server w)).
  destruct (handleDocumentUpload _ env _ _ _ _) as [job|code e|] eqn:E; [|by split..].
  split; [done|]. exists env, job, tenantID, userID. by split_and!.
Qed.

(** A send is a call of the route whose answer may get lost, or nothing. *)
Lemma exchange_cases user pass name data caller callee w :
  let '(r, w') := SendFax user pass name data caller callee w in
  let w0 := w <| w_net ::= tail |> in
  let a := send_route (auth_header user pass) (portal_upload form_name name data caller callee) w0 in
  (fx_failed r /\ w' = w0) \/
  (w' = a.2 /\ (forall uuid, r = FxOk uuid -> a.1 = Some (Answer uuid)) /\
   forall code e, r = FxErr (APIError code e) -> a.1 = Some (Reject code e)).
Proof.
  unfold PortalSender.SendFax, fx_failed. cbv zeta.
  destruct (send_route _ _ _) as [a w']. destruct (head (w_net w)) as [[]|]; simpl; eauto;
    right; split; try done; split; intros; destruct a as [[x|]|]; try destruct (x =? "")%string; by simplify_eq/=.
Qed.

Lemma send_spares_law user pass name data caller callee : spares_numbers (SendFax user pass name data caller callee).
Proof.
  intros w Hok. cbn [up_ok up_numbers the_upstream gofax_upstream] in *.
  assert (stored_numbers (SendFax user pass name data caller callee w).2 = stored_numbers w) as E; [|unfold in_order in *; by rewrite E].
  pose proof (exchange_cases user pass name data caller callee w) as Hc. cbv zeta in Hc.
  destruct (SendFax _ _ _ _ _ _ w) as [r w']. destruct Hc as [[_ ->]|(-> & _)]; [done|].
  match goal with |- context [send_route ?h ?u ?w0] => pose proof (send_route_cases h u w0) as Hr; destruct (send_route h u w0) as [a w1] end.
  by destruct Hr.
Qed.

(** C37: the client's send, over the server's own middleware and intake,
    keeps the contract the portal is proved against. A call answered with a job
    has put one job into the queue, the one it names, with the caller and callee
    asked for, marked as the portal's and counted as no result yet; the
    caller is a stored number of the very tenant the account lets in for. A
    call that fails has queued at most one job, and none when the server has
    answered with an error. Numbers stay as they are. *)
Theorem client_sends_as_promised : SenderLaws World.
Proof.
  split; cbn [fx_SendFax up_jobs up_serves job_text the_sender gofax_sender].
  - exact send_spares_law.
  - intros user pass name data caller callee w uuid Hok.
    pose proof (exchange_cases user pass name data caller callee w) as Hc. cbv zeta in Hc.
    destruct (SendFax _ _ _ _ _ _ w) as [r w']. intros ->. destruct Hc as [[[e He] _]|(-> & Ha & _)]; [done|]. specialize (Ha uuid eq_refl).
    match goal with |- context [send_route ?h ?u ?w0] => pose proof (send_route_cases h u w0) as Hr; destruct (send_route h u w0) as [a w1] end.
    simpl in Ha. subst a. destruct Hr as (_ & env & job & tenantID & userID & Hj & -> & Hm & Hup).
    apply upload_admission in Hup as (_ & (tn & Hget & Htn) & pages & _ & Hjob & _ & Hcaller & Hcallee & Hph & _).
    exists job, tn. split; [done|]. split; [done|]. split.
    { split; [done|]. split; [done|]. split; [by rewrite Hjob|done]. }
    apply (proj1 Hok) in Hget as [Hin Hnum]. split; [done|]. split; [done|].
    destruct (middleware_serves _ _ _ _ Hm) as (nm & pw & acc & e & H1 & H2 & H3 & H4 & _).
    exists nm, pw, acc, e. split_and!; try done. by rewrite H4, Htn.
  - intros user pass name data caller callee w.
    pose proof (exchange_cases user pass name data caller callee w) as Hc. cbv zeta in Hc.
    destruct (SendFax _ _ _ _ _ _ w) as [r w']. intros e ->. destruct Hc as [[_ ->]|(-> & _ & Ha)]; [by left|].
    match goal with |- context [send_route ?h ?u ?w0] => pose proof (send_route_cases h u w0) as Hr; destruct (send_route h u w0) as [a w1] end.
    destruct Hr as [_ Hr]. destruct a as [[x|]|]; [|by left..]. destruct Hr as (env & job & _ & _ & Hj & _). right.
    split; [|by exists job]. intros code msg ->. by specialize (Ha code msg eq_refl).
Qed.
End contract.

Section witnesses.
#[local] Existing Instance demo_cipher.

Lemma client_sends_as_promised_witness :
  exists (U : Upstream (World (TT := ListTable Tenant) (TN := ListTable TenantNumber) (TE := ListTable Endpoint)
    (TG := ListTable GatewayTemplate) (TC := ListTable GatewayConfig) (TX := ListTable TenantUser))) (S : Sender _), SenderLaws _.
Proof.
  exists (gofax_upstream (fun _ => false) (fun _ => None) "psk" "k3y" "k3y").
  exists (gofax_sender "psk" (fun _ => "application/pdf") dec_string dec_string (fun n => n)).
  apply (client_sends_as_promised (fun _ => false) (fun _ => None) "psk" "k3y" "k3y").
Defined.
End witnesses.
