(* ===== verification/PortalConvert.v ===== *)
(** * PortalConvert: from an upload to a document fit for faxing
    ([portal/internal/convert])

    What the package decides: fit modes, cover fields, which engine runs on
    which kind of file, the limits, and which failures of a tool are the
    document's. The engines are the record [Engines]: programs run through
    pipes, the pdfcpu and fpdf libraries, the Gotenberg service, and the
    placing of an image on a page, which computes in floating point. *)

From S2P Require Import Prelude WebAdmin.

(** ** Options *)

Abbreviation FitMode := string (only parsing).
Definition FitConstrain : FitMode := "constrain".
Definition FitFill : FitMode := "fill".
Definition FitStretch : FitMode := "stretch".

(** [None]: an invalid mode. *)
Definition ParseFitMode (s : string) (def : FitMode) : option FitMode :=
  if (s =? "")%string then Some def
  else
    let m := to_lower (trim_space s) in
    if (m =? FitConstrain)%string then Some FitConstrain
    else if (m =? FitFill)%string then Some FitFill
    else if (m =? FitStretch)%string then Some FitStretch
    else None.

Record CoverFields := { cf_To : string; cf_From : string; cf_Subject : string; cf_Comments : string }.

Definition Empty (c : CoverFields) : bool :=
  (cf_To c =? "")%string && (cf_From c =? "")%string && (cf_Subject c =? "")%string && (cf_Comments c =? "")%string.

Definition maxCoverFieldLen : nat := 500.

Definition clip (s : string) : string :=
  let s := trim_space s in if (maxCoverFieldLen <? String.length s)%nat then str_take maxCoverFieldLen s else s.

Definition Sanitize (c : CoverFields) : CoverFields :=
  {| cf_To := clip (cf_To c); cf_From := clip (cf_From c); cf_Subject := clip (cf_Subject c); cf_Comments := clip (cf_Comments c) |}.

Record Options := { op_FitMode : FitMode; op_Cover : option CoverFields }.

Record ConverterConfig := {
  cv_Enabled : bool; cv_GotenbergURL : string; cv_GhostscriptBin : string; cv_ImageMagickBin : string;
  cv_PrepareTTL : Z; cv_MaxPages : Z; cv_DefaultFitMode : FitMode;
}.

Definition or_default (s def : string) : string := if (s =? "")%string then def else s.

Definition ApplyDefaults (c : ConverterConfig) : ConverterConfig :=
  c <| cv_GotenbergURL ::= fun s => or_default s "http://127.0.0.1:3200" |>
    <| cv_GhostscriptBin ::= fun s => or_default s "gs" |> <| cv_ImageMagickBin ::= fun s => or_default s "magick" |>
    <| cv_PrepareTTL ::= fun t => if t <=? 0 then hour else t |>
    <| cv_MaxPages ::= fun n => if n <=? 0 then 50 else n |>
    <| cv_DefaultFitMode ::= fun m => or_default m FitConstrain |>.

(** ** Errors and engines *)

Inductive ConvertError :=
| ErrUnsupportedType (ext : string)
| ErrTooManyPages (pages max : Z)
| ErrEmptyRender (page : Z)
| OtherError (msg : string).

Abbreviation conv A := (ConvertError + A)%type.

#[export] Instance conv_ret : MRet (sum ConvertError) := fun A a => inr a.
#[export] Instance conv_bind : MBind (sum ConvertError) := fun A B k m =>
  match m with inr a => k a | inl e => inl e end.

Definition wrapped {A} (msg : string) (r : res A) : conv A :=
  match r with Ok a => inr a | Err e => inl (OtherError (msg +:+ e)) end.

(** How a program ends: its output, or an error and what it wrote to stderr. *)
Inductive exec_result := Exited (stdout : string) | ExecFailed (e stderr : string).

(** What Gotenberg answers: the body as far as it could be read, and why no
    further. *)
Inductive office_reply := NoReply (e : string) | Replied (code : Z) (status body : string) (broken : option string).

Record Engines := {
  en_run : string -> list string -> string -> exec_result;     (* program, arguments, input *)
  en_optimize : string -> option string;                       (* pdfcpu *)
  en_pages : string -> res Z;
  en_merge : string -> string -> res string;
  en_cover : CoverFields -> Z -> res string;                   (* fpdf *)
  en_image : string -> FitMode -> res string;
  en_office : string -> string -> string -> office_reply;      (* URL, name, document *)
}.

Definition AllowedExts : list string := [".pdf"; ".tif"; ".tiff"; ".png"; ".jpg"; ".jpeg"; ".docx"; ".doc"].

Record ConvertResult := { cr_PDF : string; cr_Previews : list string; cr_Pages : Z; cr_Cover : bool; cr_FitMode : FitMode }.

Section converter.
Variable en : Engines.
Variable cfg : ConverterConfig.    (* defaulted *)

(** On any error, or nothing written, the original. *)
Definition normalizePDF (data : string) : string :=
  match en_optimize en data with
  | Some out => if (0 <? String.length out)%nat then out else data
  | None => data
  end.

Definition truncate (s : string) (n : nat) : string :=
  if (n <? String.length s)%nat then str_take n s +:+ "…" else s.

Definition runPiped (bin : string) (stdin : string) (args : list string) : conv string :=
  match en_run en bin args stdin with
  | Exited out => inr out
  | ExecFailed e stderr => inl (OtherError (bin +:+ ": " +:+ e +:+ ": " +:+ truncate stderr 256))
  end.

Definition tiffToPDF (data : string) : conv string :=
  pdf ← runPiped (cv_ImageMagickBin cfg) data ["tiff:-"; "-units"; "PixelsPerInch"; "-density"; "204x196"; "pdf:-"];
  if has_prefix pdf "%PDF-" then mret pdf else inl (OtherError "imagemagick produced non-PDF output").

Fixpoint trim_right_slashes (s : string) : string :=
  match s with
  | EmptyString => EmptyString
  | String c s' =>
      match trim_right_slashes s' with
      | EmptyString => if Ascii.eqb c "/" then EmptyString else String c EmptyString
      | t => String c t
      end
  end.

(** [io.LimitReader]. *)
Definition limited (n : Z) (s : string) : string :=
  if Z.of_nat (String.length s) <=? n then s else str_take (Z.to_nat n) s.

Definition officeToPDF (filename data : string) : conv string :=
  match en_office en (trim_right_slashes (cv_GotenbergURL cfg) +:+ "/forms/libreoffice/convert") filename data with
  | NoReply e => inl (OtherError ("gotenberg unreachable: " +:+ e))
  | Replied code status body broken =>
      if code =? 200 then
        match broken with
        | Some e => inl (OtherError ("read converted PDF: " +:+ e))
        | None =>
            let pdf := limited (Z.shiftl 1 30) body in
            if has_prefix pdf "%PDF-" then mret pdf else inl (OtherError "gotenberg returned non-PDF output")
        end
      else inl (OtherError ("gotenberg conversion failed (" +:+ status +:+ "): " +:+ trim_space (limited 512 body)))
  end.

(** The first bytes of a PNG. *)
Definition png_magic : string := String (ascii_of_nat 137) "PNG".

Definition preview_args (page : Z) : list string :=
  ["-q"; "-dNOPAUSE"; "-dBATCH"; "-dSAFER"; "-sDEVICE=pngmono"; "-r204x196"; "-g1728x2156"; "-dPDFFitPage";
   "-dFirstPage=" +:+ dec_string page; "-dLastPage=" +:+ dec_string page; "-sOutputFile=-"; "-"].

Definition renderPage (pdf : string) (page : Z) : conv string :=
  match runPiped (cv_GhostscriptBin cfg) pdf (preview_args page) with
  | inl (OtherError m) => inl (OtherError ("ghostscript page " +:+ dec_string page +:+ ": " +:+ m))
  | inl e => inl e
  | inr png => if has_prefix png png_magic then inr png else inl (ErrEmptyRender page)
  end.

(** The loop from [page] on. *)
Fixpoint renderPages (pdf : string) (page : Z) (left : nat) : conv (list string) :=
  match left with
  | O => mret []
  | S left' => png ← renderPage pdf page; rest ← renderPages pdf (page + 1) left'; mret (png :: rest)
  end.

Definition renderPreviews (pdf : string) (pages : Z) : conv (list string) := renderPages pdf 1 (Z.to_nat pages).

(** The engine for a kind of file. *)
Definition convertBody (ext filename data : string) (mode : FitMode) : conv string :=
  if (ext =? ".pdf")%string then mret (normalizePDF data)
  else if str_mem ext [".tif"; ".tiff"] then tiffToPDF data
  else if str_mem ext [".png"; ".jpg"; ".jpeg"] then wrapped "" (en_image en data mode)
  else officeToPDF filename data.

Definition prependCover (fields : CoverFields) (pdf : string) : conv string :=
  bodyPages ← wrapped "count pages: " (en_pages en pdf);
  coverPDF ← wrapped "render cover page: " (en_cover en fields bodyPages);
  wrapped "merge cover page: " (en_merge en coverPDF pdf).

Definition Convert (filename data : string) (opts : Options) : conv ConvertResult :=
  let ext := to_lower (Ext filename) in
  if negb (str_mem ext AllowedExts) then inl (ErrUnsupportedType ext)
  else
    let mode := or_default (op_FitMode opts) (cv_DefaultFitMode cfg) in
    body ← convertBody ext filename data mode;
    let cover := match op_Cover opts with Some c => negb (Empty c) | None => false end in
    pdf ← match op_Cover opts with
          | Some c => if negb (Empty c) then prependCover (Sanitize c) body else mret body
          | None => mret body
          end;
    pages ← wrapped "count pages: " (en_pages en pdf);
    if cv_MaxPages cfg <? pages then inl (ErrTooManyPages pages (cv_MaxPages cfg))
    else
      let result := {| cr_PDF := pdf; cr_Previews := []; cr_Pages := pages; cr_Cover := cover; cr_FitMode := mode |} in
      match renderPreviews pdf pages with
      | inl (ErrEmptyRender page) => inl (ErrEmptyRender page)
      | inl _ => mret result
      | inr previews => mret (result <| cr_Previews := previews |>)
      end.

(** ** What a conversion promises *)

Lemma conv_bind_inv {A B} (m : conv A) (k : A -> conv B) b : (m ≫= k) = inr b -> exists a, m = inr a /\ k a = inr b.
Proof. destruct m as [e|a]; simpl; [done|]. eauto. Qed.

Lemma wrapped_ok {A} msg (r : res A) a : wrapped msg r = inr a -> r = Ok a.
Proof. destruct r; simpl; [by intros [= <-]|done]. Qed.

Lemma renderPages_ok pdf n : forall page l, renderPages pdf page n = inr l ->
  length l = n /\ Forall (fun png => has_prefix png png_magic = true) l.
Proof.
  induction n as [|n IH]; intros page l; simpl; [intros [= <-]; by split; [|constructor]|].
  intros (png & Hp & (rest & Hr & [= <-])%conv_bind_inv)%conv_bind_inv. apply IH in Hr as [Hlen Hall].
  split; [simpl; by rewrite Hlen|]. constructor; [|done]. unfold renderPage in Hp.
  destruct (runPiped _ _ _) as [e|out]; [by destruct e|]. destruct (has_prefix out png_magic) eqn:E; [|done]. by injection Hp as <-.
Qed.

(** A conversion that succeeds: of a file of a known kind, within the page
    limit, with a cover exactly when one with some content was asked for, in the
    mode asked for or the default one, and with a picture of every page or of
    none. A document of which some page renders to nothing does not convert. *)
Theorem Convert_promises filename data opts result :
  Convert filename data opts = inr result ->
  str_mem (to_lower (Ext filename)) AllowedExts = true /\
  en_pages en (cr_PDF result) = Ok (cr_Pages result) /\ cr_Pages result <= cv_MaxPages cfg /\
  (cr_Cover result = true <-> exists c, op_Cover opts = Some c /\ Empty c = false) /\
  cr_FitMode result = or_default (op_FitMode opts) (cv_DefaultFitMode cfg) /\
  (cr_Previews result = [] \/ length (cr_Previews result) = Z.to_nat (cr_Pages result)) /\
  Forall (fun png => has_prefix png png_magic = true) (cr_Previews result) /\
  (forall page, renderPreviews (cr_PDF result) (cr_Pages result) <> inl (ErrEmptyRender page)).
Proof.
  unfold Convert. destruct (str_mem _ AllowedExts); simpl; [|done]. intros (body & _ & Hrest)%conv_bind_inv.
  apply conv_bind_inv in Hrest as (pdf & _ & (pages & Hpages%wrapped_ok & Hrest)%conv_bind_inv).
  destruct (Z.ltb_spec (cv_MaxPages cfg) pages); [done|].
  assert ((match op_Cover opts with Some c => negb (Empty c) | None => false end = true) <-> exists c, op_Cover opts = Some c /\ Empty c = false) as Hcover.
  { destruct (op_Cover opts) as [c|]; [|by split; [|intros (? & ? & _)]]. rewrite negb_true_iff.
    split; [eauto|by intros (? & [= <-] & ?)]. }
  split; [done|]. destruct (renderPreviews pdf pages) as [[ext|p m|page|msg]|l] eqn:Er; [| |done| |]; injection Hrest as <-; simpl;
    (split; [done|]); (split; [done|]); (split; [done|]); (split; [done|]).
  1-3: split; [by left|]; split; [by constructor|]; intros page; by rewrite Er.
  destruct (renderPages_ok _ _ _ _ Er) as [Hl Hall]. split; [by right|]. split; [done|]. intros page. by rewrite Er.
Qed.

Lemma clip_length s : (String.length (clip s) <= 500)%nat.
Proof.
  unfold clip, maxCoverFieldLen. destruct (Nat.ltb_spec 500 (String.length (trim_space s))); [rewrite str_take_length|]; lia.
Qed.
End converter.

Lemma parsed_mode_valid s def m : ParseFitMode s def = Some m ->
  (s = "" /\ m = def) \/ m ∈ [FitConstrain; FitFill; FitStretch].
Proof.
  unfold ParseFitMode. destruct (String.eqb_spec s ""); [intros [= <-]; by left|].
  repeat destruct (_ =? _)%string; intros [= <-]; right; rewrite !elem_of_cons; auto.
Qed.
