(* ===== verification/PortalInboxFacts.v ===== *)
(** * PortalInboxFacts: received faxes arrive once, intact, and stay private

    A delivery is stored under its organisation and job at most once, however
    often gofaxserver repeats it; what a user is shown is a document that was
    delivered for a number assigned to them. *)

From S2P Require Import Prelude Store FaxJob Secrets Directory PortalModels PortalNotify RateLimit PortalAuth PortalSessions TenantUsers WebAdmin PortalUpstream PortalAdmin PortalLogic PortalMirror PortalAdminFacts PortalAdminSpec PortalGuarantees PortalDemo PortalInbox.

(** ** The middleware lets in nobody else, whatever fails *)

Section middleware.
Context {TS TP TU TO : Type} `{!Table TS Session, !TableLaws TS Session} `{!Table TP PendingAuth, !TableLaws TP PendingAuth}
  `{!Table TU PortalUser, !TableLaws TU PortalUser} `{!Table TO PortalOrg, !TableLaws TO PortalOrg} `{Crypto}.
#[local] Notation Portal := (Portal (TS := TS) (TP := TP) (TU := TU) (TO := TO)).
#[local] Existing Instances hm_ret hm_bind.
Implicit Types (p : Portal).

Lemma requireUserRealm_sound s u p : (requireUserRealm (Some (s, u)) p).1 = Next () -> realm_open p RealmUser u.
Proof.
  unfold requireUserRealm, mbind, hm_bind, check, or_reply, reply_with, mret, hm_ret, on_orgs. simpl.
  destruct (String.eqb_spec (pu_Role u) RoleUser) as [Hr|Hr]; simpl; [|done].
  destruct (pu_OrgID u) as [i|] eqn:Hi; simpl; [|done].
  pose proof (first_some (has_id i) (ps_orgs p)) as Hf. destruct (tbl_first (has_id i) (ps_orgs p)) as [[o|] t]; simpl in *; [|done].
  destruct (Hf o eq_refl) as [Hin Hid]. unfold has_id in Hid. reflect_bools. simpl in Hid.
  intros Ho. split; [done|]. exists o. split; [done|]. rewrite Hid. split; [done|].
  destruct (po_Active o), (po_TOTPRequired o), (pu_TOTPEnabled u); simpl in Ho; done.
Qed.

Lemma middleware_user_sound ev c p ctx : (middleware ev RealmUser c p).1 = Next ctx ->
  exists s u cookie, ctx = Some (touched (ev_now ev) s, u) /\ cl_cookie c = Some cookie /\ live p (ev_now ev) cookie s u /\
    realm_open p RealmUser u.
Proof.
  unfold middleware. pose proof (authenticate_hwp ev (cl_cookie c) p) as [Ho (o & Heq & Hl)]. unfold mbind at 1, hm_bind at 1.
  destruct (authenticate _ _ p) as [fl p']. simpl in *. subst fl. intros Hn.
  destruct (gates_ctx _ _ _ _ _ Hn) as [-> (s' & u & ->)]. destruct (Hl s' u eq_refl) as (token & s & Hc & Hlive & ->).
  exists s, u, token. split; [done|]. split; [done|]. split; [done|].
  assert (realm_open p' RealmUser u) as Hr; [|destruct Hr as [Hr (org & Hin & ?)]; split; [done|]; exists org; split; [|done];
    unfold orgs in *; by rewrite <- Ho].
  clear Hl. revert Hn. unfold gates, requireAuth, mbind, hm_bind, mret, hm_ret. simpl.
  match goal with |- context [check ?b ?r p'] => destruct b end; simpl; [|done].
  match goal with |- context [check ?b ?r p'] => destruct b end; simpl; [|done].
  pose proof (requireUserRealm_sound (touched (ev_now ev) s) u p') as Hsound.
  destruct (requireUserRealm _ p') as [[?|[]] p2]; simpl in *; [done|]. intros _. by apply Hsound.
Qed.
End middleware.

(** ** Storing *)

Section storing.
Context {T R : Type} `{TableLaws T R}.

Lemma effect_insert_once h P (r : R) (Q : option (option R) -> list R -> Prop) rows :
  (forall x, x ∈ rows -> P x = true -> Q (Some None) rows) ->
  ((forall x, x ∈ rows -> P x = false) -> forall r', r' = set_id (get_id r') r -> 0 < get_id r' ->
     Forall (fun x => get_id x <> get_id r') rows -> Q (Some (Some r')) (rows ++ [r'])) ->
  (h = false -> Q None rows) -> effect h (insert_once P r) Q rows.
Proof.
  intros Hd Hs Hn t Hh Ht. unfold insert_once.
  assert (effect h (tbl_find P) (fun o rs => rs = rows /\ (o = None -> h = false) /\ forall l, o = Some l -> l = List.filter P rows) rows) as He.
  { apply effect_find; [|done]. split; [done|]. split; [done|]. by intros l [= <-]. }
  destruct (He t Hh Ht) as [Hh1 (Hr & Hnone & Hl)]. destruct (tbl_find P t) as [[[|x l]|] t1]; simpl in *.
  - specialize (Hl [] eq_refl).
    assert (effect h (tbl_create r) (fun o rs => Q (option_map Some o) rs) rows) as Hc; [|destruct (Hc t1 Hh1 Hr); by destruct (tbl_create r t1)].
    apply effect_create; [|done]. simpl. apply Hs. intros x Hx. destruct (P x) eqn:E; [|done].
    assert (In x (List.filter P rows)) as Hin by (apply filter_In; split; [by apply list_elem_of_In|done]). by rewrite <- Hl in Hin.
  - split; [done|]. rewrite Hr. specialize (Hl _ eq_refl).
    assert (In x (List.filter P rows)) as [Hin HP]%filter_In by (rewrite <- Hl; by left). apply (Hd x); [by apply list_elem_of_In|done].
  - split; [done|]. rewrite Hr. by apply Hn, Hnone.
Qed.
End storing.

Section inbox.
Context {TS TP TU TO TN TA TF W : Type} `{!Table TS Session, !TableLaws TS Session}
  `{!Table TP PendingAuth, !TableLaws TP PendingAuth} `{!Table TU PortalUser, !TableLaws TU PortalUser}
  `{!TableTx TU PortalUser, !TableTxLaws TU PortalUser} `{!Table TO PortalOrg, !TableLaws TO PortalOrg}
  `{!Table TN PortalNumber, !TableLaws TN PortalNumber} `{!Relation TA UserNumber, !RelationLaws TA UserNumber}
  `{!Table TF InboundFax, !TableLaws TF InboundFax} `{!Upstream W} `{Crypto, !CryptoLaws}.
Variable cfg : InboxConfig.
#[local] Notation View := (View (W := W)).
#[local] Notation AM := (AM (TS := TS) (TP := TP) (TU := TU) (TO := TO) (TN := TN) (TA := TA) (TF := TF) (W := W)).
#[local] Notation AdminState := (AdminState (TS := TS) (TP := TP) (TU := TU) (TO := TO) (TN := TN) (TA := TA) (TF := TF) (W := W)).
#[local] Existing Instances am_ret am_bind.
Implicit Types (v : View) (st : AdminState).

Definition rows_of st : list InboundFax := tbl_rows (as_faxes st).

(** A request that may deliver [pdf] for an organisation, and the row it does
    it with; [n]: the number it arrived at, if the portal has it. *)
Record delivers v (r : InboundRequest) (org : PortalOrg) (p : inboundPayload) (n : option PortalNumber) (pdf sealed : string)
  (nonce : option string) : Prop := {
  dv_key : nonempty (ic_InboundAPIKey cfg) = true -> ir_APIKey r = ic_InboundAPIKey cfg;
  dv_org : org ∈ vw_orgs v /\ po_SvcUsername org = ir_svc r /\ po_Active org = true;
  dv_payload : ir_payload r = Some p /\ DecodeString (ip_FileData p) = Some pdf /\ Z.of_nat (String.length pdf) <= maxFile cfg;
  dv_sum : nonempty (ir_FileSHA256 r) = true -> ir_FileSHA256 r = sum_hex pdf;
  dv_number : forall num, n = Some num -> num ∈ vw_numbers v /\ callee_of org p num = true;
  dv_sealed : exists box, ic_FaxBox cfg = Some box /\ SealString box nonce pdf = Some sealed;
}.

(** What a delivery may do: nothing, find the fax there, or store it. *)
Definition delivered h now nonce r v (a : answer received) v' : Prop :=
  match a with
  | Answer d => exists org p n pdf sealed, delivers v r org p n pdf sealed nonce /\
      let row := inbound_row now p org n pdf sealed in
      (h = true -> n = head (List.filter (callee_of org p) (vw_numbers v))) /\
      match d with
      | Duplicate => v' = v /\ exists f, f ∈ vw_faxes v /\ conflicts row f = true
      | Stored id => v' = v <| vw_faxes := vw_faxes v ++ [row <| if_ID := id |>] |> /\
                     forall f, f ∈ vw_faxes v -> conflicts row f = false
      end
  | Reject _ _ => v' = v
  end.

Lemma awp_inbound_org h r (Q : answer PortalOrg -> View -> Prop) v :
  (forall org, org ∈ vw_orgs v -> po_SvcUsername org = ir_svc r -> po_Active org = true ->
     (nonempty (ic_InboundAPIKey cfg) = true -> ir_APIKey r = ic_InboundAPIKey cfg) -> Q (Answer org) v) ->
  (forall c e, Q (Reject c e) v) -> awp h (inbound_org cfg r : AM PortalOrg) Q v.
Proof.
  intros HQ HR. unfold inbound_org. apply awp_bind, awp_ensure; intros Hk; [|apply HR].
  apply awp_bind, awp_orgs, effect_find; [|intros _; apply awp_bind, awp_some_or; intros; [done|]; destruct v; apply HR].
  apply awp_bind, awp_some_or; [|done]. intros rows [= <-].
  apply awp_bind, awp_some_or; [|intros _; destruct v; apply HR]. intros org Ho. apply head_filter_elem in Ho as [Hin Hsvc].
  apply awp_bind, awp_ensure; intros Ha; [|destruct v; apply HR]. apply awp_ret. destruct v. apply HQ; try done.
  - unfold svc_of in Hsvc. by apply String.eqb_eq.
  - intros Hne. rewrite Hne in Hk. simpl in Hk. rewrite negb_involutive in Hk. by apply SecureEquals_spec.
Qed.

Lemma awp_inbound_document h r (Q : answer (inboundPayload * string) -> View -> Prop) v :
  (forall p pdf, ir_payload r = Some p -> DecodeString (ip_FileData p) = Some pdf -> Z.of_nat (String.length pdf) <= maxFile cfg ->
     (nonempty (ir_FileSHA256 r) = true -> ir_FileSHA256 r = sum_hex pdf) -> Q (Answer (p, pdf)) v) ->
  (forall c e, Q (Reject c e) v) -> awp h (inbound_document cfg r : AM (inboundPayload * string)) Q v.
Proof.
  intros HQ HR. unfold inbound_document. do 2 (apply awp_bind, awp_ensure; intros _; [|apply HR]).
  apply awp_bind, awp_some_or; [|intros _; apply HR]. intros p Hp. apply awp_bind, awp_ensure; intros _; [|apply HR].
  apply awp_bind, awp_some_or; [|intros _; apply HR]. intros pdf Hpdf.
  apply awp_bind, awp_ensure; intros Hsize; [|apply HR]. apply awp_bind, awp_ensure; intros Hsum; [|apply HR].
  apply awp_ret, HQ; try done; [by apply Z.leb_le|]. intros Hne. rewrite Hne in Hsum. simpl in Hsum.
  rewrite negb_involutive in Hsum. by apply String.eqb_eq.
Qed.

Lemma handleInboundFax_spec h now nonce r v :
  awp h (handleInboundFax cfg now nonce r : AM received) (delivered h now nonce r v) v.
Proof.
  unfold handleInboundFax. apply awp_bind, awp_inbound_org; [|done]. intros org Ho Hsvc Hact Hkey.
  apply awp_bind, awp_inbound_document; [|done]. intros p pdf Hp Hpdf Hsize Hsum. cbn beta iota.
  assert (forall n, (h = true -> n = head (List.filter (callee_of org p) (vw_numbers v))) ->
    (forall num, n = Some num -> num ∈ vw_numbers v /\ callee_of org p num = true) ->
    awp h ((box ← some_or (ic_FaxBox cfg) 500 "inbound storage not configured";
      sealed ← some_or (SealString box nonce pdf) 500 "failed to seal fax";
      let row := inbound_row now p org n pdf sealed in
      made ← with_faxes (insert_once (conflicts row) row);
      stored ← some_or made 500 "failed to store fax";
      mret (match stored with Some fax => Stored (if_ID fax) | None => Duplicate end)) : AM received) (delivered h now nonce r v) v) as Hrest.
  { intros n Hhead Hn. apply awp_bind, awp_some_or; [|done]. intros box Hbox.
    apply awp_bind, awp_some_or; [|done]. intros sealed Hsealed. cbv zeta.
    assert (delivers v r org p n pdf sealed nonce) as Hd by (split; eauto).
    apply awp_bind, awp_faxes, effect_insert_once.
    - intros f Hf Hsame. apply awp_bind, awp_ret, awp_ret. exists org, p, n, pdf, sealed. destruct v. split; [done|]. eauto.
    - intros Hfree row' Hrow _ _. apply awp_bind, awp_ret, awp_ret. exists org, p, n, pdf, sealed. split; [done|]. split; [done|].
      split; [|done]. by rewrite Hrow.
    - intros _. apply awp_bind, awp_some_or; [done|]. by destruct v. }
  apply awp_bind, awp_numbers, effect_first.
  - destruct v. apply Hrest; [done|]. intros num Hnum. by apply head_filter_elem in Hnum.
  - intros ->. destruct v. by apply Hrest.
Qed.

(** ** What happens to the inbox *)

(** Deliveries, each with the state it met, among operations that store no
    fax. *)
Inductive inbox_run : list (InboundRequest * AdminState) -> AdminState -> AdminState -> Prop :=
| run_nil st : inbox_run [] st st
| run_receive es st st' now nonce r : inbox_run es st st' -> fresh_nonce nonce ->
    inbox_run ((r, st') :: es) st (handleInboundFax cfg now nonce r st').2
| run_other es st st' st'' : inbox_run es st st' -> sublist (rows_of st'') (rows_of st') -> inbox_run es st st''.

(** The unique index. *)
Definition job_key (f : InboundFax) : Z * string := (if_OrgID f, if_JobUUID f).

Lemma conflicts_key r f : conflicts r f = true <-> job_key f = job_key r.
Proof. unfold conflicts, job_key. rewrite andb_true_iff, Z.eqb_eq, String.eqb_eq. split; [by intros [-> ->]|]. by intros [= -> ->]. Qed.

Lemma sublist_fmap_NoDup {A B} (f : A -> B) l l' : sublist l l' -> NoDup (map f l') -> NoDup (map f l).
Proof.
  induction 1 as [|x l l' Hs IH|x l l' Hs IH]; simpl; [done| |]; rewrite ?NoDup_cons; [|by intros [_ ?]; auto].
  intros [Hx Hn]. split; [|by apply IH]. contradict Hx. apply list_elem_of_fmap in Hx as (y & Hy & Hin).
  apply list_elem_of_fmap. exists y. split; [done|]. by eapply elem_of_sublist.
Qed.

Lemma run_view h now nonce r st : (h = true -> healthy st) ->
  delivered h now nonce r (view st) (handleInboundFax cfg now nonce r st).1 (view (handleInboundFax cfg now nonce r st).2).
Proof. intros Hh. by destruct (awp_run h _ _ st (handleInboundFax_spec h now nonce r (view st)) Hh). Qed.

(** One delivery, whatever fails: the rows are as they were or one longer. *)
Lemma receive_rows now nonce r st : let '(a, st') := handleInboundFax cfg now nonce r st in
  rows_of st' = rows_of st \/
  exists org p n pdf sealed i, delivers (view st) r org p n pdf sealed nonce /\
    rows_of st' = rows_of st ++ [(inbound_row now p org n pdf sealed) <| if_ID := i |>] /\
    forall f, f ∈ rows_of st -> job_key f <> (po_ID org, ip_UUID p).
Proof.
  pose proof (run_view false now nonce r st ltac:(discriminate)) as Hd. destruct (handleInboundFax _ _ _ _ st) as [a st']. simpl in Hd.
  destruct a as [d|c e]; simpl in Hd.
  - destruct Hd as (org & p & n & pdf & sealed & Hdel & _ & Hd). destruct d as [i|].
    + destruct Hd as [Hv Hfree]. right. exists org, p, n, pdf, sealed, i. split; [done|]. split; [exact (f_equal vw_faxes Hv)|].
      intros f Hf Hk. apply (not_true_iff_false (conflicts (inbound_row now p org n pdf sealed) f)); [by apply Hfree|].
      by apply conflicts_key.
    + left. exact (f_equal vw_faxes (proj1 Hd)).
  - left. exact (f_equal vw_faxes Hd).
Qed.

Lemma run_keys es st st' : inbox_run es st st' -> NoDup (map job_key (rows_of st)) -> NoDup (map job_key (rows_of st')).
Proof.
  induction 1 as [|es st st' now nonce r Hrun IH Hn|es st st' st'' Hrun IH Hsub]; intros Hnone; [done| |].
  - pose proof (receive_rows now nonce r st') as Hr. destruct (handleInboundFax _ _ _ _ st') as [a st'']. simpl.
    destruct Hr as [->|(org & p & n & pdf & sealed & i & _ & -> & Hfree)]; [by apply IH|].
    rewrite map_app. apply NoDup_app. split; [by apply IH|]. split; [|apply NoDup_singleton]. intros k Hk.
    intros Hk'. apply list_elem_of_singleton in Hk' as ->. apply list_elem_of_fmap in Hk as (f & Hk & Hf). by apply (Hfree f Hf).
  - eapply sublist_fmap_NoDup; [exact Hsub|by apply IH].
Qed.

(** The row is a sealed copy of what a delivery in the history brought. *)
Definition genuine (es : list (InboundRequest * AdminState)) (f : InboundFax) : Prop :=
  exists r st0 org p n pdf sealed nonce, (r, st0) ∈ es /\ delivers (view st0) r org p n pdf sealed nonce /\ fresh_nonce nonce /\
    if_OrgID f = po_ID org /\ if_NumberID f = option_map pn_ID n /\ if_FileEnc f = sealed /\ if_FileSHA256 f = sum_hex pdf /\
    if_JobUUID f = ip_UUID p.

Lemma run_genuine es st st' : inbox_run es st st' -> rows_of st = [] -> forall f, f ∈ rows_of st' -> genuine es f.
Proof.
  assert (forall x es f, genuine es f -> genuine (x :: es) f) as Hcons.
  { intros x es' f (r & st0 & org & p & n & pdf & sealed & nonce & Hin & Hrest). exists r, st0, org, p, n, pdf, sealed, nonce.
    split; [by right|done]. }
  induction 1 as [|es st st' now nonce r Hrun IH Hn|es st st' st'' Hrun IH Hsub]; intros Hnone f Hf.
  - rewrite Hnone in Hf. by apply elem_of_nil in Hf.
  - pose proof (receive_rows now nonce r st') as Hr. destruct (handleInboundFax _ _ _ _ st') as [a st'']. simpl in *.
    destruct Hr as [E|(org & p & n & pdf & sealed & i & Hdel & E & _)]; rewrite E in Hf; [by apply Hcons, IH|].
    apply elem_of_app in Hf as [Hf|Hf]; [by apply Hcons, IH|]. apply list_elem_of_singleton in Hf as ->.
    exists r, st', org, p, n, pdf, sealed, nonce. split; [by left|]. by split_and!.
  - apply IH; [done|]. by eapply elem_of_sublist.
Qed.

(** The rows of one job. *)
Definition rows_of_job (k : Z * string) (l : list InboundFax) : list InboundFax := List.filter (fun f => bool_decide (job_key f = k)) l.

Lemma no_row k l : (forall f, f ∈ l -> job_key f <> k) -> rows_of_job k l = [].
Proof.
  unfold rows_of_job. induction l as [|g l IH]; intros Hl; [done|]. simpl. rewrite bool_decide_eq_false_2 by (apply Hl; by left).
  apply IH. intros f Hf. apply Hl. by right.
Qed.

Lemma one_row k l f : NoDup (map job_key l) -> f ∈ l -> job_key f = k -> length (rows_of_job k l) = 1%nat.
Proof.
  unfold rows_of_job. intros Hl Hf <-. revert Hl Hf. induction l as [|g l IH]; intros Hl Hf; [by apply elem_of_nil in Hf|].
  simpl in *. apply NoDup_cons in Hl as [Hg Hl]. apply elem_of_cons in Hf as [->|Hf].
  - rewrite bool_decide_eq_true_2 by done. simpl. f_equal. apply length_zero_iff_nil, no_row. intros f Hf Hk. destruct Hg.
    rewrite <- Hk. by apply list_elem_of_fmap_2.
  - rewrite bool_decide_eq_false_2; [by apply IH|]. intros Hk. destruct Hg. rewrite Hk. by apply list_elem_of_fmap_2.
Qed.

(** C32: a fax is stored once. Through any sequence of deliveries, repeated
    ones included, and of other operations, whatever statement fails, no two
    rows share organisation and job; and a delivery answered with success leaves
    exactly one row for its job in the organisation of its service account,
    which a first delivery has just added and a repeated one has found. *)
Theorem inbound_fax_stored_once es st st' now nonce r d : inbox_run es st st' -> NoDup (map job_key (rows_of st)) ->
  NoDup (map job_key (rows_of st')) /\
  ((handleInboundFax cfg now nonce r st').1 = Answer d ->
   let st'' := (handleInboundFax cfg now nonce r st').2 in
   exists org p, org ∈ tbl_rows (ps_orgs (as_portal st')) /\ po_SvcUsername org = ir_svc r /\ ir_payload r = Some p /\
     let mine := rows_of_job (po_ID org, ip_UUID p) in
     length (mine (rows_of st'')) = 1%nat /\
     match d with Duplicate => rows_of st'' = rows_of st' | Stored _ => mine (rows_of st') = [] end).
Proof.
  intros Hrun Hstart. pose proof (run_keys _ _ _ Hrun Hstart) as Hk. split; [done|]. intros Ha.
  pose proof (run_view false now nonce r st' ltac:(discriminate)) as Hd. rewrite Ha in Hd. cbv zeta.
  set (st'' := (handleInboundFax cfg now nonce r st').2) in *.
  destruct Hd as (org & p & n & pdf & sealed & Hdel & _ & Hd). exists org, p. destruct (dv_org _ _ _ _ _ _ _ _ Hdel) as (Ho & Hs & _).
  split; [done|]. split; [done|]. split; [apply (dv_payload _ _ _ _ _ _ _ _ Hdel)|].
  assert (forall f, job_key f = (po_ID org, ip_UUID p) <-> conflicts (inbound_row now p org n pdf sealed) f = true) as Hsame
    by (intros f; by rewrite conflicts_key).
  destruct d as [i|]; destruct Hd as [Hv Hd]; apply (f_equal vw_faxes) in Hv; change (vw_faxes (view st'')) with (rows_of st'') in Hv;
    rewrite Hv; change (vw_faxes (view st')) with (rows_of st') in *; simpl; change (vw_faxes (view st')) with (rows_of st').
  - assert (rows_of_job (po_ID org, ip_UUID p) (rows_of st') = []) as Hnone by (apply no_row; intros f Hf; rewrite Hsame, (Hd f Hf); done).
    split; [|done]. unfold rows_of_job in *. rewrite List.filter_app, Hnone. simpl. by rewrite bool_decide_eq_true_2.
  - destruct Hd as (f & Hf & Hf'). split; [|done]. apply (one_row _ _ f); [done..|]. by apply Hsame.
Qed.

(** ** What users read *)

Lemma awp_visible_fax h id uid oid (Q : answer InboundFax -> View -> Prop) v :
  (forall fax n, fax ∈ vw_faxes v -> if_ID fax = id -> if_OrgID fax = oid -> if_NumberID fax = Some n ->
     {| un_UserID := uid; un_NumberID := n |} ∈ vw_assigned v -> Q (Answer fax) v) ->
  (forall c e, Q (Reject c e) v) -> awp h (visible_fax id uid oid : AM InboundFax) Q v.
Proof.
  intros HQ HR. unfold visible_fax. apply awp_bind, awp_faxes, effect_first; [|intros _; destruct v; apply awp_bind, awp_reject, HR].
  apply awp_bind, awp_some_or; [|intros _; destruct v; apply HR]. intros fax Hfax. apply head_filter_elem in Hfax as [Hin Hid].
  apply Z.eqb_eq in Hid. destruct v as [ss pp us os ns asg fs up ab sv]. simpl in *. apply awp_bind. unfold userCanSeeInbound.
  destruct (if_NumberID fax) as [n|] eqn:En; [|apply awp_ret, awp_bind, awp_reject, HR].
  destruct (Z.eqb_spec (if_OrgID fax) oid) as [Ho|]; [|apply awp_ret, awp_bind, awp_reject, HR].
  apply awp_bind, awp_assigned_find; [|intros _; apply awp_ret, awp_bind, awp_reject, HR].
  apply awp_ret, awp_bind, awp_ensure; intros Hc; [|apply HR]. apply awp_ret. apply (HQ fax n); try done.
  unfold count_rows in Hc. simpl in Hc. destruct (List.filter _ asg) as [|un l] eqn:E; [done|].
  assert (In un (List.filter (fun un => (un_UserID un =? uid) && (un_NumberID un =? n)) asg)) as [Hun Hun2]%filter_In by (rewrite E; by left).
  reflect_bools. destruct un as [u' n']. simpl in *. subst. by apply list_elem_of_In.
Qed.

Lemma GetInboundFile_spec h id uid oid v :
  awp h (handleGetInboundFile cfg id uid oid : AM string) (fun a _ => forall pdf, a = Answer pdf ->
    exists fax n box, fax ∈ vw_faxes v /\ if_ID fax = id /\ if_OrgID fax = oid /\ if_NumberID fax = Some n /\
      {| un_UserID := uid; un_NumberID := n |} ∈ vw_assigned v /\ ic_FaxBox cfg = Some box /\
      OpenString box (if_FileEnc fax) = Some pdf /\ sum_hex pdf = if_FileSHA256 fax) v.
Proof.
  unfold handleGetInboundFile, serveInboundFile. apply awp_bind, awp_visible_fax; [|done]. intros fax n Hin Hid Ho Hn Ha.
  apply awp_bind, awp_some_or; [|done]. intros box Hbox. apply awp_bind, awp_some_or; [|done]. intros pdf Hpdf.
  apply awp_bind, awp_ensure; intros Hsum; [|done]. apply awp_ret. intros ? [= <-]. apply String.eqb_eq in Hsum.
  exists fax, n, box. by split_and!.
Qed.

(** A route of the user party answers only for a live session of a fax user
    of an active organisation. *)
Lemma user_route_answers {A} ev c (k : Z -> Z -> AM A) st a : (user_route ev c k st).1 = Answer a ->
  exists s u cookie org p', cl_cookie c = Some cookie /\ live (as_portal st) (ev_now ev) cookie s u /\ pu_Role u = RoleUser /\
    org ∈ orgs (as_portal st) /\ pu_OrgID u = Some (po_ID org) /\ po_Active org = true /\
    (k (pu_ID u) (po_ID org) (st <| as_portal := p' |>)).1 = Answer a.
Proof.
  unfold user_route. pose proof (middleware_user_sound ev c (as_portal st)) as Hm.
  destruct (middleware ev RealmUser c (as_portal st)) as [[r|ctx] p']; simpl; [by destruct r|].
  destruct (Hm ctx eq_refl) as (s & u & cookie & -> & Hc & Hl & Hr & org & Ho & Hu & Hact & _). unfold userScope, mbind, am_bind. simpl.
  rewrite Hu. simpl. intros Ha. exists s, u, cookie, org, p'. by split_and!.
Qed.

(** C31: a document a user downloads is theirs to see and what was sent.
    After any sequence of deliveries and other operations from an empty inbox,
    when the file route answers with a document, then the cookie is that of a
    live session of an active fax user of an active organisation, the document
    is stored for that organisation under a number assigned to that user, and it
    is byte for byte what an authorised delivery for a service account of that
    organisation brought for that very number. *)
Theorem inbox_documents_private es st0 st ev c id pdf : inbox_run es st0 st -> rows_of st0 = [] ->
  (user_route ev c (handleGetInboundFile cfg id) st).1 = Answer pdf ->
  exists s u cookie org, cl_cookie c = Some cookie /\ live (as_portal st) (ev_now ev) cookie s u /\ pu_Role u = RoleUser /\
    org ∈ orgs (as_portal st) /\ pu_OrgID u = Some (po_ID org) /\ po_Active org = true /\
    exists fax num r st1 org1 p sealed nonce, fax ∈ rows_of st /\ if_ID fax = id /\ if_OrgID fax = po_ID org /\
      {| un_UserID := pu_ID u; un_NumberID := pn_ID num |} ∈ rel_rows (as_assigned st) /\
      (r, st1) ∈ es /\ delivers (view st1) r org1 p (Some num) pdf sealed nonce /\ po_ID org1 = po_ID org.
Proof.
  intros Hrun Hempty Ha. destruct (user_route_answers _ _ _ _ _ Ha) as (s & u & cookie & org & p' & Hc & Hl & Hr & Ho & Hu & Hact & Hk).
  exists s, u, cookie, org. do 6 (split; [done|]).
  destruct (awp_run false _ _ (st <| as_portal := p' |>) (GetInboundFile_spec false id (pu_ID u) (po_ID org) _)) as [_ Hq]; [discriminate|].
  destruct (Hq pdf Hk) as (fax & n & box & Hin & Hid & Hoid & Hn & Has & Hbox & Hopen & _).
  destruct (run_genuine _ _ _ Hrun Hempty fax Hin) as (r & st1 & org1 & p & num & pdf1 & sealed & nonce & Hes & Hdel & Hfresh & Ho1 & Hn1 & Henc & _).
  rewrite Hn in Hn1. destruct num as [num|]; [|done]. injection Hn1 as ->.
  destruct (dv_sealed _ _ _ _ _ _ _ _ Hdel) as (box1 & Hbox1 & Hseal). rewrite Hbox in Hbox1. injection Hbox1 as <-.
  pose proof (sealed_opens _ _ _ _ Hfresh Hseal) as Hopen1. rewrite <- Henc, Hopen in Hopen1. injection Hopen1 as <-.
  exists fax, num, r, st1, org1, p, sealed, nonce. split_and!; try done; congruence.
Qed.

(** ** The other operations store no fax *)

Lemma tamed_find_faxes P : tamed (with_faxes (tbl_find P) : AM (option (list InboundFax))).
Proof.
  intros st. unfold with_faxes. pose proof (find_rows P (as_faxes st)) as Hr. destruct (tbl_find P _) as [l t]. simpl in Hr.
  split; [split; simpl; eauto|]. simpl. by rewrite Hr.
Qed.
Lemma tamed_first_fax P : tamed (with_faxes (tbl_first P) : AM (option InboundFax)).
Proof.
  intros st. unfold with_faxes. pose proof (first_rows P (as_faxes st)) as Hr. destruct (tbl_first P _) as [l t]. simpl in Hr.
  split; [split; simpl; eauto|]. simpl. by rewrite Hr.
Qed.
#[local] Hint Resolve tamed_find_faxes tamed_first_fax : tamed.

Lemma tamed_decorate faxes : tamed (decorateInbox faxes : AM (list inboxResp)).
Proof. unfold decorateInbox. tame. Qed.
Lemma tamed_visible id uid oid : tamed (visible_fax id uid oid : AM InboundFax).
Proof. unfold visible_fax, userCanSeeInbound. tame. Qed.
#[local] Hint Resolve tamed_decorate tamed_visible : tamed.

Lemma tamed_route {A} ev c (k : Z -> Z -> AM A) st : (forall uid oid, tamed (k uid oid)) ->
  sublist (rows_of (user_route ev c k st).2) (rows_of st).
Proof.
  intros Hk. unfold user_route. destruct (middleware ev RealmUser c (as_portal st)) as [[r|ctx] p']; [by destruct r|].
  unfold userScope, mbind, am_bind. destruct (currentUser ctx) as [[s u]|]; [|done]. destruct (currentOrgID ctx) as [oid|]; [|done].
  destruct (Hk (pu_ID u) oid (st <| as_portal := p' |>)) as [_ Hs]. exact Hs.
Qed.

(** The users' and the administrators' routes, and every request of
    [PortalAdminSpec]: none of them adds a row. *)
Theorem other_operations_store_no_fax order Box env req ev c id limit offset uuid number st :
  sublist (rows_of (serve order Box env req st).2) (rows_of st) /\
  sublist (rows_of (adminDeleteInbound id st).2) (rows_of st) /\
  sublist (rows_of (adminListInbound limit offset id uuid number st).2) (rows_of st) /\
  sublist (rows_of (user_route ev c (handleListInbox limit offset) st).2) (rows_of st) /\
  sublist (rows_of (user_route ev c (handleGetInbound id) st).2) (rows_of st) /\
  sublist (rows_of (user_route ev c (handleGetInboundFile cfg id) st).2) (rows_of st).
Proof.
  split_and!; [apply (serve_tamed order Box env req st)| | |apply tamed_route..]; intros.
  - apply (fun Ht : tamed (adminDeleteInbound id) => proj2 (Ht st)). unfold adminDeleteInbound. tame.
  - apply (fun Ht : tamed (adminListInbound limit offset id uuid number) => proj2 (Ht st)). unfold adminListInbound. tame.
  - unfold handleListInbox, number_ids. tame.
  - unfold handleGetInbound. tame.
  - unfold handleGetInboundFile, serveInboundFile. tame.
Qed.
End inbox.

(** ** One delivery, repeated *)

Section witnesses.
Import Office.

Definition vault : InboxConfig := {| ic_InboundAPIKey := "in-k3y"; ic_UploadMaxMB := 20; ic_FaxBox := Some "fax box" |}.

(** Ann, who has the number, is logged in. *)
Definition desk : Office := staffed <| as_portal ::= fun p => p <| ps_sessions :=
  fresh_table [{| ss_ID := 1; ss_TokenHash := HashToken "ann's"; ss_CSRFToken := "c"; ss_UserID := 1; ss_ExpiresAt := 1000; ss_CreatedAt := 0 |}] 2 [] |> |>.

Definition fax_in : InboundRequest := {|
  ir_APIKey := "in-k3y"; ir_FileSHA256 := ""; ir_svc := "svc_acme_x7"; ir_length := 300; ir_readable := true;
  ir_payload := Some {| ip_UUID := "u-1"; ip_CallerNumber := "16045550199"; ip_CallerName := ""; ip_CalleeNumber := "2505550100";
    ip_Pages := 1; ip_Ts := None; ip_FileData := EncodeToString "%PDF-1.7"; ip_CallPartial := false; ip_CallTotalPages := 1 |} |}.

Definition after_delivery : Office := (handleInboundFax vault 7 (Some "n") fax_in desk).2.

Definition ann_asks : Call := {| cl_method := "GET"; cl_cookie := Some "ann's"; cl_csrf := "" |}.
Definition at_five : ReqEnv := {| ev_now := 5; ev_ip := ""; ev_token := ""; ev_csrf := ""; ev_rnd := 0; ev_nonce := None |}.

Lemma one_delivery : inbox_run vault [(fax_in, desk)] desk after_delivery.
Proof. apply (run_receive vault [] desk desk 7 (Some "n") fax_in); [apply run_nil|]. by intros n [= <-]. Qed.

Lemma inbound_fax_stored_once_witness :
  (handleInboundFax vault 7 (Some "n") fax_in desk).1 = Answer (Stored 1) /\
  NoDup (map job_key (rows_of after_delivery)) /\
  ((handleInboundFax vault 9 (Some "m") fax_in after_delivery).1 = Answer Duplicate ->
   exists org p, org ∈ tbl_rows (ps_orgs (as_portal after_delivery)) /\ po_SvcUsername org = "svc_acme_x7" /\ ir_payload fax_in = Some p /\
     length (rows_of_job (po_ID org, ip_UUID p) (rows_of (handleInboundFax vault 9 (Some "m") fax_in after_delivery).2)) = 1%nat).
Proof.
  split; [by vm_compute|].
  destruct (inbound_fax_stored_once vault [(fax_in, desk)] desk after_delivery 9 (Some "m") fax_in Duplicate one_delivery) as [Hn Hd].
  { replace (rows_of desk) with (@nil InboundFax) by by vm_compute. apply NoDup_nil_2. }
  split; [exact Hn|]. intros Ha. destruct (Hd Ha) as (org & p & Ho & Hs & Hp & Hl & _). exists org, p. by split_and!.
Defined.

Example repeated_delivery_is_duplicate : (handleInboundFax vault 9 (Some "m") fax_in after_delivery).1 = Answer Duplicate.
Proof. by vm_compute. Qed.

Lemma inbox_documents_private_witness :
  (user_route at_five ann_asks (handleGetInboundFile vault 1) after_delivery).1 = Answer "%PDF-1.7" /\
  exists fax num r st1, fax ∈ rows_of after_delivery /\ if_ID fax = 1 /\ (r, st1) ∈ [(fax_in, desk)] /\
    {| un_UserID := 1; un_NumberID := pn_ID num |} ∈ rel_rows (as_assigned after_delivery).
Proof.
  assert ((user_route at_five ann_asks (handleGetInboundFile vault 1) after_delivery).1 = Answer "%PDF-1.7") as Ha by by vm_compute.
  split; [exact Ha|].
  assert (rows_of desk = []) as Hempty by by vm_compute.
  destruct (inbox_documents_private vault [(fax_in, desk)] desk after_delivery at_five ann_asks 1 "%PDF-1.7" one_delivery Hempty Ha)
    as (s & u & cookie & org & Hc & Hl & _ & _ & _ & _ & fax & num & r & st1 & org1 & p & sealed & nonce & Hin & Hid & _ & Has & Hes & _).
  exists fax, num, r, st1. split; [exact Hin|]. split; [exact Hid|]. split; [exact Hes|].
  assert (pu_ID u = 1) as <-; [|exact Has]. destruct Hl as (_ & Hs & _ & _ & _ & -> & _).
  assert (sess (as_portal after_delivery) = sess (as_portal desk)) as E by by vm_compute. rewrite E in Hs.
  apply list_elem_of_singleton in Hs as ->. reflexivity.
Defined.
End witnesses.
