(* ===== verification/PortalSend.v ===== *)
(** * PortalSend: sending a fax from the portal
    ([portal/internal/api/handlers_user.go], [handlers_convert.go])

    A user uploads a document, looks at its pages and confirms, or uploads and
    sends at once. What is sent goes to gofaxserver under the account of the
    user's organisation, and becomes a row of the user's jobs. The handlers run
    in a monad over the portal's tables, through [admin] over those of
    [PortalAdmin]. Audit rows are left out. *)

From S2P Require Import Prelude Store FaxJob Secrets Directory PortalModels PortalNotify PortalJobs RateLimit PortalAuth TenantUsers WebAdmin PortalUpstream PortalAdmin PortalInbox PortalClient PortalSender PortalConvert.

Record SendConfig := {
  sc_UploadMaxMB : Z; sc_SendRatePerHour : Z; sc_PrepareRatePerHour : Z; sc_Box : string; sc_PrepBox : string;
  sc_Converter : ConverterConfig;
}.

Record FormFile := { ff_name : string; ff_content : string; ff_readable : bool }.

(** A multipart form. *)
Record Form := { fm_file : option FormFile; fm_values : gmap string string }.
Definition FormValue (f : Form) (key : string) : string := default "" (fm_values f !! key).

(** What a request draws: the time, a UUID, nonces for the document and the
    pages, and whether a transaction begins and commits. *)
Record SendEnv := { se_now : Z; se_uuid : string; se_nonces : nat -> option string; se_tx : bool }.

(** [filepath.Base], [strings.TrimSuffix]. *)
Definition filepath_Base (p : string) : string :=
  if (p =? "")%string then "."
  else match trim_right_slashes p with
       | EmptyString => "/"
       | s => default "" (last (str_split "/" s))
       end.

Definition trim_suffix (s suf : string) : string :=
  if has_suffix s suf then str_take (String.length s - String.length suf) s else s.

Example filepath_Base_ex : filepath_Base "a/b.pdf" = "b.pdf" /\ filepath_Base "x//" = "x" /\ filepath_Base "" = "." /\ filepath_Base "//" = "/".
Proof. by vm_compute. Qed.

Definition prepareMIMEs (ext : string) : list string :=
  if (ext =? ".pdf")%string then ["application/pdf"]
  else if str_mem ext [".tif"; ".tiff"] then ["image/tiff"; "image/x-tiff"]
  else if (ext =? ".png")%string then ["image/png"]
  else if str_mem ext [".jpg"; ".jpeg"] then ["image/jpeg"]
  else if (ext =? ".docx")%string then ["application/zip"]
  else if (ext =? ".doc")%string then ["application/x-ole-storage"; "application/msword"]
  else [].

Definition mimeAllowed (ext sniffed : string) : bool := existsb (String.eqb sniffed) (prepareMIMEs ext).

Record PrepareReply := {
  pr_id : string; pr_filename : string; pr_pages : Z; pr_cover : bool; pr_fit_mode : string; pr_previews : list string;
  pr_expires_at : Z;
}.

(** "/faxes/prepare/ID/preview/PAGE". *)
Definition preview_url (id : string) (page : Z) : string := "/faxes/prepare/" +:+ id +:+ "/preview/" +:+ dec_string page.

Section send.
Context {TS TP TU TO TN TA TF TJ TQ TV W : Type} `{!Table TS Session} `{!Table TP PendingAuth}
  `{!Table TU PortalUser} `{!TableTx TU PortalUser} `{!Table TO PortalOrg} `{!Table TN PortalNumber}
  `{!Relation TA UserNumber} `{!Table TF InboundFax} `{!Table TJ PortalJob} `{!Relation TQ PreparedFax}
  `{!Relation TV PreparedFaxPreview} `{!Upstream W} `{!Sender W} `{Crypto}.
Variable cfg : SendConfig.
Variable en : Engines.
(** [http.DetectContentType]; the order of the numbers of a user. *)
Variable DetectContentType : string -> string.
Variable by_digits : list PortalNumber -> list PortalNumber.
#[local] Notation AdminState := (AdminState (TS := TS) (TP := TP) (TU := TU) (TO := TO) (TN := TN) (TA := TA) (TF := TF) (W := W)).
#[local] Notation AM := (AM (TS := TS) (TP := TP) (TU := TU) (TO := TO) (TN := TN) (TA := TA) (TF := TF) (W := W)).

Record SendState := {
  sd_admin : AdminState; sd_jobs : TJ; sd_prepared : TQ; sd_previews : TV;
  sd_sendLimit : RateLimiter; sd_prepareLimit : RateLimiter;
}.

Definition SM (A : Type) : Type := SendState -> answer A * SendState.

#[local] Instance sm_ret : MRet SM := fun A a st => (Answer a, st).
#[local] Instance sm_bind : MBind SM := fun A B f m st =>
  match m st with
  | (Answer a, st') => f a st'
  | (Reject code e, st') => (Reject code e, st')
  end.

Definition admin {A} (m : AM A) : SM A := fun st => let '(a, s) := m (sd_admin st) in (a, st <| sd_admin := s |>).
Definition refuse {A} (code : Z) (e : string) : SM A := fun st => (Reject code e, st).
Definition require (b : bool) (code : Z) (e : string) : SM () := if b then mret () else refuse code e.
Definition need {A} (o : option A) (code : Z) (e : string) : SM A :=
  match o with Some a => mret a | None => refuse code e end.

Definition with_jobs {A} (f : TJ -> A * TJ) : SM A := fun st =>
  let '(a, t) := f (sd_jobs st) in (Answer a, st <| sd_jobs := t |>).
Definition with_prepared {A} (f : TQ -> A * TQ) : SM A := fun st =>
  let '(a, t) := f (sd_prepared st) in (Answer a, st <| sd_prepared := t |>).
Definition with_previews {A} (f : TV -> A * TV) : SM A := fun st =>
  let '(a, t) := f (sd_previews st) in (Answer a, st <| sd_previews := t |>).
Definition send_allowed (now : Z) (key : string) (limit : Z) : SM bool := fun st =>
  let '(ok, l) := Allow now key limit (sd_sendLimit st) in (Answer ok, st <| sd_sendLimit := l |>).
Definition prepare_allowed (now : Z) (key : string) (limit : Z) : SM bool := fun st =>
  let '(ok, l) := Allow now key limit (sd_prepareLimit st) in (Answer ok, st <| sd_prepareLimit := l |>).

(** A transaction over the prepared documents: when it ends with [false] or
    cannot be committed, both tables have the rows it found. *)
Definition transaction (env : SendEnv) (m : SM bool) : SM bool := fun st =>
  let undo st' := st' <| sd_prepared ::= rel_restore (sd_prepared st) |> <| sd_previews ::= rel_restore (sd_previews st) |> in
  match m st with
  | (Answer ok, st') => if ok && se_tx env then (Answer true, st') else (Answer false, undo st')
  | (Reject code e, st') => (Reject code e, undo st')
  end.

(** ** The upload *)

Definition maxBytes : Z := wrap64 (Z.shiftl (sc_UploadMaxMB cfg) 20).

Definition readUpload (form : Form) : SM (string * string) :=
  file ← need (fm_file form) 400 "file field required";
  _ ← require (Z.of_nat (String.length (ff_content file)) <=? maxBytes) 413 "file too large";
  _ ← require (ff_readable file) 500 "failed reading upload";
  let data := str_take (Z.to_nat (wrap64 (maxBytes + 1))) (ff_content file) in
  _ ← require (Z.of_nat (String.length data) <=? maxBytes) 413 "file too large";
  _ ← require (0 <? Z.of_nat (String.length data)) 400 "empty file";
  mret (ff_name file, data).

(** ** Prepared documents *)

(** A failed statement aborts the transaction, so the next one fails too. *)
Definition deletePrepared (env : SendEnv) (id : string) : SM bool :=
  transaction env (
    ok ← with_previews (rel_delete (fun pv => (pp_PreparedFaxID pv =? id)%string));
    if (ok : bool) then with_prepared (rel_delete (fun p => (pf_ID p =? id)%string)) else mret false).

Definition gone {A} : SM A := refuse 410 "prepared document not found or expired".

Definition loadOwnedPrepared (env : SendEnv) (id : string) (userID : Z) : SM PreparedFax :=
  found ← with_prepared (rel_find (fun p => (pf_ID p =? id)%string && (pf_UserID p =? userID)));
  match found ≫= head with
  | None => gone
  | Some prep => if pf_ExpiresAt prep <? se_now env then (_ ← deletePrepared env (pf_ID prep); gone) else mret prep
  end.

(** The cover asked for, unless nothing is on it. *)
Definition cover_of (form : Form) : option CoverFields :=
  if str_mem (FormValue form "cover_enabled") ["true"; "1"; "on"] then
    let c := {| cf_To := FormValue form "cover_to"; cf_From := FormValue form "cover_from";
                cf_Subject := FormValue form "cover_subject"; cf_Comments := FormValue form "cover_comments" |} in
    if Empty c then None else Some c
  else None.

Definition convert_status (e : ConvertError) : Z :=
  match e with ErrUnsupportedType _ | ErrEmptyRender _ => 400 | ErrTooManyPages _ _ => 413 | OtherError _ => 500 end.

(** The pages sealed one by one, numbered from 1. *)
Fixpoint seal_previews (env : SendEnv) (id : string) (page : nat) (pngs : list string) : option (list PreparedFaxPreview) :=
  match pngs with
  | [] => Some []
  | png :: pngs' =>
      sealed ← SealString (sc_PrepBox cfg) (se_nonces env page) png;
      rest ← seal_previews env id (S page) pngs';
      Some ({| pp_PreparedFaxID := id; pp_Page := Z.of_nat page; pp_DataEnc := sealed |} :: rest)
  end.

Fixpoint insert_all (rows : list PreparedFaxPreview) : SM bool :=
  match rows with
  | [] => mret true
  | r :: rows' => ok ← with_previews (rel_insert r); if (ok : bool) then insert_all rows' else mret false
  end.

Definition prepared_row (env : SendEnv) (userID orgID : Z) (filename : string) (r : ConvertResult) (sealed : string) : PreparedFax :=
  {| pf_ID := se_uuid env; pf_UserID := userID; pf_OrgID := orgID; pf_Filename := filepath_Base filename;
     pf_Pages := cr_Pages r; pf_PreviewPages := Z.of_nat (length (cr_Previews r)); pf_FitMode := cr_FitMode r;
     pf_Cover := cr_Cover r; pf_DocEnc := sealed; pf_DocSHA256 := sum_hex (cr_PDF r);
     pf_DocBytes := Z.of_nat (String.length (cr_PDF r)); pf_CreatedAt := se_now env;
     pf_ExpiresAt := se_now env + cv_PrepareTTL (ApplyDefaults (sc_Converter cfg)) |}.

(** Up to the converted document. *)
Definition converted (env : SendEnv) (form : Form) (userID : Z) : SM (string * ConvertResult) :=
  _ ← require (cv_Enabled (sc_Converter cfg)) 404 "conversion is disabled";
  ok ← prepare_allowed (se_now env) ("prepare:" +:+ dec_string userID) (sc_PrepareRatePerHour cfg);
  _ ← require ok 429 "prepare rate limit exceeded";
  '(filename, data) ← readUpload form;
  let ext := to_lower (Ext filename) in
  _ ← require (str_mem ext AllowedExts) 400 "unsupported file type (pdf, tif, tiff, png, jpg, docx, doc)";
  _ ← require (mimeAllowed ext (DetectContentType data)) 400 "file content does not match its extension";
  mode ← need (ParseFitMode (FormValue form "fit_mode") (cv_DefaultFitMode (sc_Converter cfg))) 400 "invalid fit mode";
  match Convert en (ApplyDefaults (sc_Converter cfg)) filename data {| op_FitMode := mode; op_Cover := cover_of form |} with
  | inl e => refuse (convert_status e) "conversion failed"
  | inr r => mret (filename, r)
  end.

(** Seal and store. *)
Definition store_prepared (env : SendEnv) (filename : string) (r : ConvertResult) (userID orgID : Z) : SM PrepareReply :=
  docEnc ← need (SealString (sc_PrepBox cfg) (se_nonces env 0) (cr_PDF r)) 500 "failed to seal document";
  let prep := prepared_row env userID orgID filename r docEnc in
  previews ← need (seal_previews env (pf_ID prep) 1 (cr_Previews r)) 500 "failed to seal preview";
  stored ← transaction env (ok ← with_prepared (rel_insert prep); if (ok : bool) then insert_all previews else mret false);
  _ ← require stored 500 "failed to store prepared document";
  mret {| pr_id := pf_ID prep; pr_filename := pf_Filename prep; pr_pages := pf_Pages prep; pr_cover := pf_Cover prep;
          pr_fit_mode := pf_FitMode prep; pr_previews := map (fun pv => preview_url (pf_ID prep) (pp_Page pv)) previews;
          pr_expires_at := pf_ExpiresAt prep |}.

Definition handlePrepareFax (env : SendEnv) (form : Form) (userID orgID : Z) : SM PrepareReply :=
  '(filename, r) ← converted env form userID;
  store_prepared env filename r userID orgID.

(** [page]: [None] when the path holds no integer. *)
Definition handleGetPreparedPreview (env : SendEnv) (id : string) (page : option Z) (userID : Z) : SM string :=
  prep ← loadOwnedPrepared env id userID;
  n ← need page 400 "invalid page";
  _ ← require ((1 <=? n) && (n <=? pf_PreviewPages prep)) 400 "invalid page";
  found ← with_previews (rel_find (fun pv => (pp_PreparedFaxID pv =? pf_ID prep)%string && (pp_Page pv =? n)));
  row ← need (found ≫= head) 404 "preview not found";
  need (OpenString (sc_PrepBox cfg) (pp_DataEnc row)) 500 "failed to unseal preview".

Definition handleDeletePrepared (env : SendEnv) (id : string) (userID : Z) : SM () :=
  prep ← loadOwnedPrepared env id userID;
  _ ← deletePrepared env (pf_ID prep);
  mret ().

(** ** Sending *)

Definition prepared_document (prep : PreparedFax) : SM (string * string) :=
  data ← need (OpenString (sc_PrepBox cfg) (pf_DocEnc prep)) 500 "failed to unseal prepared document";
  _ ← require (sum_hex data =? pf_DocSHA256 prep)%string 500 "prepared document failed integrity check";
  mret (trim_suffix (filepath_Base (pf_Filename prep)) (Ext (pf_Filename prep)) +:+ ".pdf", data).

(** The document to send, and the prepared one it comes from. *)
Definition send_document (env : SendEnv) (form : Form) (userID : Z) : SM (option PreparedFax * (string * string)) :=
  let pid := trim_space (FormValue form "prepared_id") in
  if nonempty pid then
    prep ← loadOwnedPrepared env pid userID;
    doc ← prepared_document prep;
    mret (Some prep, doc)
  else
    '(f, d) ← readUpload form;
    _ ← require (str_mem (to_lower (Ext f)) allowedExts) 400 "unsupported file type (pdf, tif, tiff only)";
    _ ← require (str_mem (DetectContentType d) allowedContentTypes) 400 "unsupported content type";
    mret (None, (f, d)).

(** The organisation, and the password of its account. *)
Definition sender_account (orgID : Z) : SM (PortalOrg * string) :=
  found ← admin (with_orgs (tbl_first (has_id orgID)));
  org ← need found 403 "organization is inactive";
  _ ← require (po_Active org) 403 "organization is inactive";
  pass ← need (OpenString (sc_Box cfg) (po_SvcPasswordEnc org)) 500 "failed to unlock organization credentials";
  mret (org, pass).

Definition upstream_status (e : FxError) : Z :=
  match e with APIError code _ => if (400 <=? code) && (code <? 500) then code else 500 | _ => 500 end.

Definition new_job (now : Z) (uuid : string) (orgID userID : Z) (caller callee filename : string) : PortalJob :=
  {| pj_ID := 0; pj_JobUUID := uuid; pj_OrgID := orgID; pj_UserID := userID; pj_CallerNumber := caller;
     pj_CalleeNumber := callee; pj_OriginalFilename := filepath_Base filename; pj_Status := JobQueued; pj_Pages := 0;
     pj_TotalPages := 0; pj_Attempts := 0; pj_ResultText := ""; pj_LastError := ""; pj_SeenActive := false;
     pj_SubmittedAt := now; pj_CompletedAt := None; pj_UpdatedAt := now |}.

(** From the numbers on: who may call, the call upstream, the row. *)
Definition submit (env : SendEnv) (doc : string * string) (caller callee : string) (userID orgID : Z) : SM PortalJob :=
  rows ← admin (myNumbers by_digits userID orgID);
  let nums := default [] rows in
  _ ← require (negb (bool_decide (nums = []))) 403 "no outbound numbers assigned to your account";
  _ ← require (existsb (fun n => (pn_Number n =? caller)%string) nums) 403 "caller_number is not assigned to your account";
  '(org, pass) ← sender_account orgID;
  sent ← admin (FX (fx_SendFax (po_SvcUsername org) pass doc.1 doc.2 caller callee));
  match sent with
  | FxErr e => refuse (upstream_status e) ("upstream send failed: " +:+ Error e)
  | FxOk uuid =>
      made ← with_jobs (tbl_create (new_job (se_now env) uuid orgID userID caller callee doc.1));
      need made 500 "fax submitted upstream but failed to record job"
  end.

Definition handleSendFax (env : SendEnv) (form : Form) (userID orgID : Z) : SM PortalJob :=
  ok ← send_allowed (se_now env) ("send:" +:+ dec_string userID) (sc_SendRatePerHour cfg);
  _ ← require ok 429 "sending rate limit exceeded";
  '(prepared, doc) ← send_document env form userID;
  let caller := sanitizeNumber (FormValue form "caller_number") in
  let callee := sanitizeNumber (FormValue form "callee_number") in
  _ ← require (nonempty caller && (7 <=? String.length (sanitizeNumber callee))%nat) 400 "valid caller_number and callee_number required";
  job ← submit env doc caller callee userID orgID;
  _ ← match prepared with Some prep => deletePrepared env (pf_ID prep) | None => mret true end;
  mret job.

(** ** The user's jobs *)

Definition newest_jobs : list PortalJob -> list PortalJob := stable_sort (fun a b => pj_SubmittedAt b <? pj_SubmittedAt a).

Definition handleListJobs (limit offset : Z) (status_filter : string) (userID : Z) : SM (list PortalJob) :=
  found ← with_jobs (tbl_find (fun j => (pj_UserID j =? userID) &&
            (if nonempty status_filter then (pj_Status j =? status_filter)%string else true)));
  jobs ← need found 500 "failed to load jobs";
  mret (page (clampLimit limit 200) offset (newest_jobs jobs)).

Definition handleGetJob (id userID : Z) : SM PortalJob :=
  found ← with_jobs (tbl_first (fun j => pj_ID j =? id));
  job ← need found 404 "job not found";
  _ ← require (pj_UserID job =? userID) 404 "job not found";
  mret job.

(** ** The routes of the user party *)

Definition user_send {A} (ev : ReqEnv) (c : Call) (k : Z -> Z -> SM A) : SM A :=
  '(userID, orgID) ← admin (user_route ev c (fun u o => am_ret _ (u, o)));
  k userID orgID.

End send.
