(* ===== verification/PortalSendLogic.v ===== *)
(** * PortalSendLogic: reasoning about the sending handlers

    The program logic of [PortalLogic] for the monad of [PortalSend]: handlers
    run on the rows the tables hold, with the same two modes. *)

From S2P Require Import Prelude Store FaxJob Secrets Directory PortalModels PortalNotify PortalJobs RateLimit PortalAuth TenantUsers WebAdmin PortalUpstream PortalAdmin PortalLogic PortalInbox PortalClient PortalSender PortalConvert PortalSend.

Section logic.
Context {TS TP TU TO TN TA TF TJ TQ TV W : Type} `{!Table TS Session, !TableLaws TS Session}
  `{!Table TP PendingAuth, !TableLaws TP PendingAuth} `{!Table TU PortalUser, !TableLaws TU PortalUser}
  `{!TableTx TU PortalUser, !TableTxLaws TU PortalUser} `{!Table TO PortalOrg, !TableLaws TO PortalOrg}
  `{!Table TN PortalNumber, !TableLaws TN PortalNumber} `{!Relation TA UserNumber, !RelationLaws TA UserNumber}
  `{!Table TF InboundFax, !TableLaws TF InboundFax} `{!Table TJ PortalJob, !TableLaws TJ PortalJob}
  `{!Relation TQ PreparedFax, !RelationLaws TQ PreparedFax} `{!Relation TV PreparedFaxPreview, !RelationLaws TV PreparedFaxPreview}
  `{!Upstream W} `{!Sender W} `{Crypto}.
#[local] Notation AM := (AM (TS := TS) (TP := TP) (TU := TU) (TO := TO) (TN := TN) (TA := TA) (TF := TF) (W := W)).
#[local] Notation SendState := (SendState (TS := TS) (TP := TP) (TU := TU) (TO := TO) (TN := TN) (TA := TA) (TF := TF) (TJ := TJ) (TQ := TQ) (TV := TV) (W := W)).
#[local] Notation SM := (SM (TS := TS) (TP := TP) (TU := TU) (TO := TO) (TN := TN) (TA := TA) (TF := TF) (TJ := TJ) (TQ := TQ) (TV := TV) (W := W)).
#[local] Notation View := (View (W := W)).
#[local] Existing Instances sm_ret sm_bind.

Record SView := {
  sv_admin : View; sv_jobs : list PortalJob; sv_prepared : list PreparedFax; sv_previews : list PreparedFaxPreview;
  sv_limits : RateLimiter * RateLimiter;
}.

Definition sview (st : SendState) : SView :=
  {| sv_admin := view (sd_admin st); sv_jobs := tbl_rows (sd_jobs st); sv_prepared := rel_rows (sd_prepared st);
     sv_previews := rel_rows (sd_previews st); sv_limits := (sd_sendLimit st, sd_prepareLimit st) |}.

Record in_health (st : SendState) : Prop := {
  ih_admin : healthy (sd_admin st); ih_jobs : tbl_healthy (sd_jobs st); ih_prepared : rel_healthy (sd_prepared st);
  ih_previews : rel_healthy (sd_previews st);
}.

Definition swp {A} (h : bool) (m : SM A) (Q : answer A -> SView -> Prop) (v : SView) : Prop :=
  forall st, (h = true -> in_health st) -> sview st = v ->
    (h = true -> in_health (m st).2) /\ Q (m st).1 (sview (m st).2).

Lemma swp_run {A} h (m : SM A) Q st : swp h m Q (sview st) -> (h = true -> in_health st) ->
  (h = true -> in_health (m st).2) /\ Q (m st).1 (sview (m st).2).
Proof. intros Hm Hh. by apply Hm. Qed.

Lemma swp_mono {A} h (m : SM A) (Q Q' : answer A -> SView -> Prop) v :
  (forall r v', Q r v' -> Q' r v') -> swp h m Q v -> swp h m Q' v.
Proof. intros HQ Hm st Hh Hv. destruct (Hm st Hh Hv). auto. Qed.

Lemma swp_ret {A} h (a : A) Q v : Q (Answer a) v -> swp h (mret a) Q v.
Proof. by intros HQ st Hh <-. Qed.

Lemma swp_refuse {A} h code e (Q : answer A -> SView -> Prop) v : Q (Reject code e) v -> swp h (refuse code e) Q v.
Proof. by intros HQ st Hh <-. Qed.

Lemma swp_bind {A B} h (m : SM A) (f : A -> SM B) (Q : answer B -> SView -> Prop) v :
  swp h m (fun r v' => match r with Answer a => swp h (f a) Q v' | Reject code e => Q (Reject code e) v' end) v ->
  swp h (m ≫= f) Q v.
Proof.
  intros Hm st Hh Hv. destruct (Hm st Hh Hv) as [Hh' HQ]. unfold mbind, sm_bind.
  destruct (m st) as [[a|code e] st']; simpl in *; [by apply HQ|done].
Qed.

Lemma swp_require h b code e Q v :
  (b = true -> Q (Answer ()) v) -> (b = false -> Q (Reject code e) v) -> swp h (require b code e) Q v.
Proof. destruct b; simpl; intros; [by apply swp_ret; auto|by apply swp_refuse; auto]. Qed.

Lemma swp_need {A} h (o : option A) code e Q v :
  (forall a, o = Some a -> Q (Answer a) v) -> (o = None -> Q (Reject code e) v) -> swp h (need o code e) Q v.
Proof. destruct o; simpl; intros; [by apply swp_ret; auto|by apply swp_refuse; auto]. Qed.

Lemma swp_admin {A} h (m : AM A) Q v :
  awp h m (fun a va => Q a (v <| sv_admin := va |>)) (sv_admin v) -> swp h (admin m) Q v.
Proof.
  intros Hm st Hh <-. destruct (Hm (sd_admin st) (fun E => ih_admin _ (Hh E)) eq_refl) as [H1 H2].
  unfold admin. destruct (m (sd_admin st)) as [a s]; simpl in *. split; [|exact H2].
  intros E. destruct (Hh E). by split; auto.
Qed.

Lemma swp_jobs {A} h (f : TJ -> A * TJ) Q v :
  effect h f (fun a rows => Q (Answer a) (v <| sv_jobs := rows |>)) (sv_jobs v) -> swp h (with_jobs f) Q v.
Proof.
  intros Hf st Hh <-. destruct (Hf (sd_jobs st) (fun E => ih_jobs _ (Hh E)) eq_refl) as [H1 H2].
  unfold with_jobs. destruct (f (sd_jobs st)) as [a t]; simpl in *. split; [|exact H2].
  intros E. destruct (Hh E). by split; auto.
Qed.

Lemma swp_send_allowed h now key limit Q v :
  (let '(ok, l) := Allow now key limit (sv_limits v).1 in Q (Answer ok) (v <| sv_limits := (l, (sv_limits v).2) |>)) ->
  swp h (send_allowed now key limit) Q v.
Proof.
  intros HQ st Hh <-. unfold send_allowed. change (sv_limits (sview st)).1 with (sd_sendLimit st) in HQ.
  destruct (Allow now key limit (sd_sendLimit st)) as [ok l]; simpl in *. split; [|exact HQ]. intros E. by destruct (Hh E).
Qed.

Lemma swp_prepare_allowed h now key limit Q v :
  (let '(ok, l) := Allow now key limit (sv_limits v).2 in Q (Answer ok) (v <| sv_limits := ((sv_limits v).1, l) |>)) ->
  swp h (prepare_allowed now key limit) Q v.
Proof.
  intros HQ st Hh <-. unfold prepare_allowed. change (sv_limits (sview st)).2 with (sd_prepareLimit st) in HQ.
  destruct (Allow now key limit (sd_prepareLimit st)) as [ok l]; simpl in *. split; [|exact HQ]. intros E. by destruct (Hh E).
Qed.

(** Statements on relations. *)
Definition rel_effect {T R A} `{Relation T R} (h : bool) (f : T -> A * T) (Q : A -> list R -> Prop) (rows : list R) : Prop :=
  forall t, (h = true -> rel_healthy t) -> rel_rows t = rows ->
    (h = true -> rel_healthy (f t).2) /\ Q (f t).1 (rel_rows (f t).2).

Section effects.
Context {T R : Type} `{!EqDecision R} `{RelationLaws T R}.
Implicit Types (P : R -> bool) (rows : list R).

Lemma rel_effect_find h P (Q : option (list R) -> list R -> Prop) rows :
  Q (Some (List.filter P rows)) rows -> (h = false -> Q None rows) -> rel_effect h (rel_find P) Q rows.
Proof.
  intros Hs Hn t Hh <-. rewrite rel_find_rows. split; [intros Hm; by apply rel_healthy_find, Hh|].
  destruct (rel_find P t).1 as [l|] eqn:E; [by rewrite (rel_find_result _ _ _ E)|].
  destruct h; [|by apply Hn]. destruct (rel_healthy_find P t (Hh eq_refl)) as [[l Hl] _]. congruence.
Qed.

Lemma rel_effect_insert h r (Q : bool -> list R -> Prop) rows :
  (r ∉ rows -> Q true (rows ++ [r])) -> (h = false \/ r ∈ rows -> Q false rows) -> rel_effect h (rel_insert r) Q rows.
Proof.
  intros Hs Hn t Hh <-. split; [intros Hm; by apply rel_healthy_insert, Hh|].
  destruct (rel_insert r t).1 eqn:E.
  - destruct (rel_insert_ok _ _ E) as [-> ?]. by apply Hs.
  - rewrite (rel_insert_err _ _ E). apply Hn. destruct h; [right|by left].
    destruct (decide (r ∈ rel_rows t)) as [|Hno]; [done|].
    destruct (rel_healthy_insert r t (Hh eq_refl)) as [Hi _]. rewrite (Hi Hno) in E. done.
Qed.

Lemma rel_effect_delete h P (Q : bool -> list R -> Prop) rows :
  Q true (List.filter (fun r => negb (P r)) rows) -> (h = false -> Q false rows) -> rel_effect h (rel_delete P) Q rows.
Proof.
  intros Hs Hn t Hh <-. split; [intros Hm; by apply rel_healthy_delete, Hh|].
  destruct (rel_delete P t).1 eqn:E; [by rewrite (rel_delete_ok _ _ E)|].
  rewrite (rel_delete_err _ _ E). destruct h; [|by apply Hn]. destruct (rel_healthy_delete P t (Hh eq_refl)) as [Hl _]. congruence.
Qed.
End effects.

Lemma swp_prepared {A} h (f : TQ -> A * TQ) Q v :
  rel_effect h f (fun a rows => Q (Answer a) (v <| sv_prepared := rows |>)) (sv_prepared v) -> swp h (with_prepared f) Q v.
Proof.
  intros Hf st Hh <-. destruct (Hf (sd_prepared st) (fun E => ih_prepared _ (Hh E)) eq_refl) as [H1 H2].
  unfold with_prepared. destruct (f (sd_prepared st)) as [a t]; simpl in *. split; [|exact H2].
  intros E. destruct (Hh E). by split; auto.
Qed.

Lemma swp_previews {A} h (f : TV -> A * TV) Q v :
  rel_effect h f (fun a rows => Q (Answer a) (v <| sv_previews := rows |>)) (sv_previews v) -> swp h (with_previews f) Q v.
Proof.
  intros Hf st Hh <-. destruct (Hf (sd_previews st) (fun E => ih_previews _ (Hh E)) eq_refl) as [H1 H2].
  unfold with_previews. destruct (f (sd_previews st)) as [a t]; simpl in *. split; [|exact H2].
  intros E. destruct (Hh E). by split; auto.
Qed.

(** The rows are back when a transaction did not go through. *)
Lemma swp_transaction h env (m : SM bool) Q v :
  let back v' := v' <| sv_prepared := sv_prepared v |> <| sv_previews := sv_previews v |> in
  swp h m (fun r v' => match r with
    | Answer ok => if ok && se_tx env then Q (Answer true) v' else Q (Answer false) (back v')
    | Reject code e => Q (Reject code e) (back v')
    end) v -> swp h (transaction env m) Q v.
Proof.
  intros back Hm st Hh Hv. destruct (Hm st Hh Hv) as [H1 H2]. unfold transaction.
  set (undo := fun st' : SendState => st' <| sd_prepared ::= rel_restore (sd_prepared st) |> <| sd_previews ::= rel_restore (sd_previews st) |>).
  assert (forall st', (in_health st' -> in_health (undo st')) /\ sview (undo st') = back (sview st')) as Hundo.
  { intros st'. split.
    - intros []. split; simpl; auto using rel_healthy_restore.
    - unfold sview, back, undo. rewrite <- Hv. simpl. by rewrite !rel_restore_rows. }
  destruct (m st) as [[ok|code e] st']; cbn [fst snd] in *; [destruct (ok && se_tx env); [done|]|]; cbn [fst snd];
    change (st' <| sd_prepared ::= rel_restore (sd_prepared st) |> <| sd_previews ::= rel_restore (sd_previews st) |>) with (undo st');
    destruct (Hundo st') as [Hu1 Hu2]; rewrite Hu2; auto.
Qed.
End logic.

(** One step of a handler. *)
Ltac sstep := first
  [ apply swp_bind
  | apply swp_require; intros ?
  | apply swp_need; [intros ? ?|intros ?]
  | apply swp_ret | apply swp_refuse
  | apply swp_admin
  | apply swp_jobs | apply swp_prepared | apply swp_previews | apply swp_transaction ].
