(* ===== verification/PortalSendFacts.v ===== *)
(** * PortalSendFacts: who sends what, as whom

    A send that is answered with a job is one its user may make, goes out under
    the organisation's own account as one job of gofaxserver, and is recorded;
    one that is declined leaves nothing behind. What is sent from a prepared
    document is what the user's own upload was converted to. *)

From S2P Require Import Prelude Store FaxResult FaxJob Secrets Directory GatewayTemplates Gateways PortalModels PortalNotify PortalJobs RateLimit PortalAuth PortalSessions TenantUsers WebAdmin WebAdminFacts PortalUpstream PortalAdmin PortalLogic PortalMirror PortalAdminFacts PortalClient PortalAdminSpec PortalGuarantees PortalDemo PortalInbox PortalInboxFacts PortalSender PortalConvert PortalSend PortalSendLogic.

(** ** The middleware keeps the organisations *)

Section middleware.
Context {TS TP TU TO : Type} `{!Table TS Session, !TableLaws TS Session} `{!Table TP PendingAuth, !TableLaws TP PendingAuth}
  `{!Table TU PortalUser, !TableLaws TU PortalUser} `{!Table TO PortalOrg, !TableLaws TO PortalOrg} `{Crypto}.
#[local] Notation Portal := (Portal (TS := TS) (TP := TP) (TU := TU) (TO := TO)).
#[local] Existing Instances hm_ret hm_bind.
Implicit Types (p : Portal).

Lemma gates_orgs r c ctx p : hwp (gates r c ctx) (fun _ p' => orgs p' = orgs p) p.
Proof.
  assert (forall ctx p0, orgs p0 = orgs p -> hwp (requireUserRealm ctx) (fun _ p' => orgs p' = orgs p) p0) as Hu.
  { clear ctx. intros ctx p0 H0. unfold requireUserRealm. apply hwp_bind, hwp_or_reply; [|done]. intros [s u] _.
    apply hwp_bind, hwp_check; [|done]. intros _. apply hwp_bind, hwp_or_reply; [|done]. intros i _.
    apply hwp_bind, hwp_orgs_first. intros o p1 (_ & _ & _ & Ho & _) _. rewrite H0 in Ho.
    apply hwp_bind, hwp_or_reply; [|done]. intros org _. apply hwp_bind, hwp_check; [|done]. intros _. by apply hwp_check. }
  unfold gates. apply hwp_bind. unfold requireAuth. destruct (currentUser ctx) as [[s u]|]; [|by apply hwp_reply].
  apply hwp_bind, hwp_check; [|done]. intros _. apply hwp_check; [|done]. intros _. apply hwp_bind. destruct r.
  - by apply hwp_ret, hwp_ret.
  - eapply hwp_mono; [by apply Hu|]. simpl. intros [?|?] p' Hp'; [done|]. by apply hwp_ret.
  - unfold requireAdminRealm. destruct (currentUser ctx) as [[s' u']|]; [|by apply hwp_reply].
    apply hwp_check; [|done]. intros _. by apply hwp_ret.
Qed.

Lemma middleware_orgs ev r c p : orgs (middleware ev r c p).2 = orgs p.
Proof.
  unfold middleware. pose proof (authenticate_hwp ev (cl_cookie c) p) as [Ho _]. unfold mbind at 1, hm_bind at 1.
  destruct (authenticate _ _ p) as [[x|ctx] p']; simpl in *; unfold orgs in *; [by rewrite Ho|].
  etransitivity; [exact (gates_orgs r c ctx p')|]. unfold orgs. by rewrite Ho.
Qed.
End middleware.

Section sends.
Context {TS TP TU TO TN TA TF TJ TQ TV W : Type} `{!Table TS Session, !TableLaws TS Session}
  `{!Table TP PendingAuth, !TableLaws TP PendingAuth} `{!Table TU PortalUser, !TableLaws TU PortalUser}
  `{!TableTx TU PortalUser, !TableTxLaws TU PortalUser} `{!Table TO PortalOrg, !TableLaws TO PortalOrg}
  `{!Table TN PortalNumber, !TableLaws TN PortalNumber} `{!Relation TA UserNumber, !RelationLaws TA UserNumber}
  `{!Table TF InboundFax, !TableLaws TF InboundFax} `{!Table TJ PortalJob, !TableLaws TJ PortalJob}
  `{!Relation TQ PreparedFax, !RelationLaws TQ PreparedFax} `{!Relation TV PreparedFaxPreview, !RelationLaws TV PreparedFaxPreview}
  `{!Upstream W, !UpstreamLaws W} `{!Sender W, !SenderLaws W} `{Crypto, !CryptoLaws}.
Variable cfg : SendConfig.
Variable en : Engines.
Variable detect : string -> string.
Variable by_digits : list PortalNumber -> list PortalNumber.
Hypothesis by_digits_perm : forall l, by_digits l ≡ₚ l.
#[local] Notation AM := (AM (TS := TS) (TP := TP) (TU := TU) (TO := TO) (TN := TN) (TA := TA) (TF := TF) (W := W)).
#[local] Notation AdminState := (AdminState (TS := TS) (TP := TP) (TU := TU) (TO := TO) (TN := TN) (TA := TA) (TF := TF) (W := W)).
#[local] Notation SendState := (SendState (TS := TS) (TP := TP) (TU := TU) (TO := TO) (TN := TN) (TA := TA) (TF := TF) (TJ := TJ) (TQ := TQ) (TV := TV) (W := W)).
#[local] Notation SM := (SM (TS := TS) (TP := TP) (TU := TU) (TO := TO) (TN := TN) (TA := TA) (TF := TF) (TJ := TJ) (TQ := TQ) (TV := TV) (W := W)).
#[local] Notation View := (View (W := W)).
#[local] Notation SView := (SView (W := W)).
#[local] Existing Instances sm_ret sm_bind am_ret am_bind.
Implicit Types (v : SView) (va : View).

(** ** Who may call from where *)

(** An active number of the organisation that is assigned to the user. *)
Definition permitted va (userID orgID : Z) (caller : string) (num : PortalNumber) : Prop :=
  num ∈ vw_numbers va /\ pn_OrgID num = orgID /\ pn_Active num = true /\ pn_Number num = caller /\
  {| un_UserID := userID; un_NumberID := pn_ID num |} ∈ vw_assigned va.

Lemma awp_myNumbers h userID orgID (Q : answer (option (list PortalNumber)) -> View -> Prop) va :
  (forall ns, (forall n, n ∈ ns <-> permitted va userID orgID (pn_Number n) n) -> Q (Answer (Some ns)) va) ->
  (h = false -> Q (Answer None) va) -> awp h (myNumbers by_digits userID orgID : AM (option (list PortalNumber))) Q va.
Proof.
  intros HQ Hn. unfold myNumbers. apply awp_bind, awp_numbers, effect_find.
  - apply awp_bind, awp_assigned_rows. destruct va as [ss pp us os ns asg fs up ab sv]. simpl. apply awp_ret, HQ. intros n.
    rewrite by_digits_perm, !list_elem_of_In, filter_In, filter_In, existsb_exists. unfold permitted. simpl.
    setoid_rewrite <- list_elem_of_In. split.
    + intros ((Hin & Hb) & [i k] & Hun & Hk). reflect_bools. simpl in *. subst. by split_and!.
    + intros (Hin & <- & -> & _ & Hun). rewrite Z.eqb_refl. split; [done|]. exists {| un_UserID := userID; un_NumberID := pn_ID n |}.
      split; [done|]. simpl. by rewrite !Z.eqb_refl.
  - intros E. apply awp_bind, awp_assigned_rows. destruct va. by apply awp_ret, Hn.
Qed.

(** ** The call upstream and the row *)

(** A call from a permitted number, under the account of the active
    organisation, answered with the job's id; and its row. *)
Record goes_out va (jobs : list PortalJob) (userID orgID now : Z) (doc : string * string) (caller callee : string)
  (job : PortalJob) (w' : W) : Prop := {
  go_number : exists num, permitted va userID orgID caller num;
  go_sent : exists org pass uuid, org ∈ vw_orgs va /\ po_ID org = orgID /\ po_Active org = true /\
    OpenString (sc_Box cfg) (po_SvcPasswordEnc org) = Some pass /\
    fx_SendFax (po_SvcUsername org) pass doc.1 doc.2 caller callee (vw_up va) = (FxOk uuid, w') /\
    job = (new_job now uuid orgID userID caller callee doc.1) <| pj_ID := pj_ID job |>;
  go_fresh : 0 < pj_ID job /\ Forall (fun j => pj_ID j <> pj_ID job) jobs;
}.

Definition upstream v (w' : W) : SView := v <| sv_admin ::= fun va => va <| vw_up := w' |> |>.

(** A declined send: gofaxserver has taken in nothing, unless the answer is an
    internal error. *)
Definition declined v (code : Z) v' : Prop :=
  exists w', v' = upstream v w' /\ (up_jobs w' = up_jobs (vw_up (sv_admin v)) \/ code = 500).

Lemma declined_early v code : declined v code v.
Proof. exists (vw_up (sv_admin v)). split; [by destruct v as [[] ? ? ? ?]|by left]. Qed.

Definition submitted v env doc caller callee userID orgID (a : answer PortalJob) v' : Prop :=
  match a with
  | Answer job => exists w', goes_out (sv_admin v) (sv_jobs v) userID orgID (se_now env) doc caller callee job w' /\
      v' = (upstream v w') <| sv_jobs := sv_jobs v ++ [job] |>
  | Reject code _ => declined v code v'
  end.

Lemma swp_sender_account h orgID (Q : answer (PortalOrg * string) -> SView -> Prop) v :
  (forall org pass, org ∈ vw_orgs (sv_admin v) -> po_ID org = orgID -> po_Active org = true ->
     OpenString (sc_Box cfg) (po_SvcPasswordEnc org) = Some pass -> Q (Answer (org, pass)) v) ->
  (forall code e, Q (Reject code e) v) -> swp h (sender_account cfg orgID : SM (PortalOrg * string)) Q v.
Proof.
  intros HQ HR. unfold sender_account. sstep. sstep.
  apply awp_orgs, effect_first; [|intros _; sstep; sstep; [done|]; destruct v as [[] ? ? ? ?]; apply HR].
  replace (v <| sv_admin := (sv_admin v) <| vw_orgs := vw_orgs (sv_admin v) |> |>) with v by by destruct v as [[] ? ? ? ?].
  sstep. sstep; [|apply HR]. sstep. sstep; [|apply HR]. sstep. sstep; [|apply HR]. sstep.
  match goal with Ho : head _ = Some _ |- _ => apply head_filter_elem in Ho as [Ho Hid%Z.eqb_eq] end. by apply HQ.
Qed.

Lemma submit_from h v env doc caller callee userID orgID ns :
  (forall n, n ∈ ns -> permitted (sv_admin v) userID orgID (pn_Number n) n) ->
  swp h ((_ ← require (negb (bool_decide (ns = []))) 403 "no outbound numbers assigned to your account";
    _ ← require (existsb (fun n => (pn_Number n =? caller)%string) ns) 403 "caller_number is not assigned to your account";
    '(org, pass) ← sender_account cfg orgID;
    sent ← admin (FX (fx_SendFax (po_SvcUsername org) pass doc.1 doc.2 caller callee));
    match sent with
    | FxErr e => refuse (upstream_status e) ("upstream send failed: " +:+ Error e)
    | FxOk uuid =>
        made ← with_jobs (tbl_create (new_job (se_now env) uuid orgID userID caller callee doc.1));
        need made 500 "fax submitted upstream but failed to record job"
    end) : SM PortalJob) (submitted v env doc caller callee userID orgID) v.
Proof.
  intros Hns. do 2 (sstep; sstep; [|apply declined_early]).
  match goal with Hb : existsb _ ns = true |- _ => apply existsb_exists in Hb as (num & Hin%list_elem_of_In & Hnum%String.eqb_eq) end.
  specialize (Hns num Hin). rewrite Hnum in Hns. sstep. apply swp_sender_account; [|intros; apply declined_early].
  intros org pass Ho Hid Hact Hpass. cbn beta iota. sstep. sstep. apply awp_FX.
  destruct (fx_SendFax _ pass _ _ _ _ (vw_up (sv_admin v))) as [sent w'] eqn:Es. cbn [fst snd].
  destruct sent as [uuid|e]; sstep.
  - sstep. apply effect_create.
    + intros job Hjob Hpos Hfresh. sstep; [|done]. match goal with He : Some _ = Some _ |- _ => injection He as <- end.
      exists w'. split; [|by destruct v]. split; [by exists num|exists org, pass, uuid; by split_and!|by split].
    + intros _. sstep; [done|]. exists w'. split; [by destruct v|by right].
  - exists w'. split; [by destruct v|]. pose proof (send_err (po_SvcUsername org) pass doc.1 doc.2 caller callee (vw_up (sv_admin v))) as He.
    rewrite Es in He. destruct (He e eq_refl) as [->|[Hapi _]]; [by left|right]. destruct e as [?|code msg|? ?|]; try done.
    by destruct (Hapi code msg).
Qed.

Lemma submit_spec h v env doc caller callee userID orgID :
  swp h (submit cfg by_digits env doc caller callee userID orgID : SM PortalJob)
    (submitted v env doc caller callee userID orgID) v.
Proof.
  unfold submit. sstep. sstep. apply awp_myNumbers.
  - intros ns Hns. replace (v <| sv_admin := sv_admin v |>) with v by by destruct v. apply submit_from. intros n. by apply Hns.
  - intros _. replace (v <| sv_admin := sv_admin v |>) with v by by destruct v. apply (submit_from _ _ _ _ _ _ _ _ []).
    by intros n ?%elem_of_nil.
Qed.

(** ** Prepared documents *)

Definition cleared (id : string) v : SView :=
  v <| sv_previews ::= List.filter (fun pv => negb (pp_PreparedFaxID pv =? id)%string) |>
    <| sv_prepared ::= List.filter (fun p => negb (pf_ID p =? id)%string) |>.

Lemma swp_deletePrepared h env id (Q : answer bool -> SView -> Prop) v :
  Q (Answer true) (cleared id v) -> (h = false \/ se_tx env = false -> Q (Answer false) v) ->
  swp h (deletePrepared env id : SM bool) Q v.
Proof.
  intros HQ HN. unfold deletePrepared. sstep. cbv zeta. sstep. sstep.
  assert (forall v', v' <| sv_prepared := sv_prepared v |> <| sv_previews := sv_previews v |> = v -> h = false \/ se_tx env = false ->
    Q (Answer false) (v' <| sv_prepared := sv_prepared v |> <| sv_previews := sv_previews v |>)) as Hback by (intros v' ->; apply HN).
  apply rel_effect_delete; [|intros E; apply swp_ret, Hback; [by destruct v|by left]].
  sstep. apply rel_effect_delete; [|intros E; simpl; apply Hback; [by destruct v|by left]].
  destruct (se_tx env) eqn:Et; simpl; [by destruct v|apply Hback; [by destruct v|by right]].
Qed.

(** Whose it is and until when. *)
Definition owned (now : Z) (id : string) (userID : Z) v (prep : PreparedFax) : Prop :=
  prep ∈ sv_prepared v /\ pf_ID prep = id /\ pf_UserID prep = userID /\ now <= pf_ExpiresAt prep.

Lemma swp_loadOwnedPrepared h env id userID (Q : answer PreparedFax -> SView -> Prop) v :
  (forall prep, owned (se_now env) id userID v prep -> Q (Answer prep) v) ->
  (forall e, Q (Reject 410 e) v /\ Q (Reject 410 e) (cleared id v)) -> swp h (loadOwnedPrepared env id userID : SM PreparedFax) Q v.
Proof.
  intros HQ HR. unfold loadOwnedPrepared. sstep. sstep.
  replace (v <| sv_prepared := sv_prepared v |>) with v by by destruct v.
  apply rel_effect_find; [|intros _; apply swp_refuse; replace (v <| sv_prepared := sv_prepared v |>) with v by (by destruct v); apply HR].
  replace (v <| sv_prepared := sv_prepared v |>) with v by by destruct v.
  change (Some ?l ≫= head) with (head l). destruct (head _) as [prep|] eqn:Hp; [|apply swp_refuse, HR].
  apply head_filter_elem in Hp as [Hin Hb]. apply andb_true_iff in Hb as [Hid%String.eqb_eq Hu%Z.eqb_eq].
  destruct (Z.ltb_spec (pf_ExpiresAt prep) (se_now env)).
  - sstep. apply swp_deletePrepared; [|intros _]; apply swp_refuse; [rewrite Hid|]; apply HR.
  - sstep. by apply HQ.
Qed.

(** ** The document *)

Lemma max_room (n : nat) : Z.of_nat n <= maxBytes cfg -> (n <= Z.to_nat (wrap64 (maxBytes cfg + 1)))%nat.
Proof.
  intros Hn. pose proof (wrap64_range (Z.shiftl (sc_UploadMaxMB cfg) 20)) as Hr. fold (maxBytes cfg) in Hr.
  assert (maxBytes cfg <> int64_max) as Hne.
  { unfold maxBytes, wrap64, int64_max. rewrite Z.shiftl_mul_pow2 by lia. intros E.
    pose proof (Z.div_mod (sc_UploadMaxMB cfg * 2 ^ 20 + 2 ^ 63) (2 ^ 64) ltac:(lia)) as Hd.
    set (r := _ mod _) in *. set (q := _ / _) in Hd. clearbody q r. lia. }
  rewrite wrap64_small by (unfold int64_max in *; lia). lia.
Qed.

Lemma str_take_whole n s : (String.length s <= n)%nat -> str_take n s = s.
Proof. revert n. induction s as [|c s IH]; intros [|n]; simpl; try done; [lia|]. intros Hl. by rewrite IH by lia. Qed.

Lemma swp_readUpload h form (Q : answer (string * string) -> SView -> Prop) v :
  (forall file, fm_file form = Some file -> 0 < Z.of_nat (String.length (ff_content file)) <= maxBytes cfg ->
     Q (Answer (ff_name file, ff_content file)) v) ->
  (forall code e, Q (Reject code e) v) -> swp h (readUpload cfg form : SM (string * string)) Q v.
Proof.
  intros HQ HR. unfold readUpload. sstep. sstep; [|apply HR]. match goal with He : _ = Some ?f |- _ => rename f into file end.
  sstep. sstep; [|apply HR]. match goal with Hb : (_ <=? maxBytes cfg) = true |- _ => apply Z.leb_le in Hb; rename Hb into Hsize end.
  sstep. sstep; [|apply HR]. cbv zeta.
  rewrite (str_take_whole _ (ff_content file)) by (by apply max_room).
  sstep. sstep; [|apply HR]. sstep. sstep; [|apply HR]. sstep. apply HQ; [done|]. lia.
Qed.

(** Where a document to send may come from. *)
Definition sealed_copy now (form : Form) userID v (prep : PreparedFax) (doc : string * string) : Prop :=
  owned now (trim_space (FormValue form "prepared_id")) userID v prep /\
  OpenString (sc_PrepBox cfg) (pf_DocEnc prep) = Some doc.2 /\ sum_hex doc.2 = pf_DocSHA256 prep /\
  doc.1 = trim_suffix (filepath_Base (pf_Filename prep)) (Ext (pf_Filename prep)) +:+ ".pdf".

Definition raw_upload (form : Form) (doc : string * string) : Prop :=
  exists file, fm_file form = Some file /\ doc = (ff_name file, ff_content file) /\
    0 < Z.of_nat (String.length (ff_content file)) <= maxBytes cfg /\
    str_mem (to_lower (Ext (ff_name file))) allowedExts = true /\ str_mem (detect (ff_content file)) allowedContentTypes = true.

Definition document_of now form userID v (prep : option PreparedFax) (doc : string * string) : Prop :=
  match prep with
  | Some prep => nonempty (trim_space (FormValue form "prepared_id")) = true /\ sealed_copy now form userID v prep doc
  | None => nonempty (trim_space (FormValue form "prepared_id")) = false /\ raw_upload form doc
  end.

Lemma swp_send_document h env form userID (Q : answer (option PreparedFax * (string * string)) -> SView -> Prop) v :
  (forall prep doc, document_of (se_now env) form userID v prep doc -> Q (Answer (prep, doc)) v) ->
  (forall code e, Q (Reject code e) v /\ forall id, Q (Reject code e) (cleared id v)) ->
  swp h (send_document cfg detect env form userID : SM (option PreparedFax * (string * string))) Q v.
Proof.
  intros HQ HR. unfold send_document. cbv zeta. destruct (nonempty (trim_space _)) eqn:Hne.
  - sstep. apply swp_loadOwnedPrepared; [|intros e; split; [apply HR|apply (proj2 (HR _ _))]]. intros prep Hprep.
    sstep. unfold prepared_document. sstep. sstep; [|apply HR]. sstep. sstep; [|apply HR].
    match goal with Hb : (sum_hex _ =? _)%string = true |- _ => apply String.eqb_eq in Hb end.
    sstep. sstep. apply (HQ (Some prep)). by split_and!.
  - sstep. apply swp_readUpload; [|intros; apply HR]. intros file Hf Hsize. cbn beta iota.
    sstep. sstep; [|apply HR]. sstep. sstep; [|apply HR]. sstep. apply (HQ None). split; [done|]. exists file. destruct Hsize. by split_and!.
Qed.

(** ** The whole send *)

Definition sends h env form userID orgID v (a : answer PortalJob) v' : Prop :=
  let caller := sanitizeNumber (FormValue form "caller_number") in
  let callee := sanitizeNumber (FormValue form "callee_number") in
  sublist (sv_prepared v') (sv_prepared v) /\
  match a with
  | Answer job => exists prep doc w', document_of (se_now env) form userID v prep doc /\
      caller <> "" /\ (7 <= String.length (sanitizeNumber callee))%nat /\
      goes_out (sv_admin v) (sv_jobs v) userID orgID (se_now env) doc caller callee job w' /\
      sv_admin v' = sv_admin (upstream v w') /\ sv_jobs v' = sv_jobs v ++ [job] /\
      (h = true -> se_tx env = true -> forall p p', prep = Some p -> p' ∈ sv_prepared v' -> pf_ID p' <> pf_ID p)
  | Reject code _ => exists w', sv_admin v' = sv_admin (upstream v w') /\ sv_jobs v' = sv_jobs v /\
      (up_jobs w' = up_jobs (vw_up (sv_admin v)) \/ code = 500)
  end.

Lemma handleSendFax_spec h env form userID orgID v :
  swp h (handleSendFax cfg detect by_digits env form userID orgID : SM PortalJob) (sends h env form userID orgID v) v.
Proof.
  assert (forall v', sv_admin v' = sv_admin v -> sv_jobs v' = sv_jobs v -> sublist (sv_prepared v') (sv_prepared v) ->
    forall code e, sends h env form userID orgID v (Reject code e) v') as Hrej.
  { intros v' Ha Hj Hp code e. split; [done|]. exists (vw_up (sv_admin v)). split; [|split; [done|by left]].
    rewrite Ha. by destruct v as [[] ? ? ? ?]. }
  unfold handleSendFax. sstep. apply swp_send_allowed. destruct (Allow _ _ _ _) as [ok l].
  set (v1 := v <| sv_limits := (l, (sv_limits v).2) |>). sstep. sstep; [|by apply Hrej]. sstep.
  apply swp_send_document; [|intros code e; split; [by apply Hrej|]; intros id; apply Hrej; [done..|apply filter_sublist]].
  intros prep doc Hdoc. cbn beta iota. cbv zeta. sstep. sstep; [|by apply Hrej].
  match goal with Hb : _ && _ = true |- _ => apply andb_true_iff in Hb as [Hc%negb_true_iff%String.eqb_neq Hl%Nat.leb_le] end.
  sstep. eapply swp_mono; [|apply submit_spec]. intros [job|code e] v2; cbn beta iota.
  - intros (w' & Hout & ->). sstep.
    assert (forall v' r, sv_admin v' = sv_admin (upstream v w') -> sv_jobs v' = sv_jobs v ++ [job] -> sublist (sv_prepared v') (sv_prepared v) ->
      (h = true -> se_tx env = true -> forall p p', prep = Some p -> p' ∈ sv_prepared v' -> pf_ID p' <> pf_ID p) ->
      r = Answer job -> sends h env form userID orgID v r v') as Hdone.
    { intros v' r Ha Hj Hp Hgone ->. split; [done|]. exists prep, doc, w'. by split_and!. }
    destruct prep as [p|].
    + apply swp_deletePrepared.
      * sstep. apply Hdone; try done; [apply filter_sublist|]. intros _ _ p0 p' [= <-] Hp'.
        apply list_elem_of_In, filter_In in Hp' as [_ Hp']. by apply negb_true_iff, String.eqb_neq in Hp'.
      * intros Hfail. sstep. apply Hdone; try done. intros -> Htx. by destruct Hfail; [|rewrite Htx in *].
    + sstep. sstep. by apply Hdone.
  - intros (w' & -> & Hup). split; [done|]. by exists w'.
Qed.

(** ** Behind the session *)

(** What the middleware makes of the state. *)
Definition authenticated_as ev c (st : SendState) : SendState :=
  st <| sd_admin ::= fun a => a <| as_portal := (middleware ev RealmUser c (as_portal a)).2 |> |>.

Lemma route_state ev c (a : AdminState) :
  (user_route ev c (fun u o => am_ret _ (u, o)) a).2 = a <| as_portal := (middleware ev RealmUser c (as_portal a)).2 |>.
Proof.
  unfold user_route, userScope, mbind, am_bind, am_ret. destruct (middleware ev RealmUser c (as_portal a)) as [[r|ctx] p']; simpl;
    [by destruct r|]. destruct (currentUser ctx) as [[s u]|]; [|done]. by destruct (currentOrgID ctx).
Qed.

(** The user's live session and active organisation. *)
Definition session_of ev c (st : SendState) (u : PortalUser) (org : PortalOrg) : Prop :=
  exists s cookie, cl_cookie c = Some cookie /\ live (as_portal (sd_admin st)) (ev_now ev) cookie s u /\ pu_Role u = RoleUser /\
    org ∈ orgs (as_portal (sd_admin st)) /\ pu_OrgID u = Some (po_ID org) /\ po_Active org = true.

Lemma user_send_answers {A} ev c (k : Z -> Z -> SM A) st a : (user_send ev c k st).1 = Answer a ->
  exists u org, session_of ev c st u org /\
    k (pu_ID u) (po_ID org) (authenticated_as ev c st) = (Answer a, (user_send ev c k st).2).
Proof.
  unfold user_send, mbind, sm_bind, admin. pose proof (route_state ev c (sd_admin st)) as Hst.
  pose proof (user_route_answers ev c (fun u o => am_ret _ (u, o)) (sd_admin st)) as Hans.
  destruct (user_route _ _ _ (sd_admin st)) as [[[uid oid]|code e] s1]; simpl in *; [|done].
  destruct (Hans _ eq_refl) as (s & u & cookie & org & p' & Hc & Hl & Hr & Ho & Hu & Hact & [= <- <-]).
  intros Ha. exists u, org. split; [by exists s, cookie|]. unfold authenticated_as. rewrite Hst in *.
  destruct (k _ _ _) as [r st']. simpl in *. by rewrite Ha.
Qed.

Lemma authenticated_view ev c st : let v := sview st in let v1 := sview (authenticated_as ev c st) in
  sv_jobs v1 = sv_jobs v /\ sv_prepared v1 = sv_prepared v /\ vw_orgs (sv_admin v1) = vw_orgs (sv_admin v) /\
  vw_numbers (sv_admin v1) = vw_numbers (sv_admin v) /\ vw_assigned (sv_admin v1) = vw_assigned (sv_admin v) /\
  vw_up (sv_admin v1) = vw_up (sv_admin v).
Proof. cbv zeta. split_and!; try done. exact (middleware_orgs ev RealmUser c (as_portal (sd_admin st))). Qed.

Definition jobs_of (st : SendState) : list PortalJob := tbl_rows (sd_jobs st).
Definition world (st : SendState) : W := as_up (sd_admin st).

(** C35: a send that the portal answers with a job is one its user may make,
    and it has gone out. The cookie is that of a live session of an active fax
    user of an active organisation; the caller is an active number of that
    organisation assigned to that user; gofaxserver has taken it in under the
    organisation's account and password: its queue has grown by one job, from
    that caller to the number asked for, and the account's tenant owns the
    caller; and the portal's jobs have grown by one row, the user's, that names
    it. *)
Theorem sends_are_authorised ev c env form st job :
  up_ok (world st) -> (user_send ev c (handleSendFax cfg detect by_digits env form) st).1 = Answer job ->
  let st' := (user_send ev c (handleSendFax cfg detect by_digits env form) st).2 in
  exists u org, session_of ev c st u org /\ pj_UserID job = pu_ID u /\ pj_OrgID job = po_ID org /\
    pj_CallerNumber job = sanitizeNumber (FormValue form "caller_number") /\
    pj_CalleeNumber job = sanitizeNumber (FormValue form "callee_number") /\
    (exists num, permitted (view (sd_admin st)) (pu_ID u) (po_ID org) (pj_CallerNumber job) num) /\
    jobs_of st' = jobs_of st ++ [job] /\ pj_Status job = JobQueued /\ pj_SubmittedAt job = se_now env /\
    exists own pass fax tn, own ∈ vw_orgs (view (sd_admin st)) /\ po_ID own = po_ID org /\
      OpenString (sc_Box cfg) (po_SvcPasswordEnc own) = Some pass /\
      up_jobs (world st') = up_jobs (world st) ++ [fax] /\ job_text fax = pj_JobUUID job /\
      portal_job (pj_CallerNumber job) (pj_CalleeNumber job) fax /\ tn ∈ up_numbers (world st) /\
      tn_Number tn = pj_CallerNumber job /\ up_serves (world st) (po_SvcUsername own) pass (tn_TenantID tn).
Proof.
  intros Hok Ha st'. destruct (user_send_answers _ _ _ _ _ Ha) as (u & org & Hsess & Hrun). exists u, org. split; [done|].
  set (st1 := authenticated_as ev c st) in *. destruct (authenticated_view ev c st) as (Hj & _ & Ho & Hn & Hasg & Hup). fold st1 in Hj, Ho, Hn, Hasg, Hup.
  destruct (swp_run false _ _ st1 (handleSendFax_spec false env form (pu_ID u) (po_ID org) (sview st1)) ltac:(discriminate)) as [_ [_ Hq]].
  rewrite Hrun in Hq. cbn [fst snd] in Hq. fold st' in Hq.
  destruct Hq as (prep & doc & w' & _ & _ & _ & [[num Hnum] (own & pass & uuid & Hown & Hid & _ & Hpass & Hsent & Hjob) _] & Hadm & Hjobs & _).
  assert (vw_up (sv_admin (sview st')) = w') as Hw by (by rewrite Hadm). change (vw_up (sv_admin (sview st'))) with (world st') in Hw.
  rewrite Hup in Hsent. change (vw_up (sv_admin (sview st))) with (world st) in Hsent.
  pose proof (send_ok (po_SvcUsername own) pass doc.1 doc.2 (sanitizeNumber (FormValue form "caller_number"))
    (sanitizeNumber (FormValue form "callee_number")) (world st) uuid Hok) as Hs.
  rewrite Hsent in Hs. destruct (Hs eq_refl) as (fax & tn & Hq & Htext & Hpj & Htn & Hcall & Hserves).
  assert (pj_JobUUID job = uuid /\ pj_UserID job = pu_ID u /\ pj_OrgID job = po_ID org /\
    pj_CallerNumber job = sanitizeNumber (FormValue form "caller_number") /\
    pj_CalleeNumber job = sanitizeNumber (FormValue form "callee_number") /\
    pj_Status job = JobQueued /\ pj_SubmittedAt job = se_now env) as (-> & -> & -> & -> & -> & -> & ->) by (by rewrite Hjob).
  do 4 (split; [done|]). split; [exists num; unfold permitted in *; by rewrite Hn, Hasg in Hnum|].
  split; [change (jobs_of st') with (sv_jobs (sview st')); by rewrite Hjobs, Hj|]. do 2 (split; [done|]).
  exists own, pass, fax, tn. rewrite Ho in Hown. split; [exact Hown|]. split; [done|]. split; [done|]. rewrite Hw. by split_and!.
Qed.

(** A send that is declined leaves no row, and unless it is declined as an
    internal error gofaxserver has taken in nothing. *)
Theorem declined_sends_leave_nothing env form userID orgID st code e :
  (handleSendFax cfg detect by_digits env form userID orgID st).1 = Reject code e ->
  let st' := (handleSendFax cfg detect by_digits env form userID orgID st).2 in
  jobs_of st' = jobs_of st /\ (up_jobs (world st') = up_jobs (world st) \/ code = 500).
Proof.
  intros Ha st'. destruct (swp_run false _ _ st (handleSendFax_spec false env form userID orgID (sview st)) ltac:(discriminate)) as [_ [_ Hq]].
  rewrite Ha in Hq. destruct Hq as (w' & Hadm & Hj & Hup). fold st' in Hadm, Hj. split; [exact Hj|].
  change (world st') with (vw_up (sv_admin (sview st'))). rewrite Hadm. exact Hup.
Qed.

(** ** From an upload to what is sent *)

(** What a form converts to. *)
Definition converts_to (form : Form) (name : string) (r : ConvertResult) : Prop :=
  exists file mode, fm_file form = Some file /\ name = ff_name file /\
    ParseFitMode (FormValue form "fit_mode") (cv_DefaultFitMode (sc_Converter cfg)) = Some mode /\
    Convert en (ApplyDefaults (sc_Converter cfg)) name (ff_content file) {| op_FitMode := mode; op_Cover := cover_of form |} = inr r.

(** The tables of documents and jobs, and everything else of the portal. *)
Definition same_tables v v' : Prop :=
  sv_admin v' = sv_admin v /\ sv_jobs v' = sv_jobs v /\ sv_prepared v' = sv_prepared v /\ sv_previews v' = sv_previews v.

Lemma converted_spec h env form userID v :
  swp h (converted cfg en detect env form userID : SM (string * ConvertResult))
    (fun a v' => same_tables v v' /\ forall name r, a = Answer (name, r) -> converts_to form name r) v.
Proof.
  unfold converted. sstep. sstep; [|done]. sstep. apply swp_prepare_allowed. destruct (Allow _ _ _ _) as [ok l].
  sstep. sstep; [|done]. sstep. apply swp_readUpload; [|done]. intros file Hf _. cbn beta iota. cbv zeta.
  sstep. sstep; [|done]. sstep. sstep; [|done]. sstep. sstep; [|done].
  destruct (Convert _ _ _ _ _) as [e|r] eqn:Ec; sstep; [done|]. split; [done|]. intros ? ? [= <- <-].
  eexists file, _. by split_and!.
Qed.

Lemma swp_insert_all h rows (Q : answer bool -> SView -> Prop) v :
  (forall b pvs, Q (Answer b) (v <| sv_previews := pvs |>)) -> swp h (insert_all rows : SM bool) Q v.
Proof.
  revert v. induction rows as [|r rows IH]; intros v HQ; cbn [insert_all].
  - sstep. replace v with (v <| sv_previews := sv_previews v |>) by by destruct v. apply HQ.
  - sstep. sstep. apply rel_effect_insert; intros _; [|apply swp_ret, HQ]. apply IH. intros b pvs. exact (HQ b pvs).
Qed.

Lemma store_prepared_spec h env name r userID orgID v :
  swp h (store_prepared cfg env name r userID orgID : SM PrepareReply) (fun a v' =>
    sv_admin v' = sv_admin v /\ sv_jobs v' = sv_jobs v /\
    match a with
    | Answer _ => exists sealed, SealString (sc_PrepBox cfg) (se_nonces env 0) (cr_PDF r) = Some sealed /\
        sv_prepared v' = sv_prepared v ++ [prepared_row cfg env userID orgID name r sealed]
    | Reject _ _ => sv_prepared v' = sv_prepared v
    end) v.
Proof.
  unfold store_prepared. sstep. sstep; [|done]. cbv zeta. sstep. sstep; [|done]. sstep. sstep. cbv zeta. sstep. sstep.
  apply rel_effect_insert; intros _; [|sstep; simpl; sstep; sstep; done].
  apply swp_insert_all. intros b pvs. destruct (b && se_tx env); sstep; sstep; try done. sstep. split; [done|]. split; [done|]. eauto.
Qed.

(** Prepares that were answered, among operations that store no document; the
    requests are kept. *)
Inductive prep_run : list (SendEnv * Form * Z) -> SendState -> SendState -> Prop :=
| prep_nil st : prep_run [] st st
| prep_stored es st0 st env form userID orgID reply : prep_run es st0 st ->
    (handlePrepareFax cfg en detect env form userID orgID st).1 = Answer reply -> fresh_nonce (se_nonces env 0) ->
    prep_run ((env, form, userID) :: es) st0 (handlePrepareFax cfg en detect env form userID orgID st).2
| prep_other es st0 st st' : prep_run es st0 st -> sublist (rel_rows (sd_prepared st')) (rel_rows (sd_prepared st)) ->
    prep_run es st0 st'.

(** A stored document is what its user's upload was converted to. *)
Definition genuine (es : list (SendEnv * Form * Z)) (p : PreparedFax) : Prop :=
  exists env form name r, (env, form, pf_UserID p) ∈ es /\ converts_to form name r /\
    OpenString (sc_PrepBox cfg) (pf_DocEnc p) = Some (cr_PDF r) /\ pf_Filename p = filepath_Base name /\
    pf_ExpiresAt p = se_now env + cv_PrepareTTL (ApplyDefaults (sc_Converter cfg)).

Lemma handlePrepareFax_spec h env form userID orgID v :
  swp h (handlePrepareFax cfg en detect env form userID orgID : SM PrepareReply) (fun a v' =>
    sv_admin v' = sv_admin v /\ sv_jobs v' = sv_jobs v /\
    match a with
    | Answer _ => exists name r sealed, converts_to form name r /\
        SealString (sc_PrepBox cfg) (se_nonces env 0) (cr_PDF r) = Some sealed /\
        sv_prepared v' = sv_prepared v ++ [prepared_row cfg env userID orgID name r sealed]
    | Reject _ _ => sv_prepared v' = sv_prepared v
    end) v.
Proof.
  unfold handlePrepareFax. apply swp_bind. eapply swp_mono; [|apply converted_spec].
  intros [[name r]|code e] v1 [(Ha & Hj & Hp & _) Hc]; [|done]. cbn beta iota.
  eapply swp_mono; [|apply store_prepared_spec]. intros a v2 (Ha2 & Hj2 & H2). rewrite Ha in Ha2. rewrite Hj in Hj2. rewrite Hp in H2.
  split; [done|]. split; [done|]. destruct a; [|done]. destruct H2 as (sealed & Hs & Hrow). exists name, r, sealed.
  split; [by apply Hc|done].
Qed.

Lemma run_is_genuine es st0 st : prep_run es st0 st -> rel_rows (sd_prepared st0) = [] ->
  forall p, p ∈ rel_rows (sd_prepared st) -> genuine es p.
Proof.
  intros Hrun Hempty. induction Hrun as [st|es st0 st env form userID orgID reply Hrun IH Ha Hn|es st0 st st' Hrun IH Hsub].
  - rewrite Hempty. by intros p ?%elem_of_nil.
  - specialize (IH Hempty).
    destruct (swp_run false _ _ st (handlePrepareFax_spec false env form userID orgID (sview st)) ltac:(discriminate)) as [_ (_ & _ & Hq)].
    rewrite Ha in Hq. destruct Hq as (name & r & sealed & Hc & Hs & Hrows). simpl in Hrows. rewrite Hrows. intros p [Hp|Hp]%elem_of_app.
    + destruct (IH p Hp) as (env1 & form1 & name1 & r1 & Hin & Hrest). exists env1, form1, name1, r1. split; [by right|done].
    + apply list_elem_of_singleton in Hp as ->. exists env, form, name, r. split; [by left|]. split; [done|].
      split; [exact (sealed_opens _ _ _ _ Hn Hs)|done].
  - intros p Hp. apply IH; [done|]. by eapply elem_of_sublist.
Qed.

(** C36: what is sent from a prepared document is what the sender's own
    upload was converted to, byte for byte: after any prepares and other
    operations from an empty table, a send that names a prepared document and is
    answered with a job has handed gofaxserver, under that job's id, the output
    of a conversion of a document this very user uploaded, no longer ago than
    prepared documents are kept; and on a database that answers the copy is
    gone. *)
Theorem prepared_document_sent es st0 st env form userID orgID job :
  prep_run es st0 st -> rel_rows (sd_prepared st0) = [] ->
  nonempty (trim_space (FormValue form "prepared_id")) = true ->
  (handleSendFax cfg detect by_digits env form userID orgID st).1 = Answer job ->
  let st' := (handleSendFax cfg detect by_digits env form userID orgID st).2 in
  exists env0 form0 name r org pass, (env0, form0, userID) ∈ es /\ converts_to form0 name r /\
    se_now env <= se_now env0 + cv_PrepareTTL (ApplyDefaults (sc_Converter cfg)) /\ cr_Pages r <= cv_MaxPages (ApplyDefaults (sc_Converter cfg)) /\
    fx_SendFax (po_SvcUsername org) pass (trim_suffix (filepath_Base (filepath_Base name)) (Ext (filepath_Base name)) +:+ ".pdf") (cr_PDF r)
      (pj_CallerNumber job) (pj_CalleeNumber job) (world st) = (FxOk (pj_JobUUID job), world st') /\
    (in_health st -> se_tx env = true ->
       forall p, p ∈ rel_rows (sd_prepared st') -> pf_ID p <> trim_space (FormValue form "prepared_id")).
Proof.
  intros Hrun Hempty Hne Ha st'. pose proof (run_is_genuine _ _ _ Hrun Hempty) as Hgen.
  destruct (swp_run false _ _ st (handleSendFax_spec false env form userID orgID (sview st)) ltac:(discriminate)) as [_ [_ Hq]].
  rewrite Ha in Hq. destruct Hq as (prep & doc & w' & Hdoc & _ & _ & [_ (org & pass & uuid & _ & _ & _ & _ & Hsent & Hjob) _] & Hadm & _).
  fold st' in Hadm. destruct prep as [p|]; [|by destruct Hdoc as [Hn _]; rewrite Hne in Hn].
  destruct Hdoc as (_ & (Hin & Hpid & Huser & Hexp) & Hopen & _ & Hname).
  destruct (Hgen p Hin) as (env0 & form0 & name & r & Hes & Hconv & Hpdf & Hfile & Httl).
  exists env0, form0, name, r, org, pass. rewrite Huser in Hes. split; [done|]. split; [done|]. split; [lia|].
  split; [destruct Hconv as (? & ? & _ & _ & _ & Hc); by apply Convert_promises in Hc as (_ & _ & ? & _)|].
  rewrite Hopen in Hpdf. injection Hpdf as Hpdf. rewrite <- Hpdf, <- Hfile, <- Hname. split.
  - assert (world st' = w') as -> by exact (f_equal vw_up Hadm).
    assert (pj_CallerNumber job = sanitizeNumber (FormValue form "caller_number") /\
      pj_CalleeNumber job = sanitizeNumber (FormValue form "callee_number") /\ pj_JobUUID job = uuid) as (-> & -> & ->) by (by rewrite Hjob).
    exact Hsent.
  - intros Hh Htx q Hq. clear Hgen Hjob Hsent.
    destruct (swp_run true _ _ st (handleSendFax_spec true env form userID orgID (sview st)) (fun _ => Hh)) as [_ [_ Hq']].
    rewrite Ha in Hq'. destruct Hq' as (prep' & doc' & w2 & Hdoc' & _ & _ & _ & _ & _ & Hgone).
    destruct prep' as [p'|]; [|by destruct Hdoc' as [Hn _]; rewrite Hne in Hn]. destruct Hdoc' as (_ & (_ & Hpid' & _) & _).
    rewrite <- Hpid'. by apply (Hgone eq_refl Htx p' q).
Qed.

(** Only an answered prepare adds a document. *)
Theorem other_operations_store_no_document env form userID orgID id pg st code e :
  let rows (s : SendState) := rel_rows (sd_prepared s) in
  sublist (rows (handleSendFax cfg detect by_digits env form userID orgID st).2) (rows st) /\
  sublist (rows (handleGetPreparedPreview cfg env id pg userID st).2) (rows st) /\
  sublist (rows (handleDeletePrepared env id userID st).2) (rows st) /\
  ((handlePrepareFax cfg en detect env form userID orgID st).1 = Reject code e ->
   rows (handlePrepareFax cfg en detect env form userID orgID st).2 = rows st).
Proof.
  cbv zeta.
  assert (forall A (m : SM A), swp false m (fun _ v' => sublist (sv_prepared v') (rel_rows (sd_prepared st))) (sview st) ->
    sublist (rel_rows (sd_prepared (m st).2)) (rel_rows (sd_prepared st))) as Hrun.
  { intros A m Hm. exact (proj2 (swp_run false m _ st Hm ltac:(discriminate))). }
  assert (forall v, sv_prepared v = rel_rows (sd_prepared st) -> forall i, sublist (sv_prepared (cleared i v)) (rel_rows (sd_prepared st))) as Hclear.
  { intros v <- i. apply filter_sublist. }
  split_and!.
  - apply Hrun. eapply swp_mono; [|apply handleSendFax_spec]. by intros r v' [Hs _].
  - apply Hrun. unfold handleGetPreparedPreview. sstep. apply swp_loadOwnedPrepared; [|intros _; split; [done|by apply Hclear]].
    intros prep _. sstep. sstep; [|done]. sstep. sstep; [|done]. sstep. sstep.
    apply rel_effect_find; [|intros _; sstep; sstep; done]. sstep. sstep; [|done]. by sstep.
  - apply Hrun. unfold handleDeletePrepared. sstep. apply swp_loadOwnedPrepared; [|intros _; split; [done|by apply Hclear]].
    intros prep _. sstep. apply swp_deletePrepared; [|intros _]; sstep; [by apply Hclear|done].
  - intros Ha. destruct (swp_run false _ _ st (handlePrepareFax_spec false env form userID orgID (sview st)) ltac:(discriminate)) as [_ (_ & _ & Hq)].
    by rewrite Ha in Hq.
Qed.
End sends.

Section witnesses.
Import Office.

#[local] Instance desk_sender : Sender World := gofax_sender "psk" (fun _ => "application/pdf") dec_string dec_string (fun n => n).
#[local] Instance desk_sender_laws : SenderLaws World := client_sends_as_promised no_ip no_dns "psk" "k3y" "k3y" _ _ _ _.

Definition desk_cfg : SendConfig := {|
  sc_UploadMaxMB := 20; sc_SendRatePerHour := 60; sc_PrepareRatePerHour := 30; sc_Box := "box"; sc_PrepBox := "prep";
  sc_Converter := {| cv_Enabled := true; cv_GotenbergURL := ""; cv_GhostscriptBin := ""; cv_ImageMagickBin := "";
    cv_PrepareTTL := 0; cv_MaxPages := 0; cv_DefaultFitMode := "" |} |}.

(** Tools that leave a one-page document as it is. *)
Definition plain_tools : Engines := {|
  en_run := fun _ _ _ => Exited png_magic; en_optimize := fun _ => None; en_pages := fun _ => Ok 1;
  en_merge := fun _ pdf => Ok pdf; en_cover := fun _ _ => Ok "%PDF-cover"; en_image := fun _ _ => Ok "%PDF-image";
  en_office := fun _ _ _ => NoReply "down" |}.

Definition pdf_kind (_ : string) : string := "application/pdf".

Definition good_intake : IntakeEnv :=
  {| ie_docID := 77; ie_resultID := 78; ie_now := 5; ie_destFile := "/tmp/77.pdf"; ie_saved := true;
     ie_gs := {| gs_exit0 := true; gs_output := "Page 1"; gs_size := Some 100 |}; ie_identify := Some "1" |}.

Definition stored_order (l : list PortalNumber) : list PortalNumber := l.

Definition Desk : Type := SendState (TS := ListTable Session) (TP := ListTable PendingAuth) (TU := ListTable PortalUser)
  (TO := ListTable PortalOrg) (TN := ListTable PortalNumber) (TA := ListRel UserNumber) (TF := ListTable InboundFax)
  (TJ := ListTable PortalJob) (TQ := ListRel PreparedFax) (TV := ListRel PreparedFaxPreview) (W := World).

Definition sending_desk : Desk := {|
  sd_admin := desk <| as_up ::= fun w => w <| w_intakes := [good_intake] |> |>; sd_jobs := fresh_table [] 1 [];
  sd_prepared := {| lr_rows := []; lr_faults := [] |}; sd_previews := {| lr_rows := []; lr_faults := [] |};
  sd_sendLimit := RateLimit.NewRateLimiter hour 0; sd_prepareLimit := RateLimit.NewRateLimiter hour 0 |}.

Definition at_send : SendEnv := {| se_now := 5; se_uuid := "p-1"; se_nonces := fun _ => Some "n"; se_tx := true |}.
Definition ann_posts : Call := {| cl_method := "POST"; cl_cookie := Some "ann's"; cl_csrf := "c" |}.
Definition letter : FormFile := {| ff_name := "letter.pdf"; ff_content := "%PDF-1.7 letter"; ff_readable := true |}.
Definition upload_form : Form := {| fm_file := Some letter;
  fm_values := {[ "caller_number" := "2505550100"; "callee_number" := "(604) 555-0199" ]} |}.
Definition confirm_form : Form := {| fm_file := None;
  fm_values := {[ "caller_number" := "2505550100"; "callee_number" := "(604) 555-0199"; "prepared_id" := "p-1" ]} |}.

#[local] Notation ann_sends := (user_send at_five ann_posts (handleSendFax desk_cfg pdf_kind stored_order at_send upload_form)).
#[local] Notation ann_prepares := (handlePrepareFax desk_cfg plain_tools pdf_kind at_send upload_form 1 1).
#[local] Notation ann_confirms := (handleSendFax desk_cfg pdf_kind stored_order at_send confirm_form 1 1).

Example prepared_then_sent :
  let '(r, st1) := ann_prepares sending_desk in let '(a, st2) := ann_confirms st1 in
  match r with Answer p => pr_id p = "p-1" /\ pr_previews p = ["/faxes/prepare/p-1/preview/1"] | Reject _ _ => False end /\
  match a with Answer j => pj_JobUUID j = "77" /\ pj_OriginalFilename j = "letter.pdf" | Reject _ _ => False end /\
  rel_rows (sd_prepared st2) = [] /\ rel_rows (sd_previews st2) = [] /\ length (up_jobs (world st2)) = 1%nat.
Proof. by vm_compute. Qed.

(** Neither sessions nor what intakes meet are part of gofaxserver's order. *)
Lemma order_kept (st : Office) f l : up_ok (as_up st) -> up_ok (as_up (st <| as_portal ::= f |> <| as_up ::= fun w => w <| w_intakes := l |> |>)).
Proof. exact (fun H => H). Qed.

Lemma desk_order : up_ok (world sending_desk).
Proof. exact (order_kept staffed _ _ (mirror_in_order staffed (proj2 staffed_mirror))). Qed.

Lemma ann_may_send : exists job, (ann_sends sending_desk).1 = Answer job /\ pj_JobUUID job = "77".
Proof. eexists. vm_compute. split; reflexivity. Qed.

Lemma no_jobs_yet : jobs_of sending_desk = [].
Proof. reflexivity. Qed.

Lemma sends_are_authorised_witness :
  exists job, (ann_sends sending_desk).1 = Answer job /\ pj_JobUUID job = "77" /\
    jobs_of (ann_sends sending_desk).2 = [job] /\ exists u org, session_of at_five ann_posts sending_desk u org /\ pj_UserID job = pu_ID u.
Proof.
  destruct ann_may_send as (job & Ha & Hid). exists job. split; [exact Ha|]. split; [exact Hid|].
  destruct (sends_are_authorised desk_cfg pdf_kind stored_order (fun l => Permutation_refl l) at_five ann_posts at_send upload_form
    sending_desk job desk_order Ha) as (u & org & Hs & Hu & _ & _ & _ & _ & Hj & _).
  rewrite no_jobs_yet in Hj. split; [exact Hj|]. exists u, org. exact (conj Hs Hu).
Defined.

Lemma prepared_document_sent_witness :
  let st1 := (ann_prepares sending_desk).2 in
  exists job, (ann_confirms st1).1 = Answer job /\
    exists name r org pass, converts_to desk_cfg plain_tools upload_form name r /\ cr_PDF r = "%PDF-1.7 letter" /\
    fx_SendFax (po_SvcUsername org) pass (trim_suffix (filepath_Base (filepath_Base name)) (Ext (filepath_Base name)) +:+ ".pdf") (cr_PDF r)
      (pj_CallerNumber job) (pj_CalleeNumber job) (world st1) = (FxOk (pj_JobUUID job), world (ann_confirms st1).2).
Proof.
  intros st1. assert (exists reply, (ann_prepares sending_desk).1 = Answer reply) as [reply Hr] by (eexists; vm_compute; reflexivity).
  assert (prep_run desk_cfg plain_tools pdf_kind [(at_send, upload_form, 1)] sending_desk st1) as Hrun.
  { apply (prep_stored desk_cfg plain_tools pdf_kind [] sending_desk sending_desk at_send upload_form 1 1 reply); [apply prep_nil|exact Hr|].
    by intros n [= <-]. }
  assert (exists job, (ann_confirms st1).1 = Answer job) as [job Ha] by (eexists; vm_compute; reflexivity).
  exists job. split; [exact Ha|].
  destruct (prepared_document_sent desk_cfg plain_tools pdf_kind stored_order (fun l => Permutation_refl l) _ sending_desk st1 at_send confirm_form
    1 1 job Hrun eq_refl eq_refl Ha) as (env0 & form0 & name & r & org & pass & Hin & Hconv & _ & _ & Hsent & _).
  apply list_elem_of_singleton in Hin. injection Hin as _ ->. exists name, r, org, pass. split; [exact Hconv|]. split; [|exact Hsent].
  destruct Hconv as (file & mode & Hf & Hn & Hm & Hc). change (Some letter = Some file) in Hf. assert (file = letter) as -> by congruence. subst name. vm_compute in Hm. injection Hm as Hm. subst mode.
  vm_compute in Hc. injection Hc as Hc. subst r. reflexivity.
Defined.
End witnesses.
