(* ===== verification/Retention.v ===== *)
(** * Retention: what the portal forgets ([portal/internal/retention/retention.go])

    The sweeper deletes received faxes older than their organisation keeps them
    and prepared documents past their time, in batches. [LIMIT] without an order
    is an arbitrary choice of rows, [pick]. Audit rows and logging are left
    out. *)

From S2P Require Import Prelude Store PortalModels.

Definition batchSize : nat := 500.

(** The end of one organisation's sweep. *)
Inductive swept := Swept (deleted : Z) | SweepFailed | OutOfFuel.

Section retention.
Context {TO TF TP TV : Type} `{!Table TO PortalOrg} `{!Table TF InboundFax} `{!Relation TP PreparedFax} `{!Relation TV PreparedFaxPreview}.
Variable pick : forall A, list A -> list A.

(** [-time.Duration(days) * 24 * time.Hour] in 64 bits. *)
Definition retentionCutoff (days now : Z) : Z := now + wrap64 (- days * 24 * hour).

Definition expired (org : PortalOrg) (cutoff : Z) (f : InboundFax) : bool :=
  (if_OrgID f =? po_ID org) && (if_ReceivedAt f <? cutoff).

(** [id IN (SELECT id ... LIMIT 500)]. *)
Definition in_batch (org : PortalOrg) (cutoff : Z) (rows : list InboundFax) (f : InboundFax) : bool :=
  existsb (fun i => if_ID f =? i) (map if_ID (pick _ (List.filter (expired org cutoff) rows))).

Fixpoint delete_batches (fuel : nat) (org : PortalOrg) (cutoff deleted : Z) (t : TF) : swept * TF :=
  match fuel with
  | O => (OutOfFuel, t)
  | S fuel' =>
      let P := in_batch org cutoff (tbl_rows t) in
      let affected := length (List.filter P (tbl_rows t)) in
      let '(ok, t') := tbl_delete P t in
      if ok then
        let deleted := deleted + Z.of_nat affected in
        if (affected <? batchSize)%nat then (Swept deleted, t') else delete_batches fuel' org cutoff deleted t'
      else (SweepFailed, t')
  end.

Definition sweepOrg (fuel : nat) (now : Z) (org : PortalOrg) (t : TF) : swept * TF :=
  delete_batches fuel org (retentionCutoff (po_RetentionDays org) now) 0 t.

Definition past (cutoff : Z) (p : PreparedFax) : bool := pf_ExpiresAt p <? cutoff.

Fixpoint delete_prepared (fuel : nat) (cutoff deleted : Z) (st : TP * TV) : swept * (TP * TV) :=
  match fuel with
  | O => (OutOfFuel, st)
  | S fuel' =>
      let '(found, t1) := rel_find (past cutoff) st.1 in
      match found with
      | None => (SweepFailed, (t1, st.2))
      | Some rows =>
          let batch := pick _ rows in
          match batch with
          | [] => (Swept deleted, (t1, st.2))
          | _ =>
              let ids := map pf_ID batch in
              let '(ok, v1) := rel_delete (fun pv => existsb (String.eqb (pp_PreparedFaxID pv)) ids) st.2 in
              if ok then
                let P := fun p => existsb (String.eqb (pf_ID p)) ids in
                let affected := length (List.filter P (rel_rows t1)) in
                let '(gone, t2) := rel_delete P t1 in
                if gone then
                  let deleted := deleted + Z.of_nat affected in
                  if (length batch <? batchSize)%nat then (Swept deleted, (t2, v1)) else delete_prepared fuel' cutoff deleted (t2, v1)
                else (SweepFailed, (t2, v1))
              else (SweepFailed, (t1, v1))
          end
      end
  end.

Definition sweepPrepared (fuel : nat) (now : Z) : TP * TV -> swept * (TP * TV) := delete_prepared fuel now 0.

Record Swept_tables := { sw_orgs : TO; sw_faxes : TF; sw_prepared : TP * TV }.

(** The clock is read again for each organisation: [now k] is its reading when
    the [k]-th is swept. *)
Fixpoint sweep_orgs (fuel : nat) (now : nat -> Z) (k : nat) (orgs : list PortalOrg) (t : TF) : list swept * TF :=
  match orgs with
  | [] => ([], t)
  | org :: orgs' =>
      let '(r, t1) := sweepOrg fuel (now k) org t in
      let '(rs, t2) := sweep_orgs fuel now (S k) orgs' t1 in (r :: rs, t2)
  end.

(** How each part ended; nothing when the organisations cannot be read. The last
    reading of the clock is the prepared documents'. *)
Definition Sweep (fuel : nat) (now : nat -> Z) (st : Swept_tables) : list swept * Swept_tables :=
  let '(found, o1) := tbl_find (fun org => 0 <? po_RetentionDays org) (sw_orgs st) in
  match found with
  | None => ([], st <| sw_orgs := o1 |>)
  | Some orgs =>
      let '(rs, f1) := sweep_orgs fuel now 0 orgs (sw_faxes st) in
      let '(r, p1) := sweepPrepared fuel (now (length orgs)) (sw_prepared st) in
      (rs ++ [r], {| sw_orgs := o1; sw_faxes := f1; sw_prepared := p1 |})
  end.
End retention.

(** ** A batch *)

(** A choice of at most a batch. *)
Definition limits (pick : forall A, list A -> list A) : Prop :=
  forall A (l : list A), pick A l ⊆+ l /\ length (pick A l) = Nat.min batchSize (length l).

Section batches.
Context {R K : Type} (key : R -> K) (eqb : K -> K -> bool) (eqb_spec : forall a b, eqb a b = true <-> a = b).
Implicit Types (rows B : list R).

Definition batched B (r : R) : bool := existsb (fun i => eqb (key r) i) (map key B).

Lemma batched_spec B r : batched B r = true <-> exists b, b ∈ B /\ key r = key b.
Proof.
  unfold batched. rewrite existsb_exists. split.
  - intros (i & Hi & He). apply eqb_spec in He as <-. apply list_elem_of_In, list_elem_of_fmap in Hi as (b & Hb & Hin). eauto.
  - intros (b & Hb & Hk). exists (key b). split; [by apply list_elem_of_In, list_elem_of_fmap_2|by apply eqb_spec].
Qed.

Lemma same_key_same_row rows x y : NoDup (map key rows) -> x ∈ rows -> y ∈ rows -> key x = key y -> x = y.
Proof.
  induction rows as [|r rows IH]; intros Hn Hx Hy Hk; [by apply elem_of_nil in Hx|]. simpl in Hn. apply NoDup_cons in Hn as [Hr Hn].
  apply elem_of_cons in Hx as [->|Hx]; apply elem_of_cons in Hy as [->|Hy]; auto.
  - destruct Hr. rewrite Hk. by apply list_elem_of_fmap_2.
  - destruct Hr. rewrite <- Hk. by apply list_elem_of_fmap_2.
Qed.

Lemma elem_of_kept (P : R -> bool) rows r : r ∈ List.filter P rows <-> r ∈ rows /\ P r = true.
Proof. split; [intros Hr; apply list_elem_of_In, filter_In in Hr as [??]|intros [Hr ?]; apply list_elem_of_In, filter_In]; by split; [apply list_elem_of_In|]. Qed.

Lemma batch_spec (P : R -> bool) rows B n : NoDup (map key rows) -> B ⊆+ List.filter P rows ->
  length B = Nat.min n (length (List.filter P rows)) ->
  List.filter (batched B) rows ≡ₚ B /\ (forall r, r ∈ rows -> batched B r = true -> P r = true) /\
  ((length B < n)%nat -> forall r, r ∈ rows -> batched B r = P r).
Proof.
  intros Hn Hsub Hlen.
  assert (forall b, b ∈ B -> b ∈ rows /\ P b = true) as HB by (intros b Hb; apply elem_of_kept; by eapply elem_of_submseteq).
  assert (forall r, r ∈ rows -> batched B r = true -> r ∈ B) as Hin.
  { intros r Hr (b & Hb & Hk)%batched_spec. by rewrite (same_key_same_row rows r b Hn Hr (proj1 (HB b Hb)) Hk). }
  assert (NoDup rows) as Hrows by (by eapply NoDup_fmap_1).
  split; [|split].
  - apply NoDup_Permutation.
    + apply NoDup_ListNoDup, List.NoDup_filter. by apply NoDup_ListNoDup.
    + destruct (submseteq_Permutation _ _ Hsub) as [k Hperm]. assert (NoDup (B ++ k)) as Hk.
      { rewrite <- Hperm. apply NoDup_ListNoDup, List.NoDup_filter. by apply NoDup_ListNoDup. }
      by apply NoDup_app in Hk as [? _].
    + intros r. rewrite elem_of_kept. split; [intros [Hr Hc]; by apply Hin|]. intros Hb. split; [apply HB, Hb|]. apply batched_spec. eauto.
  - intros r Hr Hc. by apply HB, Hin.
  - intros Hlt r Hr. assert (B ≡ₚ List.filter P rows) as Hp by (apply submseteq_length_Permutation; [done|lia]).
    destruct (P r) eqn:E.
    + apply batched_spec. exists r. split; [|done]. rewrite Hp. by apply elem_of_kept.
    + destruct (batched B r) eqn:Ec; [|done]. destruct (HB r (Hin r Hr Ec)). congruence.
Qed.
End batches.

Section sweeps.
Context {TO TF TP TV : Type} `{!Table TO PortalOrg, !TableLaws TO PortalOrg} `{!Table TF InboundFax, !TableLaws TF InboundFax}
  `{!Relation TP PreparedFax, !RelationLaws TP PreparedFax} `{!Relation TV PreparedFaxPreview, !RelationLaws TV PreparedFaxPreview}.
Variable pick : forall A, list A -> list A.
Hypothesis pick_limits : limits pick.
Implicit Types (org : PortalOrg) (t : TF).

(** Only rows of [E] went; and every one of them, when all went well. *)
Definition cleared {R} (E : R -> bool) (rows rows' : list R) : Prop :=
  sublist rows' rows /\ forall r, r ∈ rows -> r ∈ rows' \/ E r = true.

Lemma cleared_refl {R} (E : R -> bool) rows : cleared E rows rows.
Proof. split; auto. Qed.

Lemma cleared_trans {R} (E : R -> bool) rows1 rows2 rows3 : cleared E rows1 rows2 -> cleared E rows2 rows3 -> cleared E rows1 rows3.
Proof.
  intros [H1 H2] [H3 H4]. split; [by etrans|]. intros r Hr. destruct (H2 r Hr) as [Hr2|]; [by apply H4|by right].
Qed.

Lemma cleared_mono {R} (E E' : R -> bool) rows rows' : (forall r, E r = true -> E' r = true) -> cleared E rows rows' -> cleared E' rows rows'.
Proof. intros HE [H1 H2]. split; [done|]. intros r Hr. destruct (H2 r Hr); auto. Qed.

Lemma cleared_filter {R} (E P : R -> bool) rows : (forall r, r ∈ rows -> P r = true -> E r = true) ->
  cleared E rows (List.filter (fun r => negb (P r)) rows).
Proof.
  intros HP. split.
  - induction rows as [|r rows IH]; simpl; [done|]. destruct (P r); constructor; apply IH; intros r' Hr'; apply HP; by right.
  - intros r Hr. destruct (P r) eqn:E1; [right; by apply HP|left]. apply elem_of_kept. by rewrite E1.
Qed.

Lemma kept_again {R} (E P : R -> bool) rows : (forall r, r ∈ rows -> P r = true -> E r = true) ->
  List.filter (fun r => negb (E r)) (List.filter (fun r => negb (P r)) rows) = List.filter (fun r => negb (E r)) rows.
Proof.
  induction rows as [|r rows IH]; intros HP; [done|]. simpl. pose proof (HP r ltac:(by left)) as Hr.
  assert (forall r', r' ∈ rows -> P r' = true -> E r' = true) as HP' by (intros r' ?; apply HP; by right).
  destruct (P r); simpl; [rewrite (Hr eq_refl); by apply IH|]. destruct (E r); simpl; by rewrite IH.
Qed.

Lemma kept_same {R} (E P : R -> bool) rows : (forall r, r ∈ rows -> P r = E r) ->
  List.filter (fun r => negb (P r)) rows = List.filter (fun r => negb (E r)) rows.
Proof.
  induction rows as [|r rows IH]; intros HP; [done|]. simpl. rewrite (HP r) by (by left). rewrite IH; [done|].
  intros r' ?. apply HP. by right.
Qed.

Lemma split_length {R} (E : R -> bool) (rows : list R) :
  (length (List.filter E rows) + length (List.filter (fun r => negb (E r)) rows))%nat = length rows.
Proof. induction rows as [|r rows IH]; [done|]. simpl. destruct (E r); simpl; lia. Qed.

Lemma in_batch_spec org cutoff rows : ids_ok rows -> let P := in_batch pick org cutoff rows in let E := expired org cutoff in
  length (List.filter P rows) = Nat.min batchSize (length (List.filter E rows)) /\ (forall f, f ∈ rows -> P f = true -> E f = true) /\
  ((length (List.filter P rows) < batchSize)%nat -> forall f, f ∈ rows -> P f = E f).
Proof.
  intros Hn. destruct (pick_limits _ (List.filter (expired org cutoff) rows)) as [Hsub Hlen].
  destruct (batch_spec if_ID Z.eqb Z.eqb_eq (expired org cutoff) rows _ batchSize Hn Hsub Hlen) as (Hp & Hq & Hr). cbv zeta.
  assert (length (List.filter (in_batch pick org cutoff rows) rows) = length (pick _ (List.filter (expired org cutoff) rows))) as Hl
    by (by rewrite Hp).
  split; [by rewrite Hl|]. split; [done|]. rewrite Hl. exact Hr.
Qed.

(** A batch that is not the last takes [batchSize] rows. *)
Lemma delete_batches_spec fuel org cutoff : forall deleted t, ids_ok (tbl_rows t) ->
  let '(r, t') := delete_batches pick fuel org cutoff deleted t in
  cleared (expired org cutoff) (tbl_rows t) (tbl_rows t') /\ ids_ok (tbl_rows t') /\
  (tbl_healthy t -> (length (List.filter (expired org cutoff) (tbl_rows t)) < fuel)%nat ->
    r = Swept (deleted + Z.of_nat (length (List.filter (expired org cutoff) (tbl_rows t)))) /\ tbl_healthy t' /\
    tbl_rows t' = List.filter (fun f => negb (expired org cutoff f)) (tbl_rows t)).
Proof.
  induction fuel as [|fuel IH]; intros deleted t Hn; [split; [apply cleared_refl|]; split; [done|lia]|]. cbn [delete_batches].
  set (P := in_batch pick org cutoff (tbl_rows t)). set (E := expired org cutoff).
  destruct (in_batch_spec org cutoff (tbl_rows t) Hn) as (Hlen & Hsub & Hlast). fold P E in Hlen, Hsub, Hlast.
  pose proof (delete_ok P t) as Hok. pose proof (delete_err P t) as Herr.
  assert (tbl_healthy t -> (tbl_delete P t).1 = true /\ tbl_healthy (tbl_delete P t).2) as Hh by apply healthy_delete.
  destruct (tbl_delete P t) as [[|] t1]; cbn [fst snd] in *.
  2: { rewrite (Herr eq_refl). split; [apply cleared_refl|]. split; [done|]. intros Ht _. by destruct (Hh Ht). }
  specialize (Hok eq_refl). assert (cleared E (tbl_rows t) (tbl_rows t1)) as Hc by (rewrite Hok; by apply cleared_filter).
  assert (ids_ok (tbl_rows t1)) as Hn1 by (rewrite Hok; by apply ids_ok_filter).
  destruct (Nat.ltb_spec (length (List.filter P (tbl_rows t))) batchSize) as [Hlt|Hge].
  - split; [done|]. split; [done|]. intros Ht _. destruct (Hh Ht) as [_ Ht1].
    rewrite <- (kept_same E P) by (by apply Hlast). split; [|by rewrite Hok].
    assert (length (List.filter P (tbl_rows t)) = length (List.filter E (tbl_rows t))) as -> by lia. done.
  - specialize (IH (deleted + Z.of_nat (length (List.filter P (tbl_rows t)))) t1 Hn1).
    destruct (delete_batches pick fuel org cutoff _ t1) as [r t']. destruct IH as (Hc1 & Hn2 & Hrest).
    split; [by eapply cleared_trans|]. split; [done|]. intros Ht Hfuel. destruct (Hh Ht) as [_ Ht1]. fold E in Hfuel, Hrest.
    assert (length (List.filter E (tbl_rows t1)) = (length (List.filter E (tbl_rows t)) - length (List.filter P (tbl_rows t)))%nat) as Hless.
    { pose proof (split_length E (tbl_rows t)) as S1. pose proof (split_length E (tbl_rows t1)) as S2.
      pose proof (split_length P (tbl_rows t)) as S3. rewrite Hok, (kept_again E P) in S2 by done. rewrite Hok. lia. }
    destruct Hrest as (-> & Ht' & ->); [done|rewrite Hless; unfold batchSize in *; lia|].
    split; [f_equal; rewrite Hless; lia|]. split; [done|]. rewrite Hok. by apply kept_again.
Qed.

Lemma kept_all {R} (E : R -> bool) rows : (forall r, r ∈ rows -> E r = false) -> List.filter (fun r => negb (E r)) rows = rows.
Proof.
  induction rows as [|r rows IH]; intros HE; [done|]. simpl. rewrite (HE r) by (by left). simpl. f_equal. apply IH.
  intros r' ?. apply HE. by right.
Qed.

Lemma filter_twice {R} (f g : R -> bool) rows : List.filter f (List.filter g rows) = List.filter (fun r => g r && f r) rows.
Proof. induction rows as [|r rows IH]; [done|]. simpl. destruct (g r); simpl; [|done]. destruct (f r); by rewrite IH. Qed.

(** A received fax some organisation no longer keeps when it is swept. *)
Fixpoint forgotten (now : nat -> Z) (k : nat) (orgs : list PortalOrg) (f : InboundFax) : bool :=
  match orgs with
  | [] => false
  | org :: orgs' => expired org (retentionCutoff (po_RetentionDays org) (now k)) f || forgotten now (S k) orgs' f
  end.

Lemma sweep_orgs_spec fuel now orgs : forall k t, ids_ok (tbl_rows t) ->
  let '(rs, t') := sweep_orgs pick fuel now k orgs t in
  cleared (forgotten now k orgs) (tbl_rows t) (tbl_rows t') /\
  (tbl_healthy t -> (length (tbl_rows t) < fuel)%nat ->
    Forall (fun r => exists n, r = Swept n) rs /\ tbl_healthy t' /\
    tbl_rows t' = List.filter (fun f => negb (forgotten now k orgs f)) (tbl_rows t)).
Proof.
  induction orgs as [|org orgs IH]; intros k t Hn; cbn [sweep_orgs].
  { split; [apply cleared_refl|]. intros Ht _. split; [done|]. split; [done|]. by rewrite kept_all. }
  set (E := expired org (retentionCutoff (po_RetentionDays org) (now k))).
  pose proof (delete_batches_spec fuel org (retentionCutoff (po_RetentionDays org) (now k)) 0 t Hn) as Hone. fold E in Hone.
  unfold sweepOrg. destruct (delete_batches _ _ _ _ _ t) as [r t1]. destruct Hone as (Hc1 & Hn1 & Hone). specialize (IH (S k) t1 Hn1).
  destruct (sweep_orgs _ _ _ _ orgs t1) as [rs t2]. destruct IH as [Hc2 IH].
  assert (forall f, forgotten now k (org :: orgs) f = E f || forgotten now (S k) orgs f) as Hf by done.
  split.
  - eapply cleared_trans; (eapply cleared_mono; [|eassumption]); intros f HE; rewrite Hf, HE; [done|by rewrite orb_true_r].
  - intros Ht Hfuel. destruct (Hone Ht) as (-> & Ht1 & Hr1); [pose proof (split_length E (tbl_rows t)); lia|].
    destruct (IH Ht1) as (Hrs & Ht2 & Hr2); [rewrite Hr1; pose proof (split_length E (tbl_rows t)); lia|].
    split; [by constructor; [eexists|]|]. split; [done|]. rewrite Hr2, Hr1, filter_twice. apply List.filter_ext. intros f.
    by rewrite Hf, negb_orb.
Qed.

Lemma sweep_orgs_length fuel now orgs : forall k t, length (sweep_orgs pick fuel now k orgs t).1 = length orgs.
Proof.
  induction orgs as [|org orgs IH]; intros k t; [done|]. cbn [sweep_orgs]. destruct (sweepOrg _ _ _ _ _) as [r t1].
  specialize (IH (S k) t1). destruct (sweep_orgs _ _ _ _ _ t1). simpl in *. congruence.
Qed.

(** A page of a document that is past its time. *)
Definition orphaned (cutoff : Z) (rows : list PreparedFax) (pv : PreparedFaxPreview) : bool :=
  existsb (fun p => past cutoff p && (pp_PreparedFaxID pv =? pf_ID p)%string) rows.

Lemma orphaned_batch cutoff rows B pv : (forall p, p ∈ B -> p ∈ rows /\ past cutoff p = true) ->
  orphaned cutoff rows pv = existsb (String.eqb (pp_PreparedFaxID pv)) (map pf_ID B) ||
    orphaned cutoff (List.filter (fun p => negb (batched pf_ID String.eqb B p)) rows) pv.
Proof.
  intros HB. apply eq_true_iff_eq. unfold orphaned. rewrite orb_true_iff, !existsb_exists. split.
  - intros (p & Hp & Hb). destruct (batched pf_ID String.eqb B p) eqn:Ec.
    + left. apply (batched_spec pf_ID String.eqb String.eqb_eq) in Ec as (b & Hin & Hk). reflect_bools.
      exists (pf_ID b). split; [by apply list_elem_of_In, list_elem_of_fmap_2|]. apply String.eqb_eq. congruence.
    + right. exists p. split; [|done]. apply filter_In. by rewrite Ec.
  - intros [(i & Hi & He)|(p & [Hp _]%filter_In & Hb)]; [|eauto]. apply list_elem_of_In, list_elem_of_fmap in Hi as (b & -> & Hb).
    destruct (HB b Hb) as [Hin Hpast]. exists b. split; [by apply list_elem_of_In|]. by rewrite Hpast.
Qed.

Lemma delete_prepared_spec fuel cutoff : forall deleted (t : TP) (pv : TV), NoDup (map pf_ID (rel_rows t)) ->
  let '(r, (t', pv')) := delete_prepared pick fuel cutoff deleted (t, pv) in
  cleared (past cutoff) (rel_rows t) (rel_rows t') /\ cleared (orphaned cutoff (rel_rows t)) (rel_rows pv) (rel_rows pv') /\
  (rel_healthy t -> rel_healthy pv -> (length (List.filter (past cutoff) (rel_rows t)) < fuel)%nat ->
    (exists n, r = Swept n) /\ rel_rows t' = List.filter (fun p => negb (past cutoff p)) (rel_rows t) /\
    rel_rows pv' = List.filter (fun p => negb (orphaned cutoff (rel_rows t) p)) (rel_rows pv)).
Proof.
  induction fuel as [|fuel IH]; intros deleted t pv Hn.
  { split; [apply cleared_refl|]. split; [apply cleared_refl|]. intros _ _ Hl. lia. }
  cbn [delete_prepared fst snd]. pose proof (rel_find_rows (past cutoff) t) as Hrows. pose proof (rel_find_result (past cutoff) t) as Hres.
  pose proof (rel_healthy_find (past cutoff) t) as Hh1. destruct (rel_find (past cutoff) t) as [[rows|] t1]; cbn [fst snd] in *.
  2: { rewrite Hrows. split; [apply cleared_refl|]. split; [apply cleared_refl|]. intros Ht _ _. by destruct (Hh1 Ht) as [[? ?] _]. }
  specialize (Hres rows eq_refl). destruct (pick_limits _ rows) as [Hsub Hlen]. set (B := pick _ rows) in *. rewrite Hres in Hsub, Hlen.
  destruct (batch_spec pf_ID String.eqb String.eqb_eq (past cutoff) (rel_rows t) B batchSize Hn Hsub Hlen) as (Hp & Hq & Hr).
  assert (forall p, p ∈ B -> p ∈ rel_rows t /\ past cutoff p = true) as HB by (intros p Hin; apply elem_of_kept; by eapply elem_of_submseteq).
  pose proof (fun q => orphaned_batch cutoff (rel_rows t) B q HB) as Horph.
  destruct B as [|b B'] eqn:EB.
  { rewrite Hrows. split; [apply cleared_refl|]. split; [apply cleared_refl|]. intros _ _ _. split; [by eexists|].
    assert (forall p, p ∈ rel_rows t -> past cutoff p = false) as Hnone by (intros p Hin; rewrite <- Hr; [done|unfold batchSize; simpl; lia|done]).
    split; [by rewrite kept_all|]. rewrite kept_all; [done|]. intros q _. unfold orphaned. apply not_true_iff_false.
    intros (p & Hin & Hb)%existsb_exists. rewrite Hnone in Hb by (by apply list_elem_of_In). done. }
  rewrite <- EB in *. clear EB b B'. set (V := fun q => existsb (String.eqb (pp_PreparedFaxID q)) (map pf_ID B)) in *.
  set (C := batched pf_ID String.eqb B) in *.
  change (forall q, orphaned cutoff (rel_rows t) q = V q || orphaned cutoff (List.filter (fun p => negb (C p)) (rel_rows t)) q) in Horph.
  pose proof (rel_delete_ok V pv) as Hok. pose proof (rel_delete_err V pv) as Herr. pose proof (rel_healthy_delete V pv) as Hh2.
  destruct (rel_delete V pv) as [[|] pv1]; cbn [fst snd] in *.
  2: { rewrite Hrows, (Herr eq_refl). split; [apply cleared_refl|]. split; [apply cleared_refl|]. intros _ Hpv _. by destruct (Hh2 Hpv). }
  specialize (Hok eq_refl). assert (cleared (orphaned cutoff (rel_rows t)) (rel_rows pv) (rel_rows pv1)) as Hc1.
  { rewrite Hok. apply cleared_filter. intros q _ Hv. by rewrite Horph, Hv. }
  change (fun p => existsb (String.eqb (pf_ID p)) (map pf_ID B)) with C.
  pose proof (rel_delete_ok C t1) as Hok2. pose proof (rel_delete_err C t1) as Herr2. pose proof (rel_healthy_delete C t1) as Hh3.
  destruct (rel_delete C t1) as [[|] t2]; cbn [fst snd] in *.
  2: { rewrite (Herr2 eq_refl), Hrows. split; [apply cleared_refl|]. split; [done|]. intros Ht _ _. destruct (Hh1 Ht) as [_ Ht1]. by destruct (Hh3 Ht1). }
  specialize (Hok2 eq_refl). rewrite Hrows in Hok2. assert (cleared (past cutoff) (rel_rows t) (rel_rows t2)) as Hc2 by (rewrite Hok2; by apply cleared_filter).
  destruct (Nat.ltb_spec (length B) batchSize) as [Hlt|Hge].
  - split; [done|]. split; [done|]. intros Ht Hpv _. split; [by eexists|]. split; [rewrite Hok2; apply kept_same; by apply Hr|].
    rewrite Hok. apply kept_same. intros q _. rewrite Horph.
    destruct (orphaned cutoff (List.filter _ _) q) eqn:Eo; [|by rewrite orb_false_r]. exfalso.
    apply existsb_exists in Eo as (p & [Hin Hc]%filter_In & Hb). rewrite Hr in Hc by (done || by apply list_elem_of_In).
    by destruct (past cutoff p).
  - assert (NoDup (map pf_ID (rel_rows t2))) as Hn2.
    { rewrite Hok2. clear -Hn. induction (rel_rows t) as [|p rs IHr]; simpl in *; [done|]. apply NoDup_cons in Hn as [Hp Hn].
      destruct (C p); simpl; [by apply IHr|]. apply NoDup_cons. split; [|by apply IHr]. contradict Hp.
      apply list_elem_of_fmap in Hp as (q & -> & Hq). apply list_elem_of_fmap_2. by apply elem_of_kept in Hq as [? _]. }
    specialize (IH (deleted + Z.of_nat (length (List.filter C (rel_rows t1)))) t2 pv1 Hn2).
    destruct (delete_prepared pick fuel cutoff _ (t2, pv1)) as [r [t' pv']]. destruct IH as (Hc3 & Hc4 & IH).
    assert (forall q, orphaned cutoff (rel_rows t) q = V q || orphaned cutoff (rel_rows t2) q) as Horph2 by (intros q; by rewrite Horph, Hok2).
    split; [by eapply cleared_trans|]. split.
    { eapply cleared_trans; [exact Hc1|]. eapply cleared_mono; [|exact Hc4]. intros q Hq2. by rewrite Horph2, Hq2, orb_true_r. }
    intros Ht Hpv Hfuel. destruct (Hh1 Ht) as [_ Ht1]. destruct (Hh2 Hpv) as [_ Hpv1]. destruct (Hh3 Ht1) as [_ Ht2].
    assert (length (List.filter (past cutoff) (rel_rows t2)) < length (List.filter (past cutoff) (rel_rows t)))%nat as Hless.
    { pose proof (split_length (past cutoff) (rel_rows t)) as S1. pose proof (split_length (past cutoff) (rel_rows t2)) as S2.
      pose proof (split_length C (rel_rows t)) as S3. rewrite Hok2, (kept_again (past cutoff) C) in S2 by done. rewrite Hok2.
      rewrite Hp in S3. unfold batchSize in Hge. lia. }
    destruct IH as (Hr' & -> & ->); [done..|lia|]. split; [done|]. split; [rewrite Hok2; by apply kept_again|].
    rewrite Hok, filter_twice. apply List.filter_ext. intros q. by rewrite Horph2, negb_orb.
Qed.

(** The organisations swept: those that keep their faxes for a while only. *)
Definition keeping (orgs : list PortalOrg) : list PortalOrg := List.filter (fun org => 0 <? po_RetentionDays org) orgs.

(** The longest retention a request can set. *)
Lemma forgotten_iff now orgs f : Forall (fun org => 0 < po_RetentionDays org <= 3650) orgs -> forall k, forgotten now k orgs f = true <->
  exists i org, orgs !! i = Some org /\ if_OrgID f = po_ID org /\ if_ReceivedAt f + po_RetentionDays org * 24 * hour < now (k + i)%nat.
Proof.
  induction 1 as [|org orgs Hd _ IH]; intros k; [split; [done|]; intros (i & org & Hi & _); by rewrite lookup_nil in Hi|]. cbn [forgotten].
  assert (retentionCutoff (po_RetentionDays org) (now k) = now k - po_RetentionDays org * 24 * hour) as Hcut.
  { unfold retentionCutoff. rewrite wrap64_small; [lia|]. unfold hour, minute, second, millisecond, microsecond, int64_min, int64_max. lia. }
  rewrite orb_true_iff, IH. unfold expired. rewrite Hcut, andb_true_iff, Z.eqb_eq, Z.ltb_lt. split.
  - intros [[Ho Hr]|(i & o & Hi & Ho & Hr)]; [exists 0%nat, org|exists (S i), o; rewrite <- Nat.add_succ_comm; done].
    rewrite Nat.add_0_r. split_and!; [done..|lia].
  - intros ([|i] & o & Hi & Ho & Hr); cbn in Hi; [left|right].
    + injection Hi as <-. rewrite Nat.add_0_r in Hr. split; [done|lia].
    + exists i, o. by rewrite Nat.add_succ_comm.
Qed.

Lemma keeping_limits orgs : Forall (fun org => po_RetentionDays org <= 3650) orgs ->
  Forall (fun org => 0 < po_RetentionDays org <= 3650) (keeping orgs).
Proof.
  rewrite !Forall_forall. intros Hd org [Hin Hpos]%elem_of_kept. split; [by apply Z.ltb_lt|by apply Hd].
Qed.

(** C33: a sweep forgets exactly what is due. Whatever fails, and however the
    batches are batched, it takes away only faxes received for an organisation
    longer ago than that organisation keeps them when its turn comes, documents
    past their time and the pages of such documents; on a database that answers
    it ends, with all of them gone and nothing else. The clock is read again for
    each organisation and for the prepared documents, and may say anything. *)
Theorem retention_sweep_exact fuel now (st : Swept_tables (TO := TO) (TF := TF) (TP := TP) (TV := TV)) :
  Forall (fun org => po_RetentionDays org <= 3650) (tbl_rows (sw_orgs st)) ->
  ids_ok (tbl_rows (sw_faxes st)) -> NoDup (map pf_ID (rel_rows (sw_prepared st).1)) ->
  let '(rs, st') := Sweep pick fuel now st in
  let turns := keeping (tbl_rows (sw_orgs st)) in
  let due f := exists k org, turns !! k = Some org /\ if_OrgID f = po_ID org /\
    if_ReceivedAt f + po_RetentionDays org * 24 * hour < now k in
  let last := now (length turns) in
  let prepared := rel_rows (sw_prepared st).1 in
  (sublist (tbl_rows (sw_faxes st')) (tbl_rows (sw_faxes st)) /\
   sublist (rel_rows (sw_prepared st').1) prepared /\ sublist (rel_rows (sw_prepared st').2) (rel_rows (sw_prepared st).2) /\
   (forall f, f ∈ tbl_rows (sw_faxes st) -> f ∈ tbl_rows (sw_faxes st') \/ due f) /\
   (forall p, p ∈ prepared -> p ∈ rel_rows (sw_prepared st').1 \/ pf_ExpiresAt p < last) /\
   (forall q, q ∈ rel_rows (sw_prepared st).2 -> q ∈ rel_rows (sw_prepared st').2 \/ orphaned last prepared q = true)) /\
  (tbl_healthy (sw_orgs st) -> tbl_healthy (sw_faxes st) -> rel_healthy (sw_prepared st).1 -> rel_healthy (sw_prepared st).2 ->
   (length (tbl_rows (sw_faxes st)) + length prepared < fuel)%nat ->
   length rs = S (length turns) /\ Forall (fun r => exists n, r = Swept n) rs /\
   (forall f, f ∈ tbl_rows (sw_faxes st') <-> f ∈ tbl_rows (sw_faxes st) /\ ~ due f) /\
   rel_rows (sw_prepared st').1 = List.filter (fun p => negb (past last p)) prepared /\
   rel_rows (sw_prepared st').2 = List.filter (fun q => negb (orphaned last prepared q)) (rel_rows (sw_prepared st).2)).
Proof.
  intros Hdays Hids Hkeys. unfold Sweep. pose proof (find_result (fun org => 0 <? po_RetentionDays org) (sw_orgs st)) as Hres.
  pose proof (healthy_find (fun org => 0 <? po_RetentionDays org) (sw_orgs st)) as Hh.
  pose proof (keeping_limits _ Hdays) as Hlim.
  destruct (tbl_find _ (sw_orgs st)) as [[orgs|] o1]; cbn [fst snd] in *.
  2: { split; [split_and!; auto|]. intros Ho _ _ _ _. by destruct (Hh Ho) as [[? ?] _]. }
  specialize (Hres orgs eq_refl). fold (keeping (tbl_rows (sw_orgs st))) in Hres. rewrite <- Hres in Hlim |- *.
  pose proof (sweep_orgs_spec fuel now orgs 0 (sw_faxes st) Hids) as Hf.
  pose proof (sweep_orgs_length fuel now orgs 0 (sw_faxes st)) as Hlen. destruct (sweep_orgs _ _ _ _ orgs _) as [rs f1].
  pose proof (delete_prepared_spec fuel (now (length orgs)) 0 (sw_prepared st).1 (sw_prepared st).2 Hkeys) as Hp.
  unfold sweepPrepared. destruct (sw_prepared st) as [tp tv]. cbn [fst snd] in *.
  destruct (delete_prepared _ _ _ _ _) as [r [t' pv']]. cbn. destruct Hf as [[Hf1 Hf2] Hf3]. destruct Hp as ([Hp1 Hp2] & [Hv1 Hv2] & Hp3).
  pose proof (fun f => forgotten_iff now orgs f Hlim 0) as Hiff. cbn [Nat.add] in Hiff. split.
  - split_and!; [done..| | |done].
    + intros f Hin. destruct (Hf2 f Hin) as [|Hd]; [by left|]. right. by apply Hiff.
    + intros p Hin. destruct (Hp2 p Hin) as [|Hd]; [by left|]. right. by apply Z.ltb_lt.
  - intros Ho Ht Htp Htv Hfuel. destruct (Hf3 Ht) as (Hrs & _ & Hrows); [lia|].
    destruct (Hp3 Htp Htv) as ([n ->] & -> & ->); [pose proof (split_length (past (now (length orgs))) (rel_rows tp)); lia|].
    split; [rewrite length_app, Hlen; simpl; lia|].
    split; [apply Forall_app; split; [done|by repeat econstructor]|]. split; [|done]. intros f. rewrite Hrows, elem_of_kept.
    split; intros [Hin Hd]; (split; [done|]).
    + intros Hdue. apply Hiff in Hdue. by rewrite Hdue in Hd.
    + destruct (forgotten _ _ _ f) eqn:E; [|done]. destruct Hd. by apply Hiff.
Qed.
End sweeps.

(** ** One sweep *)

Definition first_batch A (l : list A) : list A := take batchSize l.

Lemma first_batch_limits : limits first_batch.
Proof. intros A l. unfold first_batch. split; [apply sublist_submseteq, sublist_take|apply length_take]. Qed.

Definition received_on (id org day : Z) : InboundFax :=
  {| if_ID := id; if_JobUUID := dec_string id; if_OrgID := org; if_NumberID := None; if_CallerNumber := ""; if_CallerName := "";
     if_CalleeNumber := ""; if_Pages := 1; if_Partial := false; if_TotalPages := 1; if_FileEnc := ""; if_FileSHA256 := "";
     if_FileBytes := 0; if_ReceivedAt := day * 24 * hour |}.

Definition keeper (id days : Z) : PortalOrg :=
  {| po_ID := id; po_Name := ""; po_GofaxTenantID := id; po_SvcUsername := ""; po_SvcPasswordEnc := ""; po_TenantNotify := "";
     po_TOTPRequired := false; po_RetentionDays := days; po_Active := true |}.

Definition draft (id : string) (day : Z) : PreparedFax :=
  {| pf_ID := id; pf_UserID := 1; pf_OrgID := 1; pf_Filename := "a.pdf"; pf_Pages := 1; pf_PreviewPages := 1; pf_FitMode := "";
     pf_Cover := false; pf_DocEnc := ""; pf_DocSHA256 := ""; pf_DocBytes := 0; pf_CreatedAt := 0; pf_ExpiresAt := day * 24 * hour |}.

(** One organisation keeps 30 days, the other everything. Midnight falls between
    the two parts of the sweep. *)
Definition archive : Swept_tables (TO := ListTable PortalOrg) (TF := ListTable InboundFax) (TP := ListRel PreparedFax) (TV := ListRel PreparedFaxPreview) :=
  {| sw_orgs := fresh_table [keeper 1 30; keeper 2 0] 3 [];
     sw_faxes := fresh_table [received_on 1 1 60; received_on 2 1 80; received_on 3 2 1] 4 [];
     sw_prepared := ({| lr_rows := [draft "a" 99; draft "b" 102]; lr_faults := [] |},
                     {| lr_rows := [{| pp_PreparedFaxID := "a"; pp_Page := 1; pp_DataEnc := "" |}]; lr_faults := [] |}) |}.

Lemma retention_sweep_exact_witness :
  let st' := (Sweep first_batch 6 (fun k => (100 + Z.of_nat k) * 24 * hour) archive).2 in
  map if_ID (tbl_rows (sw_faxes st')) = [2; 3] /\ received_on 1 1 60 ∉ tbl_rows (sw_faxes st') /\
  map pf_ID (rel_rows (sw_prepared st').1) = ["b"] /\ rel_rows (sw_prepared st').2 = [].
Proof.
  assert (Forall (fun org => po_RetentionDays org <= 3650) (tbl_rows (sw_orgs archive))) as Hd by (repeat constructor; discriminate).
  assert (ids_ok (tbl_rows (sw_faxes archive))) as Hi by (apply NoDup_ListNoDup; repeat constructor; simpl; intuition discriminate).
  assert (NoDup (map pf_ID (rel_rows (sw_prepared archive).1))) as Hk by (apply NoDup_ListNoDup; repeat constructor; simpl; intuition discriminate).
  pose proof (retention_sweep_exact first_batch first_batch_limits 6 (fun k => (100 + Z.of_nat k) * 24 * hour) archive Hd Hi Hk) as Hsweep.
  assert (map if_ID (tbl_rows (sw_faxes (Sweep first_batch 6 (fun k => (100 + Z.of_nat k) * 24 * hour) archive).2)) = [2; 3]) as Hleft by by vm_compute.
  destruct (Sweep _ _ _ archive) as [rs st'] eqn:E. destruct Hsweep as [_ Hexact].
  destruct Hexact as (_ & _ & Hf & Hp & Hv); [by vm_compute..|apply Nat.ltb_lt; by vm_compute|]. cbv zeta. cbn [snd] in *.
  split; [exact Hleft|]. split; [|split; [rewrite Hp; by vm_compute|rewrite Hv; by vm_compute]].
  intros Hin. apply Hf in Hin as [_ Hnot]. apply Hnot. exists 0%nat, (keeper 1 30).
  split; [reflexivity|]. split; [reflexivity|]. by vm_compute.
Defined.
