(* ===== verification/GatewayMonitor.v ===== *)
(** * GatewayMonitor: the periodic look at the gateways ([gofaxserver/gateway_monitor.go])

    One tick re-resolves the host names of the admission list, reconciles the
    bans and records the registration state of the gateways that register. The
    refresh takes a snapshot, resolves without holding the lock, and stores the
    result, so it is two steps here. The ticker and the log lines are left out. *)

From S2P Require Import Prelude Config Store FaxJob Regexp Dialplan Directory Backend Sentry Media GatewayTemplates Gateways GatewayInvariant.

(** ** Pure parts *)

(** [0] switches the monitor off. *)
Definition monitorInterval (GatewayMonitorSeconds : Z) : Z :=
  if GatewayMonitorSeconds <? 0 then 0
  else if GatewayMonitorSeconds =? 0 then 60 * second
  else wrap64 (GatewayMonitorSeconds * second).

Inductive logLevel := InfoLevel | WarnLevel.

Definition monitorTransition (old new : string) : bool * logLevel :=
  if (old =? new)%string then (false, InfoLevel)
  else if (new =? "REGED")%string then (true, InfoLevel)
  else (true, WarnLevel).

Definition equalIPs (a b : list string) : bool :=
  bool_decide (stable_sort String.ltb a = stable_sort String.ltb b).

(** ** The refresh of the admission list *)

Definition acl_snapshot (d : Directory) : list string * gmap string (list string) :=
  (d_GatewayEndpointsACL d, d_GatewayACLResolved d).

(** The last-good addresses of the entries that did not resolve; nothing to do without entries. *)
Definition refreshed (is_ip : string -> bool) (lookup : string -> option (list string))
  (snap : list string * gmap string (list string)) : option (gmap string (list string)) :=
  let '(entries, previous) := snap in
  match entries with
  | [] => None
  | _ :: _ =>
      let '(resolved, failures) := resolveGatewayACLs is_ip lookup entries in
      Some (set_fold (fun entry m => match previous !! entry with Some old => <[entry := old]> m | None => m end)
              resolved failures)
  end.

Definition store_resolved (r : option (gmap string (list string))) (d : Directory) : Directory :=
  match r with None => d | Some m => d <| d_GatewayACLResolved := m |> end.

(** The entries whose addresses changed, which are logged. *)
Definition changed_entries (previous resolved : gmap string (list string)) : list string :=
  map fst (List.filter (fun '(entry, ips) =>
    match previous !! entry with Some old => negb (equalIPs old ips) | None => true end) (map_to_list resolved)).

(** Undisturbed. *)
Definition refreshGatewayACLResolution (is_ip : string -> bool) (lookup : string -> option (list string))
  (d : Directory) : Directory := store_resolved (refreshed is_ip lookup (acl_snapshot d)) d.

(** ** A tick *)

Section tick.
Context {TT TN TE TG TC : Type} `{!Table TT Tenant} `{!Table TN TenantNumber} `{!Table TE Endpoint}
  `{!Table TG GatewayTemplate} `{!Table TC GatewayConfig}.
Context {T F Net IPAddr : Type} `{!Table T BlockedIP}.
Variable parse_ip : string -> option IPAddr.
Variable ip_string : IPAddr -> string.
Variable net_contains : Net -> IPAddr -> bool.
Variable be : sentryBackend F.
Variable lookup_ip : string -> option (list string).
Variable env : GwEnv.
Variable now : Z.
#[local] Notation GM := (GM (TT := TT) (TN := TN) (TE := TE) (TG := TG) (TC := TC)).
#[local] Notation GwState := (GwState (TT := TT) (TN := TN) (TE := TE) (TG := TG) (TC := TC)).
#[local] Existing Instances gm_ret gm_bind.

Definition registers (gw : GatewayConfig) : bool :=
  match decodeParams (ge_codec env) (gc_Params gw) with
  | Ok params => match params !! "register" with Some (PBool b) => b | _ => false end
  | Err _ => false
  end.

Definition with_state (state : string) (gw : GatewayConfig) : GatewayConfig :=
  gw <| gc_LastState := state |> <| gc_LastStateCheckedAt := Some now |>.

(** [db.Model(&gw).Updates(...)], whose error is not looked at. *)
Definition record_state (id : Z) (state : string) : GM unit := fun st =>
  (Ok tt, st <| gs_configs := (tbl_update (fun g => gc_ID g =? id) (with_state state) (gs_configs st)).2 |>).

Definition monitor_one (gw : GatewayConfig) : GM unit :=
  if registers gw then
    state ← fsGatewayState env (gc_Name gw);
    if (monitorTransition (gc_LastState gw) state).1 then record_state (gc_ID gw) state else mret tt
  else mret tt.

Fixpoint monitor_all (gws : list GatewayConfig) : GM unit :=
  match gws with [] => mret tt | gw :: gws' => _ ← monitor_one gw; monitor_all gws' end.

Definition monitor_states : GM unit :=
  r ← attempt (find_configs (fun _ => true));
  match r with Ok gws => monitor_all gws | Err _ => mret tt end.

Definition monitorTick (sentry : option (IPSentry T F Net)) (st : GwState) : option (IPSentry T F Net) * GwState :=
  let is_ip s := bool_decide (is_Some (parse_ip s)) in
  let d := (gs_store st).1 in
  let d' := refreshGatewayACLResolution is_ip lookup_ip d in
  let sentry' := match d_GatewayEndpointsACL d with
                 | [] => sentry
                 | _ :: _ => reconcileBans parse_ip ip_string net_contains be d' now sentry
                 end in
  (sentry', (monitor_states (st <| gs_store ::= fun s => (d', s.2) |>)).2).

End tick.

(** ** The refresh *)

Section refresh.
Variable is_ip : string -> bool.
Variable lookup : string -> option (list string).

(** The host name an entry is resolved by, if any. *)
Definition entry_host (entry : string) : option string :=
  match splitGatewayACLHost entry with Some h => if is_ip h then None else Some h | None => None end.

Definition acl_step (acc : gmap string (list string) * gset string) (entry : string)
  : gmap string (list string) * gset string :=
  match entry_host entry with
  | None => acc
  | Some h => match lookup h with
              | None => (acc.1, {[entry]} ∪ acc.2)
              | Some ips => (<[entry := ips]> acc.1, acc.2)
              end
  end.

Lemma acl_steps entries : resolveGatewayACLs is_ip lookup entries = foldl acl_step (∅, ∅) entries.
Proof.
  unfold resolveGatewayACLs. generalize (∅ : gmap string (list string), ∅ : gset string).
  induction entries as [|x l IH]; intros acc; simpl; [done|]. rewrite IH. f_equal.
  destruct acc as [r f]. unfold acl_step, entry_host. destruct (splitGatewayACLHost x); [|done]. by destruct (is_ip _).
Qed.

Definition resolves (e : string) : option (list string) := entry_host e ≫= lookup.
Definition unresolved (e : string) : bool := match entry_host e with Some h => negb (bool_decide (is_Some (lookup h))) | None => false end.

Lemma step_resolved acc x e :
  (acl_step acc x).1 !! e = if decide (e = x /\ is_Some (resolves e)) then resolves e else acc.1 !! e.
Proof.
  unfold acl_step, resolves. case_decide as H.
  - destruct H as [-> [ips Hr]]. destruct (entry_host x) as [h|]; simpl in *; [|done]. rewrite Hr. simpl. by rewrite lookup_insert_eq.
  - destruct (entry_host x) as [h|] eqn:E; [|done]. destruct (lookup h) as [ips|] eqn:El; [|done]. simpl.
    destruct (decide (e = x)) as [->|Hne]; [|by rewrite lookup_insert_ne].
    destruct H. split; [done|]. rewrite E. simpl. rewrite El. eauto.
Qed.

Lemma step_failed acc x e : e ∈ (acl_step acc x).2 <-> e ∈ acc.2 \/ (e = x /\ unresolved e = true).
Proof.
  unfold acl_step, unresolved. destruct (entry_host x) as [h|] eqn:E.
  - destruct (lookup h) as [ips|] eqn:El; simpl.
    + split; [by left|]. intros [?|[-> H]]; [done|]. rewrite E, El in H. by rewrite bool_decide_eq_true_2 in H by eauto.
    + rewrite elem_of_union, elem_of_singleton. split; [|by intros [?|[-> _]]; auto].
      intros [->|?]; [right|by left]. rewrite E, El. split; [done|]. by rewrite bool_decide_eq_false_2 by (by intros [? ?]).
  - split; [by left|]. intros [?|[-> H]]; [done|]. by rewrite E in H.
Qed.

Lemma resolve_spec entries acc :
  let out := foldl acl_step acc entries in
  (forall e, out.1 !! e = if decide (e ∈ entries /\ is_Some (resolves e)) then resolves e else acc.1 !! e) /\
  (forall e, e ∈ out.2 <-> e ∈ acc.2 \/ (e ∈ entries /\ unresolved e = true)).
Proof.
  revert acc. induction entries as [|x l IH]; intros acc; simpl.
  { split; [done|]. set_solver. }
  destruct (IH (acl_step acc x)) as [H1 H2]. split; intros e.
  - rewrite H1, step_resolved. clear IH H1 H2.
    repeat match goal with |- context [decide ?P] => destruct (decide P) as [?|?] end;
      rewrite ?elem_of_cons in *; naive_solver.
  - rewrite H2, step_failed, elem_of_cons. naive_solver.
Qed.

Lemma keep_last_good_lookup (previous m : gmap string (list string)) (f : gset string) e :
  set_fold (fun entry m => match previous !! entry with Some old => <[entry := old]> m | None => m end) m f !! e =
  if decide (e ∈ f /\ is_Some (previous !! e)) then previous !! e else m !! e.
Proof.
  refine (set_fold_ind_L (fun (out : gmap string (list string)) (X : gset string) => out !! e =
    if decide (e ∈ X /\ is_Some (previous !! e)) then previous !! e else m !! e) _ m _ _ f).
  - case_decide; [set_solver|done].
  - intros x X out Hx IH. destruct (previous !! x) as [old|] eqn:Ex.
    + destruct (decide (e = x)) as [->|Hne].
      * rewrite lookup_insert_eq. rewrite decide_True by (split; [set_solver|eauto]). done.
      * rewrite lookup_insert_ne by done. rewrite IH. apply decide_ext. set_solver.
    + rewrite IH. apply decide_ext. destruct (decide (e = x)) as [->|Hne]; [|set_solver].
      rewrite Ex. split; intros [_ [? ?]]; done.
Qed.

(** What an undisturbed refresh leaves for each entry. *)
Lemma refresh_lookup d e : d_GatewayEndpointsACL d <> [] ->
  d_GatewayACLResolved (refreshGatewayACLResolution is_ip lookup d) !! e =
  if decide (e ∈ d_GatewayEndpointsACL d)
  then match resolves e with
       | Some ips => Some ips
       | None => if unresolved e then d_GatewayACLResolved d !! e else None
       end
  else None.
Proof.
  intros Hne. unfold refreshGatewayACLResolution, refreshed, acl_snapshot. destruct (d_GatewayEndpointsACL d) as [|x l] eqn:E; [done|].
  rewrite acl_steps. destruct (resolve_spec (x :: l) (∅, ∅)) as [H1 H2].
  destruct (foldl acl_step (∅, ∅) (x :: l)) as [r f]. simpl in *. rewrite keep_last_good_lookup, H1. clear H1 E.
  specialize (H2 e). rewrite elem_of_empty in H2.
  assert (unresolved e = true -> resolves e = None) as Hu.
  { unfold unresolved, resolves. destruct (entry_host e) as [h|]; [|done]. simpl. destruct (lookup h); [|done].
    by rewrite bool_decide_eq_true_2 by eauto. }
  rewrite lookup_empty. destruct (unresolved e) eqn:Eu.
  - rewrite (Hu eq_refl) in *. destruct (d_GatewayACLResolved d !! e) eqn:Ep; repeat case_decide; try done; naive_solver.
  - destruct (resolves e) eqn:Er; repeat case_decide; try done; naive_solver.
Qed.

Lemma fsGatewayACL_ok d ip : is_ok (fsGatewayACL d ip) = true <->
  exists k, k ∈ d_GatewayEndpointsACL d /\ (acl_literal ip k = true \/ acl_resolved d ip k = true).
Proof.
  unfold fsGatewayACL. destruct (List.find (acl_literal ip) _) as [k|] eqn:E1; [|destruct (List.find (acl_resolved d ip) _) as [k|] eqn:E2].
  - apply find_some in E1 as [Hk Hl]. split; [|done]. intros _. exists k. rewrite list_elem_of_In. auto.
  - apply find_some in E2 as [Hk Hl]. split; [|done]. intros _. exists k. rewrite list_elem_of_In. auto.
  - split; [done|]. intros (k & Hk%list_elem_of_In & [H|H]).
    + by rewrite (find_none _ _ E1 _ Hk) in H.
    + by rewrite (find_none _ _ E2 _ Hk) in H.
Qed.

Lemma refresh_keeps_acl d : d_GatewayEndpointsACL (refreshGatewayACLResolution is_ip lookup d) = d_GatewayEndpointsACL d.
Proof. unfold refreshGatewayACLResolution, store_resolved. by destruct (refreshed _ _ _). Qed.

(** After a refresh an address is admitted exactly when it is written in an entry, or
    is among the addresses an entry's host name resolves to now, or the name could not
    be resolved and the address is among those it had before: a failed lookup
    takes nobody off the list. *)
Theorem refresh_admits_exactly (d : Directory) (ip : string) :
  is_ok (fsGatewayACL (refreshGatewayACLResolution is_ip lookup d) ip) = true <->
  exists k, k ∈ d_GatewayEndpointsACL d /\
    (acl_literal ip k = true \/
     (exists ips, resolves k = Some ips /\ ip ∈ ips) \/
     (unresolved k = true /\ acl_resolved d ip k = true)).
Proof.
  rewrite fsGatewayACL_ok, refresh_keeps_acl. split; intros (k & Hk & H); exists k; (split; [done|]);
    assert (d_GatewayEndpointsACL d <> []) as Hne by (intros Hn; rewrite Hn in Hk; by apply not_elem_of_nil in Hk).
  - destruct H as [?|H]; [by left|right]. unfold acl_resolved in *. rewrite refresh_lookup in H by done.
    rewrite decide_True in H by done. destruct (resolves k) as [ips|].
    + left. exists ips. split; [done|]. by apply str_mem_spec.
    + right. destruct (unresolved k); [done|]. simpl in H. by destruct ip.
  - destruct H as [?|H]; [by left|right]. unfold acl_resolved in *. rewrite refresh_lookup by done.
    rewrite decide_True by done. destruct H as [(ips & -> & Hi)|[Hu H]].
    + by apply str_mem_spec.
    + rewrite Hu. assert (resolves k = None) as ->; [|done]. unfold unresolved, resolves in *.
      destruct (entry_host k) as [h|]; [|done]. simpl. destruct (lookup h); [|done].
      by rewrite bool_decide_eq_true_2 in Hu by eauto.
Qed.

End refresh.

(** While no name resolves, a refresh admits nobody new and drops nobody whose entry is a name. *)
Lemma refresh_outage is_ip d ip :
  (forall e ips, d_GatewayACLResolved d !! e = Some ips -> is_Some (entry_host is_ip e)) ->
  is_ok (fsGatewayACL (refreshGatewayACLResolution is_ip no_dns d) ip) = is_ok (fsGatewayACL d ip).
Proof.
  intros Hinv. apply eq_true_iff_eq. rewrite refresh_admits_exactly, fsGatewayACL_ok.
  apply exist_proper. intros k. apply and_iff_compat_l. split; intros [H|H]; [by left| |by left|].
  - destruct H as [(ips & H & _)|[_ H]]; [|by right]. unfold resolves in H. by destruct (entry_host is_ip k).
  - right. right. split; [|done]. unfold acl_resolved in H.
    destruct (d_GatewayACLResolved d !! k) as [ips|] eqn:E; [|by destruct ip].
    destruct (Hinv _ _ E) as [h Hh]. unfold unresolved. by rewrite Hh.
Qed.

(** *** The states *)

Section states.
Context {TT TN TE TG TC : Type} `{!Table TT Tenant} `{!Table TN TenantNumber}
  `{!Table TE Endpoint, !TableLaws TE Endpoint} `{!Table TG GatewayTemplate, !TableLaws TG GatewayTemplate}
  `{!Table TC GatewayConfig, !TableLaws TC GatewayConfig}.
Variable env : GwEnv.
Variable now : Z.
#[local] Notation GM := (GM (TT := TT) (TN := TN) (TE := TE) (TG := TG) (TC := TC)).
#[local] Notation GwState := (GwState (TT := TT) (TN := TN) (TE := TE) (TG := TG) (TC := TC)).
#[local] Existing Instances gm_ret gm_bind.

(** The state FreeSWITCH reports for a gateway, when asking does not change it. *)
Variable reported : string -> string.
Definition reports : Prop := forall name (st : GwState), (fsGatewayState env name st).1 = Ok (reported name).

Definition observed (gw : GatewayConfig) : GatewayConfig :=
  if registers env gw && negb (gc_LastState gw =? reported (gc_Name gw))%string
  then with_state now (reported (gc_Name gw)) gw else gw.

Lemma asking_state name (st : GwState) : gs_configs (fsGatewayState env name st).2 = gs_configs st.
Proof. done. Qed.

Definition observe_id (gw g : GatewayConfig) : GatewayConfig := if gc_ID g =? gc_ID gw then observed g else g.

Lemma monitor_one_effect gw (st : GwState) : reports -> tbl_healthy (gs_configs st) -> ids_ok (cfgs st) -> gw ∈ cfgs st ->
  let out := (monitor_one env now gw : GM unit) st in
  out.1 = Ok tt /\ tbl_healthy (gs_configs out.2) /\ cfgs out.2 = map (observe_id gw) (cfgs st).
Proof.
  intros Hrep Hh Hid Hin.
  assert (forall f, (forall g, g ∈ cfgs st -> gc_ID g = gc_ID gw -> f g = observed gw) ->
    map (fun g => if gc_ID g =? gc_ID gw then f g else g) (cfgs st) = map (observe_id gw) (cfgs st)) as Hmap.
  { intros f Hf. apply map_ext_in. intros g Hg%list_elem_of_In. unfold observe_id.
    destruct (Z.eqb_spec (gc_ID g) (gc_ID gw)) as [Hi|]; [|done]. rewrite (Hf g Hg Hi).
    by rewrite (ids_ok_inj (cfgs st) g gw). }
  assert (observed gw = gw -> cfgs st = map (observe_id gw) (cfgs st)) as Hsame.
  { intros Ho. rewrite <- (Hmap id); [symmetry; etransitivity; [|apply map_id]; apply map_ext; intros g; by destruct (_ =? _)|].
    intros g Hg Hi. rewrite Ho. by apply (ids_ok_inj (cfgs st)). }
  unfold monitor_one, observed in *. destruct (registers env gw); simpl in *; [|auto].
  unfold mbind, gm_bind. pose proof (Hrep (gc_Name gw) st) as Hr. pose proof (asking_state (gc_Name gw) st) as Ha.
  destruct (fsGatewayState env (gc_Name gw) st) as [r s1]. simpl in *. subst r. unfold monitorTransition.
  destruct (gc_LastState gw =? reported (gc_Name gw))%string eqn:El; simpl in *.
  { split; [done|]. unfold cfgs in *. rewrite Ha. auto. }
  assert ((if (reported (gc_Name gw) =? "REGED")%string then (true, InfoLevel) else (true, WarnLevel)).1 = true) as -> by by case_match.
  unfold record_state. simpl. rewrite Ha. unfold cfgs in *. simpl.
  destruct (update_healthy (fun g => gc_ID g =? gc_ID gw) (with_state now (reported (gc_Name gw))) (gs_configs st) Hh) as (_ & Hu & Hh').
  split; [done|]. split; [done|]. rewrite Hu. apply Hmap. intros g Hg Hi. by rewrite (ids_ok_inj _ g gw Hid Hg Hin Hi).
Qed.

Lemma observed_id g : gc_ID (observed g) = gc_ID g.
Proof. unfold observed. by case_match. Qed.

Lemma observe_id_id gw g : gc_ID (observe_id gw g) = gc_ID g.
Proof. unfold observe_id. case_match; [apply observed_id|done]. Qed.

Lemma monitor_all_effect gws (st : GwState) : reports -> tbl_healthy (gs_configs st) -> ids_ok (cfgs st) ->
  (forall gw, gw ∈ gws -> gw ∈ cfgs st) -> NoDup (map gc_ID gws) ->
  cfgs ((monitor_all env now gws : GM unit) st).2 =
    map (fun g => if bool_decide (gc_ID g ∈ map gc_ID gws) then observed g else g) (cfgs st).
Proof.
  intros Hrep. revert st. induction gws as [|gw gws IH]; intros st Hh Hid Hin Hnd; cbn [monitor_all map].
  { symmetry. etransitivity; [|apply map_id]. apply map_ext. intros g. by rewrite bool_decide_eq_false_2 by apply not_elem_of_nil. }
  apply NoDup_cons in Hnd as [Hnew Hnd]. unfold mbind, gm_bind.
  destruct (monitor_one_effect gw st Hrep Hh Hid (Hin gw (list_elem_of_here _ _))) as (H1 & H2 & H3).
  destruct (monitor_one env now gw st) as [r s1]. simpl in *. subst r. rewrite IH; [|done| | |done].
  - rewrite H3, map_map. apply map_ext. intros g. rewrite observe_id_id. unfold observe_id.
    destruct (Z.eqb_spec (gc_ID g) (gc_ID gw)) as [Hi|Hi].
    + rewrite bool_decide_eq_false_2 by (by rewrite Hi). rewrite bool_decide_eq_true_2; [done|]. rewrite Hi. by left.
    + erewrite bool_decide_ext; [done|]. rewrite elem_of_cons. naive_solver.
  - unfold ids_ok. rewrite H3, map_map. erewrite map_ext; [exact Hid|]. intros g. apply observe_id_id.
  - intros g Hg. rewrite H3. apply list_elem_of_fmap. exists g. split; [|apply Hin; by right]. unfold observe_id.
    destruct (Z.eqb_spec (gc_ID g) (gc_ID gw)) as [Hi|]; [|done]. destruct Hnew. rewrite <- Hi. by apply (list_elem_of_fmap_2 gc_ID).
Qed.

(** One look at the gateways records, for each gateway that registers and
    reports another state than the one stored, the new state and the time, and
    changes no other row and no other column. *)
Theorem monitor_states_exact (st : GwState) : reports -> tbl_healthy (gs_configs st) -> ids_ok (cfgs st) ->
  cfgs ((monitor_states env now : GM unit) st).2 = map observed (cfgs st).
Proof.
  intros Hrep Hh Hid. unfold monitor_states, mbind, gm_bind, attempt, find_configs.
  destruct (find_healthy (fun _ => true) (gs_configs st) Hh) as (Hf & Hr & Hh').
  destruct (tbl_find _ _) as [o t]. simpl in *. subst o. rewrite filter_true.
  set (st1 := st <| gs_configs := t |>). assert (cfgs st1 = cfgs st) as Hc by exact Hr.
  rewrite monitor_all_effect; rewrite ?Hc; try done.
  apply map_ext_in. intros g Hg%list_elem_of_In. rewrite bool_decide_eq_true_2; [done|]. by apply (list_elem_of_fmap_2 gc_ID).
Qed.

End states.

(** ** Witnesses *)

Definition registering_env : GwEnv := {|
  ge_GatewayConfigDir := ""; ge_GatewayProfile := "";
  ge_api _ _ := Ok "State REGED"; ge_write _ _ := None; ge_unlink _ _ := None; ge_join d f := d +:+ "/" +:+ f;
  ge_xml_names _ := Ok [];
  ge_codec := {| cd_marshal _ := Ok ""; cd_unmarshal s := Ok {["register" := PBool (s =? "yes")%string]};
    cd_encrypt := Ok; cd_decrypt := Ok; cd_parse _ := Ok []; cd_execute body _ := Ok body; cd_well_formed _ := true |} |}.

Definition example_config (id : Z) (name register state : string) : GatewayConfig :=
  {| gc_ID := id; gc_Name := name; gc_TemplateID := 1; gc_Params := register; gc_EndpointID := 0;
     gc_LastState := state; gc_LastStateCheckedAt := None |}.

Definition monitored_state : GwState (TT := ListTable Tenant) (TN := ListTable TenantNumber) (TE := ListTable Endpoint)
    (TG := ListTable GatewayTemplate) (TC := ListTable GatewayConfig) :=
  toy_state <| gs_configs := fresh_table [example_config 1 "a" "yes" "FAILED"; example_config 2 "b" "no" "FAILED";
    example_config 3 "c" "yes" "REGED"] 4 [] |>.

Lemma monitor_states_exact_witness :
  map gc_LastState (cfgs (monitor_states registering_env second monitored_state).2) = ["REGED"; "FAILED"; "REGED"].
Proof.
  rewrite (monitor_states_exact registering_env second (fun _ => "REGED") monitored_state).
  - vm_compute. reflexivity.
  - intros name st. reflexivity.
  - reflexivity.
  - unfold ids_ok. apply (bool_decide_unpack _). vm_compute. reflexivity.
Defined.

(** Names that resolve, while the resolver answers. *)
Definition up_dns (h : string) : option (list string) := if (h =? "sip.example.org")%string then Some ["192.0.2.1"] else None.
Definition literal_only (h : string) : bool := has_prefix h "192.".

Definition hostname_tables : Tables (ListTable Tenant) (ListTable TenantNumber) (ListTable Endpoint) :=
  {| tb_tenants := fresh_table [] 1 []; tb_numbers := fresh_table [] 1 [];
     tb_endpoints := fresh_table [example_endpoint 1 "tenant" 1 "gateway" "pbx:sip.example.org" 0] 2 [] |}.

(** The monitor keeps the last good addresses through an outage; reloading the
    endpoints in the same outage drops them. *)
Example outage_refresh_and_reload :
  let st := (loadEndpoints literal_only up_dns (empty_directory, hostname_tables)).2 in
  is_ok (fsGatewayACL st.1 "192.0.2.1") = true /\
  is_ok (fsGatewayACL (refreshGatewayACLResolution literal_only no_dns st.1) "192.0.2.1") = true /\
  is_ok (fsGatewayACL (loadEndpoints literal_only no_dns st).2.1 "192.0.2.1") = false.
Proof. vm_compute. repeat split; reflexivity. Qed.

(** A reload between the snapshot of a refresh and its store is lost for the
    entries the snapshot did not have: the new gateway's address is refused. *)
Example refresh_overwrites_reload :
  let old := empty_directory <| d_GatewayEndpointsACL := ["sbc:192.0.2.7"] |> in
  let pending := refreshed literal_only up_dns (acl_snapshot old) in
  let new := (loadEndpoints literal_only up_dns (old, hostname_tables)).2.1 in
  is_ok (fsGatewayACL new "192.0.2.1") = true /\ is_ok (fsGatewayACL (store_resolved pending new) "192.0.2.1") = false.
Proof. vm_compute. repeat split; reflexivity. Qed.
