(* ===== verification/TempJanitor.v ===== *)
(** * TempJanitor: orphaned temp files ([gofaxserver/tempclean.go])

    A sweep of the temp directory. A directory is the list of its entries; what
    the operating system answers for an entry ([Info], [Remove]) is part of it.
    The ticker, logging and the creation of the directory are left out. *)

From S2P Require Import Prelude Config.

Definition tempFilePrefixes : list string := ["fax_"; "temp_"; "notify_"; "first_"].

Definition tempJanitorInterval : Z := 10 * minute.
Definition defaultTempMaxAge : Z := 24 * hour.

Definition tempMaxAge (cfg : FaxingConfig) : Z :=
  let s := trim_space (fc_TempMaxAge cfg) in
  if (s =? "")%string then defaultTempMaxAge
  else match ParseDuration s with Ok d => d | Err _ => defaultTempMaxAge end.

Record DirEntry := {
  de_Name : string;
  de_IsDir : bool;
  de_ModTime : option Z;     (* [None]: [Info] fails *)
  de_Removable : bool;       (* [os.Remove] succeeds *)
}.

(** The loop: how many files went, and what is left. *)
Fixpoint sweep_loop (cutoff : Z) (entries : list DirEntry) : Z * list DirEntry :=
  match entries with
  | [] => (0, [])
  | entry :: rest =>
      let '(removed, kept) := sweep_loop cutoff rest in
      if de_IsDir entry then (removed, entry :: kept)
      else if negb (existsb (has_prefix (de_Name entry)) tempFilePrefixes) then (removed, entry :: kept)
      else match de_ModTime entry with
           | None => (removed, entry :: kept)
           | Some t =>
               if cutoff <? t then (removed, entry :: kept)
               else if de_Removable entry then (removed + 1, kept)
               else (removed, entry :: kept)
           end
  end.

(** [now.Add(-maxAge)]: the negation of the smallest duration is itself. *)
Definition sweepTempDir (dir : option (list DirEntry)) (maxAge now : Z) : res (Z * list DirEntry) :=
  match dir with
  | None => Err "cannot read directory"
  | Some entries => Ok (sweep_loop (now + wrap64 (- maxAge)) entries)
  end.

(** [startTempJanitor] starts sweeping only then. *)
Definition janitor_enabled (cfg : FaxingConfig) : bool :=
  negb (fc_TempDir cfg =? "")%string && (0 <? tempMaxAge cfg).

(** The server's own file, at least [maxAge] old, that can be removed. *)
Definition orphan (maxAge now : Z) (e : DirEntry) : bool :=
  negb (de_IsDir e) && existsb (has_prefix (de_Name e)) tempFilePrefixes && de_Removable e &&
  match de_ModTime e with Some t => maxAge <=? now - t | None => false end.

Lemma sweep_loop_spec maxAge now entries :
  sweep_loop (now - maxAge) entries =
    (Z.of_nat (length (List.filter (orphan maxAge now) entries)),
     List.filter (fun e => negb (orphan maxAge now e)) entries).
Proof.
  induction entries as [|e l IH]; cbn [sweep_loop List.filter]; [done|]. rewrite IH.
  assert (forall t, (maxAge <=? now - t) = negb (now - maxAge <? t)) as Hage.
  { intros t. apply eq_true_iff_eq. rewrite negb_true_iff, Z.leb_le, Z.ltb_ge. lia. }
  destruct (orphan maxAge now e) eqn:E; unfold orphan in E; cbn [negb];
    destruct (de_IsDir e), (existsb _ _), (de_Removable e), (de_ModTime e) as [t|]; try done;
    cbn [negb andb] in *; try rewrite Hage in E; try destruct (now - maxAge <? t); try done.
  cbn [length]. f_equal. lia.
Qed.

Lemma ParseDuration_max s d : ParseDuration s = Ok d -> d <= int64_max.
Proof.
  unfold ParseDuration. destruct (duration_submatch s) as [[ds u]|]; [|done].
  destruct ds as [|c ds]; [done|]. destruct (atoi _) as [v|]; [|done].
  destruct (unit_of_char u) as [k|]; [|done]. intros [= <-]. apply wrap64_range.
Qed.

(** The sweeper removes exactly the orphans: of a directory it can read,
    with any configuration the janitor starts with, what is left is what was
    there minus the files the server itself created that are at least the
    configured age and can be removed, in order, and the count is right. *)
Theorem sweepTempDir_exact cfg entries now :
  janitor_enabled cfg = true ->
  sweepTempDir (Some entries) (tempMaxAge cfg) now =
    Ok (Z.of_nat (length (List.filter (orphan (tempMaxAge cfg) now) entries)),
        List.filter (fun e => negb (orphan (tempMaxAge cfg) now e)) entries).
Proof.
  unfold janitor_enabled. intros H. reflect_bools.
  assert (tempMaxAge cfg <= int64_max) as Hmax.
  { unfold tempMaxAge. cbv zeta. destruct (_ =? _)%string; [by vm_compute|].
    destruct (ParseDuration _) as [d|] eqn:E; [|by vm_compute]. by apply ParseDuration_max in E. }
  clear H. unfold sweepTempDir. set (m := tempMaxAge cfg) in *. clearbody m.
  rewrite wrap64_small by (unfold int64_min, int64_max in *; lia).
  rewrite Z.add_opp_r. by rewrite sweep_loop_spec.
Qed.

Definition example_dir : list DirEntry :=
  [{| de_Name := "fax_1.tiff"; de_IsDir := false; de_ModTime := Some 0; de_Removable := true |};
   {| de_Name := "fax_2.tiff"; de_IsDir := false; de_ModTime := Some (20 * hour); de_Removable := true |};
   {| de_Name := "freeswitch.tiff"; de_IsDir := false; de_ModTime := Some 0; de_Removable := true |};
   {| de_Name := "temp_3.pdf"; de_IsDir := false; de_ModTime := Some hour; de_Removable := true |}].

Lemma sweepTempDir_exact_witness :
  option_map (fun r => (r.1, map de_Name r.2))
    (res_option (sweepTempDir (Some example_dir) (tempMaxAge (zero_faxing <| fc_TempDir := "/tmp" |>)) (25 * hour)))
    = Some (2, ["fax_2.tiff"; "freeswitch.tiff"]).
Proof.
  rewrite (sweepTempDir_exact (zero_faxing <| fc_TempDir := "/tmp" |>)); [vm_compute; reflexivity|].
  vm_compute. reflexivity.
Defined.
